(* ===== verification/_CoqProject ===== *)
-Q . S2P
Prelude.v
Interfaces.v
Heap.v
HeapFacts.v
HeapOps.v
HeapProps.v
Mem.v
Phys.v
Task.v
TaskFacts.v
TaskProps.v
TaskTheorems.v
TaskExamples.v
Fat.v
FatDir.v
FatFile.v
FatNames.v
FatTable.v
FatData.v
FatIO.v
FatWrite.v
FatWriteProps.v
FatExamples.v
Net.v
NetFacts.v
NetSafe.v
NetProps.v
NetTheorems.v
NetStream.v
NetConfig.v
NetExamples.v
Input.v
InputProps.v
Pci.v
DevMem.v
VirtioBlk.v
VirtioProps.v
VirtioInit.v
VirtioDevice.v
Serial.v
Interrupts.v
InterruptsProps.v
Lapic.v
E1000.v
E1000Card.v
E1000Rings.v
E1000Props.v
E1000Theorems.v
E1000Init.v
E1000Start.v
E1000Nic.v
E1000Machine.v
Gfx.v
GfxProps.v
GfxTheorems.v
GfxBuffer.v
GfxSafe.v
Terminal.v
TerminalProps.v
TerminalClip.v
TerminalTheorems.v
TerminalRefine.v
TerminalRender.v
TerminalExamples.v
Browser.v
BrowserProps.v
BrowserResponse.v
BrowserTheorems.v
BrowserFetch.v
BrowserNet.v
BrowserView.v
BrowserExamples.v
Shell.v
ShellCommands.v
ShellKeys.v
ShellProps.v
FileManager.v
Desktop.v
DesktopProps.v
DesktopView.v
