(* ===== verification/Prelude.v ===== *)
(** * Fusion OS verification library: prelude and overview

    Fusion is a small x86_64 kernel in C ([src/src], [src/include]) booted by Limine
    ([src/limine-8.4.0], vendored).  This library models its kernel, its drivers and its
    services as pure functions and proves what they promise; the parts are the files below,
    in the order of [_CoqProject].

    ** How the model follows the code

    A C function is a definition of the same name, a static a field of a record.  Unsigned
    integers are [Z] with the wrap of their type written out ([u8] .. [u64] below); bytes are
    [list Z].  A function that can fault (an access outside its memory, a signed overflow, a
    [NULL] it does not test) or run for ever returns [res]: [Ret], [Fault] or [Spin]; stateful
    code is in the state monad [st] over [res].  A C loop without a bound of its own takes a
    budget, and [Spin] is an exhausted one: the theorems that say the code returns give a
    budget and exclude [Spin].  Loops along a FAT chain have the number of entries of the
    table (a chain without a cycle is no longer), those along the heap's list the number of
    headers stored (a walk visits each once), those that wait for a device the device's own
    latency ([vd_latency]), [e1000_poll] the frames not yet delivered ([poll_budget]), the DNS
    wait the three seconds of its deadline.

    ** The parts and how they interact

    - [Prelude]: integers, little-endian bytes, checked list access, the monads, automation, total-correctness
      triples for [st] (Section [Hoare]).
    - [Interfaces]: [Allocator] ([malloc]/[free]; [HeapMemory]: its arena), [BlockDev] (a disk), [Nic] (a network
      card), [PortIO] (I/O ports), [Bus] (ports and memory that devices share).  Clients are
      proved against these classes; the heap is an [Allocator] ([HeapProps]), the virtio driver
      a [BlockDev] ([VirtioInit]), the card's driver a [Nic] ([E1000Nic]).
    - [kernel/memory.c]: the heap in [Heap] (code), [HeapFacts] (the list of blocks a heap
      represents), [HeapOps] (each operation on it), [HeapProps] (theorems); the memory and
      string routines in [Mem]; the physical allocator, with the boot loader's memory map,
      [pmm_init] and the kernel's range from [kernel/main.c], in [Phys].
    - [kernel/task.c] with the switch [isr_vector_0xf0] of [kernel/interrupts.c]: [Task]
      (code), [TaskFacts] (the task table, its invariant), [TaskProps], [TaskTheorems],
      [TaskExamples].  Stacks come from an [Allocator]; the segment selectors, the addresses
      of code ([Image]), the calling processor and the clock are inputs.
    - [services/fs.c], FAT32 over a [BlockDev]: [Fat] (volume, table, names), [FatDir] (the
      directory walk), [FatFile] (files, the calls of [fs.h], sorting); [FatNames] (8.3 and
      long names), [FatTable] (the table as a map, chains), [FatData], [FatIO],
      [FatWrite], [FatWriteProps] (contents), [FatExamples] (a disk in memory).
    - [services/net.c] over a [Nic]: [Net] (code), [NetFacts], [NetSafe] (invariant),
      [NetProps] (reachability, termination), [NetTheorems] (the checksum on the wire),
      [NetStream] (TCP), [NetConfig] (ARP, DHCP, DNS), [NetExamples] (traffic).
    - [drivers/input.c] over [PortIO]: [Input], [InputProps].
    - [drivers/pci.c] over [PortIO] with configuration mechanism #1 ([PciConfig]): [Pci].
    - [DevMem]: what both drivers share, statics with memory and a bus ([driver]).
    - [drivers/virtio_blk.c] over [Bus]: [VirtioBlk] (code), [VirtioProps] (the
      device, [VirtioDisk], and requests), [VirtioInit] (set-up), [VirtioDevice] (a
      concrete machine).
    - [drivers/e1000.c] over [Bus]: [E1000] (code), [E1000Card] (the network card),
      [E1000Rings] (the rings as windows on two sequences of frames), [E1000Props] (calls of
      the driver), [E1000Theorems] (executions), [E1000Init] and [E1000Start] (set-up),
      [E1000Nic] (the interface to the network stack), [E1000Machine] (a concrete machine).
    - [drivers/serial.c], [services/log.c]: [Serial].
    - [kernel/interrupts.c] and part of [kernel/cpu.c]: [Interrupts] (code), [InterruptsProps]
      (with [Pic], the two 8259 controllers, and a machine that has them).
    - [kernel/lapic.c] and the rest of [kernel/cpu.c], over a processor ([Cpu]) and its timer
      ([ApicTimer]): [Lapic].
    - [drivers/gfx.c] over the byte memory of [Mem] and the heap: [Gfx] (code, font),
      [GfxProps] (calls against pictures), [GfxTheorems] (sequences of calls), [GfxBuffer]
      (the back buffer), [GfxSafe] (reachability, a concrete screen).
    - [ui/terminal.c] over [Mem], the heap and [Gfx]: [Terminal] (code), [TerminalProps] (the
      ring of rows as a page of lines), [TerminalClip] (copying), [TerminalTheorems] and
      [TerminalRefine] (the specification and the refinement), [TerminalRender] (pixels),
      [TerminalExamples].

    - [apps/browser.c] over the network stack, drawing as a list of calls: [Browser] (code),
      [BrowserProps] (HTML to text in place), [BrowserResponse] (chunks, headers),
      [BrowserTheorems], [BrowserFetch] (the loops of a fetch), [BrowserNet] (the fetch over
      the network stack), [BrowserView] (drawing), [BrowserExamples] (a page).
    - [apps/shell.c] over the file system and the allocator, its calls of the terminal
      recorded: [Shell] (paths, words), [ShellCommands] (every command), [ShellKeys] (history,
      completion, the line), [ShellProps] (theorems).
    - [apps/file_manager.c] over the calls of [fs.h]: [FileManager].
    - [ui/desktop.c] over the applications ([Apps], a class with the calls the desktop makes
      of them): [Desktop] (windows, launcher, settings, mouse, keys), [DesktopProps] (its
      invariant and operations; runs with the real shell and file manager), [DesktopView]
      (drawing and the loop).

    The boot order composes them as [_start] does: the heap, physical memory, input, the
    network, the file system over the virtio disk, interrupts, the local APIC, then the
    tasks, one of which is the loop of the desktop.

    ** What the theorems show

    - Invariants: from its initial state on, every sequence of operations keeps the heap
      ([heap_reachable_safe]), the scheduler, timer ticks included ([sched_reachable_safe]),
      and the network stack, on any traffic with a sane IPv4 length ([net_reachable_safe])
      well formed, and every operation returns; the input rings, whose code is a program of
      accesses to the ring, are FIFO queues under any interleaving of the accesses of the
      interrupt handler and of the reader ([ring_spsc]).
    - Memory: [malloc] returns fresh disjoint memory, the best fit; [free], [realloc] and the
      coalescing of free blocks; [phys_alloc] hands out disjoint ranges outside the kernel;
      [memcpy], [memmove] and the string routines against list functions.
    - Scheduling: the interrupt switches contexts without losing one ([context_switch_correct]),
      in every execution a waiting task runs after one of the next 64 scheduling interrupts
      ([task_pick_fair]), what start-up builds on a new task's stack.
    - Storage: what [fat_write_file] writes [fat_read_file] reads back, and all bytes that
      are not of the file stay, in every copy of the FAT ([file_write_read]); allocation and
      freeing on the table as a map; a long name that is created is the name that is found
      and listed ([lfn_roundtrip]).  The virtio driver refines a disk over a device of three
      to eight entries that keeps its used ring right behind the available ring; over one
      that aligns it to 4096, as the legacy interface documents, every request hangs
      ([virtio_refines_disk]); its initialisation works on every device.
    - Network: TCP delivers a prefix of the peer's stream whatever arrives; what was sent is
      sent again until it is acknowledged or data comes in ([tcp_retransmit_correct]); the
      DHCP handshake, DNS query and answer, ARP cache, termination of the resolver.
    - Network card: accepted frames go out unchanged and in order, received ones are
      delivered once, with every interleaving of driver, card and network ([e1000_queues]);
      set-up brings both rings up.
    - Screen: every pixel after any drawing is as its picture says, presenting copies exactly
      what is asked ([gfx_double_buffering]), the buffer drawn to is always valid
      ([gfx_reachable_safe]); the terminal refines a page of lines with a clipboard
      ([terminal_refines_page]), copy and paste round-trip for lines with a blank last
      column, rendering shows the page.
    - Browser: no response makes it read or write outside its buffers, a Content-Length of
      2^31 or more apart ([browser_response_safe]); the page of a well-formed one is its text
      ([browser_shows_page]); every fetch ends ([browser_fetch_returns]), HTML is rewritten in
      place as it would be into a second buffer ([browser_html_in_place]).
    - Shell and file manager: a path the shell resolves names, for the file system, what was
      typed ([resolve_path_correct]); the line of the terminal's page ([TerminalTheorems])
      shows the prompt and the command, for lines shorter than the page is wide
      ([shell_line_echoed]); completion gives the longest common text; the file manager
      stays inside its arrays whatever the disk holds ([file_manager_safe]).
    - Desktop: on any keys, mouse events and counters every turn of the loop returns and
      windows, focus and launcher stay well formed, no coordinate overflowing for 2^23
      presses of the button ([desktop_loop_runs]; moving and resizing a window can make it
      grow by a few pixels at every press, so there is no bound for ever); a press brings
      the right window to the front, the launcher finds what is asked and opens it, the
      pointer is erased where it was drawn.
    - Devices: the PCI scan against a list of functions; the vector of every interrupt, and
      that only those of timer and keyboard arrive ([interrupts_init_routes]);
      what is typed is what is read; the rate of the local timer is measured to one tick in
      sixty ([lapic_calibrate_correct]).

    Some theorems and examples state what the code does where that is a defect: the byte
    order of the stored IPv4 checksum, the closed cascade of the interrupt controllers, a
    long name lost, the transmit ring that stalls when it is full, the stack left by
    [task_build_stack], the lost wake-up of [task_sleep] on two processors, the shell that
    goes on writing to the terminal of its window's old slot, the hidden window that keeps
    the keys, the click beside the launcher that opens an application.

    ** Not modelled

    Limine is third-party: its memory map is an input.  Instructions without a meaning for
    the statements ([cli], [hlt], [lidt], segment loads) are left out, and the memory models
    of several processors are represented only by the interleavings stated.  The events and
    counters the desktop reads in a turn of its loop are inputs of that turn.  Of
    [kernel/main.c] the model has physical memory and the start of the tasks; its boot
    requests, the switch of stacks and the start of the other processors belong to the boot
    protocol and to assembly.  [services/storage.c] is a constant table that nothing reads,
    [ui/wm.c] is not part of the build, and the headers' prototypes have no content. *)
From Stdlib Require Export ZArith Lia.
From Stdlib Require String Ascii.
Export Stdlib.Strings.String.StringSyntax.
From stdpp Require Export base option numbers strings gmap list.
#[export] Set Default Proof Using "Type".
#[global] Open Scope Z_scope.
(** [lia] decides [/] and [mod] by constants. *)
#[global] Ltac Zify.zify_post_hook ::= Z.to_euclidean_division_equations.

(** ** Machine integers

    A C unsigned integer of [w] bits is a [Z] in [0, 2^w); every operation that
    can leave the range is followed by the wrap of its type. *)
Definition u8 (z : Z) : Z := z mod 2 ^ 8.
Definition u16 (z : Z) : Z := z mod 2 ^ 16.
Definition u32 (z : Z) : Z := z mod 2 ^ 32.
Definition u64 (z : Z) : Z := z mod 2 ^ 64.

Definition is_u8 (z : Z) : Prop := 0 <= z < 2 ^ 8.
Definition is_u16 (z : Z) : Prop := 0 <= z < 2 ^ 16.
Definition is_u32 (z : Z) : Prop := 0 <= z < 2 ^ 32.
Definition is_u64 (z : Z) : Prop := 0 <= z < 2 ^ 64.

Lemma u8_range z : is_u8 (u8 z).
Proof. apply Z.mod_pos_bound. lia. Qed.
Lemma u16_range z : is_u16 (u16 z).
Proof. apply Z.mod_pos_bound. lia. Qed.
Lemma u32_range z : is_u32 (u32 z).
Proof. apply Z.mod_pos_bound. lia. Qed.
Lemma u64_range z : is_u64 (u64 z).
Proof. apply Z.mod_pos_bound. lia. Qed.

Lemma u8_id z : is_u8 z -> u8 z = z.
Proof. apply Z.mod_small. Qed.
Lemma u16_id z : is_u16 z -> u16 z = z.
Proof. apply Z.mod_small. Qed.
Lemma u32_id z : is_u32 z -> u32 z = z.
Proof. apply Z.mod_small. Qed.
Lemma u64_id z : is_u64 z -> u64 z = z.
Proof. apply Z.mod_small. Qed.

Create HintDb word discriminated.
#[export] Hint Resolve u8_range u16_range u32_range u64_range : word.

(** [word_lia] reduces wraps of in-range arguments and calls [lia]. *)
Ltac word_lia :=
  unfold is_u8, is_u16, is_u32, is_u64, u8, u16, u32, u64 in *;
  Z.div_mod_to_equations; lia.

(** Case analysis on every integer test of the goal. *)
Ltac leb_cases :=
  repeat match goal with
  | |- context [?a <=? ?b] => destruct (Z.leb_spec a b)
  | |- context [?a <? ?b] => destruct (Z.ltb_spec a b)
  | |- context [?a =? ?b] => destruct (Z.eqb_spec a b)
  end; cbn [andb orb negb].

(** ** Outcomes of C code

    [Ret a] is a normal return, [Fault] undefined behaviour (a dereference of
    memory the code does not own, a write past the end of a buffer), [Spin] an
    exhausted loop budget.  Every theorem about a looping routine shows that the
    budget its definition uses is never exhausted. *)
Inductive res (A : Type) : Type :=
  | Ret (a : A)
  | Fault
  | Spin.
Arguments Ret {A} a.
Arguments Fault {A}.
Arguments Spin {A}.

#[export] Instance res_ret : MRet res := fun A a => Ret a.
#[export] Instance res_bind : MBind res := fun A B f m =>
  match m with Ret a => f a | Fault => Fault | Spin => Spin end.

Definition of_option {A} (o : option A) : res A :=
  match o with Some a => Ret a | None => Fault end.

Lemma res_bind_ret {A B} (m : res A) (f : A -> res B) b :
  (m ≫= f) = Ret b <-> exists a, m = Ret a /\ f a = Ret b.
Proof.
  destruct m as [a| |]; simpl; split.
  - intros H; exists a; auto.
  - intros (a' & [= ->] & H); exact H.
  - intros [=].
  - intros (? & [=] & _).
  - intros [=].
  - intros (? & [=] & _).
Qed.

(** Rewriting with [m = Ret a] under a bind, without unfolding [m]. *)
Lemma bind_ret {A B} (m : res A) (a : A) (f : A -> res B) : m = Ret a -> (m ≫= f) = f a.
Proof. by intros ->. Qed.

Lemma of_option_ret {A} (o : option A) a : of_option o = Ret a <-> o = Some a.
Proof. destruct o; simpl; split; congruence. Qed.

(** ** Signed integers: an operation out of the range of [int] is undefined; a conversion
    to [int] wraps. *)
Definition int_ok (x : Z) : res Z := if (- 2 ^ 31 <=? x) && (x <? 2 ^ 31) then Ret x else Fault.
Definition i32 (z : Z) : Z := (z + 2 ^ 31) mod 2 ^ 32 - 2 ^ 31.
Definition is_int (x : Z) : Prop := - 2 ^ 31 <= x < 2 ^ 31.

Lemma int_ok_ret x : is_int x -> int_ok x = Ret x.
Proof. intros [H1 H2]. unfold int_ok. by rewrite (proj2 (Z.leb_le _ _) H1), (proj2 (Z.ltb_lt _ _) H2). Qed.
(** A signed operation whose result is in range. *)
Ltac int_step :=
  match goal with
  | |- context [int_ok ?e ≫= _] => rewrite (bind_ret (int_ok e) e) by (apply int_ok_ret; unfold is_int in *; lia)
  end.
Lemma i32_id z : is_int z -> i32 z = z.
Proof. unfold i32, is_int. lia. Qed.

(** [res_inv] inverts hypotheses [m ≫= f = Ret b]. *)
Ltac res_inv :=
  repeat match goal with
  | H : (_ ≫= _) = Ret _ |- _ =>
      apply res_bind_ret in H; destruct H as (? & ? & H)
  | H : Ret _ = Ret _ |- _ => injection H as H; try subst
  | H : Fault = Ret _ |- _ => discriminate H
  | H : Spin = Ret _ |- _ => discriminate H
  | H : of_option _ = Ret _ |- _ => apply of_option_ret in H
  end.

(** ** Rounding by masks *)
Lemma land_high_mask x k n :
  0 <= k <= n -> 0 <= x < 2 ^ n -> Z.land x (2 ^ n - 2 ^ k) = x - x mod 2 ^ k.
Proof.
  intros Hk Hx.
  replace (2 ^ n - 2 ^ k) with (Z.shiftl (Z.ones (n - k)) k).
  2:{ rewrite Z.shiftl_mul_pow2, Z.ones_equiv by lia.
      replace n with ((n - k) + k) at 2 by lia.
      rewrite Z.pow_add_r by lia. lia. }
  assert (x - x mod 2 ^ k = Z.shiftl (Z.shiftr x k) k) as ->.
  { rewrite Z.shiftl_mul_pow2, Z.shiftr_div_pow2 by lia.
    pose proof (Z.div_mod x (2 ^ k) ltac:(lia)). lia. }
  assert (Z.land (Z.shiftr x k) (Z.ones (n - k)) = Z.shiftr x k) as Hs.
  { rewrite Z.land_ones by lia. apply Z.mod_small.
    rewrite Z.shiftr_div_pow2 by lia.
    split; [apply Z.div_pos; lia |].
    apply Z.div_lt_upper_bound; [lia |].
    rewrite <- Z.pow_add_r by lia. replace (k + (n - k)) with n by lia. lia. }
  rewrite <- Hs, Z.shiftl_land.
  apply Z.bits_inj'. intros i Hi.
  rewrite !Z.land_spec, !Z.shiftl_spec by lia.
  destruct (decide (i < k)).
  - rewrite (Z.testbit_neg_r (Z.ones _)) by lia. by rewrite !andb_false_r.
  - rewrite Z.shiftr_spec by lia. by replace (i - k + k) with i by lia.
Qed.

(** [|] of fields that do not overlap is a sum. *)
Lemma lor_shiftl a b n : 0 <= n -> 0 <= a < 2 ^ n -> Z.lor a (Z.shiftl b n) = a + b * 2 ^ n.
Proof.
  intros Hn Ha. rewrite <- Z.add_nocarry_lor; [by rewrite Z.shiftl_mul_pow2 |].
  apply Z.bits_inj'. intros i Hi. rewrite Z.bits_0, Z.land_spec.
  destruct (decide (i < n)).
  - rewrite Z.shiftl_spec_low by done. apply andb_false_r.
  - rewrite <- (Z.mod_small a (2 ^ n)) by done.
    rewrite Z.mod_pow2_bits_high by lia. done.
Qed.

(** ** Little-endian bytes *)
Fixpoint le_bytes (n : nat) (v : Z) : list Z :=
  match n with O => [] | S n => v mod 256 :: le_bytes n (v / 256) end.
Fixpoint le_num (l : list Z) : Z :=
  match l with [] => 0 | b :: l => b + 256 * le_num l end.

Lemma length_le_bytes n v : length (le_bytes n v) = n.
Proof. revert v; induction n as [|n IH]; intros v; simpl; [done | by rewrite IH]. Qed.

Lemma le_bytes_u8 n v : Forall is_u8 (le_bytes n v).
Proof.
  revert v; induction n as [|n IH]; intros v; simpl; constructor; [| done].
  unfold is_u8. lia.
Qed.

Lemma le_num_range l : Forall is_u8 l -> 0 <= le_num l < 256 ^ Z.of_nat (length l).
Proof.
  induction 1 as [|b l Hb _ IH]; simpl length; simpl le_num; [lia |].
  unfold is_u8 in Hb. rewrite Nat2Z.inj_succ, Z.pow_succ_r by lia. lia.
Qed.

Lemma le_bytes_num l : Forall is_u8 l -> le_bytes (length l) (le_num l) = l.
Proof.
  induction 1 as [|b l Hb _ IH]; simpl; [done |]. unfold is_u8 in Hb.
  replace ((b + 256 * le_num l) mod 256) with b by lia.
  replace ((b + 256 * le_num l) / 256) with (le_num l) by lia. by rewrite IH.
Qed.

Lemma le_num_bytes n v : le_num (le_bytes n v) = v mod 256 ^ Z.of_nat n.
Proof.
  revert v; induction n as [|n IH]; intros v; cbn [le_bytes le_num].
  - rewrite Z.mod_1_r. done.
  - rewrite IH, Nat2Z.inj_succ, Z.pow_succ_r by lia.
    rewrite Z.rem_mul_r by lia. lia.
Qed.

(** ** Arrays indexed by a C integer; an index out of range is undefined *)
Definition zget {A} (l : list A) (i : Z) : res A :=
  if 0 <=? i then of_option (l !! Z.to_nat i) else Fault.
Definition zset {A} (l : list A) (i : Z) (x : A) : res (list A) :=
  if (0 <=? i) && (i <? Z.of_nat (length l)) then Ret (<[Z.to_nat i := x]> l) else Fault.

Lemma zget_ok {A} (l : list A) i x :
  zget l i = Ret x <-> 0 <= i /\ l !! Z.to_nat i = Some x.
Proof.
  unfold zget. destruct (Z.leb_spec 0 i).
  - rewrite of_option_ret. tauto.
  - split; [discriminate | lia].
Qed.

Lemma zget_nat {A} (l : list A) (i : nat) x : l !! i = Some x -> zget l (Z.of_nat i) = Ret x.
Proof. intros H. apply zget_ok. rewrite Nat2Z.id. split; [lia | done]. Qed.

Lemma zset_nat {A} (l : list A) (i : nat) x :
  (i < length l)%nat -> zset l (Z.of_nat i) x = Ret (<[i := x]> l).
Proof.
  intros H. unfold zset. rewrite (proj2 (Z.leb_le _ _)), (proj2 (Z.ltb_lt _ _)) by lia.
  cbn [andb]. by rewrite Nat2Z.id.
Qed.

Lemma zset_ok {A} (l : list A) i x l' :
  zset l i x = Ret l' <-> 0 <= i < Z.of_nat (length l) /\ l' = <[Z.to_nat i := x]> l.
Proof.
  unfold zset. destruct (Z.leb_spec 0 i), (Z.ltb_spec i (Z.of_nat (length l))); cbn [andb];
    split; try (intros [? _]; lia); try discriminate.
  - intros [= <-]. split; [lia | done].
  - intros [_ ->]. done.
Qed.
Arguments zget : simpl never.
Arguments zset : simpl never.

(** ** Stateful code: a state monad over [res] *)
Definition st (S A : Type) : Type := S -> res (A * S).
#[export] Instance st_ret S : MRet (st S) := fun A a s => Ret (a, s).
#[export] Instance st_bind S : MBind (st S) := fun A B f m s => '(a, s) ← m s; f a s.

Definition st_get {S} : st S S := fun s => Ret (s, s).
Definition st_modify {S} (f : S -> S) : st S () := fun s => Ret ((), f s).
Definition st_lift {S A} (m : res A) : st S A := fun s => a ← m; Ret (a, s).

Definition st_spin {S A} : st S A := fun _ => Spin.

Lemma st_bind_ret {S A B} (m : st S A) (f : A -> st S B) s a s' :
  m s = Ret (a, s') -> (m ≫= f) s = f a s'.
Proof. intros H. unfold mbind, st_bind. by rewrite H. Qed.

(** ** Byte buffers *)
(** [memcpy(buf + off, bs, n)] inside the buffer. *)
Definition splice {A} (buf : list A) (off : Z) (bs : list A) : list A :=
  take (Z.to_nat off) buf ++ bs ++ drop (Z.to_nat off + length bs) buf.
(** [n] elements from [off]. *)
Definition slice {A} (off n : Z) (l : list A) : list A := take (Z.to_nat n) (drop (Z.to_nat off) l).
Definition byte_at (l : list Z) (i : Z) : Z := default 0 (l !! Z.to_nat i).
(** A C string stored in a buffer: up to the first NUL. *)
Fixpoint c_str (l : list Z) : list Z :=
  match l with
  | [] => []
  | c :: l => if c =? 0 then [] else c :: c_str l
  end.
Definition str_eqb (a b : list Z) : bool := bool_decide (a = b).

Lemma splice_length {A} (buf : list A) off bs :
  0 <= off -> off + Z.of_nat (length bs) <= Z.of_nat (length buf) ->
  length (splice buf off bs) = length buf.
Proof.
  intros H1 H2. unfold splice. rewrite !length_app, length_take, length_drop. lia.
Qed.

Lemma splice_lookup {A} (buf : list A) off bs (i : nat) :
  0 <= off -> off + Z.of_nat (length bs) <= Z.of_nat (length buf) ->
  splice buf off bs !! i =
    if decide (off <= Z.of_nat i < off + Z.of_nat (length bs))
    then bs !! Z.to_nat (Z.of_nat i - off) else buf !! i.
Proof.
  intros H1 H2. unfold splice.
  assert (length (take (Z.to_nat off) buf) = Z.to_nat off) as Hl by (rewrite length_take; lia).
  destruct (decide (Z.of_nat i < off)).
  - rewrite decide_False by lia. rewrite lookup_app_l, lookup_take_lt by lia. done.
  - rewrite lookup_app_r by lia. rewrite Hl. case_decide.
    + rewrite lookup_app_l by lia. f_equal. lia.
    + rewrite lookup_app_r by lia. rewrite lookup_drop. f_equal. lia.
Qed.

Lemma splice_Forall {A} (P : A -> Prop) buf off bs :
  Forall P buf -> Forall P bs -> Forall P (splice buf off bs).
Proof.
  intros H1 H2. unfold splice. apply Forall_app. split; [by apply Forall_take |].
  apply Forall_app. split; [done | by apply Forall_drop].
Qed.

Lemma byte_at_splice buf off bs i :
  0 <= off -> off + Z.of_nat (length bs) <= Z.of_nat (length buf) -> 0 <= i ->
  byte_at (splice buf off bs) i =
    if decide (off <= i < off + Z.of_nat (length bs)) then byte_at bs (i - off) else byte_at buf i.
Proof.
  intros H1 H2 H3. unfold byte_at. rewrite splice_lookup by done. rewrite Z2Nat.id by done.
  by case_decide.
Qed.

Lemma byte_at_u8 l i : Forall is_u8 l -> is_u8 (byte_at l i).
Proof.
  intros Hl. unfold byte_at. destruct (l !! Z.to_nat i) as [b|] eqn:E; cbn.
  - by eapply Forall_lookup_1.
  - unfold is_u8. lia.
Qed.

Lemma byte_at_slice l off n i : 0 <= off -> 0 <= i < n ->
  byte_at (slice off n l) i = byte_at l (off + i).
Proof.
  intros H1 H2. unfold byte_at, slice. rewrite lookup_take_lt, lookup_drop by lia.
  f_equal. f_equal. lia.
Qed.

(** Distinct numbers below a bound are no more than the bound. *)
Lemma nodup_bounded_length (l : list Z) (n : Z) :
  NoDup l -> Forall (fun c => 0 <= c < n) l -> (length l <= Z.to_nat n)%nat.
Proof.
  intros Hnd Hb. rewrite <- (length_seqZ 0 n). apply submseteq_length, NoDup_submseteq; [done |].
  intros x Hx. rewrite elem_of_seqZ. rewrite Forall_forall in Hb. specialize (Hb x Hx). lia.
Qed.

(** ** Total-correctness triples for the state monad

    [triple P m Q]: from every state with [P] the computation [m] returns (no fault,
    no exhausted budget), with a value and a state for which [Q] holds. *)
Section Hoare.
Context {S : Type}.

Definition triple {A} (P : S -> Prop) (m : st S A) (Q : A -> S -> Prop) : Prop :=
  forall s, P s -> exists a s', m s = Ret (a, s') /\ Q a s'.

Lemma triple_ret {A} (P : S -> Prop) (a : A) (Q : A -> S -> Prop) :
  (forall s, P s -> Q a s) -> triple P (mret a) Q.
Proof. intros H s Hs. exists a, s. split; [reflexivity | by apply H]. Qed.

Lemma triple_bind {A B} P (m : st S A) (f : A -> st S B) R Q :
  triple P m R -> (forall a, triple (R a) (f a) Q) -> triple P (m ≫= f) Q.
Proof.
  intros Hm Hf s Hs. destruct (Hm s Hs) as (a & s1 & E & Hr). rewrite (st_bind_ret _ _ _ _ _ E). by apply Hf.
Qed.

Lemma triple_conseq {A} (P P' : S -> Prop) (m : st S A) (Q Q' : A -> S -> Prop) :
  triple P' m Q' -> (forall s, P s -> P' s) -> (forall a s, Q' a s -> Q a s) -> triple P m Q.
Proof.
  intros Hm HP HQ s Hs. destruct (Hm s (HP s Hs)) as (a & s1 & E & Hr). exists a, s1. split; [done | by apply HQ].
Qed.

Lemma triple_pre {A} (P P' : S -> Prop) (m : st S A) (Q : A -> S -> Prop) :
  triple P' m Q -> (forall s, P s -> P' s) -> triple P m Q.
Proof. intros Hm HP. by eapply triple_conseq. Qed.

Lemma triple_post {A} (P : S -> Prop) (m : st S A) (Q Q' : A -> S -> Prop) :
  triple P m Q' -> (forall a s, Q' a s -> Q a s) -> triple P m Q.
Proof. intros Hm HQ. by eapply triple_conseq. Qed.

(** A pure computation that returns a value with [R]. *)
Lemma triple_lift {A} P (m : res A) (R : A -> Prop) (Q : A -> S -> Prop) :
  (exists a, m = Ret a /\ R a) -> (forall a s, P s -> R a -> Q a s) -> triple P (st_lift m) Q.
Proof.
  intros (a & -> & Ha) H s Hs. exists a, s. split; [reflexivity | by apply H].
Qed.

Lemma triple_lift_bind {A B} P (m : res A) (R : A -> Prop) (f : A -> st S B) Q :
  (exists a, m = Ret a /\ R a) -> (forall a, R a -> triple P (f a) Q) -> triple P (st_lift m ≫= f) Q.
Proof.
  intros Hm Hf. apply (triple_bind P _ _ (fun a s => P s /\ R a)).
  - eapply triple_lift; [exact Hm | done].
  - intros a s [Hs Ha]. by apply Hf.
Qed.

Lemma triple_seq {A B} P (m : st S A) (f : A -> st S B) P' Q :
  triple P m (fun _ => P') -> (forall a, triple P' (f a) Q) -> triple P (m ≫= f) Q.
Proof. intros Hm Hf. by eapply triple_bind. Qed.

Lemma triple_if {A} (b : bool) P (m1 m2 : st S A) Q :
  (b = true -> triple P m1 Q) -> (b = false -> triple P m2 Q) -> triple P (if b then m1 else m2) Q.
Proof. destruct b; auto. Qed.

Lemma triple_run {A} P (m : st S A) Q s a s' : triple P m Q -> P s -> m s = Ret (a, s') -> Q a s'.
Proof. intros Hm Hs E. destruct (Hm s Hs) as (a1 & s1 & E1 & Hq). rewrite E in E1. by injection E1 as -> ->. Qed.
End Hoare.

(** ** Text: C string literals as lists of bytes *)

(** The bytes of a literal, without the NUL at its end. *)
Definition txt (s : String.string) : list Z := (fun c => Z.of_N (Ascii.N_of_ascii c)) <$> String.list_ascii_of_string s.
Arguments txt s%_string.
Definition CRLF : list Z := [13; 10].
