(* ===== verification/Interfaces.v ===== *)
(** * Interfaces between the components

    What a component promises to the components that call it.  The clients'
    theorems are proved against these classes; the implementing file discharges
    the laws with an [Instance]. *)
From S2P Require Import Prelude.

(** ** Memory allocation ([kernel/memory.h]: [malloc], [free])

    [a_live] is the contract's view of the allocator: the live allocations, by
    address, with their usable size. *)
Class Allocator (A : Type) := {
  a_malloc : Z -> A -> res (option Z * A);
  a_free : option Z -> A -> res A;
  a_ok : A -> Prop;
  a_live : A -> gmap Z Z;
  (** Total on every size up to the last multiple of 8; a failed call changes nothing. *)
  a_malloc_ok size a :
    a_ok a -> 0 < size <= 2 ^ 64 - 8 ->
    exists r a', a_malloc size a = Ret (r, a') /\ a_ok a' /\
      match r with
      | None => a_live a' = a_live a
      | Some p => a_live a !! p = None /\
                  exists n, size <= n /\ a_live a' = <[p := n]> (a_live a)
      end;
  (** Freeing a live allocation removes exactly it. *)
  a_free_ok p a :
    a_ok a -> is_Some (a_live a !! p) ->
    exists a', a_free (Some p) a = Ret a' /\ a_ok a' /\ a_live a' = delete p (a_live a);
  (** [free(NULL)] does nothing. *)
  a_free_null a : a_free None a = Ret a;
  a_disjoint a p n q m :
    a_ok a -> a_live a !! p = Some n -> a_live a !! q = Some m -> p <> q ->
    p + n <= q \/ q + m <= p;
}.

(** The allocator's memory: an arena of addresses, none of them [NULL], in which every
    allocation lies. *)
Class HeapMemory (A : Type) `{!Allocator A} := {
  hm_lo : Z;
  hm_hi : Z;
  hm_pos : 0 < hm_lo;
  hm_in a p n : a_ok a -> a_live a !! p = Some n -> hm_lo <= p /\ p + n <= hm_hi;
}.

(** ** Block devices ([drivers/virtio_blk.h]: [virtio_blk_read], [virtio_blk_write]
    of one 512-byte sector)

    [bd_view] is the contents of the disk by sector, [bd_cap] its size. *)
Class BlockDev (D : Type) := {
  bd_read : Z -> D -> option (list Z) * D;
  bd_write : Z -> list Z -> D -> bool * D;
  bd_ok : D -> Prop;
  bd_cap : D -> Z;
  bd_view : D -> Z -> list Z;
  (** Inside the disk a read returns the sector and changes nothing visible. *)
  bd_read_ok lba d : bd_ok d -> 0 <= lba < bd_cap d ->
    exists d', bd_read lba d = (Some (bd_view d lba), d') /\ bd_ok d' /\
      bd_cap d' = bd_cap d /\ forall x, bd_view d' x = bd_view d x;
  (** Inside the disk a write replaces exactly its sector. *)
  bd_write_ok lba b d : bd_ok d -> 0 <= lba < bd_cap d -> length b = 512%nat ->
    Forall is_u8 b ->
    exists d', bd_write lba b d = (true, d') /\ bd_ok d' /\ bd_cap d' = bd_cap d /\
      forall x, bd_view d' x = if decide (x = lba) then b else bd_view d x;
  (** Sectors are 512 bytes. *)
  bd_sector d lba : bd_ok d -> length (bd_view d lba) = 512%nat /\ Forall is_u8 (bd_view d lba);
}.

(** ** Network cards ([drivers/e1000.h]: [e1000_send])

    [nic_log] is the sequence of frames handed to the card. *)
Class Nic (N : Type) := {
  nic_send : list Z -> N -> bool * N;
  nic_log : N -> list (list Z);
  (** A frame that fits the buffers is either refused or handed over as it is. *)
  nic_send_log f n : 0 < Z.of_nat (length f) <= 2048 ->
    let (ok, n') := nic_send f n in nic_log n' = if ok then nic_log n ++ [f] else nic_log n;
}.

(** ** I/O ports ([kernel/cpu.h]: [inb], [inw], [inl], [outb], [outw], [outl])

    The devices behind the ports are a state of their own; the first argument is the
    width of the access in bytes. *)
Class PortIO (P : Type) := {
  port_in : Z -> Z -> P -> Z * P;
  port_out : Z -> Z -> Z -> P -> P;
  (** A read gives a value of its width. *)
  port_in_range w port p : 1 <= w <= 4 -> 0 <= (port_in w port p).1 < 256 ^ w;
}.

(** ** The bus: ports, memory and the registers of devices in memory

    Addresses are physical.  [ram] is the contents of memory by byte; a device may change
    it when its ports are accessed.  Memory is read and written little-endian. *)
Class Bus (B : Type) := {
  bus_ports :: PortIO B;
  is_ram : Z -> Prop;
  ram : B -> Z -> Z;
  mem_load : Z -> Z -> B -> Z * B;
  mem_store : Z -> Z -> Z -> B -> B;
  ram_u8 b a : is_u8 (ram b a);
  load_ram w a b : (forall x, a <= x < a + w -> is_ram x) ->
    mem_load w a b = (le_num (ram b <$> seqZ a w), b);
  store_ram w a v b x : (forall y, a <= y < a + w -> is_ram y) -> is_ram x ->
    ram (mem_store w a v b) x = if decide (a <= x < a + w) then v / 256 ^ (x - a) mod 256 else ram b x;
}.
