(* ===== verification/Heap.v ===== *)
(** * The kernel heap ([src/src/kernel/memory.c], [malloc] .. [free]).

    The allocator keeps a singly linked list of block headers inside the static
    array [heap].  A pointer into [heap] is its byte offset in the array, [NULL]
    is [None].  [hdrs] holds the headers stored in the array by their offset; a
    header absorbed by [heap_coalesce] stays in the array (and in [hdrs]) as
    dead bytes, as in C.  [payload] holds the bytes of the blocks' payloads;
    payload accesses outside the block the pointer designates are [Fault].

    This file holds the code; [HeapFacts] the list of blocks a heap represents,
    [HeapOps] the effect of each operation on it, [HeapProps] the theorems. *)
From S2P Require Import Prelude.

(** ** The code *)

Definition HEAP_SIZE : Z := 32 * 1024 * 1024.
(** [sizeof(block_t)]: [size_t] (8), [bool] padded to 8, pointer (8). *)
Definition sizeof_block : Z := 24.

Record block := Block {
  size_of : Z;
  is_free : bool;
  next : option Z;
}.

Record heap := Heap {
  hdrs : gmap Z block;
  heap_start : option Z;
  heap_allocated : Z;
  heap_freed : Z;
  heap_blocks : Z;
  payload : gmap Z Z;
}.

Definition set_hdr (a : Z) (b : block) (h : heap) : heap :=
  Heap (<[a := b]> (hdrs h)) (heap_start h) (heap_allocated h) (heap_freed h)
       (heap_blocks h) (payload h).
Definition set_allocated (n : Z) (h : heap) : heap :=
  Heap (hdrs h) (heap_start h) n (heap_freed h) (heap_blocks h) (payload h).
Definition set_freed (n : Z) (h : heap) : heap :=
  Heap (hdrs h) (heap_start h) (heap_allocated h) n (heap_blocks h) (payload h).
Definition set_blocks (n : Z) (h : heap) : heap :=
  Heap (hdrs h) (heap_start h) (heap_allocated h) (heap_freed h) n (payload h).
Definition set_payload (m : gmap Z Z) (h : heap) : heap :=
  Heap (hdrs h) (heap_start h) (heap_allocated h) (heap_freed h) (heap_blocks h) m.

(** The statics before [heap_init]. *)
Definition heap_statics : heap := Heap ∅ None 0 0 0 ∅.

(** [heap_blocks] is assigned; the other two counters keep their values. *)
Definition heap_init (h : heap) : heap :=
  Heap (<[0 := Block (HEAP_SIZE - sizeof_block) true None]> (hdrs h)) (Some 0)
       (heap_allocated h) (heap_freed h) 1 (payload h).

(** Loop budget: a walk along [next] visits distinct headers. *)
Definition walk_fuel (h : heap) : nat := S (size (hdrs h)).

Fixpoint coalesce_loop (fuel : nat) (h : heap) (current : option Z) : res heap :=
  match current with
  | None => Ret h
  | Some c =>
      b ← of_option (hdrs h !! c);
      match next b with
      | None => Ret h
      | Some n =>
          match fuel with
          | O => Spin
          | S fuel =>
              nb ← of_option (hdrs h !! n);
              if is_free b && is_free nb then
                let b' := Block (u64 (size_of b + (sizeof_block + size_of nb)))
                                (is_free b) (next nb) in
                coalesce_loop fuel
                  (set_blocks (u64 (heap_blocks h - 1)) (set_hdr c b' h)) (Some c)
              else coalesce_loop fuel h (Some n)
          end
      end
  end.

Definition heap_coalesce (h : heap) : res heap :=
  coalesce_loop (walk_fuel h) h (heap_start h).

(** [size = (size + 7) & ~7]; the [int] constant [~7] converts to [2^64 - 8]. *)
Definition align8 (size : Z) : Z := Z.land (u64 (size + 7)) (2 ^ 64 - 8).

(** The best-fit walk, with its early exit on an exact fit. *)
Fixpoint best_fit (fuel : nat) (h : heap) (size : Z) (current best : option Z)
    : res (option Z) :=
  match current with
  | None => Ret best
  | Some c =>
      match fuel with
      | O => Spin
      | S fuel =>
          b ← of_option (hdrs h !! c);
          if is_free b && (size <=? size_of b) then
            better ← (match best with
                      | None => Ret true
                      | Some a => bb ← of_option (hdrs h !! a);
                                  Ret (size_of b <? size_of bb)
                      end : res bool);
            if (better : bool) then
              if size_of b =? size then Ret (Some c)
              else best_fit fuel h size (next b) (Some c)
            else best_fit fuel h size (next b) best
          else best_fit fuel h size (next b) best
      end
  end.

Definition malloc (size : Z) (h : heap) : res (option Z * heap) :=
  if size =? 0 then Ret (None, h) else
  let size := align8 size in
  best ← best_fit (walk_fuel h) h size (heap_start h) None;
  match best with
  | None => Ret (None, h)
  | Some a =>
      b ← of_option (hdrs h !! a);
      let h1 :=
        if u64 (size + sizeof_block + 8) <=? size_of b then
          let n := a + sizeof_block + size in
          let h := set_hdr n (Block (u64 (size_of b - size - sizeof_block)) true
                                    (next b)) h in
          let h := set_hdr a (Block size (is_free b) (Some n)) h in
          set_blocks (u64 (heap_blocks h + 1)) h
        else h in
      b1 ← of_option (hdrs h1 !! a);
      let h2 := set_hdr a (Block (size_of b1) false (next b1)) h1 in
      let h3 := set_allocated (u64 (heap_allocated h2 + size_of b1)) h2 in
      Ret (Some (a + sizeof_block), h3)
  end.

(** Payload accesses: [p .. p+n) must lie in the block whose payload starts at [p]. *)
Definition block_holds (p n : Z) (h : heap) : bool :=
  match hdrs h !! (p - sizeof_block) with
  | Some b => (0 <=? n) && (n <=? size_of b)
  | None => false
  end.

Fixpoint fill_bytes (p c : Z) (n : nat) (m : gmap Z Z) : gmap Z Z :=
  match n with
  | O => m
  | S n => fill_bytes (p + 1) c n (<[p := c]> m)
  end.

Fixpoint copy_bytes (dst src : Z) (n : nat) (m : gmap Z Z) : gmap Z Z :=
  match n with
  | O => m
  | S n => copy_bytes (dst + 1) (src + 1) n (partial_alter (fun _ => m !! src) dst m)
  end.

Definition payload_set (p c n : Z) (h : heap) : res heap :=
  if block_holds p n h
  then Ret (set_payload (fill_bytes p c (Z.to_nat n) (payload h)) h)
  else Fault.

Definition payload_copy (dst src n : Z) (h : heap) : res heap :=
  if block_holds dst n h && block_holds src n h
  then Ret (set_payload (copy_bytes dst src (Z.to_nat n) (payload h)) h)
  else Fault.

Definition calloc (nmemb size : Z) (h : heap) : res (option Z * heap) :=
  if (nmemb =? 0) || (size =? 0) then Ret (None, h) else
  if (2 ^ 64 - 1) / nmemb <? size then Ret (None, h) else
  let total := u64 (nmemb * size) in
  '(ptr, h1) ← malloc total h;
  match ptr with
  | Some p => h2 ← payload_set p 0 total h1; Ret (ptr, h2)
  | None => Ret (None, h1)
  end.

Definition free (ptr : option Z) (h : heap) : res heap :=
  match ptr with
  | None => Ret h
  | Some p =>
      let a := p - sizeof_block in
      b ← of_option (hdrs h !! a);
      let h1 := set_hdr a (Block (size_of b) true (next b)) h in
      let h2 := set_freed (u64 (heap_freed h1 + size_of b)) h1 in
      heap_coalesce h2
  end.

(** The three exits of [realloc]: shrink in place, grow into the next free
    block, move. *)
Definition realloc_shrink (a size : Z) (b : block) (h : heap) : res heap :=
  if u64 (size + sizeof_block + 8) <=? size_of b then
    let n := a + sizeof_block + size in
    let h := set_hdr n (Block (u64 (size_of b - size - sizeof_block)) true (next b)) h in
    let h := set_hdr a (Block size (is_free b) (Some n)) h in
    let h := set_blocks (u64 (heap_blocks h + 1)) h in
    let h := set_freed (u64 (heap_freed h + (size_of b - size))) h in
    heap_coalesce h
  else Ret h.

Definition realloc_grow (a size : Z) (b nb : block) (h : heap) : heap :=
  let old_size := size_of b in
  let merged := u64 (old_size + sizeof_block + size_of nb) in
  let h := set_hdr a (Block merged (is_free b) (next nb)) h in
  let h := set_blocks (u64 (heap_blocks h - 1)) h in
  let h :=
    if u64 (size + sizeof_block + 8) <=? merged then
      let n := a + sizeof_block + size in
      let h := set_hdr n (Block (u64 (merged - size - sizeof_block)) true (next nb)) h in
      let h := set_hdr a (Block size (is_free b) (Some n)) h in
      set_blocks (u64 (heap_blocks h + 1)) h
    else h in
  if old_size <? size
  then set_allocated (u64 (heap_allocated h + (size - old_size))) h
  else h.

Definition realloc_move (p size old_size : Z) (h : heap) : res (option Z * heap) :=
  '(new_ptr, h1) ← malloc size h;
  match new_ptr with
  | None => Ret (None, h1)
  | Some q =>
      h2 ← payload_copy q p (if old_size <? size then old_size else size) h1;
      h3 ← free (Some p) h2;
      Ret (new_ptr, h3)
  end.

Definition realloc (ptr : option Z) (size : Z) (h : heap) : res (option Z * heap) :=
  match ptr with
  | None => malloc size h
  | Some p =>
      if size =? 0 then h1 ← free ptr h; Ret (None, h1) else
      let size := align8 size in
      let a := p - sizeof_block in
      b ← of_option (hdrs h !! a);
      if size <=? size_of b then
        h1 ← realloc_shrink a size b h;
        Ret (ptr, h1)
      else
        nb ← (match next b with
              | None => Ret None
              | Some n => x ← of_option (hdrs h !! n); Ret (Some x)
              end : res (option block));
        match nb with
        | Some nb =>
            if is_free nb && (size <=? u64 (size_of b + sizeof_block + size_of nb))
            then Ret (Some (a + sizeof_block), realloc_grow a size b nb h)
            else realloc_move p size (size_of b) h
        | None => realloc_move p size (size_of b) h
        end
  end.

Arguments malloc : simpl never.
Arguments calloc : simpl never.
Arguments free : simpl never.
Arguments realloc : simpl never.
Arguments heap_coalesce : simpl never.
Arguments realloc_move : simpl never.
