(* ===== verification/HeapFacts.v ===== *)
(** * The heap as a list of blocks

    [repr h l]: the headers reachable from [heap_start] are exactly the blocks
    [l], laid out back to back over the whole array.  Each loop of [Heap] is
    related to a structural function on the list. *)
From S2P Require Import Prelude Heap.

(** ** Block lists *)
Abbreviation blk := (Z * bool)%type.

Fixpoint extent (l : list blk) : Z :=
  match l with [] => 0 | b :: l => sizeof_block + b.1 + extent l end.

Definition link (p : Z) (l : list blk) (q : option Z) : option Z :=
  match l with [] => q | _ => Some p end.

(** The blocks [l] are chained from offset [p]; the last one points to [q]. *)
Fixpoint seg (m : gmap Z block) (p : Z) (l : list blk) (q : option Z) : Prop :=
  match l with
  | [] => True
  | b :: l =>
      let p' := p + sizeof_block + b.1 in
      m !! p = Some (Block b.1 b.2 (link p' l q)) /\ seg m p' l q
  end.

Definition good_blk (b : blk) : Prop := 0 <= b.1 /\ b.1 mod 8 = 0.

Record repr (h : heap) (l : list blk) : Prop := {
  repr_start : heap_start h = Some 0;
  repr_seg : seg (hdrs h) 0 l None;
  repr_extent : extent l = HEAP_SIZE;
  repr_good : Forall good_blk l;
  repr_blocks : heap_blocks h = Z.of_nat (length l);
}.

(** No two neighbours are both free. *)
Fixpoint coalesced (l : list blk) : Prop :=
  match l with
  | [] => True
  | b :: l => match l with
              | [] => True
              | b' :: _ => b.2 && b'.2 = false
              end /\ coalesced l
  end.

(** Live allocations: payload offset to payload size. *)
Fixpoint allocs_from (p : Z) (l : list blk) : gmap Z Z :=
  match l with
  | [] => ∅
  | b :: l =>
      let r := allocs_from (p + sizeof_block + b.1) l in
      if b.2 then r else <[p + sizeof_block := b.1]> r
  end.
Definition allocs (l : list blk) : gmap Z Z := allocs_from 0 l.

(** Bytes held by allocated blocks. *)
Fixpoint used (l : list blk) : Z :=
  match l with [] => 0 | b :: l => (if b.2 then 0 else b.1) + used l end.

(** [heap_coalesce] on the list: [(s, f)] is the block under [current]. *)
Fixpoint squash_from (s : Z) (f : bool) (l : list blk) : list blk :=
  match l with
  | [] => [(s, f)]
  | (s', f') :: l =>
      if f && f' then squash_from (s + (sizeof_block + s')) f l
      else (s, f) :: squash_from s' f' l
  end.
Definition squash (l : list blk) : list blk :=
  match l with [] => [] | (s, f) :: l => squash_from s f l end.

(** The best-fit walk on the list. *)
Fixpoint best_fit_list (size p : Z) (l : list blk) (best : option (Z * Z))
    : option (Z * Z) :=
  match l with
  | [] => best
  | (s, f) :: l =>
      let p' := p + sizeof_block + s in
      if f && (size <=? s) && match best with None => true | Some (_, bs) => s <? bs end
      then if s =? size then Some (p, s) else best_fit_list size p' l (Some (p, s))
      else best_fit_list size p' l best
  end.

(** A block of [s] bytes after [malloc] of [a] bytes took it. *)
Definition carve (a s : Z) : list blk :=
  if a + sizeof_block + 8 <=? s
  then [(a, false); (s - a - sizeof_block, true)] else [(s, false)].

(** ** Extents *)
Lemma extent_app l1 l2 : extent (l1 ++ l2) = extent l1 + extent l2.
Proof. induction l1 as [|b l1 IH]; simpl; lia. Qed.

Lemma extent_nonneg l : Forall good_blk l -> 0 <= extent l.
Proof.
  induction 1 as [|b l [H _] _ IH]; simpl; unfold sizeof_block; lia.
Qed.

Lemma extent_length l : Forall good_blk l -> Z.of_nat (length l) * sizeof_block <= extent l.
Proof.
  induction 1 as [|b l [H _] _ IH]; simpl; unfold sizeof_block in *; lia.
Qed.

Lemma extent_div8 l : Forall good_blk l -> extent l mod 8 = 0.
Proof.
  induction 1 as [|b l [_ H] _ IH]; cbn [extent]; unfold sizeof_block; lia.
Qed.

Lemma link_app p l1 l2 q :
  link p (l1 ++ l2) q = link p l1 (link (p + extent l1) l2 q).
Proof. destruct l1; simpl; [by rewrite Z.add_0_r | done]. Qed.

Lemma link_None p l q : link p l q = None -> l = [] /\ q = None.
Proof. destruct l; simpl; [auto | discriminate]. Qed.

(** ** Chains *)
Lemma seg_app m p l1 l2 q :
  seg m p (l1 ++ l2) q <->
  seg m p l1 (link (p + extent l1) l2 q) /\ seg m (p + extent l1) l2 q.
Proof.
  revert p; induction l1 as [|b l1 IH]; intros p; simpl.
  - rewrite Z.add_0_r. tauto.
  - rewrite IH, link_app.
    replace (p + sizeof_block + b.1 + extent l1)
      with (p + (sizeof_block + b.1 + extent l1)) by lia. tauto.
Qed.

Lemma seg_agree m m' p l q :
  Forall good_blk l ->
  (forall a, p <= a < p + extent l -> m' !! a = m !! a) ->
  seg m p l q -> seg m' p l q.
Proof.
  revert p; induction l as [|b l IH]; intros p Hg Ha; simpl; [done |].
  intros [H1 H2]. inversion Hg as [|? ? [Hb _] Hl]; subst.
  pose proof (extent_nonneg _ Hl). simpl in Ha.
  unfold sizeof_block in *. split.
  - rewrite Ha by lia. done.
  - apply IH; [done | | done]. intros a ?. apply Ha. lia.
Qed.

Lemma seg_insert m p l q a b :
  Forall good_blk l -> a < p \/ p + extent l <= a ->
  seg m p l q -> seg (<[a := b]> m) p l q.
Proof.
  intros Hg Ha. apply seg_agree; [done |].
  intros x Hx. rewrite lookup_insert_ne; [done | lia].
Qed.

(** Offsets of the headers of a chain. *)
Fixpoint offsets (p : Z) (l : list blk) : list Z :=
  match l with [] => [] | b :: l => p :: offsets (p + sizeof_block + b.1) l end.

Lemma offsets_ge p l x : Forall good_blk l -> x ∈ offsets p l -> p <= x.
Proof.
  revert p; induction l as [|b l IH]; intros p Hg; simpl.
  - by rewrite elem_of_nil.
  - inversion Hg as [|? ? [Hb _] Hl]; subst. rewrite elem_of_cons.
    intros [-> | Hx]; [lia |]. apply IH in Hx; [| done]. unfold sizeof_block in *; lia.
Qed.

Lemma offsets_NoDup p l : Forall good_blk l -> NoDup (offsets p l).
Proof.
  revert p; induction l as [|b l IH]; intros p Hg; simpl; [constructor |].
  inversion Hg as [|? ? [Hb _] Hl]; subst. constructor; [| by apply IH].
  intros Hx. apply offsets_ge in Hx; [| done]. unfold sizeof_block in *; lia.
Qed.

Lemma offsets_length p l : length (offsets p l) = length l.
Proof. revert p; induction l as [|b l IH]; intros p; simpl; [done | by rewrite IH]. Qed.

Lemma seg_offsets m p l q : seg m p l q -> list_to_set (offsets p l) ⊆ dom m.
Proof.
  revert p; induction l as [|b l IH]; intros p; simpl; [set_solver |].
  intros [H1 H2]. apply IH in H2. apply elem_of_dom_2 in H1.
  apply union_subseteq. split; [by apply singleton_subseteq_l | done].
Qed.

(** The walk budget covers every chain. *)
Lemma seg_length m p l q :
  Forall good_blk l -> seg m p l q -> (length l <= size m)%nat.
Proof.
  intros Hg Hs. rewrite <- (offsets_length p l), <- size_dom.
  rewrite <- (size_list_to_set (C := gset Z)) by by apply offsets_NoDup.
  apply subseteq_size. by eapply seg_offsets.
Qed.

(** ** Live allocations *)
Lemma allocs_app p l1 l2 :
  allocs_from p (l1 ++ l2) = allocs_from p l1 ∪ allocs_from (p + extent l1) l2.
Proof.
  revert p; induction l1 as [|b l1 IH]; intros p; simpl.
  - by rewrite Z.add_0_r, (left_id_L ∅ (∪)).
  - rewrite IH.
    replace (p + sizeof_block + b.1 + extent l1)
      with (p + (sizeof_block + b.1 + extent l1)) by lia.
    destruct b.2; [done |]. by rewrite insert_union_l.
Qed.

Lemma allocs_range p l x n :
  Forall good_blk l -> allocs_from p l !! x = Some n ->
  p + sizeof_block <= x /\ x + n <= p + extent l /\ 0 <= n /\ n mod 8 = 0.
Proof.
  revert p; induction l as [|b l IH]; intros p Hg; simpl; [by rewrite lookup_empty |].
  inversion Hg as [|? ? [Hb Hd] Hl]; subst.
  pose proof (extent_nonneg _ Hl). unfold sizeof_block in *.
  destruct b.2.
  - intros (? & ? & ? & ?)%IH; [| done]. repeat split; (lia || done).
  - destruct (decide (p + 24 = x)) as [<- | Hne].
    + rewrite lookup_insert_eq. intros [= <-]. repeat split; (lia || done).
    + rewrite lookup_insert_ne by done.
      intros (? & ? & ? & ?)%IH; [| done]. repeat split; (lia || done).
Qed.

Lemma allocs_split p l x n :
  allocs_from p l !! x = Some n ->
  exists l1 l2, l = l1 ++ (n, false) :: l2 /\ x = p + extent l1 + sizeof_block.
Proof.
  revert p; induction l as [|[s f] l IH]; intros p; simpl; [by rewrite lookup_empty |].
  assert (allocs_from (p + sizeof_block + s) l !! x = Some n ->
    exists l1 l2, (s, f) :: l = l1 ++ (n, false) :: l2 /\ x = p + extent l1 + sizeof_block)
    as Hrec.
  { intros (l1 & l2 & -> & ->)%IH. exists ((s, f) :: l1), l2. simpl. split; [done | lia]. }
  destruct f; [done |].
  destruct (decide (p + sizeof_block = x)) as [<- | Hne].
  - rewrite lookup_insert_eq. intros [= <-]. exists [], l. simpl. split; [done | lia].
  - by rewrite lookup_insert_ne.
Qed.

(** The header of a live block is in place. *)
Lemma repr_lookup h l1 s f l2 :
  repr h (l1 ++ (s, f) :: l2) ->
  hdrs h !! extent l1 = Some (Block s f (link (extent l1 + sizeof_block + s) l2 None)).
Proof. intros [_ H _ _ _]. apply seg_app in H as [_ H]. simpl in H. by destruct H. Qed.

Lemma allocs_cons_out p l x :
  Forall good_blk l -> x < p + sizeof_block -> allocs_from p l !! x = None.
Proof.
  intros Hg Hx. destruct (allocs_from p l !! x) eqn:E; [| done].
  apply allocs_range in E; [lia | done].
Qed.

Lemma allocs_app_out p l x :
  Forall good_blk l -> p + extent l <= x -> allocs_from p l !! (x + sizeof_block) = None.
Proof.
  intros Hg Hx. destruct (allocs_from p l !! (x + sizeof_block)) eqn:E; [| done].
  apply allocs_range in E; [unfold sizeof_block in *; lia | done].
Qed.

(** Distinct live allocations do not overlap, headers included. *)
Lemma allocs_disjoint l p n q m :
  Forall good_blk l -> allocs l !! p = Some n -> allocs l !! q = Some m -> p <> q ->
  p + n <= q - sizeof_block \/ q + m <= p - sizeof_block.
Proof.
  unfold allocs. generalize 0 as o.
  induction l as [|[s f] l IH]; intros o Hg; simpl; [by rewrite lookup_empty |].
  inversion Hg as [|? ? Hb Hl]; subst. intros Hp Hq Hne.
  destruct f; [by eapply IH |].
  rewrite lookup_insert in Hp, Hq.
  destruct (decide (o + sizeof_block = p)), (decide (o + sizeof_block = q)); simplify_eq.
  - left. apply allocs_range in Hq; [lia | done].
  - right. apply allocs_range in Hp; [lia | done].
  - by eapply IH.
Qed.

(** The list seen from one live allocation. *)
Lemma allocs_replace l1 s f l2 mid :
  Forall good_blk (l1 ++ (s, f) :: l2) -> extent mid = sizeof_block + s ->
  Forall good_blk mid ->
  allocs (l1 ++ mid ++ l2) =
    allocs_from 0 l1 ∪ (allocs_from (extent l1) mid ∪
                        allocs_from (extent l1 + sizeof_block + s) l2).
Proof.
  intros Hg He Hm. unfold allocs. rewrite !allocs_app, He. simpl.
  by rewrite Z.add_assoc.
Qed.

(** ** [heap_coalesce] *)
Lemma squash_from_cons s f l : exists s' l', squash_from s f l = (s', f) :: l'.
Proof.
  revert s f; induction l as [|[s' f'] l IH]; intros s f; simpl; [eauto |].
  destruct (f && f') eqn:E; [| eauto]. apply IH.
Qed.

Lemma link_squash p s f l q : link p (squash_from s f l) q = Some p.
Proof. destruct (squash_from_cons s f l) as (? & ? & ->). done. Qed.

Lemma extent_squash_from s f l :
  extent (squash_from s f l) = sizeof_block + s + extent l.
Proof.
  revert s f; induction l as [|[s' f'] l IH]; intros s f; simpl; [lia |].
  destruct (f && f'); simpl; rewrite IH; lia.
Qed.

Lemma extent_squash l : extent (squash l) = extent l.
Proof. destruct l as [|[s f] l]; simpl; [done |]. by rewrite extent_squash_from. Qed.

Lemma good_merge s s' : good_blk (s, true) -> good_blk (s', true) ->
  good_blk (s + (sizeof_block + s'), true).
Proof.
  unfold good_blk, sizeof_block. simpl. lia.
Qed.

Lemma good_squash_from s f l :
  good_blk (s, f) -> Forall good_blk l -> Forall good_blk (squash_from s f l).
Proof.
  revert s f; induction l as [|[s' f'] l IH]; intros s f Hs Hl; simpl.
  - by constructor.
  - inversion Hl; subst. destruct (f && f') eqn:E; [| by constructor; auto].
    apply andb_prop in E as [-> ->]. apply IH; [by apply good_merge | done].
Qed.

Lemma good_squash l : Forall good_blk l -> Forall good_blk (squash l).
Proof.
  destruct l as [|[s f] l]; simpl; [done |].
  inversion 1; subst. by apply good_squash_from.
Qed.

Lemma squash_from_coalesced s f l : coalesced (squash_from s f l).
Proof.
  revert s f; induction l as [|[s' f'] l IH]; intros s f; simpl; [done |].
  destruct (f && f') eqn:E; [apply IH |]. simpl. split; [| apply IH].
  destruct (squash_from_cons s' f' l) as (? & ? & ->). done.
Qed.

Lemma squash_coalesced l : coalesced (squash l).
Proof. destruct l as [|[s f] l]; [done |]. apply squash_from_coalesced. Qed.

Lemma squash_id l : coalesced l -> squash l = l.
Proof.
  destruct l as [|[s f] l]; simpl; [done |].
  revert s f; induction l as [|[s' f'] l IH]; intros s f; simpl; [done |].
  intros [-> H]. by rewrite IH.
Qed.

Lemma allocs_squash_from p s f l :
  allocs_from p (squash_from s f l) = allocs_from p ((s, f) :: l).
Proof.
  revert p s f; induction l as [|[s' f'] l IH]; intros p s f; simpl; [done |].
  destruct (f && f') eqn:E; simpl; rewrite IH; simpl; [| done].
  apply andb_prop in E as [-> ->].
  by replace (p + sizeof_block + (s + (sizeof_block + s')))
    with (p + sizeof_block + s + sizeof_block + s') by lia.
Qed.

Lemma allocs_squash l : allocs (squash l) = allocs l.
Proof. destruct l as [|[s f] l]; [done |]. apply allocs_squash_from. Qed.

Lemma used_squash_from s f l : used (squash_from s f l) = used ((s, f) :: l).
Proof.
  revert s f; induction l as [|[s' f'] l IH]; intros s f; simpl; [done |].
  destruct (f && f') eqn:E; simpl; rewrite IH; simpl; [| done].
  apply andb_prop in E as [-> ->]. lia.
Qed.

Lemma used_squash l : used (squash l) = used l.
Proof. destruct l as [|[s f] l]; [done |]. apply used_squash_from. Qed.

Lemma used_app l1 l2 : used (l1 ++ l2) = used l1 + used l2.
Proof. induction l1; simpl; lia. Qed.

Lemma used_bounds l : Forall good_blk l -> 0 <= used l <= extent l.
Proof.
  induction 1 as [|b l [H _] _ IH]; simpl; unfold sizeof_block; [lia |].
  destruct b.2; lia.
Qed.

Lemma length_squash_from s f l :
  (1 <= length (squash_from s f l) <= S (length l))%nat.
Proof.
  revert s f; induction l as [|[s' f'] l IH]; intros s f; simpl; [lia |].
  destruct (f && f'); simpl; [specialize (IH (s + (sizeof_block + s')) f)
                             | specialize (IH s' f')]; lia.
Qed.

(** The header map after the walk: what the list function says on the chain,
    nothing elsewhere. *)
Lemma coalesce_loop_spec l : forall fuel h c s f,
  seg (hdrs h) c ((s, f) :: l) None ->
  Forall good_blk ((s, f) :: l) -> 0 <= c ->
  c + extent ((s, f) :: l) <= HEAP_SIZE ->
  (length l <= fuel)%nat ->
  Z.of_nat (S (length l)) <= heap_blocks h < 2 ^ 64 ->
  exists m',
    coalesce_loop fuel h (Some c) =
      Ret (Heap m' (heap_start h) (heap_allocated h) (heap_freed h)
             (heap_blocks h - Z.of_nat (S (length l))
                + Z.of_nat (length (squash_from s f l))) (payload h)) /\
    seg m' c (squash_from s f l) None /\
    (forall a, a < c \/ c + extent ((s, f) :: l) <= a -> m' !! a = hdrs h !! a).
Proof.
  induction l as [|[s' f'] l IH]; intros fuel h c s f Hseg Hg Hc He Hf Hb.
  - destruct Hseg as [H1 _]. simpl in H1. exists (hdrs h). simpl.
    destruct fuel; simpl; rewrite H1; simpl; (split; [| split; [split; done | done]]);
      f_equal; destruct h; simpl; f_equal; lia.
  - destruct Hseg as (H1 & H2 & H3). simpl in H1, H2, H3.
    inversion Hg as [|? ? Hs Hg']; subst. inversion Hg' as [|? ? Hs' Hg'']; subst.
    pose proof (extent_nonneg _ Hg'') as Hx. simpl in He.
    destruct Hs as [Hs0 Hs1], Hs' as [Hs0' Hs1']. simpl in Hs0, Hs1, Hs0', Hs1'.
    destruct fuel as [|fuel]; [simpl in Hf; lia |].
    simpl. rewrite H1. simpl. rewrite H2. simpl.
    destruct (f && f') eqn:Eff.
    + apply andb_prop in Eff as [-> ->].
      rewrite !u64_id
        by (cbn [length] in Hb; unfold is_u64, HEAP_SIZE, sizeof_block in *; lia).
      edestruct (IH fuel (set_blocks (heap_blocks h - 1) (set_hdr c
                   (Block (s + (sizeof_block + s')) true
                      (link (c + sizeof_block + s + sizeof_block + s') l None)) h))
                   c (s + (sizeof_block + s')) true) as (m' & -> & Hseg' & Hout).
      * simpl. rewrite lookup_insert_eq.
        replace (c + sizeof_block + (s + (sizeof_block + s')))
          with (c + sizeof_block + s + sizeof_block + s') by lia.
        split; [done |]. apply seg_insert; [done | | done]. unfold sizeof_block; lia.
      * constructor; [by apply good_merge | done].
      * done.
      * simpl. lia.
      * simpl in Hf. lia.
      * cbn [length heap_blocks set_blocks] in Hb |- *. lia.
      * exists m'. split; [| split; [done |]].
        { simpl. do 2 f_equal. lia. }
        intros a Ha. rewrite Hout by (simpl in Ha |- *; lia). simpl.
        rewrite lookup_insert_ne; [done |].
        simpl in Ha. unfold sizeof_block in *. lia.
    + edestruct (IH fuel h (c + sizeof_block + s) s' f') as (m' & -> & Hseg' & Hout);
        try done; try (cbn [length extent fst] in Hf, Hb |- *; unfold sizeof_block in *; lia).
      exists m'. split; [| split].
      * simpl. do 2 f_equal. lia.
      * simpl. rewrite link_squash, Hout by (unfold sizeof_block; lia). by split.
      * intros a Ha. apply Hout. simpl in Ha |- *. unfold sizeof_block in *. lia.
Qed.

(** ** The best-fit walk *)
Lemma best_fit_refine h size l : forall fuel p best,
  seg (hdrs h) p l None -> (length l < fuel)%nat ->
  (forall a s, best = Some (a, s) -> exists b, hdrs h !! a = Some b /\ size_of b = s) ->
  best_fit fuel h size (link p l None) (fst <$> best) =
    Ret (fst <$> best_fit_list size p l best).
Proof.
  induction l as [|[s f] l IH]; intros fuel p best Hseg Hf Hb; simpl.
  - destruct fuel; [lia | done].
  - destruct fuel as [|fuel]; [lia |]. destruct Hseg as [H1 H2]. simpl in H1, H2, Hf.
    simpl. rewrite H1. simpl.
    assert (forall best', (best' = best \/ best' = Some (p, s)) ->
      best_fit fuel h size (link (p + sizeof_block + s) l None) (fst <$> best') =
      Ret (fst <$> best_fit_list size (p + sizeof_block + s) l best')) as Hstep.
    { intros best' Hbest. apply IH; [done | lia |]. intros a x ->.
      destruct Hbest as [<- | [= -> ->]]; [by apply Hb | eauto]. }
    destruct (f && (size <=? s)); [simpl | by apply (Hstep best); left].
    destruct best as [[a bs]|]; simpl.
    + destruct (Hb a bs eq_refl) as (b & -> & <-). simpl.
      destruct (s <? size_of b); simpl; [| by apply (Hstep (Some (a, size_of b))); left].
      destruct (s =? size); [done |]. by apply (Hstep (Some (p, s))); right.
    + destruct (s =? size); [done |]. by apply (Hstep (Some (p, s))); right.
Qed.

Definition fits (size : Z) (b : blk) : Prop := b.2 = true /\ size <= b.1.

(** The walk returns the first smallest block that fits. *)
Lemma best_fit_list_spec size l : forall p best,
  (forall a s, best = Some (a, s) -> size <= s) ->
  match best_fit_list size p l best with
  | None => best = None /\ Forall (fun b => ~ fits size b) l
  | Some (a, s) =>
      (forall a' s', best = Some (a', s') -> s <= s') /\
      Forall (fun b => fits size b -> s <= b.1) l /\ size <= s /\
      (best = Some (a, s) \/
       exists l1 l2, l = l1 ++ (s, true) :: l2 /\ a = p + extent l1)
  end.
Proof.
  induction l as [|[s f] l IH]; intros p best Hb; simpl.
  - destruct best as [[a s]|]; [| done].
    split; [by intros ? ? [= <- <-] |]. split; [constructor |].
    split; [by eapply Hb | by left].
  - destruct (f && (size <=? s) && _) eqn:E.
    + apply andb_prop in E as [[-> E1]%andb_prop E2].
      assert (forall a' s', best = Some (a', s') -> s <= s') as Hle.
      { intros a' s' ->. lia. }
      destruct (s =? size) eqn:Es.
      * split; [done |]. split; [| split; [lia |]].
        { constructor; [by intros _ |]. apply Forall_true. intros x [_ ?]. lia. }
        right. exists [], l. simpl. split; [done | lia].
      * assert (forall a' s', Some (p, s) = Some (a', s') -> size <= s') as Hb'
          by (intros ? ? [= <- <-]; lia).
        specialize (IH (p + sizeof_block + s) (Some (p, s)) Hb').
        destruct (best_fit_list _ _ _ _) as [[a x]|]; [| by destruct IH as [[=] _]].
        destruct IH as (H1 & H2 & H3 & H4).
        pose proof (H1 p s eq_refl).
        split; [intros a' s' Ha; specialize (Hle a' s' Ha); lia |].
        split; [by constructor |]. split; [done |]. right.
        destruct H4 as [[= <- <-] | (l1 & l2 & -> & ->)].
        -- exists [], l. simpl. split; [done | lia].
        -- exists ((s, true) :: l1), l2. simpl. split; [done | lia].
    + specialize (IH (p + sizeof_block + s) best Hb).
      destruct (best_fit_list _ _ _ _) as [[a x]|].
      * destruct IH as (H1 & H2 & H3 & H4). split; [done |]. split; [| split; [done |]].
        { constructor; [| done]. intros [Hf Hs]. simpl in Hf, Hs |- *. subst f.
          destruct best as [[a' s']|]; [| lia]. specialize (H1 a' s' eq_refl). lia. }
        destruct H4 as [-> | (l1 & l2 & -> & ->)]; [by left |]. right.
        exists ((s, f) :: l1), l2. simpl. split; [done | lia].
      * destruct IH as [-> H]. split; [done |]. constructor; [| done].
        intros [Hf Hs]. simpl in Hf, Hs. subst f. lia.
Qed.
