(* ===== verification/HeapOps.v ===== *)
(** * The heap operations on the represented block list

    One lemma per operation of [Heap]: what it returns and which block list the
    resulting heap represents.  The properties of [HeapProps] are read off
    these. *)
From S2P Require Import Prelude Heap HeapFacts.

(** ** Size arithmetic *)
Lemma align8_spec size : 0 < size <= 2 ^ 64 - 8 ->
  size <= align8 size < size + 8 /\ align8 size mod 8 = 0.
Proof.
  intros Hs. unfold align8. rewrite u64_id by (unfold is_u64; lia).
  change (2 ^ 64 - 8) with (2 ^ 64 - 2 ^ 3). rewrite land_high_mask by lia.
  change (2 ^ 3) with 8. lia.
Qed.

(** On every argument, the wrapped ones included. *)
Lemma align8_range size : 0 <= align8 size <= 2 ^ 64 - 8 /\ align8 size mod 8 = 0.
Proof.
  unfold align8. pose proof (u64_range (size + 7)) as Hr. unfold is_u64 in Hr.
  change (2 ^ 64 - 8) with (2 ^ 64 - 2 ^ 3). rewrite land_high_mask by lia.
  change (2 ^ 3) with 8. lia.
Qed.

(** The last seven sizes wrap to zero. *)
Lemma align8_wraps size : 2 ^ 64 - 8 < size < 2 ^ 64 -> align8 size = 0.
Proof.
  intros Hs. unfold align8.
  replace (u64 (size + 7)) with (size + 7 - 2 ^ 64) by (unfold u64; lia).
  change (2 ^ 64 - 8) with (2 ^ 64 - 2 ^ 3). rewrite land_high_mask by lia.
  change (2 ^ 3) with 8. lia.
Qed.

Lemma align8_idem a : 0 < a <= 2 ^ 64 - 8 -> a mod 8 = 0 -> align8 a = a.
Proof.
  intros Ha Hm. destruct (align8_spec a Ha) as [H1 H2]. lia.
Qed.

Lemma repr_length h l : repr h l -> 1 <= Z.of_nat (length l) <= HEAP_SIZE.
Proof.
  intros [_ _ He Hg _]. pose proof (extent_length _ Hg).
  destruct l; [discriminate |]. unfold sizeof_block in *. simpl length in *. lia.
Qed.

Lemma repr_fuel h l : repr h l -> (length l < walk_fuel h)%nat.
Proof.
  intros [_ Hs _ Hg _]. pose proof (seg_length _ _ _ _ Hg Hs).
  unfold walk_fuel. lia.
Qed.

Lemma repr_size_bound h l1 s f l2 :
  repr h (l1 ++ (s, f) :: l2) ->
  0 <= s /\ s mod 8 = 0 /\ 0 <= extent l1 /\ 0 <= extent l2 /\
  extent l1 + sizeof_block + s + extent l2 = HEAP_SIZE /\
  Forall good_blk l1 /\ Forall good_blk l2.
Proof.
  intros [_ _ He Hg _]. apply Forall_app in Hg as [Hg1 Hg2].
  inversion Hg2 as [|? ? [? ?] Hg3]; subst. rewrite extent_app in He. simpl in *.
  repeat split; auto using extent_nonneg; lia.
Qed.

(** ** Replacing a run of blocks *)
Lemma repr_update h l1 old l2 mid m' al fr bl pl :
  repr h (l1 ++ old ++ l2) ->
  old <> [] -> mid <> [] -> extent mid = extent old -> Forall good_blk mid ->
  (forall a, a < extent l1 \/ extent l1 + extent old <= a -> m' !! a = hdrs h !! a) ->
  seg m' (extent l1) mid (link (extent l1 + extent old) l2 None) ->
  bl = Z.of_nat (length (l1 ++ mid ++ l2)) ->
  repr (Heap m' (heap_start h) al fr bl pl) (l1 ++ mid ++ l2).
Proof.
  intros [H1 H2 H3 H4 H5] Ho Hm He Hg Hout Hseg ->.
  apply Forall_app in H4 as [G1 G2]. apply Forall_app in G2 as [G2 G3].
  apply seg_app in H2 as [S1 S2]. apply seg_app in S2 as [_ S3].
  assert (forall q, link (0 + extent l1) (old ++ l2) None =
                    link (0 + extent l1) (mid ++ l2) q) as Hlink.
  { intros q. by destruct old, mid. }
  constructor; simpl; [done | | | by repeat (apply Forall_app; split) | done].
  - apply seg_app. split.
    + rewrite <- (Hlink None). eapply seg_agree; [done | | exact S1].
      intros a Ha. apply Hout. lia.
    + rewrite Z.add_0_l in *. apply seg_app. rewrite He. split; [done |].
      eapply seg_agree; [done | | exact S3]. intros a Ha. apply Hout. lia.
  - rewrite !extent_app in H3 |- *. lia.
Qed.

Lemma repr_counters h l al fr pl :
  repr h l -> repr (Heap (hdrs h) (heap_start h) al fr (heap_blocks h) pl) l.
Proof. by intros [? ? ? ? ?]. Qed.

(** ** [heap_init], [heap_coalesce] *)
Lemma heap_init_repr h : repr (heap_init h) [(HEAP_SIZE - sizeof_block, true)].
Proof.
  constructor; simpl; [done | | done | | done].
  - by rewrite lookup_insert_eq.
  - constructor; [| done]. by split.
Qed.

Lemma heap_coalesce_repr h l : repr h l ->
  exists h', heap_coalesce h = Ret h' /\ repr h' (squash l) /\
    heap_allocated h' = heap_allocated h /\ heap_freed h' = heap_freed h /\
    payload h' = payload h.
Proof.
  intros R. pose proof (repr_length _ _ R). pose proof (repr_fuel _ _ R) as Hf.
  destruct R as [H1 H2 H3 H4 H5].
  destruct l as [|[s f] l]; [discriminate |].
  unfold heap_coalesce. rewrite H1.
  destruct (coalesce_loop_spec l (walk_fuel h) h 0 s f) as (m' & -> & Hs & _);
    [done | done | done | lia | cbn [length] in Hf; lia | |].
  { rewrite H5. unfold HEAP_SIZE in *. cbn [length] in *. lia. }
  eexists; split; [done |]. simpl. split; [| done].
  constructor; simpl; [done | done | | | rewrite H5; cbn [length]; lia].
  - rewrite extent_squash_from. simpl in H3. lia.
  - by apply (good_squash ((s, f) :: l)).
Qed.

(** ** [malloc] *)
Definition carved (a s : Z) : Z := if a + sizeof_block + 8 <=? s then a else s.

Lemma extent_carve a s : extent (carve a s) = sizeof_block + s.
Proof. unfold carve. destruct (_ <=? _); simpl; lia. Qed.

Lemma carve_nonempty a s : carve a s <> [].
Proof. unfold carve. by destruct (_ <=? _). Qed.

Lemma good_carve a s : 0 <= a <= s -> a mod 8 = 0 -> s mod 8 = 0 -> Forall good_blk (carve a s).
Proof.
  unfold carve, sizeof_block, good_blk. intros Ha Hx Hy.
  destruct (_ <=? _) eqn:E; repeat (apply Forall_cons_2; [simpl; lia |]); done.
Qed.

Lemma carved_bounds a s : a <= s -> a <= carved a s <= s /\ carved a s < a + sizeof_block + 8.
Proof. unfold carved, sizeof_block. intros. destruct (_ <=? _) eqn:E; lia. Qed.

Lemma malloc_repr h l size :
  repr h l -> size <> 0 ->
  let a := align8 size in
  (malloc size h = Ret (None, h) /\ Forall (fun b => ~ fits a b) l) \/
  exists l1 s l2 h',
    l = l1 ++ (s, true) :: l2 /\ a <= s /\
    Forall (fun b => fits a b -> s <= b.1) l /\
    malloc size h = Ret (Some (extent l1 + sizeof_block), h') /\
    repr h' (l1 ++ carve a s ++ l2) /\ payload h' = payload h /\
    heap_freed h' = heap_freed h /\
    heap_allocated h' = u64 (heap_allocated h + carved a s).
Proof.
  intros R Hsz a. destruct (align8_range size) as [Ha Hd]. fold a in Ha, Hd.
  unfold malloc. replace (size =? 0) with false by lia. cbv zeta. fold a.
  pose proof (repr_fuel _ _ R) as Hf.
  assert (heap_start h = link 0 l None) as Hst.
  { destruct R as [H1 _ He _ _]. destruct l; [discriminate |]. done. }
  pose proof (best_fit_refine h a l (walk_fuel h) 0 None (repr_seg _ _ R) Hf) as Hbf.
  change (fst <$> @None (Z * Z)) with (@None Z) in Hbf.
  rewrite Hst, Hbf by done. clear Hbf Hst Hf. simpl.
  pose proof (best_fit_list_spec a l 0 None) as Hspec.
  destruct (best_fit_list a 0 l None) as [[p s]|]; simpl.
  2:{ left. split; [done |]. by destruct Hspec. }
  right. destruct Hspec as (_ & Hmin & Has & [? | (l1 & l2 & -> & ->)]); [done | done |].
  rewrite Z.add_0_l in *.
  rewrite (repr_lookup _ _ _ _ _ R). simpl.
  destruct (repr_size_bound _ _ _ _ _ R) as (B1 & B2 & B3 & B4 & B5 & G1 & G2).
  pose proof (repr_length _ _ R) as HL.
  pose proof (repr_blocks _ _ R) as Hb.
  rewrite (u64_id (a + sizeof_block + 8))
    by (unfold is_u64, HEAP_SIZE, sizeof_block in *; lia).
  exists l1, s, l2. unfold carve, carved.
  destruct (a + sizeof_block + 8 <=? s) eqn:Esplit;
    eexists; (split; [done |]); (split; [done |]); (split; [done |]).
  - simpl. rewrite lookup_insert_eq. simpl. split; [done |]. split; [| done].
    apply (repr_update h l1 [(s, true)] l2 [(a, false); (s - a - sizeof_block, true)]);
      try done.
    + simpl. lia.
    + unfold sizeof_block, good_blk in *.
      repeat (apply Forall_cons_2; [simpl; lia |]); done.
    + intros x Hx. simpl in Hx |- *. unfold sizeof_block in *.
      rewrite !lookup_insert_ne by lia. done.
    + simpl. rewrite lookup_insert_eq. split; [done |]. split; [| done].
      rewrite !lookup_insert_ne by (unfold sizeof_block; lia).
      rewrite lookup_insert_eq. unfold sizeof_block, HEAP_SIZE in *.
      rewrite u64_id by (unfold is_u64; lia).
      replace (extent l1 + 24 + a + 24 + (s - a - 24)) with (extent l1 + (24 + s + 0)) by lia.
      replace (extent l1 + 24 + s) with (extent l1 + (24 + s + 0)) by lia.
      done.
    + rewrite Hb, u64_id by (rewrite length_app in *; cbn [length] in *;
        unfold is_u64, HEAP_SIZE in *; lia).
      rewrite !length_app. cbn [length heap_blocks set_hdr set_blocks]. lia.
  - rewrite (repr_lookup _ _ _ _ _ R). simpl. split; [done |]. split; [| done].
    apply (repr_update h l1 [(s, true)] l2 [(s, false)]); try done.
    + apply Forall_cons_2; [by split | done].
    + intros x Hx. simpl in Hx |- *. unfold sizeof_block in *.
      rewrite lookup_insert_ne by lia. done.
    + simpl. rewrite lookup_insert_eq.
      by replace (extent l1 + (sizeof_block + s + 0)) with (extent l1 + sizeof_block + s) by lia.
    + cbn [heap_blocks set_hdr]. rewrite Hb, !length_app. done.
Qed.

(** ** [free] *)
Lemma free_repr h l1 s l2 :
  repr h (l1 ++ (s, false) :: l2) ->
  exists h',
    free (Some (extent l1 + sizeof_block)) h = Ret h' /\
    repr h' (squash (l1 ++ (s, true) :: l2)) /\
    heap_allocated h' = heap_allocated h /\
    heap_freed h' = u64 (heap_freed h + s) /\ payload h' = payload h.
Proof.
  intros R. unfold free.
  replace (extent l1 + sizeof_block - sizeof_block) with (extent l1) by lia.
  rewrite (repr_lookup _ _ _ _ _ R). simpl.
  destruct (repr_size_bound _ _ _ _ _ R) as (B1 & B2 & B3 & B4 & B5 & G1 & G2).
  match goal with |- exists h', heap_coalesce ?h1 = _ /\ _ =>
    assert (repr h1 (l1 ++ [(s, true)] ++ l2)) as R1 end.
  { apply (repr_update h l1 [(s, false)] l2 [(s, true)]); try done.
    - apply Forall_cons_2; [by split | done].
    - intros x Hx. simpl in Hx |- *. unfold sizeof_block in *.
      rewrite lookup_insert_ne by lia. done.
    - simpl. rewrite lookup_insert_eq.
      by replace (extent l1 + (sizeof_block + s + 0)) with (extent l1 + sizeof_block + s) by lia.
    - simpl. rewrite (repr_blocks _ _ R), !length_app. done. }
  destruct (heap_coalesce_repr _ _ R1) as (h' & -> & R' & Ea & Ef & Ep).
  exists h'. simpl in Ea, Ef, Ep, R'. done.
Qed.

(** ** [realloc], in place *)
Lemma realloc_shrink_repr h l1 s l2 a :
  repr h (l1 ++ (s, false) :: l2) -> 0 < a <= s -> a mod 8 = 0 ->
  exists h',
    realloc_shrink (extent l1) a
      (Block s false (link (extent l1 + sizeof_block + s) l2 None)) h = Ret h' /\
    payload h' = payload h /\ heap_allocated h' = heap_allocated h /\
    ((a + sizeof_block + 8 <= s /\
      repr h' (squash (l1 ++ (a, false) :: (s - a - sizeof_block, true) :: l2)) /\
      heap_freed h' = u64 (heap_freed h + (s - a))) \/
     (s < a + sizeof_block + 8 /\ h' = h)).
Proof.
  intros R Ha Hd. unfold realloc_shrink. simpl.
  destruct (repr_size_bound _ _ _ _ _ R) as (B1 & B2 & B3 & B4 & B5 & G1 & G2).
  pose proof (repr_length _ _ R) as HL. pose proof (repr_blocks _ _ R) as Hb.
  rewrite (u64_id (a + sizeof_block + 8))
    by (unfold is_u64, HEAP_SIZE, sizeof_block in *; lia).
  destruct (a + sizeof_block + 8 <=? s) eqn:E; [| exists h; repeat split; right; split; [lia | done]].
  match goal with |- exists h', heap_coalesce ?h1 = _ /\ _ =>
    assert (repr h1 (l1 ++ [(a, false); (s - a - sizeof_block, true)] ++ l2)) as R1 end.
  { eapply (repr_update h l1 [(s, false)] l2); try done.
    - simpl. lia.
    - unfold sizeof_block, good_blk in *.
      repeat (apply Forall_cons_2; [simpl; lia |]); done.
    - intros x Hx. simpl in Hx |- *. unfold sizeof_block in *.
      rewrite !lookup_insert_ne by lia. done.
    - simpl. rewrite lookup_insert_eq. split; [done |]. split; [| done].
      rewrite !lookup_insert_ne by (unfold sizeof_block; lia).
      rewrite lookup_insert_eq. unfold sizeof_block, HEAP_SIZE in *.
      rewrite u64_id by (unfold is_u64; lia).
      replace (extent l1 + 24 + a + 24 + (s - a - 24)) with (extent l1 + (24 + s + 0)) by lia.
      replace (extent l1 + 24 + s) with (extent l1 + (24 + s + 0)) by lia.
      done.
    - simpl. rewrite Hb, u64_id by (rewrite length_app in *; cbn [length] in *;
        unfold is_u64, HEAP_SIZE in *; lia).
      rewrite !length_app. cbn [length]. lia. }
  destruct (heap_coalesce_repr _ _ R1) as (h' & -> & R' & Ea & Ef & Ep).
  exists h'. split; [done |]. split; [done |]. split; [done |]. left.
  split; [lia |]. split; [exact R' |]. exact Ef.
Qed.

Lemma realloc_grow_repr h l1 s s' l2 a q :
  repr h (l1 ++ (s, false) :: (s', true) :: l2) ->
  s < a <= s + sizeof_block + s' -> a mod 8 = 0 ->
  let h' := realloc_grow (extent l1) a (Block s false q)
              (Block s' true (link (extent l1 + sizeof_block + s + sizeof_block + s') l2 None)) h in
  repr h' (l1 ++ carve a (s + sizeof_block + s') ++ l2) /\
  payload h' = payload h /\ heap_freed h' = heap_freed h /\
  heap_allocated h' = u64 (heap_allocated h + (a - s)).
Proof.
  intros R Ha Hd.
  destruct (repr_size_bound _ _ _ _ _ R) as (B1 & B2 & B3 & B4 & B5 & G1 & G2).
  inversion G2 as [|? ? [C1 C2] G3]; subst. simpl in C1, C2, B5.
  pose proof (extent_nonneg _ G3).
  pose proof (repr_length _ _ R) as HL. pose proof (repr_blocks _ _ R) as Hb.
  rewrite !length_app in HL, Hb. cbn [length] in HL, Hb.
  unfold realloc_grow. simpl.
  rewrite (u64_id (s + sizeof_block + s')), (u64_id (a + sizeof_block + 8))
    by (unfold is_u64, HEAP_SIZE, sizeof_block in *; lia).
  replace (s <? a) with true by lia.
  unfold carve. destruct (a + sizeof_block + 8 <=? s + sizeof_block + s') eqn:E; simpl;
    (split; [| done]); unfold sizeof_block in *.
  - eapply (repr_update h l1 [(s, false); (s', true)] l2
              [(a, false); (s + 24 + s' - a - 24, true)]); try done.
    + simpl. unfold sizeof_block. lia.
    + unfold good_blk. repeat (apply Forall_cons_2; [simpl; lia |]); done.
    + intros x Hx. simpl in Hx |- *. unfold sizeof_block in *.
      rewrite !lookup_insert_ne by lia. done.
    + simpl. rewrite lookup_insert_eq. unfold sizeof_block. split; [done |]. split; [| done].
      rewrite lookup_insert_ne by lia. rewrite lookup_insert_eq.
      unfold HEAP_SIZE in *. rewrite u64_id by (unfold is_u64; lia).
      f_equal. f_equal. f_equal. lia.
    + simpl. unfold HEAP_SIZE in *. rewrite Hb, (u64_id (_ - 1)) by (unfold is_u64; lia).
      rewrite u64_id by (unfold is_u64; lia).
      rewrite !length_app. cbn [length]. lia.
  - eapply (repr_update h l1 [(s, false); (s', true)] l2 [(s + 24 + s', false)]); try done.
    + simpl. unfold sizeof_block. lia.
    + unfold good_blk. repeat (apply Forall_cons_2; [simpl; lia |]); done.
    + intros x Hx. simpl in Hx |- *. unfold sizeof_block in *.
      rewrite !lookup_insert_ne by lia. done.
    + simpl. rewrite lookup_insert_eq. unfold sizeof_block. split; [| done].
      f_equal. f_equal. f_equal. lia.
    + simpl. unfold HEAP_SIZE in *. rewrite Hb, (u64_id (_ - 1)) by (unfold is_u64; lia).
      rewrite !length_app. cbn [length]. lia.
Qed.
