(* ===== verification/HeapProps.v ===== *)
(** * Properties of the kernel heap

    The theorems are stated over [blocks_of], the block list read off the heap
    by walking [next], and over [live], the live allocations it determines. *)
From S2P Require Import Prelude Interfaces Heap HeapFacts HeapOps.

(** ** Reading the block list *)
Fixpoint walk (fuel : nat) (m : gmap Z block) (current : option Z) : list blk :=
  match fuel, current with
  | S fuel, Some c =>
      match m !! c with
      | Some b => (size_of b, is_free b) :: walk fuel m (next b)
      | None => []
      end
  | _, _ => []
  end.

Definition blocks_of (h : heap) : list blk := walk (walk_fuel h) (hdrs h) (heap_start h).
Definition live (h : heap) : gmap Z Z := allocs (blocks_of h).

(** The invariant: the list tiles the array with 8-byte multiples, and no two
    neighbours are both free. *)
Definition heap_ok (h : heap) : Prop := repr h (blocks_of h) /\ coalesced (blocks_of h).

Lemma walk_seg m l : forall fuel p,
  (length l <= fuel)%nat -> seg m p l None -> walk fuel m (link p l None) = l.
Proof.
  induction l as [|[s f] l IH]; intros fuel p Hf Hs.
  - by destruct fuel.
  - destruct fuel as [|fuel]; [simpl in Hf; lia |]. destruct Hs as [H1 H2].
    simpl. rewrite H1. simpl. rewrite IH; [done | simpl in Hf; lia | done].
Qed.

Lemma repr_blocks_of h l : repr h l -> blocks_of h = l.
Proof.
  intros R. unfold blocks_of. pose proof (repr_fuel _ _ R).
  replace (heap_start h) with (link 0 l None).
  - apply walk_seg; [lia | by apply repr_seg].
  - destruct R as [-> _ He _ _]. by destruct l.
Qed.

Lemma heap_ok_intro h l : repr h l -> coalesced l -> heap_ok h /\ live h = allocs l.
Proof.
  intros R C. unfold heap_ok, live. by rewrite (repr_blocks_of _ _ R).
Qed.

(** ** Coalescing across list surgery *)
Lemma coalesced_app l1 b l2 :
  coalesced (l1 ++ b :: l2) <-> coalesced (l1 ++ [b]) /\ coalesced (b :: l2).
Proof.
  induction l1 as [|c l1 IH]; simpl; [tauto |].
  destruct l1 as [|d l1]; simpl in *; tauto.
Qed.

Lemma coalesced_allocated l1 s : coalesced l1 -> coalesced (l1 ++ [(s, false)]).
Proof.
  induction l1 as [|[c f] l1 IH]; simpl; [done |].
  destruct l1 as [|[d g] l1]; simpl in *; [destruct f; simpl; tauto | tauto].
Qed.

Lemma coalesced_tail b l : coalesced (b :: l) -> coalesced l.
Proof. by intros [_ H]. Qed.

Lemma coalesced_prefix l1 l2 : coalesced (l1 ++ l2) -> coalesced l1.
Proof.
  induction l1 as [|b l1 IH]; simpl; [done |]. intros [H1 H2].
  split; [| by apply IH]. by destruct l1.
Qed.

Lemma coalesced_carve l1 a s l2 :
  coalesced (l1 ++ (s, true) :: l2) -> coalesced (l1 ++ carve a s ++ l2).
Proof.
  intros H. pose proof (coalesced_prefix _ _ H) as H1.
  apply coalesced_app in H as [_ H].
  unfold carve. destruct (_ <=? _); simpl; apply coalesced_app;
    (split; [by apply coalesced_allocated |]); simpl.
  - split; [done |]. exact H.
  - split; [by destruct l2 |]. by apply coalesced_tail in H.
Qed.

Lemma coalesced_grow l1 s s' l2 a :
  coalesced (l1 ++ (s, false) :: (s', true) :: l2) ->
  coalesced (l1 ++ carve a (s + sizeof_block + s') ++ l2).
Proof.
  intros H. pose proof (coalesced_prefix _ _ H) as H1.
  apply coalesced_app in H as [_ [_ H]].
  unfold carve. destruct (_ <=? _); simpl; apply coalesced_app;
    (split; [by apply coalesced_allocated |]); simpl.
  - split; [done |]. exact H.
  - split; [by destruct l2 |]. by apply coalesced_tail in H.
Qed.

(** ** Live maps across list surgery *)
Lemma allocs_middle l1 mid l2 :
  allocs (l1 ++ mid ++ l2) =
  allocs_from 0 l1 ∪ (allocs_from (extent l1) mid ∪ allocs_from (extent l1 + extent mid) l2).
Proof. unfold allocs. by rewrite !allocs_app. Qed.

Lemma allocs_carve l1 s a l2 :
  Forall good_blk l1 ->
  allocs (l1 ++ carve a s ++ l2) =
  <[extent l1 + sizeof_block := carved a s]> (allocs (l1 ++ (s, true) :: l2)).
Proof.
  intros Hg. rewrite (allocs_middle l1 (carve a s)).
  change (l1 ++ (s, true) :: l2) with (l1 ++ [(s, true)] ++ l2).
  rewrite (allocs_middle l1 [(s, true)]), extent_carve. simpl.
  replace (sizeof_block + s + 0) with (sizeof_block + s) by lia.
  assert (allocs_from (extent l1) (carve a s) = {[extent l1 + sizeof_block := carved a s]})
    as ->. { unfold carve, carved. by destruct (_ <=? _). }
  rewrite <- insert_union_singleton_l, (left_id_L ∅ (∪)).
  rewrite insert_union_r; [done |].
  apply (allocs_app_out 0); [done | lia].
Qed.

Lemma allocs_release l1 s l2 :
  Forall good_blk l1 -> Forall good_blk l2 -> 0 <= s ->
  allocs (l1 ++ (s, true) :: l2) =
  delete (extent l1 + sizeof_block) (allocs (l1 ++ (s, false) :: l2)).
Proof.
  intros G1 G2 Hs. unfold allocs. rewrite !allocs_app. simpl.
  rewrite delete_union, delete_insert_eq.
  rewrite !delete_id; [done | |].
  - apply allocs_cons_out; [done | unfold sizeof_block; lia].
  - apply (allocs_app_out 0); [done | lia].
Qed.

(** ** The allocator contract on block lists *)
Lemma malloc_map h l size :
  repr h l -> coalesced l -> size <> 0 ->
  exists r h' l',
    malloc size h = Ret (r, h') /\ repr h' l' /\ coalesced l' /\ payload h' = payload h /\
    match r with
    | None => h' = h /\ Forall (fun b => ~ fits (align8 size) b) l
    | Some p =>
        allocs l !! p = None /\
        exists n, align8 size <= n < align8 size + 32 /\ allocs l' = <[p := n]> (allocs l)
    end.
Proof.
  intros R C Hs. destruct (malloc_repr h l size R Hs) as [[H1 H2] |
    (l1 & s & l2 & h' & -> & Has & Hmin & E & R' & Ep & Ef & Ea)].
  - exists None, h, l. done.
  - destruct (repr_size_bound _ _ _ _ _ R) as (B1 & B2 & B3 & B4 & B5 & G1 & G2).
    exists (Some (extent l1 + sizeof_block)), h', (l1 ++ carve (align8 size) s ++ l2).
    split; [done |]. split; [done |]. split; [by apply coalesced_carve |]. split; [done |].
    split.
    + unfold allocs. rewrite allocs_app. simpl. apply lookup_union_None. split.
      * apply (allocs_app_out 0); [done | lia].
      * apply allocs_cons_out; [done | unfold sizeof_block; lia].
    + exists (carved (align8 size) s). split; [| by apply allocs_carve].
      pose proof (carved_bounds (align8 size) s Has). unfold sizeof_block in *. lia.
Qed.

Lemma free_map h l p n :
  repr h l -> coalesced l -> allocs l !! p = Some n ->
  exists h' l',
    free (Some p) h = Ret h' /\ repr h' l' /\ coalesced l' /\
    allocs l' = delete p (allocs l) /\ payload h' = payload h /\
    heap_allocated h' = heap_allocated h /\ heap_freed h' = u64 (heap_freed h + n).
Proof.
  intros R C (l1 & l2 & -> & ->)%allocs_split. rewrite Z.add_0_l in *.
  destruct (free_repr _ _ _ _ R) as (h' & E & R' & Ea & Ef & Ep).
  destruct (repr_size_bound _ _ _ _ _ R) as (B1 & B2 & B3 & B4 & B5 & G1 & G2).
  exists h', (squash (l1 ++ (n, true) :: l2)).
  split; [done |]. split; [done |]. split; [apply squash_coalesced |].
  split; [| done]. rewrite allocs_squash. by apply allocs_release.
Qed.

Lemma copy_bytes_lookup n : forall dst src (m : gmap Z Z) x,
  dst + Z.of_nat n <= src \/ src + Z.of_nat n <= dst ->
  copy_bytes dst src n m !! x =
  if decide (dst <= x < dst + Z.of_nat n) then m !! (src + (x - dst)) else m !! x.
Proof.
  induction n as [|n IH]; intros dst src m x Hd; cbn [copy_bytes].
  - rewrite decide_False by lia. done.
  - rewrite IH by lia. repeat case_decide; try lia.
    + rewrite lookup_partial_alter_ne by lia. f_equal. lia.
    + replace x with dst by lia. rewrite lookup_partial_alter_eq. f_equal. lia.
    + by rewrite lookup_partial_alter_ne by lia.
Qed.

Lemma allocs_update l1 old mid l2 p s x :
  Forall good_blk l1 -> Forall good_blk l2 ->
  extent mid = extent old ->
  p = extent l1 + sizeof_block -> p <= extent l1 + extent old ->
  allocs_from (extent l1) old = {[p := s]} ->
  allocs_from (extent l1) mid = {[p := x]} ->
  allocs (l1 ++ mid ++ l2) = <[p := x]> (delete p (allocs (l1 ++ old ++ l2))).
Proof.
  intros G1 G2 He -> Hle Ho Hm. rewrite !allocs_middle, He, Ho, Hm.
  rewrite !delete_union, delete_singleton_eq, (left_id_L ∅ (∪)).
  rewrite <- insert_union_singleton_l.
  rewrite (delete_id (allocs_from 0 l1)) by (apply (allocs_app_out 0); [done | lia]).
  rewrite (delete_id (allocs_from _ l2))
    by (apply allocs_cons_out; [done | unfold sizeof_block in *; lia]).
  rewrite insert_union_r; [done |]. apply (allocs_app_out 0); [done | lia].
Qed.

Lemma allocs_from_carve p a s :
  allocs_from p (carve a s) = {[p + sizeof_block := carved a s]}.
Proof. unfold carve, carved. by destruct (_ <=? _). Qed.

(** The header of a live allocation bounds payload accesses. *)
Lemma block_holds_live h l p n k :
  repr h l -> allocs l !! p = Some n -> 0 <= k <= n -> block_holds p k h = true.
Proof.
  intros R (l1 & l2 & -> & ->)%allocs_split Hk. unfold block_holds.
  replace (0 + extent l1 + sizeof_block - sizeof_block) with (extent l1) by lia.
  rewrite (repr_lookup _ _ _ _ _ R). simpl. lia.
Qed.

(** What [realloc] promises about the payload: the moved or resized block keeps
    its bytes, and no other live block changes. *)
Definition keeps_bytes (h h' : heap) (l : list blk) (p q n size : Z) : Prop :=
  (forall i, 0 <= i < Z.min n size -> payload h' !! (q + i) = payload h !! (p + i)) /\
  (forall p' m i, p' <> p -> allocs l !! p' = Some m -> 0 <= i < m ->
     payload h' !! (p' + i) = payload h !! (p' + i)).

Definition realloc_post (h : heap) (l : list blk) (p n size : Z)
    (r : option Z) (h' : heap) (l' : list blk) : Prop :=
  repr h' l' /\ coalesced l' /\
  match r with
  | None => h' = h /\ Forall (fun b => ~ fits (align8 size) b) l
  | Some q =>
      (q = p \/ allocs l !! q = None) /\
      (exists n', align8 size <= n' /\ allocs l' = <[q := n']> (delete p (allocs l))) /\
      keeps_bytes h h' l p q n size
  end.

Lemma keeps_bytes_refl h h' l p n size :
  payload h' = payload h -> keeps_bytes h h' l p p n size.
Proof. intros E. split; intros; by rewrite E. Qed.

Lemma realloc_move_map h l p n size :
  repr h l -> coalesced l -> allocs l !! p = Some n -> 0 < size <= 2 ^ 64 - 8 ->
  n < align8 size ->
  exists r h' l', realloc_move p (align8 size) n h = Ret (r, h') /\
    realloc_post h l p n size r h' l'.
Proof.
  intros R C Hp Hs Hn. destruct (align8_spec size Hs) as [Ha Hm].
  assert (0 < align8 size <= 2 ^ 64 - 8) as Ha' by lia.
  pose proof (repr_good _ _ R) as G. pose proof (allocs_range _ _ _ _ G Hp) as Hr.
  unfold realloc_move, realloc_post.
  destruct (malloc_map h l (align8 size) R C ltac:(lia)) as (r & h1 & l' & -> & R1 & C1 & Ep & Hr1).
  rewrite (align8_idem (align8 size)) in Hr1 by lia. simpl.
  destruct r as [q|].
  2:{ destruct Hr1 as [-> Hno]. exists None, h, l. done. }
  destruct Hr1 as (Hq & n' & Hn' & Hl').
  assert (p <> q) as Hpq by (intros ->; congruence).
  assert (allocs l' !! p = Some n) as Hp' by (by rewrite Hl', lookup_insert_ne).
  assert (allocs l' !! q = Some n') as Hq' by (by rewrite Hl', lookup_insert_eq).
  replace (n <? align8 size) with true by lia.
  unfold payload_copy.
  rewrite (block_holds_live _ _ _ _ _ R1 Hq'), (block_holds_live _ _ _ _ _ R1 Hp') by lia.
  simpl.
  assert (repr (set_payload (copy_bytes q p (Z.to_nat n) (payload h1)) h1) l') as R2
    by (by apply repr_counters).
  destruct (free_map _ _ _ _ R2 C1 Hp') as (h3 & l3 & E3 & R3 & C3 & Hl3 & Ep3 & _).
  rewrite E3. simpl. exists (Some q), h3, l3.
  split; [done |]. split; [done |]. split; [done |]. split; [by right |]. split.
  { exists n'. split; [lia |]. rewrite Hl3, Hl', delete_insert_ne by done. done. }
  pose proof (repr_good _ _ R1) as G1.
  pose proof (allocs_disjoint _ _ _ _ _ G1 Hp' Hq' Hpq) as Hdis.
  unfold sizeof_block in Hdis, Hr. unfold keeps_bytes. rewrite Ep3. simpl. rewrite Ep.
  split.
  - intros i Hi. rewrite copy_bytes_lookup by lia. rewrite decide_True by lia. f_equal. lia.
  - intros p' m i Hne Hp'' Hi.
    assert (allocs l' !! p' = Some m) as Hpl'.
    { rewrite Hl', lookup_insert_ne; [done |]. intros ->. congruence. }
    assert (p' <> q) as Hne' by (intros ->; congruence).
    pose proof (allocs_disjoint _ _ _ _ _ G1 Hpl' Hq' Hne') as Hd2.
    unfold sizeof_block in Hd2.
    rewrite copy_bytes_lookup by lia. rewrite decide_False by lia. done.
Qed.

Lemma realloc_map h l p n size :
  repr h l -> coalesced l -> allocs l !! p = Some n -> 0 < size <= 2 ^ 64 - 8 ->
  exists r h' l', realloc (Some p) size h = Ret (r, h') /\
    realloc_post h l p n size r h' l'.
Proof.
  intros R C Hp Hs. pose proof (realloc_move_map h l p n size R C Hp Hs) as Hmove.
  destruct (align8_spec size Hs) as [Ha Hm].
  unfold realloc. replace (size =? 0) with false by lia. cbv zeta.
  destruct (allocs_split _ _ _ _ Hp) as (l1 & l2 & -> & ->). rewrite Z.add_0_l in *.
  replace (extent l1 + sizeof_block - sizeof_block) with (extent l1) by lia.
  rewrite (repr_lookup _ _ _ _ _ R). simpl.
  destruct (repr_size_bound _ _ _ _ _ R) as (B1 & B2 & B3 & B4 & B5 & G1 & G2).
  destruct (align8 size <=? n) eqn:E1.
  - destruct (realloc_shrink_repr h l1 n l2 (align8 size) R) as
      (h' & -> & Ep & _ & [(E2 & R' & _) | (E2 & ->)]); [lia | done | |]; simpl.
    + eexists (Some _), h', _. split; [done |]. split; [exact R' |].
      split; [apply squash_coalesced |]. split; [by left |]. split.
      * exists (align8 size). split; [lia |]. rewrite allocs_squash.
        apply (allocs_update l1 [(n, false)]
                 [(align8 size, false); (n - align8 size - sizeof_block, true)] l2 _ n);
          try done; simpl; lia.
      * by apply keeps_bytes_refl.
    + eexists (Some _), h, _. split; [done |]. split; [exact R |]. split; [done |].
      split; [by left |]. split; [| by apply keeps_bytes_refl].
      exists n. split; [lia |]. rewrite insert_delete_eq. by rewrite insert_id.
  - destruct l2 as [|[s' f'] l3]; simpl; [apply Hmove; lia |].
    pose proof (repr_seg _ _ R) as Hseg. apply seg_app in Hseg as (_ & _ & Hn & _).
    simpl in Hn. rewrite Z.add_0_l in Hn. rewrite Hn. simpl.
    pose proof G2 as G2'. inversion G2' as [|? ? [D1 D2] G3]; subst. simpl in D1, D2, B4, B5.
    pose proof (extent_nonneg _ G3).
    rewrite u64_id by (unfold is_u64, HEAP_SIZE, sizeof_block in *; lia).
    destruct (f' && (align8 size <=? n + sizeof_block + s')) eqn:E2; [| apply Hmove; lia].
    apply andb_prop in E2 as [-> E2].
    destruct (realloc_grow_repr h l1 n s' l3 (align8 size)
                (Some (extent l1 + sizeof_block + n)) R) as (R' & Ep & _); [lia | done |].
    eexists (Some _), _, _. split; [done |]. split; [exact R' |].
    split; [by eapply coalesced_grow |]. split; [by left |]. split.
    + exists (carved (align8 size) (n + sizeof_block + s')).
      split; [apply carved_bounds; lia |].
      apply (allocs_update l1 [(n, false); (s', true)] _ l3 _ n); try done.
      * rewrite extent_carve. simpl. lia.
      * simpl. unfold sizeof_block in *. lia.
      * apply allocs_from_carve.
    + by apply keeps_bytes_refl.
Qed.

Lemma fill_bytes_lookup n : forall p c (m : gmap Z Z) x,
  fill_bytes p c n m !! x =
  if decide (p <= x < p + Z.of_nat n) then Some c else m !! x.
Proof.
  induction n as [|n IH]; intros p c m x; cbn [fill_bytes].
  - rewrite decide_False by lia. done.
  - rewrite IH. repeat case_decide; try lia; try done.
    + replace x with p by lia. by rewrite lookup_insert_eq.
    + by rewrite lookup_insert_ne by lia.
Qed.

Lemma calloc_map h l nmemb size :
  repr h l -> coalesced l -> 0 <= nmemb -> 0 <= size -> nmemb * size <= 2 ^ 64 - 8 ->
  exists r h' l', calloc nmemb size h = Ret (r, h') /\ repr h' l' /\ coalesced l' /\
    match r with
    | None => h' = h /\ l' = l
    | Some p =>
        allocs l !! p = None /\
        (exists n, nmemb * size <= n /\ allocs l' = <[p := n]> (allocs l)) /\
        (forall i, 0 <= i < nmemb * size -> payload h' !! (p + i) = Some 0) /\
        (forall q m i, allocs l !! q = Some m -> 0 <= i < m ->
           payload h' !! (q + i) = payload h !! (q + i))
    end.
Proof.
  intros R C Hn Hs Ht. unfold calloc.
  destruct ((nmemb =? 0) || (size =? 0)) eqn:E0; [exists None, h, l; done |].
  assert (0 < nmemb /\ 0 < size) as [Hn' Hs'] by lia.
  destruct ((2 ^ 64 - 1) / nmemb <? size) eqn:E1; [exists None, h, l; done |].
  cbv zeta. rewrite u64_id by (unfold is_u64; nia).
  assert (0 < nmemb * size <= 2 ^ 64 - 8) as Ht' by nia.
  destruct (align8_spec _ Ht') as [Ha _].
  destruct (malloc_map h l (nmemb * size) R C ltac:(lia))
    as (r & h1 & l1 & -> & R1 & C1 & Ep & Hr). simpl.
  destruct r as [p|].
  2:{ destruct Hr as [-> _]. exists None, h, l. done. }
  destruct Hr as (Hp & n & Hn1 & Hl1).
  assert (allocs l1 !! p = Some n) as Hp1 by (by rewrite Hl1, lookup_insert_eq).
  unfold payload_set. rewrite (block_holds_live _ _ _ _ _ R1 Hp1) by lia. simpl.
  exists (Some p). eexists _, l1. split; [done |]. split; [by apply repr_counters |].
  split; [done |]. split; [done |]. split; [exists n; split; [lia | done] |].
  simpl. rewrite Ep. split.
  - intros i Hi. rewrite fill_bytes_lookup. by rewrite decide_True by lia.
  - intros q m i Hq Hi. rewrite fill_bytes_lookup.
    assert (q <> p) as Hne by (intros ->; congruence).
    assert (allocs l1 !! q = Some m) as Hq1 by (by rewrite Hl1, lookup_insert_ne).
    pose proof (allocs_disjoint _ _ _ _ _ (repr_good _ _ R1) Hq1 Hp1 Hne).
    unfold sizeof_block in *. by rewrite decide_False by lia.
Qed.

(** ** A block list with nothing allocated *)
Lemma coalesced_drained l :
  l <> [] -> coalesced l -> (forall b, b ∈ l -> b.2 = true) -> exists s, l = [(s, true)].
Proof.
  destruct l as [|[s f] [|[s' f'] l]]; intros Hne C Hf; [done | |].
  - exists s. specialize (Hf (s, f)). simpl in Hf.
    rewrite Hf; [done | apply elem_of_cons; by left].
  - exfalso. destruct C as [C _].
    rewrite (Hf (s, f)), (Hf (s', f')) in C by (rewrite !elem_of_cons; tauto). done.
Qed.

Lemma allocs_empty_free p l : Forall good_blk l ->
  allocs_from p l = ∅ -> forall b, b ∈ l -> b.2 = true.
Proof.
  revert p; induction l as [|[s f] l IH]; intros p Hg H b Hb; [set_solver |].
  inversion Hg; subst. simpl in H. destruct f.
  - apply elem_of_cons in Hb as [-> | Hb]; [done |]. by eapply IH.
  - exfalso. by apply insert_non_empty in H.
Qed.

(** ** Client sequences *)
Inductive heap_op :=
  | OpMalloc (size : Z)
  | OpCalloc (nmemb size : Z)
  | OpRealloc (ptr : option Z) (size : Z)
  | OpFree (ptr : option Z).

Definition heap_exec (o : heap_op) (h : heap) : res (option Z * heap) :=
  match o with
  | OpMalloc size => malloc size h
  | OpCalloc nmemb size => calloc nmemb size h
  | OpRealloc ptr size => realloc ptr size h
  | OpFree ptr => h1 ← free ptr h; Ret (None, h1)
  end.

(** What a well-behaved caller may ask: pointers are [NULL] or live, sizes stay
    below the wrap of the rounding. *)
Definition live_or_null (ptr : option Z) (h : heap) : Prop :=
  match ptr with None => True | Some p => is_Some (live h !! p) end.

Definition op_valid (o : heap_op) (h : heap) : Prop :=
  match o with
  | OpMalloc size => 0 <= size <= 2 ^ 64 - 8
  | OpCalloc nmemb size => 0 <= nmemb /\ 0 <= size /\ nmemb * size <= 2 ^ 64 - 8
  | OpRealloc ptr size => live_or_null ptr h /\ 0 <= size <= 2 ^ 64 - 8
  | OpFree ptr => live_or_null ptr h
  end.

Inductive heap_reach : heap -> Prop :=
  | reach_init h : heap_reach (heap_init h)
  | reach_step h o r h' :
      heap_reach h -> op_valid o h -> heap_exec o h = Ret (r, h') -> heap_reach h'.

Lemma free_step h ptr : heap_ok h -> live_or_null ptr h ->
  exists h', free ptr h = Ret h' /\ heap_ok h'.
Proof.
  intros [R C]. destruct ptr as [p|]; simpl; [| by exists h].
  intros [n Hp]. destruct (free_map _ _ _ _ R C Hp) as (h' & l' & E & R' & C' & _).
  exists h'. split; [done |]. by apply (heap_ok_intro _ l').
Qed.

Lemma malloc_step h size : heap_ok h ->
  exists r h', malloc size h = Ret (r, h') /\ heap_ok h'.
Proof.
  intros [R C]. destruct (decide (size = 0)) as [-> | Hs].
  - exists None, h. done.
  - destruct (malloc_map h _ size R C Hs) as (r & h' & l' & E & R' & C' & _).
    exists r, h'. split; [done |]. by apply (heap_ok_intro _ l').
Qed.

Lemma heap_exec_ok o h : heap_ok h -> op_valid o h ->
  exists r h', heap_exec o h = Ret (r, h') /\ heap_ok h'.
Proof.
  intros Hok Hv. pose proof Hok as [R C]. destruct o as [size | nm size | ptr size | ptr]; simpl in Hv |- *.
  - by apply malloc_step.
  - destruct Hv as (H1 & H2 & H3).
    destruct (calloc_map h _ nm size R C H1 H2 H3) as (r & h' & l' & E & R' & C' & _).
    exists r, h'. split; [done |]. by apply (heap_ok_intro _ l').
  - destruct ptr as [p|]; [| by apply malloc_step]. destruct Hv as [[n Hp] Hs].
    destruct (decide (size = 0)) as [-> | Hz].
    + unfold realloc. simpl. destruct (free_step h (Some p) Hok) as (h' & -> & Hok');
        [by exists n |]. exists None, h'. done.
    + destruct (realloc_map h _ p n size R C Hp) as (r & h' & l' & E & R' & C' & _); [lia |].
      exists r, h'. split; [done |]. by apply (heap_ok_intro _ l').
  - destruct (free_step h ptr Hok Hv) as (h' & -> & Hok'). exists None, h'. done.
Qed.

(** ** The interface *)
#[export, refine] Instance heap_allocator : Allocator heap := {
  a_malloc := malloc; a_free := free; a_ok := heap_ok; a_live := live;
}.
Proof.
  - intros size h [R C] Hs.
    destruct (malloc_map h _ size R C ltac:(lia)) as (r & h' & l' & E & R' & C' & _ & Hr).
    destruct (heap_ok_intro _ _ R' C') as [Hok Hl].
    exists r, h'. split; [done |]. split; [done |]. rewrite Hl. destruct r as [p|].
    + destruct Hr as (Hp & n & Hn & Hl'). split; [done |]. exists n.
      destruct (align8_spec size Hs). split; [lia | done].
    + destruct Hr as [-> _]. by rewrite <- Hl.
  - intros p h [R C] [n Hp].
    destruct (free_map h _ p n R C Hp) as (h' & l' & E & R' & C' & Hl' & _).
    destruct (heap_ok_intro _ _ R' C') as [Hok Hl].
    exists h'. split; [done |]. split; [done |]. by rewrite Hl, Hl'.
  - done.
  - intros h p n q m [R _] Hp Hq Hne.
    pose proof (allocs_disjoint _ _ _ _ _ (repr_good _ _ R) Hp Hq Hne).
    unfold sizeof_block in *. lia.
Defined.

#[export, refine] Instance heap_memory : HeapMemory heap := { hm_lo := sizeof_block; hm_hi := HEAP_SIZE }.
Proof.
  - done.
  - intros h p n [R C] Hp. pose proof (allocs_range _ _ _ _ (repr_good _ _ R) Hp) as (A1 & A2 & _).
    pose proof (repr_extent _ _ R). lia.
Defined.

(** ** The properties *)

(** C13: [malloc] on a consistent heap always returns and keeps the heap
    consistent.  It returns [NULL], changing nothing, exactly when no free block
    has the rounded size; otherwise the result is a fresh, 8-byte aligned
    allocation of at least the rounded size and less than 32 bytes more, inside
    the array, with its header disjoint from every live allocation, all of which
    stay live with their sizes; no payload byte changes. *)
Theorem malloc_correct h size :
  heap_ok h -> 0 < size <= 2 ^ 64 - 8 ->
  exists r h', malloc size h = Ret (r, h') /\ heap_ok h' /\ payload h' = payload h /\
    (r = None <-> forall b, b ∈ blocks_of h -> ~ fits (align8 size) b) /\
    match r with
    | None => h' = h
    | Some p =>
        live h !! p = None /\ p mod 8 = 0 /\
        exists n, size <= align8 size <= n /\ n < align8 size + 32 /\
          live h' = <[p := n]> (live h) /\
          sizeof_block <= p /\ p + n <= HEAP_SIZE /\
          forall q m, live h !! q = Some m ->
            p + n <= q - sizeof_block \/ q + m <= p - sizeof_block
    end.
Proof.
  intros [R C] Hs. destruct (align8_spec size Hs) as [Ha _].
  destruct (malloc_repr h _ size R ltac:(lia)) as [[E Hno] |
    (l1 & s & l2 & h' & El & Has & _ & E & R' & Ep & _)].
  - exists None, h. split; [done |]. split; [done |]. split; [done |]. split; [| done].
    split; [| done]. intros _ b Hb. exact (proj1 (Forall_forall _ _) Hno b Hb).
  - destruct (malloc_map h _ size R C ltac:(lia)) as (r2 & h2 & l' & E2 & R2 & C2 & _ & Hr).
    rewrite E in E2. injection E2 as <- <-. destruct Hr as (Hp & n & Hn & Hl').
    destruct (heap_ok_intro _ _ R2 C2) as [Hok Hl].
    assert (allocs l' !! (extent l1 + sizeof_block) = Some n) as Hpn
      by (by rewrite Hl', lookup_insert_eq).
    pose proof (allocs_range _ _ _ _ (repr_good _ _ R2) Hpn) as (A1 & A2 & _ & _).
    pose proof R as RR. rewrite El in RR. apply repr_size_bound in RR as (_ & _ & _ & _ & _ & G1 & _).
    pose proof (extent_div8 _ G1). pose proof (repr_extent _ _ R2).
    eexists (Some _), h'. split; [done |]. split; [done |]. split; [done |]. split.
    { split; [done |]. intros Hno. exfalso. apply (Hno (s, true)); [| by split].
      rewrite El. apply elem_of_app. right. by apply elem_of_cons; left. }
    split; [done |]. split; [unfold sizeof_block; lia |].
    exists n. split; [lia |]. split; [lia |]. split; [by rewrite Hl |].
    split; [lia |]. split; [lia |]. intros q m Hq.
    assert (extent l1 + sizeof_block <> q) by (intros <-; unfold live in Hq; congruence).
    apply (allocs_disjoint l'); [by apply repr_good in R2 | done | | done].
    by rewrite Hl', lookup_insert_ne.
Qed.

(** [malloc] is best fit: the block it takes is the smallest free block of
    the rounded size or more; the block list changes only there, where the
    remainder is split off when it can hold a header and 8 bytes. *)
Theorem malloc_best_fit h size p h' :
  heap_ok h -> size <> 0 -> malloc size h = Ret (Some p, h') ->
  exists l1 s l2, blocks_of h = l1 ++ (s, true) :: l2 /\ p = extent l1 + sizeof_block /\
    align8 size <= s /\
    (forall b, b ∈ blocks_of h -> fits (align8 size) b -> s <= b.1) /\
    blocks_of h' = l1 ++ carve (align8 size) s ++ l2.
Proof.
  intros [R C] Hs E. destruct (malloc_repr h _ size R Hs) as [[E' _] |
    (l1 & s & l2 & h1 & El & Has & Hmin & E' & R' & _)]; rewrite E in E'; [done |].
  injection E' as -> <-. exists l1, s, l2. split; [done |]. split; [done |].
  split; [done |]. split; [exact (proj1 (Forall_forall _ _) Hmin) |]. by apply repr_blocks_of.
Qed.

(** [free] of a live allocation returns, removes exactly that allocation,
    keeps every payload byte, and leaves the heap consistent, so in particular
    with no two adjacent free blocks. *)
Theorem free_correct h p n :
  heap_ok h -> live h !! p = Some n ->
  exists h', free (Some p) h = Ret h' /\ heap_ok h' /\
    live h' = delete p (live h) /\ payload h' = payload h /\
    heap_freed h' = u64 (heap_freed h + n) /\ heap_allocated h' = heap_allocated h.
Proof.
  intros [R C] Hp.
  destruct (free_map h _ p n R C Hp) as (h' & l' & E & R' & C' & Hl' & Ep & Ea & Ef).
  destruct (heap_ok_intro _ _ R' C') as [Hok Hl].
  exists h'. by rewrite Hl, Hl'.
Qed.

(** C22: [realloc] of a live allocation to a nonzero size, through each of its
    paths (shrink in place, grow into the next block, move, failure): it either
    fails and changes nothing, or returns an allocation of at least the rounded
    size that replaces the old one, holds the first [min old new] bytes of it,
    and leaves the bytes of every other live allocation alone. *)
Theorem realloc_correct h p n size :
  heap_ok h -> live h !! p = Some n -> 0 < size <= 2 ^ 64 - 8 ->
  exists r h', realloc (Some p) size h = Ret (r, h') /\ heap_ok h' /\
    match r with
    | None => h' = h
    | Some q =>
        (q = p \/ live h !! q = None) /\
        (exists n', size <= n' /\ live h' = <[q := n']> (delete p (live h))) /\
        (forall i, 0 <= i < Z.min n size -> payload h' !! (q + i) = payload h !! (p + i)) /\
        (forall p' m i, p' <> p -> live h !! p' = Some m -> 0 <= i < m ->
           payload h' !! (p' + i) = payload h !! (p' + i))
    end.
Proof.
  intros [R C] Hp Hs. destruct (align8_spec size Hs) as [Ha _].
  destruct (realloc_map h _ p n size R C Hp Hs) as (r & h' & l' & E & R' & C' & Hr).
  destruct (heap_ok_intro _ _ R' C') as [Hok Hl].
  exists r, h'. split; [done |]. split; [done |]. destruct r as [q|]; [| by destruct Hr].
  destruct Hr as (Hq & (n' & Hn' & Hl') & Hk1 & Hk2).
  split; [done |]. split; [| by split]. exists n'. split; [lia |]. by rewrite Hl.
Qed.

(** C8: every heap reached from [heap_init] by any sequence of [malloc],
    [calloc], [realloc] and [free] calls on null or live pointers is consistent,
    and the next such call returns (no stray dereference, no endless walk). *)
Theorem heap_reachable_safe h :
  heap_reach h ->
  heap_ok h /\ forall o, op_valid o h -> exists r h', heap_exec o h = Ret (r, h').
Proof.
  intros H.
  assert (heap_ok h) as Hok.
  { induction H as [h | h o r h' _ IH Hv E].
    - by eapply heap_ok_intro; [apply heap_init_repr |].
    - destruct (heap_exec_ok o h IH Hv) as (r2 & h2 & E2 & Hok). congruence. }
  split; [done |]. intros o Hv.
  destruct (heap_exec_ok o h Hok Hv) as (r & h' & E & _). by exists r, h'.
Qed.

(** No leak and no fragmentation: once nothing is live, the heap is again
    the single free block of [heap_init]. *)
Theorem heap_drained_whole h :
  heap_ok h -> live h = ∅ -> blocks_of h = [(HEAP_SIZE - sizeof_block, true)].
Proof.
  intros [R C] Hl. pose proof (repr_extent _ _ R) as He.
  destruct (coalesced_drained (blocks_of h)) as [s Es].
  - intros Hn. by rewrite Hn in He.
  - done.
  - apply (allocs_empty_free 0); [by apply repr_good in R | done].
  - rewrite Es in He |- *. simpl in He. do 2 f_equal. lia.
Qed.

(** ** The statistics counters *)
Definition in_use (h : heap) : Z := used (blocks_of h).

(** What [heapinfo] prints as "Currently Used" is what is in use. *)
Definition accounted (h : heap) : Prop :=
  u64 (heap_allocated h - heap_freed h) = u64 (in_use h).

Lemma u64_shift a b c : u64 (u64 (a + c) - b) = u64 (a - b + c).
Proof. unfold u64. rewrite Zminus_mod_idemp_l. f_equal. lia. Qed.
Lemma u64_shift_r a b c : u64 (a - u64 (b + c)) = u64 (a - b - c).
Proof. unfold u64. rewrite Zminus_mod_idemp_r. f_equal. lia. Qed.
Lemma u64_congr a b c : u64 a = u64 b -> u64 (a + c) = u64 (b + c).
Proof. unfold u64. intros H. by rewrite <- Zplus_mod_idemp_l, H, Zplus_mod_idemp_l. Qed.

(** [malloc] and [free] keep the counters in step with the heap: "Currently
    Used" stays the number of payload bytes in allocated blocks. *)
Theorem malloc_free_accounted h size p :
  heap_ok h -> accounted h ->
  (forall r h', malloc size h = Ret (r, h') -> accounted h') /\
  (forall h', is_Some (live h !! p) -> free (Some p) h = Ret h' -> accounted h').
Proof.
  unfold accounted, in_use. intros [R C] A. split.
  - intros r h' E. destruct (decide (size = 0)) as [-> | Hs].
    { injection E as <- <-. done. }
    destruct (malloc_repr h _ size R Hs) as [[E' _] |
      (l1 & s & l2 & h2 & El & Has & _ & E' & R' & _ & Ef & Ea)]; rewrite E in E'.
    { by injection E' as -> ->. }
    injection E' as -> <-. rewrite (repr_blocks_of _ _ R'), Ea, Ef, u64_shift.
    rewrite (u64_congr _ _ _ A), El, !used_app. simpl.
    replace (used (carve (align8 size) s)) with (carved (align8 size) s)
      by (unfold carve, carved; destruct (_ <=? _); simpl; lia).
    f_equal. lia.
  - intros h' [n Hp] E. pose proof Hp as (l1 & l2 & El & ->)%allocs_split.
    rewrite Z.add_0_l in *. rewrite El in R.
    destruct (free_repr _ _ _ _ R) as (h2 & E2 & R2 & Ea & Ef & _). rewrite E in E2.
    injection E2 as <-. rewrite (repr_blocks_of _ _ R2), Ea, Ef, u64_shift_r.
    rewrite used_squash, used_app. rewrite El, used_app in A. simpl in A |- *.
    unfold Z.sub at 1. rewrite (u64_congr _ _ _ A). f_equal. lia.
Qed.

(** growing into the next block without splitting counts only the growth the
    caller asked for, although the block takes the whole neighbour: from then on
    "Currently Used" is off by the slack, and the later [free] of the block, which
    counts the whole block, can take it below zero (it then wraps). *)
Theorem realloc_grow_miscounts h l1 s s' l2 size :
  heap_ok h -> accounted h ->
  blocks_of h = l1 ++ (s, false) :: (s', true) :: l2 ->
  0 < size <= 2 ^ 64 - 8 ->
  s < align8 size <= s + sizeof_block + s' ->
  s + sizeof_block + s' < align8 size + sizeof_block + 8 ->
  exists h', realloc (Some (extent l1 + sizeof_block)) size h =
               Ret (Some (extent l1 + sizeof_block), h') /\
    in_use h' = in_use h + sizeof_block + s' /\
    u64 (heap_allocated h' - heap_freed h') =
      u64 (in_use h' - (s + sizeof_block + s' - align8 size)).
Proof.
  unfold accounted, in_use. intros [R C] A El Hs Ha Hslack.
  destruct (align8_spec size Hs) as [_ Hm]. rewrite El in R, A |- *.
  destruct (realloc_grow_repr h l1 s s' l2 (align8 size)
    (Some (extent l1 + sizeof_block + s)) R Ha Hm) as (R' & _ & Ef & Ea).
  destruct (repr_size_bound _ _ _ _ _ R) as (B1 & _ & B3 & B4 & B5 & _ & G2).
  inversion G2 as [|? ? [D1 D2] G3]; subst. simpl in D1, B4, B5.
  pose proof (extent_nonneg _ G3).
  eexists. split.
  - unfold realloc. replace (size =? 0) with false by lia. cbv zeta.
    replace (extent l1 + sizeof_block - sizeof_block) with (extent l1) by lia.
    rewrite (repr_lookup _ _ _ _ _ R). simpl. replace (align8 size <=? s) with false by lia.
    pose proof (repr_seg _ _ R) as Hseg. apply seg_app in Hseg as (_ & _ & Hn & _).
    simpl in Hn. rewrite Z.add_0_l in Hn. rewrite Hn. simpl.
    rewrite u64_id by (unfold is_u64, HEAP_SIZE, sizeof_block in *; lia).
    replace (align8 size <=? s + sizeof_block + s') with true by lia. done.
  - rewrite (repr_blocks_of _ _ R').
    replace (carve (align8 size) (s + sizeof_block + s'))
      with [(s + sizeof_block + s', false)] by (unfold carve; by destruct (Z.leb_spec
        (align8 size + sizeof_block + 8) (s + sizeof_block + s')); [lia |]).
    rewrite Ef, Ea, u64_shift, (u64_congr _ _ _ A), !used_app. simpl.
    split; [lia | f_equal; lia].
Qed.

(** the rounding [(size + 7) & ~7] wraps for the last seven sizes: instead of
    failing, [malloc] then hands out a block with room for fewer than 32 bytes
    whenever any block is free. *)
Theorem malloc_rounding_wraps h size :
  heap_ok h -> 2 ^ 64 - 8 < size < 2 ^ 64 -> (exists s, (s, true) ∈ blocks_of h) ->
  exists p h' n, malloc size h = Ret (Some p, h') /\ live h' !! p = Some n /\ n < 32.
Proof.
  intros [R C] Hs [s Hin]. pose proof (align8_wraps size Hs) as Ha.
  destruct (malloc_map h _ size R C ltac:(lia)) as (r & h' & l' & E & R' & C' & _ & Hr).
  destruct (heap_ok_intro _ _ R' C') as [_ Hl]. rewrite Ha in Hr. destruct r as [p|].
  - destruct Hr as (_ & n & Hn & Hl'). exists p, h', n. split; [done |].
    split; [by rewrite Hl, Hl', lookup_insert_eq | lia].
  - destruct Hr as [_ Hno]. exfalso. apply (proj1 (Forall_forall _ _) Hno _ Hin).
    split; [done |]. pose proof (proj1 (Forall_forall _ _) (repr_good _ _ R) _ Hin) as [? _].
    done.
Qed.

(** ** Witnesses *)
Definition after (o : heap_op) (h : heap) : heap :=
  match heap_exec o h with Ret (_, h') => h' | _ => h end.

Lemma after_ok o h : heap_ok h -> op_valid o h -> heap_ok (after o h).
Proof.
  intros Hok Hv. destruct (heap_exec_ok o h Hok Hv) as (r & h' & E & Hok').
  unfold after. by rewrite E.
Qed.

(** The booted heap, with one block, and with three blocks of which the middle
    one is free again. *)
Definition heap0 : heap := heap_init heap_statics.
Definition heap1 : heap := after (OpMalloc 8) heap0.
Definition heap3 : heap :=
  after (OpFree (Some 56)) (after (OpMalloc 8) (after (OpMalloc 16) heap1)).

Lemma heap0_ok : heap_ok heap0.
Proof. by eapply heap_ok_intro; [apply heap_init_repr |]. Qed.
Lemma heap1_ok : heap_ok heap1.
Proof. apply after_ok; [apply heap0_ok | simpl; lia]. Qed.
Lemma heap3_ok : heap_ok heap3.
Proof.
  unfold heap3. apply after_ok; [apply after_ok; [apply after_ok; [apply heap1_ok |] |] |];
    simpl; try lia. exists 16. by vm_compute.
Qed.

Lemma malloc_correct_witness :
  exists r h', malloc 100 heap0 = Ret (r, h') /\ heap_ok h'.
Proof.
  destruct (malloc_correct heap0 100 heap0_ok ltac:(lia)) as (r & h' & E & Hok & _).
  exists r, h'. exact (conj E Hok).
Defined.

Lemma malloc_best_fit_witness :
  exists l1 s l2, blocks_of heap0 = l1 ++ (s, true) :: l2 /\ 24 = extent l1 + sizeof_block.
Proof.
  destruct (malloc_best_fit heap0 8 24 heap1 heap0_ok ltac:(lia) ltac:(by vm_compute))
    as (l1 & s & l2 & E & Ep & _). by exists l1, s, l2.
Defined.

Lemma free_correct_witness :
  exists h', free (Some 24) heap1 = Ret h' /\ live h' = delete 24 (live heap1).
Proof.
  destruct (free_correct heap1 24 8 heap1_ok ltac:(by vm_compute)) as (h' & E & _ & El & _).
  exists h'. exact (conj E El).
Defined.

Lemma realloc_correct_witness :
  exists r h', realloc (Some 24) 5000 heap3 = Ret (r, h') /\ heap_ok h'.
Proof.
  destruct (realloc_correct heap3 24 8 5000 heap3_ok ltac:(by vm_compute) ltac:(lia))
    as (r & h' & E & Hok & _). exists r, h'. exact (conj E Hok).
Defined.

Lemma heap_reachable_safe_witness : heap_ok heap1.
Proof.
  apply (heap_reachable_safe heap1). apply (reach_step heap0 (OpMalloc 8) (Some 24) heap1).
  - apply reach_init.
  - simpl. lia.
  - by vm_compute.
Defined.

Lemma heap_drained_whole_witness : blocks_of heap0 = [(33554408, true)].
Proof. apply (heap_drained_whole heap0 heap0_ok). by vm_compute. Defined.

Lemma malloc_free_accounted_witness :
  accounted heap1 /\ (forall h', free (Some 24) heap1 = Ret h' -> accounted h').
Proof.
  split; [by vm_compute |]. intros h'.
  apply (malloc_free_accounted heap1 8 24 heap1_ok ltac:(by vm_compute)).
  exists 8. by vm_compute.
Defined.

(** Blocks of 8, 16 (free) and 8 bytes: growing the first to 32 bytes. *)
Lemma realloc_grow_miscounts_witness :
  exists h', realloc (Some 24) 32 heap3 = Ret (Some 24, h') /\
    in_use h' = 56 /\ u64 (heap_allocated h' - heap_freed h') = 40.
Proof.
  destruct (realloc_grow_miscounts heap3 [] 8 16 [(8, false); (33554304, true)] 32 heap3_ok
    ltac:(by vm_compute) ltac:(by vm_compute) ltac:(lia)
    ltac:(change (align8 32) with 32; unfold sizeof_block; lia)
    ltac:(change (align8 32) with 32; unfold sizeof_block; lia)) as (h' & E & Eu & Ec).
  exists h'. split; [exact E |]. rewrite Ec, Eu.
  change (in_use heap3) with 16. split; reflexivity.
Defined.

Lemma malloc_rounding_wraps_witness :
  exists p h' n, malloc (2 ^ 64 - 1) heap0 = Ret (Some p, h') /\
    live h' !! p = Some n /\ n < 32.
Proof.
  apply (malloc_rounding_wraps heap0 _ heap0_ok); [lia |].
  exists (HEAP_SIZE - sizeof_block). rewrite (repr_blocks_of heap0 _ (heap_init_repr _)).
  apply elem_of_cons. by left.
Defined.
