(* ===== verification/Mem.v ===== *)
(** * Memory and string routines ([src/src/kernel/memory.c], [memset] .. [strcpy])

    Memory maps the addresses the code may access to bytes; an access elsewhere
    is [Fault].  A pointer is its address. *)
From S2P Require Import Prelude.

Abbreviation mem := (gmap Z Z).

Definition load (m : mem) (a : Z) : res Z := of_option (m !! a).
Definition store (m : mem) (a v : Z) : res mem :=
  match m !! a with Some _ => Ret (<[a := v]> m) | None => Fault end.

Fixpoint load_list (m : mem) (a : Z) (n : nat) : res (list Z) :=
  match n with
  | O => Ret []
  | S n => b ← load m a; l ← load_list m (a + 1) n; Ret (b :: l)
  end.
Fixpoint store_list (m : mem) (a : Z) (l : list Z) : res mem :=
  match l with
  | [] => Ret m
  | b :: l => m1 ← store m a b; store_list m1 (a + 1) l
  end.

(** Aligned or not, a [u64] access is eight little-endian bytes (x86-64). *)
Definition load64 (m : mem) (a : Z) : res Z := l ← load_list m a 8; Ret (le_num l).
Definition store64 (m : mem) (a v : Z) : res mem := store_list m a (le_bytes 8 v).

(** ** The code *)
Fixpoint memset_loop (n : nat) (m : mem) (p c : Z) : res mem :=
  match n with
  | O => Ret m
  | S n => m1 ← store m p (u8 c); memset_loop n m1 (p + 1) c
  end.
Definition memset (s c n : Z) (m : mem) : res mem := memset_loop (Z.to_nat n) m s c.

(** [while (n && ((uintptr_t)d & 7)) ...] *)
Fixpoint copy_head (fuel : nat) (m : mem) (d s n : Z) : res (mem * Z * Z * Z) :=
  if (n =? 0) || (Z.land d 7 =? 0) then Ret (m, d, s, n) else
  match fuel with
  | O => Spin
  | S fuel =>
      b ← load m s; m1 ← store m d b; copy_head fuel m1 (d + 1) (s + 1) (n - 1)
  end.
(** [while (n >= 8) ...] *)
Fixpoint copy_words (fuel : nat) (m : mem) (d s n : Z) : res (mem * Z * Z * Z) :=
  if n <? 8 then Ret (m, d, s, n) else
  match fuel with
  | O => Spin
  | S fuel =>
      w ← load64 m s; m1 ← store64 m d w; copy_words fuel m1 (d + 8) (s + 8) (n - 8)
  end.
(** [while (n--) *d++ = *s++;] *)
Fixpoint copy_up (n : nat) (m : mem) (d s : Z) : res mem :=
  match n with
  | O => Ret m
  | S n => b ← load m s; m1 ← store m d b; copy_up n m1 (d + 1) (s + 1)
  end.

Definition memcpy (dest src n : Z) (m : mem) : res mem :=
  if (n =? 0) || (dest =? src) then Ret m else
  '(m1, d1, s1, n1) ← copy_head (Z.to_nat n) m dest src n;
  '(m2, d2, s2, n2) ← copy_words (Z.to_nat n) m1 d1 s1 n1;
  copy_up (Z.to_nat n2) m2 d2 s2.

(** [while (n--) *--d = *--s;] *)
Fixpoint copy_down (n : nat) (m : mem) (d s : Z) : res mem :=
  match n with
  | O => Ret m
  | S n =>
      b ← load m (s - 1); m1 ← store m (d - 1) b; copy_down n m1 (d - 1) (s - 1)
  end.

Definition memmove (dest src n : Z) (m : mem) : res mem :=
  if (dest =? src) || (n =? 0) then Ret m else
  if dest <? src then copy_up (Z.to_nat n) m dest src
  else copy_down (Z.to_nat n) m (dest + n) (src + n).

(** String loops visit mapped addresses only, so the memory bounds them. *)
Definition str_fuel (m : mem) : nat := S (size m).

Fixpoint strlen_loop (fuel : nat) (m : mem) (s len : Z) : res Z :=
  match fuel with
  | O => Spin
  | S fuel => c ← load m (s + len); if c =? 0 then Ret len else strlen_loop fuel m s (len + 1)
  end.
Definition strlen (s : Z) (m : mem) : res Z := strlen_loop (str_fuel m) m s 0.

Fixpoint strcmp_loop (fuel : nat) (m : mem) (s1 s2 : Z) : res Z :=
  match fuel with
  | O => Spin
  | S fuel =>
      c1 ← load m s1; c2 ← load m s2;
      if negb (c1 =? 0) && (c1 =? c2) then strcmp_loop fuel m (s1 + 1) (s2 + 1)
      else Ret (c1 - c2)
  end.
Definition strcmp (s1 s2 : Z) (m : mem) : res Z := strcmp_loop (str_fuel m) m s1 s2.

Fixpoint strncmp_loop (n : nat) (m : mem) (s1 s2 : Z) : res Z :=
  match n with
  | O => Ret 0
  | S n =>
      c1 ← load m s1; c2 ← load m s2;
      if negb (c1 =? 0) && (c1 =? c2) then strncmp_loop n m (s1 + 1) (s2 + 1)
      else Ret (c1 - c2)
  end.
Definition strncmp (s1 s2 n : Z) (m : mem) : res Z := strncmp_loop (Z.to_nat n) m s1 s2.

Fixpoint strcpy_loop (fuel : nat) (m : mem) (d s : Z) : res mem :=
  match fuel with
  | O => Spin
  | S fuel =>
      c ← load m s; m1 ← store m d c;
      if c =? 0 then Ret m1 else strcpy_loop fuel m1 (d + 1) (s + 1)
  end.
Definition strcpy (dest src : Z) (m : mem) : res mem := strcpy_loop (str_fuel m) m dest src.

(** ** Regions and bytes *)
Definition mapped (m : mem) (a n : Z) : Prop := forall x, a <= x < a + n -> is_Some (m !! x).
Definition bytes_ok (m : mem) : Prop := map_Forall (fun _ b => is_u8 b) m.

(** [m'] is [m] with [n] bytes copied from [s] to [d], all at once. *)
Definition copied (m : mem) (d s n : Z) (m' : mem) : Prop :=
  forall x, m' !! x = if decide (d <= x < d + n) then m !! (s + (x - d)) else m !! x.

Lemma mapped_sub m a n b k : mapped m a n -> a <= b -> b + k <= a + n -> mapped m b k.
Proof. intros H ? ? x ?. apply H. lia. Qed.

Lemma load_ok m a : is_Some (m !! a) -> exists b, load m a = Ret b /\ m !! a = Some b.
Proof. intros [b Hb]. exists b. unfold load. by rewrite Hb. Qed.

Lemma store_ok m a v : is_Some (m !! a) -> store m a v = Ret (<[a := v]> m).
Proof. intros [b Hb]. unfold store. by rewrite Hb. Qed.

Lemma load_list_ok m n : forall a, mapped m a (Z.of_nat n) ->
  exists l, load_list m a n = Ret l /\ length l = n /\
    forall i, 0 <= i < Z.of_nat n -> l !! Z.to_nat i = m !! (a + i).
Proof.
  induction n as [|n IH]; intros a Hm; simpl.
  - exists []. repeat split; lia.
  - destruct (load_ok m a) as (b & -> & Hb); [apply Hm; lia |]. simpl.
    destruct (IH (a + 1)) as (l & -> & Hl & Hi); [eapply mapped_sub; [done | lia | lia] |].
    simpl. exists (b :: l). split; [done |]. split; [simpl; lia |]. intros i Hi'.
    destruct (decide (i = 0)) as [-> | Hne].
    + simpl. by rewrite Z.add_0_r.
    + replace (Z.to_nat i) with (S (Z.to_nat (i - 1))) by lia. simpl.
      rewrite Hi by lia. f_equal. lia.
Qed.

Lemma store_list_ok l : forall m a, mapped m a (Z.of_nat (length l)) ->
  exists m', store_list m a l = Ret m' /\
    forall x, m' !! x = if decide (a <= x < a + Z.of_nat (length l))
                        then l !! Z.to_nat (x - a) else m !! x.
Proof.
  induction l as [|b l IH]; intros m a Hm; simpl.
  - exists m. split; [done |]. intros x. by rewrite decide_False by lia.
  - simpl in Hm. rewrite store_ok by (apply Hm; lia). simpl.
    destruct (IH (<[a := b]> m) (a + 1)) as (m' & -> & Hx).
    { intros x Hx. rewrite lookup_insert. case_decide; [by eexists |]. apply Hm. lia. }
    exists m'. split; [done |]. intros x. rewrite Hx. repeat case_decide; try lia.
    + replace (Z.to_nat (x - a)) with (S (Z.to_nat (x - (a + 1)))) by lia. done.
    + replace x with a by lia. rewrite Z.sub_diag, lookup_insert_eq. done.
    + by rewrite lookup_insert_ne by lia.
Qed.

(** One word or byte step of a forward copy. *)
Lemma copied_chunk m d s j k mj l :
  0 <= j -> d <= s \/ s + (j + Z.of_nat k) <= d ->
  copied m d s j mj -> mapped m s (j + Z.of_nat k) -> mapped m d (j + Z.of_nat k) ->
  length l = k ->
  (forall i, 0 <= i < Z.of_nat k -> l !! Z.to_nat i = mj !! (s + j + i)) ->
  exists m', store_list mj (d + j) l = Ret m' /\ copied m d s (j + Z.of_nat k) m'.
Proof.
  intros Hj Hdis Hc Hs Hd Hl Hli.
  destruct (store_list_ok l mj (d + j)) as (m' & -> & Hm').
  { intros x Hx. rewrite Hc. case_decide; [lia |]. apply Hd. lia. }
  exists m'. split; [done |]. intros x. rewrite Hm', Hl.
  repeat case_decide; try lia.
  - rewrite Hli by lia. rewrite Hc, decide_False by lia. f_equal. lia.
  - rewrite Hc, decide_True by lia. done.
  - rewrite Hc, decide_False by lia. done.
Qed.

Lemma copied_mapped m d s n m' a k :
  copied m d s n m' -> mapped m s n -> mapped m a k -> mapped m' a k.
Proof. intros Hc Hs Ha x Hx. rewrite Hc. case_decide; [apply Hs; lia | by apply Ha]. Qed.

Lemma copied_0 m d s : copied m d s 0 m.
Proof. intros x. by rewrite decide_False by lia. Qed.

Lemma copied_self m d n : copied m d d n m.
Proof. intros x. case_decide; [f_equal; lia | done]. Qed.

Section Copying.
Context (m : mem) (d s n : Z).
Context (Hsrc : mapped m s n) (Hdst : mapped m d n).

(** A forward copy is safe when it never overwrites bytes it has yet to read. *)
Context (Hfwd : d <= s \/ s + n <= d).

Lemma copied_byte j mj : 0 <= j -> j + 1 <= n -> copied m d s j mj ->
  exists b m', load mj (s + j) = Ret b /\ store mj (d + j) b = Ret m' /\
    copied m d s (j + 1) m'.
Proof using All.
  intros Hj Hn Hc. destruct (load_ok mj (s + j)) as (b & Hb & Hb').
  { eapply copied_mapped; [done | | exact Hsrc | lia].
    eapply mapped_sub; [exact Hsrc | lia | lia]. }
  destruct (copied_chunk m d s j 1 mj [b]) as (m' & Hst & Hc'); try done; try lia.
  - eapply mapped_sub; [exact Hsrc | lia | lia].
  - eapply mapped_sub; [exact Hdst | lia | lia].
  - intros i Hi. replace i with 0 by lia. by rewrite Z.add_0_r.
  - exists b, m'. split; [done |]. split; [| done]. simpl in Hst.
    by destruct (store mj (d + j) b).
Qed.

Lemma copied_word j mj : bytes_ok m -> 0 <= j -> j + 8 <= n -> copied m d s j mj ->
  exists w m', load64 mj (s + j) = Ret w /\ store64 mj (d + j) w = Ret m' /\
    copied m d s (j + 8) m'.
Proof using All.
  intros Hok Hj Hn Hc. unfold load64, store64.
  destruct (load_list_ok mj 8 (s + j)) as (l & -> & Hl & Hi).
  { intros x Hx. eapply copied_mapped; [done | | exact Hsrc | lia].
    eapply mapped_sub; [exact Hsrc | lia | lia]. }
  assert (Forall is_u8 l) as Hu.
  { apply Forall_lookup. intros i b Hb.
    assert (i < 8)%nat by (rewrite <- Hl; by eapply lookup_lt_Some).
    specialize (Hi (Z.of_nat i) ltac:(lia)). rewrite Nat2Z.id, Hb, Hc in Hi.
    symmetry in Hi. case_decide; by apply Hok in Hi. }
  pose proof (le_bytes_num l Hu) as Hle. rewrite Hl in Hle.
  exists (le_num l). rewrite Hle.
  destruct (copied_chunk m d s j 8 mj l) as (m' & Hst & Hc'); try done; try lia.
  - eapply mapped_sub; [exact Hsrc | lia | lia].
  - eapply mapped_sub; [exact Hdst | lia | lia].
  - by exists m'.
Qed.

Lemma copy_up_ok k : forall j mj, 0 <= j -> Z.of_nat k = n - j -> copied m d s j mj ->
  exists m', copy_up k mj (d + j) (s + j) = Ret m' /\ copied m d s n m'.
Proof using All.
  induction k as [|k IH]; intros j mj Hj Hk Hc; simpl.
  - exists mj. split; [done |]. by replace n with j by lia.
  - destruct (copied_byte j mj) as (b & m1 & -> & E & Hc1); [lia | lia | done |].
    simpl. rewrite E. simpl. rewrite <- !Z.add_assoc.
    apply IH; [lia | lia | done].
Qed.

Lemma copy_head_ok fuel : forall j mj,
  0 <= j <= n -> n - j <= Z.of_nat fuel -> copied m d s j mj ->
  exists j' m', copy_head fuel mj (d + j) (s + j) (n - j) =
      Ret (m', d + j', s + j', n - j') /\ j <= j' <= n /\ copied m d s j' m'.
Proof using All.
  induction fuel as [|fuel IH]; intros j mj Hj Hf Hc; simpl;
    (destruct ((n - j =? 0) || (Z.land (d + j) 7 =? 0)) eqn:E;
     [exists j, mj; split; [done |]; split; [lia | done] |]).
  - lia.
  - destruct (copied_byte j mj) as (b & m1 & -> & E1 & Hc1); [lia | lia | done |].
    simpl. rewrite E1. simpl. rewrite <- !Z.add_assoc.
    replace (n - j - 1) with (n - (j + 1)) by lia.
    destruct (IH (j + 1) m1) as (j' & m' & -> & ? & ?); [lia | lia | done |].
    exists j', m'. split; [done |]. split; [lia | done].
Qed.

Lemma copy_words_ok fuel : forall j mj, bytes_ok m ->
  0 <= j <= n -> n - j <= Z.of_nat fuel -> copied m d s j mj ->
  exists j' m', copy_words fuel mj (d + j) (s + j) (n - j) =
      Ret (m', d + j', s + j', n - j') /\ j <= j' <= n /\ copied m d s j' m'.
Proof using All.
  induction fuel as [|fuel IH]; intros j mj Hok Hj Hf Hc; cbn [copy_words];
    (destruct (n - j <? 8) eqn:E;
     [exists j, mj; split; [done |]; split; [lia | done] |]).
  - lia.
  - destruct (copied_word j mj) as (w & m1 & -> & E1 & Hc1); [done | lia | lia | done |].
    simpl. rewrite E1. simpl. rewrite <- !Z.add_assoc.
    replace (n - j - 8) with (n - (j + 8)) by lia.
    destruct (IH (j + 8) m1) as (j' & m' & -> & ? & ?); [done | lia | lia | done |].
    exists j', m'. split; [done |]. split; [lia | done].
Qed.

Lemma memcpy_ok : bytes_ok m -> 0 <= n ->
  exists m', memcpy d s n m = Ret m' /\ copied m d s n m'.
Proof using All.
  intros Hok Hn. unfold memcpy.
  destruct ((n =? 0) || (d =? s)) eqn:E.
  { exists m. split; [done |]. destruct (decide (n = 0)) as [-> | Hne]; [apply copied_0 |].
    replace s with d by lia. apply copied_self. }
  pose proof (copy_head_ok (Z.to_nat n) 0 m ltac:(lia) ltac:(lia) (copied_0 m d s)) as H1.
  rewrite !Z.add_0_r, Z.sub_0_r in H1. destruct H1 as (j1 & m1 & -> & Hj1 & Hc1). simpl.
  destruct (copy_words_ok (Z.to_nat n) j1 m1 Hok ltac:(lia) ltac:(lia) Hc1)
    as (j2 & m2 & -> & Hj2 & Hc2). simpl.
  apply copy_up_ok; [lia | lia | done].
Qed.
End Copying.

(** The mirror image: a backward copy, from the top. *)
Definition copied_top (m : mem) (d s n j : Z) (m' : mem) : Prop :=
  forall x, m' !! x = if decide (d + j <= x < d + n) then m !! (s + (x - d)) else m !! x.

Lemma copy_down_ok k : forall m d s n mj,
  mapped m s n -> mapped m d n -> s <= d -> Z.of_nat k <= n ->
  copied_top m d s n (Z.of_nat k) mj ->
  exists m', copy_down k mj (d + Z.of_nat k) (s + Z.of_nat k) = Ret m' /\
    copied m d s n m'.
Proof.
  induction k as [|k IH]; intros m d s n mj Hs Hd Hle Hk Hc; cbn [copy_down].
  - exists mj. split; [done |]. intros x. rewrite Hc. by rewrite Z.add_0_r.
  - replace (d + Z.of_nat (S k) - 1) with (d + Z.of_nat k) by lia.
    replace (s + Z.of_nat (S k) - 1) with (s + Z.of_nat k) by lia.
    destruct (load_ok mj (s + Z.of_nat k)) as (b & -> & Hb).
    { rewrite Hc. case_decide; apply Hs; lia. }
    simpl. rewrite store_ok by (rewrite Hc; case_decide; [apply Hs | apply Hd]; lia).
    simpl. apply IH; [done | done | lia | lia |].
    intros x. rewrite lookup_insert. rewrite Hc, decide_False in Hb by lia.
    case_decide as Hx; [| rewrite Hc]; repeat case_decide; try lia; try done.
    rewrite <- Hb. f_equal. lia.
Qed.

(** ** Strings *)
(** The C string at [p] has the characters [str]. *)
Fixpoint cstr (m : mem) (p : Z) (str : list Z) : Prop :=
  match str with
  | [] => m !! p = Some 0
  | c :: str => m !! p = Some c /\ c <> 0 /\ cstr m (p + 1) str
  end.

(** What [strcmp] computes on the characters. *)
Fixpoint str_diff (a b : list Z) : Z :=
  match a, b with
  | [], [] => 0
  | [], y :: _ => 0 - y
  | x :: _, [] => x - 0
  | x :: a, y :: b => if x =? y then str_diff a b else x - y
  end.

Lemma mapped_size m a k : mapped m a (Z.of_nat k) -> (k <= size m)%nat.
Proof.
  intros H. rewrite <- size_dom.
  assert (list_to_set (seqZ a (Z.of_nat k)) ⊆ dom m) as Hsub.
  { intros x Hx. apply elem_of_list_to_set, elem_of_seqZ in Hx. apply elem_of_dom, H. lia. }
  apply subseteq_size in Hsub. rewrite size_list_to_set in Hsub by apply NoDup_seqZ.
  rewrite length_seqZ in Hsub. lia.
Qed.

Lemma cstr_mapped m str : forall p, cstr m p str -> mapped m p (Z.of_nat (S (length str))).
Proof.
  induction str as [|c str IH]; intros p H x Hx; simpl in *.
  - replace x with p by lia. by eexists.
  - destruct H as (H1 & _ & H2). destruct (decide (x = p)) as [-> | Hne]; [by eexists |].
    apply (IH (p + 1)); [done | lia].
Qed.

Lemma cstr_fuel m p str : cstr m p str -> (length str < str_fuel m)%nat.
Proof. intros H%cstr_mapped%mapped_size. unfold str_fuel. lia. Qed.

Lemma strlen_loop_ok str : forall fuel m s len,
  cstr m (s + len) str -> (length str < fuel)%nat ->
  strlen_loop fuel m s len = Ret (len + Z.of_nat (length str)).
Proof.
  induction str as [|c str IH]; intros fuel m s len H Hf; (destruct fuel; [lia |]).
  - simpl in *. unfold load. rewrite H. simpl. f_equal. lia.
  - destruct H as (H1 & H2 & H3). simpl. unfold load. rewrite H1. simpl.
    rewrite (proj2 (Z.eqb_neq c 0)) by done.
    rewrite IH; [simpl; f_equal; lia | by rewrite Z.add_assoc | simpl in Hf; lia].
Qed.

Lemma strcmp_loop_ok a : forall b fuel m p q,
  cstr m p a -> cstr m q b -> (length a < fuel)%nat ->
  strcmp_loop fuel m p q = Ret (str_diff a b).
Proof.
  induction a as [|x a IH]; intros b fuel m p q Ha Hb Hf; (destruct fuel; [lia |]);
    destruct b as [|y b]; simpl in Ha, Hb |- *; unfold load.
  - by rewrite Ha, Hb.
  - destruct Hb as (Hb & _). by rewrite Ha, Hb.
  - destruct Ha as (Ha & Hx & _). rewrite Ha, Hb. simpl.
    rewrite (proj2 (Z.eqb_neq x 0)) by done. simpl. done.
  - destruct Ha as (Ha & Hx & Ha'), Hb as (Hb & Hy & Hb'). rewrite Ha, Hb. simpl.
    rewrite (proj2 (Z.eqb_neq x 0)) by done. simpl.
    destruct (x =? y); [| done]. apply IH; [done | done | simpl in Hf; lia].
Qed.

Lemma strncmp_loop_ok n : forall a b m p q,
  cstr m p a -> cstr m q b ->
  strncmp_loop n m p q = Ret (str_diff (take n a) (take n b)).
Proof.
  induction n as [|n IH]; intros a b m p q Ha Hb; [done |].
  destruct a as [|x a], b as [|y b]; simpl in Ha, Hb |- *; unfold load.
  - by rewrite Ha, Hb.
  - destruct Hb as (Hb & _). by rewrite Ha, Hb.
  - destruct Ha as (Ha & Hx & _). rewrite Ha, Hb. simpl.
    rewrite (proj2 (Z.eqb_neq x 0)) by done. done.
  - destruct Ha as (Ha & Hx & Ha'), Hb as (Hb & Hy & Hb'). rewrite Ha, Hb. simpl.
    rewrite (proj2 (Z.eqb_neq x 0)) by done. simpl.
    destruct (x =? y); [| done]. by apply IH.
Qed.

Lemma str_diff_eq a b :
  Forall (fun c => c <> 0) a -> Forall (fun c => c <> 0) b -> str_diff a b = 0 <-> a = b.
Proof.
  intros Ha. revert b; induction Ha as [|x a Hx Ha IH]; intros b Hb;
    destruct Hb as [|y b Hy Hb]; simpl; split; intros H; try done; try lia.
  - destruct (x =? y) eqn:E; [| lia]. apply IH in H; [| done]. f_equal; [lia | done].
  - injection H as <- <-. rewrite Z.eqb_refl. by apply IH.
Qed.

Lemma cstr_nonzero m str : forall p, cstr m p str -> Forall (fun c => c <> 0) str.
Proof.
  induction str as [|c str IH]; intros p; [done |]. intros (_ & Hc & H).
  constructor; [done | by eapply IH].
Qed.

Lemma cstr_shift m m' str : forall d s,
  (forall i, 0 <= i < Z.of_nat (S (length str)) -> m' !! (d + i) = m !! (s + i)) ->
  cstr m s str -> cstr m' d str.
Proof.
  induction str as [|c str IH]; intros d s Ha H; cbn [cstr length] in *;
    pose proof (Ha 0 ltac:(lia)) as H0; rewrite !Z.add_0_r in H0.
  - by rewrite H0.
  - destruct H as (H1 & H2 & H3). rewrite H0. split; [done |]. split; [done |].
    apply (IH _ (s + 1)); [| done]. intros i Hi. rewrite <- !Z.add_assoc. apply Ha. lia.
Qed.

Lemma strcpy_loop_ok str : forall fuel m d s,
  let k := Z.of_nat (S (length str)) in
  cstr m s str -> mapped m d k -> d + k <= s \/ s + k <= d ->
  (length str < fuel)%nat ->
  exists m', strcpy_loop fuel m d s = Ret m' /\ copied m d s k m'.
Proof.
  induction str as [|c str IH]; intros fuel m d s k Hs Hd Hdis Hf;
    (destruct fuel as [|fuel]; [lia |]); cbn [strcpy_loop cstr] in *; subst k.
  - unfold load. rewrite Hs. simpl. rewrite store_ok by (apply Hd; lia). simpl.
    eexists; split; [done |]. intros x. rewrite lookup_insert. repeat case_decide;
      simpl in *; try lia; [| done]. rewrite <- Hs. f_equal. lia.
  - destruct Hs as (Hc & Hne & Hs). unfold load. rewrite Hc. simpl.
    rewrite store_ok by (apply Hd; lia). simpl.
    rewrite (proj2 (Z.eqb_neq c 0)) by done. cbn [length] in *.
    destruct (IH fuel (<[d := c]> m) (d + 1) (s + 1)) as (m' & -> & Hm'); try lia.
    + eapply cstr_shift; [| done]. intros i Hi. rewrite lookup_insert_ne; [done | lia].
    + intros x Hx. rewrite lookup_insert. case_decide; [by eexists | apply Hd; lia].
    + exists m'. split; [done |]. intros x. rewrite Hm', !lookup_insert.
      repeat case_decide; try lia; try done.
      * f_equal. lia.
      * replace x with d by lia. rewrite Z.sub_diag, Z.add_0_r. by rewrite Hc.
Qed.

(** ** The properties *)

(** [memcpy], with its unaligned head, its 8-byte words and its tail, copies
    [n] bytes and changes nothing else, whenever the regions are mapped and the
    copy never reaches bytes it has still to read (disjoint regions, or a
    destination at or below the source). *)
Theorem memcpy_correct m dest src n :
  bytes_ok m -> 0 <= n -> mapped m src n -> mapped m dest n ->
  dest <= src \/ src + n <= dest ->
  exists m', memcpy dest src n m = Ret m' /\ copied m dest src n m'.
Proof. intros Hok Hn Hs Hd Hf. by apply memcpy_ok. Qed.

(** [memmove] copies [n] bytes and changes nothing else for every pair of
    mapped regions, however they overlap. *)
Theorem memmove_correct m dest src n :
  0 <= n -> mapped m src n -> mapped m dest n ->
  exists m', memmove dest src n m = Ret m' /\ copied m dest src n m'.
Proof.
  intros Hn Hs Hd. unfold memmove. destruct ((dest =? src) || (n =? 0)) eqn:E.
  { exists m. split; [done |]. destruct (decide (n = 0)) as [-> | Hne]; [apply copied_0 |].
    replace src with dest by lia. apply copied_self. }
  destruct (dest <? src) eqn:El.
  - pose proof (copy_up_ok m dest src n Hs Hd ltac:(lia) (Z.to_nat n) 0 m) as H.
    rewrite !Z.add_0_r in H. apply H; [lia | lia | apply copied_0].
  - pose proof (copy_down_ok (Z.to_nat n) m dest src n m Hs Hd) as H.
    rewrite Z2Nat.id in H by done. apply H; [lia | lia |].
    intros x. by rewrite decide_False by lia.
Qed.

(** On C strings, [strlen] is the length, [strcmp] the difference at the first
    differing character (hence 0 exactly on equal strings) and [strncmp] the same on
    the first [n] characters; the walks end. *)
Theorem string_routines_correct m p q a b n :
  cstr m p a -> cstr m q b ->
  strlen p m = Ret (Z.of_nat (length a)) /\
  strcmp p q m = Ret (str_diff a b) /\ (str_diff a b = 0 <-> a = b) /\
  strncmp p q n m = Ret (str_diff (take (Z.to_nat n) a) (take (Z.to_nat n) b)).
Proof.
  intros Ha Hb. split; [| split; [| split]].
  - unfold strlen. rewrite (strlen_loop_ok a); [f_equal; lia | by rewrite Z.add_0_r |].
    by apply cstr_fuel in Ha.
  - apply strcmp_loop_ok; [done | done | by apply cstr_fuel in Ha].
  - apply str_diff_eq; by eapply cstr_nonzero.
  - by apply strncmp_loop_ok.
Qed.

(** [strcpy] of a C string into a disjoint region with room for it and its
    terminator copies exactly those bytes; the destination then is that string. *)
Theorem strcpy_correct m dest src str :
  let k := Z.of_nat (S (length str)) in
  cstr m src str -> mapped m dest k -> dest + k <= src \/ src + k <= dest ->
  exists m', strcpy dest src m = Ret m' /\ copied m dest src k m' /\ cstr m' dest str.
Proof.
  intros k Hs Hd Hdis.
  destruct (strcpy_loop_ok str (str_fuel m) m dest src Hs Hd Hdis (cstr_fuel _ _ _ Hs))
    as (m' & E & Hc).
  exists m'. split; [done |]. split; [done |]. eapply cstr_shift; [| exact Hs].
  intros i Hi. rewrite Hc, decide_True by (unfold k in *; lia). f_equal. lia.
Qed.

(** ** Witnesses *)
(** Sixty-four bytes from address 3; "abc" at 40. *)
Definition mem0 : mem :=
  list_to_map (zip (seqZ 3 64) (replicate 37 7 ++ [97; 98; 99; 0] ++ replicate 23 0)).

Lemma mem0_ok : bytes_ok mem0.
Proof. unfold bytes_ok. apply (bool_decide_unpack _). by vm_compute. Qed.

Lemma mem0_mapped a n : 3 <= a -> a + n <= 67 -> mapped mem0 a n.
Proof.
  intros Ha Hn x Hx. apply elem_of_dom.
  assert (list_to_set (seqZ 3 64) = dom mem0) as <- by (by vm_compute).
  apply elem_of_list_to_set, elem_of_seqZ. lia.
Qed.

Lemma memcpy_correct_witness :
  exists m', memcpy 4 9 30 mem0 = Ret m' /\ copied mem0 4 9 30 m'.
Proof.
  apply memcpy_correct; [apply mem0_ok | lia | | | left; lia]; apply mem0_mapped; lia.
Defined.

Lemma memmove_correct_witness :
  exists m', memmove 9 4 30 mem0 = Ret m' /\ copied mem0 9 4 30 m'.
Proof. apply memmove_correct; [lia | |]; apply mem0_mapped; lia. Defined.

Lemma string_routines_correct_witness :
  strlen 40 mem0 = Ret 3 /\ strcmp 40 41 mem0 = Ret (-1).
Proof.
  destruct (string_routines_correct mem0 40 41 [97; 98; 99] [98; 99] 2) as (H1 & H2 & _);
    [vm_compute; repeat split; discriminate | vm_compute; repeat split; discriminate |].
  split; [exact H1 | exact H2].
Defined.

Lemma strcpy_correct_witness :
  exists m', strcpy 10 40 mem0 = Ret m' /\ cstr m' 10 [97; 98; 99].
Proof.
  destruct (strcpy_correct mem0 10 40 [97; 98; 99]) as (m' & E & _ & H).
  - vm_compute; repeat split; discriminate.
  - apply mem0_mapped; simpl; lia.
  - left. simpl. lia.
  - exists m'. exact (conj E H).
Defined.
