(* ===== verification/Phys.v ===== *)
(** * Physical memory ([src/src/kernel/memory.c], [align_up] .. [phys_alloc];
    [src/src/kernel/main.c], [pmm_init] and the kernel range of [_start])

    The boot loader's memory map is a list of entries, the [NULL] response
    [None].  [memory_set_memmap] chooses one region of it, from which
    [phys_alloc] hands out memory by bumping a pointer. *)
From S2P Require Import Prelude.

Definition PAGE_SIZE : Z := 4096.
Definition LIMINE_MEMMAP_USABLE : Z := 0.

Record memmap_entry := MemmapEntry { base : Z; length_of : Z; type_of : Z }.

Record phys := Phys {
  hhdm_offset : Z;
  memmap_response : option (list memmap_entry);
  phys_alloc_base : Z;
  phys_alloc_end : Z;
  phys_alloc_next : Z;
  pmm_total_pages : Z;
  pmm_used_pages : Z;
  pmm_free_pages : Z;
}.

Definition phys_statics : phys := Phys 0 None 0 0 0 0 0 0.

(** ** The code *)
Definition u64_not (x : Z) : Z := 2 ^ 64 - 1 - x.

Definition align_up (value align : Z) : Z :=
  if align =? 0 then value else
  let mask := u64 (align - 1) in
  Z.land (u64 (value + mask)) (u64_not mask).

Definition align_down (value align : Z) : Z :=
  if align =? 0 then value else Z.land value (u64_not (u64 (align - 1))).

Definition ranges_overlap (a0 a1 b0 b1 : Z) : bool := (a0 <? b1) && (b0 <? a1).

Definition memory_set_hhdm_offset (offset : Z) (s : phys) : phys :=
  Phys offset (memmap_response s) (phys_alloc_base s) (phys_alloc_end s)
       (phys_alloc_next s) (pmm_total_pages s) (pmm_used_pages s) (pmm_free_pages s).

(** The candidate region of one entry, or [None] where the loop [continue]s. *)
Definition entry_region (kernel_phys_base kernel_phys_end : Z) (entry : memmap_entry)
    : option (Z * Z) :=
  if negb (type_of entry =? LIMINE_MEMMAP_USABLE) then None else
  let b := base entry in
  let e := u64 (base entry + length_of entry) in
  let cut :=
    if (kernel_phys_base <? kernel_phys_end)
       && ranges_overlap b e kernel_phys_base kernel_phys_end then
      if kernel_phys_end <? e then Some (kernel_phys_end, e)
      else if b <? kernel_phys_base then Some (b, kernel_phys_base)
      else None
    else Some (b, e) in
  match cut with
  | None => None
  | Some (b, e) =>
      let b := align_up b PAGE_SIZE in
      let e := align_down e PAGE_SIZE in
      if e <=? b then None else Some (b, e)
  end.

(** The loop over the entries; the accumulator is [(best_base, best_len)]. *)
Fixpoint best_region (kb ke : Z) (entries : list memmap_entry) (best : Z * Z) : Z * Z :=
  match entries with
  | [] => best
  | entry :: entries =>
      match entry_region kb ke entry with
      | Some (b, e) =>
          best_region kb ke entries (if best.2 <? e - b then (b, e - b) else best)
      | None => best_region kb ke entries best
      end
  end.

Definition set_region (memmap : option (list memmap_entry)) (b e n : Z) (s : phys) : phys :=
  Phys (hhdm_offset s) memmap b e n (pmm_total_pages s) (pmm_used_pages s) (pmm_free_pages s).

Definition memory_set_memmap (memmap : option (list memmap_entry))
    (kernel_phys_base kernel_phys_end : Z) (s : phys) : phys :=
  let s := set_region memmap 0 0 0 s in
  match memmap with
  | None => s
  | Some entries =>
      let best := best_region kernel_phys_base kernel_phys_end entries (0, 0) in
      if 0 <? best.2 then set_region memmap best.1 (u64 (best.1 + best.2)) best.1 s else s
  end.

Definition phys_to_virt (p : Z) (s : phys) : Z := u64 (p + hhdm_offset s).

(** The result pairs the virtual address with [*out_phys]. *)
Definition phys_alloc (size align : Z) (s : phys) : option (Z * Z) * phys :=
  if (size =? 0) || (phys_alloc_end s <=? phys_alloc_base s) then (None, s) else
  let align_val := if align =? 0 then 8 else align in
  let next := align_up (phys_alloc_next s) align_val in
  if phys_alloc_end s <? u64 (next + size) then (None, s) else
  let s' := set_region (memmap_response s) (phys_alloc_base s) (phys_alloc_end s)
                       (u64 (next + size)) s in
  (Some (phys_to_virt next s', next), s').

Fixpoint pmm_loop (entries : list memmap_entry) (s : phys) : phys :=
  match entries with
  | [] => s
  | entry :: entries =>
      let pages := length_of entry / PAGE_SIZE in
      let usable := type_of entry =? LIMINE_MEMMAP_USABLE in
      pmm_loop entries
        (Phys (hhdm_offset s) (memmap_response s) (phys_alloc_base s) (phys_alloc_end s)
              (phys_alloc_next s) (u64 (pmm_total_pages s + pages))
              (if usable then pmm_used_pages s else u64 (pmm_used_pages s + pages))
              (if usable then u64 (pmm_free_pages s + pages) else pmm_free_pages s))
  end.

Definition pmm_init (response : option (list memmap_entry)) (s : phys) : phys :=
  match response with None => s | Some entries => pmm_loop entries s end.

(** The kernel's physical range, from the kernel-address response (virtual and
    physical base) and the linker symbol [__kernel_end]. *)
Definition kernel_phys_range (response : option (Z * Z)) (kernel_end : Z) : Z * Z :=
  match response with
  | None => (0, 0)
  | Some (virt_base, phys_base) =>
      (phys_base,
       if virt_base <? kernel_end then u64 (phys_base + u64 (kernel_end - virt_base)) else 0)
  end.

(** The part of [_start] that sets up physical memory. *)
Definition start_memory (hhdm : option Z) (kernel : option (Z * Z)) (kernel_end : Z)
    (memmap : option (list memmap_entry)) (s : phys) : phys :=
  let s := memory_set_hhdm_offset (default 0 hhdm) s in
  let kr := kernel_phys_range kernel kernel_end in
  memory_set_memmap memmap kr.1 kr.2 (pmm_init memmap s).

(** ** Alignment *)
Definition pow2 (a : Z) : Prop := exists k, 0 <= k < 64 /\ a = 2 ^ k.

Lemma u64_not_mask k : 0 <= k < 64 -> u64_not (u64 (2 ^ k - 1)) = 2 ^ 64 - 2 ^ k.
Proof.
  intros Hk. unfold u64_not.
  rewrite u64_id; [lia |]. unfold is_u64.
  pose proof (Z.pow_lt_mono_r 2 k 64). pose proof (Z.pow_pos_nonneg 2 k). lia.
Qed.

Lemma align_down_spec v a : pow2 a -> is_u64 v -> align_down v a = v - v mod a.
Proof.
  intros (k & Hk & ->) Hv. unfold align_down.
  pose proof (Z.pow_pos_nonneg 2 k).
  destruct (Z.eqb_spec (2 ^ k) 0); [lia |].
  rewrite u64_not_mask by done. apply land_high_mask; [lia | done].
Qed.

Lemma mod_sub_mod v a : 0 < a -> (v - v mod a) mod a = 0.
Proof.
  intros Ha. rewrite Zminus_mod, Z.mod_mod, <- Zminus_mod, Z.sub_diag by lia.
  apply Z.mod_0_l. lia.
Qed.

Lemma align_up_spec v a : pow2 a -> 0 <= v -> v + a <= 2 ^ 64 ->
  v <= align_up v a < v + a /\ align_up v a mod a = 0.
Proof.
  intros (k & Hk & ->) Hv Hle. unfold align_up.
  pose proof (Z.pow_pos_nonneg 2 k).
  destruct (Z.eqb_spec (2 ^ k) 0); [lia |].
  rewrite u64_not_mask by done. rewrite (u64_id (2 ^ k - 1)) by (unfold is_u64; lia).
  rewrite u64_id by (unfold is_u64; lia).
  rewrite land_high_mask by lia.
  pose proof (Z.mod_pos_bound (v + (2 ^ k - 1)) (2 ^ k)).
  split; [lia | apply mod_sub_mod; lia].
Qed.

Lemma PAGE_SIZE_pow2 : pow2 PAGE_SIZE.
Proof. exists 12. split; [lia | reflexivity]. Qed.

(** ** Choosing the region *)
Definition entry_ok (e : memmap_entry) : Prop :=
  0 <= base e /\ 0 <= length_of e /\ base e + length_of e <= 2 ^ 64 - PAGE_SIZE.

(** [[b, e)] is a page-aligned range of a usable entry that avoids the kernel. *)
Definition allocatable (kb ke : Z) (entries : list memmap_entry) (b e : Z) : Prop :=
  b < e /\ b mod PAGE_SIZE = 0 /\ e mod PAGE_SIZE = 0 /\ (ke <= kb \/ e <= kb \/ ke <= b) /\
  exists en, en ∈ entries /\ type_of en = LIMINE_MEMMAP_USABLE /\
    base en <= b /\ e <= base en + length_of en.

Lemma entry_region_sound kb ke entries en b e :
  en ∈ entries -> entry_ok en -> is_u64 kb -> is_u64 ke -> entry_region kb ke en = Some (b, e) ->
  allocatable kb ke entries b e.
Proof.
  intros Hin (Hb & Hl & Hm) Hkb Hke. unfold entry_region, is_u64 in *.
  unfold PAGE_SIZE in Hm.
  destruct (Z.eqb_spec (type_of en) LIMINE_MEMMAP_USABLE) as [Ht | _]; [| done]. cbn [negb].
  rewrite u64_id by (unfold is_u64; lia).
  set (cut := if (kb <? ke) && _ then _ else _).
  assert (forall b0 e0, cut = Some (b0, e0) ->
    base en <= b0 <= 2 ^ 64 - 4096 /\ e0 <= base en + length_of en /\ 0 <= e0 /\
    (ke <= kb \/ e0 <= kb \/ ke <= b0)) as Hcut.
  { intros b0 e0. unfold cut, ranges_overlap.
    destruct (Z.ltb_spec kb ke); cbn [andb]; [| intros [= <- <-]; lia].
    destruct (Z.ltb_spec (base en) ke); cbn [andb]; [| intros [= <- <-]; lia].
    destruct (Z.ltb_spec kb (base en + length_of en)); cbn [andb]; [| intros [= <- <-]; lia].
    destruct (Z.ltb_spec ke (base en + length_of en)); [intros [= <- <-]; lia |].
    destruct (Z.ltb_spec (base en) kb); [intros [= <- <-]; lia | done]. }
  destruct cut as [[b0 e0]|]; [| done].
  destruct (Hcut b0 e0 eq_refl) as (H1 & H2 & H3 & H4). clear Hcut.
  destruct (align_up_spec b0 PAGE_SIZE PAGE_SIZE_pow2) as [Hu1 Hu2];
    [lia | unfold PAGE_SIZE; lia |].
  rewrite (align_down_spec e0) by (apply PAGE_SIZE_pow2 || (unfold is_u64; lia)).
  destruct (Z.leb_spec (e0 - e0 mod PAGE_SIZE) (align_up b0 PAGE_SIZE)); [done |].
  intros [= <- <-]. unfold allocatable, PAGE_SIZE in *.
  split; [done |]. split; [done |].
  split; [apply mod_sub_mod; lia |]. split; [lia |].
  exists en. repeat split; [done | done | lia | lia].
Qed.

(** An aligned range lies inside the aligned candidate. *)
Lemma entry_region_complete kb ke en b e :
  entry_ok en -> is_u64 kb -> is_u64 ke -> type_of en = LIMINE_MEMMAP_USABLE ->
  b < e -> b mod PAGE_SIZE = 0 -> e mod PAGE_SIZE = 0 ->
  base en <= b -> e <= base en + length_of en ->
  (ke <= kb \/ ke <= b \/ e <= kb /\ base en + length_of en <= ke) ->
  exists b' e', entry_region kb ke en = Some (b', e') /\ b' <= b /\ e <= e'.
Proof.
  intros (Hb & Hl & Hm) Hkb Hke Ht Hlt Hb0 He0 Hbb Hee Hk. unfold entry_region, is_u64 in *.
  unfold PAGE_SIZE in *. rewrite Ht. cbn [Z.eqb LIMINE_MEMMAP_USABLE negb].
  rewrite u64_id by (unfold is_u64; lia).
  assert (forall b0 e0, 0 <= b0 <= b -> e <= e0 < 2 ^ 64 -> exists b' e',
    (if align_down e0 4096 <=? align_up b0 4096 then None
     else Some (align_up b0 4096, align_down e0 4096)) = Some (b', e') /\ b' <= b /\ e <= e')
    as Hfin.
  { intros b0 e0 H0 H1.
    destruct (align_up_spec b0 4096 PAGE_SIZE_pow2) as [Hu1 Hu2]; [lia | lia |].
    rewrite (align_down_spec e0) by (apply PAGE_SIZE_pow2 || (unfold is_u64; lia)).
    destruct (Z.leb_spec (e0 - e0 mod 4096) (align_up b0 4096)); [lia |].
    do 2 eexists. split; [done |]. lia. }
  unfold ranges_overlap.
  destruct (Z.ltb_spec kb ke); cbn [andb]; [| apply Hfin; lia].
  destruct (Z.ltb_spec (base en) ke); cbn [andb]; [| apply Hfin; lia].
  destruct (Z.ltb_spec kb (base en + length_of en)); cbn [andb]; [| apply Hfin; lia].
  destruct (Z.ltb_spec ke (base en + length_of en)); [apply Hfin; lia |].
  destruct (Z.ltb_spec (base en) kb); [apply Hfin; lia | lia].
Qed.

Lemma best_region_spec kb ke (P : Z -> Z -> Prop) entries : forall best,
  (forall en b e, en ∈ entries -> entry_region kb ke en = Some (b, e) -> b < e -> P b e) ->
  (forall en b e, entry_region kb ke en = Some (b, e) -> b < e) ->
  0 <= best.2 -> (0 < best.2 -> P best.1 (best.1 + best.2)) ->
  let r := best_region kb ke entries best in
  best.2 <= r.2 /\ (0 < r.2 -> P r.1 (r.1 + r.2)) /\
  (forall en b e, en ∈ entries -> entry_region kb ke en = Some (b, e) -> e - b <= r.2).
Proof.
  induction entries as [|en entries IH]; intros best HP Hlt Hb0 Hb; cbn [best_region].
  - cbv zeta. split; [lia |]. split; [done |]. intros ? ? ? ?%elem_of_nil; done.
  - assert (forall en b e, en ∈ entries -> entry_region kb ke en = Some (b, e) ->
                           b < e -> P b e) as HP'.
    { intros en' b e Hin. apply HP. by right. }
    destruct (entry_region kb ke en) as [[b e]|] eqn:He.
    + pose proof (Hlt en b e He) as Hbe.
      set (best' := if best.2 <? e - b then (b, e - b) else best).
      assert (best.2 <= best'.2 /\ e - b <= best'.2 /\ 
              (0 < best'.2 -> P best'.1 (best'.1 + best'.2))) as (H1 & H2 & H3).
      { unfold best'. destruct (Z.ltb_spec best.2 (e - b)); cbn [fst snd]; split_and!; try lia.
        - intros _. replace (b + (e - b)) with e by lia. apply (HP en); [by left | done | done].
        - done. }
      destruct (IH best' HP' Hlt ltac:(lia) H3) as (I1 & I2 & I3). cbv zeta.
      split; [lia |]. split; [done |].
      intros en' b' e' [-> | Hin]%elem_of_cons He'; [| eauto].
      rewrite He in He'. injection He' as <- <-. lia.
    + destruct (IH best HP' Hlt Hb0 Hb) as (I1 & I2 & I3). cbv zeta.
      split; [lia |]. split; [done |].
      intros en' b' e' [-> | Hin]%elem_of_cons He'; [congruence | eauto].
Qed.

(** ** Handing it out *)
Definition align_of (align : Z) : Z := if align =? 0 then 8 else align.

(** A request of at least one byte whose rounding and sum stay below 2^64. *)
Definition request_ok (s : phys) (r : Z * Z) : Prop :=
  0 < r.1 /\ pow2 (align_of r.2) /\ phys_alloc_end s + align_of r.2 + r.1 <= 2 ^ 64.

Definition region_ok (s : phys) : Prop :=
  0 <= phys_alloc_base s <= phys_alloc_next s /\ phys_alloc_next s <= phys_alloc_end s.

(** A sequence of requests [(size, align)]. *)
Fixpoint phys_run (reqs : list (Z * Z)) (s : phys) : list (option (Z * Z)) * phys :=
  match reqs with
  | [] => ([], s)
  | r :: reqs =>
      let (o, s1) := phys_alloc r.1 r.2 s in
      let (os, s2) := phys_run reqs s1 in (o :: os, s2)
  end.

(** One request: served at the next aligned address, or refused with no effect
    exactly when the rest of the region is too small. *)
Lemma phys_alloc_spec size align s :
  region_ok s -> request_ok s (size, align) ->
  exists p, phys_alloc_next s <= p < phys_alloc_next s + align_of align /\
    p mod align_of align = 0 /\
    phys_alloc size align s =
      (if decide (p + size <= phys_alloc_end s /\ phys_alloc_base s < phys_alloc_end s)
       then (Some (phys_to_virt p s, p),
             set_region (memmap_response s) (phys_alloc_base s) (phys_alloc_end s) (p + size) s)
       else (None, s)).
Proof.
  intros ([Hb Hn] & He) (Hs & Hp & Hsum). cbn [fst snd] in *.
  destruct (align_up_spec (phys_alloc_next s) (align_of align) Hp) as [H1 H2]; [lia | lia |].
  exists (align_up (phys_alloc_next s) (align_of align)). split; [done |]. split; [done |].
  unfold phys_alloc. destruct (Z.eqb_spec size 0); [lia |]. cbn [orb].
  fold (align_of align).
  destruct (Z.leb_spec (phys_alloc_end s) (phys_alloc_base s)).
  - rewrite decide_False by lia. done.
  - rewrite !u64_id by (unfold is_u64; lia).
    destruct (Z.ltb_spec (phys_alloc_end s)
                (align_up (phys_alloc_next s) (align_of align) + size)).
    + rewrite decide_False by lia. done.
    + rewrite decide_True by lia. done.
Qed.

Lemma phys_alloc_step size align s o s' :
  region_ok s -> request_ok s (size, align) -> phys_alloc size align s = (o, s') ->
  region_ok s' /\ phys_alloc_base s' = phys_alloc_base s /\
  phys_alloc_end s' = phys_alloc_end s /\ hhdm_offset s' = hhdm_offset s /\
  phys_alloc_next s <= phys_alloc_next s' /\
  forall v p, o = Some (v, p) ->
    v = u64 (p + hhdm_offset s) /\ p mod align_of align = 0 /\
    phys_alloc_next s <= p /\ p + size = phys_alloc_next s'.
Proof.
  intros Hr Hq Ha. destruct (phys_alloc_spec _ _ _ Hr Hq) as (p & Hp & Hm & Heq).
  rewrite Heq in Ha. destruct Hr as ([Hb Hn] & He). destruct Hq as (Hs & _). cbn in Hs.
  destruct (decide _) as [[Hfit _] | _]; injection Ha as <- <-.
  - unfold region_ok; cbn. split_and!; try lia; try done.
    intros v q [= <- <-]. split_and!; try lia; done.
  - split_and!; try lia; try done.
Qed.

Lemma phys_run_bounds reqs : forall s,
  region_ok s -> Forall (request_ok s) reqs ->
  forall i size align v p, reqs !! i = Some (size, align) ->
    (phys_run reqs s).1 !! i = Some (Some (v, p)) ->
    v = u64 (p + hhdm_offset s) /\ p mod align_of align = 0 /\
    phys_alloc_next s <= p /\ p + size <= phys_alloc_end s.
Proof.
  induction reqs as [|[sz al] reqs IH]; intros s Hr Hq i size align v p Hi Ho; [done |].
  cbn [phys_run fst snd] in Ho.
  apply Forall_cons in Hq as [Hq1 Hq2].
  destruct (phys_alloc sz al s) as [o s1] eqn:Ha.
  destruct (phys_alloc_step _ _ _ _ _ Hr Hq1 Ha) as (Hr1 & Hb & He & Hh & Hn & Hres).
  destruct (phys_run reqs s1) as [os s2] eqn:Hrun.
  destruct i as [|i]; cbn in Hi, Ho.
  - injection Hi as -> ->. injection Ho as ->.
    destruct (Hres v p eq_refl) as (-> & Hm & Hle & Hsum).
    destruct Hr1 as [_ Hr1]. split_and!; try done; lia.
  - assert (Forall (request_ok s1) reqs) as Hq'.
    { eapply Forall_impl; [exact Hq2 |]. intros r. unfold request_ok. by rewrite He. }
    specialize (IH s1 Hr1 Hq' i size align v p Hi).
    rewrite Hrun in IH. specialize (IH Ho). rewrite Hh, He in IH.
    destruct IH as (? & ? & ? & ?). split_and!; try done; lia.
Qed.

Lemma phys_run_ordered reqs : forall s,
  region_ok s -> Forall (request_ok s) reqs ->
  forall i j size align size' align' v p v' q, (i < j)%nat ->
    reqs !! i = Some (size, align) -> reqs !! j = Some (size', align') ->
    (phys_run reqs s).1 !! i = Some (Some (v, p)) ->
    (phys_run reqs s).1 !! j = Some (Some (v', q)) -> p + size <= q.
Proof.
  induction reqs as [|[sz al] reqs IH];
    intros s Hr Hq i j size align size' align' v p v' q Hij Hi Hj Ho Ho'; [done |].
  cbn [phys_run fst snd] in Ho, Ho'.
  apply Forall_cons in Hq as [Hq1 Hq2].
  destruct (phys_alloc sz al s) as [o s1] eqn:Ha.
  destruct (phys_alloc_step _ _ _ _ _ Hr Hq1 Ha) as (Hr1 & Hb & He & Hh & Hn & Hres).
  assert (Forall (request_ok s1) reqs) as Hq'.
  { eapply Forall_impl; [exact Hq2 |]. intros r. unfold request_ok. by rewrite He. }
  pose proof (phys_run_bounds reqs s1 Hr1 Hq') as Hbnd.
  specialize (IH s1 Hr1 Hq').
  destruct (phys_run reqs s1) as [os s2] eqn:Hrun. cbn [fst] in *.
  destruct j as [|j]; [lia |]. cbn in Hj, Ho'.
  destruct i as [|i]; cbn in Hi, Ho.
  - injection Hi as -> ->. injection Ho as ->.
    destruct (Hres v p eq_refl) as (_ & _ & _ & Hsum).
    destruct (Hbnd j _ _ _ _ Hj Ho') as (_ & _ & Hle & _). lia.
  - eapply IH; [| exact Hi | exact Hj | exact Ho | exact Ho']; lia.
Qed.

(** ** Properties *)

(** [memory_set_memmap] chooses a page-aligned range of one usable entry that
    avoids the kernel, and a longest one: no page-aligned range of a usable entry
    is longer, if it avoids the kernel and lies above it whenever the kernel ends
    inside the entry; when there is no such range the allocator stays empty. *)
Theorem memory_set_memmap_correct entries kb ke s :
  Forall entry_ok entries -> is_u64 kb -> is_u64 ke ->
  let s' := memory_set_memmap (Some entries) kb ke s in
  region_ok s' /\ phys_alloc_next s' = phys_alloc_base s' /\
  (phys_alloc_base s' < phys_alloc_end s' ->
    allocatable kb ke entries (phys_alloc_base s') (phys_alloc_end s')) /\
  forall en b e, en ∈ entries -> type_of en = LIMINE_MEMMAP_USABLE ->
    b < e -> b mod PAGE_SIZE = 0 -> e mod PAGE_SIZE = 0 ->
    base en <= b -> e <= base en + length_of en ->
    (ke <= kb \/ ke <= b \/ e <= kb /\ base en + length_of en <= ke) ->
    e - b <= phys_alloc_end s' - phys_alloc_base s'.
Proof.
  intros Hok Hkb Hke.
  destruct (best_region_spec kb ke (fun b e => 0 <= b /\ e < 2 ^ 64 /\ allocatable kb ke entries b e)
              entries (0, 0)) as (H1 & H2 & H3).
  - intros en b e Hin He Hlt.
    pose proof (proj1 (Forall_forall _ _) Hok en Hin) as Hen.
    pose proof (entry_region_sound kb ke entries en b e Hin Hen Hkb Hke He) as Ha.
    destruct (Ha) as (_ & _ & _ & _ & en' & Hin' & _ & Hb' & He').
    destruct (proj1 (Forall_forall _ _) Hok en' Hin') as (? & ? & ?).
    unfold PAGE_SIZE in *. split_and!; [lia | lia | done].
  - intros en b e. unfold entry_region. destruct (negb _); [done |].
    destruct (if _ && _ then _ else _) as [[b0 e0]|]; [| done].
    destruct (Z.leb_spec (align_down e0 PAGE_SIZE) (align_up b0 PAGE_SIZE)); [done |].
    by intros [= <- <-].
  - cbn. lia.
  - cbn. lia.
  - cbv zeta. unfold memory_set_memmap.
    set (best := best_region kb ke entries (0, 0)) in *. cbn [fst snd] in *.
    assert (forall en b e, en ∈ entries -> type_of en = LIMINE_MEMMAP_USABLE ->
      b < e -> b mod PAGE_SIZE = 0 -> e mod PAGE_SIZE = 0 ->
      base en <= b -> e <= base en + length_of en ->
      (ke <= kb \/ ke <= b \/ e <= kb /\ base en + length_of en <= ke) ->
      e - b <= best.2) as Hmax.
    { intros en b e Hin ? ? ? ? ? ? ?.
      pose proof (proj1 (Forall_forall _ _) Hok en Hin) as Hen.
      destruct (entry_region_complete kb ke en b e) as (b' & e' & He' & ? & ?); try done.
      pose proof (H3 en b' e' Hin He'). lia. }
    destruct (Z.ltb_spec 0 best.2) as [Hpos | Hz].
    + destruct (H2 Hpos) as (Hb0 & He0 & Hal). unfold region_ok; cbn.
      rewrite u64_id by (unfold is_u64; lia).
      split_and!; try lia; [done |].
      intros en b e ? ? ? ? ? ? ? ?. assert (e - b <= best.2) by eauto. lia.
    + unfold region_ok; cbn. split_and!; try lia.
      intros en b e ? ? ? ? ? ? ? ?. assert (e - b <= best.2) by eauto. lia.
Qed.

(** C40: over any sequence of requests, each granted range is aligned as asked,
    lies in the chosen region, is mapped at [hhdm_offset], and starts after every
    range granted before it: live physical allocations never overlap. *)
Theorem phys_alloc_disjoint reqs s :
  region_ok s -> Forall (request_ok s) reqs ->
  forall i size align v p, reqs !! i = Some (size, align) ->
    (phys_run reqs s).1 !! i = Some (Some (v, p)) ->
    v = u64 (p + hhdm_offset s) /\ p mod align_of align = 0 /\
    phys_alloc_base s <= p /\ p + size <= phys_alloc_end s /\
    forall j size' align' v' q, (i < j)%nat -> reqs !! j = Some (size', align') ->
      (phys_run reqs s).1 !! j = Some (Some (v', q)) -> p + size <= q.
Proof.
  intros Hr Hq i size align v p Hi Ho.
  destruct (phys_run_bounds reqs s Hr Hq i size align v p Hi Ho) as (? & ? & ? & ?).
  destruct Hr as ([? ?] & ?) eqn:E. split_and!; try done; [lia |].
  intros j size' align' v' q Hij Hj Hoj.
  eapply (phys_run_ordered reqs s); eauto.
Qed.

(** the fit test [next + size > phys_alloc_end] wraps: a request of nearly
    2^64 bytes is granted and moves the bump pointer back by the missing bytes,
    so that the next grant can overlap memory already handed out. *)
Theorem phys_alloc_wraps s k :
  region_ok s -> phys_alloc_base s < phys_alloc_end s -> phys_alloc_end s < 2 ^ 64 - 8 ->
  phys_alloc_next s mod 8 = 0 -> 0 < k <= phys_alloc_next s ->
  let '(o, s') := phys_alloc (2 ^ 64 - k) 8 s in
  o = Some (phys_to_virt (phys_alloc_next s) s, phys_alloc_next s) /\
  phys_alloc_next s' = phys_alloc_next s - k.
Proof.
  intros ([Hb Hn] & He) Hne Hlt Hm Hk. unfold phys_alloc.
  destruct (Z.eqb_spec (2 ^ 64 - k) 0); [lia |].
  destruct (Z.leb_spec (phys_alloc_end s) (phys_alloc_base s)); [lia |]. cbn [orb].
  change (if 8 =? 0 then 8 else 8) with 8.
  destruct (align_up_spec (phys_alloc_next s) 8) as [H1 H2]; [| lia | lia |].
  { exists 3. split; [lia | reflexivity]. }
  assert (align_up (phys_alloc_next s) 8 = phys_alloc_next s) as -> by lia.
  assert (u64 (phys_alloc_next s + (2 ^ 64 - k)) = phys_alloc_next s - k) as ->
    by (unfold u64; lia).
  destruct (Z.ltb_spec (phys_alloc_end s) (phys_alloc_next s - k)); [lia |].
  split; reflexivity.
Qed.

(** [pmm_init] counts every page once, as used or as free. *)
Lemma pmm_loop_total entries : forall s,
  pmm_total_pages s = u64 (pmm_used_pages s + pmm_free_pages s) ->
  pmm_total_pages (pmm_loop entries s) =
    u64 (pmm_used_pages (pmm_loop entries s) + pmm_free_pages (pmm_loop entries s)).
Proof.
  induction entries as [|en entries IH]; intros s Hs; cbn [pmm_loop]; [done |].
  apply IH. cbn. rewrite Hs. destruct (_ =? _); unfold u64.
  - rewrite Zplus_mod_idemp_l, Zplus_mod_idemp_r. f_equal. lia.
  - rewrite !Zplus_mod_idemp_l. f_equal. lia.
Qed.

(** ** Witnesses: two usable entries, the kernel inside the first *)
Definition map0 : list memmap_entry :=
  [MemmapEntry 0 0x9fc00 0; MemmapEntry 0x9fc00 0x400 1;
   MemmapEntry 0x100000 0x400000 0; MemmapEntry 0x500000 0x100000 2].
Definition phys0 : phys :=
  start_memory (Some 0xffff800000000000) (Some (0xffffffff80000000, 0x100000))
    (0xffffffff80000000 + 0x80010) (Some map0) phys_statics.

Lemma memory_set_memmap_correct_witness :
  phys_alloc_base (memory_set_memmap (Some map0) 0x100000 0x180010 phys_statics) = 0x181000 /\
  0x4ff000 - 0x200000 <=
    phys_alloc_end (memory_set_memmap (Some map0) 0x100000 0x180010 phys_statics) - 0x181000.
Proof.
  split; [vm_compute; reflexivity |].
  assert (phys_alloc_base (memory_set_memmap (Some map0) 0x100000 0x180010 phys_statics)
          = 0x181000) as Hb by (vm_compute; reflexivity).
  destruct (memory_set_memmap_correct map0 0x100000 0x180010 phys_statics) as (_ & _ & _ & Hmax).
  - repeat constructor; cbn; unfold PAGE_SIZE; lia.
  - unfold is_u64; lia.
  - unfold is_u64; lia.
  - rewrite Hb in Hmax. refine (Hmax (MemmapEntry 0x100000 0x400000 0) _ _ _ _ _ _ _ _ _ _);
      try (cbn; lia); try reflexivity. right; right; left.
Defined.

Lemma phys_alloc_disjoint_witness :
  (phys_run [(100, 16); (0x1000, 4096)] phys0).1 =
    [Some (0xffff800000181000, 0x181000); Some (0xffff800000182000, 0x182000)] /\
  0x181000 + 100 <= 0x182000.
Proof.
  assert ((phys_run [(100, 16); (0x1000, 4096)] phys0).1 =
    [Some (0xffff800000181000, 0x181000); Some (0xffff800000182000, 0x182000)]) as Hrun
    by (vm_compute; reflexivity).
  split; [exact Hrun |].
  assert (pow2 16) by (exists 4; split; [lia | reflexivity]).
  assert (pow2 4096) by exact PAGE_SIZE_pow2.
  assert (phys_alloc_end phys0 = 0x500000) as He by (vm_compute; reflexivity).
  destruct (phys_alloc_disjoint [(100, 16); (0x1000, 4096)] phys0) with
    (i := 0%nat) (size := 100) (align := 16) (v := 0xffff800000181000) (p := 0x181000)
    as (_ & _ & _ & _ & Hlt).
  - vm_compute. repeat split; discriminate.
  - repeat constructor; unfold request_ok; rewrite ?He; cbn; lia || done.
  - reflexivity.
  - rewrite Hrun. reflexivity.
  - apply (Hlt 1%nat 0x1000 4096 0xffff800000182000); [lia | reflexivity |].
    rewrite Hrun. reflexivity.
Defined.

Lemma phys_alloc_wraps_witness :
  phys_alloc_next (phys_alloc (2 ^ 64 - 0x1000) 8 phys0).2 = 0x180000.
Proof.
  assert (region_ok phys0 /\ phys_alloc_base phys0 < phys_alloc_end phys0 < 2 ^ 64 - 8 /\
          phys_alloc_next phys0 = 0x181000) as (H1 & [H2 H3] & H4)
    by (vm_compute; repeat split; discriminate).
  pose proof (phys_alloc_wraps phys0 0x1000 H1 H2 H3) as Hw. rewrite H4 in Hw.
  destruct (phys_alloc _ _ _) as [o s']. apply Hw; [reflexivity | lia].
Defined.
