(* ===== verification/Task.v ===== *)
(** * Tasks and the scheduler ([src/src/kernel/task.c]; the context switch of
    [src/src/kernel/interrupts.c], [isr_vector_0xf0])

    [tasks] and the per-CPU arrays are lists; a [task_t *] is an index into
    [tasks].  Task stacks come from an [Allocator]; [words] holds the 64-bit words
    of memory the scheduler and the interrupt path read and write.  What the
    hardware supplies (the calling CPU's [lapic_id], [ticks], the segment
    registers) is an argument. *)
From S2P Require Import Prelude Interfaces.

Definition MAX_TASKS : Z := 64.
Definition TASK_STACK_SIZE : Z := 32 * 1024.

Inductive task_state := TASK_UNUSED | TASK_READY | TASK_RUNNING | TASK_SLEEPING | TASK_ZOMBIE.
#[export] Instance task_state_eq_dec : EqDecision task_state.
Proof. solve_decision. Defined.

Record task := Task {
  state : task_state;
  ctx_rsp : Z;
  wake_tick : Z;
  name : Z;
  entry : Z;
  arg : Z;
  stack : option Z;
  cpu_affinity : Z;
  running_cpu : Z;
  is_idle : bool;
}.

Definition set_state (st : task_state) (t : task) : task :=
  Task st (ctx_rsp t) (wake_tick t) (name t) (entry t) (arg t) (stack t)
       (cpu_affinity t) (running_cpu t) (is_idle t).
Definition set_rsp (r : Z) (t : task) : task :=
  Task (state t) r (wake_tick t) (name t) (entry t) (arg t) (stack t)
       (cpu_affinity t) (running_cpu t) (is_idle t).
Definition set_wake (w : Z) (t : task) : task :=
  Task (state t) (ctx_rsp t) w (name t) (entry t) (arg t) (stack t)
       (cpu_affinity t) (running_cpu t) (is_idle t).
Definition set_stack (p : option Z) (t : task) : task :=
  Task (state t) (ctx_rsp t) (wake_tick t) (name t) (entry t) (arg t) p
       (cpu_affinity t) (running_cpu t) (is_idle t).
Definition set_running (c : Z) (t : task) : task :=
  Task (state t) (ctx_rsp t) (wake_tick t) (name t) (entry t) (arg t) (stack t)
       (cpu_affinity t) c (is_idle t).
Definition set_idle (b : bool) (t : task) : task :=
  Task (state t) (ctx_rsp t) (wake_tick t) (name t) (entry t) (arg t) (stack t)
       (cpu_affinity t) (running_cpu t) b.

(** Addresses the linker assigns: two functions and three string literals. *)
Class Image := {
  addr_task_trampoline : Z; addr_task_idle : Z;
  str_idle : Z; str_none : Z; str_task : Z;
}.

Record sched (A : Type) := Sched {
  tasks : list task;
  task_count : Z;
  cpu_count_global : Z;
  current_task : list (option Z);
  idle_index : list Z;
  last_pick : list Z;
  sched_lock : bool;
  scheduler_active : bool;
  lapic_map : list Z;
  lapic_map_count : Z;
  kernel_cs : Z;
  kernel_ds : Z;
  alloc : A;
  words : gmap Z Z;
}.
Arguments Sched {A}. Arguments tasks {A}. Arguments task_count {A}.
Arguments cpu_count_global {A}. Arguments current_task {A}. Arguments idle_index {A}.
Arguments last_pick {A}. Arguments sched_lock {A}. Arguments scheduler_active {A}.
Arguments lapic_map {A}. Arguments lapic_map_count {A}. Arguments kernel_cs {A}.
Arguments kernel_ds {A}. Arguments alloc {A}. Arguments words {A}.

Section Code.
Context {A : Type} `{!Allocator A} `{!Image}.
Implicit Types s : sched A.

Definition with_tasks (ts : list task) s : sched A :=
  Sched ts (task_count s) (cpu_count_global s) (current_task s) (idle_index s) (last_pick s)
        (sched_lock s) (scheduler_active s) (lapic_map s) (lapic_map_count s)
        (kernel_cs s) (kernel_ds s) (alloc s) (words s).
Definition with_current (cs : list (option Z)) s : sched A :=
  Sched (tasks s) (task_count s) (cpu_count_global s) cs (idle_index s) (last_pick s)
        (sched_lock s) (scheduler_active s) (lapic_map s) (lapic_map_count s)
        (kernel_cs s) (kernel_ds s) (alloc s) (words s).
Definition with_last_pick (l : list Z) s : sched A :=
  Sched (tasks s) (task_count s) (cpu_count_global s) (current_task s) (idle_index s) l
        (sched_lock s) (scheduler_active s) (lapic_map s) (lapic_map_count s)
        (kernel_cs s) (kernel_ds s) (alloc s) (words s).
Definition with_idle_index (l : list Z) s : sched A :=
  Sched (tasks s) (task_count s) (cpu_count_global s) (current_task s) l (last_pick s)
        (sched_lock s) (scheduler_active s) (lapic_map s) (lapic_map_count s)
        (kernel_cs s) (kernel_ds s) (alloc s) (words s).
Definition with_lock (b : bool) s : sched A :=
  Sched (tasks s) (task_count s) (cpu_count_global s) (current_task s) (idle_index s)
        (last_pick s) b (scheduler_active s) (lapic_map s) (lapic_map_count s)
        (kernel_cs s) (kernel_ds s) (alloc s) (words s).
Definition with_active (b : bool) s : sched A :=
  Sched (tasks s) (task_count s) (cpu_count_global s) (current_task s) (idle_index s)
        (last_pick s) (sched_lock s) b (lapic_map s) (lapic_map_count s)
        (kernel_cs s) (kernel_ds s) (alloc s) (words s).
Definition with_words (w : gmap Z Z) s : sched A :=
  Sched (tasks s) (task_count s) (cpu_count_global s) (current_task s) (idle_index s)
        (last_pick s) (sched_lock s) (scheduler_active s) (lapic_map s) (lapic_map_count s)
        (kernel_cs s) (kernel_ds s) (alloc s) w.
Definition with_alloc (a : A) s : sched A :=
  Sched (tasks s) (task_count s) (cpu_count_global s) (current_task s) (idle_index s)
        (last_pick s) (sched_lock s) (scheduler_active s) (lapic_map s) (lapic_map_count s)
        (kernel_cs s) (kernel_ds s) a (words s).

Definition upd_task (i : Z) (f : task -> task) s : res (sched A) :=
  t ← zget (tasks s) i; ts ← zset (tasks s) i (f t); Ret (with_tasks ts s).

(** ** The lock *)
Definition spin_lock s : res (sched A) :=
  if sched_lock s then Spin else Ret (with_lock true s).
Definition spin_unlock s : sched A := with_lock false s.
Definition spin_try_lock s : bool * sched A := (negb (sched_lock s), with_lock true s).

(** ** Per-CPU lookup *)
Definition cpu_index (lapic_id : Z) s : res Z :=
  if lapic_map_count s =? 0 then Ret 0 else
  if lapic_id <? 256 then zget (lapic_map s) lapic_id else Ret 0.

Definition task_register_cpu (lapic_id index : Z) s : res (sched A) :=
  if lapic_id <? 256 then
    m ← zset (lapic_map s) lapic_id index;
    let c := if lapic_map_count s <? u32 (index + 1) then u32 (index + 1)
             else lapic_map_count s in
    Ret (Sched (tasks s) (task_count s) (cpu_count_global s) (current_task s) (idle_index s)
           (last_pick s) (sched_lock s) (scheduler_active s) m c
           (kernel_cs s) (kernel_ds s) (alloc s) (words s))
  else Ret s.

(** ** The first stack frame of a task *)
Fixpoint push_all (vs : list Z) (sp : Z) (w : gmap Z Z) : Z * gmap Z Z :=
  match vs with
  | [] => (sp, w)
  | v :: vs => push_all vs (sp - 8) (<[sp - 8 := v]> w)
  end.

(** RFLAGS, CS, RIP, then the fifteen general registers. *)
Definition task_build_stack (stk entry : Z) s : Z * sched A :=
  let sp := Z.land (u64 (stk + TASK_STACK_SIZE)) (2 ^ 64 - 16) in
  let (sp, w) := push_all ([0x202; kernel_cs s; entry] ++ repeat 0 15) sp (words s) in
  (sp, with_words w s).

(** ** The task table *)
Fixpoint cleanup_loop (n : nat) (i : Z) s : res (sched A) :=
  match n with
  | O => Ret s
  | S n =>
      t ← zget (tasks s) i;
      if bool_decide (state t = TASK_ZOMBIE) then
        s1 ← (match stack t with
              | Some p => a ← a_free (Some p) (alloc s);
                          upd_task i (set_stack None) (with_alloc a s)
              | None => Ret s
              end : res (sched A));
        s2 ← upd_task i (fun t => set_running (-1) (set_state TASK_UNUSED t)) s1;
        cleanup_loop n (i + 1) s2
      else cleanup_loop n (i + 1) s
  end.
Definition task_cleanup s : res (sched A) := cleanup_loop (Z.to_nat MAX_TASKS) 0 s.

Fixpoint find_free_loop (n : nat) (i : Z) s : res Z :=
  match n with
  | O => Ret (-1)
  | S n =>
      t ← zget (tasks s) i;
      if bool_decide (state t = TASK_UNUSED) then Ret i else find_free_loop n (i + 1) s
  end.
Definition task_find_free s : res Z := find_free_loop (Z.to_nat MAX_TASKS) 0 s.

(** The guards of [task_pick_next] before its [is_idle] test. *)
Definition pickable (cpu : Z) (t : task) : bool :=
  bool_decide (state t = TASK_READY) && (running_cpu t =? -1)
  && negb ((0 <=? cpu_affinity t) && negb (cpu_affinity t =? cpu)).

Fixpoint pick_loop (m : nat) (n start cpu : Z) (ts : list task) (idle_candidate : option Z)
    : res (option Z) :=
  match m with
  | O => Ret idle_candidate
  | S m =>
      let i := Z.rem (start + n) MAX_TASKS in
      t ← zget ts i;
      if negb (pickable cpu t) then pick_loop m (n + 1) start cpu ts idle_candidate
      else if negb (is_idle t) then Ret (Some i)
      else pick_loop m (n + 1) start cpu ts
             (match idle_candidate with None => Some i | c => c end)
  end.

Definition task_pick_next (cpu : Z) s : res (option Z * sched A) :=
  lp ← zget (last_pick s) cpu;
  let start := Z.rem (lp + 1) MAX_TASKS in
  r ← pick_loop (Z.to_nat MAX_TASKS) 0 start cpu (tasks s) None;
  match r with
  | None => Ret (None, s)
  | Some i => l ← zset (last_pick s) cpu i; Ret (Some i, with_last_pick l s)
  end.

Definition task_create_affinity (nm ent ar cpu : Z) s : res (Z * sched A) :=
  s ← spin_lock s;
  idx ← task_find_free s;
  if idx <? 0 then Ret (-1, spin_unlock s) else
  '(stk, a) ← a_malloc TASK_STACK_SIZE (alloc s);
  let s := with_alloc a s in
  match stk with
  | None => Ret (-1, spin_unlock s)
  | Some p =>
      let (sp, s) := task_build_stack p addr_task_trampoline s in
      s ← upd_task idx (fun _ => Task TASK_READY sp 0 nm ent ar (Some p) cpu (-1) false) s;
      let s := Sched (tasks s) (u32 (task_count s + 1)) (cpu_count_global s) (current_task s)
                 (idle_index s) (last_pick s) (sched_lock s) (scheduler_active s)
                 (lapic_map s) (lapic_map_count s) (kernel_cs s) (kernel_ds s)
                 (alloc s) (words s) in
      Ret (idx, spin_unlock s)
  end.

Definition task_create (nm ent ar : Z) s : res (Z * sched A) :=
  task_create_affinity nm ent ar (-1) s.

(** The loop that creates the idle tasks. *)
Fixpoint init_idle (n : nat) (cpu : Z) s : res (sched A) :=
  match n with
  | O => Ret s
  | S n =>
      '(idx, s) ← task_create_affinity str_idle addr_task_idle 0 cpu s;
      l ← zset (idle_index s) cpu idx;
      let s := with_idle_index l s in
      s ← (if 0 <=? idx then upd_task idx (set_idle true) s else Ret s);
      init_idle n (cpu + 1) s
  end.

Definition init_task (t : task) : task :=
  set_idle false (Task TASK_UNUSED (ctx_rsp t) (wake_tick t) (name t) (entry t) (arg t) None
                       (-1) (-1) (is_idle t)).

Definition task_init (cs ds cpu_count : Z) s : res (sched A) :=
  let s := Sched (init_task <$> tasks s) (task_count s) cpu_count (repeat None 64)
             (repeat (-1) 64) (repeat (-1) 64) false (scheduler_active s) (lapic_map s)
             (lapic_map_count s) cs ds (alloc s) (words s) in
  s ← init_idle (Z.to_nat (Z.min cpu_count 64)) 0 s;
  Ret (with_active false s).

(** [task_start_bsp] and [task_start_ap] before their [task_yield]. *)
Definition task_start (cpu lapic_id : Z) s : res (sched A) :=
  idx ← zget (idle_index s) cpu;
  s ← (if 0 <=? idx then
         l ← zset (current_task s) cpu (Some idx);
         upd_task idx (fun t => set_running lapic_id (set_state TASK_RUNNING t))
                  (with_current l s)
       else Ret s);
  Ret (with_active true s).
Definition task_start_bsp (lapic_id : Z) s : res (sched A) := task_start 0 lapic_id s.
Definition task_start_ap (lapic_id : Z) s : res (sched A) :=
  cpu ← cpu_index lapic_id s; task_start cpu lapic_id s.

Definition wake_due (ticks : Z) (t : task) : task :=
  if bool_decide (state t = TASK_SLEEPING) && (wake_tick t <=? ticks)
  then set_state TASK_READY t else t.
Definition task_tick (ticks : Z) s : sched A :=
  if negb (scheduler_active s) then s else
  let (ok, s) := spin_try_lock s in
  if negb ok then s else spin_unlock (with_tasks (wake_due ticks <$> tasks s) s).

(** [task_sleep] before its [task_yield]; the flag says whether it gets there. *)
Definition task_sleep (lapic_id ticks sleep_ticks : Z) s : res (bool * sched A) :=
  cpu ← cpu_index lapic_id s;
  c ← zget (current_task s) cpu;
  match c with
  | None => Ret (false, s)
  | Some t =>
      s ← spin_lock s;
      s ← upd_task t (fun t => set_running (-1) (set_wake (u64 (ticks + sleep_ticks))
                                  (set_state TASK_SLEEPING t))) s;
      Ret (true, spin_unlock s)
  end.

(** [task_trampoline]: the task it finds and, after [t->entry] returns, its end up
    to the [task_yield]. *)
Definition trampoline_enter (lapic_id : Z) s : res (option (Z * (Z * Z))) :=
  cpu ← cpu_index lapic_id s;
  c ← zget (current_task s) cpu;
  match c with
  | None => Ret None
  | Some i => t ← zget (tasks s) i; Ret (Some (i, (entry t, arg t)))
  end.
Definition trampoline_exit (i : Z) s : res (sched A) :=
  s ← spin_lock s;
  s ← upd_task i (fun t => set_running (-1) (set_state TASK_ZOMBIE t)) s;
  Ret (spin_unlock s).

(** ** The switch *)
Definition load_word s (a : Z) : res Z := of_option (words s !! a).

(** The test of the saved frame before it is used. *)
Definition frame_rsp (next_rsp rsp : Z) s : res Z :=
  if next_rsp =? 0 then Ret rsp else
  rip ← load_word s (next_rsp + 15 * 8);
  cs ← load_word s (next_rsp + 16 * 8);
  if negb (cs =? kernel_cs s)
     || negb (Z.land rip 0xFFFF800000000000 =? 0xFFFF800000000000)
  then Ret rsp else Ret next_rsp.

Definition task_schedule_isr (lapic_id rsp : Z) s : res (Z * sched A) :=
  if negb (scheduler_active s) then Ret (rsp, s) else
  cpu ← cpu_index lapic_id s;
  let (ok, s) := spin_try_lock s in
  if negb ok then Ret (rsp, s) else
  s ← task_cleanup s;
  prev ← zget (current_task s) cpu;
  s ← (match prev with
       | Some p =>
           upd_task p (fun t =>
             let t := set_rsp rsp t in
             if bool_decide (state t = TASK_RUNNING)
             then set_running (-1) (set_state TASK_READY t) else t) s
       | None => Ret s
       end : res (sched A));
  '(next, s) ← task_pick_next cpu s;
  let resume := fun t => set_running lapic_id (set_state TASK_RUNNING t) in
  match next with
  | None =>
      s ← (match prev with Some p => upd_task p resume s | None => Ret s end : res (sched A));
      Ret (rsp, spin_unlock s)
  | Some n =>
      s ← upd_task n resume s;
      l ← (if decide (prev = Some n) then Ret (current_task s)
           else zset (current_task s) cpu (Some n));
      let s := with_current l s in
      t ← zget (tasks s) n;
      next_rsp ← frame_rsp (ctx_rsp t) rsp s;
      Ret (next_rsp, spin_unlock s)
  end.

(** ** [isr_vector_0xf0]

    A context is the twenty words from [rsp] up: r15 .. rax as the stub pushes
    them, then RIP, CS, RFLAGS, RSP and SS, which the processor pushes on entry and
    [iretq] pops (both always handle all five in 64-bit mode). *)
Fixpoint store_words (a : Z) (vs : list Z) (w : gmap Z Z) : gmap Z Z :=
  match vs with [] => w | v :: vs => <[a := v]> (store_words (a + 8) vs w) end.
Fixpoint load_words s (a : Z) (n : nat) : res (list Z) :=
  match n with
  | O => Ret []
  | S n => v ← load_word s a; vs ← load_words s (a + 8) n; Ret (v :: vs)
  end.

(** The second test of the frame, in assembly. *)
Definition stub_rsp (rbx r12 : Z) s : res Z :=
  if rbx =? 0 then Ret r12 else
  rax ← load_word s (rbx + 120);
  rcx ← load_word s (rbx + 128);
  r8 ← load_word s (rbx + 136);
  if rcx =? 0 then Ret r12 else
  if Z.land r8 2 =? 0 then Ret r12 else
  let r9 := Z.shiftr rax 48 in
  if (r9 =? 0xFFFF) || (r9 =? 0) then Ret rbx else Ret r12.

(** Entry with context [ctx] pushed at [rsp]; the result is the context resumed. *)
Definition isr_vector_0xf0 (lapic_id rsp : Z) (ctx : list Z) s : res (list Z * sched A) :=
  let s := with_words (store_words rsp ctx (words s)) s in
  '(rbx, s) ← task_schedule_isr lapic_id rsp s;
  sp ← stub_rsp rbx rsp s;
  regs ← load_words s sp 20;
  Ret (regs, s).

(** [task_yield]: [int $0xF0] when the scheduler is active. *)
Definition task_yield (lapic_id rsp : Z) (ctx : list Z) s : res (list Z * sched A) :=
  if negb (scheduler_active s) then Ret (ctx, s) else isr_vector_0xf0 lapic_id rsp ctx s.

Definition task_current_name (lapic_id : Z) s : res Z :=
  cpu ← cpu_index lapic_id s;
  c ← zget (current_task s) cpu;
  match c with
  | None => Ret str_none
  | Some i => t ← zget (tasks s) i; Ret (if negb (name t =? 0) then name t else str_task)
  end.
End Code.
