(* ===== verification/TaskFacts.v ===== *)
(** * Facts about the scheduler's loops: the lookups of [Task] characterised *)
From S2P Require Import Prelude Interfaces Task.

(** ** The cyclic walk of [task_pick_next] *)
Definition slot (start k : Z) : Z := Z.rem (start + k) MAX_TASKS.

Lemma slot_range start k : 0 <= start -> 0 <= k -> 0 <= slot start k < 64.
Proof. intros. unfold slot, MAX_TASKS. rewrite Z.rem_mod_nonneg by lia. lia. Qed.

Lemma slot_mod start k : 0 <= start -> 0 <= k -> slot start k = (start + k) mod 64.
Proof. intros. unfold slot, MAX_TASKS. by rewrite Z.rem_mod_nonneg by lia. Qed.

(** Every index is visited once, at its cyclic distance from the start. *)
Lemma slot_dist start i : 0 <= start < 64 -> 0 <= i < 64 -> slot start ((i - start) mod 64) = i.
Proof. intros. rewrite slot_mod by lia. lia. Qed.

Definition chosen (cpu : Z) (t : task) : bool := pickable cpu t && negb (is_idle t).

(** [no_slot P ts start n k]: no task at the walk's positions [n .. k) satisfies [P]. *)
Definition no_slot (P : task -> bool) (ts : list task) (start n k : Z) : Prop :=
  forall j t, n <= j < k -> ts !! Z.to_nat (slot start j) = Some t -> P t = false.

Lemma no_slot_cons P ts start n k t :
  ts !! Z.to_nat (slot start n) = Some t -> P t = false -> no_slot P ts start (n + 1) k ->
  no_slot P ts start n k.
Proof.
  intros Ht Hp Hr j t' Hj Hj'. destruct (decide (j = n)) as [-> | ?].
  - congruence.
  - apply (Hr j t'); [lia | done].
Qed.

Inductive pick_result (cpu : Z) (ts : list task) (start n e : Z) (cand : option Z)
    : option Z -> Prop :=
  | picked_task k t :
      n <= k < e -> ts !! Z.to_nat (slot start k) = Some t -> chosen cpu t = true ->
      no_slot (chosen cpu) ts start n k ->
      pick_result cpu ts start n e cand (Some (slot start k))
  | picked_cand c :
      cand = Some c -> no_slot (chosen cpu) ts start n e ->
      pick_result cpu ts start n e cand (Some c)
  | picked_idle k t :
      cand = None -> n <= k < e -> ts !! Z.to_nat (slot start k) = Some t ->
      pickable cpu t = true -> is_idle t = true -> no_slot (chosen cpu) ts start n e ->
      no_slot (pickable cpu) ts start n k ->
      pick_result cpu ts start n e cand (Some (slot start k))
  | picked_none :
      cand = None -> no_slot (pickable cpu) ts start n e ->
      pick_result cpu ts start n e cand None.

Lemma chosen_pickable P cpu (t : task) : P = pickable cpu t -> P = false -> chosen cpu t = false.
Proof. unfold chosen. by intros <- ->. Qed.

Lemma pick_loop_spec cpu ts start m : length ts = 64%nat -> 0 <= start ->
  forall n cand, 0 <= n -> exists r,
    pick_loop m n start cpu ts cand = Ret r /\
    pick_result cpu ts start n (n + Z.of_nat m) cand r.
Proof.
  intros Hlen Hs. induction m as [|m IH]; intros n cand Hn; cbn [pick_loop].
  - exists cand. split; [done |]. rewrite Z.add_0_r. destruct cand as [c|].
    + apply picked_cand; [done |]. intros j t ?; lia.
    + apply picked_none; [done |]. intros j t ?; lia.
  - fold (slot start n). pose proof (slot_range start n Hs Hn) as Hr.
    destruct (lookup_lt_is_Some_2 ts (Z.to_nat (slot start n))) as [t Ht]; [lia |].
    assert (zget ts (slot start n) = Ret t) as -> by (apply zget_ok; split; [lia | done]).
    cbn [mbind res_bind].
    replace (n + Z.of_nat (S m)) with (n + 1 + Z.of_nat m) by lia.
    destruct (pickable cpu t) eqn:Hp; cbn [negb].
    + destruct (is_idle t) eqn:Hi; cbn [negb].
      * assert (chosen cpu t = false) as Hc by (unfold chosen; by rewrite Hp, Hi).
        destruct (IH (n + 1) (match cand with None => Some (slot start n) | c => c end))
          as (r & -> & Hres); [lia |].
        exists r. split; [done |]. destruct Hres.
        -- apply (picked_task _ _ _ _ _ _ k t0); [lia | done | done |]. by eapply no_slot_cons.
        -- destruct cand as [c'|]; simplify_eq.
           ++ apply picked_cand; [done |]. by eapply no_slot_cons.
           ++ apply (picked_idle _ _ _ _ _ _ n t); try done; [lia | by eapply no_slot_cons |].
              intros j ? ?; lia.
        -- by destruct cand.
        -- by destruct cand.
      * exists (Some (slot start n)). split; [done |].
        apply (picked_task _ _ _ _ _ _ n t); [lia | done | unfold chosen; by rewrite Hp, Hi |].
        intros j ? ?; lia.
    + pose proof (chosen_pickable _ _ _ eq_refl Hp) as Hc.
      destruct (IH (n + 1) cand) as (r & -> & Hres); [lia |].
      exists r. split; [done |]. destruct Hres.
      * apply (picked_task _ _ _ _ _ _ k t0); [lia | done | done |]. by eapply no_slot_cons.
      * apply picked_cand; [done |]. by eapply no_slot_cons.
      * apply (picked_idle _ _ _ _ _ _ k t0); try done; [lia | |]; by eapply no_slot_cons.
      * apply picked_none; [done |]. by eapply no_slot_cons.
Qed.

Section Facts.
Context {A : Type} `{!Allocator A} `{!Image}.
Implicit Types s : sched A.

(** [task_pick_next] as one walk of the 64 slots from the one after the last pick. *)
Lemma task_pick_next_spec cpu s lp :
  length (tasks s) = 64%nat -> zget (last_pick s) cpu = Ret lp -> -1 <= lp < 64 ->
  exists r, pick_result cpu (tasks s) (Z.rem (lp + 1) MAX_TASKS) 0 64 None r /\
    task_pick_next cpu s = Ret (r, match r with
      | None => s
      | Some i => with_last_pick (<[Z.to_nat cpu := i]> (last_pick s)) s
      end).
Proof.
  intros Hlen Hlp Hr.
  destruct (pick_loop_spec cpu (tasks s) (Z.rem (lp + 1) MAX_TASKS) (Z.to_nat MAX_TASKS) Hlen)
    with (n := 0) (cand := @None Z) as (r & Heq & Hres).
  - unfold MAX_TASKS. rewrite Z.rem_mod_nonneg by lia. lia.
  - lia.
  - exists r. replace (0 + Z.of_nat (Z.to_nat MAX_TASKS)) with 64 in Hres by done.
    split; [exact Hres |]. unfold task_pick_next.
    rewrite (bind_ret _ _ _ Hlp). cbv zeta. rewrite (bind_ret _ _ _ Heq). clear Heq Hres.
    destruct r as [i|]; [| reflexivity].
    rewrite (bind_ret _ (<[Z.to_nat cpu := i]> (last_pick s))); [reflexivity |].
    apply zget_ok in Hlp as [? Hlp]. apply zset_ok. split; [| done].
    apply lookup_lt_Some in Hlp. lia.
Qed.

Lemma pick_result_in cpu ts start e cand i :
  0 <= start -> (forall c, cand = Some c -> 0 <= c < 64) ->
  pick_result cpu ts start 0 e cand (Some i) -> 0 <= i < 64.
Proof.
  intros Hs Hc. remember (Some i) as r. destruct 1; simplify_eq; try (apply slot_range; lia).
  by apply Hc.
Qed.

(** ** Updates of one slot *)
Lemma upd_task_spec i t f s : tasks s !! i = Some t ->
  upd_task (Z.of_nat i) f s = Ret (with_tasks (<[i := f t]> (tasks s)) s).
Proof.
  intros Ht. unfold upd_task. rewrite (zget_nat _ _ _ Ht). cbn [mbind res_bind].
  rewrite zset_nat by (eapply lookup_lt_Some; done). done.
Qed.

(** ** [task_find_free] *)
Lemma find_free_loop_spec s m : forall i : nat,
  (i + m = length (tasks s))%nat ->
  find_free_loop m (Z.of_nat i) s = Ret (-1) /\
    (forall j t, (i <= j)%nat -> tasks s !! j = Some t -> state t <> TASK_UNUSED) \/
  exists j t, (i <= j)%nat /\ find_free_loop m (Z.of_nat i) s = Ret (Z.of_nat j) /\
    tasks s !! j = Some t /\ state t = TASK_UNUSED.
Proof.
  induction m as [|m IH]; intros i Hi; cbn [find_free_loop].
  - left. split; [done |]. intros j t Hj Ht%lookup_lt_Some. lia.
  - destruct (lookup_lt_is_Some_2 (tasks s) i) as [t Ht]; [lia |].
    rewrite (zget_nat _ _ _ Ht). cbn [mbind res_bind].
    case_bool_decide as Hu.
    + right. exists i, t. split; [lia | done].
    + replace (Z.of_nat i + 1) with (Z.of_nat (S i)) by lia.
      destruct (IH (S i)) as [[-> Hno] | (j & tj & Hj & -> & Htj & Huj)]; [lia | |].
      * left. split; [done |]. intros j tj Hj Htj.
        destruct (decide (j = i)) as [-> | ?]; [congruence | apply (Hno j); [lia | done]].
      * right. exists j, tj. split; [lia | done].
Qed.

(** ** [task_cleanup] *)
Definition reap (t : task) : task :=
  if bool_decide (state t = TASK_ZOMBIE)
  then set_running (-1) (set_state TASK_UNUSED (set_stack None t)) else t.

(** The stacks [task_cleanup] frees. *)
Fixpoint reaped (ts : list task) : list Z :=
  match ts with
  | [] => []
  | t :: ts => (if bool_decide (state t = TASK_ZOMBIE)
                then match stack t with Some p => [p] | None => [] end else []) ++ reaped ts
  end.
Fixpoint free_all (ps : list Z) (a : A) : res A :=
  match ps with [] => Ret a | p :: ps => a ← a_free (Some p) a; free_all ps a end.

Lemma cleanup_loop_spec l2 : forall l1 s a',
  tasks s = l1 ++ l2 -> free_all (reaped l2) (alloc s) = Ret a' ->
  cleanup_loop (length l2) (Z.of_nat (length l1)) s =
    Ret (with_tasks (l1 ++ (reap <$> l2)) (with_alloc a' s)).
Proof.
  induction l2 as [|t l2 IH]; intros l1 s a' Hts Hf; cbn [length cleanup_loop reaped] in *.
  - injection Hf as <-. rewrite app_nil_r in *. destruct s; cbn in *. by subst.
  - assert (tasks s !! length l1 = Some t) as Ht by (rewrite Hts; by apply list_lookup_middle).
    rewrite (zget_nat _ _ _ Ht). cbn [mbind res_bind].
    replace (Z.of_nat (length l1) + 1) with (Z.of_nat (length (l1 ++ [reap t])))
      by (rewrite length_app; cbn; lia).
    change (reap <$> t :: l2) with (reap t :: (reap <$> l2)).
    replace (l1 ++ reap t :: (reap <$> l2)) with ((l1 ++ [reap t]) ++ (reap <$> l2))
      by (by rewrite <- app_assoc).
    assert (Hreap : reap t = if bool_decide (state t = TASK_ZOMBIE)
      then set_running (-1) (set_state TASK_UNUSED (set_stack None t)) else t) by reflexivity.
    rewrite Hreap. clear Hreap.
    case_bool_decide as Hz; cbn [app] in Hf.
    + assert (Hins : forall (s' : sched A) t',
        tasks s' = l1 ++ t' :: l2 ->
        upd_task (Z.of_nat (length l1)) (fun t => set_running (-1) (set_state TASK_UNUSED t)) s' =
        Ret (with_tasks ((l1 ++ [set_running (-1) (set_state TASK_UNUSED t')]) ++ l2) s')).
      { intros s' t' Hs'. rewrite (upd_task_spec _ t'), Hs'.
        - rewrite list_insert_middle || (rewrite insert_app_r_alt, Nat.sub_diag by lia; cbn).
          by rewrite <- app_assoc.
        - rewrite Hs'. by apply list_lookup_middle. }
      destruct (stack t) as [p|] eqn:Hp; cbn [app free_all] in Hf.
      * destruct (a_free (Some p) (alloc s)) as [a| |] eqn:Ha; try discriminate Hf.
        cbn [mbind res_bind] in Hf |- *.
        rewrite (upd_task_spec _ t) by exact Ht. cbn [mbind res_bind].
        rewrite (Hins _ (set_stack None t)).
        2:{ cbn. rewrite Hts, insert_app_r_alt, Nat.sub_diag by lia. done. }
        cbn [mbind res_bind]. rewrite (IH _ _ a'); [reflexivity | reflexivity | exact Hf].
      * cbn [mbind res_bind]. rewrite (Hins _ t Hts). cbn [mbind res_bind].
        assert (set_stack None t = t) as -> by (destruct t; cbn in *; by subst).
        rewrite (IH _ _ a'); [done | done | exact Hf].
    + rewrite (IH (l1 ++ [t]) s a'); [done | by rewrite <- app_assoc | exact Hf].
Qed.

Lemma task_cleanup_spec s a' : length (tasks s) = 64%nat ->
  free_all (reaped (tasks s)) (alloc s) = Ret a' ->
  task_cleanup s = Ret (with_tasks (reap <$> tasks s) (with_alloc a' s)).
Proof.
  intros Hl Hf. unfold task_cleanup. change (Z.to_nat MAX_TASKS) with 64%nat. rewrite <- Hl.
  exact (cleanup_loop_spec (tasks s) [] s a' eq_refl Hf).
Qed.

(** ** Frames *)
Lemma push_all_spec vs : forall sp w,
  (push_all vs sp w).1 = sp - 8 * Z.of_nat (length vs) /\
  forall x, (push_all vs sp w).2 !! x =
    if decide (sp - 8 * Z.of_nat (length vs) <= x < sp /\ (sp - x) mod 8 = 0)
    then vs !! Z.to_nat ((sp - x) / 8 - 1) else w !! x.
Proof.
  induction vs as [|v vs IH]; intros sp w; cbn [push_all length].
  - split; [cbn; lia |]. intros x. by rewrite decide_False by lia.
  - destruct (IH (sp - 8) (<[sp - 8 := v]> w)) as [H1 H2]. split; [lia |].
    intros x. rewrite H2. destruct (decide (x = sp - 8)) as [-> | Hne].
    + rewrite decide_False by lia. rewrite lookup_insert_eq.
      rewrite decide_True by lia. replace ((sp - (sp - 8)) / 8 - 1) with 0 by lia. done.
    + rewrite lookup_insert_ne by done. case_decide as Hd.
      * rewrite decide_True by lia.
        replace (Z.to_nat ((sp - x) / 8 - 1)) with (S (Z.to_nat ((sp - 8 - x) / 8 - 1))) by lia.
        done.
      * by rewrite decide_False by lia.
Qed.

Lemma store_words_spec vs : forall a w x,
  store_words a vs w !! x =
    if decide (a <= x < a + 8 * Z.of_nat (length vs) /\ (x - a) mod 8 = 0)
    then vs !! Z.to_nat ((x - a) / 8) else w !! x.
Proof.
  induction vs as [|v vs IH]; intros a w x; cbn [store_words length].
  - by rewrite decide_False by lia.
  - destruct (decide (x = a)) as [-> | Hne].
    + rewrite lookup_insert_eq, decide_True by lia. by replace ((a - a) / 8) with 0 by lia.
    + rewrite lookup_insert_ne, IH by done. case_decide as Hd.
      * rewrite decide_True by lia.
        by replace (Z.to_nat ((x - a) / 8)) with (S (Z.to_nat ((x - (a + 8)) / 8))) by lia.
      * by rewrite decide_False by lia.
Qed.

Lemma load_words_spec s vs : forall a,
  (forall i v, vs !! i = Some v -> words s !! (a + 8 * Z.of_nat i) = Some v) ->
  load_words s a (length vs) = Ret vs.
Proof.
  induction vs as [|v vs IH]; intros a Ha; cbn [load_words length]; [done |].
  unfold load_word. pose proof (Ha 0%nat v eq_refl) as H0.
  rewrite Z.mul_0_r, Z.add_0_r in H0. rewrite H0. cbn [of_option mbind res_bind].
  rewrite IH; [done |]. intros i v' Hi. rewrite <- (Ha (S i) v' Hi). f_equal. lia.
Qed.
End Facts.

(** ** The task table: its invariant and how each update preserves it *)
Section Props.
Context {A : Type} `{!Allocator A} `{!Image}.
Implicit Types s : sched A.

(** ** The task table *)
Definition task_ok (lv : gmap Z Z) (t : task) : Prop :=
  (state t = TASK_READY \/ state t = TASK_SLEEPING -> running_cpu t = -1) /\
  (state t = TASK_UNUSED -> stack t = None) /\
  (state t <> TASK_UNUSED -> exists p n, stack t = Some p /\ lv !! p = Some n /\ TASK_STACK_SIZE <= n).

Definition distinct_stacks (ts : list task) : Prop :=
  forall i j ti tj p, ts !! i = Some ti -> ts !! j = Some tj ->
    stack ti = Some p -> stack tj = Some p -> i = j.

Definition table_ok (lv : gmap Z Z) (ts : list task) : Prop :=
  (forall i t, ts !! i = Some t -> task_ok lv t) /\ distinct_stacks ts.

(** RIP and CS of every saved frame are in memory. *)
Definition frame_in (w : gmap Z Z) (r : Z) : Prop :=
  is_Some (w !! (r + 120)) /\ is_Some (w !! (r + 128)).
Definition frames (w : gmap Z Z) (ts : list task) : Prop :=
  forall i t, ts !! i = Some t -> state t <> TASK_UNUSED -> frame_in w (ctx_rsp t).

Definition only (c : nat) (ts : list task) : Prop :=
  forall i t, ts !! i = Some t -> state t = TASK_RUNNING \/ state t = TASK_ZOMBIE -> i = c.

Definition has_idle (ts : list task) : Prop :=
  exists k t, ts !! k = Some t /\ is_idle t = true /\ cpu_affinity t = 0 /\
    (state t = TASK_READY \/ state t = TASK_RUNNING).

Record base s : Prop := {
  b_tasks : length (tasks s) = 64%nat;
  b_pick : exists lp, zget (last_pick s) 0 = Ret lp /\ -1 <= lp < 64;
  b_lock : sched_lock s = false;
  b_alloc : a_ok (alloc s);
  b_table : table_ok (a_live (alloc s)) (tasks s);
  b_frames : frames (words s) (tasks s);
}.

(** Between operations on CPU 0: the current task is the only one that can be
    RUNNING or (after its end) ZOMBIE, and the idle task is available. *)
Record inv (id : Z) s : Prop := {
  i_base : base s;
  i_cpu : cpu_index id s = Ret 0;
  i_active : scheduler_active s = true;
  i_current : exists c t, zget (current_task s) 0 = Ret (Some (Z.of_nat c)) /\
    tasks s !! c = Some t /\ state t <> TASK_UNUSED /\ only c (tasks s);
  i_idle : has_idle (tasks s);
}.

Definition running_task s : option task :=
  match current_task s !! 0%nat with Some (Some c) => tasks s !! Z.to_nat c | _ => None end.

(** *** One-slot updates *)
Lemma table_ok_upd lv ts i t t' :
  table_ok lv ts -> ts !! i = Some t -> stack t' = stack t -> task_ok lv t' ->
  table_ok lv (<[i := t']> ts).
Proof.
  intros [Hok Hd] Hi Hs Ht'. split.
  - intros j tj [(-> & -> & _) | [Hne Hj]]%list_lookup_insert_Some; [done | by eapply Hok].
  - assert (forall j tj, <[i := t']> ts !! j = Some tj ->
              exists tj', ts !! j = Some tj' /\ stack tj' = stack tj) as Hm.
    { intros j tj [(-> & -> & _) | [Hne Hj]]%list_lookup_insert_Some; eauto. }
    intros j k tj tk p (tj' & Hj & Ej)%Hm (tk' & Hk & Ek)%Hm.
    rewrite <- Ej, <- Ek. by eapply Hd.
Qed.

Lemma frames_upd w ts i t' :
  frames w ts -> (state t' <> TASK_UNUSED -> frame_in w (ctx_rsp t')) ->
  frames w (<[i := t']> ts).
Proof.
  intros Hf Ht j tj [(-> & -> & _) | [Hne Hj]]%list_lookup_insert_Some; [done | by eapply Hf].
Qed.

Lemma frame_in_mono w w' r : (forall x, is_Some (w !! x) -> is_Some (w' !! x)) ->
  frame_in w r -> frame_in w' r.
Proof. intros Hm [? ?]. split; by apply Hm. Qed.

Lemma frames_mono w w' ts : (forall x, is_Some (w !! x) -> is_Some (w' !! x)) ->
  frames w ts -> frames w' ts.
Proof. intros Hm Hf i t Hi Hu. eapply frame_in_mono; [exact Hm | by eapply Hf]. Qed.

Lemma store_words_mono a vs w x : is_Some (w !! x) -> is_Some (store_words a vs w !! x).
Proof.
  intros Hx. rewrite store_words_spec. case_decide; [| done].
  apply lookup_lt_is_Some_2. lia.
Qed.

Lemma only_upd c ts i t' :
  only c ts -> (state t' = TASK_RUNNING \/ state t' = TASK_ZOMBIE -> i = c) ->
  only c (<[i := t']> ts).
Proof.
  intros Ho Ht j tj [(-> & -> & _) | [Hne Hj]]%list_lookup_insert_Some; [done | by eapply Ho].
Qed.

Lemma has_idle_upd ts i t t' :
  has_idle ts -> ts !! i = Some t ->
  (is_idle t = true -> cpu_affinity t = 0 -> state t = TASK_READY \/ state t = TASK_RUNNING ->
   is_idle t' = true /\ cpu_affinity t' = 0 /\ (state t' = TASK_READY \/ state t' = TASK_RUNNING)) ->
  has_idle (<[i := t']> ts).
Proof.
  intros (k & tk & Hk & H1 & H2 & H3) Hi Ht. destruct (decide (k = i)) as [-> | Hne].
  - simplify_eq. exists i, t'. split; [| by apply Ht].
    apply list_lookup_insert_eq. by eapply lookup_lt_Some.
  - exists k, tk. split; [by rewrite list_lookup_insert_ne |]. done.
Qed.

(** *** Freeing the stacks of the zombies *)
Lemma reaped_in ts p : p ∈ reaped ts ->
  exists i t, ts !! i = Some t /\ state t = TASK_ZOMBIE /\ stack t = Some p.
Proof.
  induction ts as [|t ts IH]; cbn [reaped]; [by intros ?%elem_of_nil |].
  intros [Hp | Hp]%elem_of_app.
  - case_bool_decide; [| by apply elem_of_nil in Hp].
    destruct (stack t) eqn:Hs; [| by apply elem_of_nil in Hp].
    apply list_elem_of_singleton in Hp as ->. by exists 0%nat, t.
  - destruct (IH Hp) as (i & t' & ? & ?). by exists (S i), t'.
Qed.

Lemma distinct_tail t ts : distinct_stacks (t :: ts) -> distinct_stacks ts.
Proof.
  intros Hd i j ti tj p Hi Hj Hpi Hpj.
  assert (S i = S j) as [= ->]; [| done]. by eapply (Hd (S i) (S j)).
Qed.

Lemma reaped_NoDup ts : distinct_stacks ts -> NoDup (reaped ts).
Proof.
  induction ts as [|t ts IH]; intros Hd; cbn [reaped]; [constructor |].
  pose proof (IH (distinct_tail _ _ Hd)) as Hts.
  case_bool_decide; [| done]. destruct (stack t) as [p|] eqn:Hp; [| done]. cbn [app].
  constructor; [| done]. intros (i & ti & Hi & _ & Hs)%reaped_in.
  assert (0%nat = S i); [| done]. by eapply (Hd 0%nat (S i) t ti p).
Qed.

Lemma free_all_ok ps : forall a, a_ok a -> NoDup ps -> (forall p, p ∈ ps -> is_Some (a_live a !! p)) ->
  exists a', free_all ps a = Ret a' /\ a_ok a' /\
    forall q, q ∉ ps -> a_live a' !! q = a_live a !! q.
Proof.
  induction ps as [|p ps IH]; intros a Ha Hnd Hl; cbn [free_all]; [by exists a |].
  apply NoDup_cons in Hnd as [Hni Hnd].
  destruct (a_free_ok p a Ha) as (a1 & -> & Ha1 & Hl1); [apply Hl; by left |].
  cbn [mbind res_bind]. destruct (IH a1 Ha1 Hnd) as (a' & -> & Ha' & Hl').
  - intros q Hq. rewrite Hl1, lookup_delete_ne by (intros ->; done). apply Hl. by right.
  - exists a'. split_and!; [done | done |]. intros q Hq.
    apply not_elem_of_cons in Hq as [Hne Hq].
    rewrite Hl' by done. by rewrite Hl1, lookup_delete_ne.
Qed.

Lemma reap_state t : state (reap t) = TASK_ZOMBIE -> False.
Proof. unfold reap. case_bool_decide; [done | congruence]. Qed.

Lemma reap_other t : state t <> TASK_ZOMBIE -> reap t = t.
Proof. intros Hz. unfold reap. by rewrite bool_decide_false. Qed.

Lemma cleanup_ok s : length (tasks s) = 64%nat -> a_ok (alloc s) ->
  table_ok (a_live (alloc s)) (tasks s) ->
  exists a', task_cleanup s = Ret (with_tasks (reap <$> tasks s) (with_alloc a' s)) /\
    a_ok a' /\ table_ok (a_live a') (reap <$> tasks s).
Proof.
  intros Hlen Ha [Hok Hd].
  destruct (free_all_ok (reaped (tasks s)) (alloc s) Ha (reaped_NoDup _ Hd)) as (a' & Hf & Ha' & Hl).
  { intros p (i & t & Hi & Hz & Hp)%reaped_in.
    destruct (Hok i t Hi) as (_ & _ & Hst). destruct Hst as (q & n & Hq & Hn & _); [congruence |].
    simplify_eq. by exists n. }
  exists a'. split; [by apply task_cleanup_spec |]. split; [done |]. split.
  - intros i t' Hi. rewrite list_lookup_fmap_Some in Hi. destruct Hi as (t & -> & Hi).
    destruct (Hok i t Hi) as (H1 & H2 & H3).
    destruct (decide (state t = TASK_ZOMBIE)) as [Hz | Hz].
    + unfold reap. rewrite bool_decide_true by done. split_and!; cbn; done || (by intros [?|?]).
    + rewrite reap_other by done. split_and!; [done | done |]. intros Hu.
      destruct (H3 Hu) as (p & n & Hp & Hn & Hle). exists p, n. split_and!; [done | | done].
      rewrite Hl; [done |]. intros (j & tj & Hj & Hzj & Hpj)%reaped_in.
      assert (i = j) as -> by (by eapply Hd). congruence.
  - assert (forall i t' p, (reap <$> tasks s) !! i = Some t' -> stack t' = Some p ->
      exists t, tasks s !! i = Some t /\ stack t = Some p) as Hm.
    { intros i t' p Hi Hp. rewrite list_lookup_fmap_Some in Hi. destruct Hi as (t & -> & Hi).
      exists t. split; [done |]. unfold reap in Hp. case_bool_decide; done. }
    intros i j ti tj p Hi Hj Hpi Hpj.
    destruct (Hm _ _ _ Hi Hpi) as (ti' & ? & ?), (Hm _ _ _ Hj Hpj) as (tj' & ? & ?).
    by eapply Hd.
Qed.
End Props.
