(* ===== verification/TaskProps.v ===== *)
(** * The scheduler: invariant, fairness and context switches

    The table of tasks is well formed in every state a single CPU reaches by any
    sequence of operations, timer ticks included, and every scheduling interrupt
    finds a task to run. *)
From S2P Require Import Prelude Interfaces Task TaskFacts.

Section Ops.
Context {A : Type} `{!Allocator A} `{!Image}.
Implicit Types s : sched A.

(** ** The operations preserve the invariant *)
Lemma find_free_ok s : length (tasks s) = 64%nat ->
  task_find_free s = Ret (-1) \/
  exists i t, task_find_free s = Ret (Z.of_nat i) /\ tasks s !! i = Some t /\ state t = TASK_UNUSED.
Proof.
  intros Hlen. unfold task_find_free.
  destruct (find_free_loop_spec s (Z.to_nat MAX_TASKS) 0) as [[Hff _] | (i & t & _ & Hff)].
  - rewrite Hlen. done.
  - by left.
  - right. by exists i, t.
Qed.

Lemma build_stack_spec p e s :
  exists sp w, task_build_stack p e s = (sp, with_words w s) /\ frame_in w sp /\
    forall x, is_Some (words s !! x) -> is_Some (w !! x).
Proof.
  unfold task_build_stack.
  set (top := Z.land _ _). set (vs := _ ++ repeat 0 15).
  destruct (push_all_spec vs top (words s)) as [Hsp Hw].
  destruct (push_all vs top (words s)) as [sp w]. cbn [fst snd] in *.
  change (Z.of_nat (length vs)) with 18 in *. exists sp, w. split; [done |]. split; [split |].
  - rewrite Hw, decide_True by lia. subst sp.
    replace (Z.to_nat _) with 2%nat by lia. by eexists.
  - rewrite Hw, decide_True by lia. subst sp.
    replace (Z.to_nat _) with 1%nat by lia. by eexists.
  - intros x Hx. rewrite Hw. case_decide; [| done].
    apply lookup_lt_is_Some_2. change (length vs) with 18%nat. lia.
Qed.

(** What every operation but the start-up leaves alone. *)
Definition same_cpu s s' : Prop :=
  current_task s' = current_task s /\ idle_index s' = idle_index s /\
  lapic_map s' = lapic_map s /\ lapic_map_count s' = lapic_map_count s /\
  scheduler_active s' = scheduler_active s /\ last_pick s' = last_pick s.

Lemma same_cpu_index id s s' : same_cpu s s' -> cpu_index id s' = cpu_index id s.
Proof. intros (_ & _ & H1 & H2 & _). unfold cpu_index. by rewrite H1, H2. Qed.

(** A created task takes a free slot; everything else is untouched. *)
Lemma create_ok nm ent ar cpu s : base s ->
  exists r s', task_create_affinity nm ent ar cpu s = Ret (r, s') /\ base s' /\ same_cpu s s' /\
    (r = -1 /\ tasks s' = tasks s \/
     exists i t sp p, r = Z.of_nat i /\ tasks s !! i = Some t /\ state t = TASK_UNUSED /\
       tasks s' = <[i := Task TASK_READY sp 0 nm ent ar (Some p) cpu (-1) false]> (tasks s)).
Proof.
  intros [Hlen Hpick Hlock Ha Ht Hf]. unfold task_create_affinity, spin_lock.
  rewrite Hlock. cbn [mbind res_bind].
  destruct (find_free_ok (with_lock true s) Hlen) as [-> | (i & t & -> & Hi & Hu)];
    cbn [mbind res_bind].
  { do 2 eexists. split; [reflexivity |]. split; [by split |]. split; [done |]. by left. }
  destruct (Z.ltb_spec (Z.of_nat i) 0); [lia |].
  destruct (a_malloc_ok TASK_STACK_SIZE (alloc s) Ha) as (r & a' & Hm & Ha' & Hr);
    [unfold TASK_STACK_SIZE; lia |].
  cbn [alloc with_lock]. rewrite Hm. cbn [mbind res_bind].
  destruct r as [p|].
  2:{ do 2 eexists. split; [reflexivity |]. split; [| split; [done | by left]].
      split; cbn; try done. by rewrite Hr. }
  destruct Hr as (Hp & n & Hn & Hl).
  destruct (build_stack_spec p addr_task_trampoline (with_alloc a' (with_lock true s)))
    as (sp & w & -> & Hfr & Hmono).
  rewrite (upd_task_spec i t) by exact Hi. cbn [mbind res_bind].
  do 2 eexists. split; [reflexivity |]. split; [| split; [done |]].
  2:{ right. by exists i, t, sp, p. }
  assert (forall j tj, tasks s !! j = Some tj -> stack tj <> Some p) as Hfresh.
  { intros j tj Hj Hs. destruct (proj1 Ht j tj Hj) as (_ & H2 & H3).
    destruct (decide (state tj = TASK_UNUSED)) as [E | E]; [rewrite H2 in Hs; done |].
    destruct (H3 E) as (q & m & Hq & Hlq & _). congruence. }
  split; cbn.
  - by rewrite length_insert.
  - done.
  - done.
  - done.
  - destruct Ht as [Hok Hd]. split.
    + intros j tj [(<- & <- & _) | [Hne Hj]]%list_lookup_insert_Some.
      * split_and!; cbn; [done | done |]. intros _. exists p, n.
        rewrite Hl, lookup_insert_eq. done.
      * destruct (Hok j tj Hj) as (H1 & H2 & H3). split_and!; [done | done |].
        intros E. destruct (H3 E) as (q & m & Hq & Hlq & Hle). exists q, m.
        split_and!; [done | | done]. rewrite Hl, lookup_insert_ne; [done |]. congruence.
    + intros j k tj tk q [(<- & <- & _) | [Hj' Hj]]%list_lookup_insert_Some
        [(<- & <- & _) | [Hk' Hk]]%list_lookup_insert_Some Hq Hq'; cbn in *; try done.
      * simplify_eq. destruct (Hfresh k tk Hk Hq').
      * simplify_eq. destruct (Hfresh j tj Hj Hq).
      * by eapply Hd.
  - apply frames_upd; [| by intros _]. by eapply frames_mono.
Qed.

Lemma create_inv id nm ent ar cpu s : inv id s ->
  exists r s', task_create_affinity nm ent ar cpu s = Ret (r, s') /\ inv id s' /\
    running_task s' = running_task s.
Proof.
  intros [Hb Hc Ha (c & t & Hcur & Ht & Hu & Ho) Hi].
  destruct (create_ok nm ent ar cpu s Hb) as (r & s' & -> & Hb' & Hs & Hr).
  exists r, s'. split; [done |].
  pose proof (same_cpu_index id s s' Hs) as Hci. destruct Hs as (S1 & _ & _ & _ & S5 & _).
  destruct Hr as [[_ Hts] | (i & ti & sp & p & _ & Hti & Hui & Hts)].
  - split; [split; rewrite ?Hts, ?S1, ?S5, ?Hci; try done; by exists c, t |].
    unfold running_task. by rewrite S1, Hts.
  - assert (i <> c) as Hne by congruence.
    split; [split; rewrite ?S5, ?Hci; try done |].
    + exists c, t. rewrite S1, Hts, list_lookup_insert_ne by done. split_and!; [done.. |].
      apply only_upd; [done | by intros [?|?]].
    + rewrite Hts. eapply has_idle_upd; [done.. |]. intros _ _ [?|?]; congruence.
    + unfold running_task. rewrite S1, Hts. apply zget_ok in Hcur as [_ Hcur].
      change (Z.to_nat 0) with 0%nat in Hcur. rewrite Hcur, Nat2Z.id.
      by rewrite list_lookup_insert_ne.
Qed.

Lemma tick_ok id ticks s : inv id s -> inv id (task_tick ticks s) /\
  forall t, running_task s = Some t -> state t = TASK_RUNNING ->
    running_task (task_tick ticks s) = Some t.
Proof.
  intros [[Hlen Hpick Hlock Halloc [Hok Hd] Hf] Hc Ha (c & t & Hcur & Ht & Hu & Ho) Hi].
  unfold task_tick. rewrite Ha. unfold spin_try_lock. rewrite Hlock. cbn [negb].
  assert (Hw : forall t, stack (wake_due ticks t) = stack t /\
    ctx_rsp (wake_due ticks t) = ctx_rsp t /\ running_cpu (wake_due ticks t) = running_cpu t /\
    is_idle (wake_due ticks t) = is_idle t /\ cpu_affinity (wake_due ticks t) = cpu_affinity t).
  { intros t'. unfold wake_due. by destruct (_ && _). }
  assert (Hst : forall t, (state t <> TASK_SLEEPING /\ wake_due ticks t = t) \/
    state t = TASK_SLEEPING /\ state (wake_due ticks t) <> TASK_RUNNING /\
      state (wake_due ticks t) <> TASK_ZOMBIE /\ state (wake_due ticks t) <> TASK_UNUSED).
  { intros t'. unfold wake_due. case_bool_decide as Hs; cbn [andb]; [| by left].
    right. destruct (_ <=? _); cbn; rewrite ?Hs; done. }
  split.
  - split; [split | ..]; cbn; try done; [by rewrite length_fmap | split | | |].
    + intros i t' (t1 & -> & H1)%list_lookup_fmap_Some. destruct (Hok i t1 H1) as (T1 & T2 & T3).
      destruct (Hw t1) as (W1 & _ & W3 & _).
      destruct (Hst t1) as [[_ ->] | (E & _ & _ & Eu)]; [done |].
      split_and!; rewrite ?W1, ?W3; [intros _; auto | done | intros _; apply T3; congruence].
    + intros i j ti tj p (t1 & -> & H1)%list_lookup_fmap_Some (t2 & -> & H2)%list_lookup_fmap_Some.
      rewrite (proj1 (Hw t1)), (proj1 (Hw t2)). by eapply Hd.
    + intros i t' (t1 & -> & H1)%list_lookup_fmap_Some Hne.
      rewrite (proj1 (proj2 (Hw t1))). apply (Hf i t1 H1). destruct (Hst t1) as [[_ E] | [E _]]; congruence.
    + exists c, (wake_due ticks t). rewrite list_lookup_fmap, Ht. split_and!; [done | done | |].
      * destruct (Hst t) as [[_ ->] | (_ & _ & _ & ?)]; done.
      * intros i t' (t1 & -> & H1)%list_lookup_fmap_Some HR. apply (Ho i t1 H1).
        destruct (Hst t1) as [[_ E] | (_ & ? & ? & _)]; [congruence | tauto].
    + destruct Hi as (k & tk & Hk & I1 & I2 & I3). exists k, tk.
      assert (wake_due ticks tk = tk) as E
        by (destruct (Hst tk) as [[_ E] | [E _]]; [done | destruct I3; congruence]).
      rewrite list_lookup_fmap, Hk. cbn. by rewrite E.
  - unfold running_task; cbn. intros t0. destruct (current_task s !! 0%nat) as [[c'|]|]; [| done..].
    intros Ht0 Hr. rewrite list_lookup_fmap, Ht0. cbn. f_equal.
    destruct (Hst t0) as [[_ E] | [E _]]; [exact E | congruence].
Qed.

(** The critical sections of [task_sleep] and of the end of a task: the running
    task leaves the RUNNING state. *)
Lemma leave_ok id c t t' s : inv id s ->
  zget (current_task s) 0 = Ret (Some (Z.of_nat c)) -> tasks s !! c = Some t ->
  is_idle t = false -> stack t' = stack t -> ctx_rsp t' = ctx_rsp t ->
  state t' <> TASK_UNUSED -> state t' <> TASK_RUNNING -> running_cpu t' = -1 ->
  inv id (with_tasks (<[c := t']> (tasks s)) s).
Proof.
  intros [[Hlen Hpick Hlock Halloc Htab Hf] Hc Ha (c' & tc & Hcur & Ht & Hu & Ho) Hi]
    Hcur' Hct Hidle Hst Hrsp Hnu Hnr Hrun.
  assert (c' = c) as -> by (rewrite Hcur in Hcur'; injection Hcur'; lia).
  assert (tc = t) as -> by congruence.
  split; [split | ..]; cbn; try done.
  - by rewrite length_insert.
  - eapply table_ok_upd; [done.. |]. split_and!; [done | done |]. intros _. rewrite Hst.
    by apply (proj1 Htab c t).
  - apply frames_upd; [done |]. rewrite Hrsp. intros _. by apply (Hf c t).
  - exists c, t'. rewrite list_lookup_insert_eq by (by eapply lookup_lt_Some).
    split_and!; [done.. |]. by apply only_upd.
  - eapply has_idle_upd; [done.. |]. congruence.
Qed.

Lemma sleep_ok id ticks n s : inv id s ->
  (forall t, running_task s = Some t -> is_idle t = false) ->
  exists s', task_sleep id ticks n s = Ret (true, s') /\ inv id s'.
Proof.
  intros Hinv Hni. pose proof Hinv as [[_ _ Hlock _ _ _] Hc _ (c & t & Hcur & Ht & _ & _) _].
  unfold task_sleep. rewrite Hc. cbn [mbind res_bind]. rewrite Hcur. cbn [mbind res_bind].
  unfold spin_lock. rewrite Hlock. cbn [mbind res_bind].
  rewrite (upd_task_spec c t) by exact Ht. cbn [mbind res_bind]. eexists. split; [reflexivity |].
  match goal with |- inv id ?s' => assert (s' = with_tasks (<[c :=
    set_running (-1) (set_wake (u64 (ticks + n)) (set_state TASK_SLEEPING t))]> (tasks s)) s) as -> end.
  { destruct s; cbn in *. by subst. }
  eapply (leave_ok id c t); try done. apply Hni. unfold running_task.
  apply zget_ok in Hcur as [_ Hcur]. change (Z.to_nat 0) with 0%nat in Hcur.
  by rewrite Hcur, Nat2Z.id.
Qed.

Lemma exit_ok id c s : inv id s -> zget (current_task s) 0 = Ret (Some c) ->
  (forall t, running_task s = Some t -> is_idle t = false) ->
  exists s', trampoline_exit c s = Ret s' /\ inv id s'.
Proof.
  intros Hinv Hc' Hni. pose proof Hinv as [[_ _ Hlock _ _ _] Hc _ (c0 & t & Hcur & Ht & _ & _) _].
  rewrite Hcur in Hc'. injection Hc' as <-.
  unfold trampoline_exit, spin_lock. rewrite Hlock. cbn [mbind res_bind].
  rewrite (upd_task_spec c0 t) by exact Ht. cbn [mbind res_bind]. eexists. split; [reflexivity |].
  match goal with |- inv id ?s' => assert (s' = with_tasks (<[c0 :=
    set_running (-1) (set_state TASK_ZOMBIE t)]> (tasks s)) s) as -> end.
  { destruct s; cbn in *. by subst. }
  eapply (leave_ok id c0 t); try done. apply Hni. unfold running_task.
  apply zget_ok in Hcur as [_ Hcur]. change (Z.to_nat 0) with 0%nat in Hcur.
  by rewrite Hcur, Nat2Z.id.
Qed.

(** ** The scheduling interrupt *)
Definition park (rsp : Z) (t : task) : task :=
  let t := set_rsp rsp t in
  if bool_decide (state t = TASK_RUNNING) then set_running (-1) (set_state TASK_READY t) else t.
Definition dispatch (id : Z) (t : task) : task := set_running id (set_state TASK_RUNNING t).

(** The table the pick sees: zombies reaped, the interrupted task parked. *)
Definition parked (c : nat) (rsp : Z) s : list task :=
  match (reap <$> tasks s) !! c with
  | Some t => <[c := park rsp t]> (reap <$> tasks s)
  | None => reap <$> tasks s
  end.

Lemma parked_eq c t rsp s : tasks s !! c = Some t ->
  parked c rsp s = <[c := park rsp (reap t)]> (reap <$> tasks s).
Proof. intros Ht. unfold parked. by rewrite list_lookup_fmap, Ht. Qed.

Lemma park_stack rsp t : stack (park rsp t) = stack t.
Proof. unfold park. by case_bool_decide. Qed.
Lemma park_state rsp t : (state (park rsp t) = state t /\ state t <> TASK_RUNNING) \/
  (state t = TASK_RUNNING /\ state (park rsp t) = TASK_READY /\ running_cpu (park rsp t) = -1).
Proof. unfold park. case_bool_decide as Hr; cbn in *; [by right | by left]. Qed.

Lemma parked_ok c t rsp s : base s -> frame_in (words s) rsp ->
  tasks s !! c = Some t -> only c (tasks s) -> has_idle (tasks s) ->
  exists a', task_cleanup (with_lock true s) =
      Ret (with_tasks (reap <$> tasks s) (with_alloc a' (with_lock true s))) /\ a_ok a' /\
    table_ok (a_live a') (parked c rsp s) /\ frames (words s) (parked c rsp s) /\
    (forall i t', parked c rsp s !! i = Some t' -> state t' <> TASK_RUNNING /\ state t' <> TASK_ZOMBIE) /\
    has_idle (parked c rsp s).
Proof.
  intros [Hlen Hpick Hlock Halloc Htab Hf] Hfr Ht Ho Hi.
  destruct (cleanup_ok (with_lock true s) Hlen Halloc Htab) as (a' & Hcl & Ha' & Htab').
  exists a'. split; [exact Hcl |]. split; [done |]. rewrite (parked_eq c t) by done.
  assert ((reap <$> tasks s) !! c = Some (reap t)) as Hc by (by rewrite list_lookup_fmap, Ht).
  cbn [tasks with_lock] in Htab'.
  assert (Hrf : frames (words s) (reap <$> tasks s)).
  { intros i t' (t1 & -> & H1)%list_lookup_fmap_Some Hne.
    destruct (decide (state t1 = TASK_ZOMBIE)) as [E | E].
    - unfold reap in Hne. rewrite bool_decide_true in Hne by done. done.
    - rewrite reap_other in * by done. by apply (Hf i t1 H1). }
  split_and!.
  - eapply table_ok_upd; [done | done | by rewrite park_stack |].
    destruct (proj1 Htab' c _ Hc) as (H1 & H2 & H3). unfold task_ok.
    rewrite park_stack. destruct (park_state rsp (reap t)) as [[-> Hn] | (E & -> & Hr)].
    + assert (running_cpu (park rsp (reap t)) = running_cpu (reap t)) as ->; [| done].
      unfold park. by rewrite bool_decide_false.
    + split_and!; [done | done |]. intros _. apply H3. congruence.
  - apply frames_upd; [done |]. intros _. unfold park. by case_bool_decide.
  - intros i t' [(<- & <- & _) | [Hne Hj]]%list_lookup_insert_Some.
    + destruct (park_state rsp (reap t)) as [[-> Hn] | (E & -> & Hr)]; [| done].
      split; [done |]. intros Hz. by apply (reap_state t).
    + apply list_lookup_fmap_Some in Hj as (t1 & -> & H1).
      destruct (decide (state t1 = TASK_ZOMBIE)) as [E | E];
        [destruct Hne; symmetry; apply (Ho i t1 H1); by right |].
      rewrite reap_other by done. split; [| done]. intros E'. destruct Hne. symmetry.
      apply (Ho i t1 H1). by left.
  - eapply has_idle_upd; [| exact Hc |].
    + destruct Hi as (k & tk & Hk & I1 & I2 & I3). exists k, tk.
      rewrite list_lookup_fmap, Hk. cbn. rewrite reap_other by (destruct I3; congruence). done.
    + intros I1 I2 I3. unfold park. case_bool_decide; cbn in *; [by auto | done].
Qed.

Definition after_switch (id : Z) (c n : nat) (tn : task) (rsp : Z) (a' : A) s : sched A :=
  with_lock false (with_current (<[0%nat := Some (Z.of_nat n)]> (current_task s))
    (with_last_pick (<[0%nat := Z.of_nat n]> (last_pick s))
      (with_tasks (<[n := dispatch id tn]> (parked c rsp s)) (with_alloc a' s)))).

Lemma isr_switch id rsp c s : inv id s -> frame_in (words s) rsp ->
  zget (current_task s) 0 = Ret (Some (Z.of_nat c)) ->
  exists a' n tn, a_ok a' /\ table_ok (a_live a') (parked c rsp s) /\
    frames (words s) (parked c rsp s) /\ has_idle (parked c rsp s) /\
    (forall i t', parked c rsp s !! i = Some t' -> state t' <> TASK_RUNNING /\ state t' <> TASK_ZOMBIE) /\
    parked c rsp s !! n = Some tn /\ pickable 0 tn = true /\
    pick_result 0 (parked c rsp s)
      (Z.rem (default 0 (last_pick s !! 0%nat) + 1) MAX_TASKS) 0 64 None (Some (Z.of_nat n)) /\
    exists r, frame_rsp (ctx_rsp tn) rsp (after_switch id c n tn rsp a' s) = Ret r /\
      task_schedule_isr id rsp s = Ret (r, after_switch id c n tn rsp a' s).
Proof.
  intros Hinv Hfr Hcur. pose proof Hinv as [Hb Hc Ha (c0 & t & Hcur0 & Ht & Hu & Ho) Hi].
  assert (c0 = c) as -> by (rewrite Hcur in Hcur0; injection Hcur0; lia).
  destruct (parked_ok c t rsp s Hb Hfr Ht Ho Hi) as (a' & Hcl & Ha' & Htab & Hf & Hnr & Hidle).
  pose proof (parked_eq c t rsp s Ht) as Hpk.
  pose proof Hb as [Hlen (lp & Hlp & Hlpr) Hlock _ _ _].
  set (s2 := with_tasks (parked c rsp s) (with_alloc a' (with_lock true s))).
  destruct (task_pick_next_spec 0 s2 lp) as (r & Hres & Hpn);
    [by cbn; rewrite Hpk, length_insert, length_fmap | done | done |].
  assert (exists n tn, r = Some (Z.of_nat n) /\ parked c rsp s !! n = Some tn /\
    pickable 0 tn = true) as (n & tn & -> & Hn & Hp).
  { assert (0 <= Z.rem (lp + 1) MAX_TASKS < 64) as Hst
      by (unfold MAX_TASKS; rewrite Z.rem_mod_nonneg by lia; lia).
    destruct Hres as [k tk Hk Hlk Hc' _ | ? | k tk _ Hk Hlk Hp _ _ _ | _ Hno]; try done.
    - exists (Z.to_nat (slot (Z.rem (lp + 1) MAX_TASKS) k)), tk.
      pose proof (slot_range (Z.rem (lp + 1) MAX_TASKS) k ltac:(lia) ltac:(lia)).
      rewrite Z2Nat.id by lia. split_and!; [done | done |].
      unfold chosen in Hc'. by apply andb_true_iff in Hc' as [? _].
    - exists (Z.to_nat (slot (Z.rem (lp + 1) MAX_TASKS) k)), tk.
      pose proof (slot_range (Z.rem (lp + 1) MAX_TASKS) k ltac:(lia) ltac:(lia)).
      by rewrite Z2Nat.id by lia.
    - exfalso. destruct Hidle as (k & tk & Hk & I1 & I2 & I3).
      assert (state tk = TASK_READY) as Hr by (destruct (Hnr k tk Hk); destruct I3; done).
      assert (pickable 0 tk = true) as Hpt.
      { unfold pickable. rewrite bool_decide_true by done.
        rewrite (proj1 (proj1 Htab k tk Hk)) by auto. by rewrite I2. }
      assert (Z.of_nat k < 64) as Hk64.
      { apply lookup_lt_Some in Hk. rewrite Hpk, length_insert, length_fmap in Hk. lia. }
      pose proof (slot_dist _ (Z.of_nat k) Hst ltac:(lia)) as Hd.
      rewrite (Hno ((Z.of_nat k - Z.rem (lp + 1) MAX_TASKS) mod 64) tk) in Hpt; [done | lia |].
      cbn [tasks s2 with_tasks]. by rewrite Hd, Nat2Z.id. }
  assert (Hlast : last_pick s !! 0%nat = Some lp).
  { by apply zget_ok in Hlp as [_ ?]. }
  exists a', n, tn. split_and!; try done.
  { by rewrite Hlast. }
  assert (exists r, frame_rsp (ctx_rsp tn) rsp (after_switch id c n tn rsp a' s) = Ret r) as [r Hr].
  { unfold frame_rsp. destruct (ctx_rsp tn =? 0); [by eexists |].
    destruct (Hf n tn Hn) as [[rip Hrip] [cs Hcs]].
    { intros E. unfold pickable in Hp. by rewrite E in Hp. }
    unfold load_word. cbn [words after_switch with_lock with_current with_last_pick with_tasks with_alloc].
    change (15 * 8) with 120. change (16 * 8) with 128. rewrite Hrip, Hcs. cbn.
    destruct (_ || _); by eexists. }
  exists r. split; [done |].
  unfold task_schedule_isr. rewrite Ha. cbn [negb]. rewrite (bind_ret _ _ _ Hc).
  unfold spin_try_lock. rewrite Hlock. cbn [negb]. rewrite (bind_ret _ _ _ Hcl).
  cbn [current_task with_tasks with_alloc with_lock]. rewrite (bind_ret _ _ _ Hcur). cbv beta iota.
  rewrite (bind_ret _ s2).
  2:{ rewrite (upd_task_spec c (reap t)) by (cbn; by rewrite list_lookup_fmap, Ht).
      unfold s2. rewrite Hpk. reflexivity. }
  rewrite (bind_ret _ _ _ Hpn). cbv beta iota zeta.
  rewrite (bind_ret _ _ _ (upd_task_spec n tn (dispatch id)
    (with_last_pick (<[Z.to_nat 0 := Z.of_nat n]> (last_pick s2)) s2) Hn)).
  cbn [current_task with_tasks with_alloc with_lock with_last_pick s2 tasks last_pick].
  apply zget_ok in Hcur as [_ Hcur]. change (Z.to_nat 0) with 0%nat in *.
  rewrite (bind_ret _ (<[0%nat := Some (Z.of_nat n)]> (current_task s))).
  2:{ case_decide as E.
      - injection E as E. by rewrite list_insert_id by (by rewrite <- E).
      - apply zset_ok. apply lookup_lt_Some in Hcur. split; [lia | done]. }
  cbv zeta. cbn [tasks with_current with_tasks].
  rewrite (bind_ret _ (dispatch id tn)).
  2:{ apply zget_nat. rewrite list_lookup_insert_eq; [done | by eapply lookup_lt_Some]. }
  cbn [ctx_rsp dispatch set_running set_state].
  rewrite (bind_ret _ r); [| exact Hr]. destruct s; reflexivity.
Qed.

Lemma isr_ok id rsp s : inv id s -> frame_in (words s) rsp ->
  exists r s', task_schedule_isr id rsp s = Ret (r, s') /\ inv id s' /\
    exists t, running_task s' = Some t /\ state t = TASK_RUNNING /\ running_cpu t = id.
Proof.
  intros Hinv Hfr. pose proof Hinv as [Hb Hc Ha (c & t & Hcur & Ht & Hu & Ho) Hi].
  destruct (isr_switch id rsp c s Hinv Hfr Hcur) as
    (a' & n & tn & Ha' & Htab & Hf & Hidle & Hnr & Hn & Hp & _ & r & _ & Hisr).
  exists r, (after_switch id c n tn rsp a' s). split; [done |].
  destruct Hb as [Hlen (lp & Hlp & Hlpr) Hlock _ _ _].
  assert (Hlt : (n < length (parked c rsp s))%nat) by (by eapply lookup_lt_Some).
  assert (length (parked c rsp s) = 64%nat) as Hpl.
  { rewrite (parked_eq c t) by done. by rewrite length_insert, length_fmap. }
  assert (Hst : state tn = TASK_READY).
  { unfold pickable in Hp. apply andb_true_iff in Hp as [Hp _].
    apply andb_true_iff in Hp as [Hp _]. by apply bool_decide_eq_true in Hp. }
  apply zget_ok in Hcur as [_ Hcur]. apply zget_ok in Hlp as [_ Hlp].
  change (Z.to_nat 0) with 0%nat in *.
  assert (Hcur' : <[0%nat := Some (Z.of_nat n)]> (current_task s) !! 0%nat = Some (Some (Z.of_nat n)))
    by (apply list_lookup_insert_eq; by eapply lookup_lt_Some).
  split.
  - split; [split | ..]; cbn; try done.
    + by rewrite length_insert.
    + exists (Z.of_nat n). split; [| lia]. apply zget_ok. split; [lia |].
      apply list_lookup_insert_eq. by eapply lookup_lt_Some.
    + eapply table_ok_upd; [done | done | done |].
      destruct (proj1 Htab n tn Hn) as (T1 & T2 & T3).
      split_and!; cbn; [by intros [?|?] | done |]. intros _. apply T3. congruence.
    + apply frames_upd; [done |]. intros _. apply (Hf n tn Hn). congruence.
    + exists n, (dispatch id tn). rewrite list_lookup_insert_eq by done.
      split_and!; [apply zget_ok; split; [lia | done] | done | done |].
      apply only_upd; [| done].
      intros i ti Hti [?|?]; destruct (Hnr i ti Hti); done.
    + eapply has_idle_upd; [done.. |]. cbn. by auto.
  - exists (dispatch id tn). unfold running_task. cbn. rewrite Hcur', Nat2Z.id.
    by rewrite list_lookup_insert_eq.
Qed.

(** ** Executions of one CPU *)
Inductive sched_op :=
  | OpCreate (nm ent ar cpu : Z)
  | OpTick (ticks : Z)
  | OpSleep (ticks n : Z)
  | OpExit
  | OpYield (rsp : Z) (ctx : list Z).

Definition sched_exec (id : Z) (o : sched_op) s : res (sched A) :=
  match o with
  | OpCreate nm ent ar cpu => '(_, s) ← task_create_affinity nm ent ar cpu s; Ret s
  | OpTick ticks => Ret (task_tick ticks s)
  | OpSleep ticks n => '(_, s) ← task_sleep id ticks n s; Ret s
  | OpExit => e ← trampoline_enter id s;
              match e with Some (i, _) => trampoline_exit i s | None => Ret s end
  | OpYield rsp ctx =>
      '(_, s) ← task_schedule_isr id rsp (with_words (store_words rsp ctx (words s)) s); Ret s
  end.

(** The timer may fire and the interrupt may be raised at any point; the other
    operations are calls of the running task, and the idle task only halts. *)
Definition sched_allowed (o : sched_op) s : Prop :=
  match o with
  | OpTick _ => True
  | OpYield _ ctx => length ctx = 20%nat
  | OpCreate _ _ _ _ => exists t, running_task s = Some t /\ state t = TASK_RUNNING
  | OpSleep _ _ | OpExit =>
      exists t, running_task s = Some t /\ state t = TASK_RUNNING /\ is_idle t = false
  end.

Fixpoint create_all (apps : list (Z * Z * Z)) s : res (sched A) :=
  match apps with
  | [] => Ret s
  | (nm, ent, ar) :: apps => '(_, s) ← task_create nm ent ar s; create_all apps s
  end.

(** The start-up of [main.c] with one CPU. *)
Definition kernel_boot (id cs ds : Z) (apps : list (Z * Z * Z)) s : res (sched A) :=
  s ← task_register_cpu id 0 s;
  s ← task_init cs ds 1 s;
  s ← create_all apps s;
  task_start_bsp id s.

Definition statics_ok s : Prop :=
  length (tasks s) = 64%nat /\ length (lapic_map s) = 256%nat /\ lapic_map_count s = 0 /\
  a_ok (alloc s).

Inductive sched_reach (id : Z) : sched A -> Prop :=
  | reach_boot cs ds apps s0 s :
      0 <= id < 256 -> statics_ok s0 -> kernel_boot id cs ds apps s0 = Ret s ->
      (exists k, idle_index s !! 0%nat = Some k /\ 0 <= k) -> sched_reach id s
  | reach_step o s s' :
      sched_reach id s -> sched_allowed o s -> sched_exec id o s = Ret s' -> sched_reach id s'.

Lemma exec_ok id o s : inv id s -> sched_allowed o s ->
  exists s', sched_exec id o s = Ret s' /\ inv id s' /\
    match o with
    | OpYield _ _ => exists t, running_task s' = Some t /\ state t = TASK_RUNNING /\ running_cpu t = id
    | _ => True
    end.
Proof.
  intros Hinv Hal. destruct o as [nm ent ar cpu | ticks | ticks n | | rsp ctx]; cbn [sched_exec].
  - destruct (create_inv id nm ent ar cpu s Hinv) as (r & s' & -> & Hi & _). by exists s'.
  - exists (task_tick ticks s). split; [done |]. split; [by apply tick_ok | done].
  - destruct Hal as (t & Ht & _ & Hid).
    destruct (sleep_ok id ticks n s Hinv) as (s' & -> & Hi); [congruence |]. by exists s'.
  - destruct Hal as (t & Ht & _ & Hid).
    pose proof Hinv as [_ Hc _ (c & tc & Hcur & Htc & _) _].
    unfold trampoline_enter. rewrite (bind_ret _ _ _ Hc), (bind_ret _ _ _ Hcur). cbv beta iota.
    rewrite (zget_nat _ _ _ Htc). cbn [mbind res_bind].
    destruct (exit_ok id (Z.of_nat c) s Hinv Hcur) as (s' & -> & Hi); [congruence |].
    by exists s'.
  - cbn in Hal. set (s1 := with_words _ s).
    assert (frame_in (words s1) rsp) as Hfr.
    { split; cbn; rewrite store_words_spec, decide_True by lia; apply lookup_lt_is_Some_2; lia. }
    assert (inv id s1) as Hinv1.
    { destruct Hinv as [[] ? ? ? ?]. split; [split | ..]; try done. cbn.
      eapply frames_mono; [| done]. intros x. apply store_words_mono. }
    destruct (isr_ok id rsp s1 Hinv1 Hfr) as (r & s' & -> & Hi & Ht). by exists s'.
Qed.

(** *** Start-up *)
Record ready_to_start (id : Z) s : Prop := {
  r_base : base s;
  r_cpu : cpu_index id s = Ret 0;
  r_none : forall i t, tasks s !! i = Some t -> state t <> TASK_RUNNING /\ state t <> TASK_ZOMBIE;
  r_cur : length (current_task s) = 64%nat;
  r_len : length (idle_index s) = 64%nat;
  r_idle : forall k, idle_index s !! 0%nat = Some k -> 0 <= k ->
    exists t, tasks s !! Z.to_nat k = Some t /\ is_idle t = true /\ cpu_affinity t = 0 /\
      state t = TASK_READY;
}.

Lemma create_all_ok id apps : forall s, ready_to_start id s ->
  exists s', create_all apps s = Ret s' /\ ready_to_start id s' /\ idle_index s' = idle_index s.
Proof.
  induction apps as [|[[nm ent] ar] apps IH]; intros s Hs; cbn [create_all]; [by exists s |].
  pose proof Hs as [Hb Hc Hn Hl Hl' Hi]. unfold task_create.
  destruct (create_ok nm ent ar (-1) s Hb) as (r & s1 & -> & Hb1 & Hsame & Hr).
  cbn [mbind res_bind]. pose proof (same_cpu_index id s s1 Hsame) as Hci.
  destruct Hsame as (S1 & S2 & _).
  destruct (IH s1) as (s' & -> & Hs' & Hidx).
  - split; rewrite ?Hci, ?S1, ?S2; try done.
    + intros i t Ht. destruct Hr as [[_ Hts] | (j & tj & sp & p & _ & _ & _ & Hts)];
        rewrite Hts in Ht; [by eapply Hn |].
      apply list_lookup_insert_Some in Ht as [(<- & <- & _) | [_ Ht]]; [done | by eapply Hn].
    + intros k Hk Hk0. destruct (Hi k Hk Hk0) as (t & Ht & I1 & I2 & I3). exists t.
      destruct Hr as [[_ Hts] | (j & tj & sp & p & _ & Hj & Hju & Hts)]; rewrite Hts; [done |].
      rewrite list_lookup_insert_ne; [done |]. intros ->. congruence.
  - exists s'. split_and!; [done | done | congruence].
Qed.
End Ops.
