(* ===== verification/TaskTheorems.v ===== *)
(** * The scheduler's theorems *)
From S2P Require Import Prelude Interfaces Task TaskFacts TaskProps.

Section Theorems.
Context {A : Type} `{!Allocator A} `{!Image}.
Implicit Types s : sched A.

(** ** Start-up *)
Lemma register_cpu_index id s : 0 <= id < 256 -> length (lapic_map s) = 256%nat ->
  lapic_map_count s = 0 ->
  exists m, task_register_cpu id 0 s =
    Ret (Sched (tasks s) (task_count s) (cpu_count_global s) (current_task s) (idle_index s)
           (last_pick s) (sched_lock s) (scheduler_active s) m 1 (kernel_cs s) (kernel_ds s)
           (alloc s) (words s)) /\ zget m id = Ret 0.
Proof.
  intros Hid Hlen Hcnt. exists (<[Z.to_nat id := 0]> (lapic_map s)). unfold task_register_cpu.
  rewrite (proj2 (Z.ltb_lt _ _)) by lia.
  rewrite (bind_ret _ (<[Z.to_nat id := 0]> (lapic_map s))).
  2:{ apply zset_ok. split; [lia | done]. }
  rewrite Hcnt. split; [done |]. apply zget_ok. split; [lia |].
  apply list_lookup_insert_eq. lia.
Qed.

Lemma task_init_ok id cs ds s : length (tasks s) = 64%nat -> a_ok (alloc s) ->
  lapic_map_count s = 1 -> 0 <= id < 256 -> zget (lapic_map s) id = Ret 0 ->
  exists s', task_init cs ds 1 s = Ret s' /\ ready_to_start id s'.
Proof.
  intros Hlen Ha Hcnt Hid Hmap. unfold task_init. set (s1 := Sched _ _ _ _ _ _ _ _ _ _ _ _ _ _).
  assert (Hun : forall i t, tasks s1 !! i = Some t -> state t = TASK_UNUSED /\ stack t = None).
  { intros i t Ht. cbn in Ht. apply list_lookup_fmap_Some in Ht as (t0 & -> & _). done. }
  assert (base s1) as Hb.
  { split; cbn; try done.
    - by rewrite length_fmap.
    - exists (-1). split; [by apply (zget_nat _ 0) | lia].
    - split.
      + intros i t [Hu Hs]%Hun. split_and!; rewrite ?Hu; [by intros [?|?] | done | done].
      + intros i j ti tj p [_ Hi]%Hun _ Hp. congruence.
    - intros i t [Hu _]%Hun. done. }
  change (Z.to_nat (Z.min 1 64)) with 1%nat. cbn [init_idle].
  destruct (create_ok str_idle addr_task_idle 0 0 s1 Hb) as (r & s2 & -> & Hb2 & Hsame & Hr).
  cbn [mbind res_bind].
  pose proof (same_cpu_index id s1 s2 Hsame) as Hci. destruct Hsame as (S1 & S2 & S3 & S4 & _).
  assert (cpu_index id s2 = Ret 0) as Hcpu.
  { rewrite Hci. unfold cpu_index. cbn. rewrite Hcnt. cbn. by rewrite (proj2 (Z.ltb_lt _ _)) by lia. }
  assert (zset (idle_index s2) 0 r = Ret (<[0%nat := r]> (repeat (-1) 64))) as ->.
  { rewrite S2. apply zset_ok. split; [cbn; lia | done]. }
  cbn [mbind res_bind].
  destruct Hr as [[-> Hts] | (i & t & sp & p & -> & Hi & Hu & Hts)].
  - cbn [Z.leb]. destruct (Z.leb_spec 0 (-1)); [lia |]. cbn [mbind res_bind].
    eexists. split; [reflexivity |]. destruct Hb2. split; cbn; try done.
    + intros i t Ht. rewrite Hts in Ht. destruct (Hun i t Ht) as [-> _]. done.
    + by rewrite S1.
    + intros k [= <-]. lia.
  - destruct (Z.leb_spec 0 (Z.of_nat i)); [| lia].
    set (t' := Task TASK_READY sp 0 str_idle addr_task_idle 0 (Some p) 0 (-1) false) in *.
    assert (tasks s2 !! i = Some t') as Hi2.
    { rewrite Hts. apply list_lookup_insert_eq. by eapply lookup_lt_Some. }
    rewrite (upd_task_spec i t') by exact Hi2. cbn [mbind res_bind].
    eexists. split; [reflexivity |]. destruct Hb2 as [B1 B2 B3 B4 B5 B6]. split; [split | ..]; cbn; try done.
    + by rewrite length_insert.
    + eapply table_ok_upd; [done | done | done |]. by apply (proj1 B5 i t').
    + apply frames_upd; [done |]. intros _. by apply (B6 i t').
    + intros j tj [(<- & <- & _) | [_ Hj]]%list_lookup_insert_Some; [done |].
      rewrite Hts in Hj. apply list_lookup_insert_Some in Hj as [(<- & <- & _) | [_ Hj]]; [done |].
      destruct (Hun j tj Hj) as [-> _]. done.
    + by rewrite S1.
    + intros k [= <-] _. exists (set_idle true t'). rewrite Nat2Z.id.
      rewrite list_lookup_insert_eq by (by eapply lookup_lt_Some). done.
Qed.

Lemma boot_ok id cs ds apps s0 : 0 <= id < 256 -> statics_ok s0 ->
  exists s, kernel_boot id cs ds apps s0 = Ret s /\
    ((exists k, idle_index s !! 0%nat = Some k /\ 0 <= k) -> inv id s).
Proof.
  intros Hid (Hlen & Hmap & Hcnt & Ha). unfold kernel_boot.
  destruct (register_cpu_index id s0 Hid Hmap Hcnt) as (m & -> & Hm). cbn [mbind res_bind].
  destruct (task_init_ok id cs ds (Sched (tasks s0) (task_count s0) (cpu_count_global s0)
    (current_task s0) (idle_index s0) (last_pick s0) (sched_lock s0) (scheduler_active s0) m 1
    (kernel_cs s0) (kernel_ds s0) (alloc s0) (words s0))) as (s1 & -> & Hs1); try done.
  cbn [mbind res_bind].
  destruct (create_all_ok id apps s1 Hs1) as (s2 & -> & [Hb Hc Hn Hl Hl' Hi] & _).
  cbn [mbind res_bind]. unfold task_start_bsp, task_start.
  destruct (idle_index s2 !! 0%nat) as [k|] eqn:Hk.
  - rewrite (zget_nat _ 0 k Hk : zget (idle_index s2) 0 = Ret k). cbn [mbind res_bind].
    destruct (Z.leb_spec 0 k) as [Hk0 | Hk0].
    + destruct (Hi k eq_refl Hk0) as (t & Ht & I1 & I2 & I3).
      rewrite (bind_ret _ (<[0%nat := Some k]> (current_task s2)))
        by (apply zset_ok; split; [lia | done]).
      replace (upd_task k) with (upd_task (A:=A) (Z.of_nat (Z.to_nat k))) by (f_equal; lia).
      rewrite (upd_task_spec _ t) by exact Ht. cbn [mbind res_bind].
      eexists. split; [reflexivity |]. intros _.
      destruct Hb as [B1 B2 B3 B4 B5 B6]. split; [split | ..]; cbn; try done.
      * by rewrite length_insert.
      * eapply table_ok_upd; [done | done | done |]. split_and!; cbn; [by intros [?|?] | done |].
        intros _. apply (proj1 B5 (Z.to_nat k) t); [done | congruence].
      * apply frames_upd; [done |]. intros _. apply (B6 _ t Ht). congruence.
      * exists (Z.to_nat k), (dispatch id t).
        rewrite list_lookup_insert_eq by (by eapply lookup_lt_Some).
        split_and!; [| done | done |].
        -- rewrite Z2Nat.id by lia. apply (zget_nat _ 0), list_lookup_insert_eq. lia.
        -- apply only_upd; [| done]. intros i ti Hti [?|?]; destruct (Hn i ti Hti); done.
      * exists (Z.to_nat k), (dispatch id t).
        rewrite list_lookup_insert_eq by (by eapply lookup_lt_Some). cbn. by auto.
    + cbn [mbind res_bind]. eexists. split; [reflexivity |]. intros (k' & Hk' & ?).
      cbn in Hk'. simplify_eq. lia.
  - exfalso. apply lookup_ge_None in Hk. lia.
Qed.

(** ** Fairness *)
(** The walk from the slot after [lp] picks a non-idle runnable task [i] or one that
    brings the start of the next walk closer to [i]. *)
Lemma pick_progress cpu ts lp i t r : -1 <= lp < 64 -> 0 <= i < 64 ->
  ts !! Z.to_nat i = Some t -> chosen cpu t = true ->
  pick_result cpu ts (Z.rem (lp + 1) MAX_TASKS) 0 64 None (Some r) ->
  r = i \/ (i - (r + 1)) mod 64 < (i - (lp + 1)) mod 64.
Proof.
  intros Hlp Hi Ht Hch.
  assert (Z.rem (lp + 1) MAX_TASKS = (lp + 1) mod 64) as ->
    by (unfold MAX_TASKS; by rewrite Z.rem_mod_nonneg by lia).
  set (start := (lp + 1) mod 64). assert (0 <= start < 64) as Hst by (unfold start; lia).
  pose proof (slot_dist start i Hst Hi) as Hd.
  assert (Hin : 0 <= (i - start) mod 64 < 64) by lia.
  assert (Hno : no_slot (chosen cpu) ts start 0 64 -> False).
  { intros Hno. rewrite (Hno ((i - start) mod 64) t) in Hch; [done | lia |]. by rewrite Hd. }
  remember (Some r) as o. destruct 1 as [k tk Hk Hlk Hck Hbef | c ? Hn | k tk _ Hk Hlk Hp Hid Hn _ | _ Hn];
    simplify_eq; try (exfalso; by apply Hno).
  assert (k <= (i - start) mod 64) as Hle.
  { destruct (Z.le_gt_cases k ((i - start) mod 64)); [done |].
    rewrite (Hbef ((i - start) mod 64) t) in Hch; [done | lia |]. by rewrite Hd. }
  rewrite slot_mod by lia. unfold start in *. lia.
Qed.

(** Task [i] waits for CPU 0: ready, not idle, and allowed there. *)
Definition waits (i : nat) s : Prop :=
  exists t, tasks s !! i = Some t /\ state t = TASK_READY /\ is_idle t = false /\
    (cpu_affinity t < 0 \/ cpu_affinity t = 0).
Definition dispatched (i : nat) s : Prop :=
  zget (current_task s) 0 = Ret (Some (Z.of_nat i)) /\
  exists t, tasks s !! i = Some t /\ state t = TASK_RUNNING.
(** How many slots the next walk passes before slot [i]. *)
Definition before (i : nat) s : Z :=
  (Z.of_nat i - (default 0 (last_pick s !! 0%nat) + 1)) mod 64.

Lemma waits_chosen lv (t : task) : task_ok lv t -> state t = TASK_READY -> is_idle t = false ->
  cpu_affinity t < 0 \/ cpu_affinity t = 0 -> (chosen 0 t = true).
Proof.
  intros [Hr _] Hst Hid Haff. unfold chosen, pickable.
  rewrite Hid, Hr, bool_decide_true by auto. cbn.
  destruct Haff as [Ha | Ha]; [by rewrite (proj2 (Z.leb_gt _ _)) by lia | by rewrite Ha].
Qed.

(** A scheduling interrupt dispatches [i] or leaves fewer slots before it. *)
Lemma yield_progress id rsp ctx i s : inv id s -> length ctx = 20%nat -> waits i s ->
  exists s', sched_exec id (OpYield rsp ctx) s = Ret s' /\ inv id s' /\
    (dispatched i s' \/ waits i s' /\ before i s' < before i s).
Proof.
  intros Hinv Hctx (t & Ht & Hst & Hid & Haff).
  destruct (exec_ok id (OpYield rsp ctx) s Hinv Hctx) as (s' & Hex & Hinv' & _).
  exists s'. split; [done |]. split; [done |]. cbn [sched_exec] in Hex.
  set (s1 := with_words _ s) in Hex.
  assert (frame_in (words s1) rsp) as Hfr.
  { split; cbn; rewrite store_words_spec, decide_True by lia; apply lookup_lt_is_Some_2; lia. }
  assert (inv id s1) as Hinv1.
  { destruct Hinv as [[] ? ? ? ?]. split; [split | ..]; try done. cbn.
    eapply frames_mono; [| done]. intros x. apply store_words_mono. }
  pose proof Hinv1 as [[Hlen (lp & Hlp & Hlpr) _ _ _ _] _ _ (c & tc & Hcur & Htc & _) _].
  destruct (isr_switch id rsp c s1 Hinv1 Hfr Hcur) as
    (a' & n & tn & _ & Htab & _ & _ & _ & Hn & Hp & Hpick & r & _ & Hisr).
  rewrite Hisr in Hex. injection Hex as <-.
  apply zget_ok in Hlp as [_ Hlp]. change (Z.to_nat 0) with 0%nat in Hlp. cbn in Hlp.
  assert (exists t', parked c rsp s1 !! i = Some t' /\ state t' = TASK_READY /\ is_idle t' = false /\
    (cpu_affinity t' < 0 \/ cpu_affinity t' = 0)) as (t' & Hi & Hst' & Hid' & Haff').
  { assert (Hreap : reap t = t) by (apply reap_other; congruence).
    rewrite (parked_eq c tc) by done. destruct (decide (c = i)) as [-> | Hne].
    - assert (tc = t) as -> by (cbn in Htc; congruence). rewrite Hreap. exists (park rsp t).
      rewrite list_lookup_insert_eq by (rewrite length_fmap; by eapply lookup_lt_Some).
      unfold park. cbn. by rewrite Hst.
    - exists t. rewrite list_lookup_insert_ne, list_lookup_fmap by done. cbn [s1 with_words tasks].
      rewrite Ht. cbn. by rewrite Hreap. }
  assert (Hi64 : (i < 64)%nat) by (apply lookup_lt_Some in Ht; cbn in Hlen; lia).
  cbn [s1 with_words last_pick] in Hpick. rewrite Hlp in Hpick. cbn [default] in Hpick.
  assert (Hd := pick_progress 0 (parked c rsp s1) lp (Z.of_nat i) t' (Z.of_nat n) Hlpr ltac:(lia)).
  rewrite Nat2Z.id in Hd.
  destruct (decide (n = i)) as [-> | Hne].
  - left. split.
    + apply (zget_nat _ 0). cbn. apply list_lookup_insert_eq.
      apply zget_ok in Hcur as [_ Hcur%lookup_lt_Some]. exact Hcur.
    + exists (dispatch id tn). cbn. split; [| done]. apply list_lookup_insert_eq.
      by eapply lookup_lt_Some.
  - right. split.
    + exists t'. cbn. by rewrite list_lookup_insert_ne.
    + unfold before. cbn. rewrite Hlp, list_lookup_insert_eq by (by eapply lookup_lt_Some). cbn.
      destruct Hd as [? | Hd]; [done | | done | lia | done].
      by apply (waits_chosen (a_live a')); [apply (proj1 Htab i) | ..].
Qed.

Lemma running_elsewhere c i tc s : zget (current_task s) 0 = Ret (Some (Z.of_nat c)) ->
  running_task s = Some tc -> state tc = TASK_RUNNING -> waits i s -> c <> i.
Proof.
  intros Hcur Htc Hrun (t & Ht & Hst & _) ->. unfold running_task in Htc.
  apply zget_ok in Hcur as [_ Hcur]. change (Z.to_nat 0) with 0%nat in Hcur.
  rewrite Hcur, Nat2Z.id in Htc. congruence.
Qed.

(** No other operation takes the turn away from a waiting task. *)
Lemma wait_kept id o i s : inv id s -> sched_allowed o s -> waits i s ->
  (match o with OpYield _ _ => False | _ => True end) ->
  exists s', sched_exec id o s = Ret s' /\ inv id s' /\ waits i s' /\ before i s' = before i s.
Proof.
  intros Hinv Hal (t & Ht & Hst & Hid & Haff) Ho.
  destruct (exec_ok id o s Hinv Hal) as (s' & Hex & Hinv' & _). exists s'.
  split; [done |]. split; [done |].
  destruct o as [nm ent ar cpu | ticks | ticks n | | rsp ctx]; [ | | | | done];
    cbn [sched_exec sched_allowed] in *.
  - destruct (create_ok nm ent ar cpu s (i_base _ _ Hinv)) as (r & s2 & Hc & _ & Hsame & Hr).
    rewrite Hc in Hex. injection Hex as <-. destruct Hsame as (_ & _ & _ & _ & _ & S6).
    split; [| unfold before; by rewrite S6]. exists t. split; [| done].
    destruct Hr as [[_ ->] | (j & tj & sp & p & _ & Hj & Hju & ->)]; [done |].
    rewrite list_lookup_insert_ne; [done |]. intros ->. congruence.
  - injection Hex as <-. unfold task_tick, spin_try_lock.
    destruct (scheduler_active s); cbn [negb]; [| by split; [exists t |]].
    destruct (sched_lock s); cbn [negb]; [by split; [exists t |] |].
    split; [| done]. exists t. cbn. rewrite list_lookup_fmap, Ht. cbn.
    unfold wake_due. by rewrite bool_decide_false by congruence.
  - destruct Hal as (tc & Htc & Hrun & Hni).
    pose proof Hinv as [[_ _ Hlock _ _ _] Hcpu _ (c & tc' & Hcur & Htc' & _) _].
    assert (c <> i) as Hne by (eapply running_elsewhere; [done.. |]; by exists t).
    unfold task_sleep in Hex. rewrite (bind_ret _ _ _ Hcpu), (bind_ret _ _ _ Hcur) in Hex.
    unfold spin_lock in Hex. rewrite Hlock in Hex. cbn [mbind res_bind] in Hex.
    rewrite (upd_task_spec c tc') in Hex by exact Htc'. cbn [mbind res_bind] in Hex.
    injection Hex as <-. split; [| done]. exists t. cbn. by rewrite list_lookup_insert_ne.
  - destruct Hal as (tc & Htc & Hrun & Hni).
    pose proof Hinv as [[_ _ Hlock _ _ _] Hcpu _ (c & tc' & Hcur & Htc' & _) _].
    assert (c <> i) as Hne by (eapply running_elsewhere; [done.. |]; by exists t).
    unfold trampoline_enter in Hex. rewrite (bind_ret _ _ _ Hcpu), (bind_ret _ _ _ Hcur) in Hex.
    cbv beta iota in Hex. rewrite (zget_nat _ _ _ Htc') in Hex. cbn [mbind res_bind] in Hex.
    unfold trampoline_exit, spin_lock in Hex. rewrite Hlock in Hex. cbn [mbind res_bind] in Hex.
    rewrite (upd_task_spec c tc') in Hex by exact Htc'. cbn [mbind res_bind] in Hex.
    injection Hex as <-. split; [| done]. exists t. cbn. by rewrite list_lookup_insert_ne.
Qed.

(** Executions: the operations in order, each allowed where it is performed. *)
Inductive sched_run (id : Z) : list sched_op -> sched A -> sched A -> Prop :=
  | run_nil s : sched_run id [] s s
  | run_cons o ops s s1 s2 :
      sched_allowed o s -> sched_exec id o s = Ret s1 -> sched_run id ops s1 s2 ->
      sched_run id (o :: ops) s s2.

Definition is_yield (o : sched_op) : bool := match o with OpYield _ _ => true | _ => false end.

Lemma reach_inv id s : sched_reach id s -> inv id s.
Proof.
  intros Hreach. induction Hreach as [cs ds apps s0 s Hid Hs0 Hboot Hidle | o s s' _ IH Hal Hex].
  - destruct (boot_ok id cs ds apps s0 Hid Hs0) as (s1 & Hb1 & Hi1).
    rewrite Hboot in Hb1. injection Hb1 as <-. by apply Hi1.
  - destruct (exec_ok id o s IH Hal) as (s1 & Hs1 & Hi1 & _). congruence.
Qed.

(** C34: the scheduler starves nobody: from any state one CPU reaches, a task that is
    ready, not idle and allowed on that CPU is current and RUNNING after one of the
    next 64 scheduling interrupts, whatever tasks are created, ticked, put to sleep
    or ended in between. *)
Theorem task_pick_fair id i ops s s' :
  sched_reach id s -> waits i s -> sched_run id ops s s' ->
  length (filter is_yield ops) = 64%nat ->
  exists ops1 rsp ctx ops2 s1, ops = ops1 ++ OpYield rsp ctx :: ops2 /\
    sched_run id (ops1 ++ [OpYield rsp ctx]) s s1 /\ dispatched i s1.
Proof.
  intros Hinv%reach_inv Hw Hrun Hn.
  assert (Hd : before i s < Z.of_nat (length (filter is_yield ops))) by (unfold before; lia).
  clear Hn. induction Hrun as [s | o ops s s1 s2 Hal Hex Hrun IH]; [unfold before in Hd; cbn in Hd; lia |].
  destruct o as [nm ent ar cpu | ticks | ticks n | | rsp ctx].
  5: { destruct (yield_progress id rsp ctx i s Hinv Hal Hw) as (s3 & Hs3 & Hi3 & [Hdis | [Hw3 Hlt]]);
         rewrite Hex in Hs3; injection Hs3 as <-.
       - exists [], rsp, ctx, ops, s1. split; [done |]. split; [| done].
         by econstructor; [.. | constructor].
       - destruct IH as (o1 & r & cx & o2 & s4 & -> & Hr & Hdis); [done | done | |].
         { rewrite filter_cons_True in Hd by done. cbn [length] in Hd. lia. }
         exists (OpYield rsp ctx :: o1), r, cx, o2, s4. split; [done |]. split; [| done].
         by econstructor. }
  all: destruct (wait_kept id _ i s Hinv Hal Hw I) as (s3 & Hs3 & Hi3 & Hw3 & He);
    rewrite Hex in Hs3; injection Hs3 as <-;
    destruct IH as (o1 & r & cx & o2 & s4 & -> & Hr & Hdis); [done | done | |].
  all: try (rewrite He; rewrite filter_cons_False in Hd by (by intros []); done).
  all: eexists (_ :: o1), r, cx, o2, s4; split; [reflexivity |]; split; [by econstructor | done].
Qed.

(** [task_pick_next] returns the first task after the last pick, in cyclic slot
    order, that is READY, unclaimed and allowed on this CPU; an idle task only when
    no other task qualifies, and nothing only when no task does.  It records the
    pick and changes nothing else. *)
Theorem task_pick_next_correct cpu lp s :
  length (tasks s) = 64%nat -> zget (last_pick s) cpu = Ret lp -> -1 <= lp < 64 ->
  let at_ k := tasks s !! Z.to_nat ((lp + 1 + k) mod 64) in
  (exists k t, 0 <= k < 64 /\ at_ k = Some t /\ pickable cpu t = true /\
     task_pick_next cpu s = Ret (Some ((lp + 1 + k) mod 64),
       with_last_pick (<[Z.to_nat cpu := (lp + 1 + k) mod 64]> (last_pick s)) s) /\
     (forall j t', 0 <= j < k -> at_ j = Some t' -> pickable cpu t' = true ->
        is_idle t' = true /\ is_idle t = false) /\
     (is_idle t = true -> forall i t', tasks s !! i = Some t' -> pickable cpu t' = true ->
        is_idle t' = true)) \/
  task_pick_next cpu s = Ret (None, s) /\
    forall i t, tasks s !! i = Some t -> pickable cpu t = false.
Proof.
  intros Hlen Hlp Hr at_. destruct (task_pick_next_spec cpu s lp Hlen Hlp Hr) as (r & Hres & ->).
  assert (Z.rem (lp + 1) MAX_TASKS = (lp + 1) mod 64) as Hrem
    by (unfold MAX_TASKS; by rewrite Z.rem_mod_nonneg by lia).
  rewrite Hrem in Hres. set (start := (lp + 1) mod 64) in *.
  assert (0 <= start < 64) as Hst by (unfold start; lia).
  assert (Hslot : forall k, 0 <= k -> slot start k = (lp + 1 + k) mod 64).
  { intros k Hk. rewrite slot_mod by lia. unfold start. by rewrite Zplus_mod_idemp_l. }
  assert (Hall : forall P : task -> bool, no_slot P (tasks s) start 0 64 ->
            forall i t, tasks s !! i = Some t -> P t = false).
  { intros P Hno i t Hi. assert (Z.of_nat i < 64) by (apply lookup_lt_Some in Hi; lia).
    apply (Hno ((Z.of_nat i - start) mod 64)); [lia |].
    by rewrite slot_dist, Nat2Z.id by lia. }
  destruct Hres as [k t Hk Ht Hc Hno | ? | k t _ Hk Ht Hp Hi Hno Hno' | _ Hno]; try done.
  - left. exists k, t. apply andb_true_iff in Hc as [Hp Hi%negb_true_iff].
    unfold at_. rewrite <- Hslot by lia. split_and!; try done; try lia; [| congruence].
    intros j t' Hj Ht' Hp'. split; [| done]. rewrite <- Hslot in Ht' by lia.
    specialize (Hno j t' Hj Ht'). unfold chosen in Hno. rewrite Hp' in Hno.
    by destruct (is_idle t').
  - left. exists k, t. unfold at_. rewrite <- Hslot by lia. split_and!; try done; try lia.
    + intros j t' Hj Ht' Hp'. rewrite <- Hslot in Ht' by lia.
      specialize (Hno' j t' Hj Ht'). congruence.
    + intros _ i t' Hi' Hp'. specialize (Hall _ Hno i t' Hi'). unfold chosen in Hall.
      rewrite Hp' in Hall. by destruct (is_idle t').
  - right. split; [done |]. by apply Hall.
Qed.

(** C2: on one CPU, from the kernel's start-up on and through every interleaving
    of calls, timer ticks and scheduling interrupts, every operation returns; no
    two tasks are RUNNING or share a stack; every task in use owns a live
    allocation of at least [TASK_STACK_SIZE] bytes; and after every scheduling
    interrupt the CPU has exactly its current task running. *)
Theorem sched_reachable_safe id s : sched_reach id s ->
  (forall o, sched_allowed o s -> exists s', sched_exec id o s = Ret s') /\
  (forall i j ti tj, tasks s !! i = Some ti -> tasks s !! j = Some tj ->
     state ti = TASK_RUNNING -> state tj = TASK_RUNNING -> i = j) /\
  (forall i j ti tj p, tasks s !! i = Some ti -> tasks s !! j = Some tj ->
     stack ti = Some p -> stack tj = Some p -> i = j) /\
  (forall i t, tasks s !! i = Some t -> state t <> TASK_UNUSED ->
     exists p n, stack t = Some p /\ a_live (alloc s) !! p = Some n /\ TASK_STACK_SIZE <= n) /\
  forall rsp ctx s', length ctx = 20%nat -> sched_exec id (OpYield rsp ctx) s = Ret s' ->
     exists t, running_task s' = Some t /\ state t = TASK_RUNNING /\ running_cpu t = id.
Proof.
  intros Hreach. pose proof (reach_inv id s Hreach) as Hinv.
  pose proof Hinv as [[_ _ _ _ [Hok Hd] _] _ _ (c & _ & _ & _ & _ & Ho) _].
  split_and!.
  - intros o Hal. destruct (exec_ok id o s Hinv Hal) as (s' & Hs' & _). by exists s'.
  - intros i j ti tj Hi Hj Hri Hrj. rewrite (Ho i ti Hi), (Ho j tj Hj); auto.
  - exact Hd.
  - intros i t Hi. by apply (Hok i t Hi).
  - intros rsp ctx s' Hctx Hex.
    destruct (exec_ok id (OpYield rsp ctx) s Hinv Hctx) as (s1 & Hs1 & _ & Ht).
    rewrite Hs1 in Hex. injection Hex as <-. exact Ht.
Qed.

(** ** Contexts *)
(** A complete interrupt frame of kernel code with its registers below it. *)
Definition kernel_frame s (ctx : list Z) : Prop :=
  length ctx = 20%nat /\ kernel_cs s <> 0 /\ ctx !! 16%nat = Some (kernel_cs s) /\
  (exists rip, ctx !! 15%nat = Some rip /\ is_u64 rip /\
     Z.land rip 0xFFFF800000000000 = 0xFFFF800000000000) /\
  exists fl, ctx !! 17%nat = Some fl /\ Z.land fl 2 <> 0.

Definition saved_at (w : gmap Z Z) (r : Z) (ctx : list Z) : Prop :=
  forall k v, ctx !! k = Some v -> w !! (r + 8 * Z.of_nat k) = Some v.

Lemma saved_at_store w r ctx : saved_at (store_words r ctx w) r ctx.
Proof.
  intros k v Hk. rewrite store_words_spec. pose proof (lookup_lt_Some _ _ _ Hk).
  rewrite decide_True by lia. replace ((r + 8 * Z.of_nat k - r) / 8) with (Z.of_nat k) by lia.
  by rewrite Nat2Z.id.
Qed.

(** Two stacks' saved contexts do not overlap. *)
Lemma saved_at_other w r r' ctx ctx' : length ctx = 20%nat -> length ctx' = 20%nat ->
  r + 160 <= r' \/ r' + 160 <= r -> saved_at w r ctx -> saved_at (store_words r' ctx' w) r ctx.
Proof.
  intros Hl Hl' Hdis Hs k v Hk. rewrite store_words_spec.
  pose proof (lookup_lt_Some _ _ _ Hk). rewrite decide_False by lia. by apply Hs.
Qed.

Lemma kernel_rip_top rip : is_u64 rip -> Z.land rip 0xFFFF800000000000 = 0xFFFF800000000000 ->
  Z.shiftr rip 48 = 0xFFFF.
Proof.
  intros Hr Hl. assert (Z.shiftr rip 48 = Z.land (Z.shiftr rip 48) 0xFFFF) as ->.
  { change 0xFFFF with (Z.ones 16). rewrite Z.land_ones, Z.shiftr_div_pow2 by lia.
    unfold is_u64 in Hr. symmetry. apply Z.mod_small. lia. }
  change 0xFFFF with (Z.shiftr 0xFFFF800000000000 48) at 1.
  by rewrite <- Z.shiftr_land, Hl.
Qed.

(** Both tests of the frame accept a saved kernel frame, and the pops restore it. *)
Lemma frame_accepted s r rsp ctx : 0 < r -> kernel_frame s ctx -> saved_at (words s) r ctx ->
  frame_rsp r rsp s = Ret r /\ stub_rsp r rsp s = Ret r /\ load_words s r 20 = Ret ctx.
Proof.
  intros Hr (Hl & Hcs & H16 & (rip & H15 & Hu & Hrip) & fl & H17 & Hfl) Hs.
  assert (words s !! (r + 120) = Some rip) as W15 by exact (Hs 15%nat rip H15).
  assert (words s !! (r + 128) = Some (kernel_cs s)) as W16 by exact (Hs 16%nat _ H16).
  assert (words s !! (r + 136) = Some fl) as W17 by exact (Hs 17%nat fl H17).
  assert (forall f : Z -> Z, (r =? 0) = false) as Hr0 by (intros; by apply Z.eqb_neq; lia).
  specialize (Hr0 id). split_and!.
  - unfold frame_rsp, load_word. rewrite Hr0. change (15 * 8) with 120. change (16 * 8) with 128.
    rewrite W15, W16. cbn [of_option mbind res_bind].
    rewrite Z.eqb_refl, Hrip, Z.eqb_refl. done.
  - unfold stub_rsp, load_word. rewrite Hr0, W15, W16, W17. cbn [of_option mbind res_bind].
    rewrite (proj2 (Z.eqb_neq _ _) Hcs), (proj2 (Z.eqb_neq _ _) Hfl), kernel_rip_top by done. done.
  - rewrite <- Hl. apply load_words_spec. exact Hs.
Qed.

(** What parking the current task [c] leaves in its slot and in the others: a slot
    that still holds a task after it held the same task before. *)
Lemma parked_current c rsp s t : tasks s !! c = Some t ->
  parked c rsp s !! c = Some (park rsp (reap t)).
Proof.
  intros Ht. rewrite (parked_eq c t) by done. apply list_lookup_insert_eq.
  rewrite length_fmap. by eapply lookup_lt_Some.
Qed.

Lemma parked_other c rsp s t i ti : tasks s !! c = Some t -> i <> c ->
  parked c rsp s !! i = Some ti -> state ti <> TASK_UNUSED -> tasks s !! i = Some ti.
Proof.
  intros Ht Hne Hi Hst. rewrite (parked_eq c t), list_lookup_insert_ne in Hi by done.
  apply list_lookup_fmap_Some in Hi as (t0 & -> & Hi).
  destruct (decide (state t0 = TASK_ZOMBIE)) as [E | E].
  - unfold reap in Hst. by rewrite bool_decide_true in Hst.
  - by rewrite reap_other.
Qed.

(** C11: a scheduling interrupt switches contexts: the interrupted context [ctx] is
    kept at [rsp] for its task, the context restored is the one saved by the task
    that is now current (the interrupted one itself if the pick falls on it
    again), and the saved contexts of all other tasks survive. *)
Theorem context_switch_correct id rsp ctx c s :
  inv id s -> zget (current_task s) 0 = Ret (Some (Z.of_nat c)) ->
  0 < rsp -> kernel_frame s ctx ->
  (forall i t, i <> c -> tasks s !! i = Some t -> state t = TASK_READY ->
     0 < ctx_rsp t /\ (ctx_rsp t + 160 <= rsp \/ rsp + 160 <= ctx_rsp t) /\
     exists saved, kernel_frame s saved /\ saved_at (words s) (ctx_rsp t) saved) ->
  exists n regs s', isr_vector_0xf0 id rsp ctx s = Ret (regs, s') /\
    zget (current_task s') 0 = Ret (Some (Z.of_nat n)) /\
    saved_at (words s') rsp ctx /\ (exists t, tasks s' !! c = Some t /\ ctx_rsp t = rsp) /\
    (n = c -> regs = ctx) /\
    (n <> c -> exists t, tasks s !! n = Some t /\ state t = TASK_READY /\
       saved_at (words s) (ctx_rsp t) regs) /\
    forall i t, i <> c -> i <> n -> tasks s !! i = Some t -> state t <> TASK_ZOMBIE ->
      tasks s' !! i = Some t /\
      forall saved, length saved = 20%nat -> ctx_rsp t + 160 <= rsp \/ rsp + 160 <= ctx_rsp t ->
        saved_at (words s) (ctx_rsp t) saved -> saved_at (words s') (ctx_rsp t) saved.
Proof.
  intros Hinv Hcur Hrsp Hctx Hready. pose proof Hctx as [Hlen _].
  unfold isr_vector_0xf0. set (s1 := with_words (store_words rsp ctx (words s)) s).
  assert (frame_in (words s1) rsp) as Hfr.
  { split; cbn; rewrite store_words_spec, decide_True by lia; apply lookup_lt_is_Some_2; lia. }
  assert (inv id s1) as Hinv1.
  { destruct Hinv as [[] ? ? ? ?]. split; [split | ..]; try done. cbn.
    eapply frames_mono; [| done]. intros x. apply store_words_mono. }
  pose proof Hinv1 as [_ _ _ (c' & t & Hc' & Ht & _) _].
  assert (c' = c) as -> by (cbn in Hc'; rewrite Hcur in Hc'; injection Hc'; lia).
  destruct (isr_switch id rsp c s1 Hinv1 Hfr Hcur) as
    (a' & n & tn & _ & _ & _ & _ & _ & Hn & Hp & _ & r & Hfrsp & ->).
  cbn [mbind res_bind]. set (s' := after_switch id c n tn rsp a' s1) in *.
  assert (Hsaved : saved_at (words s') rsp ctx) by apply saved_at_store.
  assert (Hst : state tn = TASK_READY).
  { unfold pickable in Hp. apply andb_true_iff in Hp as [Hp _].
    apply andb_true_iff in Hp as [Hp _]. by apply bool_decide_eq_true in Hp. }
  assert (Hlt : (n < length (parked c rsp s1))%nat) by (by eapply lookup_lt_Some).
  pose proof (parked_current c rsp s1 t Ht) as Hpc.
  pose proof (lookup_lt_Some _ _ _ Hpc) as Hclt.
  assert (exists regs, 0 < ctx_rsp tn /\ kernel_frame s regs /\ saved_at (words s') (ctx_rsp tn) regs /\
    (n = c -> regs = ctx) /\
    (n <> c -> exists t, tasks s !! n = Some t /\ state t = TASK_READY /\
       saved_at (words s) (ctx_rsp t) regs)) as (regs & Hpos & Hkf & Hsv & Hsame & Hdiff).
  { destruct (decide (n = c)) as [-> | Hne].
    - assert (ctx_rsp tn = rsp) as ->.
      { rewrite Hpc in Hn. injection Hn as <-. unfold park. by case_bool_decide. }
      exists ctx. split_and!; try done.
    - pose proof (parked_other c rsp s1 t n tn Ht Hne Hn ltac:(congruence)) as Hsn.
      destruct (Hready n tn Hne Hsn Hst) as (Hp0 & Hdis & regs & Hkf & Hsv).
      exists regs. split_and!; try done.
      + apply saved_at_other; [apply Hkf | done | lia | done].
      + intros _. by exists tn. }
  destruct (frame_accepted s' (ctx_rsp tn) rsp regs Hpos Hkf Hsv) as (Hf1 & Hf2 & Hf3).
  rewrite Hfrsp in Hf1. injection Hf1 as ->. rewrite Hf2. cbn [mbind res_bind]. rewrite Hf3.
  exists n, regs, s'. cbn [mbind res_bind]. split_and!; try done.
  - apply (zget_nat _ 0). cbn. apply list_lookup_insert_eq.
    apply zget_ok in Hcur as [_ Hcur%lookup_lt_Some]. lia.
  - cbn. destruct (decide (n = c)) as [-> | Hne].
    + exists (dispatch id tn). split; [by apply list_lookup_insert_eq |].
      rewrite Hpc in Hn. injection Hn as <-. cbn. unfold park. by case_bool_decide.
    + exists (park rsp (reap t)). rewrite list_lookup_insert_ne by done. split; [done |].
      unfold park. by case_bool_decide.
  - intros i ti Hic Hin Hi Hz. split.
    + cbn. rewrite list_lookup_insert_ne by done. rewrite (parked_eq c t) by done.
      rewrite list_lookup_insert_ne, list_lookup_fmap by done. cbn [s1 with_words tasks].
      rewrite Hi. cbn. by rewrite reap_other.
    + intros saved Hsl Hdis Hsv'. apply saved_at_other; [done | done | lia | done].
Qed.

(** The first frame of a task is RIP, CS and RFLAGS above fifteen zero
    registers, 144 bytes ending at the 16-byte-aligned top of its stack; [iretq]
    also pops RSP and SS, from the two words above it, which [task_build_stack]
    leaves as they are and the second of which is outside the stack. *)
Theorem task_build_stack_frame p e s :
  0 <= p -> p mod 8 = 0 -> p + TASK_STACK_SIZE < 2 ^ 64 ->
  let '(sp, s') := task_build_stack p e s in
  sp mod 16 = 0 /\ p <= sp /\ sp + 144 <= p + TASK_STACK_SIZE < sp + 160 /\
  saved_at (words s') sp (repeat 0 15 ++ [e; kernel_cs s; 0x202]) /\
  words s' !! (sp + 144) = words s !! (sp + 144) /\
  words s' !! (sp + 152) = words s !! (sp + 152) /\
  p + TASK_STACK_SIZE <= sp + 152.
Proof.
  intros Hp Hal Hlt. unfold task_build_stack.
  rewrite u64_id by (unfold is_u64, TASK_STACK_SIZE in *; lia).
  change (2 ^ 64 - 16) with (2 ^ 64 - 2 ^ 4). rewrite land_high_mask
    by (unfold TASK_STACK_SIZE in *; lia).
  set (top := p + TASK_STACK_SIZE - (p + TASK_STACK_SIZE) mod 2 ^ 4).
  set (vs := _ ++ repeat 0 15).
  destruct (push_all_spec vs top (words s)) as [Hsp Hw].
  destruct (push_all vs top (words s)) as [sp w]. cbn [fst snd] in *.
  change (Z.of_nat (length vs)) with 18 in *. subst sp.
  assert (top mod 16 = 0 /\ top <= p + TASK_STACK_SIZE < top + 16 /\ p + TASK_STACK_SIZE <= top + 8)
    as (Ht1 & Ht2 & Ht3).
  { unfold top, TASK_STACK_SIZE in *. change (2 ^ 4) with 16. lia. }
  clearbody top. unfold TASK_STACK_SIZE in *. split_and!; try lia.
  - intros k v Hk. cbn [words with_words]. rewrite Hw.
    assert (k < 18)%nat as Hk18 by (by apply lookup_lt_Some in Hk).
    rewrite decide_True by lia.
    replace (Z.to_nat _) with (17 - k)%nat by lia.
    do 18 (destruct k as [|k]; [exact Hk |]). lia.
  - cbn [words with_words]. rewrite Hw, decide_False by lia. done.
  - cbn [words with_words]. rewrite Hw, decide_False by lia. done.
Qed.
End Theorems.
