(* ===== verification/TaskExamples.v ===== *)
(** * The scheduler on concrete executions: witnesses, and a race on two CPUs

    The allocator is the kernel heap itself. *)
From S2P Require Import Prelude Interfaces Heap HeapFacts HeapProps.
From S2P Require Import Task TaskFacts TaskProps TaskTheorems.

#[export] Instance image0 : Image := {|
  addr_task_trampoline := 0xffffffff80001000; addr_task_idle := 0xffffffff80001100;
  str_idle := 0xffffffff80009000; str_none := 0xffffffff80009010; str_task := 0xffffffff80009020;
|}.

Definition task_zero : task := Task TASK_UNUSED 0 0 0 0 0 None 0 0 false.
Definition sched_statics (h : heap) : sched heap :=
  Sched (repeat task_zero 64) 0 1 (repeat None 64) (repeat 0 64) (repeat 0 64) false false
        (repeat 0 256) 0 0x28 0x30 h ∅.

(** *** One CPU: boot with the desktop and net tasks, then one interrupt *)
Definition apps0 : list (Z * Z * Z) :=
  [(0xffffffff80009030, 0xffffffff80002000, 0); (0xffffffff80009040, 0xffffffff80002100, 0)].
Definition or_statics (r : res (sched heap)) : sched heap :=
  match r with Ret s => s | _ => sched_statics heap0 end.
Definition boot0 : sched heap :=
  or_statics (kernel_boot 0 0x28 0x30 apps0 (sched_statics heap0)).
Definition frame0 (rip : Z) : list Z := repeat 7 15 ++ [rip; 0x28; 0x202; 0xffffffff80100000; 0x30].
Definition yielded0 : sched heap :=
  or_statics (sched_exec 0 (OpYield 0xffffffff80200000 (frame0 0xffffffff80000100)) boot0).

Lemma boot0_reach : sched_reach 0 boot0.
Proof.
  apply (reach_boot 0 0x28 0x30 apps0 (sched_statics heap0)).
  - lia.
  - split; [reflexivity |]. split; [reflexivity |]. split; [reflexivity |]. exact heap0_ok.
  - vm_compute. reflexivity.
  - exists 0. split; [vm_compute; reflexivity | lia].
Qed.

Lemma yielded0_reach : sched_reach 0 yielded0.
Proof.
  apply (reach_step 0 (OpYield 0xffffffff80200000 (frame0 0xffffffff80000100)) boot0).
  - exact boot0_reach.
  - reflexivity.
  - vm_compute. reflexivity.
Qed.

Lemma sched_reachable_safe_witness :
  (exists t, running_task yielded0 = Some t /\ entry t = 0xffffffff80002000) /\
  exists s', sched_exec 0 (OpTick 60) yielded0 = Ret s'.
Proof.
  split; [eexists; vm_compute; split; reflexivity |].
  exact (proj1 (sched_reachable_safe 0 yielded0 yielded0_reach) (OpTick 60) I).
Defined.

Lemma task_pick_next_correct_witness :
  task_pick_next 0 boot0 = Ret (Some 1, with_last_pick (<[0%nat := 1]> (last_pick boot0)) boot0).
Proof.
  destruct (task_pick_next_correct 0 (-1) boot0) as [(k & t & Hk & Ht & Hp & Heq & Hbefore & Hidle) | [Heq Hno]].
  - vm_compute. reflexivity.
  - vm_compute. reflexivity.
  - lia.
  - vm_compute. reflexivity.
  - vm_compute. reflexivity.
Defined.

(** Any number of interrupts in a row, after the boot. *)
Definition yield0 : sched_op := OpYield 0xffffffff80200000 (frame0 0xffffffff80000100).

Lemma run_yields n : forall s, sched_reach 0 s -> exists s', sched_run 0 (repeat yield0 n) s s'.
Proof.
  induction n as [|n IH]; intros s Hs; [by exists s; constructor |].
  destruct (exec_ok 0 yield0 s (reach_inv 0 s Hs) eq_refl) as (s1 & Hs1 & _).
  destruct (IH s1) as [s' Hs']; [by apply (reach_step 0 yield0 s) |].
  exists s'. by econstructor.
Qed.

Lemma task_pick_fair_witness : exists ops1 rsp ctx ops2 s1,
  repeat yield0 64 = ops1 ++ OpYield rsp ctx :: ops2 /\
  sched_run 0 (ops1 ++ [OpYield rsp ctx]) boot0 s1 /\ dispatched 2 s1.
Proof.
  destruct (run_yields 64 boot0 boot0_reach) as [s' Hs'].
  apply (task_pick_fair 0 2 (repeat yield0 64) boot0 s').
  - exact boot0_reach.
  - eexists. split; [vm_compute; reflexivity |]. split; [reflexivity |].
    split; [reflexivity | left; reflexivity].
  - exact Hs'.
  - reflexivity.
Defined.

(** The memory above the two fresh frames holds the values [iretq] will pop. *)
Definition rsp_of (i : nat) (s : sched heap) : Z := ctx_rsp (nth i (tasks s) task_zero).
Definition boot1 : sched heap :=
  with_words (store_words (rsp_of 1 boot0 + 144) [0x1000; 0]
    (store_words (rsp_of 2 boot0 + 144) [0x2000; 0] (words boot0))) boot0.

Lemma boot1_inv : inv 0 boot1.
Proof.
  destruct (boot_ok 0 0x28 0x30 apps0 (sched_statics heap0)) as (s & Hs & Hinv).
  - lia.
  - split; [reflexivity |]. split; [reflexivity |]. split; [reflexivity |]. exact heap0_ok.
  - assert (boot0 = s) as Hb by (unfold boot0; rewrite Hs; reflexivity).
    assert (inv 0 boot0) as [[B1 B2 B3 B4 B5 B6] I1 I2 I3 I4].
    { rewrite Hb. apply Hinv. rewrite <- Hb. exists 0. split; [vm_compute; reflexivity | lia]. }
    split; [split | ..]; try assumption. unfold boot1. cbn [words with_words tasks].
    eapply frames_mono; [| exact B6]. intros x Hx. by do 2 apply store_words_mono.
Qed.

Definition fresh_frame (sp : Z) : list Z :=
  repeat 0 15 ++ [addr_task_trampoline; 0x28; 0x202; sp; 0].

Lemma fresh_frame_ok sp : kernel_frame boot1 (fresh_frame sp).
Proof.
  assert (kernel_cs boot1 = 0x28) as Hcs by (vm_compute; reflexivity).
  split; [reflexivity |]. rewrite Hcs. split; [lia |]. split; [reflexivity |]. split.
  - exists addr_task_trampoline. split; [reflexivity |].
    split; [unfold is_u64, addr_task_trampoline, image0; lia | reflexivity].
  - exists 0x202. split; [reflexivity | vm_compute; discriminate].
Qed.

Lemma saved_at_intro w r ctx : map (fun k => w !! (r + 8 * Z.of_nat k)) (seq 0 (length ctx)) = map Some ctx ->
  saved_at w r ctx.
Proof.
  intros H k v Hk. pose proof (lookup_lt_Some _ _ _ Hk) as Hlt.
  apply (f_equal (fun l : list (option Z) => l !! k)) in H.
  change (map ?f ?l) with (f <$> l) in H. rewrite !list_lookup_fmap, Hk in H.
  rewrite (lookup_seq_lt 0 (length ctx) k) in H by done. cbn in H. by injection H.
Qed.

Lemma some_eq {B} (o : option B) x y : o = Some x -> o = Some y -> x = y.
Proof. intros -> [= ->]. reflexivity. Qed.

Lemma context_switch_correct_witness : exists n regs s',
  isr_vector_0xf0 0 0xffffffff80200000 (frame0 0xffffffff80000100) boot1 = Ret (regs, s') /\
  zget (current_task s') 0 = Ret (Some (Z.of_nat n)).
Proof.
  destruct (context_switch_correct 0 0xffffffff80200000 (frame0 0xffffffff80000100) 0 boot1)
    as (n & regs & s' & Heq & Hn & _).
  - exact boot1_inv.
  - vm_compute. reflexivity.
  - lia.
  - assert (kernel_cs boot1 = 0x28) as Hcs by (vm_compute; reflexivity).
    split; [reflexivity |]. rewrite Hcs. split; [lia |]. split; [reflexivity |]. split.
    + exists 0xffffffff80000100. split; [reflexivity |]. split; [unfold is_u64; lia | reflexivity].
    + exists 0x202. split; [reflexivity | vm_compute; discriminate].
  - intros i t Hi Ht Hst.
    destruct i as [|[|[|i]]]; [lia | | |].
    + assert (tasks boot1 !! 1%nat = Some (nth 1 (tasks boot0) task_zero)) as E by (vm_compute; reflexivity).
      pose proof (some_eq _ _ _ Ht E). subst t. clear E Ht.
      split; [vm_compute; reflexivity |]. split; [left; vm_compute; discriminate |].
      exists (fresh_frame 0x1000). split; [apply fresh_frame_ok |].
      apply saved_at_intro. vm_compute. reflexivity.
    + assert (tasks boot1 !! 2%nat = Some (nth 2 (tasks boot0) task_zero)) as E by (vm_compute; reflexivity).
      pose proof (some_eq _ _ _ Ht E). subst t. clear E Ht.
      split; [vm_compute; reflexivity |]. split; [left; vm_compute; discriminate |].
      exists (fresh_frame 0x2000). split; [apply fresh_frame_ok |].
      apply saved_at_intro. vm_compute. reflexivity.
    + exfalso. assert (forall j u, tasks boot1 !! (S (S (S j))) = Some u -> state u = TASK_UNUSED) as Hu.
      { intros j u Hj. apply list_elem_of_lookup_2 in Hj as Hin.
        assert (forallb (fun u => bool_decide (state u = TASK_UNUSED)) (drop 3 (tasks boot1)) = true)
          as Hall by (vm_compute; reflexivity).
        rewrite forallb_forall in Hall. eapply bool_decide_eq_true, Hall, list_elem_of_In.
        apply (list_elem_of_lookup_2 _ j). by rewrite lookup_drop. }
      rewrite (Hu i t Ht) in Hst. discriminate.
  - exists n, regs, s'. exact (conj Heq Hn).
Defined.

Lemma task_build_stack_frame_witness :
  let '(sp, s') := task_build_stack 0x1008 0xffffffff80001000 boot0 in
  sp = 0x8f70 /\ words s' !! 0x9000 = words boot0 !! 0x9000.
Proof.
  pose proof (task_build_stack_frame 0x1008 0xffffffff80001000 boot0 ltac:(lia)
    ltac:(reflexivity) ltac:(unfold TASK_STACK_SIZE; lia)) as Hf.
  destruct (task_build_stack 0x1008 0xffffffff80001000 boot0) as [sp s'].
  destruct Hf as (H1 & _ & H2 & _ & H3 & _). unfold TASK_STACK_SIZE in H2.
  assert (sp = 0x8f70) as -> by lia. exact (conj eq_refl H3).
Defined.

(** *** Two CPUs *)
Definition smp_boot : res (sched heap) :=
  s ← task_register_cpu 0 0 (sched_statics heap0);
  s ← task_register_cpu 1 1 s;
  s ← task_init 0x28 0x30 2 s;
  s ← create_all [(0xffffffff80009040, 0xffffffff80002100, 0)] s;
  s ← task_start_bsp 0 s;
  task_start_ap 1 s.

(** CPU 0 dispatches the net task (slot 2), which calls [task_sleep 1] at tick 100.
    After its critical section, before its [int $0xF0], the timer interrupt brings
    tick 101; CPU 1 then takes a scheduling interrupt. *)
Definition smp_sleep : res (Z * sched heap) :=
  s ← smp_boot;
  '(_, s) ← task_schedule_isr 0 0xffffffff80200000
              (with_words (store_words 0xffffffff80200000 (frame0 0xffffffff80000100) (words s)) s);
  '(_, s) ← task_sleep 0 100 1 s;
  let s := task_tick 101 s in
  task_schedule_isr 1 0xffffffff80300000
    (with_words (store_words 0xffffffff80300000 (frame0 0xffffffff80000200) (words s)) s).

(** [task_sleep] gives the task up before the CPU has left it: on two CPUs, a
    tick between the critical section and the [int $0xF0] lets the second CPU take
    the task while the first still executes it; both then have it as current task
    and the second one resumes the frame saved before the first ever ran it. *)
Theorem task_sleep_race :
  match smp_sleep with
  | Ret (r, s) =>
      sched_lock s = false /\
      current_task s !! 0%nat = Some (Some 2) /\ current_task s !! 1%nat = Some (Some 2) /\
      (let t := nth 2 (tasks s) task_zero in
       state t = TASK_RUNNING /\ running_cpu t = 1 /\ r = ctx_rsp t) /\
      words s !! (r + 120) = Some addr_task_trampoline
  | _ => False
  end.
Proof. vm_compute. split_and!; reflexivity. Qed.
