(* ===== verification/Fat.v ===== *)
(** * FAT32 ([src/src/services/fs.c]): the volume, its FAT and its names

    Sectors are read and written through a [BlockDev]; every function works
    through the one static [sector_buf], as the code does.  A function that fails
    with [0] returns [None] (or [false]); a loop along a chain has the number of
    FAT entries as budget.  C strings are lists of characters without the NUL. *)
From S2P Require Import Prelude Interfaces.

Definition FAT32_ATTR_LFN : Z := 0x0F.
Definition FAT32_ATTR_DIR : Z := 0x10.

Record fat32_fs := Fat32Fs {
  bytes_per_sector : Z;
  sectors_per_cluster : Z;
  reserved_sectors : Z;
  fat_count : Z;
  fat_size : Z;
  total_sectors : Z;
  root_cluster : Z;
  fat_start_lba : Z;
  data_start_lba : Z;
  total_clusters : Z;
  part_lba : Z;
  mounted : bool;
}.

Record fstate (D : Type) := FState {
  fs : fat32_fs;
  sector_buf : list Z;
  dev : D;
}.
Arguments FState {D}. Arguments fs {D}. Arguments sector_buf {D}. Arguments dev {D}.

(** ** Little-endian fields *)
Definition le16 (l : list Z) (o : Z) : Z :=
  u16 (Z.lor (byte_at l o) (Z.shiftl (byte_at l (o + 1)) 8)).
Definition le32 (l : list Z) (o : Z) : Z :=
  u32 (Z.lor (Z.lor (Z.lor (byte_at l o) (Z.shiftl (byte_at l (o + 1)) 8))
        (Z.shiftl (byte_at l (o + 2)) 16)) (Z.shiftl (byte_at l (o + 3)) 24)).
Definition set_le32 (l : list Z) (o v : Z) : list Z :=
  splice l o [Z.land v 0xFF; Z.land (Z.shiftr v 8) 0xFF;
              Z.land (Z.shiftr v 16) 0xFF; Z.land (Z.shiftr v 24) 0xFF].

(** A directory entry [fat_dirent_t] is its 32 bytes. *)
Definition ent_attr (e : list Z) : Z := byte_at e 11.
Definition ent_size (e : list Z) : Z := le32 e 28.
Definition dirent_first_cluster (e : list Z) : Z :=
  Z.lor (Z.shiftl (le16 e 20) 16) (le16 e 26).
Definition dirent_set_first_cluster (e : list Z) (cluster : Z) : list Z :=
  splice (splice e 20 (le_bytes 2 (u16 (Z.shiftr cluster 16)))) 26
         (le_bytes 2 (u16 (Z.land cluster 0xFFFF))).
Definition ent_set_size (e : list Z) (n : Z) : list Z := splice e 28 (le_bytes 4 n).

(** ** Names *)
Definition to_upper (c : Z) : Z := if (97 <=? c) && (c <=? 122) then c - 97 + 65 else c.
Definition to_lower (c : Z) : Z := if (65 <=? c) && (c <=? 90) then c - 65 + 97 else c.

(** The first loop of [name_to_short] (stops at NUL, at ['.'] or when [j] is 8): what
    it writes and what is left of [name]; then the second loop. *)
Fixpoint short_base (n : nat) (name : list Z) : list Z * list Z :=
  match n, name with
  | S n, c :: rest =>
      if c =? 46 then ([], name)
      else let (w, r) := short_base n rest in (to_upper c :: w, r)
  | _, _ => ([], name)
  end.
Definition pad_to (n : nat) (l : list Z) : list Z := l ++ repeat 32 (n - length l).
Definition name_to_short (name : list Z) : list Z :=
  let (b, rest) := short_base 8 name in
  let rest := match rest with c :: r => if c =? 46 then r else rest | [] => [] end in
  pad_to 8 b ++ pad_to 3 (to_upper <$> take 3 rest).

Fixpoint short_name_loop (inp : list Z) (out : list Z) (max : Z) : list Z :=
  match inp with
  | [] => out
  | c :: inp =>
      if Z.of_nat (length out) <? max - 1 then
        if c =? 32 then out else short_name_loop inp (out ++ [c]) max
      else out
  end.
Fixpoint short_ext_loop (inp : list Z) (ext_start : Z) (out : list Z) (max : Z) : list Z :=
  match inp with
  | [] => out
  | c :: inp =>
      let out :=
        if c =? 32 then out else
        let out := if (ext_start =? Z.of_nat (length out)) && (Z.of_nat (length out) <? max - 1)
                   then out ++ [46] else out in
        if Z.of_nat (length out) <? max - 1 then out ++ [c] else out in
      short_ext_loop inp ext_start out max
  end.
(** The string [short_to_name] leaves in [out]. *)
Definition short_to_name (inp : list Z) (max : Z) : list Z :=
  let out := short_name_loop (take 8 inp) [] max in
  short_ext_loop (slice 8 3 inp) (Z.of_nat (length out)) out max.

Fixpoint name_equals (a b : list Z) : bool :=
  match a, b with
  | ca :: a, cb :: b => if negb (to_lower ca =? to_lower cb) then false else name_equals a b
  | [], [] => true
  | _, _ => false
  end.

(** [(unsigned char)ca - (unsigned char)cb]; characters are bytes. *)
Fixpoint fs_stricmp (a b : list Z) : Z :=
  match a, b with
  | ca :: a, cb :: b =>
      if negb (to_lower ca =? to_lower cb) then to_lower ca - to_lower cb else fs_stricmp a b
  | [], [] => 0
  | ca :: _, [] => ca
  | [], cb :: _ => - cb
  end.

(** The suffix after the last ['.'], or the whole string. *)
Fixpoint ext_of (ea p : list Z) : list Z :=
  match p with [] => ea | c :: p => ext_of (if c =? 46 then p else ea) p end.
Definition fs_extcmp (a b : list Z) : Z :=
  let cmp := fs_stricmp (ext_of a a) (ext_of b b) in
  if negb (cmp =? 0) then cmp else fs_stricmp a b.

(** *** Long names: an entry's thirteen UTF-16 units, of which the low bytes are kept *)
Fixpoint lfn_units (n : nat) (e : list Z) (o : Z) (out : list Z) (max : Z) : list Z :=
  match n with
  | O => out
  | S n =>
      if Z.of_nat (length out) <? max - 1 then
        let ch := le16 e o in
        if (ch =? 0) || (ch =? 0xFFFF) then out
        else lfn_units n e (o + 2) (out ++ [Z.land ch 0xFF]) max
      else out
  end.
Definition lfn_extract_part (e : list Z) (max : Z) : list Z :=
  c_str (lfn_units 2 e 28 (lfn_units 6 e 14 (lfn_units 5 e 1 [] max) max) max).

Definition lfn_prepend (dst : list Z) (max : Z) (part : list Z) : list Z :=
  let dst_len := Z.of_nat (length dst) in
  let part_len := if max <=? Z.of_nat (length part) + dst_len then max - dst_len - 1
                  else Z.of_nat (length part) in
  if part_len <=? 0 then dst else take (Z.to_nat part_len) part ++ dst.

Definition fat_short_checksum (short : list Z) : Z :=
  fold_left (fun sum c => u8 (u8 (Z.lor (Z.shiftr sum 1) (Z.shiftl sum 7)) + c)) (take 11 short) 0.

(** The unit at index [i] of the name: its character, the terminator, or padding. *)
Definition lfn_unit (name : list Z) (i : Z) : Z :=
  if (i <? Z.of_nat (length name)) then u8 (byte_at name i)
  else if i =? Z.of_nat (length name) then 0 else 0xFFFF.
Definition lfn_field (name : list Z) (start : Z) (n : nat) : list Z :=
  flat_map (fun i => le_bytes 2 (lfn_unit name (start + Z.of_nat i))) (seq 0 n).
(** The 32 bytes written over [entry]. *)
Definition lfn_bytes (name short : list Z) (order : Z) (is_last : bool) : list Z :=
  let start := (order - 1) * 13 in
  [u8 (Z.lor order (if is_last then 0x40 else 0))] ++ lfn_field name start 5
  ++ [FAT32_ATTR_LFN; 0; fat_short_checksum short] ++ lfn_field name (start + 5) 6
  ++ [0; 0] ++ lfn_field name (start + 11) 2.
(** [name[start + idx]] is read for all thirteen characters, also behind the NUL; every
    caller has the name in a [char[64]]. *)
Definition fat_write_lfn_entries (name short : list Z) (order : Z) (is_last : bool) : res (list Z) :=
  if 64 <? order * 13 then Fault else Ret (lfn_bytes name short order is_last).

(** ** Sectors and the FAT *)
Section Code.
Context {D : Type} `{!BlockDev D}.

Definition M (A : Type) : Type := st (fstate D) A.
Definition get_fs : M fat32_fs := fun s => Ret (fs s, s).
Definition get_buf : M (list Z) := fun s => Ret (sector_buf s, s).
Definition set_buf (b : list Z) : M () := fun s => Ret ((), FState (fs s) b (dev s)).

(** [blk_read(lba, 1, sector_buf)] and [blk_write(lba, 1, sector_buf)]. *)
Definition blk_read (lba : Z) : M bool := fun s =>
  let (r, d) := bd_read lba (dev s) in
  match r with
  | Some b => Ret (true, FState (fs s) b d)
  | None => Ret (false, FState (fs s) (sector_buf s) d)
  end.
Definition blk_write (lba : Z) : M bool := fun s =>
  let (r, d) := bd_write lba (sector_buf s) (dev s) in
  Ret (r, FState (fs s) (sector_buf s) d).

Definition cluster_to_lba (cluster : Z) (f : fat32_fs) : Z :=
  u32 (data_start_lba f + u32 (u32 (cluster - 2) * sectors_per_cluster f)).
Definition fat_read_sector (lba : Z) : M bool := blk_read lba.
Definition fat_write_sector (lba : Z) : M bool := blk_write lba.

Definition fat_get_entry (cluster : Z) : M Z :=
  f ← get_fs;
  let fat_offset := u32 (cluster * 4) in
  let sector := u32 (fat_start_lba f + fat_offset / bytes_per_sector f) in
  let offset := fat_offset mod bytes_per_sector f in
  ok ← fat_read_sector sector;
  if negb ok then mret 0x0FFFFFFF else
  b ← get_buf; mret (Z.land (le32 b offset) 0x0FFFFFFF).

Fixpoint fat_set_loop (n : nat) (copy : Z) (cluster value : Z) : M bool :=
  match n with
  | O => mret true
  | S n =>
      f ← get_fs;
      let fat_offset := u32 (cluster * 4) in
      let sector := u32 (fat_start_lba f + fat_offset / bytes_per_sector f
                         + copy * fat_size f) in
      let offset := fat_offset mod bytes_per_sector f in
      ok ← fat_read_sector sector;
      if negb ok then mret false else
      b ← get_buf; _ ← set_buf (set_le32 b offset value);
      ok ← fat_write_sector sector;
      if negb ok then mret false else fat_set_loop n (copy + 1) cluster value
  end.
Definition fat_set_entry (cluster value : Z) : M bool :=
  f ← get_fs; fat_set_loop (Z.to_nat (fat_count f)) 0 cluster value.

Fixpoint fat_alloc_loop (n : nat) (cluster : Z) : M (option Z) :=
  match n with
  | O => mret None
  | S n =>
      v ← fat_get_entry cluster;
      if v =? 0 then
        ok ← fat_set_entry cluster 0x0FFFFFFF;
        mret (if negb ok then None else Some cluster)
      else fat_alloc_loop n (cluster + 1)
  end.
Definition fat_alloc_cluster : M (option Z) :=
  f ← get_fs; fat_alloc_loop (Z.to_nat (total_clusters f - 2)) 2.

(** A cluster number that has data: not free, reserved or end-of-chain. *)
Definition in_chain (cluster : Z) : bool := (2 <=? cluster) && (cluster <? 0x0FFFFFF8).
(** Chains of distinct clusters are no longer than the FAT. *)
Definition chain_fuel (f : fat32_fs) : nat := S (Z.to_nat (fat_size f * 128)).

Fixpoint fat_free_loop (fuel : nat) (cluster : Z) : M bool :=
  if negb (in_chain cluster) then mret true else
  match fuel with
  | O => st_spin
  | S fuel =>
      next ← fat_get_entry cluster;
      ok ← fat_set_entry cluster 0;
      if negb ok then mret false else fat_free_loop fuel next
  end.
Definition fat_free_chain (start : Z) : M bool :=
  f ← get_fs; fat_free_loop (chain_fuel f) start.
End Code.
