(* ===== verification/FatDir.v ===== *)
(** * FAT32 directories ([src/src/services/fs.c], [fat_find_entry] .. [path_dir_cluster],
    [fat_create_entry], [fat_update_dirent])

    The directory functions share one loop nest (clusters of the chain, sectors of
    the cluster, 32-byte entries of the sector): [walk_sector], [walk_sectors] and
    [walk_chain], parameterised by what is done with an entry.  Each C function is
    that nest with its own step; [acc] is its local state ([lfn_buf] and counters). *)
From S2P Require Import Prelude Interfaces Fat.

(** What a step decides: go on with the next entry, or leave the function. *)
Inductive scan (A R : Type) := Next (acc : A) | Done (r : R).
Arguments Next {A R}. Arguments Done {A R}.
(** How a walk ends: a step left it, the chain ended, or a read failed. *)
Inductive walk (A R : Type) := WDone (r : R) | WEnd (acc : A) | WFail.
Arguments WDone {A R}. Arguments WEnd {A R}. Arguments WFail {A R}.

Record fs_entry := FsEntry { e_name : list Z; e_size : Z; e_is_dir : Z }.

(** ** What the entries of one sector do to [lfn_buf] *)
Definition lfn_add (lfn e : list Z) : list Z :=
  lfn_prepend (if negb (Z.land (byte_at e 0) 0x40 =? 0) then [] else lfn) 256
              (lfn_extract_part e 32).
(** [strcpy(name_buf, lfn_buf)] into 64 bytes, or the short name. *)
Definition entry_name (lfn e : list Z) : res (list Z) :=
  match lfn with
  | [] => Ret (c_str (short_to_name e 64))
  | _ => if Z.of_nat (length lfn) <? 64 then Ret lfn else Fault
  end.

(** *** The steps; [pos] is [off + s * bytes_per_sector] *)
Definition find_step (name : list Z) (lfn e : list Z) (pos : Z)
    : res (scan (list Z) (option (list Z * Z))) :=
  if byte_at e 0 =? 0 then Ret (Done None) else
  if byte_at e 0 =? 0xE5 then Ret (Next []) else
  if ent_attr e =? FAT32_ATTR_LFN then Ret (Next (lfn_add lfn e)) else
  nm ← entry_name lfn e;
  if name_equals nm name then Ret (Done (Some (e, pos))) else Ret (Next []).

(** [lfn_offsets] has room for 20. *)
Definition delete_step (name : list Z) (acc : list Z * list Z) (e : list Z) (pos : Z)
    : res (scan (list Z * list Z) (option (list Z * list Z * Z))) :=
  let '(lfn, offs) := acc in
  if byte_at e 0 =? 0 then Ret (Done None) else
  if byte_at e 0 =? 0xE5 then Ret (Next ([], [])) else
  if ent_attr e =? FAT32_ATTR_LFN then
    let offs := if negb (Z.land (byte_at e 0) 0x40 =? 0) then [] else offs in
    let offs := if Z.of_nat (length offs) <? 20 then offs ++ [pos] else offs in
    Ret (Next (lfn_add lfn e, offs))
  else
  nm ← entry_name lfn e;
  if name_equals nm name then Ret (Done (Some (e, offs, pos))) else Ret (Next ([], [])).

Definition dot : list Z := [46].
Definition dotdot : list Z := [46; 46].

Definition empty_step (lfn e : list Z) (pos : Z) : res (scan (list Z) bool) :=
  if byte_at e 0 =? 0 then Ret (Done true) else
  if byte_at e 0 =? 0xE5 then Ret (Next []) else
  if ent_attr e =? FAT32_ATTR_LFN then Ret (Next (lfn_add lfn e)) else
  if negb (Z.land (ent_attr e) 0x08 =? 0) then Ret (Next []) else
  nm ← entry_name lfn e;
  if str_eqb nm dot || str_eqb nm dotdot then Ret (Next []) else Ret (Done false).

Definition read_step (max_entries : Z) (acc : list Z * list fs_entry) (e : list Z) (pos : Z)
    : res (scan (list Z * list fs_entry) (list fs_entry)) :=
  let '(lfn, entries) := acc in
  if byte_at e 0 =? 0 then Ret (Done entries) else
  if byte_at e 0 =? 0xE5 then Ret (Next ([], entries)) else
  if ent_attr e =? FAT32_ATTR_LFN then Ret (Next (lfn_add lfn e, entries)) else
  if negb (Z.land (ent_attr e) 0x08 =? 0) then Ret (Next ([], entries)) else
  if max_entries <=? Z.of_nat (length entries) then Ret (Done entries) else
  nm ← entry_name lfn e;
  Ret (Next ([], entries ++ [FsEntry nm (ent_size e)
    (if negb (Z.land (ent_attr e) FAT32_ATTR_DIR =? 0) then 1 else 0)])).

(** ** The loop nest *)
Section Walk.
Context {D : Type} `{!BlockDev D} {A R : Type}.
Variables (reset : A -> A) (step : A -> list Z -> Z -> res (scan A R)).

Fixpoint walk_sector (n : nat) (off base : Z) (acc : A) (buf : list Z) : res (scan A R) :=
  match n with
  | O => Ret (Next acc)
  | S n =>
      r ← step acc (slice off 32 buf) (off + base);
      match r with
      | Done r => Ret (Done r)
      | Next acc => walk_sector n (off + 32) base acc buf
      end
  end.

Fixpoint walk_sectors (n : nat) (s lba : Z) (acc : A) : M (D:=D) (option (scan A R)) :=
  match n with
  | O => mret (Some (Next acc))
  | S n =>
      f ← get_fs;
      ok ← blk_read (u32 (lba + s));
      if negb ok then mret None else
      b ← get_buf;
      r ← st_lift (walk_sector (Z.to_nat (bytes_per_sector f / 32)) 0
                     (s * bytes_per_sector f) acc b);
      match r with
      | Done r => mret (Some (Done r))
      | Next acc => walk_sectors n (s + 1) lba acc
      end
  end.

(** The result names the cluster the walk was left in. *)
Fixpoint walk_chain (fuel : nat) (cluster : Z) (acc : A) : M (D:=D) (walk A (R * Z)) :=
  if negb (in_chain cluster) then mret (WEnd acc) else
  match fuel with
  | O => st_spin
  | S fuel =>
      f ← get_fs;
      r ← walk_sectors (Z.to_nat (sectors_per_cluster f)) 0 (cluster_to_lba cluster f) (reset acc);
      match r with
      | None => mret WFail
      | Some (Done r) => mret (WDone (r, cluster))
      | Some (Next acc) => next ← fat_get_entry cluster; walk_chain fuel next acc
      end
  end.
Definition walk_dir (dir_cluster : Z) (acc : A) : M (D:=D) (walk A (R * Z)) :=
  f ← get_fs; walk_chain (chain_fuel f) dir_cluster acc.
End Walk.

Section Code.
Context {D : Type} `{!BlockDev D}.
Abbreviation M := (M (D:=D)).

(** The entry with its cluster and its offset in it. *)
Definition fat_find_entry (dir_cluster : Z) (name : list Z) : M (option (list Z * Z * Z)) :=
  w ← walk_dir (fun lfn => lfn) (find_step name) dir_cluster [];
  mret (match w with
        | WDone (Some (e, pos), cluster) => Some (e, cluster, pos)
        | _ => None
        end).

Definition fat_mark_deleted (dir_cluster offset : Z) : M bool :=
  f ← get_fs;
  let lba := cluster_to_lba dir_cluster f in
  let sector := offset / bytes_per_sector f in
  let off := offset mod bytes_per_sector f in
  ok ← blk_read (u32 (lba + sector));
  if negb ok then mret false else
  b ← get_buf; _ ← set_buf (splice b off [0xE5]);
  blk_write (u32 (lba + sector)).

Fixpoint mark_all (cluster : Z) (offs : list Z) : M bool :=
  match offs with
  | [] => mret true
  | o :: offs =>
      ok ← fat_mark_deleted cluster o;
      if negb ok then mret false else mark_all cluster offs
  end.

(** [lfn_buf] and [lfn_count] restart at every cluster. *)
Definition fat_delete_entry (dir_cluster : Z) (name : list Z) : M bool :=
  w ← walk_dir (fun _ => ([], [])) (delete_step name) dir_cluster ([], []);
  match w with
  | WDone (Some (e, offs, pos), cluster) => mark_all cluster (offs ++ [pos])
  | _ => mret false
  end.

Definition fat_dir_is_empty (dir_cluster : Z) : M bool :=
  w ← walk_dir (fun lfn => lfn) empty_step dir_cluster [];
  mret (match w with WDone (r, _) => r | WEnd _ => true | WFail => false end).

Definition fat_read_dir (dir_cluster max_entries : Z) : M (option (list fs_entry)) :=
  w ← walk_dir (fun acc => acc) (read_step max_entries) dir_cluster ([], []);
  mret (match w with WDone (r, _) => Some r | WEnd (_, entries) => Some entries | WFail => None end).

(** ** Paths: the directory of the last component, and that component
    ([None] when [leaf] is not written) *)
Fixpoint take_part (p : list Z) : list Z * list Z :=
  match p with
  | [] => ([], [])
  | c :: rest => if c =? 47 then ([], p) else let (w, r) := take_part rest in (c :: w, r)
  end.
Fixpoint skip_slashes (p : list Z) : list Z :=
  match p with c :: rest => if c =? 47 then skip_slashes rest else p | [] => [] end.

Fixpoint path_loop (fuel : nat) (p : list Z) (dir leaf_cap : Z) : M (Z * option (list Z)) :=
  match p with
  | [] => mret (dir, Some [])
  | _ =>
      match fuel with
      | O => st_spin
      | S fuel =>
          let (comp, rest) := take_part p in
          let len := Z.of_nat (length comp) in
          let part := take 63 comp in
          let rest := skip_slashes rest in
          match rest with
          | [] => let copy := if leaf_cap <=? len then leaf_cap - 1 else len in
                  mret (dir, Some (take (Z.to_nat copy) part))
          | _ =>
              r ← fat_find_entry dir part;
              match r with
              | None => mret (0, None)
              | Some (ent, _, _) =>
                  if Z.land (ent_attr ent) FAT32_ATTR_DIR =? 0 then mret (0, None) else
                  let dir := dirent_first_cluster ent in
                  if dir =? 0 then mret (0, None) else path_loop fuel rest dir leaf_cap
              end
          end
      end
  end.
Definition path_dir_cluster (path : list Z) (leaf_cap : Z) : M (Z * option (list Z)) :=
  f ← get_fs;
  match path with
  | [] => mret (root_cluster f, None)
  | c :: rest => path_loop (length path) (if c =? 47 then rest else path) (root_cluster f) leaf_cap
  end.

(** ** Creating an entry *)
(** The offset at which [total] free slots in a row start. *)
Fixpoint free_slots (n : nat) (off free_run total : Z) (buf : list Z) : option Z :=
  match n with
  | O => None
  | S n =>
      let first := byte_at buf off in
      let free_run := if (first =? 0) || (first =? 0xE5) then free_run + 1 else 0 in
      if total <=? free_run then Some (off - (total - 1) * 32)
      else free_slots n (off + 32) free_run total buf
  end.

(** [for (i = lfn_count; i >= 1; i--)]; [entry_off] is advanced. *)
Fixpoint put_lfn (i : nat) (lfn_count : Z) (name short : list Z) (entry_off : Z) (buf : list Z)
    : res (Z * list Z) :=
  match i with
  | O => Ret (entry_off, buf)
  | S i' =>
      e ← fat_write_lfn_entries name short (Z.of_nat i) (Z.of_nat i =? lfn_count);
      put_lfn i' lfn_count name short (entry_off + 32) (splice buf entry_off e)
  end.

Definition new_dirent (short : list Z) (attr : Z) : list Z := short ++ [attr] ++ repeat 0 20.

Definition needs_lfn (name : list Z) : bool :=
  negb (name_equals (c_str (short_to_name (name_to_short name) 32)) name).
Definition lfn_entries (name : list Z) : Z :=
  if needs_lfn name then (Z.of_nat (length name) + 12) / 13 else 0.

(** The entries written from [start_off] on: the new one, and the sector. *)
Definition create_at (start_off : Z) (name : list Z) (attr : Z) (buf : list Z) : res (list Z * list Z) :=
  let short := name_to_short name in
  let lfn_count := lfn_entries name in
  '(entry_off, buf) ← put_lfn (Z.to_nat lfn_count) lfn_count name short start_off buf;
  let ent := new_dirent short attr in
  Ret (ent, splice buf entry_off ent).

Fixpoint create_sectors (n : nat) (s lba cluster : Z) (name : list Z) (attr : Z)
    : M (option (option (list Z * Z * Z))) :=
  match n with
  | O => mret (Some None)
  | S n =>
      f ← get_fs;
      ok ← blk_read (u32 (lba + s));
      if negb ok then mret None else
      b ← get_buf;
      match free_slots (Z.to_nat (bytes_per_sector f / 32)) 0 0 (lfn_entries name + 1) b with
      | Some start_off =>
          '(ent, b) ← st_lift (create_at start_off name attr b);
          _ ← set_buf b;
          ok ← blk_write (u32 (lba + s));
          if negb ok then mret None else
          mret (Some (Some (ent, cluster, start_off + s * bytes_per_sector f)))
      | None =>
          ok ← blk_write (u32 (lba + s));
          if negb ok then mret None else create_sectors n (s + 1) lba cluster name attr
      end
  end.

(** The walk over the directory's chain: the entry, or the cluster to extend. *)
Fixpoint create_chain (fuel : nat) (cluster : Z) (name : list Z) (attr : Z)
    : M (option (list Z * Z * Z + Z)) :=
  if negb (in_chain cluster) then mret (Some (inr cluster)) else
  match fuel with
  | O => st_spin
  | S fuel =>
      f ← get_fs;
      r ← create_sectors (Z.to_nat (sectors_per_cluster f)) 0 (cluster_to_lba cluster f)
            cluster name attr;
      match r with
      | None => mret None
      | Some (Some e) => mret (Some (inl e))
      | Some None =>
          next ← fat_get_entry cluster;
          if 0x0FFFFFF8 <=? next then mret (Some (inr cluster))
          else create_chain fuel next name attr
      end
  end.

Fixpoint zero_sectors (n : nat) (s lba : Z) : M bool :=
  match n with
  | O => mret true
  | S n => ok ← blk_write (u32 (lba + s));
           if negb ok then mret false else zero_sectors n (s + 1) lba
  end.

(** The recursive call on the fresh cluster has its own budget, [depth]. *)
Fixpoint create_rec (depth : nat) (dir_cluster : Z) (name : list Z) (attr : Z)
    : M (option (list Z * Z * Z)) :=
  f ← get_fs;
  r ← create_chain (chain_fuel f) dir_cluster name attr;
  match r with
  | None => mret None
  | Some (inl e) => mret (Some e)
  | Some (inr cluster) =>
      a ← fat_alloc_cluster;
      match a with
      | None => mret None
      | Some new_cluster =>
          _ ← fat_set_entry cluster new_cluster;
          _ ← fat_set_entry new_cluster 0x0FFFFFFF;
          _ ← set_buf (repeat 0 512);
          ok ← zero_sectors (Z.to_nat (sectors_per_cluster f)) 0 (cluster_to_lba new_cluster f);
          if negb ok then mret None else
          match depth with
          | O => st_spin
          | S depth => create_rec depth new_cluster name attr
          end
      end
  end.
Definition fat_create_entry (dir_cluster : Z) (name : list Z) (attr : Z)
    : M (option (list Z * Z * Z)) :=
  f ← get_fs; create_rec (Z.to_nat (total_clusters f)) dir_cluster name attr.

Definition fat_update_dirent (dir_cluster offset : Z) (ent : list Z) : M bool :=
  f ← get_fs;
  let lba := cluster_to_lba dir_cluster f in
  let sector := offset / bytes_per_sector f in
  let off := offset mod bytes_per_sector f in
  ok ← blk_read (u32 (lba + sector));
  if negb ok then mret false else
  b ← get_buf; _ ← set_buf (splice b off ent);
  blk_write (u32 (lba + sector)).
End Code.
