(* ===== verification/FatFile.v ===== *)
(** * FAT32 files and the file-system interface ([src/src/services/fs.c],
    [fat_read_file], [fat_write_file], [fs_init] .. [fs_sort_entries])

    Functions that also allocate work on the pair of the volume's state and an
    allocator.  Paths are not [NULL]; reading a path component that
    [path_dir_cluster] did not write is [Fault]. *)
From S2P Require Import Prelude Interfaces Fat FatDir.

Section Code.
Context {D : Type} `{!BlockDev D}.
Abbreviation M := (M (D:=D)).

(** ** Reading: the buffer's bytes, [None] while indeterminate *)
Fixpoint read_sectors (n : nat) (s lba size offset : Z) (data : list (option Z))
    : M (option (Z * list (option Z))) :=
  match n with
  | O => mret (Some (offset, data))
  | S n =>
      if negb (offset <? size) then mret (Some (offset, data)) else
      f ← get_fs;
      ok ← blk_read (u32 (lba + s));
      if negb ok then mret None else
      b ← get_buf;
      let to_copy := if size <? u32 (offset + bytes_per_sector f) then u32 (size - offset)
                     else bytes_per_sector f in
      read_sectors n (s + 1) lba size (u32 (offset + to_copy))
        (splice data offset (Some <$> slice 0 to_copy b))
  end.

Fixpoint read_chain (fuel : nat) (cluster size offset : Z) (data : list (option Z))
    : M (option (list (option Z))) :=
  if negb (in_chain cluster && (offset <? size)) then mret (Some data) else
  match fuel with
  | O => st_spin
  | S fuel =>
      f ← get_fs;
      r ← read_sectors (Z.to_nat (sectors_per_cluster f)) 0 (cluster_to_lba cluster f)
            size offset data;
      match r with
      | None => mret None
      | Some (offset, data) =>
          next ← fat_get_entry cluster; read_chain fuel next size offset data
      end
  end.

(** ** Writing *)
(** [while (1)]: the last cluster of the chain. *)
Fixpoint last_loop (fuel : nat) (cur : Z) : M Z :=
  match fuel with
  | O => st_spin
  | S fuel =>
      next ← fat_get_entry cur;
      if 0x0FFFFFF8 <=? next then mret cur else last_loop fuel next
  end.
Fixpoint count_loop (fuel : nat) (cur existing : Z) : M Z :=
  if negb (in_chain cur) then mret existing else
  match fuel with
  | O => st_spin
  | S fuel => next ← fat_get_entry cur; count_loop fuel next (u32 (existing + 1))
  end.
(** [needed - existing] rounds; the result is the new [last]. *)
Fixpoint extend_loop (n : nat) (last : Z) : M (option Z) :=
  match n with
  | O => mret (Some last)
  | S n =>
      a ← fat_alloc_cluster;
      match a with
      | None => mret None
      | Some new_cluster => _ ← fat_set_entry last new_cluster; extend_loop n new_cluster
      end
  end.

Definition data_slice (data : list Z) (i n : Z) : res (list Z) :=
  if i + n <=? Z.of_nat (length data) then Ret (slice i n data) else Fault.

Fixpoint write_sectors (n : nat) (s lba offset len need_size pos : Z) (data : list Z)
    : M (option Z) :=
  match n with
  | O => mret (Some pos)
  | S n =>
      if negb (pos <? need_size) then mret (Some pos) else
      f ← get_fs;
      ok ← blk_read (u32 (lba + s));
      if negb ok then mret None else
      let sector_start := pos in
      let sector_end := u32 (pos + bytes_per_sector f) in
      let write_start := if sector_start <? offset then u32 (offset - sector_start) else 0 in
      let write_end := if u32 (offset + len) <? sector_end
                       then u32 (u32 (offset + len) - sector_start) else bytes_per_sector f in
      let pos := u32 (pos + bytes_per_sector f) in
      if write_start <? write_end then
        let write_len := u32 (write_end - write_start) in
        d ← st_lift (data_slice data (u32 (sector_start + write_start - offset)) write_len);
        b ← get_buf; _ ← set_buf (splice b write_start d);
        ok ← blk_write (u32 (lba + s));
        if negb ok then mret None
        else write_sectors n (s + 1) lba offset len need_size pos data
      else write_sectors n (s + 1) lba offset len need_size pos data
  end.

Fixpoint write_chain (fuel : nat) (cur offset len need_size pos : Z) (data : list Z) : M bool :=
  if negb (in_chain cur && (pos <? need_size)) then mret true else
  match fuel with
  | O => st_spin
  | S fuel =>
      f ← get_fs;
      r ← write_sectors (Z.to_nat (sectors_per_cluster f)) 0 (cluster_to_lba cur f)
            offset len need_size pos data;
      match r with
      | None => mret false
      | Some pos => next ← fat_get_entry cur; write_chain fuel next offset len need_size pos data
      end
  end.

(** The part of [fat_write_file] after the entry is found or created. *)
Definition write_entry (ent : list Z) (ent_cluster ent_offset : Z) (data : list Z) (append : bool)
    : M bool :=
  f ← get_fs;
  let len := u32 (Z.of_nat (length data)) in
  let start := dirent_first_cluster ent in
  let offset := if append && negb (start =? 0) then ent_size ent else 0 in
  start ← (if append && negb (start =? 0) then mret start
           else if negb (start =? 0) then _ ← fat_free_chain start; mret 0
           else mret start : M Z);
  let cluster_bytes := sectors_per_cluster f * bytes_per_sector f in
  let need_size := u32 (offset + len) in
  let needed := u32 (need_size + cluster_bytes - 1) / cluster_bytes in
  if needed =? 0 then
    fat_update_dirent ent_cluster ent_offset (ent_set_size (dirent_set_first_cluster ent 0) 0)
  else
  fl ← (if start =? 0 then
          a ← fat_alloc_cluster;
          mret (match a with None => None | Some first => Some (first, first) end)
        else last ← last_loop (chain_fuel f) start; mret (Some (start, last))
        : M (option (Z * Z)));
  match fl with
  | None => mret false
  | Some (first, last) =>
      existing ← (if start =? 0 then mret 0 else count_loop (chain_fuel f) start 0 : M Z);
      l ← extend_loop (Z.to_nat (needed - existing)) last;
      match l with
      | None => mret false
      | Some last =>
          _ ← fat_set_entry last 0x0FFFFFFF;
          ok ← write_chain (chain_fuel f) first offset len need_size 0 data;
          if negb ok then mret false else
          fat_update_dirent ent_cluster ent_offset
            (ent_set_size (dirent_set_first_cluster ent first) (u32 (offset + len)))
      end
  end.

Definition fat_write_file (dir_cluster : Z) (name data : list Z) (append : bool) : M bool :=
  r ← fat_find_entry dir_cluster name;
  r ← (match r with
       | Some e => mret (Some e)
       | None => fat_create_entry dir_cluster name 0x20
       end : M (option (list Z * Z * Z)));
  match r with
  | None => mret false
  | Some (ent, ent_cluster, ent_offset) =>
      if negb (Z.land (ent_attr ent) FAT32_ATTR_DIR =? 0) then mret false
      else write_entry ent ent_cluster ent_offset data append
  end.

(** ** Mounting.  [init_ok] and [ready] are the results of [virtio_blk_init] and
    [virtio_blk_is_ready]. *)
Definition fs_zero : fat32_fs := Fat32Fs 0 0 0 0 0 0 0 0 0 0 0 false.
Definition set_fs (f : fat32_fs) : M () := fun s => Ret ((), FState f (sector_buf s) (dev s)).

(** The first of the four partitions with a FAT type. *)
Fixpoint part_loop (n : nat) (i : Z) (b : list Z) : Z :=
  match n with
  | O => 0
  | S n =>
      let type := byte_at b (0x1BE + i * 16 + 4) in
      if (type =? 0x0B) || (type =? 0x0C) || (type =? 0x0E) then le32 b (0x1BE + i * 16 + 8)
      else part_loop n (i + 1) b
  end.
Definition has_signature (b : list Z) : bool := (byte_at b 510 =? 0x55) && (byte_at b 511 =? 0xAA).

Definition fs_init (init_ok ready : bool) : M bool :=
  _ ← set_fs fs_zero;
  if negb init_ok then mret false else
  if negb ready then mret false else
  ok ← blk_read 0;
  if negb ok then mret false else
  b ← get_buf;
  let part := if has_signature b then part_loop 4 0 b else 0 in
  ok ← blk_read part;
  if negb ok then mret false else
  b ← get_buf;
  if negb (has_signature b) then mret false else
  let bps := le16 b 11 in
  let spc := byte_at b 13 in
  let reserved := le16 b 14 in
  let count := byte_at b 16 in
  let size := le32 b 36 in
  let total := le32 b 32 in
  let root := le32 b 44 in
  if negb (bps =? 512) || (spc =? 0) || (size =? 0) then mret false else
  let fat_start := u32 (part + reserved) in
  _ ← set_fs (Fat32Fs bps spc reserved count size total root fat_start
                (u32 (fat_start + u32 (count * size)))
                (u32 (total - reserved - u32 (count * size)) / spc) part true);
  mret true.

Definition fs_is_ready : M bool := f ← get_fs; mret (mounted f).

(** ** The interface without file contents *)
(** The directory and the non-empty leaf of a path, or the failure [0]. *)
Definition leaf_of (path : list Z) : M (option (Z * list Z)) :=
  '(dir, leaf) ← path_dir_cluster path 64;
  if dir =? 0 then mret None else
  match leaf with
  | None => fun _ => Fault
  | Some [] => mret None
  | Some name => mret (Some (dir, name))
  end.

Definition fs_list_dir (path : list Z) (max_entries : Z) : M (option (list fs_entry)) :=
  f ← get_fs;
  if negb (mounted f) then mret None else
  if str_eqb path [] || str_eqb path [47] then fat_read_dir (root_cluster f) max_entries else
  '(dir, _) ← path_dir_cluster path 0;
  if dir =? 0 then mret None else fat_read_dir dir max_entries.

Definition fs_write_file (path data : list Z) : M bool :=
  f ← get_fs; if negb (mounted f) then mret false else
  l ← leaf_of path;
  match l with None => mret false | Some (dir, name) => fat_write_file dir name data false end.
Definition fs_append_file (path data : list Z) : M bool :=
  f ← get_fs; if negb (mounted f) then mret false else
  l ← leaf_of path;
  match l with None => mret false | Some (dir, name) => fat_write_file dir name data true end.

Definition dot_entries (cluster dir : Z) : list Z :=
  let dot := dirent_set_first_cluster (new_dirent ([46] ++ repeat 32 10) FAT32_ATTR_DIR) cluster in
  let dotdot := dirent_set_first_cluster (new_dirent ([46; 46] ++ repeat 32 9) FAT32_ATTR_DIR) dir in
  dot ++ dotdot ++ repeat 0 448.

Definition fs_mkdir (path : list Z) : M bool :=
  f ← get_fs; if negb (mounted f) then mret false else
  l ← leaf_of path;
  match l with
  | None => mret false
  | Some (dir, name) =>
      r ← fat_find_entry dir name;
      match r with
      | Some _ => mret false
      | None =>
          r ← fat_create_entry dir name FAT32_ATTR_DIR;
          match r with
          | None => mret false
          | Some (ent, ent_cluster, ent_offset) =>
              a ← fat_alloc_cluster;
              match a with
              | None => mret false
              | Some cluster =>
                  ok ← fat_update_dirent ent_cluster ent_offset
                         (ent_set_size (dirent_set_first_cluster ent cluster) 0);
                  if negb ok then mret false else
                  _ ← set_buf (dot_entries cluster
                                 (if dir =? root_cluster f then root_cluster f else dir));
                  zero_sectors (Z.to_nat (sectors_per_cluster f)) 0 (cluster_to_lba cluster f)
              end
          end
      end
  end.

Definition fs_exists (path : list Z) : M bool :=
  f ← get_fs; if negb (mounted f) then mret false else
  if str_eqb path [] then mret false else
  if str_eqb path [47] then mret true else
  l ← leaf_of path;
  match l with
  | None => mret false
  | Some (dir, name) => r ← fat_find_entry dir name; mret (bool_decide (is_Some r))
  end.

Definition fs_delete (path : list Z) : M bool :=
  f ← get_fs; if negb (mounted f) then mret false else
  if str_eqb path [] || str_eqb path [47] then mret false else
  l ← leaf_of path;
  match l with
  | None => mret false
  | Some (dir, name) =>
      r ← fat_find_entry dir name;
      match r with
      | None => mret false
      | Some (ent, _, _) =>
          let start := dirent_first_cluster ent in
          let is_dir := negb (Z.land (ent_attr ent) FAT32_ATTR_DIR =? 0) in
          go ← (if is_dir then if start =? 0 then mret false else fat_dir_is_empty start
                else mret true : M bool);
          if negb go then mret false else
          ok ← fat_delete_entry dir name;
          if negb ok then mret false else
          if negb (start =? 0) then _ ← fat_free_chain start; mret true else mret true
      end
  end.

Definition fs_rename (old_path new_path : list Z) : M bool :=
  f ← get_fs; if negb (mounted f) then mret false else
  if str_eqb old_path new_path then mret true else
  '(old_dir, old_leaf) ← path_dir_cluster old_path 64;
  '(new_dir, new_leaf) ← path_dir_cluster new_path 64;
  if (old_dir =? 0) || (new_dir =? 0) then mret false else
  match old_leaf, new_leaf with
  | Some [], _ => mret false
  | Some _, Some [] => mret false
  | Some old_name, Some new_name =>
      r ← fat_find_entry new_dir new_name;
      match r with
      | Some _ => mret false
      | None =>
          r ← fat_find_entry old_dir old_name;
          match r with
          | None => mret false
          | Some (ent, _, _) =>
              if negb (Z.land (ent_attr ent) FAT32_ATTR_DIR =? 0) && negb (old_dir =? new_dir)
              then mret false else
              c ← fat_create_entry new_dir new_name (ent_attr ent);
              match c with
              | None => mret false
              | Some (new_ent, new_cluster, new_offset) =>
                  ok ← fat_update_dirent new_cluster new_offset
                         (ent_set_size (dirent_set_first_cluster new_ent (dirent_first_cluster ent))
                                       (ent_size ent));
                  if negb ok then mret false else
                  fat_delete_entry old_dir old_name
              end
          end
      end
  | _, _ => fun _ => Fault
  end.

Definition fs_stat (path : list Z) : M (option fs_entry) :=
  f ← get_fs; if negb (mounted f) then mret None else
  if str_eqb path [] then mret None else
  if str_eqb path [47] then mret (Some (FsEntry [47] 0 1)) else
  l ← leaf_of path;
  match l with
  | None => mret None
  | Some (dir, name) =>
      r ← fat_find_entry dir name;
      mret (match r with
            | None => None
            | Some (ent, _, _) => Some (FsEntry name (ent_size ent)
                (if negb (Z.land (ent_attr ent) FAT32_ATTR_DIR =? 0) then 1 else 0))
            end)
  end.

(** ** With an allocator: a file's contents in a fresh buffer *)
Context {A : Type} `{!Allocator A}.
Abbreviation H := (st (fstate D * A)).
Definition on_fs {R} (m : M R) : H R := fun '(s, a) => '(r, s) ← m s; Ret (r, (s, a)).
Definition h_malloc (n : Z) : H (option Z) := fun '(s, a) => '(p, a) ← a_malloc n a; Ret (p, (s, a)).
Definition h_free (p : option Z) : H () := fun '(s, a) => a ← a_free p a; Ret ((), (s, a)).

(** Result: the buffer's address, its bytes (with the final NUL) and the length. *)
Definition fat_read_file (dir_cluster : Z) (name : list Z) : H (option (Z * list (option Z) * Z)) :=
  r ← on_fs (fat_find_entry dir_cluster name);
  match r with
  | None => mret None
  | Some (ent, _, _) =>
      if negb (Z.land (ent_attr ent) FAT32_ATTR_DIR =? 0) then mret None else
      let size := ent_size ent in
      p ← h_malloc (u32 (size + 1));
      match p with
      | None => mret None
      | Some p =>
          f ← on_fs get_fs;
          r ← on_fs (read_chain (chain_fuel f) (dirent_first_cluster ent) size 0
                       (repeat None (Z.to_nat (u32 (size + 1)))));
          match r with
          | None => _ ← h_free (Some p); mret None
          | Some data => mret (Some (p, splice data size [Some 0], size))
          end
      end
  end.

Definition fs_read_file (path : list Z) : H (option (Z * list (option Z) * Z)) :=
  f ← on_fs get_fs; if negb (mounted f) then mret None else
  l ← on_fs (leaf_of path);
  match l with None => mret None | Some (dir, name) => fat_read_file dir name end.

(** The bytes handed on; an indeterminate byte is a read of uninitialised memory. *)
Fixpoint determinate (l : list (option Z)) : res (list Z) :=
  match l with
  | [] => Ret []
  | Some b :: l => r ← determinate l; Ret (b :: r)
  | None :: _ => Fault
  end.

Definition fs_copy (src_path dst_path : list Z) : H bool :=
  f ← on_fs get_fs; if negb (mounted f) then mret false else
  l ← on_fs (leaf_of src_path);
  match l with
  | None => mret false
  | Some (dir, name) =>
      r ← on_fs (fat_find_entry dir name);
      match r with
      | None => mret false
      | Some (ent, _, _) =>
          if negb (Z.land (ent_attr ent) FAT32_ATTR_DIR =? 0) then mret false else
          d ← fs_read_file src_path;
          match d with
          | None => mret false
          | Some (p, data, len) =>
              bytes ← st_lift (determinate (take (Z.to_nat len) data));
              ok ← on_fs (fs_write_file dst_path bytes);
              _ ← h_free (Some p); mret ok
          end
      end
  end.

Definition fs_move (src_path dst_path : list Z) : H bool :=
  f ← on_fs get_fs; if negb (mounted f) then mret false else
  ok ← on_fs (fs_rename src_path dst_path);
  if ok : bool then mret true else
  ok ← fs_copy src_path dst_path;
  if negb ok then mret false else on_fs (fs_delete src_path).
End Code.

(** ** Sorting a listing: bubble sort on adjacent pairs *)
Inductive fs_sort_mode := FS_SORT_NAME | FS_SORT_SIZE | FS_SORT_TYPE.

Definition entry_cmp (mode : fs_sort_mode) (descending : bool) (a b : fs_entry) : Z :=
  let cmp :=
    if negb (e_is_dir a =? e_is_dir b) then if negb (e_is_dir a =? 0) then -1 else 1
    else match mode with
         | FS_SORT_SIZE => if e_size a <? e_size b then -1
                           else if e_size b <? e_size a then 1 else 0
         | FS_SORT_TYPE => fs_extcmp (e_name a) (e_name b)
         | FS_SORT_NAME => fs_stricmp (e_name a) (e_name b)
         end in
  if descending then - cmp else cmp.

(** The inner loop: [n] exchanges from the front. *)
Fixpoint bubble (n : nat) (cmp : fs_entry -> fs_entry -> Z) (l : list fs_entry) : list fs_entry :=
  match n, l with
  | S n, a :: b :: l =>
      if 0 <? cmp a b then b :: bubble n cmp (a :: l) else a :: bubble n cmp (b :: l)
  | _, _ => l
  end.
(** [i] from 0 to [count - 2], the inner loop [count - 1 - i] long. *)
Fixpoint sort_loop (n : nat) (cmp : fs_entry -> fs_entry -> Z) (l : list fs_entry) : list fs_entry :=
  match n with O => l | S n => sort_loop n cmp (bubble (S n) cmp l) end.
Definition fs_sort_entries (entries : list fs_entry) (mode : fs_sort_mode) (descending : bool)
    : list fs_entry :=
  sort_loop (length entries - 1) (entry_cmp mode descending) entries.
