(* ===== verification/FatNames.v ===== *)
(** * FAT32 names: when a name fits 8.3, and the long-name encoding *)
From Stdlib Require Import Sorted.
From S2P Require Import Prelude Interfaces Fat FatDir FatFile.

(** ** Case-insensitive comparison *)
Lemma name_equals_iff a : forall b, name_equals a b = true <-> to_lower <$> a = to_lower <$> b.
Proof.
  induction a as [|c a IH]; intros [|d b]; cbn; [done | done | done |].
  destruct (Z.eqb_spec (to_lower c) (to_lower d)) as [E | E]; cbn [negb].
  - rewrite IH. change (to_lower <$> c :: a) with (to_lower c :: (to_lower <$> a)).
    split; [intros ->; by rewrite E | by intros [= _ ?]].
  - split; [done |]. intros [= ?]. done.
Qed.

Lemma to_lower_upper c : to_lower (to_upper c) = to_lower c.
Proof.
  unfold to_lower, to_upper.
  destruct (Z.leb_spec 97 c), (Z.leb_spec c 122); cbn [andb]; leb_cases; lia.
Qed.

(** Case folding keeps the separators apart from everything else. *)
Lemma to_lower_sep c d k : k = 0 \/ k = 32 \/ k = 46 -> to_lower c = to_lower d -> c = k -> d = k.
Proof.
  unfold to_lower. intros Hk H ->. revert H.
  leb_cases; lia.
Qed.

Lemma to_upper_sep c k : k = 0 \/ k = 32 \/ k = 46 -> to_upper c = k -> c = k.
Proof.
  unfold to_upper. intros Hk. leb_cases; lia.
Qed.

(** ** 8.3 names *)
Definition base_char (c : Z) : Prop := c <> 0 /\ c <> 32 /\ c <> 46.
Definition ext_char (c : Z) : Prop := c <> 0 /\ c <> 32.
Definition with_ext (base ext : list Z) : list Z :=
  base ++ match ext with [] => [] | _ => 46 :: ext end.
Definition is_83 (name : list Z) : Prop :=
  exists base ext, name = with_ext base ext /\ Forall base_char base /\ Forall ext_char ext /\
    (length base <= 8)%nat /\ (length ext <= 3)%nat.

Fixpoint until_space (l : list Z) : list Z :=
  match l with [] => [] | c :: l => if c =? 32 then [] else c :: until_space l end.
Fixpoint no_spaces (l : list Z) : list Z :=
  match l with [] => [] | c :: l => if c =? 32 then no_spaces l else c :: no_spaces l end.

Lemma until_space_pad l n : Forall (fun c => c <> 32) l -> until_space (l ++ repeat 32 n) = l.
Proof.
  induction 1 as [|c l Hc _ IH]; cbn; [by destruct n |].
  destruct (Z.eqb_spec c 32); [done | by rewrite IH].
Qed.
Lemma no_spaces_pad l n : Forall (fun c => c <> 32) l -> no_spaces (l ++ repeat 32 n) = l.
Proof.
  induction 1 as [|c l Hc _ IH]; cbn.
  - induction n as [|n IH]; [done |]. cbn. exact IH.
  - destruct (Z.eqb_spec c 32); [done | by rewrite IH].
Qed.
Lemma until_space_ne l : Forall (fun c => c <> 32) (until_space l).
Proof. induction l as [|c l IH]; cbn; [done |]. destruct (Z.eqb_spec c 32); by constructor. Qed.
Lemma no_spaces_ne l : Forall (fun c => c <> 32) (no_spaces l).
Proof. induction l as [|c l IH]; cbn; [done |]. destruct (Z.eqb_spec c 32); [done | by constructor]. Qed.
Lemma until_space_length l : (length (until_space l) <= length l)%nat.
Proof. induction l as [|c l IH]; cbn; [done |]. destruct (Z.eqb_spec c 32); cbn; lia. Qed.
Lemma no_spaces_length l : (length (no_spaces l) <= length l)%nat.
Proof. induction l as [|c l IH]; cbn; [done |]. destruct (Z.eqb_spec c 32); cbn; lia. Qed.
Lemma until_space_sub P l : Forall P l -> Forall P (until_space l).
Proof. induction 1; cbn; [done |]. destruct (_ =? 32); by constructor. Qed.
Lemma no_spaces_sub P l : Forall P l -> Forall P (no_spaces l).
Proof. induction 1; cbn; [done |]. destruct (_ =? 32); [done | by constructor]. Qed.

(** *** [short_to_name] in closed form, the buffer being large enough *)
Lemma short_name_loop_eq l : forall out max, Z.of_nat (length out + length l) < max ->
  short_name_loop l out max = out ++ until_space l.
Proof.
  induction l as [|c l IH]; intros out max Hm; cbn [short_name_loop until_space length] in *.
  - by rewrite app_nil_r.
  - rewrite (proj2 (Z.ltb_lt _ _)) by lia. destruct (c =? 32); [by rewrite app_nil_r |].
    rewrite IH by (rewrite length_app; simpl length; lia). by rewrite <- app_assoc.
Qed.

Lemma short_ext_tail l : forall es out max, es < Z.of_nat (length out) ->
  Z.of_nat (length out + length l) < max -> short_ext_loop l es out max = out ++ no_spaces l.
Proof.
  induction l as [|c l IH]; intros es out max He Hm; cbn [short_ext_loop no_spaces length] in *.
  - by rewrite app_nil_r.
  - destruct (c =? 32); [by apply IH; lia |].
    rewrite (proj2 (Z.eqb_neq _ _)) by lia. cbn [andb].
    rewrite (proj2 (Z.ltb_lt _ _)) by lia.
    rewrite IH by (rewrite length_app; simpl length; lia). by rewrite <- app_assoc.
Qed.

Lemma short_ext_loop_eq l out max : Z.of_nat (length out + length l) + 1 < max ->
  short_ext_loop l (Z.of_nat (length out)) out max = with_ext out (no_spaces l).
Proof.
  unfold with_ext. induction l as [|c l IH]; intros Hm; cbn [short_ext_loop no_spaces length] in *.
  - by rewrite app_nil_r.
  - destruct (c =? 32); [by apply IH; lia |].
    rewrite Z.eqb_refl. rewrite (proj2 (Z.ltb_lt (Z.of_nat (length out)) (max - 1))) by lia.
    cbn [andb].
    rewrite (proj2 (Z.ltb_lt _ _)) by (rewrite length_app; simpl length; lia).
    rewrite short_ext_tail by (rewrite ?length_app; simpl length; lia). by rewrite <- !app_assoc.
Qed.

Lemma short_to_name_eq b e max : length b = 8%nat -> length e = 3%nat -> 12 < max ->
  short_to_name (b ++ e) max = with_ext (until_space b) (no_spaces e).
Proof.
  intros Hb He Hm. unfold short_to_name, slice.
  change (Z.to_nat 8) with 8%nat. change (Z.to_nat 3) with 3%nat.
  rewrite take_app_length' by done. rewrite drop_app_length' by done.
  rewrite take_ge by lia. rewrite short_name_loop_eq by (cbn; lia). cbn [app].
  apply short_ext_loop_eq. pose proof (until_space_length b). lia.
Qed.

(** *** [name_to_short] in closed form *)
Lemma short_base_spec n : forall name, exists b, Forall (fun c => c <> 46) b /\
  (length b <= n)%nat /\ short_base n name = (to_upper <$> b, drop (length b) name) /\
  b = take (length b) name /\ (forall c r, drop (length b) name = c :: r -> c = 46 \/ length b = n).
Proof.
  induction n as [|n IH]; intros name; cbn [short_base].
  - exists []. split_and!; try done. by right.
  - destruct name as [|c name]; [exists []; split_and!; try done; cbn; lia |].
    destruct (Z.eqb_spec c 46) as [-> | Hc].
    + exists []. split_and!; try done; try (cbn; lia). intros ? ? [= <- _]. by left.
    + destruct (IH name) as (b & Hb & Hl & -> & Ht & Hd). exists (c :: b). cbn.
      split_and!; [by constructor | lia | done | by rewrite <- Ht |].
      intros d r Hdr. destruct (Hd d r Hdr); [by left | right; lia].
Qed.

Lemma pad_to_length n l : (length l <= n)%nat -> length (pad_to n l) = n.
Proof. intros. unfold pad_to. rewrite length_app, repeat_length. lia. Qed.

(** The base and what follows it: the pieces [name_to_short] pads. *)
Lemma name_to_short_spec name : exists b r,
  name_to_short name = pad_to 8 (to_upper <$> b) ++ pad_to 3 (to_upper <$> take 3 r) /\
  (length b <= 8)%nat /\ Forall (fun c => c <> 46) b /\
  (name = b ++ r \/ name = b ++ 46 :: r).
Proof.
  unfold name_to_short. destruct (short_base_spec 8 name) as (b & Hb & Hl & -> & Ht & _).
  assert (name = b ++ drop (length b) name) as Hn.
  { rewrite <- (take_drop (length b) name) at 1. by rewrite <- Ht. }
  destruct (drop (length b) name) as [|c r]; [exists b, []; eauto |].
  destruct (Z.eqb_spec c 46) as [-> | Hc]; [exists b, r; eauto | exists b, (c :: r); eauto].
Qed.

Lemma name_to_short_length name : length (name_to_short name) = 11%nat.
Proof.
  destruct (name_to_short_spec name) as (b & r & -> & Hb & _).
  rewrite length_app, !pad_to_length; rewrite ?length_fmap, ?length_take; lia.
Qed.

Lemma c_str_id l : Forall (fun c => c <> 0) l -> c_str l = l.
Proof.
  induction 1 as [|c l Hc _ IH]; cbn; [done |].
  destruct (Z.eqb_spec c 0); [done | by rewrite IH].
Qed.

Lemma upper_ne k l : k = 0 \/ k = 32 \/ k = 46 -> Forall (fun c => c <> k) l ->
  Forall (fun c => c <> k) (to_upper <$> l).
Proof.
  intros Hk Hl. rewrite Forall_fmap. eapply Forall_impl; [exact Hl |].
  intros c Hc Hu. by apply Hc, to_upper_sep.
Qed.

Lemma short_base_app b r n : Forall (fun c => c <> 46) b -> (length b <= n)%nat ->
  (r = [] \/ exists r', r = 46 :: r') -> short_base n (b ++ r) = (to_upper <$> b, r).
Proof.
  revert n. induction b as [|c b IH]; intros n Hb Hl Hr; cbn [app].
  - destruct Hr as [-> | [r' ->]]; destruct n; done.
  - apply Forall_cons in Hb as [Hc Hb]. destruct n as [|n]; [cbn in Hl; lia |].
    cbn [short_base]. rewrite (proj2 (Z.eqb_neq _ _)) by done.
    by rewrite (IH n Hb ltac:(cbn in Hl; lia) Hr).
Qed.

(** An 8.3 name is stored upper-cased in the short name and read back so. *)
Lemma short_83 base ext max : Forall base_char base -> Forall ext_char ext ->
  (length base <= 8)%nat -> (length ext <= 3)%nat -> 12 < max ->
  c_str (short_to_name (name_to_short (with_ext base ext)) max) = to_upper <$> with_ext base ext.
Proof.
  intros Hb He Hlb Hle Hm.
  assert (Hb46 : Forall (fun c => c <> 46) base) by (eapply Forall_impl; [exact Hb | intros ? (?&?&?); done]).
  assert (Hb32 : Forall (fun c => c <> 32) base) by (eapply Forall_impl; [exact Hb | intros ? (?&?&?); done]).
  assert (Hb0 : Forall (fun c => c <> 0) base) by (eapply Forall_impl; [exact Hb | intros ? (?&?&?); done]).
  assert (He32 : Forall (fun c => c <> 32) ext) by (eapply Forall_impl; [exact He | intros ? (?&?); done]).
  assert (He0 : Forall (fun c => c <> 0) ext) by (eapply Forall_impl; [exact He | intros ? (?&?); done]).
  assert (name_to_short (with_ext base ext) = pad_to 8 (to_upper <$> base) ++ pad_to 3 (to_upper <$> ext)) as ->.
  { unfold name_to_short, with_ext.
    rewrite short_base_app; [| done | done | destruct ext; eauto].
    destruct ext as [|c ext]; [done |]. cbn [Z.eqb Pos.eqb]. by rewrite take_ge. }
  rewrite short_to_name_eq; [| apply pad_to_length; rewrite length_fmap; lia
                             | apply pad_to_length; rewrite length_fmap; lia | done].
  unfold pad_to at 1. rewrite until_space_pad by (apply upper_ne; auto).
  unfold pad_to. rewrite no_spaces_pad by (apply upper_ne; auto).
  unfold with_ext. rewrite fmap_app. destruct ext as [|c ext].
  - cbn [fmap list_fmap app]. rewrite !app_nil_r. apply c_str_id, upper_ne; auto.
  - change (to_upper <$> 46 :: c :: ext) with (46 :: (to_upper <$> c :: ext)).
    cbn [fmap list_fmap]. apply c_str_id, Forall_app. split; [apply upper_ne; auto |].
    constructor; [done |]. apply (upper_ne 0 (c :: ext)); auto.
Qed.

Lemma lower_sep_forall k l : k = 0 \/ k = 32 \/ k = 46 -> forall l',
  to_lower <$> l = to_lower <$> l' -> Forall (fun c => c <> k) l -> Forall (fun c => c <> k) l'.
Proof.
  intros Hk. induction l as [|c l IH]; intros [|c' l'] Heq Hl; try done.
  injection Heq as Hc Heq. apply Forall_cons in Hl as [Hne Hl].
  constructor; [| by apply IH]. intros ->. by apply Hne, (to_lower_sep k c).
Qed.

Lemma no_zero_pad n l : Forall (fun c => c <> 0) l -> Forall (fun c => c <> 0) (pad_to n l).
Proof.
  intros Hl. apply Forall_app. split; [done |]. apply Forall_forall.
  intros x Hx%list_elem_of_In%repeat_spec. by subst.
Qed.

(** Whatever the name, its short form reads back as base and extension. *)
Lemma short_form name : Forall (fun c => c <> 0) name -> exists base ext,
  c_str (short_to_name (name_to_short name) 32) = with_ext base ext /\
  Forall base_char base /\ Forall ext_char ext /\ (length base <= 8)%nat /\ (length ext <= 3)%nat.
Proof.
  intros H0. destruct (name_to_short_spec name) as (b & r & -> & Hl & Hb & Hn).
  set (B := to_upper <$> b). set (E := to_upper <$> take 3 r).
  assert (HB0 : Forall (fun c => c <> 0) b /\ Forall (fun c => c <> 0) r).
  { destruct Hn as [-> | ->]; apply Forall_app in H0 as [? H0]; [done |].
    by apply Forall_cons in H0 as [_ ?]. }
  destruct HB0 as [Hb0 Hr0].
  assert (Forall (fun c => c <> 0) B /\ Forall (fun c => c <> 46) B /\ Forall (fun c => c <> 0) E)
    as (HB1 & HB2 & HE1).
  { split_and!; apply upper_ne; auto. by apply Forall_take. }
  assert (length B <= 8 /\ length E <= 3)%nat as [HlB HlE].
  { unfold B, E. rewrite !length_fmap, length_take. lia. }
  rewrite short_to_name_eq by (lia || by apply pad_to_length).
  assert (Hu : until_space (pad_to 8 B) = until_space B).
  { unfold pad_to. generalize (8 - length B)%nat as n. clear. induction B as [|c B IH]; intros n; cbn.
    - by destruct n.
    - destruct (c =? 32); [done | by rewrite IH]. }
  assert (He : no_spaces (pad_to 3 E) = no_spaces E).
  { unfold pad_to. generalize (3 - length E)%nat as n. clear. induction E as [|c E IH]; intros n; cbn.
    - induction n as [|n IH]; [done |]. cbn. exact IH.
    - destruct (c =? 32); [apply IH | by rewrite IH]. }
  rewrite Hu, He. exists (until_space B), (no_spaces E). split_and!.
  - apply c_str_id. unfold with_ext. apply Forall_app. split; [by apply until_space_sub |].
    destruct (no_spaces E) eqn:EE; [done |]. rewrite <- EE. constructor; [done |]. by apply no_spaces_sub.
  - rewrite Forall_forall. intros c Hc. split_and!.
    + by apply (proj1 (Forall_forall _ _) (until_space_sub _ _ HB1)).
    + by apply (proj1 (Forall_forall _ _) (until_space_ne B)).
    + by apply (proj1 (Forall_forall _ _) (until_space_sub _ _ HB2)).
  - rewrite Forall_forall. intros c Hc. split.
    + by apply (proj1 (Forall_forall _ _) (no_spaces_sub _ _ HE1)).
    + by apply (proj1 (Forall_forall _ _) (no_spaces_ne E)).
  - pose proof (until_space_length B). lia.
  - pose proof (no_spaces_length E). lia.
Qed.

(** a name is stored without long-name entries exactly when it is an 8.3 name
    (base of at most 8 characters, extension of at most 3, no spaces); its short
    name then reads back as the name in upper case, which the directory search
    takes for the same name. *)
Theorem needs_lfn_iff name : Forall (fun c => c <> 0) name ->
  (needs_lfn name = false <-> is_83 name) /\
  (is_83 name -> length (name_to_short name) = 11%nat /\
     c_str (short_to_name (name_to_short name) 64) = to_upper <$> name /\
     name_equals (c_str (short_to_name (name_to_short name) 64)) name = true).
Proof.
  intros H0.
  assert (Hfold : name_equals (to_upper <$> name) name = true).
  { apply name_equals_iff. rewrite <- list_fmap_compose. apply list_fmap_ext.
    intros i c _. apply to_lower_upper. }
  split.
  - unfold needs_lfn. rewrite negb_false_iff. split.
    + rewrite name_equals_iff. destruct (short_form name H0) as (b & e & -> & Hb & He & Hlb & Hle).
      intros Heq. unfold with_ext in Heq. rewrite fmap_app in Heq.
      symmetry in Heq. apply fmap_app_inv in Heq as (b' & t & Hb' & Ht & ->).
      apply Forall_app in H0 as [H0b H0t].
      assert (Hbc : Forall base_char b').
      { rewrite Forall_forall in *. intros c Hc. split_and!.
        - by apply H0b.
        - apply (proj1 (Forall_forall (fun c => c <> 32) b')); [| done].
          eapply (lower_sep_forall 32 b); auto.
          apply Forall_forall. intros d Hd. by apply (Hb d Hd).
        - apply (proj1 (Forall_forall (fun c => c <> 46) b')); [| done].
          eapply (lower_sep_forall 46 b); auto.
          apply Forall_forall. intros d Hd. by apply (Hb d Hd). }
      assert (Hlb' : (length b' <= 8)%nat).
      { apply (f_equal length) in Hb'. rewrite !length_fmap in Hb'. lia. }
      destruct e as [|e1 e].
      * destruct t; [| done]. exists b', []. split_and!; try done; cbn; lia.
      * destruct t as [|d t]; [done |]. injection Ht as Hd Ht.
        assert (d = 46) as -> by (apply (to_lower_sep 46 d 46); auto).
        destruct t as [|t1 t]; [done |]. exists b', (t1 :: t).
        apply Forall_cons in H0t as [_ H0t]. split_and!; try done.
        -- rewrite Forall_forall in *. intros c Hc. split; [by apply H0t |].
           apply (proj1 (Forall_forall (fun c => c <> 32) (t1 :: t))); [| done].
           eapply (lower_sep_forall 32 (e1 :: e)); auto.
           apply Forall_forall. intros x Hx. by apply (He x Hx).
        -- apply (f_equal length) in Ht. cbn in Ht, Hle |- *. rewrite !length_fmap in Ht. lia.
    + intros (b & e & -> & Hb & He & Hlb & Hle). by rewrite short_83 by (done || lia).
  - intros (b & e & -> & Hb & He & Hlb & Hle). rewrite short_83 by (done || lia).
    split_and!; [apply name_to_short_length | done | done].
Qed.

(** ** Long names *)
Definition lfn_char (c : Z) : Prop := 1 <= c <= 255.

Lemma byte_at_app_r l1 l2 i : Z.of_nat (length l1) <= i ->
  byte_at (l1 ++ l2) i = byte_at l2 (i - Z.of_nat (length l1)).
Proof.
  intros Hi. unfold byte_at. rewrite lookup_app_r by lia. f_equal. f_equal. lia.
Qed.
Lemma byte_at_app_l l1 l2 i : 0 <= i < Z.of_nat (length l1) ->
  byte_at (l1 ++ l2) i = byte_at l1 i.
Proof. intros Hi. unfold byte_at. by rewrite lookup_app_l by lia. Qed.

Lemma le16_pair a b : is_u8 a -> is_u8 b -> u16 (Z.lor a (Z.shiftl b 8)) = a + 256 * b.
Proof.
  intros Ha Hb. unfold is_u8 in *. rewrite lor_shiftl by lia.
  rewrite u16_id by (unfold is_u16; lia). lia.
Qed.

Lemma le16_field pre post v o : Z.of_nat (length pre) = o -> is_u16 v ->
  le16 (pre ++ le_bytes 2 v ++ post) o = v.
Proof.
  intros Ho Hv. unfold le16. unfold is_u16 in Hv.
  rewrite (byte_at_app_r pre _ o), (byte_at_app_r pre _ (o + 1)) by lia. rewrite Ho.
  replace (o - o) with 0 by lia. replace (o + 1 - o) with 1 by lia.
  change (byte_at (le_bytes 2 v ++ post) 0) with (v mod 256).
  change (byte_at (le_bytes 2 v ++ post) 1) with (v / 256 mod 256).
  rewrite le16_pair by (unfold is_u8; lia). lia.
Qed.

Lemma lfn_unit_u16 name i : Forall lfn_char name -> is_u16 (lfn_unit name i).
Proof.
  intros Hn. unfold lfn_unit. leb_cases; try (unfold is_u16; lia).
  pose proof (u8_range (byte_at name i)) as Hr. unfold is_u8, is_u16 in *. lia.
Qed.

Lemma flat_map_pairs (f : nat -> list Z) n : (forall i, length (f i) = 2%nat) ->
  forall k, length (flat_map f (seq k n)) = (2 * n)%nat.
Proof.
  intros Hf. induction n as [|n IH]; intros k; [done |].
  cbn [seq flat_map]. rewrite length_app, Hf, IH. lia.
Qed.

(** A field of [n] units holds them at consecutive offsets. *)
Lemma lfn_field_le16 name st n pre post o (j : nat) : Forall lfn_char name ->
  Z.of_nat (length pre) = o -> (j < n)%nat ->
  le16 (pre ++ lfn_field name st n ++ post) (o + 2 * Z.of_nat j) = lfn_unit name (st + Z.of_nat j).
Proof.
  intros Hn Ho Hj. unfold lfn_field.
  replace n with (j + S (n - S j))%nat by lia. rewrite seq_app. cbn [seq].
  rewrite flat_map_app. cbn [flat_map]. set (A := flat_map _ (seq 0 j)).
  assert (Z.of_nat (length A) = 2 * Z.of_nat j) as HA.
  { unfold A. rewrite flat_map_pairs; [lia |]. intros. apply length_le_bytes. }
  rewrite <- !app_assoc. rewrite (app_assoc pre A). apply le16_field.
  - rewrite length_app. lia.
  - replace (st + Z.of_nat (0 + j)) with (st + Z.of_nat j) by lia. by apply lfn_unit_u16.
Qed.

Lemma lfn_field_length name st n : length (lfn_field name st n) = (2 * n)%nat.
Proof.
  unfold lfn_field. apply flat_map_pairs. intros. apply length_le_bytes.
Qed.

(** Reading units: characters of the name up to its end. *)
Lemma lfn_units_spec name e n : forall st o out max,
  Forall lfn_char name -> 0 <= st -> Z.of_nat (length out + n) < max ->
  (forall j : nat, (j < n)%nat -> le16 e (o + 2 * Z.of_nat j) = lfn_unit name (st + Z.of_nat j)) ->
  lfn_units n e o out max = out ++ slice st (Z.of_nat n) name.
Proof.
  induction n as [|n IH]; intros st o out max Hn Hst Hm He; cbn [lfn_units].
  - unfold slice. cbn. by rewrite take_0, app_nil_r.
  - rewrite (proj2 (Z.ltb_lt _ _)) by lia.
    pose proof (He 0%nat ltac:(lia)) as H0. rewrite Z.mul_0_r, !Z.add_0_r in H0. rewrite H0.
    unfold lfn_unit. destruct (Z.ltb_spec st (Z.of_nat (length name))) as [Hlt | Hge].
    + destruct (lookup_lt_is_Some_2 name (Z.to_nat st)) as [c Hc]; [lia |].
      assert (lfn_char c) as Hcc by (by apply (proj1 (Forall_forall _ _) Hn c), list_elem_of_lookup_2 in Hc || (eapply Forall_lookup_1; eauto)).
      assert (byte_at name st = c) as -> by (unfold byte_at; by rewrite Hc).
      unfold lfn_char in Hcc. rewrite u8_id by (unfold is_u8; lia).
      rewrite !(proj2 (Z.eqb_neq _ _)) by lia. cbn [orb].
      rewrite (IH (st + 1)); [| done | lia | rewrite length_app; simpl length; lia |].
      * rewrite <- app_assoc. f_equal. cbn [app].
        replace (Z.land c 0xFF) with c.
        2:{ change 0xFF with (Z.ones 8). rewrite Z.land_ones by lia. lia. }
        unfold slice. rewrite (drop_S name c (Z.to_nat st)) by done.
        replace (Z.to_nat (Z.of_nat (S n))) with (S n) by lia.
        replace (Z.to_nat (st + 1)) with (S (Z.to_nat st)) by lia.
        by replace (Z.to_nat (Z.of_nat n)) with n by lia.
      * intros j Hj. replace (o + 2 + 2 * Z.of_nat j) with (o + 2 * Z.of_nat (S j)) by lia.
        rewrite He by lia. f_equal. lia.
    + assert (slice st (Z.of_nat (S n)) name = []) as ->.
      { unfold slice. rewrite drop_ge by lia. by rewrite take_nil. }
      rewrite app_nil_r. by destruct (Z.eqb_spec st (Z.of_nat (length name))).
Qed.

Lemma slice_app {B} st a b (l : list B) : 0 <= st -> 0 <= a -> 0 <= b ->
  slice st a l ++ slice (st + a) b l = slice st (a + b) l.
Proof.
  intros. unfold slice. rewrite !Z2Nat.inj_add by lia. rewrite <- drop_drop.
  by rewrite take_take_drop.
Qed.

Lemma slice_sub {B} (P : B -> Prop) st n (l : list B) : Forall P l -> Forall P (slice st n l).
Proof. intros. by apply Forall_take, Forall_drop. Qed.

(** One entry carries its thirteen characters. *)
Lemma lfn_extract_written name short order last : Forall lfn_char name -> 1 <= order ->
  lfn_extract_part (lfn_bytes name short order last) 32 = slice ((order - 1) * 13) 13 name.
Proof.
  intros Hn Ho. unfold lfn_extract_part, lfn_bytes.
  set (st := (order - 1) * 13). set (o := u8 _). set (ck := fat_short_checksum short).
  set (F5 := lfn_field name st 5). set (F6 := lfn_field name (st + 5) 6).
  set (F2 := lfn_field name (st + 11) 2).
  assert (length F5 = 10 /\ length F6 = 12)%nat as [L5 L6] by (split; apply lfn_field_length).
  set (e := [o] ++ F5 ++ [FAT32_ATTR_LFN; 0; ck] ++ F6 ++ [0; 0] ++ F2).
  rewrite (lfn_units_spec name e 5 st 1 [] 32); [| done | lia | cbn; lia |].
  2:{ intros j Hj. apply (lfn_field_le16 name st 5 [o]); done. }
  cbn [app]. assert (Hs : forall a n, (length (slice a (Z.of_nat n) name) <= n)%nat).
  { intros a n. unfold slice. rewrite length_take. lia. }
  pose proof (Hs st 5%nat) as H5.
  rewrite (lfn_units_spec name e 6 (st + 5) 14 _ 32); [| done | lia | lia |].
  2:{ intros j Hj. unfold e.
      replace ([o] ++ F5 ++ [FAT32_ATTR_LFN; 0; ck] ++ F6 ++ [0; 0] ++ F2)
        with (([o] ++ F5 ++ [FAT32_ATTR_LFN; 0; ck]) ++ F6 ++ ([0; 0] ++ F2)) by (by rewrite <- !app_assoc).
      apply (lfn_field_le16 name (st + 5) 6); [done | | done].
      rewrite !length_app, L5. done. }
  pose proof (Hs (st + 5) 6%nat) as H6.
  rewrite (lfn_units_spec name e 2 (st + 11) 28 _ 32); [| done | lia | rewrite length_app; lia |].
  2:{ intros j Hj. unfold e.
      replace ([o] ++ F5 ++ [FAT32_ATTR_LFN; 0; ck] ++ F6 ++ [0; 0] ++ F2)
        with (([o] ++ F5 ++ [FAT32_ATTR_LFN; 0; ck] ++ F6 ++ [0; 0]) ++ F2 ++ [])
        by (by rewrite <- !app_assoc, app_nil_r).
      apply (lfn_field_le16 name (st + 11) 2); [done | | done].
      rewrite !length_app, L5, L6. done. }
  rewrite slice_app by lia. replace (st + 11) with (st + (5 + 6)) by lia.
  change (Z.of_nat 5 + Z.of_nat 6) with (5 + 6). rewrite slice_app by lia.
  change (5 + 6 + Z.of_nat 2) with 13. apply c_str_id, slice_sub.
  eapply Forall_impl; [exact Hn |]. unfold lfn_char. lia.
Qed.

Lemma written_order name short i last : (1 <= i <= 20)%nat ->
  byte_at (lfn_bytes name short (Z.of_nat i) last) 0
    = Z.of_nat i + (if last then 0x40 else 0).
Proof.
  intros Hi. unfold lfn_bytes, byte_at. cbn [app Z.to_nat lookup list_lookup default].
  do 21 (destruct i as [|i]; [first [lia | destruct last; reflexivity] |]). lia.
Qed.

Lemma written_attr name short order last :
  ent_attr (lfn_bytes name short order last) = FAT32_ATTR_LFN.
Proof.
  unfold lfn_bytes, ent_attr.
  rewrite app_assoc. pose proof (lfn_field_length name ((order - 1) * 13) 5) as L5.
  rewrite byte_at_app_r by (rewrite length_app, L5; cbn; lia).
  rewrite length_app, L5. reflexivity.
Qed.

Lemma written_length name short order last :
  length (lfn_bytes name short order last) = 32%nat.
Proof.
  unfold lfn_bytes. rewrite !length_app, !lfn_field_length. reflexivity.
Qed.

Lemma lfn_add_written name short i last lfn :
  Forall lfn_char name -> (1 <= i <= 20)%nat ->
  Z.of_nat (length name) < 256 ->
  (last = false -> lfn = drop (i * 13) name) -> (last = true -> Z.of_nat (length name) <= Z.of_nat i * 13) ->
  lfn_add lfn (lfn_bytes name short (Z.of_nat i) last) = drop ((i - 1) * 13) name.
Proof.
  intros Hn Hi Hlen Hlfn Hlast. unfold lfn_add.
  rewrite written_order, lfn_extract_written by (done || lia).
  assert (Hdrop : slice ((Z.of_nat i - 1) * 13) 13 name ++ drop (i * 13) name = drop ((i - 1) * 13) name).
  { unfold slice. replace (Z.to_nat ((Z.of_nat i - 1) * 13)) with ((i - 1) * 13)%nat by lia.
    change (Z.to_nat 13) with 13%nat. replace (i * 13)%nat with ((i - 1) * 13 + 13)%nat by lia.
    rewrite <- drop_drop. apply take_drop. }
  assert (Hdst : (if negb (Z.land (Z.of_nat i + (if last then 0x40 else 0)) 0x40 =? 0) then [] else lfn)
                 = drop (i * 13) name).
  { destruct last.
    - specialize (Hlast eq_refl). rewrite drop_ge by lia.
      do 21 (destruct i as [|i]; [first [lia | reflexivity] |]). lia.
    - rewrite Hlfn by done.
      do 21 (destruct i as [|i]; [first [lia | reflexivity] |]). lia. }
  rewrite Hdst. unfold lfn_prepend.
  assert (length (slice ((Z.of_nat i - 1) * 13) 13 name) + length (drop (i * 13) name) <= length name)%nat.
  { rewrite <- length_app, Hdrop, length_drop. lia. }
  destruct (Z.leb_spec 256 (Z.of_nat (length (slice ((Z.of_nat i - 1) * 13) 13 name))
                            + Z.of_nat (length (drop (i * 13) name)))); [lia |].
  destruct (Z.leb_spec (Z.of_nat (length (slice ((Z.of_nat i - 1) * 13) 13 name))) 0) as [Hz | Hz].
  - rewrite <- Hdrop. destruct (slice _ 13 name); [done | cbn in Hz; lia].
  - rewrite Nat2Z.id, take_ge by lia. exact Hdrop.
Qed.

Lemma fold_left_cons {X Y} (f : X -> Y -> X) y l x : fold_left f (y :: l) x = fold_left f l (f x y).
Proof. reflexivity. Qed.

(** The entries [m .. 1] of [k]: after them [lfn_buf] is the whole name. *)
Lemma lfn_add_sequence name short k m : Forall lfn_char name -> Z.of_nat (length name) < 256 ->
  Z.of_nat (length name) <= 13 * k -> k <= 20 ->
  forall lfn, (m <= Z.to_nat k)%nat -> ((m < Z.to_nat k)%nat -> lfn = drop (m * 13) name) ->
  fold_left lfn_add (map (fun i => lfn_bytes name short (Z.of_nat i) (Z.of_nat i =? k))
    (rev (seq 1 m))) lfn = match m with O => lfn | _ => name end.
Proof.
  intros Hn Hlen Hk Hk20. induction m as [|m IH]; intros lfn Hm Hlfn; [reflexivity |].
  rewrite seq_S, rev_unit, map_cons, fold_left_cons, IH; clear IH.
  - destruct m as [|m]; [| reflexivity].
    apply (lfn_add_written name short 1 (Z.of_nat 1 =? k) lfn); [exact Hn | lia | exact Hlen | |]; intros Hl.
    + apply Z.eqb_neq in Hl. apply Hlfn. lia.
    + apply Z.eqb_eq in Hl. lia.
  - lia.
  - intros _. rewrite (lfn_add_written name short (1 + m) (Z.of_nat (1 + m) =? k) lfn);
      [by replace (1 + m - 1)%nat with m by lia | exact Hn | lia | exact Hlen | |]; intros Hl.
    + apply Z.eqb_neq in Hl. apply Hlfn. lia.
    + apply Z.eqb_eq in Hl. lia.
Qed.

(** The long-name entries of [name] in disk order: the last part of the name first. *)
Definition lfn_sequence (k m : nat) (name short : list Z) : list (list Z) :=
  map (fun i => lfn_bytes name short (Z.of_nat i) (Z.of_nat i =? Z.of_nat k)) (rev (seq 1 m)).
Definition long_entry (e : list Z) : Prop :=
  length e = 32%nat /\ ent_attr e = FAT32_ATTR_LFN /\ byte_at e 0 <> 0 /\ byte_at e 0 <> 0xE5.

Lemma lfn_sequence_S k m name short : lfn_sequence k (S m) name short =
  lfn_bytes name short (Z.of_nat (S m)) (Z.of_nat (S m) =? Z.of_nat k) :: lfn_sequence k m name short.
Proof. unfold lfn_sequence. by rewrite seq_S, rev_unit. Qed.
Lemma lfn_sequence_length k m name short : length (lfn_sequence k m name short) = m.
Proof. unfold lfn_sequence. by rewrite length_map, length_rev, length_seq. Qed.
Lemma lfn_sequence_entries k m name short : (m <= 20)%nat -> Forall long_entry (lfn_sequence k m name short).
Proof.
  intros Hm. unfold lfn_sequence. rewrite Forall_forall. intros e (i & <- & Hi)%list_elem_of_In%in_map_iff.
  rewrite <- in_rev, in_seq in Hi. split_and!; [apply written_length | apply written_attr | |];
    rewrite written_order by lia; destruct (_ =? _); lia.
Qed.
Lemma concat_32 (es : list (list Z)) : Forall long_entry es -> length (concat es) = (32 * length es)%nat.
Proof. induction 1 as [|e es (He & _) _ IH]; [done |]. cbn [concat length]. rewrite length_app, IH. lia. Qed.

Lemma splice_splice (b e f : list Z) off : 0 <= off -> off + Z.of_nat (length e + length f) <= Z.of_nat (length b) ->
  splice (splice b off e) (off + Z.of_nat (length e)) f = splice b off (e ++ f).
Proof.
  intros Ho Hb. unfold splice. rewrite Z2Nat.inj_add, Nat2Z.id by lia. set (n := Z.to_nat off).
  assert (length (take n b ++ e) = n + length e)%nat as Hl by (rewrite length_app, length_take; lia).
  rewrite (app_assoc (take n b) e). rewrite <- Hl at 1. rewrite take_app_length.
  rewrite drop_app_ge by lia. rewrite Hl, drop_drop, length_app, <- !app_assoc. do 3 f_equal. f_equal. lia.
Qed.

(** [put_lfn] writes them one after the other. *)
Lemma put_lfn_ok k name short : forall m off b, (m <= 4)%nat -> 0 <= off -> off + 32 * Z.of_nat m <= Z.of_nat (length b) ->
  put_lfn m (Z.of_nat k) name short off b =
    Ret (off + 32 * Z.of_nat m, splice b off (concat (lfn_sequence k m name short))).
Proof.
  induction m as [|m IH]; intros off b Hm Ho Hb.
  { cbn. rewrite Z.add_0_r. do 2 f_equal. unfold splice. cbn. rewrite Nat.add_0_r. by rewrite take_drop. }
  cbn [put_lfn]. unfold fat_write_lfn_entries. rewrite (proj2 (Z.ltb_ge 64 _)) by lia. cbn [mbind res_bind].
  pose proof (written_length name short (Z.of_nat (S m)) (Z.of_nat (S m) =? Z.of_nat k)) as Hl.
  rewrite IH by (rewrite ?splice_length by lia; lia). f_equal. f_equal; [lia |].
  rewrite lfn_sequence_S. cbn [concat]. rewrite <- splice_splice; [by rewrite Hl | done |].
  rewrite concat_32, lfn_sequence_length by (apply lfn_sequence_entries; lia). lia.
Qed.

(** A walk over long-name entries collects them. *)
Section Collect.
Context {A R : Type} (step : A -> list Z -> Z -> res (scan A R)) (wrap : list Z -> A).
Hypothesis step_long : forall lfn e pos, long_entry e -> step (wrap lfn) e pos = Ret (Next (wrap (lfn_add lfn e))).
Lemma walk_long es : Forall long_entry es -> forall n base lfn pre post,
  walk_sector step (length es + n) (Z.of_nat (length pre)) base (wrap lfn) (pre ++ concat es ++ post) =
  walk_sector step n (Z.of_nat (length (pre ++ concat es))) base (wrap (fold_left lfn_add es lfn)) ((pre ++ concat es) ++ post).
Proof using step_long.
  induction 1 as [|e es He Hes IH]; intros n base lfn pre post.
  - cbn [concat length fold_left Nat.add app]. by rewrite app_nil_r.
  - pose proof He as (Hl & _). cbn [length Nat.add walk_sector concat fold_left].
    assert (slice (Z.of_nat (length pre)) 32 (pre ++ (e ++ concat es) ++ post) = e) as ->.
    { unfold slice. rewrite Nat2Z.id, drop_app_length, <- app_assoc. change (Z.to_nat 32) with 32%nat. rewrite <- Hl. apply take_app_length. }
    rewrite step_long by done. cbn [mbind res_bind].
    replace (Z.of_nat (length pre) + 32) with (Z.of_nat (length (pre ++ e))) by (rewrite length_app; lia).
    replace (pre ++ (e ++ concat es) ++ post) with ((pre ++ e) ++ concat es ++ post) by (by rewrite <- !app_assoc).
    rewrite IH. by rewrite <- !(app_assoc pre e).
Qed.
End Collect.
Lemma find_step_long name lfn e pos : long_entry e -> find_step name lfn e pos = Ret (Next (lfn_add lfn e)).
Proof. intros (_ & Ha & H0 & H1). unfold find_step. by rewrite (proj2 (Z.eqb_neq _ _) H0), (proj2 (Z.eqb_neq _ _) H1), Ha. Qed.
Lemma read_step_long max entries lfn e pos : long_entry e -> read_step max (lfn, entries) e pos = Ret (Next (lfn_add lfn e, entries)).
Proof. intros (_ & Ha & H0 & H1). unfold read_step. by rewrite (proj2 (Z.eqb_neq _ _) H0), (proj2 (Z.eqb_neq _ _) H1), Ha. Qed.

Lemma lfn_entries_range name : needs_lfn name = true -> 1 <= lfn_entries name /\
  Z.of_nat (length name) <= 13 * lfn_entries name < Z.of_nat (length name) + 13.
Proof.
  intros H. unfold lfn_entries. rewrite H. destruct name as [|c name]; [by vm_compute in H |]. cbn [length]. lia.
Qed.
Lemma lfn_sequence_fold name short k lfn : Forall lfn_char name -> (1 <= k <= 20)%nat -> Z.of_nat (length name) <= 13 * Z.of_nat k ->
  Z.of_nat (length name) < 256 -> fold_left lfn_add (lfn_sequence k k name short) lfn = name.
Proof.
  intros Hn Hk Hl Hl'. unfold lfn_sequence. rewrite (lfn_add_sequence name short (Z.of_nat k)) by (done || lia). by destruct k; [lia |].
Qed.

(** The new entry behind its long name. *)
Lemma new_dirent_fields name attr : 0 <= attr < 256 -> let e := new_dirent (name_to_short name) attr in
  length e = 32%nat /\ byte_at e 0 = byte_at (name_to_short name) 0 /\ ent_attr e = attr /\ ent_size e = 0.
Proof.
  intros Ha e. pose proof (name_to_short_length name) as Hl. unfold e, new_dirent, ent_attr, ent_size.
  destruct (name_to_short name) as [|c0 [|c1 [|c2 [|c3 [|c4 [|c5 [|c6 [|c7 [|c8 [|c9 [|c10 [|? ?]]]]]]]]]]]]; try done.
Qed.



(** ** Sorting *)
Definition lower_char (c : Z) : Prop := 0 < c.
Definition named (e : fs_entry) : Prop :=
  Forall lower_char (e_name e) /\ (e_is_dir e = 0 \/ e_is_dir e = 1).

Lemma to_lower_pos c : 0 < c -> 0 < to_lower c.
Proof. unfold to_lower. leb_cases; lia. Qed.

Lemma stricmp_antisym a : forall b, fs_stricmp b a = - fs_stricmp a b.
Proof.
  induction a as [|c a IH]; intros [|d b]; cbn [fs_stricmp]; try lia.
  rewrite (Z.eqb_sym (to_lower d)). destruct (Z.eqb_spec (to_lower c) (to_lower d)); cbn [negb];
    [apply IH | lia].
Qed.

Lemma stricmp_trans a : forall b c, Forall lower_char a -> Forall lower_char b -> Forall lower_char c ->
  fs_stricmp a b <= 0 -> fs_stricmp b c <= 0 ->
  fs_stricmp a c <= 0 /\ (fs_stricmp a c = 0 -> fs_stricmp a b = 0 /\ fs_stricmp b c = 0).
Proof.
  induction a as [|x a IH]; intros [|y b] [|z c] Ha Hb Hc; cbn [fs_stricmp];
    repeat match goal with H : Forall _ (_ :: _) |- _ => apply Forall_cons in H as [? ?] end;
    unfold lower_char in *; try lia.
  destruct (Z.eqb_spec (to_lower x) (to_lower y)), (Z.eqb_spec (to_lower y) (to_lower z)),
    (Z.eqb_spec (to_lower x) (to_lower z)); cbn [negb]; intros L1 L2; try lia.
  by apply IH.
Qed.

Lemma ext_of_chars p : forall ea, Forall lower_char ea -> Forall lower_char p -> Forall lower_char (ext_of ea p).
Proof.
  induction p as [|c p IH]; intros ea He Hp; cbn [ext_of]; [done |].
  apply Forall_cons in Hp as [_ Hp]. apply IH; [by destruct (c =? 46) | done].
Qed.

Lemma entry_cmp_antisym mode desc a b : named a -> named b ->
  entry_cmp mode desc b a = - entry_cmp mode desc a b.
Proof.
  intros [_ Ha] [_ Hb]. unfold entry_cmp. rewrite (Z.eqb_sym (e_is_dir b)).
  assert (forall x y, fs_extcmp y x = - fs_extcmp x y) as Hext.
  { intros x y. unfold fs_extcmp. rewrite (stricmp_antisym (ext_of x x)).
    destruct (Z.eqb_spec (fs_stricmp (ext_of x x) (ext_of y y)) 0) as [-> | E]; cbn [negb Z.opp Z.eqb].
    - apply stricmp_antisym.
    - by rewrite (proj2 (Z.eqb_neq _ _)) by lia. }
  destruct (Z.eqb_spec (e_is_dir a) (e_is_dir b)) as [E | E]; cbn [negb].
  - destruct mode.
    + rewrite (stricmp_antisym (e_name a)). by destruct desc.
    + destruct desc; leb_cases; lia.
    + rewrite (Hext (e_name a)). by destruct desc.
  - destruct desc; leb_cases; lia.
Qed.

Lemma entry_cmp_trans mode desc a b c : named a -> named b -> named c ->
  entry_cmp mode desc a b <= 0 -> entry_cmp mode desc b c <= 0 -> entry_cmp mode desc a c <= 0.
Proof.
  assert (Hasc : forall a b c, named a -> named b -> named c ->
    entry_cmp mode false a b <= 0 -> entry_cmp mode false b c <= 0 -> entry_cmp mode false a c <= 0).
  { clear. intros a b c [Ha Da] [Hb Db] [Hc Dc]. unfold entry_cmp.
    destruct (Z.eqb_spec (e_is_dir a) (e_is_dir b)), (Z.eqb_spec (e_is_dir b) (e_is_dir c)),
      (Z.eqb_spec (e_is_dir a) (e_is_dir c)); cbn [negb]; try (leb_cases; lia).
    destruct mode.
    - intros. by apply (stricmp_trans _ (e_name b)).
    - leb_cases; lia.
    - unfold fs_extcmp.
      assert (Forall lower_char (ext_of (e_name a) (e_name a)) /\
              Forall lower_char (ext_of (e_name b) (e_name b)) /\
              Forall lower_char (ext_of (e_name c) (e_name c))) as (Ea & Eb & Ec)
        by (split_and!; by apply ext_of_chars).
      set (ea := ext_of (e_name a) (e_name a)) in *. set (eb := ext_of (e_name b) (e_name b)) in *.
      set (ec := ext_of (e_name c) (e_name c)) in *. intros H1 H2.
      assert (fs_stricmp ea eb <= 0) as L1 by (revert H1; leb_cases; lia).
      assert (fs_stricmp eb ec <= 0) as L2 by (revert H2; leb_cases; lia).
      destruct (stricmp_trans ea eb ec Ea Eb Ec L1 L2) as [T1 T2]. revert H1 H2.
      destruct (Z.eqb_spec (fs_stricmp ea ec) 0) as [E | E]; cbn [negb]; [| lia].
      destruct (T2 E) as [-> ->]. cbn [Z.eqb negb]. intros. by apply (stricmp_trans _ (e_name b)). }
  intros Ha Hb Hc. destruct desc; [| by apply Hasc].
  assert (forall x y, entry_cmp mode true x y = - entry_cmp mode false x y) as Hd by done.
  rewrite !Hd, <- !entry_cmp_antisym by done. intros. by apply (Hasc c b a).
Qed.

Section Bubble.
Variables (cmp : fs_entry -> fs_entry -> Z) (P : fs_entry -> Prop).
Hypothesis cmp_antisym : forall a b, P a -> P b -> cmp b a = - cmp a b.
Hypothesis cmp_trans : forall a b c, P a -> P b -> P c -> cmp a b <= 0 -> cmp b c <= 0 -> cmp a c <= 0.
Definition le (a b : fs_entry) : Prop := cmp a b <= 0.

Lemma bubble_perm n : forall l, bubble n cmp l ≡ₚ l.
Proof.
  induction n as [|n IH]; intros [|a [|b l]]; cbn [bubble]; try done.
  destruct (0 <? cmp a b); rewrite IH; [apply Permutation_swap | done].
Qed.

(** After [n] exchanges the largest of the first [n + 1] entries is at index [n]. *)
Lemma bubble_max n : forall p q, Forall P p -> length p = S n ->
  exists p' m, bubble n cmp (p ++ q) = p' ++ m :: q /\ p ≡ₚ p' ++ [m] /\ Forall (fun x => le x m) p.
Proof using cmp_antisym cmp_trans.
  induction n as [|n IH]; intros p q Hp Hl.
  - destruct p as [|a [|? ?]]; try done. exists [], a. split_and!; [done | done |].
    constructor; [| done]. unfold le. apply Forall_cons in Hp as [Ha _].
    pose proof (cmp_antisym a a Ha Ha). lia.
  - destruct p as [|a [|b p]]; try done. cbn [app bubble].
    apply Forall_cons in Hp as [Ha Hp]. apply Forall_cons in Hp as [Hb Hp].
    destruct (Z.ltb_spec 0 (cmp a b)) as [Hgt | Hle].
    + destruct (IH (a :: p) q) as (p' & m & E & Hperm & Hmax);
        [by constructor | cbn in *; lia |].
      cbn [app] in E. rewrite E. exists (b :: p'), m. split_and!; [done | |].
      * rewrite Permutation_swap, Hperm. done.
      * apply Forall_cons in Hmax as [Ham Hmax]. constructor; [done |]. constructor; [| done].
        assert (P m) as Hm.
        { assert (Forall P (p' ++ [m])) as HF by (rewrite <- Hperm; by constructor).
          apply Forall_app in HF as [_ HF]. by apply Forall_cons in HF as [? _]. }
        apply (cmp_trans b a m); try done. rewrite (cmp_antisym a b) by done. lia.
    + destruct (IH (b :: p) q) as (p' & m & E & Hperm & Hmax);
        [by constructor | cbn in *; lia |].
      cbn [app] in E. rewrite E. exists (a :: p'), m. split_and!; [done | by rewrite Hperm |].
      apply Forall_cons in Hmax as [Hbm Hmax]. constructor; [| by constructor].
      assert (P m) as Hm.
      { assert (Forall P (p' ++ [m])) as HF by (rewrite <- Hperm; by constructor).
        apply Forall_app in HF as [_ HF]. by apply Forall_cons in HF as [? _]. }
      by apply (cmp_trans a b m).
Qed.

Lemma sort_loop_sorted n : forall p q, Forall P (p ++ q) -> length p = S n ->
  StronglySorted le q -> Forall (fun x => Forall (le x) q) p ->
  StronglySorted le (sort_loop n cmp (p ++ q)) /\ sort_loop n cmp (p ++ q) ≡ₚ p ++ q.
Proof using cmp_antisym cmp_trans.
  induction n as [|n IH]; intros p q HP Hl Hs Hpq; cbn [sort_loop].
  - destruct p as [|a [|? ?]]; try done. apply Forall_cons in Hpq as [Ha _].
    split; [by constructor | done].
  - apply Forall_app in HP as [HPp HPq].
    destruct (bubble_max (S n) p q HPp Hl) as (p' & m & E & Hperm & Hmax). rewrite E.
    assert (Forall P (p' ++ [m])) as HP' by (by rewrite <- Hperm).
    apply Forall_app in HP' as [HPp' HPm].
    assert (Hmax' : Forall (fun x => le x m) (p' ++ [m])) by (by rewrite <- Hperm).
    assert (Hpq' : Forall (fun x => Forall (le x) q) (p' ++ [m])) by (by rewrite <- Hperm).
    apply Forall_app in Hmax' as [Hmax' _]. apply Forall_app in Hpq' as [Hpq' Hmq].
    apply Forall_cons in Hmq as [Hmq _].
    destruct (IH p' (m :: q)) as [H1 H2].
    + apply Forall_app. split; [done |]. apply Forall_cons in HPm as [? _]. by constructor.
    + apply Permutation_length in Hperm. rewrite length_app in Hperm. cbn in Hperm. lia.
    + by constructor.
    + rewrite Forall_forall in *. intros x Hx. constructor; [by apply Hmax' | by apply Hpq'].
    + split; [done |]. rewrite H2, Hperm, <- app_assoc. done.
Qed.
End Bubble.

(** [fs_sort_entries] returns the same entries, ordered: directories before
    files, then by name without case, by size, or by extension and name; the whole
    order is reversed when descending. *)
Theorem fs_sort_correct entries mode descending : Forall named entries ->
  fs_sort_entries entries mode descending ≡ₚ entries /\
  StronglySorted (fun a b => entry_cmp mode descending a b <= 0)
    (fs_sort_entries entries mode descending).
Proof.
  intros Hn. unfold fs_sort_entries. destruct entries as [|e es]; [split; [done | constructor] |].
  destruct (sort_loop_sorted (entry_cmp mode descending) named
    (entry_cmp_antisym mode descending) (entry_cmp_trans mode descending)
    (length (e :: es) - 1) (e :: es) []) as [H1 H2].
  - by rewrite app_nil_r.
  - cbn. lia.
  - constructor.
  - apply Forall_forall. intros. constructor.
  - rewrite app_nil_r in H1, H2. split; [exact H2 | exact H1].
Qed.

(** ** Witnesses *)
(** ["Hello World.txt"] and ["readme.md"]. *)
Definition long0 : list Z := [72;101;108;108;111;32;87;111;114;108;100;46;116;120;116].
Definition short0 : list Z := [114;101;97;100;109;101;46;109;100].

Lemma needs_lfn_iff_witness : needs_lfn short0 = false /\ needs_lfn long0 = true /\
  c_str (short_to_name (name_to_short short0) 64) = [82;69;65;68;77;69;46;77;68].
Proof.
  destruct (needs_lfn_iff short0) as [H1 H2]; [repeat constructor; discriminate |].
  assert (is_83 short0) as Hs.
  { exists [114;101;97;100;109;101], [109;100].
    split_and!; [reflexivity | repeat constructor; discriminate | repeat constructor; discriminate
      | cbn; lia | cbn; lia]. }
  split; [exact (proj2 H1 Hs) |]. split; [vm_compute; reflexivity |].
  exact (proj1 (proj2 (H2 Hs))).
Defined.

(** In the second slot of a sector that already has an entry. *)
Definition sector0 : list Z := new_dirent [66; 32; 32; 32; 32; 32; 32; 32; 32; 32; 32] 0x20 ++ repeat 0 480.

Definition listing0 : list fs_entry :=
  [FsEntry short0 9 0; FsEntry [98] 0 1; FsEntry long0 4 0; FsEntry [65] 0 1].
Lemma fs_sort_correct_witness :
  fs_sort_entries listing0 FS_SORT_SIZE false =
    [FsEntry [98] 0 1; FsEntry [65] 0 1; FsEntry long0 4 0; FsEntry short0 9 0] /\
  fs_sort_entries listing0 FS_SORT_SIZE false ≡ₚ listing0.
Proof.
  split; [vm_compute; reflexivity |].
  apply (fs_sort_correct listing0 FS_SORT_SIZE false).
  repeat constructor; cbn; auto; unfold lower_char; lia.
Defined.
