(* ===== verification/FatTable.v ===== *)
(** * The file allocation table: entries, allocation and chains as a map *)
From S2P Require Import Prelude Interfaces Fat.

(** ** Fields *)
Lemma le32_eq l o : Forall is_u8 l ->
  le32 l o = byte_at l o + 256 * byte_at l (o + 1) + 65536 * byte_at l (o + 2)
             + 16777216 * byte_at l (o + 3).
Proof.
  intros Hl. unfold le32.
  pose proof (byte_at_u8 l o Hl) as B0. pose proof (byte_at_u8 l (o + 1) Hl) as B1.
  pose proof (byte_at_u8 l (o + 2) Hl) as B2. pose proof (byte_at_u8 l (o + 3) Hl) as B3.
  unfold is_u8 in *. rewrite (lor_shiftl _ _ 8), (lor_shiftl _ _ 16), (lor_shiftl _ _ 24) by lia.
  rewrite u32_id by (unfold is_u32; lia). lia.
Qed.

Lemma le32_range l o : Forall is_u8 l -> is_u32 (le32 l o).
Proof. intros. apply u32_range. Qed.

Definition set_bytes (v : Z) : list Z :=
  [Z.land v 0xFF; Z.land (Z.shiftr v 8) 0xFF; Z.land (Z.shiftr v 16) 0xFF; Z.land (Z.shiftr v 24) 0xFF].

Lemma land_ff x : Z.land x 0xFF = x mod 256.
Proof. change 0xFF with (Z.ones 8). by rewrite Z.land_ones by lia. Qed.

Lemma set_bytes_u8 v : Forall is_u8 (set_bytes v).
Proof.
  unfold set_bytes. rewrite !land_ff. unfold is_u8. change (2 ^ 8) with 256.
  repeat constructor; apply Z.mod_pos_bound; lia.
Qed.

Lemma le32_set l o v : Forall is_u8 l -> is_u32 v -> 0 <= o -> o + 4 <= Z.of_nat (length l) ->
  le32 (set_le32 l o v) o = v.
Proof.
  intros Hl Hv Ho Hlen. unfold set_le32. fold (set_bytes v).
  rewrite le32_eq by (by apply splice_Forall, set_bytes_u8).
  rewrite !byte_at_splice, !decide_True by (cbn; lia).
  replace (o - o) with 0 by lia. replace (o + 1 - o) with 1 by lia.
  replace (o + 2 - o) with 2 by lia. replace (o + 3 - o) with 3 by lia.
  unfold set_bytes. set (b0 := Z.land v _). set (b1 := Z.land (Z.shiftr v 8) _).
  set (b2 := Z.land (Z.shiftr v 16) _). set (b3 := Z.land (Z.shiftr v 24) _).
  change (byte_at [b0; b1; b2; b3] 0) with b0. change (byte_at [b0; b1; b2; b3] 1) with b1.
  change (byte_at [b0; b1; b2; b3] 2) with b2. change (byte_at [b0; b1; b2; b3] 3) with b3.
  unfold b0, b1, b2, b3.
  rewrite !land_ff, !Z.shiftr_div_pow2 by lia. unfold is_u32 in Hv.
  change (2 ^ 16) with (2 ^ 8 * 2 ^ 8). change (2 ^ 24) with (2 ^ 8 * 2 ^ 8 * 2 ^ 8).
  rewrite <- !Z.div_div by lia. change (2 ^ 8) with 256. change (2 ^ 32) with 4294967296 in Hv. lia.
Qed.

Lemma le32_set_other l o o' v : Forall is_u8 l -> 0 <= o -> o + 4 <= Z.of_nat (length l) ->
  0 <= o' -> o' + 4 <= o \/ o + 4 <= o' -> le32 (set_le32 l o v) o' = le32 l o'.
Proof.
  intros Hl Ho Hlen Ho' Hd. unfold set_le32. fold (set_bytes v). unfold le32.
  by rewrite !byte_at_splice, !decide_False by (cbn; lia).
Qed.

(** ** Volumes *)
Record vol_ok (f : fat32_fs) (cap : Z) : Prop := {
  v_bps : bytes_per_sector f = 512;
  v_spc : 1 <= sectors_per_cluster f <= 255;
  v_count : 1 <= fat_count f <= 255;
  v_size : 1 <= fat_size f;
  v_start : 0 <= fat_start_lba f;
  v_data : data_start_lba f = fat_start_lba f + fat_count f * fat_size f;
  v_clusters : 0 <= total_clusters f < 0x0FFFFFF0;
  v_fits : total_clusters f + 2 <= fat_size f * 128 <= 2 ^ 28;
  v_cap : data_start_lba f + total_clusters f * sectors_per_cluster f <= cap <= 2 ^ 32;
}.

Section Table.
Context {D : Type} `{!BlockDev D}.
Implicit Types s : fstate D.

Definition view s : Z -> list Z := bd_view (dev s).
Record st_ok s : Prop := {
  s_dev : bd_ok (dev s);
  s_vol : vol_ok (fs s) (bd_cap (dev s));
  s_len : length (sector_buf s) = 512%nat;
  s_bytes : Forall is_u8 (sector_buf s);
}.

(** [s'] has the volume and the contents of [s]; only [sector_buf] may differ. *)
Definition same_disk s s' : Prop :=
  st_ok s' /\ fs s' = fs s /\ bd_cap (dev s') = bd_cap (dev s) /\ forall x, view s' x = view s x.

Lemma same_disk_trans s1 s2 s3 : same_disk s1 s2 -> same_disk s2 s3 -> same_disk s1 s3.
Proof.
  intros (_ & F1 & C1 & V1) (O2 & F2 & C2 & V2). split_and!; [done | congruence.. |].
  intros x. by rewrite V2.
Qed.

Lemma blk_read_spec s lba : st_ok s -> 0 <= lba < bd_cap (dev s) ->
  exists s', blk_read lba s = Ret (true, s') /\ same_disk s s' /\ sector_buf s' = view s lba.
Proof.
  intros [Hd Hv Hl Hb] Hlba. unfold blk_read.
  destruct (bd_read_ok lba (dev s) Hd Hlba) as (d' & -> & Hd' & Hc & Hview).
  eexists. split; [reflexivity |]. split; [| done]. destruct (bd_sector (dev s) lba Hd).
  split_and!; [split; cbn; rewrite ?Hc; done | done | done | done].
Qed.

Lemma blk_write_spec s lba : st_ok s -> 0 <= lba < bd_cap (dev s) ->
  exists s', blk_write lba s = Ret (true, s') /\ st_ok s' /\ fs s' = fs s /\
    bd_cap (dev s') = bd_cap (dev s) /\ sector_buf s' = sector_buf s /\
    forall x, view s' x = if decide (x = lba) then sector_buf s else view s x.
Proof.
  intros [Hd Hv Hl Hb] Hlba. unfold blk_write.
  destruct (bd_write_ok lba (sector_buf s) (dev s) Hd Hlba Hl Hb) as (d' & -> & Hd' & Hc & Hview).
  eexists. split; [reflexivity |]. split_and!; try done. split; cbn; rewrite ?Hc; done.
Qed.

(** ** The table as a function *)
Definition fat_sector (f : fat32_fs) (copy c : Z) : Z := fat_start_lba f + c / 128 + copy * fat_size f.
Definition fat_raw (f : fat32_fs) (v : Z -> list Z) (copy c : Z) : Z :=
  le32 (v (fat_sector f copy c)) (c mod 128 * 4).
Definition fat_entry s (c : Z) : Z := Z.land (fat_raw (fs s) (view s) 0 c) 0x0FFFFFFF.
Definition fat_index s (c : Z) : Prop := 0 <= c < fat_size (fs s) * 128.

Lemma fat_position f c cap : vol_ok f cap -> 0 <= c < fat_size f * 128 ->
  u32 (c * 4) / bytes_per_sector f = c / 128 /\ u32 (c * 4) mod bytes_per_sector f = c mod 128 * 4 /\
  0 <= c / 128 < fat_size f.
Proof.
  intros Hv Hc. destruct Hv. rewrite v_bps0, u32_id by (unfold is_u32; lia). lia.
Qed.

Lemma fat_sector_range f cap copy c : vol_ok f cap -> 0 <= c < fat_size f * 128 ->
  0 <= copy < fat_count f -> fat_start_lba f <= fat_sector f copy c < data_start_lba f /\
  0 <= fat_sector f copy c < 2 ^ 32 /\ fat_sector f copy c < cap.
Proof.
  intros Hv Hc Hcp. destruct (fat_position f c cap Hv Hc) as (_ & _ & Hd). destruct Hv.
  unfold fat_sector. assert (0 <= copy * fat_size f <= (fat_count f - 1) * fat_size f) by nia.
  assert (0 <= total_clusters f * sectors_per_cluster f) by nia. lia.
Qed.

Lemma fat_get_spec s c : st_ok s -> fat_index s c ->
  exists s', fat_get_entry c s = Ret (fat_entry s c, s') /\ same_disk s s'.
Proof.
  intros Hs Hc. pose proof (s_vol s Hs) as Hv.
  destruct (fat_position _ _ _ Hv Hc) as (P1 & P2 & _).
  destruct (fat_sector_range _ _ 0 c Hv Hc) as (_ & R1 & R2); [destruct Hv; lia |].
  unfold fat_get_entry, fat_read_sector. rewrite (st_bind_ret get_fs _ s (fs s) s eq_refl).
  rewrite P1, P2.
  assert (u32 (fat_start_lba (fs s) + c / 128) = fat_sector (fs s) 0 c) as ->.
  { unfold fat_sector in *. rewrite u32_id by (unfold is_u32; lia). lia. }
  destruct (blk_read_spec s (fat_sector (fs s) 0 c) Hs) as (s' & Hr & Hsame & Hbuf); [lia |].
  rewrite (st_bind_ret _ _ _ _ _ Hr). cbn [negb].
  rewrite (st_bind_ret get_buf _ s' (sector_buf s') s' eq_refl). rewrite Hbuf.
  exists s'. split; [reflexivity | done].
Qed.

(** [s'] is [s] with entry [c] of every copy of the FAT set to [v]. *)
Definition fat_updated s (c v : Z) s' : Prop :=
  st_ok s' /\ fs s' = fs s /\ bd_cap (dev s') = bd_cap (dev s) /\
  (forall copy c', 0 <= copy < fat_count (fs s) -> fat_index s c' ->
     fat_raw (fs s) (view s') copy c' = if decide (c' = c) then v else fat_raw (fs s) (view s) copy c') /\
  (forall x, x < fat_start_lba (fs s) \/ data_start_lba (fs s) <= x -> view s' x = view s x).

Lemma fat_set_loop_spec n : forall copy s c v, st_ok s -> fat_index s c -> is_u32 v ->
  0 <= copy -> copy + Z.of_nat n <= fat_count (fs s) ->
  exists s', fat_set_loop n copy c v s = Ret (true, s') /\ st_ok s' /\ fs s' = fs s /\
    bd_cap (dev s') = bd_cap (dev s) /\
    (forall k c', 0 <= k < fat_count (fs s) -> fat_index s c' ->
       fat_raw (fs s) (view s') k c' =
         if decide (copy <= k < copy + Z.of_nat n /\ c' = c) then v else fat_raw (fs s) (view s) k c') /\
    (forall x, x < fat_start_lba (fs s) \/ data_start_lba (fs s) <= x -> view s' x = view s x).
Proof.
  induction n as [|n IH]; intros copy s c v Hs Hc Hvv Hcp Hle; cbn [fat_set_loop].
  - exists s. split_and!; try done. intros k c' _ _. by rewrite decide_False by lia.
  - pose proof (s_vol s Hs) as Hv. destruct (fat_position _ _ _ Hv Hc) as (P1 & P2 & P3).
    destruct (fat_sector_range _ _ copy c Hv Hc) as (R0 & R1 & R2); [lia |].
    rewrite (st_bind_ret get_fs _ s (fs s) s eq_refl). rewrite P1, P2.
    assert (u32 (fat_start_lba (fs s) + c / 128 + copy * fat_size (fs s)) = fat_sector (fs s) copy c) as ->
      by (unfold fat_sector in *; by rewrite u32_id).
    destruct (blk_read_spec s (fat_sector (fs s) copy c) Hs) as (s1 & Hr & (Hs1 & Hf1 & Hc1 & Hv1) & Hbuf); [lia |].
    unfold fat_read_sector, fat_write_sector.
    rewrite (st_bind_ret _ _ _ _ _ Hr). cbn [negb].
    rewrite (st_bind_ret get_buf _ s1 (sector_buf s1) s1 eq_refl).
    set (b := set_le32 (sector_buf s1) (c mod 128 * 4) v).
    set (s2 := FState (fs s1) b (dev s1)).
    rewrite (st_bind_ret (set_buf b) _ s1 () s2 eq_refl).
    assert (0 <= c mod 128 * 4 /\ c mod 128 * 4 + 4 <= 512) as Hoff by lia.
    assert (st_ok s2) as Hs2.
    { destruct Hs1 as [Q1 Q2 Q3 Q4]. split; cbn; [done | done | |].
      - unfold b, set_le32. rewrite splice_length; [done | lia | cbn; lia].
      - apply splice_Forall; [done | apply set_bytes_u8]. }
    destruct (blk_write_spec s2 (fat_sector (fs s) copy c) Hs2) as (s3 & Hw & Hs3 & Hf3 & Hc3 & _ & Hv3);
      [cbn; rewrite Hc1; lia |].
    rewrite (st_bind_ret _ _ _ _ _ Hw). cbn [negb].
    assert (fs s3 = fs s) as Hf by (rewrite Hf3; exact Hf1).
    destruct (IH (copy + 1) s3 c v Hs3) as (s' & -> & Hs' & Hf' & Hc' & Hraw & Hout);
      [unfold fat_index; by rewrite Hf | done | lia | rewrite Hf; lia |].
    exists s'. rewrite Hf in *. split_and!; [done | done | done | | |].
    + rewrite Hc', Hc3. exact Hc1.
    + intros k c' Hk Hc'i. rewrite Hraw; [| done | unfold fat_index in *; by rewrite Hf].
      unfold fat_raw. rewrite Hv3.
      assert (sector_buf s2 = b) as -> by done.
      assert (view s2 (fat_sector (fs s) k c') = view s (fat_sector (fs s) k c')) as -> by apply Hv1.
      unfold b. rewrite Hbuf.
      destruct (bd_sector (dev s) (fat_sector (fs s) copy c) (s_dev s Hs)) as [Hl512 Hby].
      destruct (decide (k = copy)) as [-> | Hk'].
      * rewrite (decide_False (P := copy + 1 <= copy < _ /\ _)) by lia.
        destruct (decide (c' = c)) as [-> | Hcc].
        -- rewrite !decide_True by (done || lia). apply le32_set; [done | done | lia | unfold view; lia].
        -- rewrite (decide_False (P := copy <= copy < _ /\ _)) by lia.
           case_decide as Hsec; [| done].
           rewrite le32_set_other; [by rewrite Hsec | done | lia | unfold view; lia | |];
             [lia |]. unfold fat_sector in Hsec. unfold fat_index in *. lia.
      * rewrite (decide_False (P := fat_sector (fs s) k c' = _)).
        2:{ unfold fat_sector. unfold fat_index in *.
            assert (0 <= c' / 128 < fat_size (fs s)) by (destruct Hv; lia).
            intros He. assert (k * fat_size (fs s) + c' / 128 = copy * fat_size (fs s) + c / 128) as He' by lia.
            destruct (Z.lt_trichotomy k copy) as [|[|]]; [| done |]; nia. }
        destruct (decide (c' = c)) as [-> | Hcc].
        -- repeat case_decide; try done; lia.
        -- rewrite !decide_False by lia. done.
    + intros x Hx. rewrite Hout by done. rewrite Hv3, decide_False by lia. apply Hv1.
Qed.

Lemma fat_set_spec s c v : st_ok s -> fat_index s c -> is_u32 v ->
  exists s', fat_set_entry c v s = Ret (true, s') /\ fat_updated s c v s'.
Proof.
  intros Hs Hc Hv. pose proof (s_vol s Hs) as [_ _ Hcnt _ _ _ _ _ _].
  unfold fat_set_entry. rewrite (st_bind_ret get_fs _ s (fs s) s eq_refl).
  destruct (fat_set_loop_spec (Z.to_nat (fat_count (fs s))) 0 s c v Hs Hc Hv)
    as (s' & -> & Hs' & Hf & Hcap & Hraw & Hout); [lia | lia |].
  exists s'. split; [done |]. split_and!; try done.
  intros k c' Hk Hc'. rewrite Hraw by done. rewrite Z2Nat.id by lia.
  repeat case_decide; try done; lia.
Qed.

(** The table changes in one place. *)
Lemma fat_updated_entry s c v s' : fat_updated s c v s' -> 1 <= fat_count (fs s) ->
  forall c', fat_index s c' ->
    fat_entry s' c' = if decide (c' = c) then Z.land v 0x0FFFFFFF else fat_entry s c'.
Proof.
  intros (_ & Hf & _ & Hraw & _) Hcnt c' Hc'. unfold fat_entry. rewrite Hf, Hraw by (done || lia).
  by case_decide.
Qed.

Lemma fat_entry_same s s' c : same_disk s s' -> fat_entry s' c = fat_entry s c.
Proof. intros (_ & Hf & _ & Hv). unfold fat_entry, fat_raw. by rewrite Hf, Hv. Qed.

(** Entry [c] is as before in every copy of the FAT. *)
Definition same_entry s s' (c : Z) : Prop := forall copy, 0 <= copy < fat_count (fs s) ->
  fat_raw (fs s) (view s') copy c = fat_raw (fs s) (view s) copy c.
Lemma same_entry_get s s' c : same_entry s s' c -> fs s' = fs s -> 1 <= fat_count (fs s) -> fat_entry s' c = fat_entry s c.
Proof. intros H Hf Hc. unfold fat_entry. by rewrite Hf, H by lia. Qed.
Lemma same_entry_trans s1 s2 s3 c : fs s2 = fs s1 -> same_entry s1 s2 c -> same_entry s2 s3 c -> same_entry s1 s3 c.
Proof. intros Hf H1 H2 copy Hc. unfold same_entry in *. rewrite Hf in H2. by rewrite H2, H1. Qed.
Lemma same_disk_same s s' c : same_disk s s' -> same_entry s s' c.
Proof. intros (_ & _ & _ & Hv) copy _. unfold fat_raw. by rewrite Hv. Qed.
Lemma fat_updated_other s c v s' c' : fat_updated s c v s' -> fat_index s c' -> c' <> c -> same_entry s s' c'.
Proof. intros (_ & _ & _ & H & _) Hi Hne copy Hc. rewrite H by done. by rewrite decide_False. Qed.

Lemma fat_updated_same s s1 c v s' : same_disk s s1 -> fat_updated s1 c v s' -> fat_updated s c v s'.
Proof.
  intros (_ & Hf & Hc & Hv) (H1 & H2 & H3 & H4 & H5). unfold fat_updated, fat_index, fat_raw in *.
  rewrite Hf in *. split_and!; [done | done | congruence | |].
  - intros copy c' Hcp Hc'. rewrite H4 by done. by rewrite Hv.
  - intros x Hx. by rewrite H5, Hv.
Qed.
End Table.

(** ** Allocating and freeing clusters *)
Section Alloc.
Context {D : Type} `{!BlockDev D}.
Implicit Types s : fstate D.

(** The chain from [start]: the clusters [cs], then a number that is not a cluster. *)
Fixpoint chain s (start : Z) (cs : list Z) : Prop :=
  match cs with
  | [] => in_chain start = false
  | c :: cs => c = start /\ in_chain c = true /\ fat_index s c /\ chain s (fat_entry s c) cs
  end.

Lemma chain_index s cs : forall start, chain s start cs ->
  Forall (fun c => 0 <= c < fat_size (fs s) * 128) cs.
Proof.
  induction cs as [|c cs IH]; intros start; [done |]. intros (_ & _ & Hi & Hc).
  constructor; [done | by eapply IH].
Qed.

Lemma chain_fuel_enough s start cs : chain s start cs -> NoDup cs ->
  (length cs < chain_fuel (fs s))%nat.
Proof.
  intros Hc Hnd. pose proof (nodup_bounded_length cs _ Hnd (chain_index s cs start Hc)).
  unfold chain_fuel. lia.
Qed.

(** A chain is untouched by a change that leaves its entries alone. *)
Lemma chain_ext s s' cs : forall start, fs s' = fs s ->
  (forall c, c ∈ cs -> fat_entry s' c = fat_entry s c) -> chain s start cs -> chain s' start cs.
Proof.
  induction cs as [|c cs IH]; intros start Hf He; cbn [chain]; [done |].
  intros (-> & Hin & Hi & Hc). split_and!; [done | done | unfold fat_index in *; by rewrite Hf |].
  rewrite He by (by left). apply IH; [done | intros c' Hc'; apply He; by right | done].
Qed.

(** [s'] has the table of [s] with the clusters of [cs] free, and the same data. *)
Definition freed s (cs : list Z) s' : Prop :=
  st_ok s' /\ fs s' = fs s /\ bd_cap (dev s') = bd_cap (dev s) /\
  (forall c, fat_index s c -> fat_entry s' c = if decide (c ∈ cs) then 0 else fat_entry s c) /\
  (forall x, x < fat_start_lba (fs s) \/ data_start_lba (fs s) <= x -> view s' x = view s x) /\
  (forall c, fat_index s c -> c ∉ cs -> same_entry s s' c).

Lemma fat_free_loop_spec cs : forall fuel start s, st_ok s -> chain s start cs -> NoDup cs ->
  (length cs <= fuel)%nat -> exists s', fat_free_loop fuel start s = Ret (true, s') /\ freed s cs s'.
Proof.
  induction cs as [|c cs IH]; intros fuel start s Hs Hc Hnd Hf.
  - cbn [chain] in Hc. exists s. split.
    + destruct fuel; cbn [fat_free_loop]; by rewrite Hc.
    + split_and!; try done.
  - destruct Hc as (-> & Hin & Hi & Hc). apply NoDup_cons in Hnd as [Hni Hnd].
    destruct fuel as [|fuel]; [cbn in Hf; lia |]. cbn [fat_free_loop]. rewrite Hin. cbn [negb].
    destruct (fat_get_spec s start Hs Hi) as (s1 & Hget & Hsame).
    rewrite (st_bind_ret _ _ _ _ _ Hget).
    pose proof Hsame as (Hs1 & Hf1 & Hc1 & Hv1).
    destruct (fat_set_spec s1 start 0 Hs1) as (s2 & Hset & Hup);
      [unfold fat_index; by rewrite Hf1 | unfold is_u32; lia |].
    rewrite (st_bind_ret _ _ _ _ _ Hset). cbn [negb].
    apply (fat_updated_same s) in Hup; [| done].
    pose proof (v_count _ _ (s_vol s Hs)) as Hcnt.
    pose proof (fat_updated_entry s start 0 s2 Hup ltac:(lia)) as He.
    pose proof (fun c' => fat_updated_other s start 0 s2 c' Hup) as Ho.
    destruct Hup as (Hs2 & Hf2 & Hc2 & _ & Hv2).
    destruct (IH fuel (fat_entry s start) s2 Hs2) as (s' & -> & Hs' & Hf' & Hc' & He' & Hv' & Ho').
    + apply (chain_ext s); [done | | done]. intros c' Hc''.
      pose proof (proj1 (Forall_forall _ _) (chain_index s cs _ Hc) c' Hc'') as Hi'.
      rewrite He by done. rewrite decide_False by congruence. done.
    + done.
    + cbn in Hf. lia.
    + exists s'. split; [done |]. unfold freed. rewrite Hf2 in *.
      split_and!; [done | congruence | congruence | | intros x Hx; by rewrite Hv', Hv2 |].
      2:{ intros c' Hi' [Hn1 Hn2]%not_elem_of_cons. apply (same_entry_trans s s2); [done | by apply Ho |].
          apply Ho'; [unfold fat_index in *; by rewrite Hf2 | done]. }
      intros c' Hi'. unfold fat_index in *. rewrite He' by (by rewrite Hf2). rewrite He by done.
      destruct (decide (c' ∈ cs)).
      * rewrite decide_True; [done | by right].
      * destruct (decide (c' = start)) as [-> | Hne].
        -- rewrite decide_True by (by left). done.
        -- rewrite decide_False; [done |]. by intros [?|?]%elem_of_cons.
Qed.

(** The search for a free cluster, from [c] on. *)
Lemma fat_alloc_loop_spec n : forall c s, st_ok s -> 0 <= c ->
  c + Z.of_nat n <= fat_size (fs s) * 128 ->
  exists r s', fat_alloc_loop n c s = Ret (r, s') /\
    match r with
    | Some k => c <= k < c + Z.of_nat n /\ fat_entry s k = 0 /\
        (forall k', c <= k' < k -> fat_entry s k' <> 0) /\ fat_updated s k 0x0FFFFFFF s'
    | None => same_disk s s' /\ forall k, c <= k < c + Z.of_nat n -> fat_entry s k <> 0
    end.
Proof.
  induction n as [|n IH]; intros c s Hs Hc Hle; cbn [fat_alloc_loop].
  - exists None, s. split_and!; try done. intros; lia.
  - assert (fat_index s c) as Hi by (unfold fat_index; lia).
    destruct (fat_get_spec s c Hs Hi) as (s1 & Hget & Hsame).
    rewrite (st_bind_ret _ _ _ _ _ Hget). pose proof Hsame as (Hs1 & Hf1 & Hc1 & Hv1).
    destruct (Z.eqb_spec (fat_entry s c) 0) as [Hz | Hnz].
    + destruct (fat_set_spec s1 c 0x0FFFFFFF Hs1) as (s2 & Hset & Hup);
        [unfold fat_index; by rewrite Hf1 | unfold is_u32; lia |].
      rewrite (st_bind_ret _ _ _ _ _ Hset). exists (Some c), s2. split; [done |].
      split_and!; [lia | lia | done | intros; lia | by apply (fat_updated_same s s1)].
    + destruct (IH (c + 1) s1 Hs1) as (r & s' & -> & Hr); [lia | rewrite Hf1; lia |].
      exists r, s'. split; [done |]. destruct r as [k|].
      * destruct Hr as (Hk & Hz & Hno & Hup). rewrite (fat_entry_same s s1) in Hz by done.
        split_and!; [lia | lia | done | | by apply (fat_updated_same s s1)].
        intros k' Hk'. destruct (decide (k' = c)) as [-> | ?]; [done |].
        rewrite <- (fat_entry_same s s1) by done. apply Hno. lia.
      * destruct Hr as [Hsame' Hno]. split; [by eapply same_disk_trans |].
        intros k Hk. destruct (decide (k = c)) as [-> | ?]; [done |].
        rewrite <- (fat_entry_same s s1) by done. apply Hno. lia.
Qed.

Lemma fat_alloc_spec s : st_ok s -> exists r s', fat_alloc_cluster s = Ret (r, s') /\
    match r with
    | Some k => 2 <= k < total_clusters (fs s) /\ fat_entry s k = 0 /\
        (forall k', 2 <= k' < k -> fat_entry s k' <> 0) /\ fat_updated s k 0x0FFFFFFF s'
    | None => same_disk s s' /\ forall k, 2 <= k < total_clusters (fs s) -> fat_entry s k <> 0
    end.
Proof.
  intros Hs. pose proof (s_vol s Hs) as [_ _ _ _ _ _ Hcl Hfit _].
  unfold fat_alloc_cluster. rewrite (st_bind_ret get_fs _ s (fs s) s eq_refl).
  destruct (fat_alloc_loop_spec (Z.to_nat (total_clusters (fs s) - 2)) 2 s Hs) as (r & s' & -> & Hr);
    [lia | lia |].
  exists r, s'. split; [done |]. destruct r as [k|].
  - destruct Hr as (Hk & Hz & Hno & Hup). split_and!; [lia | lia | done | done | done].
  - destruct Hr as [Hsame Hno]. split; [done |]. intros k Hk. apply Hno. lia.
Qed.
End Alloc.
