(* ===== verification/FatData.v ===== *)
(** * File contents: the loops over a chain's sectors *)
From S2P Require Import Prelude Interfaces Fat FatDir FatFile FatTable.

(** ** The loops over a list of sector contents *)
Fixpoint read_all (secs : list (list Z)) (size offset : Z) (data : list (option Z))
    : Z * list (option Z) :=
  match secs with
  | [] => (offset, data)
  | b :: secs =>
      if negb (offset <? size) then (offset, data) else
      let to_copy := if size <? offset + 512 then size - offset else 512 in
      read_all secs size (offset + to_copy) (splice data offset (Some <$> slice 0 to_copy b))
  end.

Lemma read_all_stop secs size offset data : size <= offset -> read_all secs size offset data = (offset, data).
Proof. intros H. destruct secs; cbn [read_all]; [done |]. by rewrite (proj2 (Z.ltb_ge _ _)). Qed.

Lemma read_all_app l1 : forall l2 size offset data,
  read_all (l1 ++ l2) size offset data =
    let '(o, d) := read_all l1 size offset data in read_all l2 size o d.
Proof.
  induction l1 as [|b l1 IH]; intros l2 size offset data; cbn [app read_all]; [done |].
  destruct (Z.ltb_spec offset size); cbn [negb]; [apply IH |]. by rewrite read_all_stop.
Qed.

Definition sectors_ok (secs : list (list Z)) : Prop := Forall (fun b => length b = 512%nat) secs.

Lemma concat_length secs : sectors_ok secs -> Z.of_nat (length (concat secs)) = 512 * Z.of_nat (length secs).
Proof.
  induction 1 as [|b secs Hb _ IH]; [done |]. cbn [concat]. rewrite length_app. cbn [length]. lia.
Qed.

(** Reading a whole file leaves exactly its bytes in front of the buffer. *)
Lemma read_all_spec secs : forall size offset done_ tail, sectors_ok secs ->
  Z.of_nat (length done_) = offset -> 0 <= offset <= size ->
  Z.of_nat (length tail) = size - offset + 1 ->
  size - offset <= 512 * Z.of_nat (length secs) ->
  (read_all secs size offset ((Some <$> done_) ++ tail)).2 =
    (Some <$> done_ ++ take (Z.to_nat (size - offset)) (concat secs)) ++ drop (Z.to_nat (size - offset)) tail.
Proof.
  induction secs as [|b secs IH]; intros size offset done_ tail Hok Hd Ho Ht Hsz; cbn [read_all concat].
  - cbn in Hsz. replace (size - offset) with 0 by lia. cbn. by rewrite app_nil_r.
  - apply Forall_cons in Hok as [Hb Hok].
    destruct (Z.ltb_spec offset size) as [Hlt | Hge]; cbn [negb].
    2:{ cbn [snd]. replace (size - offset) with 0 by lia. cbn. by rewrite app_nil_r. }
    set (n := if size <? offset + 512 then size - offset else 512).
    assert (Hn : 0 < n <= 512 /\ n <= size - offset /\ (n = 512 \/ n = size - offset))
      by (unfold n; destruct (Z.ltb_spec size (offset + 512)); lia).
    assert (splice ((Some <$> done_) ++ tail) offset (Some <$> slice 0 n b) =
      (Some <$> done_ ++ take (Z.to_nat n) b) ++ drop (Z.to_nat n) tail) as ->.
    { unfold splice, slice. change (Z.to_nat 0) with 0%nat. rewrite drop_0.
      assert (length (Some <$> done_) = Z.to_nat offset) as Hl by (rewrite length_fmap; lia).
      rewrite take_app_length' by done. rewrite fmap_app, <- app_assoc. f_equal. f_equal.
      rewrite length_fmap, length_take.
      rewrite drop_app_ge by lia. f_equal. lia. }
    rewrite IH; [| done | | lia | |].
    + replace (size - (offset + n)) with (size - offset - n) by lia.
      rewrite drop_drop, <- app_assoc. f_equal; [| f_equal; lia]. f_equal. f_equal.
      rewrite take_app.
      destruct (proj2 (proj2 Hn)) as [Hn512 | Hlast].
      * rewrite Hn512. rewrite (take_ge b (Z.to_nat 512)), (take_ge b (Z.to_nat (size - offset))) by lia. f_equal.
        rewrite Hb. f_equal. lia.
      * rewrite Hlast. replace (size - offset - (size - offset)) with 0 by lia.
        replace (Z.to_nat (size - offset) - length b)%nat with 0%nat by lia.
        cbn. by rewrite !take_0.
    + rewrite length_app, length_take. lia.
    + rewrite length_drop. lia.
    + cbn [length] in Hsz. lia.
Qed.

(** *** Writing *)
Definition write_start (offset pos : Z) : Z := if pos <? offset then offset - pos else 0.
Definition write_end (offset len pos : Z) : Z :=
  if offset + len <? pos + 512 then offset + len - pos else 512.
Definition write_one (b : list Z) (offset len pos : Z) (data : list Z) : list Z :=
  let ws := write_start offset pos in
  let we := write_end offset len pos in
  if ws <? we then splice b ws (slice (pos + ws - offset) (we - ws) data) else b.

Fixpoint write_all (secs : list (list Z)) (offset len pos : Z) (data : list Z) : list (list Z) * Z :=
  match secs with
  | [] => ([], pos)
  | b :: secs =>
      if negb (pos <? offset + len) then (b :: secs, pos) else
      let (r, p) := write_all secs offset len (pos + 512) data in
      (write_one b offset len pos data :: r, p)
  end.

Lemma slice_length {A} off n (l : list A) : 0 <= off -> 0 <= n -> off + n <= Z.of_nat (length l) ->
  Z.of_nat (length (slice off n l)) = n.
Proof. intros. unfold slice. rewrite length_take, length_drop. lia. Qed.

Lemma write_range offset len pos : 0 <= offset -> 0 <= pos -> pos < offset + len ->
  0 <= write_start offset pos /\ write_end offset len pos <= 512 /\
  0 <= pos + write_start offset pos - offset /\
  pos + write_end offset len pos <= offset + len.
Proof.
  intros. unfold write_start, write_end.
  destruct (Z.ltb_spec pos offset), (Z.ltb_spec (offset + len) (pos + 512)); lia.
Qed.

Lemma write_one_lookup b offset len pos data i : length b = 512%nat -> Z.of_nat (length data) = len ->
  0 <= offset -> 0 <= pos -> pos < offset + len -> (i < 512)%nat ->
  write_one b offset len pos data !! i =
    if decide (offset <= pos + Z.of_nat i < offset + len)
    then data !! Z.to_nat (pos + Z.of_nat i - offset) else b !! i.
Proof.
  intros Hb Hd Ho Hp Hlt Hi. destruct (write_range offset len pos Ho Hp Hlt) as (R1 & R2 & R3 & R4).
  unfold write_one. destruct (Z.ltb_spec (write_start offset pos) (write_end offset len pos)) as [Hw | Hw].
  - assert (Z.of_nat (length (slice (pos + write_start offset pos - offset)
      (write_end offset len pos - write_start offset pos) data)) =
      write_end offset len pos - write_start offset pos) as Hl by (apply slice_length; lia).
    rewrite splice_lookup by lia. rewrite Hl.
    case_decide as H1; case_decide as H2.
    + unfold slice. rewrite lookup_take_lt, lookup_drop by lia. f_equal. lia.
    + exfalso. revert H1 H2. unfold write_start, write_end.
      destruct (Z.ltb_spec pos offset), (Z.ltb_spec (offset + len) (pos + 512)); lia.
    + exfalso. revert H1 H2. unfold write_start, write_end.
      destruct (Z.ltb_spec pos offset), (Z.ltb_spec (offset + len) (pos + 512)); lia.
    + done.
  - case_decide as H2; [| done]. exfalso. revert Hw H2. unfold write_start, write_end.
    destruct (Z.ltb_spec pos offset), (Z.ltb_spec (offset + len) (pos + 512)); lia.
Qed.

Lemma write_one_length b offset len pos data : length b = 512%nat -> Z.of_nat (length data) = len ->
  0 <= offset -> 0 <= pos -> pos < offset + len -> length (write_one b offset len pos data) = 512%nat.
Proof.
  intros Hb Hd Ho Hp Hlt. destruct (write_range offset len pos Ho Hp Hlt) as (R1 & R2 & R3 & R4).
  unfold write_one. destruct (Z.ltb_spec (write_start offset pos) (write_end offset len pos)) as [Hw | Hw];
    [| done].
  rewrite splice_length; [done | lia |]. rewrite slice_length by lia. lia.
Qed.

Lemma write_one_u8 b offset len pos data : Forall is_u8 b -> Forall is_u8 data ->
  Forall is_u8 (write_one b offset len pos data).
Proof.
  intros. unfold write_one. destruct (_ <? _); [| done].
  apply splice_Forall; [done | by apply Forall_take, Forall_drop].
Qed.

Lemma write_all_stop secs offset len pos data : offset + len <= pos ->
  write_all secs offset len pos data = (secs, pos).
Proof. intros H. destruct secs; cbn [write_all]; [done |]. by rewrite (proj2 (Z.ltb_ge _ _)). Qed.

Lemma write_all_app l1 : forall l2 offset len pos data,
  write_all (l1 ++ l2) offset len pos data =
    let '(r1, p1) := write_all l1 offset len pos data in
    let '(r2, p2) := write_all l2 offset len p1 data in (r1 ++ r2, p2).
Proof.
  induction l1 as [|b l1 IH]; intros l2 offset len pos data; cbn [app write_all].
  - by destruct (write_all l2 offset len pos data).
  - destruct (Z.ltb_spec pos (offset + len)); cbn [negb].
    + rewrite IH. destruct (write_all l1 offset len (pos + 512) data) as [r1 p1].
      by destruct (write_all l2 offset len p1 data).
    + by rewrite write_all_stop.
Qed.

(** After the write, the bytes of the file from [offset] on are [data]. *)
Lemma write_all_lookup secs : forall offset len pos data, sectors_ok secs ->
  Z.of_nat (length data) = len -> 0 <= offset -> 0 <= pos ->
  sectors_ok (write_all secs offset len pos data).1 /\
  length (write_all secs offset len pos data).1 = length secs /\
  forall i, (i < 512 * length secs)%nat ->
    concat (write_all secs offset len pos data).1 !! i =
      if decide (offset <= pos + Z.of_nat i < offset + len)
      then data !! Z.to_nat (pos + Z.of_nat i - offset) else concat secs !! i.
Proof.
  induction secs as [|b secs IH]; intros offset len pos data Hok Hd Ho Hp; cbn [write_all].
  - split_and!; try done. intros i Hi. cbn in Hi. lia.
  - pose proof Hok as [Hb Hok']%Forall_cons.
    destruct (Z.ltb_spec pos (offset + len)) as [Hlt | Hge]; cbn [negb].
    2:{ split_and!; try done. intros i Hi. by rewrite decide_False by lia. }
    destruct (IH offset len (pos + 512) data Hok' Hd Ho ltac:(lia)) as (I1 & I2 & I3).
    destruct (write_all secs offset len (pos + 512) data) as [r p]. cbn [fst] in *.
    pose proof (write_one_length b offset len pos data Hb Hd Ho Hp Hlt) as Hwl.
    split_and!; [by constructor | cbn; lia |]. intros i Hi. cbn [concat].
    destruct (decide (i < 512)%nat).
    + rewrite !lookup_app_l by lia. by apply write_one_lookup.
    + rewrite !lookup_app_r by lia. rewrite Hwl, Hb. cbn [length] in Hi.
      rewrite I3 by lia. replace (pos + 512 + Z.of_nat (i - 512)) with (pos + Z.of_nat i) by lia. done.
Qed.

Lemma write_all_concat secs offset len data : sectors_ok secs -> Z.of_nat (length data) = len ->
  0 <= offset -> offset + len <= 512 * Z.of_nat (length secs) ->
  take (Z.to_nat (offset + len)) (concat (write_all secs offset len 0 data).1) =
    take (Z.to_nat offset) (concat secs) ++ data.
Proof.
  intros Hok Hd Ho Hle. destruct (write_all_lookup secs offset len 0 data Hok Hd Ho ltac:(lia)) as (W1 & W2 & W3).
  pose proof (concat_length _ Hok) as Hl.
  apply list_eq. intros i. destruct (decide (Z.of_nat i < offset + len)) as [Hi | Hi].
  - rewrite lookup_take_lt by lia. rewrite W3 by lia. case_decide as Hc.
    + rewrite lookup_app_r by (rewrite length_take; lia). rewrite length_take. f_equal. lia.
    + rewrite lookup_app_l by (rewrite length_take; lia). by rewrite lookup_take_lt by lia.
  - rewrite lookup_take_ge by lia. symmetry. apply lookup_ge_None.
    rewrite length_app, length_take. lia.
Qed.
