(* ===== verification/FatIO.v ===== *)
(** * Reading and writing along a chain of clusters on the disk *)
From S2P Require Import Prelude Interfaces Fat FatDir FatFile FatTable FatData.

(** ** Where a cluster lies *)
Definition cluster_ok (f : fat32_fs) (c : Z) : Prop := 2 <= c < total_clusters f + 2.
Definition sec (f : fat32_fs) (c i : Z) : Z := data_start_lba f + (c - 2) * sectors_per_cluster f + i.
Definition sectors_from (f : fat32_fs) (c i : Z) (n : nat) : list Z := sec f c <$> seqZ i (Z.of_nat n).
Definition cluster_sectors (f : fat32_fs) (c : Z) : list Z :=
  sectors_from f c 0 (Z.to_nat (sectors_per_cluster f)).
Definition sectors_of (f : fat32_fs) (cs : list Z) : list Z := cs ≫= cluster_sectors f.

Lemma sec_range f cap c i : vol_ok f cap -> cluster_ok f c -> 0 <= i < sectors_per_cluster f ->
  data_start_lba f <= sec f c i < cap /\ u32 (cluster_to_lba c f + i) = sec f c i.
Proof.
  intros Hv Hc Hi. unfold cluster_ok in Hc. pose proof Hv as [_ _ V3 V4 V5 V6 V7 _ V9].
  assert (0 <= fat_count f * fat_size f) by nia.
  assert ((c - 2) * sectors_per_cluster f + i < total_clusters f * sectors_per_cluster f) by nia.
  assert (0 <= (c - 2) * sectors_per_cluster f) by nia.
  unfold sec, cluster_to_lba. split; [lia |].
  rewrite (u32_id (c - 2)) by (unfold is_u32; lia).
  rewrite (u32_id ((c - 2) * _)) by (unfold is_u32; lia).
  rewrite (u32_id (data_start_lba f + _)) by (unfold is_u32; lia).
  apply u32_id. unfold is_u32. lia.
Qed.

Lemma sec_inj f cap c i c' i' : vol_ok f cap -> 0 <= i < sectors_per_cluster f ->
  0 <= i' < sectors_per_cluster f -> sec f c i = sec f c' i' -> c = c' /\ i = i'.
Proof.
  intros Hv Hi Hi' E. unfold sec in E.
  destruct (Z.lt_trichotomy c c') as [| [-> |]]; [nia | lia | nia].
Qed.

Lemma sectors_from_S f c i n : sectors_from f c i (S n) = sec f c i :: sectors_from f c (i + 1) n.
Proof. unfold sectors_from. rewrite Nat2Z.inj_succ, seqZ_cons by lia. cbn. by rewrite Z.pred_succ, Z.add_1_r. Qed.

Lemma elem_sectors_from f c i n x :
  x ∈ sectors_from f c i n <-> exists k, i <= k < i + Z.of_nat n /\ x = sec f c k.
Proof.
  unfold sectors_from. rewrite list_elem_of_fmap. split.
  - intros (k & -> & Hk%elem_of_seqZ). eauto.
  - intros (k & Hk & ->). exists k. split; [done |]. by apply elem_of_seqZ.
Qed.

Lemma elem_sectors_of f cs x : 1 <= sectors_per_cluster f ->
  x ∈ sectors_of f cs <-> exists c k, c ∈ cs /\ 0 <= k < sectors_per_cluster f /\ x = sec f c k.
Proof.
  intros Hspc. unfold sectors_of. rewrite list_elem_of_bind. split.
  - intros (c & (k & Hk & ->)%elem_sectors_from & Hc). exists c, k. split_and!; [done | lia | lia | done].
  - intros (c & k & Hc & Hk & ->). exists c. split; [| done]. apply elem_sectors_from.
    exists k. split; [lia | done].
Qed.

Section IO.
Context {D : Type} `{!BlockDev D}.
Implicit Types s : fstate D.

(** The bytes of the clusters [cs], in order. *)
Definition contents s (cs : list Z) : list Z := concat (view s <$> sectors_of (fs s) cs).

Lemma view_sector s x : st_ok s -> length (view s x) = 512%nat /\ Forall is_u8 (view s x).
Proof. intros Hs. apply bd_sector, Hs. Qed.

Lemma views_ok s l : st_ok s -> sectors_ok (view s <$> l).
Proof. intros Hs. apply Forall_fmap, Forall_forall. intros x _. by apply view_sector. Qed.

Lemma contents_length s cs : st_ok s ->
  Z.of_nat (length (contents s cs)) = sectors_per_cluster (fs s) * 512 * Z.of_nat (length cs).
Proof.
  intros Hs. unfold contents. rewrite concat_length by (by apply views_ok). rewrite length_fmap.
  pose proof (v_spc _ _ (s_vol s Hs)). unfold sectors_of.
  assert (length (cs ≫= cluster_sectors (fs s)) = length cs * Z.to_nat (sectors_per_cluster (fs s)))%nat as ->; [| lia].
  induction cs as [|c cs IH]; [done |]. cbn [mbind list_bind]. rewrite length_app, IH.
  unfold cluster_sectors, sectors_from. rewrite length_fmap, length_seqZ. cbn [length]. lia.
Qed.

Lemma views_eq s s' (l : list Z) : (forall x, view s' x = view s x) -> view s' <$> l = view s <$> l.
Proof. intros Hv. apply list_fmap_ext. intros; apply Hv. Qed.

(** ** Reading *)
Lemma read_sectors_spec n : forall i c s size offset data, st_ok s -> cluster_ok (fs s) c ->
  0 <= i -> i + Z.of_nat n <= sectors_per_cluster (fs s) -> 0 <= offset -> size + 512 <= 2 ^ 32 ->
  exists s', read_sectors n i (cluster_to_lba c (fs s)) size offset data s =
      Ret (Some (read_all (view s <$> sectors_from (fs s) c i n) size offset data), s') /\
    same_disk s s'.
Proof.
  induction n as [|n IH]; intros i c s size offset data Hs Hc Hi Hn Ho Hsz; cbn [read_sectors].
  - exists s. split; [reflexivity |]. by split_and!.
  - rewrite sectors_from_S. cbn [fmap list_fmap read_all].
    destruct (Z.ltb_spec offset size) as [Hlt | Hge]; cbn [negb].
    2:{ exists s. split; [reflexivity |]. by split_and!. }
    pose proof (s_vol s Hs) as Hv.
    destruct (sec_range _ _ c i Hv Hc) as [R1 R2]; [lia |].
    assert (0 <= data_start_lba (fs s)) by (destruct Hv; nia).
    rewrite (st_bind_ret get_fs _ s (fs s) s eq_refl). rewrite R2.
    destruct (blk_read_spec s (sec (fs s) c i) Hs) as (s1 & Hr & Hsame & Hbuf); [lia |].
    rewrite (st_bind_ret _ _ _ _ _ Hr). cbn [negb].
    rewrite (st_bind_ret get_buf _ s1 (sector_buf s1) s1 eq_refl). rewrite Hbuf.
    rewrite (v_bps _ _ Hv). rewrite (u32_id (offset + 512)) by (unfold is_u32; lia).
    set (n' := if size <? offset + 512 then u32 (size - offset) else 512).
    assert (n' = if size <? offset + 512 then size - offset else 512) as ->.
    { unfold n'. destruct (size <? offset + 512); [| done]. apply u32_id. unfold is_u32. lia. }
    set (n' := if size <? offset + 512 then size - offset else 512).
    assert (0 <= n' <= 512) by (unfold n'; destruct (Z.ltb_spec size (offset + 512)); lia).
    assert (offset + n' <= size) by (unfold n'; destruct (Z.ltb_spec size (offset + 512)); lia).
    rewrite (u32_id (offset + n')) by (unfold is_u32; lia).
    pose proof Hsame as (Hs1 & Hf1 & Hc1 & Hv1).
    destruct (IH (i + 1) c s1 size (offset + n') (splice data offset (Some <$> slice 0 n' (view s (sec (fs s) c i)))))
      as (s2 & Heq & Hsame2); rewrite ?Hf1; [done | done | lia | lia | lia | lia |].
    rewrite Hf1 in Heq. exists s2. split; [| by eapply same_disk_trans].
    rewrite Heq. by rewrite (views_eq s s1).
Qed.

Lemma read_chain_spec cs : forall fuel start s size offset data, st_ok s -> chain s start cs ->
  Forall (cluster_ok (fs s)) cs -> (length cs <= fuel)%nat -> 0 <= offset -> size + 512 <= 2 ^ 32 ->
  exists s', read_chain fuel start size offset data s =
      Ret (Some (read_all (view s <$> sectors_of (fs s) cs) size offset data).2, s') /\
    same_disk s s'.
Proof.
  induction cs as [|c cs IH]; intros fuel start s size offset data Hs Hc Hok Hf Ho Hsz.
  - cbn [chain] in Hc. exists s. split; [| by split_and!].
    destruct fuel; cbn [read_chain]; rewrite Hc; reflexivity.
  - destruct Hc as (-> & Hin & Hi & Hc). apply Forall_cons in Hok as [Hck Hok].
    destruct fuel as [|fuel]; [cbn in Hf; lia |]. cbn [read_chain]. rewrite Hin. cbn [andb].
    destruct (Z.ltb_spec offset size) as [Hlt | Hge]; cbn [negb].
    2:{ exists s. split; [| by split_and!]. by rewrite read_all_stop. }
    rewrite (st_bind_ret get_fs _ s (fs s) s eq_refl).
    pose proof (v_spc _ _ (s_vol s Hs)) as Hspc.
    destruct (read_sectors_spec (Z.to_nat (sectors_per_cluster (fs s))) 0 start s size offset data Hs Hck)
      as (s1 & Heq & Hsame); [lia | lia | lia | lia |].
    rewrite (st_bind_ret _ _ _ _ _ Heq).
    unfold sectors_of. cbn [mbind list_bind]. rewrite fmap_app, read_all_app.
    fold (cluster_sectors (fs s) start).
    destruct (read_all (view s <$> cluster_sectors (fs s) start) size offset data) as [o d] eqn:Hra.
    pose proof Hsame as (Hs1 & Hf1 & Hc1 & Hv1).
    destruct (fat_get_spec s1 start Hs1) as (s2 & Hget & Hsame2); [unfold fat_index; by rewrite Hf1 |].
    rewrite (st_bind_ret _ _ _ _ _ Hget). rewrite (fat_entry_same s s1) by done.
    pose proof (same_disk_trans _ _ _ Hsame Hsame2) as Hs02. pose proof Hs02 as (Hs2 & Hf2 & Hc2 & Hv2).
    assert (0 <= o) as Ho'.
    { clear - Hra Ho. revert offset data Ho Hra.
      induction (view s <$> cluster_sectors (fs s) start) as [|b l IH]; intros offset data Ho; cbn [read_all].
      - by intros [= <- _].
      - destruct (Z.ltb_spec offset size); cbn [negb]; [| by intros [= <- _]]. apply IH.
        destruct (Z.ltb_spec size (offset + 512)); lia. }
    destruct (IH fuel (fat_entry s start) s2 size o d Hs2) as (s3 & -> & Hsame3).
    + apply (chain_ext s); [done | | done]. intros c' _. by apply fat_entry_same.
    + by rewrite Hf2.
    + cbn in Hf. lia.
    + done.
    + done.
    + exists s3. split; [| by eapply same_disk_trans]. by rewrite Hf2, (views_eq s s2).
Qed.

(** ** Writing *)
Lemma data_slice_ok data i n : 0 <= i -> 0 <= n -> i + n <= Z.of_nat (length data) ->
  data_slice data i n = Ret (slice i n data).
Proof. intros. unfold data_slice. by rewrite (proj2 (Z.leb_le _ _)) by lia. Qed.

(** [s'] has the table of [s], the contents [r] in the sectors [l], and the other sectors of [s]. *)
Definition wrote s (l : list Z) (r : list (list Z)) s' : Prop :=
  st_ok s' /\ fs s' = fs s /\ bd_cap (dev s') = bd_cap (dev s) /\
  view s' <$> l = r /\ forall x, x ∉ l -> view s' x = view s x.

Lemma write_sectors_spec n : forall i c s offset len pos data, st_ok s -> cluster_ok (fs s) c ->
  0 <= i -> i + Z.of_nat n <= sectors_per_cluster (fs s) -> 0 <= offset -> 0 <= pos -> 0 <= len ->
  Z.of_nat (length data) = len -> Forall is_u8 data -> offset + len + 512 <= 2 ^ 32 ->
  let l := sectors_from (fs s) c i n in
  let w := write_all (view s <$> l) offset len pos data in
  exists s', write_sectors n i (cluster_to_lba c (fs s)) offset len (offset + len) pos data s =
      Ret (Some w.2, s') /\ wrote s l w.1 s'.
Proof.
  induction n as [|n IH]; intros i c s offset len pos data Hs Hc Hi Hn Ho Hp Hl Hd Hu8 Hsz;
    cbv zeta; cbn [write_sectors].
  - exists s. split; [reflexivity |]. by split_and!.
  - rewrite sectors_from_S. cbn [fmap list_fmap write_all].
    destruct (Z.ltb_spec pos (offset + len)) as [Hlt | Hge]; cbn [negb].
    2:{ exists s. split; [reflexivity |]. by split_and!. }
    pose proof (s_vol s Hs) as Hv.
    destruct (sec_range _ _ c i Hv Hc) as [R1 R2]; [lia |].
    assert (0 <= data_start_lba (fs s)) by (destruct Hv; nia).
    rewrite (st_bind_ret get_fs _ s (fs s) s eq_refl). rewrite R2.
    destruct (blk_read_spec s (sec (fs s) c i) Hs) as (s1 & Hr & Hsame & Hbuf); [lia |].
    rewrite (st_bind_ret _ _ _ _ _ Hr). cbn [negb].
    pose proof Hsame as (Hs1 & Hf1 & Hc1 & Hv1). rewrite (v_bps _ _ Hv).
    destruct (write_range offset len pos Ho Hp Hlt) as (W1 & W2 & W3 & W4).
    rewrite (u32_id (pos + 512)) by (unfold is_u32; lia).
    rewrite (u32_id (offset + len)) by (unfold is_u32; lia).
    set (ws := if pos <? offset then u32 (offset - pos) else 0).
    assert (ws = write_start offset pos) as ->.
    { unfold ws, write_start. destruct (Z.ltb_spec pos offset); [| done]. apply u32_id. unfold is_u32. lia. }
    set (we := if offset + len <? pos + 512 then u32 (offset + len - pos) else 512).
    assert (we = write_end offset len pos) as ->.
    { unfold we, write_end. destruct (Z.ltb_spec (offset + len) (pos + 512)); [| done].
      apply u32_id. unfold is_u32. lia. }
    set (b := view s (sec (fs s) c i)) in *.
    assert (Hrest : forall s2, wrote s [sec (fs s) c i] [write_one b offset len pos data] s2 ->
      exists s', write_sectors n (i + 1) (cluster_to_lba c (fs s)) offset len (offset + len) (pos + 512) data s2 =
        Ret (Some (let (r, p) := write_all (view s <$> sectors_from (fs s) c (i + 1) n) offset len (pos + 512) data
                   in (write_one b offset len pos data :: r, p)).2, s') /\
        wrote s (sec (fs s) c i :: sectors_from (fs s) c (i + 1) n)
          (let (r, p) := write_all (view s <$> sectors_from (fs s) c (i + 1) n) offset len (pos + 512) data
           in (write_one b offset len pos data :: r, p)).1 s').
    { intros s2 (Hs2 & Hf2 & Hc2 & Hw2 & Hv2). injection Hw2 as Hw2.
      assert (Hni : sec (fs s) c i ∉ sectors_from (fs s) c (i + 1) n).
      { intros (k & Hk & E)%elem_sectors_from. apply (sec_inj _ _ _ _ _ _ Hv) in E as [_ E]; lia. }
      destruct (IH (i + 1) c s2 offset len (pos + 512) data Hs2) as (s' & Heq & Hs' & Hf' & Hc' & Hw' & Hv');
        rewrite ?Hf2; try done; try lia.
      rewrite Hf2 in Heq, Hw', Hv'.
      assert (view s2 <$> sectors_from (fs s) c (i + 1) n = view s <$> sectors_from (fs s) c (i + 1) n) as Ev.
      { apply list_fmap_ext. intros k x Hx%list_elem_of_lookup_2. apply Hv2.
        intros E%list_elem_of_singleton. congruence. }
      rewrite Ev in *. destruct (write_all (view s <$> _) offset len (pos + 512) data) as [r p].
      cbn [fst snd] in *. exists s'. split; [done |]. split_and!; [done | congruence | congruence | |].
      - cbn [fmap list_fmap]. rewrite Hv' by done. rewrite Hw2. f_equal. exact Hw'.
      - intros x [Hne Hx]%not_elem_of_cons. rewrite Hv' by done. apply Hv2.
        intros E%list_elem_of_singleton. done. }
    unfold write_one in Hrest |- *.
    destruct (Z.ltb_spec (write_start offset pos) (write_end offset len pos)) as [Hw | Hw].
    + rewrite (u32_id (write_end offset len pos - write_start offset pos)) by (unfold is_u32; lia).
      rewrite (u32_id (pos + write_start offset pos - offset)) by (unfold is_u32; lia).
      rewrite data_slice_ok by lia. cbn [st_lift].
      set (d := slice (pos + write_start offset pos - offset) _ data) in *.
      rewrite (st_bind_ret _ _ s1 d s1 eq_refl).
      rewrite (st_bind_ret get_buf _ s1 (sector_buf s1) s1 eq_refl). rewrite Hbuf.
      set (s2 := FState (fs s1) (splice b (write_start offset pos) d) (dev s1)).
      rewrite (st_bind_ret (set_buf _) _ s1 () s2 eq_refl).
      destruct (view_sector s (sec (fs s) c i) Hs) as [Hbl Hbu].
      assert (Z.of_nat (length d) = write_end offset len pos - write_start offset pos) as Hdl
        by (apply slice_length; lia).
      assert (st_ok s2) as Hs2.
      { destruct Hs1 as [Q1 Q2 Q3 Q4]. split; cbn; [done | done | |].
        - rewrite splice_length; [done | lia | unfold b; lia].
        - apply splice_Forall; [done | by apply Forall_take, Forall_drop]. }
      destruct (blk_write_spec s2 (sec (fs s) c i) Hs2) as (s3 & Hwr & Hs3 & Hf3 & Hc3 & _ & Hv3);
        [cbn; rewrite Hc1; lia |].
      rewrite (st_bind_ret _ _ _ _ _ Hwr). cbn [negb].
      apply Hrest. split_and!; [done | by rewrite Hf3 | by rewrite Hc3 | |].
      * cbn [fmap list_fmap]. rewrite Hv3, decide_True by done. done.
      * intros x Hx. rewrite Hv3, decide_False; [apply Hv1 |]. intros ->. apply Hx. by left.
    + apply Hrest. split_and!; [done | done | done | |].
      * cbn [fmap list_fmap]. f_equal. apply Hv1.
      * intros x Hx. apply Hv1.
Qed.
End IO.
