(* ===== verification/FatWrite.v ===== *)
(** * [fat_write_file]: growing a chain, writing it, and reading it back *)
From S2P Require Import Prelude Interfaces Fat FatDir FatFile FatTable FatData FatIO.

Section Write.
Context {D : Type} `{!BlockDev D}.
Implicit Types s : fstate D.

Definition is_eoc (v : Z) : Prop := 0x0FFFFFF8 <= v.

Lemma wrote_entry s l r s' c : wrote s l r s' -> Forall (fun x => data_start_lba (fs s) <= x) l ->
  st_ok s -> fat_index s c -> fat_entry s' c = fat_entry s c.
Proof.
  intros (_ & Hf & _ & _ & Hv) Hl Hs Hi. unfold fat_entry, fat_raw. rewrite Hf, Hv; [done |].
  destruct (fat_sector_range _ _ 0 c (s_vol s Hs) Hi) as [R _];
    [pose proof (v_count _ _ (s_vol s Hs)); lia |].
  rewrite Forall_forall in Hl. intros Hin%Hl. lia.
Qed.

Lemma wrote_same s l r s' c : wrote s l r s' -> Forall (fun x => data_start_lba (fs s) <= x) l ->
  st_ok s -> fat_index s c -> same_entry s s' c.
Proof.
  intros (_ & Hf & _ & _ & Hv) Hl Hs Hi copy Hcp. unfold fat_raw. rewrite Hv; [done |].
  destruct (fat_sector_range _ _ copy c (s_vol s Hs) Hi Hcp) as [R _]. rewrite Forall_forall in Hl. intros Hin%Hl. lia.
Qed.

Lemma wrote_app s l1 r1 s1 s2 l2 r2 s3 : wrote s l1 r1 s1 -> same_disk s1 s2 -> wrote s2 l2 r2 s3 ->
  (forall x, x ∈ l1 -> x ∉ l2) -> wrote s (l1 ++ l2) (r1 ++ r2) s3.
Proof.
  intros (W1 & W2 & W3 & W4 & W5) (S1 & S2 & S3 & S4) (V1 & V2 & V3 & V4 & V5) Hd.
  split_and!; [done | congruence | congruence | |].
  - rewrite fmap_app, V4. f_equal. rewrite <- W4. apply list_fmap_ext.
    intros i x Hx%list_elem_of_lookup_2. rewrite V5 by (by apply Hd). apply S4.
  - intros x [H1 H2]%not_elem_of_app. by rewrite V5, S4, W5.
Qed.

Lemma sectors_data f cap cs : vol_ok f cap -> Forall (cluster_ok f) cs ->
  Forall (fun x => data_start_lba f <= x) (sectors_of f cs).
Proof.
  intros Hv Hok. rewrite Forall_forall in *. intros x (c & k & Hc & Hk & ->)%elem_sectors_of;
    [| by destruct (v_spc f cap Hv)].
  by destruct (sec_range f cap c k Hv (Hok c Hc) Hk) as [[? _] _].
Qed.

Lemma write_chain_spec cs : forall fuel start s offset len pos data, st_ok s -> chain s start cs ->
  NoDup cs -> Forall (cluster_ok (fs s)) cs -> (length cs <= fuel)%nat ->
  0 <= offset -> 0 <= pos -> 0 <= len ->
  Z.of_nat (length data) = len -> Forall is_u8 data -> offset + len + 512 <= 2 ^ 32 ->
  exists s', write_chain fuel start offset len (offset + len) pos data s = Ret (true, s') /\
    wrote s (sectors_of (fs s) cs)
      (write_all (view s <$> sectors_of (fs s) cs) offset len pos data).1 s'.
Proof.
  induction cs as [|c cs IH]; intros fuel start s offset len pos data Hs Hc Hnd Hok Hf Ho Hp Hl Hd Hu Hsz.
  - cbn [chain] in Hc. exists s. split; [| by split_and!].
    destruct fuel; cbn [write_chain]; rewrite Hc; reflexivity.
  - destruct Hc as (-> & Hin & Hi & Hc). pose proof Hok as [Hck Hok']%Forall_cons.
    apply NoDup_cons in Hnd as [Hni Hnd].
    destruct fuel as [|fuel]; [cbn in Hf; lia |]. cbn [write_chain]. rewrite Hin. cbn [andb].
    destruct (Z.ltb_spec pos (offset + len)) as [Hlt | Hge]; cbn [negb].
    2:{ exists s. split; [reflexivity |]. rewrite write_all_stop by done. by split_and!. }
    rewrite (st_bind_ret get_fs _ s (fs s) s eq_refl).
    pose proof (s_vol s Hs) as Hv. pose proof (v_spc _ _ Hv) as Hspc.
    destruct (write_sectors_spec (Z.to_nat (sectors_per_cluster (fs s))) 0 start s offset len pos data Hs Hck)
      as (s1 & Heq & Hw1); try done; try lia.
    rewrite (st_bind_ret _ _ _ _ _ Heq). fold (cluster_sectors (fs s) start) in *.
    unfold sectors_of. cbn [mbind list_bind]. rewrite fmap_app, write_all_app.
    assert (0 <= (write_all (view s <$> cluster_sectors (fs s) start) offset len pos data).2) as Hp'.
    { clear - Hp. revert pos Hp.
      induction (view s <$> cluster_sectors (fs s) start) as [|b l IH]; intros pos Hp; cbn [write_all]; [done |].
      destruct (Z.ltb_spec pos (offset + len)); cbn [negb]; [| done].
      specialize (IH (pos + 512) ltac:(lia)).
      by destruct (write_all l offset len (pos + 512) data). }
    destruct (write_all (view s <$> cluster_sectors (fs s) start) offset len pos data) as [r1 p1].
    cbn [fst snd] in *.
    assert (Hdat : Forall (fun x => data_start_lba (fs s) <= x) (cluster_sectors (fs s) start)).
    { assert (Forall (cluster_ok (fs s)) [start]) as Hst by (by constructor).
      pose proof (sectors_data _ _ [start] Hv Hst) as Hx.
      unfold sectors_of in Hx. cbn [mbind list_bind] in Hx. by rewrite app_nil_r in Hx. }
    pose proof Hw1 as (Hs1 & Hf1 & Hc1 & Hr1 & Hv1).
    destruct (fat_get_spec s1 start Hs1) as (s2 & Hget & Hsame2); [unfold fat_index; by rewrite Hf1 |].
    rewrite (st_bind_ret _ _ _ _ _ Hget).
    rewrite (wrote_entry s _ _ s1 start Hw1 Hdat Hs Hi).
    pose proof Hsame2 as (Hs2 & Hf2 & Hc2 & Hv2).
    assert (Hf20 : fs s2 = fs s) by congruence.
    assert (Hdisj : forall x, x ∈ cluster_sectors (fs s) start -> x ∉ sectors_of (fs s) cs).
    { intros x (k & Hk & ->)%elem_sectors_from (c' & k' & Hc' & Hk' & E)%elem_sectors_of; [| lia].
      apply (sec_inj _ _ _ _ _ _ Hv) in E as [-> _]; [done | lia | lia]. }
    destruct (IH fuel (fat_entry s start) s2 offset len p1 data Hs2) as (s3 & -> & Hw3); rewrite ?Hf20; try done.
    + apply (chain_ext s); [done | | done]. intros c' Hc'.
      rewrite (fat_entry_same s1 s2) by done.
      apply (wrote_entry s _ _ s1 c' Hw1 Hdat Hs).
      by apply (proj1 (Forall_forall _ _) (chain_index s cs _ Hc)).
    + cbn in Hf. lia.
    + rewrite Hf20 in Hw3. exists s3. split; [done |].
      assert (view s2 <$> sectors_of (fs s) cs = view s <$> sectors_of (fs s) cs) as Ev.
      { apply list_fmap_ext. intros k x Hx%list_elem_of_lookup_2. rewrite Hv2. apply Hv1.
        intros E. by apply (Hdisj x). }
      rewrite Ev in Hw3. fold (sectors_of (fs s) cs).
      destruct (write_all (view s <$> sectors_of (fs s) cs) offset len p1 data) as [r2 p2].
      by eapply wrote_app.
Qed.

(** ** Growing a chain *)
Lemma chain_nonzero s cs c : forall start, chain s start (cs ++ [c]) -> is_eoc (fat_entry s c) ->
  forall x, x ∈ cs ++ [c] -> fat_entry s x <> 0.
Proof.
  induction cs as [|d cs IH]; intros start Hc He x Hx; cbn [app chain] in *.
  - apply list_elem_of_singleton in Hx as ->. unfold is_eoc in He. lia.
  - destruct Hc as (-> & Hin & Hi & Hc). apply elem_of_cons in Hx as [-> | Hx]; [| by eapply IH].
    assert (in_chain (fat_entry s start) = true) as Hn.
    { destruct cs as [|e cs]; cbn [app chain] in Hc; destruct Hc as (<- & ? & _); done. }
    unfold in_chain in Hn. apply andb_true_iff in Hn as [Hn _]. apply Z.leb_le in Hn. lia.
Qed.

Lemma chain_grow s s' pre last k : forall start, chain s start (pre ++ [last]) -> fs s' = fs s ->
  (forall c, c ∈ pre -> fat_entry s' c = fat_entry s c) -> fat_entry s' last = k ->
  in_chain k = true -> fat_index s k -> in_chain (fat_entry s' k) = false ->
  chain s' start ((pre ++ [last]) ++ [k]).
Proof.
  induction pre as [|c pre IH]; intros start Hc Hf He Hl Hk Hki Hend; cbn [app chain] in *.
  - destruct Hc as (-> & Hin & Hi & _). unfold fat_index in *. rewrite Hf, Hl.
    split_and!; try done; lia.
  - destruct Hc as (-> & Hin & Hi & Hc). unfold fat_index in *. rewrite Hf.
    rewrite He by (by left). split_and!; try done; try lia.
    apply IH; try done. intros c' Hc'. apply He. by right.
Qed.

Lemma land_cluster k : 0 <= k < 2 ^ 28 -> Z.land k 0x0FFFFFFF = k.
Proof. intros. change 0x0FFFFFFF with (Z.ones 28). rewrite Z.land_ones by lia. by apply Z.mod_small. Qed.

(** Nothing but the table changed. *)
Definition table_only s s' : Prop :=
  st_ok s' /\ fs s' = fs s /\ bd_cap (dev s') = bd_cap (dev s) /\
  forall x, x < fat_start_lba (fs s) \/ data_start_lba (fs s) <= x -> view s' x = view s x.

Lemma table_only_trans s1 s2 s3 : table_only s1 s2 -> table_only s2 s3 -> table_only s1 s3.
Proof.
  intros (_ & F1 & C1 & V1) (O2 & F2 & C2 & V2). split_and!; [done | congruence.. |].
  intros x Hx. rewrite V2 by (by rewrite F1). by apply V1.
Qed.
Lemma fat_updated_table s c v s' : fat_updated s c v s' -> table_only s s'.
Proof. intros (O & F & C & _ & V). by split_and!. Qed.
Lemma same_disk_table s s' : same_disk s s' -> table_only s s'.
Proof. intros (O & F & C & V). split_and!; [done | done | done |]. intros x _. apply V. Qed.

Definition no_free s : Prop := forall k, 2 <= k < total_clusters (fs s) -> fat_entry s k <> 0.

Lemma extend_loop_spec n : forall s start pre last, st_ok s -> chain s start (pre ++ [last]) ->
  NoDup (pre ++ [last]) -> is_eoc (fat_entry s last) ->
  exists r s', extend_loop n last s = Ret (r, s') /\ table_only s s' /\
    match r with
    | None => no_free s'
    | Some last' => exists pre' news, pre' ++ [last'] = (pre ++ [last]) ++ news /\ length news = n /\
        chain s' start (pre' ++ [last']) /\ NoDup (pre' ++ [last']) /\ is_eoc (fat_entry s' last') /\
        Forall (fun c => 2 <= c < total_clusters (fs s) /\ fat_entry s c = 0) news /\
        forall c, fat_index s c -> c <> last -> c ∉ news -> same_entry s s' c
    end.
Proof.
  induction n as [|n IH]; intros s start pre last Hs Hc Hnd He; cbn [extend_loop].
  - exists (Some last), s. split; [reflexivity |]. split; [by split_and! |].
    exists pre, []. rewrite app_nil_r. split_and!; done.
  - destruct (fat_alloc_spec s Hs) as (r & s1 & Ha & Hr). rewrite (st_bind_ret _ _ _ _ _ Ha).
    destruct r as [k|].
    2:{ destruct Hr as [Hsame Hno]. exists None, s1. split; [reflexivity |].
        split; [by apply same_disk_table |]. pose proof Hsame as (_ & F & _). unfold no_free. rewrite F.
        intros k Hk. rewrite (fat_entry_same s s1) by done. by apply Hno. }
    destruct Hr as (Hk & Hkz & _ & Hup). pose proof (s_vol s Hs) as Hv.
    pose proof (v_count _ _ Hv) as Hcnt.
    pose proof (fat_updated_entry s k _ s1 Hup ltac:(lia)) as He1.
    assert (fat_index s k) as Hki by (unfold fat_index; destruct Hv; lia).
    assert (k ∉ pre ++ [last]) as Hkn.
    { intros Hin. by apply (chain_nonzero s pre last start Hc He k Hin). }
    assert (Hidx : forall c, c ∈ pre ++ [last] -> fat_index s c).
    { intros c Hin. by apply (proj1 (Forall_forall _ _) (chain_index s _ start Hc)). }
    assert (Hlast : fat_index s last) by (apply Hidx, elem_of_app; right; by left).
    pose proof Hup as (Hs1 & Hf1 & Hc1 & _).
    destruct (fat_set_spec s1 last k Hs1) as (s2 & Hset & Hup2);
      [unfold fat_index; by rewrite Hf1 | unfold is_u32; destruct Hv; lia |].
    rewrite (st_bind_ret _ _ _ _ _ Hset).
    pose proof (fat_updated_entry s1 last k s2 Hup2 ltac:(rewrite Hf1; lia)) as He2.
    pose proof Hup2 as (Hs2 & Hf2 & Hc2 & _).
    assert (Hf20 : fs s2 = fs s) by congruence.
    assert (Hent2 : forall c, fat_index s c ->
      fat_entry s2 c = if decide (c = last) then k else if decide (c = k) then 0x0FFFFFFF else fat_entry s c).
    { intros c Hci. rewrite He2 by (unfold fat_index in *; by rewrite Hf1). case_decide.
      - apply land_cluster. destruct Hv. lia.
      - rewrite He1 by done. by case_decide. }
    assert (last <> k) as Hlk by (intros ->; apply Hkn, elem_of_app; right; by left).
    assert (Hc2' : chain s2 start ((pre ++ [last]) ++ [k])).
    { apply (chain_grow s); try done.
      - intros c Hin. rewrite Hent2 by (apply Hidx, elem_of_app; by left).
        rewrite !decide_False; [done | |].
        + intros ->. apply Hkn, elem_of_app. by left.
        + intros ->. apply NoDup_app in Hnd as (_ & Hnd & _). apply (Hnd last Hin). by left.
      - rewrite Hent2 by done. by rewrite decide_True.
      - unfold in_chain. rewrite (proj2 (Z.leb_le _ _)), (proj2 (Z.ltb_lt _ _)); [done | | lia].
        destruct Hv. lia.
      - rewrite Hent2 by done. rewrite decide_False, decide_True by congruence. done. }
    assert (Hnd2 : NoDup ((pre ++ [last]) ++ [k])).
    { apply NoDup_app. split_and!; [done | | apply NoDup_singleton].
      intros c Hin ->%list_elem_of_singleton. done. }
    destruct (IH s2 start (pre ++ [last]) k Hs2 Hc2' Hnd2) as (r & s' & -> & Htab & Hr).
    { rewrite Hent2 by done. rewrite decide_False, decide_True by congruence. unfold is_eoc. lia. }
    exists r, s'. split; [done |]. split.
    { eapply table_only_trans; [by eapply fat_updated_table |].
      eapply table_only_trans; [by eapply fat_updated_table | done]. }
    destruct r as [last'|]; [| done].
    destruct Hr as (pre' & news & Eq & Hlen & Hc' & Hnd' & He' & Hnews & Hother).
    exists pre', (k :: news). rewrite Hf20 in *. split_and!; try done.
    + rewrite Eq. by rewrite <- (app_assoc _ [k]).
    + cbn. lia.
    + constructor; [done |]. rewrite Forall_forall in *. intros c Hcn.
      destruct (Hnews c Hcn) as [Hr Hz]. split; [done |].
      rewrite Hent2 in Hz by (unfold fat_index; destruct Hv; lia). revert Hz.
      case_decide as E1; [lia |]. case_decide; [lia | done].
    + intros c Hci Hcl [Hck Hcn]%not_elem_of_cons. apply (same_entry_trans s s1); [done | by eapply fat_updated_other |].
      apply (same_entry_trans s1 s2); [congruence | eapply fat_updated_other; [exact Hup2 | unfold fat_index in *; by rewrite Hf1 | done] |].
      apply Hother; [unfold fat_index in *; by rewrite Hf20 | done | done].
Qed.

Lemma last_loop_spec cs : forall fuel start s last, st_ok s -> chain s start (cs ++ [last]) ->
  is_eoc (fat_entry s last) -> (length cs < fuel)%nat ->
  exists s', last_loop fuel start s = Ret (last, s') /\ same_disk s s'.
Proof.
  induction cs as [|c cs IH]; intros fuel start s last Hs Hc He Hf;
    (destruct fuel as [|fuel]; [cbn in Hf; lia |]); cbn [app chain last_loop] in *;
    destruct Hc as (-> & Hin & Hi & Hc); destruct (fat_get_spec s start Hs Hi) as (s1 & Hget & Hsame);
    rewrite (st_bind_ret _ _ _ _ _ Hget).
  - unfold is_eoc in He. rewrite (proj2 (Z.leb_le _ _)) by done. by exists s1.
  - assert (in_chain (fat_entry s start) = true) as Hn
      by (destruct cs; cbn [app chain] in Hc; destruct Hc as (<- & ? & _); done).
    unfold in_chain in Hn. apply andb_true_iff in Hn as [_ Hn]. apply Z.ltb_lt in Hn.
    rewrite (proj2 (Z.leb_gt _ _)) by done. pose proof Hsame as (Hs1 & Hf1 & _).
    destruct (IH fuel (fat_entry s start) s1 last Hs1) as (s' & -> & Hsame').
    + apply (chain_ext s); [done | intros; by apply fat_entry_same | done].
    + by rewrite (fat_entry_same s s1).
    + cbn in Hf. lia.
    + exists s'. split; [done | by eapply same_disk_trans].
Qed.

Lemma count_loop_spec cs : forall fuel start s n, st_ok s -> chain s start cs ->
  (length cs <= fuel)%nat -> 0 <= n -> n + Z.of_nat (length cs) < 2 ^ 32 ->
  exists s', count_loop fuel start n s = Ret (n + Z.of_nat (length cs), s') /\ same_disk s s'.
Proof.
  induction cs as [|c cs IH]; intros fuel start s n Hs Hc Hf Hn Hlt.
  - cbn [chain] in Hc. exists s. split; [| by split_and!]. rewrite Z.add_0_r.
    destruct fuel; cbn [count_loop]; by rewrite Hc.
  - destruct Hc as (-> & Hin & Hi & Hc). destruct fuel as [|fuel]; [cbn in Hf; lia |].
    cbn [count_loop length] in *. rewrite Hin. cbn [negb].
    destruct (fat_get_spec s start Hs Hi) as (s1 & Hget & Hsame).
    rewrite (st_bind_ret _ _ _ _ _ Hget). pose proof Hsame as (Hs1 & Hf1 & _).
    rewrite u32_id by (unfold is_u32; lia).
    destruct (IH fuel (fat_entry s start) s1 (n + 1) Hs1) as (s' & -> & Hsame'); try lia.
    + apply (chain_ext s); [done | intros; by apply fat_entry_same | done].
    + exists s'. split; [f_equal; f_equal; lia | by eapply same_disk_trans].
Qed.

(** ** Updating a directory entry *)
Lemma fat_update_dirent_spec s dc off ent : st_ok s -> cluster_ok (fs s) dc ->
  0 <= off < sectors_per_cluster (fs s) * 512 -> off mod 32 = 0 ->
  length ent = 32%nat -> Forall is_u8 ent ->
  exists s', fat_update_dirent dc off ent s = Ret (true, s') /\
    wrote s [sec (fs s) dc (off / 512)] [splice (view s (sec (fs s) dc (off / 512))) (off mod 512) ent] s'.
Proof.
  intros Hs Hdc Hoff Hm Hl Hu. pose proof (s_vol s Hs) as Hv.
  destruct (sec_range _ _ dc (off / 512) Hv Hdc) as [R1 R2]; [lia |].
  assert (0 <= data_start_lba (fs s)) by (destruct Hv; nia).
  unfold fat_update_dirent. rewrite (st_bind_ret get_fs _ s (fs s) s eq_refl).
  rewrite (v_bps _ _ Hv), R2.
  destruct (blk_read_spec s (sec (fs s) dc (off / 512)) Hs) as (s1 & Hr & (Hs1 & Hf1 & Hc1 & Hv1) & Hbuf); [lia |].
  rewrite (st_bind_ret _ _ _ _ _ Hr). cbn [negb].
  rewrite (st_bind_ret get_buf _ s1 (sector_buf s1) s1 eq_refl). rewrite Hbuf.
  set (b := splice (view s _) (off mod 512) ent).
  set (s2 := FState (fs s1) b (dev s1)). rewrite (st_bind_ret (set_buf b) _ s1 () s2 eq_refl).
  destruct (view_sector s (sec (fs s) dc (off / 512)) Hs) as [Hbl Hbu].
  assert (st_ok s2) as Hs2.
  { destruct Hs1 as [Q1 Q2 Q3 Q4]. split; cbn; [done | done | |].
    - unfold b. rewrite splice_length; lia.
    - by apply splice_Forall. }
  destruct (blk_write_spec s2 (sec (fs s) dc (off / 512)) Hs2) as (s3 & -> & Hs3 & Hf3 & Hc3 & _ & Hv3);
    [cbn; rewrite Hc1; lia |].
  exists s3. split; [done |]. split_and!; [done | by rewrite Hf3 | by rewrite Hc3 | |].
  - cbn [fmap list_fmap]. rewrite Hv3, decide_True by done. done.
  - intros x Hx. rewrite Hv3, decide_False; [apply Hv1 |]. intros ->. apply Hx. by left.
Qed.
End Write.
