(* ===== verification/FatWriteProps.v ===== *)
(** * What [fat_write_file] stores and [fat_read_file] finds *)
From S2P Require Import Prelude Interfaces Fat FatDir FatFile FatTable FatData FatIO FatWrite.

(** ** The fields of an entry *)
Lemma le32_splice l o v : Forall is_u8 l -> is_u32 v -> 0 <= o -> o + 4 <= Z.of_nat (length l) ->
  le32 (splice l o (le_bytes 4 v)) o = v.
Proof.
  intros Hl Hv Ho Hlen. rewrite <- (le32_set l o v Hl Hv Ho Hlen) at 2. unfold set_le32.
  f_equal. f_equal. cbn [le_bytes]. rewrite !land_ff, !Z.shiftr_div_pow2 by lia.
  change (2 ^ 16) with (2 ^ 8 * 2 ^ 8). change (2 ^ 24) with (2 ^ 8 * 2 ^ 8 * 2 ^ 8).
  rewrite <- !Z.div_div by lia. done.
Qed.

Lemma le16_byte l o : le16 l o = u16 (Z.lor (byte_at l o) (Z.shiftl (byte_at l (o + 1)) 8)).
Proof. done. Qed.

Lemma le16_two a b : is_u8 a -> is_u8 b -> u16 (Z.lor a (Z.shiftl b 8)) = a + 256 * b.
Proof.
  intros Ha Hb. unfold is_u8 in *. rewrite lor_shiftl by lia.
  rewrite u16_id by (unfold is_u16; lia). lia.
Qed.

Lemma le_bytes2 v : le_bytes 2 v = [v mod 256; v / 256 mod 256].
Proof. done. Qed.

Lemma dirent_first_set e c : length e = 32%nat -> Forall is_u8 e -> 0 <= c < 2 ^ 28 ->
  dirent_first_cluster (dirent_set_first_cluster e c) = c.
Proof.
  intros Hl Hu Hc. unfold dirent_first_cluster, dirent_set_first_cluster.
  set (hi := le_bytes 2 (u16 (Z.shiftr c 16))). set (lo := le_bytes 2 (u16 (Z.land c 0xFFFF))).
  assert (length (splice e 20 hi) = 32%nat) as L1 by (rewrite splice_length; cbn; lia).
  assert (u16 (Z.shiftr c 16) = c / 65536 /\ u16 (Z.land c 0xFFFF) = c mod 65536) as [E1 E2].
  { rewrite Z.shiftr_div_pow2 by lia. change 0xFFFF with (Z.ones 16). rewrite Z.land_ones by lia.
    unfold u16. lia. }
  rewrite !le16_byte.
  assert (length hi = 2%nat /\ length lo = 2%nat) as [Lh Ll] by done.
  rewrite !byte_at_splice by lia. rewrite Lh, Ll.
  repeat ((case_decide; [| lia]) || (case_decide; [lia |])).
  unfold hi, lo. rewrite E1, E2, !le_bytes2.
  change (byte_at [?a; ?b] (20 - 20)) with a. change (byte_at [?a; ?b] (20 + 1 - 20)) with b.
  change (byte_at [?a; ?b] (26 - 26)) with a. change (byte_at [?a; ?b] (26 + 1 - 26)) with b.
  rewrite !le16_two by (apply Z.mod_pos_bound; lia). clear - Hc.
  assert (forall x, 0 <= x < 65536 -> x mod 256 + 256 * (x / 256 mod 256) = x) as E by lia.
  rewrite (E (c / 65536)), (E (c mod 65536)) by lia. rewrite Z.lor_comm, lor_shiftl by lia. lia.
Qed.

Lemma set_first_length e c : length e = 32%nat -> length (dirent_set_first_cluster e c) = 32%nat.
Proof.
  intros Hl. unfold dirent_set_first_cluster.
  assert (forall v, length (le_bytes 2 v) = 2%nat) as Hb by done.
  rewrite !splice_length; rewrite ?splice_length; rewrite ?Hb; lia.
Qed.
Lemma set_first_u8 e c : Forall is_u8 e -> Forall is_u8 (dirent_set_first_cluster e c).
Proof. intros. by repeat apply splice_Forall; try apply le_bytes_u8. Qed.
Lemma set_size_length e n : length e = 32%nat -> length (ent_set_size e n) = 32%nat.
Proof.
  intros Hl. unfold ent_set_size. assert (length (le_bytes 4 n) = 4%nat) as Hb by done.
  rewrite splice_length; rewrite ?Hb; lia.
Qed.
Lemma set_size_u8 e n : Forall is_u8 e -> Forall is_u8 (ent_set_size e n).
Proof. intros. apply splice_Forall; [done | apply le_bytes_u8]. Qed.
Lemma ent_size_set e n : length e = 32%nat -> Forall is_u8 e -> is_u32 n -> ent_size (ent_set_size e n) = n.
Proof. intros. apply le32_splice; [done | done | lia | lia]. Qed.

Lemma first_cluster_size e n : length e = 32%nat ->
  dirent_first_cluster (ent_set_size e n) = dirent_first_cluster e.
Proof.
  intros Hl. unfold dirent_first_cluster, ent_set_size.
  assert (length (le_bytes 4 n) = 4%nat) as Hb by done.
  assert (forall o, 0 <= o < 27 -> le16 (splice e 28 (le_bytes 4 n)) o = le16 e o) as E.
  { intros o Ho. rewrite !le16_byte. rewrite !byte_at_splice by lia. by rewrite !decide_False by lia. }
  by rewrite !E by lia.
Qed.

Section Props.
Context {D : Type} `{!BlockDev D}.
Implicit Types s : fstate D.

(** The clusters [cs] of a file whose entry gives [start]. *)
Definition file_chain s (start : Z) (cs : list Z) : Prop :=
  NoDup cs /\ Forall (cluster_ok (fs s)) cs /\
  (start = 0 /\ cs = [] \/
   exists pre last, cs = pre ++ [last] /\ chain s start cs /\ is_eoc (fat_entry s last)).

Lemma cluster_index s c : st_ok s -> cluster_ok (fs s) c -> fat_index s c.
Proof. intros Hs. unfold cluster_ok, fat_index. destruct (s_vol s Hs). lia. Qed.

Lemma chain_start s start pre last : chain s start (pre ++ [last]) -> in_chain start = true.
Proof. destruct pre; cbn [app chain]; by intros (<- & ? & _). Qed.

Lemma in_chain_range c : in_chain c = true -> 2 <= c < 0x0FFFFFF8.
Proof. unfold in_chain. intros [? ?]%andb_true_iff. lia. Qed.

Lemma eoc_out v : is_eoc v -> in_chain v = false.
Proof. unfold is_eoc, in_chain. intros. apply andb_false_intro2. apply Z.ltb_ge. lia. Qed.

Lemma chain_set_last s s' pre last : forall start, chain s start (pre ++ [last]) -> fs s' = fs s ->
  (forall c, c ∈ pre -> fat_entry s' c = fat_entry s c) -> in_chain (fat_entry s' last) = false ->
  chain s' start (pre ++ [last]).
Proof.
  induction pre as [|c pre IH]; intros start Hc Hf He Hl; cbn [app chain] in *;
    destruct Hc as (-> & Hin & Hi & Hc); unfold fat_index in *; rewrite Hf.
  - done.
  - rewrite He by (by left). split_and!; try done; try lia.
    apply IH; try done. intros c' Hc'. apply He. by right.
Qed.

(** ** The end of [write_entry]: mark the end of the chain, write the data, update
    the entry *)
Definition write_tail (f : fat32_fs) (first last offset len : Z) (data ent : list Z) (dc off : Z)
    : M (D:=D) bool :=
  _ ← fat_set_entry last 0x0FFFFFFF;
  ok ← write_chain (chain_fuel f) first offset len (u32 (offset + len)) 0 data;
  if negb ok then mret false else
  fat_update_dirent dc off (ent_set_size (dirent_set_first_cluster ent first) (u32 (offset + len))).

Record dirent_pos s (dc off : Z) : Prop := {
  p_cluster : cluster_ok (fs s) dc;
  p_off : 0 <= off < sectors_per_cluster (fs s) * 512;
  p_align : off mod 32 = 0;
}.
(** The bytes of a sector around the entry at [o]. *)
Definition outside_entry (o : Z) (b b' : list Z) : Prop :=
  take (Z.to_nat o) b' = take (Z.to_nat o) b /\ drop (Z.to_nat o + 32) b' = drop (Z.to_nat o + 32) b.
Lemma outside_splice o b e : 0 <= o -> o + 32 <= Z.of_nat (length b) -> length e = 32%nat -> outside_entry o b (splice b o e).
Proof.
  intros Ho Hb He. unfold outside_entry, splice. assert (length (take (Z.to_nat o) b) = Z.to_nat o) as Ht by (rewrite length_take; lia).
  split; [by rewrite take_app_length' |]. rewrite app_assoc, drop_app_length' by (rewrite length_app; lia). by rewrite He.
Qed.
Definition dirent_at s (dc off : Z) : list Z :=
  slice (off mod 512) 32 (view s (sec (fs s) dc (off / 512))).

(** [s'] holds the file [bytes] in the clusters [cs], its entry at [dc], [off]. *)
Definition stored s' (dc off : Z) (cs bytes : list Z) : Prop :=
  let ent := dirent_at s' dc off in
  ent_size ent = Z.of_nat (length bytes) /\
  chain s' (dirent_first_cluster ent) cs /\ NoDup cs /\ Forall (cluster_ok (fs s')) cs /\
  take (length bytes) (contents s' cs) = bytes /\
  Z.of_nat (length bytes) <= Z.of_nat (length (contents s' cs)).

Lemma write_tail_spec s first pre last offset data ent dc off :
  st_ok s -> chain s first (pre ++ [last]) -> NoDup (pre ++ [last]) ->
  Forall (cluster_ok (fs s)) (pre ++ [last]) ->
  dirent_pos s dc off -> dc ∉ pre ++ [last] -> length ent = 32%nat -> Forall is_u8 ent ->
  0 <= offset -> Forall is_u8 data -> 0 < offset + Z.of_nat (length data) ->
  offset + Z.of_nat (length data) + 512 <= 2 ^ 32 ->
  offset + Z.of_nat (length data) <= Z.of_nat (length (contents s (pre ++ [last]))) ->
  exists s', write_tail (fs s) first last offset (Z.of_nat (length data)) data ent dc off s = Ret (true, s') /\
    st_ok s' /\ fs s' = fs s /\
    stored s' dc off (pre ++ [last]) (take (Z.to_nat offset) (contents s (pre ++ [last])) ++ data) /\
    (forall c, fat_index s c -> c <> last -> same_entry s s' c) /\
    (forall x, x <> sec (fs s) dc (off / 512) -> x ∉ sectors_of (fs s) (pre ++ [last]) ->
       x < fat_start_lba (fs s) \/ data_start_lba (fs s) <= x -> view s' x = view s x) /\
    outside_entry (off mod 512) (view s (sec (fs s) dc (off / 512))) (view s' (sec (fs s) dc (off / 512))).
Proof.
  intros Hs Hc Hnd Hok [Pc Po Pa] Hdc Hel Heu Hof Hdu Hpos Hsz Hfit.
  set (cs := pre ++ [last]) in *. set (len := Z.of_nat (length data)) in *.
  pose proof (s_vol s Hs) as Hv. pose proof (v_count _ _ Hv) as Hcnt. pose proof (v_spc _ _ Hv) as Hspc.
  assert (Hidx : forall c, c ∈ cs -> fat_index s c)
    by (intros c Hin; by apply (proj1 (Forall_forall _ _) (chain_index s _ first Hc))).
  assert (Hlast : last ∈ cs) by (apply elem_of_app; right; by left).
  unfold write_tail.
  destruct (fat_set_spec s last 0x0FFFFFFF Hs (Hidx last Hlast)) as (s1 & Hset & Hup); [unfold is_u32; lia |].
  rewrite (st_bind_ret _ _ _ _ _ Hset).
  pose proof (fat_updated_entry s last _ s1 Hup ltac:(lia)) as He1.
  pose proof Hup as (Hs1 & Hf1 & Hc1 & _ & Hv1).
  assert (Hch1 : chain s1 first cs).
  { apply (chain_set_last s); try done.
    - intros c Hin. rewrite He1 by (apply Hidx, elem_of_app; by left).
      rewrite decide_False; [done |]. intros ->.
      apply NoDup_app in Hnd as (_ & Hnd & _). apply (Hnd last Hin). by left.
    - rewrite He1 by (by apply Hidx). by rewrite decide_True. }
  assert (Hview1 : view s1 <$> sectors_of (fs s) cs = view s <$> sectors_of (fs s) cs).
  { apply list_fmap_ext. intros k x Hx%list_elem_of_lookup_2. apply Hv1. right.
    pose proof (sectors_data _ _ cs Hv Hok) as Hd. rewrite Forall_forall in Hd. by apply Hd. }
  rewrite (u32_id (offset + len)) by (unfold is_u32; lia).
  destruct (write_chain_spec cs (chain_fuel (fs s)) first s1 offset len 0 data) as (s2 & Hw & Hwr);
    rewrite ?Hf1; try done; try lia.
  { pose proof (chain_fuel_enough s first cs Hc Hnd). lia. }
  rewrite (st_bind_ret _ _ _ _ _ Hw). cbn [negb].
  rewrite Hf1, Hview1 in Hwr. pose proof Hwr as (Hs2 & Hf2 & Hc2 & Hr2 & Hv2).
  assert (Hf20 : fs s2 = fs s) by congruence.
  set (ent' := ent_set_size (dirent_set_first_cluster ent first) (offset + len)).
  assert (length ent' = 32%nat /\ Forall is_u8 ent') as [Hel' Heu'].
  { split; [by apply set_size_length, set_first_length | by apply set_size_u8, set_first_u8]. }
  destruct (fat_update_dirent_spec s2 dc off ent' Hs2) as (s3 & -> & Hwr3); rewrite ?Hf20; try done.
  rewrite Hf20 in Hwr3. pose proof Hwr3 as (Hs3 & Hf3 & Hc3 & Hr3 & Hv3). injection Hr3 as Hr3.
  assert (Hf30 : fs s3 = fs s) by congruence.
  assert (Hdsec : sec (fs s) dc (off / 512) ∉ sectors_of (fs s) cs).
  { intros (c & k & Hin & Hk & E)%elem_sectors_of; [| lia].
    apply (sec_inj _ _ _ _ _ _ Hv) in E as [-> _]; [done | lia | lia]. }
  assert (Hcont : contents s3 cs = concat (write_all (view s <$> sectors_of (fs s) cs) offset len 0 data).1).
  { unfold contents. rewrite Hf30, <- Hr2. f_equal. apply list_fmap_ext.
    intros k x Hx%list_elem_of_lookup_2. apply Hv3. intros E%list_elem_of_singleton. congruence. }
  assert (Hsame : forall c, fat_index s c -> c <> last -> same_entry s s3 c).
  { intros c Hi Hne. apply (same_entry_trans s s1); [done | by eapply fat_updated_other |].
    apply (same_entry_trans s1 s2); [congruence | |].
    - apply (wrote_same s1 _ _ s2 c Hwr); rewrite ?Hf1; [by apply (sectors_data _ _ cs Hv) | done | unfold fat_index in *; by rewrite Hf1].
    - apply (wrote_same s2 _ _ s3 c Hwr3); rewrite ?Hf20; [| done | unfold fat_index in *; by rewrite Hf20].
      constructor; [| constructor]. by destruct (sec_range _ _ dc (off / 512) Hv Pc) as [[? _] _]; [lia |]. }
  assert (Hent : forall c, fat_index s c -> c <> last -> fat_entry s3 c = fat_entry s c).
  { intros c Hi Hne. apply same_entry_get; [by apply Hsame | done | lia]. }
  assert (Hfit' : offset + len <= 512 * Z.of_nat (length (view s <$> sectors_of (fs s) cs))).
  { unfold contents in Hfit. rewrite concat_length in Hfit by (by apply views_ok). done. }
  exists s3. split; [done |]. split; [done |]. split; [done |]. split; [| split; [done | split]].
  - destruct (view_sector s2 (sec (fs s) dc (off / 512)) Hs2) as [Hl2 Hu2].
    assert (Hde : dirent_at s3 dc off = ent').
    { unfold dirent_at. rewrite Hf30, Hr3. unfold slice, splice.
      rewrite drop_app_length' by (rewrite length_take; lia).
      by rewrite take_app_length' by lia. }
    unfold stored. rewrite Hde. cbv zeta.
    assert (Hpl : Z.of_nat (length (take (Z.to_nat offset) (contents s cs) ++ data)) = offset + len).
    { rewrite length_app, length_take. unfold len in *. lia. }
    rewrite Hpl. split_and!.
    + apply ent_size_set; [by apply set_first_length | by apply set_first_u8 | unfold is_u32; lia].
    + unfold ent'. rewrite first_cluster_size by (by apply set_first_length).
      rewrite dirent_first_set; [| done | done |].
      2:{ pose proof (in_chain_range first (chain_start s first pre last Hc)). lia. }
      apply (chain_set_last s1); [done | congruence | |].
      * intros c Hin. assert (c ∈ cs) as Hcin by (apply elem_of_app; by left).
        assert (c <> last) as Hne.
        { intros ->. apply NoDup_app in Hnd as (_ & Hnd & _). apply (Hnd last Hin). by left. }
        rewrite Hent by auto. rewrite He1 by auto. by rewrite decide_False.
      * rewrite (wrote_entry s2 _ _ s3 last Hwr3), (wrote_entry s1 _ _ s2 last Hwr), He1;
          rewrite ?Hf20, ?Hf1; try done; try (by apply Hidx).
        -- by rewrite decide_True.
        -- by apply (sectors_data _ _ cs Hv).
        -- pose proof (Hidx last Hlast). unfold fat_index in *. by rewrite Hf1.
        -- constructor; [| constructor]. by destruct (sec_range _ _ dc (off / 512) Hv Pc) as [[? _] _]; [lia |].
        -- pose proof (Hidx last Hlast). unfold fat_index in *. by rewrite Hf20.
    + done.
    + by rewrite Hf30.
    + rewrite Hcont. replace (length _) with (Z.to_nat (offset + len)) at 1 by lia.
      apply write_all_concat; [by apply views_ok | done | lia | done].
    + rewrite Hcont. destruct (write_all_lookup (view s <$> sectors_of (fs s) cs) offset len 0 data)
        as (W1 & W2 & _); [by apply views_ok | done | lia | lia |].
      rewrite (concat_length _ W1), W2. lia.
  - intros x Hx1 Hx2 Hx3. rewrite Hv3, Hv2, Hv1; [done | done | done |].
    by intros E%list_elem_of_singleton.
  - rewrite Hr3, Hv2, Hv1 by (try done; right; by destruct (sec_range _ _ dc (off / 512) Hv Pc) as [[? _] _]; [lia |]).
    destruct (view_sector s (sec (fs s) dc (off / 512)) Hs) as [Hlb _]. apply outside_splice; [lia | lia | done].
Qed.

(** ** Growing the file *)
Record grown s (old : list Z) (first : Z) (pre : list Z) (last : Z) s' : Prop := {
  g_table : table_only s s';
  g_chain : chain s' first (pre ++ [last]);
  g_nodup : NoDup (pre ++ [last]);
  g_ok : Forall (cluster_ok (fs s)) (pre ++ [last]);
  g_old : forall c, fat_index s c -> fat_entry s c <> 0 -> c ∉ old -> c ∉ pre ++ [last];
  g_other : forall c, fat_index s c -> c ∉ old -> c ∉ pre ++ [last] -> same_entry s s' c;
}.

Lemma extend_grown n s old s1 start pre last : st_ok s -> table_only s s1 ->
  chain s1 start (pre ++ [last]) -> NoDup (pre ++ [last]) -> is_eoc (fat_entry s1 last) ->
  Forall (cluster_ok (fs s)) (pre ++ [last]) ->
  (forall c, fat_index s c -> c ∉ old -> c ∉ pre ++ [last] -> same_entry s s1 c) ->
  (forall c, fat_index s c -> fat_entry s c <> 0 -> c ∉ old -> c ∉ pre ++ [last]) ->
  exists r s', extend_loop n last s1 = Ret (r, s') /\ table_only s s' /\
    match r with
    | None => no_free s'
    | Some last' => exists pre', grown s old start pre' last' s' /\
        length (pre' ++ [last']) = (length (pre ++ [last]) + n)%nat /\
        firstn (length (pre ++ [last])) (pre' ++ [last']) = pre ++ [last]
    end.
Proof.
  intros Hs Htab Hc Hnd He Hok Hother Hold. pose proof Htab as (Hs1 & Hf1 & _ & _).
  destruct (extend_loop_spec n s1 start pre last Hs1 Hc Hnd He) as (r & s' & Heq & Htab' & Hr).
  pose proof Htab' as (Hs' & Hf' & _).
  exists r, s'. split; [done |]. split; [by eapply table_only_trans |].
  destruct r as [last'|]; [| done].
  destruct Hr as (pre' & news & Eq & Hlen & Hc' & Hnd' & _ & Hnews & Hoth).
  exists pre'. split; [| split].
  - assert (Hnew : forall c, c ∈ news -> cluster_ok (fs s) c /\ fat_entry s1 c = 0).
    { rewrite Forall_forall in Hnews. intros c Hin. destruct (Hnews c Hin) as [Hr Hz].
      rewrite Hf1 in Hr. unfold cluster_ok. split; [lia | done]. }
    split.
    + by eapply table_only_trans.
    + done.
    + done.
    + rewrite Eq. apply Forall_app. split; [done |]. rewrite Forall_forall. intros c Hin. by apply Hnew.
    + intros c Hi Hnz Hno. rewrite Eq. intros [Hin | Hin]%elem_of_app; [by apply (Hold c) |].
      destruct (Hnew c Hin) as [_ Hz]. rewrite (same_entry_get s s1) in Hz;
        [done | apply Hother; [done | done | by apply Hold] | done | destruct (s_vol s Hs); lia].
    + intros c Hi Hno. rewrite Eq. intros [Hn1 Hn2]%not_elem_of_app.
      apply (same_entry_trans s s1); [done | by apply Hother |].
      apply Hoth; [unfold fat_index in *; by rewrite Hf1 | | done].
      intros ->. apply Hn1, elem_of_app. right. by left.
  - rewrite Eq, length_app. lia.
  - rewrite Eq. by rewrite take_app_length.
Qed.

(** The first cluster of a file that has none (any more). *)
Lemma alloc_grown s old s1 : st_ok s -> freed s old s1 ->
  exists a s2, fat_alloc_cluster s1 = Ret (a, s2) /\
    match a with
    | None => table_only s s2 /\ no_free s2
    | Some first => table_only s s2 /\ chain s2 first ([] ++ [first]) /\ is_eoc (fat_entry s2 first) /\
        cluster_ok (fs s) first /\
        (forall c, fat_index s c -> c ∉ old -> c ∉ [] ++ [first] -> same_entry s s2 c) /\
        (forall c, fat_index s c -> fat_entry s c <> 0 -> c ∉ old -> c ∉ [] ++ [first])
    end.
Proof.
  intros Hs (Hs1 & Hf1 & Hc1 & He1 & Hv1 & Ho1).
  destruct (fat_alloc_spec s1 Hs1) as (a & s2 & Ha & Hr). exists a, s2. split; [done |].
  pose proof (s_vol s Hs) as Hv. pose proof (v_count _ _ Hv) as Hcnt.
  destruct a as [first|].
  2:{ destruct Hr as [Hsame Hno]. pose proof Hsame as (Hs2 & Hf2 & Hc2 & Hv2).
      split; [split_and!; [done | congruence | congruence | intros x Hx; by rewrite Hv2, Hv1] |]. intros k Hk. rewrite (fat_entry_same s1 s2) by done.
      apply Hno. by rewrite <- Hf2. }
  destruct Hr as (Hk & Hz & _ & Hup). rewrite Hf1 in Hk.
  assert (fat_index s first) as Hi by (unfold fat_index; destruct Hv; lia).
  pose proof (fat_updated_entry s1 first _ s2 Hup ltac:(rewrite Hf1; lia)) as He2.
  pose proof Hup as (Hs2 & Hf2 & Hc2 & _ & Hv2).
  assert (fat_index s1 first) as Hi1 by (unfold fat_index in *; by rewrite Hf1).
  assert (fat_entry s2 first = 0x0FFFFFFF) as Hfirst by (rewrite He2 by done; by rewrite decide_True).
  rewrite He1 in Hz by done. split_and!.
  - split_and!; [done | congruence | congruence |]. intros x Hx. rewrite Hv2 by (by rewrite Hf1). by apply Hv1.
  - cbn [app chain]. rewrite Hfirst. split_and!; try done.
    + unfold in_chain. rewrite (proj2 (Z.leb_le _ _)), (proj2 (Z.ltb_lt _ _)); [done | destruct Hv; lia | lia].
    + unfold fat_index in *. by rewrite Hf2, Hf1.
  - rewrite Hfirst. unfold is_eoc. lia.
  - unfold cluster_ok. lia.
  - intros c Hci Hno Hne. cbn in Hne. apply (same_entry_trans s s1); [done | by apply Ho1 |].
    eapply fat_updated_other; [exact Hup | unfold fat_index in *; by rewrite Hf1 |]. intros ->. apply Hne. by left.
  - intros c Hci Hnz Hno Hin%list_elem_of_singleton. subst c.
    rewrite decide_False in Hz by done. done.
Qed.

Lemma freed_nil s : st_ok s -> freed s [] s.
Proof. intros Hs. by split_and!. Qed.

Lemma stored_read s dc off cs bytes : st_ok s -> stored s dc off cs bytes ->
  Z.of_nat (length bytes) + 512 <= 2 ^ 32 ->
  exists s', read_chain (chain_fuel (fs s)) (dirent_first_cluster (dirent_at s dc off))
      (ent_size (dirent_at s dc off)) 0
      (repeat None (Z.to_nat (ent_size (dirent_at s dc off) + 1))) s =
    Ret (Some ((Some <$> bytes) ++ [None]), s') /\ same_disk s s'.
Proof.
  intros Hs (Hsize & Hc & Hnd & Hok & Htake & Hlen) Hsz. rewrite Hsize.
  destruct (read_chain_spec cs (chain_fuel (fs s)) (dirent_first_cluster (dirent_at s dc off)) s
    (Z.of_nat (length bytes)) 0 (repeat None (Z.to_nat (Z.of_nat (length bytes) + 1))) Hs Hc Hok)
    as (s' & -> & Hsame); [|lia | lia |].
  { pose proof (chain_fuel_enough s _ cs Hc Hnd). lia. }
  exists s'. split; [| done]. f_equal. f_equal. f_equal.
  pose proof (read_all_spec (view s <$> sectors_of (fs s) cs) (Z.of_nat (length bytes)) 0 []
    (repeat None (Z.to_nat (Z.of_nat (length bytes) + 1)))) as Hra.
  cbn [fmap list_fmap app] in Hra. rewrite Hra; clear Hra.
  - rewrite Z.sub_0_r, Nat2Z.id. fold (contents s cs). rewrite Htake. f_equal.
    replace (Z.to_nat (Z.of_nat (length bytes) + 1)) with (length bytes + 1)%nat by lia.
    rewrite repeat_app. rewrite drop_app_length' by (by rewrite repeat_length). done.
  - by apply views_ok.
  - done.
  - lia.
  - rewrite repeat_length. lia.
  - unfold contents in Hlen. rewrite concat_length in Hlen by (by apply views_ok). lia.
Qed.

(** What the file keeps of its old contents. *)
Definition kept s (ent : list Z) (old : list Z) (append : bool) : list Z :=
  if append && negb (dirent_first_cluster ent =? 0)
  then take (Z.to_nat (ent_size ent)) (contents s old) else [].

Definition write_result s (ent : list Z) (dc off : Z) (old data : list Z) (append : bool)
    (ok : bool) s' : Prop :=
  let dir_sector := sec (fs s) dc (off / 512) in
  st_ok s' /\ fs s' = fs s /\
  (if ok then (exists cs, (dc ∉ cs) /\ stored s' dc off cs (kept s ent old append ++ data) /\
    (forall c, fat_index s c -> c ∈ cs -> c ∈ old \/ fat_entry s c = 0) /\
    (forall c, fat_index s c -> c ∉ old -> c ∉ cs -> same_entry s s' c) /\
    (forall x, x <> dir_sector -> x ∉ sectors_of (fs s) cs ->
       x < fat_start_lba (fs s) \/ data_start_lba (fs s) <= x -> view s' x = view s x) /\
    outside_entry (off mod 512) (view s dir_sector) (view s' dir_sector))
  else no_free s' /\
    forall x, x < fat_start_lba (fs s) \/ data_start_lba (fs s) <= x -> view s' x = view s x).

Lemma grown_result s ent dc off old data append first pre last s1 offset :
  st_ok s -> dirent_pos s dc off -> fat_entry s dc <> 0 -> dc ∉ old ->
  length ent = 32%nat -> Forall is_u8 ent -> Forall is_u8 data -> data <> [] ->
  grown s old first pre last s1 ->
  0 <= offset -> offset + Z.of_nat (length data) + 512 <= 2 ^ 32 ->
  offset + Z.of_nat (length data) <= Z.of_nat (length (contents s1 (pre ++ [last]))) ->
  take (Z.to_nat offset) (contents s1 (pre ++ [last])) = kept s ent old append ->
  exists s', write_tail (fs s) first last offset (Z.of_nat (length data)) data ent dc off s1 = Ret (true, s') /\
    write_result s ent dc off old data append true s'.
Proof.
  intros Hs [Pc Po Pa] Hdc Hdo Hl Hu Hdu Hne [(Hs1 & Hf1 & Hc1 & Hv1) Gc Gn Gok Gold Goth] Ho Hsz Hfit Hk.
  pose proof (cluster_index s dc Hs Pc) as Hdi.
  assert (0 < Z.of_nat (length data)) by (destruct data; [done | cbn; lia]).
  destruct (write_tail_spec s1 first pre last offset data ent dc off) as
    (s' & Heq & Hs' & Hf' & Hst & Hent & Hview & Hout); rewrite ?Hf1; try done; try lia.
  - split; by rewrite ?Hf1.
  - by apply Gold.
  - rewrite Hf1 in Heq, Hview, Hout. exists s'. split; [done |]. split; [done |]. split; [congruence |].
    exists (pre ++ [last]). split; [by apply Gold |]. split; [by rewrite <- Hk |]. split; [| split; [| split]].
    + intros c Hi Hin. destruct (decide (c ∈ old)); [by left | right].
      destruct (decide (fat_entry s c = 0)); [done |]. by destruct (Gold c Hi).
    + intros c Hi Hco Hcc. apply (same_entry_trans s s1); [done | by apply Goth |].
      apply Hent; [unfold fat_index in *; by rewrite Hf1 |]. intros ->. apply Hcc, elem_of_app. right. by left.
    + intros x H1 H2 H3. rewrite Hview by done. by apply Hv1.
    + rewrite Hv1 in Hout; [done |]. right. by destruct (sec_range _ _ dc (off / 512) (s_vol s Hs) Pc) as [[? _] _]; [pose proof (v_spc _ _ (s_vol s Hs)); lia |].
Qed.

(** The number of clusters is enough for the bytes. *)
Lemma needed_enough need cb : 0 < need -> 512 <= cb -> need + cb <= 2 ^ 32 ->
  0 < u32 (need + cb - 1) / cb /\ need <= cb * (u32 (need + cb - 1) / cb) /\
  u32 (need + cb - 1) / cb <= need.
Proof.
  intros Hn Hcb Hle. rewrite u32_id by (unfold is_u32; lia).
  pose proof (Z.div_mod (need + cb - 1) cb ltac:(lia)).
  pose proof (Z.mod_pos_bound (need + cb - 1) cb ltac:(lia)). nia.
Qed.

Lemma contents_table s s' cs : st_ok s -> table_only s s' -> Forall (cluster_ok (fs s)) cs ->
  contents s' cs = contents s cs.
Proof.
  intros Hs (_ & Hf & _ & Hv) Hok. unfold contents. rewrite Hf. f_equal. apply list_fmap_ext.
  intros k x Hx%list_elem_of_lookup_2. apply Hv. right.
  pose proof (sectors_data _ _ cs (s_vol s Hs) Hok) as Hd. rewrite Forall_forall in Hd. by apply Hd.
Qed.

Lemma write_append_ok s ent dc off pre last data :
  st_ok s -> dirent_pos s dc off -> fat_entry s dc <> 0 -> dc ∉ pre ++ [last] ->
  length ent = 32%nat -> Forall is_u8 ent -> NoDup (pre ++ [last]) ->
  Forall (cluster_ok (fs s)) (pre ++ [last]) -> chain s (dirent_first_cluster ent) (pre ++ [last]) ->
  is_eoc (fat_entry s last) -> Forall is_u8 data -> data <> [] ->
  ent_size ent <= Z.of_nat (length (contents s (pre ++ [last]))) ->
  ent_size ent + Z.of_nat (length data) + sectors_per_cluster (fs s) * 512 <= 2 ^ 32 ->
  exists ok s', write_entry ent dc off data true s = Ret (ok, s') /\
    write_result s ent dc off (pre ++ [last]) data true ok s'.
Proof.
  intros Hs Hpos Hdc Hdo Hl Hu Hnd Hok Hc He Hdu Hne Hsize Hbig.
  set (start := dirent_first_cluster ent) in *. set (len := Z.of_nat (length data)) in *.
  pose proof (in_chain_range _ (chain_start s start pre last Hc)) as Hstart.
  pose proof (s_vol s Hs) as Hv. pose proof (v_spc _ _ Hv) as Hspc.
  assert (0 < len) by (unfold len; destruct data; [done | cbn; lia]).
  assert (0 <= ent_size ent) as Hsz0 by (pose proof (le32_range ent 28 Hu) as Hr; unfold is_u32 in Hr; unfold ent_size; lia).
  unfold write_entry. rewrite (st_bind_ret get_fs _ s (fs s) s eq_refl).
  fold start. fold len. rewrite (u32_id len) by (unfold is_u32; lia).
  rewrite (proj2 (Z.eqb_neq start 0)) by lia. cbn [andb negb].
  rewrite (st_bind_ret (mret start) _ s start s eq_refl).
  rewrite (v_bps _ _ Hv). set (cb := sectors_per_cluster (fs s) * 512) in *.
  rewrite (u32_id (ent_size ent + len)) by (unfold is_u32; lia).
  destruct (needed_enough (ent_size ent + len) cb) as (N1 & N2 & N3); [lia | unfold cb; lia | lia |].
  set (needed := u32 (ent_size ent + len + cb - 1) / cb) in *.
  rewrite (proj2 (Z.eqb_neq needed 0)), (proj2 (Z.eqb_neq start 0)) by lia.
  pose proof (chain_fuel_enough s start _ Hc Hnd) as Hfuel.
  destruct (last_loop_spec pre (chain_fuel (fs s)) start s last Hs Hc He) as (s1 & Hl1 & Hsame1).
  { rewrite length_app in Hfuel. cbn in Hfuel. lia. }
  rewrite (st_bind_ret _ _ s (Some (start, last)) s1) by (by rewrite (st_bind_ret _ _ _ _ _ Hl1)).
  cbv beta iota.
  pose proof Hsame1 as (Hs1 & Hf1 & _).
  assert (Hc1 : chain s1 start (pre ++ [last])).
  { apply (chain_ext s); [done | intros; by apply fat_entry_same | done]. }
  assert (Hlen32 : Z.of_nat (length (pre ++ [last])) < 2 ^ 32).
  { unfold chain_fuel in Hfuel. destruct Hv. lia. }
  destruct (count_loop_spec (pre ++ [last]) (chain_fuel (fs s)) start s1 0 Hs1 Hc1)
    as (s2 & Hcnt & Hsame2); [lia | lia | lia |].
  rewrite (st_bind_ret _ _ _ _ _ Hcnt). rewrite Z.add_0_l.
  pose proof (same_disk_trans _ _ _ Hsame1 Hsame2) as Hsame. pose proof Hsame as (Hs2 & Hf2 & _).
  destruct (extend_grown (Z.to_nat (needed - Z.of_nat (length (pre ++ [last])))) s (pre ++ [last]) s2 start pre last)
    as (r & s3 & Hext & Htab3 & Hr); try done.
  - by apply same_disk_table.
  - apply (chain_ext s); [done | intros; by apply fat_entry_same | done].
  - by rewrite (fat_entry_same s s2).
  - intros; by apply same_disk_same.
  - rewrite (st_bind_ret _ _ _ _ _ Hext). pose proof Htab3 as (Hs3 & Hf3 & _ & Hv3). destruct r as [last'|].
    2:{ exists false, s3. split; [reflexivity | by split_and!]. }
    destruct Hr as (pre' & Hg & Hgl & Hpre). pose proof Hg as [Htab _ _ Gok _ _].
    destruct (grown_result s ent dc off (pre ++ [last]) data true start pre' last' s3 (ent_size ent))
      as (s' & Heq & Hres); try done.
    + unfold cb in *. lia.
    + rewrite (contents_table s s3) by done. rewrite (contents_length s) by done. fold cb.
      rewrite Hgl. fold len. nia.
    + rewrite (contents_table s s3) by done. unfold kept. fold start.
      rewrite (proj2 (Z.eqb_neq start 0)) by lia. cbn [andb negb].
      rewrite <- (take_drop (length (pre ++ [last])) (pre' ++ [last'])), Hpre.
      unfold contents, sectors_of. rewrite bind_app, fmap_app, concat_app.
      fold (sectors_of (fs s) (pre ++ [last])). fold (contents s (pre ++ [last])).
      apply take_app_le. lia.
    + unfold write_tail in Heq. fold len in Heq.
      rewrite (u32_id (ent_size ent + len)) in Heq by (unfold is_u32; lia).
      exists true, s'. split; [exact Heq | done].
Qed.

Lemma write_fresh_ok s ent dc off old data append :
  st_ok s -> dirent_pos s dc off -> fat_entry s dc <> 0 -> dc ∉ old ->
  length ent = 32%nat -> Forall is_u8 ent -> file_chain s (dirent_first_cluster ent) old ->
  append && negb (dirent_first_cluster ent =? 0) = false ->
  Forall is_u8 data -> data <> [] ->
  Z.of_nat (length data) + sectors_per_cluster (fs s) * 512 <= 2 ^ 32 ->
  exists ok s', write_entry ent dc off data append s = Ret (ok, s') /\
    write_result s ent dc off old data append ok s'.
Proof.
  intros Hs Hpos Hdc Hdo Hl Hu Hfc Happ Hdu Hne Hbig.
  set (start := dirent_first_cluster ent) in *. set (len := Z.of_nat (length data)) in *.
  pose proof (s_vol s Hs) as Hv. pose proof (v_spc _ _ Hv) as Hspc.
  assert (0 < len) by (unfold len; destruct data; [done | cbn; lia]).
  unfold write_entry. rewrite (st_bind_ret get_fs _ s (fs s) s eq_refl).
  fold start. fold len. rewrite (u32_id len) by (unfold is_u32; lia). rewrite Happ.
  assert (exists s1, (if negb (start =? 0) then _ ← fat_free_chain start; mret 0 else mret start : M Z) s
                       = Ret (0, s1) /\ freed s old s1) as (s1 & Hfree & Hfr).
  { destruct Hfc as (Hnd & Hok & [[-> ->] | (pre & last & -> & Hc & He)]).
    - exists s. split; [reflexivity | by apply freed_nil].
    - pose proof (in_chain_range _ (chain_start s start pre last Hc)) as Hst.
      rewrite (proj2 (Z.eqb_neq start 0)) by lia. cbn [negb].
      pose proof (chain_fuel_enough s start _ Hc Hnd) as Hfuel.
      destruct (fat_free_loop_spec (pre ++ [last]) (chain_fuel (fs s)) start s Hs Hc Hnd) as (s1 & Heq & Hf);
        [lia |].
      exists s1. split; [| done]. unfold fat_free_chain.
      rewrite (st_bind_ret _ _ s true s1); [reflexivity |].
      by rewrite (st_bind_ret get_fs _ s (fs s) s eq_refl). }
  rewrite (st_bind_ret _ _ _ _ _ Hfree). pose proof Hfr as (Hs1 & Hf1 & _).
  rewrite (v_bps _ _ Hv). set (cb := sectors_per_cluster (fs s) * 512) in *.
  rewrite Z.add_0_l, (u32_id len) by (unfold is_u32; lia).
  destruct (needed_enough len cb) as (N1 & N2 & N3); [lia | unfold cb; lia | lia |].
  set (needed := u32 (len + cb - 1) / cb) in *.
  rewrite (proj2 (Z.eqb_neq needed 0)) by lia. cbn [Z.eqb].
  destruct (alloc_grown s old s1 Hs Hfr) as (a & s2 & Ha & Hr).
  rewrite (st_bind_ret _ _ s1 (match a with None => None | Some first => Some (first, first) end) s2)
    by (by rewrite (st_bind_ret _ _ _ _ _ Ha)).
  destruct a as [first|]; cbv beta iota.
  2:{ destruct Hr as ((Hs2 & Hf2 & _ & Hv2) & Hno). exists false, s2. split; [reflexivity | by split_and!]. }
  destruct Hr as (Htab & Hc2 & He2 & Hok2 & Hoth & Hold).
  rewrite (st_bind_ret (mret 0) _ s2 0 s2 eq_refl). rewrite Z.sub_0_r.
  destruct (extend_grown (Z.to_nat needed) s old s2 first [] first) as (r & s3 & Hext & Htab3 & Hr);
    try done.
  { apply NoDup_singleton. }
  { by constructor. }
  rewrite (st_bind_ret _ _ _ _ _ Hext). pose proof Htab3 as (Hs3 & Hf3 & _ & Hv3). destruct r as [last'|].
  2:{ exists false, s3. split; [reflexivity | by split_and!]. }
  destruct Hr as (pre' & Hg & Hgl & _). pose proof Hg as [_ _ _ Gok _ _].
  destruct (grown_result s ent dc off old data append first pre' last' s3 0) as (s' & Heq & Hres);
    try done; fold len.
  - unfold cb in *. lia.
  - rewrite (contents_table s s3) by done. rewrite (contents_length s) by done. fold cb.
    rewrite Hgl. cbn [app length]. nia.
  - unfold kept. fold start. rewrite Happ. done.
  - unfold write_tail in Heq. fold len in Heq. rewrite Z.add_0_l, (u32_id len) in Heq by (unfold is_u32; lia).
    exists true, s'. split; [exact Heq | done].
Qed.

(** C1: writing a file and reading it back.  For the entry of a file at its place ([dc],
    [off]) in a directory and the proper chain of its clusters, writing (or appending)
    nonempty data returns; it fails only when no cluster that the allocator considers is
    left, and has then changed nothing outside the FAT.  Otherwise the entry records the new
    size and a chain of distinct clusters, each from the old chain or free before, and
    reading the file gives exactly the kept old bytes followed by the new data.  Unchanged
    are: the entries of all other clusters, in every copy of the FAT; the reserved sectors;
    all data sectors but those of the chain and the sector of the entry; in that sector all
    bytes but the 32 of the entry. *)
Theorem file_write_read s ent dc off old data append :
  st_ok s -> dirent_pos s dc off -> fat_entry s dc <> 0 -> dc ∉ old ->
  length ent = 32%nat -> Forall is_u8 ent -> file_chain s (dirent_first_cluster ent) old ->
  ent_size ent <= Z.of_nat (length (contents s old)) -> Forall is_u8 data -> data <> [] ->
  ent_size ent + Z.of_nat (length data) + sectors_per_cluster (fs s) * 512 <= 2 ^ 32 ->
  exists ok s', write_entry ent dc off data append s = Ret (ok, s') /\
    write_result s ent dc off old data append ok s' /\
    (ok = true -> let e := dirent_at s' dc off in
       ent_size e = Z.of_nat (length (kept s ent old append ++ data)) /\
       exists s'', read_chain (chain_fuel (fs s')) (dirent_first_cluster e) (ent_size e) 0
           (repeat None (Z.to_nat (ent_size e + 1))) s' =
         Ret (Some ((Some <$> kept s ent old append ++ data) ++ [None]), s'')).
Proof.
  intros Hs Hpos Hdc Hdo Hl Hu Hfc Hsize Hdu Hne Hbig.
  assert (0 <= ent_size ent) as Hsz0
    by (pose proof (le32_range ent 28 Hu) as Hr; unfold is_u32 in Hr; unfold ent_size; lia).
  assert (exists ok s', write_entry ent dc off data append s = Ret (ok, s') /\
    write_result s ent dc off old data append ok s') as (ok & s' & Heq & Hres).
  { destruct (append && negb (dirent_first_cluster ent =? 0)) eqn:E.
    - apply andb_true_iff in E as [-> E%negb_true_iff%Z.eqb_neq].
      destruct Hfc as (Hnd & Hok & [[? _] | (pre & last & -> & Hc & He)]); [done |].
      by apply write_append_ok.
    - apply write_fresh_ok; try done. lia. }
  exists ok, s'. split; [done |]. split; [done |]. intros ->.
  destruct Hres as (Hs' & Hf' & cs & _ & Hst & _).
  split; [by destruct Hst |].
  destruct (stored_read s' dc off cs _ Hs' Hst) as (s'' & Hr & _).
  - rewrite length_app. unfold kept. pose proof (v_spc _ _ (s_vol s Hs)) as Hspc.
    destruct (append && _); [rewrite length_take; lia | cbn [length]; lia].
  - by exists s''.
Qed.

(** [fat_free_chain] of a proper chain returns and frees exactly its clusters:
    every other entry of the table, and every sector outside the table, keeps its
    value. *)
Theorem fat_free_chain_correct s start cs :
  st_ok s -> chain s start cs -> NoDup cs ->
  exists s', fat_free_chain start s = Ret (true, s') /\ st_ok s' /\ fs s' = fs s /\
    (forall c, fat_index s c -> fat_entry s' c = if decide (c ∈ cs) then 0 else fat_entry s c) /\
    (forall x, x < fat_start_lba (fs s) \/ data_start_lba (fs s) <= x -> view s' x = view s x).
Proof.
  intros Hs Hc Hnd. pose proof (chain_fuel_enough s start cs Hc Hnd) as Hf.
  destruct (fat_free_loop_spec cs (chain_fuel (fs s)) start s Hs Hc Hnd) as (s' & Heq & F1 & F2 & _ & F3 & F4 & _);
    [lia |].
  exists s'. unfold fat_free_chain. rewrite (st_bind_ret get_fs _ s (fs s) s eq_refl). by split_and!.
Qed.

(** C15: [fat_alloc_cluster] takes the first free cluster from 2 on, marks it as the
    end of a chain in every copy of the FAT and changes nothing else; it gives up
    exactly when no cluster below [total_clusters] is free, although the volume's
    last two clusters, [total_clusters] and [total_clusters + 1], may be. *)
Theorem fat_alloc_correct s : st_ok s ->
  exists r s', fat_alloc_cluster s = Ret (r, s') /\
  match r with
  | Some k => 2 <= k < total_clusters (fs s) /\ fat_entry s k = 0 /\
      (forall k', 2 <= k' < k -> fat_entry s k' <> 0) /\
      (forall copy c, 0 <= copy < fat_count (fs s) -> fat_index s c ->
         fat_raw (fs s) (view s') copy c =
           if decide (c = k) then 0x0FFFFFFF else fat_raw (fs s) (view s) copy c) /\
      (forall x, x < fat_start_lba (fs s) \/ data_start_lba (fs s) <= x -> view s' x = view s x)
  | None => (forall x, view s' x = view s x) /\
      forall k, cluster_ok (fs s) k -> fat_entry s k = 0 ->
        k = total_clusters (fs s) \/ k = total_clusters (fs s) + 1
  end.
Proof.
  intros Hs. destruct (fat_alloc_spec s Hs) as (r & s' & Heq & Hr). exists r, s'. split; [done |].
  destruct r as [k|].
  - destruct Hr as (H1 & H2 & H3 & _ & _ & _ & H4 & H5). destruct H1. by split_and!.
  - destruct Hr as ((_ & _ & _ & Hv) & Hno). split; [done |].
    intros k Hk Hz. unfold cluster_ok in Hk.
    destruct (decide (k < total_clusters (fs s))); [| lia]. by destruct (Hno k); [lia |].
Qed.
End Props.
