(* ===== verification/FatExamples.v ===== *)
(** * A disk in memory, and the FAT32 theorems on a small volume

    [mem_disk] is a [BlockDev] whose state is the list of its sectors. *)
From S2P Require Import Prelude Interfaces Fat FatDir FatFile FatTable FatData FatIO FatWrite FatWriteProps.

Record disk := Disk { sectors : list (list Z) }.
Definition blank : list Z := repeat 0 512.
Definition disk_view (d : disk) (lba : Z) : list Z :=
  if 0 <=? lba then default blank (sectors d !! Z.to_nat lba) else blank.
Definition disk_cap (d : disk) : Z := Z.of_nat (length (sectors d)).
Definition sector_ok (b : list Z) : Prop := length b = 512%nat /\ Forall is_u8 b.
Definition in_disk (d : disk) (lba : Z) : bool := (0 <=? lba) && (lba <? disk_cap d).
Lemma in_disk_true d lba : 0 <= lba < disk_cap d -> in_disk d lba = true.
Proof. intros H. apply andb_true_iff. lia. Qed.
Definition disk_read (lba : Z) (d : disk) : option (list Z) * disk :=
  (if in_disk d lba then Some (disk_view d lba) else None, d).
Definition disk_write (lba : Z) (b : list Z) (d : disk) : bool * disk :=
  if in_disk d lba then (true, Disk (<[Z.to_nat lba := b]> (sectors d)))
  else (false, d).

Lemma blank_ok : sector_ok blank.
Proof.
  split; [reflexivity |]. unfold blank. apply Forall_forall. intros x Hx.
  apply list_elem_of_In, repeat_spec in Hx. subst x. unfold is_u8. lia.
Qed.

Lemma disk_sector_ok d lba : Forall sector_ok (sectors d) -> sector_ok (disk_view d lba).
Proof.
  intros Hd. unfold disk_view. case_match; [| apply blank_ok].
  destruct (sectors d !! Z.to_nat lba) eqn:E; [| apply blank_ok]. cbn.
  by apply (Forall_lookup_1 _ _ _ _ Hd E).
Qed.

Program Instance mem_disk : BlockDev disk := {|
  bd_read := disk_read; bd_write := disk_write;
  bd_ok := fun d => Forall sector_ok (sectors d);
  bd_cap := disk_cap; bd_view := disk_view;
|}.
Next Obligation.
  intros lba d Hd Hl. cbn in *. exists d. unfold disk_read. rewrite in_disk_true by done. by split_and!.
Qed.
Next Obligation.
  intros lba b d Hd Hl Hlen Hb. cbn in *. unfold disk_write. rewrite in_disk_true by done.
  exists (Disk (<[Z.to_nat lba:=b]> (sectors d))). split_and!; [done | | |].
  - cbn. by apply Forall_insert.
  - unfold disk_cap. cbn. by rewrite length_insert.
  - intros x. unfold disk_view. cbn. case_decide as E.
    + subst x. rewrite (proj2 (Z.leb_le _ _)) by lia. rewrite list_lookup_insert_eq; [done | unfold disk_cap in Hl; lia].
    + destruct (Z.leb_spec 0 x); [| done]. rewrite list_lookup_insert_ne by lia. done.
Qed.
Next Obligation. intros d lba Hd. by apply disk_sector_ok. Qed.

(** ** A volume of eight clusters of one sector: [2] is the directory, [3] a file *)
Definition vol : fat32_fs := Fat32Fs 512 1 0 2 1 10 2 0 2 8 0 true.
Definition fat_image : list Z :=
  splice blank 0 ([0xF8; 0xFF; 0xFF; 0x0F; 0xFF; 0xFF; 0xFF; 0x0F] ++ [0xFF; 0xFF; 0xFF; 0x0F]
                  ++ [0xFF; 0xFF; 0xFF; 0x0F]).
Definition file_ent : list Z :=
  [65; 32; 32; 32; 32; 32; 32; 32; 84; 88; 84; 0x20] ++ repeat 0 14 ++ [3; 0; 4; 0; 0; 0].
Definition image : disk :=
  Disk ([fat_image; fat_image; splice blank 0 file_ent; splice blank 0 [100; 101; 102; 103]]
        ++ repeat blank 6).
Definition s0 : fstate disk := FState vol blank image.

Definition byteb (x : Z) : bool := (0 <=? x) && (x <? 256).
Lemma bytes_check l : forallb byteb l = true -> Forall is_u8 l.
Proof.
  intros H. apply Forall_forall. intros x Hx. rewrite list_elem_of_In in Hx.
  rewrite forallb_forall in H. specialize (H x Hx). unfold byteb, is_u8 in *. lia.
Qed.
Lemma sectors_check l : forallb (fun b => Nat.eqb (length b) 512 && forallb byteb b) l = true ->
  Forall sector_ok l.
Proof.
  intros H. apply Forall_forall. intros b Hb. rewrite list_elem_of_In in Hb.
  rewrite forallb_forall in H. specialize (H b Hb).
  apply andb_true_iff in H as [H1%Nat.eqb_eq H2]. split; [done | by apply bytes_check].
Qed.

Lemma s0_ok : st_ok s0.
Proof.
  split.
  - apply sectors_check. vm_compute. reflexivity.
  - change (bd_cap (dev s0)) with 10. split; cbn [fs s0 vol bytes_per_sector sectors_per_cluster fat_count fat_size
      fat_start_lba data_start_lba total_clusters]; lia.
  - reflexivity.
  - apply blank_ok.
Qed.
Lemma s0_chain : file_chain s0 (dirent_first_cluster file_ent) [3].
Proof.
  split; [apply NoDup_singleton |]. split.
  { constructor; [| constructor]. unfold cluster_ok. cbn. lia. }
  right. exists [], 3. split; [reflexivity |].
  assert (fat_entry s0 3 = 0x0FFFFFFF) as E by (vm_compute; reflexivity).
  split; [| unfold is_eoc; rewrite E; lia].
  cbn [chain]. split; [vm_compute; reflexivity |]. split; [reflexivity |].
  split; [unfold fat_index; cbn; lia | by rewrite E].
Qed.

Lemma file_write_read_witness :
  (st_ok s0 /\ file_chain s0 3 [3]) /\
  exists ok s', write_entry file_ent 2 0 [104; 105] true s0 = Ret (ok, s') /\
    write_result s0 file_ent 2 0 [3] [104; 105] true ok s' /\
    (ok = true -> let e := dirent_at s' 2 0 in
       ent_size e = Z.of_nat (length (kept s0 file_ent [3] true ++ [104; 105])) /\
       exists s'', read_chain (chain_fuel (fs s')) (dirent_first_cluster e) (ent_size e) 0
           (repeat None (Z.to_nat (ent_size e + 1))) s' =
         Ret (Some ((Some <$> kept s0 file_ent [3] true ++ [104; 105]) ++ [None]), s'')).
Proof.
  split; [exact (conj s0_ok s0_chain) |].
  apply (file_write_read s0 file_ent 2 0 [3] [104; 105] true).
  - exact s0_ok.
  - split; [unfold cluster_ok; cbn; lia | cbn; lia | reflexivity].
  - assert (fat_entry s0 2 = 0x0FFFFFFF) as -> by (vm_compute; reflexivity). lia.
  - intros Hin%list_elem_of_singleton. lia.
  - reflexivity.
  - apply bytes_check. reflexivity.
  - exact s0_chain.
  - rewrite contents_length; [| exact s0_ok]. vm_compute. discriminate.
  - apply bytes_check. reflexivity.
  - discriminate.
  - vm_compute. discriminate.
Defined.

Lemma fat_free_chain_correct_witness :
  (st_ok s0 /\ chain s0 3 [3]) /\
  exists s', fat_free_chain 3 s0 = Ret (true, s') /\ st_ok s' /\ fs s' = fs s0 /\
    (forall c, fat_index s0 c -> fat_entry s' c = if decide (c ∈ [3]) then 0 else fat_entry s0 c) /\
    (forall x, x < fat_start_lba (fs s0) \/ data_start_lba (fs s0) <= x -> view s' x = view s0 x).
Proof.
  assert (Hc : chain s0 3 [3]).
  { assert (fat_entry s0 3 = 0x0FFFFFFF) as E by (vm_compute; reflexivity).
    cbn [chain]. split; [reflexivity |]. split; [reflexivity |].
    split; [unfold fat_index; cbn; lia | by rewrite E]. }
  split; [exact (conj s0_ok Hc) |].
  apply (fat_free_chain_correct s0 3 [3]); [exact s0_ok | exact Hc | apply NoDup_singleton].
Defined.

Lemma fat_alloc_correct_witness :
  st_ok s0 /\ exists r s', fat_alloc_cluster s0 = Ret (r, s') /\
  match r with
  | Some k => 2 <= k < total_clusters (fs s0) /\ fat_entry s0 k = 0 /\
      (forall k', 2 <= k' < k -> fat_entry s0 k' <> 0) /\
      (forall copy c, 0 <= copy < fat_count (fs s0) -> fat_index s0 c ->
         fat_raw (fs s0) (view s') copy c =
           if decide (c = k) then 0x0FFFFFFF else fat_raw (fs s0) (view s0) copy c) /\
      (forall x, x < fat_start_lba (fs s0) \/ data_start_lba (fs s0) <= x -> view s' x = view s0 x)
  | None => (forall x, view s' x = view s0 x) /\
      forall k, cluster_ok (fs s0) k -> fat_entry s0 k = 0 ->
        k = total_clusters (fs s0) \/ k = total_clusters (fs s0) + 1
  end.
Proof. split; [exact s0_ok | exact (fat_alloc_correct s0 s0_ok)]. Defined.

(** ["notes_2026.txt"], a name of two long-name slots. *)
Definition long_name : list Z := [110; 111; 116; 101; 115; 95; 50; 48; 50; 54; 46; 116; 120; 116].
Definition returns {A} (x : A) (r : res (A * fstate disk)) : Prop :=
  exists s, r = Ret (x, s).

(** A new file with a long name is lost by the write that creates it.  Creating
    the entry makes it visible under its name, but [fat_create_entry] reports the
    position of the first long-name slot, and [fat_write_file] overwrites that slot
    with the short entry: after a write that returns 1 no entry has the name. *)
Theorem long_name_write_lost :
  returns true ((e ← fat_create_entry 2 long_name 0x20; f ← fat_find_entry 2 long_name;
                 mret (bool_decide (fst <$> (fst <$> f) = fst <$> (fst <$> e)) && bool_decide (is_Some f))) s0) /\
  returns true (fat_write_file 2 long_name [1; 2; 3] false s0) /\
  returns None ((_ ← fat_write_file 2 long_name [1; 2; 3] false; fat_find_entry 2 long_name) s0).
Proof. split_and!; eexists; vm_compute; reflexivity. Qed.
