(* ===== verification/Net.v ===== *)
(** * Network stack ([src/src/services/net.c])

    The statics of the file, one function per C function.  A received frame is the
    memory from the pointer the driver passes to the end of its buffer, with the
    length given; a read outside that memory is a [Fault].  The card is a [Nic]
    (interface file); the value of [ticks] is an argument ([tk]).  Addresses and
    ports in packets have network byte order: fields are written and read as the
    little-endian words the processor stores. *)
From S2P Require Import Prelude Interfaces.

Definition ETH_TYPE_IPV4 : Z := 0x0800.
Definition ETH_TYPE_ARP : Z := 0x0806.
Definition IP_PROTO_TCP : Z := 6.
Definition IP_PROTO_UDP : Z := 17.
Definition DHCP_CLIENT_PORT : Z := 68.
Definition DHCP_SERVER_PORT : Z := 67.
Definition DNS_CLIENT_PORT : Z := 49152.
Definition DNS_SERVER_PORT : Z := 53.
Definition TCP_FLAG_FIN : Z := 0x01.
Definition TCP_FLAG_SYN : Z := 0x02.
Definition TCP_FLAG_PSH : Z := 0x08.
Definition TCP_FLAG_ACK : Z := 0x10.
Definition ARP_CACHE_SIZE : nat := 8.
Definition PIT_HZ : Z := 60.

Record arp_entry := ArpEntry { a_ip : Z; a_mac : list Z; a_last_seen : Z; a_valid : bool }.

Inductive dhcp_state_t := DHCP_INIT | DHCP_DISCOVER_SENT | DHCP_REQUEST_SENT | DHCP_BOUND.
Inductive tcp_state_t := TCP_CLOSED | TCP_SYN_SENT | TCP_ESTABLISHED | TCP_FIN_WAIT | TCP_CLOSE_WAIT.
#[export] Instance dhcp_state_eq : EqDecision dhcp_state_t. Proof. solve_decision. Defined.
#[export] Instance tcp_state_eq : EqDecision tcp_state_t. Proof. solve_decision. Defined.

(** The address configuration, the DHCP client, the DNS client and the connection. *)
Record config := Config {
  local_mac : list Z; local_ip : Z; netmask : Z; gateway : Z; dns_server : Z; net_ready : bool;
}.
Record dhcp_client := Dhcp {
  dhcp_state : dhcp_state_t; dhcp_xid : Z; dhcp_server : Z; dhcp_offer_ip : Z; dhcp_last_send : Z;
}.
Record dns_client := Dns { dns_pending : bool; dns_txid : Z; dns_result_ip : Z }.
Record tcp_conn_t := Tcp {
  state : tcp_state_t; dest_ip : Z; dest_port : Z; src_port : Z;
  snd_nxt : Z; snd_una : Z; rcv_nxt : Z;
  recv_buf : list Z; recv_len : Z; recv_read : Z;
  last_payload : list Z; last_len : Z; last_flags : Z; last_seq : Z; last_send_tick : Z;
  waiting_ack : bool;
}.

Definition set_state x c : tcp_conn_t :=
  Tcp x (dest_ip c) (dest_port c) (src_port c) (snd_nxt c) (snd_una c) (rcv_nxt c) (recv_buf c)
    (recv_len c) (recv_read c) (last_payload c) (last_len c) (last_flags c) (last_seq c)
    (last_send_tick c) (waiting_ack c).
Definition set_snd_nxt x c : tcp_conn_t :=
  Tcp (state c) (dest_ip c) (dest_port c) (src_port c) x (snd_una c) (rcv_nxt c) (recv_buf c)
    (recv_len c) (recv_read c) (last_payload c) (last_len c) (last_flags c) (last_seq c)
    (last_send_tick c) (waiting_ack c).
Definition set_snd_una x c : tcp_conn_t :=
  Tcp (state c) (dest_ip c) (dest_port c) (src_port c) (snd_nxt c) x (rcv_nxt c) (recv_buf c)
    (recv_len c) (recv_read c) (last_payload c) (last_len c) (last_flags c) (last_seq c)
    (last_send_tick c) (waiting_ack c).
Definition set_rcv_nxt x c : tcp_conn_t :=
  Tcp (state c) (dest_ip c) (dest_port c) (src_port c) (snd_nxt c) (snd_una c) x (recv_buf c)
    (recv_len c) (recv_read c) (last_payload c) (last_len c) (last_flags c) (last_seq c)
    (last_send_tick c) (waiting_ack c).
Definition set_recv b n r c : tcp_conn_t :=
  Tcp (state c) (dest_ip c) (dest_port c) (src_port c) (snd_nxt c) (snd_una c) (rcv_nxt c) b n r
    (last_payload c) (last_len c) (last_flags c) (last_seq c) (last_send_tick c) (waiting_ack c).
Definition set_last p n f q t c : tcp_conn_t :=
  Tcp (state c) (dest_ip c) (dest_port c) (src_port c) (snd_nxt c) (snd_una c) (rcv_nxt c)
    (recv_buf c) (recv_len c) (recv_read c) p n f q t (waiting_ack c).
Definition set_waiting x c : tcp_conn_t :=
  Tcp (state c) (dest_ip c) (dest_port c) (src_port c) (snd_nxt c) (snd_una c) (rcv_nxt c)
    (recv_buf c) (recv_len c) (recv_read c) (last_payload c) (last_len c) (last_flags c)
    (last_seq c) (last_send_tick c) x.

Record net (N : Type) := Net {
  cfg : config; arp_cache : list arp_entry; ip_id : Z; dhcp : dhcp_client; tcp_conn : tcp_conn_t;
  dns : dns_client; nic : N;
}.
Arguments Net {N}. Arguments cfg {N}. Arguments arp_cache {N}. Arguments ip_id {N}.
Arguments dhcp {N}. Arguments tcp_conn {N}. Arguments dns {N}. Arguments nic {N}.

(** ** Byte order and checksums *)
Definition net_htons (v : Z) : Z := u16 (Z.lor (Z.shiftl v 8) (Z.shiftr v 8)).
Definition net_htonl (v : Z) : Z :=
  u32 (Z.lor (Z.lor (Z.lor (Z.shiftl (Z.land v 0x000000FF) 24) (Z.shiftl (Z.land v 0x0000FF00) 8))
                    (Z.shiftr (Z.land v 0x00FF0000) 8)) (Z.shiftr (Z.land v 0xFF000000) 24)).

(** Reads of [n] bytes at [p + o]. *)
Definition rd_bytes (p : list Z) (o n : Z) : res (list Z) :=
  if (0 <=? o) && (o + n <=? Z.of_nat (length p)) then Ret (slice o n p) else Fault.
Definition rd8 (p : list Z) (o : Z) : res Z := b ← rd_bytes p o 1; Ret (le_num b).
Definition rd16 (p : list Z) (o : Z) : res Z := b ← rd_bytes p o 2; Ret (le_num b).
Definition rd32 (p : list Z) (o : Z) : res Z := b ← rd_bytes p o 4; Ret (le_num b).

(** The two summing loops of [checksum16], over the [len] bytes. *)
Fixpoint sum_words (buf : list Z) (sum : Z) : Z :=
  match buf with
  | a :: b :: buf => sum_words buf (u32 (sum + u16 (Z.lor (Z.shiftl a 8) b)))
  | [a] => u32 (sum + u16 (Z.shiftl a 8))
  | [] => sum
  end.
(** [while (sum >> 16)]: at most two rounds for a 32-bit sum. *)
Fixpoint fold_sum (fuel : nat) (sum : Z) : res Z :=
  if Z.shiftr sum 16 =? 0 then Ret sum else
  match fuel with
  | O => Spin
  | S fuel => fold_sum fuel (u32 (Z.land sum 0xFFFF + Z.shiftr sum 16))
  end.
Definition checksum16 (buf : list Z) : res Z :=
  s ← fold_sum 2 (sum_words buf 0); Ret (u16 (Z.lnot s)).
Definition checksum_tcp (src dst : Z) (tcp : list Z) : res Z :=
  let pseudo := le_bytes 4 src ++ le_bytes 4 dst ++ [0; IP_PROTO_TCP]
                ++ le_bytes 2 (net_htons (Z.of_nat (length tcp))) in
  s ← fold_sum 2 (sum_words tcp (sum_words pseudo 0)); Ret (u16 (Z.lnot s)).

(** ** The ARP cache *)
Fixpoint arp_slot (l : list arp_entry) (i : Z) (ip slot : Z) : Z :=
  match l with
  | [] => slot
  | e :: l =>
      if a_valid e && (a_ip e =? ip) then i
      else arp_slot l (i + 1) ip (if negb (a_valid e) && (slot <? 0) then i else slot)
  end.
Definition arp_cache_update (tk ip : Z) (mac : list Z) (l : list arp_entry) : res (list arp_entry) :=
  let slot := arp_slot l 0 ip (-1) in
  zset l (if slot <? 0 then 0 else slot) (ArpEntry ip mac tk true).
Fixpoint arp_cache_lookup (ip : Z) (l : list arp_entry) : option (list Z) :=
  match l with
  | [] => None
  | e :: l => if a_valid e && (a_ip e =? ip) then Some (a_mac e) else arp_cache_lookup ip l
  end.

Section Code.
Context {N : Type} `{!Nic N}.
Definition M (A : Type) : Type := st (net N) A.

Definition get_cfg : M config := fun s => Ret (cfg s, s).
Definition get_tcp : M tcp_conn_t := fun s => Ret (tcp_conn s, s).
Definition get_dhcp : M dhcp_client := fun s => Ret (dhcp s, s).
Definition get_dns : M dns_client := fun s => Ret (dns s, s).
Definition get_arp : M (list arp_entry) := fun s => Ret (arp_cache s, s).
Definition put_cfg x : M () := fun s =>
  Ret ((), Net x (arp_cache s) (ip_id s) (dhcp s) (tcp_conn s) (dns s) (nic s)).
Definition put_arp x : M () := fun s =>
  Ret ((), Net (cfg s) x (ip_id s) (dhcp s) (tcp_conn s) (dns s) (nic s)).
Definition put_dhcp x : M () := fun s =>
  Ret ((), Net (cfg s) (arp_cache s) (ip_id s) x (tcp_conn s) (dns s) (nic s)).
Definition put_tcp x : M () := fun s =>
  Ret ((), Net (cfg s) (arp_cache s) (ip_id s) (dhcp s) x (dns s) (nic s)).
Definition put_dns x : M () := fun s =>
  Ret ((), Net (cfg s) (arp_cache s) (ip_id s) (dhcp s) (tcp_conn s) x (nic s)).
(** [(u16)ip_id++] *)
Definition next_id : M Z := fun s =>
  Ret (u16 (ip_id s), Net (cfg s) (arp_cache s) (u32 (ip_id s + 1)) (dhcp s) (tcp_conn s) (dns s) (nic s)).
Definition e1000_send (frame : list Z) : M bool := fun s =>
  let (ok, n) := nic_send frame (nic s) in
  Ret (ok, Net (cfg s) (arp_cache s) (ip_id s) (dhcp s) (tcp_conn s) (dns s) n).

(** ** Sending *)
Definition net_send_frame (dst : list Z) (eth_type : Z) (payload : list Z) : M bool :=
  if 1514 <? Z.of_nat (length payload) + 14 then mret false else
  c ← get_cfg;
  e1000_send (dst ++ local_mac c ++ le_bytes 2 (net_htons eth_type) ++ payload).

Definition arp_pkt (oper : Z) (sha : list Z) (spa : Z) (tha : list Z) (tpa : Z) : list Z :=
  le_bytes 2 (net_htons 1) ++ le_bytes 2 (net_htons ETH_TYPE_IPV4) ++ [6; 4]
  ++ le_bytes 2 (net_htons oper) ++ sha ++ le_bytes 4 spa ++ tha ++ le_bytes 4 tpa.

Definition arp_send_request (target_ip : Z) : M () :=
  c ← get_cfg;
  _ ← net_send_frame (repeat 0xFF 6) ETH_TYPE_ARP
        (arp_pkt 1 (local_mac c) (local_ip c) (repeat 0 6) target_ip);
  mret ().
Definition arp_send_reply (target_mac : list Z) (target_ip : Z) : M () :=
  c ← get_cfg;
  _ ← net_send_frame target_mac ETH_TYPE_ARP
        (arp_pkt 2 (local_mac c) (local_ip c) target_mac target_ip);
  mret ().

(** The header with a zero checksum field. *)
Definition ipv4_header (len id proto src dst : Z) : list Z :=
  [0x45; 0] ++ le_bytes 2 (net_htons (u16 (20 + len))) ++ le_bytes 2 (net_htons id)
  ++ le_bytes 2 (net_htons 0x4000) ++ [64; proto; 0; 0] ++ le_bytes 4 src ++ le_bytes 4 dst.

(** The destination's hardware address, [None] when it has to be asked for. *)
Definition next_hop (c : config) (dest : Z) : Z :=
  if negb (netmask c =? 0) && negb (gateway c =? 0)
     && negb (Z.land (local_ip c) (netmask c) =? Z.land dest (netmask c))
  then gateway c else dest.

Definition net_send_ipv4 (dest proto : Z) (payload : list Z) : M bool :=
  c ← get_cfg;
  arp ← get_arp;
  dst_mac ← (if (dest =? 0xFFFFFFFF) || (local_ip c =? 0) then mret (Some (repeat 0xFF 6)) else
             match arp_cache_lookup (next_hop c dest) arp with
             | Some mac => mret (Some mac)
             | None => _ ← arp_send_request (next_hop c dest); mret None
             end : M (option (list Z)));
  match dst_mac with
  | None => mret false
  | Some dst_mac =>
      let len := Z.of_nat (length payload) in
      if 1500 <? 20 + len then mret false else
      id ← next_id;
      let ip := ipv4_header len id proto (local_ip c) dest in
      sum ← st_lift (checksum16 ip);
      net_send_frame dst_mac ETH_TYPE_IPV4 (splice ip 10 (le_bytes 2 sum) ++ payload)
  end.

Definition net_send_udp (dest src_port dst_port : Z) (data : list Z) : M bool :=
  let len := Z.of_nat (length data) in
  if 1500 <? 20 + 8 + len then mret false else
  net_send_ipv4 dest IP_PROTO_UDP
    (le_bytes 2 (net_htons src_port) ++ le_bytes 2 (net_htons dst_port)
     ++ le_bytes 2 (net_htons (u16 (8 + len))) ++ [0; 0] ++ data).

Definition tcp_header (c : tcp_conn_t) (flags : Z) : list Z :=
  le_bytes 2 (net_htons (src_port c)) ++ le_bytes 2 (net_htons (dest_port c))
  ++ le_bytes 4 (net_htonl (snd_nxt c)) ++ le_bytes 4 (net_htonl (rcv_nxt c))
  ++ le_bytes 2 (net_htons (u16 (Z.lor (Z.shiftl 5 12) flags))) ++ le_bytes 2 (net_htons 4096)
  ++ [0; 0] ++ [0; 0].

(** What [tcp_send_segment] records after it sent. *)
Definition tcp_sent (tk flags : Z) (data : list Z) (c : tcp_conn_t) : tcp_conn_t :=
  let len := Z.of_nat (length data) in
  let p := if (0 <? len) && (len <=? 1460) then splice (last_payload c) 0 data else last_payload c in
  let c := set_last p len flags (snd_nxt c) tk c in
  let syn_fin := negb (Z.land flags (Z.lor TCP_FLAG_SYN TCP_FLAG_FIN) =? 0) in
  let c := set_snd_nxt (u32 (snd_nxt c + (if syn_fin then 1 else len))) c in
  if syn_fin || (0 <? len) then set_waiting true c else c.

Definition tcp_send_segment (tk flags : Z) (data : list Z) : M () :=
  if 1500 <? 20 + Z.of_nat (length data) then mret () else
  c ← get_tcp; f ← get_cfg;
  let packet := tcp_header c flags ++ data in
  sum ← st_lift (checksum_tcp (local_ip f) (dest_ip c) packet);
  _ ← net_send_ipv4 (dest_ip c) IP_PROTO_TCP (splice packet 16 (le_bytes 2 sum));
  c ← get_tcp; put_tcp (tcp_sent tk flags data c).

(** ** ARP *)
Definition arp_handle (tk : Z) (p : list Z) (len : Z) : M () :=
  if len <? 28 then mret () else
  htype ← st_lift (rd16 p 0); ptype ← st_lift (rd16 p 2);
  if negb (htype =? net_htons 1) || negb (ptype =? net_htons ETH_TYPE_IPV4) then mret () else
  hlen ← st_lift (rd8 p 4); plen ← st_lift (rd8 p 5);
  if negb (hlen =? 6) || negb (plen =? 4) then mret () else
  oper ← st_lift (rd16 p 6);
  if oper =? net_htons 2 then
    spa ← st_lift (rd32 p 14); sha ← st_lift (rd_bytes p 8 6);
    arp ← get_arp; arp ← st_lift (arp_cache_update tk spa sha arp); put_arp arp
  else if oper =? net_htons 1 then
    c ← get_cfg;
    tpa ← st_lift (rd32 p 24);
    if negb (local_ip c =? 0) && (tpa =? local_ip c)
    then sha ← st_lift (rd_bytes p 8 6); spa ← st_lift (rd32 p 14); arp_send_reply sha spa
    else mret ()
  else mret ().

(** ** DHCP *)
(** The message up to its options. *)
Definition dhcp_header (mac : list Z) (xid : Z) : list Z :=
  [1; 1; 6; 0] ++ le_bytes 4 (net_htonl xid) ++ [0; 0] ++ le_bytes 2 (net_htons 0x8000)
  ++ repeat 0 16 ++ mac ++ repeat 0 10 ++ repeat 0 64 ++ repeat 0 128
  ++ le_bytes 4 (net_htonl 0x63825363).
Definition discover_options : list Z := [53; 1; 1; 55; 3; 1; 3; 6; 255].
Definition request_options (offer_ip server : Z) : list Z :=
  [53; 1; 3; 50; 4] ++ le_bytes 4 offer_ip ++ [54; 4] ++ le_bytes 4 server ++ [55; 3; 1; 3; 6; 255].

Definition dhcp_sent (tk : Z) (x : dhcp_state_t) (d : dhcp_client) : dhcp_client :=
  Dhcp x (dhcp_xid d) (dhcp_server d) (dhcp_offer_ip d) tk.

Definition dhcp_send_discover (tk : Z) : M () :=
  c ← get_cfg; d ← get_dhcp;
  _ ← net_send_udp 0xFFFFFFFF DHCP_CLIENT_PORT DHCP_SERVER_PORT
        (dhcp_header (local_mac c) (dhcp_xid d) ++ discover_options);
  d ← get_dhcp; put_dhcp (dhcp_sent tk DHCP_DISCOVER_SENT d).
Definition dhcp_send_request (tk : Z) : M () :=
  c ← get_cfg; d ← get_dhcp;
  _ ← net_send_udp 0xFFFFFFFF DHCP_CLIENT_PORT DHCP_SERVER_PORT
        (dhcp_header (local_mac c) (dhcp_xid d) ++ request_options (dhcp_offer_ip d) (dhcp_server d));
  d ← get_dhcp; put_dhcp (dhcp_sent tk DHCP_REQUEST_SENT d).

Record dhcp_opts := DhcpOpts {
  msg_type : Z; server_id : Z; subnet : Z; router : Z; opt_dns : Z;
}.
(** One option: its tag, its length and where its value starts. *)
Definition dhcp_opt (p : list Z) (tag olen o : Z) (a : dhcp_opts) : res dhcp_opts :=
  let '(DhcpOpts t s m r d) := a in
  if (tag =? 53) && (olen =? 1) then v ← rd8 p o; Ret (DhcpOpts v s m r d)
  else if (tag =? 54) && (olen =? 4) then v ← rd32 p o; Ret (DhcpOpts t v m r d)
  else if (tag =? 1) && (olen =? 4) then v ← rd32 p o; Ret (DhcpOpts t s v r d)
  else if (tag =? 3) && (4 <=? olen) then v ← rd32 p o; Ret (DhcpOpts t s m v d)
  else if (tag =? 6) && (4 <=? olen) then v ← rd32 p o; Ret (DhcpOpts t s m r v)
  else Ret a.

(** [while (opt < end && *opt != 255)] with [opt] and [end] as offsets. *)
Fixpoint dhcp_options (fuel : nat) (p : list Z) (opt end_ : Z) (a : dhcp_opts) : res dhcp_opts :=
  if negb (opt <? end_) then Ret a else
  match fuel with
  | O => Spin
  | S fuel =>
      tag ← rd8 p opt;
      if tag =? 255 then Ret a else
      if tag =? 0 then dhcp_options fuel p (opt + 1) end_ a else
      if end_ <=? opt + 1 then Ret a else
      olen ← rd8 p (opt + 1);
      if end_ <? opt + 2 + olen then Ret a else
      a ← dhcp_opt p tag olen (opt + 2) a;
      dhcp_options fuel p (opt + 2 + olen) end_ a
  end.

Definition dhcp_handle (tk : Z) (p : list Z) (len : Z) : M () :=
  if len <? 240 then mret () else
  d ← get_dhcp;
  op ← st_lift (rd8 p 0);
  if negb (op =? 2) then mret () else
  xid ← st_lift (rd32 p 4);
  if negb (net_htonl xid =? dhcp_xid d) then mret () else
  magic ← st_lift (rd32 p 236);
  if negb (magic =? net_htonl 0x63825363) then mret () else
  a ← st_lift (dhcp_options (Z.to_nat len) p 240 len (DhcpOpts 0 0 0 0 0));
  if (msg_type a =? 2) && bool_decide (dhcp_state d = DHCP_DISCOVER_SENT) then
    yiaddr ← st_lift (rd32 p 16);
    _ ← put_dhcp (Dhcp (dhcp_state d) (dhcp_xid d) (server_id a) yiaddr (dhcp_last_send d));
    dhcp_send_request tk
  else if (msg_type a =? 5) && bool_decide (dhcp_state d = DHCP_REQUEST_SENT) then
    yiaddr ← st_lift (rd32 p 16);
    c ← get_cfg;
    _ ← put_cfg (Config (local_mac c) yiaddr (subnet a) (router a) (opt_dns a) true);
    put_dhcp (Dhcp DHCP_BOUND (dhcp_xid d) (dhcp_server d) (dhcp_offer_ip d) (dhcp_last_send d))
  else mret ().

(** ** DNS answers *)
Fixpoint dns_skip_name (fuel : nat) (q : list Z) (p end_ : Z) : res (option Z) :=
  if negb (p <? end_) then Ret None else
  match fuel with
  | O => Spin
  | S fuel =>
      len ← rd8 q p;
      if len =? 0 then Ret (Some (p + 1))
      else if Z.land len 0xC0 =? 0xC0 then
        if end_ <=? p + 1 then Ret None else Ret (Some (p + 2))
      else if end_ <? p + 1 + len then Ret None
      else dns_skip_name fuel q (p + 1 + len) end_
  end.

(** The loop over the questions: the cursor behind them. *)
Fixpoint dns_questions (n : nat) (q : list Z) (p end_ : Z) : res (option Z) :=
  match n with
  | O => Ret (Some p)
  | S n =>
      r ← dns_skip_name (Z.to_nat end_) q p end_;
      match r with
      | None => Ret None
      | Some p => if end_ <? p + 4 then Ret None else dns_questions n q (p + 4) end_
      end
  end.

(** The loop over the answers: [Some (Some ip)] for the first address, [Some None]
    when there is none, [None] for a malformed answer. *)
Fixpoint dns_answers (n : nat) (q : list Z) (p end_ : Z) : res (option (option Z)) :=
  match n with
  | O => Ret (Some None)
  | S n =>
      r ← dns_skip_name (Z.to_nat end_) q p end_;
      match r with
      | None => Ret None
      | Some p =>
          if end_ <? p + 10 then Ret None else
          type ← rd16 q p; class_ ← rd16 q (p + 2); rdlen ← rd16 q (p + 8);
          let rdlen := net_htons rdlen in
          let p := p + 10 in
          if end_ <? p + rdlen then Ret None else
          if (net_htons type =? 1) && (net_htons class_ =? 1) && (rdlen =? 4)
          then ip ← rd32 q p; Ret (Some (Some ip))
          else dns_answers n q (p + rdlen) end_
      end
  end.

Definition dns_handle (q : list Z) (len : Z) : M () :=
  d ← get_dns;
  if negb (dns_pending d) || (len <? 12) then mret () else
  id ← st_lift (rd16 q 0);
  if negb (id =? net_htons (dns_txid d)) then mret () else
  flags ← st_lift (rd16 q 2);
  if Z.land flags (net_htons 0x8000) =? 0 then mret () else
  qdcount ← st_lift (rd16 q 4); ancount ← st_lift (rd16 q 6);
  let qdcount := net_htons qdcount in
  let ancount := net_htons ancount in
  p ← st_lift (dns_questions (Z.to_nat qdcount) q 12 len);
  match p with
  | None => mret ()
  | Some p =>
      r ← st_lift (dns_answers (Z.to_nat ancount) q p len);
      match r with
      | None => mret ()
      | Some (Some ip) => put_dns (Dns false (dns_txid d) ip)
      | Some None => if ancount =? 0 then put_dns (Dns false (dns_txid d) (dns_result_ip d)) else mret ()
      end
  end.

(** ** TCP *)
(** [memcpy(recv_buf + recv_len, data, n)]: a [Fault] outside the buffer. *)
Definition buf_append (buf : list Z) (at_ : Z) (data : list Z) : res (list Z) :=
  if (0 <=? at_) && (at_ + Z.of_nat (length data) <=? Z.of_nat (length buf))
  then Ret (splice buf at_ data) else Fault.

Definition ack_update (flags ack : Z) (c : tcp_conn_t) : tcp_conn_t :=
  if Z.land flags TCP_FLAG_ACK =? 0 then c else
  let c := if snd_una c <? ack then set_snd_una ack c else c in
  if snd_nxt c <=? ack then set_waiting false c else c.

(** The in-order data of a segment; the result is [data_len] afterwards. *)
Definition tcp_data (tk seq : Z) (p : list Z) (hdr_len data_len : Z) : M Z :=
  c ← get_tcp;
  if (0 <? data_len) && (seq =? rcv_nxt c) then
    let space := u32 (65536 - recv_len c) in
    let data_len := if space <? data_len then u16 space else data_len in
    data ← st_lift (rd_bytes p hdr_len data_len);
    buf ← st_lift (buf_append (recv_buf c) (recv_len c) data);
    _ ← put_tcp (set_rcv_nxt (u32 (rcv_nxt c + data_len))
                   (set_recv buf (u32 (recv_len c + data_len)) (recv_read c) c));
    _ ← tcp_send_segment tk TCP_FLAG_ACK [];
    mret data_len
  else mret data_len.

Definition tcp_fin (tk flags seq data_len : Z) : M () :=
  if Z.land flags TCP_FLAG_FIN =? 0 then mret () else
  c ← get_tcp;
  _ ← put_tcp (set_rcv_nxt (u32 (seq + data_len + 1)) c);
  _ ← tcp_send_segment tk TCP_FLAG_ACK [];
  c ← get_tcp;
  put_tcp (set_state (if bool_decide (state c = TCP_ESTABLISHED) then TCP_CLOSE_WAIT else TCP_CLOSED) c).

Definition tcp_handle (tk : Z) (p : list Z) (len src_ip : Z) : M () :=
  if len <? 20 then mret () else
  sport ← st_lift (rd16 p 0); dport ← st_lift (rd16 p 2);
  seq ← st_lift (rd32 p 4); ack ← st_lift (rd32 p 8); off_flags ← st_lift (rd16 p 12);
  let sport := net_htons sport in
  let dport := net_htons dport in
  let seq := net_htonl seq in
  let ack := net_htonl ack in
  let off_flags := net_htons off_flags in
  let flags := Z.land off_flags 0x3F in
  let hdr_len := Z.land (Z.shiftr off_flags 12) 0xF * 4 in
  if (hdr_len <? 20) || (len <? hdr_len) then mret () else
  let data_len := u16 (len - hdr_len) in
  c ← get_tcp;
  if bool_decide (state c = TCP_SYN_SENT) then
    let syn_ack := Z.lor TCP_FLAG_SYN TCP_FLAG_ACK in
    if (Z.land flags syn_ack =? syn_ack) && (src_ip =? dest_ip c) && (sport =? dest_port c)
       && (dport =? src_port c) && (ack =? snd_nxt c) then
      _ ← put_tcp (set_state TCP_ESTABLISHED (set_waiting false (set_snd_una ack
                     (set_rcv_nxt (u32 (seq + 1)) c))));
      tcp_send_segment tk TCP_FLAG_ACK []
    else mret ()
  else if bool_decide (state c = TCP_ESTABLISHED) || bool_decide (state c = TCP_FIN_WAIT) then
    if negb (src_ip =? dest_ip c) || negb (sport =? dest_port c) || negb (dport =? src_port c)
    then mret () else
    _ ← put_tcp (ack_update flags ack c);
    data_len ← tcp_data tk seq p hdr_len data_len;
    tcp_fin tk flags seq data_len
  else mret ().

(** ** Receiving *)
Definition ipv4_handle (tk : Z) (p : list Z) (len : Z) : M () :=
  if len <? 20 then mret () else
  ver_ihl ← st_lift (rd8 p 0);
  if negb (Z.shiftr ver_ihl 4 =? 4) then mret () else
  let hdr_len := Z.land ver_ihl 0x0F * 4 in
  if (hdr_len <? 20) || (len <? hdr_len) then mret () else
  total_len ← st_lift (rd16 p 2);
  let total_len := net_htons total_len in
  let total_len := if len <? total_len then len else total_len in
  proto ← st_lift (rd8 p 9);
  if proto =? IP_PROTO_UDP then
    let udp_len := u16 (total_len - hdr_len) in
    if udp_len <? 8 then mret () else
    dport ← st_lift (rd16 p (hdr_len + 2));
    let dst_port := net_htons dport in
    let data_len := u16 (udp_len - 8) in
    let data := drop (Z.to_nat (hdr_len + 8)) p in
    if dst_port =? DHCP_CLIENT_PORT then dhcp_handle tk data data_len
    else if dst_port =? DNS_CLIENT_PORT then dns_handle data data_len
    else mret ()
  else if proto =? IP_PROTO_TCP then
    src ← st_lift (rd32 p 12);
    tcp_handle tk (drop (Z.to_nat hdr_len) p) (u16 (total_len - hdr_len)) src
  else mret ().

Definition net_rx_frame (tk : Z) (p : list Z) (len : Z) : M () :=
  if len <? 14 then mret () else
  type ← st_lift (rd16 p 12);
  let type := net_htons type in
  let payload := drop 14 p in
  let payload_len := u16 (len - 14) in
  if type =? ETH_TYPE_ARP then arp_handle tk payload payload_len
  else if type =? ETH_TYPE_IPV4 then ipv4_handle tk payload payload_len
  else mret ().

(** ** The calls of the other components *)
Definition net_zero (nic : N) : net N :=
  Net (Config (repeat 0 6) 0 0 0 0 false) (repeat (ArpEntry 0 (repeat 0 6) 0 false) ARP_CACHE_SIZE) 1
      (Dhcp DHCP_INIT 0 0 0 0)
      (Tcp TCP_CLOSED 0 0 0 0 0 0 (repeat 0 (Z.to_nat 65536)) 0 0 (repeat 0 (Z.to_nat 1460)) 0 0 0 0 false)
      (Dns false 0 0) nic.

Definition invalidate (e : arp_entry) : arp_entry := ArpEntry (a_ip e) (a_mac e) (a_last_seen e) false.

(** [mac] is what [e1000_init] stores, [None] when it fails. *)
Definition net_init (tk : Z) (mac : option (list Z)) : M () :=
  arp ← get_arp; _ ← put_arp (invalidate <$> arp);
  c ← get_cfg;
  _ ← put_cfg (Config (local_mac c) (local_ip c) (netmask c) (gateway c) (dns_server c) false);
  d ← get_dhcp; _ ← put_dhcp (Dhcp DHCP_INIT (dhcp_xid d) 0 0 0);
  match mac with
  | None => mret ()
  | Some mac =>
      c ← get_cfg;
      _ ← put_cfg (Config mac (local_ip c) (netmask c) (gateway c) (dns_server c) (net_ready c));
      d ← get_dhcp;
      _ ← put_dhcp (Dhcp (dhcp_state d) (u32 (Z.lxor tk 0xA5A5A5A5)) (dhcp_server d)
                      (dhcp_offer_ip d) (dhcp_last_send d));
      _ ← dhcp_send_discover tk;
      c ← get_tcp; put_tcp (set_recv (recv_buf c) 0 0 (set_state TCP_CLOSED c))
  end.

(** [e1000_poll] hands over the frames the card has received. *)
Fixpoint rx_frames (tk : Z) (frames : list (list Z * Z)) : M () :=
  match frames with
  | [] => mret ()
  | (p, len) :: frames => _ ← net_rx_frame tk p len; rx_frames tk frames
  end.

Definition tcp_retransmit (tk : Z) : M () :=
  c ← get_tcp;
  if bool_decide (state c = TCP_SYN_SENT) || waiting_ack c then
    if PIT_HZ <? u64 (tk - last_send_tick c) then
      if negb (Z.land (last_flags c) (Z.lor TCP_FLAG_SYN TCP_FLAG_FIN) =? 0) then
        _ ← put_tcp (set_snd_nxt (last_seq c) c); tcp_send_segment tk (last_flags c) []
      else if 0 <? last_len c then
        _ ← put_tcp (set_snd_nxt (last_seq c) c);
        data ← st_lift (rd_bytes (last_payload c) 0 (last_len c));
        tcp_send_segment tk (last_flags c) data
      else mret ()
    else mret ()
  else mret ().

Definition net_poll (tk : Z) (frames : list (list Z * Z)) : M () :=
  _ ← rx_frames tk frames;
  _ ← tcp_retransmit tk;
  d ← get_dhcp;
  if bool_decide (dhcp_state d = DHCP_BOUND) then mret () else
  if PIT_HZ * 2 <? u64 (tk - dhcp_last_send d) then dhcp_send_discover tk else mret ().

Definition is_up (c : config) : bool := net_ready c && negb (local_ip c =? 0).
Definition net_is_up : M bool := c ← get_cfg; mret (is_up c).
Definition net_get_ip : M Z := c ← get_cfg; mret (local_ip c).
Definition net_get_dns : M Z := c ← get_cfg; mret (dns_server c).
Definition net_get_netmask : M Z := c ← get_cfg; mret (netmask c).
Definition net_get_gateway : M Z := c ← get_cfg; mret (gateway c).

(** The loop over the labels of [host]: [len] is one byte, and as many characters
    are copied. *)
Fixpoint label (host : list Z) : list Z * list Z :=
  match host with
  | [] => ([], [])
  | c :: r => if c =? 46 then ([], host) else let (l, r) := label r in (c :: l, r)
  end.
Fixpoint dns_labels (fuel : nat) (host : list Z) : list Z :=
  match fuel, host with
  | S fuel, _ :: _ =>
      let (l, r) := label host in
      let len := u8 (Z.of_nat (length l)) in
      len :: take (Z.to_nat len) l ++ dns_labels fuel (match r with [] => [] | _ :: r => r end)
  | _, _ => []
  end.
Definition dns_query (txid : Z) (host : list Z) : list Z :=
  le_bytes 2 (net_htons txid) ++ le_bytes 2 (net_htons 0x0100) ++ le_bytes 2 (net_htons 1)
  ++ repeat 0 6 ++ dns_labels (length host) host ++ [0; 0; 1; 0; 1].

(** What a round of the waiting loop sees: the tick counter and the frames received. *)
Fixpoint dns_wait (fuel : nat) (env : nat -> Z * list (list Z * Z)) (i : nat) (start : Z) : M (option Z) :=
  let (tk, frames) := env i in
  if negb (u64 (tk - start) <? PIT_HZ * 3) then
    d ← get_dns; _ ← put_dns (Dns false (dns_txid d) (dns_result_ip d)); mret None
  else
  match fuel with
  | O => st_spin
  | S fuel =>
      _ ← net_poll tk frames;
      d ← get_dns;
      if negb (dns_pending d) && negb (dns_result_ip d =? 0) then mret (Some (dns_result_ip d))
      else dns_wait fuel env (S i) start
  end.

(** After the test of [net_is_up]; a query longer than [packet] is a [Fault]. *)
Definition dns_resolve_up (fuel : nat) (tk : Z) (env : nat -> Z * list (list Z * Z)) (host : list Z)
    : M (option Z) :=
  c ← get_cfg;
  _ ← put_cfg (if dns_server c =? 0
               then Config (local_mac c) (local_ip c) (netmask c) (gateway c) (net_htonl 0x08080808) (net_ready c)
               else c);
  let txid := u16 (Z.lxor tk 0x1234) in
  _ ← put_dns (Dns true txid 0);
  let packet := dns_query txid host in
  _ ← st_lift (if 256 <? Z.of_nat (length packet) then Fault else Ret ());
  c ← get_cfg;
  _ ← net_send_udp (dns_server c) DNS_CLIENT_PORT DNS_SERVER_PORT packet;
  dns_wait fuel env 0 tk.
Definition net_dns_resolve (fuel : nat) (tk : Z) (env : nat -> Z * list (list Z * Z)) (host : list Z)
    : M (option Z) :=
  up ← net_is_up;
  if negb up then mret None else dns_resolve_up fuel tk env host.

Definition net_tcp_connect (tk ip port : Z) : M bool :=
  up ← net_is_up;
  if negb up then mret false else
  c ← get_tcp;
  let isn := u32 (Z.lxor tk 0xA5A5C3) in
  _ ← put_tcp (Tcp TCP_SYN_SENT ip port (u16 (1024 + tk mod 40000)) isn isn 0 (recv_buf c) 0 0
                 (last_payload c) (last_len c) (last_flags c) (last_seq c) (last_send_tick c) false);
  _ ← tcp_send_segment tk TCP_FLAG_SYN [];
  mret true.

Definition net_tcp_is_established : M bool :=
  c ← get_tcp; mret (bool_decide (state c = TCP_ESTABLISHED)).
Definition net_tcp_send (tk : Z) (data : list Z) : M bool :=
  c ← get_tcp;
  if negb (bool_decide (state c = TCP_ESTABLISHED)) then mret false else
  match data with
  | [] => mret false
  | _ => _ ← tcp_send_segment tk (Z.lor TCP_FLAG_ACK TCP_FLAG_PSH) (take 1460 data); mret true
  end.
(** The bytes copied to [out]. *)
Definition net_tcp_recv (max : Z) : M (list Z) :=
  if max =? 0 then mret [] else
  c ← get_tcp;
  let available := u32 (recv_len c - recv_read c) in
  if available =? 0 then mret [] else
  let available := if max <? available then max else available in
  out ← st_lift (rd_bytes (recv_buf c) (recv_read c) available);
  _ ← put_tcp (set_recv (recv_buf c) (recv_len c) (u32 (recv_read c + available)) c);
  mret out.
Definition net_tcp_is_closed : M bool :=
  c ← get_tcp;
  mret (bool_decide (state c = TCP_CLOSED) || bool_decide (state c = TCP_CLOSE_WAIT)).
Definition net_tcp_close (tk : Z) : M () :=
  c ← get_tcp;
  if bool_decide (state c = TCP_ESTABLISHED) then
    _ ← tcp_send_segment tk (Z.lor TCP_FLAG_FIN TCP_FLAG_ACK) [];
    c ← get_tcp; put_tcp (set_state TCP_FIN_WAIT c)
  else mret ().
End Code.
