(* ===== verification/NetFacts.v ===== *)
(** * Network stack: byte order, checksums, the ARP cache and what sending does *)
From S2P Require Import Prelude Interfaces Net.

(** ** Byte order *)
Lemma lor_low a b n : 0 <= n -> 0 <= b < 2 ^ n -> Z.lor (Z.shiftl a n) b = a * 2 ^ n + b.
Proof. intros Hn Hb. rewrite Z.lor_comm, lor_shiftl by done. lia. Qed.

Lemma net_htons_eq v : is_u16 v -> net_htons v = v mod 256 * 256 + v / 256.
Proof.
  intros Hv. unfold is_u16 in Hv. unfold net_htons. rewrite Z.shiftr_div_pow2, lor_low by lia.
  unfold u16. change (2 ^ 8) with 256. change (2 ^ 16) with 65536. lia.
Qed.
Lemma net_htons_range v : is_u16 (net_htons v).
Proof. apply u16_range. Qed.
Lemma net_htons_invol v : is_u16 v -> net_htons (net_htons v) = v.
Proof.
  intros Hv. rewrite net_htons_eq by apply net_htons_range. rewrite net_htons_eq by done.
  unfold is_u16 in Hv. lia.
Qed.

Lemma land_byte v k : 0 <= v -> 0 <= k -> Z.land v (Z.shiftl 0xFF k) = Z.shiftl (Z.shiftr v k mod 256) k.
Proof.
  intros Hv Hk. change 256 with (2 ^ 8). rewrite <- Z.land_ones by lia. change (Z.ones 8) with 0xFF.
  apply Z.bits_inj'. intros i Hi. rewrite Z.land_spec.
  destruct (Z.lt_ge_cases i k).
  - rewrite !Z.shiftl_spec_low by done. apply andb_false_r.
  - rewrite !Z.shiftl_spec by done. rewrite Z.land_spec, Z.shiftr_spec by lia.
    by replace (i - k + k) with i by lia.
Qed.

Lemma net_htonl_eq v : is_u32 v ->
  net_htonl v = v mod 256 * 16777216 + v / 256 mod 256 * 65536 + v / 65536 mod 256 * 256 + v / 16777216.
Proof.
  intros Hv. unfold is_u32 in Hv. unfold net_htonl.
  change 0xFF000000 with (Z.shiftl 0xFF 24). change 0xFF0000 with (Z.shiftl 0xFF 16).
  change 0xFF00 with (Z.shiftl 0xFF 8). change (Z.land v 0xFF) with (Z.land v (Z.shiftl 0xFF 0)).
  rewrite !land_byte by lia. rewrite Z.shiftr_0_r, Z.shiftl_0_r.
  rewrite !Z.shiftr_div_pow2, !Z.shiftl_mul_pow2 by lia.
  change (2 ^ 8) with 256. change (2 ^ 16) with 65536. change (2 ^ 24) with 16777216.
  replace (v / 16777216 mod 256) with (v / 16777216) by lia.
  set (a := v mod 256). set (b := v / 256 mod 256). set (c := v / 65536 mod 256). set (d := v / 16777216).
  assert (0 <= a < 256 /\ 0 <= b < 256 /\ 0 <= c < 256 /\ 0 <= d < 256) as (Ha & Hb & Hc & Hd)
    by (unfold a, b, c, d; lia). clearbody a b c d.
  replace (c * 65536 / 256) with (c * 256) by lia. replace (d * 16777216 / 16777216) with d by lia.
  replace (a * 16777216) with (Z.shiftl a 24) by (rewrite Z.shiftl_mul_pow2; lia).
  replace (b * 256 * 256) with (Z.shiftl b 16) by (rewrite Z.shiftl_mul_pow2; lia).
  replace (c * 256) with (Z.shiftl c 8) by (rewrite Z.shiftl_mul_pow2; lia).
  rewrite <- !Z.lor_assoc. rewrite (lor_low c d 8) by lia.
  rewrite (lor_low b _ 16) by lia. rewrite (lor_low a _ 24) by lia.
  rewrite !Z.shiftl_mul_pow2 by lia. rewrite u32_id by (unfold is_u32; lia). lia.
Qed.
Lemma net_htonl_range v : is_u32 (net_htonl v).
Proof. apply u32_range. Qed.
Lemma net_htonl_rev v : is_u32 v -> net_htonl v = le_num (rev (le_bytes 4 v)).
Proof.
  intros Hv. rewrite net_htonl_eq by done. unfold is_u32 in Hv. cbn [le_bytes rev app le_num].
  rewrite !Z.div_div by lia. change (256 * 256) with 65536. change (65536 * 256) with 16777216.
  rewrite (Z.mod_small (v / 16777216)) by lia. lia.
Qed.
Lemma net_htons_rev v : is_u16 v -> net_htons v = le_num (rev (le_bytes 2 v)).
Proof.
  intros Hv. rewrite net_htons_eq by done. unfold is_u16 in Hv. cbn [le_bytes rev app le_num].
  rewrite (Z.mod_small (v / 256)) by lia. lia.
Qed.
Lemma le_bytes_rev n v : le_bytes n (le_num (rev (le_bytes n v))) = rev (le_bytes n v).
Proof.
  rewrite <- (length_le_bytes n v) at 1. rewrite <- length_rev. apply le_bytes_num.
  apply Forall_rev, le_bytes_u8.
Qed.
(** Stored in memory, the bytes of the swapped word are big-endian. *)
Lemma le_bytes_htonl v : is_u32 v -> le_bytes 4 (net_htonl v) = rev (le_bytes 4 v).
Proof. intros Hv. rewrite net_htonl_rev by done. apply le_bytes_rev. Qed.
Lemma le_bytes_htons v : is_u16 v -> le_bytes 2 (net_htons v) = rev (le_bytes 2 v).
Proof. intros Hv. rewrite net_htons_rev by done. apply le_bytes_rev. Qed.
Lemma net_htonl_invol v : is_u32 v -> net_htonl (net_htonl v) = v.
Proof.
  intros Hv. rewrite net_htonl_rev by apply net_htonl_range. rewrite le_bytes_htonl by done.
  rewrite rev_involutive, le_num_bytes. by apply Z.mod_small.
Qed.

(** ** Reads inside the frame *)
Lemma rd_bytes_ok p o n : 0 <= o -> 0 <= n -> o + n <= Z.of_nat (length p) ->
  rd_bytes p o n = Ret (slice o n p).
Proof. intros. unfold rd_bytes. rewrite (proj2 (Z.leb_le 0 o)), (proj2 (Z.leb_le _ _)) by lia. done. Qed.

Lemma le_num_slice p o n : 0 <= n -> Forall is_u8 p -> 0 <= le_num (slice o n p) < 256 ^ n.
Proof.
  intros Hn Hp. assert (Forall is_u8 (slice o n p)) as Hs by (by apply Forall_take, Forall_drop).
  pose proof (le_num_range _ Hs) as Hr.
  assert (256 ^ Z.of_nat (length (slice o n p)) <= 256 ^ n); [| lia].
  apply Z.pow_le_mono_r; [lia |]. unfold slice. rewrite length_take. lia.
Qed.

Lemma rd8_ok p o : Forall is_u8 p -> 0 <= o < Z.of_nat (length p) -> exists v, rd8 p o = Ret v /\ is_u8 v.
Proof.
  intros Hp Ho. unfold rd8. rewrite rd_bytes_ok by lia. eexists. split; [reflexivity |].
  by apply (le_num_slice p o 1).
Qed.
Lemma rd16_ok p o : Forall is_u8 p -> 0 <= o -> o + 2 <= Z.of_nat (length p) ->
  exists v, rd16 p o = Ret v /\ is_u16 v.
Proof.
  intros Hp Ho Hl. unfold rd16. rewrite rd_bytes_ok by lia. eexists. split; [reflexivity |].
  by apply (le_num_slice p o 2).
Qed.
Lemma rd32_ok p o : Forall is_u8 p -> 0 <= o -> o + 4 <= Z.of_nat (length p) ->
  exists v, rd32 p o = Ret v /\ is_u32 v.
Proof.
  intros Hp Ho Hl. unfold rd32. rewrite rd_bytes_ok by lia. eexists. split; [reflexivity |].
  by apply (le_num_slice p o 4).
Qed.

(** ** Checksums *)
(** The sum of the big-endian words, unbounded. *)
Fixpoint be_sum (l : list Z) : Z :=
  match l with
  | a :: b :: l => a * 256 + b + be_sum l
  | [a] => a * 256
  | [] => 0
  end.

Lemma pair_ind {A} (P : list A -> Prop) :
  P [] -> (forall a, P [a]) -> (forall a b l, P l -> P (a :: b :: l)) -> forall l, P l.
Proof.
  intros H0 H1 H2 l. assert (P l /\ forall a, P (a :: l)) as [H _]; [| done].
  induction l as [|x l [IH1 IH2]]; split; auto.
Qed.

Lemma be_sum_range l : Forall is_u8 l -> 0 <= be_sum l <= 65535 * (Z.of_nat (length l) + 1) / 2.
Proof.
  induction l as [|a|a b l IH] using pair_ind; intros Hl; cbn [be_sum].
  - cbn. lia.
  - apply Forall_cons in Hl as [Ha _]. unfold is_u8 in Ha. cbn. lia.
  - apply Forall_cons in Hl as [Ha [Hb Hl]%Forall_cons]. specialize (IH Hl). unfold is_u8 in *.
    simpl length. lia.
Qed.

Lemma sum_words_eq l : forall sum, Forall is_u8 l -> 0 <= sum -> sum + be_sum l < 2 ^ 32 ->
  sum_words l sum = sum + be_sum l.
Proof.
  induction l as [|a|a b l IH] using pair_ind; intros sum Hl Hs Hlt; cbn [sum_words be_sum] in *.
  - lia.
  - apply Forall_cons in Hl as [Ha _]. unfold is_u8 in Ha.
    rewrite Z.shiftl_mul_pow2 by lia. unfold u16, u32. change (2 ^ 8) with 256. lia.
  - apply Forall_cons in Hl as [Ha [Hb Hl]%Forall_cons]. pose proof (be_sum_range l Hl).
    unfold is_u8 in *. rewrite lor_low by lia. change (2 ^ 8) with 256 in *.
    rewrite (u16_id (a * 256 + b)), u32_id by (unfold is_u16, is_u32; lia).
    rewrite IH by (done || lia). lia.
Qed.

Lemma sum_words_u32 l : forall sum, is_u32 sum -> is_u32 (sum_words l sum).
Proof.
  induction l as [|a|a b l IH] using pair_ind; intros sum Hs; cbn [sum_words]; auto using u32_range.
Qed.

Lemma fold_sum_ok s : is_u32 s -> exists r, fold_sum 2 s = Ret r /\ 0 <= r <= 65535 /\
  r mod 65535 = s mod 65535 /\ (r = 0 <-> s = 0).
Proof.
  intros Hs. unfold is_u32 in Hs. cbn [fold_sum].
  assert (Hd : forall x, Z.shiftr x 16 = x / 65536) by (intros; by rewrite Z.shiftr_div_pow2).
  assert (Hm : forall x, Z.land x 0xFFFF = x mod 65536)
    by (intros; change 0xFFFF with (Z.ones 16); by rewrite Z.land_ones).
  rewrite !Hd, !Hm. destruct (Z.eqb_spec (s / 65536) 0); [exists s; split_and!; try done; lia |].
  assert (Hr : forall x, 0 <= x -> (x mod 65536 + x / 65536) mod 65535 = x mod 65535).
  { intros x _. rewrite (Z.div_mod x 65536) at 3 by lia.
    replace (65536 * (x / 65536) + x mod 65536) with (x mod 65536 + x / 65536 + x / 65536 * 65535) by lia.
    by rewrite Z.mod_add. }
  rewrite (u32_id (s mod 65536 + s / 65536)) by (unfold is_u32; lia).
  pose proof (Hr s ltac:(lia)) as Hm1. set (s1 := s mod 65536 + s / 65536) in *.
  assert (0 < s1 <= 131070) by lia.
  destruct (Z.eqb_spec (s1 / 65536) 0); [exists s1; split_and!; try done; lia |].
  rewrite u32_id by (unfold is_u32; lia).
  pose proof (Hr s1 ltac:(lia)) as Hm2. set (s2 := s1 mod 65536 + s1 / 65536) in *.
  assert (0 < s2 < 65536) by (unfold s2; lia).
  destruct (Z.eqb_spec (s2 / 65536) 0); [| lia].
  exists s2. split; [done |]. split; [lia |]. split; [congruence | lia].
Qed.

Lemma lnot_u16 r : 0 <= r <= 65535 -> u16 (Z.lnot r) = 65535 - r.
Proof. intros Hr. unfold Z.lnot, u16. lia. Qed.

Lemma checksum16_total l : exists c, checksum16 l = Ret c /\ is_u16 c.
Proof.
  unfold checksum16. destruct (fold_sum_ok (sum_words l 0)) as (r & -> & _);
    [apply sum_words_u32; unfold is_u32; lia |].
  eexists. split; [reflexivity | apply u16_range].
Qed.
Lemma checksum_tcp_total a b l : exists c, checksum_tcp a b l = Ret c /\ is_u16 c.
Proof.
  unfold checksum_tcp. edestruct fold_sum_ok as (r & -> & _);
    [apply sum_words_u32, sum_words_u32; unfold is_u32; lia |].
  eexists. split; [reflexivity | apply u16_range].
Qed.

(** The checksum of bytes is the complement of their sum modulo 65535. *)
Lemma checksum16_spec l : Forall is_u8 l -> Z.of_nat (length l) < 65536 ->
  exists r, checksum16 l = Ret (65535 - r) /\ 0 <= r <= 65535 /\
    r mod 65535 = be_sum l mod 65535 /\ (r = 0 <-> be_sum l = 0).
Proof.
  intros Hl Hlen. pose proof (be_sum_range l Hl). unfold checksum16.
  rewrite sum_words_eq by (done || lia). rewrite Z.add_0_l.
  destruct (fold_sum_ok (be_sum l)) as (r & -> & Hr & Hm & Hz); [unfold is_u32; lia |].
  exists r. rewrite <- lnot_u16 by done. done.
Qed.

Lemma be_sum_app l1 l2 : Nat.even (length l1) = true -> be_sum (l1 ++ l2) = be_sum l1 + be_sum l2.
Proof.
  induction l1 as [|a|a b l IH] using pair_ind; intros He; [done | done |].
  cbn [app be_sum]. rewrite IH by exact He. lia.
Qed.

(** ** The ARP cache *)
Definition arp_uniq (l : list arp_entry) : Prop := forall i j e f,
  l !! i = Some e -> l !! j = Some f -> a_valid e = true -> a_valid f = true -> a_ip e = a_ip f -> i = j.

Lemma arp_lookup_Some l ip mac : arp_uniq l ->
  (arp_cache_lookup ip l = Some mac <->
   exists k e, l !! k = Some e /\ a_valid e = true /\ a_ip e = ip /\ a_mac e = mac).
Proof.
  induction l as [|e l IH]; intros Hu; cbn [arp_cache_lookup].
  { split; [done | by intros (k & e & H & _)]. }
  assert (arp_uniq l) as Hu'.
  { intros i j f g Hi Hj Hf Hg He. specialize (Hu (S i) (S j) f g Hi Hj Hf Hg He). lia. }
  destruct (a_valid e && (a_ip e =? ip)) eqn:E.
  - apply andb_true_iff in E as [Hv He%Z.eqb_eq]. split.
    + intros [= <-]. by exists 0%nat, e.
    + intros (k & f & Hk & Hf & Hip & <-).
      assert (k = 0%nat) as -> by (eapply (Hu k 0%nat f e); [done | done | done | done | congruence]).
      by injection Hk as ->.
  - rewrite (IH Hu'). split.
    + intros (k & f & Hk & H). by exists (S k), f.
    + intros ([|k] & f & Hk & Hf & Hip & Hm); [| by exists k, f].
      injection Hk as ->. rewrite Hf, Hip, Z.eqb_refl in E. done.
Qed.

(** The slot: the entry of the address, else the first invalid one, else none. *)
Lemma arp_slot_spec l : forall i ip slot, 0 <= i ->
  let r := arp_slot l i ip slot in
  (exists k e, l !! k = Some e /\ a_valid e = true /\ a_ip e = ip /\ r = i + Z.of_nat k) \/
  (arp_cache_lookup ip l = None /\ 0 <= slot /\ r = slot) \/
  (arp_cache_lookup ip l = None /\ slot < 0 /\
   ((exists k e, l !! k = Some e /\ a_valid e = false /\ r = i + Z.of_nat k) \/
    (r = slot /\ Forall (fun e => a_valid e = true) l))).
Proof.
  induction l as [|e l IH]; intros i ip slot Hi; cbn [arp_cache_lookup arp_slot].
  { destruct (decide (slot < 0)); [| right; left; split_and!; (done || lia)].
    right; right. split_and!; [done | done |]. right. by split. }
  destruct (a_valid e) eqn:Hv; cbn [andb negb].
  - destruct (Z.eqb_spec (a_ip e) ip) as [He|He].
    { left. exists 0%nat, e. split_and!; try done. lia. }
    destruct (IH (i + 1) ip slot) as [(k & f & Hk & H1 & H2 & ->) | [H | (H1 & H2 & [(k & f & Hk & H3 & ->) | [H3 H4]])]];
      [lia | left; exists (S k), f; split_and!; (done || lia) | by right; left | right; right ..].
    + split_and!; [done | done |]. left. exists (S k), f. split_and!; (done || lia).
    + split_and!; [done | done |]. right. split; [done |]. by constructor.
  - destruct (IH (i + 1) ip (if slot <? 0 then i else slot))
      as [(k & f & Hk & H1 & H2 & ->) | [(H1 & H2 & H3) | (H1 & H2 & _)]];
      [lia | left; exists (S k), f; split_and!; (done || lia) | | ].
    + destruct (Z.ltb_spec slot 0); [right; right | by right; left].
      split_and!; [done | done |]. left. exists 0%nat, e. split_and!; try done. lia.
    + destruct (Z.ltb_spec slot 0); lia.
Qed.

(** An update stores its entry in one slot [k]; the slot's old entry was invalid or of
    the same address, or the cache was full of others and [k] is the first. *)
Lemma arp_update_spec tk ip mac l : arp_uniq l -> l <> [] ->
  exists k old, l !! k = Some old /\
    arp_cache_update tk ip mac l = Ret (<[k := ArpEntry ip mac tk true]> l) /\
    (a_valid old = true -> a_ip old <> ip ->
       k = 0%nat /\ arp_cache_lookup ip l = None /\ Forall (fun e => a_valid e = true) l) /\
    arp_uniq (<[k := ArpEntry ip mac tk true]> l).
Proof.
  intros Hu Hne. unfold arp_cache_update.
  assert (exists k old, l !! k = Some old /\
    (let r := arp_slot l 0 ip (-1) in if r <? 0 then 0 else r) = Z.of_nat k /\
    (a_valid old = true -> a_ip old <> ip ->
      k = 0%nat /\ arp_cache_lookup ip l = None /\ Forall (fun e => a_valid e = true) l) /\
    (a_valid old = true /\ a_ip old = ip \/ arp_cache_lookup ip l = None)) as (k & old & Hk & Hs & Hev & Hold).
  { destruct (arp_slot_spec l 0 ip (-1)) as [(k & e & Hk & H1 & H2 & ->) | [(_ & ? & _) | (H1 & _ & [(k & e & Hk & H2 & ->) | [-> H2]])]];
      [lia | exists k, e | lia | exists k, e |].
    - split_and!; [done | cbn zeta; by rewrite (proj2 (Z.ltb_ge _ _)) by lia | done | by left].
    - split_and!; [done | cbn zeta; by rewrite (proj2 (Z.ltb_ge _ _)) by lia | congruence | by right].
    - destruct l as [|e l]; [done |]. exists 0%nat, e. split_and!; try done. by right. }
  exists k, old. pose proof (lookup_lt_Some _ _ _ Hk). cbn zeta in Hs |- *. rewrite Hs, zset_nat by done.
  split_and!; [done | done | done |].
  assert (Hno : forall j e, l !! j = Some e -> a_valid e = true -> a_ip e = ip -> j = k).
  { intros j e Hj Hv He. destruct Hold as [[Hvo Hio] | Hn].
    - eapply (Hu j k e old); try done. congruence.
    - assert (arp_cache_lookup ip l = Some (a_mac e)); [| congruence].
      apply arp_lookup_Some; [done |]. by exists j, e. }
  intros i j e f Hi Hj He Hf Hip.
  apply list_lookup_insert_Some in Hi as [(<- & <- & _) | [Hi' Hi]];
  apply list_lookup_insert_Some in Hj as [(<- & <- & _) | [Hj' Hj]]; [done | | | by eapply Hu].
  - cbn in Hip. symmetry in Hip. by rewrite (Hno j f).
  - cbn in Hip. by rewrite (Hno i e).
Qed.
