(* ===== verification/NetSafe.v ===== *)
(** * Network stack: every operation returns and keeps the state consistent *)
From S2P Require Import Prelude Interfaces Net NetFacts.

Record tcp_ok (c : tcp_conn_t) : Prop := {
  t_buf : Z.of_nat (length (recv_buf c)) = 65536;
  t_read : 0 <= recv_read c <= recv_len c;
  t_len : recv_len c <= 65536;
  t_last : Z.of_nat (length (last_payload c)) = 1460;
  t_last_len : 0 <= last_len c <= 1460;
  t_seq : is_u32 (snd_nxt c) /\ is_u32 (rcv_nxt c) /\ is_u32 (last_seq c);
}.

Section Safe.
Context {N : Type} `{!Nic N}.
Implicit Types s : net N.

Record net_ok s : Prop := {
  n_mac : length (local_mac (cfg s)) = 6%nat;
  n_arp : arp_uniq (arp_cache s) /\ length (arp_cache s) = ARP_CACHE_SIZE /\
          Forall (fun e => length (a_mac e) = 6%nat) (arp_cache s);
  n_tcp : tcp_ok (tcp_conn s);
}.

(** Sending changes the card and the identification counter only. *)
Definition quiet s s' : Prop :=
  cfg s' = cfg s /\ arp_cache s' = arp_cache s /\ dhcp s' = dhcp s /\ tcp_conn s' = tcp_conn s /\
  dns s' = dns s.
Lemma quiet_refl s : quiet s s.
Proof. done. Qed.
Lemma quiet_trans s1 s2 s3 : quiet s1 s2 -> quiet s2 s3 -> quiet s1 s3.
Proof. unfold quiet. intros (-> & -> & -> & -> & ->) (-> & -> & -> & -> & ->). done. Qed.
Lemma quiet_ok s s' : quiet s s' -> net_ok s -> net_ok s'.
Proof. intros (H1 & H2 & H3 & H4 & H5) [? ? ?]. split; by rewrite ?H1, ?H2, ?H4. Qed.

(** The frame on the wire. *)
Definition eth_frame (dst : list Z) (c : config) (eth_type : Z) (payload : list Z) : list Z :=
  dst ++ local_mac c ++ le_bytes 2 (net_htons eth_type) ++ payload.

Lemma send_frame_spec dst ty payload s :
  exists ok s', net_send_frame dst ty payload s = Ret (ok, s') /\ quiet s s' /\ ip_id s' = ip_id s /\
    (length dst = 6%nat -> length (local_mac (cfg s)) = 6%nat ->
     nic_log (nic s') = nic_log (nic s) ++ if (ok : bool) then [eth_frame dst (cfg s) ty payload] else []).
Proof.
  unfold net_send_frame. destruct (Z.ltb_spec 1514 (Z.of_nat (length payload) + 14)).
  { exists false, s. split; [reflexivity |]. split_and!; [done | done |]. intros. by rewrite app_nil_r. }
  rewrite (st_bind_ret get_cfg _ s (cfg s) s eq_refl). fold (eth_frame dst (cfg s) ty payload).
  unfold e1000_send. pose proof (nic_send_log (eth_frame dst (cfg s) ty payload) (nic s)) as Hl.
  destruct (nic_send _ _) as [ok n]. exists ok. eexists. split; [reflexivity |].
  split_and!; [done | done |]. intros Hd Hm. cbn [nic]. rewrite Hl.
  - destruct ok; [done | by rewrite app_nil_r].
  - unfold eth_frame. rewrite !length_app, Hd, Hm, length_le_bytes. lia.
Qed.

Lemma send_request_spec ip s : exists s', arp_send_request ip s = Ret ((), s') /\ quiet s s'.
Proof.
  unfold arp_send_request. rewrite (st_bind_ret get_cfg _ s (cfg s) s eq_refl).
  edestruct send_frame_spec as (ok & s' & E & Hq & _). rewrite (st_bind_ret _ _ _ _ _ E). by exists s'.
Qed.
Lemma send_reply_spec mac ip s : exists s', arp_send_reply mac ip s = Ret ((), s') /\ quiet s s'.
Proof.
  unfold arp_send_reply. rewrite (st_bind_ret get_cfg _ s (cfg s) s eq_refl).
  edestruct send_frame_spec as (ok & s' & E & Hq & _). rewrite (st_bind_ret _ _ _ _ _ E). by exists s'.
Qed.

(** The hardware address [net_send_ipv4] uses. *)
Definition route (c : config) (arp : list arp_entry) (dest : Z) : option (list Z) :=
  if (dest =? 0xFFFFFFFF) || (local_ip c =? 0) then Some (repeat 0xFF 6)
  else arp_cache_lookup (next_hop c dest) arp.
Definition ip_packet (id : Z) (c : config) (dest proto : Z) (payload : list Z) (sum : Z) : list Z :=
  splice (ipv4_header (Z.of_nat (length payload)) id proto (local_ip c) dest) 10 (le_bytes 2 sum)
  ++ payload.

Lemma route_length s dest mac : net_ok s -> route (cfg s) (arp_cache s) dest = Some mac -> length mac = 6%nat.
Proof.
  intros [_ (_ & _ & Hmacs) _]. unfold route. destruct ((dest =? _) || _); [by intros [= <-] |].
  induction Hmacs as [|e l He _ IH]; [done |]. cbn [arp_cache_lookup].
  destruct (_ && _); [by intros [= <-] | done].
Qed.

(** Either a frame with the packet is sent, or the address was asked for, or neither. *)
Lemma send_ipv4_spec dest proto payload s :
  exists ok s', net_send_ipv4 dest proto payload s = Ret (ok, s') /\ quiet s s' /\
    (net_ok s -> match route (cfg s) (arp_cache s) dest with
     | Some mac => Z.of_nat (length payload) <= 1480 ->
         exists sum, checksum16 (ipv4_header (Z.of_nat (length payload)) (u16 (ip_id s)) proto
                                   (local_ip (cfg s)) dest) = Ret sum /\
           nic_log (nic s') = nic_log (nic s) ++ if (ok : bool) then
             [eth_frame mac (cfg s) ETH_TYPE_IPV4
                (ip_packet (u16 (ip_id s)) (cfg s) dest proto payload sum)] else []
     | None => ok = false
     end).
Proof.
  unfold net_send_ipv4. rewrite (st_bind_ret get_cfg _ s (cfg s) s eq_refl).
  rewrite (st_bind_ret get_arp _ s (arp_cache s) s eq_refl). fold (route (cfg s) (arp_cache s) dest).
  assert (exists o s1, (if (dest =? 0xFFFFFFFF) || (local_ip (cfg s) =? 0) then mret (Some (repeat 0xFF 6))
     else match arp_cache_lookup (next_hop (cfg s) dest) (arp_cache s) with
          | Some mac => mret (Some mac)
          | None => _ ← arp_send_request (next_hop (cfg s) dest); mret None
          end : M (option (list Z))) s = Ret (o, s1) /\ o = route (cfg s) (arp_cache s) dest /\ quiet s s1 /\
     (o <> None -> s1 = s)) as (o & s1 & E & Ho & Hq & Hs1).
  { unfold route. destruct ((dest =? 0xFFFFFFFF) || (local_ip (cfg s) =? 0)); [by eexists _, s |].
    destruct (arp_cache_lookup _ _) as [mac|]; [by eexists _, s |].
    destruct (send_request_spec (next_hop (cfg s) dest) s) as (s1 & E & Hq).
    rewrite (st_bind_ret _ _ _ _ _ E). by exists None, s1. }
  rewrite (st_bind_ret _ _ _ _ _ E). rewrite <- Ho.
  destruct o as [mac|]; [| by exists false, s1]. rewrite (Hs1 ltac:(done)) in *. clear s1 Hs1 E.
  destruct (Z.ltb_spec 1500 (20 + Z.of_nat (length payload))).
  { exists false, s. split; [reflexivity |]. split; [done |]. intros _ Hle. lia. }
  unfold next_id. rewrite (st_bind_ret _ _ s _ _ eq_refl).
  destruct (checksum16_total (ipv4_header (Z.of_nat (length payload)) (u16 (ip_id s)) proto
              (local_ip (cfg s)) dest)) as (sum & Hsum & _).
  set (s2 := Net _ _ _ _ _ _ _).
  rewrite (st_bind_ret (st_lift _) _ s2 sum s2) by (unfold st_lift; by rewrite Hsum).
  destruct (send_frame_spec mac ETH_TYPE_IPV4 (ip_packet (u16 (ip_id s)) (cfg s) dest proto payload sum) s2)
    as (ok & s' & E & Hq' & _ & Hl).
  exists ok, s'. split; [exact E |]. split; [by apply (quiet_trans _ s2) |].
  intros Hs _. exists sum. split; [done |]. apply Hl; [by eapply route_length | apply Hs].
Qed.

Lemma send_udp_spec dest sp dp data s : exists ok s', net_send_udp dest sp dp data s = Ret (ok, s') /\ quiet s s'.
Proof.
  unfold net_send_udp. case_match; [by exists false, s |].
  edestruct send_ipv4_spec as (ok & s' & E & Hq & _). by exists ok, s'.
Qed.

Definition with_tcp s c : net N := Net (cfg s) (arp_cache s) (ip_id s) (dhcp s) c (dns s) (nic s).
Lemma put_tcp_eq c s : put_tcp c s = Ret ((), with_tcp s c).
Proof. reflexivity. Qed.

Lemma send_segment_spec tk flags data s : Z.of_nat (length data) <= 1480 ->
  exists s1, tcp_send_segment tk flags data s = Ret ((), with_tcp s1 (tcp_sent tk flags data (tcp_conn s)))
    /\ quiet s s1.
Proof.
  intros Hd. unfold tcp_send_segment. rewrite (proj2 (Z.ltb_ge _ _)) by lia.
  rewrite (st_bind_ret get_tcp _ s (tcp_conn s) s eq_refl).
  rewrite (st_bind_ret get_cfg _ s (cfg s) s eq_refl).
  destruct (checksum_tcp_total (local_ip (cfg s)) (dest_ip (tcp_conn s)) (tcp_header (tcp_conn s) flags ++ data))
    as (sum & Hsum & _).
  rewrite (st_bind_ret (st_lift _) _ s sum s) by (unfold st_lift; by rewrite Hsum).
  edestruct send_ipv4_spec as (ok & s1 & E & Hq & _). rewrite (st_bind_ret _ _ _ _ _ E).
  rewrite (st_bind_ret get_tcp _ s1 (tcp_conn s) s1) by (destruct Hq as (_ & _ & _ & <- & _); done).
  exists s1. split; [apply put_tcp_eq | done].
Qed.

(** ** The consistency of the connection *)
Lemma tcp_sent_ok tk flags data c : Z.of_nat (length data) <= 1460 -> tcp_ok c ->
  tcp_ok (tcp_sent tk flags data c).
Proof.
  intros Hd [H1 H2 H3 H4 H5 (H6 & H7 & H8)]. unfold tcp_sent.
  assert (Z.of_nat (length (if (0 <? Z.of_nat (length data)) && (Z.of_nat (length data) <=? 1460)
                  then splice (last_payload c) 0 data else last_payload c)) = 1460) as Hp.
  { case_match; [| done]. rewrite splice_length by lia. done. }
  destruct (negb _ || _); split; cbn; try done; split_and!; try done; try lia; apply u32_range.
Qed.

Lemma with_tcp_ok s c : net_ok s -> tcp_ok c -> net_ok (with_tcp s c).
Proof. intros [? ? ?] ?. by split. Qed.

Definition safe {A} (m : M (N:=N) A) : Prop := triple net_ok m (fun _ => net_ok).

Lemma put_tcp_safe (f : tcp_conn_t -> tcp_conn_t) : (forall c, tcp_ok c -> tcp_ok (f c)) ->
  safe (c ← get_tcp; put_tcp (f c)).
Proof. intros Hf s Hs. exists (), (with_tcp s (f (tcp_conn s))). split; [reflexivity | by apply with_tcp_ok, Hf, Hs]. Qed.

Lemma segment_safe tk flags data : Z.of_nat (length data) <= 1460 -> safe (tcp_send_segment tk flags data).
Proof.
  intros Hd s Hs. destruct (send_segment_spec tk flags data s) as (s1 & E & Hq); [lia |].
  exists (). eexists. split; [exact E |]. apply with_tcp_ok; [by eapply quiet_ok | by apply tcp_sent_ok, Hs].
Qed.

(** ** Rules *)
Lemma safe_ret {A} (a : A) : safe (mret a).
Proof. by apply triple_ret. Qed.
Lemma safe_bind {A B} (m : M (N:=N) A) (f : A -> M B) Q :
  safe m -> (forall a, triple net_ok (f a) Q) -> triple net_ok (m ≫= f) Q.
Proof. intros Hm Hf. by eapply triple_seq. Qed.
Lemma safe_get {A B} (g : net N -> A) (f : A -> M B) (Q : B -> net N -> Prop) :
  (forall s, net_ok s -> exists a s', f (g s) s = Ret (a, s') /\ Q a s') ->
  triple net_ok ((fun s => Ret (g s, s)) ≫= f) Q.
Proof. intros Hf s Hs. rewrite (st_bind_ret _ _ s (g s) s eq_refl). by apply Hf. Qed.
Lemma safe_lift {A B} (m : res A) (R : A -> Prop) (f : A -> M (N:=N) B) Q :
  (exists a, m = Ret a /\ R a) -> (forall a, R a -> triple net_ok (f a) Q) -> triple net_ok (st_lift m ≫= f) Q.
Proof. intros Hm Hf. by eapply triple_lift_bind. Qed.
Lemma safe_if {A} (b : bool) (m1 m2 : M (N:=N) A) Q :
  (b = true -> triple net_ok m1 Q) -> (b = false -> triple net_ok m2 Q) ->
  triple net_ok (if b then m1 else m2) Q.
Proof. destruct b; auto. Qed.
Lemma safe_quiet {A} (m : M (N:=N) A) : (forall s, exists a s', m s = Ret (a, s') /\ quiet s s') -> safe m.
Proof. intros Hm s Hs. destruct (Hm s) as (a & s' & E & Hq). exists a, s'. split; [done | by eapply quiet_ok]. Qed.
(** Reading a part of the state and replacing a part keeps the rest. *)
Lemma safe_put_dhcp x : safe (put_dhcp x).
Proof. intros s [? ? ?]. eexists _, _. split; [reflexivity | by split]. Qed.
Lemma safe_put_dns x : safe (put_dns x).
Proof. intros s [? ? ?]. eexists _, _. split; [reflexivity | by split]. Qed.
Lemma safe_put_cfg x : length (local_mac x) = 6%nat -> safe (put_cfg x).
Proof. intros Hx s [? ? ?]. eexists _, _. split; [reflexivity | by split]. Qed.
Lemma safe_put_tcp c : tcp_ok c -> safe (put_tcp c).
Proof. intros Hc s Hs. exists (), (with_tcp s c). split; [reflexivity | by apply with_tcp_ok]. Qed.
Lemma safe_get_dhcp {B} (f : _ -> M B) (Q : B -> net N -> Prop) :
  (forall d, triple net_ok (f d) Q) -> triple net_ok (get_dhcp ≫= f) Q.
Proof. intros Hf. apply safe_get. intros s Hs. by apply Hf. Qed.
Lemma safe_get_dns {B} (f : _ -> M B) (Q : B -> net N -> Prop) :
  (forall d, triple net_ok (f d) Q) -> triple net_ok (get_dns ≫= f) Q.
Proof. intros Hf. apply safe_get. intros s Hs. by apply Hf. Qed.
Lemma safe_get_cfg {B} (f : _ -> M B) (Q : B -> net N -> Prop) :
  (forall c, length (local_mac c) = 6%nat -> triple net_ok (f c) Q) -> triple net_ok (get_cfg ≫= f) Q.
Proof. intros Hf. apply safe_get. intros s Hs. apply Hf; [apply Hs | done]. Qed.
Lemma safe_get_tcp {B} (f : _ -> M B) (Q : B -> net N -> Prop) :
  (forall c, tcp_ok c -> triple net_ok (f c) Q) -> triple net_ok (get_tcp ≫= f) Q.
Proof. intros Hf. apply safe_get. intros s Hs. apply Hf; [apply Hs | done]. Qed.
Lemma udp_safe dest sp dp data : safe (net_send_udp dest sp dp data).
Proof. apply safe_quiet, send_udp_spec. Qed.

(** ** ARP *)
Lemma rd8_R p o : Forall is_u8 p -> 0 <= o < Z.of_nat (length p) -> exists v, rd8 p o = Ret v /\ is_u8 v.
Proof. apply rd8_ok. Qed.

Lemma arp_update_ok tk ip mac l : arp_uniq l /\ length l = ARP_CACHE_SIZE /\ Forall (fun e => length (a_mac e) = 6%nat) l ->
  length mac = 6%nat -> exists l', arp_cache_update tk ip mac l = Ret l' /\
  (arp_uniq l' /\ length l' = ARP_CACHE_SIZE /\ Forall (fun e => length (a_mac e) = 6%nat) l').
Proof.
  intros (Hu & Hl & Hm) Hmac. destruct (arp_update_spec tk ip mac l Hu) as (k & old & Hk & E & _ & Hu');
    [by intros -> |].
  eexists. split; [exact E |]. split_and!; [done | by rewrite length_insert | by apply Forall_insert].
Qed.

Lemma slice_len (p : list Z) o n : 0 <= o -> 0 <= n -> o + n <= Z.of_nat (length p) ->
  length (slice o n p) = Z.to_nat n.
Proof. intros. unfold slice. rewrite length_take, length_drop. lia. Qed.

Ltac rd :=
  eapply safe_lift;
  [first [ apply rd8_ok; [assumption | lia] | apply rd16_ok; [assumption | lia | lia]
         | apply rd32_ok; [assumption | lia | lia] ] |].

Lemma arp_handle_safe tk p len : Forall is_u8 p -> len <= Z.of_nat (length p) -> safe (arp_handle tk p len).
Proof.
  intros Hp Hlen. unfold arp_handle. destruct (Z.ltb_spec len 28); [apply safe_ret |].
  do 2 (rd; intros ? _). apply safe_if; intros _; [apply safe_ret |].
  do 2 (rd; intros ? _). apply safe_if; intros _; [apply safe_ret |]. rd; intros oper _.
  assert (Hsha : exists a, rd_bytes p 8 6 = Ret a /\ length a = 6%nat).
  { eexists. rewrite rd_bytes_ok by lia. split; [reflexivity |]. rewrite slice_len by lia. done. }
  apply safe_if; intros _; [| apply safe_if; intros _; [| apply safe_ret]].
  - rd; intros spa _. eapply safe_lift; [exact Hsha |]. intros sha Hl. apply safe_get. intros s Hs.
    destruct (arp_update_ok tk spa sha (arp_cache s) (n_arp s Hs) Hl) as (l' & E & Hl').
    rewrite (st_bind_ret (st_lift _) _ s l' s) by (unfold st_lift; by rewrite E).
    eexists _, _. split; [reflexivity |]. destruct Hs. by split.
  - apply safe_get_cfg. intros c _. rd; intros tpa _. apply safe_if; intros _; [| apply safe_ret].
    eapply safe_lift; [exact Hsha |]. intros sha _. rd; intros spa _. apply safe_quiet. intros s.
    destruct (send_reply_spec sha spa s) as (s' & E & Hq). by exists (), s'.
Qed.

(** ** DHCP *)
Lemma dhcp_opt_total p tag olen o a : Forall is_u8 p -> 0 <= o -> 0 <= olen -> o + olen <= Z.of_nat (length p) ->
  exists a', dhcp_opt p tag olen o a = Ret a'.
Proof.
  intros Hp Ho Hol Hl. destruct a as [t s m r d]. unfold dhcp_opt.
  assert (R4 : 4 <= olen -> exists v, rd32 p o = Ret v)
    by (intros; destruct (rd32_ok p o) as (v & ? & _); [done | lia | lia | by exists v]).
  repeat match goal with
  | |- context [if ?b then _ else _] => destruct b eqn:?
  end; rewrite ?andb_true_iff, ?Z.eqb_eq, ?Z.leb_le in *;
  try (destruct R4 as [v ->]; [lia | by eexists]); [| by eexists].
  destruct (rd8_ok p o) as (v & -> & _); [done | lia | by eexists].
Qed.

Lemma dhcp_options_total p end_ : Forall is_u8 p -> end_ <= Z.of_nat (length p) ->
  forall fuel opt a, 0 <= opt -> end_ - opt <= Z.of_nat fuel -> exists a', dhcp_options fuel p opt end_ a = Ret a'.
Proof.
  intros Hp He. induction fuel as [|fuel IH]; intros opt a Ho Hf; cbn [dhcp_options];
    destruct (Z.ltb_spec opt end_) as [Hlt|]; cbn [negb]; try (by eexists); [lia |].
  destruct (rd8_ok p opt) as (tag & Et & _); [done | lia |]. rewrite (bind_ret _ _ _ Et).
  destruct (tag =? 255); [by eexists |]. destruct (tag =? 0); [apply IH; lia |].
  destruct (Z.leb_spec end_ (opt + 1)); [by eexists |].
  destruct (rd8_ok p (opt + 1)) as (olen & El & Hol); [done | lia |]. rewrite (bind_ret _ _ _ El).
  unfold is_u8 in Hol. destruct (Z.ltb_spec end_ (opt + 2 + olen)); [by eexists |].
  destruct (dhcp_opt_total p tag olen (opt + 2) a) as (a1 & E1); [done | lia..|].
  rewrite (bind_ret _ _ _ E1). apply IH; lia.
Qed.

Lemma dhcp_send_safe tk x data : safe (_ ← net_send_udp 0xFFFFFFFF DHCP_CLIENT_PORT DHCP_SERVER_PORT data;
  d ← get_dhcp; put_dhcp (dhcp_sent tk x d)).
Proof. apply safe_bind; [apply udp_safe |]. intros _. apply safe_get_dhcp. intros d. apply safe_put_dhcp. Qed.
Lemma discover_safe tk : safe (dhcp_send_discover tk).
Proof. apply safe_get_cfg. intros c _. apply safe_get_dhcp. intros d. apply dhcp_send_safe. Qed.
Lemma request_safe tk : safe (dhcp_send_request tk).
Proof. apply safe_get_cfg. intros c _. apply safe_get_dhcp. intros d. apply dhcp_send_safe. Qed.

Lemma dhcp_handle_safe tk p len : Forall is_u8 p -> len <= Z.of_nat (length p) -> safe (dhcp_handle tk p len).
Proof.
  intros Hp Hlen. unfold dhcp_handle. destruct (Z.ltb_spec len 240); [apply safe_ret |].
  apply safe_get_dhcp. intros d.
  rd; intros op _. apply safe_if; intros _; [apply safe_ret |].
  rd; intros xid _. apply safe_if; intros _; [apply safe_ret |].
  rd; intros magic _. apply safe_if; intros _; [apply safe_ret |].
  apply (safe_lift _ (fun _ => True)).
  { destruct (dhcp_options_total p len Hp Hlen (Z.to_nat len) 240 (DhcpOpts 0 0 0 0 0)) as (a & E); [lia | lia |].
    by exists a. }
  intros a _. apply safe_if; intros _; [| apply safe_if; intros _; [| apply safe_ret]].
  - rd; intros y _. apply safe_bind; [apply safe_put_dhcp |]. intros _. apply request_safe.
  - rd; intros y _. apply safe_get_cfg. intros c Hc. apply safe_bind; [by apply safe_put_cfg |].
    intros _. apply safe_put_dhcp.
Qed.

(** ** DNS *)
Lemma dns_skip_total q end_ : Forall is_u8 q -> end_ <= Z.of_nat (length q) ->
  forall fuel p, 0 <= p -> end_ - p <= Z.of_nat fuel ->
  exists r, dns_skip_name fuel q p end_ = Ret r /\ match r with Some p' => p < p' <= end_ | None => True end.
Proof.
  intros Hq He. induction fuel as [|fuel IH]; intros p Hp Hf; cbn [dns_skip_name];
    destruct (Z.ltb_spec p end_) as [Hlt|]; cbn [negb]; try (by exists None); [lia |].
  destruct (rd8_ok q p) as (l & El & Hl); [done | lia |]. rewrite (bind_ret _ _ _ El). unfold is_u8 in Hl.
  destruct (l =? 0); [exists (Some (p + 1)); split; [done | lia] |].
  destruct (_ =? 0xC0).
  { destruct (Z.leb_spec end_ (p + 1)); [by exists None |]. exists (Some (p + 2)). split; [done | lia]. }
  destruct (Z.ltb_spec end_ (p + 1 + l)); [by exists None |].
  destruct (IH (p + 1 + l)) as (r & E & Hr); [lia | lia |]. exists r. split; [exact E |].
  destruct r; [lia | done].
Qed.

Lemma dns_questions_total q end_ n : Forall is_u8 q -> end_ <= Z.of_nat (length q) ->
  forall p, 0 <= p -> exists r, dns_questions n q p end_ = Ret r /\
    match r with Some p' => 0 <= p' | None => True end.
Proof.
  intros Hq He. induction n as [|n IH]; intros p Hp; cbn [dns_questions].
  { exists (Some p). by split. }
  destruct (dns_skip_total q end_ Hq He (Z.to_nat end_) p Hp) as (r & E & Hr); [lia |].
  rewrite (bind_ret _ _ _ E). destruct r as [p'|]; [| by exists None].
  destruct (Z.ltb_spec end_ (p' + 4)); [by exists None |]. apply IH. lia.
Qed.

Lemma dns_answers_total q end_ n : Forall is_u8 q -> end_ <= Z.of_nat (length q) ->
  forall p, 0 <= p -> exists r, dns_answers n q p end_ = Ret r.
Proof.
  intros Hq He. induction n as [|n IH]; intros p Hp; cbn [dns_answers]; [by eexists |].
  destruct (dns_skip_total q end_ Hq He (Z.to_nat end_) p Hp) as (r & E & Hr); [lia |].
  rewrite (bind_ret _ _ _ E). destruct r as [p'|]; [| by exists None].
  destruct (Z.ltb_spec end_ (p' + 10)); [by exists None |].
  destruct (rd16_ok q p') as (ty & E1 & _); [done | lia | lia |]. rewrite (bind_ret _ _ _ E1).
  destruct (rd16_ok q (p' + 2)) as (cl & E2 & _); [done | lia | lia |]. rewrite (bind_ret _ _ _ E2).
  destruct (rd16_ok q (p' + 8)) as (rl & E3 & _); [done | lia | lia |]. rewrite (bind_ret _ _ _ E3).
  cbv zeta. pose proof (net_htons_range rl) as Hrl. unfold is_u16 in Hrl.
  destruct (Z.ltb_spec end_ (p' + 10 + net_htons rl)); [by exists None |].
  destruct (_ && _ && _) eqn:Hc; [| apply IH; lia].
  rewrite !andb_true_iff, Z.eqb_eq in Hc. destruct Hc as [_ Hc%Z.eqb_eq].
  destruct (rd32_ok q (p' + 10)) as (ip & E4 & _); [done | lia | lia |]. rewrite (bind_ret _ _ _ E4). by eexists.
Qed.

Lemma dns_handle_safe q len : Forall is_u8 q -> len <= Z.of_nat (length q) -> safe (dns_handle q len).
Proof.
  intros Hq Hlen. unfold dns_handle. apply safe_get_dns. intros d.
  destruct (dns_pending d); cbn [negb orb]; [| apply safe_ret].
  destruct (Z.ltb_spec len 12); [apply safe_ret |].
  rd; intros id _. apply safe_if; intros _; [apply safe_ret |].
  rd; intros flags _. apply safe_if; intros _; [apply safe_ret |].
  rd; intros qd _. rd; intros an _.
  eapply safe_lift; [apply dns_questions_total; [done | done | lia] |]. intros [p|] Hp; [| apply safe_ret].
  apply (safe_lift _ (fun _ => True)).
  { edestruct dns_answers_total as (r & E); [done | done | exact Hp | by exists r]. }
  intros [[ip|]|] _; [apply safe_put_dns | | apply safe_ret].
  apply safe_if; intros _; [apply safe_put_dns | apply safe_ret].
Qed.

(** ** TCP *)
Lemma ack_update_ok flags ack c : tcp_ok c -> tcp_ok (ack_update flags ack c).
Proof.
  intros [? ? ? ? ? ?]. unfold ack_update. repeat case_match; by split.
Qed.

Lemma tcp_data_safe tk seq p hdr_len data_len : 0 <= hdr_len -> 0 <= data_len < 65536 ->
  hdr_len + data_len <= Z.of_nat (length p) -> safe (tcp_data tk seq p hdr_len data_len).
Proof.
  intros Hh Hd Hl. unfold tcp_data. apply safe_get_tcp. intros c Hc. pose proof Hc as [B1 B2 B3 B4 B5 (B6 & B7 & B8)].
  apply safe_if; intros _; [| apply safe_ret].
  rewrite (u32_id (65536 - recv_len c)) by (unfold is_u32; lia).
  set (n := if 65536 - recv_len c <? data_len then u16 (65536 - recv_len c) else data_len).
  assert (0 <= n <= 65536 - recv_len c /\ n <= data_len) as [Hn Hn'].
  { unfold n. destruct (Z.ltb_spec (65536 - recv_len c) data_len); [rewrite u16_id by (unfold is_u16; lia) |]; lia. }
  apply (safe_lift _ (fun a => Z.of_nat (length a) = n)).
  { eexists. rewrite rd_bytes_ok by lia. split; [reflexivity |]. rewrite slice_len by lia. lia. }
  intros data Hdl. apply (safe_lift _ (fun b => Z.of_nat (length b) = 65536)).
  { unfold buf_append. rewrite (proj2 (Z.leb_le _ _)), (proj2 (Z.leb_le _ _)) by lia.
    eexists. split; [reflexivity |]. rewrite splice_length by lia. done. }
  intros buf Hbuf. apply safe_bind; [| intros _; apply safe_bind; [apply segment_safe; cbn; lia | intros _; apply safe_ret]].
  apply safe_put_tcp. rewrite (u32_id (recv_len c + n)) by (unfold is_u32; lia).
  split; cbn; try done; try lia. split_and!; [done | apply u32_range | done].
Qed.

Lemma tcp_fin_safe tk flags seq data_len : safe (tcp_fin tk flags seq data_len).
Proof.
  unfold tcp_fin. apply safe_if; intros _; [apply safe_ret |]. apply safe_get_tcp. intros c [? ? ? ? ? (? & ? & ?)].
  apply safe_bind; [apply safe_put_tcp; split; cbn; try done; split_and!; [done | apply u32_range | done] |].
  intros _. apply safe_bind; [apply segment_safe; cbn; lia |]. intros _. apply safe_get_tcp. intros c' [? ? ? ? ? ?].
  apply safe_put_tcp. by split.
Qed.

Lemma land_nibble v : 0 <= Z.land v 0xF <= 15.
Proof. change 0xF with (Z.ones 4) at 1 2. rewrite Z.land_ones by lia. lia. Qed.

Lemma tcp_handle_safe tk p len src : Forall is_u8 p -> len < 65536 -> len <= Z.of_nat (length p) ->
  safe (tcp_handle tk p len src).
Proof.
  intros Hp Hl16 Hlen. unfold tcp_handle. destruct (Z.ltb_spec len 20); [apply safe_ret |].
  rd; intros sp _. rd; intros dp _. rd; intros seq _. rd; intros ack _. rd; intros ofl _. cbv zeta.
  pose proof (land_nibble (Z.shiftr (net_htons ofl) 12)) as Hnib.
  set (hdr_len := Z.land _ _ * 4) in *. set (flags := Z.land _ 0x3F).
  destruct (Z.ltb_spec hdr_len 20); [apply safe_ret |]. destruct (Z.ltb_spec len hdr_len); [apply safe_ret |].
  cbn [orb]. rewrite (u16_id (len - hdr_len)) by (unfold is_u16; lia).
  apply safe_get_tcp. intros c Hc. apply safe_if; intros _.
  { apply safe_if; intros _; [| apply safe_ret]. apply safe_bind; [| intros _; apply segment_safe; cbn; lia].
    apply safe_put_tcp. destruct Hc as [? ? ? ? ? (? & ? & ?)]. split; cbn; try done. split_and!; [done | apply u32_range | done]. }
  apply safe_if; intros _; [| apply safe_ret]. apply safe_if; intros _; [apply safe_ret |].
  apply safe_bind; [by apply safe_put_tcp, ack_update_ok |]. intros _.
  apply safe_bind; [apply tcp_data_safe; lia | intros n; apply tcp_fin_safe].
Qed.

(** ** Frames *)
(** The total length of an IPv4 packet covers its header. *)
Definition ipv4_sane (p : list Z) : Prop := forall v t, rd8 p 0 = Ret v -> rd16 p 2 = Ret t ->
  Z.land v 0x0F * 4 <= net_htons t.

Lemma Forall_drop_u8 n p : Forall is_u8 p -> Forall is_u8 (drop n p).
Proof. apply Forall_drop. Qed.

Lemma ipv4_handle_safe tk p len : Forall is_u8 p -> len < 65536 -> len <= Z.of_nat (length p) -> ipv4_sane p ->
  safe (ipv4_handle tk p len).
Proof.
  intros Hp Hl16 Hlen Hsane. unfold ipv4_handle. destruct (Z.ltb_spec len 20); [apply safe_ret |].
  destruct (rd8_ok p 0) as (v & Ev & _); [done | lia |]. destruct (rd16_ok p 2) as (t & Et & _); [done | lia | lia |].
  specialize (Hsane v t Ev Et).
  apply (safe_lift _ (fun x => x = v)); [by exists v | intros ? ->]. apply safe_if; intros _; [apply safe_ret |]. cbv zeta.
  pose proof (land_nibble v) as Hnib. set (hdr_len := Z.land v 0x0F * 4) in *.
  destruct (Z.ltb_spec hdr_len 20); [apply safe_ret |]. destruct (Z.ltb_spec len hdr_len); [apply safe_ret |].
  cbn [orb]. apply (safe_lift _ (fun x => x = t)); [by exists t | intros ? ->].
  set (total := if len <? net_htons t then len else net_htons t).
  assert (hdr_len <= total <= len) as Ht by (unfold total; destruct (Z.ltb_spec len (net_htons t)); lia).
  rewrite (u16_id (total - hdr_len)) by (unfold is_u16; lia).
  rd; intros proto _. apply safe_if; intros _; [| apply safe_if; intros _; [| apply safe_ret]].
  - destruct (Z.ltb_spec (total - hdr_len) 8); [apply safe_ret |].
    rewrite (u16_id (total - hdr_len - 8)) by (unfold is_u16; lia).
    rd; intros dp _.
    assert (total - hdr_len - 8 <= Z.of_nat (length (drop (Z.to_nat (hdr_len + 8)) p)))
      by (rewrite length_drop; lia).
    apply safe_if; intros _; [apply dhcp_handle_safe; [by apply Forall_drop_u8 | done] |].
    apply safe_if; intros _; [apply dns_handle_safe; [by apply Forall_drop_u8 | done] | apply safe_ret].
  - rd; intros src _. apply tcp_handle_safe; [by apply Forall_drop_u8 | lia |]. rewrite length_drop. lia.
Qed.

(** A frame as the driver passes it: bytes, with a length inside the buffer. *)
Record frame_ok (f : list Z * Z) : Prop := {
  f_bytes : Forall is_u8 f.1;
  f_len : 0 <= f.2 < 65536 /\ f.2 <= Z.of_nat (length f.1);
  f_ip : ipv4_sane (drop 14 f.1);
}.

Lemma rx_frame_safe tk p len : frame_ok (p, len) -> safe (net_rx_frame tk p len).
Proof.
  intros [Hp [Hl Hlen] Hsane]. cbn in *. unfold net_rx_frame. destruct (Z.ltb_spec len 14); [apply safe_ret |].
  rd; intros ty _. cbv zeta. rewrite (u16_id (len - 14)) by (unfold is_u16; lia).
  apply safe_if; intros _; [apply arp_handle_safe; [by apply Forall_drop_u8 | rewrite length_drop; lia] |].
  apply safe_if; intros _; [| apply safe_ret].
  apply ipv4_handle_safe; [by apply Forall_drop_u8 | lia | rewrite length_drop; lia | done].
Qed.
End Safe.
