(* ===== verification/NetProps.v ===== *)
(** * Network stack: the properties of its calls *)
From S2P Require Import Prelude Interfaces Net NetFacts NetSafe.

(** The calls of the other components and what the environment gives them. *)
Inductive net_op :=
  | OpInit (tk : Z) (mac : option (list Z))
  | OpPoll (tk : Z) (frames : list (list Z * Z))
  | OpResolve (tk : Z) (env : nat -> Z * list (list Z * Z)) (host : list Z)
  | OpConnect (tk ip port : Z)
  | OpSend (tk : Z) (data : list Z)
  | OpRecv (max : Z)
  | OpClose (tk : Z).

(** Three seconds of ticks; every round of the waiting loop sleeps at least one. *)
Definition dns_rounds : nat := 180.
Definition ticks_advance (tk : Z) (env : nat -> Z * list (list Z * Z)) : Prop :=
  forall i, (i <= dns_rounds)%nat -> tk + Z.of_nat i <= (env i).1 < tk + 2 ^ 64.

Section Props.
Context {N : Type} `{!Nic N}.
Implicit Types s : net N.

Definition net_step (o : net_op) : M (N:=N) () :=
  match o with
  | OpInit tk mac => net_init tk mac
  | OpPoll tk frames => net_poll tk frames
  | OpResolve tk env host => _ ← net_dns_resolve dns_rounds tk env host; mret ()
  | OpConnect tk ip port => _ ← net_tcp_connect tk ip port; mret ()
  | OpSend tk data => _ ← net_tcp_send tk data; mret ()
  | OpRecv max => _ ← net_tcp_recv max; mret ()
  | OpClose tk => net_tcp_close tk
  end.
Fixpoint net_run (ops : list net_op) : M (N:=N) () :=
  match ops with [] => mret () | o :: ops => _ ← net_step o; net_run ops end.

Definition op_ok (o : net_op) : Prop :=
  match o with
  | OpInit _ mac => forall m, mac = Some m -> length m = 6%nat
  | OpPoll _ frames => Forall frame_ok frames
  | OpResolve tk env host => Z.of_nat (length host) <= 238 /\ ticks_advance tk env /\
      (forall i, Forall frame_ok (env i).2)
  | OpRecv max => 0 <= max
  | _ => True
  end.

(** ** Safety of the calls *)
Lemma rx_frames_safe tk frames : Forall frame_ok frames -> safe (rx_frames (N:=N) tk frames).
Proof.
  induction 1 as [|[p len] frames Hf _ IH]; [apply safe_ret |]. cbn [rx_frames].
  apply safe_bind; [by apply rx_frame_safe | done].
Qed.

Lemma retransmit_safe tk : safe (tcp_retransmit (N:=N) tk).
Proof.
  unfold tcp_retransmit. apply safe_get_tcp. intros c Hc. pose proof Hc as [? ? ? ? ? (? & ? & ?)].
  assert (tcp_ok (set_snd_nxt (last_seq c) c)) by (by split).
  apply safe_if; intros _; [| apply safe_ret]. apply safe_if; intros _; [| apply safe_ret].
  apply safe_if; intros _; [| apply safe_if; [intros Hl%Z.ltb_lt | intros _; apply safe_ret]].
  - apply safe_bind; [by apply safe_put_tcp | intros _; apply segment_safe; cbn; lia].
  - apply safe_bind; [by apply safe_put_tcp | intros _].
    apply (safe_lift _ (fun a => Z.of_nat (length a) = last_len c)).
    { eexists. rewrite rd_bytes_ok by lia. split; [reflexivity |]. rewrite slice_len by lia. lia. }
    intros data Hd. apply segment_safe. lia.
Qed.

Lemma poll_safe tk frames : Forall frame_ok frames -> safe (net_poll (N:=N) tk frames).
Proof.
  intros Hf. apply safe_bind; [by apply rx_frames_safe | intros _].
  apply safe_bind; [apply retransmit_safe | intros _]. apply safe_get_dhcp. intros d.
  apply safe_if; intros _; [apply safe_ret |]. apply safe_if; intros _; [apply discover_safe | apply safe_ret].
Qed.

Lemma dns_wait_safe tk env : ticks_advance tk env -> (forall i, Forall frame_ok (env i).2) ->
  forall fuel i, (i + fuel = dns_rounds)%nat ->
  triple (net_ok (N:=N)) (dns_wait fuel env i tk) (fun r s => net_ok s /\
    match r with Some ip => ip <> 0 | None => dns_pending (dns s) = false end).
Proof.
  intros Ht Hf. induction fuel as [|fuel IH]; intros i Hi; cbn [dns_wait];
    pose proof (Ht i ltac:(lia)) as Hti; unfold dns_rounds in Hi; pose proof (Hf i) as Hfi; destruct (env i) as [t frames]; cbn [fst snd] in *;
    rewrite (u64_id (t - tk)) by (unfold is_u64; lia); unfold PIT_HZ;
    (destruct (Z.ltb_spec (t - tk) (60 * 3)); cbn [negb]; [|
      apply safe_get_dns; intros d; intros s [? ? ?]; eexists None, _; split; [reflexivity | by split]]); [lia |].
  eapply triple_seq; [by apply poll_safe | intros _].
  intros s Hs. rewrite (st_bind_ret get_dns _ s (dns s) s eq_refl).
  destruct (negb (dns_pending (dns s)) && negb (dns_result_ip (dns s) =? 0)) eqn:E.
  - apply andb_true_iff in E as [_ E%negb_true_iff%Z.eqb_neq]. by exists (Some (dns_result_ip (dns s))), s.
  - apply IH; [unfold dns_rounds; lia | done].
Qed.

Lemma label_length host : (length (label host).1 + length (label host).2 = length host)%nat.
Proof.
  induction host as [|c host IH]; [done |]. cbn [label]. destruct (c =? 46); [done |].
  destruct (label host) as [l r]. cbn in *. lia.
Qed.
Lemma dns_labels_length fuel : forall host, (length (dns_labels fuel host) <= length host + 1)%nat.
Proof.
  induction fuel as [|fuel IH]; intros host; [cbn; lia |]. destruct host as [|c host]; [cbn; lia |].
  cbn [dns_labels]. pose proof (label_length (c :: host)) as Hl. destruct (label (c :: host)) as [l r]. cbn [fst snd] in Hl.
  cbn [length]. rewrite length_app, length_take.
  specialize (IH (match r with [] => [] | _ :: r => r end)). destruct r as [|x r].
  - destruct fuel; cbn [dns_labels] in *; cbn in *; lia.
  - cbn [length] in *. lia.
Qed.

Lemma resolve_up_ok tk env host : Z.of_nat (length host) <= 238 -> ticks_advance tk env ->
  (forall i, Forall frame_ok (env i).2) ->
  triple (net_ok (N:=N)) (dns_resolve_up dns_rounds tk env host) (fun r s => net_ok s /\
    match r with Some ip => ip <> 0 | None => dns_pending (dns s) = false end).
Proof.
  intros Hh Ht Hf. apply safe_get_cfg. intros c Hc.
  apply safe_bind; [apply safe_put_cfg; by case_match | intros _]. cbv zeta.
  apply safe_bind; [apply safe_put_dns | intros _].
  apply safe_lift with (R := fun _ => True).
  { rewrite (proj2 (Z.ltb_ge _ _)); [by exists () |]. unfold dns_query.
    rewrite !length_app, !length_le_bytes, repeat_length. pose proof (dns_labels_length (length host) host).
    cbn [length]. lia. }
  intros _ _. apply safe_get_cfg. intros c' _. apply safe_bind; [apply udp_safe | intros _].
  apply dns_wait_safe; [done | done | lia].
Qed.

Lemma resolve_safe tk env host : Z.of_nat (length host) <= 238 -> ticks_advance tk env ->
  (forall i, Forall frame_ok (env i).2) -> safe (net_dns_resolve (N:=N) dns_rounds tk env host).
Proof.
  intros Hh Ht Hf. apply safe_bind; [apply safe_get_cfg; intros; apply safe_ret | intros up].
  apply safe_if; intros _; [apply safe_ret |]. eapply triple_post; [by apply resolve_up_ok | by intros ? ? [? _]].
Qed.

Lemma init_safe tk mac : (forall m, mac = Some m -> length m = 6%nat) -> safe (net_init (N:=N) tk mac).
Proof.
  intros Hm. unfold net_init. apply safe_get. intros s Hs.
  set (s1 := Net (cfg s) (invalidate <$> arp_cache s) (ip_id s) (dhcp s) (tcp_conn s) (dns s) (nic s)).
  rewrite (st_bind_ret (put_arp _) _ s () s1 eq_refl). assert (net_ok s1) as Hs1.
  { destruct Hs as [H1 (H2 & H3 & H4) H5]. split; cbn; [done | | done]. split_and!.
    - intros i j e f Hi Hj He. apply list_lookup_fmap_Some in Hi as (e' & -> & _). done.
    - by rewrite length_fmap.
    - apply Forall_fmap. by apply Forall_impl with (1 := H4). }
  clearbody s1. clear s Hs. revert s1 Hs1. apply safe_get_cfg. intros c Hc.
  apply safe_bind; [by apply safe_put_cfg | intros _]. apply safe_get_dhcp. intros d.
  apply safe_bind; [apply safe_put_dhcp | intros _]. destruct mac as [m|]; [| apply safe_ret].
  apply safe_get_cfg. intros c' _. apply safe_bind; [apply safe_put_cfg; by apply Hm | intros _].
  apply safe_get_dhcp. intros d'. apply safe_bind; [apply safe_put_dhcp | intros _].
  apply safe_bind; [apply discover_safe | intros _]. apply safe_get_tcp. intros t [? ? ? ? ? ?].
  apply safe_put_tcp. split; cbn; try done; lia.
Qed.

Lemma connect_safe tk ip port : safe (net_tcp_connect (N:=N) tk ip port).
Proof.
  unfold net_tcp_connect, net_is_up. apply safe_bind; [apply safe_get_cfg; intros; apply safe_ret |].
  intros up. apply safe_if; intros _; [apply safe_ret |]. apply safe_get_tcp. intros c [? ? ? ? ? (? & ? & ?)].
  apply safe_bind; [| intros _; apply safe_bind; [apply segment_safe; cbn; lia | intros _; apply safe_ret]].
  apply safe_put_tcp. split; cbn; try done; try lia. split_and!; [apply u32_range | unfold is_u32; lia | done].
Qed.

Lemma send_safe tk data : safe (net_tcp_send (N:=N) tk data).
Proof.
  unfold net_tcp_send. apply safe_get_tcp. intros c _. apply safe_if; intros _; [apply safe_ret |].
  destruct data as [|b data]; [apply safe_ret |].
  apply safe_bind; [| intros _; apply safe_ret]. apply segment_safe. rewrite length_take. lia.
Qed.

Lemma recv_safe max : 0 <= max -> safe (net_tcp_recv (N:=N) max).
Proof.
  intros Hm. unfold net_tcp_recv. apply safe_if; intros _; [apply safe_ret |].
  apply safe_get_tcp. intros c [? ? ? ? ? ?]. rewrite (u32_id (recv_len c - recv_read c)) by (unfold is_u32; lia).
  apply safe_if; intros _; [apply safe_ret |].
  set (n := if max <? _ then max else _). assert (0 <= n <= recv_len c - recv_read c) as Hn
    by (unfold n; destruct (Z.ltb_spec max (recv_len c - recv_read c)); lia).
  apply (safe_lift _ (fun _ => True)); [rewrite rd_bytes_ok by lia; by eexists | intros out _].
  apply safe_bind; [| intros _; apply safe_ret]. apply safe_put_tcp.
  rewrite (u32_id (recv_read c + n)) by (unfold is_u32; lia). split; cbn; try done; lia.
Qed.

Lemma close_safe tk : safe (net_tcp_close (N:=N) tk).
Proof.
  unfold net_tcp_close. apply safe_get_tcp. intros c _. apply safe_if; intros _; [| apply safe_ret].
  apply safe_bind; [apply segment_safe; cbn; lia | intros _]. apply safe_get_tcp. intros c' [? ? ? ? ? ?].
  apply safe_put_tcp. by split.
Qed.

Lemma step_safe o : op_ok o -> safe (net_step o).
Proof.
  destruct o; cbn [op_ok net_step].
  - apply init_safe.
  - apply poll_safe.
  - intros (H1 & H2 & H3). apply safe_bind; [by apply resolve_safe | intros; apply safe_ret].
  - intros _. apply safe_bind; [apply connect_safe | intros; apply safe_ret].
  - intros _. apply safe_bind; [apply send_safe | intros; apply safe_ret].
  - intros Hm. apply safe_bind; [by apply recv_safe | intros; apply safe_ret].
  - intros _. apply close_safe.
Qed.

Lemma run_safe ops : Forall op_ok ops -> safe (net_run ops).
Proof.
  induction 1 as [|o ops Ho _ IH]; [apply safe_ret |]. cbn [net_run].
  apply safe_bind; [by apply step_safe | done].
Qed.

Lemma net_zero_ok (n : N) : net_ok (net_zero n).
Proof.
  split; cbn [cfg net_zero arp_cache tcp_conn].
  - done.
  - split_and!; [| done |].
    + intros i j e f Hi Hj He. apply list_elem_of_lookup_2, list_elem_of_In, repeat_spec in Hi. by subst e.
    + repeat constructor.
  - split; cbn [recv_buf recv_read recv_len last_payload last_len snd_nxt rcv_nxt last_seq];
      rewrite ?repeat_length; unfold is_u32; lia.
Qed.

(** C3: from boot on, whatever calls are made and whatever frames arrive, every call
    of the network stack returns and the state stays consistent: the ARP cache has
    one entry per address, and the buffers, lengths and sequence numbers of the
    connection stay in their bounds.  The frames are any bytes whose IPv4 total length,
    if they have one, covers the IPv4 header. *)
Theorem net_reachable_safe (n : N) ops : Forall op_ok ops ->
  exists s, net_run ops (net_zero n) = Ret ((), s) /\ net_ok s.
Proof.
  intros Ho. destruct (run_safe ops Ho (net_zero n) (net_zero_ok n)) as ([] & s & E & Hs). by exists s.
Qed.

(** [net_dns_resolve] terminates: within the three seconds of its loop it returns
    a nonzero address, or it gives up with no query pending; it sends nothing while
    the interface is down. *)
Theorem dns_resolve_terminates s tk env host :
  net_ok s -> Z.of_nat (length host) <= 238 -> ticks_advance tk env -> (forall i, Forall frame_ok (env i).2) ->
  exists r s', net_dns_resolve dns_rounds tk env host s = Ret (r, s') /\ net_ok s' /\
    match r with
    | Some ip => ip <> 0
    | None => dns_pending (dns s') = false \/ is_up (cfg s) = false /\ s' = s
    end.
Proof.
  intros Hs Hh Ht Hf. unfold net_dns_resolve.
  rewrite (st_bind_ret net_is_up _ s (is_up (cfg s)) s eq_refl). destruct (is_up (cfg s)) eqn:Hup; cbn [negb].
  - destruct (resolve_up_ok tk env host Hh Ht Hf s Hs) as (r & s' & E & Hs' & Hr). exists r, s'.
    split_and!; [done | done |]. destruct r; [done | by left].
  - exists None, s. split_and!; [done | done |]. by right.
Qed.
End Props.
