(* ===== verification/NetTheorems.v ===== *)
(** * Network stack: what is on the wire, and what the protocols deliver *)
From S2P Require Import Prelude Interfaces Net NetFacts NetSafe.

(** ** The header checksum *)
Lemma splice_mid {A} (l1 m m' l2 : list A) o : o = Z.of_nat (length l1) -> length m = length m' ->
  splice (l1 ++ m ++ l2) o m' = l1 ++ m' ++ l2.
Proof.
  intros -> Hm. unfold splice. rewrite Nat2Z.id, take_app_length. f_equal. f_equal.
  rewrite <- Hm. rewrite app_assoc, <- length_app. by rewrite drop_app_length.
Qed.

Lemma checksum_verify A B a b : Forall is_u8 A -> Forall is_u8 B -> is_u8 a -> is_u8 b ->
  Nat.even (length A) = true -> 0 < be_sum (A ++ [0; 0] ++ B) -> Z.of_nat (length A + length B) < 60000 ->
  exists sum, checksum16 (A ++ [0; 0] ++ B) = Ret sum /\ 0 <= sum <= 65534 /\
    (checksum16 (A ++ [a; b] ++ B) = Ret 0 <-> (a * 256 + b - sum) mod 65535 = 0).
Proof.
  intros HA HB Ha Hb He Hpos Hlen.
  assert (H2 : forall x y, is_u8 x -> is_u8 y -> Forall is_u8 (A ++ [x; y] ++ B))
    by (intros; apply Forall_app; split; [done |]; do 2 (apply Forall_cons; split; [done |]); done).
  assert (Hz : is_u8 0) by (unfold is_u8; lia).
  destruct (checksum16_spec (A ++ [0; 0] ++ B)) as (r & -> & Hr & Hm & Hr0);
    [by apply H2 | rewrite !length_app; cbn [length]; lia |].
  destruct (checksum16_spec (A ++ [a; b] ++ B)) as (r' & -> & Hr' & Hm' & Hr0');
    [by apply H2 | rewrite !length_app; cbn [length]; lia |].
  rewrite !be_sum_app in * by done. cbn [app be_sum] in *.
  exists (65535 - r). split; [done |]. unfold is_u8 in *. split; [lia |].
  assert (r' mod 65535 = (r + (a * 256 + b)) mod 65535) as Hrr.
  { rewrite Hm'. rewrite (Z.add_mod r), Hm, <- Z.add_mod by lia. f_equal. lia. }
  assert (r' <> 0) by lia. split.
  - intros [= Hc]. assert (r' = 65535) as -> by lia. change (65535 mod 65535) with 0 in Hrr. lia.
  - intros Hc. f_equal. assert ((r + (a * 256 + b)) mod 65535 = 0); lia.
Qed.

Lemma ipv4_header_parts len id proto src dst : exists A B,
  ipv4_header len id proto src dst = A ++ [0; 0] ++ B /\ length A = 10%nat /\ length B = 8%nat /\
  (is_u8 proto -> Forall is_u8 A) /\ Forall is_u8 B /\ exists A', A = 0x45 :: A'.
Proof.
  exists ([0x45; 0] ++ le_bytes 2 (net_htons (u16 (20 + len))) ++ le_bytes 2 (net_htons id)
    ++ le_bytes 2 (net_htons 0x4000) ++ [64; proto]), (le_bytes 4 src ++ le_bytes 4 dst).
  split_and!; [| | | | | by eexists].
  - unfold ipv4_header. rewrite <- !app_assoc. reflexivity.
  - by rewrite !length_app, !length_le_bytes.
  - by rewrite !length_app, !length_le_bytes.
  - intros Hp. rewrite !Forall_app. split_and!; try apply le_bytes_u8;
      repeat (apply Forall_cons; split; [first [done | unfold is_u8; lia] |]); apply Forall_nil_2.
  - rewrite Forall_app. split; apply le_bytes_u8.
Qed.

Lemma slice_app_at {A} (l1 m l2 : list A) o n : o = Z.of_nat (length l1) -> n = Z.of_nat (length m) ->
  slice o n (l1 ++ m ++ l2) = m.
Proof. intros -> ->. unfold slice. by rewrite !Nat2Z.id, drop_app_length, take_app_length. Qed.

Section Theorems.
Context {N : Type} `{!Nic N}.
Implicit Types s : net N.

(** [net_send_ipv4] stores the checksum of the header with its bytes exchanged.  A
    frame it sends has a 20-byte header whose checksum, stored in network byte
    order, would verify; as it is stored it verifies only when its two bytes are equal. *)
Theorem ipv4_checksum_swapped s dest proto payload mac :
  net_ok s -> is_u8 proto -> route (cfg s) (arp_cache s) dest = Some mac ->
  Z.of_nat (length payload) <= 1480 ->
  exists ok s', net_send_ipv4 dest proto payload s = Ret (ok, s') /\
    (ok = false -> nic_log (nic s') = nic_log (nic s)) /\
    (ok = true -> exists frame sum, nic_log (nic s') = nic_log (nic s) ++ [frame] /\
       let hdr := slice 14 20 frame in
       drop 34 frame = payload /\ slice 10 2 hdr = [sum mod 256; sum / 256] /\
       checksum16 (splice hdr 10 [sum / 256; sum mod 256]) = Ret 0 /\
       (checksum16 hdr = Ret 0 <-> sum mod 256 = sum / 256)).
Proof.
  intros Hs Hp Hr Hlen. pose proof (route_length s dest mac Hs Hr) as Hmac. destruct (send_ipv4_spec dest proto payload s) as (ok & s' & E & _ & Hl).
  specialize (Hl Hs). rewrite Hr in Hl. destruct (Hl Hlen) as (sum & Hsum & Hlog). clear Hl.
  exists ok, s'. split; [done |]. destruct ok; [| by rewrite Hlog, app_nil_r].
  split; [done |]. intros _.
  destruct (ipv4_header_parts (Z.of_nat (length payload)) (u16 (ip_id s)) proto (local_ip (cfg s)) dest)
    as (A & B & HAB & HlA & HlB & HA & HB & A' & HA').
  specialize (HA Hp).
  assert (HBs : 0 <= be_sum B) by (by apply be_sum_range).
  assert (Hpos : 0 < be_sum (A ++ [0; 0] ++ B)).
  { rewrite !be_sum_app by (by rewrite HlA). cbn [app be_sum]. rewrite HA' in HA, HlA |- *.
    destruct A' as [|y A']; [done |]. cbn [be_sum]. apply Forall_cons in HA as [_ [Hy HA]%Forall_cons].
    pose proof (be_sum_range A' HA). unfold is_u8 in Hy. lia. }
  assert (Heven : Nat.even (length A) = true) by (by rewrite HlA).
  assert (is_u8 (sum mod 256)) by (unfold is_u8; lia).
  rewrite HAB in Hsum.
  assert (0 <= sum <= 65534) as Hrange.
  { destruct (checksum_verify A B 0 0) as (x & E' & Hx & _); try done; unfold is_u8; try lia.
    rewrite Hsum in E'. by injection E' as <-. }
  assert (is_u8 (sum / 256)) by (unfold is_u8; lia).
  eexists _, sum. split; [exact Hlog |]. unfold eth_frame, ip_packet. rewrite HAB.
  assert (le_bytes 2 sum = [sum mod 256; sum / 256]) as -> by (cbn [le_bytes]; f_equal; f_equal; lia).
  rewrite splice_mid by (done || by rewrite HlA). cbv zeta.
  set (P := mac ++ local_mac (cfg s) ++ le_bytes 2 (net_htons ETH_TYPE_IPV4)).
  set (hdr := A ++ [sum mod 256; sum / 256] ++ B).
  assert (length P = 14%nat) as Hpre by (unfold P; rewrite !length_app, Hmac, (n_mac s Hs), length_le_bytes; done).
  assert (length hdr = 20%nat) as Hh by (unfold hdr; rewrite !length_app, HlA, HlB; done).
  assert (mac ++ local_mac (cfg s) ++ le_bytes 2 (net_htons ETH_TYPE_IPV4) ++ hdr ++ payload
          = P ++ hdr ++ payload) as -> by (unfold P; by rewrite <- !app_assoc).
  replace (slice 14 20 _) with hdr by (symmetry; apply slice_app_at; [by rewrite Hpre | by rewrite Hh]).
  split_and!.
  - rewrite app_assoc. apply drop_app_length'. rewrite length_app, Hpre, Hh. done.
  - apply slice_app_at; [by rewrite HlA | done].
  - unfold hdr. rewrite splice_mid by (done || by rewrite HlA).
    destruct (checksum_verify A B (sum / 256) (sum mod 256)) as (x & E' & _ & ->); try done; try lia.
    rewrite Hsum in E'. injection E' as <-. replace (sum / 256 * 256 + sum mod 256 - sum) with 0 by lia. done.
  - unfold hdr. destruct (checksum_verify A B (sum mod 256) (sum / 256)) as (x & E' & _ & ->); try done; try lia.
    rewrite Hsum in E'. injection E' as <-. split; intros; lia.
Qed.
End Theorems.
