(* ===== verification/NetStream.v ===== *)
(** * TCP in [net.c]: the byte stream, retransmission *)
From S2P Require Import Prelude Interfaces Net NetFacts NetSafe.

(** A segment as the peer builds it: the header without options, then the data.  [rest]
    is the window, the checksum and the urgent pointer, which are not looked at. *)
Definition segment (sport dport seq ack flags : Z) (rest data : list Z) : list Z :=
  le_bytes 2 (net_htons sport) ++ le_bytes 2 (net_htons dport) ++ le_bytes 4 (net_htonl seq)
  ++ le_bytes 4 (net_htonl ack) ++ le_bytes 2 (net_htons (5 * 4096 + flags)) ++ rest ++ data.

Lemma rd_bytes_app (l1 m l2 : list Z) o n : o = Z.of_nat (length l1) -> n = Z.of_nat (length m) ->
  rd_bytes (l1 ++ m ++ l2) o n = Ret m.
Proof.
  intros -> ->. rewrite rd_bytes_ok by (rewrite ?length_app; lia).
  unfold slice. by rewrite !Nat2Z.id, drop_app_length, take_app_length.
Qed.
Lemma rd16_app l1 v l2 o : o = Z.of_nat (length l1) -> is_u16 v -> rd16 (l1 ++ le_bytes 2 v ++ l2) o = Ret v.
Proof.
  intros Ho Hv. unfold rd16. rewrite (bind_ret _ _ _ (rd_bytes_app l1 (le_bytes 2 v) l2 o 2 Ho eq_refl)).
  rewrite le_num_bytes. f_equal. by apply Z.mod_small.
Qed.
Lemma rd32_app l1 v l2 o : o = Z.of_nat (length l1) -> is_u32 v -> rd32 (l1 ++ le_bytes 4 v ++ l2) o = Ret v.
Proof.
  intros Ho Hv. unfold rd32. rewrite (bind_ret _ _ _ (rd_bytes_app l1 (le_bytes 4 v) l2 o 4 Ho eq_refl)).
  rewrite le_num_bytes. f_equal. by apply Z.mod_small.
Qed.

Lemma segment_fields sport dport seq ack flags rest data : length rest = 6%nat ->
  let p := segment sport dport seq ack flags rest data in
  is_u16 sport -> is_u16 dport -> is_u32 seq -> is_u32 ack -> 0 <= flags < 64 ->
  rd16 p 0 = Ret (net_htons sport) /\ rd16 p 2 = Ret (net_htons dport) /\ rd32 p 4 = Ret (net_htonl seq) /\
  rd32 p 8 = Ret (net_htonl ack) /\ rd16 p 12 = Ret (net_htons (5 * 4096 + flags)) /\
  length p = (20 + length data)%nat /\ (forall n, 0 <= n <= Z.of_nat (length data) -> rd_bytes p 20 n = Ret (take (Z.to_nat n) data)).
Proof.
  intros Hr p Hs Hd Hq Ha Hf. unfold p, segment.
  set (f1 := le_bytes 2 (net_htons sport)). set (f2 := le_bytes 2 (net_htons dport)).
  set (f3 := le_bytes 4 (net_htonl seq)). set (f4 := le_bytes 4 (net_htonl ack)).
  set (f5 := le_bytes 2 (net_htons (5 * 4096 + flags))).
  assert (length f1 = 2%nat /\ length f2 = 2%nat /\ length f3 = 4%nat /\ length f4 = 4%nat /\ length f5 = 2%nat)
    as (L1 & L2 & L3 & L4 & L5) by (split_and!; apply length_le_bytes).
  split_and!.
  - apply (rd16_app []); [done | apply net_htons_range].
  - apply rd16_app; [by rewrite L1 | apply net_htons_range].
  - rewrite (app_assoc f1). apply rd32_app; [by rewrite length_app, L1, L2 | apply net_htonl_range].
  - rewrite (app_assoc f1), (app_assoc (f1 ++ f2)).
    apply rd32_app; [by rewrite !length_app, L1, L2, L3 | apply net_htonl_range].
  - rewrite (app_assoc f1), (app_assoc (f1 ++ f2)), (app_assoc ((f1 ++ f2) ++ f3)).
    apply rd16_app; [by rewrite !length_app, L1, L2, L3, L4 | apply net_htons_range].
  - rewrite !length_app, L1, L2, L3, L4, L5, Hr. lia.
  - intros n Hn. rewrite rd_bytes_ok by (rewrite ?length_app; lia). f_equal. unfold slice. f_equal.
    rewrite !app_assoc. rewrite drop_app_length'; [done |]. rewrite !length_app, L1, L2, L3, L4, L5, Hr. done.
Qed.

Section Stream.
Context {N : Type} `{!Nic N}.
Implicit Types s : net N.

Definition open_state (c : tcp_conn_t) : Prop := state c = TCP_ESTABLISHED \/ state c = TCP_FIN_WAIT.

(** A segment of the connection is handled by its three steps. *)
Lemma tcp_handle_segment tk s seq ack flags rest data (c := tcp_conn s) :
  open_state c -> is_u16 (src_port c) -> is_u16 (dest_port c) -> length rest = 6%nat -> is_u32 seq -> is_u32 ack ->
  0 <= flags < 64 -> Z.of_nat (length data) < 65000 ->
  tcp_handle tk (segment (dest_port c) (src_port c) seq ack flags rest data) (20 + Z.of_nat (length data)) (dest_ip c) s
  = (n ← tcp_data tk seq (segment (dest_port c) (src_port c) seq ack flags rest data) 20 (Z.of_nat (length data));
     tcp_fin tk flags seq n) (with_tcp s (ack_update flags ack c)).
Proof.
  intros Ho Hsp Hdp Hr Hq Ha Hf Hl.
  destruct (segment_fields (dest_port c) (src_port c) seq ack flags rest data Hr Hdp Hsp Hq Ha Hf)
    as (R1 & R2 & R3 & R4 & R5 & _). set (p := segment _ _ _ _ _ _ _) in *.
  unfold tcp_handle. rewrite (proj2 (Z.ltb_ge _ _)) by lia.
  assert (L : forall A B (m : res A) (f : A -> M (N:=N) B) x, m = Ret x -> (st_lift m ≫= f) s = f x s).
  { intros A B m f x ->. reflexivity. }
  rewrite (L _ _ _ _ _ R1), (L _ _ _ _ _ R2), (L _ _ _ _ _ R3), (L _ _ _ _ _ R4), (L _ _ _ _ _ R5). cbv zeta.
  rewrite (net_htons_invol (5 * 4096 + flags)) by (unfold is_u16; lia).
  rewrite !net_htons_invol, !net_htonl_invol by done.
  replace (Z.land (Z.shiftr (5 * 4096 + flags) 12) 0xF) with 5.
  2:{ rewrite Z.shiftr_div_pow2 by lia. replace ((5 * 4096 + flags) / 2 ^ 12) with 5 by (change (2 ^ 12) with 4096; lia). done. }
  replace (Z.land (5 * 4096 + flags) 0x3F) with flags.
  2:{ change 0x3F with (Z.ones 6). rewrite Z.land_ones by lia. change (2 ^ 6) with 64. lia. }
  change (5 * 4) with 20. rewrite (proj2 (Z.ltb_ge (20 + _) 20)) by lia. cbn [Z.ltb orb].
  change (20 <? 20) with false. cbn [orb].
  replace (20 + Z.of_nat (length data) - 20) with (Z.of_nat (length data)) by lia.
  rewrite u16_id by (unfold is_u16; lia).
  rewrite (st_bind_ret get_tcp _ s c s eq_refl).
  rewrite (bool_decide_eq_false_2 (state c = TCP_SYN_SENT)) by (destruct Ho; congruence).
  assert (bool_decide (state c = TCP_ESTABLISHED) || bool_decide (state c = TCP_FIN_WAIT) = true) as ->
    by (destruct Ho as [-> | ->]; done).
  rewrite !Z.eqb_refl. cbn [negb orb]. reflexivity.
Qed.

Definition take_in (tk : Z) (buf : list Z) (n : Z) (c : tcp_conn_t) : tcp_conn_t :=
  tcp_sent tk TCP_FLAG_ACK [] (set_rcv_nxt (u32 (rcv_nxt c + n)) (set_recv buf (recv_len c + n) (recv_read c) c)).

(** In-order data is stored behind what is there, as far as it fits. *)
Lemma tcp_data_spec tk seq p hdr data s (c := tcp_conn s) : tcp_ok c ->
  Z.of_nat (length data) < 65536 ->
  (forall n, 0 <= n <= Z.of_nat (length data) -> rd_bytes p hdr n = Ret (take (Z.to_nat n) data)) ->
  if decide (data <> [] /\ seq = rcv_nxt c) then
    let n := Z.min (Z.of_nat (length data)) (65536 - recv_len c) in
    exists s1, quiet s s1 /\
      tcp_data tk seq p hdr (Z.of_nat (length data)) s =
        Ret (n, with_tcp s1 (take_in tk (splice (recv_buf c) (recv_len c) (take (Z.to_nat n) data)) n c))
  else tcp_data tk seq p hdr (Z.of_nat (length data)) s = Ret (Z.of_nat (length data), s).
Proof.
  intros [B1 B2 B3 B4 B5 B6] Hl Hrd. unfold tcp_data. rewrite (st_bind_ret get_tcp _ s c s eq_refl).
  case_decide as Hd.
  - destruct Hd as [Hne ->].
    assert (0 < Z.of_nat (length data)) by (destruct data; [done | cbn; lia]).
    rewrite (proj2 (Z.ltb_lt _ _)), Z.eqb_refl by done. cbn [andb].
    rewrite (u32_id (65536 - recv_len c)) by (unfold is_u32; lia).
    set (n := Z.min _ _). replace (if _ <? _ then _ else _) with n.
    2:{ unfold n. destruct (Z.ltb_spec (65536 - recv_len c) (Z.of_nat (length data)));
          [rewrite u16_id by (unfold is_u16; lia) |]; lia. }
    assert (0 <= n <= Z.of_nat (length data) /\ n <= 65536 - recv_len c) by lia. cbv zeta.
    rewrite (st_bind_ret (st_lift _) _ s (take (Z.to_nat n) data) s)
      by (unfold st_lift; rewrite Hrd by lia; done).
    assert (Z.of_nat (length (take (Z.to_nat n) data)) = n) as Hn by (rewrite length_take; lia).
    assert (buf_append (recv_buf c) (recv_len c) (take (Z.to_nat n) data)
            = Ret (splice (recv_buf c) (recv_len c) (take (Z.to_nat n) data))) as Hb.
    { unfold buf_append. rewrite Hn. rewrite (proj2 (Z.leb_le _ _)), (proj2 (Z.leb_le _ _)) by lia. done. }
    set (buf := splice _ _ _) in *.
    rewrite (st_bind_ret (st_lift _) _ s buf s) by (unfold st_lift; by rewrite Hb).
    rewrite (u32_id (recv_len c + n)) by (unfold is_u32; lia).
    rewrite (st_bind_ret (put_tcp _) _ s _ _ (put_tcp_eq _ s)).
    set (c1 := set_rcv_nxt _ _).
    destruct (send_segment_spec tk TCP_FLAG_ACK [] (with_tcp s c1)) as (s1 & E & Hq); [cbn; lia |].
    rewrite (st_bind_ret _ _ _ _ _ E). exists (with_tcp s1 c). split; [| reflexivity].
    destruct Hq as (? & ? & ? & ? & ?). by split_and!.
  - destruct (Z.ltb_spec 0 (Z.of_nat (length data))); [| done].
    destruct (Z.eqb_spec seq (rcv_nxt c)); [| done]. destruct Hd. split; [| done].
    intros ->. cbn in *. lia.
Qed.

(** ** The stream of a connection

    The peer's stream is [str], its initial sequence number [irs]; the peer sends any
    segments of it, in any order, with repetitions, and the application receives. *)
Inductive conn_ev :=
  | Seg (tk k n ack flags : Z) (rest : list Z)
  | Recv (max : Z).

Definition ev_ok (str : list Z) (e : conn_ev) : Prop :=
  match e with
  | Seg _ k n ack flags rest => 0 <= k /\ 0 <= n < 65000 /\ k + n <= Z.of_nat (length str) /\ is_u32 ack /\
      0 <= flags < 64 /\ Z.land flags TCP_FLAG_FIN = 0 /\ length rest = 6%nat
  | Recv max => 0 <= max
  end.

Definition conn_step (str : list Z) (irs : Z) (e : conn_ev) : M (N:=N) (list Z) :=
  match e with
  | Seg tk k n ack flags rest =>
      c ← get_tcp;
      _ ← tcp_handle tk (segment (dest_port c) (src_port c) (u32 (irs + 1 + k)) ack flags rest (slice k n str))
            (20 + n) (dest_ip c);
      mret []
  | Recv max => net_tcp_recv max
  end.
(** All bytes the application received, in order. *)
Fixpoint conn_run (str : list Z) (irs : Z) (evs : list conn_ev) : M (N:=N) (list Z) :=
  match evs with
  | [] => mret []
  | e :: evs => out ← conn_step str irs e; outs ← conn_run str irs evs; mret (out ++ outs)
  end.

Record stream_at (str : list Z) (irs : Z) s : Prop := {
  st_ok : tcp_ok (tcp_conn s);
  st_open : open_state (tcp_conn s);
  st_ports : is_u16 (src_port (tcp_conn s)) /\ is_u16 (dest_port (tcp_conn s));
  st_len : recv_len (tcp_conn s) <= Z.of_nat (length str);
  st_buf : take (Z.to_nat (recv_len (tcp_conn s))) (recv_buf (tcp_conn s))
           = take (Z.to_nat (recv_len (tcp_conn s))) str;
  st_nxt : rcv_nxt (tcp_conn s) = u32 (irs + 1 + recv_len (tcp_conn s));
}.

Lemma ack_update_fields flags ack c : let c' := ack_update flags ack c in
  state c' = state c /\ src_port c' = src_port c /\ dest_port c' = dest_port c /\ recv_len c' = recv_len c /\
  recv_read c' = recv_read c /\ recv_buf c' = recv_buf c /\ rcv_nxt c' = rcv_nxt c /\ dest_ip c' = dest_ip c.
Proof. cbv zeta. unfold ack_update. repeat case_match; done. Qed.

Lemma take_in_fields tk buf n c : let c' := take_in tk buf n c in
  state c' = state c /\ src_port c' = src_port c /\ dest_port c' = dest_port c /\ recv_len c' = recv_len c + n /\
  recv_read c' = recv_read c /\ recv_buf c' = buf /\ rcv_nxt c' = u32 (rcv_nxt c + n) /\ dest_ip c' = dest_ip c.
Proof. cbv zeta. unfold take_in, tcp_sent. cbn. done. Qed.

Lemma take_in_ok tk buf n c : tcp_ok c -> Z.of_nat (length buf) = 65536 -> 0 <= n ->
  recv_len c + n <= 65536 -> tcp_ok (take_in tk buf n c).
Proof.
  intros [B1 B2 B3 B4 B5 (B6 & B7 & B8)] Hb Hn Hle. apply tcp_sent_ok; [cbn; lia |].
  split; cbn; try done; try lia. split_and!; [done | apply u32_range | done].
Qed.

Lemma take_splice_grow (buf str : list Z) r n : 0 <= r -> 0 <= n -> r + n <= Z.of_nat (length buf) ->
  r + n <= Z.of_nat (length str) -> take (Z.to_nat r) buf = take (Z.to_nat r) str ->
  take (Z.to_nat (r + n)) (splice buf r (slice r n str)) = take (Z.to_nat (r + n)) str.
Proof.
  intros Hr Hn Hb Hs Heq. unfold splice.
  assert (length (take (Z.to_nat r) buf) = Z.to_nat r) as L1 by (rewrite length_take; lia).
  pose proof (slice_len str r n Hr Hn Hs) as L2. rewrite Z2Nat.inj_add by done.
  rewrite app_assoc, take_app_le by (rewrite length_app; lia).
  rewrite take_ge by (rewrite length_app; lia). rewrite Heq. unfold slice.
  rewrite <- (take_drop (Z.to_nat r) (take (Z.to_nat r + Z.to_nat n) str)), take_take, take_drop_commute.
  by rewrite Nat.min_l by lia.
Qed.

Lemma take_slice k n m (str : list Z) : 0 <= m <= n -> take (Z.to_nat m) (slice k n str) = slice k m str.
Proof. intros Hm. unfold slice. rewrite take_take. f_equal. lia. Qed.

Lemma seg_step str irs s tk k n ack flags rest : stream_at str irs s -> Z.of_nat (length str) < 2 ^ 32 ->
  is_u32 (irs + 1) -> ev_ok str (Seg tk k n ack flags rest) ->
  exists s', conn_step str irs (Seg tk k n ack flags rest) s = Ret ([], s') /\ stream_at str irs s' /\
    recv_read (tcp_conn s') = recv_read (tcp_conn s) /\
    recv_len (tcp_conn s') = recv_len (tcp_conn s) +
      (if decide (k = recv_len (tcp_conn s)) then Z.min n (65536 - recv_len (tcp_conn s)) else 0).
Proof.
  intros [Hok Hop [Hp1 Hp2] Hlen Hbuf Hnxt] Hstr Hirs (Hk & Hn & Hkn & Hack & Hfl & Hfin & Hrest).
  set (c := tcp_conn s) in *. cbn [conn_step]. rewrite (st_bind_ret get_tcp _ s c s eq_refl).
  assert (Z.of_nat (length (slice k n str)) = n) as Hdl by (rewrite slice_len by lia; lia).
  assert (is_u32 (u32 (irs + 1 + k))) as Hseq by apply u32_range.
  pose proof (tcp_handle_segment tk s (u32 (irs + 1 + k)) ack flags rest (slice k n str) Hop Hp1 Hp2 Hrest Hseq Hack Hfl
                ltac:(lia)) as Eh. fold c in Eh. rewrite Hdl in Eh.
  destruct (segment_fields (dest_port c) (src_port c) (u32 (irs + 1 + k)) ack flags rest (slice k n str)
              Hrest Hp2 Hp1 Hseq Hack Hfl) as (_ & _ & _ & _ & _ & _ & Hrd).
  set (p := segment _ _ _ _ _ _ _) in *. set (s1 := with_tcp s (ack_update flags ack c)) in *.
  destruct (ack_update_fields flags ack c) as (F1 & F2 & F3 & F4 & F5 & F6 & F7 & F8).
  pose proof (ack_update_ok flags ack c Hok) as Hok1.
  pose proof (tcp_data_spec tk (u32 (irs + 1 + k)) p 20 (slice k n str) s1 Hok1 ltac:(lia) Hrd) as Ed.
  rewrite Hdl in Ed. change (tcp_conn s1) with (ack_update flags ack c) in Ed. rewrite F4, F7 in Ed.
  assert (Efin : forall x s', tcp_fin (N:=N) tk flags (u32 (irs + 1 + k)) x s' = Ret ((), s'))
    by (intros; unfold tcp_fin; rewrite Hfin; done).
  pose proof Hok as [B1 B2 B3 _ _ _]. unfold is_u32 in Hirs.
  assert (Hkr : u32 (irs + 1 + k) = rcv_nxt c <-> k = recv_len c) by (rewrite Hnxt; unfold u32; lia).
  case_decide as Hd.
  - destruct Hd as [Hne Hsq]. apply Hkr in Hsq. rewrite (decide_True _ _ Hsq). destruct Ed as (s2 & Hq & Ed).
    set (m := Z.min n (65536 - recv_len c)) in *. set (c2 := take_in _ _ _ _) in Ed.
    destruct (take_in_fields tk (splice (recv_buf (ack_update flags ack c)) (recv_len c)
                 (take (Z.to_nat m) (slice k n str))) m (ack_update flags ack c)) as (G1 & G2 & G3 & G4 & G5 & G6 & G7 & G8).
    fold c2 in G1, G2, G3, G4, G5, G6, G7, G8. rewrite take_slice in G6 by lia.
    exists (with_tcp s2 c2). rewrite (st_bind_ret _ _ s () (with_tcp s2 c2)).
    2:{ rewrite Eh. rewrite (st_bind_ret _ _ _ _ _ Ed). apply Efin. }
    split; [reflexivity |]. change (tcp_conn (with_tcp s2 c2)) with c2.
    split; [| split; [congruence | by rewrite G4, F4]].
    split; change (tcp_conn (with_tcp s2 c2)) with c2.
    + apply take_in_ok; rewrite ?F4, ?F6; [done | | lia | lia].
      rewrite take_slice by lia. rewrite splice_length; [done | lia |]. rewrite slice_len by lia. lia.
    + unfold open_state. by rewrite G1, F1.
    + by rewrite G2, G3, F2, F3.
    + rewrite G4, F4. lia.
    + rewrite G4, G6, F4, F6. subst k. apply take_splice_grow; [lia | lia | lia | lia | done].
    + rewrite G7, F7, G4, F4, Hnxt. unfold u32. rewrite Zplus_mod_idemp_l. f_equal. lia.
  - assert (E0 : conn_step str irs (Seg tk k n ack flags rest) s = Ret ([], s1)).
    { cbn [conn_step]. rewrite (st_bind_ret get_tcp _ s c s eq_refl). fold p. rewrite (st_bind_ret _ _ s () s1); [done |].
      rewrite Eh, (st_bind_ret _ _ _ _ _ Ed). apply Efin. }
    exists s1. split; [exact E0 |]. change (tcp_conn s1) with (ack_update flags ack c).
    split; [split; change (tcp_conn s1) with (ack_update flags ack c) |].
    + done.
    + unfold open_state. by rewrite F1.
    + by rewrite F2, F3.
    + by rewrite F4.
    + by rewrite F4, F6.
    + by rewrite F7, F4.
    + split; [done |]. rewrite F4. case_decide as Hkk; [| lia].
      destruct (decide (slice k n str = [])) as [Hnil | Hne]; [| destruct Hd; split; [done | by apply Hkr]].
      rewrite Hnil in Hdl. cbn in Hdl. lia.
Qed.

Lemma recv_step str irs s max : stream_at str irs s -> 0 <= max ->
  exists out s', conn_step str irs (Recv max) s = Ret (out, s') /\ stream_at str irs s' /\
    recv_len (tcp_conn s') = recv_len (tcp_conn s) /\
    recv_read (tcp_conn s') = recv_read (tcp_conn s) + Z.min max (recv_len (tcp_conn s) - recv_read (tcp_conn s)) /\
    out = slice (recv_read (tcp_conn s)) (Z.min max (recv_len (tcp_conn s) - recv_read (tcp_conn s))) str.
Proof.
  intros Hst Hm. pose proof Hst as [Hok Hop Hp Hlen Hbuf Hnxt]. set (c := tcp_conn s) in *.
  pose proof Hok as [B1 B2 B3 B4 B5 B6]. cbn [conn_step]. unfold net_tcp_recv.
  assert (Hnil : forall n, n = 0 -> [] = slice (recv_read c) n str) by (by intros ? ->).
  destruct (Z.eqb_spec max 0) as [|Hmax].
  { exists [], s. fold c. split_and!; [done | done | done | lia | apply Hnil; lia]. }
  rewrite (st_bind_ret get_tcp _ s c s eq_refl). rewrite (u32_id (recv_len c - recv_read c)) by (unfold is_u32; lia).
  destruct (Z.eqb_spec (recv_len c - recv_read c) 0) as [|Hav].
  { exists [], s. fold c. split_and!; [done | done | done | lia | apply Hnil; lia]. }
  replace (if max <? _ then _ else _) with (Z.min max (recv_len c - recv_read c))
    by (destruct (Z.ltb_spec max (recv_len c - recv_read c)); lia).
  set (n := Z.min max _) in *. cbv zeta. assert (0 <= n <= recv_len c - recv_read c) by lia.
  rewrite (st_bind_ret (st_lift _) _ s (slice (recv_read c) n (recv_buf c)) s)
    by (unfold st_lift; rewrite rd_bytes_ok by lia; done).
  rewrite (st_bind_ret (put_tcp _) _ s _ _ (put_tcp_eq _ s)).
  rewrite (u32_id (recv_read c + n)) by (unfold is_u32; lia).
  eexists _, _. split; [reflexivity |]. split; [| split_and!; [done | done |]].
  - split; cbn [tcp_conn with_tcp]; try done. split; cbn; try done; lia.
  - assert (forall b : list Z, slice (recv_read c) n b
      = slice (recv_read c) n (take (Z.to_nat (recv_len c)) b)) as Hsl.
    { intros b. unfold slice. rewrite skipn_firstn_comm, take_take. f_equal. lia. }
    by rewrite (Hsl (recv_buf c)), (Hsl str), Hbuf.
Qed.

(** C9: the stream of a connection.  Whatever segments of its stream the peer sends, in
    whatever order and with whatever repetitions, and however the application receives,
    the bytes received are a prefix of the stream, and at most its first 65536; a
    segment that continues what has come in is taken in full as long as it fits these. *)
Theorem tcp_stream_prefix str irs s evs :
  stream_at str irs s -> recv_read (tcp_conn s) = 0 -> Z.of_nat (length str) < 2 ^ 32 -> is_u32 (irs + 1) ->
  Forall (ev_ok str) evs ->
  exists out s', conn_run str irs evs s = Ret (out, s') /\ stream_at str irs s' /\
    out = take (Z.to_nat (recv_read (tcp_conn s'))) str /\
    0 <= recv_read (tcp_conn s') <= recv_len (tcp_conn s') /\ recv_len (tcp_conn s') <= 65536 /\
    forall tk n ack flags rest, let r := recv_len (tcp_conn s') in
      ev_ok str (Seg tk r n ack flags rest) -> r + n <= 65536 ->
      exists s'', conn_step str irs (Seg tk r n ack flags rest) s' = Ret ([], s'') /\
        recv_len (tcp_conn s'') = r + n.
Proof.
  intros Hst Hr0 Hstr Hirs Hev.
  assert (exists out s', conn_run str irs evs s = Ret (out, s') /\ stream_at str irs s' /\
    recv_read (tcp_conn s) <= recv_read (tcp_conn s') /\
    out = slice (recv_read (tcp_conn s)) (recv_read (tcp_conn s') - recv_read (tcp_conn s)) str)
    as (out & s' & E & Hst' & Hle & Hout).
  { clear Hr0. revert s Hst. induction Hev as [|e evs He _ IH]; intros s Hst.
    { exists [], s. split_and!; [done | done | done |]. by rewrite Z.sub_diag. }
    assert (exists o s1, conn_step str irs e s = Ret (o, s1) /\ stream_at str irs s1 /\
      recv_read (tcp_conn s) <= recv_read (tcp_conn s1) /\
      o = slice (recv_read (tcp_conn s)) (recv_read (tcp_conn s1) - recv_read (tcp_conn s)) str)
      as (o & s1 & E1 & Hst1 & Hle1 & Ho).
    { destruct e as [tk k n ack flags rest | max].
      - destruct (seg_step str irs s tk k n ack flags rest Hst Hstr Hirs He) as (s1 & E1 & Hst1 & Hrd & _).
        exists [], s1. rewrite Hrd, Z.sub_diag. by split_and!.
      - destruct (recv_step str irs s max Hst He) as (o & s1 & E1 & Hst1 & _ & Hrd & Ho).
        destruct Hst as [[? ? ? _ _ _] _ _ _ _ _]. cbn in He.
        exists o, s1. split_and!; [done | done | lia |]. rewrite Ho, Hrd. f_equal. lia. }
    destruct (IH s1 Hst1) as (os & s' & E2 & Hst' & Hle2 & Hos). exists (o ++ os), s'.
    cbn [conn_run]. rewrite (st_bind_ret _ _ _ _ _ E1), (st_bind_ret _ _ _ _ _ E2).
    split_and!; [done | done | lia |]. rewrite Ho, Hos. unfold slice.
    destruct Hst as [[? ? ? _ _ _] _ _ _ _ _].
    set (a := recv_read (tcp_conn s)) in *. set (b := recv_read (tcp_conn s1)) in *. set (d := recv_read (tcp_conn s')) in *.
    replace (Z.to_nat (d - a)) with (Z.to_nat (b - a) + Z.to_nat (d - b))%nat by lia.
    replace (Z.to_nat b) with (Z.to_nat a + Z.to_nat (b - a))%nat by lia.
    rewrite <- drop_drop. set (l := drop (Z.to_nat a) str).
    rewrite <- (take_drop (Z.to_nat (b - a)) (take (Z.to_nat (b - a) + Z.to_nat (d - b)) l)).
    rewrite take_take, take_drop_commute, Nat.min_l by lia. done. }
  exists out, s'. pose proof (st_ok _ _ _ Hst') as [? ? ? _ _ _].
  split_and!; [done | done | | lia | lia | done |].
  - rewrite Hout, Hr0, Z.sub_0_r. unfold slice. done.
  - intros tk n ack flags rest r He Hfit.
    destruct (seg_step str irs s' tk r n ack flags rest Hst' Hstr Hirs He) as (s'' & E'' & _ & _ & Hl).
    exists s''. split; [done |]. rewrite Hl, decide_True by done. fold r. lia.
Qed.

(** ** Retransmission *)
Definition psh_ack : Z := Z.lor TCP_FLAG_ACK TCP_FLAG_PSH.

(** The connection [c] while [data], sent at [t] with sequence number [snd_nxt c], waits for
    its acknowledgement; [una] and [p] are what it has in [snd_una] and [last_payload]. *)
Definition after_send (data p : list Z) (una t : Z) (c : tcp_conn_t) : tcp_conn_t :=
  set_waiting true (set_snd_nxt (u32 (snd_nxt c + Z.of_nat (length data)))
    (set_last p (Z.of_nat (length data)) psh_ack (snd_nxt c) t (set_snd_una una c))).
Definition waits data t c c' : Prop :=
  exists p una, c' = after_send data p una t c /\ take (length data) p = data /\ (length data <= length p)%nat.
(** What happens while it waits: [net_poll] looks after the retransmission, or a segment
    without data comes that does not reach the end of what was sent. *)
Inductive wait_ev := Poll (tk : Z) | NoData (tk seq ack flags : Z) (rest : list Z).
Definition wait_ok (next : Z) (e : wait_ev) : Prop :=
  match e with
  | Poll _ => True
  | NoData _ seq ack flags rest => length rest = 6%nat /\ is_u32 seq /\ is_u32 ack /\ 0 <= flags < 64 /\ Z.land flags TCP_FLAG_FIN = 0 /\ (Z.land flags TCP_FLAG_ACK = 0 \/ ack < next)
  end.
Definition wait_step (c : tcp_conn_t) (e : wait_ev) : M () :=
  match e with
  | Poll tk => tcp_retransmit tk
  | NoData tk seq ack flags rest => tcp_handle tk (segment (dest_port c) (src_port c) seq ack flags rest []) 20 (dest_ip c)
  end.
Fixpoint wait_run (c : tcp_conn_t) (evs : list wait_ev) : M () :=
  match evs with [] => mret () | e :: evs => _ ← wait_step c e; wait_run c evs end.
(** When the data was sent last. *)
Fixpoint last_sent (t : Z) (evs : list wait_ev) : Z :=
  match evs with
  | [] => t
  | Poll tk :: evs => last_sent (if PIT_HZ <? u64 (tk - t) then tk else t) evs
  | _ :: evs => last_sent t evs
  end.
(** [net_poll]'s retransmission leaves the data alone for a second; then it sends the same
    data under the header of [c], sequence number included. *)
Definition resends data t c s' : Prop :=
  waiting_ack (tcp_conn s') = true /\ snd_nxt (tcp_conn s') = u32 (snd_nxt c + Z.of_nat (length data)) /\
  (forall tk2, u64 (tk2 - t) <= PIT_HZ -> tcp_retransmit tk2 s' = Ret ((), s')) /\
  (forall tk2, PIT_HZ < u64 (tk2 - t) ->
     let back := with_tcp s' (set_snd_nxt (snd_nxt c) (tcp_conn s')) in
     tcp_header (tcp_conn back) psh_ack = tcp_header c psh_ack /\ tcp_retransmit tk2 s' = tcp_send_segment tk2 psh_ack data back).

Lemma sent_waits data p una t tk c : 0 < Z.of_nat (length data) <= 1460 -> waits data tk c (tcp_sent tk psh_ack data (set_snd_nxt (snd_nxt c) (after_send data p una t c))).
Proof.
  intros Hd. exists (splice p 0 data), una. unfold tcp_sent. rewrite (proj2 (Z.ltb_lt _ _)), (proj2 (Z.leb_le _ _)) by lia. split; [reflexivity |].
  unfold splice. change (Z.to_nat 0) with 0%nat. rewrite take_0. cbn [app]. rewrite take_app_length, length_app. split; [done | lia].
Qed.
Lemma retransmit_eq data t c s tk2 : 0 < Z.of_nat (length data) <= 1460 -> waits data t c (tcp_conn s) ->
  tcp_retransmit tk2 s = if PIT_HZ <? u64 (tk2 - t) then tcp_send_segment tk2 psh_ack data (with_tcp s (set_snd_nxt (snd_nxt c) (tcp_conn s))) else Ret ((), s).
Proof.
  intros Hd (p & una & E & Hp & Hl). set (d := tcp_conn s) in *. unfold tcp_retransmit. rewrite (st_bind_ret get_tcp _ s d _ eq_refl), E.
  change (waiting_ack (after_send data p una t c)) with true. rewrite orb_true_r. change (last_send_tick (after_send data p una t c)) with t.
  destruct (PIT_HZ <? u64 (tk2 - t)); [| done]. change (last_flags (after_send data p una t c)) with psh_ack. change (negb _) with false. cbv iota.
  change (last_len (after_send data p una t c)) with (Z.of_nat (length data)). rewrite (proj2 (Z.ltb_lt _ _)) by lia. change (last_seq (after_send data p una t c)) with (snd_nxt c).
  rewrite (st_bind_ret (put_tcp _) _ s _ _ (put_tcp_eq _ s)). change (last_payload (after_send data p una t c)) with p.
  rewrite (st_bind_ret (st_lift _) _ _ data (with_tcp s (set_snd_nxt (snd_nxt c) (after_send data p una t c)))); [done |].
  unfold st_lift. rewrite rd_bytes_ok by lia. unfold slice. change (Z.to_nat 0) with 0%nat. by rewrite drop_0, Nat2Z.id, Hp.
Qed.
Lemma waits_resends data t c s : 0 < Z.of_nat (length data) <= 1460 -> waits data t c (tcp_conn s) -> resends data t c s.
Proof.
  intros Hd Hw. pose proof Hw as (p & una & E & _). split; [by rewrite E |]. split; [by rewrite E |]. split; intros tk2 H.
  - by rewrite (retransmit_eq data t c), (proj2 (Z.ltb_ge _ _)).
  - cbv zeta. split; [cbn [tcp_conn with_tcp]; by rewrite E |]. by rewrite (retransmit_eq data t c), (proj2 (Z.ltb_lt _ _)).
Qed.
Lemma wait_step_waits data t c s e : 0 < Z.of_nat (length data) <= 1460 -> open_state c -> is_u16 (src_port c) -> is_u16 (dest_port c) ->
  waits data t c (tcp_conn s) -> wait_ok (u32 (snd_nxt c + Z.of_nat (length data))) e ->
  exists s', wait_step c e s = Ret ((), s') /\ waits data (last_sent t [e]) c (tcp_conn s').
Proof.
  intros Hd Ho Hsp Hdp Hw He. destruct e as [tk|tk seq ack flags rest]; cbn [wait_step last_sent].
  - rewrite (retransmit_eq data t c) by done. destruct (PIT_HZ <? u64 (tk - t)); [| by exists s].
    destruct (send_segment_spec tk psh_ack data (with_tcp s (set_snd_nxt (snd_nxt c) (tcp_conn s)))) as (s' & -> & _); [lia |]. eexists. split; [reflexivity |].
    destruct Hw as (p & una & E & _). cbn [tcp_conn with_tcp]. rewrite E. by apply sent_waits.
  - destruct He as (Hr & Hq & Ha & Hf & Hfin & Hack). destruct Hw as (p & una & E & Hp & Hl).
    assert (src_port (tcp_conn s) = src_port c /\ dest_port (tcp_conn s) = dest_port c /\ dest_ip (tcp_conn s) = dest_ip c /\ state (tcp_conn s) = state c) as (E1 & E2 & E3 & E4) by (by rewrite E).
    rewrite <- E1, <- E2, <- E3. pose proof (tcp_handle_segment tk s seq ack flags rest []) as H. cbn [length Z.of_nat] in H. rewrite Z.add_0_r in H.
    rewrite H; [| unfold open_state; by rewrite E4 | by rewrite E1 | by rewrite E2 | done | done | done | done | lia]. clear H.
    set (s1 := with_tcp _ _). assert (forall p seq, tcp_data tk seq p 20 0 s1 = Ret (0, s1)) as Hdata by done. rewrite (st_bind_ret _ _ _ _ _ (Hdata _ _)).
    unfold tcp_fin. rewrite Hfin. eexists. split; [reflexivity |]. cbn [tcp_conn with_tcp s1]. unfold ack_update.
    destruct (Z.eqb_spec (Z.land flags TCP_FLAG_ACK) 0); [by exists p, una |]. destruct Hack as [|Hack]; [done |].
    assert (forall x, snd_nxt (set_snd_una x (tcp_conn s)) = u32 (snd_nxt c + Z.of_nat (length data))) as En by (intros; by rewrite E).
    destruct (snd_una (tcp_conn s) <? ack).
    + rewrite En, (proj2 (Z.leb_gt _ _)) by done. exists p, ack. split; [by rewrite E | done].
    + change (snd_nxt (tcp_conn s)) with (snd_nxt (set_snd_una 0 (tcp_conn s))). rewrite En, (proj2 (Z.leb_gt _ _)) by done. by exists p, una.
Qed.


(** unacknowledged data is forgotten when data comes in.  The acknowledgement of an
    incoming segment overwrites the record of the last segment sent: if the peer's data
    arrives before its acknowledgement of ours, nothing is ever sent again, while the
    connection goes on waiting for that acknowledgement. *)
Theorem tcp_unacked_lost s tk ack flags rest data (c := tcp_conn s) :
  net_ok s -> open_state c -> is_u16 (src_port c) -> is_u16 (dest_port c) -> waiting_ack c = true ->
  length rest = 6%nat -> is_u32 ack -> 0 <= flags < 64 -> Z.land flags TCP_FLAG_FIN = 0 -> ack < snd_nxt c ->
  0 < Z.of_nat (length data) < 65000 ->
  exists s', tcp_handle tk (segment (dest_port c) (src_port c) (rcv_nxt c) ack flags rest data)
               (20 + Z.of_nat (length data)) (dest_ip c) s = Ret ((), s') /\
    waiting_ack (tcp_conn s') = true /\ forall tk2, tcp_retransmit tk2 s' = Ret ((), s').
Proof.
  intros Hs Ho Hsp Hdp Hw Hr Ha Hf Hfin Hack Hd. pose proof (n_tcp s Hs) as Hok.
  pose proof Hok as [_ _ _ _ _ (_ & Hseq & _)].
  pose proof (tcp_handle_segment tk s (rcv_nxt c) ack flags rest data Ho Hsp Hdp Hr Hseq Ha Hf ltac:(lia)) as Eh.
  fold c in Eh. rewrite Eh. clear Eh. destruct (segment_fields (dest_port c) (src_port c) (rcv_nxt c) ack flags rest data Hr Hdp Hsp Hseq Ha Hf)
    as (_ & _ & _ & _ & _ & _ & Hrd). set (p := segment _ _ _ _ _ _ _) in *.
  destruct (ack_update_fields flags ack c) as (F1 & _ & _ & _ & _ & _ & F7 & _).
  assert (Hw' : waiting_ack (ack_update flags ack c) = true).
  { unfold ack_update. case_match; [done |]. destruct (snd_una c <? ack); cbn [snd_nxt set_snd_una];
      by rewrite (proj2 (Z.leb_gt _ _)) by done. }
  pose proof (ack_update_ok flags ack c Hok) as Hok1. set (c1 := ack_update flags ack c) in *.
  pose proof (tcp_data_spec tk (rcv_nxt c) p 20 data (with_tcp s c1) Hok1 ltac:(lia) Hrd) as Ed.
  change (tcp_conn (with_tcp s c1)) with c1 in Ed. rewrite decide_True in Ed.
  2:{ split; [intros ->; cbn in Hd; lia | by rewrite F7]. }
  destruct Ed as (s1 & _ & Ed). rewrite (st_bind_ret _ _ _ _ _ Ed). unfold tcp_fin. rewrite Hfin.
  set (c2 := take_in _ _ _ _). eexists. split; [reflexivity |]. change (tcp_conn (with_tcp s1 c2)) with c2.
  assert (waiting_ack c2 = true) as Hw2 by exact Hw'. split; [done |].
  intros tk2. unfold tcp_retransmit. rewrite (st_bind_ret get_tcp _ (with_tcp s1 c2) c2 _ eq_refl).
  rewrite Hw2, orb_true_r. destruct (PIT_HZ <? _); [| done]. reflexivity.
Qed.
End Stream.
