(* ===== verification/NetConfig.v ===== *)
(** * Address resolution and configuration in [net.c]: ARP cache, DHCP, DNS *)
From S2P Require Import Prelude Interfaces Net NetFacts NetSafe NetStream.

(** The ARP cache.  After an update the address resolves to the new hardware
    address and the cache still has one entry per address; every other address resolves
    as before, unless the cache was full of other addresses: then, and only then, the
    address of the first slot is forgotten. *)
Theorem arp_cache_correct tk ip mac l : arp_uniq l -> l <> [] ->
  exists l', arp_cache_update tk ip mac l = Ret l' /\ arp_uniq l' /\ length l' = length l /\
    arp_cache_lookup ip l' = Some mac /\
    (forall ip' m, ip' <> ip -> arp_cache_lookup ip' l' = Some m -> arp_cache_lookup ip' l = Some m) /\
    (forall ip' m, ip' <> ip -> arp_cache_lookup ip' l = Some m ->
       arp_cache_lookup ip' l' = Some m \/
       arp_cache_lookup ip l = None /\ Forall (fun e => a_valid e = true) l /\
       exists e, l !! 0%nat = Some e /\ a_ip e = ip').
Proof.
  intros Hu Hne. destruct (arp_update_spec tk ip mac l Hu Hne) as (k & old & Hk & E & Hold & Hu').
  pose proof (lookup_lt_Some _ _ _ Hk) as Hlt. eexists. split; [exact E |].
  split; [done |]. split; [by rewrite length_insert |]. split.
  { apply arp_lookup_Some; [done |]. exists k. eexists. by rewrite list_lookup_insert_eq. }
  split; intros ip' m Hip Hl; apply arp_lookup_Some in Hl as (j & e & Hj & Hv & He & Hm); try done.
  - apply list_lookup_insert_Some in Hj as [(<- & <- & _) | [Hjk Hj]]; [by cbn in He |].
    apply arp_lookup_Some; [done |]. by exists j, e.
  - destruct (decide (j = k)) as [-> | Hjk].
    + right. rewrite Hk in Hj. injection Hj as ->. destruct (Hold Hv ltac:(congruence)) as (-> & Hn & Hall).
      split_and!; [done | done |]. by exists e.
    + left. apply arp_lookup_Some; [done |]. exists j, e. by rewrite list_lookup_insert_ne.
Qed.

(** ** DHCP messages *)
Definition reply (xid yiaddr : Z) (f1 f2 f3 : list Z) (options : list Z) : list Z :=
  [2] ++ f1 ++ le_bytes 4 (net_htonl xid) ++ f2 ++ le_bytes 4 yiaddr ++ f3
  ++ le_bytes 4 (net_htonl 0x63825363) ++ options.

(** Options: tag, length, value; [None] is a pad byte; 255 ends them. *)
Fixpoint encode (opts : list (option (Z * list Z))) (rest : list Z) : list Z :=
  match opts with
  | [] => 255 :: rest
  | None :: opts => 0 :: encode opts rest
  | Some (tag, v) :: opts => tag :: Z.of_nat (length v) :: v ++ encode opts rest
  end.
Definition opt_wf (o : option (Z * list Z)) : Prop :=
  match o with
  | None => True
  | Some (tag, v) => 0 < tag < 255 /\ Z.of_nat (length v) < 256 /\ Forall is_u8 v
  end.
(** What an option sets. *)
Definition apply_opt (a : dhcp_opts) (o : option (Z * list Z)) : dhcp_opts :=
  let '(DhcpOpts t s m r d) := a in
  match o with
  | None => a
  | Some (tag, v) =>
      let n := Z.of_nat (length v) in
      let x := le_num (take 4 v) in
      if (tag =? 53) && (n =? 1) then DhcpOpts x s m r d
      else if (tag =? 54) && (n =? 4) then DhcpOpts t x m r d
      else if (tag =? 1) && (n =? 4) then DhcpOpts t s x r d
      else if (tag =? 3) && (4 <=? n) then DhcpOpts t s m x d
      else if (tag =? 6) && (4 <=? n) then DhcpOpts t s m r x
      else a
  end.

Lemma rd8_app pre x rest o : o = Z.of_nat (length pre) -> rd8 (pre ++ x :: rest) o = Ret x.
Proof.
  intros Ho. unfold rd8. rewrite (bind_ret _ _ _ (rd_bytes_app pre [x] rest o 1 Ho eq_refl)).
  cbn. f_equal. lia.
Qed.

Lemma rd_take n v pre rest o : o = Z.of_nat (length pre) -> (n <= length v)%nat ->
  rd_bytes (pre ++ v ++ rest) o (Z.of_nat n) = Ret (take n v).
Proof.
  intros Ho Hn. rewrite <- (take_drop n v) at 1. rewrite <- app_assoc.
  apply rd_bytes_app; [done | rewrite length_take; lia].
Qed.

Lemma dhcp_opt_spec p tag v a pre rest o : p = pre ++ v ++ rest -> o = Z.of_nat (length pre) ->
  dhcp_opt p tag (Z.of_nat (length v)) o a = Ret (apply_opt a (Some (tag, v))).
Proof.
  intros -> Ho. destruct a as [t s m r d]. unfold dhcp_opt, apply_opt.
  assert (R4 : (4 <= length v)%nat -> rd32 (pre ++ v ++ rest) o = Ret (le_num (take 4 v))).
  { intros Hl. unfold rd32. by rewrite (bind_ret _ _ _ (rd_take 4 v pre rest o Ho Hl)). }
  assert (R1 : length v = 1%nat -> rd8 (pre ++ v ++ rest) o = Ret (le_num (take 4 v))).
  { intros Hl. unfold rd8. rewrite (bind_ret _ _ _ (rd_take 1 v pre rest o Ho ltac:(lia))).
    by rewrite !take_ge by lia. }
  repeat match goal with |- context [if ?b then _ else _] => destruct b eqn:? end;
    rewrite ?andb_true_iff, ?Z.eqb_eq, ?Z.leb_le in *; try done;
    first [rewrite R1 by lia | rewrite R4 by lia]; done.
Qed.

Lemma dhcp_options_spec opts : forall fuel p pre rest a opt end_, p = pre ++ encode opts rest ->
  opt = Z.of_nat (length pre) -> Forall opt_wf opts -> opt + Z.of_nat (length (encode opts [])) <= end_ ->
  end_ - opt <= Z.of_nat fuel ->
  dhcp_options fuel p opt end_ a = Ret (fold_left apply_opt opts a).
Proof.
  induction opts as [|o opts IH]; intros fuel p pre rest a opt end_ -> Ho Hwf Hend Hf.
  - cbn [encode length] in Hend. destruct fuel as [|fuel]; cbn [dhcp_options];
      rewrite (proj2 (Z.ltb_lt opt end_)) by lia; cbn [negb]; [lia |].
    cbn [encode]. rewrite (bind_ret _ _ _ (rd8_app pre 255 rest opt Ho)). done.
  - apply Forall_cons in Hwf as [Hw Hwf]. destruct o as [[tag v]|].
    + destruct Hw as (Htag & Hlv & _). cbn [encode length] in Hend. rewrite length_app in Hend.
      destruct fuel as [|fuel]; cbn [dhcp_options]; rewrite (proj2 (Z.ltb_lt opt end_)) by lia; cbn [negb]; [lia |].
      cbn [encode]. rewrite (bind_ret _ _ _ (rd8_app pre tag _ opt Ho)).
      rewrite (proj2 (Z.eqb_neq tag 255)), (proj2 (Z.eqb_neq tag 0)) by lia.
      assert (pre ++ tag :: Z.of_nat (length v) :: v ++ encode opts rest
              = (pre ++ [tag]) ++ Z.of_nat (length v) :: v ++ encode opts rest) as E1 by (by rewrite <- app_assoc).
      assert (pre ++ tag :: Z.of_nat (length v) :: v ++ encode opts rest
              = (pre ++ [tag; Z.of_nat (length v)]) ++ v ++ encode opts rest) as E2 by (by rewrite <- app_assoc).
      assert (1 <= length (encode opts []))%nat by (destruct opts as [|[[? ?]|] ?]; cbn; lia).
      rewrite (proj2 (Z.leb_gt _ _)) by lia.
      rewrite (bind_ret _ (Z.of_nat (length v))) by (rewrite E1; apply rd8_app; rewrite length_app; cbn; lia).
      rewrite (proj2 (Z.ltb_ge _ _)) by lia.
      rewrite (bind_ret _ _ _ (dhcp_opt_spec _ tag v a _ _ (opt + 2) E2 ltac:(rewrite length_app; cbn; lia))).
      cbn [fold_left]. rewrite E2, app_assoc.
      apply (IH fuel _ ((pre ++ [tag; Z.of_nat (length v)]) ++ v) rest); [done | | done | lia | lia].
      rewrite !length_app. cbn. lia.
    + cbn [encode length] in Hend.
      destruct fuel as [|fuel]; cbn [dhcp_options]; rewrite (proj2 (Z.ltb_lt opt end_)) by lia; cbn [negb]; [lia |].
      cbn [encode]. rewrite (bind_ret _ _ _ (rd8_app pre 0 _ opt Ho)). cbn [Z.eqb fold_left].
      replace (apply_opt a None) with a by (by destruct a).
      apply (IH fuel _ (pre ++ [0]) rest); [by rewrite <- app_assoc | rewrite length_app; cbn; lia | done | lia | lia].
Qed.

(** ** Names and answers *)
Fixpoint join (labels : list (list Z)) : list Z :=
  match labels with
  | [] => []
  | [l] => l
  | l :: ls => l ++ 46 :: join ls
  end.
Definition label_wf (l : list Z) : Prop :=
  0 < Z.of_nat (length l) < 64 /\ Forall (fun c => c <> 46) l.
Definition wire (labels : list (list Z)) : list Z :=
  flat_map (fun l => Z.of_nat (length l) :: l) labels.

Lemma label_dot l r : Forall (fun c => c <> 46) l -> label (l ++ 46 :: r) = (l, 46 :: r).
Proof.
  induction 1 as [|c l Hc _ IH]; [done |]. cbn [app label]. by rewrite (proj2 (Z.eqb_neq _ _) Hc), IH.
Qed.
Lemma label_end l : Forall (fun c => c <> 46) l -> label l = (l, []).
Proof. induction 1 as [|c l Hc _ IH]; [done |]. cbn [label]. by rewrite (proj2 (Z.eqb_neq _ _) Hc), IH. Qed.

(** The query holds every label behind its length. *)
Lemma dns_labels_wire labels : Forall label_wf labels -> forall fuel, (length (join labels) <= fuel)%nat ->
  dns_labels fuel (join labels) = wire labels.
Proof.
  induction 1 as [|l ls [Hl Hd] Hls IH]; intros fuel Hf; [by destruct fuel |].
  assert (Hu : u8 (Z.of_nat (length l)) = Z.of_nat (length l)) by (apply u8_id; unfold is_u8; lia).
  assert (exists c l', l = c :: l') as (c & l' & Hcl) by (destruct l; [cbn in Hl; lia | eauto]).
  destruct ls as [|l2 ls].
  - cbn [join wire flat_map] in *. destruct fuel as [|fuel]; [rewrite Hcl in Hf; cbn in Hf; lia |].
    rewrite Hcl at 1. cbn [dns_labels]. rewrite <- Hcl, (label_end l Hd), Hu, Nat2Z.id, take_ge by lia.
    by destruct fuel.
  - assert (Hj : join (l :: l2 :: ls) = l ++ 46 :: join (l2 :: ls)) by done.
    rewrite Hj in *. rewrite length_app in Hf. cbn [length] in Hf.
    destruct fuel as [|fuel]; [lia |].
    replace (wire (l :: l2 :: ls)) with (Z.of_nat (length l) :: l ++ wire (l2 :: ls)) by done.
    rewrite <- (IH fuel) by lia.
    transitivity (dns_labels (S fuel) (c :: l' ++ 46 :: join (l2 :: ls))); [by rewrite Hcl |].
    cbn [dns_labels]. replace (c :: l' ++ 46 :: join (l2 :: ls)) with (l ++ 46 :: join (l2 :: ls)) by (by rewrite Hcl).
    rewrite (label_dot l _ Hd), Hu, Nat2Z.id, take_ge by lia. done.
Qed.

Lemma dns_skip_wire labels : Forall label_wf labels -> forall fuel q pre rest p end_,
  q = pre ++ wire labels ++ 0 :: rest -> p = Z.of_nat (length pre) ->
  p + Z.of_nat (length (wire labels)) < end_ -> (length (wire labels) < fuel)%nat ->
  dns_skip_name fuel q p end_ = Ret (Some (p + Z.of_nat (length (wire labels)) + 1)).
Proof.
  induction 1 as [|l ls [Hl Hd] _ IH]; intros fuel q pre rest p end_ -> Hp He Hf.
  - cbn [wire flat_map length] in *. destruct fuel as [|fuel]; [lia |]. cbn [dns_skip_name app].
    rewrite (proj2 (Z.ltb_lt p end_)) by lia. cbn [negb].
    rewrite (bind_ret _ _ _ (rd8_app pre 0 rest p Hp)). cbn [Z.eqb]. do 2 f_equal. lia.
  - cbn [wire flat_map] in *. fold (wire ls) in *. cbn [app length] in *. rewrite length_app in *.
    destruct fuel as [|fuel]; [lia |]. cbn [dns_skip_name app]. rewrite (proj2 (Z.ltb_lt p end_)) by lia. cbn [negb].
    rewrite (bind_ret _ _ _ (rd8_app pre (Z.of_nat (length l)) _ p Hp)).
    rewrite (proj2 (Z.eqb_neq (Z.of_nat (length l)) 0)) by lia.
    replace (Z.land (Z.of_nat (length l)) 0xC0) with 0.
    2:{ symmetry. rewrite <- (Z.mod_small (Z.of_nat (length l)) (2 ^ 6)) by lia. rewrite <- Z.land_ones by lia.
        rewrite <- Z.land_assoc. change (Z.land (Z.ones 6) 0xC0) with 0. apply Z.land_0_r. }
    change (0 =? 0xC0) with false. cbv iota.
    rewrite (proj2 (Z.ltb_ge end_ _)) by lia.
    rewrite (IH fuel _ (pre ++ Z.of_nat (length l) :: l) rest (p + 1 + Z.of_nat (length l)) end_).
    + do 2 f_equal. lia.
    + by rewrite <- !app_assoc.
    + rewrite length_app. cbn [length]. lia.
    + lia.
    + lia.
Qed.

(** A resource record whose name is a pointer to the question. *)
Definition record (type class_ : Z) (ttl rdata : list Z) : list Z :=
  [0xC0; 12] ++ le_bytes 2 (net_htons type) ++ le_bytes 2 (net_htons class_) ++ ttl
  ++ le_bytes 2 (net_htons (Z.of_nat (length rdata))) ++ rdata.
Definition address_record (r : Z * Z * list Z * list Z) : bool :=
  let '(type, class_, _, rdata) := r in
  (type =? 1) && (class_ =? 1) && (Z.of_nat (length rdata) =? 4).
Definition record_wf (r : Z * Z * list Z * list Z) : Prop :=
  let '(type, class_, ttl, rdata) := r in
  is_u16 type /\ is_u16 class_ /\ length ttl = 4%nat /\ Z.of_nat (length rdata) < 65536.
Definition records (rs : list (Z * Z * list Z * list Z)) : list Z :=
  flat_map (fun '(type, class_, ttl, rdata) => record type class_ ttl rdata) rs.

Lemma record_length type class_ ttl rdata : length ttl = 4%nat ->
  length (record type class_ ttl rdata) = (12 + length rdata)%nat.
Proof. intros Ht. unfold record. rewrite !length_app, !length_le_bytes, Ht. cbn. lia. Qed.

(** The answers up to the first address are skipped; the first address is taken. *)
Lemma dns_answers_record n q pre type class_ ttl rdata rest p end_ :
  q = pre ++ record type class_ ttl rdata ++ rest -> p = Z.of_nat (length pre) ->
  record_wf (type, class_, ttl, rdata) -> p + 12 + Z.of_nat (length rdata) <= end_ ->
  dns_answers (S n) q p end_ =
    if address_record (type, class_, ttl, rdata) then Ret (Some (Some (le_num rdata)))
    else dns_answers n q (p + 12 + Z.of_nat (length rdata)) end_.
Proof.
  intros Hq Hp (Hty & Hcl & Httl & Hrd) He.
  set (t := le_bytes 2 (net_htons type)). set (c := le_bytes 2 (net_htons class_)).
  set (r := le_bytes 2 (net_htons (Z.of_nat (length rdata)))).
  assert (length t = 2%nat /\ length c = 2%nat /\ length r = 2%nat) as (Lt & Lc & Lr) by (split_and!; apply length_le_bytes).
  assert (Hq1 : q = (pre ++ [0xC0; 12]) ++ t ++ c ++ ttl ++ r ++ rdata ++ rest)
    by (rewrite Hq; unfold record; by rewrite <- !app_assoc).
  assert (Hskip : dns_skip_name (Z.to_nat end_) q p end_ = Ret (Some (p + 2))).
  { destruct (Z.to_nat end_) eqn:Ef; [lia |]. cbn [dns_skip_name]. rewrite (proj2 (Z.ltb_lt p end_)) by lia. cbn [negb].
    assert (q = pre ++ 0xC0 :: 12 :: t ++ c ++ ttl ++ r ++ rdata ++ rest) as Hq2 by (by rewrite Hq1, <- app_assoc).
    rewrite (bind_ret _ 0xC0) by (rewrite Hq2; by apply rd8_app).
    change (0xC0 =? 0) with false. change (Z.land 0xC0 0xC0 =? 0xC0) with true. cbv iota.
    by rewrite (proj2 (Z.leb_gt _ _)) by lia. }
  cbn [dns_answers]. rewrite (bind_ret _ _ _ Hskip). rewrite (proj2 (Z.ltb_ge end_ (p + 2 + 10))) by lia.
  assert (R1 : rd16 q (p + 2) = Ret (net_htons type)).
  { rewrite Hq1. apply rd16_app; [rewrite length_app; cbn; lia | apply net_htons_range]. }
  assert (R2 : rd16 q (p + 2 + 2) = Ret (net_htons class_)).
  { rewrite Hq1, app_assoc. apply rd16_app; [rewrite !length_app, Lt; cbn; lia | apply net_htons_range]. }
  assert (R3 : rd16 q (p + 2 + 8) = Ret (net_htons (Z.of_nat (length rdata)))).
  { rewrite Hq1, app_assoc, (app_assoc _ c), (app_assoc _ ttl).
    apply rd16_app; [rewrite !length_app, Lt, Lc, Httl; cbn; lia | apply net_htons_range]. }
  rewrite (bind_ret _ _ _ R1), (bind_ret _ _ _ R2), (bind_ret _ _ _ R3). cbv zeta.
  rewrite !net_htons_invol by (done || unfold is_u16; lia).
  rewrite (proj2 (Z.ltb_ge end_ _)) by lia. unfold address_record.
  destruct (_ && _ && _) eqn:Ha.
  - rewrite !andb_true_iff, !Z.eqb_eq in Ha. destruct Ha as [_ Hl4].
    unfold rd32. rewrite (bind_ret _ rdata); [done |].
    rewrite Hq1, app_assoc, (app_assoc _ c), (app_assoc _ ttl), (app_assoc _ r).
    apply rd_bytes_app; [rewrite !length_app, Lt, Lc, Httl, Lr; cbn; lia | lia].
  - f_equal. lia.
Qed.

Lemma dns_answers_records rs : Forall record_wf rs -> Forall (fun r => address_record r = false) rs ->
  forall n q pre ty cl ttl rdata rest p end_,
  q = pre ++ records rs ++ record ty cl ttl rdata ++ rest -> p = Z.of_nat (length pre) ->
  record_wf (ty, cl, ttl, rdata) -> address_record (ty, cl, ttl, rdata) = true ->
  p + Z.of_nat (length (records rs)) + 12 + Z.of_nat (length rdata) <= end_ -> (length rs < n)%nat ->
  dns_answers n q p end_ = Ret (Some (Some (le_num rdata))).
Proof.
  induction 1 as [|[[[ty' cl'] ttl'] rd'] rs Hw _ IH]; intros Hno n q pre ty cl ttl rdata rest p end_ Hq Hp Hwf Ha He Hn;
    (destruct n as [|n]; [cbn in Hn; lia |]).
  - cbn [records flat_map app length] in *. rewrite (dns_answers_record n q pre ty cl ttl rdata rest p end_) by (done || lia).
    by rewrite Ha.
  - apply Forall_cons in Hno as [Hno Hnos]. cbn [records flat_map] in Hq, He. fold (records rs) in Hq, He.
    pose proof Hw as (_ & _ & Ht' & _). rewrite length_app, (record_length _ _ _ _ Ht') in He.
    rewrite (dns_answers_record n q pre ty' cl' ttl' rd' (records rs ++ record ty cl ttl rdata ++ rest) p end_);
      [| by rewrite Hq, <- !app_assoc | done | done | lia].
    rewrite Hno. apply (IH Hnos n q (pre ++ record ty' cl' ttl' rd') ty cl ttl rdata rest); try done.
    + by rewrite Hq, <- !app_assoc.
    + rewrite length_app, (record_length _ _ _ _ Ht'). lia.
    + lia.
    + cbn in Hn. lia.
Qed.

Section Config.
Context {N : Type} `{!Nic N}.
Implicit Types s : net N.

(** The fields of a reply. *)
Lemma reply_fields xid ip f1 f2 f3 options : length f1 = 3%nat -> length f2 = 8%nat -> length f3 = 216%nat ->
  is_u32 ip -> let p := reply xid ip f1 f2 f3 options in
  rd8 p 0 = Ret 2 /\ rd32 p 4 = Ret (net_htonl xid) /\ rd32 p 16 = Ret ip /\
  rd32 p 236 = Ret (net_htonl 0x63825363) /\ exists pre, p = pre ++ options /\ length pre = 240%nat.
Proof.
  intros L1 L2 L3 Hip p. unfold p, reply. set (w := le_bytes 4 (net_htonl xid)). set (y := le_bytes 4 ip).
  set (g := le_bytes 4 (net_htonl 0x63825363)).
  assert (length w = 4%nat /\ length y = 4%nat /\ length g = 4%nat) as (Lw & Ly & Lg) by (split_and!; apply length_le_bytes).
  split_and!.
  - by apply (rd8_app []).
  - rewrite (app_assoc [2]). apply rd32_app; [by rewrite length_app, L1 | apply net_htonl_range].
  - rewrite (app_assoc [2]), (app_assoc ([2] ++ f1)), (app_assoc (([2] ++ f1) ++ w)).
    apply rd32_app; [by rewrite !length_app, L1, Lw, L2 | done].
  - rewrite (app_assoc [2]), (app_assoc ([2] ++ f1)), (app_assoc (([2] ++ f1) ++ w)),
      (app_assoc ((([2] ++ f1) ++ w) ++ f2)), (app_assoc (((([2] ++ f1) ++ w) ++ f2) ++ y)).
    apply rd32_app; [by rewrite !length_app, L1, Lw, L2, Ly, L3 | apply net_htonl_range].
  - exists ([2] ++ f1 ++ w ++ f2 ++ y ++ f3 ++ g). split; [by rewrite <- !app_assoc |].
    rewrite !length_app, L1, Lw, L2, Ly, L3, Lg. done.
Qed.

(** A reply with the transaction's id is taken for what its options say; any other
    is ignored. *)
Lemma dhcp_handle_reply tk s xid ip f1 f2 f3 opts rest len :
  length f1 = 3%nat -> length f2 = 8%nat -> length f3 = 216%nat -> is_u32 ip -> is_u32 xid -> Forall opt_wf opts ->
  240 + Z.of_nat (length (encode opts [])) <= len ->
  dhcp_handle tk (reply xid ip f1 f2 f3 (encode opts rest)) len s =
  (let d := dhcp s in
   let a := fold_left apply_opt opts (DhcpOpts 0 0 0 0 0) in
   if negb (xid =? dhcp_xid d) then Ret ((), s) else
   (if (msg_type a =? 2) && bool_decide (dhcp_state d = DHCP_DISCOVER_SENT) then
      _ ← put_dhcp (Dhcp (dhcp_state d) (dhcp_xid d) (server_id a) ip (dhcp_last_send d));
      dhcp_send_request tk
    else if (msg_type a =? 5) && bool_decide (dhcp_state d = DHCP_REQUEST_SENT) then
      c ← get_cfg;
      _ ← put_cfg (Config (local_mac c) ip (subnet a) (router a) (opt_dns a) true);
      put_dhcp (Dhcp DHCP_BOUND (dhcp_xid d) (dhcp_server d) (dhcp_offer_ip d) (dhcp_last_send d))
    else mret () : M (N:=N) ()) s).
Proof.
  intros L1 L2 L3 Hip Hxid Hwf Hlen.
  destruct (reply_fields xid ip f1 f2 f3 (encode opts rest) L1 L2 L3 Hip) as (R1 & R2 & R3 & R4 & pre & Hp & Lp).
  set (p := reply _ _ _ _ _ _) in *. unfold dhcp_handle. rewrite (proj2 (Z.ltb_ge _ _)) by lia.
  assert (L : forall A B (m : res A) (f : A -> M (N:=N) B) x, m = Ret x -> (st_lift m ≫= f) s = f x s)
    by (intros A B m f x ->; reflexivity).
  rewrite (st_bind_ret get_dhcp _ s (dhcp s) s eq_refl).
  rewrite (L _ _ _ _ _ R1). change (negb (2 =? 2)) with false. cbv iota.
  rewrite (L _ _ _ _ _ R2), net_htonl_invol by done. cbv zeta.
  destruct (negb (xid =? dhcp_xid (dhcp s))); [done |].
  rewrite (L _ _ _ _ _ R4), Z.eqb_refl. cbn [negb].
  rewrite (L _ _ _ _ _ (dhcp_options_spec opts (Z.to_nat len) p pre rest (DhcpOpts 0 0 0 0 0) 240 len Hp
             ltac:(lia) Hwf ltac:(lia) ltac:(lia))).
  case_match; [by rewrite (L _ _ _ _ _ R3) |]. case_match; [by rewrite (L _ _ _ _ _ R3) | done].
Qed.

Lemma send_request_dhcp tk s : exists s', dhcp_send_request tk s = Ret ((), s') /\
  cfg s' = cfg s /\ dhcp s' = dhcp_sent tk DHCP_REQUEST_SENT (dhcp s).
Proof.
  unfold dhcp_send_request. rewrite (st_bind_ret get_cfg _ s (cfg s) s eq_refl).
  rewrite (st_bind_ret get_dhcp _ s (dhcp s) s eq_refl).
  edestruct send_udp_spec as (ok & s1 & E & Hc & _ & Hd & _). rewrite (st_bind_ret _ _ _ _ _ E).
  rewrite (st_bind_ret get_dhcp _ s1 (dhcp s1) s1 eq_refl). eexists. split; [reflexivity |]. cbn. by rewrite Hd.
Qed.

(** C37: the DHCP exchange.  After a discover has been sent, an offer of the same
    transaction makes the client request the offered address from the offering server,
    and the acknowledgement that follows configures the interface with the address,
    mask, router and name server it carries; the options may come in any order, between
    any others.  A reply of another transaction changes nothing. *)
Theorem dhcp_handshake s tk1 tk2 xid ip ip2 f1 f2 f3 g1 g2 g3 offer ack rest rest' len len' :
  dhcp_state (dhcp s) = DHCP_DISCOVER_SENT -> dhcp_xid (dhcp s) = xid -> is_u32 xid -> is_u32 ip -> is_u32 ip2 ->
  length f1 = 3%nat -> length f2 = 8%nat -> length f3 = 216%nat ->
  length g1 = 3%nat -> length g2 = 8%nat -> length g3 = 216%nat ->
  Forall opt_wf offer -> Forall opt_wf ack ->
  240 + Z.of_nat (length (encode offer [])) <= len -> 240 + Z.of_nat (length (encode ack [])) <= len' ->
  let a1 := fold_left apply_opt offer (DhcpOpts 0 0 0 0 0) in
  let a2 := fold_left apply_opt ack (DhcpOpts 0 0 0 0 0) in
  msg_type a1 = 2 -> msg_type a2 = 5 ->
  exists s1 s2,
    dhcp_handle tk1 (reply xid ip f1 f2 f3 (encode offer rest)) len s = Ret ((), s1) /\
    dhcp s1 = Dhcp DHCP_REQUEST_SENT xid (server_id a1) ip tk1 /\ cfg s1 = cfg s /\
    dhcp_handle tk2 (reply xid ip2 g1 g2 g3 (encode ack rest')) len' s1 = Ret ((), s2) /\
    dhcp_state (dhcp s2) = DHCP_BOUND /\
    cfg s2 = Config (local_mac (cfg s)) ip2 (subnet a2) (router a2) (opt_dns a2) true /\
    (forall xid', is_u32 xid' -> xid' <> xid ->
       dhcp_handle tk2 (reply xid' ip2 g1 g2 g3 (encode ack rest')) len' s1 = Ret ((), s1)).
Proof.
  intros Hst Hx Hxid Hip Hip2 L1 L2 L3 M1 M2 M3 Ho Ha Hlen Hlen' a1 a2 Ht1 Ht2.
  pose proof (dhcp_handle_reply tk1 s xid ip f1 f2 f3 offer rest len L1 L2 L3 Hip Hxid Ho Hlen) as E1.
  cbv zeta in E1. fold a1 in E1. rewrite Hx, Z.eqb_refl, Ht1, Hst in E1. cbn [negb Z.eqb] in E1.
  rewrite bool_decide_eq_true_2 in E1 by done. cbn [andb Z.eqb Pos.eqb] in E1.
  set (s0 := Net (cfg s) (arp_cache s) (ip_id s)
    (Dhcp DHCP_DISCOVER_SENT xid (server_id a1) ip (dhcp_last_send (dhcp s))) (tcp_conn s) (dns s) (nic s)).
  rewrite (st_bind_ret (put_dhcp _) _ s () s0 eq_refl) in E1.
  destruct (send_request_dhcp tk1 s0) as (s1 & E2 & Hc & Hd). rewrite E2 in E1.
  assert (dhcp s1 = Dhcp DHCP_REQUEST_SENT xid (server_id a1) ip tk1) as Hd1 by (by rewrite Hd).
  assert (forall x, is_u32 x -> _) as E3
    by (intros x Hx'; exact (dhcp_handle_reply tk2 s1 x ip2 g1 g2 g3 ack rest' len' M1 M2 M3 Hip2 Hx' Ha Hlen')).
  cbv zeta in E3. rewrite Hd1 in E3. cbn [dhcp_xid dhcp_state] in E3. fold a2 in E3.
  pose proof (E3 xid Hxid) as E4. rewrite Z.eqb_refl, Ht2 in E4. cbn [negb Z.eqb Pos.eqb andb] in E4.
  rewrite bool_decide_eq_true_2 in E4 by done.
  exists s1. eexists. split; [exact E1 |]. split; [done |]. split; [done |]. split; [exact E4 |].
  cbn [dhcp dhcp_state cfg]. rewrite Hc. split; [done |]. split; [done |].
  intros x Hx' Hne. rewrite (E3 x Hx'). by rewrite (proj2 (Z.eqb_neq _ _) Hne).
Qed.

(** The answer to a query: its id and question, with answers. *)
Definition response (query : list Z) (flags count : Z) (answers : list Z) : list Z :=
  take 2 query ++ le_bytes 2 (net_htons flags) ++ le_bytes 2 (net_htons 1) ++ le_bytes 2 (net_htons count)
  ++ repeat 0 4 ++ drop 12 query ++ answers.

Lemma response_flag flags : is_u16 flags -> 0x8000 <= flags ->
  (Z.land (net_htons flags) (net_htons 0x8000) =? 0) = false.
Proof.
  intros Hfl Hfl8. apply Z.eqb_neq. change (net_htons 0x8000) with (2 ^ 7). intros Hz.
  assert (Z.testbit (Z.land (net_htons flags) (2 ^ 7)) 7 = false) as Hb by (rewrite Hz; apply Z.bits_0).
  rewrite Z.land_spec, Z.pow2_bits_true, andb_true_r in Hb by lia.
  rewrite Z.testbit_false in Hb by lia. rewrite net_htons_eq in Hb by done. unfold is_u16 in Hfl.
  change (2 ^ 7) with 128 in Hb. lia.
Qed.

(** The four words at the head of a message. *)
Lemma header_words a b c d rest : is_u16 a -> is_u16 b -> is_u16 c -> is_u16 d ->
  let m := le_bytes 2 a ++ le_bytes 2 b ++ le_bytes 2 c ++ le_bytes 2 d ++ rest in
  rd16 m 0 = Ret a /\ rd16 m 2 = Ret b /\ rd16 m 4 = Ret c /\ rd16 m 6 = Ret d.
Proof.
  intros Ha Hb Hc Hd m. unfold m. split_and!.
  - by apply (rd16_app []).
  - by apply rd16_app.
  - rewrite (app_assoc (le_bytes 2 a)). by apply rd16_app.
  - rewrite (app_assoc (le_bytes 2 a)), (app_assoc (le_bytes 2 a ++ le_bytes 2 b)). by apply rd16_app.
Qed.

(** The parts of a response, and their length. *)
Lemma response_parts labels txid flags rs ttl ip rest :
  Forall label_wf labels -> length ttl = 4%nat -> length ip = 4%nat ->
  let query := dns_query txid (join labels) in
  let msg := response query flags (Z.of_nat (length rs) + 1) (records rs ++ record 1 1 ttl ip ++ rest) in
  drop 12 query = wire labels ++ [0; 0; 1; 0; 1] /\
  msg = le_bytes 2 (net_htons txid) ++ le_bytes 2 (net_htons flags) ++ le_bytes 2 (net_htons 1)
    ++ le_bytes 2 (net_htons (Z.of_nat (length rs) + 1)) ++ repeat 0 4 ++ wire labels ++ 0 :: [0; 1; 0; 1]
    ++ records rs ++ record 1 1 ttl ip ++ rest /\
  Z.of_nat (length msg) = 12 + Z.of_nat (length (wire labels)) + 5 + Z.of_nat (length (records rs)) + 16
    + Z.of_nat (length rest).
Proof.
  intros Hlab Httl Hip query msg.
  assert (drop 12 query = wire labels ++ [0; 0; 1; 0; 1]) as Hdrop.
  { unfold query, dns_query. rewrite (dns_labels_wire labels Hlab) by done. reflexivity. }
  assert (msg = le_bytes 2 (net_htons txid) ++ le_bytes 2 (net_htons flags) ++ le_bytes 2 (net_htons 1)
    ++ le_bytes 2 (net_htons (Z.of_nat (length rs) + 1)) ++ repeat 0 4 ++ wire labels ++ 0 :: [0; 1; 0; 1]
    ++ records rs ++ record 1 1 ttl ip ++ rest) as Hmsg.
  { unfold msg, response. rewrite Hdrop. unfold query at 1, dns_query.
    rewrite (take_app_length' (le_bytes 2 (net_htons txid))) by done. rewrite <- !app_assoc. reflexivity. }
  split; [done |]. split; [done |].
  pose proof (record_length 1 1 ttl ip Httl) as Hrec. rewrite Hip in Hrec.
  rewrite Hmsg, !length_app, !length_le_bytes, repeat_length. cbn [length].
  rewrite !length_app. change (length [0; 1; 0; 1]) with 4%nat. rewrite Hrec. clear. lia.
Qed.

(** C38: a query and its answer.  The query built for a name of labels of 1 to 63
    characters holds the labels in the wire format; a response to it whose answers are
    any other records (aliases, for instance), then an address, then anything, ends the
    query with the first address. *)
Theorem dns_query_answered s labels txid flags rs ttl ip rest trail :
  Forall label_wf labels -> is_u16 txid -> dns_pending (dns s) = true -> dns_txid (dns s) = txid ->
  is_u16 flags -> 0x8000 <= flags -> Forall record_wf rs -> Forall (fun r => address_record r = false) rs ->
  Z.of_nat (length rs) < 65535 -> length ttl = 4%nat -> length ip = 4%nat ->
  let query := dns_query txid (join labels) in
  let msg := response query flags (Z.of_nat (length rs) + 1) (records rs ++ record 1 1 ttl ip ++ rest) in
  drop 12 query = wire labels ++ [0; 0; 1; 0; 1] /\
  dns_handle (msg ++ trail) (Z.of_nat (length msg)) s =
    Ret ((), Net (cfg s) (arp_cache s) (ip_id s) (dhcp s) (tcp_conn s) (Dns false txid (le_num ip)) (nic s)).
Proof.
  intros Hlab Htx Hpend Hid Hfl Hfl8 Hrs Hno Hlen Httl Hip query msg.
  destruct (response_parts labels txid flags rs ttl ip rest Hlab Httl Hip) as (Hdrop & Hmsg & Hlm).
  fold query in Hdrop, Hmsg, Hlm. fold msg in Hmsg, Hlm. split; [done |].
  destruct (header_words (net_htons txid) (net_htons flags) (net_htons 1) (net_htons (Z.of_nat (length rs) + 1))
    ((repeat 0 4 ++ wire labels ++ 0 :: [0; 1; 0; 1] ++ records rs ++ record 1 1 ttl ip ++ rest) ++ trail))
    as (R0 & R2 & R4 & R6); [apply net_htons_range.. |].
  set (pre := le_bytes 2 (net_htons txid) ++ le_bytes 2 (net_htons flags) ++ le_bytes 2 (net_htons 1)
    ++ le_bytes 2 (net_htons (Z.of_nat (length rs) + 1)) ++ repeat 0 4).
  assert (length pre = 12%nat) as Lpre by done.
  assert (msg ++ trail = pre ++ wire labels ++ 0 :: [0; 1; 0; 1] ++ records rs ++ record 1 1 ttl ip ++ rest ++ trail) as Hm.
  { rewrite Hmsg. unfold pre. rewrite <- !app_assoc. cbn [app]. by rewrite <- !app_assoc. }
  assert (forall i v, rd16 (le_bytes 2 (net_htons txid) ++ le_bytes 2 (net_htons flags) ++ le_bytes 2 (net_htons 1)
    ++ le_bytes 2 (net_htons (Z.of_nat (length rs) + 1)) ++ (repeat 0 4 ++ wire labels ++ 0 :: [0; 1; 0; 1] ++ records rs
    ++ record 1 1 ttl ip ++ rest) ++ trail) i = Ret v -> rd16 (msg ++ trail) i = Ret v) as Hrd.
  { intros i v <-. f_equal. rewrite Hmsg. by rewrite <- !app_assoc. }
  apply Hrd in R0, R2, R4, R6. clear Hrd.
  unfold dns_handle. rewrite (st_bind_ret get_dns _ s (dns s) s eq_refl), Hpend, Hid.
  rewrite (proj2 (Z.ltb_ge _ 12)) by lia. cbn [negb orb].
  assert (L : forall A B (m : res A) (f : A -> M (N:=N) B) x, m = Ret x -> (st_lift m ≫= f) s = f x s)
    by (intros A B m f x ->; reflexivity).
  rewrite (L _ _ _ _ _ R0), Z.eqb_refl. cbn [negb]. rewrite (L _ _ _ _ _ R2), response_flag by done.
  rewrite (L _ _ _ _ _ R4), (L _ _ _ _ _ R6). cbv zeta. change (net_htons (net_htons 1)) with 1.
  rewrite (net_htons_invol (Z.of_nat (length rs) + 1)) by (unfold is_u16; lia).
  assert (Hq : dns_questions (Z.to_nat 1) (msg ++ trail) 12 (Z.of_nat (length msg))
               = Ret (Some (12 + Z.of_nat (length (wire labels)) + 1 + 4))).
  { change (Z.to_nat 1) with 1%nat. cbn [dns_questions].
    rewrite (bind_ret _ (Some (12 + Z.of_nat (length (wire labels)) + 1))).
    2:{ apply (dns_skip_wire labels Hlab _ _ pre ([0; 1; 0; 1] ++ records rs ++ record 1 1 ttl ip ++ rest ++ trail));
          [exact Hm | by rewrite Lpre | lia | lia]. }
    by rewrite (proj2 (Z.ltb_ge _ _)) by lia. }
  rewrite (L _ _ _ _ _ Hq).
  rewrite (L _ _ _ _ (Some (Some (le_num ip)))); [done |].
  apply (dns_answers_records rs Hrs Hno _ _ (pre ++ wire labels ++ 0 :: [0; 1; 0; 1]) 1 1 ttl ip (rest ++ trail)).
  - rewrite Hm. rewrite <- !app_assoc. cbn [app]. done.
  - rewrite !length_app, Lpre. cbn [length]. lia.
  - split_and!; [unfold is_u16; lia | unfold is_u16; lia | done | lia].
  - unfold address_record. by rewrite Hip.
  - lia.
  - lia.
Qed.
End Config.
