(* ===== verification/NetExamples.v ===== *)
(** * Network stack: a card that logs its frames, and concrete traffic *)
From S2P Require Import Prelude Interfaces Net NetFacts NetSafe NetProps NetTheorems NetStream NetConfig.

(** A card that takes every frame. *)
Definition card := list (list Z).
#[export] Program Instance log_nic : Nic card := {|
  nic_send := fun f n => (true, n ++ [f]); nic_log := fun n => n;
|}.
Next Obligation. done. Qed.

Definition byteb (x : Z) : bool := (0 <=? x) && (x <? 256).
Lemma frame_bytes_check l : forallb byteb l = true -> Forall is_u8 l.
Proof.
  intros H. apply Forall_forall. intros x Hx. rewrite list_elem_of_In in Hx.
  rewrite forallb_forall in H. specialize (H x Hx). unfold byteb, is_u8 in *. lia.
Qed.

Definition mac0 : list Z := [0x52; 0x54; 0; 0x12; 0x34; 0x56].
(** 10.0.2.15/24 behind 10.0.2.2, connected to 93.184.216.34:80. *)
Definition conn0 (st : tcp_state_t) (waiting : bool) : tcp_conn_t :=
  Tcp st 0x22D8B85D 80 1234 1001 1001 5001 (repeat 0 (Z.to_nat 65536)) 0 0 (repeat 0 (Z.to_nat 1460))
      0 0x10 1001 100 waiting.
Definition up_state (st : tcp_state_t) (waiting : bool) : net card :=
  Net (Config mac0 0x0F02000A 0x00FFFFFF 0x0202000A 0x0302000A true)
      (<[0%nat := ArpEntry 0x0202000A (repeat 7 6) 5 true]> (repeat (ArpEntry 0 (repeat 0 6) 0 false) ARP_CACHE_SIZE))
      1 (Dhcp DHCP_BOUND 77 0x0202000A 0x0F02000A 0) (conn0 st waiting) (Dns true 0x1234 0) [].

Lemma conn0_ok st w : tcp_ok (conn0 st w).
Proof.
  split; cbn [conn0 recv_buf recv_read recv_len last_payload last_len snd_nxt rcv_nxt last_seq];
    rewrite ?repeat_length; unfold is_u32; lia.
Qed.
Lemma up_state_ok st w : net_ok (up_state st w).
Proof.
  split; [done | | apply conn0_ok]. split_and!; [| done | repeat constructor].
  intros i j e f Hi Hj He Hf _.
  assert (forall k g, arp_cache (up_state st w) !! k = Some g -> a_valid g = true -> k = 0%nat) as H0.
  { intros k g Hk Hg. destruct k as [|k]; [done |]. do 7 (destruct k as [|k]; [injection Hk as <-; discriminate Hg |]).
    discriminate Hk. }
  by rewrite (H0 i e Hi He), (H0 j f Hj Hf).
Qed.

(** An ARP reply of the gateway. *)
Definition arp_frame : list Z :=
  repeat 0xFF 6 ++ repeat 7 6 ++ [8; 6] ++ [0; 1; 8; 0; 6; 4; 0; 2] ++ repeat 7 6 ++ [10; 0; 2; 2] ++ mac0 ++ [10; 0; 2; 15].
Lemma arp_frame_ok : frame_ok (arp_frame, 42).
Proof.
  split; [apply frame_bytes_check; reflexivity | cbn; lia |].
  intros v t Hv Ht. vm_compute in Hv. injection Hv as <-. vm_compute in Ht. injection Ht as <-. vm_compute. discriminate.
Qed.
Definition idle_env (tk : Z) (i : nat) : Z * list (list Z * Z) := (tk + Z.of_nat i, []).

Lemma net_reachable_safe_witness :
  exists s, net_run [OpInit 5 (Some mac0); OpPoll 6 [(arp_frame, 42)]; OpConnect 7 0x22D8B85D 80; OpSend 8 [1; 2];
                     OpResolve 9 (idle_env 9) [97; 46; 98]; OpRecv 10; OpClose 11] (net_zero ([] : card)) = Ret ((), s)
    /\ net_ok s.
Proof.
  apply (net_reachable_safe ([] : card)). repeat (apply Forall_cons; split); [| | apply Forall_nil_2 | done | done | | | done | apply Forall_nil_2].
  - intros m [= <-]. reflexivity.
  - exact arp_frame_ok.
  - split; [cbn; lia |]. split; [intros i Hi; unfold dns_rounds in Hi; unfold idle_env; cbn [fst]; lia | intros i; apply Forall_nil_2].
  - cbn. lia.
Defined.

Lemma dns_resolve_terminates_witness : let s := up_state TCP_CLOSED false in
  exists r s', net_dns_resolve dns_rounds 9 (idle_env 9) [97; 46; 98] s = Ret (r, s') /\ net_ok s' /\
    match r with
    | Some ip => ip <> 0
    | None => dns_pending (dns s') = false \/ is_up (cfg s) = false /\ s' = s
    end.
Proof.
  apply (dns_resolve_terminates (up_state TCP_CLOSED false) 9 (idle_env 9) [97; 46; 98]).
  - apply up_state_ok.
  - cbn; lia.
  - intros i Hi; unfold dns_rounds in Hi; unfold idle_env; cbn [fst]; lia.
  - intros i; apply Forall_nil_2.
Defined.

Lemma ipv4_checksum_swapped_witness : let s := up_state TCP_CLOSED false in
  route (cfg s) (arp_cache s) 0x22D8B85D = Some (repeat 7 6) /\
  exists ok s', net_send_ipv4 0x22D8B85D 17 [1; 2; 3] s = Ret (ok, s') /\
    (ok = false -> nic_log (nic s') = nic_log (nic s)) /\
    (ok = true -> exists frame sum, nic_log (nic s') = nic_log (nic s) ++ [frame] /\
       let hdr := slice 14 20 frame in
       drop 34 frame = [1; 2; 3] /\ slice 10 2 hdr = [sum mod 256; sum / 256] /\
       checksum16 (splice hdr 10 [sum / 256; sum mod 256]) = Ret 0 /\
       (checksum16 hdr = Ret 0 <-> sum mod 256 = sum / 256)).
Proof.
  split; [reflexivity |].
  apply (ipv4_checksum_swapped (up_state TCP_CLOSED false) 0x22D8B85D 17 [1; 2; 3] (repeat 7 6)).
  - apply up_state_ok.
  - unfold is_u8. lia.
  - reflexivity.
  - cbn. lia.
Defined.

Lemma stream0 : stream_at [1; 2; 3; 4; 5] 5000 (up_state TCP_ESTABLISHED false).
Proof.
  split; [apply conn0_ok | by left | cbn; unfold is_u16; lia | cbn; lia | reflexivity | reflexivity].
Qed.
Lemma tcp_stream_prefix_witness : let str := [1; 2; 3; 4; 5] in
  exists out s', conn_run str 5000 [Seg 1 2 2 1001 0x10 (repeat 0 6); Seg 2 0 3 1001 0x10 (repeat 0 6); Recv 2]
                   (up_state TCP_ESTABLISHED false) = Ret (out, s') /\ stream_at str 5000 s' /\
    out = take (Z.to_nat (recv_read (tcp_conn s'))) str /\
    0 <= recv_read (tcp_conn s') <= recv_len (tcp_conn s') /\ recv_len (tcp_conn s') <= 65536 /\
    forall tk n ack flags rest, let r := recv_len (tcp_conn s') in
      ev_ok str (Seg tk r n ack flags rest) -> r + n <= 65536 ->
      exists s'', conn_step str 5000 (Seg tk r n ack flags rest) s' = Ret ([], s'') /\
        recv_len (tcp_conn s'') = r + n.
Proof.
  apply (tcp_stream_prefix [1; 2; 3; 4; 5] 5000 (up_state TCP_ESTABLISHED false)).
  - exact stream0.
  - reflexivity.
  - cbn. lia.
  - unfold is_u32. lia.
  - repeat (apply Forall_cons; split); [| | | apply Forall_nil_2]; cbn; unfold is_u32; try lia;
      split_and!; try lia; reflexivity.
Defined.

(** A poll too early, a segment that acknowledges nothing, and a poll that sends again. *)
Definition while_waiting : list wait_ev := [Poll 130; NoData 150 5001 1000 0x10 (repeat 0 6); Poll 200].

Lemma tcp_unacked_lost_witness : let s := up_state TCP_ESTABLISHED true in let c := tcp_conn s in
  exists s', tcp_handle 7 (segment 80 1234 5001 1000 0x18 (repeat 0 6) [1; 2]) (20 + 2) (dest_ip c) s = Ret ((), s') /\
    waiting_ack (tcp_conn s') = true /\ forall tk2, tcp_retransmit tk2 s' = Ret ((), s').
Proof.
  apply (tcp_unacked_lost (up_state TCP_ESTABLISHED true) 7 1000 0x18 (repeat 0 6) [1; 2]);
    [apply up_state_ok | by left | cbn; unfold is_u16; lia | cbn; unfold is_u16; lia | reflexivity | reflexivity
    | unfold is_u32; lia | lia | reflexivity | cbn; lia | cbn; lia].
Defined.

Lemma arp_cache_correct_witness : let l := arp_cache (up_state TCP_CLOSED false) in
  exists l', arp_cache_update 9 5 (repeat 8 6) l = Ret l' /\ arp_uniq l' /\ length l' = length l /\
    arp_cache_lookup 5 l' = Some (repeat 8 6) /\
    (forall ip' m, ip' <> 5 -> arp_cache_lookup ip' l' = Some m -> arp_cache_lookup ip' l = Some m) /\
    (forall ip' m, ip' <> 5 -> arp_cache_lookup ip' l = Some m ->
       arp_cache_lookup ip' l' = Some m \/
       arp_cache_lookup 5 l = None /\ Forall (fun e => a_valid e = true) l /\
       exists e, l !! 0%nat = Some e /\ a_ip e = ip').
Proof.
  apply (arp_cache_correct 9 5 (repeat 8 6) (arp_cache (up_state TCP_CLOSED false))).
  - apply (n_arp _ (up_state_ok TCP_CLOSED false)).
  - discriminate.
Defined.

(** An offer and an acknowledgement, the second with its options in another order. *)
Definition offer0 : list (option (Z * list Z)) :=
  [Some (53, [2]); Some (54, [10; 0; 2; 2]); Some (51, [0; 1; 81; 128])].
Definition ack0 : list (option (Z * list Z)) :=
  [Some (1, [255; 255; 255; 0]); None; Some (3, [10; 0; 2; 2]); Some (53, [5]); Some (6, [10; 0; 2; 3; 1; 1; 1; 1])].
Definition discovering : net card :=
  Net (Config mac0 0 0 0 0 false) [] 1 (Dhcp DHCP_DISCOVER_SENT 77 0 0 0) (conn0 TCP_CLOSED false) (Dns false 0 0) [].

Lemma opts_check opts : forallb (fun o => match o with
    | None => true
    | Some (tag, v) => (0 <? tag) && (tag <? 255) && (Z.of_nat (length v) <? 256) && forallb byteb v
    end) opts = true -> Forall opt_wf opts.
Proof.
  intros H. apply Forall_forall. intros o Ho. rewrite list_elem_of_In in Ho. rewrite forallb_forall in H.
  specialize (H o Ho). destruct o as [[tag v]|]; [| done]. rewrite !andb_true_iff in H.
  destruct H as [[[H1 H2] H3] H4]. split; [lia |]. split; [lia |]. by apply frame_bytes_check.
Qed.

Lemma dhcp_handshake_witness : let s := discovering in
  let a1 := fold_left apply_opt offer0 (DhcpOpts 0 0 0 0 0) in
  let a2 := fold_left apply_opt ack0 (DhcpOpts 0 0 0 0 0) in
  exists s1 s2,
    dhcp_handle 3 (reply 77 0x0F02000A (repeat 0 3) (repeat 0 8) (repeat 0 216) (encode offer0 [])) 300 s = Ret ((), s1) /\
    dhcp s1 = Dhcp DHCP_REQUEST_SENT 77 (server_id a1) 0x0F02000A 3 /\ cfg s1 = cfg s /\
    dhcp_handle 4 (reply 77 0x0F02000A (repeat 0 3) (repeat 0 8) (repeat 0 216) (encode ack0 [])) 300 s1 = Ret ((), s2) /\
    dhcp_state (dhcp s2) = DHCP_BOUND /\
    cfg s2 = Config (local_mac (cfg s)) 0x0F02000A (subnet a2) (router a2) (opt_dns a2) true /\
    (forall xid', is_u32 xid' -> xid' <> 77 ->
       dhcp_handle 4 (reply xid' 0x0F02000A (repeat 0 3) (repeat 0 8) (repeat 0 216) (encode ack0 [])) 300 s1 = Ret ((), s1)).
Proof.
  apply (dhcp_handshake discovering 3 4 77 0x0F02000A 0x0F02000A (repeat 0 3) (repeat 0 8) (repeat 0 216)
           (repeat 0 3) (repeat 0 8) (repeat 0 216) offer0 ack0 [] [] 300 300);
    try reflexivity; try (unfold is_u32; lia); try (apply opts_check; reflexivity); vm_compute; discriminate.
Defined.

Definition labels0 : list (list Z) := [[102; 117; 115; 105; 111; 110]; [111; 115]].
Definition alias0 : Z * Z * list Z * list Z := (5, 1, [0; 0; 1; 0], [1; 97; 0xC0; 12]).
Lemma dns_query_answered_witness : let s := up_state TCP_CLOSED false in
  let query := dns_query 0x1234 (join labels0) in
  let msg := response query 0x8180 2 (records [alias0] ++ record 1 1 [0; 0; 1; 0] [93; 184; 216; 34] ++ []) in
  drop 12 query = wire labels0 ++ [0; 0; 1; 0; 1] /\
  dns_handle (msg ++ [0; 0]) (Z.of_nat (length msg)) s =
    Ret ((), Net (cfg s) (arp_cache s) (ip_id s) (dhcp s) (tcp_conn s) (Dns false 0x1234 (le_num [93; 184; 216; 34])) (nic s)).
Proof.
  apply (dns_query_answered (up_state TCP_CLOSED false) labels0 0x1234 0x8180 [alias0] [0; 0; 1; 0] [93; 184; 216; 34] [] [0; 0]).
  - repeat (apply Forall_cons; split); try apply Forall_nil_2; (split; [cbn; lia |]);
      repeat (apply Forall_cons; split; [lia |]); apply Forall_nil_2.
  - unfold is_u16. lia.
  - reflexivity.
  - reflexivity.
  - unfold is_u16. lia.
  - lia.
  - apply Forall_cons. split; [| apply Forall_nil_2]. cbn. unfold is_u16. lia.
  - apply Forall_cons. split; [reflexivity | apply Forall_nil_2].
  - cbn. lia.
  - reflexivity.
  - reflexivity.
Defined.

(** A TCP packet with total length 0 in a 2048-byte receive buffer. *)
Definition short_total_frame : list Z :=
  mac0 ++ repeat 7 6 ++ [8; 0] ++ [0x45; 0; 0; 0; 0; 1; 0; 0; 64; 6; 0; 0] ++ [93; 184; 216; 34] ++ [10; 0; 2; 15]
  ++ segment 80 1234 5001 1001 0x10 (repeat 0 6) [] ++ repeat 0 1994.

Definition is_ret {A} (r : res A) : bool := match r with Ret _ => true | _ => false end.

(** [ipv4_handle] does not compare the total length of a packet with the length of
    its header.  A 54-byte frame from the peer with total length 0 makes the stack
    read the segment's data as 65496 bytes, past the end of the card's buffer; with the
    total length 40 the same frame is handled. *)
Theorem ipv4_short_total_overreads :
  length short_total_frame = 2048%nat /\
  net_rx_frame 0 short_total_frame 54 (up_state TCP_ESTABLISHED false) = Fault /\
  is_ret (net_rx_frame 0 (<[17%nat := 40]> short_total_frame) 54 (up_state TCP_ESTABLISHED false)) = true.
Proof. split; [reflexivity |]. split; vm_compute; reflexivity. Qed.
