(* ===== verification/Input.v ===== *)
(** * Keyboard and mouse ([src/src/drivers/input.c])

    The two ring buffers between the interrupt handlers and the polling functions, the
    translation of scancodes, the mouse packets, and the set-up of the PS/2 controller
    through its ports.  Loops that wait for the controller without a bound of their own
    have a budget.  An [int] that would overflow is a [Fault]. *)
From S2P Require Import Prelude Interfaces.

Definition KBD_BUFFER_SIZE : Z := 128.
Definition MOUSE_BUFFER_SIZE : Z := 256.

Inductive keycode :=
  | KEY_NONE | KEY_BACKSPACE | KEY_ENTER | KEY_ESC | KEY_TAB | KEY_UP | KEY_DOWN | KEY_LEFT
  | KEY_RIGHT | KEY_WIN | KEY_ALT.
#[export] Instance keycode_eq : EqDecision keycode. Proof. solve_decision. Defined.
Record key_event := KeyEvent { pressed : bool; ascii : Z; key : keycode }.
Record mouse_event := MouseEvent { ev_x : Z; ev_y : Z; ev_dx : Z; ev_dy : Z; ev_buttons : Z }.

(** ** The ring buffers *)
Record ring := Ring { buf : list Z; head : Z; tail : Z }.
Definition ring_next (size i : Z) : Z := u8 (i + 1) mod size.
(** The indices and the buffer are [volatile] and shared with the interrupt handler: a
    function on them is a program of single accesses, in the order the source makes them. *)
Inductive access := GetHead | SetHead (v : Z) | GetTail | SetTail (v : Z) | GetBuf (i : Z) | SetBuf (i v : Z).
Inductive prog (A : Type) := Done (a : A) | Acc (c : access) (k : Z -> prog A).
Arguments Done {A}. Arguments Acc {A}.
#[export] Instance prog_ret : MRet prog := fun A a => Done a.
#[export] Instance prog_bind : MBind prog := fun A B f =>
  fix bind m := match m with Done a => f a | Acc c k => Acc c (fun v => bind (k v)) end.
Definition acc (c : access) : prog Z := Acc c Done.
(** One access; a write has no value. *)
Definition do_access (c : access) (r : ring) : res (Z * ring) :=
  match c with
  | GetHead => Ret (head r, r)
  | SetHead v => Ret (0, Ring (buf r) v (tail r))
  | GetTail => Ret (tail r, r)
  | SetTail v => Ret (0, Ring (buf r) (head r) v)
  | GetBuf i => x ← zget (buf r) i; Ret (x, r)
  | SetBuf i v => b ← zset (buf r) i v; Ret (0, Ring b (head r) (tail r))
  end.
(** A program that nothing interrupts. *)
Fixpoint run {A} (p : prog A) (r : ring) : res (A * ring) :=
  match p with
  | Done a => Ret (a, r)
  | Acc c k => '(v, r) ← do_access c r; run (k v) r
  end.

Definition ring_push (size x : Z) : prog () :=
  h ← acc GetHead;
  let next := ring_next size h in
  t ← acc GetTail;
  if next =? t then mret () else
  h ← acc GetHead;
  _ ← acc (SetBuf h x);
  _ ← acc (SetHead next); mret ().
Definition ring_pop (size : Z) : prog (option Z) :=
  t ← acc GetTail; h ← acc GetHead;
  if t =? h then mret None else
  t ← acc GetTail;
  x ← acc (GetBuf t);
  t ← acc GetTail;
  _ ← acc (SetTail (ring_next size t)); mret (Some x).

(** ** Scancodes *)
Definition scancode_ascii : list Z :=
  [0; 27; 49; 50; 51; 52; 53; 54; 55; 56; 57; 48; 45; 61; 8;
   9; 113; 119; 101; 114; 116; 121; 117; 105; 111; 112; 91; 93; 10;
   0; 97; 115; 100; 102; 103; 104; 106; 107; 108; 59; 39; 96;
   0; 92; 122; 120; 99; 118; 98; 110; 109; 44; 46; 47; 0;
   42; 0; 32] ++ repeat 0 70.
Definition scancode_ascii_shift : list Z :=
  [0; 27; 33; 64; 35; 36; 37; 94; 38; 42; 40; 41; 95; 43; 8;
   9; 81; 87; 69; 82; 84; 89; 85; 73; 79; 80; 123; 125; 10;
   0; 65; 83; 68; 70; 71; 72; 74; 75; 76; 58; 34; 126;
   0; 124; 90; 88; 67; 86; 66; 78; 77; 60; 62; 63; 0;
   42; 0; 32] ++ repeat 0 70.

(** [extended], [shift_down], [alt_down] *)
Record modifiers := Modifiers { extended : bool; shift_down : bool; alt_down : bool }.

Definition extended_key (scancode : Z) : keycode :=
  if scancode =? 0x48 then KEY_UP else if scancode =? 0x50 then KEY_DOWN
  else if scancode =? 0x4B then KEY_LEFT else if scancode =? 0x4D then KEY_RIGHT
  else if scancode =? 0x5B then KEY_WIN else KEY_NONE.

Definition translate_scancode (scancode : Z) (m : modifiers) : res (key_event * modifiers) :=
  if scancode =? 0xE0 then
    Ret (KeyEvent false 0 KEY_NONE, Modifiers true (shift_down m) (alt_down m))
  else if negb (Z.land scancode 0x80 =? 0) then
    let code := Z.land scancode 0x7F in
    let sh := if (code =? 0x2A) || (code =? 0x36) then false else shift_down m in
    if code =? 0x38 then Ret (KeyEvent false 0 KEY_ALT, Modifiers (extended m) sh false)
    else Ret (KeyEvent false 0 KEY_NONE, Modifiers (extended m) sh (alt_down m))
  else if (scancode =? 0x2A) || (scancode =? 0x36) then
    Ret (KeyEvent false 0 KEY_NONE, Modifiers (extended m) true (alt_down m))
  else if scancode =? 0x38 then
    Ret (KeyEvent true 0 KEY_ALT, Modifiers (extended m) (shift_down m) true)
  else if extended m then
    Ret (KeyEvent true 0 (extended_key scancode), Modifiers false (shift_down m) (alt_down m))
  else if scancode =? 0x1C then Ret (KeyEvent true 0 KEY_ENTER, m)
  else if scancode =? 0x0E then Ret (KeyEvent true 0 KEY_BACKSPACE, m)
  else if scancode =? 0x01 then Ret (KeyEvent true 0 KEY_ESC, m)
  else if scancode =? 0x0F then Ret (KeyEvent true 9 KEY_TAB, m)
  else if scancode <? 128 then
    c ← zget (if shift_down m then scancode_ascii_shift else scancode_ascii) scancode;
    Ret (KeyEvent true c KEY_NONE, m)
  else Ret (KeyEvent true 0 KEY_NONE, m).

(** ** The state of the file *)
Record input (P : Type) := Input {
  scancode_ring : ring; mouse_ring : ring;
  mouse_x : Z; mouse_y : Z; mouse_buttons : Z;
  mods : modifiers;
  packet : list Z; packet_index : Z;
  ports : P;
}.
Arguments Input {P}. Arguments scancode_ring {P}. Arguments mouse_ring {P}. Arguments mouse_x {P}.
Arguments mouse_y {P}. Arguments mouse_buttons {P}. Arguments mods {P}. Arguments packet {P}.
Arguments packet_index {P}. Arguments ports {P}.

(** [(int)(int8_t)b] *)
Definition i8 (b : Z) : Z := if b <? 128 then b else b - 256.

Section Code.
Context {P : Type} `{!PortIO P}.
Definition M (A : Type) : Type := st (input P) A.

Definition statics (p : P) : input P :=
  Input (Ring (repeat 0 (Z.to_nat KBD_BUFFER_SIZE)) 0 0) (Ring (repeat 0 (Z.to_nat MOUSE_BUFFER_SIZE)) 0 0)
    0 0 0 (Modifiers false false false) [0; 0; 0] 0 p.

Definition put_ports (p : P) (s : input P) : input P :=
  Input (scancode_ring s) (mouse_ring s) (mouse_x s) (mouse_y s) (mouse_buttons s) (mods s) (packet s)
    (packet_index s) p.
Definition inb (port : Z) : M Z := fun s => let (v, p) := port_in 1 port (ports s) in Ret (v, put_ports p s).
Definition outb (port v : Z) : M () := fun s => Ret ((), put_ports (port_out 1 port v (ports s)) s).
Definition io_wait : M () := outb 0x80 0.

(** *** The controller *)
Fixpoint wait_status (n : nat) (ready : Z -> bool) : M bool :=
  match n with
  | O => mret false
  | S n => v ← inb 0x64; if ready v then mret true else _ ← io_wait; wait_status n ready
  end.
Definition ps2_tries : nat := Z.to_nat 100000.
Definition ps2_wait_read : M bool := wait_status ps2_tries (fun v => negb (Z.land v 0x01 =? 0)).
Definition ps2_wait_write : M bool := wait_status ps2_tries (fun v => Z.land v 0x02 =? 0).
Definition ps2_write_cmd (cmd : Z) : M () :=
  ok ← ps2_wait_write; if negb ok then mret () else outb 0x64 cmd.
Definition ps2_write_data (data : Z) : M () :=
  ok ← ps2_wait_write; if negb ok then mret () else outb 0x60 data.
Definition ps2_read_data : M Z :=
  ok ← ps2_wait_read; if negb ok then mret 0 else inb 0x60.
Fixpoint ps2_flush_output (fuel : nat) : M () :=
  v ← inb 0x64;
  if Z.land v 0x01 =? 0 then mret () else
  match fuel with
  | O => st_spin
  | S fuel => _ ← inb 0x60; ps2_flush_output fuel
  end.

Definition input_init (fuel : nat) : M () :=
  _ ← st_modify (fun s => Input (scancode_ring s) (mouse_ring s) 20 20 0 (mods s) (packet s) (packet_index s) (ports s));
  _ ← ps2_write_cmd 0xAD; _ ← ps2_write_cmd 0xA7; _ ← ps2_flush_output fuel;
  _ ← ps2_write_cmd 0x20; config ← ps2_read_data;
  let config := Z.lor config 0x03 in
  let config := Z.land config (u8 (Z.lnot (Z.shiftl 1 4))) in
  let config := Z.land config (u8 (Z.lnot (Z.shiftl 1 5))) in
  let config := Z.lor config (Z.shiftl 1 6) in
  _ ← ps2_write_cmd 0x60; _ ← ps2_write_data config;
  _ ← ps2_write_cmd 0xAE; _ ← ps2_write_cmd 0xA8; _ ← ps2_flush_output fuel;
  _ ← ps2_write_data 0xF4; _ ← ps2_read_data;
  _ ← ps2_write_cmd 0xD4; _ ← ps2_write_data 0xF6; _ ← ps2_read_data;
  _ ← ps2_write_cmd 0xD4; _ ← ps2_write_data 0xF4; _ ← ps2_read_data; mret ().

(** *** The interrupt side *)
Definition push_scancode (x : Z) : M () := fun s =>
  '(_, r) ← run (ring_push KBD_BUFFER_SIZE x) (scancode_ring s);
  Ret ((), Input r (mouse_ring s) (mouse_x s) (mouse_y s) (mouse_buttons s) (mods s) (packet s) (packet_index s) (ports s)).
Definition push_mouse_byte (x : Z) : M () := fun s =>
  '(_, r) ← run (ring_push MOUSE_BUFFER_SIZE x) (mouse_ring s);
  Ret ((), Input (scancode_ring s) r (mouse_x s) (mouse_y s) (mouse_buttons s) (mods s) (packet s) (packet_index s) (ports s)).
Definition input_handle_scancode (scancode : Z) : M () := push_scancode scancode.
Definition input_handle_mouse_byte (data : Z) : M () := push_mouse_byte data.

(** *** The polling side *)
Definition pop_scancode : M (option Z) := fun s =>
  '(x, r) ← run (ring_pop KBD_BUFFER_SIZE) (scancode_ring s);
  Ret (x, Input r (mouse_ring s) (mouse_x s) (mouse_y s) (mouse_buttons s) (mods s) (packet s) (packet_index s) (ports s)).
Definition pop_mouse_byte : M (option Z) := fun s =>
  '(x, r) ← run (ring_pop MOUSE_BUFFER_SIZE) (mouse_ring s);
  Ret (x, Input (scancode_ring s) r (mouse_x s) (mouse_y s) (mouse_buttons s) (mods s) (packet s) (packet_index s) (ports s)).
Definition translate (scancode : Z) : M key_event := fun s =>
  '(e, m) ← translate_scancode scancode (mods s);
  Ret (e, Input (scancode_ring s) (mouse_ring s) (mouse_x s) (mouse_y s) (mouse_buttons s) m (packet s) (packet_index s) (ports s)).

Definition reported (e : key_event) : bool :=
  pressed e || negb (ascii e =? 0) || negb (bool_decide (key e = KEY_NONE)).
(** The ring holds at most [KBD_BUFFER_SIZE] bytes. *)
Fixpoint poll_keys (fuel : nat) : M (option key_event) :=
  x ← pop_scancode;
  match x with
  | None => mret None
  | Some c =>
      match fuel with
      | O => st_spin
      | S fuel => e ← translate c; if reported e then mret (Some e) else poll_keys fuel
      end
  end.
Definition input_poll_key : M (option key_event) := poll_keys (Z.to_nat KBD_BUFFER_SIZE).

Definition mouse_read : M (option Z) :=
  status ← inb 0x64;
  if Z.land status 0x01 =? 0 then mret None else
  if Z.land status 0x20 =? 0 then mret None else
  v ← inb 0x60; mret (Some v).
Definition mouse_get_byte : M (option Z) :=
  x ← pop_mouse_byte; match x with Some v => mret (Some v) | None => mouse_read end.

(** A complete packet moves the pointer. *)
Definition mouse_packet (p : list Z) : M mouse_event := fun s =>
  let dx := i8 (byte_at p 1) in
  let dy := i8 (byte_at p 2) in
  let b := Z.land (byte_at p 0) 0x07 in
  x ← int_ok (mouse_x s + dx); y ← int_ok (mouse_y s - dy);
  let x := if x <? 0 then 0 else x in
  let y := if y <? 0 then 0 else y in
  Ret (MouseEvent x y dx dy b, Input (scancode_ring s) (mouse_ring s) x y b (mods s) p 0 (ports s)).

Definition store_byte (data : Z) : M (list Z * Z) := fun s =>
  p ← zset (packet s) (packet_index s) data;
  let i := packet_index s + 1 in
  Ret ((p, i), Input (scancode_ring s) (mouse_ring s) (mouse_x s) (mouse_y s) (mouse_buttons s) (mods s) p i (ports s)).

Fixpoint input_poll_mouse (fuel : nat) : M (option mouse_event) :=
  x ← mouse_get_byte;
  match x with
  | None => mret None
  | Some data =>
      match fuel with
      | O => st_spin
      | S fuel =>
          s ← st_get;
          if (packet_index s =? 0) && (Z.land data 0x08 =? 0) then input_poll_mouse fuel else
          '(p, i) ← store_byte data;
          if i =? 3 then e ← mouse_packet p; mret (Some e) else input_poll_mouse fuel
      end
  end.

Definition input_is_shift_down : M bool := s ← st_get; mret (shift_down (mods s)).
Definition input_is_alt_down : M bool := s ← st_get; mret (alt_down (mods s)).
End Code.
