(* ===== verification/InputProps.v ===== *)
(** * Keyboard and mouse: the rings are queues, and what is typed is what is read *)
From S2P Require Import Prelude Interfaces Input.

(** ** The rings *)
Definition size_ok (size : Z) : Prop := size = KBD_BUFFER_SIZE \/ size = MOUSE_BUFFER_SIZE.
Lemma ring_next_eq size i : size_ok size -> 0 <= i < size -> ring_next size i = (i + 1) mod size.
Proof.
  unfold ring_next, u8. change (2 ^ 8) with 256.
  intros [-> | ->] Hi; unfold KBD_BUFFER_SIZE, MOUSE_BUFFER_SIZE in *; [rewrite (Z.mod_small (i + 1) 256) by lia |]; lia.
Qed.
Lemma size_pos size : size_ok size -> 128 <= size <= 256.
Proof. intros [-> | ->]; unfold KBD_BUFFER_SIZE, MOUSE_BUFFER_SIZE; lia. Qed.

Record ring_ok (size : Z) (r : ring) : Prop := {
  r_len : Z.of_nat (length (buf r)) = size;
  r_head : 0 <= head r < size;
  r_tail : 0 <= tail r < size;
}.
(** The bytes in a ring, oldest first. *)
Definition count (size : Z) (r : ring) : Z := (head r - tail r) mod size.
Definition at_ (r : ring) (i : Z) : Z := byte_at (buf r) i.
Definition items (size : Z) (r : ring) : list Z :=
  (fun k => at_ r ((tail r + k) mod size)) <$> seqZ 0 (count size r).

Section Ring.
Context (size : Z) (Hsize : size_ok size).
Let pos : 128 <= size <= 256 := size_pos size Hsize.

Lemma items_length r : Z.of_nat (length (items size r)) = count size r.
Proof using Hsize.
  unfold items. rewrite length_fmap, length_seqZ. unfold count.
  pose proof (Z.mod_pos_bound (head r - tail r) size ltac:(lia)). lia.
Qed.

Lemma items_tail r : ring_ok size r -> tail r <> head r ->
  items size r = at_ r (tail r) :: items size (Ring (buf r) (head r) (ring_next size (tail r))).
Proof using Hsize.
  intros [Hl Hh Ht] Hne. unfold items, count. cbn [head tail buf]. rewrite ring_next_eq by done.
  assert (0 < (head r - tail r) mod size) as Hc.
  { pose proof (Z.mod_pos_bound (head r - tail r) size ltac:(lia)).
    destruct (Z.eq_dec ((head r - tail r) mod size) 0) as [E|]; [| lia].
    apply Z.mod_divide in E as [k Hk]; [| lia]. assert (k = 0) as -> by nia. lia. }
  rewrite seqZ_cons by done. rewrite fmap_cons, Z.add_0_r, (Z.mod_small (tail r)) by lia. f_equal.
  replace ((head r - (tail r + 1) mod size) mod size) with (Z.pred ((head r - tail r) mod size)).
  2:{ rewrite Zminus_mod_idemp_r. replace (head r - (tail r + 1)) with ((head r - tail r) - 1) by lia.
      rewrite <- (Zminus_mod_idemp_l (head r - tail r) 1 size). symmetry. apply Z.mod_small.
      pose proof (Z.mod_pos_bound (head r - tail r) size). lia. }
  change (Z.succ 0) with (1 + 0). rewrite <- (fmap_add_seqZ 1 0), <- list_fmap_compose.
  apply list_fmap_ext. intros k x Hx. cbn. f_equal. rewrite Zplus_mod_idemp_l. f_equal. lia.
Qed.

Lemma items_snoc r x : ring_ok size r -> ring_next size (head r) <> tail r -> at_ r (head r) = x ->
  items size (Ring (buf r) (ring_next size (head r)) (tail r)) = items size r ++ [x].
Proof using Hsize.
  intros [Hl Hh Ht] Hne Hx. rewrite ring_next_eq in * by done.
  assert (((head r + 1) mod size - tail r) mod size = count size r + 1) as Hc.
  { unfold count. rewrite Zminus_mod_idemp_l. replace (head r + 1 - tail r) with ((head r - tail r) + 1) by lia.
    rewrite <- Zplus_mod_idemp_l. apply Z.mod_small.
    pose proof (Z.mod_pos_bound (head r - tail r) size ltac:(lia)). split; [lia |].
    destruct (Z.eq_dec ((head r - tail r) mod size) (size - 1)) as [E|]; [| lia]. exfalso. apply Hne.
    pose proof (Z.div_mod (head r - tail r) size ltac:(lia)) as Hd. rewrite E in Hd.
    replace (head r + 1) with (tail r + (1 + (head r - tail r) / size) * size) by lia.
    rewrite Z.mod_add by lia. by apply Z.mod_small. }
  unfold items. cbn [head tail buf]. unfold count at 1. cbn [head tail]. rewrite Hc.
  assert (0 <= count size r) by (apply Z.mod_pos_bound; lia).
  rewrite seqZ_app by lia. rewrite fmap_app, Z.add_0_l. f_equal.
  assert ((tail r + count size r) mod size = head r) as E.
  { unfold count. rewrite Zplus_mod_idemp_r. replace (tail r + (head r - tail r)) with (head r) by lia.
    by apply Z.mod_small. }
  change (seqZ (count size r) 1) with [0 + count size r]. rewrite <- Hx. cbn [fmap list_fmap].
  by rewrite Z.add_0_l, E.
Qed.

Lemma items_write r x : ring_ok size r ->
  items size (Ring (<[Z.to_nat (head r) := x]> (buf r)) (head r) (tail r)) = items size r.
Proof using Hsize.
  intros [Hl Hh Ht]. unfold items, count, at_, byte_at. cbn [head tail buf]. apply list_fmap_ext.
  intros k y Hy. apply lookup_seqZ in Hy as [-> Hk].
  rewrite list_lookup_insert_ne; [done |]. intros E.
  pose proof (Z.mod_pos_bound (tail r + (0 + Z.of_nat k)) size ltac:(lia)).
  apply (f_equal Z.of_nat) in E. rewrite !Z2Nat.id in E by lia.
  assert ((head r - tail r) mod size = (0 + Z.of_nat k) mod size) as E2.
  { rewrite E. rewrite Zminus_mod_idemp_l. f_equal. lia. }
  rewrite (Z.mod_small (0 + Z.of_nat k)) in E2; lia.
Qed.

Lemma zget_at r i : ring_ok size r -> 0 <= i < size -> zget (buf r) i = Ret (at_ r i).
Proof using Hsize.
  intros [Hl _ _] Hi. apply zget_ok. split; [lia |]. unfold at_, byte_at.
  destruct (lookup_lt_is_Some_2 (buf r) (Z.to_nat i)) as [x ->]; [lia | done].
Qed.

Lemma next_range i : 0 <= ring_next size i < size.
Proof using Hsize. apply Z.mod_pos_bound. lia. Qed.

(** What a run does to the ring. *)
Lemma run_push x r : run (ring_push size x) r =
  if ring_next size (head r) =? tail r then Ret ((), r) else
  b ← zset (buf r) (head r) x; Ret ((), Ring b (ring_next size (head r)) (tail r)).
Proof. cbn. destruct (_ =? _); [done |]. cbn. by destruct (zset _ _ _). Qed.
Lemma run_pop r : run (ring_pop size) r =
  if tail r =? head r then Ret (None, r) else
  x ← zget (buf r) (tail r); Ret (Some x, Ring (buf r) (head r) (ring_next size (tail r))).
Proof. cbn. destruct (_ =? _); [done |]. cbn. by destruct (zget _ _). Qed.

(** A push appends, or drops the byte when [size - 1] bytes are waiting. *)
Lemma ring_push_spec r x : ring_ok size r ->
  exists r', run (ring_push size x) r = Ret ((), r') /\ ring_ok size r' /\
    items size r' = if decide (ring_next size (head r) = tail r) then items size r else items size r ++ [x].
Proof using Hsize.
  intros Hr. pose proof Hr as [Hl Hh Ht]. rewrite run_push.
  destruct (Z.eqb_spec (ring_next size (head r)) (tail r)) as [E|E].
  { exists r. by rewrite decide_True. }
  rewrite decide_False by done. unfold zset.
  rewrite (proj2 (Z.leb_le _ _)), (proj2 (Z.ltb_lt _ _)) by lia. cbn [andb].
  eexists. split; [reflexivity |].
  set (r1 := Ring (<[Z.to_nat (head r) := x]> (buf r)) (head r) (tail r)).
  assert (ring_ok size r1) as Hr1 by (split; cbn; [by rewrite length_insert | done | done]).
  split; [split; cbn; [by rewrite length_insert | apply next_range | done] |].
  rewrite <- (items_write r x Hr). apply (items_snoc r1 x); [done | done |].
  unfold at_, byte_at. cbn. by rewrite list_lookup_insert_eq by lia.
Qed.

Lemma ring_pop_spec r : ring_ok size r ->
  exists r', run (ring_pop size) r = Ret (List.hd_error (items size r), r') /\ ring_ok size r' /\
    items size r' = List.tl (items size r).
Proof using Hsize.
  intros Hr. pose proof Hr as [Hl Hh Ht]. rewrite run_pop. destruct (Z.eqb_spec (tail r) (head r)) as [E|E].
  - exists r. assert (items size r = []) as ->.
    { apply length_zero_iff_nil. pose proof (items_length r) as Hi. unfold count in Hi.
      rewrite E, Z.sub_diag, Z.mod_0_l in Hi by lia. lia. }
    done.
  - rewrite (bind_ret _ _ _ (zget_at r (tail r) Hr Ht)). rewrite (items_tail r Hr E). cbn [List.hd_error List.tl].
    eexists. split; [reflexivity |]. split; [split; cbn; [done | done | apply next_range] | done].
Qed.

(** ** The rings under interrupts

    The handler and the polling loop run concurrently, each its own program; a step is one
    access of one of them, or the start of a new call.  [c_byte] is the byte of the push
    that runs.  The history: [accepted], the bytes of the pushes that have moved the head;
    [lost], those of the pushes that have returned without, with the number of bytes waiting
    at that moment; [popped], what the pops have returned. *)
Record conc := Conc {
  c_ring : ring; c_byte : Z; c_push : prog (); c_pop : prog (option Z);
  accepted : list Z; lost : list (Z * Z); popped : list Z;
}.
Definition moves_head (c : access) : bool := match c with SetHead _ => true | _ => false end.
Definition is_done {A} (p : prog A) : bool := match p with Done _ => true | _ => false end.

Inductive ring_step : conc -> conc -> Prop :=
  | step_push r x0 x c a l p :
      ring_step (Conc r x0 (Done ()) c a l p) (Conc r x (ring_push size x) c a l p)
  | step_push_access r x d k c a l p v r' :
      do_access d r = Ret (v, r') ->
      ring_step (Conc r x (Acc d k) c a l p)
        (Conc r' x (k v) c (if moves_head d then a ++ [x] else a)
           (if is_done (k v) && negb (moves_head d) then l ++ [(x, count size r')] else l) p)
  | step_pop r x pr o a l p :
      ring_step (Conc r x pr (Done o) a l p) (Conc r x pr (ring_pop size) a l p)
  | step_pop_access r x pr d k a l p v r' :
      do_access d r = Ret (v, r') ->
      ring_step (Conc r x pr (Acc d k) a l p)
        (Conc r' x pr (k v) a l (match k v with Done (Some y) => p ++ [y] | _ => p end)).

(** Where a push can be, and what is true there. *)
Inductive push_at (x : Z) (r : ring) : prog () -> Prop :=
  | push_done : push_at x r (Done ())
  | push_start : push_at x r (ring_push size x)
  | push_check : push_at x r (t ← acc GetTail;
      if ring_next size (head r) =? t then mret () else
      h ← acc GetHead; _ ← acc (SetBuf h x); _ ← acc (SetHead (ring_next size (head r))); mret ())
  | push_room : ring_next size (head r) <> tail r ->
      push_at x r (h ← acc GetHead; _ ← acc (SetBuf h x); _ ← acc (SetHead (ring_next size (head r))); mret ())
  | push_write : ring_next size (head r) <> tail r ->
      push_at x r (_ ← acc (SetBuf (head r) x); _ ← acc (SetHead (ring_next size (head r))); mret ())
  | push_head : ring_next size (head r) <> tail r -> at_ r (head r) = x ->
      push_at x r (_ ← acc (SetHead (ring_next size (head r))); mret ()).
(** The same for a pop. *)
Inductive pop_at (r : ring) : prog (option Z) -> Prop :=
  | pop_done o : pop_at r (Done o)
  | pop_start : pop_at r (ring_pop size)
  | pop_check : pop_at r (h ← acc GetHead;
      if tail r =? h then mret None else
      t ← acc GetTail; x ← acc (GetBuf t); t ← acc GetTail; _ ← acc (SetTail (ring_next size t)); mret (Some x))
  | pop_some : tail r <> head r ->
      pop_at r (t ← acc GetTail; x ← acc (GetBuf t); t ← acc GetTail; _ ← acc (SetTail (ring_next size t)); mret (Some x))
  | pop_read : tail r <> head r ->
      pop_at r (x ← acc (GetBuf (tail r)); t ← acc GetTail; _ ← acc (SetTail (ring_next size t)); mret (Some x))
  | pop_value : tail r <> head r ->
      pop_at r (t ← acc GetTail; _ ← acc (SetTail (ring_next size t)); mret (Some (at_ r (tail r))))
  | pop_tail : tail r <> head r ->
      pop_at r (_ ← acc (SetTail (ring_next size (tail r))); mret (Some (at_ r (tail r)))).

Record conc_ok (c : conc) : Prop := {
  k_ring : ring_ok size (c_ring c);
  k_fifo : accepted c = popped c ++ items size (c_ring c);
  k_lost : Forall (fun l => l.2 = size - 1) (lost c);
  k_push : push_at (c_byte c) (c_ring c) (c_push c);
  k_pop : pop_at (c_ring c) (c_pop c);
}.

Lemma next_ne i : 0 <= i < size -> ring_next size i <> i.
Proof using Hsize.
  intros Hi. rewrite ring_next_eq by done. destruct (Z.eq_dec i (size - 1)) as [->|];
    [replace (size - 1 + 1) with size by lia; rewrite Z.mod_same by lia; lia | rewrite Z.mod_small; lia].
Qed.
Lemma next_inj i j : 0 <= i < size -> 0 <= j < size -> ring_next size i = ring_next size j -> i = j.
Proof using Hsize.
  intros Hi Hj. rewrite !ring_next_eq by done.
  destruct (Z.eq_dec i (size - 1)), (Z.eq_dec j (size - 1)); subst; try lia;
    rewrite ?(Z.mod_small (i + 1)), ?(Z.mod_small (j + 1)) by lia;
    replace (size - 1 + 1) with size by lia; rewrite ?Z.mod_same by lia; lia.
Qed.

Lemma full_count r : ring_ok size r -> ring_next size (head r) = tail r -> count size r = size - 1.
Proof using Hsize.
  intros [Hl Hh Ht] E. rewrite ring_next_eq in E by done. unfold count. rewrite <- E, Zminus_mod_idemp_r.
  replace (head r - (head r + 1)) with (size - 1 + (-1) * size) by lia.
  rewrite Z.mod_add by lia. apply Z.mod_small. lia.
Qed.

Lemma at_write r i x : ring_ok size r -> 0 <= i < size -> i <> head r ->
  at_ (Ring (<[Z.to_nat (head r) := x]> (buf r)) (head r) (tail r)) i = at_ r i.
Proof using Hsize.
  intros [Hl Hh Ht] Hi Hne. unfold at_, byte_at. cbn [buf]. rewrite list_lookup_insert_ne; [done | lia].
Qed.
Lemma ring_ok_write r x : ring_ok size r ->
  ring_ok size (Ring (<[Z.to_nat (head r) := x]> (buf r)) (head r) (tail r)).
Proof using Hsize. intros [Hl Hh Ht]. split; cbn; [by rewrite length_insert | done | done]. Qed.

(** An access of one side leaves the other where it is. *)
Lemma pop_other r r' c : pop_at r c -> tail r' = tail r ->
  (tail r <> head r -> tail r' <> head r' /\ at_ r' (tail r) = at_ r (tail r)) -> pop_at r' c.
Proof.
  intros H Et Hne. destruct H as [o| | |Ht|Ht|Ht|Ht]; [apply pop_done | apply pop_start | rewrite <- Et; apply pop_check | ..];
    destruct (Hne Ht) as [Hne' Ea]; rewrite <- ?Ea, <- ?Et; [by apply pop_some | by apply pop_read | by apply pop_value | by apply pop_tail].
Qed.
Lemma push_other x r r' c : push_at x r c -> head r' = head r -> buf r' = buf r ->
  (ring_next size (head r) <> tail r -> ring_next size (head r) <> tail r') -> push_at x r' c.
Proof.
  intros H Eh Eb Hne. destruct H as [| | |Ht|Ht|Ht Hx]; [apply push_done | apply push_start | rewrite <- Eh; apply push_check | ..];
    apply Hne in Ht; rewrite <- Eh in Ht |- *; [by apply push_room | by apply push_write | apply push_head; [done |]].
  unfold at_ in *. by rewrite Eb, Eh.
Qed.

(** No access of either side breaks the queue. *)
Lemma push_access_ok r x d k c a l p v r' : do_access d r = Ret (v, r') ->
  conc_ok (Conc r x (Acc d k) c a l p) ->
  conc_ok (Conc r' x (k v) c (if moves_head d then a ++ [x] else a)
    (if is_done (k v) && negb (moves_head d) then l ++ [(x, count size r')] else l) p).
Proof using Hsize.
  intros Hd [Hr Hf Hl Hp Hc]. cbn [c_ring c_byte c_push c_pop accepted lost popped] in *. pose proof Hr as [Hlen Hh Ht].
  remember (Acc d k) as q eqn:Eq. destruct Hp as [| | |Hne|Hne|Hne Hx]; [done | ..]; cbn in Eq; injection Eq as <- <-;
    cbn [do_access moves_head is_done andb negb] in Hd |- *.
  - injection Hd as <- <-. by split; [| | | apply push_check |].
  - injection Hd as <- <-. destruct (Z.eqb_spec (ring_next size (head r)) (tail r)) as [E|E].
    + split; [done | done | | apply push_done | done]. apply Forall_app. split; [done |]. apply Forall_singleton. by apply full_count.
    + by split; [| | | apply push_room |].
  - injection Hd as <- <-. by split; [| | | apply push_write |].
  - apply res_bind_ret in Hd as (b & Hz & Hd). injection Hd as <- <-. apply zset_ok in Hz as [Hi ->].
    split; cbn [c_ring c_byte c_push c_pop accepted lost popped]; [by apply ring_ok_write | by rewrite items_write | done | |].
    + apply (push_head x (Ring (<[Z.to_nat (head r) := x]> (buf r)) (head r) (tail r))); [done |].
      unfold at_, byte_at. cbn. by rewrite list_lookup_insert_eq by lia.
    + eapply pop_other; [exact Hc | done |]. intros Hn. split; [done |]. by apply at_write.
  - injection Hd as <- <-.
    split; cbn [c_ring c_byte c_push c_pop accepted lost popped]; [split; cbn; [done | apply next_range | done] | | done | apply push_done |].
    + rewrite (items_snoc r x) by done. by rewrite Hf, (assoc_L (++)).
    + eapply pop_other; [exact Hc | done |]. intros Hn. by split; [apply not_eq_sym |].
Qed.
Lemma pop_access_ok r x pr d k a l p v r' : do_access d r = Ret (v, r') ->
  conc_ok (Conc r x pr (Acc d k) a l p) ->
  conc_ok (Conc r' x pr (k v) a l (match k v with Done (Some y) => p ++ [y] | _ => p end)).
Proof using Hsize.
  intros Hd [Hr Hf Hl Hp Hc]. cbn [c_ring c_byte c_push c_pop accepted lost popped] in *. pose proof Hr as [Hlen Hh Ht].
  remember (Acc d k) as q eqn:Eq. destruct Hc as [| | |Hne|Hne|Hne|Hne]; [done | ..]; cbn in Eq; injection Eq as <- <-;
    cbn [do_access] in Hd |- *.
  - injection Hd as <- <-. by split; [| | | | apply pop_check].
  - injection Hd as <- <-. destruct (Z.eqb_spec (tail r) (head r)) as [E|E]; [by split; [| | | | apply pop_done] | by split; [| | | | apply pop_some]].
  - injection Hd as <- <-. by split; [| | | | apply pop_read].
  - rewrite zget_at in Hd by done. injection Hd as <- <-. by split; [| | | | apply pop_value].
  - injection Hd as <- <-. by split; [| | | | apply pop_tail].
  - injection Hd as <- <-.
    assert (ring_next size (head r) <> ring_next size (tail r)) as Hnn.
    { intros E%next_inj; [by symmetry in E | done | done]. }
    split; cbn [c_ring c_byte c_push c_pop accepted lost popped]; [split; cbn; [done | done | apply next_range] | | done | | apply pop_done].
    + cbn [mret prog_ret]. rewrite Hf, (items_tail r Hr Hne). by rewrite <- (assoc_L (++)).
    + by eapply push_other.
Qed.

Lemma ring_step_ok c c' : ring_step c c' -> conc_ok c -> conc_ok c'.
Proof using Hsize.
  intros Hs Hc. destruct Hs as [r x0 x k a l p|r x d k c a l p v r' Hd|r x pr o a l p|r x pr d k a l p v r' Hd].
  - destruct Hc as [Hr Hf Hl Hp Hk]. split; [done | done | done | apply push_start | done].
  - by eapply push_access_ok.
  - destruct Hc as [Hr Hf Hl Hp Hk]. split; [done | done | done | done | apply pop_start].
  - by eapply pop_access_ok.
Qed.

(** No access of either program is out of the buffer. *)
Lemma push_enabled x r d k : ring_ok size r -> push_at x r (Acc d k) -> exists v r', do_access d r = Ret (v, r').
Proof using Hsize.
  intros [Hl Hh Ht] H. remember (Acc d k) as q eqn:Eq. destruct H; [done | ..]; cbn in Eq; injection Eq as <- <-; cbn [do_access];
    try (eexists _, _; reflexivity).
  assert (zset (buf r) (head r) x = Ret (<[Z.to_nat (head r) := x]> (buf r))) as -> by (apply zset_ok; split; [lia | done]).
  by eexists _, _.
Qed.
Lemma pop_enabled r d k : ring_ok size r -> pop_at r (Acc d k) -> exists v r', do_access d r = Ret (v, r').
Proof using Hsize.
  intros Hr H. remember (Acc d k) as q eqn:Eq. destruct H; [done | ..]; cbn in Eq; injection Eq as <- <-; cbn [do_access];
    try (eexists _, _; reflexivity).
  rewrite zget_at by (done || apply Hr). by eexists _, _.
Qed.
Lemma full_iff r : ring_ok size r -> ring_next size (head r) = tail r <-> count size r = size - 1.
Proof using Hsize.
  intros Hr. split; [by apply full_count |]. pose proof Hr as [Hl Hh Ht]. unfold count. intros E. rewrite ring_next_eq by done.
  rewrite <- (Z.mod_small (tail r) size) by done. replace (head r + 1) with (tail r + 1 + (head r - tail r)) by lia.
  rewrite <- Zplus_mod_idemp_r, E. replace (tail r + 1 + (size - 1)) with (tail r + 1 * size) by lia. by rewrite Z.mod_add by lia.
Qed.
End Ring.

Definition empty_ring (size : Z) : ring := Ring (repeat 0 (Z.to_nat size)) 0 0.
Lemma empty_ring_ok size : size_ok size -> ring_ok size (empty_ring size) /\ items size (empty_ring size) = [].
Proof. intros [-> | ->]; (split; [split; [reflexivity | by split | by split] | done]). Qed.
Definition ring_start (size : Z) : conc := Conc (empty_ring size) 0 (Done ()) (Done None) [] [] [].
Lemma ring_start_ok size : size_ok size -> conc_ok size (ring_start size).
Proof. intros H. destruct (empty_ring_ok size H) as [Hr He]. split; [done | by cbn; rewrite He | by apply Forall_nil | apply push_done | apply pop_done]. Qed.

(** C14: However the calls of the interrupt handler ([ring_push]) and of the polling loop
    ([ring_pop]) are interleaved, access by access, on a ring that starts empty: the bytes the
    pops have returned are the first of the bytes accepted, in order and without loss, and the
    rest is in the ring; a push gives its byte up only when [size - 1] bytes are waiting; the
    next access of either side is always inside the buffer.  In every state reached, a push
    that is not overtaken appends its byte, or does nothing when the ring is full, and a pop
    that is not overtaken returns the oldest byte. *)
Theorem ring_spsc size c (Hsize : size_ok size) (Hrun : rtc (ring_step size) (ring_start size) c) :
  let waiting := items size (c_ring c) in
  accepted c = popped c ++ waiting /\
  Z.of_nat (length waiting) <= size - 1 /\
  Forall (fun l => l.2 = size - 1) (lost c) /\
  (forall d k, c_push c = Acc d k \/ (exists k', c_pop c = Acc d k') -> exists v r', do_access d (c_ring c) = Ret (v, r')) /\
  (forall x, exists r', run (ring_push size x) (c_ring c) = Ret ((), r') /\
    items size r' = if Z.of_nat (length waiting) =? size - 1 then waiting else waiting ++ [x]) /\
  exists r', run (ring_pop size) (c_ring c) = Ret (List.hd_error waiting, r') /\ items size r' = List.tl waiting.
Proof.
  assert (conc_ok size c) as [Hr Hf Hl Hp Hc].
  { pose proof (ring_start_ok size Hsize) as H0. induction Hrun as [|c0 c1 c2 Hstep _ IH]; [done |]. apply IH. by eapply ring_step_ok. }
  assert (Z.of_nat (length (items size (c_ring c))) = count size (c_ring c)) as En by by apply items_length.
  pose proof (size_pos size Hsize). cbv zeta. split; [done |]. split.
  { rewrite En. unfold count. pose proof (Z.mod_pos_bound (head (c_ring c) - tail (c_ring c)) size). lia. }
  split; [done |]. split; [| split].
  - intros d k [E|(k' & E)]; [rewrite E in Hp; by eapply push_enabled | rewrite E in Hc; by eapply pop_enabled].
  - intros x. destruct (ring_push_spec size Hsize _ x Hr) as (r' & E & _ & Ei). exists r'. split; [done |]. rewrite Ei, En.
    pose proof (full_iff size Hsize _ Hr) as Hfull. case_decide as Hd; destruct (Z.eqb_spec (count size (c_ring c)) (size - 1)); tauto.
  - destruct (ring_pop_spec size Hsize _ Hr) as (r' & E & _ & Ei). by exists r'.
Qed.

(** ** Keys *)
Definition is_char_key (c : Z) : bool :=
  (0 <=? c) && (c <? 128) && negb (byte_at scancode_ascii c =? 0) &&
  forallb (fun k => negb (c =? k)) [0x1C; 0x0E; 0x01; 0x0F; 0x2A; 0x36; 0x38].
(** A key with the shift key held or not: the bytes the keyboard sends, the event expected. *)
Definition keystroke (k : bool * Z) : list Z :=
  let '(shift, c) := k in
  if shift then [0x2A; c; c + 0x80; 0xAA] else [c; c + 0x80].
Definition typed_event (k : bool * Z) : key_event :=
  let '(shift, c) := k in
  KeyEvent true (byte_at (if shift then scancode_ascii_shift else scancode_ascii) c) KEY_NONE.

Definition tr (c : Z) (m : modifiers) : key_event * modifiers :=
  match translate_scancode c m with Ret x => x | _ => (KeyEvent false 0 KEY_NONE, m) end.
Lemma table_get (b : bool) c : 0 <= c < 128 ->
  zget (if b then scancode_ascii_shift else scancode_ascii) c =
    Ret (byte_at (if b then scancode_ascii_shift else scancode_ascii) c).
Proof.
  intros Hc. set (t := if b then _ else _). apply zget_ok. split; [lia |]. unfold byte_at.
  destruct (lookup_lt_is_Some_2 t (Z.to_nat c)) as [x Hx]; [| by rewrite Hx].
  assert (length t = Z.to_nat 128) as -> by by destruct b. lia.
Qed.
Lemma tr_ok c m : 0 <= c -> translate_scancode c m = Ret (tr c m).
Proof.
  intros Hc. unfold tr. assert (exists x, translate_scancode c m = Ret x) as [x ->]; [| done].
  unfold translate_scancode. cbv zeta.
  repeat (match goal with |- exists x, (if ?b then _ else _) = _ => destruct b eqn:? end; try by eexists).
  rewrite (bind_ret _ _ _ (table_get _ c ltac:(lia))). by eexists.
Qed.

#[export] Instance key_event_eq : EqDecision key_event. Proof. solve_decision. Defined.
#[export] Instance modifiers_eq : EqDecision modifiers. Proof. solve_decision. Defined.

(** A property of every character key is checked key by key. *)
Lemma char_key_all (Q : Z -> Prop) `{!forall c, Decision (Q c)} :
  forallb (fun c => implb (is_char_key c) (bool_decide (Q c))) (seqZ 0 128) = true ->
  forall c, is_char_key c = true -> Q c.
Proof.
  intros HQ c Hc. rewrite forallb_forall in HQ. specialize (HQ c). rewrite Hc in HQ.
  apply (bool_decide_eq_true_1 _), HQ. apply list_elem_of_In, elem_of_seqZ. unfold is_char_key in Hc. lia.
Qed.
Lemma tr_make c sh alt : is_char_key c = true ->
  tr c (Modifiers false sh alt) =
    (KeyEvent true (byte_at (if sh then scancode_ascii_shift else scancode_ascii) c) KEY_NONE, Modifiers false sh alt).
Proof.
  revert c. refine (char_key_all (fun c => tr _ _ = _) _). destruct sh, alt; vm_compute; reflexivity.
Qed.
Lemma tr_break c ext sh alt : is_char_key c = true ->
  tr (c + 0x80) (Modifiers ext sh alt) = (KeyEvent false 0 KEY_NONE, Modifiers ext sh alt).
Proof.
  revert c. refine (char_key_all (fun c => tr _ _ = _) _). destruct ext, sh, alt; vm_compute; reflexivity.
Qed.
Lemma tr_extended c sh alt : is_char_key c = true ->
  tr c (Modifiers true sh alt) = (KeyEvent true 0 KEY_NONE, Modifiers false sh alt).
Proof.
  revert c. refine (char_key_all (fun c => tr _ _ = _) _). destruct sh, alt; vm_compute; reflexivity.
Qed.

(** What [input_poll_key] finds in the bytes that wait. *)
Fixpoint next_key (l : list Z) (m : modifiers) : option key_event * list Z * modifiers :=
  match l with
  | [] => (None, [], m)
  | c :: l => let (e, m') := tr c m in if reported e then (Some e, l, m') else next_key l m'
  end.

Section Typing.
Context {P : Type} `{!PortIO P}.
Implicit Types s : input P.

Definition keyboard (s : input P) (l : list Z) (m : modifiers) : Prop :=
  ring_ok KBD_BUFFER_SIZE (scancode_ring s) /\ items KBD_BUFFER_SIZE (scancode_ring s) = l /\ mods s = m.

Definition kbd_size : size_ok KBD_BUFFER_SIZE := or_introl eq_refl.

Lemma pop_spec s l m : keyboard s l m ->
  exists s', pop_scancode s = Ret (List.hd_error l, s') /\ keyboard s' (List.tl l) m.
Proof.
  intros (Hr & Hi & Hm). destruct (ring_pop_spec _ kbd_size _ Hr) as (r' & E & Hr' & Hi').
  unfold pop_scancode. rewrite (bind_ret _ _ _ E), Hi. eexists. split; [reflexivity |].
  by rewrite Hi in Hi'.
Qed.

Lemma translate_spec s c l m : keyboard s l m -> 0 <= c ->
  exists s', translate c s = Ret ((tr c m).1, s') /\ keyboard s' l (tr c m).2.
Proof.
  intros (Hr & Hi & Hm) Hc. unfold translate. rewrite (bind_ret _ _ _ (tr_ok c _ Hc)), Hm.
  destruct (tr c m) as [e m']. eexists. split; [reflexivity | done].
Qed.

Lemma poll_keys_spec fuel : forall s l m,
  keyboard s l m -> Forall is_u8 l -> (length l <= fuel)%nat ->
  exists s', poll_keys fuel s = Ret ((next_key l m).1.1, s') /\ keyboard s' (next_key l m).1.2 (next_key l m).2.
Proof.
  induction fuel as [|fuel IH]; intros s l m Hk Hl Hf.
  - destruct l; [| cbn in Hf; lia]. destruct (pop_spec s _ m Hk) as (s1 & E & Hk1).
    cbn [poll_keys]. rewrite (st_bind_ret _ _ _ _ _ E). by exists s1.
  - destruct (pop_spec s _ m Hk) as (s1 & E & Hk1). cbn [poll_keys]. rewrite (st_bind_ret _ _ _ _ _ E).
    destruct l as [|c l]; [by exists s1 |]. cbn [List.hd_error List.tl] in *.
    apply Forall_cons in Hl as [Hc Hl]. destruct (translate_spec s1 c l m Hk1) as (s2 & E2 & Hk2); [apply Hc |].
    rewrite (st_bind_ret _ _ _ _ _ E2). cbn [next_key]. destruct (tr c m) as [e m']. cbn [fst snd] in *.
    destruct (reported e); [by exists s2 |]. apply IH; [done | done | cbn in Hf; lia].
Qed.

Lemma poll_key_spec s l m : keyboard s l m -> Forall is_u8 l ->
  exists s', input_poll_key s = Ret ((next_key l m).1.1, s') /\ keyboard s' (next_key l m).1.2 (next_key l m).2.
Proof.
  intros Hk Hl. apply poll_keys_spec; [done | done |]. destruct Hk as (Hr & <- & _).
  pose proof (items_length _ kbd_size (scancode_ring s)) as Hn. unfold count in Hn.
  pose proof (Z.mod_pos_bound (head (scancode_ring s) - tail (scancode_ring s)) KBD_BUFFER_SIZE ltac:(done)). lia.
Qed.

(** The interrupt handler on every byte of a list. *)
Fixpoint feed (l : list Z) : M (P := P) () :=
  match l with [] => mret () | c :: l => _ ← input_handle_scancode c; feed l end.
Fixpoint poll_times (n : nat) : M (P := P) (list (option key_event)) :=
  match n with
  | O => mret []
  | S n => e ← input_poll_key; es ← poll_times n; mret (e :: es)
  end.

Lemma feed_spec l : forall s l0 m, keyboard s l0 m -> Z.of_nat (length l0 + length l) < KBD_BUFFER_SIZE ->
  exists s', feed l s = Ret ((), s') /\ keyboard s' (l0 ++ l) m.
Proof.
  induction l as [|c l IH]; intros s l0 m Hk Hn.
  - exists s. by rewrite app_nil_r.
  - cbn [length] in Hn. destruct Hk as (Hr & Hi & Hm).
    destruct (ring_push_spec _ kbd_size _ c Hr) as (r' & E & Hr' & Hi').
    rewrite decide_False in Hi'.
    2:{ intros Hfull%full_count; [| exact kbd_size | done]. rewrite <- (items_length _ kbd_size), Hi in Hfull. lia. }
    assert (exists s1, input_handle_scancode c s = Ret ((), s1) /\ scancode_ring s1 = r' /\ mods s1 = m)
      as (s1 & E1 & Hr1 & Hm1).
    { unfold input_handle_scancode, push_scancode. rewrite (bind_ret _ _ _ E). by eexists. }
    cbn [feed]. rewrite (st_bind_ret _ _ _ _ _ E1).
    rewrite Hi in Hi'. replace (l0 ++ c :: l) with ((l0 ++ [c]) ++ l) by by rewrite <- (assoc_L (++)).
    apply IH; [by rewrite <- Hr1 in Hr', Hi' |]. rewrite length_app. cbn. lia.
Qed.

Fixpoint polled (n : nat) (l : list Z) (m : modifiers) : list (option key_event) * list Z * modifiers :=
  match n with
  | O => ([], l, m)
  | S n => let '(e, l, m) := next_key l m in let '(es, l, m) := polled n l m in (e :: es, l, m)
  end.

Lemma next_key_rest l m : Forall is_u8 l -> Forall is_u8 (next_key l m).1.2.
Proof.
  revert m. induction l as [|c l IH]; intros m Hl; [done |]. apply Forall_cons in Hl as [_ Hl]. cbn [next_key].
  destruct (tr c m) as [e m']. destruct (reported e); [done | by apply IH].
Qed.

Lemma poll_times_spec n : forall s l m, keyboard s l m -> Forall is_u8 l ->
  exists s', poll_times n s = Ret ((polled n l m).1.1, s') /\ keyboard s' (polled n l m).1.2 (polled n l m).2.
Proof.
  induction n as [|n IH]; intros s l m Hk Hl; [by exists s |].
  destruct (poll_key_spec s l m Hk Hl) as (s1 & E1 & Hk1). pose proof (next_key_rest l m Hl) as Hl1.
  cbn [poll_times polled]. rewrite (st_bind_ret _ _ _ _ _ E1). destruct (next_key l m) as [[e l1] m1]. cbn [fst snd] in *.
  destruct (IH s1 l1 m1 Hk1 Hl1) as (s2 & E2 & Hk2). rewrite (st_bind_ret _ _ _ _ _ E2).
  destruct (polled n l1 m1) as [[es l2] m2]. by exists s2.
Qed.

(** One keystroke is one event; its release is silent. *)
Lemma next_key_stroke k l alt : is_char_key k.2 = true ->
  exists l1 m1, next_key (keystroke k ++ l) (Modifiers false false alt) = (Some (typed_event k), l1, m1) /\
    next_key l1 m1 = next_key l (Modifiers false false alt).
Proof.
  intros Hc. destruct k as [sh c]. cbn [snd] in Hc. destruct sh; cbn [keystroke typed_event app].
  - eexists _, _. split.
    + cbn [next_key]. change (tr 0x2A _) with (KeyEvent false 0 KEY_NONE, Modifiers false true alt).
      cbn -[tr Z.add]. by rewrite (tr_make c true alt Hc).
    + cbn [next_key]. rewrite (tr_break c false true alt Hc). cbn -[tr Z.add].
      by change (tr 0xAA _) with (KeyEvent false 0 KEY_NONE, Modifiers false false alt).
  - eexists _, _. split.
    + cbn [next_key]. by rewrite (tr_make c false alt Hc).
    + cbn [next_key]. by rewrite (tr_break c false false alt Hc).
Qed.

Lemma polled_text ks alt : Forall (fun k => is_char_key k.2 = true) ks ->
  polled (S (length ks)) (concat (keystroke <$> ks)) (Modifiers false false alt) =
    ((Some ∘ typed_event <$> ks) ++ [None], [], Modifiers false false alt).
Proof.
  induction ks as [|k ks IH]; intros Hks; [done |]. apply Forall_cons in Hks as [Hk Hks].
  destruct (next_key_stroke k (concat (keystroke <$> ks)) alt Hk) as (l1 & m1 & E1 & E2).
  cbn [fmap list_fmap concat length]. cbn [polled] in IH |- *. rewrite E1, E2.
  specialize (IH Hks). destruct (next_key (concat (keystroke <$> ks)) (Modifiers false false alt)) as [[e l2] m2].
  destruct (polled (length ks) l2 m2) as [[es l3] m3]. by injection IH as -> -> ->.
Qed.

Lemma keystroke_u8 k : is_char_key k.2 = true -> Forall is_u8 (keystroke k).
Proof.
  intros Hc. assert (0 <= k.2 < 128) as Hr by (unfold is_char_key in Hc; lia).
  destruct k as [[] c]; cbn [keystroke snd] in *; repeat constructor; unfold is_u8; lia.
Qed.

(** C36: The bytes a keyboard sends for a text typed with the character keys, with or without
    shift, put into the buffer by the interrupt handler and read with [input_poll_key], give
    one event per keystroke in order with the character of the key, then nothing; the buffer
    is empty again and no modifier is held. *)
Theorem keys_typed s (ks : list (bool * Z)) alt
    (Hs : keyboard s [] (Modifiers false false alt))
    (Hks : Forall (fun k => is_char_key k.2 = true) ks)
    (Hfit : Z.of_nat (length (concat (keystroke <$> ks))) < KBD_BUFFER_SIZE) :
  exists s',
    (_ ← feed (concat (keystroke <$> ks)); poll_times (S (length ks))) s =
      Ret ((Some ∘ typed_event <$> ks) ++ [None], s') /\
    keyboard s' [] (Modifiers false false alt).
Proof.
  destruct (feed_spec (concat (keystroke <$> ks)) s [] _ Hs Hfit) as (s1 & E1 & Hk1).
  rewrite (st_bind_ret _ _ _ _ _ E1). cbn [app] in Hk1.
  destruct (poll_times_spec (S (length ks)) s1 _ _ Hk1) as (s2 & E2 & Hk2).
  { apply Forall_concat, Forall_fmap. eapply Forall_impl; [exact Hks |]. intros k. apply keystroke_u8. }
  rewrite polled_text in E2, Hk2 by done. by exists s2.
Qed.

(** An arrow key pressed and released, then a character key: the second prefix [0xE0], of
    the release, is still pending, and the character is read as an extended key, without a
    character. *)
Theorem key_after_arrow_lost s alt (c : Z)
    (Hs : keyboard s [] (Modifiers false false alt)) (Hc : is_char_key c = true) :
  exists s',
    (_ ← feed ([0xE0; 0x48; 0xE0; 0x48 + 0x80] ++ [c]); poll_times 3) s =
      Ret ([Some (KeyEvent true 0 KEY_UP); Some (KeyEvent true 0 KEY_NONE); None], s') /\
    byte_at scancode_ascii c <> 0.
Proof.
  destruct (feed_spec ([0xE0; 0x48; 0xE0; 0x48 + 0x80] ++ [c]) s [] _ Hs) as (s1 & E1 & Hk1); [done |].
  rewrite (st_bind_ret _ _ _ _ _ E1). cbn [app] in Hk1.
  destruct (poll_times_spec 3 s1 _ _ Hk1) as (s2 & E2 & Hk2).
  { repeat constructor; try done; unfold is_char_key in Hc; lia. }
  exists s2. rewrite E2. split; [| unfold is_char_key in Hc; lia]. f_equal. f_equal.
  assert (next_key [0xE0; 0x48; 0xE0; 0x48 + 0x80; c] (Modifiers false false alt) =
    (Some (KeyEvent true 0 KEY_UP), [0xE0; 0x48 + 0x80; c], Modifiers false false alt)) as En by by destruct alt.
  cbn [polled]. rewrite En.
  assert (next_key [0xE0; 0x48 + 0x80; c] (Modifiers false false alt) =
    (Some (KeyEvent true 0 KEY_NONE), [], Modifiers false false alt)) as ->; [| done].
  transitivity (next_key [c] (Modifiers true false alt)); [by destruct alt |].
  cbn [next_key]. by rewrite (tr_extended c false alt Hc).
Qed.
End Typing.

(** ** Witnesses *)
(** Ports that read as zero. *)
#[local] Program Instance no_ports : PortIO () := {| port_in _ _ p := (0, p); port_out _ _ _ p := p |}.
Next Obligation. intros w port p Hw. cbn. split; [lia |]. apply Z.pow_pos_nonneg; lia. Qed.

Lemma statics_keyboard : keyboard (statics ()) [] (Modifiers false false false).
Proof. destruct (empty_ring_ok _ kbd_size) as [H1 H2]. by split. Qed.

(** Typing [fusiON] after the boot. *)
Lemma keys_typed_witness : exists s' : input (),
  (_ ← feed (concat (keystroke <$> [(false, 33); (false, 22); (false, 31); (false, 23); (true, 24); (true, 49)]));
   poll_times 7) (statics ()) =
    Ret (((fun c => Some (KeyEvent true c KEY_NONE)) <$> [102; 117; 115; 105; 79; 78]) ++ [None], s').
Proof.
  destruct (keys_typed (statics ()) [(false, 33); (false, 22); (false, 31); (false, 23); (true, 24); (true, 49)] false
    statics_keyboard) as (s' & E & _); [by repeat constructor | reflexivity |].
  exists s'. exact E.
Defined.

(** Up, then [a]. *)
Lemma key_after_arrow_lost_witness : exists s' : input (),
  (_ ← feed [0xE0; 0x48; 0xE0; 0xC8; 30]; poll_times 3) (statics ()) =
    Ret ([Some (KeyEvent true 0 KEY_UP); Some (KeyEvent true 0 KEY_NONE); None], s').
Proof.
  destruct (key_after_arrow_lost (statics ()) false 30 statics_keyboard) as (s' & E & _); [reflexivity |].
  exists s'. exact E.
Defined.

(** A pop has read the tail when the interrupt comes and pushes 7; the pop will find it. *)
Lemma ring_spsc_witness :
  let c := Conc (Ring (7 :: repeat 0 127) 1 0) 7 (Done ())
    (h ← acc GetHead; if 0 =? h then mret None else
     t ← acc GetTail; x ← acc (GetBuf t); t ← acc GetTail; _ ← acc (SetTail (ring_next KBD_BUFFER_SIZE t)); mret (Some x)) [7] [] [] in
  rtc (ring_step KBD_BUFFER_SIZE) (ring_start KBD_BUFFER_SIZE) c /\ accepted c = popped c ++ items KBD_BUFFER_SIZE (c_ring c).
Proof.
  intros c. assert (rtc (ring_step KBD_BUFFER_SIZE) (ring_start KBD_BUFFER_SIZE) c) as Hrun.
  { eapply rtc_l; [apply step_pop |]. eapply rtc_l; [eapply step_pop_access; reflexivity |].
    eapply rtc_l; [apply (step_push _ _ _ 7) |]. do 4 (eapply rtc_l; [eapply step_push_access; reflexivity |]).
    apply rtc_once. refine (step_push_access KBD_BUFFER_SIZE _ 7 _ _ _ _ _ _ 0 _ _). reflexivity. }
  split; [exact Hrun |]. apply (ring_spsc KBD_BUFFER_SIZE c kbd_size Hrun).
Defined.
