(* ===== verification/Pci.v ===== *)
(** * PCI configuration space ([src/src/drivers/pci.c])

    Access through the ports [0xCF8] and [0xCFC], the scan for a device, its base
    addresses.  The host bridge and the devices are behind [PortIO]; what the code relies
    on, the documented configuration mechanism #1, is the class [PciConfig]. *)
From S2P Require Import Prelude Interfaces.

Definition PCI_CONFIG_ADDR : Z := 0xCF8.
Definition PCI_CONFIG_DATA : Z := 0xCFC.

Record pci_device := PciDevice {
  pci_bus : Z; pci_slot : Z; pci_func : Z;
  vendor_id : Z; device_id : Z; class_id : Z; subclass : Z; prog_if : Z; header_type : Z; irq_line : Z;
  pci_bar : list Z;
}.

Definition pci_make_addr (bus slot func offset : Z) : Z :=
  Z.lor (Z.lor (Z.lor (Z.lor (Z.shiftl 1 31) (Z.shiftl bus 16)) (Z.shiftl slot 11)) (Z.shiftl func 8))
        (Z.land offset 0xFC).
(** [offset & ~3u] as a [u8] argument. *)
Definition dword_offset (offset : Z) : Z := u8 (Z.land offset (2 ^ 32 - 4)).
Definition u32_not (x : Z) : Z := 2 ^ 32 - 1 - x.

Definition is_mmio (bar : Z) : bool := Z.land bar 0x1 =? 0.
(** The address, and whether it is of memory; [None] leaves [*is_mmio] as it was. *)
Definition pci_get_bar (dev : pci_device) (index : Z) : res (Z * option bool) :=
  if (index <? 0) || (5 <? index) then Ret (0, None) else
  bar ← zget (pci_bar dev) index;
  if negb (is_mmio bar) then Ret (Z.land bar (u32_not 0x3), Some false) else
  let type := Z.land (Z.shiftr bar 1) 0x3 in
  let addr := Z.land bar (u32_not 0xF) in
  if (type =? 0x2) && (index <? 5) then
    high ← zget (pci_bar dev) (index + 1);
    Ret (Z.lor addr (Z.shiftl high 32), Some true)
  else Ret (addr, Some true).

Section Code.
Context {P : Type} `{!PortIO P}.
Definition inl (port : Z) : st P Z := fun p => Ret (port_in 4 port p).
Definition outl (port v : Z) : st P () := fun p => Ret ((), port_out 4 port v p).

Definition pci_read32 (bus slot func offset : Z) : st P Z :=
  _ ← outl PCI_CONFIG_ADDR (pci_make_addr bus slot func offset); inl PCI_CONFIG_DATA.
Definition pci_read16 (bus slot func offset : Z) : st P Z :=
  value ← pci_read32 bus slot func (dword_offset offset);
  mret (Z.land (Z.shiftr value (Z.land offset 2 * 8)) 0xFFFF).
Definition pci_read8 (bus slot func offset : Z) : st P Z :=
  value ← pci_read32 bus slot func (dword_offset offset);
  mret (Z.land (Z.shiftr value (Z.land offset 3 * 8)) 0xFF).
Definition pci_write32 (bus slot func offset value : Z) : st P () :=
  _ ← outl PCI_CONFIG_ADDR (pci_make_addr bus slot func offset); outl PCI_CONFIG_DATA value.
Definition pci_write16 (bus slot func offset value : Z) : st P () :=
  current ← pci_read32 bus slot func (dword_offset offset);
  let shift := Z.land offset 2 * 8 in
  let mask := u32 (Z.shiftl 0xFFFF shift) in
  let next := Z.lor (Z.land current (u32_not mask)) (u32 (Z.shiftl value shift)) in
  pci_write32 bus slot func (dword_offset offset) next.
Definition pci_write8 (bus slot func offset value : Z) : st P () :=
  current ← pci_read32 bus slot func (dword_offset offset);
  let shift := Z.land offset 3 * 8 in
  let mask := u32 (Z.shiftl 0xFF shift) in
  let next := Z.lor (Z.land current (u32_not mask)) (u32 (Z.shiftl value shift)) in
  pci_write32 bus slot func (dword_offset offset) next.

(** The loop over the six base addresses. *)
Fixpoint read_bars (n : nat) (bus slot func i : Z) : st P (list Z) :=
  match n with
  | O => mret []
  | S n => b ← pci_read32 bus slot func (u8 (0x10 + i * 4)); bs ← read_bars n bus slot func (i + 1); mret (b :: bs)
  end.
Definition pci_fill_device (bus slot func : Z) : st P pci_device :=
  vendor ← pci_read16 bus slot func 0x00;
  device ← pci_read16 bus slot func 0x02;
  prog ← pci_read8 bus slot func 0x09;
  sub ← pci_read8 bus slot func 0x0A;
  cls ← pci_read8 bus slot func 0x0B;
  header ← pci_read8 bus slot func 0x0E;
  irq ← pci_read8 bus slot func 0x3C;
  bars ← read_bars 6 bus slot func 0;
  mret (PciDevice bus slot func vendor device cls sub prog header irq bars).

(** The three loops of [pci_find_device]; [n] counts the iterations left. *)
Fixpoint find_func (vendor device bus slot : Z) (n : nat) (func : Z) : st P (option pci_device) :=
  match n with
  | O => mret None
  | S n =>
      v ← pci_read16 bus slot func 0x00;
      if v =? 0xFFFF then find_func vendor device bus slot n (func + 1) else
      d ← pci_read16 bus slot func 0x02;
      if (v =? vendor) && (d =? device) then dev ← pci_fill_device bus slot func; mret (Some dev)
      else find_func vendor device bus slot n (func + 1)
  end.
Fixpoint find_slot (vendor device bus : Z) (n : nat) (slot : Z) : st P (option pci_device) :=
  match n with
  | O => mret None
  | S n =>
      v0 ← pci_read16 bus slot 0 0x00;
      if v0 =? 0xFFFF then find_slot vendor device bus n (slot + 1) else
      header ← pci_read8 bus slot 0 0x0E;
      let func_count := if negb (Z.land header 0x80 =? 0) then 8%nat else 1%nat in
      r ← find_func vendor device bus slot func_count 0;
      match r with Some dev => mret (Some dev) | None => find_slot vendor device bus n (slot + 1) end
  end.
Fixpoint find_bus (vendor device : Z) (n : nat) (bus : Z) : st P (option pci_device) :=
  match n with
  | O => mret None
  | S n =>
      r ← find_slot vendor device bus 32 0;
      match r with Some dev => mret (Some dev) | None => find_bus vendor device n (bus + 1) end
  end.
Definition pci_find_device (vendor device : Z) : st P (option pci_device) := find_bus vendor device 256 0.

Definition pci_enable_bus_master (dev : pci_device) : st P () :=
  cmd ← pci_read16 (pci_bus dev) (pci_slot dev) (pci_func dev) 0x04;
  pci_write16 (pci_bus dev) (pci_slot dev) (pci_func dev) 0x04 (Z.lor cmd 0x0006).
End Code.

(** ** Configuration mechanism #1

    [cfg] is the configuration space by address, [cfg_latch] the address register of the
    bridge, [cfg_reg] the effect of a write on a register.  Reading has no effect. *)
Class PciConfig (P : Type) `{!PortIO P} := {
  cfg : P -> Z -> Z;
  cfg_latch : P -> Z;
  cfg_reg : Z -> Z -> Z -> Z;
  cfg_out_addr a p : cfg_latch (port_out 4 PCI_CONFIG_ADDR a p) = a /\ cfg (port_out 4 PCI_CONFIG_ADDR a p) = cfg p;
  cfg_in_data p : (port_in 4 PCI_CONFIG_DATA p).1 = cfg p (cfg_latch p) /\ cfg (port_in 4 PCI_CONFIG_DATA p).2 = cfg p;
  cfg_out_data v p a : cfg (port_out 4 PCI_CONFIG_DATA v p) a =
    if decide (a = cfg_latch p) then cfg_reg a (cfg p a) v else cfg p a;
}.

(** What reads of the space [c] give. *)
Definition dword (c : Z -> Z) (bus slot func offset : Z) : Z := c (pci_make_addr bus slot func offset).
Definition word (c : Z -> Z) (bus slot func offset : Z) : Z :=
  Z.land (Z.shiftr (dword c bus slot func (dword_offset offset)) (Z.land offset 2 * 8)) 0xFFFF.
Definition byte (c : Z -> Z) (bus slot func offset : Z) : Z :=
  Z.land (Z.shiftr (dword c bus slot func (dword_offset offset)) (Z.land offset 3 * 8)) 0xFF.
Definition device_at (c : Z -> Z) (f : Z * Z * Z) : pci_device :=
  let '(b, s, f) := f in
  PciDevice b s f (word c b s f 0x00) (word c b s f 0x02) (byte c b s f 0x0B) (byte c b s f 0x0A)
    (byte c b s f 0x09) (byte c b s f 0x0E) (byte c b s f 0x3C)
    ((fun i => dword c b s f (0x10 + i * 4)) <$> [0; 1; 2; 3; 4; 5]).

(** The functions present: a device answers at function 0, and has more functions only if
    its header says so. *)
Definition slot_functions (c : Z -> Z) (b s : Z) : list (Z * Z * Z) :=
  if word c b s 0 0x00 =? 0xFFFF then [] else
  (fun f => (b, s, f)) <$>
    filter (fun f => word c b s f 0x00 <> 0xFFFF) (seqZ 0 (if byte c b s 0 0x0E <? 0x80 then 1 else 8)).
Definition pci_functions (c : Z -> Z) : list (Z * Z * Z) :=
  concat ((fun b => concat (slot_functions c b <$> seqZ 0 32)) <$> seqZ 0 256).
Definition has_ids (c : Z -> Z) (vendor device : Z) (f : Z * Z * Z) : bool :=
  let '(b, s, f) := f in (word c b s f 0x00 =? vendor) && (word c b s f 0x02 =? device).

Section Proofs.
Context {P : Type} `{!PortIO P, !PciConfig P}.
Implicit Types p : P.

(** [reads m x]: on the space [c], [m] returns [x] and leaves the space as it is. *)
Definition reads {A} (c : Z -> Z) (m : st P A) (x : A) : Prop :=
  forall p, cfg p = c -> exists p', m p = Ret (x, p') /\ cfg p' = c.

Lemma reads_ret {A} c (x : A) : reads c (mret x) x.
Proof. intros p Hp. by exists p. Qed.
Lemma reads_bind {A B} c (m : st P A) (f : A -> st P B) x y :
  reads c m x -> reads c (f x) y -> reads c (m ≫= f) y.
Proof.
  intros Hm Hf p Hp. destruct (Hm p Hp) as (p1 & E & Hp1). rewrite (st_bind_ret _ _ _ _ _ E). by apply Hf.
Qed.

Lemma read32_reads c bus slot func offset :
  reads c (pci_read32 bus slot func offset) (dword c bus slot func offset).
Proof.
  intros p <-. set (a := pci_make_addr bus slot func offset).
  destruct (cfg_out_addr a p) as [Hl Hc]. set (p1 := port_out 4 PCI_CONFIG_ADDR a p) in *.
  destruct (cfg_in_data p1) as [Hv Hc2].
  exists (port_in 4 PCI_CONFIG_DATA p1).2. split; [| by rewrite Hc2].
  unfold pci_read32, outl, inl, mbind, st_bind, res_bind. fold a. cbn [mbind]. fold p1.
  unfold dword. fold a. rewrite <- Hc, <- Hl, <- Hv. by destruct (port_in 4 PCI_CONFIG_DATA p1).
Qed.
Lemma read16_reads c bus slot func offset :
  reads c (pci_read16 bus slot func offset) (word c bus slot func offset).
Proof. eapply reads_bind; [apply read32_reads | apply reads_ret]. Qed.
Lemma read8_reads c bus slot func offset :
  reads c (pci_read8 bus slot func offset) (byte c bus slot func offset).
Proof. eapply reads_bind; [apply read32_reads | apply reads_ret]. Qed.
End Proofs.

Create HintDb pci discriminated.
#[export] Hint Resolve reads_ret read32_reads read16_reads read8_reads : pci.

Section Scan.
Context {P : Type} `{!PortIO P, !PciConfig P}.

Lemma fill_reads c bus slot func :
  reads (P := P) c (pci_fill_device bus slot func) (device_at c (bus, slot, func)).
Proof.
  unfold pci_fill_device. do 7 (eapply reads_bind; [eauto with pci |]).
  eapply reads_bind; [| apply reads_ret]. cbn [read_bars].
  do 6 (eapply reads_bind; [eauto with pci |]; eapply reads_bind; [| apply reads_ret]). apply reads_ret.
Qed.

Lemma find_func_reads c vendor device bus slot n func :
  reads (P := P) c (find_func vendor device bus slot n func)
    (device_at c <$> List.find (has_ids c vendor device)
      ((fun f => (bus, slot, f)) <$> filter (fun f => word c bus slot f 0x00 <> 0xFFFF) (seqZ func (Z.of_nat n)))).
Proof.
  revert func. induction n as [|n IH]; intros func; [apply reads_ret |].
  rewrite seqZ_cons by lia. replace (Z.pred (Z.of_nat (S n))) with (Z.of_nat n) by lia.
  cbn [find_func]. eapply reads_bind; [apply read16_reads |]. rewrite filter_cons.
  destruct (Z.eqb_spec (word c bus slot func 0) 0xFFFF) as [E|E].
  - rewrite decide_False by tauto. apply IH.
  - rewrite decide_True by done. eapply reads_bind; [apply read16_reads |]. cbn [fmap list_fmap List.find has_ids].
    case_match; [| apply IH]. eapply reads_bind; [apply fill_reads | apply reads_ret].
Qed.

Lemma find_app {A} (f : A -> bool) l1 l2 :
  List.find f (l1 ++ l2) = match List.find f l1 with Some x => Some x | None => List.find f l2 end.
Proof. induction l1 as [|x l1 IH]; cbn; [done |]. by destruct (f x). Qed.

(** Bit 7 of a byte. *)
Lemma multi_function b : 0 <= b < 256 -> negb (Z.land b 0x80 =? 0) = negb (b <? 0x80).
Proof.
  intros Hb. f_equal.
  assert (forallb (fun b => Bool.eqb (Z.land b 0x80 =? 0) (b <? 0x80)) (seqZ 0 256) = true) as H by reflexivity.
  rewrite forallb_forall in H. apply Bool.eqb_prop, H. apply list_elem_of_In, elem_of_seqZ. lia.
Qed.
Lemma byte_range c bus slot func offset : 0 <= byte c bus slot func offset < 256.
Proof. unfold byte. change 0xFF with (Z.ones 8). rewrite Z.land_ones by lia. by apply Z.mod_pos_bound. Qed.

Lemma find_slot_reads c vendor device bus n slot :
  reads (P := P) c (find_slot vendor device bus n slot)
    (device_at c <$> List.find (has_ids c vendor device) (concat (slot_functions c bus <$> seqZ slot (Z.of_nat n)))).
Proof.
  revert slot. induction n as [|n IH]; intros slot; [apply reads_ret |].
  rewrite seqZ_cons by lia. replace (Z.pred (Z.of_nat (S n))) with (Z.of_nat n) by lia.
  cbn [find_slot fmap list_fmap concat]. rewrite find_app. eapply reads_bind; [apply read16_reads |].
  unfold slot_functions at 1. case_match; [apply IH |].
  eapply reads_bind; [apply read8_reads |]. cbv zeta. rewrite multi_function by apply byte_range.
  eapply reads_bind; [apply find_func_reads |].
  replace (Z.of_nat (if negb (byte c bus slot 0 14 <? 128) then 8%nat else 1%nat))
    with (if byte c bus slot 0 14 <? 128 then 1 else 8) by by destruct (byte c bus slot 0 14 <? 128).
  destruct (List.find _ _); [apply reads_ret | apply IH].
Qed.

Lemma find_bus_reads c vendor device n bus :
  reads (P := P) c (find_bus vendor device n bus)
    (device_at c <$> List.find (has_ids c vendor device)
      (concat ((fun b => concat (slot_functions c b <$> seqZ 0 32)) <$> seqZ bus (Z.of_nat n)))).
Proof.
  revert bus. induction n as [|n IH]; intros bus; [apply reads_ret |].
  rewrite (seqZ_cons bus) by lia. replace (Z.pred (Z.of_nat (S n))) with (Z.of_nat n) by lia.
  cbn [find_bus fmap list_fmap concat]. rewrite find_app. eapply reads_bind; [apply (find_slot_reads c vendor device bus 32 0) |].
  change (Z.of_nat 32) with 32. destruct (List.find _ _); [apply reads_ret | apply IH].
Qed.

Lemma find_device_reads c vendor device :
  reads (P := P) c (pci_find_device vendor device)
    (device_at c <$> List.find (has_ids c vendor device) (pci_functions c)).
Proof. apply (find_bus_reads c vendor device 256 0). Qed.

(** [pci_find_device] gives the first function, in the order of bus, slot and function, whose
    vendor and device ids are those asked for, among the functions present, with its registers;
    nothing if there is none.  The configuration space is left as it is. *)
Theorem pci_find_device_first vendor device (p : P) :
  exists p',
    pci_find_device vendor device p =
      Ret (device_at (cfg p) <$> List.find (has_ids (cfg p) vendor device) (pci_functions (cfg p)), p') /\
    cfg p' = cfg p.
Proof. by apply find_device_reads. Qed.

(** A 16-bit write is a 32-bit write of the register with the other half as it was read. *)
Lemma write16_effect bus slot func offset v (p : P) :
  let a := pci_make_addr bus slot func (dword_offset offset) in
  let shift := Z.land offset 2 * 8 in
  let old := cfg p a in
  exists p', pci_write16 bus slot func offset v p = Ret ((), p') /\
    forall x, cfg p' x =
      if decide (x = a)
      then cfg_reg a old (Z.lor (Z.land old (u32_not (u32 (Z.shiftl 0xFFFF shift)))) (u32 (Z.shiftl v shift)))
      else cfg p x.
Proof.
  intros a shift old. destruct (read32_reads (cfg p) bus slot func (dword_offset offset) p eq_refl) as (p1 & E & Hp1).
  unfold pci_write16. rewrite (st_bind_ret _ _ _ _ _ E). unfold dword. fold a old shift. cbv zeta. fold shift.
  set (w := Z.lor _ _). unfold pci_write32. fold a. unfold outl, mbind, st_bind, res_bind. cbn [mbind].
  eexists. split; [reflexivity |]. destruct (cfg_out_addr a p1) as [Hl Hc]. intros x.
  rewrite cfg_out_data, Hl, Hc, Hp1. case_decide; [by subst |]. done.
Qed.
End Scan.

(** ** What the scan does to the rest of the machine

    [calm R m]: [m] takes the machine from a state to one related by [R], a preorder that
    accesses to the configuration ports stay in. *)
Definition calm {P A} (R : P -> P -> Prop) (m : st P A) : Prop := forall b a b', m b = Ret (a, b') -> R b b'.

Section Calm.
Context {P : Type} `{!PortIO P} (R : P -> P -> Prop) `{!PreOrder R}
  (R_out : forall port v b, port = PCI_CONFIG_ADDR \/ port = PCI_CONFIG_DATA -> R b (port_out 4 port v b))
  (R_in : forall b, R b (port_in 4 PCI_CONFIG_DATA b).2).
#[local] Set Default Proof Using "All".
#[local] Abbreviation calm := (calm R).

Lemma calm_ret {A} (a : A) : calm (mret a).
Proof. intros b a' b' [= _ <-]. done. Qed.
Lemma calm_bind {A C} (m : st P A) (f : A -> st P C) : calm m -> (forall a, calm (f a)) -> calm (m ≫= f).
Proof.
  intros Hm Hf b c b'. unfold mbind, st_bind. destruct (m b) as [[a b1]| |] eqn:E; cbn; [| done | done].
  intros E2. etransitivity; [by eapply Hm | by eapply Hf].
Qed.
Lemma calm_outl port v : port = PCI_CONFIG_ADDR \/ port = PCI_CONFIG_DATA -> calm (outl port v).
Proof. intros Hp b a b' [= _ <-]. by apply R_out. Qed.
Lemma calm_inl : calm (inl PCI_CONFIG_DATA).
Proof. intros b a b'. unfold inl. pose proof (R_in b) as H. destruct (port_in 4 _ b). by intros [= _ <-]. Qed.
Lemma calm_read32 bus slot func offset : calm (pci_read32 bus slot func offset).
Proof. apply calm_bind; [apply calm_outl; by left | intros _; apply calm_inl]. Qed.
Lemma calm_read16 bus slot func offset : calm (pci_read16 bus slot func offset).
Proof. apply calm_bind; [apply calm_read32 | intros; apply calm_ret]. Qed.
Lemma calm_read8 bus slot func offset : calm (pci_read8 bus slot func offset).
Proof. apply calm_bind; [apply calm_read32 | intros; apply calm_ret]. Qed.

Ltac calm_tac := repeat lazymatch goal with
  | |- calm (_ ≫= _) => apply calm_bind; [| intros ?]
  | |- calm (mret _) => apply calm_ret
  | |- calm (pci_read32 _ _ _ _) => apply calm_read32
  | |- calm (pci_read16 _ _ _ _) => apply calm_read16
  | |- calm (pci_read8 _ _ _ _) => apply calm_read8
  | |- calm (if ?b then _ else _) => destruct b
  | |- calm (match ?o with Some _ => _ | None => _ end) => destruct o
  end.

Lemma calm_bars n bus slot func i : calm (read_bars n bus slot func i).
Proof. revert i. induction n as [|n IH]; intros i; cbn [read_bars]; calm_tac; apply IH. Qed.
Lemma calm_fill bus slot func : calm (pci_fill_device bus slot func).
Proof. unfold pci_fill_device. calm_tac; apply calm_bars. Qed.
Lemma calm_find_func vendor device bus slot n func : calm (find_func vendor device bus slot n func).
Proof. revert func. induction n as [|n IH]; intros func; cbn [find_func]; calm_tac; apply IH || apply calm_fill. Qed.
Lemma calm_find_slot vendor device bus n slot : calm (find_slot vendor device bus n slot).
Proof. revert slot. induction n as [|n IH]; intros slot; cbn [find_slot]; calm_tac; apply IH || apply calm_find_func. Qed.
Lemma calm_find vendor device : calm (pci_find_device vendor device).
Proof.
  unfold pci_find_device. generalize 256%nat, 0. induction n as [|n IH]; intros bus; cbn [find_bus]; [apply calm_ret |].
  apply calm_bind; [apply calm_find_slot | intros [d|]; [apply calm_ret | apply IH]].
Qed.
Lemma calm_bus_master dev : calm (pci_enable_bus_master dev).
Proof.
  unfold pci_enable_bus_master, pci_write16, pci_write32. calm_tac; apply calm_outl; [by left | by right].
Qed.

Lemma find_keeps `{!PciConfig P} vendor device (b : P) :
  exists b', pci_find_device vendor device b =
      Ret (device_at (cfg b) <$> List.find (has_ids (cfg b) vendor device) (pci_functions (cfg b)), b') /\ R b b'.
Proof.
  destruct (find_device_reads (cfg b) vendor device b eq_refl) as (b' & E & _).
  exists b'. split; [exact E |]. exact (calm_find _ _ _ _ _ E).
Qed.
Lemma bus_master_keeps `{!PciConfig P} dev (b : P) : exists b', pci_enable_bus_master dev b = Ret ((), b') /\ R b b'.
Proof.
  destruct (read16_reads (cfg b) (pci_bus dev) (pci_slot dev) (pci_func dev) 4 b eq_refl) as (b1 & E1 & _).
  destruct (write16_effect (pci_bus dev) (pci_slot dev) (pci_func dev) 4
    (Z.lor (word (cfg b) (pci_bus dev) (pci_slot dev) (pci_func dev) 4) 6) b1) as (b2 & E2 & _).
  assert (pci_enable_bus_master dev b = Ret ((), b2)) as E.
  { unfold pci_enable_bus_master. by rewrite (st_bind_ret _ _ _ _ _ E1). }
  exists b2. split; [done |]. exact (calm_bus_master _ _ _ _ E).
Qed.
End Calm.
