(* ===== verification/DevMem.v ===== *)
(** * Drivers and memory shared with their devices

    A driver's state is its static structure, the state of [kernel/memory.c], and the
    machine behind the [Bus].  Pointers are virtual addresses in the direct map.  The code
    a driver uses to reach memory and ports comes first; then what stores leave in memory:
    [rd] reads a number out of it, [upd] is the effect of writing a list of bytes, [writes]
    that a computation is such a write. *)
From S2P Require Import Prelude Interfaces Phys.

(** The statics of a driver, the state of [memory.c], and the machine. *)
Record driver (G B : Type) := Drv { own : G; mem : phys; bus : B }.
Arguments Drv {G B}. Arguments own {G B}. Arguments mem {G B}. Arguments bus {G B}.

Definition disjoint (a n a' n' : Z) : Prop := a + n <= a' \/ a' + n' <= a.

Section Code.
Context {G B : Type} `{!Bus B}.
Definition on_bus {A} (m : st B A) : st (driver G B) A := fun s => '(a, b) ← m (bus s); Ret (a, Drv (own s) (mem s) b).
(** Memory behind a pointer. *)
Definition virt_to_phys (v : Z) (p : phys) : Z := u64 (v - hhdm_offset p).
Definition load (w v : Z) : st (driver G B) Z := fun s =>
  let (x, b) := mem_load w (virt_to_phys v (mem s)) (bus s) in Ret (x, Drv (own s) (mem s) b).
Definition store (w v x : Z) : st (driver G B) () := fun s =>
  Ret ((), Drv (own s) (mem s) (mem_store w (virt_to_phys v (mem s)) x (bus s))).
(** [memcpy] and [memset] between memory and a list of bytes. *)
Fixpoint store_bytes (v : Z) (l : list Z) : st (driver G B) () :=
  match l with [] => mret () | x :: l => _ ← store 1 v x; store_bytes (v + 1) l end.
Fixpoint load_bytes (n : nat) (v : Z) : st (driver G B) (list Z) :=
  match n with O => mret [] | S n => x ← load 1 v; l ← load_bytes n (v + 1); mret (x :: l) end.

Definition io_read (w base off : Z) : st (driver G B) Z := on_bus (fun b => Ret (port_in w (u16 (base + off)) b)).
Definition io_write (w base off v : Z) : st (driver G B) () := on_bus (fun b => Ret ((), port_out w (u16 (base + off)) v b)).
Definition io_read32 := io_read 4.
Definition io_write32 := io_write 4.
Definition io_read16 := io_read 2.
Definition io_write16 := io_write 2.
Definition io_read8 := io_read 1.
Definition io_write8 := io_write 1.
Definition alloc_phys (size align : Z) : st (driver G B) (option (Z * Z)) := fun s =>
  let (r, p) := phys_alloc size align (mem s) in Ret (r, Drv (own s) p (bus s)).
End Code.

(** ** Memory *)
Section Mem.
Context {B : Type} `{!Bus B}.

Definition ram_range (a n : Z) : Prop := forall x, a <= x < a + n -> is_ram x.
Definition rd (w : Z) (b : B) (a : Z) : Z := le_num (ram b <$> seqZ a w).

Lemma ram_range_sub a n a' n' : ram_range a n -> a <= a' -> a' + n' <= a + n -> ram_range a' n'.
Proof. intros H H1 H2 x Hx. apply H. lia. Qed.

Lemma rd_ext w b b' a : (forall x, a <= x < a + w -> ram b x = ram b' x) -> rd w b a = rd w b' a.
Proof.
  intros H. unfold rd. f_equal. apply list_fmap_ext. intros i x Hx. apply lookup_seqZ in Hx as [-> Hi]. apply H. lia.
Qed.

Lemma rd_range w b a : 0 <= w -> 0 <= rd w b a < 256 ^ w.
Proof.
  intros Hw. unfold rd. pose proof (le_num_range (ram b <$> seqZ a w)) as H.
  rewrite length_fmap, length_seqZ, Z2Nat.id in H by done. apply H.
  apply Forall_fmap, Forall_true. intros x. apply ram_u8.
Qed.

Lemma byte_at_le_bytes n v i : 0 <= i < Z.of_nat n -> byte_at (le_bytes n v) i = v / 256 ^ i mod 256.
Proof.
  revert v i. induction n as [|n IH]; intros v i Hi; [lia |]. unfold byte_at.
  destruct (Z.eq_dec i 0) as [->|Hne]; [by rewrite Z.pow_0_r, Z.div_1_r |].
  replace (Z.to_nat i) with (S (Z.to_nat (i - 1))) by lia.
  change (default 0 (le_bytes n (v / 256) !! Z.to_nat (i - 1)) = v / 256 ^ i mod 256).
  specialize (IH (v / 256) (i - 1) ltac:(lia)). unfold byte_at in IH. rewrite IH, Z.div_div by lia.
  rewrite <- (Z.pow_succ_r 256 (i - 1)) by lia. by replace (Z.succ (i - 1)) with i by lia.
Qed.

Lemma le_num_app l1 l2 : le_num (l1 ++ l2) = le_num l1 + 256 ^ Z.of_nat (length l1) * le_num l2.
Proof.
  induction l1 as [|x l1 IH]; cbn [app le_num length]; [by rewrite Z.pow_0_r; lia |].
  rewrite IH, Nat2Z.inj_succ, Z.pow_succ_r by lia. lia.
Qed.

(** ** Writes; [view] is what a write to memory leaves alone *)
Context {V : Type} (view : B -> V)
  (view_store : forall w a v b, ram_range a w -> view (mem_store w a v b) = view b).

Definition upd (b : B) (a : Z) (l : list Z) (b' : B) : Prop :=
  view b' = view b /\
  forall x, is_ram x ->
    ram b' x = if decide (a <= x < a + Z.of_nat (length l)) then byte_at l (x - a) else ram b x.

Lemma upd_nil b a : upd b a [] b.
Proof using Type. split; [done |]. intros x _. rewrite decide_False; [done | cbn; lia]. Qed.

Lemma upd_app b a l1 b1 l2 b2 :
  upd b a l1 b1 -> upd b1 (a + Z.of_nat (length l1)) l2 b2 -> upd b a (l1 ++ l2) b2.
Proof using Type.
  intros [Hv1 H1] [Hv2 H2]. split; [by rewrite Hv2 |]. intros x Hx.
  rewrite (H2 x Hx), (H1 x Hx), length_app. unfold byte_at. repeat case_decide; try lia; try done.
  - rewrite lookup_app_r by lia. do 2 f_equal. lia.
  - rewrite lookup_app_l by lia. done.
Qed.

Lemma upd_store w a v b : ram_range a (Z.of_nat w) -> upd b a (le_bytes w v) (mem_store (Z.of_nat w) a v b).
Proof using view_store.
  intros Hr. split; [by apply view_store |]. intros x Hx. rewrite length_le_bytes.
  rewrite store_ram by done. case_decide; [| done]. by rewrite byte_at_le_bytes by lia.
Qed.

(** What is read after a write: the bytes written, or what was there before. *)
Lemma upd_rd_in b a l b' w off : upd b a l b' -> ram_range a (Z.of_nat (length l)) ->
  0 <= off -> 0 <= w -> off + w <= Z.of_nat (length l) -> rd w b' (a + off) = le_num (slice off w l).
Proof using Type.
  intros [_ H] Hr H1 H2 H3. unfold rd. f_equal. apply list_eq_same_length with (n := Z.to_nat w).
  - unfold slice. rewrite length_take, length_drop. lia.
  - by rewrite length_fmap, length_seqZ.
  - intros i x y Hi Hx Hy. apply list_lookup_fmap_Some in Hx as (k & -> & [-> _]%lookup_seqZ).
    rewrite H by (apply Hr; lia). rewrite decide_True by lia. unfold slice in Hy.
    rewrite lookup_take_lt, lookup_drop in Hy by lia. unfold byte_at.
    replace (Z.to_nat (a + off + Z.of_nat i - a)) with (Z.to_nat off + i)%nat by lia. by rewrite Hy.
Qed.
Lemma upd_rd_out b a l b' w x : upd b a l b' -> ram_range x w ->
  x + w <= a \/ a + Z.of_nat (length l) <= x -> rd w b' x = rd w b x.
Proof using Type.
  intros [_ H] Hr Hd. apply rd_ext. intros y Hy. rewrite H by (apply Hr; lia). rewrite decide_False; [done | lia].
Qed.

(** A number, or bytes, read back. *)
Lemma upd_rd_le b a w v b' : upd b a (le_bytes w v) b' -> ram_range a (Z.of_nat w) ->
  rd (Z.of_nat w) b' a = v mod 256 ^ Z.of_nat w.
Proof using Type.
  intros U Hr. rewrite <- (Z.add_0_r a), (upd_rd_in _ _ _ _ (Z.of_nat w) 0 U); rewrite ?length_le_bytes; try done; try lia.
  rewrite <- le_num_bytes. f_equal. unfold slice. rewrite drop_0, Nat2Z.id. apply firstn_all2. by rewrite length_le_bytes.
Qed.
Lemma upd_bytes b a l b' : upd b a l b' -> ram_range a (Z.of_nat (length l)) ->
  ram b' <$> seqZ a (Z.of_nat (length l)) = l.
Proof using Type.
  intros [_ H] Hr. apply list_eq_same_length with (n := length l); [done | by rewrite length_fmap, length_seqZ, Nat2Z.id |].
  intros i x y Hi Hx Hy. apply list_lookup_fmap_Some in Hx as (k & -> & [-> _]%lookup_seqZ).
  rewrite H by (apply Hr; lia). rewrite decide_True by lia. unfold byte_at.
  replace (Z.to_nat (a + Z.of_nat i - a)) with i by lia. by rewrite Hy.
Qed.

(** ** What a driver's loads and stores do *)
Context {G : Type}.
Implicit Types s : driver G B.
(** A pointer of the direct map to [n] bytes of memory at [a]. *)
Record ptr_ok (p : phys) (v a n : Z) : Prop := {
  pt_eq : v = a + hhdm_offset p;
  pt_range : 0 <= a /\ a + n <= 2 ^ 64;
  pt_ram : ram_range a n;
}.
Lemma ptr_virt p v a n i : ptr_ok p v a n -> 0 <= i < n -> virt_to_phys (v + i) p = a + i.
Proof. intros [-> Hr _] Hi. unfold virt_to_phys. rewrite u64_id; unfold is_u64; lia. Qed.
Lemma ptr_sub p v a n off n' : ptr_ok p v a n -> 0 <= off -> 0 <= n' -> off + n' <= n -> ptr_ok p (v + off) (a + off) n'.
Proof.
  intros [-> Hr Hm] H1 H2 H3. split; [lia | lia |]. eapply ram_range_sub; [exact Hm | lia | lia].
Qed.

(** ** Loads and stores *)
Definition with_bus (b : B) (s : driver G B) : driver G B := Drv (own s) (mem s) b.
(** [m] writes the bytes [l] at [a]. *)
Definition writes (m : st (driver G B) ()) (s : driver G B) (a : Z) (l : list Z) : Prop :=
  exists b, m s = Ret ((), with_bus b s) /\ upd (bus s) a l b.

Lemma writes_bind m (f : () -> st (driver G B) ()) s a l1 l2 :
  writes m s a l1 ->
  (forall b, upd (bus s) a l1 b -> writes (f ()) (with_bus b s) (a + Z.of_nat (length l1)) l2) ->
  writes (m ≫= f) s a (l1 ++ l2).
Proof.
  intros (b1 & E1 & H1) Hf. destruct (Hf b1 H1) as (b2 & E2 & H2). exists b2.
  rewrite (st_bind_ret _ _ _ _ _ E1), E2. split; [done |]. by eapply upd_app.
Qed.

Lemma store_writes s w v x a : (0 < w)%nat -> ptr_ok (mem s) v a (Z.of_nat w) ->
  writes (store (Z.of_nat w) v x) s a (le_bytes w x).
Proof using view_store.
  intros Hw Hp. pose proof (ptr_virt _ _ _ _ 0 Hp ltac:(lia)) as E. rewrite !Z.add_0_r in E.
  unfold writes, store. rewrite E. eexists. split; [reflexivity |]. apply upd_store, Hp.
Qed.

Lemma store_bytes_writes l : forall s v a, ptr_ok (mem s) v a (Z.of_nat (length l)) -> Forall is_u8 l ->
  writes (store_bytes v l) s a l.
Proof using view_store.
  induction l as [|x l IH]; intros s v a Hp Hl.
  - exists (bus s). split; [by destruct s | apply upd_nil].
  - apply Forall_cons in Hl as [Hx Hl]. cbn [length] in Hp. cbn [store_bytes].
    assert (le_bytes 1 x = [x]) as E1 by (cbn; f_equal; unfold is_u8 in Hx; lia).
    change (x :: l) with ([x] ++ l). rewrite <- E1.
    apply writes_bind.
    + apply (store_writes s 1); [lia |]. rewrite <- (Z.add_0_r v), <- (Z.add_0_r a). eapply ptr_sub; [exact Hp | lia..].
    + intros b Hb. apply IH; [| done]. cbn. eapply ptr_sub; [exact Hp | lia..].
Qed.

Lemma load_rd s w v a : 0 < w -> ptr_ok (mem s) v a w -> load w v s = Ret (rd w (bus s) a, s).
Proof.
  intros Hw Hp. pose proof (ptr_virt _ _ _ _ 0 Hp ltac:(lia)) as E. rewrite !Z.add_0_r in E.
  unfold load. rewrite E, load_ram by apply Hp. by destruct s.
Qed.

Lemma rd_1 b a : rd 1 b a = ram b a.
Proof. unfold rd. change (seqZ a 1) with [0 + a]. cbn [fmap list_fmap le_num]. rewrite Z.add_0_l. lia. Qed.

Lemma load_bytes_rd n : forall s v a, ptr_ok (mem s) v a (Z.of_nat n) ->
  load_bytes n v s = Ret (ram (bus s) <$> seqZ a (Z.of_nat n), s).
Proof.
  induction n as [|n IH]; intros s v a Hp; [done |].
  assert (ptr_ok (mem s) v a 1) as H1.
  { rewrite <- (Z.add_0_r v), <- (Z.add_0_r a). eapply ptr_sub; [exact Hp | lia..]. }
  assert (ptr_ok (mem s) (v + 1) (a + 1) (Z.of_nat n)) as H2 by (eapply ptr_sub; [exact Hp | lia..]).
  cbn [load_bytes]. rewrite (st_bind_ret _ _ _ _ _ (load_rd s 1 v a ltac:(lia) H1)).
  rewrite (st_bind_ret _ _ _ _ _ (IH s _ _ H2)), rd_1.
  rewrite (seqZ_cons a) by lia. by replace (Z.pred (Z.of_nat (S n))) with (Z.of_nat n) by lia.
Qed.

End Mem.

Section Alloc.
Context {G B : Type} `{!Bus B}.
(** ** Memory from [phys_alloc] *)
Definition mem_region_ok (p : phys) : Prop :=
  region_ok p /\ phys_alloc_base p < phys_alloc_end p <= 2 ^ 44 /\ 0 < hhdm_offset p /\
  phys_alloc_end p + 8192 + hhdm_offset p <= 2 ^ 64 /\
  forall x, phys_alloc_next p <= x < phys_alloc_end p -> is_ram x.

Lemma alloc_spec (s : driver G B) size align : mem_region_ok (mem s) -> 0 < size <= 4096 -> pow2 align -> align <= 4096 ->
  phys_alloc_next (mem s) + align + size <= phys_alloc_end (mem s) ->
  exists p m', alloc_phys size align s = Ret (Some (p + hhdm_offset (mem s), p), Drv (own s) m' (bus s)) /\
    mem_region_ok m' /\ phys_alloc_end m' = phys_alloc_end (mem s) /\ hhdm_offset m' = hhdm_offset (mem s) /\
    phys_alloc_next (mem s) <= p < phys_alloc_next (mem s) + align /\ p mod align = 0 /\
    phys_alloc_next m' = p + size.
Proof.
  intros (Hr & He & Hh & Hm & Hram) Hs Ha Ha4 Hfit.
  assert (align_of align = align) as Eal.
  { unfold align_of. rewrite (proj2 (Z.eqb_neq _ _)); [done |]. destruct Ha as (k & Hk & ->). pose proof (Z.pow_pos_nonneg 2 k). lia. }
  assert (request_ok (mem s) (size, align)) as Hq by (unfold request_ok; cbn [fst snd]; rewrite Eal; split_and!; [lia | done | lia]).
  destruct (phys_alloc_spec size align (mem s) Hr Hq) as (p & Hp & Hmod & E). rewrite Eal in Hp, Hmod.
  rewrite decide_True in E by lia. exists p. eexists. unfold alloc_phys. rewrite E.
  assert (phys_to_virt p (mem s) = p + hhdm_offset (mem s)) as ->.
  { unfold phys_to_virt. apply u64_id. destruct Hr. unfold is_u64. lia. }
  split; [reflexivity |]. unfold mem_region_ok, region_ok in *. cbn.
  split_and!; try lia; try done. intros x Hx. apply Hram. lia.
Qed.

(** A block of it as memory behind a pointer. *)
Lemma alloc_ptr (m m' : phys) p size : mem_region_ok m -> phys_alloc_next m <= p -> p + size <= phys_alloc_end m ->
  hhdm_offset m' = hhdm_offset m -> 0 <= size -> ptr_ok m' (p + hhdm_offset m) p size.
Proof.
  intros ([[Hb Hb'] _] & He & Hh & Hm & Hram) H1 H2 E Hs. split; [by rewrite E | lia |].
  intros x Hx. apply Hram. lia.
Qed.

End Alloc.
