(* ===== verification/VirtioBlk.v ===== *)
(** * The virtio block device driver ([src/src/drivers/virtio_blk.c])

    The request queue of three descriptors, its rings and buffers live in memory the
    device reads and writes too; they are reached through [Bus].  Pointers are virtual
    addresses in the direct map of [kernel/memory.c].  The loop that waits for the device
    has a budget.  The caller's buffer is a list of bytes: read by a write, and the result
    of a read (what the code has put into it when it returns). *)
From S2P Require Import Prelude Interfaces Phys DevMem Pci.

Definition VIRTIO_VENDOR_ID : Z := 0x1AF4.
Definition VIRTIO_BLK_DEVICE_ID : Z := 0x1001.
Definition VIRTIO_PCI_QUEUE_ADDRESS : Z := 0x08.
Definition VIRTIO_PCI_QUEUE_SIZE : Z := 0x0C.
Definition VIRTIO_PCI_QUEUE_SELECT : Z := 0x0E.
Definition VIRTIO_PCI_QUEUE_NOTIFY : Z := 0x10.
Definition VIRTIO_PCI_STATUS : Z := 0x12.
Definition VIRTIO_PCI_ISR : Z := 0x13.
Definition VIRTIO_PCI_CONFIG : Z := 0x14.
Definition VIRTIO_STATUS_ACK : Z := 0x01.
Definition VIRTIO_STATUS_DRIVER : Z := 0x02.
Definition VIRTIO_STATUS_DRIVER_OK : Z := 0x04.
Definition VIRTIO_BLK_T_IN : Z := 0.
Definition VIRTIO_BLK_T_OUT : Z := 1.
Definition VIRTQ_DESC_F_NEXT : Z := 1.
Definition VIRTQ_DESC_F_WRITE : Z := 2.

(** [virtio_blk_t]; a pointer is an address, [NULL] is 0. *)
Record virtio_blk := VirtioBlk {
  io_base : Z; queue_size : Z;
  desc : Z; avail : Z; used : Z; queue_phys : Z; last_used : Z;
  req : Z; req_phys : Z; status : Z; status_phys : Z; bounce : Z; bounce_phys : Z;
  capacity : Z; ready : bool;
}.
Definition g_blk0 : virtio_blk := VirtioBlk 0 0 0 0 0 0 0 0 0 0 0 0 0 0 false.

(** Sizes and offsets of the queue's parts ([desc_sz] .. [total] of [virtio_blk_init]). *)
Definition desc_sz (qsz : Z) : Z := 16 * qsz.
Definition avail_sz (qsz : Z) : Z := 4 + 2 * qsz.
Definition used_sz (qsz : Z) : Z := 4 + 8 * qsz.
(** [~1u] and [~3u] are 32-bit. *)
Definition avail_off (qsz : Z) : Z := Z.land (desc_sz qsz + 1) (2 ^ 32 - 2).
Definition used_off (qsz : Z) : Z := Z.land (avail_off qsz + avail_sz qsz + 3) (2 ^ 32 - 4).
Definition queue_total (qsz : Z) : Z := used_off qsz + used_sz qsz.

(** Fields by their offset in the packed structs. *)
Definition desc_field (d : Z) (i off : Z) : Z := d + 16 * i + off.
Definition avail_idx (a : Z) : Z := a + 2.
Definition avail_ring (a i : Z) : Z := a + 4 + 2 * i.
Definition used_idx (u : Z) : Z := u + 2.

(** The driver's state: [g_blk], the state of [memory.c], and the machine. *)
Abbreviation drv := (driver virtio_blk).
Abbreviation blk := own.

Section Code.
Context {B : Type} `{!Bus B}.
Definition M (A : Type) : Type := st (drv B) A.

Definition set_blk (g : virtio_blk) : M () := st_modify (fun s => Drv g (mem s) (bus s)).
Definition virtio_blk_read_capacity (base : Z) : M Z :=
  lo ← io_read32 base (VIRTIO_PCI_CONFIG + 0);
  hi ← io_read32 base (VIRTIO_PCI_CONFIG + 4);
  mret (Z.lor (Z.shiftl hi 32) lo).

(** *** A request *)
Definition set_desc (d i addr len flags next : Z) : M () :=
  _ ← store 8 (desc_field d i 0) addr; _ ← store 4 (desc_field d i 8) len;
  _ ← store 2 (desc_field d i 12) flags; store 2 (desc_field d i 14) next.

(** Request, status byte and descriptors. *)
Definition build_request (g : virtio_blk) (write : bool) (lba bytes : Z) : M () :=
  _ ← store 4 (req g) (if write then VIRTIO_BLK_T_OUT else VIRTIO_BLK_T_IN);
  _ ← store 4 (req g + 4) 0;
  _ ← store 8 (req g + 8) lba;
  _ ← store 1 (status g) 0xFF;
  _ ← set_desc (desc g) 0 (req_phys g) 16 VIRTQ_DESC_F_NEXT 1;
  _ ← set_desc (desc g) 1 (bounce_phys g) bytes
        (Z.lor VIRTQ_DESC_F_NEXT (if write then 0 else VIRTQ_DESC_F_WRITE)) 2;
  set_desc (desc g) 2 (status_phys g) 1 VIRTQ_DESC_F_WRITE 0.

Fixpoint wait_used (fuel : nat) (g : virtio_blk) : M () :=
  u ← load 2 (used_idx (used g));
  if negb (u =? last_used g) then mret () else
  match fuel with
  | O => st_spin
  | S fuel => _ ← io_read8 (io_base g) VIRTIO_PCI_ISR; wait_used fuel g
  end.

Definition set_last_used (u : Z) (g : virtio_blk) : virtio_blk :=
  VirtioBlk (io_base g) (queue_size g) (desc g) (avail g) (used g) (queue_phys g) u (req g) (req_phys g)
    (status g) (status_phys g) (bounce g) (bounce_phys g) (capacity g) (ready g).

(** The data of a write and the entry of the available ring. *)
Definition publish (g : virtio_blk) (write : bool) (bytes : Z) (buffer : list Z) : M () :=
  _ ← (if write then
         if Z.of_nat (length buffer) <? bytes then st_lift Fault
         else store_bytes (bounce g) (take (Z.to_nat bytes) buffer)
       else mret ());
  idx ← load 2 (avail_idx (avail g));
  if queue_size g =? 0 then st_lift Fault else
  _ ← store 2 (avail_ring (avail g) (idx mod queue_size g)) 0;
  store 2 (avail_idx (avail g)) (u16 (idx + 1)).

(** After the device has answered. *)
Definition finish (g : virtio_blk) (write : bool) (bytes : Z) : M (bool * list Z) :=
  u ← load 2 (used_idx (used g));
  _ ← set_blk (set_last_used u g);
  st ← load 1 (status g);
  if negb (st =? 0) then mret (false, []) else
  if write then mret (true, []) else
  data ← load_bytes (Z.to_nat bytes) (bounce g);
  mret (true, data).

Definition virtio_blk_submit (fuel : nat) (write : bool) (lba count : Z) (buffer : list Z) : M (bool * list Z) :=
  s ← st_get; let g := blk s in
  if negb (ready g) then mret (false, []) else
  if count =? 0 then mret (false, []) else
  let bytes := u32 (count * 512) in
  if 4096 <? bytes then mret (false, []) else
  _ ← build_request g write lba bytes;
  _ ← publish g write bytes buffer;
  _ ← io_write16 (io_base g) VIRTIO_PCI_QUEUE_NOTIFY 0;
  _ ← wait_used fuel g;
  finish g write bytes.

(** *** Set-up *)
(** From the allocation of the queue on. *)
Definition setup_queue (base qsz : Z) : M bool :=
  let at_ (r : option (Z * Z)) := default (0, 0) r in
  q ← alloc_phys (queue_total qsz) 4096;
  let v := (at_ q).1 in let p := (at_ q).2 in
  if v =? 0 then mret false else
  _ ← store_bytes v (repeat 0 (Z.to_nat (queue_total qsz)));
  let a := u64 (v + avail_off qsz) in let u := u64 (v + used_off qsz) in
  _ ← set_blk (VirtioBlk base qsz v a u p 0 0 0 0 0 0 0 0 false);
  _ ← io_write32 base VIRTIO_PCI_QUEUE_ADDRESS (u32 (p / 4096));
  r1 ← alloc_phys 16 16; r2 ← alloc_phys 1 1; r3 ← alloc_phys 4096 16;
  _ ← set_blk (VirtioBlk base qsz v a u p 0 (at_ r1).1 (at_ r1).2 (at_ r2).1 (at_ r2).2 (at_ r3).1 (at_ r3).2 0 false);
  if ((at_ r1).1 =? 0) || ((at_ r2).1 =? 0) || ((at_ r3).1 =? 0) then mret false else
  c ← virtio_blk_read_capacity base;
  s ← io_read8 base VIRTIO_PCI_STATUS;
  _ ← io_write8 base VIRTIO_PCI_STATUS (Z.lor s VIRTIO_STATUS_DRIVER_OK);
  _ ← set_blk (VirtioBlk base qsz v a u p 0 (at_ r1).1 (at_ r1).2 (at_ r2).1 (at_ r2).2 (at_ r3).1 (at_ r3).2 c true);
  mret true.

Definition virtio_blk_init : M bool :=
  _ ← set_blk g_blk0;
  dev ← on_bus (pci_find_device VIRTIO_VENDOR_ID VIRTIO_BLK_DEVICE_ID);
  match dev with
  | None => mret false
  | Some dev =>
      _ ← on_bus (pci_enable_bus_master dev);
      '(bar0, m) ← st_lift (pci_get_bar dev 0);
      if default false m || (bar0 =? 0) then mret false else
      let base := u16 bar0 in
      _ ← set_blk (VirtioBlk base 0 0 0 0 0 0 0 0 0 0 0 0 0 false);
      _ ← io_write8 base VIRTIO_PCI_STATUS 0;
      _ ← io_write8 base VIRTIO_PCI_STATUS (Z.lor VIRTIO_STATUS_ACK VIRTIO_STATUS_DRIVER);
      _ ← io_write16 base VIRTIO_PCI_QUEUE_SELECT 0;
      qsz ← io_read16 base VIRTIO_PCI_QUEUE_SIZE;
      if qsz =? 0 then mret false else
      let qsz := if 8 <? qsz then 8 else qsz in
      _ ← set_blk (VirtioBlk base qsz 0 0 0 0 0 0 0 0 0 0 0 0 false);
      setup_queue base qsz
  end.

Definition virtio_blk_is_ready : M bool := s ← st_get; mret (ready (blk s)).
Definition virtio_blk_capacity : M Z := s ← st_get; mret (capacity (blk s)).

(** *** Reading and writing: the [while (count)] loops, one iteration per chunk *)
Fixpoint read_loop (fuel tries : nat) (lba count : Z) (out : list Z) : M (bool * list Z) :=
  if count =? 0 then mret (true, out) else
  match tries with
  | O => st_spin
  | S tries =>
      let chunk := if 8 <? count then 8 else count in
      '(ok, data) ← virtio_blk_submit fuel false lba chunk [];
      if negb ok then mret (false, out)
      else read_loop fuel tries (u64 (lba + chunk)) (count - chunk) (out ++ data)
  end.
Fixpoint write_loop (fuel tries : nat) (lba count : Z) (inb : list Z) : M bool :=
  if count =? 0 then mret true else
  match tries with
  | O => st_spin
  | S tries =>
      let chunk := if 8 <? count then 8 else count in
      '(ok, _) ← virtio_blk_submit fuel true lba chunk inb;
      if negb ok then mret false
      else write_loop fuel tries (u64 (lba + chunk)) (count - chunk) (drop (Z.to_nat (chunk * 512)) inb)
  end.
Definition virtio_blk_read (fuel : nat) (lba count : Z) : M (bool * list Z) :=
  read_loop fuel (Z.to_nat count) lba count [].
Definition virtio_blk_write (fuel : nat) (lba count : Z) (buffer : list Z) : M bool :=
  write_loop fuel (Z.to_nat count) lba count buffer.
End Code.
