(* ===== verification/VirtioProps.v ===== *)
(** * The virtio driver implements a disk

    [blk_ready] is the state after a successful [virtio_blk_init]: the queue, the request,
    the status byte and the bounce buffer are apart in memory, where the device expects
    them, and both sides agree on the indices.  A device of three to eight entries
    ([blk_wf]) takes the requests the driver builds; it answers where the driver looks if
    its used ring is right behind the available ring ([blk_ok], which every request
    keeps).  On a device that aligns the used ring as the legacy interface documents,
    requests wait for ever. *)
From S2P Require Import Prelude Interfaces Phys DevMem Pci VirtioBlk.

(** ** Memory shared with a device: what stores leave in it, and the virtio device

    [rd] reads a number out of memory, [upd] is the effect of writing a list of bytes;
    the driver's stores and copies are such writes.  The class [VirtioDisk] states what
    the driver relies on of the device. *)
(** ** The device

    [vd_queue] is the address the driver has given for the queue, as a page number,
    [vd_seen] the number of requests taken, [vd_disk] the contents by sector. *)
Record vdisk := VDisk { vd_queue : Z; vd_status : Z; vd_seen : Z; vd_cap : Z; vd_disk : Z -> list Z }.
(** A request: read or write of [r_n] sectors from [r_lba]; where its parts are. *)
Record vrequest := VRequest { r_write : bool; r_lba : Z; r_n : Z; r_req : Z; r_data : Z; r_status : Z }.

(** A request in a queue of [num] entries, descriptors followed by the available ring; the
    first [t] bytes of the queue are memory apart from the request's parts. *)
Record pending {B} `{!Bus B} (num t : Z) (v : vdisk) (b : B) (r : vrequest) : Prop := {
  p_ok : Z.testbit (vd_status v) 2 = true;
  p_n : 0 < r_n r <= 8 /\ 0 <= r_lba r;
  p_idx : rd 2 b (vd_queue v * 4096 + 16 * num + 2) = u16 (vd_seen v + 1);
  p_ring : rd 2 b (vd_queue v * 4096 + 16 * num + 4 + 2 * (vd_seen v mod num)) = 0;
  p_desc0 : rd 8 b (vd_queue v * 4096) = r_req r /\ rd 4 b (vd_queue v * 4096 + 8) = 16 /\
            rd 2 b (vd_queue v * 4096 + 12) = VIRTQ_DESC_F_NEXT /\ rd 2 b (vd_queue v * 4096 + 14) = 1;
  p_desc1 : rd 8 b (vd_queue v * 4096 + 16) = r_data r /\ rd 4 b (vd_queue v * 4096 + 24) = 512 * r_n r /\
            rd 2 b (vd_queue v * 4096 + 28) =
              (if r_write r then VIRTQ_DESC_F_NEXT else Z.lor VIRTQ_DESC_F_NEXT VIRTQ_DESC_F_WRITE) /\
            rd 2 b (vd_queue v * 4096 + 30) = 2;
  p_desc2 : rd 8 b (vd_queue v * 4096 + 32) = r_status r /\ rd 4 b (vd_queue v * 4096 + 40) = 1 /\
            rd 2 b (vd_queue v * 4096 + 44) = VIRTQ_DESC_F_WRITE;
  p_type : rd 4 b (r_req r) = (if r_write r then VIRTIO_BLK_T_OUT else VIRTIO_BLK_T_IN);
  p_lba : rd 8 b (r_req r + 8) = r_lba r;
  p_ram : ram_range (vd_queue v * 4096) t /\ ram_range (r_req r) 16 /\
          ram_range (r_data r) (512 * r_n r) /\ ram_range (r_status r) 1;
  p_apart : disjoint (vd_queue v * 4096) t (r_data r) (512 * r_n r) /\
            disjoint (vd_queue v * 4096) t (r_status r) 1 /\
            disjoint (r_data r) (512 * r_n r) (r_status r) 1 /\
            disjoint (r_req r) 16 (r_data r) (512 * r_n r) /\ disjoint (r_req r) 16 (r_status r) 1;
}.

(** The effect of a request, with the used ring at an offset [u] of the device's choosing:
    one more used entry, the status, the data; no other byte of memory, and no other
    sector, changes. *)
Record served {B} `{!Bus B} (num u : Z) (v : vdisk) (b : B) (r : vrequest) (v' : vdisk) (b' : B) : Prop := {
  s_used : rd 2 b' (vd_queue v * 4096 + u + 2) = u16 (rd 2 b (vd_queue v * 4096 + u + 2) + 1);
  s_status : ram b' (r_status r) = if r_lba r + r_n r <=? vd_cap v then 0 else 1;
  s_data : r_write r = false -> r_lba r + r_n r <= vd_cap v ->
    forall j, 0 <= j < r_n r -> ram b' <$> seqZ (r_data r + 512 * j) 512 = vd_disk v (r_lba r + j);
  s_ram : forall x, is_ram x ->
    ~ (vd_queue v * 4096 + u <= x < vd_queue v * 4096 + u + used_sz num) -> x <> r_status r ->
    (r_write r = true \/ ~ (r_data r <= x < r_data r + 512 * r_n r)) -> ram b' x = ram b x;
  s_dev : vd_queue v' = vd_queue v /\ vd_status v' = vd_status v /\ vd_seen v' = u16 (vd_seen v + 1) /\ vd_cap v' = vd_cap v;
  s_disk : forall i, vd_disk v' i =
    if decide (r_write r = true /\ r_lba r + r_n r <= vd_cap v /\ r_lba r <= i < r_lba r + r_n r)
    then ram b <$> seqZ (r_data r + 512 * (i - r_lba r)) 512 else vd_disk v i;
}.

Class VirtioDisk (B : Type) `{!Bus B} := {
  vd_io : Z;
  vd_num : Z;
  vd_used_off : Z;
  vd_latency : nat;
  vdev : B -> vdisk;
  vd_isr (b : B) : B := (port_in 1 (u16 (vd_io + VIRTIO_PCI_ISR)) b).2;
  vd_num_range : 0 < vd_num < 2 ^ 16;
  vd_used_range : 18 * vd_num + 4 <= vd_used_off;
  vd_sector b i : length (vd_disk (vdev b) i) = 512%nat /\ Forall is_u8 (vd_disk (vdev b) i);
  vd_store w a v b : ram_range a w -> vdev (mem_store w a v b) = vdev b;
  (** A request that is published and notified is served after some time, during which
      the index of the used ring does not change. *)
  vd_serve b r : pending vd_num (vd_used_off + used_sz vd_num) (vdev b) b r ->
    let at_ i := Nat.iter i vd_isr (port_out 2 (u16 (vd_io + VIRTIO_PCI_QUEUE_NOTIFY)) 0 b) in
    let used := vd_queue (vdev b) * 4096 + vd_used_off + 2 in
    exists k, (k <= vd_latency)%nat /\
      (forall i, (i < k)%nat -> rd 2 (at_ i) used = rd 2 b used) /\
      served vd_num vd_used_off (vdev b) b r (vdev (at_ k)) (at_ k);
  (** Wherever its used ring is, the device writes only there and to the buffers the
      request offers it for writing. *)
  vd_writes b r t i x : pending vd_num t (vdev b) b r -> 18 * vd_num + 4 <= t -> is_ram x ->
    let used := vd_queue (vdev b) * 4096 + vd_used_off in
    ~ (used <= x < used + used_sz vd_num) -> x <> r_status r ->
    (r_write r = true \/ ~ (r_data r <= x < r_data r + 512 * r_n r)) ->
    ram (Nat.iter i vd_isr (port_out 2 (u16 (vd_io + VIRTIO_PCI_QUEUE_NOTIFY)) 0 b)) x = ram b x;
}.

(** Where the legacy interface puts the used ring of a queue: behind the descriptors and
    the available ring with its event word, at the next multiple of 4096. *)
Definition legacy_used_off (num : Z) : Z := (16 * num + 2 * (3 + num) + 4095) / 4096 * 4096.

Section Driver.
Context {B : Type} `{!Bus B, !VirtioDisk B}.
Implicit Types s : drv B.

#[local] Abbreviation upd := (upd (vdev (B := B))).
#[local] Abbreviation writes := (writes (vdev (B := B))).
#[local] Abbreviation store_writes := (store_writes (vdev (B := B)) vd_store).
#[local] Abbreviation store_bytes_writes := (store_bytes_writes (vdev (B := B)) vd_store).

(** ** The state of the driver, with a queue of [n] entries *)
Record blk_ready {n : Z} (s : drv B) : Prop := {
  b_ready : ready (blk s) = true;
  b_io : io_base (blk s) = vd_io;
  b_size : queue_size (blk s) = n;
  b_desc : ptr_ok (mem s) (desc (blk s)) (vd_queue (vdev (bus s)) * 4096) (queue_total n);
  b_avail : avail (blk s) = desc (blk s) + avail_off n;
  b_used : used (blk s) = desc (blk s) + used_off n;
  b_req : ptr_ok (mem s) (req (blk s)) (req_phys (blk s)) 16;
  b_status : ptr_ok (mem s) (status (blk s)) (status_phys (blk s)) 1;
  b_bounce : ptr_ok (mem s) (bounce (blk s)) (bounce_phys (blk s)) 4096;
  b_apart :
    let q := vd_queue (vdev (bus s)) * 4096 in let t := queue_total n in
    disjoint q t (req_phys (blk s)) 16 /\ disjoint q t (status_phys (blk s)) 1 /\
    disjoint q t (bounce_phys (blk s)) 4096 /\
    disjoint (req_phys (blk s)) 16 (status_phys (blk s)) 1 /\
    disjoint (req_phys (blk s)) 16 (bounce_phys (blk s)) 4096 /\
    disjoint (status_phys (blk s)) 1 (bounce_phys (blk s)) 4096;
  b_last : rd 2 (bus s) (vd_queue (vdev (bus s)) * 4096 + used_off n + 2) = last_used (blk s);
  b_seen : rd 2 (bus s) (vd_queue (vdev (bus s)) * 4096 + avail_off n + 2) = vd_seen (vdev (bus s));
  b_up : Z.testbit (vd_status (vdev (bus s))) 2 = true;
  b_cap : capacity (blk s) = vd_cap (vdev (bus s)) /\ is_u64 (capacity (blk s));
}.
(** The device has as many entries as the driver uses, and enough for a request. *)
Record blk_wf (s : drv B) : Prop := {
  b_base :> blk_ready (n := vd_num) s;
  b_range : 3 <= vd_num <= 8;
}.
(** The device keeps the used ring where the driver looks for it. *)
Record blk_ok (s : drv B) : Prop := {
  b_wf :> blk_wf s;
  b_off : vd_used_off = used_off vd_num;
}.
Lemma b_num s : blk_wf s -> queue_size (blk s) = vd_num /\ 3 <= vd_num <= 8.
Proof. intros Hs. split; [exact (b_size s Hs) | exact (b_range s Hs)]. Qed.

(** The offsets, for the sizes the driver uses. *)
Lemma offsets n : 0 < n <= 8 ->
  avail_off n = 16 * n /\ 16 * n + 4 + 2 * n <= used_off n /\ queue_total n = used_off n + 4 + 8 * n /\
  queue_total n < 4096.
Proof.
  intros Hn. assert (Forall (fun n => avail_off n = 16 * n /\ 16 * n + 4 + 2 * n <= used_off n /\
    queue_total n = used_off n + 4 + 8 * n /\ queue_total n < 4096) (seqZ 1 8)) as H.
  { repeat (apply Forall_cons; split; [vm_compute; done |]). done. }
  rewrite Forall_forall in H. apply H, elem_of_seqZ. lia.
Qed.

(** ** Building the request *)
Definition desc_bytes (addr len flags next : Z) : list Z :=
  le_bytes 8 addr ++ le_bytes 4 len ++ le_bytes 2 flags ++ le_bytes 2 next.

Lemma set_desc_writes s d a i addr len flags next : 0 <= i -> ptr_ok (mem s) (d + 16 * i) a 16 ->
  writes (set_desc d i addr len flags next) s a (desc_bytes addr len flags next).
Proof.
  intros Hi Hp. unfold set_desc, desc_bytes, desc_field.
  assert (forall off n, 0 <= off -> 0 <= n -> off + n <= 16 -> ptr_ok (mem s) (d + 16 * i + off) (a + off) n) as Hs.
  { intros off n H1 H2 H3. by eapply ptr_sub. }
  apply writes_bind; [apply (store_writes s 8); [lia |]; specialize (Hs 0 8); rewrite !Z.add_0_r in *; by apply Hs |].
  intros b1 _. rewrite length_le_bytes.
  apply writes_bind; [apply (store_writes _ 4); [lia |]; by apply (Hs 8 4) |].
  intros b2 _. rewrite length_le_bytes. rewrite <- (Z.add_assoc a).
  apply writes_bind; [apply (store_writes _ 2); [lia |]; by apply (Hs 12 2) |].
  intros b3 _. rewrite length_le_bytes. rewrite <- (Z.add_assoc a). apply (store_writes _ 2); [lia |]. by apply (Hs 14 2).
Qed.

Definition req_bytes (write : bool) (lba : Z) : list Z :=
  le_bytes 4 (if write then VIRTIO_BLK_T_OUT else VIRTIO_BLK_T_IN) ++ le_bytes 4 0 ++ le_bytes 8 lba.
Definition table_bytes (g : virtio_blk) (write : bool) (bytes : Z) : list Z :=
  desc_bytes (req_phys g) 16 VIRTQ_DESC_F_NEXT 1 ++
  desc_bytes (bounce_phys g) bytes (Z.lor VIRTQ_DESC_F_NEXT (if write then 0 else VIRTQ_DESC_F_WRITE)) 2 ++
  desc_bytes (status_phys g) 1 VIRTQ_DESC_F_WRITE 0.

Lemma build_request_spec s write lba bytes : blk_wf s ->
  exists b1 b2 b3, build_request (blk s) write lba bytes s = Ret ((), with_bus b3 s) /\
    upd (bus s) (req_phys (blk s)) (req_bytes write lba) b1 /\
    upd b1 (status_phys (blk s)) [0xFF] b2 /\
    upd b2 (vd_queue (vdev (bus s)) * 4096) (table_bytes (blk s) write bytes) b3.
Proof.
  intros Hs. pose proof (b_req s Hs) as Hr. pose proof (b_status s Hs) as Hst. pose proof (b_desc s Hs) as Hd.
  pose proof vd_num_range as Hnum. destruct (b_num s Hs) as [_ Hn8]. destruct (offsets vd_num) as (Ha & Hu & Ht & _); [lia |].
  assert (forall off n, 0 <= off -> 0 <= n -> off + n <= 16 ->
    ptr_ok (mem s) (req (blk s) + off) (req_phys (blk s) + off) n) as Hr'.
  { intros off n H1 H2 H3. by eapply ptr_sub. }
  pose proof (Hr' 0 4 ltac:(lia) ltac:(lia) ltac:(lia)) as Hr0. rewrite !Z.add_0_r in Hr0.
  destruct (store_writes s 4 _ (if write then VIRTIO_BLK_T_OUT else VIRTIO_BLK_T_IN) _ ltac:(lia) Hr0) as (b1 & E1 & U1).
  destruct (store_writes (with_bus b1 s) 4 _ 0 _ ltac:(lia) (Hr' 4 4 ltac:(lia) ltac:(lia) ltac:(lia))) as (b2 & E2 & U2).
  destruct (store_writes (with_bus b2 s) 8 _ lba _ ltac:(lia) (Hr' 8 8 ltac:(lia) ltac:(lia) ltac:(lia))) as (b3 & E3 & U3).
  destruct (store_writes (with_bus b3 s) 1 _ 0xFF _ ltac:(lia) Hst) as (b4 & E4 & U4).
  set (q := vd_queue (vdev (bus s)) * 4096) in *. set (g := blk s) in *.
  assert (forall i, 0 <= i < 3 -> ptr_ok (mem s) (desc g + 16 * i) (q + 16 * i) 16) as Hd'.
  { intros i Hi. eapply ptr_sub; [exact Hd | lia..]. }
  destruct (set_desc_writes (with_bus b4 s) (desc g) _ 0 (req_phys g) 16 VIRTQ_DESC_F_NEXT 1
    ltac:(lia) (Hd' 0 ltac:(lia))) as (b5 & E5 & U5).
  destruct (set_desc_writes (with_bus b5 s) (desc g) _ 1 (bounce_phys g) bytes
    (Z.lor VIRTQ_DESC_F_NEXT (if write then 0 else VIRTQ_DESC_F_WRITE)) 2 ltac:(lia) (Hd' 1 ltac:(lia))) as (b6 & E6 & U6).
  destruct (set_desc_writes (with_bus b6 s) (desc g) _ 2 (status_phys g) 1 VIRTQ_DESC_F_WRITE 0
    ltac:(lia) (Hd' 2 ltac:(lia))) as (b7 & E7 & U7).
  exists b3, b4, b7. split; [| split; [| split; [exact U4 |]]].
  - unfold build_request. rewrite (st_bind_ret _ _ _ _ _ E1), (st_bind_ret _ _ _ _ _ E2), (st_bind_ret _ _ _ _ _ E3),
      (st_bind_ret _ _ _ _ _ E4), (st_bind_ret _ _ _ _ _ E5), (st_bind_ret _ _ _ _ _ E6). exact E7.
  - unfold req_bytes. eapply upd_app; [exact U1 |]. eapply upd_app; [exact U2 |].
    rewrite !length_le_bytes, <- Z.add_assoc. exact U3.
  - unfold table_bytes. rewrite Z.mul_0_r, Z.add_0_r in U5. eapply upd_app; [exact U5 |]. eapply upd_app; [exact U6 |].
    replace (q + Z.of_nat _ + Z.of_nat _) with (q + 16 * 2) by (cbn; lia). exact U7.
Qed.

(** ** Publishing it *)
Definition write_data (write : bool) (bytes : Z) (buffer : list Z) : list Z :=
  if write then take (Z.to_nat bytes) buffer else [].

(** The writes to memory of a request, in their order; the bus before and after each. *)
Record written s (write : bool) (lba n : Z) (buffer : list Z) (b1 b2 b3 b4 b5 b6 : B) : Prop := {
  w_req : upd (bus s) (req_phys (blk s)) (req_bytes write lba) b1;
  w_status : upd b1 (status_phys (blk s)) [0xFF] b2;
  w_table : upd b2 (vd_queue (vdev (bus s)) * 4096) (table_bytes (blk s) write (512 * n)) b3;
  w_data : upd b3 (bounce_phys (blk s)) (write_data write (512 * n) buffer) b4;
  w_ring : upd b4 (vd_queue (vdev (bus s)) * 4096 + 16 * vd_num + 4 + 2 * (vd_seen (vdev (bus s)) mod vd_num)) (le_bytes 2 0) b5;
  w_idx : upd b5 (vd_queue (vdev (bus s)) * 4096 + 16 * vd_num + 2) (le_bytes 2 (u16 (vd_seen (vdev (bus s)) + 1))) b6;
}.

Definition data_ok (write : bool) (n : Z) (buffer : list Z) : Prop :=
  write = true -> 512 * n <= Z.of_nat (length buffer) /\ Forall is_u8 buffer.

Lemma write_data_length write n buffer : 0 <= n -> data_ok write n buffer ->
  Z.of_nat (length (write_data write (512 * n) buffer)) = if write then 512 * n else 0.
Proof.
  intros Hn Hd. destruct write; [| done]. destruct (Hd eq_refl) as [Hl _]. cbn [write_data]. rewrite length_take. lia.
Qed.

Lemma table_length g write bytes : length (table_bytes g write bytes) = 48%nat.
Proof. reflexivity. Qed.
Lemma req_length write lba : length (req_bytes write lba) = 16%nat.
Proof. reflexivity. Qed.

(** Everything the proofs use of the layout, as inequalities. *)
Record layout s : Prop := {
  l_num : 3 <= vd_num <= 8;
  l_off : 16 * vd_num + 4 + 2 * vd_num <= used_off vd_num;
  l_avail : avail_off vd_num = 16 * vd_num;
  l_total : queue_total vd_num = used_off vd_num + 4 + 8 * vd_num;
}.
Lemma blk_layout s : blk_wf s -> layout s.
Proof.
  intros Hs. destruct (b_num s Hs) as [_ Hn]. destruct (offsets vd_num) as (Ha & Hu & Ht & _); [lia |]. by split.
Qed.

Lemma publish_spec s write lba n buffer b1 b2 b3 : blk_wf s -> 0 < n <= 8 -> data_ok write n buffer ->
  upd (bus s) (req_phys (blk s)) (req_bytes write lba) b1 ->
  upd b1 (status_phys (blk s)) [0xFF] b2 ->
  upd b2 (vd_queue (vdev (bus s)) * 4096) (table_bytes (blk s) write (512 * n)) b3 ->
  exists b4 b5 b6, publish (blk s) write (512 * n) buffer (with_bus b3 s) = Ret ((), with_bus b6 s) /\
    written s write lba n buffer b1 b2 b3 b4 b5 b6.
Proof.
  intros Hs Hn Hd U1 U2 U3. destruct (blk_layout s Hs) as [L1 L2 L3 L4].
  pose proof (b_desc s Hs) as Hq. pose proof (b_bounce s Hs) as Hb. pose proof (b_apart s Hs) as Hap.
  pose proof (b_seen s Hs) as Hseen. rewrite L3 in Hseen. cbv zeta in Hap. unfold disjoint in Hap.
  set (q := vd_queue (vdev (bus s)) * 4096) in *. set (g := blk s) in *.
  pose proof (write_data_length write n buffer ltac:(lia) Hd) as Hwl.
  assert (exists b4, (if write then
         if Z.of_nat (length buffer) <? 512 * n then st_lift Fault
         else store_bytes (bounce g) (take (Z.to_nat (512 * n)) buffer)
       else mret ()) (with_bus b3 s) = Ret ((), with_bus b4 s) /\
       upd b3 (bounce_phys g) (write_data write (512 * n) buffer) b4) as (b4 & E4 & U4).
  { destruct write; [| exists b3; split; [done | apply upd_nil]]. destruct (Hd eq_refl) as [Hl Hu].
    rewrite (proj2 (Z.ltb_ge _ _)) by lia. cbn [write_data] in *.
    apply (store_bytes_writes _ (with_bus b3 s)); [| by apply Forall_take].
    rewrite Hwl. rewrite <- (Z.add_0_r (bounce g)), <- (Z.add_0_r (bounce_phys g)). eapply ptr_sub; [exact Hb | lia..]. }
  assert (forall off k, 0 <= off -> 0 <= k -> off + k <= 4 + 2 * vd_num ->
    ptr_ok (mem s) (avail g + off) (q + 16 * vd_num + off) k) as Hav.
  { intros off k H1 H2 H3. unfold g. rewrite (b_avail s Hs), L3, <- !Z.add_assoc. eapply ptr_sub; [exact Hq | lia..]. }
  assert (rd 2 b4 (q + 16 * vd_num + 2) = vd_seen (vdev (bus s))) as Hidx.
  { assert (ram_range (q + 16 * vd_num + 2) 2) as Hr by (apply (Hav 2 2); lia).
    rewrite (upd_rd_out _ _ _ _ _ _ _ U4) by (try done; destruct write; lia).
    rewrite (upd_rd_out _ _ _ _ _ _ _ U3) by (try done; rewrite table_length; lia).
    rewrite (upd_rd_out _ _ _ _ _ _ _ U2) by (try done; cbn; lia).
    rewrite (upd_rd_out _ _ _ _ _ _ _ U1) by (try done; rewrite req_length; lia). exact Hseen. }
  set (seen := vd_seen (vdev (bus s))) in *.
  assert (0 <= seen mod vd_num < vd_num) as Hmod by (apply Z.mod_pos_bound; lia).
  destruct (store_writes (with_bus b4 s) 2 (avail_ring (avail g) (seen mod vd_num)) 0
    (q + 16 * vd_num + 4 + 2 * (seen mod vd_num))) as (b5 & E5 & U5); [lia | |].
  { unfold avail_ring. rewrite <- (Z.add_assoc (avail g)), <- (Z.add_assoc (q + 16 * vd_num)). apply Hav; cbn; lia. }
  destruct (store_writes (with_bus b5 s) 2 (avail_idx (avail g)) (u16 (seen + 1)) (q + 16 * vd_num + 2))
    as (b6 & E6 & U6); [lia | apply Hav; cbn; lia |].
  exists b4, b5, b6. split; [| by split].
  change (Z.of_nat 2) with 2 in E5, E6. unfold publish. rewrite (st_bind_ret _ _ _ _ _ E4).
  rewrite (st_bind_ret _ _ _ _ _ (load_rd (with_bus b4 s) 2 (avail_idx (avail g)) (q + 16 * vd_num + 2) ltac:(lia)
    (Hav 2 2 ltac:(lia) ltac:(lia) ltac:(lia)))).
  cbn [bus with_bus]. rewrite Hidx. pose proof (proj1 (b_num s Hs)) as Eq. fold g in Eq. rewrite Eq.
  rewrite (proj2 (Z.eqb_neq _ _)) by lia. rewrite (st_bind_ret _ _ _ _ _ E5). exact E6.
Qed.

(** What is read of the final memory. *)
Lemma rd_field b a l b' w v off : upd b a l b' -> ram_range a (Z.of_nat (length l)) ->
  0 <= off -> off + Z.of_nat w <= Z.of_nat (length l) -> slice off (Z.of_nat w) l = le_bytes w v ->
  0 <= v < 256 ^ Z.of_nat w -> rd (Z.of_nat w) b' (a + off) = v.
Proof.
  intros U Hr H1 H2 E Hv. rewrite (upd_rd_in _ _ _ _ _ _ _ U) by (try done; lia). rewrite E, le_num_bytes.
  by apply Z.mod_small.
Qed.

Section Written.
Context s write lba n buffer b1 b2 b3 b4 b5 b6 (Hs : blk_wf s) (Hn : 0 < n <= 8) (Hd : data_ok write n buffer)
  (W : written s write lba n buffer b1 b2 b3 b4 b5 b6).
Let q : Z := vd_queue (vdev (bus s)) * 4096.
Let g : virtio_blk := blk s.

(** A write leaves the bytes elsewhere as they were. *)
Lemma out_req x w : ram_range x w -> disjoint x w (req_phys g) 16 -> rd w b1 x = rd w (bus s) x.
Proof using Hs Hn Hd W.
  intros Hr Ho. apply (upd_rd_out _ _ _ _ _ _ _ (w_req _ _ _ _ _ _ _ _ _ _ _ W)); [done |].
  unfold disjoint in Ho. rewrite req_length. fold g. lia.
Qed.
Lemma out_status x w : ram_range x w -> disjoint x w (status_phys g) 1 -> rd w b2 x = rd w b1 x.
Proof using Hs Hn Hd W.
  intros Hr Ho. apply (upd_rd_out _ _ _ _ _ _ _ (w_status _ _ _ _ _ _ _ _ _ _ _ W)); [done |].
  unfold disjoint in Ho. cbn. fold g. lia.
Qed.
Lemma out_table x w : ram_range x w -> disjoint x w q 48 -> rd w b3 x = rd w b2 x.
Proof using Hs Hn Hd W.
  intros Hr Ho. apply (upd_rd_out _ _ _ _ _ _ _ (w_table _ _ _ _ _ _ _ _ _ _ _ W)); [done |].
  unfold disjoint in Ho. rewrite table_length. fold q. lia.
Qed.
Lemma out_data x w : ram_range x w -> disjoint x w (bounce_phys g) 4096 -> rd w b4 x = rd w b3 x.
Proof using Hs Hn Hd W.
  intros Hr Ho. apply (upd_rd_out _ _ _ _ _ _ _ (w_data _ _ _ _ _ _ _ _ _ _ _ W)); [done |].
  unfold disjoint in Ho. rewrite write_data_length by (try done; lia). fold g. destruct write; lia.
Qed.
Lemma out_avail x w : ram_range x w -> disjoint x w (q + 16 * vd_num + 2) (2 + 2 * vd_num) -> rd w b6 x = rd w b4 x.
Proof using Hs Hn Hd W.
  intros Hr Ho. destruct (blk_layout s Hs) as [L1 _ _ _]. unfold disjoint in Ho.
  assert (0 <= vd_seen (vdev (bus s)) mod vd_num < vd_num) by (apply Z.mod_pos_bound; lia).
  rewrite (upd_rd_out _ _ _ _ _ _ _ (w_idx _ _ _ _ _ _ _ _ _ _ _ W)) by (try done; cbn; fold q; lia).
  apply (upd_rd_out _ _ _ _ _ _ _ (w_ring _ _ _ _ _ _ _ _ _ _ _ W)); [done |]. cbn. fold q. lia.
Qed.
(** The descriptor table in the final memory. *)
Lemma table_field off w v : 0 <= off -> off + Z.of_nat w <= 48 ->
  slice off (Z.of_nat w) (table_bytes g write (512 * n)) = le_bytes w v -> 0 <= v < 256 ^ Z.of_nat w ->
  rd (Z.of_nat w) b6 (q + off) = v.
Proof using Hs Hn Hd W.
  intros H1 H2 E Hv. destruct (blk_layout s Hs) as [L1 L2 L3 L4].
  destruct (b_desc s Hs) as [_ _ Hr]. fold q in Hr. pose proof (b_apart s Hs) as Ha. cbv zeta in Ha. fold q g in Ha.
  unfold disjoint in Ha.
  assert (ram_range (q + off) (Z.of_nat w)) as Hr' by (eapply ram_range_sub; [exact Hr | lia..]).
  rewrite out_avail, out_data by (try done; unfold disjoint; lia).
  apply (rd_field _ _ _ _ _ _ _ (w_table _ _ _ _ _ _ _ _ _ _ _ W)); try done; rewrite table_length; try done.
  eapply ram_range_sub; [exact Hr | fold q; lia..].
Qed.
Lemma req_field off w v : 0 <= off -> off + Z.of_nat w <= 16 ->
  slice off (Z.of_nat w) (req_bytes write lba) = le_bytes w v -> 0 <= v < 256 ^ Z.of_nat w ->
  rd (Z.of_nat w) b6 (req_phys g + off) = v.
Proof using Hs Hn Hd W.
  intros H1 H2 E Hv. destruct (blk_layout s Hs) as [L1 L2 L3 L4].
  destruct (b_req s Hs) as [_ _ Hr]. fold g in Hr. pose proof (b_apart s Hs) as Ha. cbv zeta in Ha. fold q g in Ha.
  unfold disjoint in Ha.
  assert (ram_range (req_phys g + off) (Z.of_nat w)) as Hr' by (eapply ram_range_sub; [exact Hr | lia..]).
  rewrite out_avail, out_data, out_table, out_status by (try done; unfold disjoint; lia).
  by apply (rd_field _ _ _ _ _ _ _ (w_req _ _ _ _ _ _ _ _ _ _ _ W)).
Qed.
(** Memory the request does not touch. *)
Lemma untouched x w : ram_range x w -> disjoint x w (req_phys g) 16 -> disjoint x w (status_phys g) 1 ->
  disjoint x w (bounce_phys g) 4096 -> disjoint x w q (18 * vd_num + 4) -> rd w b6 x = rd w (bus s) x.
Proof using Hs Hn Hd W.
  intros Hr H1 H2 H3 H4. destruct (blk_layout s Hs) as [L1 L2 L3 L4]. unfold disjoint in H4.
  rewrite out_avail, out_data, out_table, out_status, out_req by (try done; unfold disjoint; lia). done.
Qed.

Lemma vdev_written : vdev b6 = vdev (bus s).
Proof using W. destruct W as [[H1 _] [H2 _] [H3 _] [H4 _] [H5 _] [H6 _]]. by rewrite H6, H5, H4, H3, H2, H1. Qed.

(** The data of a write is in the bounce buffer. *)
Lemma data_written : write = true -> ram b6 <$> seqZ (bounce_phys g) (512 * n) = take (Z.to_nat (512 * n)) buffer.
Proof using Hs Hn Hd W.
  intros Ew. destruct (Hd Ew) as [Hl Hu]. destruct (blk_layout s Hs) as [L1 L2 L3 L4].
  destruct (b_bounce s Hs) as [_ _ Hr]. fold g in Hr. pose proof (b_apart s Hs) as Ha. cbv zeta in Ha. fold q g in Ha.
  unfold disjoint in Ha.
  apply list_eq_same_length with (n := Z.to_nat (512 * n));
    [rewrite length_take; lia | by rewrite length_fmap, length_seqZ |].
  intros i x y Hi Hx Hy. apply list_lookup_fmap_Some in Hx as (k & -> & [-> _]%lookup_seqZ).
  assert (ram_range (bounce_phys g + Z.of_nat i) 1) as Hr1 by (eapply ram_range_sub; [exact Hr | lia..]).
  rewrite <- rd_1, out_avail, rd_1 by (try done; unfold disjoint; lia).
  destruct (w_data _ _ _ _ _ _ _ _ _ _ _ W) as [_ H]. rewrite H by (apply Hr1; lia).
  rewrite write_data_length by (try done; lia). rewrite Ew in *. fold g. rewrite decide_True by lia.
  unfold byte_at, write_data. replace (Z.to_nat _) with i by lia. by rewrite Hy.
Qed.
End Written.

Definition request s (write : bool) (lba n : Z) : vrequest :=
  VRequest write lba n (req_phys (blk s)) (bounce_phys (blk s)) (status_phys (blk s)).

Lemma written_pending s write lba n buffer b1 b2 b3 b4 b5 b6 :
  blk_wf s -> 0 < n <= 8 -> data_ok write n buffer -> 0 <= lba < 2 ^ 64 ->
  written s write lba n buffer b1 b2 b3 b4 b5 b6 ->
  pending vd_num (used_off vd_num + used_sz vd_num) (vdev b6) b6 (request s write lba n).
Proof.
  intros Hs Hn Hd Hlba W. rewrite (vdev_written s _ _ _ _ _ _ _ _ _ _ W).
  pose proof (table_field s write lba n buffer b1 b2 b3 b4 b5 b6 Hs Hn Hd W) as T.
  pose proof (req_field s write lba n buffer b1 b2 b3 b4 b5 b6 Hs Hn Hd W) as R.
  destruct (blk_layout s Hs) as [L1 L2 L3 L4].
  pose proof (b_desc s Hs) as [_ [Hq0 _] Hq]. pose proof (b_req s Hs) as [_ Hrr Hr].
  pose proof (b_status s Hs) as [_ Hsr Hst]. pose proof (b_bounce s Hs) as [_ Hbr Hb].
  pose proof (b_apart s Hs) as Ha. cbv zeta in Ha. unfold disjoint in Ha.
  pose proof (b_up s Hs) as Hup. pose proof (w_ring _ _ _ _ _ _ _ _ _ _ _ W) as U5.
  pose proof (w_idx _ _ _ _ _ _ _ _ _ _ _ W) as U6.
  set (v := vdev (bus s)) in *. set (q := vd_queue v * 4096) in *. set (g := blk s) in *.
  assert (0 <= vd_seen v mod vd_num < vd_num) as Hmod by (apply Z.mod_pos_bound; lia).
  split; fold q; cbn [request r_write r_lba r_n r_req r_data r_status]; fold g.
  - done.
  - lia.
  - rewrite <- (Z.add_0_r (q + _ + _)). apply (rd_field _ _ _ _ 2 _ 0 U6); try done; [| apply u16_range].
    eapply ram_range_sub; [exact Hq | cbn; lia..].
  - rewrite (upd_rd_out _ _ _ _ _ _ _ U6); [| eapply ram_range_sub; [exact Hq | lia..] | cbn; lia].
    rewrite <- (Z.add_0_r (q + _ + _ + _)). apply (rd_field _ _ _ _ 2 _ 0 U5); try done.
    eapply ram_range_sub; [exact Hq | cbn; lia..].
  - rewrite <- (Z.add_0_r q) at 1. split_and!; [apply (T 0 8%nat) | apply (T 8 4%nat) | apply (T 12 2%nat) | apply (T 14 2%nat)];
      try done; fold g; lia.
  - split_and!; [apply (T 16 8%nat) | apply (T 24 4%nat) | apply (T 28 2%nat) | apply (T 30 2%nat)];
      try done; try (fold g; lia); by destruct write.
  - split_and!; [apply (T 32 8%nat) | apply (T 40 4%nat) | apply (T 44 2%nat)]; try done; fold g; lia.
  - rewrite <- (Z.add_0_r (req_phys g)). apply (R 0 4%nat); try done; by destruct write.
  - by apply (R 8 8%nat).
  - unfold used_sz. split_and!; [eapply ram_range_sub; [exact Hq | lia..] | done |
      eapply ram_range_sub; [exact Hb | lia..] | done].
  - unfold used_sz, disjoint. lia.
Qed.

(** ** Waiting for the device *)
Lemma io_read8_bus s off : io_read8 vd_io off s =
  Ret ((port_in 1 (u16 (vd_io + off)) (bus s)).1, with_bus (port_in 1 (u16 (vd_io + off)) (bus s)).2 s).
Proof. unfold io_read8, io_read, on_bus. cbn. by destruct (port_in 1 _ _). Qed.

Lemma wait_used_spec s (at_ : nat -> B) k used' : io_base (blk s) = vd_io ->
  (forall i, at_ (S i) = vd_isr (at_ i)) -> ptr_ok (mem s) (used_idx (used (blk s))) used' 2 ->
  (forall i, (i < k)%nat -> rd 2 (at_ i) used' = last_used (blk s)) -> rd 2 (at_ k) used' <> last_used (blk s) ->
  forall fuel i, (i <= k)%nat -> (k - i <= fuel)%nat ->
  wait_used fuel (blk s) (with_bus (at_ i) s) = Ret ((), with_bus (at_ k) s).
Proof.
  intros Hio Hat Hp Hlt Hk. induction fuel as [|fuel IH]; intros i Hi Hf.
  - assert (i = k) as -> by lia. cbn [wait_used].
    rewrite (st_bind_ret _ _ _ _ _ (load_rd (with_bus (at_ k) s) 2 _ _ ltac:(lia) Hp)).
    cbn [bus with_bus]. by rewrite (proj2 (Z.eqb_neq _ _) Hk).
  - cbn [wait_used]. rewrite (st_bind_ret _ _ _ _ _ (load_rd (with_bus (at_ i) s) 2 _ _ ltac:(lia) Hp)).
    cbn [bus with_bus]. destruct (decide (i = k)) as [->|Hne].
    + by rewrite (proj2 (Z.eqb_neq _ _) Hk).
    + rewrite (proj2 (Z.eqb_eq _ _) (Hlt i ltac:(lia))). cbn [negb]. rewrite Hio.
      rewrite (st_bind_ret _ _ _ _ _ (io_read8_bus _ _)). cbn [bus with_bus].
      specialize (IH (S i) ltac:(lia) ltac:(lia)). rewrite Hat in IH. exact IH.
Qed.

Lemma st_bind_spin {S X Y} (m : st S X) (f : X -> st S Y) (x : S) : m x = Spin -> (m ≫= f) x = Spin.
Proof. intros E. unfold mbind, st_bind. by rewrite E. Qed.

Lemma wait_used_spins s (at_ : nat -> B) used' : io_base (blk s) = vd_io ->
  (forall i, at_ (S i) = vd_isr (at_ i)) -> ptr_ok (mem s) (used_idx (used (blk s))) used' 2 ->
  (forall i, rd 2 (at_ i) used' = last_used (blk s)) ->
  forall fuel i, wait_used fuel (blk s) (with_bus (at_ i) s) = Spin.
Proof.
  intros Hio Hat Hp Hsame. induction fuel as [|fuel IH]; intros i; cbn [wait_used];
    rewrite (st_bind_ret _ _ _ _ _ (load_rd (with_bus (at_ i) s) 2 _ _ ltac:(lia) Hp)); cbn [bus with_bus];
    rewrite (proj2 (Z.eqb_eq _ _) (Hsame i)); cbn [negb]; [done |]. rewrite Hio.
  rewrite (st_bind_ret _ _ _ _ _ (io_read8_bus _ _)). cbn [bus with_bus].
  specialize (IH (S i)). rewrite Hat in IH. exact IH.
Qed.

(** ** A request *)
Lemma served_rd num u v b r v' b' w x : served num u v b r v' b' -> ram_range x w ->
  disjoint x w (vd_queue v * 4096 + u) (used_sz num) -> disjoint x w (r_status r) 1 ->
  (r_write r = true \/ disjoint x w (r_data r) (512 * r_n r)) -> rd w b' x = rd w b x.
Proof.
  intros Sv Hr H1 H2 H3. apply rd_ext. intros y Hy. unfold disjoint in *.
  apply (s_ram _ _ _ _ _ _ _ Sv); [apply Hr; lia | lia | lia |]. destruct H3; [by left | right; lia].
Qed.

Definition after_request s (u : Z) (b : B) : drv B := Drv (set_last_used u (blk s)) (mem s) b.

Lemma request_blk_ok s write lba n buffer b1 b2 b3 b4 b5 b6 b' :
  blk_ok s -> 0 < n <= 8 -> data_ok write n buffer -> 0 <= lba < 2 ^ 64 ->
  written s write lba n buffer b1 b2 b3 b4 b5 b6 ->
  served vd_num vd_used_off (vdev b6) b6 (request s write lba n) (vdev b') b' ->
  blk_ok (after_request s (rd 2 b' (vd_queue (vdev (bus s)) * 4096 + used_off vd_num + 2)) b').
Proof.
  intros Hs Hn Hd Hlba W Sv. pose proof (written_pending _ _ _ _ _ _ _ _ _ _ _ Hs Hn Hd Hlba W) as Pd.
  rewrite (vdev_written _ _ _ _ _ _ _ _ _ _ _ W) in Sv, Pd. destruct (blk_layout s Hs) as [L1 L2 L3 L4].
  pose proof (b_off s Hs) as Lo. pose proof (b_apart s Hs) as Ha. cbv zeta in Ha.
  pose proof (s_dev _ _ _ _ _ _ _ Sv) as (D1 & D2 & D3 & D4).
  assert (rd 2 b' (vd_queue (vdev (bus s)) * 4096 + 16 * vd_num + 2) = u16 (vd_seen (vdev (bus s)) + 1)) as Hseen.
  { rewrite <- (p_idx _ _ _ _ _ Pd). pose proof (b_desc s Hs) as [_ _ Hq].
    apply (served_rd _ _ _ _ _ _ _ _ _ Sv); cbn [request r_write r_lba r_n r_req r_data r_status];
      [eapply ram_range_sub; [exact Hq | lia..] | unfold disjoint, used_sz; lia | unfold disjoint in *; lia |].
    right. unfold disjoint in *. lia. }
  destruct Hs as [[[] Hrange] Hoff]. split; [split; [| exact Hrange] | exact Hoff].
  split; cbn [after_request blk set_last_used mem bus ready io_base queue_size desc avail used req req_phys
    status status_phys bounce bounce_phys last_used capacity]; rewrite ?D1, ?D2, ?D3, ?D4; try done.
  rewrite L3. exact Hseen.
Qed.

(** The sectors of a range, one after the other. *)
Lemma sectors_concat (f : Z -> Z) (d : Z -> list Z) (n : nat) : forall a lba,
  (forall j, 0 <= j < Z.of_nat n -> f <$> seqZ (a + 512 * j) 512 = d (lba + j)) ->
  f <$> seqZ a (512 * Z.of_nat n) = concat (d <$> seqZ lba (Z.of_nat n)).
Proof.
  induction n as [|n IH]; intros a lba H; [done |].
  rewrite (seqZ_cons lba) by lia. replace (Z.pred (Z.of_nat (S n))) with (Z.of_nat n) by lia. cbn [fmap list_fmap concat].
  replace (512 * Z.of_nat (S n)) with (512 + 512 * Z.of_nat n) by lia.
  rewrite seqZ_app by lia. rewrite fmap_app. f_equal.
  - specialize (H 0 ltac:(lia)). by rewrite !Z.add_0_r, ?Z.mul_0_r, ?Z.add_0_r in H.
  - apply IH. intros j Hj. specialize (H (j + 1) ltac:(lia)).
    replace (a + 512 + 512 * j) with (a + 512 * (j + 1)) by lia. rewrite H. f_equal. lia.
Qed.

Definition disk s : Z -> list Z := vd_disk (vdev (bus s)).
Definition sectors s (lba n : Z) : list Z := concat (disk s <$> seqZ lba n).

Lemma finish_spec s write lba n b b' : blk_ok s -> 0 < n <= 8 ->
  vdev b = vdev (bus s) ->
  served vd_num vd_used_off (vdev b) b (request s write lba n) (vdev b') b' ->
  let ok := lba + n <=? vd_cap (vdev (bus s)) in
  finish (blk s) write (512 * n) (with_bus b' s) =
    Ret ((ok, if ok && negb write then sectors s lba n else []),
      after_request s (rd 2 b' (vd_queue (vdev (bus s)) * 4096 + used_off vd_num + 2)) b').
Proof.
  intros Hs Hn Hv Sv ok. destruct (blk_layout s Hs) as [L1 L2 L3 L4]. rewrite Hv in Sv.
  assert (ptr_ok (mem s) (used_idx (used (blk s))) (vd_queue (vdev (bus s)) * 4096 + used_off vd_num + 2) 2) as Hu.
  { unfold used_idx. rewrite (b_used s Hs). rewrite <- !Z.add_assoc. eapply ptr_sub; [apply (b_desc s Hs) | lia..]. }
  unfold finish. rewrite (st_bind_ret _ _ _ _ _ (load_rd (with_bus b' s) 2 _ _ ltac:(lia) Hu)). cbn [bus with_bus].
  set (u := rd 2 b' _). set (s' := after_request s u b').
  rewrite (st_bind_ret _ _ _ tt s') by done.
  rewrite (st_bind_ret _ _ _ _ _ (load_rd s' 1 _ _ ltac:(lia) (b_status s Hs))). cbn [s' after_request bus].
  rewrite rd_1. pose proof (s_status _ _ _ _ _ _ _ Sv) as Est.
  cbn [request r_write r_lba r_n r_req r_data r_status] in Est. rewrite Est. fold ok.
  destruct ok eqn:Eok; cbn [negb Z.eqb andb]; [| done]. destruct write; cbn [negb]; [done |].
  assert (ptr_ok (mem s') (bounce (blk s)) (bounce_phys (blk s)) (Z.of_nat (Z.to_nat (512 * n)))) as Hb.
  { rewrite <- (Z.add_0_r (bounce (blk s))), <- (Z.add_0_r (bounce_phys (blk s))).
    eapply ptr_sub; [apply (b_bounce s Hs) | lia..]. }
  rewrite (st_bind_ret _ _ _ _ _ (load_bytes_rd _ s' _ _ Hb)). cbn [bus s' after_request].
  pose proof (s_data _ _ _ _ _ _ _ Sv eq_refl) as Edat. cbn [request r_write r_lba r_n r_req r_data r_status] in Edat.
  rewrite Z2Nat.id by lia. assert (ram b' <$> seqZ (bounce_phys (blk s)) (512 * n) = sectors s lba n) as ->; [| done].
  replace n with (Z.of_nat (Z.to_nat n)) in Edat |- * by lia. apply sectors_concat, Edat. unfold ok in Eok. lia.
Qed.

(** From the notification to the answer. *)
Lemma answer_spec fuel s (b : B) write lba n : blk_ok s -> vdev b = vdev (bus s) -> (vd_latency <= fuel)%nat ->
  rd 2 b (vd_queue (vdev (bus s)) * 4096 + used_off vd_num + 2) = last_used (blk s) ->
  pending vd_num (used_off vd_num + used_sz vd_num) (vdev b) b (request s write lba n) ->
  exists b0 b', io_write16 (io_base (blk s)) VIRTIO_PCI_QUEUE_NOTIFY 0 (with_bus b s) = Ret ((), with_bus b0 s) /\
    wait_used fuel (blk s) (with_bus b0 s) = Ret ((), with_bus b' s) /\
    served vd_num vd_used_off (vdev b) b (request s write lba n) (vdev b') b'.
Proof.
  intros Hs Hv Hf Hlast Pd. destruct (blk_layout s Hs) as [L1 L2 L3 L4].
  rewrite <- (b_off s Hs) in Pd. destruct (vd_serve b _ Pd) as (k & Hk & Hsame & Sv). cbv zeta in Hsame, Sv.
  set (b0 := port_out 2 (u16 (vd_io + VIRTIO_PCI_QUEUE_NOTIFY)) 0 b) in *.
  exists b0, (Nat.iter k vd_isr b0). rewrite (b_io s Hs). split; [done |]. split; [| exact Sv].
  rewrite Hv, (b_off s Hs) in Hsame. rewrite Hlast in Hsame.
  pose proof (s_used _ _ _ _ _ _ _ Sv) as Hu. rewrite Hv, (b_off s Hs), Hlast in Hu.
  apply (wait_used_spec s (fun i => Nat.iter i vd_isr b0) k (vd_queue (vdev (bus s)) * 4096 + used_off vd_num + 2) (b_io s Hs))
    with (i := 0%nat); [done | | exact Hsame | | lia | lia].
  - unfold used_idx. rewrite (b_used s Hs), <- !Z.add_assoc. eapply ptr_sub; [apply (b_desc s Hs) | lia..].
  - rewrite Hu. rewrite <- (b_last s Hs). set (x := rd 2 _ _). pose proof (rd_range 2 (bus s)
      (vd_queue (vdev (bus s)) * 4096 + used_off vd_num + 2) ltac:(lia)) as Hx. fold x in Hx.
    change (256 ^ 2) with 65536 in Hx. unfold u16. change (2 ^ 16) with 65536. lia.
Qed.

Lemma slice_ram (b : B) a n (buffer : list Z) j : ram b <$> seqZ a (512 * n) = take (Z.to_nat (512 * n)) buffer ->
  0 <= j < n -> ram b <$> seqZ (a + 512 * j) 512 = slice (512 * j) 512 buffer.
Proof.
  intros E Hj. unfold slice.
  transitivity (take (Z.to_nat 512) (drop (Z.to_nat (512 * j)) (take (Z.to_nat (512 * n)) buffer))).
  - rewrite <- E. replace (512 * n) with (512 * j + (512 + 512 * (n - j - 1))) by lia.
    rewrite !seqZ_app, !fmap_app by lia.
    rewrite drop_app_length' by (rewrite length_fmap, length_seqZ; lia).
    rewrite take_app_length' by (rewrite length_fmap, length_seqZ; lia). done.
  - apply list_eq. intros i.
    destruct (decide (i < 512)%nat).
    + rewrite !lookup_take_lt, !lookup_drop, lookup_take_lt by lia. done.
    + rewrite !lookup_take_ge by lia. done.
Qed.

(** One request: the result, the sectors afterwards. *)
Lemma submit_spec fuel s write lba n buffer :
  blk_ok s -> 0 < n <= 8 -> data_ok write n buffer -> 0 <= lba < 2 ^ 64 -> (vd_latency <= fuel)%nat ->
  let ok := lba + n <=? vd_cap (vdev (bus s)) in
  exists s', virtio_blk_submit fuel write lba n buffer s =
      Ret ((ok, if ok && negb write then sectors s lba n else []), s') /\
    blk_ok s' /\ vd_cap (vdev (bus s')) = vd_cap (vdev (bus s)) /\
    forall i, disk s' i = if decide (write = true /\ ok = true /\ lba <= i < lba + n)
                          then slice (512 * (i - lba)) 512 buffer else disk s i.
Proof.
  intros Hs Hn Hd Hlba Hf ok. destruct (blk_layout s Hs) as [L1 L2 L3 L4].
  destruct (build_request_spec s write lba (512 * n) Hs) as (b1 & b2 & b3 & E1 & U1 & U2 & U3).
  destruct (publish_spec s write lba n buffer b1 b2 b3 Hs Hn Hd U1 U2 U3) as (b4 & b5 & b6 & E2 & W).
  pose proof (written_pending _ _ _ _ _ _ _ _ _ _ _ Hs Hn Hd Hlba W) as Pd.
  pose proof (vdev_written _ _ _ _ _ _ _ _ _ _ _ W) as Hv.
  pose proof (b_apart s Hs) as Ha. cbv zeta in Ha. pose proof (b_desc s Hs) as [_ _ Hq].
  destruct (answer_spec fuel s b6 write lba n Hs Hv Hf) as (b0 & b' & E3 & E4 & Sv); [| exact Pd |].
  { rewrite <- (b_last s Hs). apply (untouched s write lba n buffer b1 b2 b3 b4 b5 b6 Hs Hn Hd W); unfold disjoint in *;
      [eapply ram_range_sub; [exact Hq | lia..] | lia..]. }
  eexists. split; [| split; [by eapply request_blk_ok | split; [|]]].
  - unfold virtio_blk_submit. rewrite (st_bind_ret st_get _ s s s) by done. cbv zeta. rewrite (b_ready s Hs). cbn [negb].
    rewrite (proj2 (Z.eqb_neq n 0)) by lia. replace (u32 (n * 512)) with (512 * n) by (unfold u32; lia).
    rewrite (proj2 (Z.ltb_ge _ _)) by lia. rewrite (st_bind_ret _ _ _ _ _ E1), (st_bind_ret _ _ _ _ _ E2).
    rewrite (st_bind_ret _ _ _ _ _ E3), (st_bind_ret _ _ _ _ _ E4).
    apply (finish_spec s write lba n b6 b' Hs Hn Hv Sv).
  - cbn [after_request bus]. pose proof (s_dev _ _ _ _ _ _ _ Sv) as (_ & _ & _ & ->). by rewrite Hv.
  - intros i. unfold disk. cbn [after_request bus]. rewrite (s_disk _ _ _ _ _ _ _ Sv), Hv.
    cbn [request r_write r_lba r_n r_req r_data r_status]. pose proof (Z.leb_le (lba + n) (vd_cap (vdev (bus s)))) as Hok.
    fold ok in Hok. case_decide as Hw; case_decide as Hw'; try tauto. destruct Hw as (Hw & _ & Hi). apply slice_ram with (n := n); [| lia].
    by apply (data_written s write lba n buffer b1 b2 b3 b4 b5 b6 Hs Hn Hd W).
Qed.

(** The aligned used ring is past everything the driver allocates for the queue. *)
Lemma legacy_used_past n : 0 < n <= 8 -> queue_total n < legacy_used_off n.
Proof. intros Hn. destruct (offsets n Hn) as (_ & _ & _ & Ht). unfold legacy_used_off. lia. Qed.

(** On a device with the aligned layout a request waits for ever. *)
Lemma submit_waits fuel s write lba n buffer :
  blk_wf s -> vd_used_off = legacy_used_off vd_num ->
  0 < n <= 8 -> data_ok write n buffer -> 0 <= lba < 2 ^ 64 ->
  virtio_blk_submit fuel write lba n buffer s = Spin.
Proof.
  intros Hs Hoff Hn Hd Hlba. destruct (blk_layout s Hs) as [L1 L2 L3 L4].
  destruct (build_request_spec s write lba (512 * n) Hs) as (b1 & b2 & b3 & E1 & U1 & U2 & U3).
  destruct (publish_spec s write lba n buffer b1 b2 b3 Hs Hn Hd U1 U2 U3) as (b4 & b5 & b6 & E2 & W).
  pose proof (written_pending _ _ _ _ _ _ _ _ _ _ _ Hs Hn Hd Hlba W) as Pd.
  pose proof (b_apart s Hs) as Ha. cbv zeta in Ha. unfold disjoint in Ha. pose proof (b_desc s Hs) as [_ _ Hq].
  pose proof (legacy_used_past vd_num ltac:(lia)) as Hpast. rewrite <- Hoff in Hpast.
  set (u := vd_queue (vdev (bus s)) * 4096 + used_off vd_num + 2) in *.
  assert (ram_range u 2) as Hu by (eapply ram_range_sub; [exact Hq | unfold u; lia..]).
  set (at_ := fun i => Nat.iter i vd_isr (port_out 2 (u16 (vd_io + VIRTIO_PCI_QUEUE_NOTIFY)) 0 b6)).
  assert (Hsame : forall i, rd 2 (at_ i) u = last_used (blk s)).
  { intros i. rewrite <- (b_last s Hs). fold u.
    rewrite <- (untouched s write lba n buffer b1 b2 b3 b4 b5 b6 Hs Hn Hd W u 2 Hu)
      by (unfold disjoint, u in *; lia).
    apply rd_ext. intros x Hx.
    apply (vd_writes b6 _ _ i x Pd); [unfold used_sz; lia | apply Hu; lia | ..];
      rewrite ?(vdev_written _ _ _ _ _ _ _ _ _ _ _ W);
      cbn [request r_write r_lba r_n r_req r_data r_status]; unfold u in *; [lia | lia | right; lia]. }
  unfold virtio_blk_submit. rewrite (st_bind_ret st_get _ s s s) by done. cbv zeta. rewrite (b_ready s Hs). cbn [negb].
  rewrite (proj2 (Z.eqb_neq n 0)) by lia. replace (u32 (n * 512)) with (512 * n) by (unfold u32; lia).
  rewrite (proj2 (Z.ltb_ge _ _)) by lia. rewrite (st_bind_ret _ _ _ _ _ E1), (st_bind_ret _ _ _ _ _ E2).
  rewrite (b_io s Hs). rewrite (st_bind_ret _ _ _ tt (with_bus (at_ 0%nat) s)) by done.
  apply st_bind_spin. apply (wait_used_spins s at_ u (b_io s Hs)); [done | | exact Hsame].
  unfold used_idx, u. rewrite (b_used s Hs), <- !Z.add_assoc. eapply ptr_sub; [apply (b_desc s Hs) | lia..].
Qed.

(** ** Whole transfers *)
(** The sectors transferred: all, or the chunks of eight that fit in the disk. *)
Definition transferred (cap lba count : Z) : Z :=
  if lba + count <=? cap then count else Z.max 0 (8 * ((cap - lba) / 8)).

Lemma transferred_step cap lba count : 8 < count -> lba + 8 <= cap ->
  transferred cap lba count = 8 + transferred cap (lba + 8) (count - 8).
Proof. intros H1 H2. unfold transferred. leb_cases; lia. Qed.
Lemma transferred_none cap lba count : 0 < count -> cap < lba + Z.min 8 count -> transferred cap lba count = 0.
Proof. intros H1 H2. unfold transferred. leb_cases; lia. Qed.
Lemma transferred_range cap lba count : 0 <= count -> 0 <= transferred cap lba count <= count.
Proof. intros H. unfold transferred. leb_cases; lia. Qed.

Lemma sectors_app s lba n m : 0 <= n -> 0 <= m -> sectors s lba (n + m) = sectors s lba n ++ sectors s (lba + n) m.
Proof. intros Hn Hm. unfold sectors. by rewrite seqZ_app, fmap_app, concat_app by done. Qed.
Lemma sectors_ext s s' lba n : (forall i, disk s' i = disk s i) -> sectors s' lba n = sectors s lba n.
Proof. intros H. unfold sectors. f_equal. apply list_fmap_ext. intros; apply H. Qed.

Lemma transferred_all cap lba count : lba + count <= cap -> transferred cap lba count = count.
Proof. intros H. unfold transferred. leb_cases; lia. Qed.
Lemma transferred_0 cap lba : transferred cap lba 0 = 0.
Proof. unfold transferred. leb_cases; lia. Qed.
Definition in_range (cap lba count : Z) : bool := (count =? 0) || (lba + count <=? cap).

Lemma read_loop_spec fuel tries : forall s lba count out,
  blk_ok s -> 0 <= count <= Z.of_nat tries -> 0 <= lba -> lba + count < 2 ^ 64 -> (vd_latency <= fuel)%nat ->
  let cap := vd_cap (vdev (bus s)) in
  exists s', read_loop fuel tries lba count out s =
      Ret ((in_range cap lba count, out ++ sectors s lba (transferred cap lba count)), s') /\
    blk_ok s' /\ vd_cap (vdev (bus s')) = cap /\ forall i, disk s' i = disk s i.
Proof.
  induction tries as [|tries IH]; intros s lba count out Hs Hc Hlba Hlc Hf cap;
    (destruct (Z.eq_dec count 0) as [->|Hne];
     [exists s; rewrite transferred_0; cbn; by rewrite app_nil_r | try lia]).
  cbn [read_loop]. rewrite (proj2 (Z.eqb_neq _ _) Hne).
  set (chunk := if 8 <? count then 8 else count). assert (chunk = Z.min 8 count) as Ech by (unfold chunk; leb_cases; lia).
  destruct (submit_spec fuel s false lba chunk [] Hs) as (s1 & E & Hs1 & Hcap & Hdisk); [lia | by intros ? | lia | exact Hf |].
  rewrite (st_bind_ret _ _ _ _ _ E). fold cap. fold cap in Hcap. assert (forall i, disk s1 i = disk s i) as Hd1.
  { intros i. rewrite Hdisk. by rewrite decide_False by (by intros [? _]). }
  unfold in_range. rewrite (proj2 (Z.eqb_neq _ _) Hne). cbn [orb].
  destruct (Z.leb_spec (lba + chunk) cap) as [Hle|Hgt]; cbn [andb negb].
  2:{ exists s1. rewrite transferred_none by lia. rewrite (proj2 (Z.leb_gt _ _)) by lia. cbn [sectors seqZ].
      change (sectors s lba 0) with (@nil Z). by rewrite app_nil_r. }
  rewrite u64_id by (unfold is_u64; lia).
  destruct (IH s1 (lba + chunk) (count - chunk) (out ++ sectors s lba chunk) Hs1) as (s2 & E2 & Hs2 & Hcap2 & Hd2); [lia | lia | lia | exact Hf |].
  exists s2. rewrite E2, Hcap. split; [| split; [done | split; [by rewrite Hcap2 | intros i; by rewrite Hd2]]].
  rewrite (sectors_ext s s1) by done. f_equal. f_equal.
  assert (in_range cap (lba + chunk) (count - chunk) = (lba + count <=? cap)) as ->.
  { unfold in_range. leb_cases; try lia; done. }
  f_equal. rewrite <- (assoc_L (++)). f_equal. pose proof (transferred_range cap (lba + chunk) (count - chunk) ltac:(lia)).
  rewrite <- sectors_app by lia. f_equal. destruct (Z.ltb_spec 8 count).
  - replace chunk with 8 by lia. by rewrite (transferred_step cap lba count) by lia.
  - replace (count - chunk) with 0 by lia. rewrite transferred_0, (transferred_all cap lba count) by lia. lia.
Qed.

Lemma write_loop_spec fuel tries : forall s lba count buffer,
  blk_ok s -> 0 <= count <= Z.of_nat tries -> 0 <= lba -> lba + count < 2 ^ 64 -> (vd_latency <= fuel)%nat ->
  512 * count <= Z.of_nat (length buffer) -> Forall is_u8 buffer ->
  let cap := vd_cap (vdev (bus s)) in
  exists s', write_loop fuel tries lba count buffer s = Ret (in_range cap lba count, s') /\
    blk_ok s' /\ vd_cap (vdev (bus s')) = cap /\
    forall i, disk s' i = if decide (lba <= i < lba + transferred cap lba count)
                          then slice (512 * (i - lba)) 512 buffer else disk s i.
Proof.
  induction tries as [|tries IH]; intros s lba count buffer Hs Hc Hlba Hlc Hf Hlen Hu cap;
    (destruct (Z.eq_dec count 0) as [->|Hne];
     [exists s; rewrite transferred_0; split_and!; try done; intros i; rewrite decide_False; [done | lia] | try lia]).
  cbn [write_loop]. rewrite (proj2 (Z.eqb_neq _ _) Hne).
  set (chunk := if 8 <? count then 8 else count). assert (chunk = Z.min 8 count) as Ech by (unfold chunk; leb_cases; lia).
  destruct (submit_spec fuel s true lba chunk buffer Hs) as (s1 & E & Hs1 & Hcap & Hd1);
    [lia | intros _; split; [lia | done] | lia | exact Hf |].
  rewrite (st_bind_ret _ _ _ _ _ E). fold cap. fold cap in Hcap, Hd1.
  unfold in_range. rewrite (proj2 (Z.eqb_neq _ _) Hne). cbn [orb].
  destruct (Z.leb_spec (lba + chunk) cap) as [Hle|Hgt]; cbn [andb negb].
  2:{ exists s1. rewrite transferred_none by lia. rewrite (proj2 (Z.leb_gt _ _)) by lia. split_and!; try done.
      intros i. rewrite Hd1, !decide_False; [done | lia | by intros (_ & Hx & _)]. }
  rewrite u64_id by (unfold is_u64; lia).
  destruct (IH s1 (lba + chunk) (count - chunk) (drop (Z.to_nat (chunk * 512)) buffer) Hs1) as (s2 & E2 & Hs2 & Hcap2 & Hd2);
    [lia | lia | lia | exact Hf | rewrite length_drop; lia | by apply Forall_drop |].
  exists s2. rewrite E2, Hcap. rewrite Hcap in Hcap2, Hd2.
  assert (in_range cap (lba + chunk) (count - chunk) = (lba + count <=? cap)) as ->.
  { unfold in_range. leb_cases; try lia; done. }
  assert (transferred cap lba count = chunk + transferred cap (lba + chunk) (count - chunk)) as ->.
  { destruct (Z.ltb_spec 8 count).
    - replace chunk with 8 by lia. by rewrite transferred_step by lia.
    - replace (count - chunk) with 0 by lia. rewrite transferred_0, transferred_all by lia. lia. }
  split; [done | split; [done | split; [done |]]]. pose proof (transferred_range cap (lba + chunk) (count - chunk) ltac:(lia)).
  intros i. rewrite Hd2, Hd1.
  destruct (decide (lba + chunk <= i < lba + chunk + transferred cap (lba + chunk) (count - chunk))) as [H1|H1].
  - rewrite decide_True by lia. unfold slice. rewrite drop_drop. do 2 f_equal. lia.
  - destruct (decide (lba <= i < lba + chunk)) as [H2|H2].
    + rewrite decide_True by done. by rewrite decide_True by lia.
    + rewrite !decide_False; [done | lia | tauto].
Qed.

(** C4: What the driver makes of the device depends on where a device of three to eight
    entries keeps its used ring.  Right behind the available ring, where the driver looks
    for it: the driver implements a disk; a read of sectors inside the disk returns their
    contents, whatever their number, and changes none; a write replaces exactly the
    sectors written with the bytes of the buffer; both keep the driver's invariant.  At
    the next multiple of 4096, as the legacy interface documents: every read or write of
    at least one sector waits for ever. *)
Theorem virtio_refines_disk fuel s lba count buffer
    (Hs : blk_wf s) (Hlba : 0 <= lba) (Hcount : 0 <= count)
    (Hfit : lba + count <= vd_cap (vdev (bus s)))
    (Hbuf : Z.of_nat (length buffer) = 512 * count) (Hu : Forall is_u8 buffer) :
  (vd_used_off = used_off vd_num -> (vd_latency <= fuel)%nat ->
    (exists s', virtio_blk_read fuel lba count s = Ret ((true, sectors s lba count), s') /\
      blk_wf s' /\ vd_cap (vdev (bus s')) = vd_cap (vdev (bus s)) /\ forall i, disk s' i = disk s i) /\
    (exists s', virtio_blk_write fuel lba count buffer s = Ret (true, s') /\
      blk_wf s' /\ vd_cap (vdev (bus s')) = vd_cap (vdev (bus s)) /\
      forall i, disk s' i =
        if decide (lba <= i < lba + count) then slice (512 * (i - lba)) 512 buffer else disk s i)) /\
  (vd_used_off = legacy_used_off vd_num -> 0 < count ->
    virtio_blk_read fuel lba count s = Spin /\ virtio_blk_write fuel lba count buffer s = Spin).
Proof.
  pose proof (b_cap s Hs) as [Hc Hc']. unfold is_u64 in Hc'. split.
  - intros Hoff Hf. assert (Ho : blk_ok s) by by split.
    assert (in_range (vd_cap (vdev (bus s))) lba count = true) as Hr by (unfold in_range; leb_cases; done || lia).
    pose proof (transferred_all _ _ _ Hfit) as Ht. split.
    + destruct (read_loop_spec fuel (Z.to_nat count) s lba count [] Ho) as (s' & E & H1 & H2); [lia.. | exact Hf |].
      exists s'. rewrite Ht, Hr in E. split; [exact E | split; [apply H1 | done]].
    + destruct (write_loop_spec fuel (Z.to_nat count) s lba count buffer Ho) as (s' & E & H1 & H2 & H3);
        [lia.. | exact Hf | lia | done |].
      exists s'. rewrite Hr in E. rewrite Ht in H3. split; [exact E | split; [apply H1 | done]].
  - intros Hoff Hpos. unfold virtio_blk_read, virtio_blk_write.
    destruct (Z.to_nat count) as [|tries] eqn:Et; [lia |]. cbn [read_loop write_loop].
    rewrite (proj2 (Z.eqb_neq _ _)) by lia.
    set (chunk := if 8 <? count then 8 else count). assert (0 < chunk <= Z.min 8 count) by (unfold chunk; leb_cases; lia).
    split; apply st_bind_spin, submit_waits; try done; try lia. intros _. split; [lia | done].
Qed.

End Driver.
