(* ===== verification/VirtioInit.v ===== *)
(** * Setting up the virtio driver

    The registers of the device ([VirtioSetup]), and: on a machine with such a device
    [virtio_blk_init] succeeds and establishes [blk_ready], whatever the size of its queue
    and wherever it keeps the used ring; with [blk_ok], the driver is a [BlockDev] for the
    file system. *)
From S2P Require Import Prelude Interfaces Phys DevMem Pci VirtioBlk VirtioProps.

(** Neither memory nor the device changes. *)
Definition quiet {B} `{!Bus B, !VirtioDisk B} (b b' : B) : Prop :=
  vdev b' = vdev b /\ forall x, is_ram x -> ram b' x = ram b x.
(** Only the device changes, to [v]. *)
Definition becomes {B} `{!Bus B, !VirtioDisk B} (b b' : B) (v : vdisk) : Prop :=
  vdev b' = v /\ forall x, is_ram x -> ram b' x = ram b x.

Class VirtioSetup (B : Type) `{!Bus B, !VirtioDisk B, !PciConfig B} := {
  vs_reg (off : Z) : Z := u16 (vd_io + off);
  vs_io : 0 < vd_io < 2 ^ 16 /\ Z.land vd_io 3 = 0;
  (** The configuration space is apart from the device's registers. *)
  vs_pci_out port v (b : B) : port = PCI_CONFIG_ADDR \/ port = PCI_CONFIG_DATA -> quiet b (port_out 4 port v b);
  vs_pci_in (b : B) : quiet b (port_in 4 PCI_CONFIG_DATA b).2;
  (** Writing 0 to the status resets the device; another value is the new status. *)
  vs_reset b : becomes b (port_out 1 (vs_reg VIRTIO_PCI_STATUS) 0 b)
    (VDisk 0 0 0 (vd_cap (vdev b)) (vd_disk (vdev b)));
  vs_status v b : 0 < v < 2 ^ 8 -> becomes b (port_out 1 (vs_reg VIRTIO_PCI_STATUS) v b)
    (VDisk (vd_queue (vdev b)) v (vd_seen (vdev b)) (vd_cap (vdev b)) (vd_disk (vdev b)));
  vs_get_status b : (port_in 1 (vs_reg VIRTIO_PCI_STATUS) b).1 = vd_status (vdev b) /\
    quiet b (port_in 1 (vs_reg VIRTIO_PCI_STATUS) b).2;
  vs_select b : quiet b (port_out 2 (vs_reg VIRTIO_PCI_QUEUE_SELECT) 0 b);
  vs_size b : (port_in 2 (vs_reg VIRTIO_PCI_QUEUE_SIZE) b).1 = vd_num /\
    quiet b (port_in 2 (vs_reg VIRTIO_PCI_QUEUE_SIZE) b).2;
  vs_queue p b : is_u32 p -> becomes b (port_out 4 (vs_reg VIRTIO_PCI_QUEUE_ADDRESS) p b)
    (VDisk p (vd_status (vdev b)) (vd_seen (vdev b)) (vd_cap (vdev b)) (vd_disk (vdev b)));
  (** The capacity, as two 32-bit halves. *)
  vs_config i b : i = 0 \/ i = 1 ->
    (port_in 4 (vs_reg (VIRTIO_PCI_CONFIG + 4 * i)) b).1 = vd_cap (vdev b) / 2 ^ (32 * i) mod 2 ^ 32 /\
    quiet b (port_in 4 (vs_reg (VIRTIO_PCI_CONFIG + 4 * i)) b).2;
  vs_cap b : is_u64 (vd_cap (vdev b));
}.

Section Init.
Context {B : Type} `{!Bus B, !VirtioDisk B, !PciConfig B, !VirtioSetup B}.
#[local] Set Default Proof Using "All".

Lemma bus_quiet_trans (b1 b2 b3 : B) : quiet b1 b2 -> quiet b2 b3 -> quiet b1 b3.
Proof. intros [E1 H1] [E2 H2]. split; [by rewrite E2 | intros x Hx; by rewrite H2, H1]. Qed.
#[local] Instance quiet_preorder : PreOrder (quiet (B := B)).
Proof. split; [by intros b | intros b1 b2 b3; apply bus_quiet_trans]. Qed.

(** ** The device found on the bus *)
Definition device_present (b : B) : Prop :=
  exists f, List.find (has_ids (cfg b) VIRTIO_VENDOR_ID VIRTIO_BLK_DEVICE_ID) (pci_functions (cfg b)) = Some f /\
    exists bars, pci_bar (device_at (cfg b) f) = Z.lor vd_io 1 :: bars.

Lemma find_virtio (b : B) : device_present b ->
  exists dev bars b', pci_find_device VIRTIO_VENDOR_ID VIRTIO_BLK_DEVICE_ID b = Ret (Some dev, b') /\
    quiet b b' /\ pci_bar dev = Z.lor vd_io 1 :: bars.
Proof.
  intros (f & Ef & bars & Eb).
  destruct (find_keeps quiet vs_pci_out vs_pci_in VIRTIO_VENDOR_ID VIRTIO_BLK_DEVICE_ID b) as (b' & E & Q).
  rewrite Ef in E. by exists (device_at (cfg b) f), bars, b'.
Qed.

Lemma bar0_is_io dev bars : pci_bar dev = Z.lor vd_io 1 :: bars -> pci_get_bar dev 0 = Ret (vd_io, Some false).
Proof.
  intros E. destruct vs_io as [Hr H3]. change 3 with (Z.ones 2) in H3. rewrite Z.land_ones in H3 by lia.
  assert (Z.lor vd_io 1 = vd_io + 1) as E1.
  { rewrite Z.lor_comm. replace vd_io with (Z.shiftl (vd_io / 4) 2) at 1 by (rewrite Z.shiftl_mul_pow2; lia).
    rewrite lor_shiftl by lia. lia. }
  unfold pci_get_bar. cbn [Z.ltb Z.compare orb]. rewrite (bind_ret _ (vd_io + 1)).
  2:{ apply zget_ok. split; [done |]. by rewrite E, E1. }
  unfold is_mmio. change 1 with (Z.ones 1) at 2. rewrite Z.land_ones by lia.
  rewrite (proj2 (Z.eqb_neq _ _)) by lia. cbn [negb]. do 2 f_equal. unfold u32_not.
  change (2 ^ 32 - 1 - 3) with (2 ^ 32 - 2 ^ 2). rewrite land_high_mask by lia. lia.
Qed.

(** ** The queue *)
Lemma io_write_bus w off v (s : drv B) :
  io_write w vd_io off v s = Ret ((), with_bus (port_out w (u16 (vd_io + off)) v (bus s)) s).
Proof. reflexivity. Qed.
Lemma io_read_bus w off (s : drv B) :
  io_read w vd_io off s = Ret ((port_in w (u16 (vd_io + off)) (bus s)).1, with_bus (port_in w (u16 (vd_io + off)) (bus s)).2 s).
Proof. unfold io_read, on_bus. cbn. by destruct (port_in w _ _). Qed.

Lemma capacity_spec (s : drv B) :
  exists b, virtio_blk_read_capacity vd_io s = Ret (vd_cap (vdev (bus s)), with_bus b s) /\ quiet (bus s) b.
Proof.
  pose proof (vs_cap (bus s)) as Hc. unfold is_u64 in Hc.
  destruct (vs_config 0 (bus s) ltac:(by left)) as [E0 Q0]. set (b0 := (port_in 4 _ (bus s)).2) in *.
  destruct (vs_config 1 b0 ltac:(by right)) as [E1 Q1]. set (b1 := (port_in 4 _ b0).2) in *.
  exists b1. split; [| by eapply bus_quiet_trans]. unfold virtio_blk_read_capacity, io_read32.
  rewrite (st_bind_ret _ _ _ _ _ (io_read_bus 4 _ s)). rewrite (st_bind_ret _ _ _ _ _ (io_read_bus 4 _ _)). cbn [bus with_bus].
  change (VIRTIO_PCI_CONFIG + 0) with (VIRTIO_PCI_CONFIG + 4 * 0).
  change (VIRTIO_PCI_CONFIG + 4) with (VIRTIO_PCI_CONFIG + 4 * 1).
  change (u16 (vd_io + (VIRTIO_PCI_CONFIG + 4 * 0))) with (vs_reg (VIRTIO_PCI_CONFIG + 4 * 0)).
  change (u16 (vd_io + (VIRTIO_PCI_CONFIG + 4 * 1))) with (vs_reg (VIRTIO_PCI_CONFIG + 4 * 1)).
  fold b0. fold b1. rewrite E0, E1. destruct Q0 as [-> _].
  rewrite Z.lor_comm, lor_shiftl by lia. unfold mret, st_ret. do 2 f_equal.
  change (2 ^ (32 * 0)) with 1. change (2 ^ (32 * 1)) with (2 ^ 32). lia.
Qed.

Lemma page_of p : p mod 4096 = 0 -> 0 <= p < 2 ^ 44 -> u32 (p / 4096) * 4096 = p.
Proof. intros H1 H2. unfold u32. lia. Qed.

Lemma zeros_rd (b b' : B) a n w off : upd vdev b a (repeat 0 n) b' -> ram_range a (Z.of_nat n) ->
  0 <= off -> 0 <= w -> off + w <= Z.of_nat n -> rd w b' (a + off) = 0.
Proof.
  intros U Hr H1 H2 H3. rewrite (upd_rd_in _ _ _ _ _ _ _ U); rewrite ?repeat_length; try done.
  assert (forall l, Forall (fun x => x = 0) l -> le_num l = 0) as Hz.
  { induction 1 as [|x l -> _ IH]; [done |]. cbn [le_num]. lia. }
  apply Hz. unfold slice. apply Forall_take, Forall_drop, Forall_forall. intros x Hx.
  by apply list_elem_of_In, repeat_spec in Hx.
Qed.

(** What [setup_queue] leaves in [g_blk] for blocks at [p], [p1], [p2] and [p3]. *)
Definition g_ready (n h p p1 p2 p3 cap : Z) : virtio_blk :=
  VirtioBlk vd_io n (p + h) (p + h + avail_off n) (p + h + used_off n) p 0
    (p1 + h) p1 (p2 + h) p2 (p3 + h) p3 cap true.

Lemma g_ready_ok (b0 b : B) n m h p p1 p2 p3 :
  0 < n <= 8 -> hhdm_offset m = h ->
  vdev b = VDisk (u32 (p / 4096)) 7 0 (vd_cap (vdev b0)) (vd_disk (vdev b0)) ->
  (forall w off, 0 <= off -> 0 <= w -> off + w <= queue_total n -> rd w b (p + off) = 0) ->
  p mod 4096 = 0 -> 0 <= p < 2 ^ 44 ->
  ptr_ok m (p + h) p (queue_total n) -> ptr_ok m (p1 + h) p1 16 -> ptr_ok m (p2 + h) p2 1 -> ptr_ok m (p3 + h) p3 4096 ->
  p + queue_total n <= p1 -> p1 + 16 <= p2 -> p2 + 1 <= p3 ->
  blk_ready (n := n) (Drv (g_ready n h p p1 p2 p3 (vd_cap (vdev b0))) m b).
Proof.
  intros Hn Hh Hv Hz Hm Hp H0 H1 H2 H3 L1 L2 L3. destruct (offsets n) as (Oa & Ou & Ot & _); [lia |].
  split; cbn [g_ready blk mem bus ready io_base queue_size desc avail used req req_phys
    status status_phys bounce bounce_phys last_used capacity]; rewrite ?Hv; cbn [vd_queue vd_seen vd_status vd_cap];
    rewrite ?page_of by done; try done.
  - unfold disjoint. lia.
  - rewrite <- Z.add_assoc. apply Hz; lia.
  - rewrite <- Z.add_assoc. apply Hz; lia.
  - split; [done | apply vs_cap].
Qed.

Lemma becomes_ram (b b' : B) v w a : becomes b b' v -> ram_range a w -> rd w b' a = rd w b a.
Proof. intros [_ H] Hr. apply rd_ext. intros x Hx. by apply H, Hr. Qed.

Lemma setup_queue_spec n (s : drv B) :
  0 < n <= 8 -> mem_region_ok (mem s) ->
  phys_alloc_next (mem s) + 16384 <= phys_alloc_end (mem s) ->
  vd_status (vdev (bus s)) = 3 -> vd_seen (vdev (bus s)) = 0 ->
  exists s', setup_queue vd_io n s = Ret (true, s') /\ blk_ready (n := n) s' /\
    vd_cap (vdev (bus s')) = vd_cap (vdev (bus s)) /\ disk s' = disk s.
Proof.
  intros Hn Hm Hroom Hst Hseen. destruct (offsets n) as (Oa & Ou & Ot & Ot'); [lia |].
  set (h := hhdm_offset (mem s)). set (t := queue_total n) in *.
  assert (0 < h /\ phys_alloc_end (mem s) + 8192 + h <= 2 ^ 64) as [Hh Hhe] by (split; apply Hm).
  assert (forall k, 0 <= k < 64 -> pow2 (2 ^ k)) as Hpow by (intros k Hk; by exists k).
  destruct (alloc_spec s t 4096 Hm ltac:(lia) (Hpow 12 ltac:(lia)) ltac:(lia) ltac:(lia))
    as (p & m0 & E0 & M0 & N0 & O0 & R0 & A0 & X0). fold h in E0, O0.
  assert (ptr_ok m0 (p + h) p t) as P0 by (apply (alloc_ptr (mem s)); try done; lia).
  set (s0 := Drv (blk s) m0 (bus s)) in *.
  destruct (store_bytes_writes vdev vd_store (repeat 0 (Z.to_nat t)) s0 (p + h) p) as (b1 & E1 & U1).
  { rewrite repeat_length. by rewrite Z2Nat.id by lia. }
  { apply Forall_forall. intros x Hx%list_elem_of_In%repeat_spec. subst. unfold is_u8. lia. }
  set (g1 := VirtioBlk vd_io n (p + h) (u64 (p + h + avail_off n)) (u64 (p + h + used_off n)) p 0 0 0 0 0 0 0 0 false).
  set (b2 := port_out 4 (vs_reg VIRTIO_PCI_QUEUE_ADDRESS) (u32 (p / 4096)) b1).
  pose proof (vs_queue (u32 (p / 4096)) b1 ltac:(apply u32_range)) as Q2. fold b2 in Q2.
  destruct U1 as [V1 U1]. cbn [bus s0] in V1. rewrite V1, Hst, Hseen in Q2.
  set (s2 := Drv g1 m0 b2).
  destruct (alloc_spec s2 16 16 M0 ltac:(lia) (Hpow 4 ltac:(lia)) ltac:(lia)) as (p1 & m1 & E2 & M1 & N1 & O1 & R1 & A1 & X1);
    [cbn [s2 mem]; lia |]. set (s3 := Drv (blk s2) m1 (bus s2)) in *.
  destruct (alloc_spec s3 1 1 M1 ltac:(lia) (Hpow 0 ltac:(lia)) ltac:(lia)) as (p2 & m2 & E3 & M2 & N2 & O2 & R2 & A2 & X2);
    [cbn [s2 s3 mem] in *; lia |]. set (s4 := Drv (blk s3) m2 (bus s3)) in *.
  destruct (alloc_spec s4 4096 16 M2 ltac:(lia) (Hpow 4 ltac:(lia)) ltac:(lia)) as (p3 & m3 & E4 & M3 & N3 & O3 & R3 & A3 & X3);
    [cbn [s2 s3 s4 mem] in *; lia |]. cbn [s2 s3 s4 mem blk bus] in *.
  rewrite O0 in E2, O1. rewrite O1 in E3, O2. rewrite O2 in E4, O3.
  set (g5 := VirtioBlk vd_io n (p + h) (u64 (p + h + avail_off n)) (u64 (p + h + used_off n)) p 0
    (p1 + h) p1 (p2 + h) p2 (p3 + h) p3 0 false).
  set (s5 := Drv g5 m3 b2).
  destruct (capacity_spec s5) as (b6 & E6 & Q6). cbn [bus s5] in E6, Q6.
  destruct (vs_get_status b6) as [E7 Q7]. set (b7 := (port_in 1 (vs_reg VIRTIO_PCI_STATUS) b6).2) in *.
  set (b8 := port_out 1 (vs_reg VIRTIO_PCI_STATUS) 7 b7). pose proof (vs_status 7 b7 ltac:(lia)) as Q8. fold b8 in Q8.
  pose proof (bus_quiet_trans _ _ _ Q6 Q7) as [V7 H7]. destruct Q2 as [V2 H2]. rewrite V7, V2 in Q8.
  destruct Q8 as [V8 H8]. cbn [vd_queue vd_seen vd_cap vd_disk] in V8.
  exists (Drv (g_ready n h p p1 p2 p3 (vd_cap (vdev (bus s)))) m3 b8).
  assert (0 <= p < 2 ^ 44) as Hp by (destruct Hm as ([[? ?] ?] & ? & _); lia).
  assert (forall w off, 0 <= off -> 0 <= w -> off + w <= t -> rd w b8 (p + off) = 0) as Hz.
  { intros w off Z1 Z2 Z3. destruct P0 as [_ _ Hr]. assert (ram_range (p + off) w) as Hr' by (eapply ram_range_sub; [exact Hr | lia..]).
    transitivity (rd w b1 (p + off)).
    - apply rd_ext. intros x Hx. by rewrite H8, H7, H2 by (by apply Hr').
    - apply (zeros_rd (bus s) b1 p (Z.to_nat t)); [by split | by rewrite Z2Nat.id by lia | lia..]. }
  assert (forall m q k, mem_region_ok m -> hhdm_offset m = h -> phys_alloc_next m <= q -> q + k <= phys_alloc_end m ->
    0 <= k -> ptr_ok m3 (q + h) q k) as Hptr.
  { intros m q k Hm' Hh' ? ? ?. rewrite <- Hh'. by apply alloc_ptr; [| | | by rewrite O3 |]. }
  pose proof (Hptr (mem s) p t Hm eq_refl ltac:(lia) ltac:(lia) ltac:(lia)) as I0.
  pose proof (Hptr m0 p1 16 M0 O0 ltac:(lia) ltac:(lia) ltac:(lia)) as I1.
  pose proof (Hptr m1 p2 1 M1 O1 ltac:(lia) ltac:(lia) ltac:(lia)) as I2.
  pose proof (Hptr m2 p3 4096 M2 O2 ltac:(lia) ltac:(lia) ltac:(lia)) as I3.
  split; [| split; [apply g_ready_ok; try done; fold t; lia | cbn [bus]; unfold disk; cbn [bus]; by rewrite V8]].
  assert (u64 (p + h + avail_off n) = p + h + avail_off n /\ u64 (p + h + used_off n) = p + h + used_off n)
    as [W1 W2] by (split; apply u64_id; unfold is_u64; lia).
  unfold setup_queue. cbv zeta. rewrite (st_bind_ret _ _ _ _ _ E0). cbn [from_option id fst snd].
  rewrite (proj2 (Z.eqb_neq (p + h) 0)) by lia. rewrite (st_bind_ret _ _ _ _ _ E1).
  rewrite (st_bind_ret _ _ _ tt (Drv g1 m0 b1)) by done. unfold io_write32.
  rewrite (st_bind_ret _ _ _ tt s2) by done.
  rewrite (st_bind_ret _ _ _ _ _ E2), (st_bind_ret _ _ _ _ _ E3), (st_bind_ret _ _ _ _ _ E4). cbn [from_option id fst snd].
  rewrite (st_bind_ret _ _ _ tt s5) by done.
  rewrite !(proj2 (Z.eqb_neq (_ + h) 0)) by lia. cbn [orb].
  rewrite (st_bind_ret _ _ _ _ _ E6). cbn [bus s5]. unfold io_read8, io_write8.
  rewrite (st_bind_ret _ _ _ _ _ (io_read_bus 1 _ _)). cbn [bus with_bus].
  change (u16 (vd_io + VIRTIO_PCI_STATUS)) with (vs_reg VIRTIO_PCI_STATUS). rewrite E7. fold b7.
  destruct Q6 as [V6 _]. rewrite V6, V2. cbn [vd_status vd_cap]. change (Z.lor 3 VIRTIO_STATUS_DRIVER_OK) with 7.
  rewrite (st_bind_ret _ _ _ tt (Drv g5 m3 b8)) by done. rewrite W1, W2. done.
Qed.

Lemma init_spec (s : drv B)
    (Hdev : device_present (bus s)) (Hmem : mem_region_ok (mem s)) (Hroom : phys_alloc_next (mem s) + 16384 <= phys_alloc_end (mem s)) :
  exists s', virtio_blk_init s = Ret (true, s') /\ blk_ready (n := Z.min 8 vd_num) s' /\
    vd_cap (vdev (bus s')) = vd_cap (vdev (bus s)) /\ disk s' = disk s.
Proof.
  pose proof (vd_num_range (B := B)) as Hnum. assert (0 < Z.min 8 vd_num <= 8) as Hmin by lia. destruct (find_virtio (bus s) Hdev) as (dev & bars & b1 & E1 & Q1 & Ebar).
  destruct (bus_master_keeps quiet vs_pci_out vs_pci_in dev b1) as (b2 & E2 & Q2). destruct vs_io as [Hio _].
  set (b3 := port_out 1 (vs_reg VIRTIO_PCI_STATUS) 0 b2). pose proof (vs_reset b2) as R3. fold b3 in R3.
  set (b4 := port_out 1 (vs_reg VIRTIO_PCI_STATUS) 3 b3). pose proof (vs_status 3 b3 ltac:(lia)) as R4. fold b4 in R4.
  set (b5 := port_out 2 (vs_reg VIRTIO_PCI_QUEUE_SELECT) 0 b4). pose proof (vs_select b4) as Q5. fold b5 in Q5.
  destruct (vs_size b5) as [E6 Q6]. set (b6 := (port_in 2 (vs_reg VIRTIO_PCI_QUEUE_SIZE) b5).2) in *.
  destruct (bus_quiet_trans _ _ _ Q5 Q6) as [V6 _]. destruct (bus_quiet_trans _ _ _ Q1 Q2) as [V2 _].
  destruct R3 as [V3 _], R4 as [V4 _]. rewrite V3, V2 in V4. rewrite V4 in V6. cbn [vd_queue vd_seen vd_cap vd_disk] in V6.
  set (s6 := Drv (VirtioBlk vd_io (Z.min 8 vd_num) 0 0 0 0 0 0 0 0 0 0 0 0 false) (mem s) b6).
  destruct (setup_queue_spec (Z.min 8 vd_num) s6 Hmin Hmem Hroom) as (s' & E & Hs' & Hc & Hd); [by cbn; rewrite V6.. |].
  exists s'. cbn [s6 bus] in Hc. unfold disk in Hd at 2. cbn [s6 bus] in Hd. rewrite V6 in Hc, Hd.
  split; [| by split]. unfold virtio_blk_init. rewrite (st_bind_ret _ _ _ tt (Drv g_blk0 (mem s) (bus s))) by done.
  rewrite (st_bind_ret _ _ _ (Some dev) (Drv g_blk0 (mem s) b1)) by (unfold on_bus; cbn [bus]; by rewrite (bind_ret _ _ _ E1)).
  rewrite (st_bind_ret _ _ _ tt (Drv g_blk0 (mem s) b2)) by (unfold on_bus; cbn [bus]; by rewrite (bind_ret _ _ _ E2)).
  rewrite (st_bind_ret _ _ _ (vd_io, Some false) (Drv g_blk0 (mem s) b2))
    by (unfold st_lift; by rewrite (bind_ret _ _ _ (bar0_is_io dev bars Ebar))).
  cbn [from_option id]. rewrite (proj2 (Z.eqb_neq vd_io 0)) by lia. cbn [orb]. cbv zeta.
  replace (u16 vd_io) with (vd_io) by (symmetry; apply u16_id; unfold is_u16; lia).
  set (g := VirtioBlk vd_io 0 0 0 0 0 0 0 0 0 0 0 0 0 false).
  rewrite (st_bind_ret _ _ _ tt (Drv g (mem s) b2)) by done. unfold io_write8, io_write16, io_read16.
  rewrite (st_bind_ret _ _ _ tt (Drv g (mem s) b3)) by done. rewrite (st_bind_ret _ _ _ tt (Drv g (mem s) b4)) by done.
  rewrite (st_bind_ret _ _ _ tt (Drv g (mem s) b5)) by done.
  rewrite (st_bind_ret _ _ _ vd_num (Drv g (mem s) b6)) by (rewrite io_read_bus; cbn [bus]; by rewrite <- E6).
  rewrite (proj2 (Z.eqb_neq vd_num 0)) by lia.
  replace (if 8 <? vd_num then 8 else vd_num) with (Z.min 8 vd_num) by (leb_cases; lia).
  rewrite (st_bind_ret _ _ _ tt s6) by done. exact E.
Qed.

(** C19: Initialisation: with a virtio block device on the PCI bus, whatever its queue size and
    ring layout, and 16 KiB of free memory, [virtio_blk_init] succeeds, and the driver is
    then ready, with a queue of the device's size cut to 8, and the disk unchanged.  The
    driver and a device of three to eight entries can then work together. *)
Theorem virtio_init_ready (s : drv B)
    (Hdev : device_present (bus s))
    (Hmem : mem_region_ok (mem s)) (Hroom : phys_alloc_next (mem s) + 16384 <= phys_alloc_end (mem s)) :
  exists s', virtio_blk_init s = Ret (true, s') /\ blk_ready (n := Z.min 8 vd_num) s' /\
    (3 <= vd_num <= 8 -> blk_wf s') /\
    vd_cap (vdev (bus s')) = vd_cap (vdev (bus s)) /\ disk s' = disk s.
Proof.
  destruct (init_spec s Hdev Hmem Hroom) as (s' & E & Hs' & Hrest). exists s'. split; [exact E |].
  split; [exact Hs' |]. split; [| exact Hrest]. intros Hn.
  rewrite Z.min_r in Hs' by lia. by split.
Qed.

(** ** The interface of the file system *)
Definition one_sector (r : res ((bool * list Z) * drv B)) (d : drv B) : option (list Z) * drv B :=
  match r with Ret ((true, l), d) => (Some l, d) | Ret ((false, _), d) => (None, d) | _ => (None, d) end.
Definition one_write (r : res (bool * drv B)) (d : drv B) : bool * drv B :=
  match r with Ret (ok, d) => (ok, d) | _ => (false, d) end.

(** The driver behind [fs.c]: one sector at a time. *)
#[export, refine] Instance virtio_blockdev : BlockDev (drv B) := {
  bd_read lba d := one_sector (virtio_blk_read vd_latency lba 1 d) d;
  bd_write lba b d := one_write (virtio_blk_write vd_latency lba 1 b d) d;
  bd_ok := blk_ok;
  bd_cap d := vd_cap (vdev (bus d));
  bd_view := disk;
}.
Proof.
  - intros lba d Hd Hl.
    destruct (read_loop_spec vd_latency 1 d lba 1 [] Hd) as (s' & E & H1 & H2 & H3);
      [lia | lia | destruct (b_cap d Hd) as [Hc Hc']; unfold is_u64 in Hc'; lia | done |].
    exists s'. unfold virtio_blk_read. change (Z.to_nat 1) with 1%nat. rewrite E.
    rewrite transferred_all by lia. unfold in_range. rewrite (proj2 (Z.leb_le _ _)) by lia.
    rewrite orb_true_r. cbn [one_sector]. split; [| by split_and!]. do 2 f_equal.
    unfold sectors. change (seqZ lba 1) with [0 + lba]. cbn. by rewrite app_nil_r.
  - intros lba b d Hd Hl Hb Hu.
    destruct (write_loop_spec vd_latency 1 d lba 1 b Hd) as (s' & E & H1 & H2 & H3);
      [lia | lia | destruct (b_cap d Hd) as [Hc Hc']; unfold is_u64 in Hc'; lia | done | lia | done |].
    exists s'. unfold virtio_blk_write. change (Z.to_nat 1) with 1%nat. rewrite E.
    unfold in_range. rewrite (proj2 (Z.leb_le _ _)) by lia. rewrite orb_true_r.
    split; [done |]. split; [done |]. split; [done |]. intros x. rewrite H3, transferred_all by lia.
    destruct (decide (x = lba)) as [->|Hx]; [rewrite decide_True by lia | rewrite decide_False by lia; done].
    unfold slice. replace (512 * (lba - lba)) with 0 by lia. rewrite drop_0. apply firstn_all2. lia.
  - intros d lba Hd. apply vd_sector.
Defined.
End Init.
