(* ===== verification/VirtioDevice.v ===== *)
(** * A machine with a virtio disk

    A concrete [Bus] with a configuration space, a virtio block device of four queue
    entries and 64 sectors, and memory: the hypotheses of the driver's theorems hold of
    it.  The device comes in two layouts: its used ring is right behind the available
    ring, or [aligned] as the legacy interface documents. *)
From S2P Require Import Prelude Interfaces Phys DevMem Pci VirtioBlk VirtioProps VirtioInit.

Record machine (aligned : bool) := Machine {
  m_ram : Z -> Z; m_latch : Z; m_cfg : Z -> Z;
  m_queue : Z; m_status : Z; m_seen : Z; m_disk : Z -> list Z;
}.
Arguments Machine {aligned}. Arguments m_ram {aligned}. Arguments m_latch {aligned}.
Arguments m_cfg {aligned}. Arguments m_queue {aligned}. Arguments m_status {aligned}.
Arguments m_seen {aligned}. Arguments m_disk {aligned}.

Definition m_io : Z := 0xC000.
Definition m_num : Z := 4.
Definition m_cap : Z := 64.
Definition m_used (aligned : bool) : Z :=
  if aligned then legacy_used_off m_num else used_off m_num.
Definition in_bytes (a n x : Z) : bool := (a <=? x) && (x <? a + n).
Definition set_bytes (a w v : Z) (f : Z -> Z) (x : Z) : Z :=
  if in_bytes a w x then v / 256 ^ (x - a) mod 256 else f x.

Section Machine.
Context {aligned : bool}.
#[local] Abbreviation machine := (machine aligned).
#[local] Abbreviation m_used := (m_used aligned).
Implicit Types b : machine.

Definition m_byte (b : machine) (x : Z) : Z := u8 (m_ram b x).
Definition m_rd (w : Z) (b : machine) (a : Z) : Z := le_num (m_byte b <$> seqZ a w).
(** 512 bytes, whatever is stored. *)
Definition m_sector (b : machine) (i : Z) : list Z := u8 <$> take 512 (m_disk b i ++ repeat 0 512).

(** The device takes the request from the descriptors and answers at once. *)
Definition m_serve (b : machine) : machine :=
  let q := m_queue b * 4096 in
  let req := m_rd 8 b q in let data := m_rd 8 b (q + 16) in let status := m_rd 8 b (q + 32) in
  let n := m_rd 4 b (q + 24) / 512 in
  let write := m_rd 4 b req =? VIRTIO_BLK_T_OUT in let lba := m_rd 8 b (req + 8) in
  let ok := lba + n <=? m_cap in
  let old := m_rd 2 b (q + m_used + 2) in
  let mem1 x := if negb write && ok && in_bytes data (512 * n) x
                then byte_at (m_sector b (lba + (x - data) / 512)) ((x - data) mod 512) else m_byte b x in
  let mem2 := set_bytes status 1 (if ok then 0 else 1) mem1 in
  let mem3 := set_bytes (q + m_used + 2) 2 (u16 (old + 1)) mem2 in
  Machine mem3 (m_latch b) (m_cfg b) (m_queue b) (m_status b) (u16 (m_seen b + 1))
    (fun i => if write && ok && in_bytes lba n i then m_byte b <$> seqZ (data + 512 * (i - lba)) 512 else m_disk b i).

Definition m_reg (port : Z) (b : machine) : Z :=
  if port =? PCI_CONFIG_DATA then u32 (m_cfg b (m_latch b))
  else if port =? m_io + VIRTIO_PCI_QUEUE_SIZE then m_num
  else if port =? m_io + VIRTIO_PCI_STATUS then u8 (m_status b)
  else if port =? m_io + VIRTIO_PCI_CONFIG then m_cap else 0.
Definition m_out (port v : Z) (b : machine) : machine :=
  if port =? PCI_CONFIG_ADDR then Machine (m_ram b) v (m_cfg b) (m_queue b) (m_status b) (m_seen b) (m_disk b)
  else if port =? PCI_CONFIG_DATA then
    Machine (m_ram b) (m_latch b) (fun a => if a =? m_latch b then v else m_cfg b a) (m_queue b) (m_status b) (m_seen b) (m_disk b)
  else if port =? m_io + VIRTIO_PCI_QUEUE_ADDRESS then
    Machine (m_ram b) (m_latch b) (m_cfg b) v (m_status b) (m_seen b) (m_disk b)
  else if port =? m_io + VIRTIO_PCI_STATUS then
    if v =? 0 then Machine (m_ram b) (m_latch b) (m_cfg b) 0 0 0 (m_disk b)
    else Machine (m_ram b) (m_latch b) (m_cfg b) (m_queue b) v (m_seen b) (m_disk b)
  else if port =? m_io + VIRTIO_PCI_QUEUE_NOTIFY then m_serve b else b.

#[export, refine] Instance machine_ports : PortIO machine := {
  port_in w port b := (m_reg port b mod 256 ^ w, b);
  port_out w port v b := m_out port v b;
}.
Proof. intros w port b Hw. cbn. apply Z.mod_pos_bound. apply Z.pow_pos_nonneg; lia. Defined.

#[export, refine] Instance machine_bus : Bus machine := {
  bus_ports := machine_ports;
  is_ram x := 0 <= x < 2 ^ 32;
  ram := m_byte;
  mem_load w a b := (m_rd w b a, b);
  mem_store w a v b := Machine (set_bytes a w v (m_ram b)) (m_latch b) (m_cfg b) (m_queue b) (m_status b) (m_seen b) (m_disk b);
}.
Proof.
  - intros b a. apply u8_range.
  - done.
  - intros w a v b x _ _. unfold m_byte, set_bytes, in_bytes. cbn [m_ram].
    destruct (decide (a <= x < a + w)) as [H|H].
    + rewrite (proj2 (Z.leb_le _ _)), (proj2 (Z.ltb_lt _ _)) by lia. apply u8_id. apply (Z.mod_pos_bound _ 256). lia.
    + destruct (Z.leb_spec a x), (Z.ltb_spec x (a + w)); try lia; done.
Defined.

Definition m_vdev (b : machine) : vdisk := VDisk (m_queue b) (u8 (m_status b)) (m_seen b) m_cap (m_sector b).

#[export, refine] Instance machine_pci : PciConfig machine := {
  cfg b a := u32 (m_cfg b a);
  cfg_latch := m_latch;
  cfg_reg _ _ v := u32 v;
}.
Proof.
  - done.
  - intros b. cbn. split; [| done]. rewrite Z.mod_small; [done |]. apply u32_range.
  - intros v b a. cbn. destruct (decide (a = m_latch b)) as [->|H]; [by rewrite Z.eqb_refl |].
    by rewrite (proj2 (Z.eqb_neq _ _) H).
Defined.

Lemma in_bytes_spec a n x : in_bytes a n x = bool_decide (a <= x < a + n).
Proof. unfold in_bytes. case_bool_decide; leb_cases; lia || done. Qed.
Lemma set_bytes_in a w v f x : a <= x < a + w -> set_bytes a w v f x = v / 256 ^ (x - a) mod 256.
Proof. intros H. unfold set_bytes. by rewrite in_bytes_spec, bool_decide_true. Qed.
Lemma set_bytes_out a w v f x : ~ (a <= x < a + w) -> set_bytes a w v f x = f x.
Proof. intros H. unfold set_bytes. by rewrite in_bytes_spec, bool_decide_false. Qed.

Lemma m_rd_set (b : machine) a w v f : m_ram b = set_bytes a (Z.of_nat w) v f ->
  m_rd (Z.of_nat w) b a = v mod 256 ^ Z.of_nat w.
Proof.
  intros E. rewrite <- le_num_bytes. unfold m_rd. f_equal.
  apply list_eq_same_length with (n := w); [apply length_le_bytes | by rewrite length_fmap, length_seqZ, Nat2Z.id |].
  intros i x y Hi Hx Hy. apply list_lookup_fmap_Some in Hx as (k & -> & [-> _]%lookup_seqZ).
  unfold m_byte. rewrite E, set_bytes_in by lia.
  pose proof (byte_at_le_bytes w v (Z.of_nat i) ltac:(lia)) as H. unfold byte_at in H. rewrite Nat2Z.id, Hy in H.
  cbn in H. rewrite H. replace (a + Z.of_nat i - a) with (Z.of_nat i) by lia. apply u8_id. by apply (Z.mod_pos_bound _ 256).
Qed.

Lemma m_sector_ok b i : length (m_sector b i) = 512%nat /\ Forall is_u8 (m_sector b i).
Proof.
  unfold m_sector. split.
  - rewrite length_fmap, length_take, length_app, repeat_length. lia.
  - apply Forall_fmap, Forall_true. intros x. apply u8_range.
Qed.
Lemma m_sector_bytes (b : machine) a : u8 <$> take 512 ((m_byte b <$> seqZ a 512) ++ repeat 0 512) = m_byte b <$> seqZ a 512.
Proof.
  rewrite take_app_length' by (by rewrite length_fmap, length_seqZ). rewrite <- list_fmap_compose.
  apply list_fmap_ext. intros i x _. cbn. apply u8_id, u8_range.
Qed.
Lemma sector_bytes (l : list Z) (f : Z -> Z) a : length l = 512%nat ->
  (forall x, a <= x < a + 512 -> f x = byte_at l (x - a)) -> f <$> seqZ a 512 = l.
Proof.
  intros Hl Hf. apply list_eq_same_length with (n := 512%nat); [done | by rewrite length_fmap, length_seqZ |].
  intros i x y Hi Hx Hy. apply list_lookup_fmap_Some in Hx as (k & -> & [-> _]%lookup_seqZ).
  rewrite Hf by lia. unfold byte_at. replace (Z.to_nat _) with i by lia. by rewrite Hy.
Qed.

Lemma iter_id {X} (f : X -> X) k c : (forall c, f c = c) -> Nat.iter k f c = c.
Proof. intros Hf. induction k as [|k IH]; cbn; [done | by rewrite Hf]. Qed.

Lemma m_used_range : 18 * m_num + 4 <= m_used.
Proof. unfold m_used. destruct aligned; by vm_compute. Qed.

(** The memory after a request: the data, the status, the used ring. *)
Definition read_bytes (b : machine) (r : vrequest) (x : Z) : Z :=
  if negb (r_write r) && (r_lba r + r_n r <=? m_cap) && in_bytes (r_data r) (512 * r_n r) x
  then byte_at (m_sector b (r_lba r + (x - r_data r) / 512)) ((x - r_data r) mod 512) else m_byte b x.
Definition answered (b : machine) (r : vrequest) : machine :=
  let q := m_queue b * 4096 in let ok := r_lba r + r_n r <=? m_cap in
  let mem2 := set_bytes (r_status r) 1 (if ok then 0 else 1) (read_bytes b r) in
  Machine (set_bytes (q + m_used + 2) 2 (u16 (m_rd 2 b (q + m_used + 2) + 1)) mem2)
    (m_latch b) (m_cfg b) (m_queue b) (m_status b) (u16 (m_seen b + 1))
    (fun i => if r_write r && ok && in_bytes (r_lba r) (r_n r) i
              then m_byte b <$> seqZ (r_data r + 512 * (i - r_lba r)) 512 else m_disk b i).

Lemma m_serve_answered (b : machine) r t : pending m_num t (m_vdev b) b r -> m_serve b = answered b r.
Proof.
  intros [P1 [P2 P2'] P3 P4 [P5 _] [P6 [P6' _]] [P7 _] P8 P9 _ _].
  change (@rd machine machine_bus) with m_rd in *. cbn [m_vdev vd_queue vd_seen] in *.
  unfold m_serve, answered, read_bytes. rewrite P5, P6, P6', P7, P8, P9.
  replace (512 * r_n r / 512) with (r_n r) by lia.
  assert (((if r_write r then VIRTIO_BLK_T_OUT else VIRTIO_BLK_T_IN) =? VIRTIO_BLK_T_OUT) = r_write r) as ->
    by (destruct (r_write r); done). done.
Qed.

(** A byte outside the used ring and the status is that of the data or as it was. *)
Lemma answered_ram (b : machine) r x :
  ~ (m_queue b * 4096 + m_used <= x < m_queue b * 4096 + m_used + used_sz m_num) -> x <> r_status r ->
  m_byte (answered b r) x = u8 (read_bytes b r x).
Proof.
  intros Hu Hs. unfold used_sz, m_num in Hu. unfold m_byte, answered. cbn [m_ram].
  rewrite !set_bytes_out by lia. done.
Qed.
Lemma read_bytes_out (b : machine) r x :
  r_write r = true \/ ~ (r_data r <= x < r_data r + 512 * r_n r) -> read_bytes b r x = m_byte b x.
Proof.
  intros Hd. unfold read_bytes. rewrite in_bytes_spec. destruct Hd as [-> | Hd]; [done |].
  rewrite bool_decide_false by lia. by rewrite andb_false_r.
Qed.

Lemma m_serve_ok (b : machine) r : pending m_num (m_used + used_sz m_num) (m_vdev b) b r ->
  served m_num m_used (m_vdev b) b r (m_vdev (m_serve b)) (m_serve b).
Proof.
  intros Pd. rewrite (m_serve_answered b r _ Pd). destruct Pd as [_ [P2 P2'] _ _ _ _ _ _ _ _ P11].
  unfold disjoint, used_sz, m_num in P11. pose proof m_used_range as Hu0. unfold m_num in Hu0.
  change (vd_queue (m_vdev b)) with (m_queue b) in P11. set (q := m_queue b * 4096) in *.
  split.
  - change (@rd machine machine_bus) with m_rd. change (vd_queue (m_vdev b)) with (m_queue b). fold q.
    rewrite (m_rd_set _ _ 2 (u16 (m_rd 2 b (q + m_used + 2) + 1)) (set_bytes (r_status r) 1
      (if r_lba r + r_n r <=? m_cap then 0 else 1) (read_bytes b r))) by done.
    apply Z.mod_small, u16_range.
  - change (ram (answered b r)) with (m_byte (answered b r)). unfold m_byte, answered. cbn [m_ram].
    fold q. rewrite set_bytes_out, set_bytes_in by lia. replace (r_status r - r_status r) with 0 by lia.
    change (vd_cap (m_vdev b)) with m_cap. by destruct (_ <=? _).
  - intros Hw Hok j Hj. change (ram (answered b r)) with (m_byte (answered b r)).
    change (vd_disk (m_vdev b) (r_lba r + j)) with (m_sector b (r_lba r + j)).
    destruct (m_sector_ok b (r_lba r + j)) as [Hl Hu].
    apply sector_bytes; [done |]. intros x Hx. rewrite answered_ram by (unfold used_sz, m_num; fold q; lia).
    unfold read_bytes. change (vd_cap (m_vdev b)) with m_cap in Hok.
    rewrite (proj2 (Z.leb_le _ _) Hok), Hw, in_bytes_spec, bool_decide_true by lia. cbn [negb andb].
    replace ((x - r_data r) / 512) with j by lia. replace ((x - r_data r) mod 512) with (x - (r_data r + 512 * j)) by lia.
    apply u8_id. by apply byte_at_u8.
  - intros x _ Hx Hs Hd. change (ram ?m) with (m_byte m). rewrite answered_ram by done.
    rewrite read_bytes_out by done. apply u8_id, u8_range.
  - done.
  - intros i. cbn [m_vdev vd_disk vd_cap]. unfold m_sector at 1. cbn [answered m_disk].
    change (ram b) with (m_byte b). rewrite in_bytes_spec.
    destruct (decide _) as [(-> & H & Hi)|H].
    + rewrite (proj2 (Z.leb_le _ _) H), bool_decide_true by done. cbn [andb]. apply m_sector_bytes.
    + assert (r_write r && (r_lba r + r_n r <=? m_cap) && bool_decide (r_lba r <= i < r_lba r + r_n r) = false) as ->; [| done].
      destruct (r_write r); [| done]. destruct (Z.leb_spec (r_lba r + r_n r) m_cap); [| done]. rewrite bool_decide_false by tauto. done.
Qed.

#[export, refine] Instance machine_disk : VirtioDisk machine := {
  vd_io := m_io; vd_num := m_num; vd_used_off := m_used; vd_latency := 0%nat; vdev := m_vdev;
}.
Proof.
  - done.
  - apply m_used_range.
  - intros b i. apply m_sector_ok.
  - done.
  - intros b r Hp. exists 0%nat. split; [done |]. split; [lia |]. apply (m_serve_ok b r Hp).
  - intros b r t i x Hp Ht Hx used Hu Hs Hd.
    rewrite (iter_id _ i) by done.
    change (port_out 2 _ 0 b) with (m_serve b). rewrite (m_serve_answered b r t Hp).
    change (ram ?m) with (m_byte m). rewrite answered_ram, read_bytes_out by done. apply u8_id, u8_range.
Defined.

#[export, refine] Instance machine_setup : VirtioSetup machine := { }.
Proof.
  - done.
  - intros port v b [-> | ->]; by split.
  - intros b. by split.
  - intros b. by split.
  - intros v b Hv. split; [| by destruct v].
    transitivity (VDisk (m_queue b) (u8 v) (m_seen b) m_cap (m_sector b)).
    { destruct v as [|v|v]; [lia | reflexivity | lia]. }
    rewrite u8_id; [done | unfold is_u8; lia].
  - intros b. split; [| by split]. cbn -[u8]. rewrite Z.mod_small; [done |]. apply (u8_range (m_status b)).
  - intros b. by split.
  - intros b. by split.
  - intros p b Hp. by split.
  - intros i b [-> | ->]; by split.
  - intros b. by split.
Defined.

End Machine.

(** Slot 3 of bus 0 holds the device; the base address is that of its registers. *)
Definition m_config (a : Z) : Z :=
  if a =? pci_make_addr 0 3 0 0x00 then 0x10011AF4
  else if a =? pci_make_addr 0 3 0 0x0C then 0
  else if a =? pci_make_addr 0 3 0 0x10 then 0xC001 else 2 ^ 32 - 1.
Definition m_boot (aligned : bool) : machine aligned :=
  Machine (fun _ => 0) 0 m_config 0 0 0 (fun i => repeat i 512).
Definition m_phys : phys := Phys (2 ^ 40) None 0x100000 0x200000 0x100000 0 0 0.
Definition drv_boot (aligned : bool) : drv (machine aligned) := Drv g_blk0 m_phys (m_boot aligned).

Lemma m_present aligned : device_present (m_boot aligned).
Proof.
  exists (0, 3, 0). split; [destruct aligned; vm_compute; reflexivity |].
  eexists. destruct aligned; vm_compute; reflexivity.
Qed.
Lemma m_region aligned : mem_region_ok (B := machine aligned) m_phys.
Proof.
  unfold mem_region_ok, region_ok. cbn. split_and!; lia.
Qed.

(** The drivers of the two machines after the initialization. *)
Lemma m_started aligned : exists s, virtio_blk_init (drv_boot aligned) = Ret (true, s) /\ blk_wf s /\
  vd_cap (vdev (bus s)) = 64.
Proof.
  destruct (init_spec (drv_boot aligned) (m_present aligned)) as (s & E & H & Hc & _);
    [exact (m_region _) | by vm_compute |].
  exists s. split; [exact E |]. split; [split; [exact H |] |].
  - change (3 <= m_num <= 8). unfold m_num. lia.
  - rewrite Hc. reflexivity.
Qed.

(** The documented layout. *)
Lemma virtio_init_ready_witness : exists s', virtio_blk_init (drv_boot true) = Ret (true, s') /\ blk_wf s'.
Proof.
  destruct (virtio_init_ready (drv_boot true) (m_present true)) as (s' & E & _ & H & _);
    [exact (m_region _) | by vm_compute |].
  exists s'. split; [exact E | apply H; change (3 <= m_num <= 8); unfold m_num; lia].
Defined.

Lemma ones_u8 n : Forall is_u8 (repeat 1 n).
Proof. apply Forall_forall. intros x Hx%list_elem_of_In%repeat_spec. rewrite Hx. by vm_compute. Qed.

(** Two sectors of ones over sectors 9 and 10, on the packed and on the aligned layout. *)
Lemma virtio_refines_disk_witness :
  (exists (s s' : drv (machine false)),
    blk_wf s /\ virtio_blk_write 0 9 2 (repeat 1 1024) s = Ret (true, s') /\ disk s' 10 = repeat 1 512) /\
  (exists s : drv (machine true),
    blk_wf s /\ virtio_blk_read 1000 9 2 s = Spin).
Proof.
  split.
  - destruct (m_started false) as (s & _ & H & Hc).
    destruct (proj1 (virtio_refines_disk 0 s 9 2 (repeat 1 1024) H ltac:(lia) ltac:(lia)
      ltac:(rewrite Hc; lia) eq_refl (ones_u8 1024)) eq_refl (le_n 0)) as [_ (s' & E' & _ & _ & D)].
    exists s, s'. split; [exact H |]. split; [exact E' |]. rewrite D. vm_compute. reflexivity.
  - destruct (m_started true) as (s & _ & H & Hc). exists s. split; [exact H |].
    exact (proj1 (proj2 (virtio_refines_disk 1000 s 9 2 (repeat 1 1024) H ltac:(lia) ltac:(lia)
      ltac:(rewrite Hc; lia) eq_refl (ones_u8 1024)) eq_refl ltac:(lia))).
Defined.


Lemma pci_find_device_first_witness : exists p',
  pci_find_device VIRTIO_VENDOR_ID VIRTIO_BLK_DEVICE_ID (m_boot true) = Ret (Some (device_at (cfg (m_boot true)) (0, 3, 0)), p').
Proof.
  destruct (pci_find_device_first VIRTIO_VENDOR_ID VIRTIO_BLK_DEVICE_ID (m_boot true)) as (p' & E & _).
  exists p'. rewrite E.
  refine (f_equal (fun x => Ret (device_at (cfg (m_boot true)) <$> x, p')) (_ : _ = Some (0, 3, 0))). vm_compute. reflexivity.
Defined.
