(* ===== verification/Serial.v ===== *)
(** * The serial console and the log ([src/src/drivers/serial.c], [src/src/services/log.c])

    Text goes to COM1 byte by byte; the wait for the transmitter has a budget.  A string
    is the list of its characters before the NUL. *)
From S2P Require Import Prelude Interfaces.

Definition COM1_PORT : Z := 0x3F8.

(** ** Decimal numbers ([u64_to_dec] of log.c) *)
(** The loop that fills [tmp[24]], last digit first; [n] bounds its iterations. *)
Fixpoint dec_digits (n : nat) (value : Z) : list Z :=
  match n with
  | O => []
  | S n => if value =? 0 then [] else 48 + value mod 10 :: dec_digits n (value / 10)
  end.
(** What is written to [out] up to the NUL; [None] leaves it as it was. *)
Definition u64_to_dec (max value : Z) : option (list Z) :=
  if max <=? 1 then None else
  if value =? 0 then Some [48] else
  Some (take (Z.to_nat (max - 1)) (rev (dec_digits 24 value))).

Inductive log_level := LOG_LEVEL_PANIC | LOG_LEVEL_ERROR | LOG_LEVEL_WARN | LOG_LEVEL_INFO | LOG_LEVEL_DEBUG | LOG_LEVEL_OTHER (n : Z).
Definition level_to_str (l : log_level) : list Z :=
  match l with
  | LOG_LEVEL_PANIC => [80; 65; 78; 73; 67]
  | LOG_LEVEL_ERROR => [69; 82; 82; 79; 82]
  | LOG_LEVEL_WARN => [87; 65; 82; 78]
  | LOG_LEVEL_INFO => [73; 78; 70; 79]
  | LOG_LEVEL_DEBUG => [68; 69; 66; 85; 71]
  | LOG_LEVEL_OTHER _ => [76; 79; 71]
  end.

(** [serial_initialized], and the ports. *)
Record serial (P : Type) := SerialState { serial_initialized : bool; sports : P }.
Arguments SerialState {P}. Arguments serial_initialized {P}. Arguments sports {P}.

Section Code.
Context {P : Type} `{!PortIO P}.
Definition M (A : Type) : Type := st (serial P) A.

Definition outb (port v : Z) : M () := fun s => Ret ((), SerialState (serial_initialized s) (port_out 1 port v (sports s))).
Definition inb (port : Z) : M Z := fun s =>
  let (v, p) := port_in 1 port (sports s) in Ret (v, SerialState (serial_initialized s) p).

Definition serial_init : M () :=
  _ ← outb (COM1_PORT + 1) 0x00; _ ← outb (COM1_PORT + 3) 0x80; _ ← outb (COM1_PORT + 0) 0x03;
  _ ← outb (COM1_PORT + 1) 0x00; _ ← outb (COM1_PORT + 3) 0x03; _ ← outb (COM1_PORT + 2) 0xC7;
  _ ← outb (COM1_PORT + 4) 0x0B; st_modify (fun s => SerialState true (sports s)).
Definition serial_tx_ready : M bool := v ← inb (COM1_PORT + 5); mret (negb (Z.land v 0x20 =? 0)).
Fixpoint wait_tx (fuel : nat) : M () :=
  r ← serial_tx_ready;
  if r : bool then mret () else match fuel with O => st_spin | S fuel => wait_tx fuel end.
Definition serial_write_char (fuel : nat) (c : Z) : M () :=
  s ← st_get;
  _ ← (if negb (serial_initialized s) then serial_init else mret ());
  _ ← wait_tx fuel; outb COM1_PORT c.
(** 13 is the carriage return before each newline. *)
Fixpoint serial_write_str (fuel : nat) (text : list Z) : M () :=
  match text with
  | [] => mret ()
  | c :: text =>
      _ ← (if c =? 10 then serial_write_char fuel 13 else mret ());
      _ ← serial_write_char fuel c; serial_write_str fuel text
  end.

Definition log_init : M () := serial_init.
(** An absent string ([NULL]) is [None]. *)
Definition write_opt (fuel : nat) (s : option (list Z)) : M () :=
  match s with Some t => serial_write_str fuel t | None => mret () end.
Definition log_write (fuel : nat) (level : log_level) (msg : option (list Z)) : M () :=
  _ ← serial_write_str fuel [91]; _ ← serial_write_str fuel (level_to_str level); _ ← serial_write_str fuel [93; 32];
  _ ← write_opt fuel msg; serial_write_str fuel [10].
(** Up to the loop that halts the processor. *)
Definition panic (fuel : nat) (file : option (list Z)) (line : Z) (msg : option (list Z)) : M () :=
  _ ← serial_write_str fuel [91; 80; 65; 78; 73; 67; 93; 32];
  _ ← match file with Some f => _ ← serial_write_str fuel f; serial_write_str fuel [58] | None => mret () end;
  _ ← serial_write_str fuel (default [] (u64_to_dec 24 (u64 line)));
  _ ← serial_write_str fuel [58; 32]; _ ← write_opt fuel msg; serial_write_str fuel [10].
End Code.

(** ** Decimal text is the number *)
(** The value of decimal digits, first digit first. *)
Definition dec_value (l : list Z) : Z := fold_left (fun v c => 10 * v + (c - 48)) l 0.

Lemma dec_value_snoc l c : dec_value (l ++ [c]) = 10 * dec_value l + (c - 48).
Proof. unfold dec_value. by rewrite fold_left_app. Qed.

Lemma dec_digits_value n : forall v, 0 <= v < 10 ^ Z.of_nat n -> dec_value (rev (dec_digits n v)) = v.
Proof.
  induction n as [|n IH]; intros v Hv; [cbn in *; lia |]. cbn [dec_digits].
  destruct (Z.eqb_spec v 0) as [->|Hne]; [done |]. cbn [rev]. rewrite dec_value_snoc, IH; [lia |].
  rewrite Nat2Z.inj_succ, Z.pow_succ_r in Hv by lia. lia.
Qed.

Lemma dec_digits_length n : forall v k, 0 <= v < 10 ^ Z.of_nat k -> (length (dec_digits n v) <= k)%nat.
Proof.
  induction n as [|n IH]; intros v k Hv; [cbn; lia |]. cbn [dec_digits].
  destruct (Z.eqb_spec v 0) as [->|Hne]; [cbn; lia |]. destruct k as [|k]; [cbn in Hv; lia |]. cbn [length].
  specialize (IH (v / 10) k). rewrite Nat2Z.inj_succ, Z.pow_succ_r in Hv by lia.
  assert (0 <= v / 10 < 10 ^ Z.of_nat k) by lia. specialize (IH H). lia.
Qed.

Lemma dec_digits_chars n : forall v, 0 <= v -> Forall (fun c => 48 <= c <= 57) (dec_digits n v).
Proof.
  induction n as [|n IH]; intros v Hv; [constructor |]. cbn [dec_digits]. destruct (v =? 0); [constructor |].
  constructor; [lia | apply IH; lia].
Qed.

(** No leading zero: the digit written last by the loop is not 0. *)
Lemma dec_digits_last n : forall v, 0 < v < 10 ^ Z.of_nat n -> exists c l, dec_digits n v = l ++ [c] /\ c <> 48.
Proof.
  induction n as [|n IH]; intros v Hv; [cbn in Hv; lia |]. cbn [dec_digits].
  rewrite (proj2 (Z.eqb_neq v 0)) by lia. rewrite Nat2Z.inj_succ, Z.pow_succ_r in Hv by lia.
  destruct (Z.eq_dec (v / 10) 0) as [E|E].
  - exists (48 + v mod 10), []. assert (dec_digits n (v / 10) = []) as -> by (rewrite E; by destruct n). split; [done | lia].
  - destruct (IH (v / 10)) as (c & l & -> & Hc); [lia |]. by exists c, (48 + v mod 10 :: l).
Qed.

(** [u64_to_dec] into a buffer of 21 bytes or more writes the decimal digits of the number:
    they read back as the value, for every 64-bit number, without a leading zero, and with
    the NUL fit in the buffer. *)
Theorem u64_to_dec_roundtrip max v (Hmax : 21 <= max) (Hv : is_u64 v) :
  exists l, u64_to_dec max v = Some l /\ dec_value l = v /\
    Forall (fun c => 48 <= c <= 57) l /\ (length l <= 20)%nat /\
    (v <> 0 -> List.hd 48 l <> 48).
Proof.
  unfold is_u64 in Hv. unfold u64_to_dec. rewrite (proj2 (Z.leb_gt _ _)) by lia.
  destruct (Z.eqb_spec v 0) as [->|Hne].
  { exists [48]. split_and!; try done; [repeat constructor; lia | cbn; lia]. }
  pose proof (dec_digits_length 24 v 20 ltac:(lia)) as Hl.
  eexists. split; [reflexivity |]. rewrite firstn_all2 by (rewrite length_rev; lia).
  split; [apply dec_digits_value; lia |]. split; [by apply Forall_rev, dec_digits_chars; lia |].
  split; [by rewrite length_rev |]. intros _. destruct (dec_digits_last 24 v ltac:(lia)) as (c & l & -> & Hc).
  by rewrite rev_app_distr.
Qed.

Lemma u64_to_dec_roundtrip_witness : exists l, u64_to_dec 24 (2 ^ 64 - 1) = Some l /\ dec_value l = 2 ^ 64 - 1.
Proof.
  destruct (u64_to_dec_roundtrip 24 (2 ^ 64 - 1)) as (l & E & H & _); [lia | by vm_compute |]. by exists l.
Defined.
