(* ===== verification/Interrupts.v ===== *)
(** * Interrupts and the timer ([src/src/kernel/interrupts.c], [pit_init], [timer_handler]
    and [reboot] of [src/src/kernel/cpu.c])

    The descriptor table, the interrupt controllers (8259) behind their ports, the
    handlers of the vectors and of the IRQs.  Addresses of handlers are chosen by the
    linker ([addr_of]); a function registered for an IRQ acts on the devices
    ([call_irq]).  [isr_vector_0xf0] is modelled with the scheduler, in Task.v.  The
    instructions [cli], [sti], [lidt] and [hlt] are not modelled. *)
From S2P Require Import Prelude Interfaces Heap Task Input Serial.

Definition IDT_SIZE : Z := 256.
Definition PIC1_COMMAND : Z := 0x20.
Definition PIC1_DATA : Z := 0x21.
Definition PIC2_COMMAND : Z := 0xA0.
Definition PIC2_DATA : Z := 0xA1.
Definition PIT_HZ : Z := 60.

(** [struct idt_entry] *)
Record gate := Gate {
  offset_low : Z; selector : Z; ist : Z; type_attr : Z; offset_mid : Z; offset_high : Z; gate_zero : Z;
}.
Definition gate0 : gate := Gate 0 0 0 0 0 0 0.
Definition make_gate (code_selector addr : Z) : gate :=
  Gate (Z.land addr 0xFFFF) code_selector 0 0x8E (Z.land (Z.shiftr addr 16) 0xFFFF)
       (Z.land (Z.shiftr addr 32) 0xFFFFFFFF) 0.

(** [struct interrupt_frame] *)
Record interrupt_frame := InterruptFrame { f_rip : Z; f_cs : Z; f_rflags : Z; f_rsp : Z; f_ss : Z }.

(** The handlers written in C; with them the assembly stub of the scheduler and the
    functions given to [interrupts_set_vector]. *)
Inductive handler :=
  | isr_default_noerr | isr_default_err | isr_ex (n : Z) | isr_irq (n : Z) | isr_timer | isr_keyboard | isr_mouse.
Inductive isr := in_c (h : handler) | isr_vector_0xf0 | isr_other (addr : Z).
Coercion in_c : handler >-> isr.
#[export] Instance handler_eq : EqDecision handler. Proof. solve_decision. Defined.
#[export] Instance isr_eq : EqDecision isr. Proof. solve_decision. Defined.
(** The exceptions whose handler takes an error code. *)
Definition has_error_code (n : Z) : bool := bool_decide (n ∈ [8; 10; 11; 12; 13; 14; 17; 21; 30]).

Definition hex_digit (n : Z) : Z := if n <? 10 then 48 + n else 97 + (n - 10).
(** The text of [serial_write_hex]. *)
Definition hex_text (value : Z) : list Z :=
  48 :: 120 :: ((fun i => hex_digit (Z.land (Z.shiftr value ((15 - i) * 4)) 0xF)) <$> seqZ 0 16).

(** The state of the file, with that of the components its handlers call. *)
Record irqs (P A : Type) := Irqs {
  idt : list gate; code_selector : Z;
  irq_handlers : list Z; irq_contexts : list Z; irq_counts : list Z; vector_handlers : list Z;
  ticks : Z; uptime_seconds : Z;
  serial_up : bool; devices : input P; threads : sched A;
}.
Arguments Irqs {P A}. Arguments idt {P A}. Arguments code_selector {P A}. Arguments irq_handlers {P A}.
Arguments irq_contexts {P A}. Arguments irq_counts {P A}. Arguments vector_handlers {P A}. Arguments ticks {P A}.
Arguments uptime_seconds {P A}. Arguments serial_up {P A}. Arguments devices {P A}. Arguments threads {P A}.

Section Code.
Context {P A : Type} `{!PortIO P, !Allocator A}.
Context (addr_of : isr -> Z) (call_irq : Z -> Z -> Z -> P -> P).
Definition M (X : Type) : Type := st (irqs P A) X.

Definition with_idt (l : list gate) (cs : Z) (s : irqs P A) : irqs P A :=
  Irqs l cs (irq_handlers s) (irq_contexts s) (irq_counts s) (vector_handlers s) (ticks s) (uptime_seconds s)
    (serial_up s) (devices s) (threads s).
Definition with_irq (h c n : list Z) (s : irqs P A) : irqs P A :=
  Irqs (idt s) (code_selector s) h c n (vector_handlers s) (ticks s) (uptime_seconds s) (serial_up s) (devices s) (threads s).
Definition with_devices (d : input P) (s : irqs P A) : irqs P A :=
  Irqs (idt s) (code_selector s) (irq_handlers s) (irq_contexts s) (irq_counts s) (vector_handlers s) (ticks s)
    (uptime_seconds s) (serial_up s) d (threads s).

Definition on_input {X} (m : Input.M (P := P) X) : M X := fun s =>
  '(x, d) ← m (devices s); Ret (x, with_devices d s).
Definition inb (port : Z) : M Z := on_input (Input.inb port).
Definition outb (port v : Z) : M () := on_input (Input.outb port v).
Definition io_wait : M () := on_input Input.io_wait.
Definition on_serial {X} (m : Serial.M (P := P) X) : M X := fun s =>
  '(x, r) ← m (SerialState (serial_up s) (ports (devices s)));
  Ret (x, Irqs (idt s) (code_selector s) (irq_handlers s) (irq_contexts s) (irq_counts s) (vector_handlers s) (ticks s)
            (uptime_seconds s) (serial_initialized r) (put_ports (sports r) (devices s)) (threads s)).

(** ** Fatal exceptions: the text; then the processor halts *)
Definition text (fuel : nat) (l : list Z) : M () := on_serial (serial_write_str fuel l).
Definition serial_write_hex (fuel : nat) (value : Z) : M () := text fuel (hex_text value).
(** ["[PANIC] unhandled exception vector="] and the names of the registers, as bytes *)
Definition msg_panic : list Z :=
  [91; 80; 65; 78; 73; 67; 93; 32; 117; 110; 104; 97; 110; 100; 108; 101; 100; 32; 101; 120; 99; 101; 112; 116; 105; 111;
   110; 32; 118; 101; 99; 116; 111; 114; 61].
Definition msg_rip : list Z := [10; 32; 32; 82; 73; 80; 61].
Definition msg_rsp : list Z := [32; 32; 82; 83; 80; 61].
Definition msg_rflags : list Z := [10; 32; 32; 82; 70; 76; 65; 71; 83; 61].
Definition msg_cs : list Z := [32; 32; 67; 83; 61].
Definition msg_ss : list Z := [32; 32; 83; 83; 61].
Definition msg_error : list Z := [10; 32; 32; 69; 82; 82; 79; 82; 61].
Definition fatal_exception (fuel : nat) (vector : Z) (frame : interrupt_frame) (error : option Z) : M () :=
  _ ← text fuel msg_panic; _ ← serial_write_hex fuel (u64 vector);
  _ ← text fuel msg_rip; _ ← serial_write_hex fuel (f_rip frame);
  _ ← text fuel msg_rsp; _ ← serial_write_hex fuel (f_rsp frame);
  _ ← text fuel msg_rflags; _ ← serial_write_hex fuel (f_rflags frame);
  _ ← text fuel msg_cs; _ ← serial_write_hex fuel (f_cs frame);
  _ ← text fuel msg_ss; _ ← serial_write_hex fuel (f_ss frame);
  _ ← match error with Some e => _ ← text fuel msg_error; serial_write_hex fuel e | None => mret () end;
  text fuel [10].

(** ** The descriptor table *)
Definition handler_addr (i : isr) : Z := match i with isr_other a => a | _ => addr_of i end.
Definition idt_set_gate (n : Z) (handler : isr) : M () := fun s =>
  l ← zset (idt s) n (make_gate (code_selector s) (handler_addr handler)); Ret ((), with_idt l (code_selector s) s).
(** A loop that sets the gates from [i] on. *)
Fixpoint set_gates (n : nat) (i : Z) (handler : Z -> isr) : M () :=
  match n with
  | O => mret ()
  | S n => _ ← idt_set_gate i (handler i); set_gates n (i + 1) handler
  end.
Definition irq_gates : list (Z * isr) :=
  [(32, in_c isr_timer); (33, in_c isr_keyboard); (34, in_c (isr_irq 2)); (35, in_c (isr_irq 3)); (36, in_c (isr_irq 4)); (37, in_c (isr_irq 5)); (38, in_c (isr_irq 6));
   (39, in_c (isr_irq 7)); (40, in_c (isr_irq 8)); (41, in_c (isr_irq 9)); (42, in_c (isr_irq 10)); (43, in_c (isr_irq 11)); (44, in_c isr_mouse);
   (45, in_c (isr_irq 13)); (46, in_c (isr_irq 14)); (47, in_c (isr_irq 15)); (0xF0, isr_vector_0xf0)].
Fixpoint set_gate_list (l : list (Z * isr)) : M () :=
  match l with [] => mret () | (n, h) :: l => _ ← idt_set_gate n h; set_gate_list l end.
(** [cs] is the code segment register. *)
Definition interrupts_setup_idt (cs : Z) : M () :=
  _ ← st_modify (with_idt (repeat gate0 (Z.to_nat IDT_SIZE)) cs);
  _ ← set_gates (Z.to_nat IDT_SIZE) 0 (fun _ => in_c isr_default_noerr);
  _ ← set_gates 32 0 (fun n => in_c (isr_ex n));
  set_gate_list irq_gates.

(** ** The interrupt controllers *)
Definition pic_remap : M () :=
  a1 ← inb PIC1_DATA; a2 ← inb PIC2_DATA;
  _ ← outb PIC1_COMMAND 0x11; _ ← io_wait; _ ← outb PIC2_COMMAND 0x11; _ ← io_wait;
  _ ← outb PIC1_DATA 0x20; _ ← io_wait; _ ← outb PIC2_DATA 0x28; _ ← io_wait;
  _ ← outb PIC1_DATA 0x04; _ ← io_wait; _ ← outb PIC2_DATA 0x02; _ ← io_wait;
  _ ← outb PIC1_DATA 0x01; _ ← io_wait; _ ← outb PIC2_DATA 0x01; _ ← io_wait;
  _ ← outb PIC1_DATA a1; outb PIC2_DATA a2.
Definition pic_send_eoi (irq : Z) : M () :=
  _ ← (if 8 <=? irq then outb PIC2_COMMAND 0x20 else mret ()); outb PIC1_COMMAND 0x20.
Definition count_irq (irq : Z) : M () := fun s =>
  n ← zget (irq_counts s) irq; l ← zset (irq_counts s) irq (u64 (n + 1));
  Ret ((), with_irq (irq_handlers s) (irq_contexts s) l s).
Definition irq_dispatch (irq : Z) : M () :=
  _ ← (if (0 <=? irq) && (irq <? 16) then
         _ ← count_irq irq; s ← st_get;
         h ← st_lift (zget (irq_handlers s) irq); c ← st_lift (zget (irq_contexts s) irq);
         if negb (h =? 0) then st_modify (fun s => with_devices (put_ports (call_irq h irq c (ports (devices s))) (devices s)) s)
         else mret ()
       else mret ());
  pic_send_eoi irq.

(** ** The timer *)
Definition pit_init (frequency : Z) : M () :=
  if frequency =? 0 then st_lift Fault else
  let divisor := 1193180 / frequency in
  _ ← outb 0x43 0x36; _ ← outb 0x40 (Z.land divisor 0xFF); outb 0x40 (Z.land (Z.shiftr divisor 8) 0xFF).
Definition timer_handler : M () := st_modify (fun s =>
  let t := u64 (ticks s + 1) in
  Irqs (idt s) (code_selector s) (irq_handlers s) (irq_contexts s) (irq_counts s) (vector_handlers s) t
    (if t mod PIT_HZ =? 0 then u64 (uptime_seconds s + 1) else uptime_seconds s) (serial_up s) (devices s) (threads s)).
Definition tick_tasks : M () := st_modify (fun s =>
  Irqs (idt s) (code_selector s) (irq_handlers s) (irq_contexts s) (irq_counts s) (vector_handlers s) (ticks s)
    (uptime_seconds s) (serial_up s) (devices s) (task_tick (ticks s) (threads s))).

(** A handler from entry to [iretq]; [false] where the processor halts instead. *)
Definition isr_run (fuel : nat) (i : handler) (frame : interrupt_frame) (error : Z) : M bool :=
  match i with
  | isr_default_noerr => _ ← fatal_exception fuel (-1) frame None; mret false
  | isr_default_err => _ ← fatal_exception fuel (-1) frame (Some error); mret false
  | isr_ex n => _ ← fatal_exception fuel n frame (if has_error_code n then Some error else None); mret false
  | isr_irq n => _ ← irq_dispatch n; mret true
  | isr_timer => _ ← timer_handler; _ ← tick_tasks; _ ← count_irq 0; _ ← pic_send_eoi 0; mret true
  | isr_keyboard =>
      scancode ← inb 0x60; _ ← count_irq 1; _ ← on_input (input_handle_scancode scancode); _ ← pic_send_eoi 1; mret true
  | isr_mouse =>
      data ← inb 0x60; _ ← count_irq 12; _ ← on_input (input_handle_mouse_byte data); _ ← pic_send_eoi 12; mret true
  end.

(** ** The interface *)
Definition interrupts_init (cs : Z) : M () :=
  _ ← interrupts_setup_idt cs; _ ← pic_remap; _ ← outb PIC1_DATA 0xFC; _ ← outb PIC2_DATA 0xFF; pit_init PIT_HZ.
Definition interrupts_init_ap (cs : Z) : M () := interrupts_setup_idt cs.
Definition bad_irq (irq : Z) : bool := (irq <? 0) || (16 <=? irq).
Definition interrupts_set_irq_handler (irq handler ctx : Z) : M () :=
  if bad_irq irq then mret () else fun s =>
  h ← zset (irq_handlers s) irq handler; c ← zset (irq_contexts s) irq ctx; Ret ((), with_irq h c (irq_counts s) s).
Definition mask_port (irq : Z) : Z := if irq <? 8 then PIC1_DATA else PIC2_DATA.
Definition interrupts_unmask_irq (irq : Z) : M () :=
  if bad_irq irq then mret () else
  mask ← inb (mask_port irq);
  outb (mask_port irq) (Z.land mask (u8 (Z.lnot (Z.shiftl 1 (Z.land irq 7))))).
Definition interrupts_mask_irq (irq : Z) : M () :=
  if bad_irq irq then mret () else
  mask ← inb (mask_port irq);
  outb (mask_port irq) (Z.lor mask (u8 (Z.shiftl 1 (Z.land irq 7)))).
Definition interrupts_get_irq_count (irq : Z) : M Z :=
  if bad_irq irq then mret 0 else s ← st_get; st_lift (zget (irq_counts s) irq).
Definition interrupts_set_vector (vector addr : Z) : M () :=
  if (vector <? 0) || (IDT_SIZE <=? vector) then mret () else
  _ ← (fun s => l ← zset (vector_handlers s) vector addr;
       Ret ((), Irqs (idt s) (code_selector s) (irq_handlers s) (irq_contexts s) (irq_counts s) l (ticks s)
                  (uptime_seconds s) (serial_up s) (devices s) (threads s)));
  idt_set_gate vector (isr_other addr).

(** [reboot] up to the loop that halts. *)
Fixpoint reboot (fuel : nat) : M () :=
  temp ← inb 0x64;
  _ ← (if negb (Z.land temp 0x01 =? 0) then _ ← inb 0x60; mret () else mret ());
  if negb (Z.land temp 0x02 =? 0) then match fuel with O => st_spin | S fuel => reboot fuel end
  else outb 0x64 0xFE.
End Code.
