(* ===== verification/InterruptsProps.v ===== *)
(** * Interrupts: every vector reaches its handler, and which IRQs are let through

    The two 8259 controllers are behind their ports; [Pic] is their documented
    behaviour: the initialisation words, the mask register. *)
From S2P Require Import Prelude Interfaces Heap HeapProps Task TaskExamples Input Serial Interrupts.

(** ** The controllers

    [expect] holds the initialisation words still to come, [true] for the one that sets
    the first vector. *)
Record pic := PicState { imr : Z; expect : list bool; vector_base : Z }.
Definition pic_command (v : Z) (p : pic) : pic :=
  if Z.testbit v 4 then
    PicState 0 (true :: (if Z.testbit v 1 then [] else [false]) ++ (if Z.testbit v 0 then [false] else [])) (vector_base p)
  else p.
Definition pic_data (v : Z) (p : pic) : pic :=
  match expect p with
  | [] => PicState v [] (vector_base p)
  | true :: l => PicState (imr p) l (Z.land v 0xF8)
  | false :: l => PicState (imr p) l (vector_base p)
  end.
Class Pic (P : Type) `{!PortIO P} := {
  pic1 : P -> pic;
  pic2 : P -> pic;
  pic1_out port v p : is_u8 v -> pic1 (port_out 1 port v p) =
    if port =? PIC1_COMMAND then pic_command v (pic1 p) else if port =? PIC1_DATA then pic_data v (pic1 p) else pic1 p;
  pic2_out port v p : is_u8 v -> pic2 (port_out 1 port v p) =
    if port =? PIC2_COMMAND then pic_command v (pic2 p) else if port =? PIC2_DATA then pic_data v (pic2 p) else pic2 p;
  pic_in port p : pic1 (port_in 1 port p).2 = pic1 p /\ pic2 (port_in 1 port p).2 = pic2 p;
  pic_in_imr p : (port_in 1 PIC1_DATA p).1 = imr (pic1 p) /\ (port_in 1 PIC2_DATA p).1 = imr (pic2 p);
}.
(** The vector of an IRQ; whether it is masked; whether it reaches the processor: the
    second controller is connected to IRQ 2 of the first. *)
Definition irq_vector (p1 p2 : pic) (n : Z) : Z := if n <? 8 then vector_base p1 + n else vector_base p2 + (n - 8).
Definition masked (p1 p2 : pic) (n : Z) : bool := if n <? 8 then Z.testbit (imr p1) n else Z.testbit (imr p2) (n - 8).
Definition delivered (p1 p2 : pic) (n : Z) : bool :=
  negb (masked p1 p2 n) && ((n <? 8) || negb (masked p1 p2 2)).

(** ** The handler of a vector, of an IRQ *)
Definition irq_isr (n : Z) : isr :=
  if n =? 0 then isr_timer else if n =? 1 then isr_keyboard else if n =? 12 then isr_mouse else isr_irq n.
Definition vector_isr (v : Z) : isr :=
  if v <? 32 then isr_ex v else if v <? 48 then irq_isr (v - 32) else if v =? 0xF0 then isr_vector_0xf0 else isr_default_noerr.
(** The address in a gate. *)
Definition gate_addr (g : gate) : Z := offset_low g + 2 ^ 16 * offset_mid g + 2 ^ 32 * offset_high g.

Lemma make_gate_addr cs a : is_u64 a -> gate_addr (make_gate cs a) = a.
Proof.
  intros Ha. unfold is_u64 in Ha. unfold gate_addr, make_gate. cbn.
  change 65535 with (Z.ones 16). change 4294967295 with (Z.ones 32).
  rewrite !Z.land_ones, !Z.shiftr_div_pow2 by lia. lia.
Qed.

Section Props.
Context {P A : Type} `{!PortIO P, !Pic P, !Allocator A}.
Context (addr_of : isr -> Z).
Implicit Types s : irqs P A.

Definition the_pics s : pic * pic := (pic1 (ports (devices s)), pic2 (ports (devices s))).
Definition gates (cs : Z) (l : list isr) : list gate := (fun i => make_gate cs (handler_addr addr_of i)) <$> l.

(** ** The table *)
Lemma set_gate_spec s l n h : idt s = gates (code_selector s) l -> (n < length l)%nat ->
  idt_set_gate addr_of (Z.of_nat n) h s =
    Ret ((), with_idt (gates (code_selector s) (<[n := h]> l)) (code_selector s) s).
Proof.
  intros E Hn. unfold idt_set_gate. rewrite E. rewrite zset_nat by (unfold gates; by rewrite length_fmap).
  cbn. unfold gates. by rewrite list_fmap_insert.
Qed.

Lemma set_gates_fill n : forall s l1 l2 h, idt s = gates (code_selector s) l1 ++ l2 -> length l2 = n ->
  set_gates addr_of n (Z.of_nat (length l1)) h s =
    Ret ((), with_idt (gates (code_selector s) (l1 ++ (h <$> seqZ (Z.of_nat (length l1)) (Z.of_nat n)))) (code_selector s) s).
Proof.
  induction n as [|n IH]; intros s l1 l2 h E Hl.
  - destruct l2; [| done]. rewrite app_nil_r in E. cbn. rewrite app_nil_r, <- E. by destruct s.
  - destruct l2 as [|g l2]; [done |]. cbn [set_gates]. injection Hl as Hl.
    set (i := Z.of_nat (length l1)). set (cs := code_selector s) in *.
    assert (idt_set_gate addr_of i (h i) s = Ret ((), with_idt (gates cs (l1 ++ [h i]) ++ l2) cs s)) as E1.
    { unfold idt_set_gate. rewrite E. unfold i. rewrite zset_nat by (unfold gates; rewrite length_app, length_fmap; cbn; lia).
      cbn. do 3 f_equal. unfold gates. rewrite insert_app_r_alt by (by rewrite length_fmap).
      rewrite length_fmap, Nat.sub_diag. cbn. rewrite fmap_app. cbn. by rewrite <- (assoc_L (++)). }
    rewrite (st_bind_ret _ _ _ _ _ E1).
    specialize (IH (with_idt (gates cs (l1 ++ [h i]) ++ l2) cs s) (l1 ++ [h i]) l2 h eq_refl Hl).
    rewrite length_app in IH. cbn [length] in IH. rewrite Nat2Z.inj_add in IH. cbn [code_selector with_idt] in IH.
    replace (i + 1) with (Z.of_nat (length l1) + Z.of_nat 1) by (unfold i; lia). rewrite IH.
    assert ((l1 ++ [h i]) ++ (h <$> seqZ (Z.of_nat (length l1) + Z.of_nat 1) (Z.of_nat n)) =
      l1 ++ (h <$> seqZ i (Z.of_nat (S n)))) as ->; [| done].
    rewrite (seqZ_cons i) by lia. rewrite <- (assoc_L (++)). cbn [fmap list_fmap app]. do 3 f_equal. f_equal; unfold i; lia.
Qed.

Lemma set_gates_over n : forall s l i h, idt s = gates (code_selector s) l -> (i + n <= length l)%nat ->
  set_gates addr_of n (Z.of_nat i) h s =
    Ret ((), with_idt (gates (code_selector s)
      (fold_left (fun l k => <[Z.to_nat k := h k]> l) (seqZ (Z.of_nat i) (Z.of_nat n)) l)) (code_selector s) s).
Proof.
  induction n as [|n IH]; intros s l i h E Hl.
  - change (Ret ((), s) = Ret ((), with_idt (gates (code_selector s) l) (code_selector s) s)). rewrite <- E. by destruct s.
  - cbn [set_gates]. rewrite (st_bind_ret _ _ _ _ _ (set_gate_spec s l i (h (Z.of_nat i)) E ltac:(lia))).
    replace (Z.of_nat i + 1) with (Z.of_nat (S i)) by lia.
    rewrite (IH (with_idt (gates (code_selector s) (<[i := h (Z.of_nat i)]> l)) (code_selector s) s) (<[i := h (Z.of_nat i)]> l) (S i) h);
      [| done | rewrite length_insert; lia].
    rewrite (seqZ_cons (Z.of_nat i)) by lia. cbn [fold_left]. rewrite Nat2Z.id.
    replace (Z.succ (Z.of_nat i)) with (Z.of_nat (S i)) by lia. by replace (Z.pred (Z.of_nat (S n))) with (Z.of_nat n) by lia.
Qed.

Lemma set_gate_list_spec hs : forall s l, idt s = gates (code_selector s) l ->
  Forall (fun nh => 0 <= nh.1 < Z.of_nat (length l)) hs ->
  set_gate_list addr_of hs s =
    Ret ((), with_idt (gates (code_selector s) (fold_left (fun l nh => <[Z.to_nat nh.1 := nh.2]> l) hs l)) (code_selector s) s).
Proof.
  induction hs as [|[n h] hs IH]; intros s l E Hl.
  - change (Ret ((), s) = Ret ((), with_idt (gates (code_selector s) l) (code_selector s) s)). rewrite <- E. by destruct s.
  - apply Forall_cons in Hl as [Hn Hl]. cbn [fst] in Hn. cbn [set_gate_list].
    pose proof (set_gate_spec s l (Z.to_nat n) h E ltac:(lia)) as E1. rewrite Z2Nat.id in E1 by lia.
    rewrite (st_bind_ret _ _ _ _ _ E1). apply (IH (with_idt (gates (code_selector s) (<[Z.to_nat n := h]> l)) (code_selector s) s)); [done |].
    by rewrite length_insert.
Qed.

Definition vector_table : list isr := vector_isr <$> seqZ 0 256.
Lemma setup_idt_spec s cs : interrupts_setup_idt addr_of cs s = Ret ((), with_idt (gates cs vector_table) cs s).
Proof.
  unfold interrupts_setup_idt.
  set (s1 := with_idt (repeat gate0 (Z.to_nat IDT_SIZE)) cs s).
  rewrite (st_bind_ret _ _ s tt s1) by done.
  rewrite (st_bind_ret _ _ _ _ _ (set_gates_fill 256 s1 [] (repeat gate0 256) _ eq_refl (repeat_length _ _))).
  set (l2 := [] ++ _). set (s2 := with_idt _ _ s1).
  rewrite (st_bind_ret _ _ _ _ _ (set_gates_over 32 s2 l2 0 _ eq_refl ltac:(vm_compute; lia))).
  set (l3 := fold_left _ _ l2). set (s3 := with_idt _ _ s2).
  rewrite (set_gate_list_spec irq_gates s3 l3 eq_refl).
  2:{ repeat (apply Forall_cons; split; [split; vm_compute; congruence |]). constructor. }
  assert (fold_left (fun l nh => <[Z.to_nat nh.1 := nh.2]> l) irq_gates l3 = vector_table) as -> by (vm_compute; reflexivity).
  done.
Qed.

(** ** Writes to the ports *)
Definition with_ports (p : P) s : irqs P A := with_devices (put_ports p (devices s)) s.
Definition outs (l : list (Z * Z)) (p : P) : P := fold_left (fun p pv => port_out 1 pv.1 pv.2 p) l p.
Definition out1 (pv : Z * Z) (p : pic) : pic :=
  if pv.1 =? PIC1_COMMAND then pic_command pv.2 p else if pv.1 =? PIC1_DATA then pic_data pv.2 p else p.
Definition out2 (pv : Z * Z) (p : pic) : pic :=
  if pv.1 =? PIC2_COMMAND then pic_command pv.2 p else if pv.1 =? PIC2_DATA then pic_data pv.2 p else p.
Lemma outs_pics l : forall p, Forall (fun pv => is_u8 pv.2) l ->
  pic1 (outs l p) = fold_left (fun q pv => out1 pv q) l (pic1 p) /\
  pic2 (outs l p) = fold_left (fun q pv => out2 pv q) l (pic2 p).
Proof.
  induction l as [|[port v] l IH]; intros p Hl; [done |]. apply Forall_cons in Hl as [Hv Hl]. cbn [snd] in Hv.
  destruct (IH (port_out 1 port v p) Hl) as [H1 H2]. cbn [outs fold_left fst snd].
  unfold outs in H1, H2. by rewrite H1, H2, pic1_out, pic2_out by done.
Qed.

Definition remap_writes (a1 a2 : Z) : list (Z * Z) :=
  [(0x20, 0x11); (0x80, 0); (0xA0, 0x11); (0x80, 0); (0x21, 0x20); (0x80, 0); (0xA1, 0x28); (0x80, 0);
   (0x21, 0x04); (0x80, 0); (0xA1, 0x02); (0x80, 0); (0x21, 0x01); (0x80, 0); (0xA1, 0x01); (0x80, 0); (0x21, a1); (0xA1, a2)].
Definition init_writes : list (Z * Z) := [(0x21, 0xFC); (0xA1, 0xFF); (0x43, 0x36); (0x40, 174); (0x40, 77)].

Lemma init_ports s cs : exists a1 a2 p0,
  is_u8 a1 /\ is_u8 a2 /\
  interrupts_init addr_of cs s =
    Ret ((), with_ports (outs (remap_writes a1 a2 ++ init_writes) p0) (with_idt (gates cs vector_table) cs s)).
Proof.
  set (s1 := with_idt (gates cs vector_table) cs s). set (p := ports (devices s)).
  destruct (port_in 1 PIC1_DATA p) as [a1 p1] eqn:E1. destruct (port_in 1 PIC2_DATA p1) as [a2 p2] eqn:E2.
  exists a1, a2, p2. split.
  { pose proof (port_in_range 1 PIC1_DATA p ltac:(lia)) as H. rewrite E1 in H. exact H. }
  split.
  { pose proof (port_in_range 1 PIC2_DATA p1 ltac:(lia)) as H. rewrite E2 in H. exact H. }
  unfold interrupts_init. rewrite (st_bind_ret _ _ _ _ _ (setup_idt_spec s cs)). fold s1.
  assert (pic_remap s1 = Ret ((), with_ports (outs (remap_writes a1 a2) p2) s1)) as Er.
  { unfold pic_remap.
    rewrite (st_bind_ret _ _ s1 a1 (with_ports p1 s1)).
    2:{ unfold inb, on_input, Input.inb. change (ports (devices s1)) with p. by rewrite E1. }
    rewrite (st_bind_ret _ _ _ a2 (with_ports p2 s1)).
    2:{ unfold inb, on_input, Input.inb. change (ports (devices (with_ports p1 s1))) with p1. by rewrite E2. }
    reflexivity. }
  rewrite (st_bind_ret _ _ _ _ _ Er). unfold outs at 2. rewrite fold_left_app. reflexivity.
Qed.

Lemma init_pics s cs : exists s', interrupts_init addr_of cs s = Ret ((), s') /\
  idt s' = gates cs vector_table /\ the_pics s' = (PicState 0xFC [] 0x20, PicState 0xFF [] 0x28).
Proof.
  destruct (init_ports s cs) as (a1 & a2 & p0 & H1 & H2 & E). eexists. split; [exact E |]. split; [done |].
  unfold the_pics. cbn [with_ports with_devices devices put_ports ports].
  destruct (outs_pics (remap_writes a1 a2 ++ init_writes) p0) as [-> ->].
  { unfold remap_writes, init_writes. cbn [app].
    repeat (apply Forall_cons; split; [first [assumption | by (unfold is_u8; cbn; lia)] |]). constructor. }
  reflexivity.
Qed.

(** ** Masks *)
Definition ready_pics s : Prop := expect (the_pics s).1 = [] /\ expect (the_pics s).2 = [].
Definition irq_masked s (n : Z) : bool := masked (the_pics s).1 (the_pics s).2 n.
Definition irq_delivered s (n : Z) : bool := delivered (the_pics s).1 (the_pics s).2 n.

(** A read and a write of a mask register. *)
Lemma set_mask_spec s port f : ready_pics s -> port = PIC1_DATA \/ port = PIC2_DATA -> (forall m, is_u8 m -> is_u8 (f m)) ->
  exists s', (mask ← inb port; outb port (f mask)) s = Ret ((), s') /\
    the_pics s' = if port =? PIC1_DATA
                  then (PicState (f (imr (the_pics s).1)) [] (vector_base (the_pics s).1), (the_pics s).2)
                  else ((the_pics s).1, PicState (f (imr (the_pics s).2)) [] (vector_base (the_pics s).2)).
Proof.
  intros [R1 R2] Hp Hf. set (p := ports (devices s)). destruct (port_in 1 port p) as [m p1] eqn:E.
  exists (with_ports (port_out 1 port (f m) p1) s). split.
  { rewrite (st_bind_ret _ _ s m (with_ports p1 s)); [done |].
    unfold inb, on_input, Input.inb. change (ports (devices s)) with p. by rewrite E. }
  unfold the_pics in *. cbn [with_ports with_devices devices put_ports ports fst snd] in *. fold p in R1, R2 |- *.
  pose proof (pic_in port p) as [I1 I2]. pose proof (pic_in_imr p) as [J1 J2]. rewrite E in I1, I2. cbn [snd] in I1, I2.
  pose proof (port_in_range 1 port p ltac:(lia)) as Hm. rewrite E in Hm. cbn [fst] in Hm.
  rewrite pic1_out, pic2_out, I1, I2 by (by apply Hf).
  destruct Hp as [-> | ->]; cbn [Z.eqb PIC1_DATA PIC2_DATA PIC1_COMMAND PIC2_COMMAND Pos.eqb] in *; rewrite E in *; cbn [fst] in *; subst m;
    unfold pic_data; by rewrite ?R1, ?R2.
Qed.

Lemma testbit_unmask m n k : 0 <= n < 8 -> 0 <= k < 8 ->
  Z.testbit (Z.land m (u8 (Z.lnot (Z.shiftl 1 n)))) k = Z.testbit m k && negb (k =? n).
Proof.
  intros Hn Hk. rewrite Z.land_spec. unfold u8. rewrite Z.mod_pow2_bits_low by lia.
  rewrite Z.lnot_spec, Z.shiftl_spec by lia. f_equal. f_equal. destruct (Z.eqb_spec k n) as [->|Hne].
  - by rewrite Z.sub_diag.
  - destruct (Z.ltb_spec k n); [by apply Z.testbit_neg_r; lia |].
    change 1 with (2 ^ 0). rewrite Z.pow2_bits_false by lia. done.
Qed.
Lemma testbit_mask m n k : 0 <= n < 8 -> 0 <= k < 8 ->
  Z.testbit (Z.lor m (u8 (Z.shiftl 1 n))) k = Z.testbit m k || (k =? n).
Proof.
  intros Hn Hk. rewrite Z.lor_spec. unfold u8. rewrite Z.mod_pow2_bits_low by lia.
  rewrite Z.shiftl_spec by lia. f_equal. destruct (Z.eqb_spec k n) as [->|Hne].
  - by rewrite Z.sub_diag.
  - destruct (Z.ltb_spec k n); [by apply Z.testbit_neg_r; lia |].
    change 1 with (2 ^ 0). rewrite Z.pow2_bits_false by lia. done.
Qed.

Lemma u8_bits x : is_u8 x <-> u8 x = x.
Proof. split; [apply u8_id |]. intros <-. apply u8_range. Qed.
Lemma land_u8 m x : is_u8 (Z.land m (u8 x)).
Proof.
  apply u8_bits. unfold u8. rewrite <- !(Z.land_ones _ 8) by lia. rewrite <- !Z.land_assoc. by rewrite Z.land_diag.
Qed.
Lemma lor_u8 m x : is_u8 m -> is_u8 (Z.lor m (u8 x)).
Proof.
  rewrite !u8_bits. unfold u8. intros Hm. rewrite <- Hm. rewrite <- !(Z.land_ones _ 8) by lia.
  by rewrite <- Z.land_lor_distr_l, <- Z.land_assoc, Z.land_diag.
Qed.
Lemma land_7 n : 0 <= n < 16 -> Z.land n 7 = if n <? 8 then n else n - 8.
Proof. intros Hn. change 7 with (Z.ones 3). rewrite Z.land_ones by lia. leb_cases; lia. Qed.

(** A change of the mask bit of IRQ [n] by [g], with the others as they are. *)
Lemma change_mask_spec s n f (g : bool -> bool) : ready_pics s -> 0 <= n < 16 ->
  (forall m, is_u8 m -> is_u8 (f m)) ->
  (forall m k, 0 <= k < 8 -> Z.testbit (f m) k = if k =? Z.land n 7 then g (Z.testbit m k) else Z.testbit m k) ->
  exists s', (mask ← inb (mask_port n); outb (mask_port n) (f mask)) s = Ret ((), s') /\ ready_pics s' /\
    forall k, 0 <= k < 16 -> irq_masked s' k = if k =? n then g (irq_masked s k) else irq_masked s k.
Proof.
  intros R Hn Hf Hg. destruct (set_mask_spec s (mask_port n) f R) as (s' & E & Ep);
    [unfold mask_port; case_match; tauto | done |].
  exists s'. split; [exact E |]. unfold ready_pics, irq_masked, masked. rewrite Ep. destruct R as [R1 R2].
  rewrite land_7 in Hg by done. unfold mask_port in *.
  destruct (Z.ltb_spec n 8); cbn [Z.eqb PIC1_DATA PIC2_DATA Pos.eqb fst snd expect imr].
  - split; [done |]. intros k Hk. destruct (Z.ltb_spec k 8); [by rewrite Hg by lia |].
    by rewrite (proj2 (Z.eqb_neq k n)) by lia.
  - split; [done |]. intros k Hk. destruct (Z.ltb_spec k 8); [by rewrite (proj2 (Z.eqb_neq k n)) by lia |].
    rewrite Hg by lia. replace (k - 8 =? n - 8) with (k =? n) by (leb_cases; lia). done.
Qed.

Lemma unmask_spec s n : ready_pics s -> exists s', interrupts_unmask_irq n s = Ret ((), s') /\ ready_pics s' /\
  forall k, 0 <= k < 16 -> irq_masked s' k = irq_masked s k && negb (k =? n).
Proof.
  intros R. unfold interrupts_unmask_irq, bad_irq. destruct (Z.ltb_spec n 0), (Z.leb_spec 16 n); cbn [orb]; try lia.
  1,2: exists s; split; [done |]; split; [done |]; intros k Hk; rewrite (proj2 (Z.eqb_neq k n)) by lia; by rewrite andb_true_r.
  destruct (change_mask_spec s n (fun m => Z.land m (u8 (Z.lnot (Z.shiftl 1 (Z.land n 7))))) (fun _ => false)) as (s' & E & R' & H');
    [done | lia | intros; apply land_u8 | |].
  - intros m k Hk. rewrite testbit_unmask by (try done; rewrite land_7 by lia; leb_cases; lia).
    destruct (k =? Z.land n 7); [apply andb_false_r | apply andb_true_r].
  - exists s'. split; [exact E |]. split; [done |]. intros k Hk. rewrite H' by done.
    destruct (k =? n); [by rewrite andb_false_r | by rewrite andb_true_r].
Qed.
Lemma mask_spec s n : ready_pics s -> exists s', interrupts_mask_irq n s = Ret ((), s') /\ ready_pics s' /\
  forall k, 0 <= k < 16 -> irq_masked s' k = irq_masked s k || (k =? n).
Proof.
  intros R. unfold interrupts_mask_irq, bad_irq. destruct (Z.ltb_spec n 0), (Z.leb_spec 16 n); cbn [orb]; try lia.
  1,2: exists s; split; [done |]; split; [done |]; intros k Hk; rewrite (proj2 (Z.eqb_neq k n)) by lia; by rewrite orb_false_r.
  destruct (change_mask_spec s n (fun m => Z.lor m (u8 (Z.shiftl 1 (Z.land n 7)))) (fun _ => true)) as (s' & E & R' & H');
    [done | lia | intros; by apply lor_u8 | |].
  - intros m k Hk. rewrite testbit_mask by (try done; rewrite land_7 by lia; leb_cases; lia).
    destruct (k =? Z.land n 7); [apply orb_true_r | apply orb_false_r].
  - exists s'. split; [exact E |]. split; [done |]. intros k Hk. rewrite H' by done.
    destruct (k =? n); [by rewrite orb_true_r | by rewrite orb_false_r].
Qed.

(** The calls that change masks. *)
Inductive irq_op := Unmask (n : Z) | Mask (n : Z).
Definition irq_run (o : irq_op) : M (P := P) (A := A) () :=
  match o with Unmask n => interrupts_unmask_irq n | Mask n => interrupts_mask_irq n end.
Fixpoint irq_runs (l : list irq_op) : M (P := P) (A := A) () :=
  match l with [] => mret () | o :: l => _ ← irq_run o; irq_runs l end.
(** The masks after them, as a set of bits. *)
Definition mask_after (o : irq_op) (m : Z -> bool) (k : Z) : bool :=
  match o with Unmask n => m k && negb (k =? n) | Mask n => m k || (k =? n) end.

Lemma mask_after_ext l : forall m m' k, m k = m' k ->
  fold_left (fun m o => mask_after o m) l m k = fold_left (fun m o => mask_after o m) l m' k.
Proof.
  induction l as [|o l IH]; intros m m' k H; [done |]. cbn [fold_left]. apply IH. destruct o; cbn; by rewrite H.
Qed.

Lemma irq_runs_spec l : forall s, ready_pics s -> exists s', irq_runs l s = Ret ((), s') /\ ready_pics s' /\
  forall k, 0 <= k < 16 -> irq_masked s' k = fold_left (fun m o => mask_after o m) l (irq_masked s) k.
Proof.
  induction l as [|o l IH]; intros s R; [by exists s |].
  assert (exists s1, irq_run o s = Ret ((), s1) /\ ready_pics s1 /\
    forall k, 0 <= k < 16 -> irq_masked s1 k = mask_after o (irq_masked s) k) as (s1 & E1 & R1 & H1).
  { destruct o; [apply unmask_spec | apply mask_spec]; done. }
  destruct (IH s1 R1) as (s2 & E2 & R2 & H2). exists s2. cbn [irq_runs]. rewrite (st_bind_ret _ _ _ _ _ E1).
  split; [exact E2 |]. split; [done |]. intros k Hk. rewrite H2 by done. cbn [fold_left]. apply mask_after_ext. by apply H1.
Qed.

Lemma ready_of s a b c d : the_pics s = (PicState a [] b, PicState c [] d) -> ready_pics s.
Proof. unfold ready_pics. by intros ->. Qed.
Lemma initial_masks k : 0 <= k < 16 ->
  masked (PicState 0xFC [] 0x20) (PicState 0xFF [] 0x28) k = negb ((k =? 0) || (k =? 1)).
Proof.
  intros Hk. assert (forallb (fun k => Bool.eqb (masked (PicState 0xFC [] 0x20) (PicState 0xFF [] 0x28) k)
    (negb ((k =? 0) || (k =? 1)))) (seqZ 0 16) = true) as H by reflexivity.
  rewrite forallb_forall in H. apply Bool.eqb_prop, H, list_elem_of_In, elem_of_seqZ. lia.
Qed.

(** C21: After [interrupts_init], in whatever state the controllers were, every vector leads through
    its gate to its handler, in the kernel's code segment: the exceptions, the timer, the
    keyboard, the mouse, the scheduler, and the default handler for the rest; the
    controllers give IRQ [n] the vector of the handler for IRQ [n]; and of the IRQs only
    the timer's (0) and the keyboard's (1) reach the processor, the others being masked:
    those of the second controller also by the masked cascade, IRQ 2. *)
Theorem interrupts_init_routes s cs (Haddr : forall i, is_u64 (addr_of i)) :
  exists s', interrupts_init addr_of cs s = Ret ((), s') /\
    (forall v, 0 <= v < 256 -> exists g, idt s' !! Z.to_nat v = Some g /\
      gate_addr g = handler_addr addr_of (vector_isr v) /\ selector g = cs /\ type_attr g = 0x8E) /\
    (forall n, 0 <= n < 16 -> vector_isr (irq_vector (the_pics s').1 (the_pics s').2 n) = irq_isr n) /\
    (forall n, 0 <= n < 16 -> irq_delivered s' n = (n =? 0) || (n =? 1)) /\
    irq_masked s' 2 = true.
Proof.
  destruct (init_pics s cs) as (s' & E & Ei & Ep). exists s'. split; [done |].
  unfold irq_delivered, irq_masked. rewrite Ei, Ep. split_and!.
  - intros v Hv. exists (make_gate cs (handler_addr addr_of (vector_isr v))).
    assert (vector_table !! Z.to_nat v = Some (vector_isr v)) as Ev.
    { unfold vector_table. rewrite list_lookup_fmap, (proj2 (lookup_seqZ 0 256 (Z.to_nat v) v)) by lia. done. }
    split; [unfold gates; by rewrite list_lookup_fmap, Ev |]. split; [| split; reflexivity]. apply make_gate_addr.
    unfold vector_isr, irq_isr. repeat case_match; apply Haddr.
  - intros n Hn. unfold irq_vector, vector_isr. cbn [fst snd vector_base]. leb_cases; try lia; f_equal; lia.
  - intros n Hn. unfold delivered. cbn [fst snd]. rewrite !initial_masks by lia.
    rewrite !negb_involutive. cbn. leb_cases; try lia; done.
  - done.
Qed.

(** The masks are a set of bits: after [interrupts_init] only IRQ 0 and IRQ 1 are let through,
    [interrupts_unmask_irq] and [interrupts_mask_irq] remove and add their IRQ and no other,
    whatever their sequence, and a number outside 0 to 15 has no effect. *)
Theorem irq_masks_correct s cs ops :
  exists s', (_ ← interrupts_init addr_of cs; irq_runs ops) s = Ret ((), s') /\
    forall k, 0 <= k < 16 ->
      irq_masked s' k = fold_left (fun m o => mask_after o m) ops (fun k => negb ((k =? 0) || (k =? 1))) k.
Proof.
  destruct (init_pics s cs) as (s1 & E1 & _ & Ep). pose proof (ready_of _ _ _ _ _ Ep) as R1.
  destruct (irq_runs_spec ops s1 R1) as (s2 & E2 & _ & H2). exists s2. rewrite (st_bind_ret _ _ _ _ _ E1).
  split; [exact E2 |]. clear E1 E2. intros k Hk. rewrite (H2 k Hk).
  assert (irq_masked s1 k = negb ((k =? 0) || (k =? 1))) as Hm by (unfold irq_masked; rewrite Ep; exact (initial_masks k Hk)).
  apply mask_after_ext. exact Hm.
Qed.

(** The cascade stays closed: [interrupts_init] masks IRQ 2, through which the second controller
    reaches the processor, and no call that unmasks another IRQ opens it; so none of IRQ 8 to
    15 is ever delivered, the mouse (12) and the network card included, although they are
    unmasked.  Unmasking IRQ 2 as well delivers them. *)
Theorem slave_irqs_blocked s cs ops (Hops : Unmask 2 ∉ ops) :
  (exists s', (_ ← interrupts_init addr_of cs; irq_runs ops) s = Ret ((), s') /\
    forall n, 8 <= n < 16 -> irq_delivered s' n = false) /\
  (exists s', (_ ← interrupts_init addr_of cs; irq_runs [Unmask 12; Unmask 2]) s = Ret ((), s') /\
    irq_delivered s' 12 = true).
Proof.
  destruct (init_pics s cs) as (s1 & E1 & _ & Ep). pose proof (ready_of _ _ _ _ _ Ep) as R1. rewrite (st_bind_ret _ _ _ _ _ E1).
  rewrite (st_bind_ret _ _ _ _ _ E1). clear E1.
  assert (forall k, 0 <= k < 16 -> irq_masked s1 k = negb ((k =? 0) || (k =? 1))) as Hm.
  { intros k Hk. unfold irq_masked. rewrite Ep. exact (initial_masks k Hk). }
  split.
  - destruct (irq_runs_spec ops s1 R1) as (s2 & E2 & _ & H2). exists s2. split; [exact E2 |]. clear E2.
    intros n Hn. unfold irq_delivered, delivered. fold (irq_masked s2 2). rewrite (proj2 (Z.ltb_ge n 8)) by lia.
    rewrite H2 by lia. assert (forall m, m 2 = true -> fold_left (fun m o => mask_after o m) ops m 2 = true) as Hk.
    { clear H2. induction ops as [|o ops IH]; intros m H; [exact H |]. apply not_elem_of_cons in Hops as [Ho Hops].
      cbn [fold_left]. apply (IH Hops). destruct o as [k|k]; cbn [mask_after]; rewrite H; [| done].
      destruct (Z.eqb_spec 2 k) as [<-|]; done. }
    rewrite Hk; [apply andb_false_r |]. rewrite Hm by lia. done.
  - destruct (irq_runs_spec [Unmask 12; Unmask 2] s1 R1) as (s2 & E2 & _ & H2). exists s2. split; [exact E2 |]. clear E2.
    unfold irq_delivered, delivered. fold (irq_masked s2 2). fold (irq_masked s2 12). rewrite !H2 by lia. cbn.
    by rewrite !andb_false_r.
Qed.
End Props.

(** ** A machine with two interrupt controllers and nothing else on its ports *)
Definition two_pics : Type := pic * pic.
Definition pics_out (port v : Z) (p : two_pics) : two_pics :=
  (if port =? PIC1_COMMAND then pic_command v p.1 else if port =? PIC1_DATA then pic_data v p.1 else p.1,
   if port =? PIC2_COMMAND then pic_command v p.2 else if port =? PIC2_DATA then pic_data v p.2 else p.2).
Definition pics_in (port : Z) (p : two_pics) : Z :=
  if port =? PIC1_DATA then imr p.1 else if port =? PIC2_DATA then imr p.2 else 0.
(** A mask register holds eight bits. *)
Definition norm_pic (p : pic) : pic := PicState (u8 (imr p)) (expect p) (vector_base p).

#[export, refine] Instance pics_ports : PortIO two_pics := {
  port_in w port p := (u8 (pics_in port p), p);
  port_out w port v p := pics_out port v p;
}.
Proof.
  intros w port p Hw. cbn. pose proof (u8_range (pics_in port p)) as H. unfold is_u8 in H.
  assert (256 ^ 1 <= 256 ^ w) by (apply Z.pow_le_mono_r; lia). lia.
Defined.
#[export, refine] Instance pics_pic : Pic two_pics := { pic1 p := norm_pic p.1; pic2 p := norm_pic p.2 }.
Proof.
  - intros port v p Hv. cbn. repeat case_match; try done; unfold pic_command, pic_data, norm_pic; cbn;
      repeat case_match; try done; cbn; by rewrite u8_id.
  - intros port v p Hv. cbn. repeat case_match; try done; unfold pic_command, pic_data, norm_pic; cbn;
      repeat case_match; try done; cbn; by rewrite u8_id.
  - done.
  - done.
Defined.

Definition irqs0 : irqs two_pics heap :=
  Irqs [] 0 (repeat 0 16) (repeat 0 16) (repeat 0 16) (repeat 0 256) 0 0 false
    (statics (PicState 0xB8 [] 8, PicState 0x8E [] 0x70)) (sched_statics heap0).
(** Handlers one page apart in the upper half. *)
Definition addr0 (i : isr) : Z :=
  0xffffffff80200000 + 4096 * match i with
    | in_c isr_default_noerr => 1 | in_c isr_default_err => 2 | in_c (isr_ex n) => 16 + n mod 32
    | in_c (isr_irq n) => 48 + n mod 16 | in_c isr_timer => 64 | in_c isr_keyboard => 65 | in_c isr_mouse => 66
    | isr_vector_0xf0 => 67 | isr_other _ => 68
    end.
Lemma addr0_u64 i : is_u64 (addr0 i).
Proof. unfold is_u64, addr0. destruct i as [[| |n|n| | |]| |]; lia. Qed.

(** The keyboard's vector. *)
Lemma interrupts_init_routes_witness : exists s' g,
  interrupts_init addr0 0x28 irqs0 = Ret ((), s') /\ idt s' !! 33%nat = Some g /\ gate_addr g = addr0 isr_keyboard.
Proof.
  destruct (interrupts_init_routes addr0 irqs0 0x28 addr0_u64) as (s' & E & H & _).
  destruct (H 33 ltac:(lia)) as (g & Hg & Ha & _). exists s', g. split; [exact E |]. split; [exact Hg | exact Ha].
Defined.

Lemma slave_irqs_blocked_witness : exists s',
  (_ ← interrupts_init addr0 0x28; irq_runs [Unmask 12; Unmask 11]) irqs0 = Ret ((), s') /\ irq_delivered s' 12 = false.
Proof.
  destruct (slave_irqs_blocked addr0 irqs0 0x28 [Unmask 12; Unmask 11]) as [(s' & E & H) _].
  - rewrite !elem_of_cons, elem_of_nil. by intros [[=]|[[=]|[]]].
  - exists s'. split; [exact E | apply (H 12); lia].
Defined.

Lemma irq_masks_correct_witness : exists s',
  (_ ← interrupts_init addr0 0x28; irq_runs [Unmask 12; Mask 1; Unmask 77]) irqs0 = Ret ((), s') /\
  irq_masked s' 1 = true /\ irq_masked s' 12 = false.
Proof.
  destruct (irq_masks_correct addr0 irqs0 0x28 [Unmask 12; Mask 1; Unmask 77]) as (s' & E & H).
  exists s'. split; [exact E |]. split; [rewrite (H 1) | rewrite (H 12)]; first [lia | reflexivity].
Defined.
