(* ===== verification/Lapic.v ===== *)
(** * The local APIC ([src/src/kernel/lapic.c]; [rdmsr], [wrmsr], [cpuid] and
    [cpu_sleep_ticks] of [src/src/kernel/cpu.c])

    The processor and its timer are behind [Cpu]; [ApicTimer] is their documented behaviour:
    the register page, the count that runs down from the initial count, the tick counter
    that the timer interrupt advances.  A wait for the counter takes a budget. *)
From S2P Require Import Prelude Interfaces Phys Interrupts.

(** ** The processor

    Registers in memory are accessed by their virtual address; a read of the volatile
    [ticks] sees the interrupts that came before it. *)
Class Cpu (C : Type) := {
  msr_get : Z -> C -> Z;
  msr_set : Z -> Z -> C -> C;
  reg_load : Z -> C -> Z * C;
  reg_store : Z -> Z -> C -> C;
  ticks_get : C -> Z * C;
  cpuid : Z -> C -> Z * Z * Z * Z;
  msr_get_u64 r c : is_u64 (msr_get r c);
}.

Definition MSR_APIC_BASE : Z := 0x1B.
Definition APIC_ENABLE : Z := Z.shiftl 1 11.
Definition LAPIC_REG_ID : Z := 0x020.
Definition LAPIC_REG_EOI : Z := 0x0B0.
Definition LAPIC_REG_SVR : Z := 0x0F0.
Definition LAPIC_REG_TPR : Z := 0x080.
Definition LAPIC_REG_TIMER : Z := 0x320.
Definition LAPIC_REG_TIMER_ICR : Z := 0x380.
Definition LAPIC_REG_TIMER_CCR : Z := 0x390.
Definition LAPIC_REG_TIMER_DCR : Z := 0x3E0.
Definition LAPIC_TIMER_VECTOR : Z := 0xF0.

(** The statics of the file; [lapic_regs] is 0 before [lapic_map]. *)
Record lapic (C : Type) := Lapic { lapic_regs : Z; lapic_tps : Z; cpu : C }.
Arguments Lapic {C}. Arguments lapic_regs {C}. Arguments lapic_tps {C}. Arguments cpu {C}.

Section Code.
Context {C : Type} `{!Cpu C} (mem : phys).
Definition M (A : Type) : Type := st (lapic C) A.

Definition rdmsr (msr : Z) : M Z := s ← st_get;
  let v := msr_get msr (cpu s) in let lo := u32 v in let hi := u32 (Z.shiftr v 32) in
  mret (Z.lor (Z.shiftl hi 32) lo).
Definition wrmsr (msr value : Z) : M () :=
  let lo := Z.land value 0xFFFFFFFF in let hi := u32 (Z.shiftr value 32) in
  st_modify (fun s => Lapic (lapic_regs s) (lapic_tps s) (msr_set msr (Z.lor (Z.shiftl hi 32) lo) (cpu s))).
(** The four registers as little-endian bytes, and the NUL. *)
Definition cpu_get_vendor : M (list Z) := s ← st_get;
  let '(_, ebx, ecx, edx) := cpuid 0 (cpu s) in
  mret (le_bytes 4 ebx ++ le_bytes 4 edx ++ le_bytes 4 ecx ++ [0]).
Definition cpu_get_features : M (Z * Z) := s ← st_get;
  let '(_, _, ecx, edx) := cpuid 1 (cpu s) in mret (edx, ecx).
(** A read of the volatile [ticks]. *)
Definition read_ticks : M Z := fun s =>
  let (v, c) := ticks_get (cpu s) in Ret (v, Lapic (lapic_regs s) (lapic_tps s) c).
(** The loops that read [ticks] until it passes a test. *)
Fixpoint wait_ticks (fuel : nat) (stop : Z -> bool) : M () :=
  t ← read_ticks;
  if stop t then mret () else match fuel with O => st_spin | S fuel => wait_ticks fuel stop end.
Definition cpu_sleep_ticks (fuel : nat) (sleep_ticks : Z) : M () :=
  t ← read_ticks; let target := u64 (t + sleep_ticks) in
  wait_ticks fuel (fun t => negb (t <? target)).

Definition lapic_write (reg val : Z) : M () := st_modify (fun s =>
  Lapic (lapic_regs s) (lapic_tps s) (reg_store (u64 (lapic_regs s + 4 * (reg / 4))) val (cpu s))).
Definition lapic_read (reg : Z) : M Z := fun s =>
  let (v, c) := reg_load (u64 (lapic_regs s + 4 * (reg / 4))) (cpu s) in
  Ret (v, Lapic (lapic_regs s) (lapic_tps s) c).

Definition lapic_map : M () :=
  base ← rdmsr MSR_APIC_BASE; let base := Z.lor base APIC_ENABLE in
  _ ← wrmsr MSR_APIC_BASE base;
  let phys := Z.land base 0xFFFFF000 in
  st_modify (fun s => Lapic (phys_to_virt phys mem) (lapic_tps s) (cpu s)).
Definition lapic_id : M Z := s ← st_get;
  if lapic_regs s =? 0 then mret 0 else v ← lapic_read LAPIC_REG_ID; mret (Z.shiftr v 24).
Definition lapic_eoi : M () := s ← st_get;
  if lapic_regs s =? 0 then mret () else lapic_write LAPIC_REG_EOI 0.
Definition lapic_timer_ticks_per_sec : M Z := s ← st_get; mret (lapic_tps s).
Definition set_tps (v : Z) : M () := st_modify (fun s => Lapic (lapic_regs s) v (cpu s)).
Definition lapic_timer_calibrate (fuel : nat) : M () :=
  s ← st_get;
  if negb (lapic_tps s =? 0) then mret () else
  _ ← lapic_write LAPIC_REG_TIMER_DCR 0x3;
  _ ← lapic_write LAPIC_REG_TIMER LAPIC_TIMER_VECTOR;
  _ ← lapic_write LAPIC_REG_TIMER_ICR 0xFFFFFFFF;
  start ← read_ticks; _ ← wait_ticks fuel (fun t => negb (t =? start));
  start ← read_ticks; _ ← wait_ticks fuel (fun t => negb (u64 (t - start) <? PIT_HZ));
  cur ← lapic_read LAPIC_REG_TIMER_CCR;
  let tps := u32 (0xFFFFFFFF - cur) in
  set_tps (if tps =? 0 then 100000000 else tps).
Definition lapic_timer_setup (fuel : nat) (hz : Z) : M () :=
  s ← st_get;
  if (lapic_regs s =? 0) || (hz =? 0) then mret () else
  _ ← (if lapic_tps s =? 0 then lapic_timer_calibrate fuel else mret ());
  s ← st_get;
  let initial := lapic_tps s / hz in
  let initial := if initial =? 0 then 1 else initial in
  _ ← lapic_write LAPIC_REG_TIMER_DCR 0x3;
  _ ← lapic_write LAPIC_REG_TIMER LAPIC_TIMER_VECTOR;
  lapic_write LAPIC_REG_TIMER_ICR initial.
Definition lapic_init_ap : M () :=
  _ ← lapic_map;
  _ ← lapic_write LAPIC_REG_TPR 0;
  lapic_write LAPIC_REG_SVR (Z.lor 0x100 0xFF).
Definition lapic_init (fuel : nat) : M () :=
  _ ← lapic_map;
  _ ← lapic_write LAPIC_REG_TPR 0;
  _ ← lapic_write LAPIC_REG_SVR (Z.lor 0x100 0xFF);
  lapic_timer_calibrate fuel.
End Code.

(** ** The timer of the processor

    [initial] was written at [armed_at]; the count runs down once, by one every
    [apic_div] clocks. *)
Record apic := Apic {
  apic_number : Z; svr : Z; tpr : Z; lvt_timer : Z; divide : Z; initial : Z; armed_at : Z; eois : Z;
}.
Definition apic_div (a : apic) : Z :=
  let n := Z.land (divide a) 3 + 4 * (divide a / 8 mod 2) in if n =? 7 then 1 else 2 ^ (n + 1).
Definition apic_count (t : Z) (a : apic) : Z := Z.max 0 (initial a - (t - armed_at a) / apic_div a).
Definition apic_write (reg v t : Z) (a : apic) : apic :=
  let '(Apic n s p l d i at' e) := a in
  if reg =? LAPIC_REG_SVR then Apic n v p l d i at' e else
  if reg =? LAPIC_REG_TPR then Apic n s v l d i at' e else
  if reg =? LAPIC_REG_TIMER then Apic n s p v d i at' e else
  if reg =? LAPIC_REG_TIMER_DCR then Apic n s p l v i at' e else
  if reg =? LAPIC_REG_TIMER_ICR then Apic n s p l d v t e else
  if reg =? LAPIC_REG_EOI then Apic n s p l d i at' (e + 1) else a.
Definition apic_read (reg t : Z) (a : apic) : option Z :=
  if reg =? LAPIC_REG_ID then Some (Z.shiftl (apic_number a) 24) else
  if reg =? LAPIC_REG_TIMER_CCR then Some (apic_count t a) else None.
Definition apic_regs : list Z :=
  [LAPIC_REG_ID; LAPIC_REG_EOI; LAPIC_REG_SVR; LAPIC_REG_TPR; LAPIC_REG_TIMER; LAPIC_REG_TIMER_ICR; LAPIC_REG_TIMER_CCR;
   LAPIC_REG_TIMER_DCR].

(** Where the page of the local APIC is mapped. *)
Definition apic_va {C} `{!Cpu C} (mem : phys) (c : C) : Z :=
  phys_to_virt (Z.land (msr_get MSR_APIC_BASE c) 0xFFFFF000) mem.

(** Time is counted in clocks of the bus, from the start of the tick counter; an access
    takes at most [delay], the timer interrupt comes every [period]. *)
Class ApicTimer (C : Type) `{!Cpu C} (mem : phys) (period delay : Z) := {
  now : C -> Z;
  apic_of : C -> apic;
  period_pos : 0 < period;
  now_pos c : 0 <= now c;
  ticks_law c : let r := ticks_get c in
    r.1 = u64 (now r.2 / period) /\ now c < now r.2 <= now c + delay /\
    apic_of r.2 = apic_of c /\ msr_get MSR_APIC_BASE r.2 = msr_get MSR_APIC_BASE c;
  store_law reg v c : reg ∈ apic_regs -> Z.testbit (msr_get MSR_APIC_BASE c) 11 = true -> is_u32 v ->
    let c' := reg_store (u64 (apic_va mem c + reg)) v c in
    now c < now c' <= now c + delay /\ apic_of c' = apic_write reg v (now c') (apic_of c) /\
    msr_get MSR_APIC_BASE c' = msr_get MSR_APIC_BASE c;
  load_law reg c : reg ∈ apic_regs -> Z.testbit (msr_get MSR_APIC_BASE c) 11 = true ->
    let r := reg_load (u64 (apic_va mem c + reg)) c in
    now c < now r.2 <= now c + delay /\ apic_of r.2 = apic_of c /\
    msr_get MSR_APIC_BASE r.2 = msr_get MSR_APIC_BASE c /\
    (forall x, apic_read reg (now r.2) (apic_of c) = Some x -> r.1 = x);
  msr_law v c : is_u64 v ->
    let c' := msr_set MSR_APIC_BASE v c in
    msr_get MSR_APIC_BASE c' = v /\ now c <= now c' <= now c + delay /\ apic_of c' = apic_of c;
}.

Section Timer.
Context {C : Type} `{!Cpu C} (mem : phys) (period delay : Z) `{!ApicTimer C mem period delay}.

(** The page is mapped and enabled. *)
Definition apic_mapped (s : lapic C) : Prop :=
  lapic_regs s = apic_va mem (cpu s) /\ Z.testbit (msr_get MSR_APIC_BASE (cpu s)) 11 = true.

Lemma delay_pos : C -> 0 < delay.
Proof using All. intros c. pose proof (ticks_law c) as H. cbv zeta in H. lia. Qed.

Lemma wait_ticks_ok T stop : forall fuel s,
  T * period <= now (cpu s) + Z.of_nat fuel + 1 ->
  Z.max (now (cpu s)) (T * period) + delay < 2 ^ 64 * period ->
  (forall t, now (cpu s) / period <= t -> is_u64 t -> stop t = (T <=? t)) ->
  exists c', wait_ticks fuel stop s = Ret ((), Lapic (lapic_regs s) (lapic_tps s) c') /\
    T * period <= now c' /\ now (cpu s) < now c' <= Z.max (now (cpu s)) (T * period - 1) + delay /\
    apic_of c' = apic_of (cpu s) /\ msr_get MSR_APIC_BASE c' = msr_get MSR_APIC_BASE (cpu s).
Proof.
  pose proof period_pos as Hp.
  induction fuel as [|fuel IH]; intros s Hf Hb Hs; cbn [wait_ticks];
    pose proof (ticks_law (cpu s)) as Hl; cbv zeta in Hl; pose proof (now_pos (cpu s)) as H0;
    unfold mbind at 1, st_bind at 1, read_ticks at 1; destruct (ticks_get (cpu s)) as [v c'] eqn:E;
    cbn [fst snd] in Hl; destruct Hl as (-> & Hn & Ha & Hm).
  all: assert (now (cpu s) / period <= now c' / period) as Hmono by (apply Z.div_le_mono; lia).
  all: assert (is_u64 (now c' / period)) as Hu
    by (split; [apply Z.div_pos; lia | apply Z.div_lt_upper_bound; lia]).
  all: cbn [mbind res_bind]; rewrite (u64_id _ Hu), (Hs _ Hmono Hu).
  all: destruct (Z.leb_spec T (now c' / period)) as [Hd|Hd].
  1, 3: exists c'; split; [done |]; assert (T * period <= now c') by
      (pose proof (Z.mul_div_le (now c') period Hp); nia); split; [lia |]; split; [lia | done].
  - exfalso. assert (now c' < T * period) by (pose proof (Z.mul_succ_div_gt (now c') period Hp); nia). lia.
  - assert (now c' < T * period) by (pose proof (Z.mul_succ_div_gt (now c') period Hp); nia).
    destruct (IH (Lapic (lapic_regs s) (lapic_tps s) c')) as (c2 & E2 & H1 & H2 & H3 & H4); cbn [cpu] in *; try lia.
    { intros t Ht. apply Hs. lia. }
    exists c2. cbn [lapic_regs lapic_tps] in E2. rewrite E2, H3, H4. split; [done |]. split; [done |]. split; [lia | done].
Qed.

Lemma in_apic_regs reg : bool_decide (reg ∈ apic_regs) = true -> reg ∈ apic_regs.
Proof. apply bool_decide_eq_true. Qed.

Lemma apic_mapped_step s r t c' : apic_mapped s -> lapic_regs s = r ->
  msr_get MSR_APIC_BASE c' = msr_get MSR_APIC_BASE (cpu s) -> apic_mapped (Lapic r t c').
Proof. intros [H1 H2] <- E. unfold apic_mapped, apic_va in *. cbn. by rewrite E. Qed.
Lemma lapic_write_ok reg v s : reg ∈ apic_regs -> is_u32 v -> apic_mapped s ->
  exists c', lapic_write reg v s = Ret ((), Lapic (lapic_regs s) (lapic_tps s) c') /\
    now (cpu s) < now c' <= now (cpu s) + delay /\ apic_of c' = apic_write reg v (now c') (apic_of (cpu s)) /\
    msr_get MSR_APIC_BASE c' = msr_get MSR_APIC_BASE (cpu s).
Proof.
  intros Hr Hv [Hm He]. pose proof (store_law reg v (cpu s) Hr He Hv) as H. cbv zeta in H.
  assert (4 * (reg / 4) = reg) as Hq.
  { unfold apic_regs in Hr. rewrite !elem_of_cons, elem_of_nil in Hr. by destruct_or! Hr; subst. }
  eexists. split; [unfold lapic_write, st_modify; rewrite Hq, Hm; reflexivity | exact H].
Qed.
Lemma lapic_read_ok reg x s : reg ∈ apic_regs -> apic_mapped s ->
  (forall t, apic_read reg t (apic_of (cpu s)) = Some (x t)) ->
  exists c', lapic_read reg s = Ret (x (now c'), Lapic (lapic_regs s) (lapic_tps s) c') /\
    now (cpu s) < now c' <= now (cpu s) + delay /\ apic_of c' = apic_of (cpu s) /\
    msr_get MSR_APIC_BASE c' = msr_get MSR_APIC_BASE (cpu s).
Proof.
  intros Hr [Hm He] Hx. pose proof (load_law reg (cpu s) Hr He) as H. cbv zeta in H.
  assert (4 * (reg / 4) = reg) as Hq.
  { unfold apic_regs in Hr. rewrite !elem_of_cons, elem_of_nil in Hr. by destruct_or! Hr; subst. }
  unfold lapic_read. rewrite Hq, Hm.
  destruct (reg_load _ _) as [v c']; cbn [fst snd] in H. destruct H as (H1 & H2 & H3 & H4).
  exists c'. by rewrite (H4 _ (Hx _)).
Qed.
(** The rate of the timer as [lapic_timer_calibrate] measures it, [e] clocks between the
    start of the count and its reading. *)
Definition measured (e : Z) : Z := Z.min (2 ^ 32 - 1) (e / 16).

Lemma tps_measured e : 48 <= e ->
  (if u32 (0xFFFFFFFF - Z.max 0 (2 ^ 32 - 1 - e / 16)) =? 0 then 100000000
   else u32 (0xFFFFFFFF - Z.max 0 (2 ^ 32 - 1 - e / 16))) = measured e.
Proof.
  intros He. assert (0 < measured e < 2 ^ 32) by (unfold measured; lia).
  replace (0xFFFFFFFF - _) with (measured e) by (unfold measured; lia).
  rewrite u32_id by (unfold is_u32; lia). by rewrite (proj2 (Z.eqb_neq _ _)) by lia.
Qed.

Ltac access_step H :=
  let c := fresh "c" in let E := fresh "E" in let Hn := fresh "Hn" in let Ha := fresh "Ha" in let Hm := fresh "Hm" in
  destruct H as (c & E & Hn & Ha & Hm); rewrite (st_bind_ret _ _ _ _ _ E); cbn [cpu lapic_regs lapic_tps] in *.

Lemma read_ticks_ok s : now (cpu s) + delay < 2 ^ 64 * period ->
  exists c', read_ticks s = Ret (now c' / period, Lapic (lapic_regs s) (lapic_tps s) c') /\
    now (cpu s) < now c' <= now (cpu s) + delay /\ apic_of c' = apic_of (cpu s) /\
    msr_get MSR_APIC_BASE c' = msr_get MSR_APIC_BASE (cpu s).
Proof.
  intros Hb. pose proof period_pos as Hp. pose proof (ticks_law (cpu s)) as Hl. cbv zeta in Hl. unfold read_ticks.
  destruct (ticks_get (cpu s)) as [v c']. cbn [fst snd] in Hl. destruct Hl as (-> & Hn & Ha & Hm). exists c'.
  rewrite u64_id; [done |]. pose proof (now_pos c'). split; [apply Z.div_pos; lia | apply Z.div_lt_upper_bound; lia].
Qed.

(** The divider and the vector of the timer are set. *)
Lemma set_timer s (k : M ()) : apic_mapped s ->
  exists c', (_ ← lapic_write LAPIC_REG_TIMER_DCR 0x3; _ ← lapic_write LAPIC_REG_TIMER LAPIC_TIMER_VECTOR; k) s =
      k (Lapic (lapic_regs s) (lapic_tps s) c') /\
    now (cpu s) < now c' <= now (cpu s) + 2 * delay /\
    apic_of c' = (let a := apic_of (cpu s) in
      Apic (apic_number a) (svr a) (tpr a) LAPIC_TIMER_VECTOR 3 (initial a) (armed_at a) (eois a)) /\
    msr_get MSR_APIC_BASE c' = msr_get MSR_APIC_BASE (cpu s) /\
    apic_mapped (Lapic (lapic_regs s) (lapic_tps s) c').
Proof.
  intros Hmap.
  access_step (lapic_write_ok LAPIC_REG_TIMER_DCR 3 s ltac:(by apply in_apic_regs) ltac:(by vm_compute) Hmap).
  pose proof (apic_mapped_step _ _ (lapic_tps s) _ Hmap eq_refl Hm) as Hmap0.
  access_step (lapic_write_ok LAPIC_REG_TIMER LAPIC_TIMER_VECTOR _ ltac:(by apply in_apic_regs) ltac:(by vm_compute) Hmap0).
  exists c0. split; [done |]. split; [lia |]. split; [by rewrite Ha0, Ha; destruct (apic_of (cpu s)) |].
  split; [congruence |]. eapply apic_mapped_step; [exact Hmap | done | congruence].
Qed.

Lemma changed_ltb k t : k <= t -> negb (t =? k) = (k + 1 <=? t).
Proof. intros H. leb_cases; lia. Qed.
Lemma second_ltb k t : 0 <= k <= t -> is_u64 t -> negb (u64 (t - k) <? PIT_HZ) = (k + 60 <=? t).
Proof. intros Hk [_ Ht]. rewrite u64_id by (unfold is_u64; lia). unfold PIT_HZ. leb_cases; lia. Qed.

(** The two waits of the calibration: from a tick to the sixtieth after it. *)
Lemma one_second fuel s (k : M ()) : 60 * period <= Z.of_nat fuel -> now (cpu s) + 9 * delay + 61 * period < 2 ^ 64 * period ->
  exists c', (start ← read_ticks; _ ← wait_ticks fuel (fun t => negb (t =? start));
              start ← read_ticks; _ ← wait_ticks fuel (fun t => negb (u64 (t - start) <? PIT_HZ)); k) s =
      k (Lapic (lapic_regs s) (lapic_tps s) c') /\
    now (cpu s) + 60 * period < now c' < now (cpu s) + 61 * period + 4 * delay /\
    apic_of c' = apic_of (cpu s) /\ msr_get MSR_APIC_BASE c' = msr_get MSR_APIC_BASE (cpu s).
Proof.
  intros Hf Hb. pose proof period_pos as Hp. pose proof (delay_pos (cpu s)) as Hd. pose proof (now_pos (cpu s)) as H0.
  access_step (read_ticks_ok s ltac:(lia)).
  pose proof (Z.mul_div_le (now c) period Hp) as Hq. pose proof (Z.mul_succ_div_gt (now c) period Hp) as Hq'.
  set (k0 := now c / period) in *.
  assert (0 <= k0) by (apply Z.div_pos; lia).
  access_step (wait_ticks_ok (k0 + 1) (fun t => negb (t =? k0)) fuel (Lapic (lapic_regs s) (lapic_tps s) c)
    ltac:(cbn [cpu]; lia) ltac:(cbn [cpu]; lia)
    ltac:(intros t Ht _; by apply changed_ltb)).
  access_step (read_ticks_ok (Lapic (lapic_regs s) (lapic_tps s) c0) ltac:(cbn [cpu]; lia)).
  pose proof (Z.mul_div_le (now c1) period Hp) as Hr. pose proof (Z.mul_succ_div_gt (now c1) period Hp) as Hr'.
  set (k1 := now c1 / period) in *.
  assert (k0 + 1 <= k1) by (apply Z.div_le_lower_bound; lia). assert (0 <= k1) by lia.
  assert ((k0 + 1) * period <= k1 * period) by (apply Z.mul_le_mono_nonneg_r; lia).
  access_step (wait_ticks_ok (k1 + 60) (fun t => negb (u64 (t - k1) <? PIT_HZ)) fuel (Lapic (lapic_regs s) (lapic_tps s) c1)
    ltac:(cbn [cpu]; lia) ltac:(cbn [cpu]; lia) ltac:(intros t Ht; apply second_ltb; split; [assumption | exact Ht])).
  destruct Hm0 as [Hm0 Hm0'], Hm2 as [Hm2 Hm2']. exists c2. split; [done |]. split; [lia |]. split; congruence.
Qed.
(** [cpu_sleep_ticks n] returns after [n] ticks: more than [n - 1] periods, and no more
    than [n] periods and two accesses. *)
Theorem cpu_sleep_ticks_returns fuel n s (Hn : 0 < n) (Hf : n * period <= Z.of_nat fuel)
  (Hb : now (cpu s) + 2 * delay + n * period < 2 ^ 64 * period) :
  exists c', cpu_sleep_ticks fuel n s = Ret ((), Lapic (lapic_regs s) (lapic_tps s) c') /\
    now (cpu s) + (n - 1) * period < now c' <= now (cpu s) + n * period + 2 * delay /\
    apic_of c' = apic_of (cpu s).
Proof.
  pose proof period_pos as Hp. pose proof (delay_pos (cpu s)) as Hd. unfold cpu_sleep_ticks.
  access_step (read_ticks_ok s ltac:(nia)). pose proof (now_pos c) as H0.
  pose proof (Z.mul_div_le (now c) period Hp) as Hq. pose proof (Z.mul_succ_div_gt (now c) period Hp) as Hq'.
  assert (is_u64 (now c / period + n)) as Hu.
  { split; [pose proof (Z.div_pos (now c) period); lia |]. nia. }
  destruct (wait_ticks_ok (now c / period + n) (fun t => negb (t <? u64 (now c / period + n))) fuel
    (Lapic (lapic_regs s) (lapic_tps s) c)) as (c2 & E2 & H1 & H2 & H3 & H4); cbn [cpu lapic_regs lapic_tps] in *.
  - nia.
  - nia.
  - intros t Ht Htu. rewrite (u64_id _ Hu). by rewrite Z.ltb_antisym, negb_involutive.
  - exists c2. rewrite E2. split; [done |]. split; [nia | congruence].
Qed.

(** Calibration ends, and measures the count of one second (60 periods of the tick), at
    most one period and the five accesses after the start too much; a timer that runs out
    is reported with the largest rate.  The timer is left running: a single interrupt on
    vector 0xF0 is to come. *)
Theorem lapic_calibrate_correct fuel s (Hmap : apic_mapped s) (Hz : lapic_tps s = 0)
  (Hf : 60 * period <= Z.of_nat fuel) (Hb : now (cpu s) + 12 * delay + 61 * period < 2 ^ 64 * period) :
  exists c' e, lapic_timer_calibrate fuel s = Ret ((), Lapic (lapic_regs s) (measured e) c') /\
    60 * period < e < 61 * period + 5 * delay /\
    msr_get MSR_APIC_BASE c' = msr_get MSR_APIC_BASE (cpu s) /\
    let a := apic_of c' in
    lvt_timer a = LAPIC_TIMER_VECTOR /\ divide a = 3 /\ initial a = 2 ^ 32 - 1 /\ armed_at a + e = now c' /\
    svr a = svr (apic_of (cpu s)) /\ tpr a = tpr (apic_of (cpu s)).
Proof.
  pose proof period_pos as Hp. unfold lapic_timer_calibrate. unfold mbind at 1, st_bind at 1, st_get at 1.
  cbn [mbind res_bind]. rewrite Hz. cbn [Z.eqb negb].
  edestruct (set_timer s) as (c & E & Hn & Ha & Hm & Hmap0); [exact Hmap |]. rewrite E. clear E.
  access_step (lapic_write_ok LAPIC_REG_TIMER_ICR 0xFFFFFFFF _ ltac:(by apply in_apic_regs) ltac:(by vm_compute) Hmap0).
  pose proof (apic_mapped_step _ _ (lapic_tps s) _ Hmap0 eq_refl Hm0) as Hmap1.
  edestruct (one_second fuel (Lapic (lapic_regs s) (lapic_tps s) c0)) as (c1 & E1 & Hn1 & Ha1 & Hm1); cbn [cpu] in *; [lia..|].
  rewrite E1. clear E1. cbn [lapic_regs lapic_tps].
  pose proof (apic_mapped_step _ _ (lapic_tps s) _ Hmap1 eq_refl Hm1) as Hmap2.
  rewrite Ha in Ha0. cbn in Ha0.
  access_step (lapic_read_ok LAPIC_REG_TIMER_CCR (fun t => Z.max 0 (2 ^ 32 - 1 - (t - now c0) / 16))
    _ ltac:(by apply in_apic_regs) Hmap2 ltac:(cbn [cpu]; rewrite Ha1, Ha0; by intros t)).
  exists c2, (now c2 - now c0). rewrite Ha2, Ha1, Ha0. cbn. split_and!; try done; try lia; try congruence.
  unfold set_tps, st_modify. cbn [lapic_regs cpu]. do 3 f_equal. apply tps_measured. lia.
Qed.

Lemma msr_halves v : is_u64 v -> Z.lor (Z.shiftl (u32 (Z.shiftr v 32)) 32) (u32 v) = v.
Proof.
  intros Hv. unfold is_u64 in Hv. rewrite Z.lor_comm, lor_shiftl by (try apply u32_range; lia).
  rewrite Z.shiftr_div_pow2 by lia. rewrite (u32_id (v / 2 ^ 32)) by (unfold is_u32; lia). unfold u32. lia.
Qed.
Lemma lor_u64 a b : is_u64 a -> is_u64 b -> is_u64 (Z.lor a b).
Proof.
  intros Ha Hb. unfold is_u64. rewrite <- (Z.mod_small a (2 ^ 64)), <- (Z.mod_small b (2 ^ 64)) by done.
  rewrite <- !(Z.land_ones _ 64), <- Z.land_lor_distr_l, Z.land_ones by lia. by apply Z.mod_pos_bound.
Qed.

Lemma lapic_map_ok s : exists c', lapic_map mem s = Ret ((), Lapic (apic_va mem c') (lapic_tps s) c') /\
  now (cpu s) <= now c' <= now (cpu s) + delay /\ apic_of c' = apic_of (cpu s) /\
  msr_get MSR_APIC_BASE c' = Z.lor (msr_get MSR_APIC_BASE (cpu s)) APIC_ENABLE.
Proof.
  set (v := Z.lor (msr_get MSR_APIC_BASE (cpu s)) APIC_ENABLE).
  assert (is_u64 v) as Hv by (apply lor_u64; [apply msr_get_u64 | done]).
  pose proof (msr_law v (cpu s) Hv) as (Hg & Hn & Ha).
  exists (msr_set MSR_APIC_BASE v (cpu s)). split; [| done].
  unfold lapic_map, rdmsr, wrmsr, st_get, st_modify, mbind, st_bind, mret, st_ret.
  cbn [mbind res_bind cpu lapic_regs lapic_tps].
  rewrite (msr_halves (msr_get _ _)) by apply msr_get_u64. fold v.
  replace (Z.land v 0xFFFFFFFF) with (u32 v) by (unfold u32; by rewrite <- (Z.land_ones v 32)).
  rewrite (msr_halves v) by done. unfold apic_va. by rewrite Hg.
Qed.
Lemma apic_mapped_enabled t c b : msr_get MSR_APIC_BASE c = Z.lor b APIC_ENABLE -> apic_mapped (Lapic (apic_va mem c) t c).
Proof. intros E. split; [done |]. cbn [cpu]. rewrite E, Z.lor_spec. apply orb_true_r. Qed.

(** What [lapic_init] and [lapic_init_ap] share, before [k]. *)
Lemma lapic_enable s (k : M ()) :
  exists c', (_ ← lapic_map mem; _ ← lapic_write LAPIC_REG_TPR 0; _ ← lapic_write LAPIC_REG_SVR (Z.lor 0x100 0xFF); k) s =
      k (Lapic (apic_va mem c') (lapic_tps s) c') /\
    now c' <= now (cpu s) + 3 * delay /\
    apic_of c' = (let a := apic_of (cpu s) in
      Apic (apic_number a) 0x1FF 0 (lvt_timer a) (divide a) (initial a) (armed_at a) (eois a)) /\
    msr_get MSR_APIC_BASE c' = Z.lor (msr_get MSR_APIC_BASE (cpu s)) APIC_ENABLE /\
    apic_mapped (Lapic (apic_va mem c') (lapic_tps s) c').
Proof.
  access_step (lapic_map_ok s). pose proof (apic_mapped_enabled (lapic_tps s) c _ Hm) as Hs.
  access_step (lapic_write_ok LAPIC_REG_TPR 0 _ ltac:(by apply in_apic_regs) ltac:(by vm_compute) Hs).
  pose proof (apic_mapped_step _ _ (lapic_tps s) _ Hs eq_refl Hm0) as Hs0.
  access_step (lapic_write_ok LAPIC_REG_SVR (Z.lor 0x100 0xFF) _ ltac:(by apply in_apic_regs) ltac:(by vm_compute) Hs0).
  assert (apic_va mem c1 = apic_va mem c) as Hv by (unfold apic_va; congruence).
  exists c1. rewrite Hv. split; [done |]. split; [lia |].
  split; [rewrite Ha1, Ha0, Ha; by destruct (apic_of (cpu s)) |]. split; [congruence |].
  rewrite <- Hv. apply (apic_mapped_enabled _ _ (msr_get MSR_APIC_BASE (cpu s))). congruence.
Qed.

(** [lapic_init] on any processor: the page is enabled at its address and mapped, every
    interrupt is accepted, spurious ones on vector 0xFF, and the rate is measured as above. *)
Theorem lapic_init_correct fuel s (Hz : lapic_tps s = 0)
  (Hf : 60 * period <= Z.of_nat fuel) (Hb : now (cpu s) + 15 * delay + 61 * period < 2 ^ 64 * period) :
  exists c' e, lapic_init mem fuel s = Ret ((), Lapic (apic_va mem c') (measured e) c') /\
    60 * period < e < 61 * period + 5 * delay /\
    msr_get MSR_APIC_BASE c' = Z.lor (msr_get MSR_APIC_BASE (cpu s)) APIC_ENABLE /\
    svr (apic_of c') = 0x1FF /\ tpr (apic_of c') = 0 /\ apic_mapped (Lapic (apic_va mem c') (measured e) c').
Proof.
  edestruct (lapic_enable s) as (c & E & Hn & Ha & Hm & Hs). unfold lapic_init. rewrite E. clear E.
  destruct (lapic_calibrate_correct fuel _ Hs Hz Hf ltac:(cbn [cpu]; lia)) as (c' & e & E & He & Hm' & _ & _ & _ & _ & Hv & Ht).
  exists c', e. rewrite E. cbn [cpu lapic_regs] in *. assert (apic_va mem c' = apic_va mem c) as Hva by (unfold apic_va; congruence).
  rewrite Hva, Hv, Ht, Ha. split_and!; try done; try lia; try congruence.
  rewrite <- Hva. apply (apic_mapped_enabled _ _ (msr_get MSR_APIC_BASE (cpu s))). congruence.
Qed.

(** After calibration, [lapic_timer_setup hz] restarts the timer at once, [hz] times a
    second to within the rounding of the division; it does nothing for 0. *)
Theorem lapic_timer_setup_correct fuel hz s (Hs : apic_mapped s) (Hz : 0 < lapic_tps s < 2 ^ 32) (Hhz : is_u32 hz)
  (Hr : lapic_regs s <> 0) :
  exists c', lapic_timer_setup fuel hz s = Ret ((), Lapic (lapic_regs s) (lapic_tps s) c') /\
    (hz = 0 -> c' = cpu s) /\
    (hz <> 0 -> let a := apic_of c' in
      lvt_timer a = LAPIC_TIMER_VECTOR /\ divide a = 3 /\ armed_at a = now c' /\ 0 < initial a /\
      initial a = Z.max 1 (lapic_tps s / hz)).
Proof.
  unfold lapic_timer_setup. rewrite (st_bind_ret st_get _ s s s) by done.
  rewrite (proj2 (Z.eqb_neq (lapic_regs s) 0) Hr). cbn [orb]. destruct (Z.eqb_spec hz 0) as [->|Hne].
  { exists (cpu s). split; [by destruct s |]. split; [done | lia]. }
  rewrite (proj2 (Z.eqb_neq _ 0)) by lia. unfold is_u32 in Hhz.
  assert (0 <= lapic_tps s / hz < 2 ^ 32) as Hq.
  { split; [apply Z.div_pos; lia | apply Z.div_lt_upper_bound; nia]. }
  assert ((if lapic_tps s / hz =? 0 then 1 else lapic_tps s / hz) = Z.max 1 (lapic_tps s / hz)) as Ei.
  { destruct (Z.eqb_spec (lapic_tps s / hz) 0); lia. }
  rewrite (st_bind_ret _ _ s () s) by done. rewrite (st_bind_ret st_get _ s s s) by done. cbv zeta. rewrite Ei.
  edestruct (set_timer s) as (c & E & Hn & Ha & Hm & Hs0); [exact Hs |]. rewrite E. clear E.
  assert (is_u32 (Z.max 1 (lapic_tps s / hz))) as Hu by (unfold is_u32; lia).
  destruct (lapic_write_ok LAPIC_REG_TIMER_ICR _ _ ltac:(by apply in_apic_regs) Hu Hs0) as (c' & E & Hn' & Ha' & _).
  exists c'. rewrite E. split; [done |]. split; [done |]. intros _. cbv zeta. rewrite Ha'. cbn [cpu]. rewrite Ha. cbn. lia.
Qed.

(** Before [lapic_map] the number is 0 and nothing is acknowledged; after it the number is
    the processor's, and one interrupt is acknowledged. *)
Theorem lapic_id_eoi s (Hs : lapic_regs s <> 0 -> apic_mapped s) (Hn : is_u8 (apic_number (apic_of (cpu s)))) :
  (lapic_regs s = 0 -> lapic_id s = Ret (0, s) /\ lapic_eoi s = Ret ((), s)) /\
  (lapic_regs s <> 0 ->
    (exists c', lapic_id s = Ret (apic_number (apic_of (cpu s)), Lapic (lapic_regs s) (lapic_tps s) c') /\ apic_of c' = apic_of (cpu s)) /\
    exists c', lapic_eoi s = Ret ((), Lapic (lapic_regs s) (lapic_tps s) c') /\ eois (apic_of c') = eois (apic_of (cpu s)) + 1).
Proof.
  unfold lapic_id, lapic_eoi. rewrite !(st_bind_ret st_get _ s s s) by done.
  destruct (Z.eqb_spec (lapic_regs s) 0) as [E|E]; [done |]. specialize (Hs E). split; [done |]. intros _. split.
  - destruct (lapic_read_ok LAPIC_REG_ID (fun _ => Z.shiftl (apic_number (apic_of (cpu s))) 24) s ltac:(by apply in_apic_regs) Hs
      ltac:(done)) as (c & Er & _ & Ha & _).
    rewrite (st_bind_ret _ _ _ _ _ Er). exists c. split; [| done]. unfold mret, st_ret. do 2 f_equal.
    rewrite Z.shiftr_shiftl_l by lia. apply Z.shiftl_0_r.
  - destruct (lapic_write_ok LAPIC_REG_EOI 0 s ltac:(by apply in_apic_regs) ltac:(by vm_compute) Hs) as (c & Er & _ & Ha & _).
    exists c. rewrite Er, Ha. split; [done |]. by destruct (apic_of (cpu s)).
Qed.
End Timer.

(** ** A machine

    Every access takes one clock of the bus, the tick comes every 1000; the page is at the
    usual address. *)
Record machine := Machine { clock : N; base_msr : Z; machine_apic : apic }.
Definition machine_mem : phys := memory_set_hhdm_offset 0xffff800000000000 phys_statics.
(** The offset in the page. *)
Definition in_page (a : Z) (m : machine) : Z :=
  u64 (a - phys_to_virt (Z.land (u64 (base_msr m)) 0xFFFFF000) machine_mem).
(** One clock later. *)
Definition later (a : apic) (m : machine) : machine := Machine (clock m + 1) (base_msr m) a.
#[export, refine] Instance machine_cpu : Cpu machine := {
  msr_get r m := if r =? MSR_APIC_BASE then u64 (base_msr m) else 0;
  msr_set r v m := if r =? MSR_APIC_BASE then Machine (clock m) v (machine_apic m) else m;
  reg_load a m := (default 0 (apic_read (in_page a m) (Z.of_N (clock m + 1)) (machine_apic m)), later (machine_apic m) m);
  reg_store a v m := later (apic_write (in_page a m) v (Z.of_N (clock m + 1)) (machine_apic m)) m;
  ticks_get m := (u64 (Z.of_N (clock m + 1) / 1000), later (machine_apic m) m);
  cpuid leaf m := (0, 0x756e6547, 0x6c65746e, 0x49656e69);
}.
Proof. intros r m. destruct (r =? MSR_APIC_BASE); [apply u64_range | by vm_compute]. Defined.

Lemma in_page_reg reg m : 0 <= reg < 4096 -> in_page (u64 (apic_va machine_mem m + reg)) m = reg.
Proof.
  intros H. unfold in_page, apic_va. cbn [msr_get machine_cpu]. rewrite Z.eqb_refl. unfold u64 at 1 2.
  rewrite Zminus_mod_idemp_l. rewrite <- (Z.mod_small reg (2 ^ 64)) at 2 by lia. f_equal. lia.
Qed.
Lemma apic_regs_small reg : reg ∈ apic_regs -> 0 <= reg < 4096.
Proof. unfold apic_regs. rewrite !elem_of_cons, elem_of_nil. intros H. by destruct_or! H; subst. Qed.
#[export, refine] Instance machine_timer : ApicTimer machine machine_mem 1000 1 := {
  now m := Z.of_N (clock m); apic_of := machine_apic;
}.
Proof.
  - done.
  - intros m. lia.
  - intros m. cbn. split_and!; try done; lia.
  - intros reg v m Hr%apic_regs_small _ _. cbn. rewrite in_page_reg by done. split_and!; try done; lia.
  - intros reg m Hr%apic_regs_small _. cbn. rewrite in_page_reg by done. split_and!; try done; try lia. by intros x ->.
  - intros v m Hv. cbn. rewrite u64_id by done. split_and!; try done; lia.
Defined.

(** At start-up: the page at its address, not enabled, the timer off. *)
Definition lapic0 : lapic machine := Lapic 0 0 (Machine 0 0xFEE00100 (Apic 0 0xFF 0 0x10000 0 0 0 0)).

(** A second is 60000 clocks: 3750 counts.  Between 3750 and 3812 are measured. *)
Example lapic_init_measures : exists s, lapic_init machine_mem (Z.to_nat 60000) lapic0 = Ret ((), s) /\
  3750 <= lapic_tps s <= 3812 /\ lapic_regs s = 0xffff8000fee00000.
Proof.
  destruct (lapic_init_correct machine_mem 1000 1 (Z.to_nat 60000) lapic0) as (c & e & E & He & Hm & _);
    [done | cbn; lia | cbn; lia |].
  eexists. split; [exact E |]. cbn [lapic_tps lapic_regs]. split; [unfold measured; lia |].
  unfold apic_va. rewrite Hm. by vm_compute.
Qed.
