(* ===== verification/E1000.v ===== *)
(** * The network card driver ([src/src/drivers/e1000.c])

    The card's registers and the two rings of descriptors are in memory and reached
    through the [Bus]; pointers are virtual addresses in the direct map.  The function
    given to [e1000_set_rx_callback] is [call_rx]: it gets the pointer and the length, and
    acts on the driver's state (it may send) and on a state [X] of its own.  The caller's
    buffer of [e1000_send] is the list of bytes behind the pointer. *)
From S2P Require Import Prelude Interfaces Phys DevMem Pci Heap Task Input Interrupts.

Definition E1000_VENDOR_ID : Z := 0x8086.
Definition E1000_DEVICE_ID : Z := 0x100E.
Definition E1000_REG_CTRL : Z := 0x0000.
Definition E1000_REG_EERD : Z := 0x0014.
Definition E1000_REG_ICR : Z := 0x00C0.
Definition E1000_REG_IMS : Z := 0x00D0.
Definition E1000_REG_IMC : Z := 0x00D8.
Definition E1000_REG_RCTL : Z := 0x0100.
Definition E1000_REG_TCTL : Z := 0x0400.
Definition E1000_REG_TIPG : Z := 0x0410.
Definition E1000_REG_RDBAL : Z := 0x2800.
Definition E1000_REG_RDBAH : Z := 0x2804.
Definition E1000_REG_RDLEN : Z := 0x2808.
Definition E1000_REG_RDH : Z := 0x2810.
Definition E1000_REG_RDT : Z := 0x2818.
Definition E1000_REG_TDBAL : Z := 0x3800.
Definition E1000_REG_TDBAH : Z := 0x3804.
Definition E1000_REG_TDLEN : Z := 0x3808.
Definition E1000_REG_TDH : Z := 0x3810.
Definition E1000_REG_TDT : Z := 0x3818.
Definition E1000_REG_RAL0 : Z := 0x5400.
Definition E1000_REG_RAH0 : Z := 0x5404.
Definition E1000_RCTL_EN : Z := Z.shiftl 1 1.
Definition E1000_RCTL_BAM : Z := Z.shiftl 1 15.
Definition E1000_RCTL_SECRC : Z := Z.shiftl 1 26.
Definition E1000_TCTL_EN : Z := Z.shiftl 1 1.
Definition E1000_TCTL_PSP : Z := Z.shiftl 1 3.
Definition RX_DESC_COUNT : Z := 32.
Definition TX_DESC_COUNT : Z := 32.
Definition RX_BUF_SIZE : Z := 2048.
Definition TX_BUF_SIZE : Z := 2048.

(** Fields of [struct rx_desc] and [struct tx_desc], 16 bytes each, by their offset. *)
Definition d_length : Z := 8.
Definition d_cmd : Z := 11.
Definition d_status : Z := 12.
Definition desc_at (descs i : Z) : Z := descs + 16 * i.

(** [e1000_device_t], the fields of a direction together: [rx_descs], [rx_bufs],
    [rx_descs_phys], [rx_buf_phys] and [rx_index], and the same for [tx].  [NULL] is 0. *)
Record ring := Ring { descs : Z; bufs : list Z; descs_phys : Z; buf_phys : list Z; index : Z }.
Record e1000 := E1000Device {
  pci : option pci_device; regs : Z; regs_phys : Z; irq : Z; mac : list Z;
  rx : ring; tx : ring; irq_fired : Z; rx_cb : Z; ready : bool;
}.
Definition ring0 : ring := Ring 0 (repeat 0 32) 0 (repeat 0 32) 0.
Definition g_dev0 : e1000 := E1000Device None 0 0 0 (repeat 0 6) ring0 ring0 0 0 false.

Inductive direction := Rx | Tx.
Definition ring_of (w : direction) (g : e1000) : ring := match w with Rx => rx g | Tx => tx g end.
Definition with_ring (w : direction) (r : ring) (g : e1000) : e1000 :=
  match w with
  | Rx => E1000Device (pci g) (regs g) (regs_phys g) (irq g) (mac g) r (tx g) (irq_fired g) (rx_cb g) (ready g)
  | Tx => E1000Device (pci g) (regs g) (regs_phys g) (irq g) (mac g) (rx g) r (irq_fired g) (rx_cb g) (ready g)
  end.
Definition set_index (i : Z) (r : ring) : ring := Ring (descs r) (bufs r) (descs_phys r) (buf_phys r) i.
Definition set_irq_fired (v : Z) (g : e1000) : e1000 :=
  E1000Device (pci g) (regs g) (regs_phys g) (irq g) (mac g) (rx g) (tx g) v (rx_cb g) (ready g).
Definition set_ready (v : bool) (g : e1000) : e1000 :=
  E1000Device (pci g) (regs g) (regs_phys g) (irq g) (mac g) (rx g) (tx g) (irq_fired g) (rx_cb g) v.
Definition set_mac (m : list Z) (g : e1000) : e1000 :=
  E1000Device (pci g) (regs g) (regs_phys g) (irq g) m (rx g) (tx g) (irq_fired g) (rx_cb g) (ready g).

Section Code.
Context {B : Type} `{!Bus B}.
Definition M (A : Type) : Type := st (driver e1000 B) A.

Definition modify_dev (f : e1000 -> e1000) : M () := st_modify (fun s => Drv (f (own s)) (mem s) (bus s)).
Definition dev : M e1000 := s ← st_get; mret (own s).

Definition reg_write (reg value : Z) : M () := g ← dev; store 4 (regs g + 4 * (reg / 4)) value.
Definition reg_read (reg : Z) : M Z := g ← dev; load 4 (regs g + 4 * (reg / 4)).

Fixpoint eeprom_wait (n : nat) : M (option Z) :=
  match n with
  | O => mret None
  | S n =>
      val ← reg_read E1000_REG_EERD;
      if negb (Z.land val (Z.shiftl 1 4) =? 0) then mret (Some (u16 (Z.shiftr val 16))) else eeprom_wait n
  end.
Definition e1000_read_eeprom (addr : Z) : M (option Z) :=
  _ ← reg_write E1000_REG_EERD (Z.lor (u32 (Z.shiftl addr 8)) 1); eeprom_wait 1000.

Definition word_bytes (w : Z) : list Z := [u8 (Z.land w 0xFF); u8 (Z.shiftr w 8)].
(** A word that cannot be read leaves [mac] as it was. *)
Definition e1000_read_mac : M () :=
  w0 ← e1000_read_eeprom 0;
  match w0 with None => mret () | Some w0 =>
  w1 ← e1000_read_eeprom 1;
  match w1 with None => mret () | Some w1 =>
  w2 ← e1000_read_eeprom 2;
  match w2 with None => mret () | Some w2 =>
  modify_dev (set_mac (word_bytes w0 ++ word_bytes w1 ++ word_bytes w2)) end end end.

(** *** The rings.  Where [phys_alloc] fails it leaves [*out_phys] as it was. *)
Definition got (old : Z) (r : option (Z * Z)) : Z * Z := match r with Some vp => vp | None => (0, old) end.
Definition set_descs (v p : Z) (r : ring) : ring := Ring v (bufs r) p (buf_phys r) (index r).
Definition set_buf (i v : Z) (r : ring) : ring := Ring (descs r) (<[Z.to_nat i := v]> (bufs r)) (descs_phys r) (buf_phys r) (index r).
Definition set_buf_phys (i p : Z) (r : ring) : ring :=
  Ring (descs r) (bufs r) (descs_phys r) (<[Z.to_nat i := p]> (buf_phys r)) (index r).
Definition modify_ring (w : direction) (f : ring -> ring) : M () := modify_dev (fun g => with_ring w (f (ring_of w g)) g).

(** The loop that gives every descriptor its buffer and its first status. *)
Fixpoint init_bufs (w : direction) (size status : Z) (n : nat) (i : Z) : M bool :=
  match n with
  | O => mret true
  | S n =>
      r ← alloc_phys size 16; let (v, p) := got 0 r in
      _ ← modify_ring w (set_buf i v);
      if v =? 0 then mret false else
      _ ← modify_ring w (set_buf_phys i p);
      g ← dev; let d := desc_at (descs (ring_of w g)) i in
      _ ← store 8 d p; _ ← store 1 (d + d_status) status;
      init_bufs w size status n (i + 1)
  end.
Definition init_descs (w : direction) (bytes : Z) : M bool :=
  g ← dev; r ← alloc_phys bytes 16; let (v, p) := got (descs_phys (ring_of w g)) r in
  _ ← modify_ring w (set_descs v p);
  if v =? 0 then mret false else _ ← store_bytes v (repeat 0 (Z.to_nat bytes)); mret true.

Definition e1000_init_rx : M bool :=
  let desc_bytes := RX_DESC_COUNT * 16 in
  ok ← init_descs Rx desc_bytes; if negb ok then mret false else
  ok ← init_bufs Rx RX_BUF_SIZE 0 (Z.to_nat RX_DESC_COUNT) 0; if negb ok then mret false else
  g ← dev;
  _ ← reg_write E1000_REG_RDBAL (u32 (Z.land (descs_phys (rx g)) 0xFFFFFFFF));
  _ ← reg_write E1000_REG_RDBAH (u32 (Z.shiftr (descs_phys (rx g)) 32));
  _ ← reg_write E1000_REG_RDLEN (u32 desc_bytes);
  _ ← reg_write E1000_REG_RDH 0;
  _ ← reg_write E1000_REG_RDT (RX_DESC_COUNT - 1);
  _ ← modify_ring Rx (set_index 0);
  _ ← reg_write E1000_REG_RCTL (Z.lor (Z.lor E1000_RCTL_EN E1000_RCTL_BAM) E1000_RCTL_SECRC);
  mret true.
Definition e1000_init_tx : M bool :=
  let desc_bytes := TX_DESC_COUNT * 16 in
  ok ← init_descs Tx desc_bytes; if negb ok then mret false else
  ok ← init_bufs Tx TX_BUF_SIZE 0x1 (Z.to_nat TX_DESC_COUNT) 0; if negb ok then mret false else
  g ← dev;
  _ ← reg_write E1000_REG_TDBAL (u32 (Z.land (descs_phys (tx g)) 0xFFFFFFFF));
  _ ← reg_write E1000_REG_TDBAH (u32 (Z.shiftr (descs_phys (tx g)) 32));
  _ ← reg_write E1000_REG_TDLEN (u32 desc_bytes);
  _ ← reg_write E1000_REG_TDH 0;
  _ ← reg_write E1000_REG_TDT 0;
  _ ← modify_ring Tx (set_index 0);
  _ ← reg_write E1000_REG_TCTL
        (Z.lor (Z.lor (Z.lor E1000_TCTL_EN E1000_TCTL_PSP) (Z.shiftl 0x10 4)) (Z.shiftl 0x40 12));
  _ ← reg_write E1000_REG_TIPG 0x0060200A;
  mret true.

Definition mac_low (m : list Z) : Z :=
  Z.lor (Z.lor (Z.lor (byte_at m 0) (Z.shiftl (byte_at m 1) 8)) (Z.shiftl (byte_at m 2) 16)) (Z.shiftl (byte_at m 3) 24).
Definition mac_high (m : list Z) : Z := Z.lor (Z.lor (byte_at m 4) (Z.shiftl (byte_at m 5) 8)) (Z.shiftl 1 31).
Definition e1000_configure_mac : M () :=
  g ← dev; _ ← reg_write E1000_REG_RAL0 (mac_low (mac g)); reg_write E1000_REG_RAH0 (mac_high (mac g)).

Definition e1000_irq_handler : M () := _ ← reg_read E1000_REG_ICR; modify_dev (set_irq_fired 1).

Definition e1000_set_rx_callback (cb : Z) : M () :=
  modify_dev (fun g => E1000Device (pci g) (regs g) (regs_phys g) (irq g) (mac g) (rx g) (tx g) (irq_fired g) cb (ready g)).

(** *** Sending *)
(** The frame into its buffer and descriptor. *)
Definition fill_desc (desc buf len : Z) (data : list Z) : M () :=
  _ ← (if Z.of_nat (length data) <? len then st_lift Fault else store_bytes buf (take (Z.to_nat len) data));
  _ ← store 2 (desc + d_length) len;
  _ ← store 1 (desc + d_cmd) (Z.lor (Z.shiftl 1 0) (Z.shiftl 1 3));
  store 1 (desc + d_status) 0.
Definition e1000_send (data : list Z) (len : Z) : M bool :=
  g ← dev;
  if negb (ready g) || (len =? 0) then mret false else
  let len := if TX_BUF_SIZE <? len then TX_BUF_SIZE else len in
  let desc := desc_at (descs (tx g)) (index (tx g)) in
  status ← load 1 (desc + d_status);
  if Z.land status 0x1 =? 0 then mret false else
  buf ← st_lift (zget (bufs (tx g)) (index (tx g)));
  _ ← fill_desc desc buf len data;
  let next := u32 (index (tx g) + 1) mod TX_DESC_COUNT in
  _ ← modify_ring Tx (set_index next);
  _ ← reg_write E1000_REG_TDT next;
  mret true.

(** *** Receiving *)
Section Poll.
Context {X : Type} (call_rx : Z -> Z -> Z -> st (driver e1000 B * X) ()).
Definition in_driver {A} (m : M A) : st (driver e1000 B * X) A := fun s => '(a, d) ← m s.1; Ret (a, (d, s.2)).
Fixpoint poll_loop (fuel : nat) : st (driver e1000 B * X) () :=
  g ← in_driver dev;
  let desc := desc_at (descs (rx g)) (index (rx g)) in
  status ← in_driver (load 1 (desc + d_status));
  if Z.land status 0x1 =? 0 then mret () else
  match fuel with
  | O => st_spin
  | S fuel =>
      length ← in_driver (load 2 (desc + d_length));
      _ ← (if (0 <? length) && negb (rx_cb g =? 0) then
             buf ← st_lift (zget (bufs (rx g)) (index (rx g))); call_rx (rx_cb g) buf length
           else mret ());
      _ ← in_driver (store 1 (desc + d_status) 0);
      g ← in_driver dev;
      _ ← in_driver (reg_write E1000_REG_RDT (index (rx g)));
      _ ← in_driver (modify_ring Rx (set_index (u32 (index (rx g) + 1) mod RX_DESC_COUNT)));
      poll_loop fuel
  end.
Definition e1000_poll (fuel : nat) : st (driver e1000 B * X) () :=
  g ← in_driver dev;
  if negb (ready g) then mret () else
  _ ← (if negb (irq_fired g =? 0) then in_driver (modify_dev (set_irq_fired 0)) else mret ());
  poll_loop fuel.
End Poll.

(** *** Set-up *)
Section Init.
Context {A : Type} `{!Allocator A} (handler_addr g_dev_addr : Z).
Definition in_irqs {X} (m : Interrupts.M (P := B) (A := A) X) : st (driver e1000 B * irqs B A) X := fun s =>
  '(x, i) ← m (with_devices (put_ports (bus s.1) (devices s.2)) s.2);
  Ret (x, (Drv (own s.1) (mem s.1) (ports (devices i)), i)).

Definition begin (d : pci_device) (g : e1000) : e1000 :=
  E1000Device (Some d) (regs g) (regs_phys g) (irq_line d) (mac g) (rx g) (tx g) (irq_fired g) (rx_cb g) (ready g).
Definition map_regs (v p : Z) (g : e1000) : e1000 :=
  E1000Device (pci g) v p (irq g) (mac g) (rx g) (tx g) (irq_fired g) (rx_cb g) (ready g).

(** From the mapping of the registers to the rings. *)
Definition init_card (bar0 : Z) : M bool :=
  s ← st_get;
  _ ← modify_dev (map_regs (phys_to_virt bar0 (mem s)) bar0);
  _ ← e1000_read_mac;
  _ ← e1000_configure_mac;
  ctrl ← reg_read E1000_REG_CTRL;
  _ ← reg_write E1000_REG_CTRL (Z.lor (Z.lor ctrl (Z.shiftl 1 6)) (Z.shiftl 1 5));
  _ ← reg_write E1000_REG_IMC 0xFFFFFFFF;
  _ ← reg_read E1000_REG_ICR;
  ok ← e1000_init_rx;
  if negb ok then mret false else e1000_init_tx.

(** [None] where the code returns 0; the bytes put into [mac_out]. *)
Definition e1000_init : st (driver e1000 B * irqs B A) (option (list Z)) :=
  let in_dev {X} (m : M X) := in_driver (X := irqs B A) m in
  let fail := _ ← in_dev (modify_dev (set_ready false)); mret None in
  d ← in_dev (on_bus (pci_find_device E1000_VENDOR_ID E1000_DEVICE_ID));
  match d with
  | None => fail
  | Some d =>
      _ ← in_dev (modify_dev (begin d));
      _ ← in_dev (on_bus (pci_enable_bus_master d));
      '(bar0, m) ← st_lift (pci_get_bar d 0);
      if negb (default false m) || (bar0 =? 0) then fail else
      ok ← in_dev (init_card bar0);
      if negb ok then fail else
      g ← in_dev dev;
      _ ← in_irqs (interrupts_set_irq_handler (irq g) handler_addr g_dev_addr);
      _ ← in_irqs (interrupts_unmask_irq (irq g));
      _ ← in_dev (reg_write E1000_REG_IMS 0x1F6);
      _ ← in_dev (modify_dev (set_ready true));
      mret (Some (mac g))
  end.
End Init.
End Code.
