(* ===== verification/E1000Card.v ===== *)
(** * The network card as its driver relies on it

    [card] is what the driver can know of an 8254x card: the registers of its two
    descriptor rings, the frames sent, the frames received, the frames the network still
    has for it.  [transmits] and [receives] are the documented steps of the rings;
    [E1000Card] says that the card does nothing else to memory, and what its registers do. *)
From S2P Require Import Prelude Interfaces Phys DevMem Pci E1000.

Record card_ring := CardRing { cr_base : Z; cr_len : Z; cr_head : Z; cr_tail : Z; cr_on : bool }.
Record card := Card {
  c_tx : card_ring; c_rx : card_ring; c_mac : Z * Z;
  c_sent : list (list Z); c_recv : list (list Z); c_wire : list (list Z);
}.
Definition set_tx (t : card_ring) (sent : list (list Z)) (c : card) : card :=
  Card t (c_rx c) (c_mac c) sent (c_recv c) (c_wire c).
Definition set_rx (r : card_ring) (recv wire : list (list Z)) (c : card) : card :=
  Card (c_tx c) r (c_mac c) (c_sent c) recv wire.
Definition set_addr (m : Z * Z) (c : card) : card := Card (c_tx c) (c_rx c) m (c_sent c) (c_recv c) (c_wire c).

(** The next entry of a ring of [cr_len / 16] descriptors. *)
Definition advance (r : card_ring) : card_ring :=
  CardRing (cr_base r) (cr_len r) ((cr_head r + 1) mod (cr_len r / 16)) (cr_tail r) (cr_on r).
Definition head_desc (r : card_ring) : Z := cr_base r + 16 * cr_head r.

(** ** Registers *)
Definition ring_reg (off v : Z) (r : card_ring) : card_ring :=
  if off =? 0x00 then CardRing (cr_base r / 2 ^ 32 * 2 ^ 32 + v) (cr_len r) (cr_head r) (cr_tail r) (cr_on r)
  else if off =? 0x04 then CardRing (v * 2 ^ 32 + cr_base r mod 2 ^ 32) (cr_len r) (cr_head r) (cr_tail r) (cr_on r)
  else if off =? 0x08 then CardRing (cr_base r) v (cr_head r) (cr_tail r) (cr_on r)
  else if off =? 0x10 then CardRing (cr_base r) (cr_len r) v (cr_tail r) (cr_on r)
  else if off =? 0x18 then CardRing (cr_base r) (cr_len r) (cr_head r) v (cr_on r) else r.
Definition ring_switch (on : bool) (r : card_ring) : card_ring :=
  CardRing (cr_base r) (cr_len r) (cr_head r) (cr_tail r) on.
Definition reg_effect (r v : Z) (c : card) : card :=
  if (0x2800 <=? r) && (r <? 0x2820) then set_rx (ring_reg (r - 0x2800) v (c_rx c)) (c_recv c) (c_wire c) c
  else if (0x3800 <=? r) && (r <? 0x3820) then set_tx (ring_reg (r - 0x3800) v (c_tx c)) (c_sent c) c
  else if r =? E1000_REG_RCTL then set_rx (ring_switch (Z.testbit v 1) (c_rx c)) (c_recv c) (c_wire c) c
  else if r =? E1000_REG_TCTL then set_tx (ring_switch (Z.testbit v 1) (c_tx c)) (c_sent c) c
  else if r =? E1000_REG_RAL0 then set_addr (v, (c_mac c).2) c
  else if r =? E1000_REG_RAH0 then set_addr ((c_mac c).1, v) c
  else c.
Definition written_regs : list Z :=
  [E1000_REG_CTRL; E1000_REG_EERD; E1000_REG_IMS; E1000_REG_IMC; E1000_REG_RCTL; E1000_REG_TCTL; E1000_REG_TIPG;
   E1000_REG_RDBAL; E1000_REG_RDBAH; E1000_REG_RDLEN; E1000_REG_RDH; E1000_REG_RDT;
   E1000_REG_TDBAL; E1000_REG_TDBAH; E1000_REG_TDLEN; E1000_REG_TDH; E1000_REG_TDT; E1000_REG_RAL0; E1000_REG_RAH0].
Definition read_regs : list Z := [E1000_REG_CTRL; E1000_REG_EERD; E1000_REG_ICR].

(** A frame of the size the rings are set up for. *)
Definition frame_ok (f : list Z) : Prop := 0 < Z.of_nat (length f) <= 2048 /\ Forall is_u8 f.

(** ** What the card does on its own

    A step changes memory only in the places given by [x = ...] or the intervals. *)
Section Steps.
Context {B : Type} `{!Bus B} (ec : B -> card).

(** The descriptor at the head has the end-of-packet and report-status bits: its buffer
    is sent and it is marked done. *)
Definition transmits (b b' : B) : Prop :=
  let t := c_tx (ec b) in let d := head_desc t in
  cr_on t = true /\ cr_head t <> cr_tail t /\ rd 1 b (d + d_cmd) = 9 /\
  ec b' = set_tx (advance t) (c_sent (ec b) ++ [ram b <$> seqZ (rd 8 b d) (rd 2 b (d + d_length))]) (ec b) /\
  (forall x, is_ram x -> x <> d + d_status -> ram b' x = ram b x) /\
  Z.testbit (ram b' (d + d_status)) 0 = true.

(** The next frame is stored through the descriptor at the head. *)
Definition receives (b b' : B) : Prop :=
  let r := c_rx (ec b) in let d := head_desc r in
  exists f wire, c_wire (ec b) = f :: wire /\ frame_ok f /\
    cr_on r = true /\ cr_head r <> cr_tail r /\
    ec b' = set_rx (advance r) (c_recv (ec b) ++ [f]) wire (ec b) /\
    (forall x, is_ram x -> ~ (d + d_length <= x < d + 16) -> ~ (rd 8 b d <= x < rd 8 b d + Z.of_nat (length f)) ->
       ram b' x = ram b x) /\
    rd 2 b' (d + d_length) = Z.of_nat (length f) /\ Z.testbit (ram b' (d + d_status)) 0 = true /\
    ram b' <$> seqZ (rd 8 b d) (Z.of_nat (length f)) = f.

(** A frame is lost. *)
Definition drops (b b' : B) : Prop :=
  exists f wire, c_wire (ec b) = f :: wire /\
    ec b' = set_rx (c_rx (ec b)) (c_recv (ec b)) wire (ec b) /\ forall x, is_ram x -> ram b' x = ram b x.

(** Something else in the machine changes. *)
Definition elsewhere (b b' : B) : Prop := ec b' = ec b /\ forall x, is_ram x -> ram b' x = ram b x.

Definition card_step (b b' : B) : Prop := transmits b b' \/ receives b b' \/ drops b b' \/ elsewhere b b'.
Definition acts : B -> B -> Prop := rtc card_step.

(** A frame arrives on the network. *)
Definition arrives (b b' : B) : Prop :=
  exists f, frame_ok f /\ ec b' = set_rx (c_rx (ec b)) (c_recv (ec b)) (c_wire (ec b) ++ [f]) (ec b) /\
    forall x, is_ram x -> ram b' x = ram b x.
End Steps.

(** ** The card's interface; every access leaves it time to act. *)
Class E1000Card (B : Type) `{!Bus B} := {
  ec_regs : Z;
  ec : B -> card;
  ec_word : Z -> Z;
  ec_regs_range : 0 < ec_regs /\ ec_regs + 2 ^ 17 <= 2 ^ 64;
  ec_store_ram w a v b : ram_range a w -> ec (mem_store w a v b) = ec b;
  ec_write r v b : In r written_regs -> is_u32 v -> (r = E1000_REG_CTRL -> Z.testbit v 26 = false) ->
    exists b1, ec b1 = reg_effect r v (ec b) /\ (forall x, is_ram x -> ram b1 x = ram b x) /\
      acts ec b1 (mem_store 4 (ec_regs + r) v b);
  ec_read r b : In r read_regs ->
    is_u32 (mem_load 4 (ec_regs + r) b).1 /\
    (r = E1000_REG_CTRL -> Z.testbit (mem_load 4 (ec_regs + r) b).1 26 = false) /\
    acts ec b (mem_load 4 (ec_regs + r) b).2;
  (** A word of the EEPROM is there after fewer than a thousand reads. *)
  ec_eeprom a b : 0 <= a < 3 ->
    let at_ i := Nat.iter i (fun b => (mem_load 4 (ec_regs + E1000_REG_EERD) b).2)
      (mem_store 4 (ec_regs + E1000_REG_EERD) (256 * a + 1) b) in
    let val i := (mem_load 4 (ec_regs + E1000_REG_EERD) (at_ i)).1 in
    exists k, (k < 1000)%nat /\ (forall i, (i < k)%nat -> Z.testbit (val i) 4 = false) /\
      Z.testbit (val k) 4 = true /\ val k / 2 ^ 16 = ec_word a;
  ec_word_range a : is_u16 (ec_word a);
}.
