(* ===== verification/E1000Rings.v ===== *)
(** * The descriptor rings of the network card

    A ring holds a queue: [tx_ok frames s], the frames handed to the card and not yet
    sent; [rx_ok frames s], the frames received and not yet polled.  Each slot of a ring
    is its descriptor and its buffer; what one side does to a slot leaves the others. *)
From S2P Require Import Prelude Interfaces Phys DevMem Pci E1000 E1000Card.

(** ** Memory of a ring *)
Definition buf_v (r : ring) (i : Z) : Z := default 0 (bufs r !! Z.to_nat i).
Definition buf_p (r : ring) (i : Z) : Z := default 0 (buf_phys r !! Z.to_nat i).
Definition desc_p (r : ring) (i : Z) : Z := descs_phys r + 16 * i.
(** The bytes of slot [i]. *)
Definition in_slot (r : ring) (i x : Z) : Prop :=
  desc_p r i <= x < desc_p r i + 16 \/ buf_p r i <= x < buf_p r i + 2048.
Definition in_ring (r : ring) (x : Z) : Prop := exists i, 0 <= i < 32 /\ in_slot r i x.

Section Rings.
Context {B : Type} `{!Bus B}.

Record ring_mem (p : phys) (r : ring) : Prop := {
  rm_descs : ptr_ok p (descs r) (descs_phys r) 512;
  rm_len : length (bufs r) = 32%nat /\ length (buf_phys r) = 32%nat;
  rm_buf i : 0 <= i < 32 -> ptr_ok p (buf_v r i) (buf_p r i) 2048;
  rm_bufs_apart i j : 0 <= i < 32 -> 0 <= j < 32 -> i <> j -> disjoint (buf_p r i) 2048 (buf_p r j) 2048;
  rm_desc_apart i : 0 <= i < 32 -> disjoint (descs_phys r) 512 (buf_p r i) 2048;
}.

Lemma ring_mem_index p r i : ring_mem p r -> ring_mem p (set_index i r).
Proof. by destruct 1. Qed.
Lemma slots_apart p r i j x : ring_mem p r -> 0 <= i < 32 -> 0 <= j < 32 -> i <> j ->
  in_slot r i x -> in_slot r j x -> False.
Proof.
  intros [_ _ _ Hb Hd] Hi Hj Hne. pose proof (Hb i j Hi Hj Hne). pose proof (Hd i Hi). pose proof (Hd j Hj).
  unfold in_slot, desc_p, disjoint in *. lia.
Qed.

Lemma slot_ptr p r i : ring_mem p r -> 0 <= i < 32 -> ptr_ok p (desc_at (descs r) i) (desc_p r i) 16.
Proof. intros [H _ _ _ _] Hi. unfold desc_at, desc_p. eapply ptr_sub; [exact H | lia..]. Qed.
Lemma slot_ram p r i x : ring_mem p r -> 0 <= i < 32 -> in_slot r i x -> is_ram x.
Proof.
  intros Hr Hi [H|H].
  - destruct (slot_ptr p r i Hr Hi) as [_ _ Hm]. by apply Hm.
  - destruct (rm_buf p r Hr i Hi) as [_ _ Hm]. by apply Hm.
Qed.
Lemma ring_ram p r x : ring_mem p r -> in_ring r x -> is_ram x.
Proof. intros Hr (i & Hi & H). by eapply slot_ram. Qed.
Lemma buf_lookup p r i : ring_mem p r -> 0 <= i < 32 -> zget (bufs r) i = Ret (buf_v r i).
Proof.
  intros [_ [Hl _] _ _ _] Hi. apply zget_ok. split; [lia |]. unfold buf_v.
  destruct (lookup_lt_is_Some_2 (bufs r) (Z.to_nat i)) as [v E]; [lia |]. by rewrite E.
Qed.

(** ** What a slot holds *)
Definition done_bit (b : B) (r : ring) (i : Z) : bool := Z.testbit (ram b (desc_p r i + d_status)) 0.
Definition holds (b : B) (r : ring) (i : Z) (f : list Z) : Prop :=
  rd 2 b (desc_p r i + d_length) = Z.of_nat (length f) /\
  ram b <$> seqZ (buf_p r i) (Z.of_nat (length f)) = f /\ frame_ok f.
Definition addr_ok (b : B) (r : ring) (i : Z) : Prop := rd 8 b (desc_p r i) = buf_p r i.
(** Handed to the card, or the driver's. *)
Definition tx_busy (b : B) (r : ring) (i : Z) (f : list Z) : Prop :=
  addr_ok b r i /\ holds b r i f /\ rd 1 b (desc_p r i + d_cmd) = 9 /\ done_bit b r i = false.
Definition tx_free (b : B) (r : ring) (i : Z) : Prop := addr_ok b r i /\ done_bit b r i = true.
(** Filled by the card, or the card's. *)
Definition rx_full (b : B) (r : ring) (i : Z) (f : list Z) : Prop :=
  addr_ok b r i /\ holds b r i f /\ done_bit b r i = true.
Definition rx_empty (b : B) (r : ring) (i : Z) : Prop := addr_ok b r i /\ done_bit b r i = false.

(** Memory unchanged in a slot keeps what it holds. *)
Definition same_slot (b b' : B) (r : ring) (i : Z) : Prop := forall x, in_slot r i x -> ram b' x = ram b x.
Lemma same_rd b b' r i w off : same_slot b b' r i -> 0 <= off -> off + w <= 16 ->
  rd w b' (desc_p r i + off) = rd w b (desc_p r i + off).
Proof. intros H H1 H2. apply rd_ext. intros x Hx. apply H. left. lia. Qed.
Lemma same_addr b b' r i : same_slot b b' r i -> addr_ok b r i -> addr_ok b' r i.
Proof.
  intros H E. unfold addr_ok. rewrite <- (Z.add_0_r (desc_p r i)), (same_rd b b') by (done || lia). by rewrite Z.add_0_r.
Qed.
Lemma same_done b b' r i : same_slot b b' r i -> done_bit b' r i = done_bit b r i.
Proof. intros H. unfold done_bit, d_status. rewrite H by (left; lia). done. Qed.
Lemma same_holds b b' r i f : same_slot b b' r i -> holds b r i f -> holds b' r i f.
Proof.
  intros H (H1 & H2 & H3). split; [by rewrite (same_rd b b') by (done || unfold d_length; lia) | split; [| done]].
  rewrite <- H2 at 2. apply list_fmap_ext. intros k x Hx. apply lookup_seqZ in Hx as [-> Hk].
  destruct H3 as [H3 _]. apply H. right. lia.
Qed.
Lemma same_tx_busy b b' r i f : same_slot b b' r i -> tx_busy b r i f -> tx_busy b' r i f.
Proof.
  intros H (H1 & H2 & H3 & H4). split; [by eapply same_addr |]. split; [by eapply same_holds |].
  rewrite (same_rd b b') by (done || unfold d_cmd; lia). by rewrite (same_done b b').
Qed.
Lemma same_tx_free b b' r i : same_slot b b' r i -> tx_free b r i -> tx_free b' r i.
Proof. intros H (H1 & H2). split; [by eapply same_addr | by rewrite (same_done b b')]. Qed.
Lemma same_rx_full b b' r i f : same_slot b b' r i -> rx_full b r i f -> rx_full b' r i f.
Proof.
  intros H (H1 & H2 & H3). split; [by eapply same_addr |]. split; [by eapply same_holds |]. by rewrite (same_done b b').
Qed.
Lemma same_rx_empty b b' r i : same_slot b b' r i -> rx_empty b r i -> rx_empty b' r i.
Proof. intros H (H1 & H2). split; [by eapply same_addr | by rewrite (same_done b b')]. Qed.
End Rings.

(** ** Queues in a ring of 32 slots: [frames] from slot [start] on satisfy [P], the slots
    after them [Q]. *)
Section Window.
Implicit Types P : Z -> list Z -> Prop.
Implicit Types Q : Z -> Prop.
Record window P Q (start : Z) (frames : list (list Z)) : Prop := {
  w_len : Z.of_nat (length frames) <= 32;
  w_start : 0 <= start < 32;
  w_in j f : frames !! j = Some f -> P ((start + Z.of_nat j) mod 32) f;
  w_out j : Z.of_nat (length frames) <= j < 32 -> Q ((start + j) mod 32);
}.

Lemma window_mono P Q P' Q' start frames : window P Q start frames ->
  (forall i f, 0 <= i < 32 -> P i f -> P' i f) -> (forall i, 0 <= i < 32 -> Q i -> Q' i) -> window P' Q' start frames.
Proof.
  intros [H1 H2 H3 H4] HP HQ. split; [done | done | |].
  - intros j f Hj. apply HP; [by apply Z.mod_pos_bound | by apply H3].
  - intros j Hj. apply HQ; [by apply Z.mod_pos_bound | by apply H4].
Qed.

Lemma window_push P Q P' Q' start frames f :
  let i := (start + Z.of_nat (length frames)) mod 32 in
  window P Q start frames -> Z.of_nat (length frames) < 32 -> P' i f ->
  (forall j f, 0 <= j < 32 -> j <> i -> P j f -> P' j f) -> (forall j, 0 <= j < 32 -> j <> i -> Q j -> Q' j) ->
  window P' Q' start (frames ++ [f]).
Proof.
  intros i [H1 H2 H3 H4] Hlt Hi HP HQ. split; [rewrite length_app; cbn; lia | done | |].
  - intros j f' Hj. destruct (decide (j < length frames)%nat) as [Hjl|Hjl].
    + rewrite lookup_app_l in Hj by done. apply HP; [by apply Z.mod_pos_bound | | by apply H3].
      unfold i. lia.
    + pose proof (lookup_lt_Some _ _ _ Hj) as Hl. rewrite length_app in Hl. cbn in Hl.
      assert (j = length frames) as -> by lia. rewrite list_lookup_middle in Hj by done. by injection Hj as <-.
  - intros j Hj. rewrite length_app in Hj. cbn in Hj. apply HQ; [by apply Z.mod_pos_bound | unfold i; lia | apply H4; lia].
Qed.

Lemma window_pop P Q P' Q' start f frames :
  window P Q start (f :: frames) -> Q' start ->
  (forall j f, 0 <= j < 32 -> j <> start -> P j f -> P' j f) -> (forall j, 0 <= j < 32 -> j <> start -> Q j -> Q' j) ->
  window P' Q' ((start + 1) mod 32) frames.
Proof.
  intros [H1 H2 H3 H4] Hi HP HQ. cbn [length] in *. split; [lia | by apply Z.mod_pos_bound | |].
  - intros j f' Hj. pose proof (lookup_lt_Some _ _ _ Hj) as Hl.
    replace (((start + 1) mod 32 + Z.of_nat j) mod 32) with ((start + Z.of_nat (S j)) mod 32) by lia.
    apply HP; [by apply Z.mod_pos_bound | lia | by apply H3].
  - intros j Hj. destruct (Z.eq_dec j 31) as [->|Hne].
    + by replace (((start + 1) mod 32 + 31) mod 32) with start by lia.
    + replace (((start + 1) mod 32 + j) mod 32) with ((start + (j + 1)) mod 32) by lia.
      apply HQ; [by apply Z.mod_pos_bound | lia | apply H4; lia].
Qed.

Lemma window_head P Q start f frames : window P Q start (f :: frames) -> P start f.
Proof. intros [H1 H2 H3 _]. pose proof (H3 0%nat f eq_refl) as H. by replace ((start + Z.of_nat 0) mod 32) with start in H by lia. Qed.
(** The slot after the last frame. *)
Lemma window_next P Q start frames : window P Q start frames -> Z.of_nat (length frames) < 32 ->
  Q ((start + Z.of_nat (length frames)) mod 32).
Proof. intros [H1 H2 _ H4] Hl. apply H4. lia. Qed.
End Window.

(** ** The two rings, seen from both sides *)
Section Queues.
Context {B : Type} `{!Bus B, !E1000Card B}.

Record tx_ok (p : phys) (r : ring) (frames : list (list Z)) (b : B) : Prop := {
  tx_mem : ring_mem p r;
  tx_base : cr_base (c_tx (ec b)) = descs_phys r /\ cr_len (c_tx (ec b)) = 512 /\ cr_on (c_tx (ec b)) = true;
  tx_tail : cr_tail (c_tx (ec b)) = index r;
  tx_index : index r = (cr_head (c_tx (ec b)) + Z.of_nat (length frames)) mod 32;
  tx_window : window (tx_busy b r) (tx_free b r) (cr_head (c_tx (ec b))) frames;
}.
Record rx_ok (p : phys) (r : ring) (frames : list (list Z)) (b : B) : Prop := {
  rx_mem : ring_mem p r;
  rx_base : cr_base (c_rx (ec b)) = descs_phys r /\ cr_len (c_rx (ec b)) = 512 /\ cr_on (c_rx (ec b)) = true;
  rx_head : cr_head (c_rx (ec b)) = (index r + Z.of_nat (length frames)) mod 32;
  rx_tail : cr_tail (c_rx (ec b)) = (index r + 31) mod 32;
  rx_room : Z.of_nat (length frames) < 32;
  rx_window : window (rx_full b r) (rx_empty b r) (index r) frames;
}.

Definition same_ring (b b' : B) (r : ring) : Prop := forall x, in_ring r x -> ram b' x = ram b x.
Lemma same_ring_slot b b' r i : same_ring b b' r -> 0 <= i < 32 -> same_slot b b' r i.
Proof. intros H Hi x Hx. apply H. by exists i. Qed.

Lemma tx_frame p r frames b b' : tx_ok p r frames b -> same_ring b b' r -> c_tx (ec b') = c_tx (ec b) ->
  tx_ok p r frames b'.
Proof.
  intros [H1 H2 H3 H4 H5] Hs E. split; rewrite ?E; try done. eapply window_mono; [exact H5 | |].
  - intros i f Hi. apply same_tx_busy. by apply same_ring_slot.
  - intros i Hi. apply same_tx_free. by apply same_ring_slot.
Qed.
Lemma rx_frame p r frames b b' : rx_ok p r frames b -> same_ring b b' r -> c_rx (ec b') = c_rx (ec b) ->
  rx_ok p r frames b'.
Proof.
  intros [H1 H2 H3 H4 H5 H6] Hs E. split; rewrite ?E; try done. eapply window_mono; [exact H6 | |].
  - intros i f Hi. apply same_rx_full. by apply same_ring_slot.
  - intros i Hi. apply same_rx_empty. by apply same_ring_slot.
Qed.

(** A slot that alone changes leaves the others. *)
Lemma other_slot p r (b b' : B) i j : ring_mem p r -> 0 <= i < 32 -> 0 <= j < 32 -> j <> i ->
  (forall x, is_ram x -> ~ in_slot r i x -> ram b' x = ram b x) -> same_slot b b' r j.
Proof.
  intros Hr Hi Hj Hne H x Hx. apply H; [by eapply slot_ram | intros Hx']. by eapply (slots_apart p r i j).
Qed.
(** So does a slot of the other ring. *)
Lemma other_ring p r r' (b b' : B) i : ring_mem p r -> 0 <= i < 32 ->
  (forall x, in_ring r x -> in_ring r' x -> False) ->
  (forall x, is_ram x -> ~ in_slot r' i x -> ram b' x = ram b x) -> same_ring b b' r.
Proof.
  intros Hr Hi Hsep H x Hx. apply H; [by eapply ring_ram | intros Hx']. apply (Hsep x); [done | by exists i].
Qed.

(** *** The card sends the first frame *)
Lemma transmits_slot p r frames b b' : tx_ok p r frames b -> transmits ec b b' ->
  exists f fs, frames = f :: fs /\ tx_ok p r fs b' /\ ec b' = set_tx (advance (c_tx (ec b))) (c_sent (ec b) ++ [f]) (ec b) /\
    exists i, 0 <= i < 32 /\ forall x, is_ram x -> ~ in_slot r i x -> ram b' x = ram b x.
Proof.
  intros [H1 (Hb & Hl & Ho) H3 H4 H5] (_ & Hne & _ & E & Hram & Hbit). set (t := c_tx (ec b)) in *.
  destruct frames as [|f fs].
  { exfalso. apply Hne. rewrite H3, H4. pose proof (w_start _ _ _ _ H5). cbn [length]. lia. }
  pose proof (w_start _ _ _ _ H5) as Hi. destruct (window_head _ _ _ _ _ H5) as (Ha & (Hlen & Hdata & _) & _ & _).
  assert (head_desc t = desc_p r (cr_head t)) as Ed by (unfold head_desc, desc_p; lia). rewrite Ed in *.
  rewrite Ha, Hlen, Hdata in E. exists f, fs. split; [done |].
  assert (Hother : forall x, is_ram x -> ~ in_slot r (cr_head t) x -> ram b' x = ram b x).
  { intros x Hx Hns. apply Hram; [done |]. intros ->. apply Hns. left. unfold d_status. lia. }
  assert (c_tx (ec b') = advance t) as Et by (by rewrite E).
  split; [| split; [exact E |]; by exists (cr_head t)].
  split; rewrite ?Et; cbn [advance cr_base cr_len cr_on cr_tail cr_head]; rewrite ?Hl; change (512 / 16) with 32; try done.
  - rewrite H4. cbn [length]. pose proof (w_len _ _ _ _ H5). lia.
  - eapply window_pop; [exact H5 | | |].
    + split; [| exact Hbit]. unfold addr_ok. rewrite <- Ha. apply rd_ext. intros x Hx. apply Hram.
      * eapply slot_ram; [exact H1 | exact Hi | left; lia].
      * unfold d_status. lia.
    + intros j f' Hj Hji. apply same_tx_busy. by eapply (other_slot p r b b' (cr_head t)).
    + intros j Hj Hji. apply same_tx_free. by eapply (other_slot p r b b' (cr_head t)).
Qed.

(** *** The card stores a frame after the last one *)
Lemma receives_slot p r frames b b' : rx_ok p r frames b -> receives ec b b' ->
  exists f wire, c_wire (ec b) = f :: wire /\ rx_ok p r (frames ++ [f]) b' /\ ec b' = set_rx (advance (c_rx (ec b))) (c_recv (ec b) ++ [f]) wire (ec b) /\
    exists i, 0 <= i < 32 /\ forall x, is_ram x -> ~ in_slot r i x -> ram b' x = ram b x.
Proof.
  intros [H1 (Hb & Hl & Ho) H3 H4 H5 H6] (f & wire & Hw & Hf & _ & Hne & E & Hram & Hlen & Hbit & Hdata).
  set (c := c_rx (ec b)) in *. exists f, wire. split; [done |].
  pose proof (w_start _ _ _ _ H6) as Hi0. set (i := cr_head c) in *.
  assert (0 <= i < 32) as Hi by (rewrite H3; by apply Z.mod_pos_bound).
  destruct (window_next _ _ _ _ H6 H5) as (Ha & _). rewrite <- H3 in Ha.
  assert (head_desc c = desc_p r i) as Ed by (unfold head_desc, desc_p, i; lia). rewrite Ed in *. rewrite Ha in *.
  assert (Hother : forall x, is_ram x -> ~ in_slot r i x -> ram b' x = ram b x).
  { intros x Hx Hns. apply Hram; [done | intros Hx2; apply Hns | intros Hx2; apply Hns]; unfold d_length in *.
    - left. lia.
    - right. destruct Hf. lia. }
  assert (c_rx (ec b') = advance c) as Ec by (by rewrite E).
  split; [| split; [exact E |]; by exists i].
  assert (Z.of_nat (length frames) < 31) as Hroom.
  { rewrite H3, H4 in Hne. lia. }
  split; rewrite ?Ec; cbn [advance cr_base cr_len cr_on cr_tail cr_head]; rewrite ?Hl; change (512 / 16) with 32; try done.
  - fold i. rewrite H3, length_app. cbn [length]. lia.
  - rewrite length_app. cbn [length]. lia.
  - eapply window_push; [exact H6 | done | | |]; rewrite <- H3.
    + assert (addr_ok b' r i) as Ha'.
      { unfold addr_ok. rewrite <- Ha. apply rd_ext. intros x Hx. apply Hram.
        - eapply slot_ram; [exact H1 | exact Hi | left; lia].
        - unfold d_length. lia.
        - pose proof (rm_desc_apart _ _ H1 i Hi) as Hd. destruct Hf as [Hf _]. unfold disjoint, desc_p in *. lia. }
      split; [done |]. by split.
    + intros j f' Hj Hji. apply same_rx_full. by eapply (other_slot p r b b' i).
    + intros j Hj Hji. apply same_rx_empty. by eapply (other_slot p r b b' i).
Qed.
End Queues.
