(* ===== verification/E1000Props.v ===== *)
(** * The network card driver: what it sends and what it delivers

    [nic_ok pend q s] is the state after a successful [e1000_init]: [pend] are the frames
    accepted and not yet sent, [q] the frames received and not yet delivered.  The card
    may act at any time; the driver's calls keep the queues. *)
From S2P Require Import Prelude Interfaces Phys DevMem Pci E1000 E1000Card E1000Rings.

Section Driver.
Context {B : Type} `{!Bus B, !E1000Card B}.
#[local] Abbreviation drv := (driver e1000 B).
#[local] Abbreviation writes := (writes (ec (B := B))).
#[local] Abbreviation store_writes := (store_writes (ec (B := B)) ec_store_ram).
#[local] Abbreviation store_bytes_writes := (store_bytes_writes (ec (B := B)) ec_store_ram).
Implicit Types s : drv.

Definition regs_ok s : Prop :=
  forall r, 0 <= r < 2 ^ 17 -> virt_to_phys (regs (own s) + r) (mem s) = ec_regs + r.
Definition apart (g : e1000) : Prop := forall x, in_ring (tx g) x -> in_ring (rx g) x -> False.
Record nic_ok (pend q : list (list Z)) s : Prop := {
  n_ready : ready (own s) = true;
  n_regs : regs_ok s;
  n_tx : tx_ok (mem s) (tx (own s)) pend (bus s);
  n_rx : rx_ok (mem s) (rx (own s)) q (bus s);
  n_apart : apart (own s);
}.

(** What time may change: frames pending are sent, frames on the network received. *)
Definition later (b : B) (pend q : list (list Z)) (b' : B) (pend' q' : list (list Z)) : Prop :=
  (exists out, c_sent (ec b') = c_sent (ec b) ++ out /\ pend = out ++ pend') /\
  exists more, c_recv (ec b') = c_recv (ec b) ++ more /\ q' = q ++ more /\
    (length more + length (c_wire (ec b')) <= length (c_wire (ec b)))%nat.
Lemma later_refl b pend q : later b pend q b pend q.
Proof. split; exists []; by rewrite ?app_nil_r. Qed.
Lemma later_trans b1 p1 q1 b2 p2 q2 b3 p3 q3 :
  later b1 p1 q1 b2 p2 q2 -> later b2 p2 q2 b3 p3 q3 -> later b1 p1 q1 b3 p3 q3.
Proof.
  intros ((o1 & E1 & ->) & m1 & R1 & -> & L1) ((o2 & E2 & ->) & m2 & R2 & -> & L2).
  split; [exists (o1 ++ o2); by rewrite E2, E1, <- !app_assoc |]. exists (m1 ++ m2). rewrite R2, R1, <- !app_assoc, length_app. split_and!; [done | done | lia].
Qed.
Lemma later_sum b p q b' p' q' : later b p q b' p' q' -> c_sent (ec b') ++ p' = c_sent (ec b) ++ p.
Proof. intros ((out & -> & ->) & _). by rewrite <- app_assoc. Qed.

(** ** The card acts *)
Lemma nic_step pend q s b' : nic_ok pend q s -> card_step ec (bus s) b' ->
  exists pend' q', nic_ok pend' q' (with_bus b' s) /\ later (bus s) pend q b' pend' q'.
Proof.
  intros [H1 H2 H3 H4 H5] [Ht|[Hr|[Hd|[E Hram]]]].
  - destruct (transmits_slot _ _ _ _ _ H3 Ht) as (f & fs & -> & Hok & E & i & Hi & Hram).
    exists fs, q. split; [split; try done |].
    + eapply rx_frame; [exact H4 | | cbn; by rewrite E]. cbn. eapply (other_ring _ _ _ _ _ i); [apply H4 | done | | done].
      intros x Hx Hx'. by apply (H5 x).
    + unfold later. rewrite E. cbn. split; [by exists [f] |]. exists []. by rewrite !app_nil_r.
  - destruct (receives_slot _ _ _ _ _ H4 Hr) as (f & wire & Hw & Hok & E & i & Hi & Hram).
    exists pend, (q ++ [f]). split; [split; try done |].
    + eapply tx_frame; [exact H3 | | cbn; by rewrite E]. cbn. eapply (other_ring _ _ _ _ _ i); [apply H3 | done | | done].
      intros x Hx Hx'. by apply (H5 x).
    + unfold later. rewrite E. cbn. split; [exists []; by rewrite app_nil_r |]. exists [f]. rewrite Hw. split_and!; [done | done | cbn; lia].
  - destruct Hd as (f & wire & Hw & E & Hram). exists pend, q. split; [split; try done |].
    + eapply tx_frame; [exact H3 | | cbn; by rewrite E]. intros x Hx. apply Hram. eapply ring_ram; [apply H3 | done].
    + eapply rx_frame; [exact H4 | | cbn; by rewrite E]. intros x Hx. apply Hram. eapply ring_ram; [apply H4 | done].
    + unfold later. rewrite E. cbn. split; [exists []; by rewrite app_nil_r |]. exists []. rewrite Hw, !app_nil_r. split_and!; [done | done | cbn; lia].
  - exists pend, q. split; [split; try done |].
    + eapply tx_frame; [exact H3 | | cbn; by rewrite E]. intros x Hx. apply Hram. eapply ring_ram; [apply H3 | done].
    + eapply rx_frame; [exact H4 | | cbn; by rewrite E]. intros x Hx. apply Hram. eapply ring_ram; [apply H4 | done].
    + unfold later. rewrite E. split; exists []; by rewrite ?app_nil_r.
Qed.

Lemma nic_acts b b' : acts ec b b' -> forall pend q s, bus s = b -> nic_ok pend q s ->
  exists pend' q', nic_ok pend' q' (with_bus b' s) /\ later b pend q b' pend' q'.
Proof.
  induction 1 as [b|b b1 b' Hs _ IH]; intros pend q s <- Hok.
  - exists pend, q. split; [by destruct s | apply later_refl].
  - destruct (nic_step _ _ _ _ Hok Hs) as (p1 & q1 & H1 & L1).
    destruct (IH p1 q1 (with_bus b1 s) eq_refl H1) as (p2 & q2 & H2 & L2).
    exists p2, q2. split; [exact H2 | by eapply later_trans].
Qed.

(** ** The driver's accesses *)
Lemma dev_eq s : dev s = Ret (own s, s).
Proof. reflexivity. Qed.
Lemma modify_dev_eq f s : modify_dev f s = Ret ((), Drv (f (own s)) (mem s) (bus s)).
Proof. reflexivity. Qed.
Lemma reg_write_eq r v s : regs_ok s -> 0 <= r < 2 ^ 17 -> r mod 4 = 0 ->
  reg_write r v s = Ret ((), with_bus (mem_store 4 (ec_regs + r) v (bus s)) s).
Proof.
  intros Hr H1 H2. unfold reg_write. rewrite (st_bind_ret _ _ _ _ _ (dev_eq s)). unfold store.
  replace (4 * (r / 4)) with r by lia. by rewrite Hr.
Qed.
Lemma reg_read_eq r s : regs_ok s -> 0 <= r < 2 ^ 17 -> r mod 4 = 0 ->
  reg_read r s = Ret ((mem_load 4 (ec_regs + r) (bus s)).1, with_bus (mem_load 4 (ec_regs + r) (bus s)).2 s).
Proof.
  intros Hr H1 H2. unfold reg_read. rewrite (st_bind_ret _ _ _ _ _ (dev_eq s)). unfold load.
  replace (4 * (r / 4)) with r by lia. rewrite Hr by done. by destruct (mem_load _ _ _).
Qed.

(** [x & 1]. *)
Lemma low_bit x : (Z.land x 0x1 =? 0) = negb (Z.testbit x 0).
Proof.
  change 0x1 with (Z.ones 1). rewrite Z.land_ones, Z.bit0_odd, Zmod_odd by lia. by destruct (Z.odd x).
Qed.
Lemma status_load s p r i : mem s = p -> ring_mem p r -> 0 <= i < 32 ->
  load 1 (desc_at (descs r) i + d_status) s = Ret (ram (bus s) (desc_p r i + d_status), s).
Proof.
  intros <- Hr Hi. rewrite <- rd_1. apply load_rd; [lia |].
  eapply ptr_sub; [by apply slot_ptr | unfold d_status; lia..].
Qed.

(** ** Sending *)
(** The stores fill the slot, and nothing else. *)
Lemma fill_slot s i f len data : ring_mem (mem s) (tx (own s)) -> 0 <= i < 32 -> index (tx (own s)) = i ->
  frame_ok f -> addr_ok (bus s) (tx (own s)) i -> len = Z.of_nat (length f) -> f = take (Z.to_nat len) data ->
  exists b', fill_desc (desc_at (descs (tx (own s))) i) (buf_v (tx (own s)) i) len data s = Ret ((), with_bus b' s) /\ ec b' = ec (bus s) /\
    tx_busy b' (tx (own s)) i f /\ forall x, is_ram x -> ~ in_slot (tx (own s)) i x -> ram b' x = ram (bus s) x.
Proof.
  intros Hr Hi Hix [Hf Hu] Ha -> Hdata. set (r := tx (own s)) in *. set (d := desc_p r i). set (a := buf_p r i).
  pose proof (slot_ptr _ _ _ Hr Hi) as Hd. fold d in Hd. set (v := desc_at (descs r) i) in *.
  pose proof (rm_buf _ _ Hr i Hi) as Hb. fold a in Hb. pose proof (rm_desc_apart _ _ Hr i Hi) as Hda. fold a in Hda.
  assert (d = descs_phys r + 16 * i) as Ed by done. unfold disjoint in Hda.
  assert (Hsub : forall off n, 0 <= off -> 0 <= n -> off + n <= 16 -> ptr_ok (mem s) (v + off) (d + off) n)
    by (intros; by eapply ptr_sub).
  assert (ptr_ok (mem s) (buf_v r i) a (Z.of_nat (length f))) as Hbf.
  { rewrite <- (Z.add_0_r (buf_v r i)), <- (Z.add_0_r a). eapply ptr_sub; [exact Hb | lia..]. }
  destruct (store_bytes_writes f s _ _ Hbf Hu) as (b1 & E1 & U1).
  destruct (store_writes (with_bus b1 s) 2 (v + d_length) (Z.of_nat (length f)) (d + d_length))
    as (b2 & E2 & U2); [lia | apply Hsub; unfold d_length; lia |].
  destruct (store_writes (with_bus b2 s) 1 (v + d_cmd) 9 (d + d_cmd)) as (b3 & E3 & U3);
    [lia | apply Hsub; unfold d_cmd; lia |].
  destruct (store_writes (with_bus b3 s) 1 (v + d_status) 0 (d + d_status)) as (b4 & E4 & U4);
    [lia | apply Hsub; unfold d_status; lia |].
  cbn [bus with_bus] in U2, U3, U4. exists b4. split.
  { unfold fill_desc. rewrite (proj2 (Z.ltb_ge _ _)), <- Hdata by (apply (f_equal length) in Hdata; rewrite length_take in Hdata; lia).
    rewrite (st_bind_ret _ _ _ _ _ E1), (st_bind_ret _ _ _ _ _ E2).
    change (Z.lor (Z.shiftl 1 0) (Z.shiftl 1 3)) with 9. rewrite (st_bind_ret _ _ _ _ _ E3). exact E4. }
  split; [by rewrite (proj1 U4), (proj1 U3), (proj1 U2), (proj1 U1) |].
  assert (Hram : forall off n, 0 <= off -> 0 <= n -> off + n <= 16 -> ram_range (d + off) n)
    by (intros; by apply Hsub).
  pose proof (Hram 0 8 ltac:(lia) ltac:(lia) ltac:(lia)) as R0. rewrite Z.add_0_r in R0.
  pose proof (Hram d_length 2 ltac:(unfold d_length; lia) ltac:(lia) ltac:(unfold d_length; lia)) as R8.
  pose proof (Hram d_cmd 1 ltac:(unfold d_cmd; lia) ltac:(lia) ltac:(unfold d_cmd; lia)) as R11.
  pose proof (Hram d_status 1 ltac:(unfold d_status; lia) ltac:(lia) ltac:(unfold d_status; lia)) as R12.
  unfold d_length, d_cmd, d_status in *.
  split; [split; [| split; [split; [| split] | split]] |].
  - unfold addr_ok. fold d. rewrite (upd_rd_out _ _ _ _ _ _ _ U4), (upd_rd_out _ _ _ _ _ _ _ U3), (upd_rd_out _ _ _ _ _ _ _ U2),
      (upd_rd_out _ _ _ _ _ _ _ U1); try done; rewrite ?length_le_bytes; lia.
  - fold d. unfold d_length. rewrite (upd_rd_out _ _ _ _ _ _ _ U4), (upd_rd_out _ _ _ _ _ _ _ U3);
      try done; rewrite ?length_le_bytes; try lia.
    change 2 with (Z.of_nat 2). rewrite (upd_rd_le _ _ _ _ _ _ U2) by done. apply Z.mod_small. cbn. lia.
  - fold a. transitivity (ram b1 <$> seqZ a (Z.of_nat (length f))); [| eapply upd_bytes; [exact U1 | apply Hbf]].
    apply list_fmap_ext. intros k x Hx. apply lookup_seqZ in Hx as [-> Hk].
    assert (is_ram (a + Z.of_nat k)) as Hx by (apply Hbf; lia).
    rewrite (proj2 U4), (proj2 U3), (proj2 U2) by done. rewrite !decide_False; [done | rewrite ?length_le_bytes; lia..].
  - by split.
  - fold d. unfold d_cmd. rewrite (upd_rd_out _ _ _ _ _ _ _ U4); try done; rewrite ?length_le_bytes; try lia.
    change 1 with (Z.of_nat 1). by rewrite (upd_rd_le _ _ _ _ _ _ U3).
  - unfold done_bit, d_status. fold d. rewrite <- rd_1. change 1 with (Z.of_nat 1). by rewrite (upd_rd_le _ _ _ _ _ _ U4).
  - intros x Hx Hns. unfold in_slot in Hns. fold d a in Hns.
    rewrite (proj2 U4), (proj2 U3), (proj2 U2), (proj2 U1) by done. rewrite ?length_le_bytes, !decide_False; [done | lia..].
Qed.

(** The tail moves past the filled slot. *)
Definition next_index (r : ring) : Z := u32 (index r + 1) mod TX_DESC_COUNT.
Definition with_tail (g : e1000) : e1000 := with_ring Tx (set_index (next_index (tx g)) (tx g)) g.

Lemma next_index_eq r : 0 <= index r < 32 -> next_index r = (index r + 1) mod 32.
Proof. intros H. unfold next_index, u32. by rewrite (Z.mod_small _ (2 ^ 32)) by lia. Qed.

Lemma tx_index_range p r frames b : tx_ok p r frames b -> 0 <= index r < 32.
Proof. intros [_ _ _ -> _]. by apply Z.mod_pos_bound. Qed.
Lemma rx_index_range p r frames b : rx_ok p r frames b -> 0 <= index r < 32.
Proof. intros H. apply (w_start _ _ _ _ (rx_window _ _ _ _ H)). Qed.

Lemma tail_moves pend q s b1 b2 f : nic_ok pend q s -> Z.of_nat (length pend) < 32 ->
  ec b1 = ec (bus s) -> tx_busy b1 (tx (own s)) (index (tx (own s))) f ->
  (forall x, is_ram x -> ~ in_slot (tx (own s)) (index (tx (own s))) x -> ram b1 x = ram (bus s) x) ->
  ec b2 = reg_effect E1000_REG_TDT (next_index (tx (own s))) (ec b1) ->
  (forall x, is_ram x -> ram b2 x = ram b1 x) ->
  nic_ok (pend ++ [f]) q (Drv (with_tail (own s)) (mem s) b2) /\ later (bus s) (pend ++ [f]) q b2 (pend ++ [f]) q.
Proof.
  intros [H1 H2 H3 H4 H5] Hl E1 Hbusy Hram1 E2 Hram2. pose proof (tx_index_range _ _ _ _ H3) as Hi.
  set (r := tx (own s)) in *. pose proof (next_index_eq r Hi) as En. set (t := c_tx (ec (bus s))).
  assert (ec b2 = set_tx (CardRing (cr_base t) (cr_len t) (cr_head t) (next_index r) (cr_on t)) (c_sent (ec (bus s)))
    (ec (bus s))) as E by (by rewrite E2, E1).
  destruct H3 as [T1 T2 T3 T4 T5]. fold t in T2, T3, T4, T5.
  assert (Hsame : forall j, 0 <= j < 32 -> same_slot b1 b2 r j).
  { intros j Hj x Hx. apply Hram2. by eapply slot_ram. }
  split.
  - split; cbn; try done.
    + split; rewrite ?E; cbn; try done.
      * by apply ring_mem_index.
      * transitivity ((index r + 1) mod 32); [exact En |]. rewrite T4, length_app. cbn [length]. lia.
      * eapply window_push; [exact T5 | done | | |].
        -- rewrite <- T4. exact (same_tx_busy b1 b2 r _ f (Hsame _ Hi) Hbusy).
        -- intros j f' Hj Hne Hb. rewrite <- T4 in Hne. apply (same_tx_busy b1 b2 r j f' (Hsame _ Hj)).
           exact (same_tx_busy (bus s) b1 r j f' (other_slot _ _ _ _ _ j T1 Hi Hj Hne Hram1) Hb).
        -- intros j Hj Hne Hb. rewrite <- T4 in Hne. apply (same_tx_free b1 b2 r j (Hsame _ Hj)).
           exact (same_tx_free (bus s) b1 r j (other_slot _ _ _ _ _ j T1 Hi Hj Hne Hram1) Hb).
    + eapply rx_frame; [exact H4 | | by rewrite E]. intros x Hx.
      assert (is_ram x) as Hxr by (eapply ring_ram; [apply H4 | done]).
      rewrite Hram2, Hram1; [done | done | | done]. intros Hs. apply (H5 x); [by exists (index r) | done].
  - unfold later. rewrite E. cbn. split; exists []; by rewrite ?app_nil_r.
Qed.

(** [e1000_send] with a slot to spare, and without. *)
Lemma send_spec pend q s data len :
  nic_ok pend q s -> 0 < len <= Z.of_nat (length data) -> Forall is_u8 data -> Z.of_nat (length pend) < 32 ->
  let f := take (Z.to_nat (Z.min len 2048)) data in
  exists s' pend' q', e1000_send data len s = Ret (true, s') /\ nic_ok pend' q' s' /\
    later (bus s) (pend ++ [f]) q (bus s') pend' q' /\ own s' = with_tail (own s) /\ mem s' = mem s.
Proof.
  intros Hok Hlen Hu Hroom f. pose proof Hok as [H1 H2 H3 H4 H5]. pose proof (tx_index_range _ _ _ _ H3) as Hi.
  pose proof (window_next _ _ _ _ (tx_window _ _ _ _ H3) Hroom) as [Ha Hd]. rewrite <- (tx_index _ _ _ _ H3) in Ha, Hd.
  assert (Z.of_nat (length f) = Z.min len 2048) as Lf by (unfold f; rewrite length_take; lia).
  assert (frame_ok f) as Hf by (split; [lia | by apply Forall_take]).
  assert (f = take (Z.to_nat (Z.of_nat (length f))) data) as Hdata by (by rewrite Lf).
  destruct (fill_slot s _ f _ data (tx_mem _ _ _ _ H3) Hi eq_refl Hf Ha eq_refl Hdata) as (b1 & E1 & Ec1 & Hb1 & Hram1).
  pose proof (next_index_eq _ Hi) as En. set (next := next_index (tx (own s))) in *.
  set (s1 := Drv (with_tail (own s)) (mem s) b1).
  destruct (ec_write E1000_REG_TDT next b1) as (b2 & Ec2 & Hram2 & Hact);
    [unfold written_regs; cbn; tauto | unfold is_u32; lia | done |].
  destruct (tail_moves pend q s b1 b2 f) as (Hok2 & L2); try done.
  destruct (nic_acts _ _ Hact (pend ++ [f]) q (Drv (with_tail (own s)) (mem s) b2) eq_refl Hok2) as (pend' & q' & Hok3 & L3).
  eexists _, pend', q'. split; [| split; [exact Hok3 |]; split; [by eapply later_trans | done]].
  unfold e1000_send. rewrite (st_bind_ret _ _ _ _ _ (dev_eq s)), H1, (proj2 (Z.eqb_neq len 0)) by lia. cbn [negb orb].
  cbv zeta. rewrite (st_bind_ret _ _ _ _ _ (status_load s _ _ _ eq_refl (tx_mem _ _ _ _ H3) Hi)).
  rewrite low_bit. unfold done_bit in Hd. rewrite Hd. cbn [negb].
  rewrite (st_bind_ret (st_lift _) _ s (buf_v (tx (own s)) (index (tx (own s)))) s)
    by (unfold st_lift; by rewrite (buf_lookup _ _ _ (tx_mem _ _ _ _ H3) Hi)).
  replace (if TX_BUF_SIZE <? len then TX_BUF_SIZE else len) with (Z.of_nat (length f))
    by (rewrite Lf; unfold TX_BUF_SIZE; destruct (Z.ltb_spec 2048 len); lia).
  rewrite (st_bind_ret _ _ _ _ _ E1). fold (next_index (tx (own s))). fold next.
  rewrite (st_bind_ret (modify_ring _ _) _ _ tt s1) by done.
  rewrite (st_bind_ret _ _ _ _ _ (reg_write_eq E1000_REG_TDT next s1 H2 ltac:(done) eq_refl)). done.
Qed.

(** All slots taken: the frame is refused. *)
Lemma send_full pend q s data len : nic_ok pend q s -> len <> 0 -> length pend = 32%nat ->
  e1000_send data len s = Ret (false, s).
Proof.
  intros [H1 H2 H3 H4 H5] Hlen Hfull. pose proof (tx_index_range _ _ _ _ H3) as Hi.
  destruct pend as [|f pend]; [done |]. pose proof (window_head _ _ _ _ _ (tx_window _ _ _ _ H3)) as (_ & _ & _ & Hd).
  pose proof (w_start _ _ _ _ (tx_window _ _ _ _ H3)) as Hs.
  assert (cr_head (c_tx (ec (bus s))) = index (tx (own s))) as E.
  { rewrite (tx_index _ _ _ _ H3), Hfull. lia. }
  rewrite E in Hd. unfold e1000_send. rewrite (st_bind_ret _ _ _ _ _ (dev_eq s)), H1, (proj2 (Z.eqb_neq len 0)) by done.
  cbn [negb orb]. cbv zeta. rewrite (st_bind_ret _ _ _ _ _ (status_load s _ _ _ eq_refl (tx_mem _ _ _ _ H3) Hi)).
  rewrite low_bit. unfold done_bit in Hd. by rewrite Hd.
Qed.

(** ** What a caller between two calls, or the callback, may do: send, and time passes *)
Inductive sends : drv -> list (list Z) -> drv -> Prop :=
  | sends_nil s : sends s [] s
  | sends_call s data len ok s1 acc s2 :
      0 < len <= Z.of_nat (length data) -> Forall is_u8 data -> e1000_send data len s = Ret (ok, s1) ->
      sends s1 acc s2 ->
      sends s ((if ok then [take (Z.to_nat (Z.min len 2048)) data] else []) ++ acc) s2
  | sends_time s b acc s2 : card_step ec (bus s) b -> sends (with_bus b s) acc s2 -> sends s acc s2.

Lemma later_app b p q b' p' q' acc : later b p q b' p' q' -> later b (p ++ acc) q b' (p' ++ acc) q'.
Proof. intros ((out & E & ->) & more & H). split; [| by exists more]. exists out. by rewrite <- app_assoc. Qed.

(** What sending leaves as it is. *)
Definition same_rx s s' : Prop := rx (own s') = rx (own s) /\ rx_cb (own s') = rx_cb (own s) /\ mem s' = mem s.

Lemma sends_ok s acc s' : sends s acc s' -> forall pend q, nic_ok pend q s ->
  exists pend' q', nic_ok pend' q' s' /\ later (bus s) (pend ++ acc) q (bus s') pend' q' /\ same_rx s s'.
Proof.
  induction 1 as [s|s data len ok s1 acc s2 Hl Hu E _ IH|s b acc s2 Hs _ IH]; intros pend q Hok.
  - exists pend, q. rewrite app_nil_r. split; [done |]. split; [apply later_refl | done].
  - pose proof (w_len _ _ _ _ (tx_window _ _ _ _ (n_tx _ _ _ Hok))) as Hm.
    destruct (decide (length pend = 32%nat)) as [Hf|Hf].
    + rewrite (send_full pend q) in E by (done || lia). injection E as <- <-. by apply IH.
    + destruct (send_spec pend q s data len Hok Hl Hu) as (s1' & p1 & q1 & E1 & H1 & L1 & O1 & M1); [lia |].
      rewrite E in E1. injection E1 as -> <-.
      destruct (IH p1 q1 H1) as (p2 & q2 & H2 & L2 & R1 & R2 & R3). exists p2, q2.
      split; [done |]. split; [| unfold same_rx; by rewrite R1, R2, R3, O1, M1].
      rewrite app_assoc. eapply later_trans; [by apply later_app | exact L2].
  - destruct (nic_step _ _ _ _ Hok Hs) as (p1 & q1 & H1 & L1).
    destruct (IH p1 q1 H1) as (p2 & q2 & H2 & L2 & HR). exists p2, q2. split; [done |]. split; [| exact HR].
    eapply later_trans; [by apply later_app | exact L2].
Qed.

(** ** Receiving: the slot at the index is given back *)
Definition next_rx (g : e1000) : e1000 := with_ring Rx (set_index (u32 (index (rx g) + 1) mod RX_DESC_COUNT) (rx g)) g.

Lemma index_moves pend q s b1 b2 f : nic_ok pend (f :: q) s ->
  upd ec (bus s) (desc_p (rx (own s)) (index (rx (own s))) + d_status) (le_bytes 1 0) b1 ->
  ec b2 = reg_effect E1000_REG_RDT (index (rx (own s))) (ec b1) ->
  (forall x, is_ram x -> ram b2 x = ram b1 x) ->
  nic_ok pend q (Drv (next_rx (own s)) (mem s) b2) /\ later (bus s) pend q b2 pend q.
Proof.
  intros [H1 H2 H3 H4 H5] [E1 U1] E2 Hram2. pose proof (rx_index_range _ _ _ _ H4) as Hi.
  set (r := rx (own s)) in *. set (c := c_rx (ec (bus s))).
  assert (u32 (index r + 1) mod RX_DESC_COUNT = (index r + 1) mod 32) as En
    by (unfold u32; by rewrite (Z.mod_small _ (2 ^ 32)) by lia).
  assert (ec b2 = set_rx (CardRing (cr_base c) (cr_len c) (cr_head c) (index r) (cr_on c)) (c_recv (ec (bus s)))
    (c_wire (ec (bus s))) (ec (bus s))) as E by (by rewrite E2, E1).
  destruct H4 as [R1 R2 R3 R4 R5 R6]. fold c in R2, R3, R4. cbn [length] in R3, R5.
  pose proof (slot_ptr _ _ _ R1 Hi) as [_ _ Hd].
  assert (Hother : forall x, is_ram x -> ~ in_slot r (index r) x -> ram b2 x = ram (bus s) x).
  { intros x Hx Hns. rewrite Hram2, U1 by done. rewrite decide_False; [done |]. rewrite length_le_bytes.
    intros Hxs. apply Hns. left. unfold d_status in Hxs. lia. }
  assert (rx_empty b2 r (index r)) as Hempty.
  { destruct (window_head _ _ _ _ _ R6) as (Ha & _ & _). split.
    - unfold addr_ok. rewrite <- Ha. apply rd_ext. intros x Hx. assert (is_ram x) by (apply Hd; lia).
      rewrite Hram2, U1 by done. rewrite decide_False; [done | unfold d_status; rewrite length_le_bytes; lia].
    - assert (is_ram (desc_p r (index r) + d_status)) by (apply Hd; unfold d_status; lia).
      unfold done_bit. rewrite Hram2, U1 by done. rewrite decide_True by (rewrite length_le_bytes; lia).
      by rewrite Z.sub_diag. }
  split.
  - split; cbn; try done.
    + eapply tx_frame; [exact H3 | | by rewrite E].
      eapply (other_ring _ _ r _ _ (index r)); [apply H3 | done | | exact Hother]. intros x Hx Hx'. by apply (H5 x).
    + split; rewrite ?E; cbn [set_rx c_rx cr_base cr_len cr_on cr_tail cr_head].
      * by apply ring_mem_index.
      * done.
      * rewrite R3. cbn [set_index index]. fold r. rewrite En. lia.
      * cbn [set_index index]. fold r. rewrite En. lia.
      * lia.
      * cbn [set_index index]. fold r. rewrite En. eapply window_pop; [exact R6 | exact Hempty | |].
        -- intros j f' Hj Hne. exact (same_rx_full (bus s) b2 r j f' (other_slot _ _ _ _ _ j R1 Hi Hj Hne Hother)).
        -- intros j Hj Hne. exact (same_rx_empty (bus s) b2 r j (other_slot _ _ _ _ _ j R1 Hi Hj Hne Hother)).
  - unfold later. rewrite E. cbn. split; exists []; by rewrite ?app_nil_r.
Qed.
End Driver.

(** ** The function that takes received frames

    What the driver relies on: it returns, has seen the bytes behind the pointer
    ([rc_seen]), and uses the driver only to send ([rc_sent]). *)
Class RxClient (B X : Type) `{!Bus B, !E1000Card B} := {
  rc_call : Z -> Z -> Z -> st (driver e1000 B * X) ();
  rc_seen : X -> list (list Z);
  rc_sent : X -> list (list Z);
  rc_runs cb s x v a f : ptr_ok (mem s) v a 2048 -> frame_ok f ->
    ram (bus s) <$> seqZ a (Z.of_nat (length f)) = f -> (exists pend q, nic_ok pend q s) ->
    exists s' x' acc, rc_call cb v (Z.of_nat (length f)) (s, x) = Ret ((), (s', x')) /\ sends s acc s' /\
      rc_seen x' = rc_seen x ++ [f] /\ rc_sent x' = rc_sent x ++ acc;
}.

Section Poll.
Context {B X : Type} `{!Bus B, !E1000Card B, !RxClient B X}.
#[local] Abbreviation drv := (driver e1000 B).
Implicit Types s : drv.
Implicit Types x : X.

Lemma in_driver_eq {A} (m : E1000.M (B := B) A) s x a s' : m s = Ret (a, s') ->
  in_driver m (s, x) = Ret (a, (s', x)).
Proof. intros E. unfold in_driver. cbn [fst snd]. by rewrite (bind_ret _ _ _ E). Qed.

(** One frame is delivered and its slot given back. *)
Lemma poll_one pend f q s x fuel : nic_ok pend (f :: q) s -> rx_cb (own s) <> 0 ->
  exists s' x' acc pend' q', poll_loop rc_call (S fuel) (s, x) = poll_loop rc_call fuel (s', x') /\
    nic_ok pend' q' s' /\ later (bus s) (pend ++ acc) q (bus s') pend' q' /\
    rc_seen x' = rc_seen x ++ [f] /\ rc_sent x' = rc_sent x ++ acc /\
    rx_cb (own s') = rx_cb (own s) /\ mem s' = mem s.
Proof.
  intros Hok Hcb. pose proof (n_rx _ _ _ Hok) as Hrx. pose proof (rx_index_range _ _ _ _ Hrx) as Hi.
  pose proof (rx_mem _ _ _ _ Hrx) as Hr. set (r := rx (own s)) in *. set (i := index r) in *.
  destruct (window_head _ _ _ _ _ (rx_window _ _ _ _ Hrx)) as (Ha & (Hlen & Hdata & Hf) & Hd). fold i in Ha, Hlen, Hdata, Hd.
  destruct (rc_runs (rx_cb (own s)) s x _ _ f (rm_buf _ _ Hr i Hi) Hf Hdata ltac:(by exists pend, (f :: q)))
    as (s1 & x1 & acc & E1 & Hs & Hseen & Hsent).
  destruct (sends_ok _ _ _ Hs _ _ Hok) as (p1 & q1 & Hok1 & (Lt & more & Lr & -> & Ll) & Rr & Rc & Rm).
  pose proof (rx_mem _ _ _ _ (n_rx _ _ _ Hok1)) as Hr1. pose proof (n_regs _ _ _ Hok1) as Hg1.
  fold r in Rr.
  destruct (store_writes ec ec_store_ram s1 1 (desc_at (descs r) i + d_status) 0 (desc_p r i + d_status))
    as (b1 & E2 & U1); [lia | eapply ptr_sub; [rewrite Rm; by apply slot_ptr | unfold d_status; lia..] |].
  destruct (ec_write E1000_REG_RDT i b1) as (b2 & Ec2 & Hram2 & Hact);
    [unfold written_regs; cbn; tauto | unfold is_u32; lia | done |].
  change ((f :: q) ++ more) with (f :: (q ++ more)) in Hok1.
  destruct (index_moves p1 (q ++ more) s1 b1 b2 f Hok1) as (Hok2 & L2); [by rewrite Rr | by rewrite Rr | done |].
  destruct (nic_acts _ _ Hact p1 (q ++ more) (Drv (next_rx (own s1)) (mem s1) b2) eq_refl Hok2) as (p2 & q2 & Hok3 & L3).
  eexists _, x1, acc, p2, q2. split; [| split; [exact Hok3 |]].
  - cbn [poll_loop]. rewrite (st_bind_ret _ _ _ _ _ (in_driver_eq _ _ x _ _ (dev_eq s))). cbv zeta. fold r i.
    rewrite (st_bind_ret _ _ _ _ _ (in_driver_eq _ _ x _ _ (status_load s _ _ _ eq_refl Hr Hi))), low_bit.
    unfold done_bit in Hd. rewrite Hd. cbn [negb].
    assert (load 2 (desc_at (descs r) i + d_length) s = Ret (Z.of_nat (length f), s)) as El.
    { rewrite <- Hlen. apply load_rd; [lia |]. eapply ptr_sub; [by apply slot_ptr | unfold d_length; lia..]. }
    rewrite (st_bind_ret _ _ _ _ _ (in_driver_eq _ _ x _ _ El)).
    rewrite (proj2 (Z.ltb_lt 0 _)) by (destruct Hf; lia). rewrite (proj2 (Z.eqb_neq _ _) Hcb). cbn [negb andb].
    rewrite (st_bind_ret _ _ (s, x) tt (s1, x1)).
    2:{ rewrite (st_bind_ret (st_lift _) _ (s, x) (buf_v r i) (s, x)); [exact E1 |].
        unfold st_lift. by rewrite (buf_lookup _ _ _ Hr Hi). }
    rewrite (st_bind_ret _ _ _ _ _ (in_driver_eq _ _ x1 _ _ E2)).
    rewrite (st_bind_ret _ _ _ _ _ (in_driver_eq _ _ x1 _ _ (dev_eq _))). cbn [own with_bus]. rewrite Rr. fold i.
    rewrite (st_bind_ret _ _ _ _ _ (in_driver_eq _ _ x1 _ _ (reg_write_eq E1000_REG_RDT i (with_bus b1 s1) Hg1 ltac:(done) eq_refl))).
    rewrite (st_bind_ret (in_driver _) _ _ tt (with_bus (mem_store 4 (ec_regs + E1000_REG_RDT) i b1) (Drv (next_rx (own s1)) (mem s1) b2), x1)).
    + done.
    + unfold next_rx, modify_ring. rewrite (in_driver_eq _ _ x1 _ _ (modify_dev_eq _ _)). cbn [ring_of with_bus own]. by rewrite Rr.
  - split; [| split_and!; try done; unfold next_rx; cbn; done].
    eapply later_trans; [split; [exact Lt | exists more; split; [exact Lr | split; [done | exact Ll]]] |].
    eapply later_trans; [exact L2 | exact L3].
Qed.

(** The loop ends with nothing left in the ring: everything received has been delivered. *)
Lemma poll_all fuel : forall pend q s x, nic_ok pend q s -> rx_cb (own s) <> 0 ->
  (length q + length (c_wire (ec (bus s))) <= fuel)%nat ->
  exists s' x' acc pend' more, poll_loop rc_call fuel (s, x) = Ret ((), (s', x')) /\ nic_ok pend' [] s' /\
    c_sent (ec (bus s')) ++ pend' = c_sent (ec (bus s)) ++ pend ++ acc /\
    c_recv (ec (bus s')) = c_recv (ec (bus s)) ++ more /\
    rc_seen x' = rc_seen x ++ q ++ more /\ rc_sent x' = rc_sent x ++ acc /\ rx_cb (own s') = rx_cb (own s).
Proof.
  induction fuel as [|fuel IH]; intros pend q s x Hok Hcb Hfuel; (destruct q as [|f q]; [clear Hfuel; try clear IH |]).
  1,3: exists s, x, [], pend, []; rewrite !app_nil_r; split; [| done].
  1,2: pose proof (n_rx _ _ _ Hok) as Hrx; pose proof (rx_index_range _ _ _ _ Hrx) as Hi;
    destruct (window_next _ _ _ _ (rx_window _ _ _ _ Hrx) ltac:(cbn; lia)) as (_ & Hd);
    cbn [length] in Hd; rewrite Z.add_0_r, Z.mod_small in Hd by done;
    cbn [poll_loop]; rewrite (st_bind_ret _ _ _ _ _ (in_driver_eq _ _ x _ _ (dev_eq s))); cbv zeta;
    rewrite (st_bind_ret _ _ _ _ _ (in_driver_eq _ _ x _ _ (status_load s _ _ _ eq_refl (rx_mem _ _ _ _ Hrx) Hi))), low_bit;
    unfold done_bit in Hd; by rewrite Hd.
  - cbn in Hfuel. lia.
  - destruct (poll_one pend f q s x fuel Hok Hcb) as (s1 & x1 & acc1 & p1 & q1 & -> & Hok1 & L1 & S1 & T1 & C1 & M1).
    pose proof L1 as (_ & more1 & Lr & -> & Ll). destruct (IH p1 (q ++ more1) s1 x1 Hok1) as (s2 & x2 & acc2 & p2 & more2 & E & Hok2 & Lt2 & Lr2 & S2 & T2 & C2);
      [by rewrite C1 | rewrite length_app; cbn in Hfuel; lia |].
    exists s2, x2, (acc1 ++ acc2), p2, (more1 ++ more2). split; [exact E |]. split; [exact Hok2 |].
    rewrite Lt2, app_assoc, (later_sum _ _ _ _ _ _ L1), Lr2, Lr, S2, S1, T2, T1, C2, C1, <- !app_assoc. done.
Qed.
End Poll.
