(* ===== verification/E1000Theorems.v ===== *)
(** * The network card driver: queues in both directions, and the ring that fills up *)
From S2P Require Import Prelude Interfaces Phys DevMem Pci E1000 E1000Card E1000Rings E1000Props.

Section Runs.
Context {B X : Type} `{!Bus B, !E1000Card B, !RxClient B X}.
#[local] Abbreviation drv := (driver e1000 B).
Implicit Types s : drv.
Implicit Types x : X.

Lemma nic_ok_irq pend q s v : nic_ok pend q s -> nic_ok pend q (Drv (set_irq_fired v (own s)) (mem s) (bus s)).
Proof. by destruct 1. Qed.

(** Enough budget for [e1000_poll]: a frame each turn. *)
Definition poll_budget s : nat := length (c_recv (ec (bus s))) + length (c_wire (ec (bus s))).

Lemma poll_spec fuel pend q s x : nic_ok pend q s -> rx_cb (own s) <> 0 ->
  (length q + length (c_wire (ec (bus s))) <= fuel)%nat ->
  exists s' x' acc pend' more, e1000_poll rc_call fuel (s, x) = Ret ((), (s', x')) /\ nic_ok pend' [] s' /\
    c_sent (ec (bus s')) ++ pend' = c_sent (ec (bus s)) ++ pend ++ acc /\
    c_recv (ec (bus s')) = c_recv (ec (bus s)) ++ more /\
    rc_seen x' = rc_seen x ++ q ++ more /\ rc_sent x' = rc_sent x ++ acc /\ rx_cb (own s') = rx_cb (own s).
Proof.
  intros Hok Hcb Hfuel. unfold e1000_poll.
  rewrite (st_bind_ret _ _ _ _ _ (in_driver_eq _ _ x _ _ (dev_eq s))), (n_ready _ _ _ Hok). cbn [negb].
  destruct (negb (irq_fired (own s) =? 0)).
  - rewrite (st_bind_ret _ _ _ _ _ (in_driver_eq _ _ x _ _ (modify_dev_eq _ _))).
    apply (poll_all fuel pend q (Drv (set_irq_fired 0 (own s)) (mem s) (bus s)) x); [by apply nic_ok_irq | done | done].
  - rewrite (st_bind_ret (mret ()) _ _ tt (s, x)) by done. by apply poll_all.
Qed.

(** ** Executions: calls of the driver, its interrupt, the card, the network, in any
    order; [acc] are the frames accepted for sending. *)
Inductive run (s0 : drv) (x0 : X) : list (list Z) -> drv * X -> Prop :=
  | run_start : run s0 x0 [] (s0, x0)
  | run_send acc s x data len ok s' :
      run s0 x0 acc (s, x) -> 0 <= len <= Z.of_nat (length data) -> Forall is_u8 data ->
      e1000_send data len s = Ret (ok, s') ->
      run s0 x0 (acc ++ if ok then [take (Z.to_nat (Z.min len 2048)) data] else []) (s', x)
  | run_poll acc s x fuel s' x' replies :
      run s0 x0 acc (s, x) -> (poll_budget s <= fuel)%nat ->
      e1000_poll rc_call fuel (s, x) = Ret ((), (s', x')) -> rc_sent x' = rc_sent x ++ replies ->
      run s0 x0 (acc ++ replies) (s', x')
  | run_irq acc s x s' : run s0 x0 acc (s, x) -> e1000_irq_handler s = Ret ((), s') -> run s0 x0 acc (s', x)
  | run_card acc s x b : run s0 x0 acc (s, x) -> card_step ec (bus s) b -> run s0 x0 acc (with_bus b s, x)
  | run_arrival acc s x b : run s0 x0 acc (s, x) -> arrives ec (bus s) b -> run s0 x0 acc (with_bus b s, x).

(** What holds in between: every accepted frame is sent or pending, every received one is
    delivered or in the ring. *)
Definition accounted (s0 : drv) (x0 : X) (base acc : list (list Z)) s x (pend q : list (list Z)) : Prop :=
  nic_ok pend q s /\ rx_cb (own s) = rx_cb (own s0) /\
  c_sent (ec (bus s)) ++ pend = c_sent (ec (bus s0)) ++ acc /\
  exists del, rc_seen x = rc_seen x0 ++ del /\ c_recv (ec (bus s)) = base ++ del ++ q.

Lemma accounted_later s0 x0 base acc s x pend q acc' s' pend' q' : accounted s0 x0 base acc s x pend q ->
  nic_ok pend' q' s' -> rx_cb (own s') = rx_cb (own s) -> later (bus s) (pend ++ acc') q (bus s') pend' q' ->
  accounted s0 x0 base (acc ++ acc') s' x pend' q'.
Proof.
  intros (_ & Hcb & Hs & del & Hd & Hr) Hok Hcb' L. pose proof L as (_ & more & Lr & -> & _). split; [done |]. split; [by rewrite Hcb' |].
  split; [by rewrite (later_sum _ _ _ _ _ _ L), app_assoc, Hs, <- app_assoc |]. exists del. split; [done |].
  by rewrite Lr, Hr, <- !app_assoc.
Qed.

Lemma arrival_ok pend q s b : nic_ok pend q s -> arrives ec (bus s) b ->
  nic_ok pend q (with_bus b s) /\ c_sent (ec b) = c_sent (ec (bus s)) /\ c_recv (ec b) = c_recv (ec (bus s)).
Proof.
  intros [H1 H2 H3 H4 H5] (f & Hf & E & Hram). split; [split; try done | by rewrite E].
  - eapply tx_frame; [exact H3 | | cbn; by rewrite E]. intros y Hy. apply Hram. eapply ring_ram; [apply H3 | done].
  - eapply rx_frame; [exact H4 | | cbn; by rewrite E]. intros y Hy. apply Hram. eapply ring_ram; [apply H4 | done].
Qed.

Lemma irq_spec pend q s s' : nic_ok pend q s -> e1000_irq_handler s = Ret ((), s') ->
  exists pend' q', nic_ok pend' q' s' /\ later (bus s) pend q (bus s') pend' q' /\ rx_cb (own s') = rx_cb (own s).
Proof.
  intros Hok. destruct (ec_read E1000_REG_ICR (bus s)) as (_ & _ & Hact); [unfold read_regs; cbn; tauto |].
  destruct (nic_acts _ _ Hact pend q s eq_refl Hok) as (p & q' & Hok' & L).
  unfold e1000_irq_handler.
  rewrite (st_bind_ret _ _ _ _ _ (reg_read_eq E1000_REG_ICR s (n_regs _ _ _ Hok) ltac:(done) eq_refl)), modify_dev_eq.
  intros [= <-]. exists p, q'. split; [exact (nic_ok_irq _ _ _ 1 Hok') | split; [exact L | done]].
Qed.

Lemma run_accounted s0 x0 base q0 acc t : nic_ok [] q0 s0 -> rx_cb (own s0) <> 0 ->
  c_recv (ec (bus s0)) = base ++ q0 -> run s0 x0 acc t ->
  exists pend q, accounted s0 x0 base acc t.1 t.2 pend q.
Proof.
  intros Hok0 Hcb0 Hbase. induction 1 as [|acc s x data len ok s' _ (pend & q & IH) Hl Hu E
    |acc s x fuel s' x' replies _ (pend & q & IH) Hf E Hrep|acc s x s' _ (pend & q & IH) E
    |acc s x b _ (pend & q & IH) Hs|acc s x b _ (pend & q & IH) Ha]; cbn [fst snd] in *.
  - exists [], q0. split; [done |]. split; [done |]. split; [done |]. exists []. by rewrite app_nil_r.
  - pose proof IH as (Hok & _). destruct (decide (len = 0)) as [->|Hne].
    { unfold e1000_send in E. rewrite (st_bind_ret _ _ _ _ _ (dev_eq s)), Z.eqb_refl, orb_true_r in E.
      injection E as <- <-. exists pend, q. by rewrite app_nil_r. }
    assert (sends s ((if ok then [take (Z.to_nat (Z.min len 2048)) data] else []) ++ []) s') as Hs
      by (eapply sends_call; [lia | done | done | apply sends_nil]).
    destruct (sends_ok _ _ _ Hs _ _ Hok) as (p & q' & Hok' & L & _ & C & _). rewrite app_nil_r in L.
    exists p, q'. by eapply accounted_later.
  - pose proof IH as (Hok & Hcb & Hsent & del & Hd & Hr).
    destruct (poll_spec fuel pend q s x Hok) as (s1 & x1 & acc1 & p1 & more & E1 & Hok1 & Lt & Lr & S1 & T1 & C1);
      [by rewrite Hcb | unfold poll_budget in Hf; rewrite Hr, !length_app in Hf; lia |].
    rewrite E in E1. injection E1 as -> ->. rewrite Hrep in T1. apply app_inv_head in T1 as ->.
    exists p1, []. split; [done |]. split; [by rewrite C1 |]. split; [by rewrite Lt, app_assoc, Hsent, <- app_assoc |].
    exists (del ++ q ++ more). rewrite S1, Hd, Lr, Hr, app_nil_r, <- !app_assoc. done.
  - pose proof IH as (Hok & _). destruct (irq_spec _ _ _ _ Hok E) as (p & q' & Hok' & L & C).
    exists p, q'. rewrite <- (app_nil_r acc). eapply accounted_later; [exact IH | done | done | by rewrite app_nil_r].
  - pose proof IH as (Hok & _). destruct (nic_step _ _ _ _ Hok Hs) as (p & q' & Hok' & L).
    exists p, q'. rewrite <- (app_nil_r acc). eapply accounted_later; [exact IH | done | done | by rewrite app_nil_r].
  - pose proof IH as (Hok & Hcb & Hsent & Hdel). destruct (arrival_ok _ _ _ _ Hok Ha) as (Hok' & E1 & E2).
    exists pend, q. split; [done |]. cbn [bus with_bus own]. by rewrite E1, E2.
Qed.

(** C5: the driver is a queue in each direction.  After any sequence of sends, polls,
    interrupts, card activity and arrivals from a state with the queues empty ([q0] were
    received since the set-up): the frames sent, followed by at most 32 still
    in the ring, are those accepted, unchanged and in their order; the frames received are
    those delivered, followed by at most 31 in the ring; and the next call returns, a poll
    with everything received delivered. *)
Theorem e1000_queues s0 x0 base q0 acc s x : nic_ok [] q0 s0 -> rx_cb (own s0) <> 0 ->
  c_recv (ec (bus s0)) = base ++ q0 -> run s0 x0 acc (s, x) ->
  (exists pend del q,
    c_sent (ec (bus s)) ++ pend = c_sent (ec (bus s0)) ++ acc /\ (length pend <= 32)%nat /\
    rc_seen x = rc_seen x0 ++ del /\ c_recv (ec (bus s)) = base ++ del ++ q /\ (length q <= 31)%nat) /\
  (forall data len, 0 <= len <= Z.of_nat (length data) -> Forall is_u8 data ->
     exists ok s', e1000_send data len s = Ret (ok, s')) /\
  exists s' x', e1000_poll rc_call (poll_budget s) (s, x) = Ret ((), (s', x')) /\
    exists del, rc_seen x' = rc_seen x0 ++ del /\ c_recv (ec (bus s')) = base ++ del.
Proof.
  intros Hok0 Hcb0 Hbase Hrun. destruct (run_accounted _ _ _ _ _ _ Hok0 Hcb0 Hbase Hrun) as (pend & q & Hok & Hcb & Hs & del & Hd & Hr).
  cbn [fst snd] in *. pose proof (w_len _ _ _ _ (tx_window _ _ _ _ (n_tx _ _ _ Hok))) as Hp.
  pose proof (rx_room _ _ _ _ (n_rx _ _ _ Hok)) as Hq. split; [exists pend, del, q; split_and!; (done || lia) |]. split.
  - intros data len Hl Hu. destruct (decide (len = 0)) as [->|Hne].
    { exists false, s. unfold e1000_send. by rewrite (st_bind_ret _ _ _ _ _ (dev_eq s)), Z.eqb_refl, orb_true_r. }
    destruct (decide (length pend = 32%nat)) as [Hf|Hf].
    + exists false, s. by apply (send_full pend q).
    + destruct (send_spec pend q s data len Hok ltac:(lia) Hu ltac:(lia)) as (s' & _ & _ & E & _). by exists true, s'.
  - destruct (poll_spec (poll_budget s) pend q s x Hok) as (s1 & x1 & acc1 & p1 & more & E1 & _ & _ & Lr & S1 & _);
      [by rewrite Hcb | unfold poll_budget; rewrite Hr, !length_app; lia |].
    exists s1, x1. split; [done |]. exists (del ++ q ++ more). by rewrite S1, Hd, Lr, Hr, <- !app_assoc.
Qed.

(** A ring that is full is stuck.  The driver fills all 32 descriptors, and the tail
    meets the head, which to the card is an empty ring: once 32 frames are pending no frame
    is accepted, and none is sent, any more. *)
Theorem e1000_full_stalls pend q s acc s' : nic_ok pend q s -> length pend = 32%nat -> sends s acc s' ->
  acc = [] /\ c_sent (ec (bus s')) = c_sent (ec (bus s)) /\
  forall data len, len <> 0 -> e1000_send data len s' = Ret (false, s').
Proof.
  intros Hok Hfull Hs. revert q Hok. induction Hs as [s|s data len ok s1 acc s2 Hl Hu E _ IH|s b acc s2 Ht _ IH]; intros q Hok.
  - split; [done |]. split; [done |]. intros data len Hne. by eapply send_full.
  - rewrite (send_full pend q) in E by (done || lia). injection E as <- <-. by apply (IH q).
  - destruct Ht as [Ht|[Hr|[Hd|He]]].
    + destruct Ht as (_ & Hne & _). pose proof (n_tx _ _ _ Hok) as T. exfalso. apply Hne.
      rewrite (tx_tail _ _ _ _ T), (tx_index _ _ _ _ T), Hfull. pose proof (w_start _ _ _ _ (tx_window _ _ _ _ T)). lia.
    + destruct (receives_slot _ _ _ _ _ (n_rx _ _ _ Hok) Hr) as (f & wire & _ & Hrx & E & i & Hi & Hram).
      destruct (IH (q ++ [f])) as (-> & E2 & Hsend); [| by rewrite E2; cbn; rewrite E].
      destruct Hok as [H1 H2 H3 H4 H5]. split; try done. eapply tx_frame; [exact H3 | | cbn; by rewrite E].
      eapply (other_ring _ _ _ _ _ i); [apply H3 | done | | done]. intros y Hy Hy'. by apply (H5 y).
    + destruct (nic_step _ _ _ _ Hok (or_intror (or_intror (or_introl Hd)))) as (p1 & q1 & Hok1 & Lt%later_sum).
      destruct Hd as (f & wire & _ & E & _). rewrite E in Lt. cbn in Lt. apply app_inv_head in Lt as ->.
      destruct (IH q1 Hok1) as (-> & E2 & Hsend). rewrite E2. cbn. by rewrite E.
    + destruct (nic_step _ _ _ _ Hok (or_intror (or_intror (or_intror He)))) as (p1 & q1 & Hok1 & Lt%later_sum).
      destruct He as [E _]. rewrite E in Lt. apply app_inv_head in Lt as ->.
      destruct (IH q1 Hok1) as (-> & E2 & Hsend). rewrite E2. cbn. by rewrite E.
Qed.
End Runs.
