(* ===== verification/E1000Init.v ===== *)
(** * Setting up the network card

    On a machine with the card on the PCI bus ([E1000Setup]) and 135 KiB of free memory,
    [e1000_init] allocates and fills both rings, gives them to the card, and reaches the
    state the theorems on sending and receiving start from. *)
From S2P Require Import Prelude Interfaces Phys DevMem Pci Heap Task Input Interrupts E1000 E1000Card E1000Rings E1000Props.

(** ** A ring being filled *)
Section Fill.
Context {B : Type} `{!Bus B, !E1000Card B}.
#[local] Abbreviation drv := (driver e1000 B).
#[local] Abbreviation store_writes := (store_writes (ec (B := B)) ec_store_ram).
#[local] Abbreviation store_bytes_writes := (store_bytes_writes (ec (B := B)) ec_store_ram).
Implicit Types s : drv.

(** The descriptors lie before [lo], the first [i] buffers from there on in their order. *)
Record ring_upto (lo status i : Z) (r : ring) (p : phys) (b : B) : Prop := {
  u_len : length (bufs r) = 32%nat /\ length (buf_phys r) = 32%nat;
  u_descs : descs r = descs_phys r + hhdm_offset p /\ 0 <= descs_phys r /\ descs_phys r + 512 <= lo <= phys_alloc_next p;
  u_buf j : 0 <= j < i ->
    buf_v r j = buf_p r j + hhdm_offset p /\ lo <= buf_p r j /\ buf_p r j + 2048 <= phys_alloc_next p;
  u_order j k : 0 <= j < k -> k < i -> buf_p r j + 2048 <= buf_p r k;
  u_desc j : 0 <= j < i -> addr_ok b r j /\ ram b (desc_p r j + d_status) = status;
  u_fit : phys_alloc_next p + (32 - i) * 2064 <= phys_alloc_end p;
  u_ram x : descs_phys r <= x < phys_alloc_end p -> is_ram x;
  u_used : phys_alloc_next p <= lo + i * 2064;
}.

Lemma ring_upto_mem lo status r p b : mem_region_ok p -> ring_upto lo status 32 r p b -> ring_mem p r.
Proof.
  intros (_ & (_ & He) & Hh & Hm & _) [H1 (H2 & H2' & H2'') H3 H4 H5 H6 H7 _]. split; try done.
  - split; [done | lia |]. intros x Hx. apply H7. lia.
  - intros i Hi. destruct (H3 i Hi) as (E & Hl & Hn). split; [done | lia |]. intros x Hx. apply H7. lia.
  - intros i j Hi Hj Hne. unfold disjoint. destruct (Z_lt_le_dec i j); [left | right]; apply H4; lia.
  - intros i Hi. destruct (H3 i Hi) as (E & Hl & Hn). unfold disjoint. lia.
Qed.
Lemma ring_upto_in lo status r p b x : ring_upto lo status 32 r p b -> in_ring r x ->
  descs_phys r <= x < phys_alloc_next p.
Proof.
  intros [_ (_ & _ & H2) H3 _ _ _ _ _] (i & Hi & [H|H]).
  - unfold desc_p in H. lia.
  - destruct (H3 i Hi) as (_ & ? & ?). lia.
Qed.

Lemma buf_set_eq (l : list Z) i v : length l = 32%nat -> 0 <= i < 32 ->
  default 0 (<[Z.to_nat i := v]> l !! Z.to_nat i) = v.
Proof. intros Hl Hi. rewrite list_lookup_insert_eq by lia. done. Qed.
Lemma buf_set_ne (l : list Z) i j v : 0 <= i < 32 -> 0 <= j < 32 -> i <> j ->
  default 0 (<[Z.to_nat i := v]> l !! Z.to_nat j) = default 0 (l !! Z.to_nat j).
Proof. intros Hi Hj Hne. rewrite list_lookup_insert_ne by lia. done. Qed.

Definition set_slot (i v p : Z) (r : ring) : ring := set_buf_phys i p (set_buf i v r).

(** One more slot: a block for its buffer, its address and the status in its descriptor. *)
Lemma ring_upto_next lo status i r p0 b p p' b' : 0 <= i < 32 ->
  ring_upto lo status i r p0 b -> hhdm_offset p' = hhdm_offset p0 -> phys_alloc_end p' = phys_alloc_end p0 ->
  phys_alloc_next p0 <= p < phys_alloc_next p0 + 16 -> phys_alloc_next p' = p + 2048 ->
  rd 8 b' (desc_p r i) = p -> ram b' (desc_p r i + d_status) = status ->
  (forall x, is_ram x -> ~ (desc_p r i <= x < desc_p r i + 16) -> ram b' x = ram b x) ->
  ring_upto lo status (i + 1) (set_slot i (p + hhdm_offset p') p r) p' b'.
Proof.
  intros Hi [[Ub Up] (U2 & U2' & U2'') U3 U4 U5 U6 U7 U8] Nh Ne Hp Nn Ha Hs Hother. split.
  - cbn. by rewrite !length_insert.
  - rewrite Nh. cbn. split_and!; try done; lia.
  - intros j Hj. unfold buf_v, buf_p, set_slot, set_buf_phys, set_buf. cbn [bufs buf_phys].
    destruct (decide (j = i)) as [->|Hne].
    + rewrite !buf_set_eq by done. split; [done | lia].
    + rewrite !buf_set_ne by lia. destruct (U3 j ltac:(lia)) as (Ea & Eb & Ec). rewrite Nh. unfold buf_v, buf_p in *. lia.
  - intros j k Hjk Hk. unfold buf_p, set_slot, set_buf_phys, set_buf. cbn [bufs buf_phys].
    rewrite (buf_set_ne _ i j) by lia. destruct (decide (k = i)) as [->|Hne].
    + rewrite buf_set_eq by done. destruct (U3 j ltac:(lia)) as (_ & _ & Ec). unfold buf_p in Ec. lia.
    + rewrite buf_set_ne by lia. apply (U4 j k); lia.
  - intros j Hj. unfold addr_ok, buf_p. change (desc_p ?q j) with (desc_p r j). cbn [set_slot set_buf_phys set_buf buf_phys].
    destruct (decide (j = i)) as [->|Hne]; [by rewrite buf_set_eq |].
    rewrite buf_set_ne by lia. destruct (U5 j ltac:(lia)) as [Ea Eb].
    assert (forall x, desc_p r j <= x < desc_p r j + 16 -> ram b' x = ram b x) as Hx.
    { intros x Hx. unfold desc_p in *. apply Hother; [apply U7; lia | lia]. }
    split; [| rewrite <- Eb; apply Hx; unfold d_status; lia].
    unfold addr_ok, buf_p in Ea. rewrite <- Ea. apply rd_ext. intros x Hxx. apply Hx. lia.
  - lia.
  - intros x Hx. apply U7. cbn [set_slot set_buf_phys set_buf descs_phys] in Hx. lia.
  - lia.
Qed.

(** What is left alone while a ring is set up: [later_mem]. *)
Record later_mem (m m' : phys) : Prop := {
  lm_ok : mem_region_ok m';
  lm_hhdm : hhdm_offset m' = hhdm_offset m;
  lm_end : phys_alloc_end m' = phys_alloc_end m;
  lm_next : phys_alloc_next m <= phys_alloc_next m';
}.
Lemma later_mem_trans m1 m2 m3 : later_mem m1 m2 -> later_mem m2 m3 -> later_mem m1 m3.
Proof. intros [] []. split; [done | congruence | congruence | lia]. Qed.

(** The turn of the loop for slot [i]. *)
Lemma fill_next s w lo status i : 0 <= i < 32 -> is_u8 status -> mem_region_ok (mem s) ->
  ring_upto lo status i (ring_of w (own s)) (mem s) (bus s) ->
  exists p m' b', let r' := set_slot i (p + hhdm_offset m') p (ring_of w (own s)) in
    ring_upto lo status (i + 1) r' m' b' /\ later_mem (mem s) m' /\ ec b' = ec (bus s) /\
    (forall x, is_ram x -> ~ (desc_p (ring_of w (own s)) i <= x < desc_p (ring_of w (own s)) i + 16) -> ram b' x = ram (bus s) x) /\
    forall n, init_bufs w 2048 status (S n) i s =
      init_bufs w 2048 status n (i + 1) (Drv (with_ring w r' (own s)) m' b').
Proof.
  intros Hi Hst Hm HU. set (r := ring_of w (own s)) in *.
  pose proof HU as [U1 (U2 & U2' & U2'') U3 U4 U5 U6 U7 U8]. pose proof Hm as (Hm1 & Hm2 & Hm3 & Hm4 & _).
  assert (pow2 16) as P16 by (exists 4; lia).
  destruct (alloc_spec s 2048 16 Hm ltac:(lia) P16 ltac:(lia) ltac:(lia)) as (p & m' & E1 & Hm' & Ne & Nh & Hp & _ & Nn).
  rewrite <- Nh in E1. set (h := hhdm_offset m') in *.
  set (r' := set_slot i (p + h) p r). set (s1 := Drv (with_ring w r' (own s)) m' (bus s)).
  assert (forall x, desc_p r i <= x < desc_p r i + 16 -> is_ram x) as Hram by (intros x Hx; apply U7; unfold desc_p in Hx; lia).
  assert (ptr_ok m' (desc_at (descs r) i) (desc_p r i) 16) as Hd.
  { split; unfold desc_at, desc_p; [fold h; lia | lia |]. exact Hram. }
  destruct (store_writes s1 8 (desc_at (descs r) i) p (desc_p r i)) as (b1 & E2 & V1).
  { lia. } { rewrite <- (Z.add_0_r (desc_at _ _)), <- (Z.add_0_r (desc_p _ _)). eapply ptr_sub; [exact Hd | lia..]. }
  destruct (store_writes (with_bus b1 s1) 1 (desc_at (descs r) i + d_status) status (desc_p r i + d_status)) as (b2 & E3 & V2).
  { lia. } { eapply ptr_sub; [exact Hd | unfold d_status; lia..]. }
  cbn [bus s1 with_bus] in V1, V2. unfold d_status in V2.
  assert (Hother : forall x, is_ram x -> ~ (desc_p r i <= x < desc_p r i + 16) -> ram b2 x = ram (bus s) x).
  { intros x Hx Hn. rewrite (proj2 V2), (proj2 V1) by done. rewrite ?length_le_bytes, !decide_False; [done | lia..]. }
  exists p, m', b2. split; [| split; [by split; [..| lia] | split; [by rewrite (proj1 V2), (proj1 V1) | split; [done |]]]].
  - apply (ring_upto_next lo status i r (mem s) (bus s)); try done.
    + rewrite (upd_rd_out _ _ _ _ _ _ _ V2); [| intros x Hx; apply Hram; lia | rewrite length_le_bytes; lia].
      change 8 with (Z.of_nat 8). rewrite (upd_rd_le _ _ _ _ _ _ V1) by (intros x Hx; apply Hram; lia).
      apply Z.mod_small. cbn. lia.
    + rewrite <- rd_1. change 1 with (Z.of_nat 1). unfold d_status.
      rewrite (upd_rd_le _ _ _ _ _ _ V2) by (intros x Hx; apply Hram; lia). apply Z.mod_small. unfold is_u8 in Hst. cbn. lia.
  - intros n. cbn [init_bufs]. rewrite (st_bind_ret _ _ _ _ _ E1). cbn [got].
    unfold modify_ring. rewrite (st_bind_ret _ _ _ _ _ (modify_dev_eq (B := B) _ _)).
    rewrite (proj2 (Z.eqb_neq _ 0)) by lia. rewrite (st_bind_ret _ _ _ _ _ (modify_dev_eq (B := B) _ _)).
    rewrite (st_bind_ret _ _ _ _ _ (dev_eq (B := B) _)). cbn [own mem bus].
    assert (forall g, with_ring w (set_buf_phys i p (ring_of w (with_ring w (set_buf i (p + h) (ring_of w g)) g)))
      (with_ring w (set_buf i (p + h) (ring_of w g)) g) = with_ring w (set_slot i (p + h) p (ring_of w g)) g) as ->.
    { intros g. by destruct w. }
    assert (descs (ring_of w (with_ring w (set_slot i (p + h) p (ring_of w (own s))) (own s))) = descs r) as -> by (by destruct w).
    fold r. rewrite (st_bind_ret _ _ _ _ _ E2), (st_bind_ret _ _ _ _ _ E3). done.
Qed.

Lemma ring_of_with w r g : ring_of w (with_ring w r g) = r.
Proof. by destruct w. Qed.
Lemma with_ring_twice w r r' g : with_ring w r (with_ring w r' g) = with_ring w r g.
Proof. by destruct w. Qed.

(** The whole loop. *)
Lemma fill_all n : forall i s w lo status, i + Z.of_nat n = 32 -> 0 <= i -> is_u8 status -> mem_region_ok (mem s) ->
  ring_upto lo status i (ring_of w (own s)) (mem s) (bus s) ->
  exists r' m' b', init_bufs w 2048 status n i s = Ret (true, Drv (with_ring w r' (own s)) m' b') /\
    ring_upto lo status 32 r' m' b' /\ later_mem (mem s) m' /\ ec b' = ec (bus s) /\
    descs_phys r' = descs_phys (ring_of w (own s)) /\ index r' = index (ring_of w (own s)) /\
    forall x, is_ram x -> ~ (descs_phys r' <= x < descs_phys r' + 512) -> ram b' x = ram (bus s) x.
Proof.
  induction n as [|n IH]; intros i s w lo status Hn Hi Hst Hm HU.
  - exists (ring_of w (own s)), (mem s), (bus s). replace i with 32 in HU by lia.
    split; [destruct s as [g m b]; by destruct w, g |]. split; [done |]. split; [by split |]. done.
  - destruct (fill_next s w lo status i ltac:(lia) Hst Hm HU) as (p & m1 & b1 & U1 & L1 & C1 & R1 & E1).
    set (r1 := set_slot i (p + hhdm_offset m1) p (ring_of w (own s))) in *.
    destruct (IH (i + 1) (Drv (with_ring w r1 (own s)) m1 b1) w lo status) as (r2 & m2 & b2 & E2 & U2 & L2 & C2 & D2 & I2 & R2);
      [lia | lia | done | apply L1 | cbn [own mem bus]; by rewrite ring_of_with |].
    cbn [own mem bus] in *. rewrite ring_of_with in D2, I2. rewrite with_ring_twice in E2.
    exists r2, m2, b2. rewrite E1. split; [done |]. split; [done |]. split; [by eapply later_mem_trans |].
    split; [by rewrite C2 |]. split; [done |]. split; [done |].
    intros x Hx Hn'. rewrite R2, R1; [done | done | | done | done].
    rewrite D2 in Hn'. unfold desc_p. intros Hxd. apply Hn'. cbn. lia.
Qed.

(** Descriptors and buffers; the card is not told yet. *)
Lemma alloc_ring s w status : mem_region_ok (mem s) -> is_u8 status ->
  length (bufs (ring_of w (own s))) = 32%nat -> length (buf_phys (ring_of w (own s))) = 32%nat ->
  phys_alloc_next (mem s) + 528 + 32 * 2064 <= phys_alloc_end (mem s) ->
  exists r' m' b' s1, init_descs w 512 s = Ret (true, s1) /\
    init_bufs w 2048 status 32 0 s1 = Ret (true, Drv (with_ring w r' (own s)) m' b') /\
    ring_mem m' r' /\ later_mem (mem s) m' /\ ec b' = ec (bus s) /\ index r' = index (ring_of w (own s)) /\
    0 <= descs_phys r' < 2 ^ 44 /\ phys_alloc_next m' <= phys_alloc_next (mem s) + 528 + 32 * 2064 /\
    (forall i, 0 <= i < 32 -> addr_ok b' r' i /\ ram b' (desc_p r' i + d_status) = status) /\
    (forall x, in_ring r' x -> phys_alloc_next (mem s) <= x < phys_alloc_next m') /\
    forall x, is_ram x -> ~ (phys_alloc_next (mem s) <= x < phys_alloc_next m') -> ram b' x = ram (bus s) x.
Proof.
  intros Hm Hst Lb Lp Hroom. pose proof Hm as (_ & (_ & He) & Hh & Hmax & Hram).
  set (r := ring_of w (own s)) in *. assert (pow2 16) as P16 by (exists 4; lia).
  destruct (alloc_spec s 512 16 Hm ltac:(lia) P16 ltac:(lia) ltac:(lia)) as (p & m0 & E1 & Hm0 & Ne & Nh & Hp & _ & Nn).
  set (v := p + hhdm_offset (mem s)) in *. set (s1 := Drv (with_ring w (set_descs v p r) (own s)) m0 (bus s)).
  assert (0 <= p) as Hp0 by (destruct Hm as ([[? ?] ?] & _); lia).
  destruct (store_bytes_writes (repeat 0 512) s1 v p) as (b1 & E2 & V1).
  { split; [cbn; lia | rewrite repeat_length; lia |]. intros x Hx. apply Hram. rewrite repeat_length in Hx. lia. }
  { apply Forall_forall. intros x Hx%list_elem_of_In%repeat_spec. by rewrite Hx. }
  destruct (fill_all 32 0 (with_bus b1 s1) w (p + 512) status) as (r2 & m2 & b2 & E3 & U2 & L2 & C2 & D2 & I2 & R2);
    [done | done | done | done | |].
  { cbn [with_bus s1 own mem bus]. rewrite ring_of_with. split.
    - by split.
    - cbn. split_and!; [rewrite Nh; done | done | lia | lia].
    - intros j Hj. lia.
    - intros j k Hj Hk. lia.
    - intros j Hj. lia.
    - lia.
    - intros x Hx. cbn in Hx. apply Hram. lia.
    - lia. }
  cbn [with_bus s1 own mem bus] in *. rewrite ring_of_with in D2, I2. rewrite with_ring_twice in E3. cbn in D2, I2.
  exists r2, m2, b2, (with_bus b1 s1). split.
  { unfold init_descs. rewrite (st_bind_ret _ _ _ _ _ (dev_eq (B := B) _)), (st_bind_ret _ _ _ _ _ E1). cbn [got].
    unfold modify_ring. rewrite (st_bind_ret _ _ _ _ _ (modify_dev_eq (B := B) _ _)).
    rewrite (proj2 (Z.eqb_neq _ 0)) by lia. change (Z.to_nat 512) with 512%nat.
    cbn [own mem bus]. fold r s1. by rewrite (st_bind_ret _ _ _ _ _ E2). }
  split; [exact E3 |]. split; [eapply ring_upto_mem; [apply L2 | exact U2] |].
  split; [eapply later_mem_trans; [| exact L2]; by split; [..| lia] |].
  split; [by rewrite C2, (proj1 V1) |]. split; [done |]. split; [lia |].
  split; [pose proof (u_used _ _ _ _ _ _ U2); lia |]. split; [exact (u_desc _ _ _ _ _ _ U2) |].
  pose proof (lm_next _ _ L2) as Hn2. split.
  - intros x Hx. pose proof (ring_upto_in _ _ _ _ _ _ U2 Hx). lia.
  - intros x Hx Hout. rewrite R2; [| done | lia]. rewrite (proj2 V1) by done. rewrite decide_False; [done |].
    rewrite repeat_length. lia.
Qed.
End Fill.

(** ** The registers, before and after receiving is switched on *)
Section Registers.
Context {B : Type} `{!Bus B, !E1000Card B}.
#[local] Abbreviation drv := (driver e1000 B).
Implicit Types s : drv.

Definition same_ram (b b' : B) : Prop := forall x, is_ram x -> ram b' x = ram b x.
Definition off (c : card) : Prop := cr_on (c_tx c) = false /\ cr_on (c_rx c) = false.
(** Frames on the network may get lost meanwhile. *)
Definition drop_to (w : list (list Z)) (c : card) : card := set_rx (c_rx c) (c_recv c) w c.

Lemma acts_mac b b' : acts ec b b' -> c_mac (ec b') = c_mac (ec b).
Proof.
  induction 1 as [|b b1 b' [(_ & _ & _ & E & _)|[(f & wire & _ & _ & _ & _ & E & _)|[(f & wire & _ & E & _)|[E _]]]] _ IH]; [done |..];
    by rewrite IH, E.
Qed.
Lemma acts_off b b' : acts ec b b' -> off (ec b) -> exists w, ec b' = drop_to w (ec b) /\ same_ram b b'.
Proof.
  induction 1 as [b|b b1 b' Hs _ IH]; intros Hoff; [exists (c_wire (ec b)); by destruct (ec b) |].
  destruct Hoff as [Ot Or]. destruct Hs as [(Ht & _)|[(f & wire & _ & _ & Hr & _)|[(f & wire & _ & E & Hram)|[E Hram]]]]; [congruence.. | |];
    (destruct IH as (w & Ew & Hw); [by rewrite E |]; exists w; rewrite Ew, E; split; [done |];
     intros x Hx; by rewrite Hw, Hram).
Qed.

Lemma written_range r : In r written_regs -> 0 <= r < 2 ^ 17 /\ r mod 4 = 0.
Proof.
  intros H. assert (Forall (fun r => 0 <= r < 2 ^ 17 /\ r mod 4 = 0) written_regs) as Hall.
  { unfold written_regs. repeat (apply Forall_cons; split; [done |]). done. }
  rewrite Forall_forall in Hall. by apply Hall, list_elem_of_In.
Qed.

Lemma write_off r v s : regs_ok s -> In r written_regs -> is_u32 v -> (r = E1000_REG_CTRL -> Z.testbit v 26 = false) ->
  off (reg_effect r v (ec (bus s))) ->
  exists b w, reg_write r v s = Ret ((), with_bus b s) /\ ec b = drop_to w (reg_effect r v (ec (bus s))) /\
    same_ram (bus s) b.
Proof.
  intros Hs Hr Hv Hc Hoff. destruct (written_range r Hr) as [H1 H2].
  destruct (ec_write r v (bus s) Hr Hv Hc) as (b1 & E1 & R1 & Hact). rewrite <- E1 in *.
  destruct (acts_off _ _ Hact Hoff) as (w & Ew & Rw). eexists _, w. split; [by apply reg_write_eq |].
  split; [done |]. intros x Hx. by rewrite Rw, R1.
Qed.

(** What the card may do once it receives, and is not yet to send. *)
Definition rx_later (rr : ring) (b : B) (q : list (list Z)) (b' : B) (q' : list (list Z)) : Prop :=
  c_tx (ec b') = c_tx (ec b) /\ c_sent (ec b') = c_sent (ec b) /\ c_mac (ec b') = c_mac (ec b) /\
  (exists more, c_recv (ec b') = c_recv (ec b) ++ more /\ q' = q ++ more) /\
  forall x, is_ram x -> ~ in_ring rr x -> ram b' x = ram b x.
Lemma rx_later_refl rr b q : rx_later rr b q b q.
Proof. split_and!; try done. exists []. by rewrite !app_nil_r. Qed.
Lemma rx_later_trans rr b1 q1 b2 q2 b3 q3 : rx_later rr b1 q1 b2 q2 -> rx_later rr b2 q2 b3 q3 -> rx_later rr b1 q1 b3 q3.
Proof.
  intros (T1 & S1 & M1 & (m1 & R1 & ->) & H1) (T2 & S2 & M2 & (m2 & R2 & ->) & H2).
  unfold rx_later. rewrite T2, S2, M2, R2, T1, S1, M1, R1. split_and!; try done; [exists (m1 ++ m2); by rewrite <- !app_assoc |].
  intros x Hx Hn. by rewrite H2, H1.
Qed.

Lemma acts_rx p rr b b' : acts ec b b' -> forall q, cr_on (c_tx (ec b)) = false -> rx_ok p rr q b ->
  exists q', rx_ok p rr q' b' /\ rx_later rr b q b' q'.
Proof.
  induction 1 as [b|b b1 b' Hs _ IH]; intros q Hoff Hok; [exists q; split; [done | apply rx_later_refl] |].
  assert (exists q1, rx_ok p rr q1 b1 /\ rx_later rr b q b1 q1) as (q1 & Hok1 & L1).
  { destruct Hs as [(Ht & _)|[Hr|[(f & wire & Hw & E & Hram)|[E Hram]]]]; [congruence | | |].
    - destruct (receives_slot _ _ _ _ _ Hok Hr) as (f & wire & _ & Hok1 & E & i & Hi & Hram). exists (q ++ [f]).
      split; [done |]. unfold rx_later. rewrite E. split_and!; try done; [by exists [f] |].
      intros x Hx Hn. apply Hram; [done |]. intros Hs. apply Hn. by exists i.
    - exists q. split.
      + eapply rx_frame; [exact Hok | | by rewrite E]. intros x Hx. apply Hram. eapply ring_ram; [apply Hok | done].
      + unfold rx_later. rewrite E. split_and!; try done; [exists []; by rewrite !app_nil_r |]. intros x Hx _. by apply Hram.
    - exists q. split.
      + eapply rx_frame; [exact Hok | | by rewrite E]. intros x Hx. apply Hram. eapply ring_ram; [apply Hok | done].
      + unfold rx_later. rewrite E. split_and!; try done; [exists []; by rewrite !app_nil_r |]. intros x Hx _. by apply Hram. }
  destruct (IH q1) as (q2 & Hok2 & L2); [by rewrite (proj1 L1) | done |].
  exists q2. split; [done | by eapply rx_later_trans].
Qed.

(** A register that does not concern receiving, before sending is switched on. *)
Lemma write_rx r v s rr q : regs_ok s -> In r written_regs -> is_u32 v -> (r = E1000_REG_CTRL -> Z.testbit v 26 = false) ->
  let c := reg_effect r v (ec (bus s)) in
  cr_on (c_tx c) = false -> c_rx c = c_rx (ec (bus s)) -> c_recv c = c_recv (ec (bus s)) ->
  rx_ok (mem s) rr q (bus s) ->
  exists b q', reg_write r v s = Ret ((), with_bus b s) /\ rx_ok (mem s) rr q' b /\
    c_tx (ec b) = c_tx c /\ c_sent (ec b) = c_sent c /\ c_mac (ec b) = c_mac c /\
    (exists more, c_recv (ec b) = c_recv (ec (bus s)) ++ more /\ q' = q ++ more) /\
    forall x, is_ram x -> ~ in_ring rr x -> ram b x = ram (bus s) x.
Proof.
  intros Hs Hr Hv Hc c Hoff Hrx Hrecv Hok. destruct (written_range r Hr) as [H1 H2].
  destruct (ec_write r v (bus s) Hr Hv Hc) as (b1 & E1 & R1 & Hact). fold c in E1.
  assert (rx_ok (mem s) rr q b1) as Hok1.
  { eapply rx_frame; [exact Hok | | by rewrite E1]. intros x Hx. apply R1. eapply ring_ram; [apply Hok | done]. }
  destruct (acts_rx (mem s) rr _ _ Hact q) as (q' & Hok' & L1 & L2 & L3 & L4 & L5); [by rewrite E1 | done |].
  rewrite E1, ?Hrecv in *. eexists _, q'. split; [by apply reg_write_eq |]. split_and!; try done.
  intros x Hx Hn. by rewrite L5, R1.
Qed.

(** A register that concerns neither ring, when both are on. *)
Lemma write_nic r v s pend q : nic_ok pend q s -> In r written_regs -> is_u32 v -> (r = E1000_REG_CTRL -> Z.testbit v 26 = false) ->
  reg_effect r v (ec (bus s)) = ec (bus s) ->
  exists b pend' q', reg_write r v s = Ret ((), with_bus b s) /\ nic_ok pend' q' (with_bus b s) /\
    later (bus s) pend q b pend' q' /\ c_mac (ec b) = c_mac (ec (bus s)).
Proof.
  intros Hok Hr Hv Hc He. destruct (written_range r Hr) as [H1 H2].
  destruct (ec_write r v (bus s) Hr Hv Hc) as (b1 & E1 & R1 & Hact). rewrite He in E1.
  assert (nic_ok pend q (with_bus b1 s)) as Hok1.
  { destruct Hok as [A1 A2 A3 A4 A5]. split; try done.
    - eapply tx_frame; [exact A3 | | cbn; by rewrite E1]. intros x Hx. apply R1. eapply ring_ram; [apply A3 | done].
    - eapply rx_frame; [exact A4 | | cbn; by rewrite E1]. intros x Hx. apply R1. eapply ring_ram; [apply A4 | done]. }
  destruct (nic_acts _ _ Hact pend q (with_bus b1 s) eq_refl Hok1) as (p' & q' & Hok' & L).
  eexists _, p', q'. split; [apply reg_write_eq; [apply Hok | done | done] |]. split; [exact Hok' |].
  rewrite (acts_mac _ _ Hact), E1. unfold later in *. by rewrite E1 in L.
Qed.
End Registers.

(** ** The registers of a ring, written one after the other *)
Section RingRegisters.
Context {B : Type} `{!Bus B, !E1000Card B}.
#[local] Abbreviation drv := (driver e1000 B).
Implicit Types s : drv.

Definition chain {A} (l : list (Z * Z)) (k : E1000.M (B := B) A) : E1000.M (B := B) A :=
  foldr (fun rv k => _ ← reg_write rv.1 rv.2; k) k l.
Definition rx_reg (rv : Z * Z) : Prop := In rv.1 written_regs /\ 0x2800 <= rv.1 < 0x2820 /\ is_u32 rv.2.
Definition tx_reg (rv : Z * Z) : Prop := In rv.1 written_regs /\ 0x3800 <= rv.1 < 0x3820 /\ is_u32 rv.2.
Definition ring_regs (base : Z) (l : list (Z * Z)) (t : card_ring) : card_ring :=
  foldl (fun t rv => ring_reg (rv.1 - base) rv.2 t) t l.

Lemma ring_reg_on off v t : cr_on (ring_reg off v t) = cr_on t.
Proof. unfold ring_reg. by repeat case_match. Qed.
Lemma ring_regs_on base l t : cr_on (ring_regs base l t) = cr_on t.
Proof. revert t. induction l as [|rv l IH]; intros t; [done |]. cbn. unfold ring_regs in IH. by rewrite IH, ring_reg_on. Qed.
Lemma rx_reg_effect rv c : rx_reg rv ->
  reg_effect rv.1 rv.2 c = set_rx (ring_reg (rv.1 - 0x2800) rv.2 (c_rx c)) (c_recv c) (c_wire c) c.
Proof. intros (_ & H & _). unfold reg_effect. by rewrite (proj2 (Z.leb_le _ _)), (proj2 (Z.ltb_lt _ _)) by lia. Qed.
Lemma tx_reg_effect rv c : tx_reg rv ->
  reg_effect rv.1 rv.2 c = set_tx (ring_reg (rv.1 - 0x3800) rv.2 (c_tx c)) (c_sent c) c.
Proof.
  intros (_ & H & _). unfold reg_effect. rewrite (proj2 (Z.ltb_ge _ 0x2820)), andb_false_r by lia.
  by rewrite (proj2 (Z.leb_le _ _)), (proj2 (Z.ltb_lt _ _)) by lia.
Qed.

Lemma chain_rx_off {A} l (k : E1000.M A) : forall s, regs_ok s -> Forall rx_reg l -> off (ec (bus s)) ->
  exists b w, chain l k s = k (with_bus b s) /\
    ec b = set_rx (ring_regs 0x2800 l (c_rx (ec (bus s)))) (c_recv (ec (bus s))) w (ec (bus s)) /\ same_ram (bus s) b.
Proof.
  induction l as [|rv l IH]; intros s Hs Hl Hoff.
  - exists (bus s), (c_wire (ec (bus s))). split; [by destruct s |]. split; [by destruct (ec (bus s)) | done].
  - apply Forall_cons in Hl as [Hrv Hl]. pose proof Hrv as (Hw & Hr & Hu). pose proof Hoff as [Ot Or].
    destruct (write_off rv.1 rv.2 s Hs Hw Hu) as (b1 & w1 & E1 & C1 & R1).
    { intros E. rewrite E in Hr. unfold E1000_REG_CTRL in Hr. lia. }
    { rewrite rx_reg_effect by done. split; cbn; [done | by rewrite ring_reg_on]. }
    rewrite rx_reg_effect in C1 by done.
    destruct (IH (with_bus b1 s) Hs Hl) as (b2 & w2 & E2 & C2 & R2).
    { cbn [bus with_bus]. rewrite C1. split; cbn; [done | by rewrite ring_reg_on]. }
    exists b2, w2. cbn [chain foldr]. rewrite (st_bind_ret _ _ _ _ _ E1). split; [exact E2 |].
    cbn [bus with_bus] in C2, R2. rewrite C2, C1. split; [done |]. intros x Hx. by rewrite R2, R1.
Qed.

Lemma chain_tx_rx {A} l (k : E1000.M A) rr : forall s q, regs_ok s -> Forall tx_reg l ->
  cr_on (c_tx (ec (bus s))) = false -> rx_ok (mem s) rr q (bus s) ->
  exists b q', chain l k s = k (with_bus b s) /\ rx_ok (mem s) rr q' b /\
    c_tx (ec b) = ring_regs 0x3800 l (c_tx (ec (bus s))) /\
    c_sent (ec b) = c_sent (ec (bus s)) /\ c_mac (ec b) = c_mac (ec (bus s)) /\
    (exists more, c_recv (ec b) = c_recv (ec (bus s)) ++ more /\ q' = q ++ more) /\
    forall x, is_ram x -> ~ in_ring rr x -> ram b x = ram (bus s) x.
Proof.
  induction l as [|rv l IH]; intros s q Hs Hl Hoff Hrx.
  - exists (bus s), q. split; [by destruct s |]. split_and!; try done. exists []. by rewrite !app_nil_r.
  - apply Forall_cons in Hl as [Hrv Hl]. pose proof Hrv as (Hw & Hr & Hu). pose proof (tx_reg_effect rv (ec (bus s)) Hrv) as He.
    destruct (write_rx rv.1 rv.2 s rr q Hs Hw Hu) as (b1 & q1 & E1 & Hrx1 & T1 & S1 & M1 & (m1 & V1 & ->) & R1);
      try done; rewrite ?He; try done.
    { intros E. rewrite E in Hr. unfold E1000_REG_CTRL in Hr. lia. }
    { cbn. by rewrite ring_reg_on. }
    rewrite He in T1, S1, M1. cbn in T1, S1, M1.
    destruct (IH (with_bus b1 s) (q ++ m1) Hs Hl) as (b2 & q2 & E2 & Hrx2 & T2 & S2 & M2 & (m2 & V2 & ->) & R2).
    { cbn. by rewrite T1, ring_reg_on. } { done. }
    cbn [bus with_bus mem] in *. exists b2, ((q ++ m1) ++ m2). cbn [chain foldr]. rewrite (st_bind_ret _ _ _ _ _ E1).
    split; [exact E2 |]. split; [done |]. split; [by rewrite T2, T1 |]. split; [congruence |]. split; [congruence |].
    split; [exists (m1 ++ m2); by rewrite V2, V1, <- !app_assoc |]. intros x Hx Hn. by rewrite R2, R1.
Qed.

(** The five registers of a ring at [dp]. *)
Definition ring_setup (base dp tail : Z) : list (Z * Z) :=
  [(base, u32 (Z.land dp 0xFFFFFFFF)); (base + 4, u32 (Z.shiftr dp 32)); (base + 8, u32 512); (base + 0x10, 0);
   (base + 0x18, tail)].
Lemma ring_reg_low v b l h t o : ring_reg 0 v (CardRing b l h t o) = CardRing (b / 2 ^ 32 * 2 ^ 32 + v) l h t o.
Proof. reflexivity. Qed.
Lemma ring_reg_high v b l h t o : ring_reg 4 v (CardRing b l h t o) = CardRing (v * 2 ^ 32 + b mod 2 ^ 32) l h t o.
Proof. reflexivity. Qed.
Lemma ring_reg_len v b l h t o : ring_reg 8 v (CardRing b l h t o) = CardRing b v h t o.
Proof. reflexivity. Qed.
Lemma ring_reg_head v b l h t o : ring_reg 0x10 v (CardRing b l h t o) = CardRing b l v t o.
Proof. reflexivity. Qed.
Lemma ring_reg_tail v b l h t o : ring_reg 0x18 v (CardRing b l h t o) = CardRing b l h v o.
Proof. reflexivity. Qed.
Lemma ring_setup_regs base dp tail t : 0 <= dp < 2 ^ 44 ->
  ring_regs base (ring_setup base dp tail) t = CardRing dp 512 0 tail (cr_on t).
Proof.
  intros Hdp. assert (u32 (Z.land dp 0xFFFFFFFF) = dp mod 2 ^ 32) as E1.
  { change 0xFFFFFFFF with (Z.ones 32). rewrite Z.land_ones by lia. unfold u32. by rewrite Zmod_mod. }
  assert (u32 (Z.shiftr dp 32) = dp / 2 ^ 32) as E2.
  { rewrite Z.shiftr_div_pow2 by lia. unfold u32. apply Z.mod_small. lia. }
  destruct t as [b l h t o]. unfold ring_regs, ring_setup. rewrite E1, E2. cbn [foldl fst snd]. rewrite Z.sub_diag.
  repeat match goal with |- context [base + ?k - base] => replace (base + k - base) with k by lia end.
  rewrite ring_reg_low, ring_reg_high, ring_reg_len, ring_reg_head, ring_reg_tail.
  cbn [cr_base cr_len cr_head cr_tail cr_on]. f_equal. lia.
Qed.
Lemma rx_setup_ok dp tail : 0 <= dp -> is_u32 tail -> Forall rx_reg (ring_setup 0x2800 dp tail).
Proof.
  intros Hdp Ht. unfold ring_setup. repeat (apply Forall_cons; split); [..| done]; 
    (split; [unfold written_regs; cbn; tauto | split; [cbn; lia | try apply u32_range; done]]).
Qed.
Lemma tx_setup_ok dp tail : 0 <= dp -> is_u32 tail -> Forall tx_reg (ring_setup 0x3800 dp tail).
Proof.
  intros Hdp Ht. unfold ring_setup. repeat (apply Forall_cons; split); [..| done]; 
    (split; [unfold written_regs; cbn; tauto | split; [cbn; lia | try apply u32_range; done]]).
Qed.
End RingRegisters.

(** ** Both rings *)
Section RingsUp.
Context {B : Type} `{!Bus B, !E1000Card B}.
#[local] Abbreviation drv := (driver e1000 B).
Implicit Types s : drv.

Lemma ring_mem_phys (m m' : phys) r : hhdm_offset m' = hhdm_offset m -> ring_mem (B := B) m r -> ring_mem m' r.
Proof.
  intros E [[H1 H1' H1''] H2 H3 H4 H5]. split; try done; [split; [by rewrite E | done | done] |].
  intros i Hi. destruct (H3 i Hi) as [K1 K2 K3]. split; [by rewrite E | done | done].
Qed.
Lemma rx_ok_phys (m m' : phys) r q (b : B) : hhdm_offset m' = hhdm_offset m -> rx_ok m r q b -> rx_ok m' r q b.
Proof. intros E [H1 H2 H3 H4 H5 H6]. split; try done. by eapply ring_mem_phys. Qed.
Lemma regs_ok_same (s s' : drv) : regs_ok s -> regs (own s') = regs (own s) -> hhdm_offset (mem s') = hhdm_offset (mem s) -> regs_ok s'.
Proof. intros H E1 E2 r Hr. rewrite E1. unfold virt_to_phys. rewrite E2. by apply H. Qed.
Lemma regs_with w r g : regs (with_ring w r g) = regs g.
Proof. by destruct w. Qed.

Lemma low_bit_status (b : B) r i v : ram b (desc_p r i + d_status) = v -> done_bit b r i = Z.testbit v 0.
Proof. intros E. unfold done_bit. by rewrite E. Qed.

(** What the ring given to the card looks like from then on: empty. *)
Lemma rx_starts m r (b : B) : ring_mem m r ->
  (forall i, 0 <= i < 32 -> addr_ok b r i /\ ram b (desc_p r i + d_status) = 0) ->
  c_rx (ec b) = CardRing (descs_phys r) 512 0 31 true -> rx_ok m (set_index 0 r) [] b.
Proof.
  intros Hr Hslots E. split; rewrite ?E; cbn [cr_base cr_len cr_on cr_head cr_tail set_index index descs_phys length]; try done.
  - by apply ring_mem_index.
  - split; [done | done | done |]. intros j Hj. destruct (Hslots ((0 + j) mod 32)) as [Ha Hs]; [by apply Z.mod_pos_bound |].
    split; [exact Ha | exact (low_bit_status b r _ 0 Hs)].
Qed.
Lemma tx_starts m r (b : B) : ring_mem m r ->
  (forall i, 0 <= i < 32 -> addr_ok b r i /\ ram b (desc_p r i + d_status) = 1) ->
  c_tx (ec b) = CardRing (descs_phys r) 512 0 0 true -> tx_ok m (set_index 0 r) [] b.
Proof.
  intros Hr Hslots E. split; rewrite ?E; cbn [cr_base cr_len cr_on cr_head cr_tail set_index index descs_phys length]; try done.
  - by apply ring_mem_index.
  - split; [done | done | done |]. intros j Hj. destruct (Hslots ((0 + j) mod 32)) as [Ha Hs]; [by apply Z.mod_pos_bound |].
    split; [exact Ha | exact (low_bit_status b r _ 1 Hs)].
Qed.

Lemma init_rx_spec s : regs_ok s -> mem_region_ok (mem s) ->
  length (bufs (rx (own s))) = 32%nat -> length (buf_phys (rx (own s))) = 32%nat ->
  phys_alloc_next (mem s) + 528 + 32 * 2064 <= phys_alloc_end (mem s) -> off (ec (bus s)) ->
  exists r m b q, e1000_init_rx s = Ret (true, Drv (with_ring Rx r (own s)) m b) /\ rx_ok m r q b /\
    later_mem (mem s) m /\ phys_alloc_next m <= phys_alloc_next (mem s) + 528 + 32 * 2064 /\
    (forall x, in_ring r x -> phys_alloc_next (mem s) <= x < phys_alloc_next m) /\
    c_tx (ec b) = c_tx (ec (bus s)) /\ c_sent (ec b) = c_sent (ec (bus s)) /\ c_mac (ec b) = c_mac (ec (bus s)) /\
    c_recv (ec b) = c_recv (ec (bus s)) ++ q.
Proof.
  intros Hs Hm Lb Lp Hroom Hoff.
  destruct (alloc_ring s Rx 0 Hm ltac:(done) Lb Lp Hroom) as (r & m & b0 & s1 & E1 & E2 & Hr & Lm & C0 & _ & Hdp & Hused & Hslots & Hin & _).
  set (s2 := Drv (with_ring Rx r (own s)) m b0) in *.
  assert (regs_ok s2) as Hs2 by (apply (regs_ok_same s); [done | done | apply Lm]).
  set (s3 := fun b : B => Drv (with_ring Rx (set_index 0 r) (own s)) m b).
  set (rctl := Z.lor (Z.lor E1000_RCTL_EN E1000_RCTL_BAM) E1000_RCTL_SECRC).
  destruct (chain_rx_off (ring_setup 0x2800 (descs_phys r) 31)
    (_ ← modify_ring Rx (set_index 0); _ ← reg_write E1000_REG_RCTL rctl; mret true) s2 Hs2)
    as (b1 & w & E3 & C1 & R1); [apply rx_setup_ok; [lia | done] | by cbn; rewrite C0 |].
  cbn [bus s2] in C1, R1. rewrite C0, ring_setup_regs in C1 by done. destruct Hoff as [Ot Or]. rewrite Or in C1.
  destruct (ec_write E1000_REG_RCTL rctl b1) as (b2 & C2 & R2 & Hact); [unfold written_regs; cbn; tauto | done | done |].
  change (reg_effect E1000_REG_RCTL rctl (ec b1)) with (set_rx (ring_switch true (c_rx (ec b1))) (c_recv (ec b1)) (c_wire (ec b1)) (ec b1)) in C2.
  rewrite C1 in C2. cbn [set_rx c_rx c_recv c_wire c_tx c_sent c_mac ring_switch cr_base cr_len cr_head cr_tail] in C2.
  assert (rx_ok m (set_index 0 r) [] b2) as Hrx.
  { apply rx_starts; [done | | by rewrite C2]. intros i Hi. destruct (Hslots i Hi) as [Ha Hst].
    assert (forall x, in_slot r i x -> ram b2 x = ram b0 x) as Hx.
    { intros x Hx. pose proof (slot_ram _ _ _ _ Hr Hi Hx). by rewrite R2, R1. }
    split; [by apply (same_addr b0) | rewrite Hx; [done | left; unfold d_status; lia]]. }
  destruct (acts_rx _ _ _ _ Hact [] ltac:(by rewrite C2) Hrx) as (q & Hrx3 & T3 & S3 & M3 & (more & V3 & ->) & R3).
  exists (set_index 0 r), m, (mem_store 4 (ec_regs + E1000_REG_RCTL) rctl b1), more.
  split; [| split; [done | split; [done | split; [done | split; [exact Hin |]]]]].
  - unfold e1000_init_rx. cbv zeta. change (RX_DESC_COUNT * 16) with 512. change (Z.to_nat RX_DESC_COUNT) with 32%nat.
    rewrite (st_bind_ret _ _ _ _ _ E1). cbn [negb]. rewrite (st_bind_ret _ _ _ _ _ E2). cbn [negb].
    rewrite (st_bind_ret _ _ _ _ _ (dev_eq s2)). refine (eq_trans E3 _).
    rewrite (st_bind_ret (modify_ring _ _) _ _ tt (s3 b1)) by done.
    by rewrite (st_bind_ret _ _ _ _ _ (reg_write_eq E1000_REG_RCTL rctl (s3 b1) Hs2 ltac:(done) eq_refl)).
  - rewrite T3, S3, M3, V3, C2. by rewrite <- C0.
Qed.

Lemma init_tx_spec s q : regs_ok s -> mem_region_ok (mem s) ->
  length (bufs (tx (own s))) = 32%nat -> length (buf_phys (tx (own s))) = 32%nat ->
  phys_alloc_next (mem s) + 528 + 32 * 2064 <= phys_alloc_end (mem s) ->
  cr_on (c_tx (ec (bus s))) = false -> rx_ok (mem s) (rx (own s)) q (bus s) ->
  (forall x, in_ring (rx (own s)) x -> x < phys_alloc_next (mem s)) ->
  exists r m b more, e1000_init_tx s = Ret (true, Drv (with_ring Tx r (own s)) m b) /\
    nic_ok [] (q ++ more) (Drv (set_ready true (with_ring Tx r (own s))) m b) /\
    later_mem (mem s) m /\ c_sent (ec b) = c_sent (ec (bus s)) /\ c_mac (ec b) = c_mac (ec (bus s)) /\
    c_recv (ec b) = c_recv (ec (bus s)) ++ more.
Proof.
  intros Hs Hm Lb Lp Hroom Hoff Hrx Hbelow.
  destruct (alloc_ring s Tx 1 Hm ltac:(done) Lb Lp Hroom) as (r & m & b0 & s1 & E1 & E2 & Hr & Lm & C0 & _ & Hdp & Hused & Hslots & Hin & Hout).
  set (s2 := Drv (with_ring Tx r (own s)) m b0) in *. set (rr := rx (own s)) in *.
  assert (regs_ok s2) as Hs2 by (apply (regs_ok_same s); [done | done | apply Lm]).
  assert (Hsep : forall x, in_ring r x -> in_ring rr x -> False).
  { intros x H1 H2. pose proof (Hin x H1). pose proof (Hbelow x H2). lia. }
  assert (rx_ok m rr q b0) as Hrx0.
  { apply (rx_ok_phys (mem s)); [apply Lm |]. eapply rx_frame; [exact Hrx | | by rewrite C0].
    intros x Hx. apply Hout; [eapply ring_ram; [apply Hrx | done] |]. pose proof (Hbelow x Hx). lia. }
  set (s3 := fun b : B => Drv (with_ring Tx (set_index 0 r) (own s)) m b).
  set (tctl := Z.lor (Z.lor (Z.lor E1000_TCTL_EN E1000_TCTL_PSP) (Z.shiftl 0x10 4)) (Z.shiftl 0x40 12)).
  destruct (chain_tx_rx (ring_setup 0x3800 (descs_phys r) 0)
    (_ ← modify_ring Tx (set_index 0); _ ← reg_write E1000_REG_TCTL tctl; _ ← reg_write E1000_REG_TIPG 0x0060200A; mret true)
    rr s2 q Hs2) as (b1 & q1 & E3 & Hrx1 & T1 & S1 & M1 & (m1 & V1 & ->) & R1);
    [apply tx_setup_ok; [lia | done] | by cbn; rewrite C0 | done |].
  cbn [bus mem s2] in *. rewrite C0, ring_setup_regs in T1 by done. rewrite Hoff in T1.
  destruct (ec_write E1000_REG_TCTL tctl b1) as (b2 & C2 & R2 & Hact); [unfold written_regs; cbn; tauto | done | done |].
  change (reg_effect E1000_REG_TCTL tctl (ec b1)) with (set_tx (ring_switch true (c_tx (ec b1))) (c_sent (ec b1)) (ec b1)) in C2.
  rewrite T1 in C2.
  set (g4 := set_ready true (with_ring Tx (set_index 0 r) (own s))). set (s4 := fun b : B => Drv g4 m b).
  assert (nic_ok [] (q ++ m1) (s4 b2)) as Hok.
  { split; cbn [s4 own mem bus g4 set_ready ready tx rx with_ring]; try done.
    - apply tx_starts; [done | | by rewrite C2]. intros i Hi. destruct (Hslots i Hi) as [Ha Hst].
      assert (forall x, in_slot r i x -> ram b2 x = ram b0 x) as Hx.
      { intros x Hx. pose proof (slot_ram _ _ _ _ Hr Hi Hx). rewrite R2, R1; [done | done | | done].
        intros Hx'. apply (Hsep x); [by exists i | done]. }
      split; [by apply (same_addr b0) | rewrite Hx; [done | left; unfold d_status; lia]].
    - eapply rx_frame; [exact Hrx1 | | by rewrite C2]. intros x Hx. apply R2. eapply ring_ram; [apply Hrx1 | done]. }
  destruct (nic_acts _ _ Hact _ _ (s4 b2) eq_refl Hok) as (p5 & q5 & Hok5 & L5).
  change (with_bus ?b (s4 b2)) with (s4 b) in Hok5. set (b5 := mem_store 4 (ec_regs + E1000_REG_TCTL) tctl b1) in *.
  destruct (write_nic E1000_REG_TIPG 0x0060200A (s4 b5) p5 q5 Hok5) as (b6 & p6 & q6 & E6 & Hok6 & L6 & M6);
    [unfold written_regs; cbn; tauto | done | done | done |].
  change (with_bus ?b (s4 b5)) with (s4 b) in Hok6. cbn [bus s4] in L6, M6.
  destruct (later_trans _ _ _ _ _ _ _ _ _ L5 L6) as ((out & So & Eo) & more & Vo & -> & _).
  symmetry in Eo. apply app_nil in Eo as [-> ->].
  assert (reg_write E1000_REG_TIPG 0x0060200A (s3 b5) = Ret ((), s3 b6)) as E7.
  { pose proof (reg_write_eq E1000_REG_TIPG 0x0060200A (s4 b5) (n_regs _ _ _ Hok5) ltac:(done) eq_refl) as E.
    rewrite E6 in E. injection E as ->. by apply reg_write_eq. }
  exists (set_index 0 r), m, b6, (m1 ++ more). split; [| split; [by rewrite app_assoc | split; [done |]]].
  - unfold e1000_init_tx. cbv zeta. change (TX_DESC_COUNT * 16) with 512. change (Z.to_nat TX_DESC_COUNT) with 32%nat.
    rewrite (st_bind_ret _ _ _ _ _ E1). cbn [negb]. rewrite (st_bind_ret _ _ _ _ _ E2). cbn [negb].
    rewrite (st_bind_ret _ _ _ _ _ (dev_eq s2)). refine (eq_trans E3 _).
    rewrite (st_bind_ret (modify_ring _ _) _ _ tt (s3 b1)) by done.
    rewrite (st_bind_ret _ _ _ _ _ (reg_write_eq E1000_REG_TCTL tctl (s3 b1) Hs2 ltac:(done) eq_refl)).
    change (with_bus _ (s3 b1)) with (s3 b5). by rewrite (st_bind_ret _ _ _ _ _ E7).
  - rewrite So, Vo, M6, (acts_mac _ _ Hact), app_nil_r, C2. cbn [set_tx c_sent c_recv c_mac].
    rewrite S1, V1, M1, C0. by rewrite <- app_assoc.
Qed.
End RingsUp.
