(* ===== verification/E1000Start.v ===== *)
(** * [e1000_init]: from the PCI bus to both rings

    With the card on the bus, off as after a reset, and memory to spare, the set-up
    succeeds: the address of the EEPROM is read and programmed, both rings are running and
    the interrupt has its handler. *)
From S2P Require Import Prelude Interfaces Phys DevMem Pci Heap Task Input Interrupts E1000 E1000Card E1000Rings E1000Props E1000Init.

(** The ports of the PCI bridge and of the interrupt controllers only take time. *)
Class E1000Setup (B : Type) `{!Bus B, !E1000Card B, !PciConfig B} := {
  es_pci_out port v (b : B) : port = PCI_CONFIG_ADDR \/ port = PCI_CONFIG_DATA -> acts ec b (port_out 4 port v b);
  es_pci_in (b : B) : acts ec b (port_in 4 PCI_CONFIG_DATA b).2;
  es_pic port v (b : B) : port = PIC1_DATA \/ port = PIC2_DATA ->
    acts ec b (port_in 1 port b).2 /\ acts ec b (port_out 1 port v b);
}.

(** A single bit of a word. *)
Lemma land_bit x n : 0 <= n -> (Z.land x (Z.shiftl 1 n) =? 0) = negb (Z.testbit x n).
Proof.
  intros Hn. rewrite Z.shiftl_1_l. destruct (Z.testbit x n) eqn:E; cbn [negb].
  - apply Z.eqb_neq. intros H. apply (f_equal (fun y => Z.testbit y n)) in H.
    by rewrite Z.land_spec, Z.pow2_bits_true, E, Z.bits_0 in H.
  - apply Z.eqb_eq, Z.bits_inj'. intros k Hk. rewrite Z.land_spec, Z.bits_0.
    destruct (decide (k = n)) as [->|Hne]; [by rewrite E | by rewrite Z.pow2_bits_false, andb_false_r].
Qed.
Lemma lor_u32 a b : is_u32 a -> is_u32 b -> is_u32 (Z.lor a b).
Proof.
  intros Ha Hb. unfold is_u32. rewrite <- (Z.mod_small a (2 ^ 32)), <- (Z.mod_small b (2 ^ 32)) by done.
  rewrite <- !(Z.land_ones _ 32), <- Z.land_lor_distr_l, Z.land_ones by lia. by apply Z.mod_pos_bound.
Qed.

(** The two halves of a hardware address, as numbers. *)
Lemma mac_low_eq a b c d e f : is_u8 a -> is_u8 b -> is_u8 c -> is_u8 d ->
  mac_low [a; b; c; d; e; f] = a + b * 2 ^ 8 + c * 2 ^ 16 + d * 2 ^ 24.
Proof.
  intros Ha Hb Hc Hd. unfold is_u8 in *. unfold mac_low.
  change (Z.lor (Z.lor (Z.lor a (Z.shiftl b 8)) (Z.shiftl c 16)) (Z.shiftl d 24) = a + b * 2 ^ 8 + c * 2 ^ 16 + d * 2 ^ 24).
  rewrite (lor_shiftl a b), (lor_shiftl _ c), (lor_shiftl _ d) by lia. done.
Qed.
Lemma mac_high_eq a b c d e f : is_u8 e -> is_u8 f ->
  mac_high [a; b; c; d; e; f] = e + f * 2 ^ 8 + 2 ^ 31.
Proof.
  intros He Hf. unfold is_u8 in *. unfold mac_high.
  change (Z.lor (Z.lor e (Z.shiftl f 8)) (Z.shiftl 1 31) = e + f * 2 ^ 8 + 2 ^ 31).
  rewrite (lor_shiftl e f), (lor_shiftl _ 1) by lia. done.
Qed.

Section Start.
Context {B : Type} `{!Bus B, !E1000Card B}.
#[local] Abbreviation drv := (driver e1000 B).
Implicit Types s : drv.

(** The card is as in [c], frames on the network apart; memory is as before. *)
Definition settled (c : card) (b0 b : B) : Prop := (exists w, ec b = drop_to w c) /\ same_ram b0 b.
Lemma settled_refl b : settled (ec b) b b.
Proof. split; [exists (c_wire (ec b)); by destruct (ec b) | done]. Qed.
Lemma settled_acts c b0 b b' : settled c b0 b -> off c -> acts ec b b' -> settled c b0 b'.
Proof.
  intros [(w & E) H] Hoff Hact. destruct (acts_off _ _ Hact) as (w' & E' & H'); [by rewrite E |].
  split; [exists w'; by rewrite E', E | intros x Hx; by rewrite H', H].
Qed.
Lemma reg_effect_drop r v w c : reg_effect r v (drop_to w c) = drop_to w (reg_effect r v c).
Proof. unfold reg_effect. by repeat case_match. Qed.

Lemma settled_write c b0 r v s : settled c b0 (bus s) -> regs_ok s -> In r written_regs -> is_u32 v ->
  (r = E1000_REG_CTRL -> Z.testbit v 26 = false) -> off (reg_effect r v c) ->
  exists b, reg_write r v s = Ret ((), with_bus b s) /\ settled (reg_effect r v c) b0 b.
Proof.
  intros [(w & E) H] Hs Hr Hv Hc Hoff.
  destruct (write_off r v s Hs Hr Hv Hc) as (b & w' & E1 & Ew & Hb); [by rewrite E, reg_effect_drop |].
  exists b. split; [done |]. split; [exists w'; by rewrite Ew, E, reg_effect_drop | intros x Hx; by rewrite Hb, H].
Qed.
Lemma settled_read c b0 r s : settled c b0 (bus s) -> regs_ok s -> In r read_regs -> off c ->
  exists v b, reg_read r s = Ret (v, with_bus b s) /\ settled c b0 b /\ is_u32 v /\
    (r = E1000_REG_CTRL -> Z.testbit v 26 = false).
Proof.
  intros Hst Hs Hr Hoff. destruct (ec_read r (bus s) Hr) as (Hv & Hc & Hact).
  eexists _, _. split; [apply reg_read_eq; [done |..] | split; [by eapply settled_acts | by split]].
  - unfold read_regs in Hr. cbn in Hr. decompose [or] Hr; subst; try done.
  - unfold read_regs in Hr. cbn in Hr. decompose [or] Hr; subst; try done.
Qed.

(** *** The EEPROM *)
Lemma eeprom_spec c b0 a s : settled c b0 (bus s) -> regs_ok s -> off c -> 0 <= a < 3 ->
  exists b, e1000_read_eeprom a s = Ret (Some (ec_word a), with_bus b s) /\ settled c b0 b.
Proof.
  intros Hst Hs Hoff Ha. destruct (ec_eeprom a (bus s) Ha) as (k & Hk & Hlow & Hhigh & Hw).
  set (start := mem_store 4 (ec_regs + E1000_REG_EERD) (256 * a + 1) (bus s)) in *.
  set (at_ := fun i => Nat.iter i (fun b => (mem_load 4 (ec_regs + E1000_REG_EERD) b).2) start) in *.
  set (val := fun i => (mem_load 4 (ec_regs + E1000_REG_EERD) (at_ i)).1).
  change (forall i, (i < k)%nat -> Z.testbit (val i) 4 = false) in Hlow.
  change (Z.testbit (val k) 4 = true) in Hhigh. change (val k / 2 ^ 16 = ec_word a) in Hw.
  assert (Z.lor (u32 (Z.shiftl a 8)) 1 = 256 * a + 1) as Ecmd.
  { assert (a = 0 \/ a = 1 \/ a = 2) as [-> | [-> | ->]] by lia; reflexivity. }
  assert (settled c b0 start) as Hst0.
  { destruct (settled_write c b0 E1000_REG_EERD (256 * a + 1) s Hst Hs) as (b & E & H);
      [unfold written_regs; cbn; tauto | unfold is_u32; lia | done | done |].
    rewrite (reg_write_eq E1000_REG_EERD _ s Hs) in E by done. injection E as E. by rewrite <- E in H. }
  assert (Hsteps : forall i, settled c b0 (at_ i)).
  { induction i as [|i IH]; [exact Hst0 |]. destruct (ec_read E1000_REG_EERD (at_ i)) as (_ & _ & Hact);
      [unfold read_regs; cbn; tauto |]. by eapply settled_acts. }
  assert (Hwait : forall n i, (i <= k)%nat -> (k < i + n)%nat ->
    eeprom_wait n (with_bus (at_ i) s) = Ret (Some (ec_word a), with_bus (at_ (S k)) s)).
  { induction n as [|n IH]; intros i Hi Hn; [lia |]. cbn [eeprom_wait].
    rewrite (st_bind_ret _ _ _ _ _ (reg_read_eq E1000_REG_EERD (with_bus (at_ i) s) Hs ltac:(done) eq_refl)).
    rewrite land_bit by done. cbn [bus with_bus]. fold (val i). destruct (decide (i = k)) as [->|Hne].
    - rewrite Hhigh. cbn [negb]. rewrite Z.shiftr_div_pow2, Hw by done. by rewrite u16_id by apply ec_word_range.
    - rewrite Hlow by lia. cbn [negb]. apply (IH (S i)); lia. }
  exists (at_ (S k)). split; [| apply Hsteps]. unfold e1000_read_eeprom. rewrite Ecmd.
  rewrite (st_bind_ret _ _ _ _ _ (reg_write_eq E1000_REG_EERD _ s Hs ltac:(done) eq_refl)). apply (Hwait 1000%nat 0%nat); lia.
Qed.

Definition eeprom_mac : list Z := word_bytes (ec_word 0) ++ word_bytes (ec_word 1) ++ word_bytes (ec_word 2).

Lemma read_mac_spec c b0 s : settled c b0 (bus s) -> regs_ok s -> off c ->
  exists b, e1000_read_mac s = Ret ((), Drv (set_mac eeprom_mac (own s)) (mem s) b) /\ settled c b0 b.
Proof.
  intros Hst Hs Hoff. destruct (eeprom_spec c b0 0 s Hst Hs Hoff ltac:(done)) as (b1 & E1 & S1).
  destruct (eeprom_spec c b0 1 (with_bus b1 s) S1 Hs Hoff ltac:(done)) as (b2 & E2 & S2).
  destruct (eeprom_spec c b0 2 (with_bus b2 s) S2 Hs Hoff ltac:(done)) as (b3 & E3 & S3).
  exists b3. split; [| done]. unfold e1000_read_mac.
  rewrite (st_bind_ret _ _ _ _ _ E1), (st_bind_ret _ _ _ _ _ E2), (st_bind_ret _ _ _ _ _ E3). done.
Qed.

Lemma word_bytes_u8 w : Forall is_u8 (word_bytes w).
Proof. unfold word_bytes. repeat (apply Forall_cons; split; [apply u8_range |]). done. Qed.

(** The register values of the address. *)
Lemma mac_u32 : is_u32 (mac_low eeprom_mac) /\ is_u32 (mac_high eeprom_mac).
Proof.
  unfold eeprom_mac, word_bytes. cbn [app].
  rewrite mac_low_eq, mac_high_eq by apply u8_range.
  repeat match goal with |- context [u8 ?x] => let H := fresh in pose proof (u8_range x) as H; revert H; generalize (u8 x); intros end.
  unfold is_u8, is_u32 in *. lia.
Qed.

(** *** From the registers to the rings.  [c] is the card as it is found. *)
Definition addressed (c : card) : card := set_addr (mac_low eeprom_mac, mac_high eeprom_mac) c.

Lemma prepare_spec s : regs_ok s -> off (ec (bus s)) ->
  exists b, (forall (k : M bool),
      (_ ← e1000_read_mac; _ ← e1000_configure_mac;
       ctrl ← reg_read E1000_REG_CTRL;
       _ ← reg_write E1000_REG_CTRL (Z.lor (Z.lor ctrl (Z.shiftl 1 6)) (Z.shiftl 1 5));
       _ ← reg_write E1000_REG_IMC 0xFFFFFFFF;
       _ ← reg_read E1000_REG_ICR; k) s = k (Drv (set_mac eeprom_mac (own s)) (mem s) b)) /\
    settled (addressed (ec (bus s))) (bus s) b.
Proof.
  intros Hs Hoff. set (c := ec (bus s)) in *. set (b0 := bus s).
  destruct (read_mac_spec c b0 s (settled_refl _) Hs Hoff) as (b1 & E1 & S1).
  set (s1 := fun b : B => Drv (set_mac eeprom_mac (own s)) (mem s) b). destruct mac_u32 as [Ul Uh].
  assert (forall b, regs_ok (s1 b)) as Hs1 by (intros b; exact Hs).
  destruct (settled_write c b0 E1000_REG_RAL0 (mac_low eeprom_mac) (s1 b1) S1 (Hs1 _)) as (b2 & E2 & S2);
    [unfold written_regs; cbn; tauto | done | done | done |].
  destruct (settled_write _ b0 E1000_REG_RAH0 (mac_high eeprom_mac) (s1 b2) S2 (Hs1 _)) as (b3 & E3 & S3);
    [unfold written_regs; cbn; tauto | done | done | done |].
  change (settled (addressed c) b0 b3) in S3. assert (off (addressed c)) as Hoff' by exact Hoff.
  destruct (settled_read _ b0 E1000_REG_CTRL (s1 b3) S3 (Hs1 _)) as (ctrl & b4 & E4 & S4 & U4 & V4);
    [unfold read_regs; cbn; tauto | done |].
  destruct (settled_write _ b0 E1000_REG_CTRL (Z.lor (Z.lor ctrl (Z.shiftl 1 6)) (Z.shiftl 1 5)) (s1 b4) S4 (Hs1 _)) as (b5 & E5 & S5).
  { unfold written_regs; cbn; tauto. } { by repeat apply lor_u32. }
  { intros _. rewrite !Z.lor_spec, V4 by done. done. } { done. }
  change (settled (addressed c) b0 b5) in S5.
  destruct (settled_write _ b0 E1000_REG_IMC 0xFFFFFFFF (s1 b5) S5 (Hs1 _)) as (b6 & E6 & S6);
    [unfold written_regs; cbn; tauto | done | done | done |].
  change (settled (addressed c) b0 b6) in S6.
  destruct (settled_read _ b0 E1000_REG_ICR (s1 b6) S6 (Hs1 _)) as (icr & b7 & E7 & S7 & _);
    [unfold read_regs; cbn; tauto | done |].
  exists b7. split; [| exact S7]. intros k. rewrite (st_bind_ret _ _ _ _ _ E1).
  assert (e1000_configure_mac (s1 b1) = Ret ((), s1 b3)) as Ec.
  { unfold e1000_configure_mac. rewrite (st_bind_ret _ _ _ _ _ (dev_eq (s1 b1))), (st_bind_ret _ _ _ _ _ E2). exact E3. }
  rewrite (st_bind_ret _ _ _ _ _ Ec), (st_bind_ret _ _ _ _ _ E4), (st_bind_ret _ _ _ _ _ E5), (st_bind_ret _ _ _ _ _ E6),
    (st_bind_ret _ _ _ _ _ E7). done.
Qed.

(** The static arrays have their size. *)
Definition arrays_ok (g : e1000) : Prop :=
  length (bufs (rx g)) = 32%nat /\ length (buf_phys (rx g)) = 32%nat /\
  length (bufs (tx g)) = 32%nat /\ length (buf_phys (tx g)) = 32%nat.
Definition room_ok (m : phys) : Prop := mem_region_ok m /\ phys_alloc_next m + 140000 <= phys_alloc_end m.

Lemma init_card_spec s : room_ok (mem s) -> arrays_ok (own s) -> off (ec (bus s)) ->
  exists g m b q, init_card ec_regs s = Ret (true, Drv g m b) /\ nic_ok [] q (Drv (set_ready true g) m b) /\
    c_sent (ec b) = c_sent (ec (bus s)) /\ c_recv (ec b) = c_recv (ec (bus s)) ++ q /\
    c_mac (ec b) = (mac_low eeprom_mac, mac_high eeprom_mac) /\
    irq g = irq (own s) /\ mac g = eeprom_mac /\ rx_cb g = rx_cb (own s).
Proof.
  intros [Hm Hroom] (L1 & L2 & L3 & L4) Hoff.
  set (s1 := Drv (map_regs (phys_to_virt ec_regs (mem s)) ec_regs (own s)) (mem s) (bus s)).
  assert (regs_ok s1) as Hs1.
  { intros r Hr. destruct ec_regs_range as [R1 R2]. cbn. unfold virt_to_phys, phys_to_virt, u64.
    rewrite <- (Z.mod_small (ec_regs + r) (2 ^ 64)) by lia. 
    replace ((ec_regs + hhdm_offset (mem s)) mod 2 ^ 64 + r - hhdm_offset (mem s))
      with ((ec_regs + hhdm_offset (mem s)) mod 2 ^ 64 + (r - hhdm_offset (mem s))) by lia.
    rewrite Zplus_mod_idemp_l. f_equal. lia. }
  destruct (prepare_spec s1 Hs1 Hoff) as (b & E1 & (w & Ew) & Hb). cbn [bus s1] in Ew, Hb.
  set (s2 := Drv (set_mac eeprom_mac (own s1)) (mem s) b).
  destruct (init_rx_spec s2 Hs1 Hm L1 L2) as (rr & m2 & b2 & q2 & E2 & Hrx & Lm & Hused & Hin & T2 & S2 & M2 & R2);
    [cbn; lia | cbn; by rewrite Ew |]. cbn [s2 own mem bus] in *.
  set (s3 := Drv (with_ring Rx rr (set_mac eeprom_mac (own s1))) m2 b2).
  pose proof (lm_hhdm _ _ Lm) as Hh. pose proof (lm_end _ _ Lm) as He.
  assert (regs_ok s3) as Hs3 by (apply (regs_ok_same s1); done).
  destruct (init_tx_spec s3 q2 Hs3 (lm_ok _ _ Lm) L3 L4) as (rt & m4 & b4 & more & E3 & Hok & Lm4 & S4 & M4 & R4);
    [cbn; lia | cbn; rewrite T2, Ew; apply Hoff | done | intros x Hx; by apply Hin |].
  cbn [s3 own mem bus] in *. exists (with_ring Tx rt (own s3)), m4, b4, (q2 ++ more).
  split; [| split; [exact Hok |]].
  - unfold init_card. rewrite (st_bind_ret st_get _ _ s s) by done. rewrite (st_bind_ret (modify_dev _) _ _ tt s1) by done.
    rewrite E1. fold s2. rewrite (st_bind_ret _ _ _ _ _ E2). cbn [negb]. exact E3.
  - rewrite S4, S2, R4, R2, M4, M2, Ew. split; [done |]. split; [cbn; by rewrite <- app_assoc |]. done.
Qed.
End Start.

(** ** [e1000_init] *)
Section Init.
Context {B A : Type} `{!Bus B, !E1000Card B, !PciConfig B, !E1000Setup B, !Allocator A} (handler_addr g_dev_addr : Z).
#[local] Set Default Proof Using "All".
#[local] Abbreviation drv := (driver e1000 B).
Implicit Types s : drv.
Implicit Types i : irqs B A.

Lemma set_handler_runs s i n : length (irq_handlers i) = 16%nat -> length (irq_contexts i) = 16%nat ->
  exists i', in_irqs (interrupts_set_irq_handler n handler_addr g_dev_addr) (s, i) = Ret ((), (s, i')) /\
    (0 <= n < 16 -> zget (irq_handlers i') n = Ret handler_addr).
Proof.
  intros L1 L2. unfold in_irqs, interrupts_set_irq_handler, bad_irq. cbn [fst snd].
  destruct (Z.ltb_spec n 0) as [H|H]; [exists (with_devices (put_ports (bus s) (devices i)) i); split; [by destruct s | lia] |].
  destruct (Z.leb_spec 16 n) as [H'|H']; [exists (with_devices (put_ports (bus s) (devices i)) i); split; [by destruct s | lia] |].
  cbn [orb]. rewrite <- (Z2Nat.id n) by lia. cbn [with_devices irq_handlers irq_contexts].
  rewrite !zset_nat by lia. cbn [mbind res_bind]. eexists. split; [by destruct s |]. intros _. cbn [with_irq irq_handlers].
  apply zget_nat. apply list_lookup_insert_eq. lia.
Qed.

Lemma unmask_runs s i n : exists b i', in_irqs (interrupts_unmask_irq n) (s, i) = Ret ((), (with_bus b s, i')) /\
  acts ec (bus s) b /\ irq_handlers i' = irq_handlers i.
Proof.
  unfold in_irqs, interrupts_unmask_irq. cbn [fst snd]. destruct (bad_irq n).
  { exists (bus s), (with_devices (put_ports (bus s) (devices i)) i). split; [done |]. by split. }
  assert (mask_port n = PIC1_DATA \/ mask_port n = PIC2_DATA) as Hp by (unfold mask_port; destruct (n <? 8); tauto).
  set (p := mask_port n) in *. destruct (es_pic p 0 (bus s) Hp) as [Hin _].
  unfold inb, outb, on_input, Input.inb, Input.outb. unfold mbind at 2, st_bind. cbn [with_devices devices put_ports ports].
  destruct (port_in 1 p (bus s)) as [mask b1]. cbn [snd] in Hin. cbn [mbind res_bind with_devices devices put_ports ports].
  set (v := Z.land mask _). destruct (es_pic p v b1 Hp) as [_ Hout]. eexists _, _. split; [reflexivity |].
  split; [by etransitivity | done].
Qed.

Lemma write_ims s (b : B) q : nic_ok [] q (Drv (set_ready true (own s)) (mem s) b) ->
  exists b' q', reg_write E1000_REG_IMS 0x1F6 (with_bus b s) = Ret ((), with_bus b' s) /\
    nic_ok [] q' (Drv (set_ready true (own s)) (mem s) b') /\
    c_sent (ec b') = c_sent (ec b) /\ c_mac (ec b') = c_mac (ec b) /\
    exists more, c_recv (ec b') = c_recv (ec b) ++ more /\ q' = q ++ more.
Proof.
  intros Hok. destruct (write_nic E1000_REG_IMS 0x1F6 _ _ _ Hok) as (b' & p & q' & E & Hok' & ((out & So & Eo) & more & R & Q & _) & M);
    [unfold written_regs; cbn; tauto | done | done | done |].
  symmetry in Eo. apply app_nil in Eo as [-> ->]. rewrite app_nil_r in So. exists b', q'. cbn [bus] in *.
  assert (Hs : regs_ok (with_bus b s)) by exact (n_regs _ _ _ Hok).
  rewrite (reg_write_eq E1000_REG_IMS _ _ Hs) by done.
  rewrite (reg_write_eq E1000_REG_IMS _ _ (n_regs _ _ _ Hok)) in E by done. injection E as E. cbn [bus with_bus] in *.
  split; [by rewrite E |]. split; [exact Hok' |]. split; [done |]. split; [done |]. by exists more.
Qed.

Lemma nic_time s (b b' : B) q : nic_ok [] q (Drv (set_ready true (own s)) (mem s) b) -> acts ec b b' ->
  exists q', nic_ok [] q' (Drv (set_ready true (own s)) (mem s) b') /\ c_sent (ec b') = c_sent (ec b) /\
    c_mac (ec b') = c_mac (ec b) /\ exists more, c_recv (ec b') = c_recv (ec b) ++ more /\ q' = q ++ more.
Proof.
  intros Hok Hact. destruct (nic_acts _ _ Hact [] q (Drv (set_ready true (own s)) (mem s) b) eq_refl Hok)
    as (p & q' & Hok' & ((out & So & Eo) & more & R & Q & _)).
  symmetry in Eo. apply app_nil in Eo as [-> ->]. rewrite app_nil_r in So. exists q'.
  split; [exact Hok' |]. split; [done |]. split; [by apply acts_mac | by exists more].
Qed.

(** The function [f] on the bus is the card, with its registers where its base address says. *)
Definition card_present (b : B) (f : Z * Z * Z) : Prop :=
  List.find (has_ids (cfg b) E1000_VENDOR_ID E1000_DEVICE_ID) (pci_functions (cfg b)) = Some f /\
  pci_get_bar (device_at (cfg b) f) 0 = Ret (ec_regs, Some true).

Lemma e1000_init_runs s i f :
  card_present (bus s) f ->
  room_ok (mem s) -> arrays_ok (own s) -> off (ec (bus s)) ->
  length (irq_handlers i) = 16%nat -> length (irq_contexts i) = 16%nat ->
  exists s' i' q, e1000_init handler_addr g_dev_addr (s, i) = Ret (Some eeprom_mac, (s', i')) /\
    nic_ok [] q s' /\ c_recv (ec (bus s')) = c_recv (ec (bus s)) ++ q /\ c_sent (ec (bus s')) = c_sent (ec (bus s)) /\
    c_mac (ec (bus s')) = (mac_low eeprom_mac, mac_high eeprom_mac) /\ rx_cb (own s') = rx_cb (own s) /\
    let n := irq_line (device_at (cfg (bus s)) f) in
    (0 <= n < 16 -> zget (irq_handlers i') n = Ret handler_addr).
Proof.
  intros [Hf Hbar] Hroom Harr Hoff L1 L2. set (d := device_at (cfg (bus s)) f) in *.
  destruct (find_keeps (acts ec) es_pci_out es_pci_in E1000_VENDOR_ID E1000_DEVICE_ID (bus s)) as (b1 & E1 & A1).
  rewrite Hf in E1. destruct (bus_master_keeps (acts ec) es_pci_out es_pci_in d b1) as (b2 & E2 & A2).
  destruct (acts_off _ _ (transitivity A1 A2) Hoff) as (w & Ew & Hw).
  set (g1 := begin d (own s)). set (s2 := Drv g1 (mem s) b2).
  destruct (init_card_spec s2 Hroom Harr) as (g & m & b3 & q & E3 & Hok & S3 & R3 & M3 & Ei & Em & Ec);
    [cbn; by rewrite Ew |]. cbn [s2 bus own mem] in *. set (s3 := Drv g m b3) in *.
  destruct (set_handler_runs s3 i (irq g) L1 L2) as (i4 & E4 & H4).
  destruct (unmask_runs s3 i4 (irq g)) as (b5 & i5 & E5 & A5 & H5).
  destruct (nic_time s3 _ _ q Hok A5) as (q5 & Hok5 & S5 & M5 & m5 & R5 & ->).
  destruct (write_ims s3 b5 _ Hok5) as (b6 & q6 & E6 & Hok6 & S6 & M6 & m6 & R6 & ->).
  exists (Drv (set_ready true g) m b6), i5, ((q ++ m5) ++ m6). split.
  - unfold e1000_init. rewrite (st_bind_ret _ _ (s, i) (Some d) (Drv (own s) (mem s) b1, i)).
    2:{ apply in_driver_eq. unfold on_bus. by rewrite (bind_ret _ _ _ E1). }
    rewrite (st_bind_ret _ _ _ tt (Drv g1 (mem s) b1, i)) by (by apply in_driver_eq).
    rewrite (st_bind_ret _ _ _ tt (s2, i)) by (apply in_driver_eq; unfold on_bus; cbn [bus]; by rewrite (bind_ret _ _ _ E2)).
    rewrite (st_bind_ret _ _ _ (ec_regs, Some true) (s2, i)) by (unfold st_lift; by rewrite Hbar).
    cbn [from_option id negb]. rewrite (proj2 (Z.eqb_neq ec_regs 0)) by (destruct ec_regs_range; lia). cbn [orb].
    rewrite (st_bind_ret _ _ _ true (s3, i)) by (by apply in_driver_eq). cbn [negb].
    rewrite (st_bind_ret _ _ _ g (s3, i)) by (by apply in_driver_eq).
    rewrite (st_bind_ret _ _ _ _ _ E4), (st_bind_ret _ _ _ _ _ E5).
    rewrite (st_bind_ret _ _ _ tt (with_bus b6 s3, i5)) by (by apply in_driver_eq).
    rewrite (st_bind_ret _ _ _ tt (Drv (set_ready true g) m b6, i5)) by (by apply in_driver_eq). by rewrite Em.
  - split; [exact Hok6 |]. cbn [bus own]. rewrite R6, R5, S6, S5, M6, M5. cbn [s3 bus].
    rewrite R3, S3, M3, Ew. split; [cbn; by rewrite <- !app_assoc |]. split; [done |]. split; [done |].
    split; [exact Ec |]. intros Hn. rewrite H5. rewrite Ei in H4. by apply H4.
Qed.

(** C20: the set-up.  With the card on the PCI bus, its registers where its base address
    says, both rings off, and 140000 bytes of free memory, [e1000_init] succeeds: it
    returns the address in the EEPROM, which is the one programmed into the card; the
    queues are empty and ready ([q]: frames received since the ring was switched on);
    the interrupt line has its handler. *)
Theorem e1000_init_ready s i f :
  card_present (bus s) f ->
  room_ok (mem s) -> arrays_ok (own s) -> off (ec (bus s)) ->
  length (irq_handlers i) = 16%nat -> length (irq_contexts i) = 16%nat ->
  exists s' i' q, e1000_init handler_addr g_dev_addr (s, i) = Ret (Some eeprom_mac, (s', i')) /\
    nic_ok [] q s' /\ c_recv (ec (bus s')) = c_recv (ec (bus s)) ++ q /\ c_sent (ec (bus s')) = c_sent (ec (bus s)) /\
    c_mac (ec (bus s')) = (mac_low eeprom_mac, mac_high eeprom_mac) /\ rx_cb (own s') = rx_cb (own s) /\
    let n := irq_line (device_at (cfg (bus s)) f) in
    (0 <= n < 16 -> zget (irq_handlers i') n = Ret handler_addr).
Proof. apply e1000_init_runs. Qed.
End Init.
