(* ===== verification/E1000Nic.v ===== *)
(** * The network card driver as the [Nic] of the network stack

    [e1000_nic]: behind [net_send_frame] is [e1000_send] on a driver that has been set up.
    [echo]: a function for received frames that sends each of them back. *)
From S2P Require Import Prelude Interfaces Phys DevMem Pci E1000 E1000Card E1000Rings E1000Props.

Section Nic.
Context {B : Type} `{!Bus B, !E1000Card B}.
#[local] Abbreviation drv := (driver e1000 B).
Implicit Types s : drv.

Definition nic_up s : Prop := exists pend q, nic_ok pend q s.

(** The frames handed to the card, read off its ring: from the head on, up to the first
    slot that is done. *)
Fixpoint pending_from (b : B) (r : ring) (n : nat) (i : Z) : list (list Z) :=
  match n with
  | O => []
  | S n =>
      if done_bit b r i then []
      else (ram b <$> seqZ (buf_p r i) (rd 2 b (desc_p r i + d_length))) :: pending_from b r n ((i + 1) mod 32)
  end.
Definition tx_log s : list (list Z) :=
  c_sent (ec (bus s)) ++ pending_from (bus s) (tx (own s)) 32 (cr_head (c_tx (ec (bus s)))).

Lemma pending_from_spec b r n : forall j frames,
  (forall m g, frames !! m = Some g -> tx_busy b r ((j + Z.of_nat m) mod 32) g) ->
  (length frames <= n)%nat ->
  ((length frames < n)%nat -> done_bit b r ((j + Z.of_nat (length frames)) mod 32) = true) ->
  pending_from b r n (j mod 32) = frames.
Proof.
  induction n as [|n IH]; intros j frames Hb Hl Hd; [destruct frames; [done | cbn in Hl; lia] |]. cbn [pending_from].
  destruct frames as [|f frames].
  - cbn [length] in Hd. replace (j + Z.of_nat 0) with j in Hd by lia. by rewrite Hd by lia.
  - pose proof (Hb 0%nat f eq_refl) as H0. replace (j + Z.of_nat 0) with j in H0 by lia.
    destruct H0 as (_ & (Hlen & Hdata & _) & _ & Hn). rewrite Hn, Hlen, Hdata. f_equal.
    replace ((j mod 32 + 1) mod 32) with ((j + 1) mod 32) by lia. cbn [length] in *. apply IH; [| lia |].
    + intros m g Hm. replace (j + 1 + Z.of_nat m) with (j + Z.of_nat (S m)) by lia. by apply Hb.
    + intros H. replace (j + 1 + Z.of_nat (length frames)) with (j + Z.of_nat (S (length frames))) by lia. apply Hd. lia.
Qed.

Lemma tx_log_spec pend q s : nic_ok pend q s -> tx_log s = c_sent (ec (bus s)) ++ pend.
Proof.
  intros Hok. unfold tx_log. f_equal. destruct (tx_window _ _ _ _ (n_tx _ _ _ Hok)) as [W1 W2 W3 W4].
  rewrite <- (Z.mod_small (cr_head _) 32) by done. apply pending_from_spec; [exact W3 | lia |].
  intros H. apply W4. lia.
Qed.

(** A call of [e1000_send], from the C side: the length is a [u16]. *)
Lemma send_result s f ok s' : nic_up s -> Forall is_u8 f -> e1000_send f (u16 (Z.of_nat (length f))) s = Ret (ok, s') ->
  nic_up s' /\ (0 < Z.of_nat (length f) <= 2048 -> tx_log s' = if ok then tx_log s ++ [f] else tx_log s).
Proof.
  intros (pend & q & Hok) Hu E. set (len := u16 (Z.of_nat (length f))) in *.
  assert (0 <= len <= Z.of_nat (length f)) as Hlen by (unfold len, u16; lia).
  destruct (decide (len = 0)) as [H0|Hne].
  { unfold e1000_send in E. rewrite (st_bind_ret _ _ _ _ _ (dev_eq s)), H0, orb_true_r in E. injection E as <- <-.
    split; [by exists pend, q | done]. }
  assert (sends s ((if ok then [take (Z.to_nat (Z.min len 2048)) f] else []) ++ []) s') as Hs
    by (eapply sends_call; [lia | done | done | apply sends_nil]).
  destruct (sends_ok _ _ _ Hs _ _ Hok) as (p & q' & Hok' & L & _). split; [by exists p, q' |].
  intros Hf. rewrite (tx_log_spec _ _ _ Hok'), (tx_log_spec _ _ _ Hok), (later_sum _ _ _ _ _ _ L).
  assert (len = Z.of_nat (length f)) as El by (unfold len, u16; lia).
  rewrite app_nil_r. destruct ok; [| by rewrite app_nil_r]. rewrite app_assoc. do 2 f_equal. apply firstn_all2. lia.
Qed.

#[local] Instance u8_dec : forall x, Decision (is_u8 x).
Proof. intros x. unfold is_u8. apply _. Defined.

(** A driver that is up, behind the network stack.  The elements of a frame are bytes;
    a list of other numbers is not a frame. *)
Definition after_send (f : list Z) (n : {s : drv | nic_up s}) (Hu : Forall is_u8 f) (r : res (bool * drv)) :
    e1000_send f (u16 (Z.of_nat (length f))) (proj1_sig n) = r -> bool * {s : drv | nic_up s} :=
  match r with
  | Ret (ok, s') => fun E => (ok, exist _ s' (proj1 (send_result _ f ok s' (proj2_sig n) Hu E)))
  | _ => fun _ => (false, n)
  end.
Definition nic_send_up (f : list Z) (n : {s : drv | nic_up s}) : bool * {s : drv | nic_up s} :=
  match decide (Forall is_u8 f) with
  | left Hu => after_send f n Hu _ eq_refl
  | right _ => (false, n)
  end.

#[export, refine] Instance e1000_nic : Nic {s : drv | nic_up s} := {
  nic_send := nic_send_up;
  nic_log n := tx_log (proj1_sig n);
}.
Proof.
  intros f n Hf. unfold nic_send_up. destruct (decide (Forall is_u8 f)) as [Hu|_]; [| done].
  enough (forall r E, let ans := after_send f n Hu r E in
    tx_log (proj1_sig ans.2) = if ans.1 then tx_log (proj1_sig n) ++ [f] else tx_log (proj1_sig n)) as H.
  { specialize (H _ eq_refl). by destruct (after_send _ _ _ _ _). }
  intros [[ok s']| |] E; [| done | done]. cbn [after_send proj1_sig].
  by apply (send_result _ f ok s' (proj2_sig n) Hu E).
Defined.

(** ** A client that answers *)
Definition echo (cb buf len : Z) : st (drv * (list (list Z) * list (list Z))) () := fun t =>
  '(data, s1) ← load_bytes (Z.to_nat len) buf t.1;
  '(ok, s2) ← e1000_send data len s1;
  Ret ((), (s2, (t.2.1 ++ [data], t.2.2 ++ (if ok : bool then [data] else [])))).

#[export, refine] Instance echo_client : RxClient B (list (list Z) * list (list Z)) := {
  rc_call := echo;
  rc_seen x := x.1;
  rc_sent x := x.2;
}.
Proof.
  intros cb s [seen sent] v a f Hv [Hf Hu] Hdata (pend & q & Hok).
  assert (load_bytes (Z.to_nat (Z.of_nat (length f))) v s = Ret (f, s)) as E1.
  { rewrite Nat2Z.id, (load_bytes_rd _ s v a); [by rewrite Hdata |].
    rewrite <- (Z.add_0_r v), <- (Z.add_0_r a). eapply ptr_sub; [exact Hv | lia..]. }
  assert (exists ok s', e1000_send f (Z.of_nat (length f)) s = Ret (ok, s')) as (ok & s' & E2).
  { pose proof (w_len _ _ _ _ (tx_window _ _ _ _ (n_tx _ _ _ Hok))) as Hm.
    destruct (decide (length pend = 32%nat)) as [Hfull|Hfull].
    - exists false, s. apply (send_full pend q); [done | lia | done].
    - destruct (send_spec pend q s f (Z.of_nat (length f)) Hok ltac:(lia) Hu ltac:(lia)) as (s' & _ & _ & E & _). by exists true, s'. }
  exists s', (seen ++ [f], sent ++ if ok then [f] else []), (if ok then [f] else []).
  split; [| split; [| done]].
  - unfold echo. cbn [fst snd]. rewrite (bind_ret _ _ _ E1), (bind_ret _ _ _ E2). done.
  - assert (take (Z.to_nat (Z.min (Z.of_nat (length f)) 2048)) f = f) as Et by (apply firstn_all2; lia).
    pose proof (sends_call s f (Z.of_nat (length f)) ok s' [] s' ltac:(lia) Hu E2 (sends_nil s')) as H.
    by rewrite Et, app_nil_r in H.
Defined.
End Nic.
