(* ===== verification/E1000Machine.v ===== *)
(** * A machine with a network card

    A concrete [Bus] with a configuration space, a card that is slow (it acts only between
    the accesses), and memory: the hypotheses of the driver's theorems hold of it. *)
From S2P Require Import Prelude Interfaces Phys DevMem Pci VirtioDevice Heap HeapProps Task TaskExamples Input Interrupts.
From S2P Require Import E1000 E1000Card E1000Rings E1000Props E1000Theorems E1000Init E1000Start E1000Nic.

Record pc := Pc { pc_ram : Z -> Z; pc_latch : Z; pc_cfg : Z -> Z; pc_card : card; pc_eerd : Z }.
Definition pc_regs : Z := 0xFEBC0000.
Definition pc_byte (b : pc) (x : Z) : Z := u8 (pc_ram b x).
(** The address 52:54:00:12:34:56. *)
Definition pc_word (a : Z) : Z := if a =? 0 then 0x5452 else if a =? 1 then 0x1200 else 0x5634.
Definition pc_reg (r : Z) (b : pc) : Z :=
  if r =? E1000_REG_EERD then 2 ^ 16 * pc_word (pc_eerd b / 256) + 16
  else if r =? E1000_REG_CTRL then 0x240 else 0.
Definition pc_set_reg (r v : Z) (b : pc) : pc :=
  Pc (pc_ram b) (pc_latch b) (pc_cfg b) (reg_effect r v (pc_card b)) (if r =? E1000_REG_EERD then v else pc_eerd b).
Definition at_reg (w a : Z) : bool := (0 <? w) && in_bytes pc_regs (2 ^ 17) a.

#[export, refine] Instance pc_ports : PortIO pc := {
  port_in w port b := ((if port =? PCI_CONFIG_DATA then u32 (pc_cfg b (pc_latch b)) else 0) mod 256 ^ w, b);
  port_out w port v b :=
    if port =? PCI_CONFIG_ADDR then Pc (pc_ram b) v (pc_cfg b) (pc_card b) (pc_eerd b)
    else if port =? PCI_CONFIG_DATA then
      Pc (pc_ram b) (pc_latch b) (fun a => if a =? pc_latch b then v else pc_cfg b a) (pc_card b) (pc_eerd b) else b;
}.
Proof. intros w port b Hw. cbn. apply Z.mod_pos_bound. apply Z.pow_pos_nonneg; lia. Defined.

#[export, refine] Instance pc_bus : Bus pc := {
  bus_ports := pc_ports;
  is_ram x := 0 <= x < 2 ^ 31;
  ram := pc_byte;
  mem_load w a b := if at_reg w a then (u32 (pc_reg (a - pc_regs) b), b) else (le_num (pc_byte b <$> seqZ a w), b);
  mem_store w a v b := if at_reg w a then pc_set_reg (a - pc_regs) v b
    else Pc (set_bytes a w v (pc_ram b)) (pc_latch b) (pc_cfg b) (pc_card b) (pc_eerd b);
}.
Proof.
  - intros b a. apply u8_range.
  - intros w a b Hr. unfold at_reg. destruct (Z.ltb_spec 0 w) as [Hw|Hw]; [| done]. cbn [andb].
    rewrite in_bytes_spec, bool_decide_false; [done |]. specialize (Hr a ltac:(lia)). cbn in Hr. unfold pc_regs. lia.
  - intros w a v b x Hr Hx. unfold at_reg. destruct (Z.ltb_spec 0 w) as [Hw|Hw]; cbn [andb].
    + rewrite in_bytes_spec, bool_decide_false by (specialize (Hr a ltac:(lia)); cbn in Hr; unfold pc_regs; lia).
      unfold pc_byte. cbn [pc_ram]. destruct (decide (a <= x < a + w)) as [H|H].
      * rewrite set_bytes_in by done. apply u8_id. apply (Z.mod_pos_bound _ 256). lia.
      * by rewrite set_bytes_out.
    + unfold pc_byte. cbn [pc_ram]. rewrite set_bytes_out, decide_False by lia. done.
Defined.

#[export, refine] Instance pc_pci : PciConfig pc := {
  cfg b a := u32 (pc_cfg b a);
  cfg_latch := pc_latch;
  cfg_reg _ _ v := u32 v;
}.
Proof.
  - done.
  - intros b. cbn. split; [| done]. rewrite Z.mod_small; [done |]. apply u32_range.
  - intros v b a. cbn. destruct (decide (a = pc_latch b)) as [->|H]; [by rewrite Z.eqb_refl |].
    by rewrite (proj2 (Z.eqb_neq _ _) H).
Defined.

Lemma pc_at_reg r : 0 <= r < 2 ^ 17 -> at_reg 4 (pc_regs + r) = true.
Proof. intros H. unfold at_reg. rewrite in_bytes_spec, bool_decide_true by lia. done. Qed.
Lemma pc_load r b : 0 <= r < 2 ^ 17 -> mem_load 4 (pc_regs + r) b = (u32 (pc_reg r b), b).
Proof. intros H. unfold mem_load, mem_store, pc_bus. rewrite pc_at_reg by done. by replace (pc_regs + r - pc_regs) with r by lia. Qed.
Lemma pc_store r v b : 0 <= r < 2 ^ 17 -> mem_store 4 (pc_regs + r) v b = pc_set_reg r v b.
Proof. intros H. unfold mem_load, mem_store, pc_bus. rewrite pc_at_reg by done. by replace (pc_regs + r - pc_regs) with r by lia. Qed.

#[export, refine] Instance pc_e1000 : E1000Card pc := { ec_regs := pc_regs; ec := pc_card; ec_word := pc_word }.
Proof.
  - done.
  - intros w a v b Hr. cbn. unfold at_reg. destruct (Z.ltb_spec 0 w) as [Hw|Hw]; [| done]. cbn [andb].
    rewrite in_bytes_spec, bool_decide_false; [done |]. specialize (Hr a ltac:(lia)). cbn in Hr. unfold pc_regs. lia.
  - intros r v b Hr Hv _. destruct (written_range r Hr) as [Hr17 _]. exists (pc_set_reg r v b).
    rewrite pc_store by done. split; [done |]. split; [done | apply rtc_refl].
  - intros r b Hr. assert (0 <= r < 2 ^ 17) as Hr17 by (unfold read_regs in Hr; cbn in Hr; decompose [or] Hr; subst; done).
    rewrite pc_load by done. split; [apply u32_range |]. split; [intros ->; reflexivity | apply rtc_refl].
  - intros a b Ha. exists 0%nat. split; [lia |]. split; [intros i Hi; lia |]. cbn [Nat.iter].
    rewrite pc_store, pc_load by done. assert (a = 0 \/ a = 1 \/ a = 2) as [-> | [-> | ->]] by lia; done.
  - intros a. unfold pc_word. repeat case_match; done.
Defined.

#[export, refine] Instance pc_setup : E1000Setup pc := { }.
Proof.
  - intros port v b [-> | ->]; apply rtc_once; do 3 right; by split.
  - intros b. apply rtc_refl.
  - intros port v b [-> | ->]; split; apply rtc_refl.
Defined.

(** Slot 4 of bus 0 holds the card, on interrupt line 11. *)
Definition pc_config (a : Z) : Z :=
  if a =? pci_make_addr 0 4 0 0x00 then 0x100E8086
  else if a =? pci_make_addr 0 4 0 0x0C then 0
  else if a =? pci_make_addr 0 4 0 0x10 then pc_regs
  else if a =? pci_make_addr 0 4 0 0x3C then 0x10B else 2 ^ 32 - 1.
Definition card0 : card := Card (CardRing 0 0 0 0 false) (CardRing 0 0 0 0 false) (0, 0) [] [] [].
Definition pc_boot : pc := Pc (fun _ => 0) 0 pc_config card0 0.
Definition pc_phys : phys := Phys (2 ^ 40) None 0x100000 0x200000 0x100000 0 0 0.
(** [e1000_set_rx_callback] before the set-up, as well as after, keeps the address. *)
Definition nic_boot : driver e1000 pc := Drv (E1000Device None 0 0 0 (repeat 0 6) ring0 ring0 0 0x1000 false) pc_phys pc_boot.
Definition irqs_boot : irqs pc heap :=
  Irqs [] 0 (repeat 0 16) (repeat 0 16) (repeat 0 16) (repeat 0 256) 0 0 false (statics pc_boot) (sched_statics heap0).

Lemma pc_found : card_present (bus nic_boot) (0, 4, 0).
Proof. split; vm_compute; reflexivity. Qed.
Lemma pc_room : room_ok pc_phys.
Proof. unfold room_ok, mem_region_ok, region_ok. cbn. split_and!; lia. Qed.
Lemma pc_arrays : arrays_ok (own nic_boot).
Proof. by split. Qed.

(** ** The driver on it *)
Definition state_after (r : res (option (list Z) * (driver e1000 pc * irqs pc heap))) : driver e1000 pc :=
  match r with Ret (_, (s, _)) => s | _ => nic_boot end.
Definition started : driver e1000 pc := state_after (e1000_init 0x2000 0x3000 (nic_boot, irqs_boot)).
Definition frame1 : list Z := repeat 7 60.
Definition send1 (s : driver e1000 pc) : driver e1000 pc :=
  match e1000_send frame1 60 s with Ret (_, s') => s' | _ => s end.
#[local] Abbreviation sent32 := (Nat.iter 32 send1 started).

Lemma e1000_init_ready_witness : exists i' q,
  e1000_init 0x2000 0x3000 (nic_boot, irqs_boot) = Ret (Some [0x52; 0x54; 0x00; 0x12; 0x34; 0x56], (started, i')) /\
  nic_ok [] q started /\ zget (irq_handlers i') 11 = Ret 0x2000.
Proof.
  destruct (e1000_init_ready 0x2000 0x3000 nic_boot irqs_boot (0, 4, 0) pc_found) as (s' & i' & q & E & Hok & _ & _ & _ & _ & Hirq).
  - exact pc_room.
  - exact pc_arrays.
  - by split.
  - reflexivity.
  - reflexivity.
  - exists i', q. pose proof (f_equal state_after E : started = s') as Es. rewrite Es.
    split; [exact E |]. split; [exact Hok |]. apply Hirq. vm_compute. by split.
Defined.

Lemma started_ok : nic_ok [] [] started.
Proof.
  destruct (e1000_init_runs 0x2000 0x3000 nic_boot irqs_boot (0, 4, 0) pc_found) as (s' & i' & q & E & Hok & Hr & _).
  - exact pc_room.
  - exact pc_arrays.
  - by split.
  - reflexivity.
  - reflexivity.
  - pose proof (f_equal state_after E : started = s') as Es. rewrite <- Es in Hok, Hr.
    assert (c_recv (ec (bus started)) = []) as E0 by (vm_compute; reflexivity). rewrite E0 in Hr.
    symmetry in Hr. apply app_nil in Hr as [_ ->]. exact Hok.
Qed.

(** *** Sending and receiving *)
Definition send_frame1 : driver e1000 pc -> res (bool * driver e1000 pc) := e1000_send frame1 60.
Lemma frame1_ok : frame_ok frame1.
Proof. split; [done |]. apply Forall_forall. intros x Hx%list_elem_of_In%repeat_spec. by rewrite Hx. Qed.

Lemma frame1_len : 0 < 60 <= Z.of_nat (length frame1) /\ 0 <= 60 <= Z.of_nat (length frame1).
Proof. done. Qed.

(** A frame of sixty bytes is accepted and another arrives; whatever the card does next,
    the driver can be polled, and answers. *)
Lemma e1000_queues_witness : exists s b s' t,
  run started ([], []) [frame1] (s, ([], [])) /\ run started ([], []) [frame1] (with_bus b s, ([], [])) /\
  e1000_poll echo (poll_budget (with_bus b s)) (with_bus b s, ([], [])) = Ret ((), (s', t)).
Proof.
  destruct (send_spec [] [] started frame1 60 started_ok (proj1 frame1_len) (proj2 frame1_ok)) as (s1 & p1 & q1 & E1 & _); [reflexivity |].
  set (wire := [frame1]). set (b1 := Pc (pc_ram (bus s1)) (pc_latch (bus s1)) (pc_cfg (bus s1))
    (set_rx (c_rx (ec (bus s1))) (c_recv (ec (bus s1))) (c_wire (ec (bus s1)) ++ wire) (ec (bus s1))) (pc_eerd (bus s1))).
  assert (run started ([], []) [frame1] (s1, ([], []))) as R1.
  { apply (run_send started ([], []) [] started ([], []) frame1 60 true s1); [apply run_start | exact (proj2 frame1_len) | apply frame1_ok | exact E1]. }
  assert (run started ([], []) [frame1] (with_bus b1 s1, ([], []))) as R2.
  { apply run_arrival; [exact R1 |]. exists frame1. split; [exact frame1_ok |]. split; [reflexivity |]. intros x Hx. reflexivity. }
  destruct (e1000_queues started ([], []) [] [] [frame1] (with_bus b1 s1) ([], []) started_ok) as (_ & _ & s' & t & E & _).
  - vm_compute. discriminate.
  - vm_compute. reflexivity.
  - exact R2.
  - exists s1, b1, s', t. split; [exact R1 |]. split; [exact R2 | exact E].
Defined.

(** *** Thirty-two frames before the card sends one *)
Lemma sends_frame1 n : forall s acc, (n <= 32)%nat ->
  (forall k, (k < n)%nat -> exists s', e1000_send frame1 60 (Nat.iter k send1 s) = Ret (true, s')) ->
  sends (Nat.iter n send1 s) [] acc -> sends s (repeat frame1 n) acc.
Proof.
  induction n as [|n IH]; intros s acc Hn Hs Hacc; [exact Hacc |].
  destruct (Hs 0%nat ltac:(lia)) as (s1 & E1). change (e1000_send frame1 60 s = Ret (true, s1)) in E1.
  assert (send1 s = s1) as Es by (unfold send1; rewrite E1; reflexivity).
  change (repeat frame1 (S n)) with ((if true then [take (Z.to_nat (Z.min 60 2048)) frame1] else []) ++ repeat frame1 n).
  apply (sends_call s frame1 60 true s1); [exact (proj1 frame1_len) | apply frame1_ok | exact E1 |].
  assert (forall k, Nat.iter (S k) send1 s = Nat.iter k send1 s1) as Eit.
  { intros k. rewrite <- Es. clear. induction k as [|k IHk]; [reflexivity |].
    change (send1 (Nat.iter (S k) send1 s) = send1 (Nat.iter k send1 (send1 s))). rewrite IHk. reflexivity. }
  apply IH; [lia | | rewrite <- Eit; exact Hacc]. intros k Hk. rewrite <- Eit. apply Hs. lia.
Qed.

Definition accepts (k : nat) : bool :=
  match e1000_send frame1 60 (Nat.iter k send1 started) with Ret (true, _) => true | _ => false end.
Lemma accepts_spec k : accepts k = true -> exists s', e1000_send frame1 60 (Nat.iter k send1 started) = Ret (true, s').
Proof. unfold accepts. destruct (e1000_send _ _ _) as [[[] s']| |]; intros H; try discriminate. exists s'. reflexivity. Qed.
Lemma accepts_all : forallb accepts (seq 0 32) = true.
Proof. vm_compute. reflexivity. Qed.
Lemma none_sent : c_sent (ec (bus sent32)) = [] /\ c_sent (ec (bus started)) = [].
Proof. split; vm_compute; reflexivity. Qed.

Lemma sent32_full : exists pend q, nic_ok pend q sent32 /\ length pend = 32%nat.
Proof.
  assert (sends started (repeat frame1 32) sent32) as Hs.
  { apply sends_frame1; [exact (le_n 32) | | exact (sends_nil sent32)].
    intros k Hk. apply accepts_spec. pose proof accepts_all as H. rewrite forallb_forall in H. apply H, in_seq. lia. }
  destruct (sends_ok _ _ _ Hs _ _ started_ok) as (p & q & Hok & L & _). exists p, q. split; [exact Hok |].
  apply later_sum in L. destruct none_sent as [N1 N2]. rewrite N1, N2 in L. cbn [app] in L. rewrite L. apply repeat_length.
Qed.

(** After thirty-two frames that the card has not yet sent, nothing is sent any more. *)
Lemma e1000_full_stalls_witness :
  c_sent (ec (bus sent32)) = [] /\ e1000_send frame1 60 sent32 = Ret (false, sent32).
Proof.
  destruct sent32_full as (pend & q & Hok & Hl).
  destruct (e1000_full_stalls pend q sent32 [] sent32 Hok Hl (sends_nil sent32)) as (_ & _ & H).
  split; [exact (proj1 none_sent) |]. apply H. discriminate.
Defined.
