(* ===== verification/Gfx.v ===== *)
(** * The framebuffer ([src/src/drivers/gfx.c])

    Pixels are in the byte memory of [Mem], so a pixel outside the mapped buffer is a
    [Fault]; so is a signed overflow ([int_ok]).  The back buffer comes from an
    [Allocator].  A pointer is its address, [NULL] is 0; stores of 64 bits to addresses that
    are not multiples of 8 have the x86 meaning. *)
From S2P Require Import Prelude Interfaces Mem.

Definition FONT_WIDTH : Z := 8.
Definition FONT_HEIGHT : Z := 16.

(** The statics of the file. *)
Record statics := Statics {
  fb_ptr : Z; draw_ptr : Z; backbuffer : Z; backbuffer_bytes : Z;
  fb_width : Z; fb_height : Z; fb_pitch : Z;
}.
Definition gfx0 : statics := Statics 0 0 0 0 0 0 0.

(** [font]: the rows of a glyph; the characters not listed are blank. *)
Definition glyphs : list (Z * list Z) := [
  (32, [0; 0; 0; 0; 0; 0; 0; 0; 0; 0; 0; 0; 0; 0; 0; 0]);
  (65, [0; 0; 0x18; 0x3C; 0x66; 0x66; 0x7E; 0x66; 0x66; 0x66; 0x66; 0; 0; 0; 0; 0]);
  (66, [0; 0; 0x7C; 0x66; 0x66; 0x7C; 0x66; 0x66; 0x66; 0x66; 0x7C; 0; 0; 0; 0; 0]);
  (67, [0; 0; 0x3C; 0x66; 0x60; 0x60; 0x60; 0x60; 0x60; 0x66; 0x3C; 0; 0; 0; 0; 0]);
  (68, [0; 0; 0x78; 0x6C; 0x66; 0x66; 0x66; 0x66; 0x66; 0x6C; 0x78; 0; 0; 0; 0; 0]);
  (69, [0; 0; 0x7E; 0x60; 0x60; 0x7C; 0x60; 0x60; 0x60; 0x60; 0x7E; 0; 0; 0; 0; 0]);
  (70, [0; 0; 0x7E; 0x60; 0x60; 0x7C; 0x60; 0x60; 0x60; 0x60; 0x60; 0; 0; 0; 0; 0]);
  (71, [0; 0; 0x3C; 0x66; 0x60; 0x60; 0x6E; 0x66; 0x66; 0x66; 0x3C; 0; 0; 0; 0; 0]);
  (72, [0; 0; 0x66; 0x66; 0x66; 0x7E; 0x66; 0x66; 0x66; 0x66; 0x66; 0; 0; 0; 0; 0]);
  (73, [0; 0; 0x3C; 0x18; 0x18; 0x18; 0x18; 0x18; 0x18; 0x18; 0x3C; 0; 0; 0; 0; 0]);
  (74, [0; 0; 0x1E; 0x0C; 0x0C; 0x0C; 0x0C; 0x0C; 0x6C; 0x6C; 0x38; 0; 0; 0; 0; 0]);
  (75, [0; 0; 0x66; 0x6C; 0x78; 0x70; 0x78; 0x6C; 0x66; 0x66; 0x66; 0; 0; 0; 0; 0]);
  (76, [0; 0; 0x60; 0x60; 0x60; 0x60; 0x60; 0x60; 0x60; 0x60; 0x7E; 0; 0; 0; 0; 0]);
  (77, [0; 0; 0x63; 0x77; 0x7F; 0x6B; 0x63; 0x63; 0x63; 0x63; 0x63; 0; 0; 0; 0; 0]);
  (78, [0; 0; 0x66; 0x76; 0x7E; 0x7E; 0x6E; 0x66; 0x66; 0x66; 0x66; 0; 0; 0; 0; 0]);
  (79, [0; 0; 0x3C; 0x66; 0x66; 0x66; 0x66; 0x66; 0x66; 0x66; 0x3C; 0; 0; 0; 0; 0]);
  (80, [0; 0; 0x7C; 0x66; 0x66; 0x7C; 0x60; 0x60; 0x60; 0x60; 0x60; 0; 0; 0; 0; 0]);
  (81, [0; 0; 0x3C; 0x66; 0x66; 0x66; 0x66; 0x66; 0x66; 0x3C; 0x0E; 0; 0; 0; 0; 0]);
  (82, [0; 0; 0x7C; 0x66; 0x66; 0x7C; 0x78; 0x6C; 0x66; 0x66; 0x66; 0; 0; 0; 0; 0]);
  (83, [0; 0; 0x3C; 0x66; 0x60; 0x3C; 0x06; 0x06; 0x06; 0x66; 0x3C; 0; 0; 0; 0; 0]);
  (84, [0; 0; 0x7E; 0x18; 0x18; 0x18; 0x18; 0x18; 0x18; 0x18; 0x18; 0; 0; 0; 0; 0]);
  (85, [0; 0; 0x66; 0x66; 0x66; 0x66; 0x66; 0x66; 0x66; 0x66; 0x3C; 0; 0; 0; 0; 0]);
  (86, [0; 0; 0x66; 0x66; 0x66; 0x66; 0x66; 0x66; 0x66; 0x3C; 0x18; 0; 0; 0; 0; 0]);
  (87, [0; 0; 0x63; 0x63; 0x63; 0x63; 0x6B; 0x7F; 0x77; 0x63; 0x63; 0; 0; 0; 0; 0]);
  (88, [0; 0; 0x66; 0x66; 0x3C; 0x18; 0x18; 0x3C; 0x66; 0x66; 0x66; 0; 0; 0; 0; 0]);
  (89, [0; 0; 0x66; 0x66; 0x66; 0x3C; 0x18; 0x18; 0x18; 0x18; 0x18; 0; 0; 0; 0; 0]);
  (90, [0; 0; 0x7E; 0x06; 0x0C; 0x18; 0x30; 0x60; 0x60; 0x60; 0x7E; 0; 0; 0; 0; 0]);
  (97, [0; 0; 0; 0; 0x3C; 0x06; 0x3E; 0x66; 0x66; 0x66; 0x3E; 0; 0; 0; 0; 0]);
  (98, [0; 0; 0x60; 0x60; 0x7C; 0x66; 0x66; 0x66; 0x66; 0x66; 0x7C; 0; 0; 0; 0; 0]);
  (99, [0; 0; 0; 0; 0x3C; 0x66; 0x60; 0x60; 0x60; 0x66; 0x3C; 0; 0; 0; 0; 0]);
  (100, [0; 0; 0x06; 0x06; 0x3E; 0x66; 0x66; 0x66; 0x66; 0x66; 0x3E; 0; 0; 0; 0; 0]);
  (101, [0; 0; 0; 0; 0x3C; 0x66; 0x7E; 0x60; 0x60; 0x66; 0x3C; 0; 0; 0; 0; 0]);
  (102, [0; 0; 0x0E; 0x18; 0x18; 0x3C; 0x18; 0x18; 0x18; 0x18; 0x18; 0; 0; 0; 0; 0]);
  (103, [0; 0; 0; 0; 0x3E; 0x66; 0x66; 0x66; 0x3E; 0x06; 0x66; 0x3C; 0; 0; 0; 0]);
  (104, [0; 0; 0x60; 0x60; 0x6C; 0x76; 0x66; 0x66; 0x66; 0x66; 0x66; 0; 0; 0; 0; 0]);
  (105, [0; 0; 0x18; 0; 0x38; 0x18; 0x18; 0x18; 0x18; 0x18; 0x3C; 0; 0; 0; 0; 0]);
  (106, [0; 0; 0x06; 0; 0x06; 0x06; 0x06; 0x06; 0x06; 0x06; 0x66; 0x3C; 0; 0; 0; 0]);
  (107, [0; 0; 0x60; 0x60; 0x66; 0x6C; 0x78; 0x6C; 0x66; 0x66; 0x66; 0; 0; 0; 0; 0]);
  (108, [0; 0; 0x38; 0x18; 0x18; 0x18; 0x18; 0x18; 0x18; 0x18; 0x3C; 0; 0; 0; 0; 0]);
  (109, [0; 0; 0; 0; 0x66; 0x7F; 0x6B; 0x6B; 0x63; 0x63; 0x63; 0; 0; 0; 0; 0]);
  (110, [0; 0; 0; 0; 0x6C; 0x76; 0x66; 0x66; 0x66; 0x66; 0x66; 0; 0; 0; 0; 0]);
  (111, [0; 0; 0; 0; 0x3C; 0x66; 0x66; 0x66; 0x66; 0x66; 0x3C; 0; 0; 0; 0; 0]);
  (112, [0; 0; 0; 0; 0x7C; 0x66; 0x66; 0x66; 0x7C; 0x60; 0x60; 0x60; 0; 0; 0; 0]);
  (113, [0; 0; 0; 0; 0x3E; 0x66; 0x66; 0x66; 0x3E; 0x06; 0x06; 0x06; 0; 0; 0; 0]);
  (114, [0; 0; 0; 0; 0x6C; 0x76; 0x60; 0x60; 0x60; 0x60; 0x60; 0; 0; 0; 0; 0]);
  (115, [0; 0; 0; 0; 0x3E; 0x60; 0x60; 0x3C; 0x06; 0x06; 0x7C; 0; 0; 0; 0; 0]);
  (116, [0; 0; 0x18; 0x18; 0x7E; 0x18; 0x18; 0x18; 0x18; 0x18; 0x0E; 0; 0; 0; 0; 0]);
  (117, [0; 0; 0; 0; 0x66; 0x66; 0x66; 0x66; 0x66; 0x66; 0x3E; 0; 0; 0; 0; 0]);
  (118, [0; 0; 0; 0; 0x66; 0x66; 0x66; 0x66; 0x66; 0x3C; 0x18; 0; 0; 0; 0; 0]);
  (119, [0; 0; 0; 0; 0x63; 0x63; 0x6B; 0x6B; 0x7F; 0x36; 0x36; 0; 0; 0; 0; 0]);
  (120, [0; 0; 0; 0; 0x66; 0x3C; 0x18; 0x18; 0x3C; 0x66; 0x66; 0; 0; 0; 0; 0]);
  (121, [0; 0; 0; 0; 0x66; 0x66; 0x66; 0x66; 0x3E; 0x06; 0x0C; 0x78; 0; 0; 0; 0]);
  (122, [0; 0; 0; 0; 0x7E; 0x0C; 0x18; 0x30; 0x60; 0x60; 0x7E; 0; 0; 0; 0; 0]);
  (48, [0; 0; 0x3C; 0x66; 0x6E; 0x6E; 0x76; 0x76; 0x66; 0x66; 0x3C; 0; 0; 0; 0; 0]);
  (49, [0; 0; 0x18; 0x38; 0x18; 0x18; 0x18; 0x18; 0x18; 0x18; 0x7E; 0; 0; 0; 0; 0]);
  (50, [0; 0; 0x3C; 0x66; 0x06; 0x0C; 0x18; 0x30; 0x60; 0x60; 0x7E; 0; 0; 0; 0; 0]);
  (51, [0; 0; 0x3C; 0x66; 0x06; 0x1C; 0x06; 0x06; 0x06; 0x66; 0x3C; 0; 0; 0; 0; 0]);
  (52, [0; 0; 0x0C; 0x1C; 0x3C; 0x6C; 0x6C; 0x7E; 0x0C; 0x0C; 0x0C; 0; 0; 0; 0; 0]);
  (53, [0; 0; 0x7E; 0x60; 0x60; 0x7C; 0x06; 0x06; 0x06; 0x66; 0x3C; 0; 0; 0; 0; 0]);
  (54, [0; 0; 0x3C; 0x60; 0x60; 0x7C; 0x66; 0x66; 0x66; 0x66; 0x3C; 0; 0; 0; 0; 0]);
  (55, [0; 0; 0x7E; 0x06; 0x0C; 0x18; 0x30; 0x30; 0x30; 0x30; 0x30; 0; 0; 0; 0; 0]);
  (56, [0; 0; 0x3C; 0x66; 0x66; 0x3C; 0x66; 0x66; 0x66; 0x66; 0x3C; 0; 0; 0; 0; 0]);
  (57, [0; 0; 0x3C; 0x66; 0x66; 0x66; 0x3E; 0x06; 0x06; 0x0C; 0x38; 0; 0; 0; 0; 0]);
  (46, [0; 0; 0; 0; 0; 0; 0; 0; 0; 0x18; 0x18; 0; 0; 0; 0; 0]);
  (44, [0; 0; 0; 0; 0; 0; 0; 0; 0; 0x18; 0x18; 0x30; 0; 0; 0; 0]);
  (58, [0; 0; 0; 0; 0x18; 0x18; 0; 0; 0; 0x18; 0x18; 0; 0; 0; 0; 0]);
  (59, [0; 0; 0; 0; 0x18; 0x18; 0; 0; 0; 0x18; 0x18; 0x30; 0; 0; 0; 0]);
  (33, [0; 0; 0x18; 0x18; 0x18; 0x18; 0x18; 0x18; 0; 0x18; 0x18; 0; 0; 0; 0; 0]);
  (63, [0; 0; 0x3C; 0x66; 0x06; 0x0C; 0x18; 0x18; 0; 0x18; 0x18; 0; 0; 0; 0; 0]);
  (45, [0; 0; 0; 0; 0; 0; 0x7E; 0; 0; 0; 0; 0; 0; 0; 0; 0]);
  (95, [0; 0; 0; 0; 0; 0; 0; 0; 0; 0; 0; 0xFF; 0; 0; 0; 0]);
  (47, [0; 0; 0; 0x06; 0x0C; 0x18; 0x30; 0x60; 0x60; 0; 0; 0; 0; 0; 0; 0]);
  (92, [0; 0; 0; 0x60; 0x30; 0x18; 0x0C; 0x06; 0x06; 0; 0; 0; 0; 0; 0; 0]);
  (40, [0; 0; 0x0C; 0x18; 0x30; 0x30; 0x30; 0x30; 0x30; 0x18; 0x0C; 0; 0; 0; 0; 0]);
  (41, [0; 0; 0x30; 0x18; 0x0C; 0x0C; 0x0C; 0x0C; 0x0C; 0x18; 0x30; 0; 0; 0; 0; 0]);
  (91, [0; 0; 0x3C; 0x30; 0x30; 0x30; 0x30; 0x30; 0x30; 0x30; 0x3C; 0; 0; 0; 0; 0]);
  (93, [0; 0; 0x3C; 0x0C; 0x0C; 0x0C; 0x0C; 0x0C; 0x0C; 0x0C; 0x3C; 0; 0; 0; 0; 0]);
  (62, [0; 0; 0; 0x60; 0x30; 0x18; 0x0C; 0x18; 0x30; 0x60; 0; 0; 0; 0; 0; 0]);
  (60, [0; 0; 0; 0x06; 0x0C; 0x18; 0x30; 0x18; 0x0C; 0x06; 0; 0; 0; 0; 0; 0]);
  (61, [0; 0; 0; 0; 0; 0x7E; 0; 0; 0x7E; 0; 0; 0; 0; 0; 0; 0]);
  (43, [0; 0; 0; 0; 0x18; 0x18; 0x7E; 0x18; 0x18; 0; 0; 0; 0; 0; 0; 0]);
  (42, [0; 0; 0; 0x66; 0x3C; 0x18; 0x3C; 0x66; 0; 0; 0; 0; 0; 0; 0; 0]);
  (35, [0; 0; 0x36; 0x36; 0x7F; 0x36; 0x36; 0x7F; 0x36; 0x36; 0; 0; 0; 0; 0; 0]);
  (36, [0; 0x18; 0x3E; 0x58; 0x58; 0x3C; 0x1A; 0x1A; 0x7C; 0x18; 0; 0; 0; 0; 0; 0]);
  (37, [0; 0; 0x62; 0x66; 0x0C; 0x18; 0x30; 0x66; 0x46; 0; 0; 0; 0; 0; 0; 0]);
  (38, [0; 0; 0x38; 0x6C; 0x6C; 0x38; 0x76; 0x66; 0x66; 0x66; 0x3B; 0; 0; 0; 0; 0]);
  (39, [0; 0; 0x18; 0x18; 0x30; 0; 0; 0; 0; 0; 0; 0; 0; 0; 0; 0]);
  (34, [0; 0; 0x66; 0x66; 0x66; 0; 0; 0; 0; 0; 0; 0; 0; 0; 0; 0]);
  (64, [0; 0; 0x3C; 0x66; 0x6E; 0x6A; 0x6E; 0x60; 0x3C; 0; 0; 0; 0; 0; 0; 0])].
Definition font_map : gmap Z (list Z) := list_to_map glyphs.
Definition font (c : Z) : list Z := default (repeat 0 16) (font_map !! c).

Definition gfx_init (fb width height pitch : Z) (g : statics) : statics :=
  Statics fb fb (backbuffer g) (backbuffer_bytes g) width height pitch.

Definition store32 (m : mem) (a v : Z) : res mem := store_list m a (le_bytes 4 v).
Definition packed (color : Z) : Z := Z.lor (Z.shiftl color 32) color.
Definition stride (g : statics) : Z := fb_pitch g / 4.

(** [n] pixels of a row: [row64[i] = packed], and the last one when [n] is odd. *)
Fixpoint fill_pairs (n : nat) (row color i : Z) (m : mem) : res mem :=
  match n with
  | O => Ret m
  | S n => m1 ← store64 m (row + 8 * i) (packed color); fill_pairs n row color (i + 1) m1
  end.
Definition fill_row (row n color : Z) (m : mem) : res mem :=
  m1 ← fill_pairs (Z.to_nat (n / 2)) row color 0 m;
  if negb (Z.land n 1 =? 0) then store32 m1 (row + 4 * (n - 1)) color else Ret m1.

Fixpoint clear_rows (n : nat) (y color : Z) (g : statics) (m : mem) : res mem :=
  match n with
  | O => Ret m
  | S n =>
      m1 ← fill_row (draw_ptr g + 4 * u64 (y * stride g)) (fb_width g) color m;
      clear_rows n (y + 1) color g m1
  end.
Definition gfx_clear (color : Z) (g : statics) (m : mem) : res mem :=
  if draw_ptr g =? 0 then Ret m else clear_rows (Z.to_nat (fb_height g)) 0 color g m.

(** The part of a rectangle on the screen: [x0], [y0], [rw], [rh]. *)
Definition clip_rect (x y w h : Z) (g : statics) : res (option (Z * Z * Z * Z)) :=
  if (w <=? 0) || (h <=? 0) then Ret None else
  x1 ← int_ok (x + w); y1 ← int_ok (y + h);
  let x0 := if x <? 0 then 0 else x in
  let y0 := if y <? 0 then 0 else y in
  let x1 := if i32 (fb_width g) <? x1 then i32 (fb_width g) else x1 in
  let y1 := if i32 (fb_height g) <? y1 then i32 (fb_height g) else y1 in
  rw ← int_ok (x1 - x0); rh ← int_ok (y1 - y0);
  Ret (if (rw <=? 0) || (rh <=? 0) then None else Some (x0, y0, rw, rh)).

Fixpoint rect_rows (n : nat) (target x0 y rw color : Z) (g : statics) (m : mem) : res mem :=
  match n with
  | O => Ret m
  | S n =>
      m1 ← fill_row (target + 4 * (u64 (y * stride g) + x0)) rw color m;
      rect_rows n target x0 (y + 1) rw color g m1
  end.
Definition draw_rect_to (target x y w h color : Z) (g : statics) (m : mem) : res mem :=
  if target =? 0 then Ret m else
  r ← clip_rect x y w h g;
  match r with
  | None => Ret m
  | Some (x0, y0, rw, rh) => rect_rows (Z.to_nat rh) target x0 y0 rw color g m
  end.
Definition gfx_draw_rect (x y w h color : Z) (g : statics) : mem -> res mem :=
  draw_rect_to (draw_ptr g) x y w h color g.
Definition gfx_draw_rect_front (x y w h color : Z) (g : statics) : mem -> res mem :=
  draw_rect_to (fb_ptr g) x y w h color g.

(** A window to draw in: [clip_x], [clip_y], [clip_w], [clip_h]. *)
Record window := Window { clip_x : Z; clip_y : Z; clip_w : Z; clip_h : Z }.
Definition screen (g : statics) : window := Window 0 0 (i32 (fb_width g)) (i32 (fb_height g)).

(** The body of the loop for a bit of the glyph that is set. *)
Definition glyph_pixel (px py color : Z) (k : window) (g : statics) (m : mem) : res mem :=
  if (px <? clip_x k) || (py <? clip_y k) then Ret m else
  right ← int_ok (clip_x k + clip_w k);
  if right <=? px then Ret m else
  bottom ← int_ok (clip_y k + clip_h k);
  if bottom <=? py then Ret m else
  if (0 <=? px) && (0 <=? py) && (px <? i32 (fb_width g)) && (py <? i32 (fb_height g)) then
    store32 m (draw_ptr g + 4 * u64 (py * stride g + px)) color
  else Ret m.
Fixpoint glyph_cols (n : nat) (row dx x y color : Z) (k : window) (g : statics) (m : mem) : res mem :=
  match n with
  | O => Ret m
  | S n =>
      m1 ← (if negb (Z.land row (Z.shiftl 1 (7 - dx)) =? 0) then
              px ← int_ok (x + dx); py ← int_ok y; glyph_pixel px py color k g m
            else Ret m);
      glyph_cols n row (dx + 1) x y color k g m1
  end.
Fixpoint glyph_rows (rows : list Z) (x y color : Z) (k : window) (g : statics) (m : mem) : res mem :=
  match rows with
  | [] => Ret m
  | row :: rows =>
      m1 ← glyph_cols (Z.to_nat FONT_WIDTH) row 0 x y color k g m;
      glyph_rows rows x (y + 1) color k g m1
  end.
Definition gfx_draw_char_clipped (c x y color : Z) (k : window) (g : statics) (m : mem) : res mem :=
  if 128 <=? u8 c then Ret m else glyph_rows (font (u8 c)) x y color k g m.
Definition gfx_draw_char (c x y color : Z) (g : statics) (m : mem) : res mem :=
  gfx_draw_char_clipped c x y color (screen g) g m.

Fixpoint text_loop (fuel : nat) (s cx x y color : Z) (k : window) (g : statics) (m : mem) : res mem :=
  c ← load m s;
  if c =? 0 then Ret m else
  match fuel with
  | O => Spin
  | S fuel =>
      if c =? 10 then y ← int_ok (y + FONT_HEIGHT); text_loop fuel (s + 1) x x y color k g m
      else
        m1 ← gfx_draw_char_clipped c cx y color k g m;
        cx ← int_ok (cx + FONT_WIDTH);
        text_loop fuel (s + 1) cx x y color k g m1
  end.
Definition gfx_draw_text_clipped (s x y color : Z) (k : window) (g : statics) (m : mem) : res mem :=
  text_loop (str_fuel m) s x x y color k g m.
Definition gfx_draw_text (s x y color : Z) (g : statics) (m : mem) : res mem :=
  gfx_draw_text_clipped s x y color (screen g) g m.

Definition gfx_width (g : statics) : Z := fb_width g.
Definition gfx_height (g : statics) : Z := fb_height g.
Definition gfx_pitch (g : statics) : Z := fb_pitch g.

Definition gfx_present (g : statics) (m : mem) : res mem :=
  if (backbuffer g =? 0) || (fb_ptr g =? 0) || (backbuffer_bytes g =? 0) then Ret m else
  if draw_ptr g =? fb_ptr g then Ret m else
  memcpy (fb_ptr g) (backbuffer g) (backbuffer_bytes g) m.

Fixpoint present_rows (n : nat) (x0 y row_bytes : Z) (g : statics) (m : mem) : res mem :=
  match n with
  | O => Ret m
  | S n =>
      let off := 4 * (u64 (y * stride g) + x0) in
      m1 ← memcpy (fb_ptr g + off) (draw_ptr g + off) row_bytes m;
      present_rows n x0 (y + 1) row_bytes g m1
  end.
Definition gfx_present_rect (x y w h : Z) (g : statics) (m : mem) : res mem :=
  if (draw_ptr g =? 0) || (fb_ptr g =? 0) || (draw_ptr g =? fb_ptr g) then Ret m else
  r ← clip_rect x y w h g;
  match r with
  | None => Ret m
  | Some (x0, y0, rw, rh) =>
      if (x0 =? 0) && (rw =? i32 (fb_width g)) then
        let off := 4 * u64 (y0 * stride g) in
        memcpy (fb_ptr g + off) (draw_ptr g + off) (u64 (rh * fb_pitch g)) m
      else present_rows (Z.to_nat rh) x0 y0 (u64 (rw * 4)) g m
  end.

Definition gfx_backbuffer_enabled (g : statics) : bool :=
  negb (draw_ptr g =? 0) && negb (fb_ptr g =? 0) && negb (draw_ptr g =? fb_ptr g).

Section Buffer.
Context {A : Type} `{!Allocator A}.

Definition set_back (p bytes draw : Z) (g : statics) : statics :=
  Statics (fb_ptr g) draw p bytes (fb_width g) (fb_height g) (fb_pitch g).
(** [free(backbuffer); backbuffer = 0;] when there is one. *)
Definition free_back (g : statics) (a : A) : res (statics * A) :=
  if backbuffer g =? 0 then Ret (g, a) else
  a1 ← a_free (Some (backbuffer g)) a; Ret (set_back 0 (backbuffer_bytes g) (draw_ptr g) g, a1).
Definition gfx_enable_backbuffer (enabled : bool) (g : statics) (a : A) : res (statics * A) :=
  if negb enabled then
    '(g, a) ← free_back g a; Ret (set_back (backbuffer g) 0 (fb_ptr g) g, a)
  else
    let size := u64 (fb_pitch g * fb_height g) in
    if negb (backbuffer g =? 0) && (size =? backbuffer_bytes g) then
      Ret (set_back (backbuffer g) (backbuffer_bytes g) (backbuffer g) g, a)
    else
      '(g, a) ← free_back g a;
      '(p, a) ← a_malloc size a;
      match p with
      | Some p => Ret (set_back p size p g, a)
      | None => Ret (set_back 0 0 (fb_ptr g) g, a)
      end.
End Buffer.
