(* ===== verification/GfxProps.v ===== *)
(** * The framebuffer: exactly the pixels asked for

    Drawing is compared with pictures: functions that give a pixel its colour, or leave it. *)
From S2P Require Import Prelude Interfaces Mem Gfx.

(** ** Pictures *)
Definition picture : Type := Z -> Z -> option Z.
Definition blank : picture := fun _ _ => None.
(** [q] drawn over [p]. *)
Definition over (p q : picture) : picture := fun x y => match q x y with Some c => Some c | None => p x y end.
Definition rect (x y w h c : Z) : picture := fun px py =>
  if decide (x <= px < x + w /\ y <= py < y + h) then Some c else None.
(** The part of [p] in a window. *)
Definition clip (k : window) (p : picture) : picture := fun px py =>
  if decide (clip_x k <= px < clip_x k + clip_w k /\ clip_y k <= py < clip_y k + clip_h k) then p px py else None.

Definition bit (row i : Z) : bool := negb (Z.land row (Z.shiftl 1 (7 - i)) =? 0).
(** The rows of a glyph with its top left corner at [x], [y]. *)
Definition glyph (rows : list Z) (x y c : Z) : picture := fun px py =>
  if decide (x <= px < x + 8 /\ y <= py < y + Z.of_nat (length rows)) then
    if bit (byte_at rows (py - y)) (px - x) then Some c else None
  else None.
Definition char (ch x y c : Z) : picture := if 128 <=? u8 ch then blank else glyph (font (u8 ch)) x y c.
Fixpoint text (str : list Z) (cx x y c : Z) : picture :=
  match str with
  | [] => blank
  | ch :: str => if ch =? 10 then text str x x (y + 16) c else over (char ch cx y c) (text str (cx + 8) x y c)
  end.

(** Memory [m'] is [m] with a picture drawn into the buffer at [base]. *)
Definition px_x (base stride a : Z) : Z := (a - base) / 4 mod stride.
Definition px_y (base stride a : Z) : Z := (a - base) / 4 / stride.
Definition color_byte (c i : Z) : Z := c / 256 ^ i mod 256.
Definition painted (base stride : Z) (p : picture) (m m' : mem) : Prop :=
  forall a, m' !! a = match p (px_x base stride a) (px_y base stride a) with
                      | Some c => Some (color_byte c ((a - base) mod 4))
                      | None => m !! a
                      end.

Lemma painted_blank base s m : painted base s blank m m.
Proof. done. Qed.
Lemma painted_ext base s p q m m' : (forall x y, p x y = q x y) -> painted base s p m m' -> painted base s q m m'.
Proof. intros E H a. by rewrite H, E. Qed.
Lemma painted_over base s p q m m1 m' : painted base s p m m1 -> painted base s q m1 m' -> painted base s (over p q) m m'.
Proof. intros H1 H2 a. rewrite H2. unfold over. case_match; [done |]. by rewrite H1. Qed.
Lemma painted_mapped base s p m m' b n : painted base s p m m' -> mapped m b n -> mapped m' b n.
Proof. intros H Hm a Ha. rewrite H. case_match; [by eexists | by apply Hm]. Qed.

Lemma over_assoc p q r x y : over p (over q r) x y = over (over p q) r x y.
Proof. unfold over. by repeat case_match. Qed.

(** ** Rows of pixels *)
Definition filled (row n c : Z) (m m' : mem) : Prop :=
  forall a, m' !! a = if decide (row <= a < row + 4 * n) then Some (color_byte c ((a - row) mod 4)) else m !! a.

Lemma filled_0 row c m : filled row 0 c m m.
Proof. intros a. by rewrite decide_False by lia. Qed.
Lemma filled_mapped row n c m m' b k : filled row n c m m' -> mapped m b k -> mapped m' b k.
Proof. intros H Hm a Ha. rewrite H. case_decide; [by eexists | by apply Hm]. Qed.
Lemma filled_app row i n c m m1 m' : 0 <= i -> 0 <= n ->
  filled row i c m m1 -> filled (row + 4 * i) n c m1 m' -> filled row (i + n) c m m'.
Proof.
  intros Hi Hn H1 H2 a. rewrite H2, H1. repeat case_decide; try lia; try done. do 2 f_equal. lia.
Qed.

Lemma le_bytes_lookup n v i : (i < n)%nat -> le_bytes n v !! i = Some (color_byte v (Z.of_nat i)).
Proof.
  unfold color_byte. revert v i. induction n as [|n IH]; intros v i Hi; [lia |].
  destruct i as [|i]; cbn [le_bytes lookup list_lookup].
  - by rewrite Z.div_1_r.
  - change (le_bytes n (v / 256) !! i = Some (v / 256 ^ Z.of_nat (S i) mod 256)).
    rewrite IH by lia. rewrite Nat2Z.inj_succ, Z.pow_succ_r, Z.div_div by lia. done.
Qed.

Lemma packed_byte c i : is_u32 c -> 0 <= i < 8 -> color_byte (packed c) i = color_byte c (i mod 4).
Proof.
  intros Hc Hi. unfold packed, is_u32, color_byte in *.
  rewrite Z.lor_comm, lor_shiftl by lia.
  destruct (decide (i < 4)).
  - replace (i mod 4) with i by lia. assert (i = 0 \/ i = 1 \/ i = 2 \/ i = 3) as Hk by lia.
    decompose [or] Hk; subst; lia.
  - replace (i mod 4) with (i - 4) by lia. replace i with (4 + (i - 4)) at 1 by lia.
    rewrite Z.pow_add_r, <- Z.div_div by lia. change (256 ^ 4) with (2 ^ 32). do 2 f_equal. lia.
Qed.

(** A store of one or two pixels. *)
Lemma store_pixel row c m : mapped m row 4 -> exists m', store32 m row c = Ret m' /\ filled row 1 c m m'.
Proof.
  intros Hm. destruct (store_list_ok (le_bytes 4 c) m row) as (m' & E & H); [by rewrite length_le_bytes |].
  rewrite length_le_bytes in H. exists m'. split; [done |]. intros a. rewrite H.
  repeat case_decide; try lia; [| done]. rewrite le_bytes_lookup by lia. do 2 f_equal. lia.
Qed.
Lemma store_pair row c m : is_u32 c -> mapped m row 8 ->
  exists m', store64 m row (packed c) = Ret m' /\ filled row 2 c m m'.
Proof.
  intros Hc Hm. destruct (store_list_ok (le_bytes 8 (packed c)) m row) as (m' & E & H); [by rewrite length_le_bytes |].
  rewrite length_le_bytes in H. exists m'. split; [done |]. intros a. rewrite H.
  repeat case_decide; try lia; [| done]. rewrite le_bytes_lookup, packed_byte by (done || lia). do 2 f_equal. lia.
Qed.

Lemma fill_pairs_ok n c row : is_u32 c -> forall i m m0, 0 <= i -> filled row (2 * i) c m0 m ->
  mapped m0 row (4 * (2 * (i + Z.of_nat n))) ->
  exists m', fill_pairs n row c i m = Ret m' /\ filled row (2 * (i + Z.of_nat n)) c m0 m'.
Proof.
  intros Hc. induction n as [|n IH]; intros i m m0 Hi Hf Hm; cbn [fill_pairs].
  - exists m. split; [done |]. by replace (i + Z.of_nat 0) with i by lia.
  - destruct (store_pair (row + 8 * i) c m Hc) as (m1 & E & H1).
    { eapply filled_mapped; [done |]. eapply mapped_sub; [done | lia | lia]. }
    rewrite (bind_ret _ _ _ E).
    destruct (IH (i + 1) m1 m0) as (m' & E' & H'); [lia | | eapply mapped_sub; [done | lia | lia] |].
    + replace (2 * (i + 1)) with (2 * i + 2) by lia. eapply filled_app; [lia | lia | done |].
      by replace (row + 4 * (2 * i)) with (row + 8 * i) by lia.
    + exists m'. split; [done |]. by replace (i + Z.of_nat (S n)) with (i + 1 + Z.of_nat n) by lia.
Qed.

Lemma fill_row_ok row n c m : is_u32 c -> 0 <= n -> mapped m row (4 * n) ->
  exists m', fill_row row n c m = Ret m' /\ filled row n c m m'.
Proof.
  intros Hc Hn Hm. unfold fill_row. replace (Z.land n 1) with (n mod 2) by (symmetry; apply (Z.land_ones n 1); lia).
  destruct (fill_pairs_ok (Z.to_nat (n / 2)) c row Hc 0 m m) as (m1 & E & H1);
    [lia | apply filled_0 | eapply mapped_sub; [done | lia | lia] |].
  rewrite (bind_ret _ _ _ E). rewrite Z2Nat.id, Z.add_0_l in H1 by lia.
  destruct (Z.eqb_spec (n mod 2) 0) as [He|He]; cbn [negb].
  - exists m1. split; [done |]. by replace n with (2 * (n / 2)) at 1 by lia.
  - destruct (store_pixel (row + 4 * (n - 1)) c m1) as (m' & E' & H').
    { eapply filled_mapped; [done |]. eapply mapped_sub; [done | lia | lia]. }
    exists m'. split; [done |]. replace n with (2 * (n / 2) + 1) by lia. eapply filled_app; [lia | lia | done |].
    by replace (row + 4 * (2 * (n / 2))) with (row + 4 * (n - 1)) by lia.
Qed.

(** The bytes of pixel [x], [y]. *)
Lemma px_row base s y x n a : 0 <= x -> x + n <= s ->
  base + 4 * (y * s + x) <= a < base + 4 * (y * s + x) + 4 * n <->
  px_y base s a = y /\ x <= px_x base s a < x + n.
Proof.
  intros Hx Hn. unfold px_x, px_y. set (q := (a - base) / 4).
  assert (base + 4 * (y * s + x) <= a < base + 4 * (y * s + x) + 4 * n <-> y * s + x <= q < y * s + x + n) as ->
    by (unfold q; set (r := y * s); lia).
  destruct (decide (s <= 0)) as [Hs|Hs]; [split; [lia |]; intros (? & ?); pose proof (Z.mod_pos_bound q s); destruct (decide (s = 0)) as [->|]; lia |].
  pose proof (Z.div_mod q s ltac:(lia)). pose proof (Z.mod_pos_bound q s ltac:(lia)). split.
  - intros Hq. assert (q / s = y) as Hy by nia. split; [done |]. rewrite Hy in *. nia.
  - intros [<- Hq]. nia.
Qed.

Lemma filled_painted base s y x n c m m' : 0 <= x -> x + n <= s ->
  filled (base + 4 * (y * s + x)) n c m m' -> painted base s (rect x y n 1 c) m m'.
Proof.
  intros Hx Hn H a. rewrite H. unfold rect. pose proof (px_row base s y x n a Hx Hn) as Hp.
  repeat case_decide; try done; [| lia | lia]. do 2 f_equal. set (r := y * s + x). lia.
Qed.

(** ** The buffer that is drawn to *)
Record surface (g : statics) (target : Z) (m : mem) : Prop := Surface {
  s_width : 0 <= fb_width g < 2 ^ 31;
  s_height : 0 <= fb_height g < 2 ^ 31;
  s_stride : fb_width g <= stride g;
  s_size : fb_pitch g * fb_height g < 2 ^ 64;
  s_target : target <> 0;
  s_mapped : mapped m target (fb_pitch g * fb_height g);
}.

Lemma clip_over k p q x y : clip k (over p q) x y = over (clip k p) (clip k q) x y.
Proof. unfold clip, over. by case_decide. Qed.

Section Surface.
Context (g : statics) (target : Z).
#[local] Abbreviation wd := (fb_width g).
#[local] Abbreviation ht := (fb_height g).
#[local] Abbreviation s := (stride g).
#[local] Abbreviation on_screen := (clip (screen g)).

Lemma painted_surface p m m' : painted target s p m m' -> surface g target m -> surface g target m'.
Proof. intros Hp []. split; try done. by eapply painted_mapped. Qed.

Lemma stride_bounds m : surface g target m -> 0 <= s /\ 4 * s <= fb_pitch g.
Proof. intros S. pose proof (s_stride _ _ _ S). pose proof (s_width _ _ _ S). unfold stride in *. lia. Qed.

Lemma row_end m y : surface g target m -> 0 <= y < ht -> 0 <= y * s /\ 4 * (y * s + s) <= fb_pitch g * ht.
Proof. intros S Hy. destruct (stride_bounds m S). nia. Qed.
Lemma row_u64 m y : surface g target m -> 0 <= y < ht -> u64 (y * s) = y * s.
Proof. intros S Hy. apply u64_id. pose proof (row_end m y S Hy). pose proof (stride_bounds m S). pose proof (s_size _ _ _ S). unfold is_u64. lia. Qed.
Lemma row_mapped m y x n : surface g target m -> 0 <= y < ht -> 0 <= x -> x + n <= s ->
  mapped m (target + 4 * (y * s + x)) (4 * n).
Proof.
  intros S Hy Hx Hn. pose proof (row_end m y S Hy). eapply mapped_sub; [apply (s_mapped _ _ _ S) | lia | lia].
Qed.

Lemma screen_eq m : surface g target m -> screen g = Window 0 0 wd ht.
Proof. intros S. pose proof (s_width _ _ _ S). pose proof (s_height _ _ _ S). unfold screen. by rewrite !i32_id by (unfold is_int; lia). Qed.

(** What is drawn on the screen stays in the buffer. *)
Lemma painted_frame p m m' a : surface g target m -> painted target s (on_screen p) m m' ->
  ~ (target <= a < target + fb_pitch g * ht) -> m' !! a = m !! a.
Proof.
  intros S Hp Ha. rewrite Hp. unfold clip. rewrite (screen_eq m) by done. cbn. case_decide as Hs; [| done]. exfalso. apply Ha.
  pose proof (row_end m (px_y target s a) S ltac:(lia)). pose proof (s_stride _ _ _ S).
  pose proof (proj2 (px_row target s (px_y target s a) (px_x target s a) 1 a ltac:(lia) ltac:(lia)) ltac:(lia)). lia.
Qed.

(** ** Rectangles *)
Definition rect_fits (x y w h : Z) : Prop :=
  is_int x /\ is_int y /\ is_int w /\ is_int h /\ (0 < w -> 0 < h -> is_int (x + w) /\ is_int (y + h)).

Lemma clip_rect_ok m x y w h : surface g target m -> rect_fits x y w h ->
  exists r, clip_rect x y w h g = Ret r /\
    match r with
    | None => forall c px py, on_screen (rect x y w h c) px py = None
    | Some (x0, y0, rw, rh) =>
        0 <= x0 /\ 0 < rw /\ x0 + rw <= wd /\ 0 <= y0 /\ 0 < rh /\ y0 + rh <= ht /\
        forall c px py, on_screen (rect x y w h c) px py = rect x0 y0 rw rh c px py
    end.
Proof.
  intros S (Hx & Hy & Hw & Hh & Hs). pose proof (s_width _ _ _ S). pose proof (s_height _ _ _ S).
  rewrite (screen_eq m) by done. unfold clip_rect. rewrite !i32_id by (unfold is_int; lia).
  destruct (Z.leb_spec w 0); cbn [orb].
  { exists None. split; [done |]. intros. unfold clip, rect. repeat case_decide; cbn in *; (done || lia). }
  destruct (Z.leb_spec h 0).
  { exists None. split; [done |]. intros. unfold clip, rect. repeat case_decide; cbn in *; (done || lia). }
  destruct Hs as [Hx1 Hy1]; [done | done |]. unfold is_int in *.
  do 2 int_step. cbv zeta.
  repeat match goal with |- context [if ?b then _ else _] => lazymatch b with (_ <? _) => destruct b eqn:? end end;
    do 2 int_step;
    (eexists; split; [reflexivity |]);
    repeat match goal with |- context [?a <=? ?b] => destruct (Z.leb_spec a b) end; cbn [orb];
    try (intros; unfold clip, rect; repeat case_decide; cbn in *; (done || lia));
    (do 6 (split; [lia |]); intros; unfold clip, rect; repeat case_decide; cbn in *; (done || lia)).
Qed.

Lemma rect_rows_ok n : forall m x y rw c, surface g target m -> is_u32 c ->
  0 <= x -> 0 <= rw -> x + rw <= wd -> 0 <= y -> y + Z.of_nat n <= ht ->
  exists m', rect_rows n target x y rw c g m = Ret m' /\ painted target s (rect x y rw (Z.of_nat n) c) m m'.
Proof.
  induction n as [|n IH]; intros m x y rw c S Hc Hx Hrw Hw Hy Hh; cbn [rect_rows].
  - exists m. split; [done |]. eapply painted_ext; [| apply painted_blank]. intros. unfold rect. by rewrite decide_False by lia.
  - rewrite (row_u64 m) by (done || lia). pose proof (s_stride _ _ _ S).
    destruct (fill_row_ok (target + 4 * (y * s + x)) rw c m Hc Hrw) as (m1 & E & F);
      [apply row_mapped; (done || lia) |]. rewrite (bind_ret _ _ _ E).
    apply filled_painted in F; [| lia | lia].
    destruct (IH m1 x (y + 1) rw c) as (m' & E' & P); try done; try lia; [by eapply painted_surface |].
    exists m'. split; [done |]. eapply painted_ext; [| by eapply painted_over].
    intros px py. unfold over, rect. repeat case_decide; (done || lia).
Qed.

Lemma draw_rect_ok m x y w h c : surface g target m -> is_u32 c -> rect_fits x y w h ->
  exists m', draw_rect_to target x y w h c g m = Ret m' /\ painted target s (on_screen (rect x y w h c)) m m'.
Proof.
  intros S Hc Hf. unfold draw_rect_to. rewrite (proj2 (Z.eqb_neq _ _) (s_target _ _ _ S)).
  destruct (clip_rect_ok m x y w h S Hf) as (r & E & Hr). rewrite (bind_ret _ _ _ E).
  destruct r as [[[[x0 y0] rw] rh]|].
  - destruct Hr as (? & ? & ? & ? & ? & ? & Hr).
    destruct (rect_rows_ok (Z.to_nat rh) m x0 y0 rw c) as (m' & E' & P); try done; try lia.
    exists m'. split; [done |]. eapply painted_ext; [| exact P]. intros. by rewrite Hr, Z2Nat.id by lia.
  - exists m. split; [done |]. eapply painted_ext; [| apply painted_blank]. intros. by rewrite Hr.
Qed.

Lemma clear_rows_ok n : forall m y c, draw_ptr g = target -> surface g target m -> is_u32 c -> 0 <= y -> y + Z.of_nat n <= ht ->
  exists m', clear_rows n y c g m = Ret m' /\ painted target s (rect 0 y wd (Z.of_nat n) c) m m'.
Proof.
  induction n as [|n IH]; intros m y c Ht S Hc Hy Hh; cbn [clear_rows].
  - exists m. split; [done |]. eapply painted_ext; [| apply painted_blank]. intros. unfold rect. by rewrite decide_False by lia.
  - rewrite (row_u64 m), Ht by (done || lia). pose proof (s_stride _ _ _ S). pose proof (s_width _ _ _ S).
    replace (y * s) with (y * s + 0) by lia.
    destruct (fill_row_ok (target + 4 * (y * s + 0)) wd c m Hc) as (m1 & E & F);
      [lia | apply row_mapped; (done || lia) |]. rewrite (bind_ret _ _ _ E).
    apply filled_painted in F; [| lia | lia].
    destruct (IH m1 (y + 1) c) as (m' & E' & P); try done; try lia; [by eapply painted_surface |].
    exists m'. split; [done |]. eapply painted_ext; [| by eapply painted_over].
    intros px py. unfold over, rect. repeat case_decide; (done || lia).
Qed.

(** ** Characters *)
Context (Hdraw : draw_ptr g = target).

Definition window_fits (k : window) : Prop := is_int (clip_x k + clip_w k) /\ is_int (clip_y k + clip_h k).
Definition char_fits (x y : Z) : Prop := - 2 ^ 31 <= x <= 2 ^ 31 - 8 /\ - 2 ^ 31 <= y <= 2 ^ 31 - 16.

Lemma glyph_pixel_ok m k px py c : surface g target m -> window_fits k ->
  exists m', glyph_pixel px py c k g m = Ret m' /\ painted target s (on_screen (clip k (rect px py 1 1 c))) m m'.
Proof using Hdraw.
  intros S [Hkx Hky]. pose proof (s_width _ _ _ S). pose proof (s_height _ _ _ S). unfold glyph_pixel.
  assert (~ (0 <= px < wd /\ 0 <= py < ht /\ clip_x k <= px < clip_x k + clip_w k /\ clip_y k <= py < clip_y k + clip_h k) ->
    exists m', Ret m = Ret m' /\ painted target s (on_screen (clip k (rect px py 1 1 c))) m m') as skip.
  { intros Hout. exists m. split; [done |]. eapply painted_ext; [| apply painted_blank]. intros x y.
    rewrite (screen_eq m) by done. unfold clip, rect. cbn. repeat case_decide; (done || lia). }
  destruct ((px <? clip_x k) || (py <? clip_y k)) eqn:E1; [apply skip; lia |].
  int_step. destruct (clip_x k + clip_w k <=? px) eqn:E2; [apply skip; lia |].
  int_step. destruct (clip_y k + clip_h k <=? py) eqn:E3; [apply skip; lia |].
  rewrite !i32_id by (unfold is_int; lia).
  destruct ((0 <=? px) && (0 <=? py) && (px <? wd) && (py <? ht)) eqn:E4; [| apply skip; lia].
  pose proof (row_end m py S ltac:(lia)). pose proof (s_stride _ _ _ S). pose proof (s_size _ _ _ S). pose proof (stride_bounds m S).
  rewrite Hdraw. rewrite u64_id by (unfold is_u64; lia).
  destruct (store_pixel (target + 4 * (py * s + px)) c m) as (m' & E & F); [apply (row_mapped m py px 1); (done || lia) |].
  exists m'. split; [done |]. apply filled_painted in F; [| lia | lia]. eapply painted_ext; [| exact F].
  intros x y. rewrite (screen_eq m) by done. unfold clip, rect. cbn. repeat case_decide; (done || lia).
Qed.

(** What a row of a glyph sets from column [dx] on. *)
Definition glyph_line (row dx x y c : Z) : picture := fun px py =>
  if decide (x + dx <= px < x + 8 /\ py = y) then if bit row (px - x) then Some c else None else None.

Lemma on_screen_over k p q x y :
  on_screen (clip k (over p q)) x y = over (on_screen (clip k p)) (on_screen (clip k q)) x y.
Proof. rewrite <- clip_over. unfold clip at 1 3. case_decide; [apply clip_over | done]. Qed.
Lemma on_screen_ext k p q : (forall x y, p x y = q x y) -> forall x y, on_screen (clip k p) x y = on_screen (clip k q) x y.
Proof. intros E x y. unfold clip. by rewrite E. Qed.

Lemma painted_seq k p q r m m1 m' : (forall x y, over p q x y = r x y) ->
  painted target s (on_screen (clip k p)) m m1 -> painted target s (on_screen (clip k q)) m1 m' ->
  painted target s (on_screen (clip k r)) m m'.
Proof.
  intros E H1 H2. eapply painted_ext; [| exact (painted_over _ _ _ _ _ _ _ H1 H2)].
  intros. rewrite <- on_screen_over. by apply on_screen_ext.
Qed.
Lemma painted_none k p m : (forall x y, p x y = None) -> painted target s (on_screen (clip k p)) m m.
Proof. intros E. eapply painted_ext; [| apply painted_blank]. intros. unfold clip. rewrite E. by repeat case_decide. Qed.

Lemma glyph_cols_ok n : forall m row dx x y c k, surface g target m -> window_fits k -> is_int y -> char_fits x 0 ->
  0 <= dx -> dx + Z.of_nat n = 8 ->
  exists m', glyph_cols n row dx x y c k g m = Ret m' /\ painted target s (on_screen (clip k (glyph_line row dx x y c))) m m'.
Proof using Hdraw.
  induction n as [|n IH]; intros m row dx x y c k S Hk Hy Hf Hd Hn; cbn [glyph_cols].
  - exists m. split; [done |]. apply painted_none. intros. unfold glyph_line. by rewrite decide_False by lia.
  - assert (exists m1, (if negb (Z.land row (Z.shiftl 1 (7 - dx)) =? 0) then
        px ← int_ok (x + dx); py ← int_ok y; glyph_pixel px py c k g m else Ret m) = Ret m1 /\
      painted target s (on_screen (clip k (if bit row dx then rect (x + dx) y 1 1 c else blank))) m m1) as (m1 & E & P1).
    { unfold bit. destruct (negb _).
      - unfold char_fits in Hf. do 2 int_step. by apply glyph_pixel_ok.
      - exists m. split; [done |]. by apply painted_none. }
    rewrite (bind_ret _ _ _ E).
    destruct (IH m1 row (dx + 1) x y c k) as (m' & E' & P); try done; try lia; [by eapply painted_surface |].
    exists m'. split; [done |]. eapply painted_seq; [| exact P1 | exact P].
    intros px py. unfold over, glyph_line. destruct (decide (px = x + dx /\ py = y)) as [[-> ->]|Hne].
    + rewrite decide_False, decide_True by lia. replace (x + dx - x) with dx by lia.
      destruct (bit row dx); [| done]. unfold rect. by rewrite decide_True by lia.
    + assert ((if bit row dx then rect (x + dx) y 1 1 c else blank) px py = None) as ->
        by (destruct (bit row dx); [unfold rect; by rewrite decide_False by lia | done]).
      destruct (bit row (px - x)); repeat case_decide; (done || lia).
Qed.

Lemma glyph_rows_ok rows : forall m x y c k, surface g target m -> window_fits k ->
  char_fits x 0 -> - 2 ^ 31 <= y -> y + Z.of_nat (length rows) <= 2 ^ 31 ->
  exists m', glyph_rows rows x y c k g m = Ret m' /\ painted target s (on_screen (clip k (glyph rows x y c))) m m'.
Proof using Hdraw.
  induction rows as [|row rows IH]; intros m x y c k S Hk Hx Hy1 Hy2; cbn [glyph_rows].
  - exists m. split; [done |]. apply painted_none. intros. unfold glyph. cbn [length]. by rewrite decide_False by lia.
  - cbn [length] in Hy2.
    destruct (glyph_cols_ok (Z.to_nat FONT_WIDTH) m row 0 x y c k) as (m1 & E & P1); try done; [unfold is_int; lia |].
    rewrite (bind_ret _ _ _ E).
    destruct (IH m1 x (y + 1) c k) as (m' & E' & P); try done; try lia; [by eapply painted_surface |].
    exists m'. split; [done |]. eapply painted_seq; [| exact P1 | exact P].
    intros px py. unfold over, glyph, glyph_line. cbn [length].
    destruct (decide (py = y)) as [->|Hne].
    + rewrite (decide_False (P := x <= px < x + 8 /\ y + 1 <= y < _)) by lia. rewrite Z.sub_diag. cbn [byte_at]. unfold byte_at. cbn.
      repeat case_decide; (done || lia).
    + rewrite (decide_False (P := _ /\ py = y)) by lia.
      destruct (decide (x <= px < x + 8 /\ y + 1 <= py < y + 1 + Z.of_nat (length rows))) as [Hin|Hout].
      * rewrite (decide_True (P := x <= px < x + 8 /\ y <= py < _)) by lia.
        replace (byte_at (row :: rows) (py - y)) with (byte_at rows (py - (y + 1))); [by case_match |].
        unfold byte_at. replace (Z.to_nat (py - y)) with (Datatypes.S (Z.to_nat (py - (y + 1)))) by lia. done.
      * by rewrite decide_False by lia.
Qed.

Lemma font_length c : length (font c) = 16%nat.
Proof.
  unfold font. destruct (font_map !! c) as [rows|] eqn:E; [| done]. cbn.
  assert (map_Forall (fun _ (r : list Z) => length r = 16%nat) font_map) as Hall by (apply (bool_decide_unpack _); by vm_compute).
  exact (Hall c rows E).
Qed.

Lemma draw_char_ok m ch x y c k : surface g target m -> window_fits k -> char_fits x y ->
  exists m', gfx_draw_char_clipped ch x y c k g m = Ret m' /\ painted target s (on_screen (clip k (char ch x y c))) m m'.
Proof using Hdraw.
  intros S Hk Hf. unfold gfx_draw_char_clipped, char. destruct (128 <=? u8 ch).
  - exists m. split; [done |]. by apply painted_none.
  - unfold char_fits in Hf. apply glyph_rows_ok; try done; [unfold char_fits; lia | lia | rewrite font_length; lia].
Qed.

(** ** Text *)
(** No position of the text leaves the range of [int]. *)
Fixpoint text_fits (str : list Z) (cx x y : Z) : Prop :=
  match str with
  | [] => True
  | ch :: str => if ch =? 10 then is_int (y + 16) /\ text_fits str x x (y + 16)
                 else char_fits cx y /\ is_int (cx + 8) /\ text_fits str (cx + 8) x y
  end.
Definition apart (a n : Z) : Prop := a + n <= target \/ target + fb_pitch g * ht <= a.

Lemma cstr_painted p str : forall m m' a, surface g target m -> painted target s (on_screen p) m m' ->
  apart a (Z.of_nat (length str) + 1) -> cstr m a str -> cstr m' a str.
Proof.
  induction str as [|ch str IH]; intros m m' a S P Ha Hc; cbn [cstr length] in *.
  - rewrite (painted_frame p m m' a); (done || unfold apart in *; lia).
  - destruct Hc as (H1 & H2 & H3). split; [rewrite (painted_frame p m m' a); (done || unfold apart in *; lia) |].
    split; [done |]. apply (IH m); try done. unfold apart in *. lia.
Qed.

Lemma text_loop_ok str : forall fuel m p cx x y c k, surface g target m -> window_fits k ->
  cstr m p str -> apart p (Z.of_nat (length str) + 1) -> text_fits str cx x y -> (length str <= fuel)%nat ->
  exists m', text_loop fuel p cx x y c k g m = Ret m' /\ painted target s (on_screen (clip k (text str cx x y c))) m m'.
Proof using Hdraw.
  induction str as [|ch str IH]; intros fuel m p cx x y c k S Hk Hc Hp Hf Hl; cbn [cstr length text_fits] in *.
  - exists m. split; [| by apply painted_none]. destruct fuel; cbn [text_loop]; unfold load; by rewrite Hc.
  - destruct Hc as (H1 & H2 & H3). destruct fuel as [|fuel]; [lia |]. cbn [text_loop text]. unfold load at 1. rewrite H1. cbn [of_option mbind res_bind].
    rewrite (proj2 (Z.eqb_neq _ _) H2). destruct (Z.eqb_spec ch 10) as [->|Hne].
    + destruct Hf as [Hy Hf]. unfold FONT_HEIGHT. int_step. apply IH; try done; [unfold apart in *; lia | lia].
    + destruct Hf as (Hch & Hx & Hf). destruct (draw_char_ok m ch cx y c k) as (m1 & E & P1); try done.
      rewrite (bind_ret _ _ _ E). unfold FONT_WIDTH. int_step.
      destruct (IH fuel m1 (p + 1) (cx + 8) x y c k) as (m' & E' & P); try done; try lia.
      * by eapply painted_surface.
      * eapply cstr_painted; [exact S | exact P1 | unfold apart in *; lia | done].
      * unfold apart in *. lia.
      * exists m'. split; [done |]. by eapply painted_seq.
Qed.
End Surface.
