(* ===== verification/GfxTheorems.v ===== *)
(** * Drawing, the back buffer and what is on the screen *)
From S2P Require Import Prelude Interfaces Mem Gfx GfxProps.

(** The calls that draw. *)
Inductive command :=
  | Clear (c : Z) | Rect (x y w h c : Z) | RectFront (x y w h c : Z)
  | Char (ch x y c : Z) | CharClipped (ch x y c : Z) (k : window)
  | Text (p x y c : Z) | TextClipped (p x y c : Z) (k : window).
Definition draw (d : command) (g : statics) (m : mem) : res mem :=
  match d with
  | Clear c => gfx_clear c g m
  | Rect x y w h c => gfx_draw_rect x y w h c g m
  | RectFront x y w h c => gfx_draw_rect_front x y w h c g m
  | Char ch x y c => gfx_draw_char ch x y c g m
  | CharClipped ch x y c k => gfx_draw_char_clipped ch x y c k g m
  | Text p x y c => gfx_draw_text p x y c g m
  | TextClipped p x y c k => gfx_draw_text_clipped p x y c k g m
  end.
Fixpoint draw_all (ds : list command) (g : statics) (m : mem) : res mem :=
  match ds with [] => Ret m | d :: ds => m1 ← draw d g m; draw_all ds g m1 end.

(** The buffer a call draws into, and its picture; [str] are the strings in memory. *)
Definition target_of (g : statics) (d : command) : Z := match d with RectFront _ _ _ _ _ => fb_ptr g | _ => draw_ptr g end.
Definition picture_of (str : Z -> list Z) (g : statics) (d : command) : picture :=
  match d with
  | Clear c => rect 0 0 (fb_width g) (fb_height g) c
  | Rect x y w h c | RectFront x y w h c => rect x y w h c
  | Char ch x y c => char ch x y c
  | CharClipped ch x y c k => clip k (char ch x y c)
  | Text p x y c => text (str p) x x y c
  | TextClipped p x y c k => clip k (text (str p) x x y c)
  end.
Fixpoint picture_on (str : Z -> list Z) (g : statics) (t : Z) (ds : list command) : picture :=
  match ds with
  | [] => blank
  | d :: ds => over (if decide (target_of g d = t) then picture_of str g d else blank) (picture_on str g t ds)
  end.

(** The pixel at [x], [y] of a buffer. *)
Definition pixel (g : statics) (t x y : Z) (m : mem) : res Z :=
  l ← load_list m (t + 4 * (y * stride g + x)) 4; Ret (le_num l).
(** A colour of the picture hides what was there. *)
Definition show (o : option Z) (old : res Z) : res Z := match o with Some c => Ret c | None => old end.

(** Both buffers, the same or apart, and the colours of bytes. *)
Definition in_buffer (g : statics) (t a : Z) : Prop := t <= a < t + fb_pitch g * fb_height g.
Record buffers (g : statics) (m : mem) : Prop := Buffers {
  b_front : surface g (fb_ptr g) m;
  b_draw : surface g (draw_ptr g) m;
  b_apart : draw_ptr g <> fb_ptr g -> forall a, in_buffer g (draw_ptr g) a -> in_buffer g (fb_ptr g) a -> False;
  b_bytes : bytes_ok m;
}.
Definition string_at (g : statics) (m : mem) (p : Z) (s : list Z) : Prop :=
  cstr m p s /\ apart g (draw_ptr g) p (Z.of_nat (length s) + 1) /\ apart g (fb_ptr g) p (Z.of_nat (length s) + 1).
(** The arguments for which no coordinate overflows, and no string is in a buffer. *)
Definition legal (str : Z -> list Z) (g : statics) (m : mem) (d : command) : Prop :=
  match d with
  | Clear c => is_u32 c
  | Rect x y w h c | RectFront x y w h c => is_u32 c /\ rect_fits x y w h
  | Char _ x y c => is_u32 c /\ char_fits x y
  | CharClipped _ x y c k => is_u32 c /\ char_fits x y /\ window_fits k
  | Text p x y c => is_u32 c /\ string_at g m p (str p) /\ text_fits (str p) x x y
  | TextClipped p x y c k => is_u32 c /\ string_at g m p (str p) /\ text_fits (str p) x x y /\ window_fits k
  end.
Definition on_screen (g : statics) (x y : Z) : Prop := 0 <= x < fb_width g /\ 0 <= y < fb_height g.

(** ** Colours are 32-bit *)
Definition colored (p : picture) : Prop := forall x y c, p x y = Some c -> is_u32 c.
Lemma colored_rect x y w h c : is_u32 c -> colored (rect x y w h c).
Proof. intros Hc px py c'. unfold rect. case_decide; congruence. Qed.
Lemma colored_clip k p : colored p -> colored (clip k p).
Proof. intros Hp x y c. unfold clip. case_decide; [apply Hp | done]. Qed.
Lemma colored_over p q : colored p -> colored q -> colored (over p q).
Proof. intros Hp Hq x y c. unfold over. destruct (q x y) eqn:E; [intros [= <-]; by eapply Hq | apply Hp]. Qed.
Lemma colored_char ch x y c : is_u32 c -> colored (char ch x y c).
Proof. intros Hc px py c'. unfold char, glyph, blank. repeat case_match; congruence. Qed.
Lemma colored_text str c : is_u32 c -> forall cx x y, colored (text str cx x y c).
Proof.
  intros Hc. induction str as [|ch str IH]; intros cx x y; [done |]. cbn [text].
  case_match; [apply IH | apply colored_over; [by apply colored_char | apply IH]].
Qed.
Lemma colored_of str g m d : legal str g m d -> colored (picture_of str g d).
Proof.
  destruct d; cbn; intros Hl; decompose [and] Hl; try (by apply colored_rect);
    try (by apply colored_char); try (by apply colored_text); apply colored_clip; by (apply colored_char || apply colored_text).
Qed.

Lemma le_num_color c : is_u32 c -> le_num (color_byte c <$> [0; 1; 2; 3]) = c.
Proof. unfold is_u32, color_byte. intros Hc. cbn -[Z.mul Z.add Z.div Z.modulo]. lia. Qed.

Lemma load_list_ext m m' n : forall a, (forall i, a <= i < a + Z.of_nat n -> m' !! i = m !! i) -> load_list m' a n = load_list m a n.
Proof.
  induction n as [|n IH]; intros a E; cbn [load_list]; [done |]. unfold load. rewrite E by lia.
  rewrite IH; [done | intros i Hi; apply E; lia].
Qed.

(** ** One call *)
Section Pictures.
Context (g : statics).
#[local] Abbreviation size := (fb_pitch g * fb_height g).
#[local] Abbreviation s := (stride g).

Lemma pixel_in t m x y i : surface g t m -> on_screen g x y ->
  t + 4 * (y * s + x) <= i < t + 4 * (y * s + x) + 4 -> in_buffer g t i.
Proof.
  intros S [Hx Hy] Hi. pose proof (row_end g t m y S Hy). pose proof (s_stride _ _ _ S). unfold in_buffer. lia.
Qed.

Lemma painted_pixel t p m m' x y : surface g t m -> colored p -> on_screen g x y ->
  painted t s (clip (screen g) p) m m' -> pixel g t x y m' = show (p x y) (pixel g t x y m).
Proof.
  intros S Hp [Hx Hy] P. pose proof (s_stride _ _ _ S).
  assert (forall i, 0 <= i < 4 -> px_x t s (t + 4 * (y * s + x) + i) = x /\ px_y t s (t + 4 * (y * s + x) + i) = y /\
    (t + 4 * (y * s + x) + i - t) mod 4 = i) as Hco.
  { intros i Hi. pose proof (proj1 (px_row t s y x 1 (t + 4 * (y * s + x) + i) ltac:(lia) ltac:(lia)) ltac:(lia)).
    split; [lia |]. split; [lia |]. set (r := y * s + x). lia. }
  assert (forall i, 0 <= i < 4 -> m' !! (t + 4 * (y * s + x) + i) =
    match p x y with Some c => Some (color_byte c i) | None => m !! (t + 4 * (y * s + x) + i) end) as Hb.
  { intros i Hi. rewrite P. destruct (Hco i Hi) as (-> & -> & ->). rewrite (screen_eq g t m S). unfold clip. cbn.
    by rewrite decide_True by lia. }
  unfold pixel. destruct (p x y) as [c|] eqn:E; cbn [show].
  - assert (load_list m' (t + 4 * (y * s + x)) 4 = Ret (color_byte c <$> [0; 1; 2; 3])) as ->.
    { set (b := t + 4 * (y * s + x)) in *. cbn [load_list]. unfold load.
      replace b with (b + 0) at 1 by lia. rewrite (Hb 0), (Hb 1) by lia.
      replace (b + 1 + 1) with (b + 2) by lia. rewrite (Hb 2) by lia. replace (b + 2 + 1) with (b + 3) by lia.
      by rewrite (Hb 3) by lia. }
    cbn [mbind res_bind]. f_equal. apply le_num_color. by eapply Hp.
  - rewrite (load_list_ext m m'); [done |]. intros i Hi.
    replace i with (t + 4 * (y * s + x) + (i - (t + 4 * (y * s + x)))) by lia. by rewrite Hb by lia.
Qed.

Lemma pixel_frame t m m' x y : surface g t m -> on_screen g x y ->
  (forall a, in_buffer g t a -> m' !! a = m !! a) -> pixel g t x y m' = pixel g t x y m.
Proof.
  intros S Ho E. unfold pixel. by rewrite (load_list_ext m m') by (intros i Hi; apply E; by eapply pixel_in).
Qed.

Lemma painted_bytes t p m m' : painted t s p m m' -> bytes_ok m -> bytes_ok m'.
Proof.
  intros P Hm a b. rewrite P. case_match; [intros [= <-]; unfold color_byte, is_u8; lia | apply Hm].
Qed.

Lemma clip_screen p t m x y : surface g t m -> clip (screen g) (clip (screen g) p) x y = clip (screen g) p x y.
Proof. intros _. unfold clip. by repeat case_decide. Qed.

Lemma draw_ok str d m : buffers g m -> legal str g m d ->
  exists m', draw d g m = Ret m' /\ painted (target_of g d) s (clip (screen g) (picture_of str g d)) m m'.
Proof.
  intros B Hl. pose proof (b_draw _ _ B) as S. pose proof (b_front _ _ B) as F.
  pose proof (s_width _ _ _ S). pose proof (s_height _ _ _ S).
  assert (window_fits (screen g)) as Hw by (rewrite (screen_eq g _ m S); unfold window_fits, is_int; cbn; lia).
  assert (forall p m', painted (draw_ptr g) s (clip (screen g) (clip (screen g) p)) m m' -> painted (draw_ptr g) s (clip (screen g) p) m m') as Hcc
    by (intros p m'; apply painted_ext; intros; by eapply clip_screen).
  destruct d; cbn [draw target_of picture_of legal] in *.
  - unfold gfx_clear. rewrite (proj2 (Z.eqb_neq _ _) (s_target _ _ _ S)).
    destruct (clear_rows_ok g (draw_ptr g) (Z.to_nat (fb_height g)) m 0 c eq_refl S Hl) as (m' & E & P); [lia | lia |].
    exists m'. split; [done |]. eapply painted_ext; [| exact P]. intros x y. rewrite (screen_eq g _ m S). unfold clip, rect. cbn.
    repeat case_decide; (done || lia).
  - destruct Hl. by apply draw_rect_ok.
  - destruct Hl. by apply draw_rect_ok.
  - destruct Hl. destruct (draw_char_ok g (draw_ptr g) eq_refl m ch x y c (screen g)) as (m' & E & P); try done. exists m'. auto.
  - destruct Hl as (? & ? & ?). by apply draw_char_ok.
  - destruct Hl as (? & (Hs & Ha & _) & Hf). destruct (text_loop_ok g (draw_ptr g) eq_refl (str p) (str_fuel m) m p x x y c (screen g)) as (m' & E & P);
      try done; [pose proof (cstr_fuel _ _ _ Hs); lia |]. exists m'. auto.
  - destruct Hl as (? & (Hs & Ha & _) & Hf & Hk). apply text_loop_ok; try done. pose proof (cstr_fuel _ _ _ Hs). lia.
Qed.

(** ** Sequences of calls *)
Definition frame (m m' : mem) : Prop :=
  forall a, ~ in_buffer g (draw_ptr g) a -> ~ in_buffer g (fb_ptr g) a -> m' !! a = m !! a.

Lemma string_frame m m' : frame m m' -> forall p str, string_at g m p str -> string_at g m' p str.
Proof.
  intros F p str (Hc & Ha & Hb). split; [| done]. revert p Hc Ha Hb. unfold apart.
  induction str as [|c str IH]; intros p Hc Ha Hb; cbn [cstr length] in *.
  - rewrite F; [done | unfold in_buffer; lia | unfold in_buffer; lia].
  - destruct Hc as (H1 & H2 & H3). split; [rewrite F; [done | unfold in_buffer; lia | unfold in_buffer; lia] |].
    split; [done |]. apply IH; [done | lia | lia].
Qed.
Lemma legal_frame str m m' d : frame m m' -> legal str g m d -> legal str g m' d.
Proof. intros F. destruct d; cbn; try done; intros Hl; decompose [and] Hl; repeat (split; [by eauto using string_frame |]); by eauto using string_frame. Qed.

Lemma draw_step str d m : buffers g m -> legal str g m d ->
  exists m', draw d g m = Ret m' /\ buffers g m' /\ frame m m' /\
    forall t x y, t = draw_ptr g \/ t = fb_ptr g -> on_screen g x y ->
      pixel g t x y m' = show ((if decide (target_of g d = t) then picture_of str g d else blank) x y) (pixel g t x y m).
Proof.
  intros B Hl. destruct (draw_ok str d m B Hl) as (m' & E & P). exists m'. split; [done |].
  assert (surface g (target_of g d) m) as S by (destruct B, d; done).
  assert (forall a, ~ in_buffer g (target_of g d) a -> m' !! a = m !! a) as Hf
    by (intros a Ha; by apply (painted_frame g _ _ _ _ a S P)).
  split; [| split].
  - destruct B as [F D A Hb]. split; try done; [..| by eapply painted_bytes].
    + destruct F. split; try done. by eapply painted_mapped.
    + destruct D. split; try done. by eapply painted_mapped.
  - intros a H1 H2. apply Hf. by destruct d.
  - intros t x y Ht Ho. case_decide as He.
    + subst t. apply painted_pixel; try done. by eapply colored_of.
    + cbn [show blank]. apply pixel_frame; [destruct B; by destruct Ht; subst | done |]. intros a Ha. apply Hf. intros Ha'.
      assert (target_of g d = draw_ptr g \/ target_of g d = fb_ptr g) as Hd by (destruct d; cbn; tauto).
      destruct B as [_ _ A _]. destruct Ht as [-> | ->], Hd as [Hd | Hd]; rewrite Hd in *; try done;
        [eapply (A ltac:(congruence)) | eapply (A ltac:(congruence))]; eauto.
Qed.

Lemma draw_all_ok str ds : forall m, buffers g m -> Forall (legal str g m) ds ->
  exists m', draw_all ds g m = Ret m' /\ buffers g m' /\ frame m m' /\
    forall t x y, t = draw_ptr g \/ t = fb_ptr g -> on_screen g x y ->
      pixel g t x y m' = show (picture_on str g t ds x y) (pixel g t x y m).
Proof.
  induction ds as [|d ds IH]; intros m B Hl; cbn [draw_all picture_on].
  - exists m. split; [done |]. split; [done |]. by split.
  - apply Forall_cons in Hl as [Hd Hl]. destruct (draw_step str d m B Hd) as (m1 & E & B1 & F1 & P1).
    rewrite (bind_ret _ _ _ E). destruct (IH m1 B1) as (m' & E' & B' & F' & P').
    { eapply Forall_impl; [exact Hl |]. intros d' Hd'. by eapply legal_frame. }
    exists m'. split; [done |]. split; [done |]. split; [intros a H1 H2; by rewrite F', F1 |].
    intros t x y Ht Ho. rewrite P', P1 by done. unfold over. by destruct (picture_on str g t ds x y).
Qed.
End Pictures.
