(* ===== verification/GfxBuffer.v ===== *)
(** * The back buffer: what reaches the screen, and where its memory comes from *)
From S2P Require Import Prelude Interfaces Mem Gfx GfxProps GfxTheorems.

Section Present.
Context (g : statics).
#[local] Abbreviation size := (fb_pitch g * fb_height g).
#[local] Abbreviation s := (stride g).
#[local] Abbreviation fb := (fb_ptr g).
#[local] Abbreviation back := (draw_ptr g).

Lemma load_list_shift m m' n : forall a b, (forall i, 0 <= i < Z.of_nat n -> m' !! (b + i) = m !! (a + i)) ->
  load_list m' b n = load_list m a n.
Proof.
  induction n as [|n IH]; intros a b E; cbn [load_list]; [done |]. unfold load.
  pose proof (E 0 ltac:(lia)) as E0. rewrite !Z.add_0_r in E0. rewrite E0, (IH (a + 1)); [done |].
  intros i Hi. rewrite <- !Z.add_assoc. apply E. lia.
Qed.

Lemma memcpy_buffer m off n : buffers g m -> back <> fb -> 0 <= off -> 0 <= n -> off + n <= size ->
  exists m', memcpy (fb + off) (back + off) n m = Ret m' /\ copied m (fb + off) (back + off) n m'.
Proof.
  intros [F D A Hb] Hne Ho Hn Hs. apply memcpy_ok; [..| done | done].
  - eapply mapped_sub; [apply (s_mapped _ _ _ D) | lia | lia].
  - eapply mapped_sub; [apply (s_mapped _ _ _ F) | lia | lia].
  - pose proof (A Hne (Z.max fb back)) as Hm. unfold in_buffer in Hm. lia.
Qed.

(** [m'] is [m] with the pixels of a rectangle copied to the front. *)
Definition blitted (x y w h : Z) (m m' : mem) : Prop :=
  forall a, m' !! a = if decide (x <= px_x fb s a < x + w /\ y <= px_y fb s a < y + h) then m !! (back + (a - fb)) else m !! a.

Lemma blit_in m a y w x h : buffers g m -> 0 <= x -> x + w <= s -> 0 <= y -> y + h <= fb_height g ->
  x <= px_x fb s a < x + w /\ y <= px_y fb s a < y + h -> in_buffer g fb a.
Proof.
  intros B Hx Hw Hy Hh [H1 H2].
  pose proof (proj2 (px_row fb s (px_y fb s a) (px_x fb s a) 1 a ltac:(lia) ltac:(lia)) ltac:(lia)).
  pose proof (row_end g fb m (px_y fb s a) (b_front _ _ B) ltac:(lia)). unfold in_buffer. lia.
Qed.

Lemma blitted_pixel m m' x y w h px py : buffers g m -> blitted x y w h m m' -> on_screen g px py ->
  pixel g fb px py m' = if decide (x <= px < x + w /\ y <= py < y + h) then pixel g back px py m else pixel g fb px py m.
Proof.
  intros B Hb [Hx Hy]. pose proof (s_stride _ _ _ (b_front _ _ B)).
  assert (forall i, 0 <= i < 4 -> px_x fb s (fb + 4 * (py * s + px) + i) = px /\ px_y fb s (fb + 4 * (py * s + px) + i) = py) as Hco.
  { intros i Hi. pose proof (proj1 (px_row fb s py px 1 (fb + 4 * (py * s + px) + i) ltac:(lia) ltac:(lia)) ltac:(lia)). lia. }
  unfold pixel. case_decide as Hd.
  - rewrite (load_list_shift m m' 4 (back + 4 * (py * s + px))); [done |]. intros i Hi. rewrite Hb.
    destruct (Hco i Hi) as [-> ->]. rewrite decide_True by done. f_equal. lia.
  - rewrite (load_list_shift m m' 4 (fb + 4 * (py * s + px))); [done |]. intros i Hi. rewrite Hb.
    destruct (Hco i Hi) as [-> ->]. by rewrite decide_False by done.
Qed.

Lemma blitted_frame m m' x y w h a : buffers g m -> 0 <= x -> x + w <= s -> 0 <= y -> y + h <= fb_height g ->
  blitted x y w h m m' -> ~ in_buffer g fb a -> m' !! a = m !! a.
Proof.
  intros B Hx Hw Hy Hh Hb Ha. rewrite Hb, decide_False; [done |]. intros Hin. apply Ha. by eapply (blit_in m a y w x h).
Qed.

Lemma blitted_buffers m m' x y w h : buffers g m -> 0 <= x -> x + w <= s -> 0 <= y -> y + h <= fb_height g ->
  blitted x y w h m m' -> buffers g m'.
Proof.
  intros B Hx Hw Hy Hh Hb.
  assert (forall b n, mapped m b n -> mapped m' b n) as Hm.
  { intros b n Hm a Ha. rewrite Hb. case_decide as Hd; [| by apply Hm].
    apply (s_mapped _ _ _ (b_draw _ _ B)). pose proof (blit_in m a y w x h B Hx Hw Hy Hh Hd). unfold in_buffer in *. lia. }
  destruct B as [F D A Hbytes]. split; [destruct F; split; auto | destruct D; split; auto | done |].
  intros a b. rewrite Hb. case_decide; apply Hbytes.
Qed.

(** Rows of a rectangle, copied one after the other. *)
Lemma copied_blitted m m' x y w h : buffers g m -> 0 <= x -> x + w <= s -> 0 <= y -> y + h <= fb_height g -> 0 <= h ->
  x = 0 /\ w = s \/ h = 1 ->
  copied m (fb + 4 * (y * s + x)) (back + 4 * (y * s + x)) (4 * (w + (h - 1) * s)) m' -> blitted x y w h m m'.
Proof.
  intros B Hx Hw Hy Hh H0 Hc Hcp a. rewrite Hcp.
  assert (fb + 4 * (y * s + x) <= a < fb + 4 * (y * s + x) + 4 * (w + (h - 1) * s) <->
    x <= px_x fb s a < x + w /\ y <= px_y fb s a < y + h) as Hiff.
  { destruct Hc as [[-> ->]| ->].
    - unfold px_x, px_y. set (q := (a - fb) / 4).
      assert (fb + 4 * (y * s + 0) <= a < fb + 4 * (y * s + 0) + 4 * (s + (h - 1) * s) <-> y * s <= q < (y + h) * s) as ->.
      { replace (s + (h - 1) * s) with (h * s) by lia. replace ((y + h) * s) with (y * s + h * s) by lia.
        unfold q. set (r := y * s). set (r' := h * s). lia. }
      destruct (stride_bounds g _ _ (b_front _ _ B)) as [Hs _]. destruct (decide (s = 0)) as [->|Hne]; [lia |].
      pose proof (Z.div_mod q s ltac:(lia)). pose proof (Z.mod_pos_bound q s ltac:(lia)). nia.
    - replace (4 * (w + (1 - 1) * s)) with (4 * w) by lia. rewrite px_row by lia. lia. }
  repeat case_decide; try tauto. f_equal. lia.
Qed.

Lemma blitted_app m m1 m' x y w h : buffers g m -> back <> fb -> 0 <= x -> x + w <= s -> 0 <= y -> 0 <= h -> y + 1 + h <= fb_height g ->
  blitted x y w 1 m m1 -> blitted x (y + 1) w h m1 m' -> blitted x y w (1 + h) m m'.
Proof.
  intros B Hne Hx Hw Hy Hh He H1 H2 a. rewrite H2, !H1. repeat case_decide; try lia; try done. exfalso.
  assert (in_buffer g fb a) as Ha by (eapply (blit_in m a (y + 1) w x h); (done || lia)).
  eapply (b_apart _ _ B Hne (back + (a - fb))); [unfold in_buffer in *; lia |].
  eapply (blit_in m _ y w x 1); (done || lia).
Qed.

Lemma present_rows_ok n : forall m x y w, buffers g m -> back <> fb ->
  0 <= x -> 0 <= w -> x + w <= fb_width g -> 0 <= y -> y + Z.of_nat n <= fb_height g ->
  exists m', present_rows n x y (u64 (w * 4)) g m = Ret m' /\ blitted x y w (Z.of_nat n) m m'.
Proof.
  induction n as [|n IH]; intros m x y w B Hne Hx H0 Hw Hy Hh; cbn [present_rows].
  - exists m. split; [done |]. intros a. by rewrite decide_False by lia.
  - pose proof (b_front _ _ B) as F. pose proof (s_stride _ _ _ F). pose proof (s_width _ _ _ F).
    rewrite (row_u64 g fb m) by (done || lia). rewrite (u64_id (w * 4)) by (unfold is_u64; lia).
    pose proof (row_end g fb m y F ltac:(lia)).
    destruct (memcpy_buffer m (4 * (y * s + x)) (w * 4)) as (m1 & E & C); try done; try lia. rewrite (bind_ret _ _ _ E).
    assert (blitted x y w 1 m m1) as B1.
    { apply copied_blitted; try done; try lia. by replace (4 * (w + (1 - 1) * s)) with (w * 4) by lia. }
    rewrite <- (u64_id (w * 4)) by (unfold is_u64; lia).
    destruct (IH m1 x (y + 1) w) as (m' & E' & B'); try done; try lia;
      [eapply (blitted_buffers m m1 x y w 1); (done || lia) |].
    exists m'. split; [done |]. replace (Z.of_nat (S n)) with (1 + Z.of_nat n) by lia.
    eapply blitted_app; [exact B | .. | exact B']; (done || lia).
Qed.

Lemma present_rect_ok m x y w h : buffers g m -> back <> fb -> fb_pitch g mod 4 = 0 -> rect_fits x y w h ->
  exists m', gfx_present_rect x y w h g m = Ret m' /\ buffers g m' /\ (forall a, ~ in_buffer g fb a -> m' !! a = m !! a) /\
    forall px py, on_screen g px py -> pixel g fb px py m' =
      if decide (x <= px < x + w /\ y <= py < y + h) then pixel g back px py m else pixel g fb px py m.
Proof.
  intros B Hne Hp Hf. pose proof (b_front _ _ B) as F. pose proof (s_width _ _ _ F). pose proof (s_height _ _ _ F).
  pose proof (s_stride _ _ _ F). pose proof (stride_bounds g fb m F) as [Hs0 Hs]. pose proof (s_size _ _ _ F).
  assert (fb_pitch g = 4 * s) as Hps by (unfold stride in *; lia).
  unfold gfx_present_rect. rewrite (proj2 (Z.eqb_neq _ _) (s_target _ _ _ F)), (proj2 (Z.eqb_neq _ _) (s_target _ _ _ (b_draw _ _ B))),
    (proj2 (Z.eqb_neq _ _) Hne). cbn [orb].
  destruct (clip_rect_ok g fb m x y w h F Hf) as (r & E & Hr). rewrite (bind_ret _ _ _ E).
  rewrite (screen_eq g fb m F) in Hr. unfold clip in Hr; cbn in Hr.
  destruct r as [[[[x0 y0] rw] rh]|].
  2:{ exists m. split; [done |]. split; [done |]. split; [done |]. intros px py [Hx Hy]. specialize (Hr 0 px py).
      rewrite decide_True in Hr by lia. unfold rect in Hr. by case_decide. }
  destruct Hr as (? & ? & ? & ? & ? & ? & Hr).
  assert (forall m' x1 w1, blitted x1 y0 w1 rh m m' -> 0 <= x1 -> x1 + w1 <= s ->
    (forall px, 0 <= px < fb_width g -> x1 <= px < x1 + w1 <-> x0 <= px < x0 + rw) ->
    buffers g m' /\ (forall a, ~ in_buffer g fb a -> m' !! a = m !! a) /\
    forall px py, on_screen g px py -> pixel g fb px py m' =
      if decide (x <= px < x + w /\ y <= py < y + h) then pixel g back px py m else pixel g fb px py m) as Hfin.
  { intros m' x1 w1 Hb ? ? Hw1. split; [by eapply (blitted_buffers m m' x1 y0 w1 rh) |].
    split; [intros a; by eapply (blitted_frame m m' x1 y0 w1 rh) |]. intros px py Ho.
    rewrite (blitted_pixel m m' x1 y0 w1 rh) by done. destruct Ho as [Hx Hy]. specialize (Hr 0 px py). specialize (Hw1 px Hx).
    rewrite decide_True in Hr by lia. unfold rect in Hr. repeat case_decide; (done || lia). }
  rewrite i32_id by (unfold is_int; lia). destruct ((x0 =? 0) && (rw =? fb_width g)) eqn:Efull.
  - pose proof (Z.mul_le_mono_nonneg_r (y0 + rh) (fb_height g) s ltac:(lia) ltac:(lia)).
    assert (0 <= rh * s) by nia. assert (size = 4 * (fb_height g * s)) by (rewrite Hps; lia).
    rewrite (row_u64 g fb m) by (done || lia). rewrite Hps. rewrite (u64_id (rh * _)) by (unfold is_u64; lia).
    pose proof (row_end g fb m y0 F ltac:(lia)).
    destruct (memcpy_buffer m (4 * (y0 * s)) (rh * (4 * s))) as (m' & E' & C); try done; try lia.
    exists m'. split; [done |]. apply (Hfin m' 0 s); try lia.
    apply copied_blitted; try done; try lia.
    replace (y0 * s + 0) with (y0 * s) by lia. by replace (4 * (s + (rh - 1) * s)) with (rh * (4 * s)) by lia.
  - destruct (present_rows_ok (Z.to_nat rh) m x0 y0 rw) as (m' & E' & Hb); try done; try lia.
    exists m'. split; [done |]. rewrite Z2Nat.id in Hb by lia. by apply (Hfin m' x0 rw); try lia.
Qed.

Lemma present_ok m : buffers g m -> back <> fb -> backbuffer g = back -> backbuffer_bytes g = size ->
  exists m', gfx_present g m = Ret m' /\ buffers g m' /\ (forall a, ~ in_buffer g fb a -> m' !! a = m !! a) /\
    forall px py, on_screen g px py -> pixel g fb px py m' = pixel g back px py m.
Proof.
  intros B Hne Hb Hn. pose proof (b_front _ _ B) as F. pose proof (s_width _ _ _ F). pose proof (s_height _ _ _ F).
  pose proof (stride_bounds g fb m F) as [Hs0 Hs]. pose proof (s_stride _ _ _ F).
  unfold gfx_present. rewrite Hb, Hn, (proj2 (Z.eqb_neq _ _) (s_target _ _ _ F)), (proj2 (Z.eqb_neq _ _) (s_target _ _ _ (b_draw _ _ B))).
  cbn [orb]. destruct (Z.eqb_spec size 0) as [Hz|Hz].
  { exists m. split; [done |]. split; [done |]. split; [done |]. intros px py [Hx Hy]. nia. }
  rewrite (proj2 (Z.eqb_neq _ _) Hne).
  destruct (memcpy_buffer m 0 size) as (m' & E & C); try done; try nia. rewrite !Z.add_0_r in E, C.
  exists m'. split; [done |].
  split; [| split].
  - destruct B as [_ D A Hbytes].
    assert (forall b k, mapped m b k -> mapped m' b k) as Hm by (intros; eapply copied_mapped; [done | apply (s_mapped _ _ _ D) | done]).
    split; [destruct F; split; auto | destruct D; split; auto | done |]. intros a b. rewrite C. case_decide; apply Hbytes.
  - intros a Ha. rewrite C, decide_False; [done | done].
  - intros px py Ho. unfold pixel. rewrite (load_list_shift m m' 4 (back + 4 * (py * s + px))); [done |]. intros i Hi.
    pose proof (pixel_in g fb m px py (fb + 4 * (py * s + px) + i) F Ho ltac:(lia)) as Hin. unfold in_buffer in Hin.
    rewrite C, decide_True by lia. f_equal. lia.
Qed.
End Present.

(** C16: double buffering.  Whatever is drawn with arguments that overflow nothing, every pixel
    of the back buffer is as the picture of the calls says, no other byte of memory changes,
    and the screen has what was drawn to the front only; [gfx_present] then shows the back
    buffer, and [gfx_present_rect] the part of it in the rectangle, with nothing else
    touched. *)
Theorem gfx_double_buffering str g m ds x y w h : buffers g m -> draw_ptr g <> fb_ptr g ->
  backbuffer g = draw_ptr g -> backbuffer_bytes g = fb_pitch g * fb_height g -> fb_pitch g mod 4 = 0 ->
  Forall (legal str g m) ds -> rect_fits x y w h ->
  exists m1, draw_all ds g m = Ret m1 /\ frame g m m1 /\
    (forall t px py, t = draw_ptr g \/ t = fb_ptr g -> on_screen g px py ->
       pixel g t px py m1 = show (picture_on str g t ds px py) (pixel g t px py m)) /\
    (exists m2, gfx_present g m1 = Ret m2 /\ (forall a, ~ in_buffer g (fb_ptr g) a -> m2 !! a = m1 !! a) /\
       forall px py, on_screen g px py -> pixel g (fb_ptr g) px py m2 = pixel g (draw_ptr g) px py m1) /\
    exists m2, gfx_present_rect x y w h g m1 = Ret m2 /\ (forall a, ~ in_buffer g (fb_ptr g) a -> m2 !! a = m1 !! a) /\
       forall px py, on_screen g px py -> pixel g (fb_ptr g) px py m2 =
         if decide (x <= px < x + w /\ y <= py < y + h) then pixel g (draw_ptr g) px py m1 else pixel g (fb_ptr g) px py m1.
Proof.
  intros B Hne Hb Hn Hp Hl Hf. destruct (draw_all_ok g str ds m B Hl) as (m1 & E & B1 & F & P).
  destruct (present_ok g m1 B1 Hne Hb Hn) as (m2 & E2 & _ & F2 & P2).
  destruct (present_rect_ok g m1 x y w h B1 Hne Hp Hf) as (m3 & E3 & _ & F3 & P3).
  exists m1. do 3 (split; [done |]). split; [by exists m2 | by exists m3].
Qed.

(** ** The back buffer on the heap *)
Section Heap.
Context {A : Type} `{!Allocator A, !HeapMemory A}.
Implicit Types a : A.
Implicit Types g : statics.
Definition bytes_of g : Z := fb_pitch g * fb_height g.

(** The state between calls: the statics, memory and the heap. *)
Record video_ok (g : statics) (m : mem) (a : A) : Prop := VideoOk {
  v_heap : a_ok a;
  v_front : surface g (fb_ptr g) m;
  v_size : 0 < fb_width g /\ 0 < fb_height g /\ fb_pitch g mod 4 = 0 /\ bytes_of g <= 2 ^ 64 - 8;
  v_bytes : bytes_ok m;
  v_arena : mapped m hm_lo (hm_hi - hm_lo);
  v_apart : hm_hi <= fb_ptr g \/ fb_ptr g + bytes_of g <= hm_lo;
  v_back : backbuffer g = 0 /\ draw_ptr g = fb_ptr g \/
           backbuffer g <> 0 /\ draw_ptr g = backbuffer g /\ backbuffer_bytes g = bytes_of g /\
           exists n, a_live a !! backbuffer g = Some n /\ bytes_of g <= n;
}.

Lemma bytes_pos g m : surface g (fb_ptr g) m -> 0 < fb_width g -> 0 < fb_height g -> 4 <= bytes_of g.
Proof. intros S Hw Hh. pose proof (stride_bounds g _ m S). pose proof (s_stride _ _ _ S). unfold bytes_of. nia. Qed.

(** An allocation of the size is a surface apart from the front. *)
Lemma allocation_surface g m a p n : a_ok a -> surface g (fb_ptr g) m -> mapped m hm_lo (hm_hi - hm_lo) ->
  hm_hi <= fb_ptr g \/ fb_ptr g + bytes_of g <= hm_lo ->
  a_live a !! p = Some n -> bytes_of g <= n -> 0 < bytes_of g ->
  surface g p m /\ p <> fb_ptr g /\ forall x, in_buffer g p x -> in_buffer g (fb_ptr g) x -> False.
Proof.
  intros Ha S Hm Hap Hp Hn Hs. destruct (hm_in a p n Ha Hp). pose proof hm_pos. unfold bytes_of, in_buffer in *.
  split; [| split; [lia | intros; lia]]. destruct S. split; try done; [lia |]. eapply mapped_sub; [done | lia | lia].
Qed.

Lemma video_buffers g m a : video_ok g m a -> buffers g m.
Proof.
  intros V. pose proof V as [Ha F (Hw & Hh & _) Hb Hm Hap Hk]. pose proof (bytes_pos g m F Hw Hh).
  destruct Hk as [[_ Hd]|(_ & Hd & _ & n & Hp & Hn)].
  - split; try done; by rewrite Hd.
  - destruct (allocation_surface g m a _ n Ha F Hm Hap Hp Hn ltac:(lia)) as (S & _ & Hx). split; try done; by rewrite Hd.
Qed.

Lemma video_back g m a : video_ok g m a -> draw_ptr g <> fb_ptr g ->
  backbuffer g = draw_ptr g /\ backbuffer_bytes g = bytes_of g.
Proof. intros [_ _ _ _ _ _ [[_ Hd]|(_ & Hd & Hn & _)]] Hne; [done | by rewrite Hd]. Qed.

Lemma free_back_ok g m a : video_ok g m a -> exists a', free_back g a = Ret (set_back 0 (backbuffer_bytes g) (draw_ptr g) g, a') /\
  a_ok a' /\ a_live a' = (if decide (backbuffer g = 0) then a_live a else delete (backbuffer g) (a_live a)).
Proof.
  intros V. unfold free_back. destruct (Z.eqb_spec (backbuffer g) 0) as [Hz|Hz].
  - exists a. rewrite decide_True by done. split; [| by destruct V]. unfold set_back. rewrite <- Hz. by destruct g.
  - rewrite decide_False by done. destruct (v_back _ _ _ V) as [[? _]|(_ & _ & _ & n & Hp & _)]; [done |].
    destruct (a_free_ok (backbuffer g) a (v_heap _ _ _ V) (ex_intro _ n Hp)) as (a' & E & Ha & Hl).
    exists a'. rewrite (bind_ret _ _ _ E). done.
Qed.

(** Switching the back buffer keeps the state well formed and returns.  Switched on, drawing goes
    to a live allocation large enough for the screen, the one there was or a fresh one; when
    memory has run out, drawing goes to the screen as before without one.  Switched off, the
    buffer is freed.  All other allocations stay. *)
Theorem gfx_enable_correct g m a b : video_ok g m a ->
  exists g' a', gfx_enable_backbuffer b g a = Ret (g', a') /\ video_ok g' m a' /\
    fb_ptr g' = fb_ptr g /\ fb_width g' = fb_width g /\ fb_height g' = fb_height g /\ fb_pitch g' = fb_pitch g /\
    delete (backbuffer g') (a_live a') = delete (backbuffer g') (delete (backbuffer g) (a_live a)) /\
    (b = false -> gfx_backbuffer_enabled g' = false /\ backbuffer g' = 0) /\
    (b = true -> gfx_backbuffer_enabled g' = true \/ gfx_backbuffer_enabled g' = false /\ backbuffer g' = 0 /\
       exists a1, a_malloc (bytes_of g) a1 = Ret (None, a')).
Proof.
  intros V. pose proof V as [Ha F (Hw & Hh & Hp4 & Hsz) Hb Hm Hap Hk]. pose proof (bytes_pos g m F Hw Hh) as Hpos.
  assert (forall x, a_ok x -> a_live x !! 0 = None) as Hnull.
  { intros x Hx. destruct (a_live x !! 0) as [n|] eqn:E; [| done]. pose proof (hm_in x 0 n Hx E). pose proof hm_pos. lia. }
  assert (forall x, gfx_backbuffer_enabled (set_back 0 x (fb_ptr g) g) = false) as Hoff
    by (intros x; unfold gfx_backbuffer_enabled; cbn; by rewrite Z.eqb_refl, !andb_false_r).
  destruct (free_back_ok g m a V) as (a1 & E1 & Ha1 & Hl1).
  assert (a_live a1 = delete (backbuffer g) (a_live a)) as Hl1'.
  { rewrite Hl1. case_decide as Hz; [| done]. rewrite Hz, delete_id; [done | by apply Hnull]. }
  unfold gfx_enable_backbuffer. rewrite u64_id by (unfold bytes_of, is_u64 in *; lia). destruct b; cbn [negb].
  - destruct (negb (backbuffer g =? 0) && (fb_pitch g * fb_height g =? backbuffer_bytes g)) eqn:Ehave.
    + destruct Hk as [[Hz _]|(Hz & Hd & Hn & n & Hp & Hln)]; [lia |].
      exists (set_back (backbuffer g) (backbuffer_bytes g) (backbuffer g) g), a.
      assert (set_back (backbuffer g) (backbuffer_bytes g) (backbuffer g) g = g) as -> by (rewrite <- Hd at 2; by destruct g).
      do 6 (split; [done |]). split; [by rewrite delete_delete_eq |]. split; [done |]. intros _. left.
      destruct (allocation_surface g m a _ n Ha F Hm Hap Hp Hln ltac:(lia)) as (_ & Hne & _).
      unfold gfx_backbuffer_enabled. pose proof (s_target _ _ _ F). rewrite Hd. lia.
    + rewrite (bind_ret _ _ _ E1).
      destruct (a_malloc_ok (bytes_of g) a1 Ha1) as (r & a' & E2 & Ha' & Hr); [lia |].
      assert (a_malloc (fb_pitch g * fb_height g) a1 = Ret (r, a')) as E2' by exact E2. rewrite (bind_ret _ _ _ E2').
      destruct r as [p|].
      * destruct Hr as (Hnew & n & Hn & Hl). assert (a_live a' !! p = Some n) as Hp by (by rewrite Hl, lookup_insert_eq).
        destruct (allocation_surface g m a' p n Ha' F Hm Hap Hp Hn ltac:(lia)) as (S & Hne & _).
        pose proof (s_target _ _ _ S). pose proof (s_target _ _ _ F).
        eexists _, a'. split; [done |]. split.
        { split; try done; [destruct F; by split |]. right. cbn. split; [done |]. split; [done |]. split; [done |]. by exists n. }
        do 4 (split; [done |]). split; [| split; [done |]].
        -- cbn. by rewrite Hl, delete_insert_eq, Hl1'.
        -- intros _. left. unfold gfx_backbuffer_enabled. cbn. lia.
      * eexists _, a'. split; [done |]. split; [split; try done; [destruct F; by split | by left] |].
        do 4 (split; [done |]). split; [by cbn; rewrite Hr, Hl1' |]. split; [done |].
        intros _. right. split; [by apply (Hoff 0) |]. split; [done |]. by exists a1.
  - rewrite (bind_ret _ _ _ E1). eexists _, a1. split; [done |].
    split; [split; try done; [destruct F; by split | by left] |].
    do 4 (split; [done |]). split; [by cbn; rewrite Hl1' |]. split; [intros _; split; [by apply (Hoff 0) | done] | done].
Qed.
End Heap.
