(* ===== verification/GfxSafe.v ===== *)
(** * Every sequence of graphics calls is safe; a concrete screen *)
From S2P Require Import Prelude Interfaces Mem Heap HeapProps Gfx GfxProps GfxTheorems GfxBuffer.

Section Reachable.
Context {A : Type} `{!Allocator A, !HeapMemory A} (str : Z -> list Z).
Definition video : Type := statics * mem * A.
Definition is_ok (v : video) : Prop := video_ok v.1.1 v.1.2 v.2.

(** The calls of the file once [gfx_init] has run. *)
Inductive call := Draw (d : command) | Present | PresentRect (x y w h : Z) | Enable (b : bool).
Definition run (o : call) (v : video) : res video :=
  let '(g, m, a) := v in
  match o with
  | Draw d => m' ← draw d g m; Ret (g, m', a)
  | Present => m' ← gfx_present g m; Ret (g, m', a)
  | PresentRect x y w h => m' ← gfx_present_rect x y w h g m; Ret (g, m', a)
  | Enable b => '(g', a') ← gfx_enable_backbuffer b g a; Ret (g', m, a')
  end.
Definition call_legal (o : call) (v : video) : Prop :=
  match o with
  | Draw d => legal str v.1.1 v.1.2 d
  | PresentRect x y w h => rect_fits x y w h
  | _ => True
  end.
(** What the rest of the kernel may do in between: use the heap and memory, except the
    two buffers. *)
Definition elsewhere (v v' : video) : Prop :=
  let '(g, m, a) := v in let '(g', m', a') := v' in
  g' = g /\ a_ok a' /\ a_live a' !! backbuffer g = a_live a !! backbuffer g /\ bytes_ok m' /\
  (forall x, is_Some (m !! x) -> is_Some (m' !! x)).

Inductive reach (v0 : video) : video -> Prop :=
  | reach_start : reach v0 v0
  | reach_call o v v' : reach v0 v -> call_legal o v -> run o v = Ret v' -> reach v0 v'
  | reach_elsewhere v v' : reach v0 v -> elsewhere v v' -> reach v0 v'.

Lemma mapped_mono (m m' : mem) b n : (forall x, is_Some (m !! x) -> is_Some (m' !! x)) -> mapped m b n -> mapped m' b n.
Proof. intros E Hm x Hx. by apply E, Hm. Qed.

Lemma video_mem g (m m' : mem) (a : A) : video_ok g m a -> bytes_ok m' -> (forall x, is_Some (m !! x) -> is_Some (m' !! x)) -> video_ok g m' a.
Proof.
  intros [Ha F Hs Hb Hm Hap Hk] Hb' E. split; try done; [destruct F; split; try done |]; by eapply mapped_mono.
Qed.

(** The bytes there are stay there. *)
Lemma frame_mono g (m m' : mem) : (forall a, ~ in_buffer g (fb_ptr g) a -> m' !! a = m !! a) -> buffers g m' ->
  forall x, is_Some (m !! x) -> is_Some (m' !! x).
Proof.
  intros E B x Hx. destruct (decide (fb_ptr g <= x < fb_ptr g + fb_pitch g * fb_height g)) as [Hin|Hout].
  - by apply (s_mapped _ _ _ (b_front _ _ B)).
  - by rewrite E.
Qed.

Lemma run_ok o v : is_ok v -> call_legal o v -> exists v', run o v = Ret v' /\ is_ok v'.
Proof.
  destruct v as [[g m] a]. intros V. pose proof (video_buffers g m a V) as B. unfold is_ok in *. cbn in *. destruct o; cbn; intros Hl.
  - destruct (draw_ok g str d m B Hl) as (m' & E & P). exists (g, m', a). rewrite (bind_ret _ _ _ E). split; [done |].
    eapply video_mem; [exact V | by eapply painted_bytes; [exact P | apply B] |].
    intros x Hx. rewrite P. case_match; [by eexists | done].
  - destruct (decide (draw_ptr g = fb_ptr g)) as [Hd|Hd].
    { exists (g, m, a). assert (gfx_present g m = Ret m) as E.
      { unfold gfx_present. rewrite Hd, Z.eqb_refl. by destruct (_ || _). }
      by rewrite (bind_ret _ _ _ E). }
    destruct (video_back g m a V Hd) as [Hb Hn].
    destruct (present_ok g m B Hd Hb Hn) as (m' & E & B' & F & _). exists (g, m', a). rewrite (bind_ret _ _ _ E). split; [done |].
    eapply video_mem; [exact V | apply B' | by eapply frame_mono].
  - destruct (decide (draw_ptr g = fb_ptr g)) as [Hd|Hd].
    { exists (g, m, a). assert (gfx_present_rect x y w h g m = Ret m) as E.
      { unfold gfx_present_rect. rewrite Hd, Z.eqb_refl. by rewrite orb_true_r. }
      by rewrite (bind_ret _ _ _ E). }
    destruct (present_rect_ok g m x y w h B Hd) as (m' & E & B' & F & _); [apply V | done |].
    exists (g, m', a). rewrite (bind_ret _ _ _ E). split; [done |].
    eapply video_mem; [exact V | apply B' | by eapply frame_mono].
  - destruct (gfx_enable_correct g m a b V) as (g' & a' & E & V' & _). exists (g', m, a'). by rewrite (bind_ret _ _ _ E).
Qed.

(** C35: the state of the graphics stays well formed - the buffer drawn to is the screen or a live
    allocation as large - under every sequence of calls and whatever the rest of the kernel does
    elsewhere, and every further call whose coordinates do not overflow returns. *)
Theorem gfx_reachable_safe v0 v : is_ok v0 -> reach v0 v ->
  is_ok v /\ forall o, call_legal o v -> exists v', run o v = Ret v' /\ is_ok v'.
Proof.
  intros H0 Hr. assert (is_ok v) as Hv; [| split; [done | intros; by apply run_ok]].
  induction Hr as [|o v v' _ IH Hl E|v v' _ IH He]; [done | |].
  - destruct (run_ok o v IH Hl) as (v1 & E1 & Hv1). congruence.
  - destruct v as [[g m] a], v' as [[g' m'] a']. destruct He as (-> & Ha & Hl & Hb & Hm).
    unfold is_ok in *. cbn in *. destruct (video_mem g m m' a IH Hb Hm) as [_ F Hs Hb' Har Hap Hk].
    split; try done. destruct Hk as [Hk|(Hz & Hd & Hn & n & Hp & Hln)]; [by left |].
    right. do 3 (split; [done |]). exists n. by rewrite Hl.
Qed.
End Reachable.

(** ** A screen of 24 by 20 pixels behind the heap *)
Definition const_mem (v lo n : Z) : mem := list_to_map ((fun x => (x, v)) <$> seqZ lo n).
Abbreviation zeros := (const_mem 0).
Lemma const_lookup v lo n x : const_mem v lo n !! x = if decide (lo <= x < lo + n) then Some v else None.
Proof.
  unfold const_mem. assert (((fun x => (x, v)) <$> seqZ lo n).*1 = seqZ lo n) as E
    by (rewrite <- list_fmap_compose; apply list_fmap_id).
  case_decide as Hx.
  - apply elem_of_list_to_map_1; [rewrite E; apply NoDup_seqZ |]. apply list_elem_of_fmap. exists x. split; [done |]. apply elem_of_seqZ. lia.
  - apply not_elem_of_list_to_map_1. rewrite E, elem_of_seqZ. lia.
Qed.
Lemma const_mapped v lo n a k : lo <= a -> a + k <= lo + n -> mapped (const_mem v lo n) a k.
Proof. intros H1 H2 x Hx. rewrite const_lookup, decide_True by lia. by eexists. Qed.
Lemma const_bytes v lo n : is_u8 v -> bytes_ok (const_mem v lo n).
Proof. intros Hv a b. rewrite const_lookup. case_decide; [by intros [= <-] | done]. Qed.
#[global] Opaque const_mem.

Definition booted : statics := gfx_init HEAP_SIZE 24 20 100 gfx0.
Lemma booted_ok : video_ok booted (zeros 0 (HEAP_SIZE + 2000)) heap0.
Proof.
  split; [exact heap0_ok | | cbn; unfold bytes_of; cbn; lia | by apply const_bytes | | | by left].
  - split; cbn; try done; try lia. apply const_mapped; unfold HEAP_SIZE; lia.
  - apply const_mapped; cbn; unfold sizeof_block, HEAP_SIZE; lia.
  - left. cbn. lia.
Qed.

Lemma gfx_reachable_safe_witness :
  exists v', run (Draw (Rect 5 (-3) 100 7 0xFFFFFF)) (booted, zeros 0 (HEAP_SIZE + 2000), heap0) = Ret v' /\ is_ok v'.
Proof.
  apply (gfx_reachable_safe (fun _ => []) (booted, zeros 0 (HEAP_SIZE + 2000), heap0) _ booted_ok (reach_start _ _)).
  cbn. unfold rect_fits, is_int, is_u32. lia.
Defined.

Lemma gfx_enable_correct_witness :
  exists g' a', gfx_enable_backbuffer true booted heap0 = Ret (g', a') /\ video_ok g' (zeros 0 (HEAP_SIZE + 2000)) a'.
Proof.
  destruct (gfx_enable_correct booted (zeros 0 (HEAP_SIZE + 2000)) heap0 true booted_ok) as (g' & a' & E & V & _). by exists g', a'.
Defined.

(** Both buffers in memory, the back buffer at 4096. *)
Definition doubled : statics := Statics 8192 4096 4096 2000 24 20 100.
Definition letters (p : Z) : list Z := [].
Definition scene : list command := [Clear 0x102030; Rect (-4) 2 10 6 0xFF0000; CharClipped 65 3 1 0x00FF00 (Window 0 0 8 12); RectFront 20 18 9 9 7].
Lemma doubled_ok : buffers doubled (zeros 4096 8192).
Proof.
  split; [..| by apply const_bytes].
  - split; cbn; try done; try lia. apply const_mapped; lia.
  - split; cbn; try done; try lia. apply const_mapped; lia.
  - unfold in_buffer. cbn. lia.
Qed.
Lemma scene_pixels :
  picture_on letters doubled 4096 scene 3 3 = Some 0xFF0000 /\ picture_on letters doubled 4096 scene 6 3 = Some 0x00FF00 /\
  picture_on letters doubled 8192 scene 21 19 = Some 7.
Proof. by vm_compute. Qed.
Lemma gfx_double_buffering_witness : exists m1, draw_all scene doubled (zeros 4096 8192) = Ret m1 /\
  pixel doubled 4096 3 3 m1 = Ret 0xFF0000 /\ pixel doubled 4096 6 3 m1 = Ret 0x00FF00 /\ pixel doubled 8192 21 19 m1 = Ret 7 /\
  exists m2, gfx_present doubled m1 = Ret m2 /\ pixel doubled 8192 6 3 m2 = Ret 0x00FF00.
Proof.
  destruct scene_pixels as (E1 & E2 & E3).
  destruct (gfx_double_buffering letters doubled (zeros 4096 8192) scene 0 0 4 4 doubled_ok) as (m1 & E & _ & P & (m2 & E' & _ & P') & _);
    [discriminate | reflexivity | reflexivity | reflexivity | | unfold rect_fits, is_int; lia |].
  - unfold scene. repeat constructor; cbn; unfold is_u32, rect_fits, is_int, char_fits, window_fits, is_int; cbn; lia.
  - assert (forall x y, 0 <= x < 24 /\ 0 <= y < 20 -> on_screen doubled x y) as Ho by (unfold on_screen; cbn; auto).
    pose proof (P 4096 3 3 (or_introl eq_refl) (Ho 3 3 ltac:(lia))) as Q1. rewrite E1 in Q1.
    pose proof (P 4096 6 3 (or_introl eq_refl) (Ho 6 3 ltac:(lia))) as Q2. rewrite E2 in Q2.
    pose proof (P 8192 21 19 (or_intror eq_refl) (Ho 21 19 ltac:(lia))) as Q3. rewrite E3 in Q3.
    exists m1. split; [exact E |]. split; [exact Q1 |]. split; [exact Q2 |]. split; [exact Q3 |].
    exists m2. split; [exact E' |]. exact (eq_trans (P' 6 3 (Ho 6 3 ltac:(lia))) Q2).
Defined.
