(* ===== verification/Terminal.v ===== *)
(** * The terminal ([src/src/ui/terminal.c])

    The cells and the clipboard are in byte memory, from an [Allocator]; the rows of the
    cells are a ring of lines, [line_head] the row that is written.  Rendering calls the
    functions of [Gfx].  [NULL] is 0. *)
From S2P Require Import Prelude Interfaces Mem Gfx.

Definition SCROLLBACK_LINES : Z := 200.
Definition TERM_DEFAULT_FG : Z := 0xE6E6E6.
Definition TERM_DEFAULT_BG : Z := 0x0B0D12.

(** [terminal_t], its fields in groups. *)
Record area := Area { tx : Z; ty : Z; tw : Z; th : Z }.
Record grid := Grid { cols : Z; rows : Z; total_lines : Z; cells : Z }.
Record position := Position { cursor_x : Z; cursor_y : Z; line_head : Z; line_count : Z; view_offset : Z }.
Record board := Board { clipboard : Z; clipboard_len : Z; clipboard_cap : Z }.
Record terminal_t := Terminal { at_ : area; grid_ : grid; pos : position; fg : Z; bg : Z; board_ : board }.

Definition set_pos (p : position) (t : terminal_t) : terminal_t := Terminal (at_ t) (grid_ t) p (fg t) (bg t) (board_ t).
Definition set_grid (g : grid) (t : terminal_t) : terminal_t := Terminal (at_ t) g (pos t) (fg t) (bg t) (board_ t).
Definition set_area (a : area) (t : terminal_t) : terminal_t := Terminal a (grid_ t) (pos t) (fg t) (bg t) (board_ t).
Definition set_board (c : board) (t : terminal_t) : terminal_t := Terminal (at_ t) (grid_ t) (pos t) (fg t) (bg t) c.
Definition set_cursor_x (v : Z) (p : position) : position := Position v (cursor_y p) (line_head p) (line_count p) (view_offset p).
Definition set_view (v : Z) (p : position) : position := Position (cursor_x p) (cursor_y p) (line_head p) (line_count p) v.

Definition terminal_max_offset (t : terminal_t) : res Z :=
  available ← int_ok (line_count (pos t) - rows (grid_ t));
  let available := if available <? 0 then 0 else available in
  Ret (if total_lines (grid_ t) <? available then total_lines (grid_ t) else available).

(** [while (line < 0) line += total;] takes less than [- line] turns. *)
Fixpoint lift_line (fuel : nat) (line total : Z) : res Z :=
  if line <? 0 then match fuel with O => Spin | S fuel => lift_line fuel (line + total) total end else Ret line.
Definition terminal_line_index (t : terminal_t) (line : Z) : res Z :=
  let total := total_lines (grid_ t) in
  if total <=? 0 then Ret 0 else
  line ← lift_line (Z.to_nat (- line)) line total; Ret (Z.rem line total).
Definition terminal_line_ptr (t : terminal_t) (line : Z) : res Z :=
  i ← terminal_line_index t line; Ret (cells (grid_ t) + u64 (u64 i * u64 (cols (grid_ t)))).

(** [n] blanks from [p]. *)
Fixpoint blank_cells (n : nat) (p : Z) (m : mem) : res mem :=
  match n with O => Ret m | S n => m1 ← store m p 32; blank_cells n (p + 1) m1 end.
Definition terminal_clear_line (t : terminal_t) (line : Z) (m : mem) : res mem :=
  row ← terminal_line_ptr t line; blank_cells (Z.to_nat (cols (grid_ t))) row m.

Definition home : position := Position 0 0 0 1 0.
Definition terminal_clear (t : terminal_t) (m : mem) : res (terminal_t * mem) :=
  if cells (grid_ t) =? 0 then Ret (t, m) else
  n ← int_ok (cols (grid_ t) * total_lines (grid_ t));
  m ← blank_cells (Z.to_nat n) (cells (grid_ t)) m;
  Ret (set_pos home t, m).

(** A new line at the head of the ring; the view stays on the lines it shows. *)
Definition next_line (t : terminal_t) (m : mem) : res (terminal_t * mem) :=
  let p := pos t in let total := total_lines (grid_ t) in
  head ← int_ok (line_head p + 1);
  head ← (if total =? 0 then Fault else Ret (Z.rem head total));
  let t := set_pos (Position 0 (cursor_y p) head (line_count p) (view_offset p)) t in
  m ← terminal_clear_line t head m;
  count ← (if line_count p <? total then int_ok (line_count p + 1) else Ret (line_count p));
  let t := set_pos (Position 0 (cursor_y p) head count (view_offset p)) t in
  if 0 <? view_offset p then
    view ← int_ok (view_offset p + 1);
    max_offset ← terminal_max_offset t;
    Ret (set_pos (set_view (if max_offset <? view then max_offset else view) (pos t)) t, m)
  else Ret (t, m).

Definition terminal_putc (t : terminal_t) (c : Z) (m : mem) : res (terminal_t * mem) :=
  if cells (grid_ t) =? 0 then Ret (t, m) else
  if c =? 10 then next_line t m else
  if c =? 8 then
    if 0 <? cursor_x (pos t) then
      let t := set_pos (set_cursor_x (cursor_x (pos t) - 1) (pos t)) t in
      row ← terminal_line_ptr t (line_head (pos t));
      m ← store m (row + cursor_x (pos t)) 32; Ret (t, m)
    else Ret (t, m)
  else
    row ← terminal_line_ptr t (line_head (pos t));
    m ← store m (row + cursor_x (pos t)) (u8 c);
    cx ← int_ok (cursor_x (pos t) + 1);
    let t := set_pos (set_cursor_x cx (pos t)) t in
    if cols (grid_ t) <=? cx then next_line t m else Ret (t, m).

Fixpoint print_loop (fuel : nat) (t : terminal_t) (s : Z) (m : mem) : res (terminal_t * mem) :=
  c ← load m s;
  if c =? 0 then Ret (t, m) else
  match fuel with
  | O => Spin
  | S fuel => '(t, m) ← terminal_putc t c m; print_loop fuel t (s + 1) m
  end.
Definition terminal_print (t : terminal_t) (s : Z) (m : mem) : res (terminal_t * mem) := print_loop (str_fuel m) t s m.

(** *** Rendering *)
Definition clamp_view (t : terminal_t) : res terminal_t :=
  max_offset ← terminal_max_offset t;
  Ret (if max_offset <? view_offset (pos t) then set_pos (set_view max_offset (pos t)) t else t).
Definition top_line (t : terminal_t) : res Z :=
  a ← int_ok (rows (grid_ t) - 1); b ← int_ok (line_head (pos t) - a); int_ok (b - view_offset (pos t)).

Definition bounds (t : terminal_t) : window := Window (tx (at_ t)) (ty (at_ t)) (tw (at_ t)) (th (at_ t)).
Fixpoint render_cols (n : nat) (t : terminal_t) (line row col : Z) (g : statics) (m : mem) : res mem :=
  match n with
  | O => Ret m
  | S n =>
      c ← load m (line + col);
      px ← int_ok (tx (at_ t) + col * FONT_WIDTH);
      py ← int_ok (ty (at_ t) + row * FONT_HEIGHT);
      m ← (if negb (c =? 32) then gfx_draw_char_clipped c px py (fg t) (bounds t) g m else Ret m);
      render_cols n t line row (col + 1) g m
  end.
Fixpoint render_rows (n : nat) (t : terminal_t) (top row : Z) (g : statics) (m : mem) : res mem :=
  match n with
  | O => Ret m
  | S n =>
      l ← int_ok (top + row);
      line ← terminal_line_ptr t l;
      m ← render_cols (Z.to_nat (cols (grid_ t))) t line row 0 g m;
      render_rows n t top (row + 1) g m
  end.
Definition render_cursor (t : terminal_t) (g : statics) (m : mem) : res mem :=
  cursor_px ← int_ok (tx (at_ t) + cursor_x (pos t) * FONT_WIDTH);
  bottom ← int_ok (ty (at_ t) + (rows (grid_ t) - 1) * FONT_HEIGHT);
  bottom ← int_ok (bottom + FONT_HEIGHT);
  cursor_py ← int_ok (bottom - 2);
  gfx_draw_rect cursor_px cursor_py FONT_WIDTH 2 0xFFFFFF g m.
Definition terminal_render (t : terminal_t) (g : statics) (m : mem) : res (terminal_t * mem) :=
  if cells (grid_ t) =? 0 then Ret (t, m) else
  m ← gfx_draw_rect (tx (at_ t)) (ty (at_ t)) (tw (at_ t)) (th (at_ t)) (bg t) g m;
  t ← clamp_view t;
  top ← top_line t;
  m ← render_rows (Z.to_nat (rows (grid_ t))) t top 0 g m;
  m ← (if view_offset (pos t) =? 0 then render_cursor t g m else Ret m);
  Ret (t, m).

Definition terminal_scroll_up (t : terminal_t) : res terminal_t :=
  max_offset ← terminal_max_offset t;
  Ret (if view_offset (pos t) <? max_offset then set_pos (set_view (view_offset (pos t) + 1) (pos t)) t else t).
Definition terminal_scroll_down (t : terminal_t) : terminal_t :=
  if 0 <? view_offset (pos t) then set_pos (set_view (view_offset (pos t) - 1) (pos t)) t else t.

(** *** The clipboard *)
(** [while (end > 0 && line[end - 1] == ' ') end--;] *)
Fixpoint trim (n : nat) (line : Z) (m : mem) : res Z :=
  match n with
  | O => Ret 0
  | S n' => c ← load m (line + Z.of_nat n'); if c =? 32 then trim n' line m else Ret (Z.of_nat n)
  end.
Fixpoint needed_loop (n : nat) (t : terminal_t) (top row needed : Z) (m : mem) : res Z :=
  match n with
  | O => Ret needed
  | S n =>
      l ← int_ok (top + row); line ← terminal_line_ptr t l;
      e ← trim (Z.to_nat (cols (grid_ t))) line m;
      needed_loop n t top (row + 1) (u64 (needed + u64 (e + 1))) m
  end.
(** The clipboard is filled byte by byte; the result is the memory and [pos]. *)
Fixpoint copy_cols (n : nat) (line col clip p : Z) (m : mem) : res (mem * Z) :=
  match n with
  | O => Ret (m, p)
  | S n => c ← load m (line + col); m ← store m (clip + p) c; copy_cols n line (col + 1) clip (u64 (p + 1)) m
  end.
Fixpoint copy_rows (n : nat) (t : terminal_t) (top row clip p : Z) (m : mem) : res (mem * Z) :=
  match n with
  | O => Ret (m, p)
  | S n =>
      l ← int_ok (top + row); line ← terminal_line_ptr t l;
      e ← trim (Z.to_nat (cols (grid_ t))) line m;
      '(m, p) ← copy_cols (Z.to_nat e) line 0 clip p m;
      m ← store m (clip + p) 10;
      copy_rows n t top (row + 1) clip (u64 (p + 1)) m
  end.
Definition terminal_paste (t : terminal_t) (m : mem) : res (terminal_t * mem) :=
  if (clipboard (board_ t) =? 0) || (clipboard_len (board_ t) =? 0) then Ret (t, m)
  else terminal_print t (clipboard (board_ t)) m.

Section Alloc.
Context {A : Type} `{!Allocator A}.
Definition tstate : Type := terminal_t * mem * A.

Definition terminal_copy_visible (s : tstate) : res tstate :=
  let '(t, m, a) := s in
  if cells (grid_ t) =? 0 then Ret (t, m, a) else
  t ← clamp_view t;
  top ← top_line t;
  needed ← needed_loop (Z.to_nat (rows (grid_ t))) t top 0 0 m;
  if needed =? 0 then Ret (t, m, a) else
  '(t, a) ← (if clipboard (board_ t) =? 0 then Ret (t, a) else
    a ← a_free (Some (clipboard (board_ t))) a; Ret (set_board (Board 0 (clipboard_len (board_ t)) 0) t, a));
  '(p, a) ← a_malloc (u64 (needed + 1)) a;
  match p with
  | None => Ret (set_board (Board 0 (clipboard_len (board_ t)) (clipboard_cap (board_ t))) t, m, a)
  | Some clip =>
      let t := set_board (Board clip (clipboard_len (board_ t)) (u64 (needed + 1))) t in
      '(m, p) ← copy_rows (Z.to_nat (rows (grid_ t))) t top 0 clip 0 m;
      m ← store m (clip + p) 0;
      Ret (set_board (Board clip p (clipboard_cap (board_ t))) t, m, a)
  end.

Definition terminal_alloc_cells (s : tstate) : res tstate :=
  let '(t, m, a) := s in
  let cols_ := Z.quot (tw (at_ t)) FONT_WIDTH in
  let rows_ := Z.quot (th (at_ t)) FONT_HEIGHT in
  let cols_ := if cols_ <? 1 then 1 else cols_ in
  let rows_ := if rows_ <? 1 then 1 else rows_ in
  if (cols_ =? cols (grid_ t)) && (rows_ =? rows (grid_ t)) && negb (cells (grid_ t) =? 0) then Ret (t, m, a) else
  a ← (if cells (grid_ t) =? 0 then Ret a else a_free (Some (cells (grid_ t))) a);
  total ← int_ok (rows_ + SCROLLBACK_LINES);
  n ← int_ok (cols_ * total);
  '(p, a) ← a_malloc (u64 n) a;
  match p with
  | None => Ret (set_pos home (set_grid (Grid cols_ rows_ total 0) t), m, a)
  | Some p =>
      m ← blank_cells (Z.to_nat n) p m;
      Ret (set_pos home (set_grid (Grid cols_ rows_ total p) t), m, a)
  end.

Definition terminal_init (x y w h : Z) (m : mem) (a : A) : res tstate :=
  terminal_alloc_cells
    (Terminal (Area x y w h) (Grid 0 0 0 0) (Position 0 0 0 0 0) TERM_DEFAULT_FG TERM_DEFAULT_BG (Board 0 0 0), m, a).
Definition terminal_set_bounds (x y w h : Z) (s : tstate) : res tstate :=
  let '(t, m, a) := s in terminal_alloc_cells (set_area (Area x y w h) t, m, a).
End Alloc.
