(* ===== verification/TerminalProps.v ===== *)
(** * The terminal as a page of lines

    The ring of lines in memory represents a list of lines, the newest first; each call
    does to memory what its specification does to the list. *)
From S2P Require Import Prelude Interfaces Mem Gfx Terminal.

(** ** The specification *)
Record page := Page { lines : list (list Z); column : Z; count : Z; offset : Z }.

Section Page.
Context (cs rs : Z).
#[local] Abbreviation total := (rs + SCROLLBACK_LINES).
Definition blank_line : list Z := repeat 32 (Z.to_nat cs).
Definition max_offset (n : Z) : Z := Z.max 0 (n - rs).
Definition page_home : page := Page (repeat blank_line (Z.to_nat total)) 0 1 0.

(** The first line replaced. *)
Definition set_head (l : list Z) (p : page) : list (list Z) := l :: tail (lines p).
Definition head_line (p : page) : list Z := default [] (head (lines p)).

Definition page_next (p : page) : page :=
  let n := Z.min (count p + 1) total in
  Page (blank_line :: removelast (lines p)) 0 n (if 0 <? offset p then Z.min (offset p + 1) (max_offset n) else offset p).
Definition page_putc (p : page) (c : Z) : page :=
  if c =? 10 then page_next p else
  if c =? 8 then
    if 0 <? column p then Page (set_head (<[Z.to_nat (column p - 1) := 32]> (head_line p)) p) (column p - 1) (count p) (offset p) else p
  else
    let p' := Page (set_head (<[Z.to_nat (column p) := c]> (head_line p)) p) (column p + 1) (count p) (offset p) in
    if cs <=? column p + 1 then page_next p' else p'.
Definition page_print (p : page) (s : list Z) : page := foldl page_putc p s.
Definition page_up (p : page) : page :=
  Page (lines p) (column p) (count p) (if offset p <? max_offset (count p) then offset p + 1 else offset p).
Definition page_down (p : page) : page :=
  Page (lines p) (column p) (count p) (if 0 <? offset p then offset p - 1 else offset p).
(** The lines on the screen, from the top. *)
Definition visible (p : page) : list (list Z) := reverse (take (Z.to_nat rs) (drop (Z.to_nat (offset p)) (lines p))).

(** A page of the right shape. *)
Record page_ok (p : page) : Prop := PageOk {
  p_total : Z.of_nat (length (lines p)) = total;
  p_cols : Forall (fun l => Z.of_nat (length l) = cs) (lines p);
  p_column : 0 <= column p < cs;
  p_count : 1 <= count p <= total;
  p_offset : 0 <= offset p <= max_offset (count p);
}.
End Page.

(** ** Lists in memory *)
Definition holds (m : mem) (a : Z) (l : list Z) : Prop := forall i : nat, (i < length l)%nat -> m !! (a + Z.of_nat i) = l !! i.

Lemma holds_frame m m' a l : holds m a l -> (forall x, a <= x < a + Z.of_nat (length l) -> m' !! x = m !! x) -> holds m' a l.
Proof. intros H E i Hi. rewrite E by lia. by apply H. Qed.
Lemma holds_insert m a l i v : holds m a l -> (i < length l)%nat -> holds (<[a + Z.of_nat i := v]> m) a (<[i := v]> l).
Proof.
  intros H Hi j Hj. rewrite length_insert in Hj. destruct (decide (j = i)) as [->|Hne].
  - by rewrite lookup_insert_eq, list_lookup_insert_eq by done.
  - rewrite lookup_insert_ne, list_lookup_insert_ne by lia. by apply H.
Qed.
Lemma holds_load m a l i c : holds m a l -> l !! i = Some c -> load m (a + Z.of_nat i) = Ret c.
Proof. intros H Hi. unfold load. rewrite H; [by rewrite Hi | by eapply lookup_lt_Some]. Qed.

Definition keeps (lo n : Z) (m m' : mem) : Prop := forall x, ~ (lo <= x < lo + n) -> m' !! x = m !! x.
Lemma keeps_refl lo n m : keeps lo n m m.
Proof. done. Qed.
Lemma keeps_trans lo n m m1 m' : keeps lo n m m1 -> keeps lo n m1 m' -> keeps lo n m m'.
Proof. intros H1 H2 x Hx. by rewrite H2, H1. Qed.
Lemma keeps_sub lo n lo' n' m m' : keeps lo n m m' -> lo' <= lo -> lo + n <= lo' + n' -> keeps lo' n' m m'.
Proof. intros H ? ? x Hx. apply H. lia. Qed.

Lemma blank_cells_ok n : forall m p, mapped m p (Z.of_nat n) ->
  exists m', blank_cells n p m = Ret m' /\ keeps p (Z.of_nat n) m m' /\ forall x, p <= x < p + Z.of_nat n -> m' !! x = Some 32.
Proof.
  induction n as [|n IH]; intros m p Hm; cbn [blank_cells].
  - exists m. split; [done |]. split; [apply keeps_refl | lia].
  - rewrite (bind_ret _ _ _ (store_ok m p 32 (Hm p ltac:(lia)))).
    destruct (IH (<[p := 32]> m) (p + 1)) as (m' & E & K & H).
    { intros x Hx. rewrite lookup_insert_ne by lia. apply Hm. lia. }
    exists m'. split; [done |]. split.
    + intros x Hx. rewrite K, lookup_insert_ne by lia. done.
    + intros x Hx. destruct (decide (x = p)) as [->|Hne]; [rewrite K by lia; by rewrite lookup_insert_eq | apply H; lia].
Qed.

(** ** The ring of lines *)
Section Terminal.
Implicit Types t : terminal_t.
Implicit Types p : page.
Implicit Types m : mem.
#[local] Abbreviation cs t := (cols (grid_ t)).
#[local] Abbreviation rs t := (rows (grid_ t)).
#[local] Abbreviation total t := (total_lines (grid_ t)).
Definition cells_size t : Z := cs t * total t.
Definition row_addr t (j : Z) : Z := cells (grid_ t) + j * cs t.
(** The ring index of line [i], counted from the newest. *)
Definition ring_index t (i : Z) : Z := (line_head (pos t) - i) mod total t.

Record grid_ok t : Prop := GridOk {
  g_cols : 1 <= cs t;
  g_rows : 1 <= rs t;
  g_total : total t = rs t + SCROLLBACK_LINES;
  g_size : cells_size t < 2 ^ 31;
  g_cells : cells (grid_ t) <> 0;
  g_head : 0 <= line_head (pos t) < total t;
}.
(** The terminal shows page [p]. *)
Record shows t m p : Prop := Shows {
  sh_ok : page_ok (cs t) (rs t) p;
  sh_column : cursor_x (pos t) = column p;
  sh_count : line_count (pos t) = count p;
  sh_offset : view_offset (pos t) = offset p;
  sh_lines : forall (i : nat) l, lines p !! i = Some l -> holds m (row_addr t (ring_index t (Z.of_nat i))) l;
}.

Lemma total_bound t : grid_ok t -> 0 < total t < 2 ^ 31 /\ total t <= cells_size t /\ cs t <= cells_size t.
Proof.
  intros [H1 H2 H3 Hs _ _]. unfold cells_size, SCROLLBACK_LINES in *.
  pose proof (Z.mul_le_mono_nonneg_r 1 (cs t) (total t) ltac:(lia) H1). pose proof (Z.mul_le_mono_nonneg_l 1 (total t) (cs t) ltac:(lia) ltac:(lia)). lia.
Qed.

Lemma ring_range t i : grid_ok t -> 0 <= ring_index t i < total t.
Proof. intros G. pose proof (total_bound t G). apply Z.mod_pos_bound. lia. Qed.
Lemma ring_inj t i j : grid_ok t -> 0 <= i < total t -> 0 <= j < total t -> ring_index t i = ring_index t j -> i = j.
Proof.
  intros G Hi Hj E. pose proof (total_bound t G). unfold ring_index in E.
  pose proof (Z.div_mod (line_head (pos t) - i) (total t) ltac:(lia)) as E1.
  pose proof (Z.div_mod (line_head (pos t) - j) (total t) ltac:(lia)) as E2. rewrite <- E in E2.
  generalize dependent ((line_head (pos t) - i) mod total t). generalize ((line_head (pos t) - i) / total t) as q1.
  generalize ((line_head (pos t) - j) / total t) as q2. generalize dependent (total t). intros n. intros.
  assert (q1 = q2) by nia. subst. lia.
Qed.
Lemma ring_head t : grid_ok t -> ring_index t 0 = line_head (pos t).
Proof. intros G. pose proof (g_head t G). unfold ring_index. rewrite Z.sub_0_r. by apply Z.mod_small. Qed.

(** Rows lie in the cells and do not overlap. *)
Lemma row_in t j : grid_ok t -> 0 <= j < total t ->
  cells (grid_ t) <= row_addr t j /\ row_addr t j + cs t <= cells (grid_ t) + cells_size t.
Proof. intros G Hj. pose proof (g_cols t G). unfold row_addr, cells_size. nia. Qed.
Lemma row_apart t j k : grid_ok t -> j <> k -> row_addr t j + cs t <= row_addr t k \/ row_addr t k + cs t <= row_addr t j.
Proof. intros G Hne. pose proof (g_cols t G). unfold row_addr. nia. Qed.

Lemma line_index_ok t i : grid_ok t -> - total t <= i -> i < total t -> terminal_line_index t i = Ret (i mod total t).
Proof.
  intros G H1 H2. pose proof (total_bound t G). unfold terminal_line_index.
  rewrite (proj2 (Z.leb_gt (total t) 0)) by lia.
  assert (lift_line (Z.to_nat (- i)) i (total t) = Ret (if i <? 0 then i + total t else i)) as ->.
  { destruct (Z.ltb_spec i 0).
    - replace (Z.to_nat (- i)) with (S (Z.to_nat (- i - 1))) by lia. cbn [lift_line].
      rewrite (proj2 (Z.ltb_lt i 0)) by done.
      destruct (Z.to_nat (- i - 1)); cbn [lift_line]; by rewrite (proj2 (Z.ltb_ge (i + total t) 0)) by lia.
    - destruct (Z.to_nat (- i)); cbn [lift_line]; by rewrite (proj2 (Z.ltb_ge i 0)) by lia. }
  cbn [mbind res_bind]. f_equal. destruct (Z.ltb_spec i 0).
  - rewrite Z.rem_mod_nonneg by lia. replace (i + total t) with (i + 1 * total t) by lia. by rewrite Z_mod_plus_full.
  - by rewrite Z.rem_mod_nonneg by lia.
Qed.
Lemma line_ptr_ok t i : grid_ok t -> - total t <= i -> i < total t -> terminal_line_ptr t i = Ret (row_addr t (i mod total t)).
Proof.
  intros G H1 H2. pose proof (total_bound t G). unfold terminal_line_ptr. rewrite (bind_ret _ _ _ (line_index_ok t i G H1 H2)).
  pose proof (Z.mod_pos_bound i (total t) ltac:(lia)). pose proof (g_cols t G). pose proof (g_size t G).
  generalize dependent (i mod total t). intros j Hj.
  pose proof (row_in t j G Hj) as [Hlo Hhi]. unfold row_addr in *.
  rewrite (u64_id j), (u64_id (cs t)), (u64_id (j * cs t)) by (unfold is_u64; lia). done.
Qed.

Lemma max_offset_ok t n : grid_ok t -> line_count (pos t) = n -> 1 <= n <= total t -> terminal_max_offset t = Ret (max_offset (rs t) n).
Proof.
  intros G Hn Hr. pose proof (total_bound t G). pose proof (g_rows t G). pose proof (g_total t G). unfold terminal_max_offset, max_offset.
  rewrite Hn. unfold SCROLLBACK_LINES in *. int_step. cbv zeta. f_equal. destruct (Z.ltb_spec (n - rs t) 0); leb_cases; lia.
Qed.

(** *** Storing into the newest line *)
Lemma shows_frame t m m' p : grid_ok t -> shows t m p -> (forall x, cells (grid_ t) <= x < cells (grid_ t) + cells_size t -> m' !! x = m !! x) -> shows t m' p.
Proof.
  intros G [Ok H1 H2 H3 H4] E. split; try done. intros i l Hl. eapply holds_frame; [by apply H4 |].
  intros y Hy. apply E. pose proof (row_in t _ G (ring_range t (Z.of_nat i) G)).
  pose proof (proj1 (Forall_lookup _ _) (p_cols _ _ _ Ok) i l Hl) as Hlen. cbn in Hlen. lia.
Qed.

Lemma head_line_lookup t m p : grid_ok t -> shows t m p -> lines p !! 0%nat = Some (head_line p) /\ Z.of_nat (length (head_line p)) = cs t.
Proof.
  intros G [[Ht Hc _ _ _] _ _ _ _]. pose proof (total_bound t G). pose proof (g_total t G).
  unfold head_line. destruct (lines p) as [|l ls]; cbn in *; [lia |]. split; [done |]. by apply Forall_cons in Hc as [? _].
Qed.

Lemma set_cell t m p c cx : grid_ok t -> shows t m p -> mapped m (cells (grid_ t)) (cells_size t) -> 0 <= cx < cs t ->
  let m' := <[row_addr t (line_head (pos t)) + cx := c]> m in
  store m (row_addr t (line_head (pos t)) + cx) c = Ret m' /\ keeps (cells (grid_ t)) (cells_size t) m m' /\
  mapped m' (cells (grid_ t)) (cells_size t) /\
  shows t m' (Page (set_head (<[Z.to_nat cx := c]> (head_line p)) p) (column p) (count p) (offset p)).
Proof.
  intros G Sh Hm Hcx m'. pose proof (row_in t _ G (g_head t G)) as Hr.
  destruct (head_line_lookup t m p G Sh) as [H0 Hl0]. destruct Sh as [[Ht Hc Hcol Hcnt Hoff] H1 H2 H3 H4].
  split; [apply store_ok, Hm; lia |]. split; [intros y Hy; unfold m'; rewrite lookup_insert_ne by lia; done |].
  split; [intros y Hy; unfold m'; rewrite lookup_insert; case_decide; [by eexists | by apply Hm] |].
  assert (lines p = head_line p :: tail (lines p)) as El by (destruct (lines p); [done | cbn in H0; by injection H0 as ->]).
  split; try done.
  - split; try done; cbn; unfold set_head.
    + rewrite El in Ht. exact Ht.
    + rewrite El in Hc. apply Forall_cons in Hc as [_ Hc]. apply Forall_cons. split; [by rewrite length_insert | done].
  - intros [|i] l Hl; cbn in Hl.
    + injection Hl as <-. rewrite ring_head by done. unfold m'. replace cx with (Z.of_nat (Z.to_nat cx)) at 1 by lia.
      apply holds_insert; [| lia]. specialize (H4 0%nat _ H0). by rewrite ring_head in H4.
    + assert (lines p !! S i = Some l) as Hl' by (by rewrite El). eapply holds_frame; [by apply H4 |].
      intros y Hy. unfold m'. rewrite lookup_insert_ne; [done |].
      pose proof (proj1 (Forall_lookup _ _) Hc _ l Hl') as Hlen. cbn in Hlen.
      pose proof (lookup_lt_Some _ _ _ Hl'). pose proof (total_bound t G). pose proof (g_total t G).
      assert (ring_index t (Z.of_nat (S i)) <> line_head (pos t)) as Hne.
      { rewrite <- ring_head by done. intros E%(ring_inj t _ 0 G); lia. }
      destruct (row_apart t _ _ G Hne); lia.
Qed.

(** ** The operations on the page *)
(** What a call that writes text leaves: only the position and the cells change. *)
Definition writes t m t' m' : Prop :=
  keeps (cells (grid_ t)) (cells_size t) m m' /\ mapped m' (cells (grid_ t)) (cells_size t) /\
  grid_ t' = grid_ t /\ at_ t' = at_ t /\ board_ t' = board_ t /\ fg t' = fg t /\ bg t' = bg t.
Lemma writes_size t m t' m' : writes t m t' m' -> cells (grid_ t') = cells (grid_ t) /\ cells_size t' = cells_size t.
Proof. intros (_ & _ & E & _). unfold cells_size. by rewrite E. Qed.
Lemma writes_trans t m t1 m1 t' m' : writes t m t1 m1 -> writes t1 m1 t' m' -> writes t m t' m'.
Proof.
  intros W1 W2. destruct (writes_size _ _ _ _ W1) as [E1 E2]. destruct W1 as (K1 & M1 & G1 & A1 & B1 & F1 & X1), W2 as (K2 & M2 & G2 & A2 & B2 & F2 & X2).
  rewrite E1, E2 in *. split; [by eapply keeps_trans |]. split; [done |]. by rewrite G2, A2, B2, F2, X2.
Qed.

Lemma repeat_lookup {X} (a : X) n i : (i < n)%nat -> repeat a n !! i = Some a.
Proof. revert i. induction n as [|n IH]; intros [|i] Hi; [lia | lia | done |]. apply IH. lia. Qed.
Lemma removelast_lookup {X} (l : list X) i x : removelast l !! i = Some x -> l !! i = Some x /\ (S i < length l)%nat.
Proof.
  revert i. induction l as [|y l IH]; intros i; [by rewrite lookup_nil |]. destruct l as [|z l]; [done |].
  destruct i as [|i]; cbn [removelast lookup list_lookup]; [intros [= ->]; cbn; split; [done | lia] |].
  intros H%IH. cbn in *. lia || (destruct H; split; [done | lia]).
Qed.
Lemma length_removelast {X} (l : list X) : length (removelast l) = (length l - 1)%nat.
Proof. induction l as [|x [|y l] IH]; [done | done |]. cbn [removelast length] in *. lia. Qed.
Lemma Forall_removelast {X} (P : X -> Prop) l : Forall P l -> Forall P (removelast l).
Proof. intros H. apply Forall_lookup. intros i x [Hi _]%removelast_lookup. by apply (proj1 (Forall_lookup _ _) H i). Qed.

Lemma page_next_ok cs rs p : 1 <= cs -> 1 <= rs -> page_ok cs rs (Page (lines p) 0 (count p) (offset p)) ->
  page_ok cs rs (page_next cs rs p).
Proof.
  intros Hc Hr [H1 H2 _ H4 H5].
  unfold page_next, max_offset, SCROLLBACK_LINES in *. cbn in *. split; cbn.
  - rewrite length_removelast. unfold SCROLLBACK_LINES. lia.
  - apply Forall_cons. split; [| by apply Forall_removelast]. unfold blank_line. rewrite repeat_length. lia.
  - lia.
  - unfold SCROLLBACK_LINES. lia.
  - unfold SCROLLBACK_LINES, max_offset. destruct (Z.ltb_spec 0 (offset p)); lia.
Qed.

(** The index of line [i] after the head has moved. *)
Lemma ring_step t t' i : grid_ok t -> grid_ t' = grid_ t -> line_head (pos t') = (line_head (pos t) + 1) mod total t ->
  ring_index t' (i + 1) = ring_index t i.
Proof.
  intros G E Hh. pose proof (total_bound t G). unfold ring_index. rewrite E, Hh, Zminus_mod_idemp_l. f_equal. lia.
Qed.

(** A page whose column may be one too far, as before a line break. *)
Record shows_full t m p : Prop := ShowsFull {
  sf_shows : shows (set_pos (set_cursor_x 0 (pos t)) t) m (Page (lines p) 0 (count p) (offset p));
}.
Lemma shows_full_of t m p : grid_ok t -> shows t m p -> shows_full t m p.
Proof.
  intros G [[] H1 H2 H3 H4]. split. split; cbn; try done. split; cbn; try done. pose proof (g_cols t G). lia.
Qed.

Lemma next_line_ok t m p : grid_ok t -> mapped m (cells (grid_ t)) (cells_size t) -> shows_full t m p ->
  exists t' m', next_line t m = Ret (t', m') /\ grid_ok t' /\ writes t m t' m' /\ shows t' m' (page_next (cs t) (rs t) p).
Proof.
  intros G Hm [[Ok _ Hcnt Hoff Hl]]. cbn in Hcnt, Hoff. pose proof (total_bound t G) as (T1 & T2 & T3). pose proof (g_head t G) as Hh.
  pose proof (g_cols t G). pose proof (g_rows t G). pose proof (g_total t G) as Ht. pose proof (g_size t G).
  pose proof (p_count _ _ _ Ok) as Hc. pose proof (p_offset _ _ _ Ok) as Ho. cbn in Hc, Ho.
  unfold next_line. int_step. rewrite (proj2 (Z.eqb_neq (total t) 0)) by lia. cbn [mbind res_bind].
  rewrite Z.rem_mod_nonneg by lia. set (hd := (line_head (pos t) + 1) mod total t).
  assert (0 <= hd < total t) as Hhd by (apply Z.mod_pos_bound; lia).
  set (t1 := set_pos (Position 0 (cursor_y (pos t)) hd (line_count (pos t)) (view_offset (pos t))) t).
  assert (grid_ok t1) as G1 by (destruct G; by split).
  unfold terminal_clear_line. rewrite (bind_ret _ _ _ (line_ptr_ok t1 hd G1 ltac:(cbn; lia) ltac:(cbn; lia))).
  cbn [grid_ t1 set_pos]. rewrite (Z.mod_small hd (total t)) by done.
  pose proof (row_in t hd G Hhd) as Hrow. change (row_addr t1 hd) with (row_addr t hd).
  destruct (blank_cells_ok (Z.to_nat (cs t)) m (row_addr t hd)) as (m' & E & K & Hb); [eapply mapped_sub; [exact Hm | lia | lia] |].
  rewrite (bind_ret _ _ _ E). rewrite Z2Nat.id in K, Hb by lia.
  set (n := Z.min (count p + 1) (rs t + SCROLLBACK_LINES)).
  assert ((if line_count (pos t) <? total t then int_ok (line_count (pos t) + 1) else Ret (line_count (pos t))) = Ret n) as En.
  { destruct (Z.ltb_spec (line_count (pos t)) (total t)); [rewrite int_ok_ret by (unfold is_int; lia) |]; unfold n; f_equal; lia. }
  rewrite (bind_ret _ _ _ En).
  assert (forall t', grid_ t' = grid_ t -> line_head (pos t') = hd -> cursor_x (pos t') = 0 -> line_count (pos t') = n ->
    view_offset (pos t') = (if 0 <? offset p then Z.min (offset p + 1) (max_offset (rs t) n) else offset p) ->
    at_ t' = at_ t -> board_ t' = board_ t -> fg t' = fg t -> bg t' = bg t ->
    grid_ok t' /\ writes t m t' m' /\ shows t' m' (page_next (cs t) (rs t) p)) as Hfin.
  { intros t' Eg Eh Ex Ec Ev Ea Eb Ef Ebg. split; [destruct G; split; rewrite ?Eg, ?Eh; try done; unfold cells_size in *; by rewrite Eg |].
    split.
    { split; [by eapply keeps_sub; [exact K | lia | lia] |]. split; [| done]. intros y Hy.
      destruct (decide (row_addr t hd <= y < row_addr t hd + cs t)); [rewrite Hb by done; by eexists | rewrite K by done; by apply Hm]. }
    split; rewrite ?Eg; try done; [by apply page_next_ok |]. intros i l Hi.
    assert (row_addr t' (ring_index t' (Z.of_nat i)) = row_addr t (ring_index t' (Z.of_nat i))) as -> by (unfold row_addr; by rewrite Eg).
    destruct i as [|i]; cbn [page_next lines] in Hi.
    - injection Hi as <-. unfold ring_index. rewrite Eg, Eh, Z.sub_0_r, Z.mod_small by done.
      intros j Hj. unfold blank_line in *. rewrite repeat_length in Hj. rewrite Hb by lia. symmetry. by apply repeat_lookup.
    - apply removelast_lookup in Hi as [Hi Hlt]. rewrite Nat2Z.inj_succ, <- Z.add_1_r, (ring_step t t') by done.
      pose proof (proj1 (Forall_lookup _ _) (p_cols _ _ _ Ok) i l Hi) as Hlen. cbn in Hlen.
      eapply holds_frame; [by apply Hl |]. intros y Hy. apply K.
      assert (ring_index t (Z.of_nat i) <> hd) as Hne.
      { assert (hd = ring_index t (total t - 1)) as ->.
        { unfold ring_index, hd. replace (line_head (pos t) - (total t - 1)) with (line_head (pos t) + 1 + (-1) * total t) by lia.
          by rewrite Z_mod_plus_full. }
        pose proof (p_total _ _ _ Ok) as Hpt. cbn in Hpt. intros E'%(ring_inj t _ _ G); lia. }
      destruct (row_apart t _ _ G Hne); lia. }
  cbn [pos set_pos view_offset]. rewrite Hoff. destruct (Z.ltb_spec 0 (offset p)) as [Hv|Hv].
  - unfold max_offset, SCROLLBACK_LINES in Ho. int_step.
    rewrite (bind_ret _ _ _ (max_offset_ok (set_pos (Position 0 (cursor_y (pos t)) hd n (offset p)) t) n ltac:(destruct G; by split) eq_refl ltac:(unfold n; cbn; lia))).
    eexists _, m'. split; [reflexivity |]. apply Hfin; try done. cbn. destruct (Z.ltb_spec (max_offset (rs t) n) (offset p + 1)); lia.
  - eexists _, m'. split; [reflexivity |]. by apply Hfin.
Qed.

Lemma set_cursor_ok t x : grid_ok t -> grid_ok (set_pos (set_cursor_x x (pos t)) t).
Proof. intros []. by split. Qed.
Lemma set_view_ok t v : grid_ok t -> grid_ok (set_pos (set_view v (pos t)) t).
Proof. intros []. by split. Qed.

Lemma head_ptr_ok t : grid_ok t -> terminal_line_ptr t (line_head (pos t)) = Ret (row_addr t (line_head (pos t))).
Proof. intros G. pose proof (g_head t G). rewrite line_ptr_ok by (done || lia). by rewrite Z.mod_small. Qed.

Lemma putc_ok t m p c : grid_ok t -> mapped m (cells (grid_ t)) (cells_size t) -> shows t m p -> is_u8 c ->
  exists t' m', terminal_putc t c m = Ret (t', m') /\ grid_ok t' /\ writes t m t' m' /\ shows t' m' (page_putc (cs t) (rs t) p c).
Proof.
  intros G Hm Sh Hc. pose proof (total_bound t G) as (T1 & T2 & T3). pose proof (g_size t G).
  pose proof (p_column _ _ _ (sh_ok _ _ _ Sh)) as Hcol. pose proof (sh_column _ _ _ Sh) as Hcx.
  unfold terminal_putc, page_putc. rewrite (proj2 (Z.eqb_neq _ _) (g_cells t G)).
  destruct (c =? 10); [apply next_line_ok; [done | done | by apply shows_full_of] |].
  destruct (c =? 8).
  - rewrite Hcx. destruct (Z.ltb_spec 0 (column p)).
    + set (t1 := set_pos (set_cursor_x (column p - 1) (pos t)) t).
      assert (grid_ok t1) as G1 by (by apply set_cursor_ok).
      rewrite (bind_ret _ _ _ (head_ptr_ok t1 G1)).
      destruct (set_cell t m p 32 (column p - 1) G Sh Hm ltac:(lia)) as (E & K & M & S1).
      change (row_addr t1 (line_head (pos t1))) with (row_addr t (line_head (pos t))). cbn [cursor_x pos t1 set_pos set_cursor_x].
      rewrite (bind_ret _ _ _ E). eexists t1, _. split; [reflexivity |]. split; [done |]. split; [by split |].
      destruct S1 as [[] ? ? ? ?]. split; try done. split; try done. cbn in *. lia.
    + exists t, m. do 2 (split; [done |]). split; [by split | done].
  - rewrite (bind_ret _ _ _ (head_ptr_ok t G)). rewrite u8_id by done. rewrite Hcx.
    destruct (set_cell t m p c (column p) G Sh Hm ltac:(lia)) as (E & K & M & S1).
    rewrite (bind_ret _ _ _ E). set (m1 := <[_ := c]> m) in *. int_step. cbv zeta.
    set (t1 := set_pos (set_cursor_x (column p + 1) (pos t)) t).
    change (cols (grid_ t1)) with (cs t).
    set (p1 := Page (set_head (<[Z.to_nat (column p) := c]> (head_line p)) p) (column p + 1) (count p) (offset p)).
    assert (writes t m t1 m1) as W by (by split). destruct (Z.leb_spec (cs t) (column p + 1)).
    + destruct (next_line_ok t1 m1 p1) as (t' & m' & E' & G' & W' & S'); [by apply set_cursor_ok | done | |].
      { split. destruct S1 as [[] ? ? ? ?]. split; try done. split; try done. cbn. pose proof (g_cols t G). lia. }
      exists t', m'. split; [done |]. split; [done |]. split; [by eapply writes_trans | done].
    + eexists t1, _. split; [reflexivity |]. split; [by apply set_cursor_ok |]. split; [done |].
      destruct S1 as [[] ? ? ? ?]. split; try done. split; try done. cbn in *. lia.
Qed.

Lemma cstr_keeps m m' lo n str : forall s, keeps lo n m m' -> s + Z.of_nat (length str) < lo \/ lo + n <= s -> cstr m s str -> cstr m' s str.
Proof.
  induction str as [|c str IH]; intros s K Ha H; cbn [cstr length] in *; [by rewrite K by lia |].
  destruct H as (H1 & H2 & H3). split; [by rewrite K by lia |]. split; [done |]. apply IH; [done | lia | done].
Qed.

Lemma print_loop_ok str : forall fuel t m p s, grid_ok t -> mapped m (cells (grid_ t)) (cells_size t) -> shows t m p ->
  Forall is_u8 str -> cstr m s str -> s + Z.of_nat (length str) < cells (grid_ t) \/ cells (grid_ t) + cells_size t <= s ->
  (length str <= fuel)%nat ->
  exists t' m', print_loop fuel t s m = Ret (t', m') /\ grid_ok t' /\ writes t m t' m' /\ shows t' m' (page_print (cs t) (rs t) p str).
Proof.
  induction str as [|c str IH]; intros fuel t m p s G Hm Sh Hu Hs Ha Hf; cbn [cstr length] in *.
  - exists t, m. split; [destruct fuel; cbn [print_loop]; unfold load; by rewrite Hs |]. split; [done |]. split; [by split | done].
  - destruct Hs as (H1 & H2 & H3). apply Forall_cons in Hu as [Hc Hu]. destruct fuel as [|fuel]; [lia |].
    cbn [print_loop]. unfold load. rewrite H1. cbn [of_option mbind res_bind]. rewrite (proj2 (Z.eqb_neq _ _) H2).
    destruct (putc_ok t m p c G Hm Sh Hc) as (t1 & m1 & E & G1 & W1 & S1). rewrite (bind_ret _ _ _ E).
    destruct (writes_size _ _ _ _ W1) as [E1 E2]. pose proof W1 as (K & M & Eg & _).
    destruct (IH fuel t1 m1 (page_putc (cs t) (rs t) p c) (s + 1)) as (t' & m' & E' & G' & W' & S'); try done; rewrite ?E1, ?E2; try done; try lia.
    { eapply cstr_keeps; [exact K | lia | done]. }
    exists t', m'. rewrite Eg in S'. split; [done |]. split; [done |]. split; [by eapply writes_trans | done].
Qed.

Lemma print_ok t m p s str : grid_ok t -> mapped m (cells (grid_ t)) (cells_size t) -> shows t m p ->
  Forall is_u8 str -> cstr m s str -> s + Z.of_nat (length str) < cells (grid_ t) \/ cells (grid_ t) + cells_size t <= s ->
  exists t' m', terminal_print t s m = Ret (t', m') /\ grid_ok t' /\ writes t m t' m' /\ shows t' m' (page_print (cs t) (rs t) p str).
Proof. intros. apply print_loop_ok; try done. pose proof (cstr_fuel _ _ _ H3). lia. Qed.

(** A blank page. *)
Lemma page_home_ok cs rs : 1 <= cs -> 1 <= rs -> page_ok cs rs (page_home cs rs).
Proof.
  intros Hc Hr. unfold page_home, SCROLLBACK_LINES, max_offset. split; cbn.
  - rewrite repeat_length. unfold SCROLLBACK_LINES. lia.
  - apply Forall_forall. intros l Hl%list_elem_of_In%repeat_spec. subst. unfold blank_line. rewrite repeat_length. lia.
  - lia.
  - unfold SCROLLBACK_LINES. lia.
  - unfold max_offset. lia.
Qed.
Lemma blank_shows t m : grid_ok t -> pos t = home -> (forall x, cells (grid_ t) <= x < cells (grid_ t) + cells_size t -> m !! x = Some 32) ->
  shows t m (page_home (cs t) (rs t)).
Proof.
  intros G Hp Hb. pose proof (g_cols t G). split; rewrite ?Hp; try done; [apply page_home_ok; apply G |].
  intros i l Hi. cbn in Hi. assert (l = blank_line (cs t)) as ->.
  { apply list_elem_of_lookup_2, list_elem_of_In, repeat_spec in Hi. done. }
  intros j Hj. unfold blank_line in *. rewrite repeat_length in Hj. rewrite repeat_lookup by done.
  apply Hb. pose proof (row_in t _ G (ring_range t (Z.of_nat i) G)). lia.
Qed.

Lemma clear_ok t m : grid_ok t -> mapped m (cells (grid_ t)) (cells_size t) ->
  exists m', terminal_clear t m = Ret (set_pos home t, m') /\ grid_ok (set_pos home t) /\ writes t m (set_pos home t) m' /\
    shows (set_pos home t) m' (page_home (cs t) (rs t)).
Proof.
  intros G Hm. pose proof (total_bound t G) as (T1 & T2 & T3). pose proof (g_size t G) as Hs. pose proof (g_cols t G).
  assert (grid_ok (set_pos home t)) as G' by (destruct G; split; cbn; (done || lia)).
  unfold terminal_clear. rewrite (proj2 (Z.eqb_neq _ _) (g_cells t G)).
  fold (cells_size t). int_step.
  destruct (blank_cells_ok (Z.to_nat (cells_size t)) m (cells (grid_ t))) as (m' & E & K & Hb); [by rewrite Z2Nat.id by lia |].
  rewrite Z2Nat.id in K, Hb by lia. rewrite (bind_ret _ _ _ E). exists m'. split; [done |]. split; [done |].
  split; [split; [done |]; split; [intros y Hy; rewrite Hb by done; by eexists | done] | by apply (blank_shows (set_pos home t))].
Qed.

(** *** The view *)
Lemma view_shows t m p v : shows t m p -> 0 <= v <= max_offset (rs t) (count p) ->
  shows (set_pos (set_view v (pos t)) t) m (Page (lines p) (column p) (count p) v).
Proof. intros [[] H1 H2 H3 H4] Hv. by split. Qed.

Lemma scroll_up_ok t m p : grid_ok t -> shows t m p ->
  exists t', terminal_scroll_up t = Ret t' /\ grid_ok t' /\ grid_ t' = grid_ t /\ at_ t' = at_ t /\ board_ t' = board_ t /\
    shows t' m (page_up (rs t) p).
Proof.
  intros G Sh. destruct (p_count _ _ _ (sh_ok _ _ _ Sh)). pose proof (p_offset _ _ _ (sh_ok _ _ _ Sh)). unfold terminal_scroll_up.
  rewrite (bind_ret _ _ _ (max_offset_ok t _ G (sh_count _ _ _ Sh) ltac:(rewrite (g_total t G); lia))).
  eexists. split; [reflexivity |]. rewrite (sh_offset _ _ _ Sh). unfold page_up.
  destruct (Z.ltb_spec (offset p) (max_offset (rs t) (count p))).
  - split; [by apply set_view_ok |]. do 3 (split; [done |]). apply view_shows; [done | lia].
  - do 4 (split; [done |]). by destruct p.
Qed.
Lemma scroll_down_ok t m p : grid_ok t -> shows t m p ->
  let t' := terminal_scroll_down t in grid_ok t' /\ grid_ t' = grid_ t /\ at_ t' = at_ t /\ board_ t' = board_ t /\ shows t' m (page_down p).
Proof.
  intros G Sh. pose proof (p_offset _ _ _ (sh_ok _ _ _ Sh)). unfold terminal_scroll_down, page_down. rewrite (sh_offset _ _ _ Sh).
  destruct (Z.ltb_spec 0 (offset p)).
  - split; [by apply set_view_ok |]. do 3 (split; [done |]). apply view_shows; [done | lia].
  - do 4 (split; [done |]). by destruct p.
Qed.

(** The view is never past the oldest line, so that the clamping changes nothing. *)
Lemma clamp_view_ok t m p : grid_ok t -> shows t m p -> clamp_view t = Ret t.
Proof.
  intros G Sh. destruct (p_count _ _ _ (sh_ok _ _ _ Sh)). pose proof (p_offset _ _ _ (sh_ok _ _ _ Sh)). unfold clamp_view.
  rewrite (bind_ret _ _ _ (max_offset_ok t _ G (sh_count _ _ _ Sh) ltac:(rewrite (g_total t G); lia))).
  rewrite (sh_offset _ _ _ Sh). destruct (Z.ltb_spec (max_offset (rs t) (count p)) (offset p)); [lia | done].
Qed.
Lemma top_line_ok t m p : grid_ok t -> shows t m p ->
  top_line t = Ret (line_head (pos t) - (rs t - 1) - offset p) /\ 0 <= offset p /\ rs t - 1 + offset p < total t.
Proof.
  intros G Sh. destruct (p_count _ _ _ (sh_ok _ _ _ Sh)). pose proof (p_offset _ _ _ (sh_ok _ _ _ Sh)) as Ho. pose proof (total_bound t G).
  pose proof (g_head t G). pose proof (g_rows t G). pose proof (g_total t G). pose proof (sh_offset _ _ _ Sh) as Hv.
  unfold max_offset, SCROLLBACK_LINES in *. unfold top_line. rewrite Hv. do 2 int_step. rewrite int_ok_ret by (unfold is_int; lia). split; [done | lia].
Qed.

(** Row [r] of the screen. *)
Lemma visible_row t m p r : grid_ok t -> shows t m p -> 0 <= r < rs t ->
  exists l, visible (rs t) p !! Z.to_nat r = Some l /\ Z.of_nat (length l) = cs t /\
    int_ok (line_head (pos t) - (rs t - 1) - offset p + r) = Ret (line_head (pos t) - (rs t - 1) - offset p + r) /\
    exists a, terminal_line_ptr t (line_head (pos t) - (rs t - 1) - offset p + r) = Ret a /\ holds m a l /\
      cells (grid_ t) <= a /\ a + cs t <= cells (grid_ t) + cells_size t.
Proof.
  intros G Sh Hr. destruct (top_line_ok t m p G Sh) as (_ & Ho & Ht). pose proof (g_head t G). pose proof (total_bound t G). pose proof (g_total t G).
  pose proof (p_total _ _ _ (sh_ok _ _ _ Sh)) as Hlen. set (i := rs t - 1 - r + offset p).
  destruct (lookup_lt_is_Some_2 (lines p) (Z.to_nat i)) as [l Hl]; [unfold i; lia |].
  exists l. split.
  { unfold visible. rewrite reverse_lookup; rewrite ?length_take, ?length_drop; [| lia].
    rewrite lookup_take_lt by lia. rewrite lookup_drop. rewrite <- Hl. f_equal. unfold i. lia. }
  split; [exact (proj1 (Forall_lookup _ _) (p_cols _ _ _ (sh_ok _ _ _ Sh)) _ l Hl) |].
  split; [apply int_ok_ret; unfold is_int; lia |].
  eexists. split; [apply line_ptr_ok; (done || lia) |].
  replace ((line_head (pos t) - (rs t - 1) - offset p + r) mod total t) with (ring_index t i) by (unfold ring_index, i; f_equal; lia).
  split; [| apply row_in; [done | by apply ring_range]].
  replace i with (Z.of_nat (Z.to_nat i)) by lia. by apply (sh_lines _ _ _ Sh).
Qed.
End Terminal.
