(* ===== verification/TerminalClip.v ===== *)
(** * The terminal's clipboard and its memory *)
From S2P Require Import Prelude Interfaces Mem Gfx Terminal TerminalProps.

(** A line without the blanks at its end. *)
Fixpoint trimmed (l : list Z) : list Z :=
  match l with
  | [] => []
  | c :: l => match trimmed l with [] => if c =? 32 then [] else [c] | l' => c :: l' end
  end.
(** What is copied from a page. *)
Definition lines_text (ls : list (list Z)) : list Z := flat_map (fun l => trimmed l ++ [10]) ls.
Definition clip_text (rs : Z) (p : page) : list Z := lines_text (visible rs p).

Lemma trimmed_snoc l c : trimmed (l ++ [c]) = if c =? 32 then trimmed l else l ++ [c].
Proof.
  induction l as [|x l IH]; cbn [trimmed app]; [done |]. rewrite IH. destruct (c =? 32); [done |].
  by destruct (l ++ [c]) eqn:E; [destruct l |].
Qed.
Lemma trimmed_prefix l : trimmed l = take (length (trimmed l)) l.
Proof.
  induction l as [|x l IH]; [done |]. cbn [trimmed]. destruct (trimmed l) as [|y t] eqn:E.
  - destruct (x =? 32); done.
  - change (length (x :: y :: t)) with (S (length (y :: t))). cbn [take]. by rewrite <- IH.
Qed.
Lemma trimmed_length l : (length (trimmed l) <= length l)%nat.
Proof. rewrite trimmed_prefix, length_take. lia. Qed.
Lemma trimmed_Forall (P : Z -> Prop) l : Forall P l -> Forall P (trimmed l).
Proof. intros H. rewrite trimmed_prefix. by apply Forall_take. Qed.

Section Copy.
Implicit Types m : mem.
Implicit Types t : terminal_t.

Lemma trim_ok m a l n : holds m a l -> (n <= length l)%nat -> trim n a m = Ret (Z.of_nat (length (trimmed (take n l)))).
Proof.
  intros H. induction n as [|n IH]; intros Hn; cbn [trim]; [done |].
  destruct (lookup_lt_is_Some_2 l n) as [c Hc]; [lia |]. rewrite (bind_ret _ _ _ (holds_load _ _ _ _ _ H Hc)).
  rewrite (take_S_r l n c Hc), trimmed_snoc. destruct (c =? 32); [apply IH; lia |].
  rewrite length_app, length_take. cbn. f_equal. lia.
Qed.

Lemma copy_cols_ok n : forall m line l col clip p, holds m line l -> (col + n <= length l)%nat ->
  mapped m (clip + p) (Z.of_nat n) -> 0 <= p -> p + Z.of_nat n < 2 ^ 64 ->
  line + Z.of_nat (length l) <= clip + p \/ clip + p + Z.of_nat n <= line ->
  exists m', copy_cols n line (Z.of_nat col) clip p m = Ret (m', p + Z.of_nat n) /\ keeps (clip + p) (Z.of_nat n) m m' /\
    holds m' (clip + p) (take n (drop col l)).
Proof.
  induction n as [|n IH]; intros m line l col clip p H Hn Hm Hp Hw Ha; cbn [copy_cols].
  - exists m. rewrite Z.add_0_r. split; [done |]. split; [apply keeps_refl | intros i Hi; rewrite take_0 in Hi; cbn in Hi; lia].
  - destruct (lookup_lt_is_Some_2 l col) as [c Hc]; [lia |]. rewrite (bind_ret _ _ _ (holds_load _ _ _ _ _ H Hc)).
    rewrite (bind_ret _ _ _ (store_ok m (clip + p) c (Hm (clip + p) ltac:(lia)))). rewrite u64_id by (unfold is_u64; lia).
    destruct (IH (<[clip + p := c]> m) line l (S col) clip (p + 1)) as (m' & E & K & H'); try lia.
    + eapply holds_frame; [exact H |]. intros x Hx. rewrite lookup_insert_ne by lia. done.
    + intros x Hx. rewrite lookup_insert_ne by lia. apply Hm. lia.
    + exists m'. replace (Z.of_nat col + 1) with (Z.of_nat (S col)) by lia. rewrite E.
      split; [do 2 f_equal; lia |]. split.
      * intros x Hx. rewrite K, lookup_insert_ne by lia. done.
      * rewrite (drop_S l c col Hc). cbn [take]. intros [|i] Hi; cbn [lookup list_lookup length] in *.
        -- rewrite Z.add_0_r, K by lia. by rewrite lookup_insert_eq.
        -- rewrite <- H' by lia. f_equal. lia.
Qed.

Lemma lines_text_drop ls r l : ls !! r = Some l -> lines_text (drop r ls) = trimmed l ++ [10] ++ lines_text (drop (S r) ls).
Proof. intros H. rewrite (drop_S ls l r H). unfold lines_text. cbn [flat_map]. by rewrite <- app_assoc. Qed.

Lemma holds_app m a l1 l2 : holds m a l1 -> holds m (a + Z.of_nat (length l1)) l2 -> holds m a (l1 ++ l2).
Proof.
  intros H1 H2 i Hi. rewrite length_app in Hi. destruct (decide (i < length l1)%nat).
  - rewrite lookup_app_l by done. by apply H1.
  - rewrite lookup_app_r by lia. rewrite <- H2 by lia. f_equal. lia.
Qed.
Lemma holds_app_inv m a l1 l2 : holds m a (l1 ++ l2) -> holds m a l1 /\ holds m (a + Z.of_nat (length l1)) l2.
Proof.
  intros H. split; intros i Hi.
  - rewrite H by (rewrite length_app; lia). by apply lookup_app_l.
  - replace (a + Z.of_nat (length l1) + Z.of_nat i) with (a + Z.of_nat (length l1 + i)) by lia.
    rewrite H by (rewrite length_app; lia). rewrite lookup_app_r by lia. f_equal. lia.
Qed.

Context (t : terminal_t) (p : page).
#[local] Abbreviation cs := (cols (grid_ t)).
#[local] Abbreviation rs := (rows (grid_ t)).
#[local] Abbreviation top := (line_head (pos t) - (rs - 1) - offset p).
#[local] Abbreviation vis := (visible rs p).
Context (G : grid_ok t).

Lemma visible_length m : shows t m p -> Z.of_nat (length vis) = rs.
Proof using G.
  intros Sh. destruct (top_line_ok t m p G Sh) as (_ & Ho & Ht). pose proof (p_total _ _ _ (sh_ok _ _ _ Sh)). pose proof (g_total t G).
  pose proof (g_rows t G). unfold visible. rewrite length_reverse, length_take, length_drop. lia.
Qed.

Lemma take_all {X} (l : list X) n : Z.of_nat (length l) = n -> take (Z.to_nat n) l = l.
Proof. intros H. apply take_ge. lia. Qed.

Lemma needed_loop_ok m n : forall r acc, shows t m p -> (r + n)%nat = length vis -> 0 <= acc ->
  acc + Z.of_nat (length (lines_text (drop r vis))) < 2 ^ 64 ->
  needed_loop n t top (Z.of_nat r) acc m = Ret (acc + Z.of_nat (length (lines_text (drop r vis)))).
Proof using G.
  induction n as [|n IH]; intros r acc Sh Hr Ha Hw; cbn [needed_loop].
  - rewrite drop_ge by lia. cbn. f_equal. lia.
  - pose proof (visible_length m Sh) as Hvl. destruct (visible_row t m p (Z.of_nat r) G Sh ltac:(lia)) as (l & Hl & Hlen & Ei & a & Ep & Hh & _).
    rewrite Nat2Z.id in Hl. rewrite (bind_ret _ _ _ Ei), (bind_ret _ _ _ Ep).
    rewrite (bind_ret _ _ _ (trim_ok m a l (Z.to_nat cs) Hh ltac:(lia))), take_all by done.
    rewrite (lines_text_drop _ _ _ Hl) in *. rewrite !length_app in *. cbn [length] in *.
    rewrite (u64_id (_ + 1)), (u64_id (acc + _)) by (unfold is_u64; lia).
    replace (Z.of_nat r + 1) with (Z.of_nat (S r)) by lia. rewrite IH by (done || lia). f_equal. lia.
Qed.

Lemma copy_rows_ok n : forall m r clip q, shows t m p -> (r + n)%nat = length vis -> 0 <= q ->
  let k := Z.of_nat (length (lines_text (drop r vis))) in
  q + k < 2 ^ 64 -> mapped m (clip + q) k ->
  cells (grid_ t) + cells_size t <= clip + q \/ clip + q + k <= cells (grid_ t) ->
  exists m', copy_rows n t top (Z.of_nat r) clip q m = Ret (m', q + k) /\ keeps (clip + q) k m m' /\
    holds m' (clip + q) (lines_text (drop r vis)).
Proof using G.
  induction n as [|n IH]; intros m r clip q Sh Hr Hq k Hw Hm Ha; cbn [copy_rows]; subst k.
  - rewrite drop_ge by lia. exists m. cbn. rewrite Z.add_0_r. split; [done |]. split; [done | intros i Hi; cbn in Hi; lia].
  - pose proof (visible_length m Sh) as Hvl. destruct (visible_row t m p (Z.of_nat r) G Sh ltac:(lia)) as (l & Hl & Hlen & Ei & a & Ep & Hh & Ha1 & Ha2).
    rewrite Nat2Z.id in Hl. rewrite (bind_ret _ _ _ Ei), (bind_ret _ _ _ Ep).
    rewrite (bind_ret _ _ _ (trim_ok m a l (Z.to_nat cs) Hh ltac:(lia))), take_all by done. rewrite Nat2Z.id.
    rewrite (lines_text_drop _ _ _ Hl) in *. rewrite !length_app in *. cbn [length] in *.
    pose proof (trimmed_length l) as Htl.
    destruct (copy_cols_ok (length (trimmed l)) m a l 0 clip q Hh) as (m1 & E1 & K1 & H1); try lia.
    { eapply mapped_sub; [exact Hm | lia | lia]. }
    rewrite drop_0, <- trimmed_prefix in H1. change (Z.of_nat 0) with 0 in E1. rewrite (bind_ret _ _ _ E1).
    set (q1 := q + Z.of_nat (length (trimmed l))) in *.
    assert (is_Some (m1 !! (clip + q1))) as Hs by (rewrite K1 by lia; apply Hm; lia).
    rewrite (bind_ret _ _ _ (store_ok m1 (clip + q1) 10 Hs)). rewrite u64_id by (unfold is_u64; lia).
    set (m2 := <[clip + q1 := 10]> m1).
    assert (keeps (clip + q) (Z.of_nat (length (trimmed l)) + 1) m m2) as K2.
    { intros x Hx. unfold m2. rewrite lookup_insert_ne by lia. apply K1. lia. }
    destruct (IH m2 (S r) clip (q1 + 1)) as (m' & E' & K' & H'); try lia.
    + eapply shows_frame; [done | exact Sh |]. intros x Hx. apply K2. lia.
    + intros x Hx. rewrite K2 by lia. apply Hm. lia.
    + exists m'. replace (Z.of_nat r + 1) with (Z.of_nat (S r)) by lia. rewrite E'. split; [do 2 f_equal; lia |]. split.
      * intros x Hx. rewrite K' by lia. apply K2. lia.
      * apply holds_app; [| apply (holds_app m' _ [10])].
        -- eapply holds_frame; [exact H1 |]. intros x Hx. rewrite K' by lia. unfold m2. by rewrite lookup_insert_ne by lia.
        -- intros [|i] Hi; cbn in Hi; [| lia]. rewrite Z.add_0_r, K' by lia. unfold m2. replace (clip + q + Z.of_nat (length (trimmed l))) with (clip + q1) by lia.
           by rewrite lookup_insert_eq.
        -- cbn [length]. replace (clip + q + Z.of_nat (length (trimmed l)) + Z.of_nat 1) with (clip + (q1 + 1)) by lia. done.
Qed.

Lemma lines_text_length m : shows t m p -> rs <= Z.of_nat (length (lines_text vis)) <= rs * (cs + 1).
Proof using G.
  intros Sh. pose proof (visible_length m Sh) as Hv.
  assert (Forall (fun l => Z.of_nat (length l) = cs) vis) as Hf.
  { unfold visible. rewrite reverse_Permutation. apply Forall_take, Forall_drop, (p_cols _ _ _ (sh_ok _ _ _ Sh)). }
  pose proof (g_cols t G) as Hc. revert Hf Hc Hv. clear. generalize vis. generalize cs. intros n ls Hf Hc <-.
  induction Hf as [|l ls Hl _ IH]; [cbn; lia |]. unfold lines_text in *. cbn [flat_map length]. rewrite !length_app. cbn [length].
  pose proof (trimmed_length l). nia.
Qed.
End Copy.
