(* ===== verification/TerminalTheorems.v ===== *)
(** * The terminal refines a page with a clipboard *)
From S2P Require Import Prelude Interfaces Mem Gfx Terminal TerminalProps TerminalClip.

(** ** The specification: a page, if there was memory for one, and a clipboard *)
Record screen_spec := ScreenSpec { geo : option (Z * Z); page_of : option page; clip_of : option (list Z) }.

(** Columns and rows of a window. *)
Definition window_cols (w : Z) : Z := Z.max 1 (Z.quot w FONT_WIDTH).
Definition window_rows (h : Z) : Z := Z.max 1 (Z.quot h FONT_HEIGHT).

Inductive op :=
  | Putc (c : Z) | Print (s : Z) | ClearAll | Up | Down | Copy | Paste | SetBounds (x y w h : Z).

(** What an operation may do; [str] are the strings in memory.  Only the last two rules of
    [Copy] and of [SetBounds] are choices: memory may have run out. *)
Inductive spec (str : Z -> list Z) : op -> screen_spec -> screen_spec -> Prop :=
  | spec_off o k cb : (forall x y w h, o <> SetBounds x y w h) -> spec str o (ScreenSpec k None cb) (ScreenSpec k None cb)
  | spec_putc c n r p cb : spec str (Putc c) (ScreenSpec (Some (n, r)) (Some p) cb) (ScreenSpec (Some (n, r)) (Some (page_putc n r p c)) cb)
  | spec_print s n r p cb : spec str (Print s) (ScreenSpec (Some (n, r)) (Some p) cb) (ScreenSpec (Some (n, r)) (Some (page_print n r p (str s))) cb)
  | spec_clear n r p cb : spec str ClearAll (ScreenSpec (Some (n, r)) (Some p) cb) (ScreenSpec (Some (n, r)) (Some (page_home n r)) cb)
  | spec_up n r p cb : spec str Up (ScreenSpec (Some (n, r)) (Some p) cb) (ScreenSpec (Some (n, r)) (Some (page_up r p)) cb)
  | spec_down n r p cb : spec str Down (ScreenSpec (Some (n, r)) (Some p) cb) (ScreenSpec (Some (n, r)) (Some (page_down p)) cb)
  | spec_paste_none n r p : spec str Paste (ScreenSpec (Some (n, r)) (Some p) None) (ScreenSpec (Some (n, r)) (Some p) None)
  | spec_paste n r p s : spec str Paste (ScreenSpec (Some (n, r)) (Some p) (Some s))
      (ScreenSpec (Some (n, r)) (Some (page_print n r p (c_str s))) (Some s))
  | spec_copy n r p cb : spec str Copy (ScreenSpec (Some (n, r)) (Some p) cb) (ScreenSpec (Some (n, r)) (Some p) (Some (clip_text r p)))
  | spec_copy_fails n r p cb : spec str Copy (ScreenSpec (Some (n, r)) (Some p) cb) (ScreenSpec (Some (n, r)) (Some p) None)
  | spec_same x y w h p cb : spec str (SetBounds x y w h) (ScreenSpec (Some (window_cols w, window_rows h)) (Some p) cb)
      (ScreenSpec (Some (window_cols w, window_rows h)) (Some p) cb)
  | spec_resize x y w h k pg cb : k <> Some (window_cols w, window_rows h) \/ pg = None ->
      spec str (SetBounds x y w h) (ScreenSpec k pg cb)
        (ScreenSpec (Some (window_cols w, window_rows h)) (Some (page_home (window_cols w) (window_rows h))) cb)
  | spec_resize_fails x y w h k pg cb : k <> Some (window_cols w, window_rows h) \/ pg = None ->
      spec str (SetBounds x y w h) (ScreenSpec k pg cb) (ScreenSpec (Some (window_cols w, window_rows h)) None cb).

Section Refinement.
Context {A : Type} `{!Allocator A, !HeapMemory A}.
#[local] Abbreviation state := (@tstate A).
Implicit Types a : A.
Implicit Types m : mem.
Implicit Types t : terminal_t.

Definition run (o : op) (s : state) : res state :=
  let '(t, m, a) := s in
  match o with
  | Putc c => '(t, m) ← terminal_putc t c m; Ret (t, m, a)
  | Print p => '(t, m) ← terminal_print t p m; Ret (t, m, a)
  | ClearAll => '(t, m) ← terminal_clear t m; Ret (t, m, a)
  | Up => t ← terminal_scroll_up t; Ret (t, m, a)
  | Down => Ret (terminal_scroll_down t, m, a)
  | Copy => terminal_copy_visible s
  | Paste => '(t, m) ← terminal_paste t m; Ret (t, m, a)
  | SetBounds x y w h => terminal_set_bounds x y w h s
  end.

(** A string in memory, outside the cells. *)
Definition string_ok (str : Z -> list Z) t m (s : Z) : Prop :=
  cstr m s (str s) /\ Forall is_u8 (str s) /\
  (cells (grid_ t) <> 0 -> s + Z.of_nat (length (str s)) < cells (grid_ t) \/ cells (grid_ t) + cells_size t <= s).
(** Arguments of an operation: strings are in memory, and a window is not too large. *)
Definition legal (str : Z -> list Z) (o : op) (s : state) : Prop :=
  match o with
  | Putc c => is_u8 c
  | Print p => string_ok str s.1.1 s.1.2 p
  | SetBounds x y w h => window_rows h + SCROLLBACK_LINES < 2 ^ 31 /\ window_cols w * (window_rows h + SCROLLBACK_LINES) < 2 ^ 31
  | _ => True
  end.

(** The fields of a terminal without cells. *)
Definition off_ok t : Prop := cells (grid_ t) = 0 /\ 0 <= total_lines (grid_ t) /\
  0 <= line_count (pos t) <= rows (grid_ t) /\ rows (grid_ t) < 2 ^ 31 /\ view_offset (pos t) = 0.
Definition live_for a (p n : Z) : Prop := p <> 0 /\ exists k, a_live a !! p = Some k /\ n <= k.
Definition page_rep t m a (pg : option page) : Prop :=
  match pg with
  | None => off_ok t
  | Some p => grid_ok t /\ shows t m p /\ live_for a (cells (grid_ t)) (cells_size t) /\ Forall (Forall is_u8) (lines p)
  end.
Definition clip_rep t m a (cb : option (list Z)) : Prop :=
  match cb with
  | None => clipboard (board_ t) = 0
  | Some s => live_for a (clipboard (board_ t)) (Z.of_nat (length s) + 1) /\ holds m (clipboard (board_ t)) (s ++ [0]) /\
      clipboard_len (board_ t) = Z.of_nat (length s) /\ clipboard (board_ t) <> cells (grid_ t) /\ Forall is_u8 s /\ s <> []
  end.
Record term_ok (s : state) (sp : screen_spec) : Prop := TermOk {
  to_heap : a_ok s.2;
  to_arena : mapped s.1.2 hm_lo (hm_hi - hm_lo);
  to_geo : match geo sp with
           | Some (n, r) => cols (grid_ s.1.1) = n /\ rows (grid_ s.1.1) = r
           | None => page_of sp = None /\ cols (grid_ s.1.1) = 0
           end;
  to_page : page_rep s.1.1 s.1.2 s.2 (page_of sp);
  to_clip : clip_rep s.1.1 s.1.2 s.2 (clip_of sp);
}.

Lemma live_mapped m a p n : a_ok a -> mapped m hm_lo (hm_hi - hm_lo) -> live_for a p n -> mapped m p n.
Proof. intros Ha Hm (_ & k & Hk & Hn). destruct (hm_in a p k Ha Hk). eapply mapped_sub; [exact Hm | lia | lia]. Qed.
Lemma live_apart a p n q k : a_ok a -> live_for a p n -> live_for a q k -> p <> q -> p + n <= q \/ q + k <= p.
Proof. intros Ha (_ & i & Hi & Hn) (_ & j & Hj & Hk) Hne. pose proof (a_disjoint a p i q j Ha Hi Hj Hne). lia. Qed.

(** *** Text is bytes *)
Lemma page_next_u8 n r p : Forall (Forall is_u8) (lines p) -> Forall (Forall is_u8) (lines (page_next n r p)).
Proof.
  intros H. cbn. apply Forall_cons. split; [| by apply Forall_removelast]. unfold blank_line.
  apply Forall_forall. intros x Hx%list_elem_of_In%repeat_spec. subst. unfold is_u8. lia.
Qed.
Lemma set_head_u8 p i c : Forall (Forall is_u8) (lines p) -> is_u8 c -> Forall (Forall is_u8) (set_head (<[i := c]> (head_line p)) p).
Proof.
  intros H Hc. unfold set_head, head_line. destruct (lines p) as [|l ls]; cbn.
  - apply Forall_cons. split; [apply Forall_nil; done | done].
  - apply Forall_cons in H as [Hl Hls]. apply Forall_cons. split; [by apply Forall_insert | done].
Qed.
Lemma page_putc_u8 n r p c : Forall (Forall is_u8) (lines p) -> is_u8 c -> Forall (Forall is_u8) (lines (page_putc n r p c)).
Proof.
  intros H Hc. unfold page_putc. destruct (c =? 10); [by apply page_next_u8 |]. destruct (c =? 8).
  - destruct (0 <? column p); [| done]. apply set_head_u8; [done | unfold is_u8; lia].
  - cbv zeta. destruct (n <=? column p + 1); [apply page_next_u8; by apply set_head_u8 | by apply set_head_u8].
Qed.
Lemma page_print_u8 n r s : forall p, Forall (Forall is_u8) (lines p) -> Forall is_u8 s -> Forall (Forall is_u8) (lines (page_print n r p s)).
Proof.
  induction s as [|c s IH]; intros p H Hs; [done |]. apply Forall_cons in Hs as [Hc Hs]. cbn. apply IH; [by apply page_putc_u8 | done].
Qed.
Lemma page_home_u8 n r : Forall (Forall is_u8) (lines (page_home n r)).
Proof.
  cbn. apply Forall_forall. intros l Hl%list_elem_of_In%repeat_spec. subst.
  apply Forall_forall. intros x Hx%list_elem_of_In%repeat_spec. subst. unfold is_u8. lia.
Qed.
Lemma clip_text_u8 r p : Forall (Forall is_u8) (lines p) -> Forall is_u8 (clip_text r p).
Proof.
  intros H. unfold clip_text. assert (Forall (Forall is_u8) (visible r p)) as Hv by (unfold visible; rewrite reverse_Permutation; by apply Forall_take, Forall_drop).
  unfold lines_text. induction Hv as [|l ls Hl _ IH]; [apply Forall_nil; done |]. cbn [flat_map].
  apply Forall_app. split; [apply Forall_app; split; [by apply trimmed_Forall | by repeat constructor] | done].
Qed.

(** *** Calls that write text *)
Lemma clip_keeps t m a t' m' sp : grid_ok t -> page_rep t m a (page_of sp) -> page_of sp <> None -> a_ok a ->
  clip_rep t m a (clip_of sp) -> writes t m t' m' -> clip_rep t' m' a (clip_of sp).
Proof.
  intros G Hp Hn Ha Hc (K & _ & Eg & _ & Eb & _). destruct (page_of sp) as [p|]; [| done]. destruct Hp as (_ & _ & Hl & _).
  destruct (clip_of sp) as [s|]; cbn in *; [| by rewrite Eb]. destruct Hc as (Lc & Hh & Hlen & Hne & Hu & Hs). rewrite Eb, Eg.
  split; [done |]. split; [| done]. eapply holds_frame; [exact Hh |]. intros x Hx. rewrite length_app in Hx. cbn in Hx.
  apply K. destruct (live_apart a _ _ _ _ Ha Lc Hl Hne); lia.
Qed.

Lemma arena_keeps t m a t' m' : mapped m hm_lo (hm_hi - hm_lo) -> writes t m t' m' -> mapped m' hm_lo (hm_hi - hm_lo).
Proof.
  intros Hm (K & M & _) x Hx. destruct (decide (cells (grid_ t) <= x < cells (grid_ t) + cells_size t)); [by apply M | rewrite K by done; by apply Hm].
Qed.

Lemma text_step t m a n r p cb t' m' p' : term_ok (t, m, a) (ScreenSpec (Some (n, r)) (Some p) cb) -> grid_ok t' ->
  writes t m t' m' -> shows t' m' p' -> Forall (Forall is_u8) (lines p') ->
  term_ok (t', m', a) (ScreenSpec (Some (n, r)) (Some p') cb).
Proof.
  intros [Ha Hm Hg Hp Hc] G' W Sh Hu. cbn in *. destruct Hp as (G & Sh0 & Hl & Hu0).
  pose proof W as (_ & _ & Eg & _). destruct (writes_size _ _ _ _ W) as [E1 E2].
  split; cbn; [done | by eapply arena_keeps | by rewrite Eg | | by eapply (clip_keeps t m a t' m' (ScreenSpec None (Some p) cb))].
  split; [done |]. split; [done |]. split; [by rewrite E1, E2 | done].
Qed.

Lemma cells_mapped t m a n r p cb : term_ok (t, m, a) (ScreenSpec (Some (n, r)) (Some p) cb) ->
  grid_ok t /\ shows t m p /\ mapped m (cells (grid_ t)) (cells_size t) /\ cols (grid_ t) = n /\ rows (grid_ t) = r /\
  Forall (Forall is_u8) (lines p) /\ a_ok a.
Proof.
  intros [Ha Hm [Hn Hr] (G & Sh & Hl & Hu) Hc]. cbn in *. do 2 (split; [done |]). split; [by eapply live_mapped | done].
Qed.

Lemma page_case s sp p : term_ok s sp -> page_of sp = Some p -> exists n r, sp = ScreenSpec (Some (n, r)) (Some p) (clip_of sp).
Proof.
  intros [_ _ Hg _ _] E. destruct sp as [k pg cb]. cbn in *. subst. destruct k as [[n r]|]; [by exists n, r | by destruct Hg].
Qed.

(** The string at the clipboard, up to its first NUL. *)
Lemma clip_cstr m s p : holds m p (s ++ [0]) -> cstr m p (c_str s).
Proof.
  revert p. induction s as [|c s IH]; intros p H; cbn [c_str].
  - pose proof (H 0%nat ltac:(cbn; lia)) as H0. by rewrite Z.add_0_r in H0.
  - pose proof (H 0%nat ltac:(cbn; lia)) as H0. rewrite Z.add_0_r in H0. destruct (Z.eqb_spec c 0) as [->|Hne]; [done |].
    cbn [cstr]. split; [done |]. split; [done |]. apply IH. intros i Hi. replace (p + 1 + Z.of_nat i) with (p + Z.of_nat (S i)) by lia.
    by rewrite H by (cbn in *; lia).
Qed.
Lemma c_str_length s : (length (c_str s) <= length s)%nat.
Proof. induction s as [|c s IH]; cbn; [done |]. destruct (c =? 0); cbn; lia. Qed.
Lemma c_str_u8 s : Forall is_u8 s -> Forall is_u8 (c_str s).
Proof. induction 1; cbn; [done |]. destruct (_ =? 0); by constructor. Qed.

(** ** Without cells nothing happens *)
Lemma putc_off t c m : cells (grid_ t) = 0 -> terminal_putc t c m = Ret (t, m).
Proof. intros E. unfold terminal_putc. by rewrite E. Qed.
Lemma print_off str : forall fuel t s m, cells (grid_ t) = 0 -> cstr m s str -> (length str <= fuel)%nat -> print_loop fuel t s m = Ret (t, m).
Proof.
  induction str as [|c str IH]; intros fuel t s m E Hs Hf; cbn [cstr length] in *.
  - destruct fuel; cbn [print_loop]; unfold load; by rewrite Hs.
  - destruct Hs as (H1 & H2 & H3), fuel as [|fuel]; [lia |]. cbn [print_loop]. unfold load. rewrite H1. cbn [of_option mbind res_bind].
    rewrite (proj2 (Z.eqb_neq _ _) H2), putc_off by done. cbn [mbind res_bind]. apply IH; (done || lia).
Qed.
Lemma off_run str o s k cb : term_ok s (ScreenSpec k None cb) -> legal str o s -> (forall x y w h, o <> SetBounds x y w h) -> run o s = Ret s.
Proof.
  destruct s as [[t m] a]. intros [Ha Hm Hg (E & Ht & Hcnt & Hr & Hv) Hc] Hl Hns. cbn [fst snd clip_of page_of geo] in *. destruct o; cbn [run legal fst snd] in *.
  - by rewrite putc_off.
  - destruct Hl as (Hs & _). unfold terminal_print. rewrite (print_off (str s)); [done | done | done |]. pose proof (cstr_fuel _ _ _ Hs). lia.
  - unfold terminal_clear. by rewrite E.
  - unfold terminal_scroll_up, terminal_max_offset. int_step. rewrite Hv. cbv zeta. cbn [mbind res_bind].
    assert ((if line_count (pos t) - rows (grid_ t) <? 0 then 0 else line_count (pos t) - rows (grid_ t)) = 0) as -> by (leb_cases; lia).
    by rewrite (proj2 (Z.ltb_ge (total_lines (grid_ t)) 0) ltac:(lia)).
  - unfold terminal_scroll_down. by rewrite Hv.
  - unfold terminal_copy_visible. by rewrite E.
  - unfold terminal_paste. destruct cb as [s|]; cbn [clip_rep] in Hc.
    + destruct Hc as (_ & Hh & _). destruct (_ || _); [done |]. unfold terminal_print.
      rewrite (print_off (c_str s)); [done | done | by apply clip_cstr |]. pose proof (cstr_fuel _ _ _ (clip_cstr _ _ _ Hh)). lia.
    + by rewrite Hc.
  - by destruct (Hns x y w h).
Qed.

(** ** Copying *)
Definition put_back t (clip len cap : Z) : terminal_t := set_board (Board clip len cap) t.
Lemma board_page t m a pg b : page_rep t m a pg -> page_rep (set_board b t) m a pg.
Proof. destruct pg as [p|]; [| done]. intros ([] & [] & Hl & Hu). split; [by split |]. split; [by split | done]. Qed.

(** The text and its NUL are put into [clip], a place of its own. *)
Lemma copy_into t m p clip : grid_ok t -> shows t m p ->
  let txt := clip_text (rows (grid_ t)) p in let k := Z.of_nat (length txt) + 1 in
  k < 2 ^ 64 -> mapped m clip k -> clip + k <= cells (grid_ t) \/ cells (grid_ t) + cells_size t <= clip ->
  exists m1 m2, copy_rows (Z.to_nat (rows (grid_ t))) t (line_head (pos t) - (rows (grid_ t) - 1) - offset p) 0 clip 0 m = Ret (m1, Z.of_nat (length txt)) /\
    store m1 (clip + Z.of_nat (length txt)) 0 = Ret m2 /\ keeps clip k m m2 /\ (forall x, is_Some (m !! x) -> is_Some (m2 !! x)) /\
    holds m2 clip (txt ++ [0]).
Proof.
  intros G Sh txt k Hk Hm Hap. pose proof (visible_length t p G m Sh) as Hvl.
  destruct (copy_rows_ok t p G (Z.to_nat (rows (grid_ t))) m 0 clip 0 Sh) as (m1 & E1 & K1 & H1); try lia;
    rewrite ?drop_0, ?Z.add_0_r; fold (clip_text (rows (grid_ t)) p); fold txt; try lia.
  { eapply mapped_sub; [exact Hm | lia | lia]. }
  rewrite drop_0 in E1, K1, H1. fold (clip_text (rows (grid_ t)) p) in E1, K1, H1. fold txt in E1, K1, H1.
  rewrite Z.add_0_r in K1, H1. rewrite Z.add_0_l in E1.
  assert (holds m1 clip txt -> forall x, clip <= x < clip + Z.of_nat (length txt) -> is_Some (m1 !! x)) as Hin.
  { intros Hh x Hx. replace x with (clip + Z.of_nat (Z.to_nat (x - clip))) by lia. rewrite Hh by lia. apply lookup_lt_is_Some_2. lia. }
  exists m1, (<[clip + Z.of_nat (length txt) := 0]> m1). split; [exact E1 |].
  split; [apply store_ok; rewrite K1 by lia; apply Hm; lia |]. split; [| split].
  - intros x Hx. rewrite lookup_insert_ne by lia. apply K1. lia.
  - intros x Hx. rewrite lookup_insert. case_decide; [by eexists |].
    destruct (decide (clip <= x < clip + Z.of_nat (length txt))); [by apply Hin | by rewrite K1 by lia].
  - apply holds_app; [eapply holds_frame; [exact H1 |] |].
    + intros x Hx. by rewrite lookup_insert_ne by lia.
    + intros [|i] Hi; cbn in Hi; [| lia]. by rewrite Z.add_0_r, lookup_insert_eq.
Qed.

(** The old clipboard is freed. *)
Lemma free_clip t m a pg cb : a_ok a -> page_rep t m a (Some pg) -> clip_rep t m a cb ->
  exists a1 cap, (if clipboard (board_ t) =? 0 then Ret (t, a) else
      a ← a_free (Some (clipboard (board_ t))) a; Ret (set_board (Board 0 (clipboard_len (board_ t)) 0) t, a)) =
      Ret (set_board (Board 0 (clipboard_len (board_ t)) cap) t, a1) /\ a_ok a1 /\ live_for a1 (cells (grid_ t)) (cells_size t).
Proof.
  intros Ha (_ & _ & Hl & _) Hc. destruct (Z.eqb_spec (clipboard (board_ t)) 0) as [Hz|Hz].
  - exists a, (clipboard_cap (board_ t)). split; [| done]. clear -Hz. destruct t as [? ? ? ? ? [c l k]]. cbn in *. by subst.
  - destruct cb as [s|]; [| done]. destruct Hc as ((_ & k & Hk & _) & _ & _ & Hne & _).
    destruct (a_free_ok (clipboard (board_ t)) a Ha ltac:(by eexists)) as (a1 & E & Ha1 & El). exists a1, 0. rewrite (bind_ret _ _ _ E).
    split; [done |]. split; [done |]. destruct Hl as (Hz1 & k1 & Hk1 & Hn1). split; [done |]. exists k1. by rewrite El, lookup_delete_ne.
Qed.

Lemma copied_size t m p : grid_ok t -> shows t m p -> 1 <= Z.of_nat (length (clip_text (rows (grid_ t)) p)) < 2 ^ 33.
Proof.
  intros G Sh. pose proof (lines_text_length t p G m Sh). pose proof (g_size t G) as Hs. pose proof (g_rows t G). pose proof (g_cols t G).
  pose proof (g_total t G) as Ht. unfold cells_size in Hs. rewrite Ht in Hs. unfold SCROLLBACK_LINES, clip_text in *.
  assert (rows (grid_ t) * (cols (grid_ t) + 1) <= 2 * (cols (grid_ t) * (rows (grid_ t) + 200))) by nia. lia.
Qed.

Lemma board_ok t b : grid_ok t -> grid_ok (set_board b t).
Proof. by intros []. Qed.
Lemma board_shows t m p b : shows t m p -> shows (set_board b t) m p.
Proof. by intros []. Qed.

Lemma copy_ok str t m a n r p cb : term_ok (t, m, a) (ScreenSpec (Some (n, r)) (Some p) cb) ->
  exists s' sp', terminal_copy_visible (t, m, a) = Ret s' /\ spec str Copy (ScreenSpec (Some (n, r)) (Some p) cb) sp' /\ term_ok s' sp'.
Proof.
  intros T. destruct (cells_mapped _ _ _ _ _ _ _ T) as (G & Sh & _ & _ & Hr & Hu & _). destruct T as [Ha Hm Hg Hp Hc]. cbn [fst snd geo page_of clip_of] in *.
  pose proof (visible_length t p G m Sh) as Hvl. pose proof (copied_size t m p G Sh) as Hll. destruct (top_line_ok t m p G Sh) as (Etop & _ & _).
  set (txt := clip_text (rows (grid_ t)) p) in *.
  unfold terminal_copy_visible. rewrite (proj2 (Z.eqb_neq _ _) (g_cells t G)), (bind_ret _ _ _ (clamp_view_ok t m p G Sh)), (bind_ret _ _ _ Etop).
  pose proof (needed_loop_ok t p G m (Z.to_nat (rows (grid_ t))) 0 0 Sh ltac:(lia) ltac:(lia)) as En. rewrite drop_0 in En.
  fold (clip_text (rows (grid_ t)) p) in En. fold txt in En. specialize (En ltac:(lia)). rewrite Z.add_0_l in En.
  rewrite (bind_ret _ _ _ En). rewrite (proj2 (Z.eqb_neq (Z.of_nat (length txt)) 0)) by lia.
  destruct (free_clip t m a p cb Ha Hp Hc) as (a1 & cap & Ef & Ha1 & Hl1). rewrite (bind_ret _ _ _ Ef).
  rewrite (u64_id (Z.of_nat (length txt) + 1)) by (unfold is_u64; lia).
  destruct (a_malloc_ok (Z.of_nat (length txt) + 1) a1 Ha1 ltac:(lia)) as (q & a2 & Em & Ha2 & Hq). rewrite (bind_ret _ _ _ Em).
  destruct q as [clip|]; cbv zeta.
  2:{ eexists _, _. split; [reflexivity |]. split; [apply spec_copy_fails |]. split; try done.
      split; [by do 2 apply board_ok |]. split; [by do 2 apply board_shows |]. split; [| done]. unfold live_for in *. cbn [snd]. by rewrite Hq. }
  destruct Hq as (Hnew & k & Hk & El). destruct Hl1 as (Hz1 & k1 & Hk1 & Hn1).
  assert (clip <> cells (grid_ t)) as Hne by (intros ->; congruence).
  assert (a_live a2 !! clip = Some k) as Hclip by (by rewrite El, lookup_insert_eq).
  assert (live_for a2 (cells (grid_ t)) (cells_size t)) as Hl2 by (split; [done |]; exists k1; by rewrite El, lookup_insert_ne).
  pose proof (hm_in a2 clip k Ha2 Hclip) as Hin. pose proof hm_pos.
  assert (live_for a2 clip (Z.of_nat (length txt) + 1)) as Hlc by (split; [lia | by exists k]).
  pose proof (live_apart a2 _ _ _ _ Ha2 Hlc Hl2 Hne) as Hap. set (t1 := set_board (Board clip _ _) _).
  destruct (copy_into t1 m p clip ltac:(by do 2 apply board_ok) ltac:(by do 2 apply board_shows)) as (m1 & m2 & E1 & E2 & K2 & Hmono & H2);
    [change (clip_text (rows (grid_ t1)) p) with txt; lia | by eapply live_mapped | exact Hap |].
  change (clip_text (rows (grid_ t1)) p) with txt in *.
  change (rows (grid_ t1)) with (rows (grid_ t)) in E1. change (line_head (pos t1)) with (line_head (pos t)) in E1.
  change (rows (grid_ t1)) with (rows (grid_ t)). rewrite (bind_ret _ _ _ E1), (bind_ret _ _ _ E2).
  eexists _, _. split; [reflexivity |]. split; [apply spec_copy |]. rewrite <- Hr. fold txt. split; try done.
  - intros x Hx. by apply Hmono, Hm.
  - split; [apply Hg | done].
  - split; [by do 3 apply board_ok |]. split; [| done].
    apply (shows_frame _ m); [by do 3 apply board_ok | by do 3 apply board_shows |]. intros x Hx. apply K2.
    change (cells (grid_ t) <= x < cells (grid_ t) + cells_size t) in Hx. lia.
  - split; [done |]. split; [done |]. split; [done |]. split; [done |]. split; [by apply clip_text_u8 | intros Hnil; rewrite Hnil in Hll; cbn in Hll; lia].
Qed.
End Refinement.
