(* ===== verification/TerminalRefine.v ===== *)
(** * The terminal: windows of any size, and every sequence of operations *)
From S2P Require Import Prelude Interfaces Mem Gfx Terminal TerminalProps TerminalClip TerminalTheorems.

Section Refine.
Context {A : Type} `{!Allocator A, !HeapMemory A}.
#[local] Abbreviation state := (@tstate A).
Implicit Types a : A.
Implicit Types m : mem.
Implicit Types t : terminal_t.

Lemma window_dim v k : (if Z.quot v k <? 1 then 1 else Z.quot v k) = Z.max 1 (Z.quot v k).
Proof. destruct (Z.ltb_spec (Z.quot v k) 1); lia. Qed.

(** The old cells are freed; a clipboard stays. *)
Lemma free_cells t m a pg cb : a_ok a -> page_rep t m a pg -> clip_rep t m a cb ->
  exists a1, (if cells (grid_ t) =? 0 then Ret a else a_free (Some (cells (grid_ t))) a) = Ret a1 /\ a_ok a1 /\ clip_rep t m a1 cb.
Proof.
  intros Ha Hp Hc. destruct (Z.eqb_spec (cells (grid_ t)) 0) as [Hz|Hz]; [by exists a |].
  destruct pg as [p|]; [| by destruct Hp]. destruct Hp as (_ & _ & (_ & k & Hk & _) & _).
  destruct (a_free_ok (cells (grid_ t)) a Ha ltac:(by eexists)) as (a1 & E & Ha1 & El). exists a1. split; [done |]. split; [done |].
  destruct cb as [s|]; [| done]. destruct Hc as ((H0 & k1 & Hk1 & Hn1) & Hh & Hl & Hne & Hu). split; [| done].
  split; [done |]. exists k1. by rewrite El, lookup_delete_ne.
Qed.

(** Fresh cells, all blank. *)
Lemma fresh_cells t m a cb n r p k : a_ok a -> mapped m hm_lo (hm_hi - hm_lo) -> clip_rep t m a cb ->
  1 <= n -> 1 <= r -> n * (r + SCROLLBACK_LINES) < 2 ^ 31 -> a_live a !! p = Some k -> n * (r + SCROLLBACK_LINES) <= k ->
  (cb <> None -> p <> clipboard (board_ t)) ->
  exists m', blank_cells (Z.to_nat (n * (r + SCROLLBACK_LINES))) p m = Ret m' /\
    term_ok (set_pos home (set_grid (Grid n r (r + SCROLLBACK_LINES) p) t), m', a) (ScreenSpec (Some (n, r)) (Some (page_home n r)) cb).
Proof.
  intros Ha Hm Hc Hn Hr Hs Hp Hk Hne. pose proof (hm_in a p k Ha Hp) as Hin. pose proof hm_pos.
  set (size := n * (r + SCROLLBACK_LINES)) in *. assert (0 <= size) by (unfold size, SCROLLBACK_LINES; nia).
  assert (live_for a p size) as Hl by (split; [lia | by exists k]).
  destruct (blank_cells_ok (Z.to_nat size) m p) as (m' & E & K & Hb).
  { rewrite Z2Nat.id by lia. by eapply live_mapped. }
  rewrite Z2Nat.id in K, Hb by lia. exists m'. split; [done |].
  set (t' := set_pos home _). assert (grid_ok t') as G.
  { split; try done; cbn; unfold SCROLLBACK_LINES; lia. }
  split; cbn [fst snd geo page_of clip_of]; try done.
  - intros x Hx. destruct (decide (p <= x < p + size)); [rewrite Hb by done; by eexists | rewrite K by done; by apply Hm].
  - split; [done |]. split; [by apply (blank_shows t') |]. split; [done | apply page_home_u8].
  - destruct cb as [s|]; [| done]. destruct Hc as (Lc & Hh & Hrest). destruct Hrest as (H1 & _ & H3). specialize (Hne ltac:(done)).
    split; [done |]. split; [| split; [done | split; [cbn; lia | done]]]. eapply holds_frame; [exact Hh |]. intros x Hx.
    rewrite length_app in Hx. cbn in Hx. apply K. destruct (live_apart a _ _ _ _ Ha Lc Hl ltac:(lia)); lia.
Qed.

Lemma alloc_ok str t m a sp x y w h : term_ok (t, m, a) sp -> legal str (SetBounds x y w h) (t, m, a) ->
  exists s' sp', run (SetBounds x y w h) (t, m, a) = Ret s' /\ spec str (SetBounds x y w h) sp sp' /\ term_ok s' sp'.
Proof.
  intros [Ha Hm Hg Hp Hc] [Hl1 Hl2]. destruct sp as [k pg cb]. cbn [run fst snd geo page_of clip_of] in *.
  set (t0 := set_area (Area x y w h) t). assert (clip_rep t0 m a cb) as Hc0 by exact Hc.
  assert (page_rep t0 m a pg) as Hp0 by (destruct pg; [destruct Hp as ([] & [] & Hl & Hu); split; [by split |]; split; [by split | done] | done]).
  unfold terminal_set_bounds, terminal_alloc_cells. fold t0. cbv zeta. cbn [tw th at_ t0 set_area grid_]. rewrite !window_dim.
  fold (window_cols w) (window_rows h).
  pose proof (spec_same str x y w h) as Ssame. pose proof (spec_resize str x y w h) as Snew. pose proof (spec_resize_fails str x y w h) as Sfail.
  set (n := window_cols w) in *. set (r := window_rows h) in *.
  assert (1 <= n) as Hn by apply Z.le_max_l. assert (1 <= r) as Hr by apply Z.le_max_l. clearbody n r.
  destruct ((n =? cols (grid_ t)) && (r =? rows (grid_ t)) && negb (cells (grid_ t) =? 0)) eqn:Esame.
  - destruct pg as [p|]; [| destruct Hp as (Hz & _); lia].
    destruct k as [[n' r']|]; [| by destruct Hg]. destruct Hg as [Hn' Hr'].
    assert (n' = n) as -> by lia. assert (r' = r) as -> by lia.
    exists (t0, m, a), (ScreenSpec (Some (n, r)) (Some p) cb). split; [done |]. split; [apply Ssame | by split].
  - destruct (free_cells t0 m a pg cb Ha Hp0 Hc0) as (a1 & Ef & Ha1 & Hc1). cbn [grid_ t0 set_area] in Ef. rewrite (bind_ret _ _ _ Ef).
    unfold SCROLLBACK_LINES in *. do 2 int_step.
    assert (0 < n * (r + 200)) by nia. rewrite (u64_id (n * (r + 200))) by (unfold is_u64; lia).
    assert (k <> Some (n, r) \/ pg = None) as Hk.
    { destruct pg as [p|]; [left | by right]. intros ->. destruct Hg as [? ?]. destruct Hp as (G & _). pose proof (g_cells t G). lia. }
    destruct (a_malloc_ok (n * (r + 200)) a1 Ha1 ltac:(lia)) as (q & a2 & Em & Ha2 & Hq). rewrite (bind_ret _ _ _ Em).
    destruct q as [p|].
    + destruct Hq as (Hnew & j & Hj & El). destruct (fresh_cells t0 m a2 cb n r p j) as (m' & Eb & T); try done.
      * destruct cb as [s|]; [| done]. destruct Hc1 as ((H0 & i & Hi & Hni) & Hrest). split; [| done]. split; [done |].
        exists i. rewrite El, lookup_insert_ne; [done | intros ->; congruence].
      * by rewrite El, lookup_insert_eq.
      * intros Hcb ->. destruct cb as [s|]; [| done]. destruct Hc1 as ((_ & i & Hi & _) & _). congruence.
      * unfold SCROLLBACK_LINES in Eb. rewrite (bind_ret _ _ _ Eb). eexists _, _. split; [reflexivity |]. split; [by apply Snew | exact T].
    + eexists _, _. split; [reflexivity |]. split; [by apply Sfail |]. split; cbn [fst snd geo page_of clip_of]; try done.
      * split; [done |]. cbn. lia.
      * destruct cb as [s|]; [| done]. destruct Hc1 as ((H0 & i & Hi & Hni) & Hh & Hlen & Hne & Hu). split; [split; [done | exists i; by rewrite Hq] |].
        split; [done |]. split; [done |]. split; [exact H0 | done].
Qed.

(** One operation from any well-formed state. *)
Lemma step_ok str o s sp : term_ok s sp -> legal str o s ->
  exists s' sp', run o s = Ret s' /\ spec str o sp sp' /\ term_ok s' sp'.
Proof.
  destruct s as [[t m] a]. intros T Hl. destruct (page_of sp) as [p|] eqn:Epg.
  2:{ destruct sp as [k pg cb]. cbn in Epg. subst pg. destruct o.
      8:{ by eapply alloc_ok. }
      all: (exists (t, m, a), (ScreenSpec k None cb); split; [by eapply off_run | split; [by apply spec_off | done]]). }
  destruct (page_case _ _ _ T Epg) as (n & r & Esp). set (cb := clip_of sp) in *. clearbody cb. subst sp.
  destruct (cells_mapped _ _ _ _ _ _ _ T) as (G & Sh & Hm & <- & <- & Hu & Ha). destruct o; cbn [run legal fst snd] in *.
  - destruct (putc_ok t m p c G Hm Sh Hl) as (t' & m' & E & G' & W & S'). rewrite (bind_ret _ _ _ E). eexists _, _. split; [reflexivity |].
    split; [apply spec_putc |]. eapply text_step; try done. by apply page_putc_u8.
  - destruct Hl as (Hs & Hu8 & Hap). specialize (Hap (g_cells t G)).
    destruct (print_ok t m p s (str s) G Hm Sh Hu8 Hs Hap) as (t' & m' & E & G' & W & S'). rewrite (bind_ret _ _ _ E). eexists _, _. split; [reflexivity |].
    split; [apply spec_print |]. eapply text_step; try done. by apply page_print_u8.
  - destruct (clear_ok t m G Hm) as (m' & E & G' & W & S'). rewrite (bind_ret _ _ _ E). eexists _, _. split; [reflexivity |].
    split; [apply spec_clear |]. eapply text_step; try done. apply page_home_u8.
  - destruct (scroll_up_ok t m p G Sh) as (t' & E & G' & Eg & Ea & Eb & S'). rewrite (bind_ret _ _ _ E). eexists _, _. split; [reflexivity |].
    split; [apply spec_up |]. destruct T as [Ha' Hm' Hg Hp Hc]. split; cbn [fst snd geo page_of clip_of] in *; [done | done | by rewrite Eg | |].
    + split; [done |]. split; [done |]. unfold cells_size. rewrite Eg. split; [apply Hp | done].
    + destruct cb; cbn in *; by rewrite Eb, ?Eg.
  - destruct (scroll_down_ok t m p G Sh) as (G' & Eg & Ea & Eb & S'). eexists _, _. split; [reflexivity |].
    split; [apply spec_down |]. destruct T as [Ha' Hm' Hg Hp Hc]. split; cbn [fst snd geo page_of clip_of] in *; [done | done | by rewrite Eg | |].
    + split; [done |]. split; [done |]. unfold cells_size. rewrite Eg. split; [apply Hp | done].
    + destruct cb; cbn in *; by rewrite Eb, ?Eg.
  - by eapply copy_ok.
  - pose proof (to_clip _ _ T) as Hc. unfold terminal_paste. destruct cb as [s|]; cbn [clip_rep clip_of fst snd] in Hc.
    2:{ rewrite Hc. eexists _, _. split; [reflexivity |]. split; [apply spec_paste_none | done]. }
    destruct Hc as (Lc & Hh & Hlen & Hne & Hu8 & Hnil). pose proof Lc as (Hc0 & _).
    rewrite (proj2 (Z.eqb_neq _ _) Hc0), Hlen, (proj2 (Z.eqb_neq (Z.of_nat (length s)) 0)) by (destruct s; [done | cbn; lia]). cbn [orb].
    destruct (to_page _ _ T) as (_ & _ & Lcells & _). cbn [fst snd] in Lcells. pose proof (live_apart a _ _ _ _ Ha Lc Lcells Hne).
    pose proof (c_str_length s).
    destruct (print_ok t m p (clipboard (board_ t)) (c_str s) G Hm Sh (c_str_u8 _ Hu8) (clip_cstr _ _ _ Hh) ltac:(lia)) as (t' & m' & E & G' & W & S').
    rewrite (bind_ret _ _ _ E). eexists _, _. split; [reflexivity |]. split; [apply spec_paste |]. eapply text_step; try done.
    by apply page_print_u8, c_str_u8.
  - by eapply alloc_ok.
Qed.

(** [terminal_init] and the first [terminal_alloc_cells]. *)
Definition fresh (m : mem) (a : A) : state :=
  (Terminal (Area 0 0 0 0) (Grid 0 0 0 0) (Position 0 0 0 0 0) TERM_DEFAULT_FG TERM_DEFAULT_BG (Board 0 0 0), m, a).
Lemma fresh_ok m a : a_ok a -> mapped m hm_lo (hm_hi - hm_lo) -> term_ok (fresh m a) (ScreenSpec None None None).
Proof. intros Ha Hm. by split. Qed.
Lemma init_fresh x y w h m a : terminal_init x y w h m a = run (SetBounds x y w h) (fresh m a).
Proof. done. Qed.

(** ** Executions; the rest of the kernel may use the heap and memory elsewhere. *)
Definition elsewhere (s s' : state) : Prop :=
  let '(t, m, a) := s in let '(t', m', a') := s' in
  t' = t /\ a_ok a' /\ mapped m' hm_lo (hm_hi - hm_lo) /\
  (forall p, p = cells (grid_ t) \/ p = clipboard (board_ t) -> forall k, a_live a !! p = Some k ->
     a_live a' !! p = Some k /\ forall x, p <= x < p + k -> m' !! x = m !! x).
(** Executions of a list of operations, on the code and on the specification. *)
Inductive execution (str : Z -> list Z) (s0 : state) : list op -> state -> Prop :=
  | exec_start : execution str s0 [] s0
  | exec_op os o s s' : execution str s0 os s -> legal str o s -> run o s = Ret s' -> execution str s0 (os ++ [o]) s'
  | exec_elsewhere os s s' : execution str s0 os s -> elsewhere s s' -> execution str s0 os s'.
Inductive spec_run (str : Z -> list Z) (sp0 : screen_spec) : list op -> screen_spec -> Prop :=
  | spec_start : spec_run str sp0 [] sp0
  | spec_op os o sp sp' : spec_run str sp0 os sp -> spec str o sp sp' -> spec_run str sp0 (os ++ [o]) sp'.

Lemma elsewhere_ok s s' sp : term_ok s sp -> elsewhere s s' -> term_ok s' sp.
Proof.
  destruct s as [[t m] a], s' as [[t' m'] a']. intros [Ha Hm Hg Hp Hc] (-> & Ha' & Hm' & He). split; cbn [fst snd] in *; try done.
  - destruct (page_of sp) as [p|]; [| done]. destruct Hp as (G & Sh & (Hz & k & Hk & Hn) & Hu).
    destruct (He _ (or_introl eq_refl) k Hk) as [Hk' Hx]. split; [done |]. split; [| split; [split; [done | by exists k] | done]].
    eapply shows_frame; [done | done |]. intros x Hxx. apply Hx. lia.
  - destruct (clip_of sp) as [s|]; [| done]. destruct Hc as ((Hz & k & Hk & Hn) & Hh & Hrest).
    destruct (He _ (or_intror eq_refl) k Hk) as [Hk' Hx]. split; [split; [done | by exists k] |]. split; [| done].
    eapply holds_frame; [exact Hh |]. intros x Hxx. apply Hx. rewrite length_app in Hxx. cbn in Hxx. lia.
Qed.

(** C6: the terminal refines a page with a clipboard.  Whatever sequence of operations runs on it,
    from [terminal_init] on and with the rest of the kernel active in between, the rows of its ring
    are the lines of a page that the same operations on lists give, the clipboard the text copied
    from it, or none where memory had run out; and the next operation returns. *)
Theorem terminal_refines_page str s0 sp0 os s : term_ok s0 sp0 -> execution str s0 os s ->
  exists sp, spec_run str sp0 os sp /\ term_ok s sp /\ forall o, legal str o s -> exists s', run o s = Ret s'.
Proof.
  intros T0 Hx. assert (exists sp, spec_run str sp0 os sp /\ term_ok s sp) as (sp & Hr & T).
  { induction Hx as [|os o s s' _ (sp & Hr & T) Hl E|os s s' _ (sp & Hr & T) He].
    - exists sp0. split; [constructor | done].
    - destruct (step_ok str o s sp T Hl) as (s1 & sp1 & E1 & Hs & T1). exists sp1. rewrite E in E1. injection E1 as <-.
      split; [by eapply spec_op | done].
    - exists sp. split; [done | by eapply elsewhere_ok]. }
  exists sp. split; [done |]. split; [done |]. intros o Hl. destruct (step_ok str o s sp T Hl) as (s' & _ & E & _). by exists s'.
Qed.

(** ** Copy and paste *)
(** A character that moves the cursor by one. *)
Definition plain (c : Z) : Prop := c <> 0 /\ c <> 8 /\ c <> 10.
(** A line that pasting reproduces: plain characters, the last column blank. *)
Definition pasteable (n : Z) (l : list Z) : Prop := Z.of_nat (length (trimmed l)) < n /\ Forall plain (trimmed l).

Lemma trimmed_pad l : l = trimmed l ++ repeat 32 (length l - length (trimmed l)).
Proof.
  induction l as [|c l IH]; [done |]. cbn [trimmed length]. destruct (trimmed l) as [|d t] eqn:E.
  - cbn [app length] in IH. rewrite Nat.sub_0_r in IH. destruct (Z.eqb_spec c 32) as [->|Hne]; cbn [app length].
    + rewrite Nat.sub_0_r. cbn [repeat]. by rewrite <- IH.
    + cbn. rewrite Nat.sub_0_r. by rewrite <- IH.
  - change (length (c :: d :: t)) with (S (length (d :: t))). cbn [app]. change (S (length l) - S (length (d :: t)))%nat with (length l - length (d :: t))%nat.
    by rewrite IH at 1.
Qed.

Lemma putc_plain n r pre k rest c ch : plain ch -> Z.of_nat (length pre) + 1 < n ->
  page_putc n r (Page ((pre ++ repeat 32 (S k)) :: rest) (Z.of_nat (length pre)) c 0) ch =
    Page ((pre ++ ch :: repeat 32 k) :: rest) (Z.of_nat (length pre) + 1) c 0.
Proof.
  intros (H0 & H8 & H10) Hn. unfold page_putc. rewrite (proj2 (Z.eqb_neq ch 10)), (proj2 (Z.eqb_neq ch 8)) by done. cbn [column]. cbv zeta.
  rewrite (proj2 (Z.leb_gt n (Z.of_nat (length pre) + 1))) by lia. unfold head_line, set_head. cbn [lines column count offset].
  change (default [] (head ((pre ++ repeat 32 (S k)) :: rest))) with (pre ++ repeat 32 (S k)). cbn [tail repeat].
  rewrite Nat2Z.id, insert_app_r_alt, Nat.sub_diag by lia. done.
Qed.
Lemma page_print_cons n r p ch cs : page_print n r p (ch :: cs) = page_print n r (page_putc n r p ch) cs.
Proof. done. Qed.

Lemma print_plain n r : forall cs pre k rest c, Forall plain cs -> Z.of_nat (length pre) + Z.of_nat k = n ->
  (length cs < k)%nat \/ cs = [] ->
  page_print n r (Page ((pre ++ repeat 32 k) :: rest) (Z.of_nat (length pre)) c 0) cs =
    Page ((pre ++ cs ++ repeat 32 (k - length cs)) :: rest) (Z.of_nat (length (pre ++ cs))) c 0.
Proof.
  induction cs as [|ch cs IH]; intros pre k rest c Hp Hn Hlt.
  - cbn. by rewrite Nat.sub_0_r, app_nil_r.
  - apply Forall_cons in Hp as [Hch Hp]. destruct Hlt as [Hlt|]; [| done]. cbn [length] in Hlt.
    destruct k as [|k]; [lia |]. rewrite page_print_cons, putc_plain by (done || lia).
    replace (pre ++ ch :: repeat 32 k) with ((pre ++ [ch]) ++ repeat 32 k) by (by rewrite <- app_assoc).
    replace (Z.of_nat (length pre) + 1) with (Z.of_nat (length (pre ++ [ch]))) by (rewrite length_app; cbn; lia).
    rewrite IH; [by rewrite <- !app_assoc | done | rewrite length_app; cbn; lia | destruct cs; [by right | left; cbn in *; lia]].
Qed.

Lemma removelast_repeat {X} (b : X) l k : removelast (l ++ repeat b (S k)) = l ++ repeat b k.
Proof.
  rewrite removelast_app by done. f_equal. induction k as [|k IH]; [done |]. cbn [repeat] in *. rewrite <- IH at 2. done.
Qed.

Lemma page_print_app n r p s1 s2 : page_print n r p (s1 ++ s2) = page_print n r (page_print n r p s1) s2.
Proof. apply foldl_app. Qed.

Lemma paste_lines n r ls : 1 <= n -> forall acc k c, Forall (fun l => Z.of_nat (length l) = n) ls -> Forall (pasteable n) ls -> (length ls <= k)%nat ->
  exists c', page_print n r (Page (blank_line n :: acc ++ repeat (blank_line n) k) 0 c 0) (lines_text ls) =
    Page (blank_line n :: reverse ls ++ acc ++ repeat (blank_line n) (k - length ls)) 0 c' 0.
Proof.
  intros Hn. induction ls as [|l ls IH]; intros acc k c Hl Hp Hk.
  - exists c. cbn. by rewrite Nat.sub_0_r.
  - apply Forall_cons in Hl as [Hll Hl]. apply Forall_cons in Hp as [[Ht Hpl] Hp]. destruct k as [|k]; [cbn in Hk; lia |].
    unfold lines_text. cbn [flat_map]. fold (lines_text ls). rewrite !page_print_app.
    unfold blank_line at 1. rewrite (print_plain n r (trimmed l) [] (Z.to_nat n) _ c Hpl ltac:(cbn; lia)) by (left; lia).
    cbn [app]. replace (trimmed l ++ repeat 32 (Z.to_nat n - length (trimmed l))) with l
      by (rewrite trimmed_pad at 1; do 3 f_equal; lia).
    rewrite page_print_cons. unfold page_putc. rewrite Z.eqb_refl. unfold page_next. cbn [lines count offset].
    rewrite Z.ltb_irrefl. change (page_print n r ?p []) with p. change (l :: acc ++ repeat (blank_line n) (S k)) with ((l :: acc) ++ repeat (blank_line n) (S k)).
    rewrite removelast_repeat.
    destruct (IH (l :: acc) k (Z.min (c + 1) (r + SCROLLBACK_LINES)) Hl Hp ltac:(cbn in Hk; lia)) as (c' & ->). exists c'.
    by rewrite reverse_cons, <- !app_assoc.
Qed.

Lemma plain_c_str ls : Forall (fun l => Forall plain (trimmed l)) ls -> c_str (lines_text ls) = lines_text ls.
Proof.
  assert (forall s, Forall (fun c => c <> 0) s -> c_str s = s) as Hid.
  { induction 1 as [|c s Hc _ IH]; [done |]. cbn. by rewrite (proj2 (Z.eqb_neq _ _) Hc), IH. }
  intros H. apply Hid. unfold lines_text. induction H as [|l ls Hl _ IH]; [apply Forall_nil; done |]. cbn [flat_map].
  apply Forall_app. split; [apply Forall_app; split; [eapply Forall_impl; [exact Hl | by intros c (? & _)] | by repeat constructor] | done].
Qed.

(** C23: copy and paste.  What was visible is copied, and pasted into a cleared terminal it is there
    again, line for line, above the new empty line: for lines of plain characters whose last
    column is blank. *)
Theorem terminal_copy_paste t m a n r p cb t1 m1 a1 : term_ok (t, m, a) (ScreenSpec (Some (n, r)) (Some p) cb) ->
  run Copy (t, m, a) = Ret (t1, m1, a1) -> clipboard (board_ t1) <> 0 -> Forall (pasteable n) (visible r p) ->
  exists s2 s3 p3, run ClearAll (t1, m1, a1) = Ret s2 /\ run Paste s2 = Ret s3 /\
    term_ok s3 (ScreenSpec (Some (n, r)) (Some p3) (Some (clip_text r p))) /\
    lines p3 = blank_line n :: take (Z.to_nat r) (drop (Z.to_nat (offset p)) (lines p)) ++ repeat (blank_line n) 199.
Proof.
  intros T E Hc Hp. destruct (cells_mapped _ _ _ _ _ _ _ T) as (G & Sh & _ & Hn & Hr & _ & _).
  destruct (step_ok (fun _ => []) Copy (t, m, a) _ T I) as (s' & sp' & E1 & Hs & T1). rewrite E in E1. injection E1 as <-.
  inversion Hs as [? ? ? Hoff| | | | | | | |? ? ? ?|? ? ? ?| | |]; subst; [| exfalso; by apply Hc, (to_clip _ _ T1)].
  destruct (step_ok (fun _ => []) ClearAll _ _ T1 I) as (s2 & sp2 & E2 & Hs2 & T2). inversion Hs2; subst.
  destruct (step_ok (fun _ => []) Paste _ _ T2 I) as (s3 & sp3 & E3 & Hs3 & T3). inversion Hs3; subst.
  eexists s2, s3, _. split; [done |]. split; [done |]. split; [exact T3 |].
  pose proof (visible_length t p G m Sh) as Hvl. pose proof (g_rows t G). pose proof (g_cols t G).
  assert (Forall (fun l => Z.of_nat (length l) = cols (grid_ t)) (visible (rows (grid_ t)) p)) as Hf.
  { unfold visible. rewrite reverse_Permutation. apply Forall_take, Forall_drop, (p_cols _ _ _ (sh_ok _ _ _ Sh)). }
  assert (Forall (fun l => Forall plain (trimmed l)) (visible (rows (grid_ t)) p)) as Hpl by (eapply Forall_impl; [exact Hp | by intros l [_ ?]]).
  unfold clip_text. rewrite plain_c_str by done. unfold page_home.
  replace (Z.to_nat (rows (grid_ t) + SCROLLBACK_LINES)) with (S (Z.to_nat (rows (grid_ t)) + 199)) by (unfold SCROLLBACK_LINES; lia). cbn [repeat].
  destruct (paste_lines (cols (grid_ t)) (rows (grid_ t)) (visible (rows (grid_ t)) p) ltac:(done) [] (Z.to_nat (rows (grid_ t)) + 199) 1 Hf Hp ltac:(lia)) as (c' & E').
  cbn [app] in E'. rewrite E'. cbn [lines].
  replace (Z.to_nat (rows (grid_ t)) + 199 - length (visible (rows (grid_ t)) p))%nat with 199%nat by lia.
  unfold visible. by rewrite reverse_involutive.
Qed.
End Refine.
