(* ===== verification/TerminalRender.v ===== *)
(** * What the terminal shows: [terminal_render] on the pixels of [Gfx] *)
From S2P Require Import Prelude Interfaces Mem Gfx GfxProps GfxTheorems.
From S2P Require Import Terminal TerminalProps TerminalClip.

(** ** The picture of a page *)
Fixpoint line_picture (l : list Z) (x y c : Z) : picture :=
  match l with [] => blank | ch :: l => over (char ch x y c) (line_picture l (x + 8) y c) end.
Fixpoint lines_picture (ls : list (list Z)) (x y c : Z) : picture :=
  match ls with [] => blank | l :: ls => over (line_picture l x y c) (lines_picture ls x (y + 16) c) end.
(** The background, the visible lines, and the cursor in the last row unless the view is scrolled. *)
Definition page_picture (t : terminal_t) (p : page) : picture :=
  let a := at_ t in
  over (rect (tx a) (ty a) (tw a) (th a) (bg t))
    (over (clip (bounds t) (lines_picture (visible (rows (grid_ t)) p) (tx a) (ty a) (fg t)))
      (if offset p =? 0 then rect (tx a + column p * 8) (ty a + (rows (grid_ t) - 1) * 16 + 14) 8 2 0xFFFFFF else blank)).

Lemma char_space x y c px py : char 32 x y c px py = None.
Proof.
  unfold char. change (128 <=? u8 32) with false. change (font (u8 32)) with (repeat 0 16). unfold glyph.
  case_decide as Hd; [| done]. assert (byte_at (repeat 0 16) (py - y) = 0) as ->; [| done].
  unfold byte_at. rewrite repeat_length in Hd. by rewrite repeat_lookup by lia.
Qed.

(** The window, and every cell of it, has coordinates in the range of [int]. *)
Definition render_fits (t : terminal_t) : Prop :=
  let a := at_ t in
  rect_fits (tx a) (ty a) (tw a) (th a) /\ window_fits (bounds t) /\
  tx a + cols (grid_ t) * 8 <= 2 ^ 31 - 9 /\ ty a + rows (grid_ t) * 16 <= 2 ^ 31 - 17.

Section Render.
Context (g : statics) (t : terminal_t) (p : page).
#[local] Abbreviation target := (draw_ptr g).
#[local] Abbreviation s := (stride g).
#[local] Abbreviation shown q := (clip (screen g) (clip (bounds t) q)).
Context (G : grid_ok t) (F : render_fits t).

Lemma render_cols_ok n : forall m line l row col, surface g target m -> holds m line l ->
  line + Z.of_nat (length l) <= target \/ target + fb_pitch g * fb_height g <= line ->
  (col + n)%nat = length l -> Z.of_nat (length l) = cols (grid_ t) -> 0 <= row < rows (grid_ t) ->
  exists m', render_cols n t line row (Z.of_nat col) g m = Ret m' /\
    painted target s (shown (line_picture (drop col l) (tx (at_ t) + Z.of_nat col * 8) (ty (at_ t) + row * 16) (fg t))) m m'.
Proof using F.
  destruct F as ((Hx & Hy & Hw & Hh & _) & Hk & HX & HY). unfold is_int in Hx, Hy, Hw, Hh.
  induction n as [|n IH]; intros m line l row col S Hh' Ha Hn Hl Hr; cbn [render_cols].
  - exists m. split; [done |]. rewrite drop_ge by lia. by eapply painted_none.
  - destruct (lookup_lt_is_Some_2 l col) as [c Hc]; [lia |]. rewrite (bind_ret _ _ _ (holds_load _ _ _ _ _ Hh' Hc)).
    unfold FONT_WIDTH, FONT_HEIGHT. do 2 int_step.
    assert (exists m1, (if negb (c =? 32) then gfx_draw_char_clipped c (tx (at_ t) + Z.of_nat col * 8) (ty (at_ t) + row * 16) (fg t) (bounds t) g m else Ret m) = Ret m1 /\
      painted target s (shown (char c (tx (at_ t) + Z.of_nat col * 8) (ty (at_ t) + row * 16) (fg t))) m m1) as (m1 & E & P).
    { destruct (Z.eqb_spec c 32) as [->|Hne]; cbn [negb].
      - exists m. split; [done |]. eapply painted_none. intros. apply char_space.
      - apply draw_char_ok; try done. unfold char_fits. lia. }
    rewrite (bind_ret _ _ _ E). destruct (IH m1 line l row (Datatypes.S col)) as (m' & E' & P'); try done; try lia.
    + by eapply painted_surface.
    + eapply holds_frame; [exact Hh' |]. intros i Hi. eapply (painted_frame g target _ m m1 i); [exact S | exact P | lia].
    + exists m'. replace (Z.of_nat col + 1) with (Z.of_nat (Datatypes.S col)) by lia. split; [done |].
      rewrite (drop_S l c col Hc). cbn [line_picture]. eapply painted_seq; [| exact P | exact P'].
      intros px py. by replace (tx (at_ t) + Z.of_nat col * 8 + 8) with (tx (at_ t) + Z.of_nat (Datatypes.S col) * 8) by lia.
Qed.

(** The cells are not in the buffer drawn to. *)
Definition cells_apart : Prop :=
  cells (grid_ t) + cells_size t <= target \/ target + fb_pitch g * fb_height g <= cells (grid_ t).

Lemma shows_painted q m m' : cells_apart -> surface g target m -> painted target s (clip (screen g) q) m m' -> shows t m p -> shows t m' p.
Proof using G.
  intros Ha S P Sh. eapply shows_frame; [done | done |]. intros x Hx. eapply (painted_frame g target _ m m' x); [exact S | exact P |].
  unfold cells_apart in Ha. lia.
Qed.

Lemma render_rows_ok n : forall m r, surface g target m -> shows t m p -> cells_apart -> (r + n)%nat = Z.to_nat (rows (grid_ t)) ->
  exists m', render_rows n t (line_head (pos t) - (rows (grid_ t) - 1) - offset p) (Z.of_nat r) g m = Ret m' /\
    painted target s (shown (lines_picture (drop r (visible (rows (grid_ t)) p)) (tx (at_ t)) (ty (at_ t) + Z.of_nat r * 16) (fg t))) m m'.
Proof using G F.
  induction n as [|n IH]; intros m r S Sh Ha Hr; cbn [render_rows]; pose proof (visible_length t p G m Sh) as Hvl.
  - exists m. split; [done |]. rewrite drop_ge by lia. by eapply painted_none.
  - destruct (visible_row t m p (Z.of_nat r) G Sh ltac:(lia)) as (l & Hl & Hlen & Ei & a & Ep & Hh & Ha1 & Ha2). rewrite Nat2Z.id in Hl.
    rewrite (bind_ret _ _ _ Ei), (bind_ret _ _ _ Ep).
    destruct (render_cols_ok (Z.to_nat (cols (grid_ t))) m a l (Z.of_nat r) 0 S Hh) as (m1 & E & P); try lia.
    { unfold cells_apart in Ha. lia. }
    change (Z.of_nat 0) with 0 in E. rewrite (bind_ret _ _ _ E). rewrite drop_0, Z.mul_0_l, Z.add_0_r in P.
    destruct (IH m1 (Datatypes.S r)) as (m' & E' & P'); try done; try lia; [by eapply painted_surface | by eapply shows_painted |].
    exists m'. replace (Z.of_nat r + 1) with (Z.of_nat (Datatypes.S r)) by lia. split; [done |].
    rewrite (drop_S _ l r Hl). cbn [lines_picture]. eapply painted_seq; [| exact P | exact P'].
    intros px py. by replace (ty (at_ t) + Z.of_nat r * 16 + 16) with (ty (at_ t) + Z.of_nat (Datatypes.S r) * 16) by lia.
Qed.

Lemma render_ok m : surface g target m -> shows t m p -> cells_apart -> is_u32 (bg t) ->
  exists m', terminal_render t g m = Ret (t, m') /\ painted target s (clip (screen g) (page_picture t p)) m m'.
Proof using G F.
  intros S Sh Ha Hbg. pose proof F as (Fr & Fk & HX & HY). pose proof Fr as (Hx & Hy & Hw & Hh & _). unfold is_int in Hx, Hy, Hw, Hh.
  pose proof (g_cols t G). pose proof (g_rows t G). pose proof (p_column _ _ _ (sh_ok _ _ _ Sh)) as Hcol.
  unfold terminal_render. rewrite (proj2 (Z.eqb_neq _ _) (g_cells t G)).
  destruct (draw_rect_ok g target m _ _ _ _ (bg t) S Hbg Fr) as (m1 & E1 & P1). unfold gfx_draw_rect. rewrite (bind_ret _ _ _ E1).
  pose proof (painted_surface g target _ _ _ P1 S) as S1. pose proof (shows_painted _ _ _ Ha S P1 Sh) as Sh1.
  rewrite (bind_ret _ _ _ (clamp_view_ok t m1 p G Sh1)). destruct (top_line_ok t m1 p G Sh1) as (Et & _ & _). rewrite (bind_ret _ _ _ Et).
  destruct (render_rows_ok (Z.to_nat (rows (grid_ t))) m1 0 S1 Sh1 Ha ltac:(lia)) as (m2 & E2 & P2).
  change (Z.of_nat 0) with 0 in E2. rewrite (bind_ret _ _ _ E2). rewrite drop_0, Z.mul_0_l, Z.add_0_r in P2.
  pose proof (painted_surface g target _ _ _ P2 S1) as S2. rewrite (sh_offset _ _ _ Sh1).
  assert (exists m3, (if offset p =? 0 then render_cursor t g m2 else Ret m2) = Ret m3 /\
    painted target s (clip (screen g) (if offset p =? 0 then rect (tx (at_ t) + column p * 8) (ty (at_ t) + (rows (grid_ t) - 1) * 16 + 14) 8 2 0xFFFFFF else blank)) m2 m3)
    as (m3 & E3 & P3).
  { destruct (offset p =? 0).
    - unfold render_cursor, FONT_WIDTH, FONT_HEIGHT. rewrite (sh_column _ _ _ Sh1). do 4 int_step.
      replace (ty (at_ t) + (rows (grid_ t) - 1) * 16 + 16 - 2) with (ty (at_ t) + (rows (grid_ t) - 1) * 16 + 14) by lia.
      unfold gfx_draw_rect. apply draw_rect_ok; [done | by unfold is_u32 |]. unfold rect_fits, is_int. lia.
    - exists m2. split; [done |]. eapply painted_ext; [| apply painted_blank]. intros. unfold clip. by case_decide. }
  rewrite (bind_ret _ _ _ E3). exists m3. split; [done |].
  eapply painted_ext; [| exact (painted_over _ _ _ _ _ _ _ P1 (painted_over _ _ _ _ _ _ _ P2 P3))].
  intros px py. unfold page_picture, over, clip. by case_decide.
Qed.
End Render.

Lemma colored_lines ls c : is_u32 c -> forall x y, colored (lines_picture ls x y c).
Proof.
  intros Hc. assert (forall l x y, colored (line_picture l x y c)) as Hl.
  { induction l as [|ch l IH]; intros x y; [done |]. cbn. apply colored_over; [by apply colored_char | apply IH]. }
  induction ls as [|l ls IH]; intros x y; [done |]. cbn. apply colored_over; [apply Hl | apply IH].
Qed.

(** C24: rendering shows the page.  Every pixel of the buffer drawn to has the colour of the
    picture of the page - background, the characters of the visible lines inside the
    window, the cursor unless the view is scrolled - or keeps its own outside the window; no byte
    elsewhere changes and the terminal is as before. *)
Theorem terminal_render_shows g m t p : buffers g m -> grid_ok t -> shows t m p -> cells_apart g t -> render_fits t ->
  is_u32 (fg t) -> is_u32 (bg t) ->
  exists m', terminal_render t g m = Ret (t, m') /\ shows t m' p /\ (forall a, ~ in_buffer g (draw_ptr g) a -> m' !! a = m !! a) /\
    forall x y, on_screen g x y -> pixel g (draw_ptr g) x y m' = show (page_picture t p x y) (pixel g (draw_ptr g) x y m).
Proof.
  intros B G Sh Ha F Hf Hb. pose proof (b_draw _ _ B) as S. destruct (render_ok g t p G F m S Sh Ha Hb) as (m' & E & P).
  exists m'. split; [done |]. split; [by eapply shows_painted |].
  split; [intros a Hna; by eapply (painted_frame g (draw_ptr g) _ m m') |]. intros x y Ho. apply painted_pixel; try done.
  unfold page_picture. apply colored_over; [by apply colored_rect |]. apply colored_over; [apply colored_clip; by apply colored_lines |].
  destruct (offset p =? 0); [by apply colored_rect | done].
Qed.
