(* ===== verification/TerminalExamples.v ===== *)
(** * A concrete terminal: four lines of ten characters in a small pool of memory *)
From S2P Require Import Prelude Interfaces Mem Gfx GfxProps GfxTheorems GfxSafe.
From S2P Require Import Terminal TerminalProps TerminalClip TerminalTheorems TerminalRefine TerminalRender.

(** ** A pool that hands out addresses in increasing order *)
Record pool := Pool { pool_next : Z; pool_live : gmap Z Z }.
Definition pool_end : Z := 8192.
Definition pool_malloc (size : Z) (a : pool) : res (option Z * pool) :=
  if pool_next a + size <=? pool_end then Ret (Some (pool_next a), Pool (pool_next a + size) (<[pool_next a := size]> (pool_live a)))
  else Ret (None, a).
Definition pool_free (p : option Z) (a : pool) : res pool :=
  match p with None => Ret a | Some p => Ret (Pool (pool_next a) (delete p (pool_live a))) end.
Definition pool_ok (a : pool) : Prop :=
  16 <= pool_next a <= pool_end /\
  (forall p n, pool_live a !! p = Some n -> 16 <= p /\ 0 < n /\ p + n <= pool_next a) /\
  (forall p n q k, pool_live a !! p = Some n -> pool_live a !! q = Some k -> p <> q -> p + n <= q \/ q + k <= p).
#[export, refine] Instance pool_allocator : Allocator pool := {
  a_malloc := pool_malloc; a_free := pool_free; a_ok := pool_ok; a_live := pool_live }.
Proof.
  - intros size a (Hn & Hr & Hd) Hs. unfold pool_malloc. destruct (Z.leb_spec (pool_next a + size) pool_end).
    + eexists (Some _), _. split; [reflexivity |]. split.
      * split; [cbn; lia |]. split; cbn.
        -- intros p n [[<- <-]|[Hne Hp]]%lookup_insert_Some; [lia |]. specialize (Hr _ _ Hp). lia.
        -- intros p n q k [[<- <-]|[Hp1 Hp]]%lookup_insert_Some [[<- <-]|[Hq1 Hq]]%lookup_insert_Some Hne; [done | | | by eapply Hd].
           ++ specialize (Hr _ _ Hq). lia.
           ++ specialize (Hr _ _ Hp). lia.
      * split; [| by exists size]. destruct (pool_live a !! pool_next a) eqn:E; [| done]. specialize (Hr _ _ E). lia.
    + exists None, a. split; [done |]. split; [by split |]. done.
  - intros p a (Hn & Hr & Hd) _. eexists. split; [reflexivity |]. split; [| done]. split; [done |]. cbn. split.
    + intros q n [_ Hq]%lookup_delete_Some. by apply Hr.
    + intros q n q' k [_ Hq]%lookup_delete_Some [_ Hq']%lookup_delete_Some. by apply Hd.
  - done.
  - intros a p n q k (_ & _ & Hd). apply Hd.
Defined.
#[export, refine] Instance pool_memory : HeapMemory pool := { hm_lo := 16; hm_hi := pool_end }.
Proof.
  - done.
  - intros a p n (Hn & Hr & _) Hp. specialize (Hr _ _ Hp). lia.
Defined.
Definition pool0 : pool := Pool 16 ∅.
Lemma pool0_ok : pool_ok pool0.
Proof. split; [by cbn |]. split; cbn; intros *; by rewrite lookup_empty. Qed.

(** ** Runs of operations whose arguments need no memory *)
Definition state : Type := @tstate pool.
Definition no_strings (p : Z) : list Z := [].
Fixpoint run_all (os : list op) (s : state) : res state :=
  match os with [] => Ret s | o :: os => s1 ← run o s; run_all os s1 end.
Fixpoint spec_all (os : list op) (sp sp' : screen_spec) : Prop :=
  match os with [] => sp' = sp | o :: os => exists sp1, spec no_strings o sp sp1 /\ spec_all os sp1 sp' end.

Lemma run_all_ok os : forall (s : state) sp, term_ok s sp -> (forall o (s1 : state), o ∈ os -> legal no_strings o s1) ->
  exists s' sp', run_all os s = Ret s' /\ spec_all os sp sp' /\ term_ok s' sp'.
Proof.
  induction os as [|o os IH]; intros s sp T Hl; cbn [run_all spec_all]; [by exists s, sp |].
  destruct (step_ok no_strings o s sp T) as (s1 & sp1 & E & Hs & T1); [apply Hl; by left |]. rewrite (bind_ret _ _ _ E).
  destruct (IH s1 sp1 T1) as (s' & sp' & E' & Hs' & T'); [intros o' s2 Ho; apply Hl; by right |].
  exists s', sp'. split; [exact E' |]. split; [by exists sp1 | exact T'].
Qed.

Definition arena : mem := zeros 0 9000.
Lemma arena_ok : term_ok (fresh arena pool0) (ScreenSpec None None None).
Proof. apply fresh_ok; [exact pool0_ok |]. apply const_mapped; cbn; unfold pool_end; lia. Qed.

(** A terminal of 80 by 64 pixels, and "ab", a new line, "c" typed into it. *)
Definition typed : list op := [SetBounds 8 8 80 64; Putc 97; Putc 98; Putc 10; Putc 99].
Definition typed_page : page := page_print 10 4 (page_home 10 4) [97; 98; 10; 99].
Lemma typed_legal o (s : state) : o ∈ typed ++ [Copy] -> legal no_strings o s.
Proof.
  intros Ho. repeat (apply elem_of_cons in Ho as [-> | Ho]; [by (unfold is_u8 || idtac) |]). by apply not_elem_of_nil in Ho.
Qed.
Definition get {X} (f : terminal_t -> X) (d : X) (r : res state) : X := match r with Ret (t, _, _) => f t | _ => d end.
Lemma typed_cells : get (fun t => cells (grid_ t)) 0 (run_all typed (fresh arena pool0)) = 16.
Proof. by vm_compute. Qed.
Lemma copied_board : get (fun t => clipboard (board_ t)) 0 (run_all (typed ++ [Copy]) (fresh arena pool0)) = 2056.
Proof. by vm_compute. Qed.

(** The state after the typing shows the page that was typed. *)
Lemma typed_ok : exists s, run_all typed (fresh arena pool0) = Ret s /\ term_ok s (ScreenSpec (Some (10, 4)) (Some typed_page) None).
Proof.
  destruct (run_all_ok typed _ _ arena_ok) as (s & sp & E & Hs & T).
  { intros o s1 Ho. apply typed_legal, elem_of_app. by left. }
  exists s. split; [exact E |]. pose proof typed_cells as Hcells. rewrite E in Hcells. clear E.
  cbn [typed spec_all] in Hs. destruct Hs as (sp1 & S1 & sp2 & S2 & sp3 & S3 & sp4 & S4 & sp5 & S5 & ->).
  inversion S1; subst.
  - match goal with H : forall x y w h : Z, _ <> _ |- _ => by destruct (H 8 8 80 64) end.
  - inversion S2; subst; inversion S3; subst; inversion S4; subst; inversion S5; subst; exact T.
  - inversion S2; subst; inversion S3; subst; inversion S4; subst; inversion S5; subst.
    destruct s as [[t m] a]. destruct (to_page _ _ T) as (Hz & _). cbn in Hz, Hcells. congruence.
Qed.

Lemma run_all_execution os : forall os0 s0 (s s' : state), execution no_strings s0 os0 s -> (forall o (s1 : state), o ∈ os -> legal no_strings o s1) ->
  run_all os s = Ret s' -> execution no_strings s0 (os0 ++ os) s'.
Proof.
  induction os as [|o os IH]; intros os0 s0 s s' Hx Hl E; cbn [run_all] in E.
  - injection E as <-. by rewrite app_nil_r.
  - apply res_bind_ret in E as (s1 & E1 & E). replace (os0 ++ o :: os) with ((os0 ++ [o]) ++ os) by (by rewrite <- app_assoc).
    eapply IH; [eapply exec_op; [exact Hx | apply Hl; by left | exact E1] | intros; apply Hl; by right | exact E].
Qed.

Lemma terminal_refines_page_witness : exists s sp, run_all typed (fresh arena pool0) = Ret s /\
  spec_run no_strings (ScreenSpec None None None) typed sp /\ term_ok s sp /\ exists s', run (Putc 100) s = Ret s'.
Proof.
  assert (is_u8 100) as Hd by (unfold is_u8; lia). destruct typed_ok as (s & E & _).
  assert (execution no_strings (fresh arena pool0) typed s) as Hx.
  { apply (run_all_execution typed [] (fresh arena pool0) (fresh arena pool0) s); [constructor | | exact E].
    intros o s1 Ho. apply typed_legal, elem_of_app. by left. }
  destruct (terminal_refines_page no_strings (fresh arena pool0) (ScreenSpec None None None) typed s arena_ok Hx) as (sp & Hr & T & Hn).
  exists s, sp. split; [exact E |]. split; [exact Hr |]. split; [exact T |]. exact (Hn (Putc 100) Hd).
Defined.

Lemma typed_visible : visible 4 typed_page = [repeat 32 10; repeat 32 10; 97 :: 98 :: repeat 32 8; 99 :: repeat 32 9].
Proof. by vm_compute. Qed.
Lemma typed_pasteable : Forall (pasteable 10) (visible 4 typed_page).
Proof. rewrite typed_visible. unfold pasteable, plain. repeat constructor; cbn; lia. Qed.
Lemma run_all_snoc os o : forall s0 s s' : state, run_all os s0 = Ret s -> run o s = Ret s' -> run_all (os ++ [o]) s0 = Ret s'.
Proof.
  induction os as [|o' os IH]; intros s0 s s' E E'; cbn [run_all app] in *.
  - injection E as ->. exact (bind_ret (run o s) s' Ret E').
  - apply res_bind_ret in E as (s1 & E1 & E). rewrite (bind_ret _ _ _ E1). by eapply IH.
Qed.
Lemma run_copy s (s' : state) : run_all typed (fresh arena pool0) = Ret s -> run Copy s = Ret s' -> clipboard (board_ s'.1.1) = 2056.
Proof.
  intros E E'. pose proof copied_board as Hb. rewrite (run_all_snoc _ _ _ _ _ E E') in Hb. destruct s' as [[t m] a]. exact Hb.
Qed.

Lemma terminal_copy_paste_witness : exists s s1 s2 s3 p3, run_all typed (fresh arena pool0) = Ret s /\
  run Copy s = Ret s1 /\ run ClearAll s1 = Ret s2 /\ run Paste s2 = Ret s3 /\
  term_ok s3 (ScreenSpec (Some (10, 4)) (Some p3) (Some (clip_text 4 typed_page))) /\
  lines p3 !! 1%nat = Some (99 :: repeat 32 9) /\ lines p3 !! 2%nat = Some (97 :: 98 :: repeat 32 8).
Proof.
  assert (2056 <> 0) as Hz by lia. destruct typed_ok as ([[t m] a] & E & T).
  destruct (step_ok no_strings Copy (t, m, a) _ T I) as ([[t1 m1] a1] & _ & E1 & _ & _).
  pose proof (run_copy _ _ E E1) as Hc. cbn [fst] in Hc.
  destruct (terminal_copy_paste t m a 10 4 typed_page None t1 m1 a1 T E1 (eq_ind_r (fun z => z <> 0) Hz Hc) typed_pasteable) as (s2 & s3 & p3 & E2 & E3 & T3 & Hl).
  exists (t, m, a), (t1, m1, a1), s2, s3, p3. split; [exact E |]. split; [exact E1 |]. split; [exact E2 |]. split; [exact E3 |]. split; [exact T3 |].
  rewrite Hl. split; vm_compute; reflexivity.
Defined.

(** ** Rendering: a window of one line of three characters, every cell an "A" *)
Definition tiny : terminal_t := Terminal (Area 0 0 24 20) (Grid 3 1 201 16) home 0xFFFFFF 0 (Board 0 0 0).
Definition tiny_page : page := Page (repeat (repeat 65 3) 201) 0 1 0.
Definition sixty_fives : mem := const_mem 65 0 16384.
Lemma tiny_buffers : buffers doubled sixty_fives.
Proof.
  split; [..| by apply const_bytes].
  - split; cbn; try done; try lia. apply const_mapped; lia.
  - split; cbn; try done; try lia. apply const_mapped; lia.
  - unfold in_buffer. cbn. lia.
Qed.
Lemma tiny_grid : grid_ok tiny.
Proof. split; unfold cells_size; cbn; (done || lia). Qed.
Lemma tiny_page_ok : page_ok 3 1 tiny_page.
Proof.
  split; [reflexivity | | cbn; lia | cbn; unfold SCROLLBACK_LINES; lia | unfold max_offset; cbn; lia].
  apply Forall_forall. intros l Hl%list_elem_of_In%repeat_spec. by subst.
Qed.
Lemma tiny_shows : shows tiny sixty_fives tiny_page.
Proof.
  split; [exact tiny_page_ok | reflexivity | reflexivity | reflexivity |].
  intros i l Hl. assert (l = repeat 65 3) as -> by (by apply list_elem_of_lookup_2, list_elem_of_In, repeat_spec in Hl).
  intros j Hj. change (length (repeat 65 3)) with 3%nat in Hj. rewrite repeat_lookup by done. unfold sixty_fives. rewrite const_lookup.
  pose proof (row_in tiny _ tiny_grid (ring_range tiny (Z.of_nat i) tiny_grid)) as Hr. unfold cells_size in Hr. cbn [cells grid_ tiny cols total_lines] in Hr.
  by rewrite decide_True by lia.
Qed.
Lemma tiny_pixels : page_picture tiny tiny_page 3 2 = Some 0xFFFFFF /\ page_picture tiny tiny_page 11 2 = Some 0xFFFFFF /\
  page_picture tiny tiny_page 0 2 = Some 0.
Proof. by vm_compute. Qed.
Lemma terminal_render_shows_witness : exists m', terminal_render tiny doubled sixty_fives = Ret (tiny, m') /\
  pixel doubled 4096 3 2 m' = Ret 0xFFFFFF /\ pixel doubled 4096 11 2 m' = Ret 0xFFFFFF /\ pixel doubled 4096 0 2 m' = Ret 0.
Proof.
  destruct tiny_pixels as (P1 & P2 & P3).
  destruct (terminal_render_shows doubled sixty_fives tiny tiny_page tiny_buffers tiny_grid tiny_shows) as (m' & E & _ & _ & P).
  - left. unfold cells_size. cbn. lia.
  - unfold render_fits, rect_fits, window_fits, is_int. cbn. lia.
  - unfold is_u32. cbn. lia.
  - unfold is_u32. cbn. lia.
  - assert (forall x y, 0 <= x < 24 /\ 0 <= y < 20 -> on_screen doubled x y) as Ho by (unfold on_screen; cbn; auto).
    exists m'. split; [exact E |].
    pose proof (P 3 2 (Ho 3 2 ltac:(lia))) as Q1. rewrite P1 in Q1.
    pose proof (P 11 2 (Ho 11 2 ltac:(lia))) as Q2. rewrite P2 in Q2.
    pose proof (P 0 2 (Ho 0 2 ltac:(lia))) as Q3. rewrite P3 in Q3.
    split; [exact Q1 |]. split; [exact Q2 | exact Q3].
Defined.
