(* ===== verification/Browser.v ===== *)
(** * The text side of the browser ([src/src/apps/browser.c])

    A string is the list of its bytes; where the code walks a buffer with a pointer, the
    pointer is the rest of the buffer, with its NUL, and reading past the end is a [Fault].
    [browser_html_to_text] reads and writes one buffer, by two indices.  [net_*] and the
    clock stay outside: [show_response] starts with the bytes received. *)
From S2P Require Import Prelude.

Definition BROWSER_CONTENT_CAP : Z := 64 * 1024.
Definition URL_CAP : Z := 128.

(** [*p] and [p + 1]. *)
Definition deref (p : list Z) : res Z := match p with [] => Fault | c :: _ => Ret c end.

Definition lower (c : Z) : Z := if (65 <=? c) && (c <=? 90) then c - 65 + 97 else c.
Fixpoint browser_strncasecmp (a b : list Z) (n : nat) : res Z :=
  match n with
  | O => Ret 0
  | S n =>
      ca ← deref a; cb ← deref b;
      let ca := lower ca in let cb := lower cb in
      if negb (ca =? cb) then Ret (ca - cb) else
      if ca =? 0 then Ret 0 else browser_strncasecmp (tail a) (tail b) n
  end.

(** *** Addresses.  [url] has no NUL; the results are [host] and [path]. *)
Fixpoint starts_with (lit s : list Z) : bool :=
  match lit, s with
  | [], _ => true
  | c :: lit, d :: s => (c =? d) && starts_with lit s
  | _ :: _, [] => false
  end.
Definition HTTP : list Z := Eval vm_compute in txt "http://".
Definition HTTPS : list Z := Eval vm_compute in txt "https://".
Fixpoint until_slash (s : list Z) : list Z :=
  match s with [] => [] | c :: s => if c =? 47 then [] else c :: until_slash s end.
Definition browser_parse_url (url : list Z) (host_cap path_cap : Z) : option (list Z * list Z) :=
  let p := if starts_with HTTP url then Some (drop 7 url) else if starts_with HTTPS url then None else Some url in
  match p with
  | None | Some [] => None
  | Some p =>
      let host := until_slash p in
      let host_len := Z.of_nat (length host) in
      if (host_len <=? 0) || (host_cap <=? host_len) then None else
      match drop (length host) p with
      | [] => if path_cap <? 2 then None else Some (host, [47])
      | slash =>
          let path_len := Z.of_nat (length slash) in
          let path_len := if path_cap <=? path_len then path_cap - 1 else path_len in
          Some (host, take (Z.to_nat path_len) slash)
      end
  end.

(** *** The request; each part is cut where the 512 bytes end. *)
Fixpoint append_limited (s : list Z) (req : list Z) : list Z :=
  match s with [] => req | c :: s => if Z.of_nat (length req) <? 512 - 1 then append_limited s (req ++ [c]) else req end.
Definition p1 : list Z := Eval vm_compute in txt "GET ".
Definition p2 : list Z := Eval vm_compute in txt " HTTP/1.1" ++ CRLF ++ txt "Host: ".
Definition p3 : list Z := Eval vm_compute in CRLF ++ txt "User-Agent: FusionBrowser/1.0" ++ CRLF ++ txt "Connection: close" ++ CRLF ++ CRLF.
Definition build_request (host path : list Z) : list Z :=
  append_limited p3 (append_limited host (append_limited p2 (append_limited path (append_limited p1 [])))).

(** *** Headers *)
(** To the end of the line: a NUL or a CR LF. *)
Fixpoint line_end (p : list Z) : res (list Z) :=
  match p with
  | [] => Fault
  | c :: q => if c =? 0 then Ret p else if c =? 13 then d ← deref q; if d =? 10 then Ret p else line_end q else line_end q
  end.
Fixpoint skip_blanks (p : list Z) : res (list Z) :=
  match p with [] => Fault | c :: q => if (c =? 32) || (c =? 9) then skip_blanks q else Ret p end.
Fixpoint browser_find_header (fuel : nat) (p key : list Z) : res (option (list Z)) :=
  c ← deref p;
  if c =? 0 then Ret None else
  match fuel with
  | O => Spin
  | S fuel =>
      e ← line_end p;
      let k := length key in
      hit ← (if (k <=? length p - length e)%nat then
               r ← browser_strncasecmp p (key ++ [0]) k;
               if r =? 0 then d ← zget p (Z.of_nat k); Ret (d =? 58) else Ret false
             else Ret false);
      if hit : bool then v ← skip_blanks (drop (k + 1) p); Ret (Some v) else
      c ← deref e;
      browser_find_header fuel (if c =? 13 then drop 2 e else if negb (c =? 0) then drop 1 e else e) key
  end.

Definition browser_hex_digit (c : Z) : Z :=
  if (48 <=? c) && (c <=? 57) then c - 48 else
  if (97 <=? c) && (c <=? 102) then 10 + (c - 97) else
  if (65 <=? c) && (c <=? 70) then 10 + (c - 65) else -1.
Fixpoint parse_hex_loop (s : list Z) (value : Z) : Z :=
  match s with
  | [] => value
  | c :: s =>
      if c =? 0 then value else
      let d := browser_hex_digit c in
      if d <? 0 then value else parse_hex_loop s (Z.lor (u32 (Z.shiftl value 4)) d)
  end.
Definition browser_parse_hex (s : list Z) : Z := parse_hex_loop s 0.

(** Decimal digits into an [int]. *)
Fixpoint decimal (p : list Z) (value : Z) : res Z :=
  c ← deref p;
  if (48 <=? c) && (c <=? 57) then
    match p with
    | [] => Fault
    | _ :: q => v ← int_ok (value * 10); v ← int_ok (v + (c - 48)); decimal q v
    end
  else Ret value.

(** [memcpy] of [n] bytes from [p]: the bytes behind what was received are not its own. *)
Definition copy_from (p : list Z) (n : Z) : res (list Z) :=
  if (0 <=? n) && (n <=? Z.of_nat (length p)) then Ret (take (Z.to_nat n) p) else Fault.

(** *** Chunks: [p] is what is left before [end], [out] what has been copied to the content. *)
Definition is_crlf (c : Z) : bool := (c =? 13) || (c =? 10).
Fixpoint skip_crlf (p : list Z) : list Z :=
  match p with [] => [] | c :: q => if is_crlf c then skip_crlf q else p end.
Fixpoint size_text (n : nat) (p : list Z) : list Z :=
  match n, p with
  | S n, c :: q => if is_crlf c then [] else c :: size_text n q
  | _, _ => []
  end.
Fixpoint dechunk (fuel : nat) (p out : list Z) (cap : Z) : res (list Z) :=
  let out_len := Z.of_nat (length out) in
  if negb ((0 <? Z.of_nat (length p)) && (u32 (out_len + 1) <? cap)) then Ret out else
  match fuel with
  | O => Spin
  | S fuel =>
      let p := skip_crlf p in
      let size_buf := size_text 15 p in
      let p := drop (length size_buf) p in
      let chunk := browser_parse_hex size_buf in
      if chunk =? 0 then Ret out else
      let p := skip_crlf p in
      let chunk := if Z.of_nat (length p) <? chunk then u32 (Z.of_nat (length p)) else chunk in
      let chunk := if cap <=? u32 (out_len + chunk) then u32 (cap - out_len - 1) else chunk in
      if cap <? out_len + chunk then Fault else
      bytes ← copy_from p chunk;
      dechunk fuel (drop (Z.to_nat chunk) p) (out ++ bytes) cap
  end.

(** *** Text of a page.  The buffer is read at [i] and written at [o]. *)
(** [strncmp(in, lit, strlen(lit)) == 0] at [i]. *)
Fixpoint strncmp_at (buf : list Z) (i : Z) (lit : list Z) : res bool :=
  match lit with
  | [] => Ret true
  | c :: lit => d ← zget buf i; if d =? c then strncmp_at buf (i + 1) lit else Ret false
  end.
Definition entities : list (list Z * Z) := Eval vm_compute in
  [(txt "amp;", 38); (txt "lt;", 60); (txt "gt;", 62); (txt "quot;", 34); (txt "apos;", 39); (txt "nbsp;", 32)].
(** The character for an entity behind the [&] at [i - 1], and how many bytes it took. *)
Fixpoint entity_at (es : list (list Z * Z)) (buf : list Z) (i : Z) : res (Z * Z) :=
  match es with
  | [] => Ret (38, 0)
  | (name, c) :: es =>
      hit ← strncmp_at buf i name;
      if hit : bool then Ret (c, Z.of_nat (length name)) else entity_at es buf i
  end.
Definition break_tags : list (list Z) := Eval vm_compute in
  [txt "br"; txt "p"; txt "div"; txt "li"; txt "h1"; txt "h2"; txt "h3"].
(** A leading slash is removed from the name. *)
Definition tag_name (tag : list Z) : list Z := match tag with c :: q => if c =? 47 then q else tag | [] => [] end.
Definition breaks (tag : list Z) : bool := existsb (fun t => str_eqb (c_str (tag_name tag)) t) break_tags.
(** A character inside a tag; at most 15 are kept. *)
Definition tag_char (c : Z) (tag : list Z) : list Z :=
  if Z.of_nat (length tag) <? 16 - 1 then
    if negb ((c =? 32) || (c =? 9) || (c =? 13) || (c =? 10) || (c =? 47)) then tag ++ [lower c] else tag
  else tag.
(** [tag] is [None] outside a tag. *)
Fixpoint html_loop (fuel : nat) (buf : list Z) (i o : Z) (tag : option (list Z)) (out_cap : Z) : res (list Z * Z) :=
  c ← zget buf i;
  if (c =? 0) || negb (u32 (o + 1) <? out_cap) then Ret (buf, o) else
  match fuel with
  | O => Spin
  | S fuel =>
      let i := i + 1 in
      match tag with
      | None =>
          if c =? 60 then html_loop fuel buf i o (Some []) out_cap else
          '(d, n) ← (if c =? 38 then entity_at entities buf i else Ret (c, 0));
          buf ← zset buf o d; html_loop fuel buf (i + n) (u32 (o + 1)) None out_cap
      | Some tag =>
          if c =? 62 then
            if breaks tag then buf ← zset buf o 10; html_loop fuel buf i (u32 (o + 1)) None out_cap
            else html_loop fuel buf i o None out_cap
          else html_loop fuel buf i o (Some (tag_char c tag)) out_cap
      end
  end.
(** [browser_html_to_text(buf, buf, out_cap)] *)
Definition browser_html_to_text (buf : list Z) (out_cap : Z) : res (list Z) :=
  '(buf, o) ← html_loop (length buf) buf 0 0 None out_cap; zset buf o 0.

(** *** The page for the bytes received *)
(** Behind the first empty line. *)
Fixpoint header_end (p : list Z) : option (list Z) :=
  match p with
  | [] => None
  | _ :: q => if starts_with [13; 10; 13; 10] p then Some (drop 4 p) else header_end q
  end.
Definition TRANSFER_ENCODING : list Z := Eval vm_compute in txt "Transfer-Encoding".
Definition CONTENT_LENGTH : list Z := Eval vm_compute in txt "Content-Length".
Definition CHUNKED : list Z := Eval vm_compute in txt "chunked".
(** [is_chunked] and [content_length] for the response [raw], which ends in a NUL. *)
Definition is_chunked (raw : list Z) : res bool :=
  v ← browser_find_header (length raw) raw TRANSFER_ENCODING;
  match v with None => Ret false | Some v => r ← browser_strncasecmp v (CHUNKED ++ [0]) 7; Ret (r =? 0) end.
Definition content_length (raw : list Z) : res Z :=
  v ← browser_find_header (length raw) raw CONTENT_LENGTH;
  match v with None => Ret (-1) | Some v => decimal v 0 end.
Definition read_headers (raw : list Z) : res (bool * Z) :=
  chunked ← is_chunked raw; len ← content_length raw; Ret (chunked, len).
(** [memcpy] to the content, and its NUL. *)
Definition fill_content (body content : list Z) : res (list Z) :=
  if Z.of_nat (length body) <? Z.of_nat (length content) then Ret (splice content 0 (body ++ [0])) else Fault.
(** [body_len] without chunks: what came, no more than was announced, no more than fits. *)
Definition plain_length (content_length body_len cap : Z) : Z :=
  let body_len := if (0 <=? content_length) && (u32 content_length <? body_len) then u32 content_length else body_len in
  if cap <=? body_len then u32 (cap - 1) else body_len.
(** The bytes of the body, without the framing. *)
Definition take_body (raw : list Z) (cap : Z) : res (list Z) :=
  let body := default raw (header_end raw) in
  '(chunked, content_length) ← (match header_end raw with Some _ => read_headers (raw ++ [0]) | None => Ret (false, -1) end);
  if chunked : bool then dechunk (length body) body [] cap
  else copy_from body (plain_length content_length (u32 (Z.of_nat (length body))) cap).
(** The new content and [content_len]. *)
Definition show_response (raw content : list Z) : res (list Z * Z) :=
  let cap := Z.of_nat (length content) in
  body ← take_body raw cap;
  content ← fill_content body content;
  content ← browser_html_to_text content cap;
  Ret (content, Z.of_nat (length body)).

(** What is received is added while it fits. *)
Definition receive (raw tmp : list Z) (content_cap : Z) : list Z :=
  if u32 (Z.of_nat (length raw) + Z.of_nat (length tmp)) <? content_cap then raw ++ tmp else raw.

(** *** The status and the address line *)
Definition browser_set_status (msg : list Z) : list Z := take 63 msg.
Definition type_url (ascii : Z) (url : list Z) : list Z :=
  if (32 <=? ascii) && (ascii <? 127) then if Z.of_nat (length url) <? URL_CAP - 1 then url ++ [ascii] else url else url.
Definition backspace_url (url : list Z) : list Z := if 0 <? Z.of_nat (length url) then removelast url else url.
