(* ===== verification/BrowserProps.v ===== *)
(** * The text side of the browser: in place, entities, chunks, addresses *)
From S2P Require Import Prelude Browser.

(** ** The text of a page, as a function from list to list *)
Fixpoint entity (es : list (list Z * Z)) (s : list Z) : Z * nat :=
  match es with
  | [] => (38, O)
  | (name, c) :: es => if starts_with name s then (c, length name) else entity es s
  end.
(** [skip] characters belong to an entity that has been read. *)
Fixpoint page_text (skip : nat) (tag : option (list Z)) (s : list Z) : list Z :=
  match s with
  | [] => []
  | c :: s =>
      match skip with
      | S k => page_text k tag s
      | O =>
          match tag with
          | None =>
              if c =? 60 then page_text 0 (Some []) s else
              if c =? 38 then (entity entities s).1 :: page_text (entity entities s).2 None s
              else c :: page_text 0 None s
          | Some t =>
              if c =? 62 then (if breaks t then [10] else []) ++ page_text 0 None s
              else page_text 0 (Some (tag_char c t)) s
          end
      end
  end.
Definition html_text (s : list Z) : list Z := page_text 0 None s.
Definition no_nul (s : list Z) : Prop := Forall (fun c => c <> 0) s.

Lemma page_text_skip n tag s : (n <= length s)%nat -> page_text n tag s = page_text 0 tag (drop n s).
Proof.
  revert s. induction n as [|n IH]; intros s Hn; [by rewrite drop_0 |]. destruct s as [|c s]; [cbn in Hn; lia |].
  cbn [page_text drop]. apply IH. cbn in Hn. lia.
Qed.
Lemma starts_with_length lit s : starts_with lit s = true -> (length lit <= length s)%nat.
Proof.
  revert s. induction lit as [|c lit IH]; intros s; cbn; [lia |]. destruct s as [|d s]; [done |]. intros [_ H]%andb_prop. specialize (IH s H). cbn. lia.
Qed.
Lemma entity_length es s : ((entity es s).2 <= length s)%nat.
Proof.
  induction es as [|[name c] es IH]; cbn; [lia |]. destruct (starts_with name s) eqn:E; [by apply starts_with_length | done].
Qed.

(** ** In place: [buf] is what is written, a gap, what is to be read, and its NUL. *)
Lemma zget_app (a b : list Z) c q i : i = Z.of_nat (length a) -> b = c :: q -> zget (a ++ b) i = Ret c.
Proof. intros -> ->. apply zget_nat. by rewrite lookup_app_r, Nat.sub_diag by lia. Qed.
Lemma zset_app (a b : list Z) c d q i : i = Z.of_nat (length a) -> b = c :: q -> zset (a ++ b) i d = Ret (a ++ d :: q).
Proof.
  intros -> ->. rewrite zset_nat by (rewrite length_app; cbn; lia). f_equal. rewrite insert_app_r_alt, Nat.sub_diag by lia. done.
Qed.

Lemma strncmp_at_ok lit : no_nul lit -> forall pre s rest i, i = Z.of_nat (length pre) ->
  strncmp_at (pre ++ s ++ 0 :: rest) i lit = Ret (starts_with lit s).
Proof.
  induction 1 as [|c lit Hc _ IH]; intros pre s rest i Hi; cbn [strncmp_at starts_with]; [done |]. destruct s as [|d s].
  - rewrite (zget_app pre ([] ++ 0 :: rest) 0 rest i Hi eq_refl). cbn [mbind res_bind].
    destruct (Z.eqb_spec 0 c); [congruence | done].
  - rewrite (zget_app pre ((d :: s) ++ 0 :: rest) d (s ++ 0 :: rest) i Hi eq_refl). cbn [mbind res_bind]. rewrite (Z.eqb_sym c d).
    destruct (d =? c); cbn [andb]; [| done].
    replace (pre ++ (d :: s) ++ 0 :: rest) with ((pre ++ [d]) ++ s ++ 0 :: rest) by (by rewrite <- app_assoc).
    apply IH. rewrite length_app. cbn. lia.
Qed.
Lemma entity_at_ok es : Forall (fun e => no_nul e.1) es -> forall pre s rest i, i = Z.of_nat (length pre) ->
  entity_at es (pre ++ s ++ 0 :: rest) i = Ret ((entity es s).1, Z.of_nat (entity es s).2).
Proof.
  induction 1 as [|[name c] es Hn _ IH]; intros pre s rest i Hi; cbn [entity_at entity]; [done |].
  rewrite (bind_ret _ _ _ (strncmp_at_ok name Hn pre s rest i Hi)). destruct (starts_with name s); [done | by apply IH].
Qed.
Lemma entities_no_nul : Forall (fun e => no_nul e.1) entities.
Proof. unfold entities, no_nul. repeat constructor; cbn; lia. Qed.

(** A gap before the next character has room for one to be written. *)
Lemma gap_cons (mid : list Z) c n s : exists x mid', mid ++ c :: take n s = x :: mid' /\ length mid' = (length mid + length (take n s))%nat.
Proof. destruct mid as [|x mid]; cbn; [by exists c, (take n s) |]. exists x, (mid ++ c :: take n s). rewrite length_app. cbn. split; [done | lia]. Qed.

(** With budget [fuel] the loop writes the text of what is left, behind [out]. *)
Definition finishes (fuel : nat) : Prop := forall s out mid rest tag cap, no_nul s -> (length s <= fuel)%nat ->
  Z.of_nat (length out + length mid + length s) < cap -> cap < 2 ^ 32 ->
  exists mid', html_loop fuel (out ++ mid ++ s ++ 0 :: rest) (Z.of_nat (length out + length mid)) (Z.of_nat (length out)) tag cap =
      Ret (out ++ page_text 0 tag s ++ mid' ++ 0 :: rest, Z.of_nat (length (out ++ page_text 0 tag s))) /\
    (length (page_text 0 tag s) + length mid' = length mid + length s)%nat.

Section Turn.
Context (fuel : nat) (c : Z) (s out mid rest : list Z) (tag : option (list Z)) (cap : Z) (n : nat).
Context (IH : finishes fuel) (Hs : no_nul s) (Hf : (length s <= fuel)%nat)
  (Hc : Z.of_nat (length out + length mid + S (length s)) < cap) (Hcap : cap < 2 ^ 32) (Hn : (n <= length s)%nat).
#[local] Abbreviation result r := (exists mid', r = Ret (out ++ page_text 0 tag (c :: s) ++ mid' ++ 0 :: rest, Z.of_nat (length (out ++ page_text 0 tag (c :: s)))) /\
  (length (page_text 0 tag (c :: s)) + length mid' = length mid + S (length s))%nat).

Lemma gap_grows : mid ++ (c :: s) ++ 0 :: rest = (mid ++ c :: take n s) ++ drop n s ++ 0 :: rest.
Proof. rewrite <- (take_drop n s) at 1. rewrite <- !app_assoc. cbn. by rewrite <- !app_assoc. Qed.

(** A turn that reads [n] characters more and writes nothing. *)
Lemma read_turn tag' : page_text 0 tag (c :: s) = page_text n tag' s ->
  result (html_loop fuel (out ++ mid ++ (c :: s) ++ 0 :: rest) (Z.of_nat (length out + length mid) + 1 + Z.of_nat n) (Z.of_nat (length out)) tag' cap).
Proof using All.
  intros E. rewrite E, page_text_skip, gap_grows by done. pose proof (length_take s n) as Ht.
  replace (Z.of_nat (length out + length mid) + 1 + Z.of_nat n) with (Z.of_nat (length out + length (mid ++ c :: take n s)))
    by (rewrite length_app; cbn [length]; lia).
  destruct (IH (drop n s) out (mid ++ c :: take n s) rest tag' cap) as (mid' & E' & Hl);
    [by apply Forall_drop | rewrite length_drop; lia | rewrite length_app, length_drop; cbn [length]; lia | done |].
  rewrite ?length_app, length_drop in Hl. cbn [length] in *.
  exists mid'. split; [exact E' | lia].
Qed.

(** A turn that writes [d]. *)
Lemma write_turn d : page_text 0 tag (c :: s) = d :: page_text n None s ->
  result (buf ← zset (out ++ mid ++ (c :: s) ++ 0 :: rest) (Z.of_nat (length out)) d;
    html_loop fuel buf (Z.of_nat (length out + length mid) + 1 + Z.of_nat n) (Z.of_nat (length out) + 1) None cap).
Proof using All.
  intros E. rewrite E, page_text_skip, gap_grows by done. pose proof (length_take s n) as Ht. destruct (gap_cons mid c n s) as (x & gap & -> & Hg).
  cbn [app]. rewrite (bind_ret _ _ _ (zset_app out _ x d _ _ eq_refl eq_refl)).
  replace (Z.of_nat (length out + length mid) + 1 + Z.of_nat n) with (Z.of_nat (length (out ++ [d]) + length gap))
    by (rewrite length_app; cbn [length]; lia).
  replace (Z.of_nat (length out) + 1) with (Z.of_nat (length (out ++ [d]))) by (rewrite length_app; cbn [length]; lia).
  replace (out ++ d :: gap ++ drop n s ++ 0 :: rest) with ((out ++ [d]) ++ gap ++ drop n s ++ 0 :: rest) by (by rewrite <- app_assoc).
  destruct (IH (drop n s) (out ++ [d]) gap rest None cap) as (mid' & E' & Hl);
    [by apply Forall_drop | rewrite length_drop; lia | rewrite length_app, length_drop; cbn [length]; lia | done |].
  rewrite ?length_app, length_drop in Hl. cbn [length] in *.
  exists mid'. rewrite E', <- !app_assoc. split; [done | lia].
Qed.
End Turn.

Lemma html_loop_ok fuel : finishes fuel.
Proof.
  assert (forall f out mid rest tag cap, html_loop f (out ++ mid ++ [] ++ 0 :: rest) (Z.of_nat (length out + length mid)) (Z.of_nat (length out)) tag cap =
    Ret (out ++ mid ++ 0 :: rest, Z.of_nat (length out))) as Hend.
  { intros f out mid rest tag cap. cbn [app]. rewrite (app_assoc out mid). destruct f; cbn [html_loop];
      by rewrite (zget_app (out ++ mid) _ 0 rest) by (try done; rewrite length_app; lia). }
  induction fuel as [|fuel IH]; intros s out mid rest tag cap Hs Hf Hc Hcap.
  { destruct s; [| cbn in Hf; lia]. exists mid. rewrite Hend. cbn [page_text app]. rewrite app_nil_r. split; [done | lia]. }
  destruct s as [|c s]; [exists mid; rewrite Hend; cbn [page_text app]; rewrite app_nil_r; split; [done | lia] |].
  apply Forall_cons in Hs as [Hc0 Hs]. cbn [length] in *.
  assert (zget (out ++ mid ++ (c :: s) ++ 0 :: rest) (Z.of_nat (length out + length mid)) = Ret c) as Eg
    by (rewrite (app_assoc out mid); apply (zget_app _ _ c (s ++ 0 :: rest)); [rewrite length_app; lia | done]).
  cbn [html_loop]. rewrite (bind_ret _ _ _ Eg).
  rewrite (proj2 (Z.eqb_neq c 0) Hc0), u32_id by (unfold is_u32; lia). rewrite (proj2 (Z.ltb_lt _ cap)) by lia. cbn [orb negb].
  pose proof (read_turn fuel c s out mid rest tag cap 0 IH Hs ltac:(lia) Hc Hcap ltac:(lia)) as Hread. rewrite Z.add_0_r in Hread.
  pose proof (write_turn fuel c s out mid rest tag cap 0 IH Hs ltac:(lia) Hc Hcap ltac:(lia)) as Hwrite.
  pose proof Hwrite as Hplain. rewrite Z.add_0_r in Hwrite.
  destruct tag as [t|]; cbn [page_text] in Hread, Hwrite, Hplain |- *.
  - destruct (c =? 62); [| by apply Hread]. destruct (breaks t); [by apply Hwrite | by apply Hread].
  - destruct (c =? 60); [by apply Hread |]. destruct (c =? 38) eqn:Ea; [| by apply (Hplain c)].
    rewrite (bind_ret _ ((entity entities s).1, Z.of_nat (entity entities s).2)).
    + pose proof (write_turn fuel c s out mid rest None cap _ IH Hs ltac:(lia) Hc Hcap (entity_length entities s)) as Hent.
      cbn [page_text] in Hent. rewrite Ea in Hent. replace (c =? 60) with false in Hent by lia. by apply Hent.
    + replace (out ++ mid ++ (c :: s) ++ 0 :: rest) with ((out ++ mid ++ [c]) ++ s ++ 0 :: rest) by (by rewrite <- !app_assoc).
      apply entity_at_ok; [exact entities_no_nul | rewrite !length_app; cbn; lia].
Qed.

(** No NUL in the text that is written. *)
Lemma page_text_no_nul n tag s : no_nul s -> no_nul (page_text n tag s).
Proof.
  intros Hs. revert n tag. induction Hs as [|c s Hc Hs IH]; intros n tag; cbn [page_text]; [by apply Forall_nil |].
  destruct n as [|n]; [| apply IH]. destruct tag as [t|].
  - destruct (c =? 62); [| apply IH]. apply Forall_app. split; [destruct (breaks t); by repeat constructor | apply IH].
  - destruct (c =? 60); [apply IH |]. destruct (c =? 38); apply Forall_cons; split; try apply IH; [| done].
    cbn. repeat case_match; cbn; lia.
Qed.
Lemma c_str_app s rest : no_nul s -> c_str (s ++ 0 :: rest) = s.
Proof. induction 1 as [|c s Hc _ IH]; [done |]. cbn. by rewrite (proj2 (Z.eqb_neq _ _) Hc), IH. Qed.

(** The call with one buffer as source and target. *)
Lemma browser_html_in_place_ok s rest cap : no_nul s -> Z.of_nat (length s) < cap < 2 ^ 32 ->
  exists buf, browser_html_to_text (s ++ 0 :: rest) cap = Ret buf /\ c_str buf = html_text s /\
    length buf = length (s ++ 0 :: rest) /\ drop (length s + 1) buf = rest.
Proof.
  intros Hs Hc. destruct (html_loop_ok (length (s ++ 0 :: rest)) s [] [] rest None cap) as (mid & E & Hl); [done | rewrite length_app; lia | cbn; lia | lia |].
  cbn [app length] in E, Hl. unfold browser_html_to_text. rewrite (bind_ret _ _ _ E).
  assert (mid ++ 0 :: rest = default 0 (head (mid ++ 0 :: rest)) :: tail (mid ++ 0 :: rest)) as Em by (by destruct mid).
  rewrite (zset_app _ _ _ 0 _ _ eq_refl Em). eexists. split; [reflexivity |].
  split; [apply c_str_app; by apply page_text_no_nul |].
  rewrite !length_app. cbn [length]. split; [destruct mid; cbn in *; rewrite ?length_app; cbn; lia |].
  rewrite drop_app_ge by lia. destruct mid as [|x mid]; cbn [app tail length] in *.
  - by replace (length s + 1 - _)%nat with 1%nat by (unfold html_text in *; lia).
  - replace (length s + 1 - _)%nat with (S (length mid + 1))%nat by lia. cbn [drop]. rewrite drop_app_ge by lia.
    by replace (length mid + 1 - length mid)%nat with 1%nat by lia.
Qed.

(** ** Escaped text *)
Definition escape_char (c : Z) : list Z :=
  if c =? 38 then [38; 97; 109; 112; 59] else if c =? 60 then [38; 108; 116; 59] else if c =? 62 then [38; 103; 116; 59] else
  if c =? 34 then [38; 113; 117; 111; 116; 59] else if c =? 39 then [38; 97; 112; 111; 115; 59] else [c].
Definition escape (s : list Z) : list Z := flat_map escape_char s.

Lemma html_escape_char c s : page_text 0 None (escape_char c ++ s) = c :: page_text 0 None s.
Proof.
  unfold escape_char. destruct (Z.eqb_spec c 38) as [->|]; [done |]. destruct (Z.eqb_spec c 60) as [->|]; [done |].
  destruct (Z.eqb_spec c 62) as [->|]; [done |]. destruct (Z.eqb_spec c 34) as [->|]; [done |]. destruct (Z.eqb_spec c 39) as [->|]; [done |].
  cbn [app page_text]. by rewrite (proj2 (Z.eqb_neq c 60)), (proj2 (Z.eqb_neq c 38)) by done.
Qed.
Lemma html_escape s : html_text (escape s) = s.
Proof. unfold html_text. induction s as [|c s IH]; [done |]. change (escape (c :: s)) with (escape_char c ++ escape s). by rewrite html_escape_char, IH. Qed.
Lemma escape_no_nul s : no_nul s -> no_nul (escape s).
Proof.
  induction 1 as [|c s Hc _ IH]; [by apply Forall_nil |]. cbn [escape flat_map]. apply Forall_app. split; [| done].
  unfold escape_char. repeat case_match; repeat constructor; lia.
Qed.

(** ** Chunks *)
(** A chunk: the text of its size and its bytes, of which the first is not a line end. *)
Record chunk := Chunk { size_line : list Z; data : list Z }.
Definition chunk_ok (k : chunk) : Prop :=
  Forall (fun c => is_crlf c = false) (size_line k) /\ (0 < length (size_line k) <= 15)%nat /\
  browser_parse_hex (size_line k) = Z.of_nat (length (data k)) /\ data k <> [] /\ is_crlf (default 0 (head (data k))) = false.
Definition encode_chunk (k : chunk) : list Z := size_line k ++ [13; 10] ++ data k ++ [13; 10].
Definition encode_chunks (ks : list chunk) : list Z := flat_map encode_chunk ks ++ [48; 13; 10; 13; 10].
Definition body_of (ks : list chunk) : list Z := flat_map data ks.

Lemma skip_crlf_stop p : is_crlf (default 0 (head p)) = false -> skip_crlf p = p.
Proof. destruct p as [|c p]; [done |]. cbn. by intros ->. Qed.
Lemma size_text_ok line n c q : Forall (fun c => is_crlf c = false) line -> (length line <= n)%nat -> is_crlf c = true ->
  size_text n (line ++ c :: q) = line.
Proof.
  intros H. revert n. induction H as [|d line Hd _ IH]; intros n Hn Hc; cbn [app].
  - destruct n; cbn; [done | by rewrite Hc].
  - destruct n as [|n]; [cbn in Hn; lia |]. cbn. rewrite Hd. f_equal. apply IH; [cbn in Hn; lia | done].
Qed.
Lemma head_crlf line q : Forall (fun c => is_crlf c = false) line -> line <> [] -> is_crlf (default 0 (head (line ++ q))) = false.
Proof. intros H Hne. destruct line as [|c line]; [done |]. by apply Forall_cons in H as [H _]. Qed.

Lemma copy_from_ok p n : 0 <= n <= Z.of_nat (length p) -> copy_from p n = Ret (take (Z.to_nat n) p).
Proof. intros H. unfold copy_from. by rewrite (proj2 (Z.leb_le 0 n)), (proj2 (Z.leb_le n _)) by lia. Qed.

(** One chunk; it may be preceded by the line end of the one before. *)
Lemma dechunk_one fuel sep k q out cap : chunk_ok k -> Forall (fun c => is_crlf c = true) sep ->
  Z.of_nat (length out + length (data k)) < cap -> cap < 2 ^ 32 ->
  dechunk (S fuel) (sep ++ encode_chunk k ++ q) out cap = dechunk fuel ([13; 10] ++ q) (out ++ data k) cap.
Proof.
  intros (Hl & Hn & Hh & Hd & Hf) Hsep Hc Hcap. assert (1 <= length (data k))%nat as Hd1 by (destruct (data k); cbn; [done | lia]).
  assert (size_line k <> []) as Hne by (destruct (size_line k); cbn in *; [lia | done]). cbn [dechunk].
  assert (0 < Z.of_nat (length (sep ++ encode_chunk k ++ q))) as H0 by (unfold encode_chunk; rewrite !length_app; lia).
  rewrite (proj2 (Z.ltb_lt 0 _) H0).
  rewrite (u32_id (_ + 1)) by (unfold is_u32; lia). rewrite (proj2 (Z.ltb_lt _ cap)) by lia. cbn [andb negb].
  assert (skip_crlf (sep ++ encode_chunk k ++ q) = size_line k ++ 13 :: 10 :: data k ++ [13; 10] ++ q) as ->.
  { clear H0. induction Hsep as [|c sep Hcs _ IH]; [| cbn [app skip_crlf]; by rewrite Hcs, IH]. unfold encode_chunk. rewrite <- !app_assoc. cbn [app].
    apply skip_crlf_stop. by apply head_crlf. }
  rewrite size_text_ok by (done || lia). rewrite drop_app_length. rewrite Hh. rewrite (proj2 (Z.eqb_neq _ 0)) by lia.
  assert (skip_crlf (13 :: 10 :: data k ++ [13; 10] ++ q) = data k ++ [13; 10] ++ q) as ->.
  { change (skip_crlf (data k ++ [13; 10] ++ q) = data k ++ [13; 10] ++ q). apply skip_crlf_stop. by destruct (data k). }
  rewrite (proj2 (Z.ltb_ge (Z.of_nat (length _)) _)) by (rewrite !length_app; lia).
  rewrite !(u32_id (Z.of_nat (length out) + _)) by (unfold is_u32; lia).
  rewrite (proj2 (Z.leb_gt cap _)) by lia. rewrite (proj2 (Z.ltb_ge cap _)) by lia.
  rewrite copy_from_ok by (rewrite length_app; lia). cbn [mbind res_bind].
  by rewrite Nat2Z.id, drop_app_length, take_app_length.
Qed.

Lemma dechunk_all ks : forall fuel sep out cap q, Forall chunk_ok ks -> Forall (fun c => is_crlf c = true) sep ->
  (length ks < fuel)%nat -> Z.of_nat (length out + length (body_of ks)) < cap -> cap < 2 ^ 32 ->
  dechunk fuel (sep ++ encode_chunks ks ++ q) out cap = Ret (out ++ body_of ks).
Proof.
  induction ks as [|k ks IH]; intros fuel sep out cap q Hk Hsep Hf Hc Hcap; (destruct fuel as [|fuel]; [lia |]).
  - cbn [encode_chunks flat_map body_of app] in *. rewrite app_nil_r. cbn [dechunk]. destruct (negb _); [done |].
    assert (skip_crlf (sep ++ 48 :: 13 :: 10 :: 13 :: 10 :: q) = 48 :: 13 :: 10 :: 13 :: 10 :: q) as ->
      by (induction Hsep as [|c sep Hcs _ IH']; [done | cbn [app skip_crlf]; by rewrite Hcs, IH']).
    done.
  - apply Forall_cons in Hk as [Hk Hks]. unfold encode_chunks, body_of in *. cbn [flat_map length] in *. rewrite length_app in Hc.
    rewrite <- !app_assoc. rewrite dechunk_one by (done || lia).
    rewrite app_assoc. pose proof (IH fuel [13; 10] (out ++ data k) cap q Hks ltac:(by repeat constructor) ltac:(lia)) as E.
    rewrite <- app_assoc in E |- *. rewrite E; [by rewrite <- app_assoc | rewrite length_app; lia | done].
Qed.

Lemma encode_length ks : Forall chunk_ok ks -> (length ks < length (encode_chunks ks))%nat.
Proof.
  unfold encode_chunks. rewrite length_app. cbn [length]. induction 1 as [|k ks (_ & Hn & _) _ IH]; [cbn; lia |].
  cbn [flat_map length]. unfold encode_chunk at 1. rewrite !length_app. cbn [length]. lia.
Qed.
