(* ===== verification/BrowserResponse.v ===== *)
(** * What the browser makes of a response: header fields, framing, safety on any bytes *)
From S2P Require Import Prelude Browser BrowserProps.

(** A buffer that ends in a NUL. *)
Definition text (p : list Z) : Prop := last p = Some 0.
Definition byte_ok (c : Z) : Prop := 0 <= c < 256.

Lemma text_suffix pre e : e <> [] -> text (pre ++ e) -> text e.
Proof. intros He H. unfold text in *. rewrite last_app in H. destruct (last e) eqn:E; [done |]. by apply last_None in E. Qed.
Lemma text_app pre e : text e -> text (pre ++ e).
Proof. intros H. unfold text in *. by rewrite last_app, H. Qed.
Lemma text_cons c p : c <> 0 -> text (c :: p) -> text p.
Proof. intros Hc H. destruct p as [|d p]; [by injection H as -> | by apply (text_suffix [c])]. Qed.
Lemma text_not_nil p : text p -> exists c q, p = c :: q.
Proof. destruct p as [|c q]; [done | by exists c, q]. Qed.

(** ** Comparing without case *)
Fixpoint ci_prefix (key p : list Z) : bool :=
  match key, p with
  | [], _ => true
  | c :: key, d :: p => (lower c =? lower d) && ci_prefix key p
  | _, [] => false
  end.
Lemma lower_zero c : lower c = 0 <-> c = 0.
Proof. unfold lower. destruct (_ && _) eqn:E; lia. Qed.
Lemma ci_prefix_length key p : ci_prefix key p = true -> (length key <= length p)%nat.
Proof.
  revert p. induction key as [|c key IH]; intros p; cbn; [lia |]. destruct p as [|d p]; [done |]. intros [_ H]%andb_prop. specialize (IH p H). cbn. lia.
Qed.
Lemma ci_prefix_app key p q : (length key <= length p)%nat -> ci_prefix key (p ++ q) = ci_prefix key p.
Proof. revert p. induction key as [|c key IH]; intros [|d p] H; cbn in *; try done; [lia |]. by rewrite IH by lia. Qed.
Lemma strncasecmp_ok key : no_nul key -> forall p, text p ->
  exists r, browser_strncasecmp p (key ++ [0]) (length key) = Ret r /\ (r =? 0) = ci_prefix key p.
Proof.
  induction 1 as [|c key Hc _ IH]; intros p Hp; [by exists 0 |]. destruct (text_not_nil p Hp) as (d & q & ->).
  cbn [length browser_strncasecmp app deref mbind res_bind tail ci_prefix]. rewrite (Z.eqb_sym (lower c)).
  destruct (Z.eqb_spec (lower d) (lower c)) as [E|E]; cbn [negb andb].
  - pose proof (lower_zero c). rewrite (proj2 (Z.eqb_neq _ 0)) by lia. apply IH.
    apply (text_cons d); [| done]. intros ->. by apply Hc, lower_zero.
  - eexists. split; [reflexivity |]. lia.
Qed.

(** ** Lines *)
Lemma line_end_ok p : text p -> exists pre e, line_end p = Ret e /\ p = pre ++ e /\ text e /\ (head e = Some 0 \/ exists q, e = 13 :: 10 :: q).
Proof.
  induction p as [|c q IH]; intros Hp; [done |]. cbn [line_end].
  destruct (Z.eqb_spec c 0) as [->|Hc]; [exists [], (0 :: q); by repeat split; auto |].
  pose proof (text_cons c q Hc Hp) as Hq. destruct (IH Hq) as (pre & e & E & -> & He & Hh).
  assert (exists pre' e', Ret e = Ret e' /\ c :: pre ++ e = pre' ++ e' /\ text e' /\ (head e' = Some 0 \/ exists q, e' = 13 :: 10 :: q)) as Hnext
    by (by exists (c :: pre), e).
  rewrite E. destruct (Z.eqb_spec c 13) as [->|]; [| done]. destruct (text_not_nil _ Hq) as (d & q' & Eq). rewrite Eq. cbn [deref mbind res_bind].
  destruct (Z.eqb_spec d 10) as [->|]; [| by rewrite <- Eq].
  exists [], (13 :: 10 :: q'). rewrite <- Eq. split_and!; [done | done | done | right; exists q'; by rewrite Eq].
Qed.
Lemma line_end_line l q : no_nul l -> Forall (fun c => c <> 13) l -> line_end (l ++ 13 :: 10 :: q) = Ret (13 :: 10 :: q).
Proof.
  intros Hn Hc. induction l as [|c l IH]; [done |]. apply Forall_cons in Hn as [Hn0 Hn]. apply Forall_cons in Hc as [Hc0 Hc].
  cbn [app line_end]. rewrite (proj2 (Z.eqb_neq c 0)), (proj2 (Z.eqb_neq c 13)) by done. by apply IH.
Qed.
Lemma skip_blanks_ok p : text p -> exists v, skip_blanks p = Ret v /\ text v.
Proof.
  induction p as [|c q IH]; intros Hp; [done |]. cbn [skip_blanks]. destruct (_ || _) eqn:E; [| by exists (c :: q)].
  apply IH. apply (text_cons c); [lia | done].
Qed.

(** One line of the search. *)
Definition line_hit (p e key : list Z) : res bool :=
  let k := length key in
  if (k <=? length p - length e)%nat then
    r ← browser_strncasecmp p (key ++ [0]) k; if r =? 0 then d ← zget p (Z.of_nat k); Ret (d =? 58) else Ret false
  else Ret false.
(** The line has the key and its colon. *)
Definition has_key (key l : list Z) : bool := ci_prefix key l && (default 0 (l !! length key) =? 58).
Lemma line_hit_ok pre e key : no_nul key -> text e -> (head e = Some 0 \/ exists q, e = 13 :: 10 :: q) ->
  line_hit (pre ++ e) e key = Ret (has_key key pre).
Proof.
  intros Hk He Hh. unfold line_hit, has_key. rewrite length_app. replace (length pre + length e - length e)%nat with (length pre) by lia.
  destruct (Nat.leb_spec (length key) (length pre)) as [Hl|Hl].
  - destruct (strncasecmp_ok key Hk (pre ++ e) (text_app _ _ He)) as (r & E & Er). rewrite (bind_ret _ _ _ E), Er, ci_prefix_app by done.
    destruct (ci_prefix key pre); [| done]. cbn [andb]. destruct (text_not_nil e He) as (d & q & ->).
    destruct (decide (length key = length pre)) as [El|El].
    + rewrite (zget_app pre _ d q) by (lia || done). cbn [mbind res_bind]. rewrite lookup_ge_None_2 by lia. cbn [default].
      f_equal. destruct Hh as [Hh|[q' Hh]]; injection Hh; intros; subst; done.
    + destruct (lookup_lt_is_Some_2 pre (length key)) as [x Hx]; [lia |]. rewrite Hx.
      rewrite (zget_nat _ _ x) by (by rewrite lookup_app_l by lia). done.
  - destruct (ci_prefix key pre) eqn:E; [apply ci_prefix_length in E; lia | done].
Qed.
Lemma has_key_length key l : has_key key l = true -> (length key < length l)%nat.
Proof.
  unfold has_key. intros [_ H]%andb_prop. destruct (l !! length key) eqn:E; [by apply lookup_lt_Some in E | done].
Qed.
Lemma has_key_colon key l : has_key key l = true -> 58 ∈ l.
Proof.
  unfold has_key. intros [_ H]%andb_prop. destruct (l !! length key) as [x|] eqn:E; [| done]. apply Z.eqb_eq in H. cbn in H. subst x.
  by apply list_elem_of_lookup_2 in E.
Qed.

(** The search never leaves the text and comes to an end. *)
Lemma find_header_total key : no_nul key -> forall fuel p, text p -> (length p <= fuel)%nat ->
  browser_find_header fuel p key = Ret None \/ exists v, browser_find_header fuel p key = Ret (Some v) /\ text v /\ 58 ∈ p.
Proof.
  intros Hk. induction fuel as [|fuel IH]; intros p Hp Hf; destruct (text_not_nil p Hp) as (c & q & E); [subst; cbn in Hf; lia |].
  rewrite E. cbn [browser_find_header deref mbind res_bind]. destruct (Z.eqb_spec c 0); [by left |]. rewrite <- E.
  destruct (line_end_ok p Hp) as (pre & e & El & Ep & He & Hh). rewrite El. cbn [mbind res_bind].
  change (if (length key <=? length p - length e)%nat then _ else _) with (line_hit p e key).
  assert (line_hit p e key = Ret (has_key key pre)) as Eh by (rewrite Ep; by apply line_hit_ok). rewrite (bind_ret _ _ _ Eh).
  destruct (has_key key pre) eqn:Ek.
  - right. pose proof (has_key_colon key pre Ek). apply has_key_length in Ek. rewrite Ep, drop_app_le by lia.
    destruct (skip_blanks_ok (drop (length key + 1) pre ++ e)) as (v & Ev & Hv); [by apply text_app |]. exists v. rewrite Ev.
    split_and!; [done | done | apply elem_of_app; by left].
  - destruct Hh as [Hh|[q' Eq]].
    + destruct e as [|x e]; [done |]. injection Hh as ->. cbn [deref mbind res_bind]. cbn [Z.eqb negb].
      destruct fuel as [|fuel]; left; [by cbn |]. by cbn.
    + rewrite Eq. cbn [deref mbind res_bind]. replace (13 =? 13) with true by done. change (drop 2 (13 :: 10 :: q')) with q'. subst e.
      destruct (IH q') as [H|(v & H & Hv & Hc)]; [| | by left | right; exists v; split_and!; [done | done | rewrite Ep; set_solver]].
      * apply (text_suffix [13; 10]); [| done]. intros ->. by vm_compute in He.
      * rewrite Ep, length_app in Hf. cbn in Hf. lia.
Qed.

(** ** The number behind [Content-Length] *)
(** Its value, in unbounded integers. *)
Fixpoint number (p : list Z) (value : Z) : Z :=
  match p with c :: q => if (48 <=? c) && (c <=? 57) then number q (value * 10 + (c - 48)) else value | [] => value end.
Lemma number_ge p v : 0 <= v -> v <= number p v.
Proof.
  revert v. induction p as [|c p IH]; intros v Hv; cbn; [lia |]. destruct (_ && _) eqn:E; [| lia].
  specialize (IH (v * 10 + (c - 48)) ltac:(lia)). lia.
Qed.
Lemma int_ok_fault x : 2 ^ 31 <= x -> int_ok x = Fault.
Proof. intros H. unfold int_ok. by rewrite (proj2 (Z.ltb_ge x _) H), andb_false_r. Qed.
Lemma decimal_ok p : text p -> forall v, 0 <= v < 2 ^ 31 -> decimal p v = if number p v <? 2 ^ 31 then Ret (number p v) else Fault.
Proof.
  induction p as [|c p IH]; intros Hp v Hv; [done |]. cbn [decimal deref mbind res_bind number].
  destruct (_ && _) eqn:E; [| by rewrite (proj2 (Z.ltb_lt v _)) by lia]. assert (c <> 0) as Hc by lia. specialize (IH (text_cons c p Hc Hp)).
  pose proof (number_ge p (v * 10 + (c - 48)) ltac:(lia)) as Hge. destruct (decide (v * 10 + (c - 48) < 2 ^ 31)) as [Hlt|Hlt].
  - int_step. int_step. apply IH. lia.
  - rewrite (proj2 (Z.ltb_ge (number _ _) _)) by lia. destruct (decide (v * 10 < 2 ^ 31)).
    + int_step. by rewrite int_ok_fault by lia.
    + by rewrite int_ok_fault by lia.
Qed.

(** ** Chunks of any bytes stay inside the content. *)
Lemma parse_hex_nonneg s : 0 <= browser_parse_hex s.
Proof.
  unfold browser_parse_hex. enough (forall v, 0 <= v -> 0 <= parse_hex_loop s v) as H by (apply H; lia). induction s as [|c s IH]; intros v Hv; cbn [parse_hex_loop]; [done |].
  destruct (c =? 0); [done |]. destruct (Z.ltb_spec (browser_hex_digit c) 0); [done |]. apply IH. apply Z.lor_nonneg. split; [apply u32_range | lia].
Qed.
Lemma skip_crlf_length p : (length (skip_crlf p) <= length p)%nat.
Proof. induction p as [|c p IH]; cbn; [lia |]. destruct (is_crlf c); cbn; lia. Qed.
Lemma dechunk_total fuel p out cap : (length p <= fuel)%nat -> Z.of_nat (length p) < 2 ^ 31 -> cap <= 2 ^ 31 -> Z.of_nat (length out) < cap ->
  exists out', dechunk fuel p out cap = Ret out' /\ Z.of_nat (length out') < cap.
Proof.
  revert p out. induction fuel as [|fuel IH]; intros p out Hf Hp Hcap Ho.
  { destruct p; [| cbn in Hf; lia]. exists out. by cbn. }
  cbn [dechunk]. rewrite (u32_id (_ + 1)) by (unfold is_u32; lia).
  destruct ((0 <? Z.of_nat (length p)) && (Z.of_nat (length out) + 1 <? cap)) eqn:Eg; cbn [negb]; [| by exists out].
  pose proof (skip_crlf_length p) as H1. set (p1 := skip_crlf p) in *. set (sz := size_text 15 p1).
  destruct (Z.eqb_spec (browser_parse_hex sz) 0) as [Ez|Ez]; [by exists out |].
  assert (0 < length sz)%nat as Hsz by (destruct sz; [by cbn in Ez | cbn; lia]).
  pose proof (skip_crlf_length (drop (length sz) p1)) as H2. rewrite length_drop in H2. set (p2 := skip_crlf (drop (length sz) p1)) in *.
  assert (0 <= browser_parse_hex sz) as H0 by apply parse_hex_nonneg.
  set (n := if Z.of_nat (length p2) <? browser_parse_hex sz then _ else _).
  assert (0 <= n <= Z.of_nat (length p2)) as Hn by (unfold n; destruct (Z.ltb_spec (Z.of_nat (length p2)) (browser_parse_hex sz)); [rewrite u32_id by (unfold is_u32; lia); lia | lia]).
  clearbody n p2 sz p1. rewrite !(u32_id (Z.of_nat (length out) + n)), (u32_id (cap - _ - 1)) by (unfold is_u32; lia).
  set (k := if cap <=? Z.of_nat (length out) + n then cap - Z.of_nat (length out) - 1 else n).
  assert (0 <= k <= n /\ Z.of_nat (length out) + k < cap) as Hk by (unfold k; destruct (Z.leb_spec cap (Z.of_nat (length out) + n)); lia).
  clearbody k. rewrite (proj2 (Z.ltb_ge cap _)), copy_from_ok by lia. cbn [mbind res_bind].
  apply IH; [rewrite length_drop; lia | rewrite length_drop; lia | done |]. rewrite length_app, length_take. lia.
Qed.

(** ** Any response *)
Lemma header_end_length raw body : header_end raw = Some body -> (length body <= length raw)%nat.
Proof.
  induction raw as [|c raw IH]; [done |]. cbn [header_end]. destruct (starts_with _ _).
  - intros H. assert (body = drop 4 (c :: raw)) as -> by congruence. rewrite length_drop. lia.
  - intros H. specialize (IH H). cbn. lia.
Qed.
Lemma key_names_no_nul : no_nul TRANSFER_ENCODING /\ no_nul CONTENT_LENGTH /\ no_nul CHUNKED.
Proof. unfold no_nul. repeat split; repeat constructor; lia. Qed.
Lemma fill_content_ok body content : (length body < length content)%nat ->
  fill_content body content = Ret (body ++ 0 :: drop (S (length body)) content).
Proof.
  intros H. unfold fill_content, splice. rewrite (proj2 (Z.ltb_lt _ _)) by lia. cbn [Z.to_nat take Nat.add app].
  rewrite <- app_assoc, length_app. cbn [app length]. by rewrite Nat.add_1_r.
Qed.
Lemma c_str_split (p q : list Z) : exists s rest, no_nul s /\ p ++ 0 :: q = s ++ 0 :: rest.
Proof.
  induction p as [|c p IH]; [exists [], q; split; [by apply Forall_nil | done] |]. destruct (decide (c = 0)) as [->|Hc].
  - exists [], (p ++ 0 :: q). split; [by apply Forall_nil | done].
  - destruct IH as (s & rest & Hs & E). exists (c :: s), rest. split; [by apply Forall_cons | cbn; by rewrite E].
Qed.
Lemma plain_length_lt n len cap : 0 < cap < 2 ^ 32 -> plain_length n len cap < cap.
Proof.
  intros Hc. unfold plain_length. set (l := if (0 <=? n) && (u32 n <? len) then u32 n else len).
  destruct (Z.leb_spec cap l); [rewrite u32_id by (unfold is_u32; lia); lia | done].
Qed.
Lemma plain_length_le n len cap : 0 <= len < 2 ^ 32 -> 0 < cap < 2 ^ 32 -> 0 <= plain_length n len cap <= len.
Proof.
  intros Hl Hc. unfold plain_length. pose proof (u32_range n) as Hn. unfold is_u32 in Hn.
  assert (0 <= (if (0 <=? n) && (u32 n <? len) then u32 n else len) <= len) as H
    by (destruct (0 <=? n); cbn [andb]; [destruct (Z.ltb_spec (u32 n) len) |]; lia).
  destruct (Z.leb_spec cap (if (0 <=? n) && (u32 n <? len) then u32 n else len)); [rewrite u32_id by (unfold is_u32; lia) |]; lia.
Qed.
(** The last two steps, for any bytes. *)
Lemma show_total body content : (length body < length content)%nat -> Z.of_nat (length content) < 2 ^ 32 ->
  exists c', (c ← fill_content body content; c ← browser_html_to_text c (Z.of_nat (length content)); Ret (c, Z.of_nat (length body))) =
    Ret (c', Z.of_nat (length body)) /\ length c' = length content.
Proof.
  intros H Hc. rewrite fill_content_ok by done. cbn [mbind res_bind]. pose proof (length_drop content (S (length body))) as Hd.
  destruct (c_str_split body (drop (S (length body)) content)) as (s & rest & Hs & E). pose proof (f_equal length E) as El. rewrite E.
  rewrite !length_app in El. cbn [length] in El.
  destruct (browser_html_in_place_ok s rest (Z.of_nat (length content)) Hs) as (c' & E' & _ & Hl & _); [lia |].
  exists c'. rewrite (bind_ret _ _ _ E'). split; [done |]. rewrite Hl, length_app. cbn [length]. lia.
Qed.

Lemma read_headers_total raw : text raw ->
  (exists chunked n, read_headers raw = Ret (chunked, n) /\ -1 <= n < 2 ^ 31) \/
  (read_headers raw = Fault /\ exists v, browser_find_header (length raw) raw CONTENT_LENGTH = Ret (Some v) /\ 2 ^ 31 <= number v 0).
Proof.
  intros Hr. destruct key_names_no_nul as (H1 & H2 & H3). unfold read_headers.
  assert (exists b, is_chunked raw = Ret b) as [b Eb].
  { unfold is_chunked. destruct (find_header_total _ H1 (length raw) raw Hr (le_n _)) as [->|(v & -> & Hv & _)]; [by exists false |].
    cbn [mbind res_bind]. destruct (strncasecmp_ok CHUNKED H3 v Hv) as (r & E & _). change 7%nat with (length CHUNKED). rewrite E. by eexists. }
  rewrite (bind_ret _ _ _ Eb). unfold content_length.
  destruct (find_header_total _ H2 (length raw) raw Hr (le_n _)) as [->|(v & -> & Hv & _)]; cbn [mbind res_bind].
  { left. exists b, (-1). split; [done | lia]. }
  rewrite (decimal_ok v Hv) by lia. pose proof (number_ge v 0 ltac:(lia)). destruct (Z.ltb_spec (number v 0) (2 ^ 31)).
  - left. exists b, (number v 0). split; [done | lia].
  - right. split; [done |]. by exists v.
Qed.

Lemma show_response_total raw content :
  Z.of_nat (length raw) < Z.of_nat (length content) <= 2 ^ 31 - 1 ->
  (exists content' len, show_response raw content = Ret (content', len) /\ length content' = length content /\ 0 <= len < Z.of_nat (length content)) \/
  (show_response raw content = Fault /\ exists body v, header_end raw = Some body /\
    browser_find_header (length (raw ++ [0])) (raw ++ [0]) CONTENT_LENGTH = Ret (Some v) /\ 2 ^ 31 <= number v 0).
Proof.
  intros H. unfold show_response.
  assert (forall b, Z.of_nat (length b) < Z.of_nat (length content) -> take_body raw (Z.of_nat (length content)) = Ret b ->
    exists content' len, (body ← take_body raw (Z.of_nat (length content)); c ← fill_content body content; c ← browser_html_to_text c (Z.of_nat (length content));
      Ret (c, Z.of_nat (length body))) = Ret (content', len) /\ length content' = length content /\ 0 <= len < Z.of_nat (length content)) as Hend.
  { intros b Hb E. rewrite (bind_ret _ _ _ E). destruct (show_total b content) as (c' & E' & Hl); [lia | lia |].
    exists c', (Z.of_nat (length b)). split_and!; [exact E' | done | lia | done]. }
  unfold take_body in Hend |- *. set (body := default raw (header_end raw)) in *.
  assert (length body <= length raw)%nat as Hb by (unfold body; destruct (header_end raw) eqn:E; [by apply header_end_length in E | done]).
  assert (forall chunked n, -1 <= n < 2 ^ 31 -> exists b, Z.of_nat (length b) < Z.of_nat (length content) /\
    (if chunked : bool then dechunk (length body) body [] (Z.of_nat (length content))
     else copy_from body (plain_length n (u32 (Z.of_nat (length body))) (Z.of_nat (length content)))) = Ret b) as Hbody.
  { intros chunked n Hn. destruct chunked.
    - destruct (dechunk_total (length body) body [] (Z.of_nat (length content))) as (out & E & Ho); [done | lia | lia | cbn; lia |]. by exists out.
    - pose proof (plain_length_lt n (Z.of_nat (length body)) (Z.of_nat (length content))).
      pose proof (plain_length_le n (Z.of_nat (length body)) (Z.of_nat (length content))). rewrite u32_id by (unfold is_u32; lia).
      eexists. split; [| apply copy_from_ok; lia]. rewrite length_take. lia. }
  clearbody body. destruct (header_end raw) as [b|].
  - assert (text (raw ++ [0])) as Ht by by apply text_app.
    destruct (read_headers_total (raw ++ [0]) Ht) as [(chunked & n & E & Hn)|(E & v & Ev & Hv)]; rewrite E in *; cbn [mbind res_bind] in *.
    + left. destruct (Hbody chunked n Hn) as (x & Hx & Ex). by apply (Hend x).
    + right. split; [done |]. by exists b, v.
  - left. cbn [mbind res_bind] in *. destruct (Hbody false (-1)) as (x & Hx & Ex); [lia |]. by apply (Hend x).
Qed.

(** ** Well-formed responses: status and header lines, an empty line, the body *)
Definition line_ok (l : list Z) : Prop := no_nul l /\ Forall (fun c => c <> 13) l /\ l <> [].
Definition response (lines : list (list Z)) (payload : list Z) : list Z :=
  flat_map (fun l => l ++ [13; 10]) lines ++ [13; 10] ++ payload.

(** ** Fields *)
Fixpoint strip (v : list Z) : list Z :=
  match v with [] => [] | c :: q => if (c =? 32) || (c =? 9) then strip q else v end.
(** The value of the first line with the key. *)
Fixpoint find_line (key : list Z) (lines : list (list Z)) : option (list Z) :=
  match lines with
  | [] => None
  | l :: lines => if has_key key l then Some (strip (drop (length key + 1) l)) else find_line key lines
  end.
(** What the header lines say: chunks or not, and the length, or -1. *)
Definition framing (lines : list (list Z)) : bool * Z :=
  (match find_line TRANSFER_ENCODING lines with Some v => ci_prefix CHUNKED v | None => false end,
   match find_line CONTENT_LENGTH lines with Some v => number v 0 | None => -1 end).

(** The body has no line that looks like the field; the search goes on into it. *)
Definition no_field (payload key : list Z) : Prop :=
  forall fuel, (length payload < fuel)%nat -> browser_find_header fuel (payload ++ [0]) key = Ret None.
Lemma no_colon_no_field payload key : no_nul key -> 58 ∉ payload -> no_field payload key.
Proof.
  intros Hk Hc fuel Hf. destruct (find_header_total key Hk fuel (payload ++ [0])) as [H|(v & _ & _ & H)]; [by apply text_app | rewrite length_app; cbn; lia | done |].
  exfalso. apply elem_of_app in H as [H|H]; [done | by apply list_elem_of_singleton in H].
Qed.

Lemma skip_blanks_strip v q : skip_blanks (v ++ 13 :: q) = Ret (strip v ++ 13 :: q).
Proof. induction v as [|c v IH]; [done |]. cbn. by destruct (_ || _). Qed.
Lemma ci_prefix_stop key v q : Forall (fun c => lower c <> 13) key -> ci_prefix key (v ++ 13 :: q) = ci_prefix key v.
Proof.
  intros H. revert v. induction H as [|c key Hc _ IH]; intros v; [done |]. destruct v as [|d v]; cbn; [| by rewrite IH].
  change (lower 13) with 13. by rewrite (proj2 (Z.eqb_neq _ _) Hc).
Qed.
Lemma number_stop v q : forall n, number (v ++ 13 :: q) n = number v n.
Proof. induction v as [|c v IH]; intros n; cbn; [done |]. destruct (_ && _); [apply IH | done]. Qed.

(** One line of the search, and the search over all lines. *)
Lemma find_header_line fuel key l q : no_nul key -> no_nul l -> Forall (fun c => c <> 13) l -> text q ->
  browser_find_header (S fuel) (l ++ 13 :: 10 :: q) key =
    if has_key key l then Ret (Some (strip (drop (length key + 1) l) ++ 13 :: 10 :: q)) else browser_find_header fuel q key.
Proof.
  intros Hk Hl Hc Hq. set (e := 13 :: 10 :: q). assert (text e) as He by (by apply (text_app [13; 10])).
  assert (exists c p, l ++ e = c :: p /\ c <> 0) as (c & p & Ep & Hc0).
  { destruct l as [|c l]; [by exists 13, (10 :: q) |]. exists c, (l ++ e). by apply Forall_cons in Hl as [? _]. }
  cbn [browser_find_header]. rewrite Ep at 1. cbn [deref mbind res_bind]. rewrite (proj2 (Z.eqb_neq c 0) Hc0).
  rewrite (bind_ret _ _ _ (line_end_line l q Hl Hc)). fold e.
  change (if (length key <=? length (l ++ e) - length e)%nat then _ else _) with (line_hit (l ++ e) e key).
  rewrite (bind_ret _ _ _ (line_hit_ok l e key Hk He (or_intror (ex_intro _ q eq_refl)))).
  destruct (has_key key l) eqn:Eh; [| done]. apply has_key_length in Eh. rewrite drop_app_le by lia.
  unfold e. by rewrite skip_blanks_strip.
Qed.
Lemma find_header_lines key lines payload : no_nul key -> key <> [] -> Forall line_ok lines -> forall fuel,
  match find_line key lines with
  | Some v => exists q, browser_find_header (length lines + fuel) (response lines payload ++ [0]) key = Ret (Some (v ++ 13 :: q)) /\ text (v ++ 13 :: q)
  | None => browser_find_header (length lines + S fuel) (response lines payload ++ [0]) key = browser_find_header fuel (payload ++ [0]) key
  end.
Proof.
  intros Hk Hne Hl fuel. unfold response. induction Hl as [|l lines (Hn & Hc & _) _ IH].
  - cbn [find_line flat_map app length Nat.add].
    pose proof (find_header_line fuel key [] (payload ++ [0]) Hk ltac:(by apply Forall_nil) ltac:(by apply Forall_nil) ltac:(by apply text_app)) as E.
    cbn [app] in E. rewrite E. by destruct key.
  - cbn [find_line flat_map length Nat.add]. rewrite <- !app_assoc in *. cbn [app] in *. set (q := flat_map _ lines ++ _) in *.
    assert (text q) as Hq by (unfold q; apply text_app; apply (text_app [13; 10]); by apply text_app).
    pose proof (fun f => find_header_line f key l q Hk Hn Hc Hq) as E. destruct (has_key key l).
    + eexists. split; [apply E |]. apply text_app. by apply (text_app [13; 10]).
    + destruct (find_line key lines); rewrite E; exact IH.
Qed.

(** ** The end of the header *)
Lemma header_end_skip l p : Forall (fun c => c <> 13) l -> header_end (l ++ p) = header_end p.
Proof.
  induction 1 as [|c l Hc _ IH]; [done |]. cbn [app header_end]. cbn [starts_with]. by rewrite (proj2 (Z.eqb_neq 13 c)) by done.
Qed.
Lemma header_end_response lines payload : Forall line_ok lines -> lines <> [] -> header_end (response lines payload) = Some payload.
Proof.
  intros Hl Hne. unfold response. induction Hl as [|l lines (_ & Hc & _) Hl IH]; [done |]. cbn [flat_map]. rewrite <- !app_assoc.
  rewrite header_end_skip by done. destruct Hl as [|l' lines (_ & Hc' & Hne') Hl]; [done |].
  specialize (IH ltac:(done)). cbn [flat_map] in IH |- *. rewrite <- !app_assoc in *. destruct l' as [|d l']; [done |]. apply Forall_cons in Hc' as [Hd _].
  cbn [app header_end starts_with] in IH |- *. rewrite (proj2 (Z.eqb_neq 13 d)) in IH |- * by done. exact IH.
Qed.

(** ** Both *)
Lemma read_headers_response lines payload : Forall line_ok lines -> 
  (forall key, key ∈ [TRANSFER_ENCODING; CONTENT_LENGTH] -> find_line key lines = None -> no_field payload key) ->
  (framing lines).2 < 2 ^ 31 -> read_headers (response lines payload ++ [0]) = Ret (framing lines).
Proof.
  intros Hl Hno Hn. destruct key_names_no_nul as (H1 & H2 & H3).
  assert (length lines + S (length payload) < length (response lines payload ++ [0%Z]))%nat as Hlen.
  { unfold response. rewrite !length_app. cbn [length]. clear -Hl. induction Hl; cbn [flat_map length]; [lia |]. rewrite !length_app. cbn [length]. lia. }
  set (raw := response lines payload ++ [0]) in *.
  assert (exists f, length raw = (length lines + S f)%nat /\ (length payload < f)%nat) as (f & Ef & Hf) by (exists (length raw - length lines - 1)%nat; lia).
  assert (forall key, key ∈ [TRANSFER_ENCODING; CONTENT_LENGTH] ->
    match find_line key lines with
    | Some v => exists q, browser_find_header (length raw) raw key = Ret (Some (v ++ 13 :: q)) /\ text (v ++ 13 :: q)
    | None => browser_find_header (length raw) raw key = Ret None
    end) as Hfind.
  { intros key Hk. specialize (Hno key Hk). assert (no_nul key /\ key <> []) as [Hkn Hke]
      by (apply elem_of_cons in Hk as [->|Hk]; [done | apply list_elem_of_singleton in Hk as ->; done]).
    pose proof (find_header_lines key lines payload Hkn Hke Hl (S f)) as A. pose proof (find_header_lines key lines payload Hkn Hke Hl f) as B.
    fold raw in A, B. rewrite Ef. destruct (find_line key lines); [exact A |]. rewrite B. by apply Hno. }
  pose proof (Hfind TRANSFER_ENCODING ltac:(set_solver)) as Ft. pose proof (Hfind CONTENT_LENGTH ltac:(set_solver)) as Fc.
  unfold read_headers, framing in *. cbn [snd] in Hn.
  assert (is_chunked raw = Ret (match find_line TRANSFER_ENCODING lines with Some v => ci_prefix CHUNKED v | None => false end)) as ->.
  { unfold is_chunked. destruct (find_line TRANSFER_ENCODING lines) as [v|]; [destruct Ft as (q & -> & Hv) | by rewrite Ft].
    cbn [mbind res_bind]. destruct (strncasecmp_ok CHUNKED H3 _ Hv) as (r & E & Er). change 7%nat with (length CHUNKED).
    rewrite (bind_ret _ _ _ E), Er. f_equal. apply ci_prefix_stop. repeat constructor; by vm_compute. }
  cbn [mbind res_bind].
  assert (content_length raw = Ret (match find_line CONTENT_LENGTH lines with Some v => number v 0 | None => -1 end)) as ->; [| done].
  unfold content_length. destruct (find_line CONTENT_LENGTH lines) as [v|]; [destruct Fc as (q & -> & Hv) | by rewrite Fc].
  cbn [mbind res_bind]. rewrite (decimal_ok _ Hv) by lia. rewrite number_stop. by rewrite (proj2 (Z.ltb_lt _ _) Hn).
Qed.

(** [payload] is the body as these header lines announce it. *)
Inductive carries (lines : list (list Z)) : list Z -> list Z -> Prop :=
| carries_chunks ks n q : framing lines = (true, n) -> Forall chunk_ok ks -> carries lines (encode_chunks ks ++ q) (body_of ks)
| carries_length body q : framing lines = (false, Z.of_nat (length body)) -> carries lines (body ++ q) body
| carries_all body : framing lines = (false, -1) -> carries lines body body.

Lemma plain_length_all n len cap : 0 <= n <= len -> len < cap < 2 ^ 32 -> plain_length n len cap = n.
Proof.
  intros H Hc. unfold plain_length. rewrite (proj2 (Z.leb_le 0 n)), u32_id by (unfold is_u32; lia). cbn [andb].
  destruct (Z.ltb_spec n len); rewrite (proj2 (Z.leb_gt cap _)) by lia; lia.
Qed.
Lemma plain_length_open len cap : len < cap -> plain_length (-1) len cap = len.
Proof. intros H. unfold plain_length. cbn [Z.leb Z.compare andb]. by rewrite (proj2 (Z.leb_gt cap len)) by lia. Qed.
