(* ===== verification/BrowserTheorems.v ===== *)
(** * The theorems on the browser: pages in place, any response, the page of a well-formed one *)
From S2P Require Import Prelude Browser BrowserProps BrowserResponse.

(** C26: HTML is turned into text in place.  The call with one buffer as source and target
    writes the text that the same rules give on lists, never over a character it has yet
    to read, ends it with a NUL, leaves what is behind the old string and always returns.
    A text whose special characters are written as entities comes back as it was. *)
Theorem browser_html_in_place s rest cap : no_nul s -> Z.of_nat (length s) < cap < 2 ^ 32 ->
  (exists buf, browser_html_to_text (s ++ 0 :: rest) cap = Ret buf /\ c_str buf = html_text s /\
    length buf = length (s ++ 0 :: rest) /\ drop (length s + 1) buf = rest) /\
  (forall page, s = escape page -> html_text s = page).
Proof. intros Hs Hc. split; [by apply browser_html_in_place_ok |]. intros page ->. apply html_escape. Qed.

(** C7: no response does harm.  For any bytes that fit the buffer the browser reads no byte
    outside of them, writes none outside the content and comes to an end with a page, or the
    number behind Content-Length is too large for the [int] it is computed in. *)
Theorem browser_response_safe raw content :
  Z.of_nat (length raw) < Z.of_nat (length content) <= 2 ^ 31 - 1 ->
  (exists content' len, show_response raw content = Ret (content', len) /\ length content' = length content /\ 0 <= len < Z.of_nat (length content)) \/
  (show_response raw content = Fault /\ exists body v, header_end raw = Some body /\
    browser_find_header (length (raw ++ [0])) (raw ++ [0]) CONTENT_LENGTH = Ret (Some v) /\ 2 ^ 31 <= number v 0).
Proof. apply show_response_total. Qed.

Lemma body_length ks : (length (body_of ks) <= length (encode_chunks ks))%nat.
Proof.
  unfold body_of, encode_chunks. rewrite length_app. induction ks as [|k ks IH]; cbn [flat_map length]; [lia |].
  unfold encode_chunk at 1. rewrite !length_app in *. cbn [length] in *. lia.
Qed.
Lemma response_length lines payload : (length payload < length (response lines payload))%nat.
Proof. unfold response. rewrite !length_app. cbn. lia. Qed.

(** C25: the browser shows the page that the server sent.  For a response made of header
    lines, an empty line and a body - in chunks, of the announced length, or up to the end -
    the status, framing and chunk sizes disappear and the content becomes the text of the
    body; field names and the word "chunked" are recognised in any case of letters.  This
    needs: size lines of at most 15 characters and chunks that do not begin with a line end
    ([chunk_ok]; [long_size_line] and [chunk_leading_newline_lost] show what happens else);
    no line of the body that looks like a framing field missing in the header ([no_field];
    [field_in_body]); a length below 2^31; a body without NUL; a response that fits the
    buffer. *)
Theorem browser_shows_page lines payload body content :
  lines <> [] -> Forall line_ok lines ->
  (forall key, key ∈ [TRANSFER_ENCODING; CONTENT_LENGTH] -> find_line key lines = None -> no_field payload key) ->
  (framing lines).2 < 2 ^ 31 -> carries lines payload body -> no_nul body ->
  Z.of_nat (length (response lines payload)) < Z.of_nat (length content) <= 2 ^ 31 - 1 ->
  exists content', show_response (response lines payload) content = Ret (content', Z.of_nat (length body)) /\ c_str content' = html_text body.
Proof.
  intros Hne Hl Hno Hn Hc Hb Hlen. pose proof (response_length lines payload) as Hp. unfold show_response.
  assert (take_body (response lines payload) (Z.of_nat (length content)) = Ret body /\ (length body < length content)%nat) as [Et Ho].
  { unfold take_body. rewrite header_end_response by done. cbn [default from_option id].
    rewrite (bind_ret _ _ _ (read_headers_response lines payload Hl Hno Hn)).
    clear Hno Hn Hb. destruct Hc as [ks n q Ef Hk|body q Ef|body Ef]; rewrite Ef.
    - pose proof (encode_length ks Hk) as He. pose proof (body_length ks) as Hbl. rewrite length_app in Hp. split; [| lia].
      apply (dechunk_all ks _ [] []); [done | by apply Forall_nil | rewrite length_app; lia | cbn [length]; lia | lia].
    - rewrite length_app in Hp |- *. rewrite (u32_id (Z.of_nat _)), plain_length_all by (unfold is_u32; lia).
      rewrite copy_from_ok, Nat2Z.id, take_app_length by (rewrite length_app; lia). split; [done | lia].
    - rewrite (u32_id (Z.of_nat _)), plain_length_open by (unfold is_u32; lia). rewrite copy_from_ok, Nat2Z.id, firstn_all by lia. split; [done | lia]. }
  rewrite (bind_ret _ _ _ Et), (bind_ret _ _ _ (fill_content_ok body content Ho)).
  destruct (browser_html_in_place_ok body (drop (S (length body)) content) (Z.of_nat (length content)) Hb) as (c' & E & E' & _); [lia |].
  rewrite (bind_ret _ _ _ E). by exists c'.
Qed.

(** ** Witnesses *)
(** [<b>A&amp;B</b>] *)
Definition html0 : list Z := [60; 98; 62; 65; 38; 97; 109; 112; 59; 66; 60; 47; 98; 62].
Lemma browser_html_in_place_witness : no_nul html0 /\ html_text html0 = [65; 38; 66] /\
  (exists buf, browser_html_to_text (html0 ++ 0 :: [7]) 16 = Ret buf /\ c_str buf = html_text html0 /\
    length buf = length (html0 ++ 0 :: [7]) /\ drop (length html0 + 1) buf = [7]).
Proof.
  assert (no_nul html0) as H by (unfold no_nul, html0; repeat constructor; lia). split; [exact H |]. split; [reflexivity |].
  apply (browser_html_in_place html0 [7] 16 H). cbn. lia.
Defined.

(** [HTTP/1.1 200], [transfer-encoding: Chunked], and a body in two chunks. *)
Definition lines0 : list (list Z) :=
  [[72; 84; 84; 80; 47; 49; 46; 49; 32; 50; 48; 48];
   [116; 114; 97; 110; 115; 102; 101; 114; 45; 101; 110; 99; 111; 100; 105; 110; 103; 58; 32; 67; 104; 117; 110; 107; 101; 100]].
Definition chunks0 : list chunk := [Chunk [57] (take 9 html0); Chunk [53; 59; 120] (drop 9 html0)].
Definition content0 : list Z := repeat 0 128.

Lemma lines0_ok : Forall line_ok lines0.
Proof. repeat constructor; done. Qed.
Lemma chunks0_ok : Forall chunk_ok chunks0.
Proof. repeat constructor; done. Qed.
Lemma fields0 key : key ∈ [TRANSFER_ENCODING; CONTENT_LENGTH] -> find_line key lines0 = None -> no_field (encode_chunks chunks0 ++ []) key.
Proof.
  intros Hk _. destruct key_names_no_nul as (H1 & H2 & _). apply no_colon_no_field; [| by apply (bool_decide_unpack _); vm_compute].
  apply elem_of_cons in Hk as [->|Hk]; [done | by apply list_elem_of_singleton in Hk as ->].
Qed.
Lemma browser_shows_page_witness : framing lines0 = (true, -1) /\ body_of chunks0 = html0 /\
  exists content', show_response (response lines0 (encode_chunks chunks0 ++ [])) content0 = Ret (content', Z.of_nat (length (body_of chunks0))) /\ c_str content' = [65; 38; 66].
Proof.
  split; [reflexivity |]. split; [reflexivity |].
  apply (browser_shows_page lines0 (encode_chunks chunks0 ++ []) (body_of chunks0) content0); [done | exact lines0_ok | exact fields0 | done |
    apply (carries_chunks lines0 chunks0 (-1)); [reflexivity | exact chunks0_ok] | unfold no_nul; repeat constructor; done | by vm_compute].
Defined.

(** A length of 4294967296 is not an [int]. *)
Definition huge0 : list Z :=
  response [[79; 75]; CONTENT_LENGTH ++ [58; 52; 50; 57; 52; 57; 54; 55; 50; 57; 54]] [65].
Lemma browser_response_safe_witness : show_response huge0 content0 = Fault /\
  ((exists content' len, show_response huge0 content0 = Ret (content', len) /\ length content' = length content0 /\ 0 <= len < Z.of_nat (length content0)) \/
   (show_response huge0 content0 = Fault /\ exists body v, header_end huge0 = Some body /\
    browser_find_header (length (huge0 ++ [0])) (huge0 ++ [0]) CONTENT_LENGTH = Ret (Some v) /\ 2 ^ 31 <= number v 0)).
Proof. split; [by vm_compute |]. apply (browser_response_safe huge0 content0). split; by vm_compute. Defined.

(** ** What the code does with unusual responses *)
(** The first byte of a chunk is lost when it is a line end. *)
Lemma chunk_leading_newline_lost : dechunk 16 ([50; 13; 10; 10; 65] ++ [13; 10; 48; 13; 10; 13; 10]) [] 64 = Ret [65; 13].
Proof. reflexivity. Qed.
(** A size line of more than fifteen characters: the rest of the line counts as data. *)
Lemma long_size_line : dechunk 32 ([49; 59; 97; 97; 97; 97; 97; 97; 97; 97; 97; 97; 97; 97; 97; 98] ++ [13; 10; 65; 13; 10; 48; 13; 10; 13; 10]) [] 64 = Ret [98; 48; 13; 10; 13; 10].
Proof. reflexivity. Qed.
(** A line of the body is taken for a header field. *)
Lemma field_in_body : content_length (response [[79; 75]] (CONTENT_LENGTH ++ [58; 49]) ++ [0]) = Ret 1.
Proof. reflexivity. Qed.
