(* ===== verification/BrowserFetch.v ===== *)
(** * Fetching a page ([src/src/apps/browser.c]: [browser_fetch], [browser_init], [browser_handle_key])

    The browser over the network stack of [Net].  Time passes in rounds of the waiting
    loops: a round has the value of [ticks] and the frames that [net_poll] finds.  The
    content is [None] when its [malloc] failed; a write to it is then a [Fault]. *)
From S2P Require Import Prelude Interfaces Input Net NetProps Browser.

(** [url], [status]: without the NUL.  [content]: the whole buffer. *)
Record browser_t := BrowserT { url : list Z; status : list Z; content : option (list Z); content_len : Z; scroll : Z }.
Definition set_url x b := BrowserT x (status b) (content b) (content_len b) (scroll b).
Definition set_scroll x b := BrowserT (url b) (status b) (content b) (content_len b) x.
Definition set_content x n b := BrowserT (url b) (status b) x n (scroll b).
Definition set_status (msg : list Z) (b : browser_t) : browser_t :=
  BrowserT (url b) (browser_set_status msg) (content b) (content_len b) (scroll b).

(** [buf] is what [malloc] returns. *)
Definition browser_init (buf : option (list Z)) : res browser_t :=
  content ← (match buf with None => Ret None | Some c => c ← zset c 0 0; Ret (Some c) end);
  Ret (set_status (txt "Ready") (BrowserT (txt "http://example.com") [] content 0 0)).

(** What a waiting loop sees: [ticks] when it starts, then [ticks] and the frames of each round. *)
Record phase := Phase { enter : Z; round : nat -> Z * list (list Z * Z) }.
(** The phases of a fetch; [ticks] when the connection is closed; whether there was memory for the response. *)
Record world := World { w_up : phase; w_dns : phase; w_connect : phase; w_load : phase; w_close : Z; w_raw : bool }.

Section Code.
Context {N : Type} `{!Nic N}.

(** [while (!ready()) { net_poll(); if (ticks - start > limit) return; cpu_sleep_ticks(1); }] *)
Fixpoint wait_for (ready : M (N:=N) bool) (limit : Z) (fuel : nat) (ph : phase) (i : nat) : M (N:=N) bool :=
  r ← ready;
  if r : bool then mret true else
  match fuel with
  | O => st_spin
  | S fuel =>
      let (tk, frames) := round ph i in
      _ ← net_poll tk frames;
      if limit <? u64 (tk - enter ph) then mret false else wait_for ready limit fuel ph (S i)
  end.

(** The response, [raw_len] bytes of it so far. *)
Fixpoint load (fuel : nat) (ph : phase) (i : nat) (last_rx : Z) (raw : list Z) : M (N:=N) (list Z) :=
  closed ← net_tcp_is_closed;
  if closed : bool then mret raw else
  match fuel with
  | O => st_spin
  | S fuel =>
      let (tk, frames) := round ph i in
      _ ← net_poll tk frames;
      tmp ← net_tcp_recv 512;
      let got := 0 <? Z.of_nat (length tmp) in
      let raw := if got then receive raw tmp BROWSER_CONTENT_CAP else raw in
      let last_rx := if got then tk else last_rx in
      if PIT_HZ * 5 <? u64 (tk - last_rx) then mret raw else load fuel ph (S i) last_rx raw
  end.

(** Behind the connection: the request and the response. *)
Definition browser_load (fuel : nat) (w : world) (host path : list Z) : M (N:=N) (list Z + list Z) :=
  _ ← net_tcp_send (enter (w_load w)) (build_request host path);
  if negb (w_raw w) then mret (inl (txt "Out of memory")) else
  raw ← load fuel (w_load w) 0 (enter (w_load w)) [];
  _ ← net_tcp_close (w_close w); mret (inr raw).
(** Up to the page: the response, or the status of the fetch that failed. *)
Definition browser_receive (fuel : nat) (w : world) (url : list Z) : M (N:=N) (list Z + list Z) :=
  up ← wait_for net_is_up (PIT_HZ * 6) fuel (w_up w) 0;
  if negb up then mret (inl (txt "Network down")) else
  match browser_parse_url url 96 128 with
  | None => mret (inl (txt "Invalid URL"))
  | Some (host, path) =>
      ip ← net_dns_resolve dns_rounds (enter (w_dns w)) (round (w_dns w)) host;
      match ip with
      | None => mret (inl (txt "DNS failed"))
      | Some ip =>
          ok ← net_tcp_connect (enter (w_connect w)) ip 80;
          if negb ok then mret (inl (txt "Connect failed")) else
          established ← wait_for net_tcp_is_established (PIT_HZ * 5) fuel (w_connect w) 0;
          if negb established then mret (inl (txt "Connect timeout")) else
          browser_load fuel w host path
      end
  end.
(** The statuses set on the way are overwritten before the call returns. *)
Definition browser_fetch (fuel : nat) (w : world) (br : browser_t) : M (N:=N) browser_t :=
  r ← browser_receive fuel w (url br);
  match r with
  | inl msg => mret (set_status msg br)
  | inr raw =>
      '(content, len) ← st_lift (match content br with None => Fault | Some c => show_response raw c end);
      mret (set_status (txt "Done") (set_scroll 0 (set_content (Some content) len br)))
  end.

Definition browser_handle_key (fuel : nat) (w : world) (event : key_event) (br : browser_t) : M (N:=N) browser_t :=
  if negb (pressed event) then mret br else
  match key event with
  | KEY_ENTER => browser_fetch fuel w br
  | KEY_BACKSPACE => mret (set_url (backspace_url (url br)) br)
  | KEY_UP => mret (if 0 <? scroll br then set_scroll (scroll br - 1) br else br)
  | KEY_DOWN => s ← st_lift (int_ok (scroll br + 1)); mret (set_scroll s br)
  | _ => mret (set_url (type_url (ascii event) (url br)) br)
  end.
End Code.
