(* ===== verification/BrowserNet.v ===== *)
(** * Fetching a page: every fetch comes to an end *)
From S2P Require Import Prelude Interfaces Net NetFacts NetSafe NetProps.
From S2P Require Import Browser BrowserProps BrowserResponse BrowserFetch.

(** ** Network stack: what has been read from the connection changes by reading only

    [net_tcp_recv] is the only call that advances [recv_read] on an open connection: no
    frame that arrives does. *)
Section Read.
Context {N : Type} `{!Nic N}.

(** [m] keeps [recv_read] at [r]. *)
Definition keeps {A} (r : Z) (m : M (N:=N) A) : Prop :=
  forall s a s', recv_read (tcp_conn s) = r -> m s = Ret (a, s') -> recv_read (tcp_conn s') = r.

Lemma keeps_ret {A} r (a : A) : keeps r (mret a).
Proof. intros s x s' Hr [= <- <-]. done. Qed.
Lemma keeps_bind {A B} r (m : M (N:=N) A) (f : A -> M B) : keeps r m -> (forall a, keeps r (f a)) -> keeps r (m ≫= f).
Proof.
  intros Hm Hf s b s' Hr E. unfold mbind, st_bind in E. destruct (m s) as [[a s1]| |] eqn:E1; try done.
  eapply Hf; [eapply Hm; [exact Hr | exact E1] | exact E].
Qed.
Lemma keeps_get_tcp {B} r (f : tcp_conn_t -> M (N:=N) B) : (forall c, recv_read c = r -> keeps r (f c)) -> keeps r (get_tcp ≫= f).
Proof. intros Hf s b s' Hr E. by apply (Hf (tcp_conn s) Hr s b s' Hr). Qed.
Lemma keeps_put_tcp r x : recv_read x = r -> keeps r (put_tcp x).
Proof. intros Hx s a s' _ [= <- <-]. done. Qed.
Lemma keeps_spin {A} r : keeps r (st_spin : M (N:=N) A).
Proof. done. Qed.
Lemma keeps_lift {A} r (m : res A) : keeps r (st_lift m).
Proof. intros s a s' Hr E. unfold st_lift in E. destruct m; try done. by injection E as -> ->. Qed.
(** The other primitives do not touch the connection. *)
Lemma keeps_others r : keeps r get_cfg /\ keeps r get_dhcp /\ keeps r get_dns /\ keeps r get_arp /\ keeps r next_id /\
  (forall x, keeps r (put_cfg x)) /\ (forall x, keeps r (put_dhcp x)) /\ (forall x, keeps r (put_dns x)) /\ (forall x, keeps r (put_arp x)).
Proof. split_and!; intros; intros s a s' Hr E; by injection E as <- <-. Qed.
Lemma keeps_send r x : keeps r (e1000_send x).
Proof. intros s a s' Hr E. unfold e1000_send in E. destruct (nic_send x (nic s)). by injection E as <- <-. Qed.

Ltac keep1 :=
  match goal with
  | |- keeps _ (mret _) => apply keeps_ret
  | |- keeps _ (get_tcp ≫= _) => apply keeps_get_tcp; intros ? ?
  | |- keeps _ (_ ≫= _) => apply keeps_bind; [| intros ?]
  | |- keeps _ (put_tcp _) => apply keeps_put_tcp
  | |- keeps _ (e1000_send _) => apply keeps_send
  | |- keeps _ (st_lift _) => apply keeps_lift
  | |- keeps _ st_spin => apply keeps_spin
  | |- keeps _ (if ?b then _ else _) => destruct b
  | |- keeps _ (match ?x with _ => _ end) => destruct x
  | |- keeps ?r _ => solve [apply (keeps_others r)]
  end.
Ltac keep := repeat first [progress (cbv beta zeta) | keep1 | solve [auto]].

Lemma keeps_frame r dst ty p : keeps r (net_send_frame dst ty p).
Proof. unfold net_send_frame. keep. Qed.
#[local] Hint Resolve keeps_frame : core.
Lemma keeps_arp_request r ip : keeps r (arp_send_request ip).
Proof. unfold arp_send_request. keep. Qed.
Lemma keeps_arp_reply r m ip : keeps r (arp_send_reply m ip).
Proof. unfold arp_send_reply. keep. Qed.
#[local] Hint Resolve keeps_arp_request keeps_arp_reply : core.
Lemma keeps_ipv4 r d pr p : keeps r (net_send_ipv4 d pr p).
Proof. unfold net_send_ipv4. keep. Qed.
#[local] Hint Resolve keeps_ipv4 : core.
Lemma keeps_udp r d a b p : keeps r (net_send_udp d a b p).
Proof. unfold net_send_udp. keep. Qed.
#[local] Hint Resolve keeps_udp : core.
Lemma read_sent tk flags data c : recv_read (tcp_sent tk flags data c) = recv_read c.
Proof. unfold tcp_sent. destruct (_ || _); done. Qed.
Lemma keeps_segment r tk flags data : keeps r (tcp_send_segment tk flags data).
Proof. unfold tcp_send_segment. keep. by rewrite read_sent. Qed.
#[local] Hint Resolve keeps_segment : core.
Lemma keeps_arp_handle r tk p len : keeps r (arp_handle tk p len).
Proof. unfold arp_handle. keep. Qed.
Lemma keeps_discover r tk : keeps r (dhcp_send_discover tk).
Proof. unfold dhcp_send_discover. keep. Qed.
Lemma keeps_request r tk : keeps r (dhcp_send_request tk).
Proof. unfold dhcp_send_request. keep. Qed.
#[local] Hint Resolve keeps_arp_handle keeps_discover keeps_request : core.
Lemma keeps_dhcp_handle r tk p len : keeps r (dhcp_handle tk p len).
Proof. unfold dhcp_handle. keep. Qed.
Lemma keeps_dns_handle r p len : keeps r (dns_handle p len).
Proof. unfold dns_handle. keep. Qed.
Lemma read_ack flags ack c : recv_read (ack_update flags ack c) = recv_read c.
Proof. unfold ack_update. repeat case_match; done. Qed.
Lemma keeps_tcp_data r tk seq p h n : keeps r (tcp_data tk seq p h n).
Proof. unfold tcp_data. keep. Qed.
Lemma keeps_tcp_fin r tk flags seq n : keeps r (tcp_fin tk flags seq n).
Proof. unfold tcp_fin. keep. Qed.
#[local] Hint Resolve keeps_dhcp_handle keeps_dns_handle keeps_tcp_data keeps_tcp_fin : core.
Lemma keeps_tcp_handle r tk p len src : keeps r (tcp_handle tk p len src).
Proof. unfold tcp_handle. keep. by rewrite read_ack. Qed.
#[local] Hint Resolve keeps_tcp_handle : core.
Lemma keeps_ipv4_handle r tk p len : keeps r (ipv4_handle tk p len).
Proof. unfold ipv4_handle. keep. Qed.
#[local] Hint Resolve keeps_ipv4_handle : core.
Lemma keeps_rx_frames r tk frames : keeps r (rx_frames tk frames).
Proof. induction frames as [|[p len] frames IH]; cbn [rx_frames]; [apply keeps_ret |]. unfold net_rx_frame. keep. Qed.
#[local] Hint Resolve keeps_rx_frames : core.
Lemma keeps_retransmit r tk : keeps r (tcp_retransmit tk).
Proof. unfold tcp_retransmit. keep. Qed.
#[local] Hint Resolve keeps_retransmit : core.
Lemma net_poll_keeps_read r tk frames : keeps r (net_poll tk frames).
Proof. unfold net_poll. keep. Qed.
End Read.

(** Rounds enough for any fetch: 64 KiB arrive in at most 65536 pieces, and five seconds
    without one end the download. *)
Definition fetch_rounds : nat := Z.to_nat (65537 * 302).
(** Time advances with every round, by less than 2^64 in all; the frames are as in [Net]. *)
Definition phase_ok (ph : phase) : Prop := forall i, Forall frame_ok (round ph i).2 /\
  (Z.of_nat i <= 65537 * 302 -> enter ph + Z.of_nat i <= (round ph i).1 < enter ph + 2 ^ 64 /\ (round ph i).1 < (round ph (S i)).1).
Definition world_ok (w : world) : Prop := phase_ok (w_up w) /\ phase_ok (w_dns w) /\ phase_ok (w_connect w) /\ phase_ok (w_load w).
Definition browser_ok (br : browser_t) : Prop :=
  Z.of_nat (length (url br)) < URL_CAP /\ Z.of_nat (length (status br)) < 64 /\ 0 <= scroll br /\
  exists c, content br = Some c /\ Z.of_nat (length c) = BROWSER_CONTENT_CAP.

Section Fetch.
Context {N : Type} `{!Nic N}.
Implicit Types s : net N.

Lemma recv_spec max s : 0 <= max -> net_ok s -> exists tmp s', net_tcp_recv max s = Ret (tmp, s') /\ net_ok s' /\
  recv_read (tcp_conn s') = recv_read (tcp_conn s) + Z.of_nat (length tmp) /\ Z.of_nat (length tmp) <= max.
Proof.
  intros Hm Hs. destruct (recv_safe max Hm s Hs) as (tmp & s' & E & Hs'). exists tmp, s'. split; [done |]. split; [done |]. clear Hs'. revert E.
  unfold net_tcp_recv. destruct (Z.eqb_spec max 0) as [->|Hmax]; [intros [= <- <-]; cbn; lia |].
  rewrite (st_bind_ret get_tcp _ s (tcp_conn s) s eq_refl). pose proof (n_tcp s Hs) as [? ? ? _ _ _]. set (c := tcp_conn s) in *.
  rewrite (u32_id (recv_len c - recv_read c)) by (unfold is_u32; lia).
  destruct (Z.eqb_spec (recv_len c - recv_read c) 0) as [|Hav]; [intros [= <- <-]; fold c; cbn [length]; lia |].
  set (n := if max <? _ then max else _). assert (0 <= n <= max /\ n <= recv_len c - recv_read c) as [Hn Hn']
    by (unfold n; destruct (Z.ltb_spec max (recv_len c - recv_read c)); lia). clearbody n.
  rewrite (st_bind_ret (st_lift _) _ s (slice (recv_read c) n (recv_buf c)) s) by (unfold st_lift; rewrite rd_bytes_ok by lia; done).
  rewrite (u32_id (recv_read c + n)) by (unfold is_u32; lia). intros [= <- <-]. rewrite slice_len by lia. cbn. lia.
Qed.

(** A waiting loop ends when its limit is over. *)
Lemma wait_for_safe (ready : M (N:=N) bool) limit ph : (forall s, exists b, ready s = Ret (b, s)) -> phase_ok ph -> 0 <= limit <= 1000 ->
  forall fuel i, limit + 2 <= Z.of_nat (i + fuel) -> Z.of_nat i <= limit + 1 -> safe (wait_for ready limit fuel ph i).
Proof.
  intros Hr Hp Hl. induction fuel as [|fuel IH]; intros i Hf Hi; [lia |]. cbn [wait_for]. intros s Hs.
  destruct (Hr s) as [b E]. rewrite (st_bind_ret _ _ _ _ _ E). destruct b; [by apply safe_ret |].
  destruct (Hp i) as [Hfr Ht]. destruct (Ht ltac:(lia)) as [Ht' _]. clear Ht. destruct (round ph i) as [tk frames]. cbn [fst snd] in *.
  revert s Hs E. intros s Hs _. revert s Hs. apply safe_bind; [by apply poll_safe | intros _].
  rewrite u64_id by (unfold is_u64; lia). apply safe_if; intros Hlim; [apply safe_ret |]. apply Z.ltb_ge in Hlim. apply IH; lia.
Qed.

(** The download loop ends, with fewer bytes than fit. *)
Lemma download_ok ph : phase_ok ph -> forall fuel i last prev raw s,
  net_ok s -> Z.of_nat (i + fuel) <= 65537 * 302 -> enter ph <= last <= prev + 1 -> prev < (round ph i).1 -> prev - last <= PIT_HZ * 5 ->
  (65536 - recv_read (tcp_conn s)) * 302 + (301 - (prev - last)) <= Z.of_nat fuel ->
  Z.of_nat (length raw) < BROWSER_CONTENT_CAP ->
  exists raw' s', load fuel ph i last raw s = Ret (raw', s') /\ net_ok s' /\ Z.of_nat (length raw') < BROWSER_CONTENT_CAP.
Proof.
  intros Hp. unfold PIT_HZ. induction fuel as [|fuel IH]; intros i last prev raw s Hs Hi Hlast Hprev Hidle Hfuel Hraw.
  { pose proof (n_tcp s Hs) as [? ? ? ? ? ?]. lia. }
  cbn [load]. unfold PIT_HZ. rewrite (st_bind_ret net_tcp_is_closed _ s (bool_decide (state (tcp_conn s) = TCP_CLOSED) || bool_decide (state (tcp_conn s) = TCP_CLOSE_WAIT)) s eq_refl).
  destruct (_ || _); [by exists raw, s |]. destruct (Hp i) as [Hfr Ht]. destruct (Ht ltac:(lia)) as [Ht' Hnext]. clear Ht.
  destruct (round ph i) as [tk frames]. cbn [fst snd] in *.
  destruct (poll_safe tk frames Hfr s Hs) as ([] & s1 & E1 & Hs1). rewrite (st_bind_ret _ _ _ _ _ E1).
  pose proof (net_poll_keeps_read _ tk frames s _ s1 eq_refl E1) as Hr1.
  destruct (recv_spec 512 s1 ltac:(lia) Hs1) as (tmp & s2 & E2 & Hs2 & Hr2 & Hlen). rewrite (st_bind_ret _ _ _ _ _ E2). cbv zeta. clear E1 E2.
  pose proof (n_tcp s2 Hs2) as [_ B1 B2 _ _ _].
  destruct (Z.ltb_spec 0 (Z.of_nat (length tmp))) as [Hgot|Hgot].
  - rewrite Z.sub_diag. change (u64 0) with 0. cbn [Z.ltb Z.compare Z.mul Pos.mul].
    apply (IH (S i) tk tk); [done | lia | lia | done | lia | lia |].
    unfold receive. destruct (Z.ltb_spec (u32 (Z.of_nat (length raw) + Z.of_nat (length tmp))) BROWSER_CONTENT_CAP) as [H|]; [| done].
    unfold BROWSER_CONTENT_CAP in *. rewrite u32_id in H by (unfold is_u32; lia). rewrite length_app. lia.
  - rewrite u64_id by (unfold is_u64; lia). destruct (Z.ltb_spec (60 * 5) (tk - last)); [by exists raw, s2 |].
    apply (IH (S i) last tk); [done | lia | lia | done | lia | lia | done].
Qed.
End Fetch.

(** ** The whole fetch *)
Definition failures : list (list Z) :=
  [txt "Network down"; txt "Invalid URL"; txt "DNS failed"; txt "Connect failed"; txt "Connect timeout"; txt "Out of memory"].
(** The number behind the Content-Length of the response does not fit its [int]. *)
Definition length_overflow (raw : list Z) : Prop := exists body v, header_end raw = Some body /\
  browser_find_header (length (raw ++ [0])) (raw ++ [0]) CONTENT_LENGTH = Ret (Some v) /\ 2 ^ 31 <= number v 0.
(** What a fetch can get: a reason, or a response that fits the buffer. *)
Definition received (r : list Z + list Z) : Prop :=
  match r with inl msg => msg ∈ failures | inr raw => Z.of_nat (length raw) < BROWSER_CONTENT_CAP end.

Lemma set_status_ok msg br : browser_ok br -> browser_ok (set_status msg br).
Proof. intros (? & ? & ? & ?). split_and!; [done | | done | done]. cbn. unfold browser_set_status. rewrite length_take. lia. Qed.

Section Returns.
Context {N : Type} `{!Nic N}.
Implicit Types s : net N.

Definition returns {A} (m : M (N:=N) A) (Q : A -> Prop) s : Prop := exists a s', m s = Ret (a, s') /\ net_ok s' /\ Q a.
Lemma returns_bind {A B} (m : M (N:=N) A) (f : A -> M B) Q s : safe m -> net_ok s -> (forall a s, net_ok s -> returns (f a) Q s) -> returns (m ≫= f) Q s.
Proof.
  intros Hm Hs Hf. destruct (Hm s Hs) as (a & s1 & E & Hs1). unfold returns. rewrite (st_bind_ret _ _ _ _ _ E). by apply Hf.
Qed.
Lemma returns_ret {A} (a : A) (Q : A -> Prop) s : net_ok s -> Q a -> returns (mret a) Q s.
Proof. intros Hs Ha. by exists a, s. Qed.

Lemma browser_load_returns w host path s : net_ok s -> phase_ok (w_load w) -> returns (browser_load fetch_rounds w host path) received s.
Proof.
  intros Hs Hw. unfold browser_load. apply returns_bind; [apply send_safe | done |]. clear s Hs. intros _ s Hs.
  destruct (w_raw w); cbn [negb]; [| apply returns_ret; [done | cbn; set_solver]].
  destruct (Hw 0%nat) as [_ H0]. destruct (H0 ltac:(lia)) as [H0' _]. pose proof (n_tcp s Hs) as [_ B1 B2 _ _ _].
  destruct (download_ok _ Hw fetch_rounds 0 (enter (w_load w)) (enter (w_load w) - 1) [] s) as (raw & s1 & E & Hs1 & Hraw);
    try (unfold fetch_rounds, PIT_HZ; lia); [done | done |].
  unfold returns. rewrite (st_bind_ret _ _ _ _ _ E). clear E.
  destruct (close_safe (w_close w) s1 Hs1) as ([] & s2 & E & Hs2). rewrite (st_bind_ret _ _ _ _ _ E). by exists (inr raw), s2.
Qed.

Lemma parse_url_host url host path pc : browser_parse_url url 96 pc = Some (host, path) -> Z.of_nat (length host) < 96.
Proof.
  unfold browser_parse_url. destruct (if starts_with HTTP url then _ else _) as [[|c p]|]; try done. intros H.
  destruct (Z.leb_spec (Z.of_nat (length (until_slash (c :: p)))) 0); [done |].
  destruct (Z.leb_spec 96 (Z.of_nat (length (until_slash (c :: p))))) as [|Hl]; [done |]. cbn [orb] in H.
  destruct (drop _ (c :: p)); [destruct (pc <? 2) |]; try done; by injection H as <- _.
Qed.

(** The waiting ends: for the network, the name, the connection and the response. *)
Lemma browser_receive_returns w url s : net_ok s -> world_ok w -> returns (browser_receive fetch_rounds w url) received s.
Proof.
  intros Hs (Hup & Hdns & Hcon & Hload). unfold browser_receive.
  apply returns_bind; [apply wait_for_safe; [by intros s'; eexists | done | unfold PIT_HZ; lia | unfold fetch_rounds, PIT_HZ; lia | unfold PIT_HZ; lia] | done |].
  clear s Hs. intros up s Hs. destruct up; cbn [negb]; [| apply returns_ret; [done | cbn; set_solver]].
  destruct (browser_parse_url url 96 128) as [[host path]|] eqn:Eu; [| apply returns_ret; [done | cbn; set_solver]].
  apply parse_url_host in Eu. apply returns_bind; [| done |].
  { apply resolve_safe; [lia | | intros i; apply Hdns]. intros i Hi. unfold dns_rounds in Hi. apply Hdns. lia. }
  clear s Hs. intros ip s Hs. destruct ip as [ip|]; [| apply returns_ret; [done | cbn; set_solver]].
  apply returns_bind; [apply connect_safe | done |].
  clear s Hs. intros ok s Hs. destruct ok; cbn [negb]; [| apply returns_ret; [done | cbn; set_solver]].
  apply returns_bind; [apply wait_for_safe; [by intros s'; eexists | done | unfold PIT_HZ; lia | unfold fetch_rounds, PIT_HZ; lia | unfold PIT_HZ; lia] | done |].
  clear s Hs. intros est s Hs. destruct est; cbn [negb]; [by apply browser_load_returns | apply returns_ret; [done | cbn; set_solver]].
Qed.

End Returns.
