(* ===== verification/BrowserView.v ===== *)
(** * Drawing the browser ([src/src/apps/browser.c]: [browser_draw_text_lines], [browser_render])

    The calls of [gfx_draw_rect] and [gfx_draw_text] with their arguments, in their order;
    what a call does to the screen is the subject of [Gfx].  A string is the list of its
    characters. *)
From S2P Require Import Prelude Gfx BrowserFetch.

Inductive call := Rect (x y w h color : Z) | Text (s : list Z) (x y color : Z).

(** The loop that fills [line_buf]: the line, and the text behind it. *)
Fixpoint line_loop (p : list Z) (max_chars : Z) (lb : list Z) : list Z * list Z :=
  match p with
  | [] => (lb, [])
  | c :: q =>
      if negb (c =? 10) && (Z.of_nat (length lb) <? 256 - 1) then
        let lb := lb ++ [c] in
        if max_chars <=? Z.of_nat (length lb) then (lb, q) else line_loop q max_chars lb
      else (lb, p)
  end.
Definition skip_newline (p : list Z) : list Z := match p with c :: q => if c =? 10 then q else p | [] => [] end.
Fixpoint draw_loop (fuel : nat) (p : list Z) (line drawn max_lines max_chars x y scroll : Z) : res (list call) :=
  match p with
  | [] => Ret []
  | _ =>
      if negb (drawn <? max_lines) then Ret [] else
      match fuel with
      | O => Spin
      | S fuel =>
          let '(lb, p) := line_loop p max_chars [] in
          line' ← int_ok (line + 1);
          if scroll <=? line then
            dy ← int_ok (drawn * FONT_HEIGHT); cy ← int_ok (y + dy); drawn' ← int_ok (drawn + 1);
            rest ← draw_loop fuel (skip_newline p) line' drawn' max_lines max_chars x y scroll;
            Ret (Text lb x cy 0xE6E6E6 :: rest)
          else draw_loop fuel (skip_newline p) line' drawn max_lines max_chars x y scroll
      end
  end.
Definition browser_draw_text_lines (text : list Z) (x y w h scroll : Z) : res (list call) :=
  let max_lines := Z.quot h FONT_HEIGHT in
  let max_chars := Z.quot w FONT_WIDTH in
  let max_chars := if max_chars <? 1 then 1 else max_chars in
  draw_loop (length text) text 0 0 max_lines max_chars x y scroll.

Definition browser_render (br : browser_t) (x y w h : Z) : res (list call) :=
  match content br with
  | None => Ret []
  | Some buf =>
      let bar_h := FONT_HEIGHT + 6 in
      let status_h := FONT_HEIGHT + 6 in
      tx ← int_ok (x + 8); ty ← int_ok (y + 4);
      content_y ← (v ← int_ok (y + bar_h); int_ok (v + 4));
      content_h ← (v ← int_ok (h - bar_h); v ← int_ok (v - status_h); int_ok (v - 8));
      let content_h := if content_h <? 0 then 0 else content_h in
      w16 ← int_ok (w - 16);
      lines ← browser_draw_text_lines (c_str buf) tx content_y w16 content_h (scroll br);
      sy ← (v ← int_ok (y + h); int_ok (v - status_h));
      ssy ← int_ok (sy + 4);
      Ret ([Rect x y w h 0x0F1218; Rect x y w bar_h 0x1E2331; Text (url br) tx ty 0xE6E6E6] ++ lines ++
           [Rect x sy w status_h 0x1E2331; Text (status br) tx ssy 0x9BA6B2])
  end.

(** ** The lines of a text *)
(** Its paragraphs; a line feed at the end starts none. *)
Fixpoint paragraphs (cur s : list Z) : list (list Z) :=
  match s with
  | [] => match cur with [] => [] | _ => [cur] end
  | c :: s => if c =? 10 then cur :: paragraphs [] s else paragraphs (cur ++ [c]) s
  end.
Fixpoint chunks (fuel n : nat) (l : list Z) : list (list Z) :=
  match fuel with
  | O => [l]
  | S fuel => if (length l <=? n)%nat then [l] else take n l :: chunks fuel n (drop n l)
  end.
Definition wrap (n : nat) (s : list Z) : list (list Z) := flat_map (fun l => chunks (length l) n l) (paragraphs [] s).

Definition line (s : list Z) : Prop := Forall (fun c => c <> 10) s.
Lemma paragraphs_line cur l r : line l -> paragraphs cur (l ++ 10 :: r) = (cur ++ l) :: paragraphs [] r.
Proof.
  intros H. revert cur. induction H as [|c l Hc _ IH]; intros cur; cbn [app paragraphs].
  - change (10 =? 10) with true. cbn [negb]. by rewrite app_nil_r.
  - rewrite (proj2 (Z.eqb_neq c 10) Hc), IH, <- app_assoc. done.
Qed.
Lemma paragraphs_last cur l : line l -> cur ++ l <> [] -> paragraphs cur l = [cur ++ l].
Proof.
  intros H. revert cur. induction H as [|c l Hc _ IH]; intros cur Hne; cbn [paragraphs].
  - rewrite app_nil_r in *. by destruct cur.
  - rewrite (proj2 (Z.eqb_neq c 10) Hc), IH, <- app_assoc by (by destruct cur). done.
Qed.
Lemma chunks_fuel n : (1 <= n)%nat -> forall f1 f2 l, (length l <= f1)%nat -> (length l <= f2)%nat -> chunks f1 n l = chunks f2 n l.
Proof.
  intros Hn. induction f1 as [|f1 IH]; intros f2 l H1 H2.
  - destruct l; [| cbn in H1; lia]. by destruct f2.
  - destruct f2 as [|f2]; [destruct l; [done | cbn in H2; lia] |]. cbn [chunks]. destruct (Nat.leb_spec (length l) n); [done |].
    f_equal. apply IH; rewrite length_drop; lia.
Qed.
(** A text is a first line and what follows, if anything. *)
Lemma first_line s : exists l r, line l /\ (s = l /\ r = [] \/ s = l ++ 10 :: r).
Proof.
  induction s as [|c s (l & r & Hl & H)]; [exists [], []; split; [by apply Forall_nil | by left] |].
  destruct (decide (c = 10)) as [->|Hc]; [exists [], s; split; [by apply Forall_nil | by right] |].
  exists (c :: l), r. split; [by apply Forall_cons |]. destruct H as [[-> ->]| ->]; [by left | by right].
Qed.

(** No line is wider than the width, and together they are the text. *)
Lemma chunks_width n : (1 <= n)%nat -> forall f l, (length l <= f)%nat -> Forall (fun k => (length k <= n)%nat) (chunks f n l) /\ concat (chunks f n l) = l.
Proof.
  intros Hn. induction f as [|f IH]; intros l Hl; cbn [chunks].
  - destruct l; [| cbn in Hl; lia]. split; [apply Forall_cons; split; [cbn; lia | apply Forall_nil_2] | done].
  - destruct (Nat.leb_spec (length l) n); [split; [apply Forall_cons; split; [done | apply Forall_nil_2] | cbn; by rewrite app_nil_r] |].
    destruct (IH (drop n l)) as [H1 H2]; [rewrite length_drop; lia |]. split; [apply Forall_cons; split; [rewrite length_take; lia | done] |].
    cbn [concat]. by rewrite H2, take_drop.
Qed.
Lemma paragraphs_concat cur s : concat (paragraphs cur s) = cur ++ filter (fun c => c <> 10) s.
Proof.
  revert cur. induction s as [|c s IH]; intros cur; cbn [paragraphs].
  - destruct cur; [done |]. cbn. by rewrite !app_nil_r.
  - rewrite filter_cons. destruct (Z.eqb_spec c 10) as [->|Hc]; [rewrite decide_False by auto | rewrite decide_True by done].
    + cbn [concat]. by rewrite IH.
    + by rewrite IH, <- app_assoc.
Qed.
Lemma wrap_width n s : (1 <= n)%nat -> Forall (fun k => (length k <= n)%nat) (wrap n s).
Proof. intros Hn. unfold wrap. generalize (paragraphs [] s). intros ps. induction ps as [|l ps IH]; [apply Forall_nil_2 |]. cbn [flat_map]. apply Forall_app. split; [by apply chunks_width | done]. Qed.
Lemma wrap_concat n s : (1 <= n)%nat -> concat (wrap n s) = filter (fun c => c <> 10) s.
Proof.
  intros Hn. pose proof (paragraphs_concat [] s) as E. cbn [app] in E. rewrite <- E. clear E. unfold wrap. generalize (paragraphs [] s). intros ps. induction ps as [|l ps IH]; [done |].
  cbn [flat_map concat]. rewrite concat_app, IH. f_equal. by apply (chunks_width n Hn (length l) l).
Qed.

(** [line_buf] holds up to [width] characters. *)
Definition width (max_chars : Z) : nat := Z.to_nat (Z.min max_chars 255).
Lemma line_loop_ok l rest mc : line l -> (rest = [] \/ exists r, rest = 10 :: r) -> 1 <= mc -> forall lb, (length lb < width mc)%nat ->
  line_loop (l ++ rest) mc lb = (lb ++ take (width mc - length lb) l, drop (width mc - length lb) l ++ rest).
Proof.
  intros Hl Hr Hm. induction Hl as [|c l Hc _ IH]; intros lb Hlb; unfold width in *.
  - rewrite take_nil, drop_nil, app_nil_r. cbn [app]. destruct Hr as [->|[r ->]]; done.
  - cbn [app line_loop]. rewrite (proj2 (Z.eqb_neq c 10) Hc), (proj2 (Z.ltb_lt _ (256 - 1))) by lia. cbn [negb andb].
    rewrite length_app. cbn [length]. destruct (Z.leb_spec mc (Z.of_nat (length lb + 1))) as [H|H].
    + replace (Z.to_nat (Z.min mc 255) - length lb)%nat with 1%nat by lia. cbn. by rewrite take_0, drop_0.
    + destruct (decide (length lb + 1 = Z.to_nat (Z.min mc 255))%nat) as [Hfull|Hmore].
      * replace (Z.to_nat (Z.min mc 255) - length lb)%nat with 1%nat by lia. cbn [take drop]. rewrite take_0, drop_0.
        destruct (l ++ rest) as [|d q] eqn:E; [done |]. cbn [line_loop]. rewrite length_app. cbn [length].
        rewrite (proj2 (Z.ltb_ge _ (256 - 1))) by lia. by rewrite andb_false_r.
      * rewrite IH by (rewrite length_app; cbn; lia). rewrite length_app. cbn [length].
        replace (Z.to_nat (Z.min mc 255) - length lb)%nat with (S (Z.to_nat (Z.min mc 255) - (length lb + 1)))%nat by lia.
        cbn [take drop]. by rewrite <- app_assoc.
Qed.

(** One turn of the drawing loop takes one line of the reference. *)
Lemma wrap_line s mc : s <> [] -> 1 <= mc -> let '(l, q) := line_loop s mc [] in
  wrap (width mc) s = l :: wrap (width mc) (skip_newline q) /\ (length (skip_newline q) < length s)%nat.
Proof.
  intros Hs Hm. assert (1 <= width mc)%nat as Hw by (unfold width; lia). set (n := width mc) in *.
  destruct (first_line s) as (l & r & Hl & Hlr).
  assert (exists rest, s = l ++ rest /\ (rest = [] /\ r = [] \/ rest = 10 :: r)) as (rest & -> & Hrest)
    by (destruct Hlr as [[-> ->]| ->]; [exists []; rewrite app_nil_r; auto | by exists (10 :: r); auto]).
  rewrite (line_loop_ok l rest mc Hl) by (try lia; destruct Hrest as [[-> _]| ->]; eauto). fold n. cbn [length app]. rewrite Nat.sub_0_r.
  assert (forall k, line k -> k ++ rest <> [] -> wrap n (k ++ rest) = chunks (length k) n k ++ wrap n r) as Hwrap.
  { intros k Hk Hne. unfold wrap. destruct Hrest as [[-> ->]| ->].
    - rewrite app_nil_r in Hne |- *. by rewrite paragraphs_last.
    - by rewrite paragraphs_line. }
  rewrite Hwrap by done. destruct (decide (length l <= n)%nat) as [Hle|Hgt].
  - rewrite take_ge, drop_ge by done. cbn [app].
    assert (chunks (length l) n l = [l]) as -> by (destruct l; cbn [length chunks]; [done |]; by rewrite (proj2 (Nat.leb_le _ _))).
    assert (skip_newline rest = r) as -> by (destruct Hrest as [[-> ->]| ->]; done). split; [done |].
    rewrite length_app. destruct Hrest as [[-> ->]| ->]; cbn [length]; [| lia]. destruct l; [done | cbn; lia].
  - assert (exists c k, drop n l = c :: k /\ c <> 10) as (c & k & Ek & Hc).
    { pose proof (length_drop l n). pose proof (Forall_drop _ n l Hl) as Hd. destruct (drop n l) as [|c k]; [cbn in *; lia |].
      exists c, k. by apply Forall_cons in Hd as [? _]. }
    assert (skip_newline (drop n l ++ rest) = drop n l ++ rest) as -> by (rewrite Ek; cbn; by rewrite (proj2 (Z.eqb_neq c 10) Hc)).
    rewrite (Hwrap (drop n l)) by (first [by apply Forall_drop | by rewrite Ek]). split; [| rewrite !length_app, length_drop; lia].
    destruct l as [|d l]; [cbn in Hgt; lia |]. cbn [length chunks]. rewrite (proj2 (Nat.leb_gt _ _)) by (cbn in *; lia).
    cbn [app]. f_equal. f_equal. apply chunks_fuel; [done | rewrite length_drop; cbn; lia | lia].
Qed.

Fixpoint stacked (ls : list (list Z)) (x y : Z) : list call :=
  match ls with [] => [] | l :: ls => Text l x y 0xE6E6E6 :: stacked ls x (y + FONT_HEIGHT) end.
Definition shown_lines (s : list Z) (w h scroll : Z) : list (list Z) :=
  take (Z.to_nat (h / FONT_HEIGHT)) (drop (Z.to_nat scroll) (wrap (width (Z.max 1 (Z.quot w FONT_WIDTH))) s)).

Lemma draw_loop_ok ml mc x y scroll : 1 <= mc -> is_int y -> is_int (y + ml * 16) -> 0 <= ml -> ml * 16 < 2 ^ 31 ->
  forall fuel p line drawn, (length p <= fuel)%nat -> 0 <= line -> line + Z.of_nat (length p) < 2 ^ 31 -> 0 <= drawn <= ml ->
  draw_loop fuel p line drawn ml mc x y scroll =
    Ret (stacked (take (Z.to_nat (ml - drawn)) (drop (Z.to_nat (scroll - line)) (wrap (width mc) p))) x (y + drawn * 16)).
Proof.
  intros Hm Hy Hy' Hml Hov. unfold is_int in *. induction fuel as [|fuel IH]; intros p line drawn Hf Hl0 Hl Hd.
  { destruct p; [| cbn in Hf; lia]. cbn. by rewrite drop_nil, take_nil. }
  destruct p as [|c p]; [cbn; by rewrite drop_nil, take_nil |]. cbn [draw_loop].
  destruct (Z.ltb_spec drawn ml) as [Hdm|Hdm]; cbn [negb]; [| by replace (Z.to_nat (ml - drawn)) with O by lia].
  pose proof (wrap_line (c :: p) mc ltac:(done) Hm) as Hw. destruct (line_loop (c :: p) mc []) as [l q]. destruct Hw as [Ew Hq].
  rewrite Ew. cbn [length] in *. int_step. unfold FONT_HEIGHT. destruct (Z.leb_spec scroll line) as [Hs|Hs].
  - int_step. int_step. int_step. rewrite IH by lia. cbn [mbind res_bind].
    replace (Z.to_nat (scroll - line)) with O by lia. replace (Z.to_nat (scroll - (line + 1))) with O by lia. rewrite !drop_0.
    replace (Z.to_nat (ml - drawn)) with (S (Z.to_nat (ml - (drawn + 1)))) by lia. cbn [take stacked]. unfold FONT_HEIGHT.
    by replace (y + drawn * 16 + 16) with (y + (drawn + 1) * 16) by lia.
  - rewrite IH by lia. replace (Z.to_nat (scroll - line)) with (S (Z.to_nat (scroll - (line + 1)))) by lia. done.
Qed.

Lemma draw_text_lines_ok s x y w h scroll : is_int w -> 0 <= h < 2 ^ 31 -> is_int y -> is_int (y + h) -> Z.of_nat (length s) < 2 ^ 31 -> 0 <= scroll ->
  browser_draw_text_lines s x y w h scroll = Ret (stacked (shown_lines s w h scroll) x y).
Proof.
  intros Hw Hh Hy Hy' Hs Hsc. unfold browser_draw_text_lines, shown_lines, FONT_HEIGHT. unfold is_int in *.
  rewrite Z.quot_div_nonneg by lia. pose proof (Z.div_mod h 16 ltac:(lia)). pose proof (Z.mod_pos_bound h 16 ltac:(lia)).
  pose proof (Z.div_pos h 16 ltac:(lia) ltac:(lia)). generalize dependent (h / 16). intros ml H H1. generalize dependent (h mod 16). intros r H Hr.
  replace (if Z.quot w FONT_WIDTH <? 1 then 1 else Z.quot w FONT_WIDTH) with (Z.max 1 (Z.quot w FONT_WIDTH))
    by (destruct (Z.ltb_spec (Z.quot w FONT_WIDTH) 1); lia).
  rewrite draw_loop_ok by (unfold is_int; lia). by rewrite !Z.sub_0_r, Z.add_0_r.
Qed.
Lemma stacked_bounds ls x y a : a ∈ stacked ls x y -> exists l y', a = Text l x y' 0xE6E6E6 /\ l ∈ ls /\ y <= y' /\ y' + 16 <= y + Z.of_nat (length ls) * 16.
Proof.
  revert y. induction ls as [|l ls IH]; intros y; cbn [stacked]; [by intros H%elem_of_nil |]. unfold FONT_HEIGHT in *.
  intros [->|H]%elem_of_cons.
  - exists l, y. cbn [length]. split_and!; [done | by left | lia | lia].
  - destruct (IH _ H) as (l' & y' & -> & Hl & H1 & H2). exists l', y'. cbn [length]. split_and!; [done | by right | lia | lia].
Qed.

(** What is drawn of the browser.  Between the address and the status stand the lines of
    the page from the scroll position on, as many as there is room for: its paragraphs cut
    to the width, none dropped and none drawn twice.  No line of the page reaches into the
    bars. *)
Theorem browser_render_page br buf x y w h : content br = Some buf -> 0 <= scroll br -> Z.of_nat (length (c_str buf)) < 2 ^ 31 ->
  0 <= x <= 32767 -> 0 <= y <= 32767 -> 0 <= w <= 32767 -> 0 <= h <= 32767 ->
  let page := shown_lines (c_str buf) (w - 16) (Z.max 0 (h - 52)) (scroll br) in
  browser_render br x y w h = Ret ([Rect x y w h 0x0F1218; Rect x y w 22 0x1E2331; Text (url br) (x + 8) (y + 4) 0xE6E6E6] ++
    stacked page (x + 8) (y + 26) ++ [Rect x (y + h - 22) w 22 0x1E2331; Text (status br) (x + 8) (y + h - 22 + 4) 0x9BA6B2]) /\
  Forall (fun l => Z.of_nat (length l) <= Z.max 1 ((w - 16) / 8)) page /\
  concat (wrap (width (Z.max 1 (Z.quot (w - 16) FONT_WIDTH))) (c_str buf)) = filter (fun c => c <> 10) (c_str buf) /\
  forall a, a ∈ stacked page (x + 8) (y + 26) -> exists l y', a = Text l (x + 8) y' 0xE6E6E6 /\ y + 22 <= y' /\ y' + 16 <= y + h - 22.
Proof.
  intros Hc Hs Hb Hx Hy Hw Hh page. split_and!.
  - unfold browser_render. rewrite Hc. unfold FONT_HEIGHT. change (16 + 6) with 22. repeat int_step.
    replace (y + 22 + 4) with (y + 26) by lia. replace (if h - 22 - 22 - 8 <? 0 then 0 else h - 22 - 22 - 8) with (Z.max 0 (h - 52))
      by (destruct (Z.ltb_spec (h - 22 - 22 - 8) 0); lia).
    rewrite draw_text_lines_ok by (unfold is_int; lia). cbn [mbind res_bind]. repeat int_step. done.
  - assert (1 <= width (Z.max 1 (Z.quot (w - 16) FONT_WIDTH)))%nat as Hn by (unfold width; lia).
    apply Forall_take, Forall_drop. eapply Forall_impl; [by apply wrap_width |]. intros l. cbn beta. unfold width, FONT_WIDTH.
    destruct (decide (0 <= w - 16)); [rewrite Z.quot_div_nonneg by lia; lia |].
    assert (Z.quot (w - 16) 8 <= 0) by (replace (w - 16) with (- (16 - w)) by lia; rewrite Z.quot_opp_l by lia; pose proof (Z.quot_pos (16 - w) 8); lia). lia.
  - unfold width. apply wrap_concat. lia.
  - intros a Ha. destruct (stacked_bounds _ _ _ _ Ha) as (l & y' & -> & _ & H1 & H2). exists l, y'. split_and!; [done | lia |].
    assert (Z.of_nat (length page) <= Z.max 0 (h - 52) / 16) as Hp by (unfold page, shown_lines, FONT_HEIGHT; rewrite length_take; lia).
    pose proof (Z.div_mod (Z.max 0 (h - 52)) 16 ltac:(lia)). pose proof (Z.mod_pos_bound (Z.max 0 (h - 52)) 16 ltac:(lia)).
    pose proof (Z.div_pos (Z.max 0 (h - 52)) 16 ltac:(lia) ltac:(lia)). lia.
Qed.

Definition br0 : browser_t := BrowserT [97] [98] (Some ([65; 66; 67; 10; 10; 68; 10] ++ 0 :: [])) 7 1.
Lemma browser_render_page_witness :
  let page := shown_lines [65; 66; 67; 10; 10; 68; 10] (32 - 16) (Z.max 0 (100 - 52)) 1 in
  page = [[67]; []; [68]] /\
  browser_render br0 10 20 32 100 = Ret ([Rect 10 20 32 100 0x0F1218; Rect 10 20 32 22 0x1E2331; Text [97] (10 + 8) (20 + 4) 0xE6E6E6] ++
    stacked page (10 + 8) (20 + 26) ++ [Rect 10 (20 + 100 - 22) 32 22 0x1E2331; Text [98] (10 + 8) (20 + 100 - 22 + 4) 0x9BA6B2]).
Proof. split; [reflexivity |]. apply (browser_render_page br0 ([65; 66; 67; 10; 10; 68; 10] ++ 0 :: []) 10 20 32 100); [reflexivity | cbn; lia | cbn; lia | lia | lia | lia | lia]. Defined.
