(* ===== verification/BrowserExamples.v ===== *)
(** * A fetch, from the name of the host to the page *)
From S2P Require Import Prelude Interfaces Input Net NetSafe NetProps NetStream NetConfig NetExamples.
From S2P Require Import Browser BrowserProps BrowserFetch BrowserNet.

Definition server : Z := 0x22D8B85D.
Definition ip_frame (proto src : Z) (payload : list Z) : list Z * Z :=
  let f := mac0 ++ repeat 7 6 ++ [8; 0] ++ [0x45; 0] ++ le_bytes 2 (net_htons (20 + Z.of_nat (length payload))) ++
    [0; 0; 0; 0; 64; proto; 0; 0] ++ le_bytes 4 src ++ [10; 0; 2; 15] ++ payload in
  (f, Z.of_nat (length f)).
Definition dns_frame (tk : Z) (host : list Z) : list Z * Z :=
  let m := NetConfig.response (dns_query (u16 (Z.lxor tk 0x1234)) host) 0x8180 1 (record 1 1 [0; 0; 1; 0] (le_bytes 4 server)) in
  ip_frame 17 0x0302000A (le_bytes 2 (net_htons 53) ++ le_bytes 2 (net_htons DNS_CLIENT_PORT) ++
    le_bytes 2 (net_htons (8 + Z.of_nat (length m))) ++ [0; 0] ++ m).
Definition tcp_frame (tk seq ack flags : Z) (data : list Z) : list Z * Z :=
  ip_frame 6 server (segment 80 (u16 (1024 + tk mod 40000)) seq ack flags (repeat 0 6) data).

(** One round for each of [frames], then silence. *)
Definition rounds (tk : Z) (frames : list (list Z * Z)) : phase :=
  Phase tk (fun i => (tk + Z.of_nat i, match frames !! i with Some f => [f] | None => [] end)).
Definition isn : Z := u32 (Z.lxor 200 0xA5A5C3).
Definition answer : list Z :=
  BrowserResponse.response [txt "HTTP/1.1 200 OK"; txt "Transfer-Encoding: chunked"]
    (encode_chunks [Chunk (txt "A") (txt "<b>A&amp;B"); Chunk (txt "4") (txt "</b>")]).
(** The name is answered, the connection accepted; the page comes in two segments and the server closes. *)
Definition world0 : world := World (rounds 50 []) (rounds 100 [dns_frame 100 (txt "example.com")])
  (rounds 200 [tcp_frame 200 9000 (isn + 1) 0x12 []])
  (rounds 300 [tcp_frame 200 9001 (isn + 1) 0x10 (take 50 answer); tcp_frame 200 9051 (isn + 1) 0x10 (drop 50 answer);
               tcp_frame 200 (9001 + Z.of_nat (length answer)) (isn + 1) 0x11 []]) 400 true.
Definition browser0 : browser_t := BrowserT (txt "http://example.com") (txt "Ready") (Some (repeat 0 (Z.to_nat BROWSER_CONTENT_CAP))) 0 7.
Definition page_shown (fuel : nat) (w : world) (br : browser_t) : option (list Z * list Z * Z) :=
  match browser_fetch fuel w br (up_state TCP_CLOSED false) with
  | Ret (br, _) => Some (status br, c_str (default [] (content br)), scroll br)
  | _ => None
  end.
Lemma fetch_shows_page : page_shown 20 world0 browser0 = Some (txt "Done", txt "A&B", 0).
Proof. vm_compute. reflexivity. Qed.
(** No answer to the name; an address that is not one. *)
Lemma fetch_no_answer : page_shown 20 (World (rounds 50 []) (rounds 100 []) (rounds 200 []) (rounds 300 []) 400 true) browser0 =
  Some (txt "DNS failed", [], 7).
Proof. vm_compute. reflexivity. Qed.
Lemma fetch_https : page_shown 20 world0 (set_url (txt "https://example.com") browser0) = Some (txt "Invalid URL", [], 7).
Proof. vm_compute. reflexivity. Qed.

Lemma silent_ok tk : phase_ok (rounds tk []).
Proof.
  intros i. unfold rounds. cbn [round enter]. rewrite lookup_nil. cbn [fst snd]. split; [apply Forall_nil_2 |]. intros H. lia.
Qed.
