(* ===== verification/Shell.v ===== *)
(** * The shell: state, output, paths ([src/src/apps/shell.c])

    A C string is the list of its characters; what goes to the terminal is recorded as the
    sequence of calls.  The shell works on the file system and the allocator of their files;
    the numbers it only displays are in [sys]. *)
From S2P Require Import Prelude Interfaces Fat FatDir FatFile.

Definition MAX_CMD_LEN : Z := 256.
Definition MAX_ARGS : nat := 16.
Definition MAX_HISTORY : Z := 10.

(** Calls of the terminal and of the processor. *)
Inductive action :=
  | Putc (c : Z) | Print (s : list Z) | Clear | SetFg (color : Z) | Copy | Paste
  | Sleep (n : Z) | Reboot | Halt.
(** [cmd_len] and [history_count] are the lengths. *)
Record shell_t := ShellT {
  cmd : list Z; history : list (list Z); history_index : Z; exit_requested : bool; cwd : list Z;
}.
Definition set_cmd x s := ShellT x (history s) (history_index s) (exit_requested s) (cwd s).
Definition set_history x i s := ShellT (cmd s) x i (exit_requested s) (cwd s).
Definition set_exit s := ShellT (cmd s) (history s) (history_index s) true (cwd s).
Definition set_cwd x s := ShellT (cmd s) (history s) (history_index s) (exit_requested s) x.

Record sys := Sys {
  ticks : Z; uptime_seconds : Z; pmm_total_pages : Z; pmm_free_pages : Z; pmm_used_pages : Z;
  heap_allocated : Z; heap_freed : Z; heap_blocks : Z; cpu_vendor : list Z;
  ip : Z; netmask : Z; gateway : Z; dns_server : Z;
}.

(** ** Paths *)
Fixpoint upto (d : Z) (s : list Z) : list Z :=
  match s with [] => [] | c :: s => if c =? d then [] else c :: upto d s end.
Definition or_root (cwd : list Z) : list Z := match cwd with [] => [47] | _ => cwd end.
Definition str_copy_limit (src : list Z) (max : Z) : list Z := take (Z.to_nat (max - 1)) src.

(** [temp]: the path from the root, in 256 bytes. *)
Definition absolute (cwd inp : list Z) : list Z :=
  if bool_decide (head inp = Some 47) then take 255 inp
  else
    let t := take 254 (or_root cwd) in
    let t := if bool_decide (t = [] \/ last t <> Some 47) then t ++ [47] else t in
    t ++ take (255 - length t) inp.
(** The loop over the segments: [out], and the stack [seg_pos] with its top first. *)
Fixpoint resolve_loop (fuel : nat) (p out : list Z) (seg_pos : list nat) (max : Z) : res (list Z) :=
  match p with
  | [] => Ret out
  | _ =>
      match fuel with
      | O => Spin
      | S fuel =>
          let seg := upto 47 p in
          let p := drop (length seg + 1) p in
          if bool_decide (seg = [] \/ seg = [46]) then resolve_loop fuel p out seg_pos max else
          if bool_decide (seg = [46; 46]) then
            match seg_pos with
            | [] => resolve_loop fuel p out [] max
            | pos :: seg_pos => resolve_loop fuel p (take pos out) seg_pos max
            end
          else
            let out := if (1 <? Z.of_nat (length out)) && (Z.of_nat (length out) <? max - 1) then out ++ [47] else out in
            let seg_pos := if (length seg_pos <? 32)%nat then length out :: seg_pos else seg_pos in
            resolve_loop fuel p (out ++ take (Z.to_nat (max - 1 - Z.of_nat (length out))) seg) seg_pos max
      end
  end.
Definition resolve_path (cwd inp : list Z) (max : Z) : res (list Z) :=
  match inp with
  | [] => Ret (str_copy_limit (or_root cwd) max)
  | _ =>
      let temp := absolute cwd inp in
      let p := match temp with c :: q => if c =? 47 then q else temp | [] => [] end in
      out ← resolve_loop (length p) p [47] [] max;
      Ret (match out with [] => [47] | _ => out end)
  end.

(** [while (i > 0 && test(path[i])) i--] *)
Fixpoint back (i : nat) (test : Z -> bool) (path : list Z) : nat :=
  match i with O => O | S j => if test (byte_at path (Z.of_nat i)) then back j test path else i end.
Definition dirname_from (path : list Z) (max : Z) : list Z :=
  match path with
  | [] => str_copy_limit [47] max
  | _ =>
      let i := back (length path - 1) (fun c => c =? 47) path in
      match back i (fun c => negb (c =? 47)) path with
      | O => [47]
      | i => take (if max <=? Z.of_nat i then Z.to_nat (max - 1) else i) path
      end
  end.
(** [while (i > 0 && path[i - 1] != '/') i--] *)
Fixpoint back_before (i : nat) (path : list Z) : nat :=
  match i with O => O | S j => if negb (byte_at path (Z.of_nat j) =? 47) then back_before j path else i end.
Definition basename_from (path : list Z) (max : Z) : list Z :=
  match path with
  | [] => []
  | _ =>
      let i := back (length path - 1) (fun c => c =? 47) path in
      let b := back_before i path in
      let blen := (i + 1 - b)%nat in
      take (if max <=? Z.of_nat blen then Z.to_nat (max - 1) else blen) (drop b path)
  end.

(** ** Strings *)
Fixpoint join_loop (args : list (list Z)) (max : Z) (out : list Z) : list Z :=
  match args with
  | [] => out
  | s :: args =>
      let out := out ++ take (Z.to_nat (max - 1 - Z.of_nat (length out))) s in
      let out := match args with
                 | [] => out
                 | _ => if Z.of_nat (length out) <? max - 1 then out ++ [32] else out
                 end in
      join_loop args max out
  end.
(** [join_args(out, max, args, start, argc)] *)
Definition join_args (max : Z) (args : list (list Z)) (start : nat) : list Z := join_loop (drop start args) max [].
(** An indeterminate byte is a read of uninitialised memory. *)
Fixpoint memcmp_local (a b : list (option Z)) : res Z :=
  match a, b with
  | Some x :: a, Some y :: b => if x =? y then memcmp_local a b else Ret (x - y)
  | [], _ => Ret 0
  | _, _ => Fault
  end.
(** How many characters of [needle] stand at the front of [hay]. *)
Fixpoint common (needle hay : list Z) : nat :=
  match needle, hay with
  | c :: needle, d :: hay => if c =? d then S (common needle hay) else O
  | _, _ => O
  end.
Fixpoint strstr_loop (hay needle : list Z) : option (list Z) :=
  match hay with
  | [] => None
  | _ :: q => if (common needle hay =? length needle)%nat then Some hay else strstr_loop q needle
  end.
Definition strstr_local (hay needle : list Z) : option (list Z) := match needle with [] => Some hay | _ => strstr_loop hay needle end.
Definition is_space (c : Z) : bool := (c =? 32) || (c =? 9) || (c =? 13) || (c =? 10).
Definition is_digit (c : Z) : bool := (48 <=? c) && (c <=? 57).
(** The digits of a text as a number of the given width; other characters are skipped. *)
Definition digits (wrap : Z -> Z) (q : list Z) : Z :=
  fold_left (fun v c => if is_digit c then wrap (v * 10 + (c - 48)) else v) q 0.
Fixpoint int_digits (q : list Z) (n : Z) : res Z :=
  match q with
  | [] => Ret n
  | c :: q => if is_digit c then n ← int_ok (n * 10); n ← int_ok (n + (c - 48)); int_digits q n else int_digits q n
  end.
(** The string that starts a buffer. *)
Fixpoint text_of (data : list (option Z)) : res (list Z) :=
  match data with
  | Some c :: data => if c =? 0 then Ret [] else s ← text_of data; Ret (c :: s)
  | _ => Fault
  end.

(** ** Numbers *)
Fixpoint dec_digits (fuel : nat) (n : Z) (buf : list Z) : list Z :=
  match fuel with
  | O => buf
  | S fuel => if 0 <? n then dec_digits fuel (n / 10) (48 + n mod 10 :: buf) else buf
  end.
Definition hex_digit (d : Z) : Z := if d <? 10 then 48 + d else 97 + d - 10.
Fixpoint hex_digits (n : nat) (v : Z) (buf : list Z) : list Z :=
  match n with O => buf | S n => hex_digits n (Z.shiftr v 4) (hex_digit (Z.land v 0xF) :: buf) end.

(** ** The state the shell works on *)
Section Code.
Context {D : Type} `{!BlockDev D} {A : Type} `{!Allocator A}.

Record world := World { files : fstate D * A; out : list action; sh : shell_t; seed : Z }.
Definition Sh := st world.
Definition get_sh : Sh shell_t := fun w => Ret (sh w, w).
Definition put_sh (x : shell_t) : Sh () := fun w => Ret ((), World (files w) (out w) x (seed w)).
Definition emit (a : action) : Sh () := fun w => Ret ((), World (files w) (out w ++ [a]) (sh w) (seed w)).
Definition on_files {R} (m : st (fstate D * A) R) : Sh R := fun w => '(r, f) ← m (files w); Ret (r, World f (out w) (sh w) (seed w)).
Definition terminal_putc (c : Z) : Sh () := emit (Putc c).
Definition terminal_print (s : list Z) : Sh () := emit (Print s).
Fixpoint each {R} (f : R -> Sh ()) (l : list R) : Sh () := match l with [] => mret () | x :: l => _ ← f x; each f l end.

Definition print_hex (n : Z) : Sh () := _ ← terminal_print (txt "0x"); terminal_print (hex_digits 16 n []).
Definition print_dec (n : Z) : Sh () := if n =? 0 then terminal_putc 48 else terminal_print (dec_digits 20 n []).
Definition print_hex_byte (v : Z) : Sh () :=
  terminal_print [hex_digit (Z.land (Z.shiftr v 4) 0xF); hex_digit (Z.land v 0xF)].
Definition print_ip (ip : Z) : Sh () :=
  if ip =? 0 then terminal_print (txt "0.0.0.0") else
  _ ← print_dec (u8 ip); _ ← terminal_putc 46; _ ← print_dec (u8 (Z.shiftr ip 8)); _ ← terminal_putc 46;
  _ ← print_dec (u8 (Z.shiftr ip 16)); _ ← terminal_putc 46; print_dec (u8 (Z.shiftr ip 24)).

Definition shell_prompt : Sh () :=
  s ← get_sh; _ ← terminal_print (txt "fusion"); _ ← terminal_print (or_root (cwd s)); terminal_print (txt "> ").
Definition shell_redraw_line : Sh () :=
  _ ← terminal_putc 10; _ ← shell_prompt; s ← get_sh; terminal_print (cmd s).
(** A path as the shell resolves it, into 256 bytes. *)
Definition resolve (inp : list Z) : Sh (list Z) := s ← get_sh; st_lift (resolve_path (cwd s) inp 256).
End Code.
