(* ===== verification/ShellCommands.v ===== *)
(** * The shell's commands ([src/src/apps/shell.c]: [execute_command])

    One definition per branch of the chain, in the order of the file.  [args] is [argv]; what
    is written to the terminal is the world's [out]. *)
From S2P Require Import Prelude Interfaces Fat FatDir FatFile Shell.

Definition PIT_HZ : Z := 60.
Definition HEAP_SIZE : Z := 32 * 1024 * 1024.
Definition arg (args : list (list Z)) (i : nat) : list Z := default [] (args !! i).

(** *** The words of a line: at most sixteen, between spaces *)
Fixpoint skip_spaces (p : list Z) : list Z := match p with c :: q => if c =? 32 then skip_spaces q else p | [] => [] end.
Fixpoint tokens (argc : nat) (p : list Z) : list (list Z) :=
  match argc, skip_spaces p with
  | O, _ | _, [] => []
  | S argc, p => let w := upto 32 p in w :: tokens argc (drop (length w + 1) p)
  end.

Section Code.
Context {D : Type} `{!BlockDev D} {A : Type} `{!Allocator A}.
Abbreviation Sh := (Sh (D:=D) (A:=A)).

Definition print_line (s : list Z) : Sh () := _ ← terminal_print s; terminal_putc 10.

Definition help_lines : list (list Z) := Eval vm_compute in
  (fun l => txt l ++ [10]) <$>
    ["Available commands:"; "  clear/cls, echo, uname/version, whoami"; "  meminfo/mem, heapinfo, malloc, cpuinfo";
     "  uptime/time/date, ticks"; "  color, copy, paste, netinfo/ip"; "  ls/dir, pwd, cd, cat/type";
     "  write, append, touch, truncate"; "  mkdir, rmdir, rm/del, cp, mv/rename"; "  stat, exists, size, wc, head, tail";
     "  hexdump/hex, sum, cmp, grep"; "  lower, upper, reverse, len, repeat"; "  sleep, rand, ascii, basename, dirname";
     "  history, reboot, halt, exit"]%string.
Definition cmd_help : Sh () := each terminal_print help_lines.

(** The arguments with a space between two. *)
Fixpoint echo_loop (args : list (list Z)) : Sh () :=
  match args with
  | [] => mret ()
  | s :: args => _ ← terminal_print s; _ ← (match args with [] => mret () | _ => terminal_putc 32 end); echo_loop args
  end.
Definition cmd_echo (args : list (list Z)) : Sh () := _ ← echo_loop (drop 1 args); terminal_putc 10.

(** *** Memory and time *)
Definition labelled (label : list Z) (n : Z) : Sh () := _ ← terminal_print label; print_dec n.
Definition cmd_meminfo (x : sys) : Sh () :=
  _ ← terminal_print (txt "Physical Memory Information:" ++ [10]);
  _ ← labelled (txt "  Total Pages: ") (pmm_total_pages x); _ ← labelled (10 :: txt "  Free Pages:  ") (pmm_free_pages x);
  _ ← labelled (10 :: txt "  Used Pages:  ") (pmm_used_pages x); terminal_putc 10.
Definition cmd_heapinfo (x : sys) : Sh () :=
  _ ← terminal_print (txt "Heap Allocator Statistics:" ++ [10]);
  _ ← labelled (txt "  Heap Size:       ") (HEAP_SIZE / 1024); _ ← labelled (txt " KB" ++ 10 :: txt "  Allocated:       ") (heap_allocated x);
  _ ← labelled (txt " bytes" ++ 10 :: txt "  Freed:           ") (heap_freed x);
  _ ← labelled (txt " bytes" ++ 10 :: txt "  Currently Used:  ") (u64 (heap_allocated x - heap_freed x));
  _ ← labelled (txt " bytes" ++ 10 :: txt "  Active Blocks:   ") (heap_blocks x); terminal_putc 10.
Definition cmd_mem (x : sys) : Sh () :=
  _ ← labelled (txt "Total: ") (u64 (pmm_total_pages x * 4096) / 1024); _ ← labelled (txt " KB  Free: ") (u64 (pmm_free_pages x * 4096) / 1024);
  terminal_print (txt " KB" ++ [10]).
Definition cmd_malloc (args : list (list Z)) : Sh () :=
  if (length args <? 2)%nat then terminal_print (txt "Usage: malloc <size>" ++ [10]) else
  let size := digits u64 (arg args 1) in
  ptr ← on_files (h_malloc size);
  match ptr with
  | Some ptr =>
      _ ← labelled (txt "Allocated ") size; _ ← terminal_print (txt " bytes at "); _ ← print_hex ptr;
      _ ← terminal_print (10 :: txt "Memory freed" ++ [10]); on_files (h_free (Some ptr))
  | None => terminal_print (txt "Allocation failed!" ++ [10])
  end.
Definition cmd_uptime (x : sys) : Sh () :=
  let t := uptime_seconds x in
  _ ← labelled (txt "System Uptime: ") (t / 3600); _ ← terminal_print (txt "h "); _ ← print_dec (t mod 3600 / 60); _ ← terminal_print (txt "m ");
  _ ← print_dec (t mod 60); _ ← labelled (txt "s" ++ 10 :: txt "Ticks: ") (ticks x); terminal_putc 10.
Definition cmd_time (x : sys) : Sh () := _ ← labelled (txt "Uptime: ") (uptime_seconds x); terminal_print (txt "s" ++ [10]).
Definition cmd_ticks (x : sys) : Sh () := _ ← print_dec (ticks x); terminal_putc 10.
Definition cmd_cpuinfo (x : sys) : Sh () :=
  _ ← terminal_print (txt "CPU Information:" ++ 10 :: txt "  Vendor: "); print_line (c_str (cpu_vendor x)).

Definition colors : list (list Z * Z) := Eval vm_compute in
  [(txt "white", 0xFFFFFF); (txt "red", 0xFF0000); (txt "green", 0x00FF00); (txt "blue", 0x0000FF); (txt "cyan", 0x00FFFF);
   (txt "yellow", 0xFFFF00); (txt "magenta", 0xFF00FF); (txt "orange", 0xFF8800); (txt "pink", 0xFF69B4); (txt "lime", 0x00FF80);
   (txt "gray", 0xAAAAAA); (txt "reset", 0xE6E6E6)].
Fixpoint color_named (name : list Z) (l : list (list Z * Z)) : option Z :=
  match l with [] => None | (n, c) :: l => if str_eqb name n then Some c else color_named name l end.
Definition cmd_color (args : list (list Z)) : Sh () :=
  if (length args <? 2)%nat
  then terminal_print (txt "Usage: color <white|red|green|blue|cyan|yellow|magenta|orange|pink|lime|gray|reset>" ++ [10])
  else match color_named (arg args 1) colors with Some c => emit (SetFg c) | None => terminal_print (txt "Unknown color" ++ [10]) end.
Definition cmd_copy : Sh () := _ ← emit Copy; terminal_print (txt "Copied visible text" ++ [10]).
Definition cmd_netinfo (x : sys) : Sh () :=
  _ ← terminal_print (txt "Network:" ++ 10 :: txt "  IP: "); _ ← print_ip (ip x); _ ← terminal_print (10 :: txt "  Netmask: "); _ ← print_ip (netmask x);
  _ ← terminal_print (10 :: txt "  Gateway: "); _ ← print_ip (gateway x); _ ← terminal_print (10 :: txt "  DNS: "); _ ← print_ip (dns_server x);
  terminal_putc 10.

(** *** Directories and files *)
Definition ls_flag (c : Z) (m : fs_sort_mode * bool) : fs_sort_mode * bool :=
  if c =? 115 then (FS_SORT_SIZE, m.2) else if c =? 116 then (FS_SORT_TYPE, m.2) else if c =? 114 then (m.1, true) else m.
Fixpoint ls_args (args : list (list Z)) (path : option (list Z)) (m : fs_sort_mode * bool) : option (list Z) * (fs_sort_mode * bool) :=
  match args with
  | [] => (path, m)
  | (45 :: flags) :: args => ls_args args path (fold_left (fun m c => ls_flag c m) flags m)
  | a :: args => ls_args args (Some a) m
  end.
Definition ls_entry (e : fs_entry) : Sh () :=
  _ ← terminal_print (if negb (e_is_dir e =? 0) then txt "[D] " else txt "    "); print_line (e_name e).
Definition cmd_ls (args : list (list Z)) : Sh () :=
  let '(path, (mode, desc)) := ls_args (drop 1 args) None (FS_SORT_NAME, false) in
  s ← get_sh; resolved ← resolve (default (cwd s) path);
  r ← on_files (on_fs (fs_list_dir resolved 64));
  match r with
  | Some entries => each ls_entry (fs_sort_entries entries mode desc)
  | None => terminal_print (txt "ls: failed" ++ [10])
  end.
Definition cmd_pwd : Sh () := s ← get_sh; print_line (or_root (cwd s)).
Definition cmd_cd (args : list (list Z)) : Sh () :=
  resolved ← resolve (default [47] (args !! 1%nat));
  r ← on_files (on_fs (fs_stat resolved));
  match r with
  | Some e => if negb (e_is_dir e =? 0) then s ← get_sh; put_sh (set_cwd (str_copy_limit resolved 128) s)
              else terminal_print (txt "cd: not a directory" ++ [10])
  | None => terminal_print (txt "cd: not a directory" ++ [10])
  end.

(** [Usage] when there are too few arguments. *)
Definition needs (n : nat) (args : list (list Z)) (usage : list Z) (m : Sh ()) : Sh () :=
  if (length args <? n)%nat then terminal_print (usage ++ [10]) else m.
(** Read a file, do something with the buffer, free it. *)
Definition with_file (path : list Z) (failed : list Z) (f : list (option Z) -> Z -> Sh ()) : Sh () :=
  resolved ← resolve path;
  r ← on_files (fs_read_file resolved);
  match r with
  | Some (p, data, len) => _ ← f data len; on_files (h_free (Some p))
  | None => terminal_print (failed ++ [10])
  end.
(** [data[0 .. len - 1]] *)
Definition bytes (data : list (option Z)) (len : Z) : Sh (list Z) := st_lift (determinate (take (Z.to_nat len) data)).
Definition report (name : list Z) (ok : bool) : Sh () := terminal_print (name ++ (if ok then txt ": ok" else txt ": failed") ++ [10]).

Definition cmd_cat (name : list Z) (args : list (list Z)) : Sh () :=
  needs 2 args (txt "Usage: " ++ name ++ txt " <path>")
    (with_file (arg args 1) (name ++ txt ": failed") (fun data _ => s ← st_lift (text_of data); print_line s)).
Definition cmd_write (name : list Z) (append : bool) (args : list (list Z)) : Sh () :=
  needs 3 args (txt "Usage: " ++ name ++ txt " <path> <text>")
    (resolved ← resolve (arg args 1);
     let text := join_args 192 args 2 in
     ok ← on_files (on_fs (if append then fs_append_file resolved text else fs_write_file resolved text)); report name ok).
(** [touch] and [truncate] *)
Definition cmd_empty (name : list Z) (args : list (list Z)) : Sh () :=
  needs 2 args (txt "Usage: " ++ name ++ txt " <path>")
    (resolved ← resolve (arg args 1); ok ← on_files (on_fs (fs_write_file resolved [])); report name ok).
Definition cmd_mkdir (args : list (list Z)) : Sh () :=
  needs 2 args (txt "Usage: mkdir <path>") (resolved ← resolve (arg args 1); ok ← on_files (on_fs (fs_mkdir resolved)); report (txt "mkdir") ok).
(** [rmdir], [rm] and [del] *)
Definition cmd_rm (name : list Z) (args : list (list Z)) : Sh () :=
  needs 2 args (txt "Usage: " ++ name ++ txt " <path>")
    (resolved ← resolve (arg args 1); ok ← on_files (on_fs (fs_delete resolved)); report name ok).
(** [cp], [mv] and [rename] *)
Definition cmd_cp (name : list Z) (move : bool) (args : list (list Z)) : Sh () :=
  needs 3 args (txt "Usage: " ++ name ++ txt " <src> <dst>")
    (src ← resolve (arg args 1); dst ← resolve (arg args 2);
     ok ← on_files (if move then fs_move src dst else fs_copy src dst); report name ok).
Definition cmd_stat (args : list (list Z)) : Sh () :=
  needs 2 args (txt "Usage: stat <path>")
    (resolved ← resolve (arg args 1); r ← on_files (on_fs (fs_stat resolved));
     match r with
     | Some e =>
         _ ← terminal_print ((if negb (e_is_dir e =? 0) then txt "Directory" else txt "File") ++ [10]);
         _ ← terminal_print (txt "Name: "); _ ← terminal_print (e_name e);
         _ ← labelled (10 :: txt "Size: ") (e_size e); terminal_print (txt " bytes" ++ [10])
     | None => terminal_print (txt "stat: failed" ++ [10])
     end).
Definition cmd_exists (args : list (list Z)) : Sh () :=
  needs 2 args (txt "Usage: exists <path>")
    (resolved ← resolve (arg args 1); ok ← on_files (on_fs (fs_exists resolved)); terminal_print ((if ok : bool then txt "yes" else txt "no") ++ [10])).
Definition cmd_size (args : list (list Z)) : Sh () :=
  needs 2 args (txt "Usage: size <path>")
    (resolved ← resolve (arg args 1); r ← on_files (on_fs (fs_stat resolved));
     match r with
     | Some e => if e_is_dir e =? 0 then _ ← print_dec (e_size e); terminal_putc 10 else terminal_print (txt "size: failed" ++ [10])
     | None => terminal_print (txt "size: failed" ++ [10])
     end).
End Code.

Section Contents.
Context {D : Type} `{!BlockDev D} {A : Type} `{!Allocator A}.
Abbreviation Sh := (Sh (D:=D) (A:=A)).

(** *** What is in a file *)
(** [wc]: lines, words and whether a word has begun. *)
Definition wc_step (a : Z * Z * bool) (c : Z) : Z * Z * bool :=
  let '(lines, words, in_word) := a in
  let lines := if c =? 10 then u32 (lines + 1) else lines in
  if is_space c then (lines, words, false) else if in_word : bool then (lines, words, true) else (lines, u32 (words + 1), true).
Definition cmd_wc (args : list (list Z)) : Sh () :=
  needs 2 args (txt "Usage: wc <path>")
    (with_file (arg args 1) (txt "wc: failed") (fun data len =>
       b ← bytes data len;
       let '(lines, words, _) := fold_left wc_step b (0, 0, false) in
       _ ← print_dec lines; _ ← labelled (txt " ") words; _ ← labelled (txt " ") len; terminal_putc 10)).

(** [head]: characters are written until [n] line feeds have been. *)
Fixpoint head_loop (b : list Z) (lines n : Z) : Sh Z :=
  match b with
  | [] => mret lines
  | c :: b =>
      if negb (lines <? n) then mret lines else
      _ ← terminal_putc c; head_loop b (if c =? 10 then u32 (lines + 1) else lines) n
  end.
Fixpoint count_lines (b : list Z) (n : Z) : res Z :=
  match b with [] => Ret n | c :: b => n ← (if c =? 10 then int_ok (n + 1) else Ret n); count_lines b n end.
Fixpoint tail_loop (b : list Z) (line start : Z) : Sh () :=
  match b with
  | [] => mret ()
  | c :: b =>
      _ ← (if start <=? line then terminal_putc c else mret ());
      line ← st_lift (if c =? 10 then int_ok (line + 1) else Ret line); tail_loop b line start
  end.
Definition line_count (args : list (list Z)) : res Z :=
  if (length args <? 3)%nat then Ret 10 else n ← int_digits (arg args 2) 0; Ret (if n <=? 0 then 10 else n).
Definition cmd_head_tail (head : bool) (args : list (list Z)) : Sh () :=
  needs 2 args (txt "Usage: head/tail <path> [n]")
    (n ← st_lift (line_count args);
     with_file (arg args 1) (txt "head/tail: failed") (fun data len =>
       b ← bytes data len;
       if head then lines ← head_loop b 0 n; if lines =? 0 then terminal_putc 10 else mret ()
       else count ← st_lift (count_lines b 0); start ← st_lift (int_ok (count - n));
            _ ← tail_loop b 0 (if start <? 0 then 0 else start); terminal_putc 10)).

(** [hexdump]: a row has its offset and sixteen bytes. *)
Fixpoint dump_row (n : nat) (b : list Z) : Sh () :=
  match n with
  | O => terminal_putc 10
  | S n =>
      match b with
      | c :: b => _ ← print_hex_byte c; _ ← terminal_putc 32; dump_row n b
      | [] => _ ← terminal_print (txt "   "); dump_row n []
      end
  end.
Fixpoint dump_loop (fuel : nat) (i : Z) (b : list Z) : Sh () :=
  match b with
  | [] => mret ()
  | _ =>
      match fuel with
      | O => st_spin
      | S fuel => _ ← print_hex i; _ ← terminal_print (txt ": "); _ ← dump_row 16 b; dump_loop fuel (u32 (i + 16)) (drop 16 b)
      end
  end.
Definition cmd_hexdump (args : list (list Z)) : Sh () :=
  needs 2 args (txt "Usage: hexdump <path>")
    (with_file (arg args 1) (txt "hexdump: failed") (fun data len => b ← bytes data len; dump_loop (length b) 0 b)).
Definition cmd_sum (args : list (list Z)) : Sh () :=
  needs 2 args (txt "Usage: sum <path>")
    (with_file (arg args 1) (txt "sum: failed") (fun data len =>
       b ← bytes data len; _ ← print_dec (fold_left (fun s c => u32 (s + c)) b 0); terminal_putc 10)).
Definition cmd_cmp (args : list (list Z)) : Sh () :=
  needs 3 args (txt "Usage: cmp <a> <b>")
    (a ← resolve (arg args 1); b ← resolve (arg args 2);
     ra ← on_files (fs_read_file a);
     match ra with
     | None => terminal_print (txt "cmp: failed" ++ [10])
     | Some (pa, da, la) =>
         rb ← on_files (fs_read_file b);
         match rb with
         | None => _ ← terminal_print (txt "cmp: failed" ++ [10]); on_files (h_free (Some pa))
         | Some (pb, db, lb) =>
             same ← (if la =? lb then d ← st_lift (memcmp_local (take (Z.to_nat la) da) (take (Z.to_nat la) db)); mret (d =? 0) else mret false : Sh bool);
             _ ← terminal_print ((if same : bool then txt "equal" else txt "different") ++ [10]);
             _ ← on_files (h_free (Some pa)); on_files (h_free (Some pb))
         end
     end).
(** [grep]: [line] is the text since the last line feed; a line ends at its first NUL. *)
Definition grep_line (needle line : list Z) : Sh () :=
  let l := c_str line in if bool_decide (is_Some (strstr_local l needle)) then print_line l else mret ().
Fixpoint grep_loop (b : list Z) (needle line : list Z) : Sh () :=
  match b with
  | [] => grep_line needle line
  | c :: b => if c =? 10 then _ ← grep_line needle line; grep_loop b needle [] else grep_loop b needle (line ++ [c])
  end.
Definition cmd_grep (args : list (list Z)) : Sh () :=
  needs 3 args (txt "Usage: grep <text> <path>")
    (with_file (arg args 2) (txt "grep: failed") (fun data len => b ← bytes data len; grep_loop b (arg args 1) [])).

(** *** Text, numbers, the rest *)
Definition upper_char (c : Z) : Z := if (97 <=? c) && (c <=? 122) then c - 97 + 65 else c.
Definition lower_char (c : Z) : Z := if (65 <=? c) && (c <=? 90) then c - 65 + 97 else c.
Definition text_usage : list Z := Eval vm_compute in txt "Usage: lower/upper/reverse/len/repeat <text> [n]".
Definition cmd_len (args : list (list Z)) : Sh () :=
  needs 2 args text_usage (_ ← print_dec (Z.of_nat (length (join_args 192 args 1))); terminal_putc 10).
Definition cmd_chars (f : list Z -> list Z) (args : list (list Z)) : Sh () :=
  needs 2 args text_usage (_ ← each terminal_putc (f (join_args 192 args 1)); terminal_putc 10).
Fixpoint repeat_loop (n : nat) (s : list Z) : Sh () := match n with O => mret () | S n => _ ← print_line s; repeat_loop n s end.
Definition cmd_repeat (args : list (list Z)) : Sh () :=
  needs 2 args text_usage
    (if (length args <? 3)%nat then repeat_loop 2 (join_args 192 args 1)
     else count ← st_lift (int_digits (default [] (last args)) 0);
          repeat_loop (if count <=? 0 then 2 else Z.to_nat count) (join_args 192 (removelast args) 1)).
Definition cmd_sleep (args : list (list Z)) : Sh () :=
  needs 2 args (txt "Usage: sleep <seconds>")
    (let secs := digits u64 (arg args 1) in emit (Sleep (u64 ((if secs =? 0 then 1 else secs) * PIT_HZ)))).
Definition next_seed (x : sys) (seed : Z) : Z := u32 ((if seed =? 0 then u32 (ticks x) else seed) * 1103515245 + 12345).
Definition cmd_rand (x : sys) (args : list (list Z)) : Sh () :=
  val ← (fun w => let s := next_seed x (seed w) in Ret (s, World (files w) (out w) (sh w) s));
  let m := match args !! 1%nat with Some q => digits u32 q | None => 0 end in
  _ ← print_dec (if negb (m =? 0) then val mod m else val); terminal_putc 10.
Definition cmd_ascii : Sh () :=
  _ ← each (fun c => _ ← terminal_putc c; if (c - 31) mod 16 =? 0 then terminal_putc 10 else mret ()) (Z.of_nat <$> seq 32 95); terminal_putc 10.
Definition cmd_path (name : list Z) (f : list Z -> Z -> list Z) (args : list (list Z)) : Sh () :=
  needs 2 args (txt "Usage: " ++ name ++ txt " <path>") (print_line (f (arg args 1) 128)).
Fixpoint history_loop (l : list (list Z)) (i : Z) : Sh () :=
  match l with [] => mret () | s :: l => _ ← print_dec i; _ ← terminal_print (txt ": "); _ ← print_line s; history_loop l (i + 1) end.
Definition cmd_history : Sh () := s ← get_sh; history_loop (history s) 0.
Definition cmd_exit : Sh () := _ ← terminal_print (txt "Closing terminal..." ++ [10]); s ← get_sh; put_sh (set_exit s).
Definition cmd_unknown (name : list Z) : Sh () :=
  _ ← terminal_print (txt "Unknown command: "); _ ← terminal_print name; terminal_print (10 :: txt "Type 'help' for available commands" ++ [10]).
End Contents.
