(* ===== verification/ShellKeys.v ===== *)
(** * The shell: running a line, the keys ([src/src/apps/shell.c]: [execute_command],
    [shell_autocomplete], [shell_init], [shell_handle_key]) *)
From S2P Require Import Prelude Interfaces Fat FatDir FatFile Input Shell ShellCommands.

Definition shell_commands : list (list Z) := Eval vm_compute in
  txt <$> ["help"; "clear"; "cls"; "echo"; "uname"; "version"; "whoami"; "meminfo"; "mem"; "heapinfo"; "malloc"; "uptime"; "time"; "date";
    "ticks"; "cpuinfo"; "color"; "copy"; "paste"; "netinfo"; "ip"; "ls"; "dir"; "pwd"; "cd"; "cat"; "type"; "write"; "append"; "touch";
    "truncate"; "mkdir"; "rmdir"; "cp"; "mv"; "rm"; "del"; "rename"; "stat"; "exists"; "size"; "wc"; "head"; "tail"; "hexdump"; "hex"; "sum";
    "cmp"; "grep"; "lower"; "upper"; "reverse"; "len"; "repeat"; "sleep"; "rand"; "ascii"; "basename"; "dirname"; "history"; "reboot";
    "halt"; "exit"]%string.

Fixpoint is_prefix (p s : list Z) : bool :=
  match p, s with
  | [], _ => true
  | c :: p, d :: s => (c =? d) && is_prefix p s
  | _, [] => false
  end.
(** The commands that begin with [prefix]: how many, the first, and the length [lcp_len]
    of what they have in common with it. *)
Fixpoint match_loop (l : list (list Z)) (prefix : list Z) (matches : Z) (first : list Z) (lcp_len : nat) : Z * list Z * nat :=
  match l with
  | [] => (matches, first, lcp_len)
  | c :: l =>
      if is_prefix prefix c then
        if matches =? 0 then match_loop l prefix (matches + 1) c (length c)
        else match_loop l prefix (matches + 1) first (common (take lcp_len first) c)
      else match_loop l prefix matches first lcp_len
  end.

(** The chain of [strcmp]s. *)
Definition named (name : list Z) (l : list (list Z)) : bool := existsb (str_eqb name) l.

Section Code.
Context {D : Type} `{!BlockDev D} {A : Type} `{!Allocator A}.
Abbreviation Sh := (Sh (D:=D) (A:=A)).

Definition run_file (x : sys) (name : list Z) (args : list (list Z)) : Sh () :=
  if named name [txt "ls"; txt "dir"] then cmd_ls args
  else if named name [txt "pwd"] then cmd_pwd
  else if named name [txt "cd"] then cmd_cd args
  else if named name [txt "cat"; txt "type"] then cmd_cat name args
  else if named name [txt "write"] then cmd_write name false args
  else if named name [txt "append"] then cmd_write name true args
  else if named name [txt "touch"; txt "truncate"] then cmd_empty name args
  else if named name [txt "mkdir"] then cmd_mkdir args
  else if named name [txt "rmdir"] then cmd_rm name args
  else if named name [txt "cp"] then cmd_cp name false args
  else if named name [txt "mv"; txt "rename"] then cmd_cp (txt "mv") true args
  else if named name [txt "rm"; txt "del"] then cmd_rm (txt "rm") args
  else if named name [txt "stat"] then cmd_stat args
  else if named name [txt "exists"] then cmd_exists args
  else if named name [txt "size"] then cmd_size args
  else if named name [txt "wc"] then cmd_wc args
  else if named name [txt "head"; txt "tail"] then cmd_head_tail (str_eqb name (txt "head")) args
  else if named name [txt "hexdump"; txt "hex"] then cmd_hexdump args
  else if named name [txt "sum"] then cmd_sum args
  else if named name [txt "cmp"] then cmd_cmp args
  else if named name [txt "grep"] then cmd_grep args
  else if named name [txt "len"] then cmd_len args
  else if named name [txt "reverse"] then cmd_chars (@rev Z) args
  else if named name [txt "upper"] then cmd_chars (map upper_char) args
  else if named name [txt "lower"] then cmd_chars (map lower_char) args
  else if named name [txt "repeat"] then cmd_repeat args
  else if named name [txt "sleep"] then cmd_sleep args
  else if named name [txt "rand"] then cmd_rand x args
  else if named name [txt "ascii"] then cmd_ascii
  else if named name [txt "basename"] then cmd_path name basename_from args
  else if named name [txt "dirname"] then cmd_path name dirname_from args
  else if named name [txt "history"] then cmd_history
  else if named name [txt "reboot"] then _ ← terminal_print (txt "Rebooting..." ++ [10]); emit Reboot
  else if named name [txt "halt"] then _ ← terminal_print (txt "System halted." ++ [10]); emit Halt
  else if named name [txt "exit"] then cmd_exit
  else cmd_unknown name.

Definition execute_command (x : sys) (line : list Z) : Sh () :=
  match tokens MAX_ARGS line with
  | [] => mret ()
  | (name :: _) as args =>
      if named name [txt "help"] then cmd_help
      else if named name [txt "clear"; txt "cls"] then emit Clear
      else if named name [txt "echo"] then cmd_echo args
      else if named name [txt "uname"] then terminal_print (txt "Fusion OS v1.0 x86_64" ++ [10])
      else if named name [txt "version"] then terminal_print (txt "Fusion OS v1.0" ++ [10])
      else if named name [txt "whoami"] then terminal_print (txt "root" ++ [10])
      else if named name [txt "meminfo"] then cmd_meminfo x
      else if named name [txt "heapinfo"] then cmd_heapinfo x
      else if named name [txt "mem"] then cmd_mem x
      else if named name [txt "malloc"] then cmd_malloc args
      else if named name [txt "uptime"] then cmd_uptime x
      else if named name [txt "time"; txt "date"] then cmd_time x
      else if named name [txt "ticks"] then cmd_ticks x
      else if named name [txt "cpuinfo"] then cmd_cpuinfo x
      else if named name [txt "color"] then cmd_color args
      else if named name [txt "copy"] then cmd_copy
      else if named name [txt "paste"] then emit Paste
      else if named name [txt "netinfo"; txt "ip"] then cmd_netinfo x
      else run_file x name args
  end.

(** *** The line *)
(** Append characters to the command and show them, while there is room. *)
Fixpoint type_chars (l : list Z) : Sh () :=
  match l with
  | [] => mret ()
  | c :: l =>
      s ← get_sh;
      if Z.of_nat (length (cmd s)) <? MAX_CMD_LEN - 1 then _ ← put_sh (set_cmd (cmd s ++ [c]) s); _ ← terminal_putc c; type_chars l
      else mret ()
  end.
Definition shell_autocomplete : Sh () :=
  s ← get_sh;
  if bool_decide (32 ∈ cmd s) then mret () else
  let prefix := cmd s in
  let '(matches, first, lcp_len) := match_loop shell_commands prefix 0 [] 0 in
  if matches =? 0 then mret () else
  if matches =? 1 then type_chars (drop (length prefix) first) else
  if (length prefix <? lcp_len)%nat then type_chars (drop (length prefix) (take lcp_len first)) else
  _ ← terminal_putc 10;
  _ ← each (fun c => if is_prefix prefix c then print_line c else mret ()) shell_commands;
  shell_redraw_line.
Definition shell_init : Sh () :=
  _ ← put_sh (ShellT [] [] 0 false [47]);
  _ ← terminal_print (txt "Welcome to Fusion OS" ++ 10 :: txt "Type 'help' for available commands" ++ [10; 10]);
  shell_prompt.
Definition shell_set_command (line : list Z) : Sh () :=
  s ← get_sh; _ ← put_sh (set_cmd [] s); _ ← terminal_print [10]; _ ← shell_prompt; type_chars line.

Definition shell_handle_key (x : sys) (event : key_event) : Sh () :=
  if negb (pressed event) then mret () else
  if ascii event =? 9 then shell_autocomplete else
  s ← get_sh;
  let count := Z.of_nat (length (history s)) in
  match key event with
  | KEY_UP =>
      if (0 <? count) && (0 <? history_index s) then
        let i := history_index s - 1 in
        _ ← put_sh (set_history (history s) i s);
        line ← st_lift (zget (history s) i); shell_set_command line
      else mret ()
  | KEY_DOWN =>
      if history_index s + 1 <? count then
        let i := history_index s + 1 in
        _ ← put_sh (set_history (history s) i s);
        line ← st_lift (zget (history s) i); shell_set_command line
      else mret ()
  | KEY_BACKSPACE =>
      match cmd s with [] => mret () | _ => _ ← put_sh (set_cmd (removelast (cmd s)) s); terminal_putc 8 end
  | KEY_ENTER =>
      _ ← terminal_putc 10;
      let h := if (0 <? Z.of_nat (length (cmd s))) && (count <? MAX_HISTORY) then history s ++ [cmd s] else history s in
      _ ← put_sh (set_history h (Z.of_nat (length h)) s);
      _ ← execute_command x (cmd s);
      s ← get_sh;
      if exit_requested s then mret () else _ ← put_sh (set_cmd [] s); shell_prompt
  | _ => if negb (ascii event =? 0) then type_chars [ascii event] else mret ()
  end.
Definition shell_should_exit (s : shell_t) : bool := exit_requested s.
End Code.
