(* ===== verification/ShellProps.v ===== *)
(** * The shell: paths, completion, the line that is edited *)
From S2P Require Import Prelude Interfaces Fat FatDir FatFile Shell ShellCommands ShellKeys.

(** ** Components *)
(** The parts between slashes that are not empty; [cur] is the part read so far. *)
Fixpoint split_path (cur s : list Z) : list (list Z) :=
  match s with
  | [] => match cur with [] => [] | _ => [cur] end
  | c :: s => if c =? 47 then match cur with [] => split_path [] s | _ => cur :: split_path [] s end else split_path (cur ++ [c]) s
  end.
Definition components (s : list Z) : list (list Z) := split_path [] s.
(** The stack of directories after a walk, the last one first. *)
Definition enter (stack : list (list Z)) (seg : list Z) : list (list Z) :=
  if bool_decide (seg = [46]) then stack else if bool_decide (seg = [46; 46]) then tail stack else seg :: stack.
Definition walk (segs : list (list Z)) (stack : list (list Z)) : list (list Z) := fold_left enter segs stack.
Definition canonical (segs : list (list Z)) : list (list Z) := reverse (walk segs []).

Definition no_slash (s : list Z) : Prop := Forall (fun c => c <> 47) s.

Lemma split_seg cur seg p : no_slash seg -> split_path cur (seg ++ p) = split_path (cur ++ seg) p.
Proof.
  intros H. revert cur. induction H as [|c seg Hc _ IH]; intros cur; cbn [app]; [by rewrite app_nil_r |].
  cbn [split_path]. rewrite (proj2 (Z.eqb_neq c 47) Hc), IH, <- app_assoc. done.
Qed.
Lemma split_slash cur p : split_path cur (47 :: p) = match cur with [] => components p | _ => cur :: components p end.
Proof. done. Qed.
(** Cutting a path at a slash cuts its components. *)
Lemma split_app s p cur : split_path cur (s ++ 47 :: p) = split_path cur (s ++ [47]) ++ components p.
Proof.
  revert cur. induction s as [|c s IH]; intros cur; cbn [app]; [rewrite !split_slash; by destruct cur |].
  cbn [split_path]. destruct (c =? 47); [destruct cur |]; rewrite IH; done.
Qed.
Lemma components_slash_end s : forall cur, split_path cur (s ++ [47]) = split_path cur s.
Proof. induction s as [|c s IH]; intros cur; cbn [app split_path]; [by destruct cur |]. destruct (c =? 47); [destruct cur |]; by rewrite IH. Qed.
Lemma components_cut s p : components (s ++ 47 :: p) = components s ++ components p.
Proof. unfold components. by rewrite split_app, components_slash_end. Qed.
Lemma components_push out seg : last out = Some 47 -> no_slash seg -> seg <> [] -> components (out ++ seg) = components out ++ [seg].
Proof.
  intros Hl Hs Hne. destruct (app_removelast_last 0 (l:=out)) as [].
  { intros ->. done. }
  assert (out = removelast out ++ [47]) as Eo.
  { destruct out as [|c out] using rev_ind; [done |]. rewrite last_snoc in Hl. injection Hl as ->. by rewrite removelast_last. }
  rewrite Eo at 1. rewrite <- app_assoc. cbn [app]. rewrite components_cut. rewrite Eo at 2. unfold components at 3. rewrite components_slash_end.
  f_equal. unfold components. rewrite <- (app_nil_r seg) at 1. rewrite split_seg by done. by destruct seg.
Qed.

(** ** The loop: where each segment starts in [out] *)
Inductive rendered : list Z -> list nat -> list (list Z) -> Prop :=
  | r_root : rendered [47] [] []
  | r_slash out pos st : rendered out pos st -> out <> [47] -> rendered (out ++ [47]) pos st
  | r_seg out pos st seg : rendered out pos st -> last out = Some 47 -> seg <> [] -> no_slash seg ->
      rendered (out ++ seg) (length out :: pos) (seg :: st).
Lemma rendered_front out pos st : rendered out pos st -> exists q, out = 47 :: q.
Proof. induction 1 as [|? ? ? _ [q ->]|? ? ? ? _ [q ->]]; eauto. Qed.
Lemma rendered_stack out pos st : rendered out pos st -> length pos = length st.
Proof. induction 1; cbn; lia. Qed.
Lemma rendered_components out pos st : rendered out pos st -> components out = reverse st.
Proof.
  induction 1 as [|out pos st _ IH|out pos st seg _ IH Hl Hne Hs]; [done | |].
  - unfold components. by rewrite components_slash_end.
  - by rewrite components_push, IH, reverse_cons.
Qed.
Lemma rendered_pop out p pos seg st : rendered out (p :: pos) (seg :: st) -> rendered (take p out) pos st /\ (length (take p out) < length out)%nat.
Proof.
  intros H. remember (p :: pos) as ps eqn:Ep. remember (seg :: st) as ss eqn:Es. revert p pos seg st Ep Es.
  induction H as [|out pos' st' H IH|out pos' st' seg' H IH Hl Hne Hs]; intros p pos seg st Ep Es; [done | |].
  - destruct (IH p pos seg st Ep Es) as [H1 H2]. rewrite length_take in H2. rewrite take_app_le by lia. rewrite length_take, length_app. split; [done | lia].
  - injection Ep as <- <-. injection Es as <- <-. rewrite take_app_length. split; [done |]. rewrite length_app. destruct seg'; [done | cbn; lia].
Qed.

(** The next segment of a path. *)
Lemma upto_ok s : no_slash (upto 47 s) /\ (s = upto 47 s \/ s = upto 47 s ++ 47 :: drop (length (upto 47 s) + 1) s).
Proof.
  induction s as [|c s [IH1 IH2]]; [split; [by apply Forall_nil | by left] |]. cbn [upto]. destruct (Z.eqb_spec c 47) as [->|Hc].
  - split; [by apply Forall_nil | right; cbn; by rewrite drop_0].
  - split; [by apply Forall_cons |]. cbn [length app drop Nat.add]. destruct IH2 as [H|H]; [left; by rewrite <- H | right; by rewrite <- H].
Qed.
Lemma components_upto p : p <> [] -> let seg := upto 47 p in
  components p = match seg with [] => [] | _ => [seg] end ++ components (drop (length seg + 1) p) /\
  (length (drop (length seg + 1) p) < length p)%nat /\ (drop (length seg + 1) p = [] \/ length p = (length seg + 1 + length (drop (length seg + 1) p))%nat) /\ (length seg <= length p)%nat.
Proof.
  intros Hp. destruct (upto_ok p) as [Hs Hp']. cbn zeta. set (seg := upto 47 p) in *. clearbody seg. pose proof (length_drop p (length seg + 1)) as Hd.
  destruct Hp' as [->|E].
  - assert (drop (length seg + 1) seg = []) as Ed by (apply drop_ge; lia). rewrite Ed in *. split.
    + rewrite app_nil_r. unfold components. rewrite <- (app_nil_r seg) at 1. rewrite split_seg by done. by destruct seg.
    + destruct seg; [done | cbn in *; split_and!; [lia | by left | lia]].
  - pose proof (f_equal length E) as El. rewrite length_app in El. cbn [length] in El. split; [| lia].
    rewrite E at 1. unfold components at 1. rewrite split_seg by done. by destruct seg.
Qed.

Lemma resolve_loop_ok max : forall fuel p out pos st, rendered out pos st -> (length p <= fuel)%nat ->
  (p <> [] -> (length out + (if bool_decide (out = [47%Z]) then 0 else 1) + length p <= Z.to_nat (max - 1))%nat) ->
  (length st + length (components p) <= 32)%nat ->
  exists out' pos', resolve_loop fuel p out pos max = Ret out' /\ rendered out' pos' (walk (components p) st) /\
    (length out' <= Nat.max (length out) (Z.to_nat (max - 1)))%nat.
Proof.
  induction fuel as [|fuel IH]; intros p out pos st Hr Hf Hlen H32.
  { destruct p; [| cbn in Hf; lia]. exists out, pos. split_and!; [done | done | lia]. }
  destruct (decide (p = [])) as [->|Hp]; [exists out, pos; split_and!; [done | done | lia] |]. specialize (Hlen Hp).
  destruct (components_upto p Hp) as (Ec & Hd & Hd' & Hseg). destruct (upto_ok p) as [Hs _].
  replace (resolve_loop (S fuel) p out pos max) with
    (let seg := upto 47 p in let p := drop (length seg + 1) p in
     if bool_decide (seg = [] \/ seg = [46]) then resolve_loop fuel p out pos max else
     if bool_decide (seg = [46; 46]) then match pos with [] => resolve_loop fuel p out [] max | q :: pos => resolve_loop fuel p (take q out) pos max end
     else let out := if (1 <? Z.of_nat (length out)) && (Z.of_nat (length out) <? max - 1) then out ++ [47] else out in
       let pos := if (length pos <? 32)%nat then length out :: pos else pos in
       resolve_loop fuel p (out ++ take (Z.to_nat (max - 1 - Z.of_nat (length out))) seg) pos max) by (by destruct p).
  cbv zeta. rewrite Ec in H32 |- *. set (q := drop (length (upto 47 p) + 1) p) in *. set (seg := upto 47 p) in *. clearbody seg q. clear Ec.
  assert (q <> [] -> (length out + (if bool_decide (out = [47%Z]) then 0 else 1) + length q <= Z.to_nat (max - 1))%nat) as Hq by lia.
  destruct (bool_decide_reflect (seg = [] \/ seg = [46])) as [Hdot|Hdot].
  { assert (walk (match seg with [] => [] | _ => [seg] end ++ components q) st = walk (components q) st) as -> by (destruct Hdot as [-> | ->]; done).
    apply IH; [done | lia | done | destruct Hdot as [-> | ->]; cbn in H32; lia]. }
  destruct seg as [|c seg]; [by destruct Hdot; left |]. cbn [app walk fold_left] in H32 |- *. unfold enter at 2. rewrite (bool_decide_eq_false_2 (c :: seg = [46])) by tauto.
  destruct (bool_decide_reflect (c :: seg = [46; 46])) as [Hdd|Hdd].
  - pose proof (rendered_stack _ _ _ Hr) as Hst. destruct pos as [|x pos], st as [|s0 st]; try done.
    + cbn [tail]. apply IH; [done | lia | done | cbn in *; lia].
    + destruct (rendered_pop _ _ _ _ _ Hr) as [Hr' Hlt]. cbn [tail]. cbn [length] in H32. destruct (IH q (take x out) pos st Hr') as (o & ps & E & H1 & H2); [lia | | cbn in *; lia |].
      { intros Hne. specialize (Hq Hne). destruct (rendered_front _ _ _ Hr) as [t ->]. destruct (rendered_front _ _ _ Hr') as [t' Et].
        repeat case_bool_decide; lia. }
      exists o, ps. split_and!; [done | done | lia].
  - pose proof (rendered_stack _ _ _ Hr) as Hst.
    set (o1 := if _ && _ then out ++ [47] else out).
    assert (rendered o1 pos st /\ last o1 = Some 47 /\ length o1 = (length out + (if bool_decide (out = [47%Z]) then 0 else 1))%nat) as (Hr1 & Hl1 & Hlen1).
    { unfold o1. destruct (rendered_front _ _ _ Hr) as [t ->]. destruct t as [|t0 t].
      - cbn. split; [done |]. split; [done |]. by rewrite bool_decide_eq_true_2.
      - rewrite (proj2 (Z.ltb_lt 1 _)), (proj2 (Z.ltb_lt _ (max - 1))) by (cbn in *; lia). cbn [andb]. split; [by apply r_slash |].
        split; [by rewrite last_snoc |]. rewrite bool_decide_eq_false_2 by done. by rewrite length_app. }
    clearbody o1. rewrite (proj2 (Nat.ltb_lt (length pos) 32)) by (cbn in *; lia).
    assert (take (Z.to_nat (max - 1 - Z.of_nat (length o1))) (c :: seg) = c :: seg) as -> by (apply take_ge; cbn in *; lia).
    destruct (IH q (o1 ++ c :: seg) (length o1 :: pos) ((c :: seg) :: st)) as (o & ps & E & H1 & H2); [by apply r_seg | lia | | cbn in *; lia |].
    { intros Hne. rewrite length_app, Hlen1. destruct Hd' as [->|Hd']; [done |]. cbn [length] in Hd' |- *. destruct (bool_decide (o1 ++ _ = _)); lia. }
    exists o, ps. split_and!; [done | done |]. rewrite length_app in H2. cbn [length] in *. lia.
Qed.

(** Any path at all: the loop ends, inside its buffer, with a path from the root. *)
Lemma resolve_loop_total max : 1 < max -> forall fuel p out pos, (length p <= fuel)%nat -> head out = Some 47 -> Z.of_nat (length out) < max ->
  Forall (fun q => 1 <= q)%nat pos ->
  exists out', resolve_loop fuel p out pos max = Ret out' /\ head out' = Some 47 /\ Z.of_nat (length out') < max.
Proof.
  intros Hm. induction fuel as [|fuel IH]; intros p out pos Hf Hh Ho Hp.
  { destruct p; [by exists out | cbn in Hf; lia]. }
  destruct p as [|d p]; [by exists out |]. cbn [resolve_loop]. set (seg := upto 47 (d :: p)).
  assert (length (drop (length seg + 1) (d :: p)) <= fuel)%nat as Hq by (rewrite length_drop; cbn [length] in *; lia).
  set (q := drop (length seg + 1) (d :: p)) in *. clearbody seg q. destruct (bool_decide _); [by apply IH |].
  destruct (bool_decide _).
  { destruct pos as [|x pos]; [by apply IH |]. apply Forall_cons in Hp as [Hx Hp]. destruct out as [|o out]; [done |]. injection Hh as ->.
    destruct x as [|x]; [lia |]. apply IH; [done | done | cbn [take length] in *; rewrite length_take; lia | done]. }
  set (o1 := if _ && _ then out ++ [47] else out).
  assert (head o1 = Some 47 /\ Z.of_nat (length o1) < max /\ (1 <= length o1)%nat) as (H1 & H2 & H3).
  { unfold o1. destruct out as [|o out]; [done |]. injection Hh as ->. destruct (_ && _) eqn:E; [| by cbn in *; auto with lia].
    split; [done |]. rewrite length_app. cbn [length] in *. apply andb_prop in E as [_ E%Z.ltb_lt]. lia. }
  clearbody o1. destruct o1 as [|o o1]; [done |]. injection H1 as ->. apply IH; [done | done | rewrite length_app, length_take; cbn [length] in *; lia |].
  destruct (_ <? 32)%nat; [by apply Forall_cons | done].
Qed.

(** The path a command gets: what follows [/], from the root or from the current directory. *)
Definition named_from (cwd inp : list Z) : list (list Z) :=
  if bool_decide (head inp = Some 47) then components inp else components cwd ++ components inp.
Lemma absolute_front cwd inp : head cwd = Some 47 -> exists p, absolute cwd inp = 47 :: p /\ (length p <= 254)%nat.
Proof.
  intros Hc. unfold absolute. destruct (bool_decide_reflect (head inp = Some 47)) as [H|_].
  - destruct inp as [|c inp]; [done |]. injection H as ->. exists (take 254 inp). split; [done |]. rewrite length_take. lia.
  - destruct cwd as [|c cwd]; [done |]. injection Hc as ->. cbn [or_root take]. set (t := if bool_decide _ then _ else _).
    assert (exists t', t = 47 :: t' /\ (length t' <= 254)%nat) as (t' & -> & Ht).
    { unfold t. pose proof (length_take cwd 253). destruct (bool_decide _); [exists (take 253 cwd ++ [47]); split; [done |]; rewrite length_app; cbn; lia |].
      exists (take 253 cwd). split; [done | lia]. }
    exists (t' ++ take (255 - length (47 :: t')) inp). split; [done |]. rewrite length_app, length_take. cbn [length]. lia.
Qed.
Lemma absolute_components cwd inp : head cwd = Some 47 -> (length cwd + 1 + length inp <= 255)%nat ->
  components (absolute cwd inp) = named_from cwd inp.
Proof.
  intros Hc Hl. unfold absolute, named_from. case_bool_decide as H; [by rewrite take_ge by lia |].
  destruct cwd as [|c cwd]; [done |]. change (or_root (c :: cwd)) with (c :: cwd). rewrite (take_ge (c :: cwd)) by (cbn in *; lia).
  case_bool_decide as Hs.
  - rewrite (take_ge inp) by (rewrite length_app; cbn in *; lia). rewrite <- app_assoc. cbn [app]. apply (components_cut (c :: cwd)).
  - rewrite (take_ge inp) by (cbn in *; lia). assert (last (c :: cwd) = Some 47) as Hlast by (destruct (decide (last (c :: cwd) = Some 47)); [done | tauto]).
    assert (c :: cwd = removelast (c :: cwd) ++ [47]) as E.
    { generalize dependent (c :: cwd). intros l _ _ _ Hlast. destruct l as [|x l] using rev_ind; [done |]. rewrite last_snoc in Hlast. injection Hlast as ->. by rewrite removelast_last. }
    rewrite E. rewrite <- app_assoc. cbn [app]. rewrite components_cut. f_equal. unfold components. by rewrite components_slash_end.
Qed.

(** ** What the file system makes of a path: only its components matter *)
Definition rooted (p : list Z) : Prop := head p <> Some 47.
(** The path with the components [segs], written with single slashes. *)
Definition path_of (segs : list (list Z)) : list Z :=
  match segs with [] => [47] | _ => concat ((fun seg => 47 :: seg) <$> segs) end.

Lemma take_part_app seg r : no_slash seg -> head r = None \/ head r = Some 47 -> take_part (seg ++ r) = (seg, r).
Proof.
  intros Hs Hr. induction Hs as [|c seg Hc _ IH]; cbn [app take_part].
  - destruct r as [|d r]; [done |]. destruct Hr as [Hr|[= ->]]; [done |]. done.
  - by rewrite (proj2 (Z.eqb_neq c 47) Hc), IH.
Qed.
Lemma skip_rooted p : rooted (skip_slashes p) /\ components (skip_slashes p) = components p.
Proof.
  induction p as [|c p [IH1 IH2]]; [done |]. cbn [skip_slashes]. destruct (Z.eqb_spec c 47) as [->|Hc]; [| split; [by intros [= ->] | done]].
  split; [done |]. rewrite IH2. unfold components. by rewrite split_slash.
Qed.
Lemma skip_length p : (length (skip_slashes p) <= length p)%nat.
Proof. induction p as [|c p IH]; cbn; [lia |]. case_match; cbn; lia. Qed.

(** The first part of a path that does not begin with a slash, and the rest. *)
Lemma rooted_part p : p <> [] -> rooted p -> exists seg r, take_part p = (seg, r) /\ seg <> [] /\
  components p = seg :: components (skip_slashes r) /\ rooted (skip_slashes r) /\ (length (skip_slashes r) < length p)%nat.
Proof.
  intros Hp Hr. destruct (upto_ok p) as [Hs Hu]. set (seg := upto 47 p) in *.
  assert (exists r, p = seg ++ r /\ (head r = None \/ head r = Some 47)) as (r & E & Hh).
  { destruct Hu as [E|E]; [exists []; rewrite app_nil_r; auto | eexists; split; [exact E | by right]]. }
  exists seg, r. clearbody seg. subst p. assert (seg <> []) as Hne.
  { intros ->. cbn [app] in *. destruct Hh as [Hh|Hh]; [by destruct r | by apply Hr]. }
  split; [by apply take_part_app |]. split; [done |]. split; [| split; [apply skip_rooted |]].
  - rewrite (proj2 (skip_rooted r)). unfold components at 1. rewrite split_seg by done. cbn [app].
    destruct r as [|d r]; [by destruct seg |]. destruct Hh as [Hh|[= ->]]; [done |]. rewrite split_slash.
    destruct seg; [done |]. unfold components. by rewrite split_slash.
  - rewrite length_app. pose proof (skip_length r). destruct seg; [done |]. cbn [length]. lia.
Qed.

Section Paths.
Context {D : Type} `{!BlockDev D}.

Lemma path_loop_components cap : forall fuel fuel' p p' (dir : Z) (s : fstate D),
  rooted p -> rooted p' -> components p = components p' -> (length p <= fuel)%nat -> (length p' <= fuel')%nat ->
  path_loop fuel p dir cap s = path_loop fuel' p' dir cap s.
Proof.
  assert (Hnil : forall p, rooted p -> components p = [] -> p = []).
  { intros p Hr Hc. destruct (decide (p = [])) as [|Hp]; [done |].
    destruct (rooted_part p Hp Hr) as (? & ? & _ & _ & E & _). congruence. }
  induction fuel as [|fuel IH]; intros fuel' p p' dir s Hr Hr' Hc Hl Hl'.
  { destruct p; [| cbn in Hl; lia]. rewrite (Hnil p' Hr' (eq_sym Hc)). by destruct fuel'. }
  destruct (decide (p = [])) as [->|Hp]; [rewrite (Hnil p' Hr' (eq_sym Hc)); by destruct fuel' |].
  destruct (decide (p' = [])) as [->|Hp']; [by rewrite (Hnil p Hr Hc) in Hp |].
  destruct fuel' as [|fuel']; [destruct p'; [done | cbn in Hl'; lia] |].
  destruct (rooted_part p Hp Hr) as (seg & r & E1 & Hne & Ec & Hrr & Hlen).
  destruct (rooted_part p' Hp' Hr') as (seg' & r' & E1' & Hne' & Ec' & Hrr' & Hlen').
  rewrite Ec, Ec' in Hc. injection Hc as <- Hc.
  destruct p as [|c p], p' as [|c' p']; try done. cbn [path_loop]. rewrite E1, E1'.
  assert (skip_slashes r = [] <-> skip_slashes r' = []) as Hiff.
  { split; intros E; rewrite E in Hc; apply Hnil; done. }
  destruct (skip_slashes r) as [|c1 q1] eqn:Eq1, (skip_slashes r') as [|c2 q2] eqn:Eq2;
    [done | by pose proof (proj1 Hiff eq_refl) | by pose proof (proj2 Hiff eq_refl) |].
  unfold mbind, st_bind. destruct (fat_find_entry dir (take 63 seg) s) as [[[[[ent ?] ?]|] s1]| |]; cbn [mbind res_bind]; try done.
  repeat case_match; try done. apply IH; try done; cbn [length] in *; lia.
Qed.

Lemma components_path_of segs : Forall (fun seg => seg <> [] /\ no_slash seg) segs ->
  components (path_of segs) = segs.
Proof.
  assert (forall segs, Forall (fun seg => seg <> [] /\ no_slash seg) segs ->
    components (concat ((fun seg => 47 :: seg) <$> segs)) = segs) as H.
  { induction 1 as [|seg l [Hne Hs] _ IH]; [done |]. cbn [fmap list_fmap concat app].
    change (components (seg ++ concat ((fun seg => 47 :: seg) <$> l)) = seg :: l).
    unfold components. rewrite split_seg by done. cbn [app]. destruct l as [|t l]; [by destruct seg |].
    cbn [fmap list_fmap concat app] in IH |- *. rewrite split_slash. destruct seg; [done |]. f_equal. exact IH. }
  intros Hf. destruct segs as [|seg segs]; [done |]. by apply H.
Qed.

(** Two paths from the root with the same components lead to the same place. *)
Lemma path_dir_components cap q q' (s : fstate D) : rooted q -> rooted q' -> components q = components q' ->
  path_dir_cluster (47 :: q) cap s = path_dir_cluster (47 :: q') cap s.
Proof.
  intros Hr Hr' Hc. unfold path_dir_cluster. destruct (get_fs s) as [[f s1]| |] eqn:E; unfold mbind, st_bind; rewrite E; cbn [mbind res_bind]; [| done..].
  cbn [Z.eqb Pos.eqb]. apply path_loop_components; try done; cbn [length]; lia.
Qed.
End Paths.

(** A part of a walk is a part of the path: not empty, without a slash. *)
Lemma components_parts s : forall cur, no_slash cur -> Forall (fun seg => seg <> [] /\ no_slash seg) (split_path cur s).
Proof.
  induction s as [|c s IH]; intros cur Hc; cbn [split_path].
  - destruct cur; [constructor |]. by apply Forall_cons.
  - destruct (Z.eqb_spec c 47) as [->|Hne]; [destruct cur; [by apply IH | apply Forall_cons; split; [done | by apply IH, Forall_nil]] |].
    apply IH. apply Forall_app. split; [done | by apply Forall_cons].
Qed.
Lemma walk_parts segs : forall st, Forall (fun seg => seg <> [] /\ no_slash seg) segs ->
  Forall (fun seg => seg <> [] /\ no_slash seg) st -> Forall (fun seg => seg <> [] /\ no_slash seg) (walk segs st).
Proof.
  induction segs as [|seg segs IH]; intros st Hs Hst; [done |]. apply Forall_cons in Hs as [H1 Hs].
  cbn [walk fold_left]. apply IH; [done |]. unfold enter. repeat case_bool_decide; [done | by destruct Hst | by constructor].
Qed.
Lemma canonical_parts segs : Forall (fun seg => seg <> [] /\ no_slash seg) segs ->
  Forall (fun seg => seg <> [] /\ no_slash seg) (canonical segs).
Proof. intros H. apply Forall_reverse. by apply walk_parts, Forall_nil. Qed.
Lemma named_parts cwd inp : Forall (fun seg => seg <> [] /\ no_slash seg) (named_from cwd inp).
Proof.
  unfold named_from, components. case_bool_decide; [by apply components_parts, Forall_nil |].
  apply Forall_app. split; by apply components_parts, Forall_nil.
Qed.

(** The text has no slash in second place. *)
Lemma rendered_rooted out pos st : rendered out pos st -> exists q, out = 47 :: q /\ rooted q.
Proof.
  induction 1 as [|out pos st _ (q & -> & Hq) Hne|out pos st seg _ (q & -> & Hq) Hl Hne Hs]; [by exists [] | |].
  - exists (q ++ [47]). split; [done |]. destruct q; [done | exact Hq].
  - exists (q ++ seg). split; [done |]. destruct q; [| exact Hq]. destruct seg as [|c seg]; [done |].
    apply Forall_cons in Hs as [Hc _]. by intros [= ->].
Qed.

(** C27: paths.  What a command is given, absolute or relative to the current directory, of at
    most 255 characters and 32 components in all, becomes the path from the root that it
    names: ["."] and empty parts disappear, [".."] removes the part before it and stays at
    the root.  The text can have a slash too many (where [".."] was), but the file system
    finds by it exactly what it finds by the path written with single slashes.  And
    whatever the two texts are, the loop ends with a path from the root that fits its
    buffer. *)
Theorem resolve_path_correct cwd inp : head cwd = Some 47 -> inp <> [] ->
  exists out, resolve_path cwd inp 256 = Ret out /\ head out = Some 47 /\ (length out <= 255)%nat /\
    ((length cwd + 1 + length inp <= 255)%nat -> (length (named_from cwd inp) <= 32)%nat ->
     let segs := canonical (named_from cwd inp) in
     components out = segs /\
     forall D (Hdev : BlockDev D) cap (s : fstate D), path_dir_cluster out cap s = path_dir_cluster (path_of segs) cap s).
Proof.
  intros Hc Hi. destruct (absolute_front cwd inp Hc) as (p & Ep & Hp). unfold resolve_path. destruct inp as [|c inp]; [done |].
  rewrite Ep. cbn [Z.eqb Pos.eqb].
  destruct (resolve_loop_total 256 ltac:(lia) (length p) p [47] [] (le_n _) eq_refl ltac:(cbn; lia) (Forall_nil_2 _)) as (out & E & Hh & Hl).
  exists out. rewrite (bind_ret _ _ _ E). destruct out as [|o out]; [done |]. split; [done |]. split; [done |]. split; [cbn [length] in *; lia |].
  intros Hlen H32. set (segs := canonical _). pose proof (canonical_parts _ (named_parts cwd (c :: inp))) as Hparts. fold segs in Hparts.
  assert (segs = canonical (components p)) as Es by (unfold segs; rewrite <- (absolute_components cwd _ Hc Hlen), Ep; done).
  rewrite <- (absolute_components cwd _ Hc Hlen), Ep in H32. change (components (47 :: p)) with (components p) in H32.
  destruct (resolve_loop_ok 256 (length p) p [47] [] [] r_root (le_n _)) as (out' & pos' & E' & Hr & _); [| cbn; lia |].
  { intros _. rewrite bool_decide_eq_true_2 by done. cbn [length]. lia. }
  rewrite E in E'. injection E' as <-. assert (components (o :: out) = segs) as Hcs by (rewrite Es; apply (rendered_components _ _ _ Hr)).
  split; [exact Hcs |]. intros D Hdev cap s. destruct (rendered_rooted _ _ _ Hr) as (q & Eq & Hq). rewrite Eq in Hcs |- *.
  rewrite <- (components_path_of segs Hparts) in Hcs. destruct (path_of segs) as [|d q'] eqn:Ed; [by destruct segs|].
  assert (d = 47 /\ rooted q') as [-> Hq'].
  { destruct segs as [|[|x seg] l]; cbn in Ed; [by injection Ed as <- <- | |]; apply Forall_cons in Hparts as [[Hne Hs] _]; [done |].
    injection Ed as <- <-. split; [done |]. apply Forall_cons in Hs as [Hx _]. by intros [= ->]. }
  by apply path_dir_components.
Qed.
Lemma resolve_path_correct_witness : head (txt "/a/b") = Some 47 /\ txt "../c/./d" <> [] /\
  (exists out, resolve_path (txt "/a/b") (txt "../c/./d") 256 = Ret out /\
    components out = [txt "a"; txt "c"; txt "d"] /\
    forall D (Hdev : BlockDev D) cap (s : fstate D), path_dir_cluster out cap s = path_dir_cluster (txt "/a/c/d") cap s).
Proof.
  split; [reflexivity |]. split; [done |].
  destruct (resolve_path_correct (txt "/a/b") (txt "../c/./d")) as (out & E & _ & _ & H); [reflexivity | done |].
  destruct (H ltac:(vm_compute; lia) ltac:(vm_compute; lia)) as [H1 H2].
  exists out. split; [exact E |]. split; [exact H1 | exact H2].
Defined.

(** A slash stays behind below the second level. *)
Lemma parent_keeps_slash : resolve_path (txt "/a/b") (txt "..") 256 = Ret (txt "/a/").
Proof. reflexivity. Qed.
Lemma two_slashes : resolve_path (txt "/a/b") (txt "../c") 256 = Ret (txt "/a//c").
Proof. reflexivity. Qed.

(** ** Completion *)
Lemma common_length a b : (common a b <= length a)%nat.
Proof. revert b. induction a as [|c a IH]; intros [|d b]; cbn; try lia. destruct (c =? d); [specialize (IH b); lia | lia]. Qed.
Lemma common_prefix a b : take (common a b) a `prefix_of` b.
Proof.
  revert b. induction a as [|c a IH]; intros [|d b]; cbn; try apply prefix_nil. destruct (Z.eqb_spec c d) as [->|]; cbn; [| apply prefix_nil].
  apply prefix_cons, IH.
Qed.
Lemma common_most q a b : q `prefix_of` a -> q `prefix_of` b -> (length q <= common a b)%nat.
Proof.
  revert a b. induction q as [|c q IH]; intros a b; [cbn; lia |]. intros [a' ->] [b' ->]. cbn. rewrite Z.eqb_refl.
  apply le_n_S, IH; by eexists.
Qed.
Lemma is_prefix_ok p s : is_prefix p s = true <-> p `prefix_of` s.
Proof.
  revert s. induction p as [|c p IH]; intros s; cbn; [split; [intros _; apply prefix_nil | done] |]. destruct s as [|d s].
  - split; [done | intros [k H]; done].
  - rewrite andb_true_iff, Z.eqb_eq, IH. split; [intros [-> H]; by apply prefix_cons | intros H; split; [by apply prefix_cons_inv_1 in H | by apply prefix_cons_inv_2 in H]].
Qed.
Definition matching (prefix : list Z) (l : list (list Z)) : list (list Z) := filter (fun c => prefix `prefix_of` c) l.

Lemma match_loop_more prefix l : forall m first n, 0 < m -> exists n', match_loop l prefix m first n = (m + Z.of_nat (length (matching prefix l)), first, n') /\
  (n' <= n)%nat /\ (forall c, c ∈ matching prefix l -> take n' (take n first) `prefix_of` c) /\
  (forall q, q `prefix_of` take n first -> (forall c, c ∈ matching prefix l -> q `prefix_of` c) -> (length q <= n')%nat).
Proof.
  induction l as [|c l IH]; intros m first n Hm; cbn [match_loop].
  - exists n. unfold matching. cbn. split_and!; [f_equal; f_equal; lia | lia | by intros c Hc%elem_of_nil |]. intros q [k E] _. pose proof (f_equal length E) as El.
    rewrite length_take, length_app in El. lia.
  - unfold matching. rewrite filter_cons. destruct (is_prefix prefix c) eqn:Ep.
    + apply is_prefix_ok in Ep. rewrite decide_True by done. rewrite (proj2 (Z.eqb_neq m 0)) by lia. set (k := common (take n first) c).
      assert (k <= n)%nat as Hk by (unfold k; etransitivity; [apply common_length | rewrite length_take; lia]).
      destruct (IH (m + 1) first k) as (n' & E & H1 & H2 & H3); [lia |]. exists n'. rewrite E. cbn [length]. split_and!; [f_equal; f_equal; unfold matching; lia | lia | |].
      * intros d [->|Hd]%elem_of_cons.
        -- pose proof (common_prefix (take n first) c) as Hc. fold k in Hc. etransitivity; [| exact Hc]. rewrite !take_take.
           replace (n' `min` n)%nat with (n' `min` (k `min` n))%nat by lia. rewrite <- take_take. apply prefix_take.
        -- specialize (H2 d Hd). rewrite take_take in H2 |- *. by replace (n' `min` n)%nat with (n' `min` k)%nat by lia.
      * intros q Hq Hall. apply H3; [| intros d Hd; apply Hall; by right].
        assert (q `prefix_of` c) as Hqc by (apply Hall; by left). pose proof (common_most q _ _ Hq Hqc) as Hlen. fold k in Hlen.
        destruct Hq as [r E']. assert (q = take (length q) (take n first)) as -> by (by rewrite E', take_app_length). rewrite take_take.
        exists (drop (length q) (take k first)). rewrite <- (take_drop (length q) (take k first)) at 1. rewrite take_take. f_equal. f_equal. lia.
    + rewrite decide_False by (intros H; apply is_prefix_ok in H; congruence). by apply IH.
Qed.
Lemma match_loop_ok prefix l : let ms := matching prefix l in
  (ms = [] /\ match_loop l prefix 0 [] 0 = (0, [], O)) \/
  (exists first n, match_loop l prefix 0 [] 0 = (Z.of_nat (length ms), first, n) /\ first ∈ ms /\ (n <= length first)%nat /\
    (forall c, c ∈ ms -> take n first `prefix_of` c) /\ (forall q, (forall c, c ∈ ms -> q `prefix_of` c) -> q `prefix_of` take n first)).
Proof.
  induction l as [|c l IH]; [by left |]. unfold matching in *. cbn [match_loop]. rewrite filter_cons. destruct (is_prefix prefix c) eqn:Ep.
  - right. apply is_prefix_ok in Ep. rewrite decide_True by done. change (0 =? 0) with true.
    destruct (match_loop_more prefix l (0 + 1) c (length c) ltac:(lia)) as (n & E & H1 & H2 & H3). rewrite firstn_all in *.
    exists c, n. rewrite E. cbn [length]. split_and!; [f_equal; f_equal; unfold matching; lia | by left | done | |].
    + intros d [->|Hd]%elem_of_cons; [apply prefix_take | by apply H2].
    + intros q Hq. assert (q `prefix_of` c) as Hqc by (apply Hq; by left). assert (length q <= n)%nat as Hlen by (apply H3; [done | intros d Hd; apply Hq; by right]).
      destruct Hqc as [r ->]. exists (take (n - length q) r). rewrite take_app. by rewrite take_ge by done.
  - rewrite decide_False by (intros H; apply is_prefix_ok in H; congruence). apply IH.
Qed.

Section Line.
Context {D : Type} `{!BlockDev D} {A : Type} `{!Allocator A}.
Abbreviation world := (world (D:=D) (A:=A)).
Implicit Types w : world.

(** What a call adds to the output, and the line afterwards. *)
Definition with_line (w : world) (acts : list action) (s : shell_t) : world := World (files w) (out w ++ acts) s (seed w).
Lemma emit_ok a w : emit a w = Ret ((), with_line w [a] (sh w)).
Proof. done. Qed.
Lemma emit_bind {R} a (f : () -> Sh (D:=D) (A:=A) R) w : (emit a ≫= f) w = f () (with_line w [a] (sh w)).
Proof. done. Qed.
Lemma get_sh_bind {R} (f : shell_t -> Sh (D:=D) (A:=A) R) w : (get_sh ≫= f) w = f (sh w) w.
Proof. done. Qed.
Lemma with_line_app w l1 l2 s1 s2 : with_line (with_line w l1 s1) l2 s2 = with_line w (l1 ++ l2) s2.
Proof. unfold with_line. cbn. by rewrite <- app_assoc. Qed.
Lemma with_line_nil w : with_line w [] (sh w) = w.
Proof. unfold with_line. rewrite app_nil_r. by destruct w. Qed.
(** One call of the terminal. *)
Ltac acts := unfold terminal_print, terminal_putc in *; rewrite ?emit_bind; cbn [sh with_line]; rewrite ?emit_ok, ?with_line_app; cbn [app sh with_line].
Lemma type_chars_ok (l : list Z) w : Z.of_nat (length (cmd (sh w)) + length l) < MAX_CMD_LEN ->
  type_chars l w = Ret ((), with_line w (Putc <$> l) (set_cmd (cmd (sh w) ++ l) (sh w))).
Proof.
  revert w. induction l as [|c l IH]; intros w H; cbn [type_chars].
  - unfold with_line. cbn. rewrite !app_nil_r. by destruct w as [f o [] d].
  - cbn [length] in H. rewrite (st_bind_ret get_sh _ w (sh w) w eq_refl). rewrite (proj2 (Z.ltb_lt _ _)) by lia.
    change (type_chars l (World (files w) (out w ++ [Putc c]) (set_cmd (cmd (sh w) ++ [c]) (sh w)) (seed w)) = Ret ((), with_line w (Putc <$> c :: l) (set_cmd (cmd (sh w) ++ c :: l) (sh w)))).
    rewrite IH by (cbn; rewrite length_app; cbn; lia). unfold with_line. cbn. by rewrite <- !app_assoc.
Qed.
Lemma each_ok {R} (f : R -> Sh (D:=D) (A:=A) ()) (g : R -> list action) (l : list R) : (forall x w, f x w = Ret ((), with_line w (g x) (sh w))) ->
  forall w, each f l w = Ret ((), with_line w (flat_map g l) (sh w)).
Proof.
  intros Hf. induction l as [|x l IH]; intros w; cbn [each flat_map].
  - unfold with_line. rewrite app_nil_r. by destruct w.
  - rewrite (st_bind_ret _ _ _ _ _ (Hf x w)), IH. unfold with_line. cbn. by rewrite <- app_assoc.
Qed.
Definition prompt_acts (s : shell_t) : list action := [Print (txt "fusion"); Print (or_root (cwd s)); Print (txt "> ")].
Lemma prompt_ok w : shell_prompt w = Ret ((), with_line w (prompt_acts (sh w)) (sh w)).
Proof. unfold shell_prompt. rewrite (st_bind_ret get_sh _ w (sh w) w eq_refl). by acts. Qed.
Lemma prompt_bind {R} (f : () -> Sh (D:=D) (A:=A) R) w : (shell_prompt ≫= f) w = f () (with_line w (prompt_acts (sh w)) (sh w)).
Proof. apply (st_bind_ret _ _ _ _ _ (prompt_ok w)). Qed.

(** The names that fit, one a line, and the line again. *)
Definition listing (s : shell_t) : list action :=
  Putc 10 :: flat_map (fun c => if is_prefix (cmd s) c then [Print c; Putc 10] else []) shell_commands ++ Putc 10 :: prompt_acts s ++ [Print (cmd s)].
Lemma listing_ok w : (_ ← terminal_putc 10; _ ← each (fun c => if is_prefix (cmd (sh w)) c then print_line c else mret ()) shell_commands; shell_redraw_line) w =
  Ret ((), with_line w (listing (sh w)) (sh w)).
Proof.
  set (p := cmd (sh w)). rewrite (st_bind_ret (terminal_putc 10) _ w () (with_line w [Putc 10] (sh w)) eq_refl). cbv beta.
  set (f := fun c => if is_prefix p c then print_line c else mret ()). set (g := fun c => if is_prefix p c then [Print c; Putc 10] else []).
  assert (forall c w', f c w' = Ret ((), with_line w' (g c) (sh w'))) as Hf
    by (intros c w'; unfold f, g; destruct (is_prefix p c); [unfold print_line; by acts | by rewrite with_line_nil]).
  rewrite (st_bind_ret _ _ _ _ _ (each_ok f g shell_commands Hf (with_line w [Putc 10] (sh w)))). cbv beta.
  unfold shell_redraw_line. acts. rewrite (st_bind_ret _ _ _ _ _ (prompt_ok _)). cbn [sh with_line].
  rewrite get_sh_bind.
  acts. unfold listing. f_equal. f_equal. f_equal. cbn [app]. f_equal. by rewrite <- !app_assoc.
Qed.

Lemma commands_short : Forall (fun c => length c <= 16)%nat shell_commands.
Proof. apply (bool_decide_unpack _). vm_compute. exact I. Qed.

(** What TAB does to the line and the screen. *)
Lemma autocomplete_cases w : 32 ∉ cmd (sh w) -> let ms := matching (cmd (sh w)) shell_commands in
  (ms = [] /\ shell_autocomplete w = Ret ((), w)) \/
  (exists l acts, shell_autocomplete w = Ret ((), with_line w acts (set_cmd l (sh w))) /\ cmd (sh w) `prefix_of` l /\ (length l <= 16)%nat /\
    ms <> [] /\ (forall c, c ∈ ms -> l `prefix_of` c) /\ (forall q, (forall c, c ∈ ms -> q `prefix_of` c) -> q `prefix_of` l) /\
    (l = cmd (sh w) /\ acts = listing (sh w) \/ exists r, l = cmd (sh w) ++ r /\ acts = Putc <$> r)).
Proof.
  intros H32. set (p := cmd (sh w)) in *. cbn zeta. unfold shell_autocomplete. rewrite (st_bind_ret get_sh _ w (sh w) w eq_refl). rewrite bool_decide_eq_false_2 by done. fold p.
  destruct (match_loop_ok p shell_commands) as [[E ->]|(first & n & -> & Hf & Hn & Hall & Hmost)]; [by left |]. right.
  assert (matching p shell_commands <> []) as Hne by (intros E; rewrite E in Hf; by apply elem_of_nil in Hf).
  assert (p `prefix_of` first /\ (length first <= 16)%nat) as [Hp H16].
  { pose proof (proj1 (list_elem_of_filter _ _ _) Hf) as [H1 H2]. split; [done |]. pose proof commands_short as Hs. rewrite Forall_forall in Hs. by apply Hs. }
  assert (p `prefix_of` take n first) as Hpn by (apply Hmost; intros c Hc; by apply (list_elem_of_filter _ _ _) in Hc as [? _]).
  assert (forall l, p `prefix_of` l -> l = p ++ drop (length p) l) as Hcut by (intros l [r ->]; by rewrite drop_app_length).
  assert (forall l, p `prefix_of` l -> (length l <= 16)%nat -> type_chars (drop (length p) l) w = Ret ((), with_line w (Putc <$> drop (length p) l) (set_cmd l (sh w)))) as Htype.
  { intros l Hl Hl16. rewrite type_chars_ok; fold p; [by rewrite <- Hcut |]. rewrite length_drop. unfold MAX_CMD_LEN. destruct Hl as [r ->]. rewrite length_app in *. lia. }
  destruct (Z.eqb_spec (Z.of_nat (length (matching p shell_commands))) 0) as [E|_]; [destruct (matching p shell_commands); [done | cbn in E; lia] |].
  destruct (Z.eqb_spec (Z.of_nat (length (matching p shell_commands))) 1) as [E|_].
  - destruct (matching p shell_commands) as [|c [|d ms]] eqn:Em; [done | | cbn in E; lia]. apply list_elem_of_singleton in Hf as ->.
    exists c, (Putc <$> drop (length p) c). split_and!; [by apply Htype | done | done | done | by intros d ->%list_elem_of_singleton | | right; exists (drop (length p) c); by rewrite <- Hcut].
    intros q Hq. apply Hq. by left.
  - destruct (Nat.ltb_spec (length p) n) as [Hlt|Hge].
    + exists (take n first), (Putc <$> drop (length p) (take n first)).
      split_and!; [apply Htype; [done | rewrite length_take; lia] | done | rewrite length_take; lia | done | done | done | right; exists (drop (length p) (take n first)); by rewrite <- Hcut].
    + assert (take n first = p) as E.
      { destruct Hpn as [r Er]. pose proof (f_equal length Er) as El. rewrite length_take, length_app in El. destruct r; [by rewrite app_nil_r in Er | cbn in El; lia]. }
      rewrite E in *. exists p, (listing (sh w)). split_and!; [| done | pose proof (prefix_length _ _ Hp); lia | done | done | done | by left].
      unfold p. rewrite listing_ok. unfold set_cmd. by destruct (sh w).
Qed.

(** C29: completion.  TAB extends the command to the longest text that all commands
    beginning with it have in common, and leaves it alone when there are none; only the
    command and the screen change. *)
Theorem shell_completes w : 32 ∉ cmd (sh w) -> let ms := matching (cmd (sh w)) shell_commands in
  exists w' l, shell_autocomplete w = Ret ((), w') /\ files w' = files w /\ sh w' = set_cmd l (sh w) /\ cmd (sh w) `prefix_of` l /\
    (ms = [] -> w' = w) /\ (forall c, c ∈ ms -> l `prefix_of` c) /\ (ms <> [] -> forall q, (forall c, c ∈ ms -> q `prefix_of` c) -> q `prefix_of` l).
Proof.
  intros H32. destruct (autocomplete_cases w H32) as [[E1 E2]|(l & acts & E & Hp & _ & Hne & Hall & Hmost & _)].
  - exists w, (cmd (sh w)). split_and!; [done | done | by destruct (sh w) | done | done | | done]. cbn zeta. rewrite E1. by intros c Hc%elem_of_nil.
  - exists (with_line w acts (set_cmd l (sh w))), l. split_and!; [done | done | done | done | done | done | done].
Qed.
End Line.

From S2P Require Import Input.

(** ** The line on the screen

    What the shell sends to the terminal, on the page of [n] columns and [r] rows that the
    terminal implements (TerminalRefine.v). *)
From S2P Require Import TerminalProps.

Section Screen.
Context (n r : Z).
Definition page_act (p : page) (a : action) : page :=
  match a with Putc c => page_putc n r p c | Print s => page_print n r p s | Clear => page_home n r | _ => p end.
Definition page_acts (p : page) (l : list action) : page := fold_left page_act l p.
(** The line of the cursor holds [l] and is blank after it; the cursor is behind [l]. *)
Definition line_shown (p : page) (l : list Z) : Prop :=
  exists rest, lines p = (l ++ repeat 32 (Z.to_nat n - length l)) :: rest /\
    column p = Z.of_nat (length l) /\ Z.of_nat (length l) < n.

Definition plain (s : list Z) : Prop := Forall (fun c => c <> 10 /\ c <> 8) s.

Lemma shown_next p : 0 < n -> line_shown (page_putc n r p 10) [].
Proof. intros Hn. eexists. split; [cbn; by rewrite Nat.sub_0_r |]. cbn. split; [done | lia]. Qed.
Lemma shown_putc p l c : line_shown p l -> c <> 10 -> c <> 8 -> Z.of_nat (length l) + 1 < n ->
  line_shown (page_putc n r p c) (l ++ [c]).
Proof.
  intros (rest & E & Ec & _) H1 H2 Hn. unfold page_putc. rewrite (proj2 (Z.eqb_neq c 10)), (proj2 (Z.eqb_neq c 8)) by done.
  cbv zeta. rewrite Ec, (proj2 (Z.leb_gt _ _)) by lia. exists rest. rewrite length_app. cbn [length]. split; [| split; [cbn; lia | lia]].
  unfold head_line, set_head. cbn [lines]. rewrite E. f_equal. change (default [] (list.head (?x :: rest))) with x.
  replace (Z.to_nat n - length l)%nat with (S (Z.to_nat n - (length l + 1))) by lia. cbn [repeat].
  rewrite Nat2Z.id, insert_app_r_alt, Nat.sub_diag by lia. cbn. by rewrite <- app_assoc.
Qed.
Lemma shown_back p l c : line_shown p (l ++ [c]) -> line_shown (page_putc n r p 8) l.
Proof.
  intros (rest & E & Ec & Hn). rewrite length_app in Ec, Hn. cbn [length] in Ec, Hn. unfold page_putc. cbn [Z.eqb Pos.eqb].
  rewrite Ec, (proj2 (Z.ltb_lt 0 _)) by lia. exists rest. split; [| split; [cbn; lia | lia]].
  unfold head_line, set_head. cbn [lines]. rewrite E. f_equal. change (default [] (list.head (?x :: rest))) with x.
  rewrite length_app. cbn [length]. replace (Z.to_nat n - length l)%nat with (S (Z.to_nat n - (length l + 1))) by lia. cbn [repeat].
  replace (Z.to_nat _) with (length l) by lia. rewrite <- app_assoc, insert_app_r_alt, Nat.sub_diag by lia. done.
Qed.
Lemma shown_print s : forall p l, line_shown p l -> plain s -> Z.of_nat (length (l ++ s)) < n -> line_shown (page_print n r p s) (l ++ s).
Proof.
  induction s as [|c s IH]; intros p l Hl Hs Hn; [by rewrite app_nil_r |]. apply Forall_cons in Hs as [[H1 H2] Hs].
  rewrite length_app in Hn. cbn [length] in Hn.
  change (line_shown (page_print n r (page_putc n r p c) s) (l ++ c :: s)). replace (l ++ c :: s) with ((l ++ [c]) ++ s) by (by rewrite <- app_assoc).
  apply IH; [apply shown_putc; [done.. | lia] | done | rewrite !length_app; cbn; lia].
Qed.
Lemma putc_print s : forall p, page_acts p (Putc <$> s) = page_print n r p s.
Proof. induction s as [|c s IH]; intros p; [done |]. apply IH. Qed.
Lemma page_acts_app p l1 l2 : page_acts p (l1 ++ l2) = page_acts (page_acts p l1) l2.
Proof. apply fold_left_app. Qed.
End Screen.

Definition prompt (s : shell_t) : list Z := txt "fusion" ++ or_root (cwd s) ++ txt "> ".
Definition edit_line (s : shell_t) : list Z := prompt s ++ cmd s.
Record editing_ok (s : shell_t) : Prop := {
  e_cmd : plain (cmd s) /\ Z.of_nat (length (cmd s)) < MAX_CMD_LEN;
  e_history : Forall (fun l => plain l /\ Z.of_nat (length l) < MAX_CMD_LEN) (history s) /\ Z.of_nat (length (history s)) <= MAX_HISTORY;
  e_index : 0 <= history_index s <= Z.of_nat (length (history s));
  e_cwd : plain (cwd s);
}.
(** A key that edits: not Enter, and no control character. *)
Definition editing_key (e : key_event) : Prop := key e <> KEY_ENTER /\ ascii e <> 10 /\ ascii e <> 8.

Lemma plain_or_root s : plain s -> plain (or_root s).
Proof. destruct s; [by repeat constructor | done]. Qed.
(** The prompt, on a new line. *)
Lemma shown_prompt n r p s : plain (cwd s) -> Z.of_nat (length (prompt s)) < n ->
  line_shown n p [] -> line_shown n (page_acts n r p (prompt_acts s)) (prompt s).
Proof.
  intros H Hn Hp. unfold prompt in *. rewrite !length_app in Hn.
  change (line_shown n (page_print n r (page_print n r (page_print n r p (txt "fusion")) (or_root (cwd s))) (txt "> ")) (txt "fusion" ++ or_root (cwd s) ++ txt "> ")).
  rewrite app_assoc. apply shown_print; [| by repeat constructor | rewrite !length_app; lia].
  apply shown_print; [| by apply plain_or_root | rewrite !length_app; lia].
  apply (shown_print n r (txt "fusion") p [] Hp); [by repeat constructor | cbn [app]; lia].
Qed.

Section Edit.
Context {D : Type} `{!BlockDev D} {A : Type} `{!Allocator A}.
Abbreviation world := (world (D:=D) (A:=A)).
Implicit Types w : world.

(** From [w] to [w'] the shell stays consistent, touches no file, and sends the terminal what
    turns a line with the prompt and the command into one with the new ones, if that fits. *)
Definition echoes w w' : Prop :=
  editing_ok (sh w') /\ files w' = files w /\ exists acts, out w' = out w ++ acts /\
    forall n r p, line_shown n p (edit_line (sh w)) -> Z.of_nat (length (edit_line (sh w'))) < n ->
      line_shown n (page_acts n r p acts) (edit_line (sh w')).

Lemma echoes_refl w : editing_ok (sh w) -> echoes w w.
Proof. intros H. split; [done |]. split; [done |]. exists []. split; [by rewrite app_nil_r | done]. Qed.
Lemma typed w l : editing_ok (sh w) -> plain l -> Z.of_nat (length (cmd (sh w)) + length l) < MAX_CMD_LEN ->
  exists w', type_chars l w = Ret ((), w') /\ echoes w w' /\
    w' = with_line w (Putc <$> l) (set_cmd (cmd (sh w) ++ l) (sh w)).
Proof.
  intros [[H1 H2] H3 H4 H5] Hl Hlen. rewrite type_chars_ok by done. eexists. split; [done |]. split; [| done]. split; [| split; [done |]].
  - split; [split; [apply Forall_app_2; [exact H1 | exact Hl] | cbn; rewrite length_app; lia] | done | done | done].
  - exists (Putc <$> l). split; [done |]. intros n r p Hp Hn. rewrite putc_print. unfold edit_line in *. cbn [sh with_line set_cmd cmd prompt cwd] in *.
    change (prompt (set_cmd _ _)) with (prompt (sh w)) in *. rewrite app_assoc in Hn |- *. by apply shown_print.
Qed.
Lemma replaced w l : editing_ok (sh w) -> plain l -> Z.of_nat (length l) < MAX_CMD_LEN ->
  exists w', shell_set_command l w = Ret ((), w') /\ echoes w w'.
Proof.
  intros [H1 H2 H3 H4] Hl Hlen. unfold shell_set_command. rewrite get_sh_bind. set (s0 := set_cmd [] (sh w)).
  rewrite (st_bind_ret (put_sh s0) _ w () (with_line w [] s0)) by (unfold put_sh, with_line; by rewrite app_nil_r).
  unfold terminal_print. rewrite emit_bind. cbn [sh with_line]. rewrite prompt_bind. cbn [sh with_line]. rewrite !with_line_app.
  destruct (typed (with_line w ([] ++ [Print [10]] ++ prompt_acts s0) s0) l) as (w' & E & (He & Hf & _) & ->); [| done | cbn; lia |].
  { split; [split; [apply Forall_nil_2 | by cbn] | done | done | done]. }
  eexists. split; [exact E |]. split; [exact He |]. split; [exact Hf |]. exists ([Print [10]] ++ prompt_acts s0 ++ (Putc <$> l)).
  split; [unfold with_line; cbn [out app]; by rewrite <- !app_assoc |]. intros n r p Hp Hn. rewrite !page_acts_app, putc_print.
  unfold edit_line in *. cbn [sh with_line set_cmd cmd] in *. change (cmd s0) with (@nil Z) in *. rewrite app_nil_l in *.
  change (prompt (set_cmd _ _)) with (prompt s0) in *. rewrite length_app in Hn.
  apply shown_print; [apply shown_prompt; [done | lia |] | done | rewrite length_app; lia].
  apply (shown_next n r p). lia.
Qed.

(** TAB, a character, backspace, and the history. *)
Lemma autocompleted w : editing_ok (sh w) -> exists w', shell_autocomplete w = Ret ((), w') /\ echoes w w'.
Proof.
  intros Hw. pose proof (echoes_refl w Hw) as Hid. pose proof Hw as [[Hc Hcl] [Hh Hhl] Hi Hcwd].
  destruct (decide (32 ∈ cmd (sh w))) as [Hs|Hs]; [exists w; unfold shell_autocomplete; rewrite get_sh_bind, bool_decide_eq_true_2 by done; done |].
  destruct (autocomplete_cases w Hs) as [[_ ->]|(l & acts & -> & Hpre & Hl & Hne & Hall & _ & Hacts)]; [by exists w |].
  eexists. split; [done |].
  assert (plain l) as Hpl.
  { destruct (matching (cmd (sh w)) shell_commands) as [|c ms] eqn:Em; [done |]. destruct (Hall c ltac:(by left)) as [r Er].
    assert (c ∈ matching (cmd (sh w)) shell_commands) as Hc' by (rewrite Em; by left). apply (list_elem_of_filter _ _ _) in Hc' as [_ Hc'].
    assert (Forall plain shell_commands) as Hcs by (repeat constructor; done). rewrite Forall_forall in Hcs. specialize (Hcs c Hc'). rewrite Er in Hcs. by apply Forall_app in Hcs as [? _]. }
  split; [split; [split; [done | cbn; unfold MAX_CMD_LEN; lia] | done | done | done] |]. split; [done |].
  exists acts. split; [done |]. unfold edit_line. cbn [sh with_line set_cmd cmd].
  change (prompt (set_cmd l (sh w))) with (prompt (sh w)). intros n r p Hp Hn.
  destruct Hacts as [[-> ->]|(q & -> & ->)].
  - unfold listing. rewrite length_app in Hn.
    replace (Putc 10 :: flat_map (fun c => if is_prefix (cmd (sh w)) c then [Print c; Putc 10] else []) shell_commands ++ Putc 10 :: prompt_acts (sh w) ++ [Print (cmd (sh w))])
      with ((Putc 10 :: flat_map (fun c => if is_prefix (cmd (sh w)) c then [Print c; Putc 10] else []) shell_commands) ++ [Putc 10] ++ prompt_acts (sh w) ++ [Print (cmd (sh w))]) by done.
    rewrite !page_acts_app. set (p1 := page_acts n r p _).
    apply (shown_print n r (cmd (sh w))); [| done | rewrite length_app; lia]. apply shown_prompt; [done | lia |]. apply (shown_next n r p1). lia.
  - rewrite putc_print. rewrite app_assoc in Hn |- *. apply shown_print; [done | by apply Forall_app in Hpl as [_ ?] | done].
Qed.
Lemma typed_key w c : editing_ok (sh w) -> c <> 10 -> c <> 8 -> exists w', type_chars [c] w = Ret ((), w') /\ echoes w w'.
Proof.
  intros Hw H1 H2. destruct (Z.ltb_spec (Z.of_nat (length (cmd (sh w)))) (MAX_CMD_LEN - 1)) as [Hroom|Hfull].
  - destruct (typed w [c] Hw) as (w' & E & He & _); [by repeat constructor | cbn; lia | by exists w'].
  - exists w. split; [| by apply echoes_refl]. cbn [type_chars]. rewrite get_sh_bind, (proj2 (Z.ltb_ge _ _)) by lia. done.
Qed.
Lemma erased w : editing_ok (sh w) -> exists w',
  match cmd (sh w) with [] => mret () | _ => _ ← put_sh (set_cmd (removelast (cmd (sh w))) (sh w)); terminal_putc 8 end w = Ret ((), w') /\ echoes w w'.
Proof.
  intros Hw. pose proof Hw as [[Hc Hcl] Hh Hi Hcwd]. destruct (cmd (sh w)) as [|c l] eqn:Ec; [exists w; split; [done | by apply echoes_refl] |].
  rewrite <- Ec in *. assert (cmd (sh w) <> []) as Hne by (by rewrite Ec). clear Ec. destruct (exists_last Hne) as (l' & c' & Ec). rewrite Ec in *.
  eexists. split; [reflexivity |]. rewrite removelast_last. rewrite length_app in Hcl. apply Forall_app in Hc as [Hc _].
  split; [by split; [split; cbn; [| lia] | done | done | done] |]. split; [done |]. exists [Putc 8]. split; [done |].
  unfold edit_line. cbn [sh set_cmd cmd]. change (prompt (set_cmd l' (sh w))) with (prompt (sh w)). rewrite Ec.
  intros n r p Hp _. rewrite app_assoc in Hp. by apply (shown_back n r p _ c').
Qed.
Lemma recalled w i : editing_ok (sh w) -> 0 <= i < Z.of_nat (length (history (sh w))) ->
  exists w', (_ ← put_sh (set_history (history (sh w)) i (sh w)); line ← st_lift (zget (history (sh w)) i); shell_set_command line) w = Ret ((), w') /\ echoes w w'.
Proof.
  intros [[Hc Hcl] [Hh Hhl] Hi Hcwd] Hir. set (s := sh w) in *. destruct (lookup_lt_is_Some_2 (history s) (Z.to_nat i)) as [l El]; [lia |].
  set (w1 := World (files w) (out w) (set_history (history s) i s) (seed w)). rewrite (st_bind_ret (put_sh (set_history (history s) i s)) _ w () w1 eq_refl).
  rewrite (st_bind_ret (st_lift _) _ _ l w1) by (unfold st_lift; rewrite <- (Z2Nat.id i) at 1 by lia; by rewrite (zget_nat _ _ l)).
  pose proof Hh as Hh'. rewrite Forall_forall in Hh'. destruct (Hh' l (list_elem_of_lookup_2 _ _ _ El)) as [H1 H2].
  destruct (replaced w1 l) as (w' & E & He & Hf & acts & Ho & Hp); [by split; [| | cbn; lia |] | done | done |].
  exists w'. split; [done |]. split; [done |]. split; [done |]. exists acts. split; [done |]. exact Hp.
Qed.

(** The line after [shell_init]. *)
Lemma init_echoed w : exists w' acts, shell_init w = Ret ((), w') /\ sh w' = ShellT [] [] 0 false [47] /\
  files w' = files w /\ out w' = out w ++ acts /\
  forall n r p, Z.of_nat (length (edit_line (sh w'))) < n -> line_shown n (page_acts n r p acts) (edit_line (sh w')).
Proof.
  unfold shell_init. rewrite (st_bind_ret _ _ w () (World (files w) (out w) (ShellT [] [] 0 false [47]) (seed w)) eq_refl).
  unfold terminal_print. rewrite emit_bind. cbn [sh]. rewrite prompt_ok, with_line_app. eexists _, _. split; [reflexivity |].
  split; [done |]. split; [done |]. split; [reflexivity |]. intros n r p Hn. rewrite page_acts_app.
  unfold edit_line in *. rewrite app_nil_r in *. apply shown_prompt; [by repeat constructor | exact Hn |].
  set (s := (_ ++ _) : list Z). assert (s = removelast s ++ [10]) as -> by reflexivity.
  change (page_acts n r p [Print (removelast s ++ [10])]) with (page_print n r p (removelast s ++ [10])).
  unfold page_print. rewrite foldl_app. apply (shown_next n r). lia.
Qed.

(** C28: the line that is edited.  [shell_init] puts the prompt on a new line of the terminal's
    page.  From then on, whatever key is pressed short of Enter - a character, backspace,
    the arrows through the history, TAB - it is handled, the buffers stay within their
    sizes and the history index in its range, no file is touched, and the line of the
    cursor, if it showed exactly the prompt and the command in the buffer, shows exactly
    them again, as long as they are shorter than the terminal's width. *)
Theorem shell_line_echoed x e w :
  (exists w', shell_init w = Ret ((), w') /\ editing_ok (sh w') /\ files w' = files w /\ cmd (sh w') = [] /\
     exists acts, out w' = out w ++ acts /\ forall n r p, Z.of_nat (length (edit_line (sh w'))) < n ->
       line_shown n (page_acts n r p acts) (edit_line (sh w'))) /\
  (editing_ok (sh w) -> editing_key e ->
     exists w', shell_handle_key x e w = Ret ((), w') /\ editing_ok (sh w') /\ files w' = files w /\
       exists acts, out w' = out w ++ acts /\ forall n r p,
         line_shown n p (edit_line (sh w)) -> Z.of_nat (length (edit_line (sh w'))) < n ->
         line_shown n (page_acts n r p acts) (edit_line (sh w'))).
Proof.
  split.
  { destruct (init_echoed w) as (w' & acts & E & Es & Ef & Eo & H). exists w'. split; [done |].
    split; [rewrite Es; split; [by split; [apply Forall_nil_2 |] | by split; [apply Forall_nil_2 |] | by cbn | by repeat constructor] |].
    split; [done |]. split; [by rewrite Es |]. by exists acts. }
  intros Hw (Hk & Ha1 & Ha2). enough (exists w', shell_handle_key x e w = Ret ((), w') /\ echoes w w') as (w' & E & H1 & H2 & H3) by (exists w'; tauto).
  pose proof (echoes_refl w Hw) as Hid. pose proof Hw as [[Hc Hcl] [Hh Hhl] Hi Hcwd]. unfold shell_handle_key.
  destruct (pressed e); cbn [negb]; [| by exists w]. destruct (Z.eqb_spec (ascii e) 9) as [_|Ha9]; [by apply autocompleted |].
  rewrite get_sh_bind. destruct (key e) eqn:Ekey; try done; try (destruct (negb (ascii e =? 0)); [| by exists w]; by apply typed_key).
  - by apply erased.
  - destruct (Z.ltb_spec 0 (Z.of_nat (length (history (sh w))))), (Z.ltb_spec 0 (history_index (sh w))); cbn [andb]; try by exists w.
    apply recalled; [done | lia].
  - destruct (Z.ltb_spec (history_index (sh w) + 1) (Z.of_nat (length (history (sh w))))); [apply recalled; [done | lia] | by exists w].
Qed.
End Edit.

(** ** A run: the shell starts, "hel" is typed and TAB pressed, and the first letter erased *)
From S2P Require Import FatExamples TerminalExamples.

Definition helped : world (D:=disk) (A:=pool) := World (s0, pool0) (prompt_acts (ShellT [] [] 0 false [47])) (ShellT (txt "hel") [] 0 false [47]) 1.
Lemma shell_completes_witness : (32 ∉ cmd (sh helped)) /\
  exists w' l, shell_autocomplete helped = Ret ((), w') /\ files w' = files helped /\ sh w' = set_cmd l (sh helped) /\ cmd (sh helped) `prefix_of` l /\
    (matching (cmd (sh helped)) shell_commands = [] -> w' = helped) /\ (forall c, c ∈ matching (cmd (sh helped)) shell_commands -> l `prefix_of` c) /\
    (matching (cmd (sh helped)) shell_commands <> [] -> forall q, (forall c, c ∈ matching (cmd (sh helped)) shell_commands -> q `prefix_of` c) -> q `prefix_of` l).
Proof.
  assert (32 ∉ cmd (sh helped)) as H by (apply (bool_decide_unpack _); vm_compute; exact I).
  split; [exact H | exact (shell_completes helped H)].
Defined.
Example helped_help : exists w', shell_autocomplete helped = Ret ((), w') /\ cmd (sh w') = txt "help".
Proof. eexists. split; vm_compute; reflexivity. Qed.

Definition a_key : key_event := KeyEvent true 97 KEY_NONE.
Definition sys0 : sys := Sys 0 0 0 0 0 0 0 0 [] 0 0 0 0.
Definition started : world (D:=disk) (A:=pool) := World (s0, pool0) (prompt_acts (ShellT [] [] 0 false [47])) (ShellT [] [] 0 false [47]) 1.
(** On a terminal of 80 columns and 25 rows that shows the prompt. *)
Definition page0 : page := page_acts 80 25 (page_home 80 25) (prompt_acts (sh started)).
Lemma shell_line_echoed_witness : editing_ok (sh started) /\ editing_key a_key /\
  line_shown 80 page0 (edit_line (sh started)) /\
  exists w' acts, shell_handle_key sys0 a_key started = Ret ((), w') /\
    line_shown 80 (page_acts 80 25 page0 acts) (edit_line (sh w')).
Proof.
  assert (editing_ok (sh started)) as Hs
    by (split; [by split; [apply Forall_nil_2 |] | by split; [apply Forall_nil_2 |] | by cbn | by repeat constructor]).
  assert (editing_key a_key) as H by (split; [done | by split]).
  assert (line_shown 80 page0 (edit_line (sh started))) as Hp
    by (eexists; split; [vm_compute; reflexivity | split; vm_compute; reflexivity]).
  destruct (proj2 (shell_line_echoed sys0 a_key started) Hs H) as (w' & E & _ & _ & acts & _ & Hl).
  split; [exact Hs |]. split; [exact H |]. split; [exact Hp |]. exists w', acts. split; [exact E |].
  apply Hl; [exact Hp |]. vm_compute in E. injection E as <-. vm_compute. reflexivity.
Defined.
