(* ===== verification/FileManager.v ===== *)
(** * The file manager ([src/src/apps/file_manager.c])

    A window over the file system: [file_manager_t], its keys, its drawing.  The buffers
    are lists of characters without the NUL; [entry_count] is the length of [entries].  The
    functions take the record and return it; the file system and the allocator are the
    state of the monad of [FatFile].  [now] is the tick counter that is read, [u64].
    Drawing is the list of calls, as in [BrowserView]; coordinates are integers, far from
    the limits of [int] as long as those of the window are ([DesktopProps]). *)
From S2P Require Import Prelude Interfaces Input Interrupts Fat FatDir FatFile Gfx BrowserView.

Inductive fm_mode := FM_MODE_NORMAL | FM_MODE_RENAME | FM_MODE_CONFIRM_DELETE.
Record file_manager_t := FileManagerT {
  path : list Z; selection : Z; entries : list fs_entry; sort_mode : fs_sort_mode; sort_desc : bool;
  clipboard : list Z; clipboard_cut : bool; input : list Z; mode : fm_mode; status : list Z; status_until : Z;
}.
Definition set_path x f := FileManagerT x (selection f) (entries f) (sort_mode f) (sort_desc f) (clipboard f) (clipboard_cut f) (input f) (mode f) (status f) (status_until f).
Definition set_selection x f := FileManagerT (path f) x (entries f) (sort_mode f) (sort_desc f) (clipboard f) (clipboard_cut f) (input f) (mode f) (status f) (status_until f).
Definition set_entries x f := FileManagerT (path f) (selection f) x (sort_mode f) (sort_desc f) (clipboard f) (clipboard_cut f) (input f) (mode f) (status f) (status_until f).
Definition set_sort m d f := FileManagerT (path f) (selection f) (entries f) m d (clipboard f) (clipboard_cut f) (input f) (mode f) (status f) (status_until f).
Definition set_clipboard x c f := FileManagerT (path f) (selection f) (entries f) (sort_mode f) (sort_desc f) x c (input f) (mode f) (status f) (status_until f).
Definition set_input x f := FileManagerT (path f) (selection f) (entries f) (sort_mode f) (sort_desc f) (clipboard f) (clipboard_cut f) x (mode f) (status f) (status_until f).
Definition set_mode x f := FileManagerT (path f) (selection f) (entries f) (sort_mode f) (sort_desc f) (clipboard f) (clipboard_cut f) (input f) x (status f) (status_until f).
Definition set_status x u f := FileManagerT (path f) (selection f) (entries f) (sort_mode f) (sort_desc f) (clipboard f) (clipboard_cut f) (input f) (mode f) x u.

(** ** Numbers and sizes *)
Fixpoint dec_rev (n : nat) (v : Z) : list Z :=
  match n with O => [] | S n => if v =? 0 then [] else (48 + v mod 10) :: dec_rev n (v / 10) end.
Definition format_dec (value max : Z) : list Z :=
  if value =? 0 then [48] else take (Z.to_nat (max - 1)) (rev (dec_rev 16 value)).
Definition with_unit (num unit : list Z) (max : Z) : list Z :=
  let len := Z.of_nat (length num) in let n := Z.of_nat (length unit) in
  take (Z.to_nat (if max <=? len + n then max - n else len)) num ++ unit.
Definition format_size (size max : Z) : list Z :=
  if 1024 * 1024 <=? size then with_unit (format_dec (size / (1024 * 1024)) 16) (txt "MB") max
  else if 1024 <=? size then with_unit (format_dec (size / 1024) 16) (txt "KB") max
  else with_unit (format_dec size 16) (txt "B") max.

(** ** Status and paths *)
Definition fm_set_status (msg : list Z) (now : Z) (fm : file_manager_t) : file_manager_t :=
  set_status (take 63 msg) (u64 (now + PIT_HZ * 2)) fm.
Definition fm_status_active (now : Z) (fm : file_manager_t) : bool :=
  match status fm with [] => false | _ => negb (status_until fm <? now) end.
Definition fm_clear_status (fm : file_manager_t) : file_manager_t := set_status [] 0 fm.

(** [s] and its NUL, written into an array of [size] characters. *)
Definition stored (size : Z) (s : list Z) : res (list Z) := if Z.of_nat (length s) + 1 <=? size then Ret s else Fault.
(** [out] is an array of [size] characters, whatever [max] says.  A negative length is a
    [memcpy] of nearly [2 ^ 64] bytes. *)
Definition fm_join_path (size : Z) (dir name : list Z) (max : Z) : res (list Z) :=
  if max <=? 1 then (if 0 <? max then stored size [] else Ret []) else
  let nlen := Z.of_nat (length name) in
  if str_eqb dir [47] then
    let len := if max <=? nlen + 2 then max - 2 else nlen in stored size (47 :: take (Z.to_nat len) name)
  else
    let dlen := Z.of_nat (length dir) in
    let nlen := if max <=? dlen + nlen + 2 then max - dlen - 2 else nlen in
    if nlen <? 0 then Fault else stored size (dir ++ 47 :: take (Z.to_nat nlen) name).
Fixpoint basename_loop (p last : list Z) : list Z :=
  match p with [] => last | c :: q => basename_loop q (if c =? 47 then q else last) end.
Definition fm_basename (path : list Z) : list Z := basename_loop path path.

(** [entries[selection]], where the code has tested the selection. *)
Definition selected (fm : file_manager_t) : option fs_entry :=
  if (selection fm <? 0) || (Z.of_nat (length (entries fm)) <=? selection fm) then None else entries fm !! Z.to_nat (selection fm).
Definition fm_enter_rename (fm : file_manager_t) : file_manager_t :=
  match selected fm with
  | None => fm
  | Some e => set_mode FM_MODE_RENAME (set_input (take 63 (e_name e)) fm)
  end.
Definition fm_enter_delete_confirm (now : Z) (fm : file_manager_t) : file_manager_t :=
  match selected fm with
  | None => fm
  | Some _ => fm_set_status (txt "Delete selected? (y/n)") now (set_mode FM_MODE_CONFIRM_DELETE fm)
  end.

(** ** The keys *)
Section Code.
Context {D : Type} `{!BlockDev D} {A : Type} `{!Allocator A}.
Abbreviation F := (st (fstate D * A)).

Definition file_manager_refresh (fm : file_manager_t) : F file_manager_t :=
  r ← on_fs (fs_list_dir (path fm) 64);
  let es := fs_sort_entries (default [] r) (sort_mode fm) (sort_desc fm) in
  let count := Z.of_nat (length es) in
  let sel := if count <=? selection fm then count - 1 else selection fm in
  mret (set_selection (if sel <? 0 then 0 else sel) (set_entries es fm)).
Definition file_manager_set_path (p : list Z) (fm : file_manager_t) : F file_manager_t :=
  file_manager_refresh (set_selection 0 (set_path (take 127 p) fm)).
Definition file_manager_init : F file_manager_t :=
  file_manager_refresh (FileManagerT [47] 0 [] FS_SORT_NAME false [] false [] FM_MODE_NORMAL [] 0).

Definition fm_rename (now : Z) (fm : file_manager_t) : F file_manager_t :=
  match selected fm with
  | None => mret (set_mode FM_MODE_NORMAL fm)
  | Some e =>
      src ← st_lift (fm_join_path 160 (path fm) (e_name e) 160);
      dst ← st_lift (fm_join_path 160 (path fm) (input fm) 160);
      fm ← (match input fm with
        | [] => mret (fm_set_status (txt "Rename failed: empty name") now fm)
        | _ =>
            ok ← on_fs (fs_rename src dst);
            if ok : bool then file_manager_refresh (fm_set_status (txt "Renamed") now fm)
            else mret (fm_set_status (txt "Rename failed") now fm)
        end);
      mret (set_input [] (set_mode FM_MODE_NORMAL fm))
  end.
Definition rename_key (now : Z) (event : key_event) (fm : file_manager_t) : F file_manager_t :=
  if bool_decide (key event = KEY_ESC) then mret (set_input [] (set_mode FM_MODE_NORMAL fm)) else
  if bool_decide (key event = KEY_BACKSPACE) then mret (set_input (removelast (input fm)) fm) else
  if bool_decide (key event = KEY_ENTER) then fm_rename now fm else
  if (32 <=? ascii event) && (ascii event <? 127) then
    mret (if Z.of_nat (length (input fm)) <? 63 then set_input (input fm ++ [ascii event]) fm else fm)
  else mret fm.

(** [letter c]: the character in either case. *)
Definition letter (c : Z) (event : key_event) : bool := (ascii event =? c) || (ascii event =? c - 32).
Definition confirm_key (now : Z) (event : key_event) (fm : file_manager_t) : F file_manager_t :=
  if letter 121 event then
    fm ← (match selected fm with
      | None => mret fm
      | Some e =>
          src ← st_lift (fm_join_path 160 (path fm) (e_name e) 160);
          ok ← on_fs (fs_delete src);
          if ok : bool then file_manager_refresh (fm_set_status (txt "Deleted") now fm)
          else mret (fm_set_status (txt "Delete failed") now fm)
      end);
    mret (set_mode FM_MODE_NORMAL fm)
  else if letter 110 event || bool_decide (key event = KEY_ESC) then mret (fm_clear_status (set_mode FM_MODE_NORMAL fm))
  else mret fm.

Definition next_sort (m : fs_sort_mode) : fs_sort_mode :=
  match m with FS_SORT_NAME => FS_SORT_SIZE | FS_SORT_SIZE => FS_SORT_TYPE | FS_SORT_TYPE => FS_SORT_NAME end.
Definition fm_copy (cut : bool) (msg : list Z) (now : Z) (fm : file_manager_t) : F file_manager_t :=
  match selected fm with
  | None => mret fm
  | Some e =>
      c ← st_lift (fm_join_path 128 (path fm) (e_name e) 128);
      mret (fm_set_status msg now (set_clipboard c cut fm))
  end.
Definition fm_paste (now : Z) (fm : file_manager_t) : F file_manager_t :=
  match clipboard fm with
  | [] => mret (fm_set_status (txt "Clipboard empty") now fm)
  | src =>
      match fm_basename src with
      | [] => mret (fm_set_status (txt "Paste failed") now fm)
      | name =>
          dst ← st_lift (fm_join_path 160 (path fm) name 160);
          ok ← (if clipboard_cut fm then fs_move src dst else fs_copy src dst);
          if ok : bool then
            let fm := if clipboard_cut fm then set_clipboard [] true fm else fm in
            file_manager_refresh (fm_set_status (if clipboard_cut fm then txt "Moved" else txt "Copied") now fm)
          else mret (fm_set_status (txt "Paste failed") now fm)
      end
  end.
(** Into the selected directory, when its path fits. *)
Definition fm_open (fm : file_manager_t) : F file_manager_t :=
  match selected fm with
  | None => mret fm
  | Some e =>
      if e_is_dir e =? 0 then mret fm else
      let nlen := Z.of_nat (length (e_name e)) in
      if str_eqb (path fm) [47] then
        if 128 <=? nlen + 2 then mret fm else next ← st_lift (stored 128 (47 :: e_name e)); file_manager_set_path next fm
      else if 128 <=? Z.of_nat (length (path fm)) + nlen + 2 then mret fm
      else next ← st_lift (stored 128 (path fm ++ 47 :: e_name e)); file_manager_set_path next fm
  end.
(** [while (len > 0 && fm->path[len - 1] != '/') len--;] *)
Fixpoint back_to_slash (p : list Z) (len : nat) : nat :=
  match len with O => O | S n => if byte_at p (Z.of_nat n) =? 47 then len else back_to_slash p n end.
Definition fm_up (fm : file_manager_t) : F file_manager_t :=
  if str_eqb (path fm) [47] then mret fm else
  let len := back_to_slash (path fm) (length (path fm)) in
  if (len <=? 1)%nat then file_manager_set_path [47] fm
  else file_manager_set_path (take (len - 1) (path fm)) fm.

Definition file_manager_handle_key (now : Z) (event : key_event) (fm : file_manager_t) : F file_manager_t :=
  if negb (pressed event) then mret fm else
  match mode fm with
  | FM_MODE_RENAME => rename_key now event fm
  | FM_MODE_CONFIRM_DELETE => confirm_key now event fm
  | FM_MODE_NORMAL =>
      if bool_decide (key event = KEY_UP) then mret (if 0 <? selection fm then set_selection (selection fm - 1) fm else fm) else
      if bool_decide (key event = KEY_DOWN) then
        mret (if selection fm + 1 <? Z.of_nat (length (entries fm)) then set_selection (selection fm + 1) fm else fm) else
      if letter 115 event then file_manager_refresh (set_sort (next_sort (sort_mode fm)) (sort_desc fm) fm) else
      if letter 114 event then file_manager_refresh (set_sort (sort_mode fm) (negb (sort_desc fm)) fm) else
      if letter 99 event then fm_copy false (txt "Copied to clipboard") now fm else
      if letter 120 event then fm_copy true (txt "Cut to clipboard") now fm else
      if letter 118 event then fm_paste now fm else
      if letter 100 event then mret (fm_enter_delete_confirm now fm) else
      if letter 110 event then mret (fm_enter_rename fm) else
      if bool_decide (key event = KEY_ENTER \/ key event = KEY_RIGHT) then fm_open fm else
      if bool_decide (key event = KEY_BACKSPACE \/ key event = KEY_LEFT) then fm_up fm else mret fm
  end.
End Code.

(** ** Drawing *)
Definition text_w (s : list Z) : Z := Z.of_nat (length s) * FONT_WIDTH.
Fixpoint until_slash (p : list Z) : list Z :=
  match p with [] => [] | c :: q => if c =? 47 then [] else c :: until_slash q end.
Fixpoint crumbs (fuel : nat) (p : list Z) (cx x y max_w : Z) : list call :=
  match p, fuel with
  | [], _ | _, O => []
  | _, S fuel =>
      let part := take 63 (until_slash p) in
      if x + max_w - 8 <? cx + text_w part then [] else
      Text (txt ">") cx y 0x9BA6B2 :: Text part (cx + FONT_WIDTH * 2) y 0xE6E6E6 ::
      crumbs fuel (skip_slashes (drop (length (until_slash p)) p)) (cx + FONT_WIDTH * 2 + (text_w part + FONT_WIDTH)) x y max_w
  end.
Definition fm_draw_breadcrumbs (p : list Z) (x y max_w : Z) : list call :=
  Text (txt "/") x y 0x6FD3FF ::
  (if str_eqb p [47] then [] else
   let q := match p with c :: q => if c =? 47 then q else p | [] => [] end in
   crumbs (length q) q (x + FONT_WIDTH * 2) x y max_w).

Definition sort_label (fm : file_manager_t) : list Z :=
  txt "Sort: " ++ match sort_mode fm with FS_SORT_NAME => txt "Name" | FS_SORT_SIZE => txt "Size" | FS_SORT_TYPE => txt "Type" end ++
  (if sort_desc fm then txt " v" else []).
(** At the right edge, but not left of [x + 8]. *)
Definition right_x (x w : Z) (s : list Z) : Z := let r := x + w - 8 - text_w s in if r <? x + 8 then x + 8 else r.
Definition entry_row (e : fs_entry) (marked : bool) (x w line_y : Z) : list call :=
  (if marked then [Rect (x + 4) (line_y - 2) (w - 8) (FONT_HEIGHT + 4) 0x1E2A3D] else []) ++
  Text (e_name e) (x + 12) line_y (if e_is_dir e =? 0 then 0xE6E6E6 else 0x6FD3FF) ::
  (if e_is_dir e =? 0 then let s := format_size (e_size e) 16 in [Text s (right_x x w s) line_y 0x9BA6B2] else []).
Fixpoint entry_rows (es : list fs_entry) (i sel x y w h line_y : Z) : list call :=
  match es with
  | [] => []
  | e :: es =>
      if y + h <? line_y + FONT_HEIGHT then [] else
      entry_row e (i =? sel) x w line_y ++ entry_rows es (i + 1) sel x y w h (line_y + FONT_HEIGHT + 4)
  end.
Definition file_manager_render (ready : bool) (now : Z) (fm : file_manager_t) (x y w h : Z) : list call * file_manager_t :=
  let front := Rect x y w h 0x0F1218 :: fm_draw_breadcrumbs (path fm) (x + 8) (y + 8) (w - 16) in
  if negb ready then (front ++ [Text (txt "No disk mounted") (x + 8) (y + 28) 0x9BA6B2], fm) else
  let footer_y := y + h - FONT_HEIGHT - 6 in
  let hint_y := y + h - (FONT_HEIGHT * 2) - 10 in
  let ry := y + h - (FONT_HEIGHT * 3) - 12 in
  (front ++ Text (sort_label fm) (right_x x w (sort_label fm)) (y + 8) 0x9BA6B2 ::
   entry_rows (entries fm) 0 (selection fm) x y w h (y + 28) ++
   (if fm_status_active now fm then [Rect (x + 4) (footer_y - 4) (w - 8) (FONT_HEIGHT + 6) 0x141B26; Text (status fm) (x + 8) footer_y 0xE6E6E6] else []) ++
   Text (txt "C Copy  X Cut  V Paste  N Rename  D Delete") (x + 8) hint_y 0x9BA6B2 ::
   (match mode fm with
    | FM_MODE_RENAME => [Rect (x + 4) (ry - 4) (w - 8) (FONT_HEIGHT + 6) 0x1B2435; Text (txt "Rename:") (x + 8) ry 0xE6E6E6;
        Text (match input fm with [] => txt "..." | s => s end) (x + 78) ry 0xE6E6E6]
    | _ => [] end),
   if fm_status_active now fm then fm else fm_clear_status fm).

(** ** The record stays within its arrays *)
Record fm_ok (fm : file_manager_t) : Prop := {
  o_path : path fm <> [] /\ (length (path fm) <= 126)%nat;
  o_selection : 0 <= selection fm /\ (entries fm = [] -> selection fm = 0) /\ (entries fm <> [] -> selection fm < Z.of_nat (length (entries fm)));
  o_texts : (length (input fm) <= 63)%nat /\ (length (status fm) <= 63)%nat /\ (length (clipboard fm) <= 127)%nat;
}.
Lemma stored_ok size s : Z.of_nat (length s) < size -> stored size s = Ret s.
Proof. intros H. unfold stored. by rewrite (proj2 (Z.leb_le _ _)) by lia. Qed.
(** A path of the window and any name fit into an array of the size that is told. *)
Lemma join_ok dir name max : (length dir <= 126)%nat -> 128 <= max -> exists p, fm_join_path max dir name max = Ret p /\ Z.of_nat (length p) < max.
Proof.
  intros Hd Hm. unfold fm_join_path. destruct (Z.leb_spec max 1); [lia |]. cbv zeta. destruct (str_eqb dir [47]).
  - rewrite stored_ok by (cbn [length]; rewrite length_take; destruct (Z.leb_spec max (Z.of_nat (length name) + 2)); lia).
    eexists. split; [done |]. cbn [length]. rewrite length_take. destruct (Z.leb_spec max (Z.of_nat (length name) + 2)); lia.
  - set (n := if _ <=? _ then _ else _). assert (0 <= n <= max - Z.of_nat (length dir) - 2) as Hn by (unfold n; leb_cases; lia).
    rewrite (proj2 (Z.ltb_ge n 0)) by lia. assert (Z.of_nat (length (dir ++ 47 :: take (Z.to_nat n) name)) < max) as Hl by (rewrite length_app; cbn [length]; rewrite length_take; lia).
    rewrite stored_ok by done. by eexists.
Qed.
Lemma status_ok msg now fm : fm_ok fm -> fm_ok (fm_set_status msg now fm).
Proof. intros [H1 H2 (H3 & H4 & H5)]. split; [done | done |]. cbn. rewrite length_take. split_and!; [done | lia | done]. Qed.
Lemma mode_ok m fm : fm_ok fm -> fm_ok (set_mode m fm).
Proof. by intros [H1 H2 H3]. Qed.
Lemma input_ok x fm : fm_ok fm -> (length x <= 63)%nat -> fm_ok (set_input x fm).
Proof. intros [H1 H2 (H3 & H4 & H5)] Hx. by split. Qed.
Lemma clear_status_ok fm : fm_ok fm -> fm_ok (fm_clear_status fm).
Proof. intros [H1 H2 (H3 & H4 & H5)]. split; [done | done |]. split_and!; [done | cbn; lia | done]. Qed.
Lemma clipboard_ok x c fm : fm_ok fm -> Z.of_nat (length x) < 128 -> fm_ok (set_clipboard x c fm).
Proof. intros [H1 H2 (H3 & H4 & H5)] Hx. split; [done | done |]. split_and!; [done | done | cbn; lia]. Qed.

(** The keys of a run, each with the tick counter. *)
Fixpoint fm_keys {D} `{!BlockDev D} {A} `{!Allocator A} (evs : list (Z * key_event)) (fm : file_manager_t) : st (fstate D * A) file_manager_t :=
  match evs with [] => mret fm | (now, e) :: evs => fm ← file_manager_handle_key now e fm; fm_keys evs fm end.

(** Back from the end of a joined path is its slash. *)
Lemma back_join d n : 47 ∉ n -> back_to_slash (d ++ 47 :: n) (length (d ++ 47 :: n)) = S (length d).
Proof.
  intros Hn. assert (forall k, (k <= length n)%nat -> back_to_slash (d ++ 47 :: n) (S (length d) + k) = S (length d)) as H.
  { induction k as [|k IH]; intros Hk.
    - rewrite Nat.add_0_r. cbn [back_to_slash]. unfold byte_at. rewrite Nat2Z.id, list_lookup_middle by done. done.
    - rewrite Nat.add_succ_r. cbn [back_to_slash]. rewrite IH by lia. unfold byte_at. rewrite Nat2Z.id, lookup_app_r by lia.
      replace (S (length d) + k - length d)%nat with (S k) by lia. cbn [lookup list_lookup]. destruct (n !! k) as [c|] eqn:Ek; [| by apply lookup_ge_None in Ek; lia].
      change (default 0 (Some c)) with c. destruct (Z.eqb_spec c 47) as [->|_]; [| done]. destruct Hn. by apply list_elem_of_lookup_2 in Ek. }
  rewrite length_app. cbn [length]. replace (length d + S (length n))%nat with (S (length d) + length n)%nat by lia. by apply H.
Qed.
Lemma set_path_inv {D} `{!BlockDev D} {A} `{!Allocator A} p fm (s : fstate D * A) fm' s' : file_manager_set_path p fm s = Ret (fm', s') ->
  exists r, path fm' = take 127 p /\ exists s1, on_fs (fs_list_dir (take 127 p) 64) s = Ret (r, s1) /\ entries fm' = fs_sort_entries (default [] r) (sort_mode fm') (sort_desc fm').
Proof.
  unfold file_manager_set_path, file_manager_refresh. cbn [path set_path set_selection]. intros E. apply res_bind_ret in E as ([r s1] & E1 & E2).
  exists r. injection E2 as <- <-. split; [done |]. by exists s1.
Qed.

Section Safe.
Context {D : Type} `{!BlockDev D} {A : Type} `{!Allocator A}.
Variable good : fstate D * A -> Prop.
Abbreviation calm m := (triple good m (fun _ => good)).
(** What the file system is asked to do returns. *)
Record files_return : Prop := {
  r_list p : calm (on_fs (fs_list_dir p 64)); r_rename p q : calm (on_fs (fs_rename p q)); r_delete p : calm (on_fs (fs_delete p));
  r_move p q : calm (fs_move p q); r_copy p q : calm (fs_copy p q);
}.
Hypothesis Hfs : files_return.
Abbreviation keeps m := (triple good m (fun fm' s => fm_ok fm' /\ good s)).
Lemma stays_ret fm : fm_ok fm -> keeps (mret fm).
Proof. intros H. by apply triple_ret. Qed.

Lemma refresh_ok fm : path fm <> [] /\ (length (path fm) <= 126)%nat ->
  (length (input fm) <= 63)%nat /\ (length (status fm) <= 63)%nat /\ (length (clipboard fm) <= 127)%nat ->
  keeps (file_manager_refresh fm).
Proof using Hfs Allocator0.
  intros H1 H3. apply (triple_bind _ _ _ (fun _ => good)); [apply (r_list Hfs) |]. intros r. apply triple_ret. intros s Hs. split; [| done].
  set (es := fs_sort_entries _ _ _). split; [done | | done]. cbn [selection set_selection set_entries entries].
  destruct (Z.leb_spec (Z.of_nat (length es)) (selection fm)); [destruct (Z.ltb_spec (Z.of_nat (length es) - 1) 0) | destruct (Z.ltb_spec (selection fm) 0)];
    (split; [lia | split; [intros E; rewrite E in *; cbn [length] in *; lia | intros Hne; destruct es; [done | cbn [length] in *; lia]]]).
Qed.
Lemma refresh_fm_ok fm : fm_ok fm -> keeps (file_manager_refresh fm).
Proof using Hfs Allocator0. intros [H1 _ H3]. by apply refresh_ok. Qed.

(** A call on two joined paths, and what is done with its result. *)
Lemma joined {R} dir name max (f : list Z -> st (fstate D * A) R) Q : (length dir <= 126)%nat -> 128 <= max ->
  (forall p, Z.of_nat (length p) < max -> triple good (f p) Q) -> triple good (st_lift (fm_join_path max dir name max) ≫= f) Q.
Proof. intros Hd Hm Hf. apply (triple_lift_bind _ _ (fun p => Z.of_nat (length p) < max)); [by apply join_ok | done]. Qed.
Lemma called {R} (m : st (fstate D * A) R) (f : R -> st (fstate D * A) file_manager_t) : calm m -> (forall r, keeps (f r)) -> keeps (m ≫= f).
Proof. intros Hm Hf. by apply (triple_bind _ _ _ (fun _ => good)). Qed.
Lemma then_set (m : st (fstate D * A) file_manager_t) (f : file_manager_t -> file_manager_t) :
  keeps m -> (forall fm, fm_ok fm -> fm_ok (f fm)) -> keeps (fm ← m; mret (f fm)).
Proof. intros Hm Hf. apply (triple_bind _ _ _ _ _ Hm). intros fm. apply triple_ret. intros s [H1 H2]. split; [by apply Hf | done]. Qed.

Lemma key_ok now event fm : fm_ok fm -> keeps (file_manager_handle_key now event fm).
Proof using Hfs Allocator0.
  intros H. pose proof H as [[H1 H2] [S1 [S2 S3]] (T1 & T2 & T3)]. unfold file_manager_handle_key. destruct (pressed event); cbn [negb]; [| by apply stays_ret].
  destruct (mode fm).
  - destruct (bool_decide (key event = KEY_UP)).
    { apply stays_ret. destruct (Z.ltb_spec 0 (selection fm)); [| done]. split; [done | | done]. cbn. split; [lia |]. split; [intros E; specialize (S2 E); lia | intros E; specialize (S3 E); lia]. }
    destruct (bool_decide (key event = KEY_DOWN)).
    { apply stays_ret. destruct (Z.ltb_spec (selection fm + 1) (Z.of_nat (length (entries fm)))) as [Hs|]; [| done]. split; [done | | done]. cbn. split; [lia |].
      split; [intros E; rewrite E in Hs; cbn in Hs; lia | intros _; lia]. }
    destruct (letter 115 event); [by apply refresh_fm_ok |]. destruct (letter 114 event); [by apply refresh_fm_ok |].
    assert (forall cut msg, keeps (fm_copy cut msg now fm)) as Hcopy.
    { intros cut msg. unfold fm_copy. destruct (selected fm); [| by apply stays_ret]. apply joined; [done | lia |]. intros p Hp. apply stays_ret, status_ok. by apply clipboard_ok. }
    destruct (letter 99 event); [apply Hcopy |]. destruct (letter 120 event); [apply Hcopy |].
    destruct (letter 118 event).
    { unfold fm_paste. destruct (clipboard fm) as [|c src] eqn:Ec; [by apply stays_ret, status_ok |]. rewrite <- Ec in *.
      destruct (fm_basename (clipboard fm)) as [|n name]; [by apply stays_ret, status_ok |]. apply joined; [done | lia |]. intros dst _.
      apply called; [destruct (clipboard_cut fm); [apply (r_move Hfs) | apply (r_copy Hfs)] |]. intros [|]; [| by apply stays_ret, status_ok].
      apply refresh_fm_ok, status_ok. destruct (clipboard_cut fm); [apply clipboard_ok; [done | cbn; lia] | done]. }
    destruct (letter 100 event). { apply stays_ret. unfold fm_enter_delete_confirm. destruct (selected fm); [by apply status_ok, mode_ok | done]. }
    destruct (letter 110 event). { apply stays_ret. unfold fm_enter_rename. destruct (selected fm); [apply mode_ok, input_ok; [done | rewrite length_take; lia] | done]. }
    assert (forall p, p <> [] -> (length p <= 126)%nat -> keeps (file_manager_set_path p fm)) as Hpath.
    { intros p Hne Hp. unfold file_manager_set_path. apply refresh_ok; [| done]. cbn [path set_selection set_path]. split; [by destruct p | rewrite length_take; lia]. }
    destruct (bool_decide (key event = KEY_ENTER \/ key event = KEY_RIGHT)).
    { unfold fm_open. destruct (selected fm) as [e|]; [| by apply stays_ret]. destruct (e_is_dir e =? 0); [by apply stays_ret |].
      destruct (str_eqb (path fm) [47]); [destruct (Z.leb_spec 128 (Z.of_nat (length (e_name e)) + 2)) | destruct (Z.leb_spec 128 (Z.of_nat (length (path fm)) + Z.of_nat (length (e_name e)) + 2))];
        try (by apply stays_ret); rewrite stored_ok by (rewrite ?length_app; cbn [length]; lia); apply Hpath; [done | cbn; lia | by destruct (path fm) | rewrite length_app; cbn [length]; lia]. }
    destruct (bool_decide (key event = KEY_BACKSPACE \/ key event = KEY_LEFT)); [| by apply stays_ret].
    unfold fm_up. destruct (str_eqb (path fm) [47]); [by apply stays_ret |]. set (n := back_to_slash _ _). destruct (Nat.leb_spec n 1); [by apply Hpath; [| cbn; lia] |].
    apply Hpath; [destruct (path fm); [done |]; destruct n as [|[|n]]; [lia | lia | done] | rewrite length_take; lia].
  - unfold rename_key. destruct (bool_decide (key event = KEY_ESC)); [by apply stays_ret, input_ok; [apply mode_ok | cbn; lia] |].
    destruct (bool_decide (key event = KEY_BACKSPACE)).
    { apply stays_ret, input_ok; [done |]. destruct (input fm) as [|c l] eqn:E; [cbn; lia |]. rewrite <- E in *. destruct (exists_last (l:=input fm) ltac:(by rewrite E)) as (l' & x & E'). rewrite E' in *.
      rewrite removelast_last. rewrite length_app in T1. lia. }
    destruct (bool_decide (key event = KEY_ENTER)).
    { unfold fm_rename. destruct (selected fm); [| by apply stays_ret, mode_ok]. apply joined; [done | lia |]. intros src _. apply joined; [done | lia |]. intros dst _.
      apply then_set; [| intros fm1 Hfm1; apply input_ok; [by apply mode_ok | cbn; lia]].
      destruct (input fm); [by apply stays_ret, status_ok |]. apply called; [apply (r_rename Hfs) |]. intros [|]; [by apply refresh_fm_ok, status_ok | by apply stays_ret, status_ok]. }
    destruct ((32 <=? ascii event) && (ascii event <? 127)); [| by apply stays_ret]. apply stays_ret.
    destruct (Z.ltb_spec (Z.of_nat (length (input fm))) 63); [| done]. apply input_ok; [done |]. rewrite length_app. cbn. lia.
  - unfold confirm_key. destruct (letter 121 event).
    { apply then_set; [| intros fm1 Hfm1; by apply mode_ok]. destruct (selected fm); [| by apply stays_ret]. apply joined; [done | lia |]. intros src _.
      apply called; [apply (r_delete Hfs) |]. intros [|]; [by apply refresh_fm_ok, status_ok | by apply stays_ret, status_ok]. }
    destruct (letter 110 event || bool_decide (key event = KEY_ESC)); apply stays_ret; [by apply clear_status_ok, mode_ok | done].
Qed.
Lemma init_ok : keeps file_manager_init.
Proof using Hfs Allocator0. apply refresh_ok; cbn; split_and!; first [done | lia]. Qed.
Lemma keys_ok evs fm : fm_ok fm -> keeps (fm_keys evs fm).
Proof using Hfs Allocator0.
  revert fm. induction evs as [|[now e] evs IH]; intros fm H; [by apply stays_ret |]. cbn [fm_keys].
  apply (triple_bind _ _ _ _ _ (key_ok now e fm H)). intros fm'. intros s [H1 H2]. by apply IH.
Qed.
End Safe.

(** ** The properties *)
Section Properties.
Context {D : Type} `{!BlockDev D} {A : Type} `{!Allocator A}.


(** Into a directory and back.  Opening the selected directory goes to its path, when
    that fits; going up from there returns to the path and lists it. *)
Theorem file_manager_open_up fm e (s : fstate D * A) fm1 (s1 : fstate D * A) fm2 s2 :
  path fm <> [] -> selected fm = Some e -> e_is_dir e <> 0 -> e_name e <> [] -> 47 ∉ e_name e ->
  (length (path fm) + length (e_name e) + 2 < 128)%nat ->
  fm_open fm s = Ret (fm1, s1) -> fm_up fm1 s1 = Ret (fm2, s2) ->
  path fm1 = (if str_eqb (path fm) [47] then [] else path fm) ++ 47 :: e_name e /\ path fm2 = path fm /\
  exists r s1', on_fs (fs_list_dir (path fm) 64) s1 = Ret (r, s1') /\ entries fm2 = fs_sort_entries (default [] r) (sort_mode fm2) (sort_desc fm2).
Proof using Allocator0.
  intros Hp Hsel Hdir Hn Hslash Hlen E1 E2. unfold fm_open in E1. rewrite Hsel, (proj2 (Z.eqb_neq _ _) Hdir) in E1.
  assert (file_manager_set_path ((if str_eqb (path fm) [47] then [] else path fm) ++ 47 :: e_name e) fm s = Ret (fm1, s1)) as E.
  { destruct (str_eqb (path fm) [47]); [rewrite (proj2 (Z.leb_gt _ _)) in E1 by lia | rewrite (proj2 (Z.leb_gt 128 (Z.of_nat (length (path fm)) + _ + 2))) in E1 by lia]; rewrite stored_ok in E1 by (rewrite ?length_app; cbn [length]; lia); exact E1. }
  clear E1. set (d := if str_eqb (path fm) [47] then [] else path fm) in *. destruct (set_path_inv _ _ _ _ _ E) as (r & F1 & _).
  assert (length d <= length (path fm))%nat as Hd by (unfold d; destruct (str_eqb (path fm) [47]); cbn; lia).
  rewrite take_ge in F1 by (rewrite length_app; cbn [length]; lia). split; [done |].
  unfold fm_up in E2. rewrite F1 in E2. rewrite back_join in E2 by done.
  assert (str_eqb (d ++ 47 :: e_name e) [47] = false) as Hroot.
  { apply bool_decide_eq_false_2. intros Eq. apply (f_equal length) in Eq. rewrite length_app in Eq. cbn in Eq. destruct (e_name e); [done | cbn in Eq; lia]. }
  rewrite Hroot in E2.
  assert (file_manager_set_path (path fm) fm1 s1 = Ret (fm2, s2)) as E'.
  { destruct d as [|c d'] eqn:Ed; cbn [length Nat.leb] in E2.
    - unfold d in Ed. destruct (str_eqb (path fm) [47]) eqn:Eq; [| done]. apply bool_decide_eq_true in Eq. by rewrite Eq.
    - cbn [Nat.sub] in E2. assert (path fm = c :: d') as -> by (unfold d in Ed; destruct (str_eqb (path fm) [47]); [done | exact Ed]).
      change (S (length d')) with (length (c :: d')) in E2. by rewrite take_app_length in E2. }
  destruct (set_path_inv _ _ _ _ _ E') as (r' & G1 & s1' & G2 & G3). rewrite take_ge in G1, G2 by lia. split; [done |]. by exists r', s1'.
Qed.
End Properties.

(** ** Runs *)
From S2P Require Import FatExamples TerminalExamples.
Definition no_disk : fstate disk * pool -> Prop := fun s => mounted (fs s.1) = false.
Lemma no_disk_returns : files_return no_disk.
Proof.
  split; intros; intros [[[] b d] a] Hs; unfold no_disk in Hs; cbn in Hs; subst; (do 2 eexists; split; [reflexivity | done]).
Qed.

Definition in_root : file_manager_t := FileManagerT [47] 0 [FsEntry (txt "sub") 0 1] FS_SORT_NAME false [] false [] FM_MODE_NORMAL [] 0.
Definition result {X} (r : res X) (d : X) : X := match r with Ret x => x | _ => d end.
Definition opened := result (fm_open in_root (s0, pool0)) (in_root, (s0, pool0)).
Definition back_up := result (fm_up opened.1 opened.2) opened.
Lemma file_manager_open_up_witness : path in_root <> [] /\ fm_open in_root (s0, pool0) = Ret (opened.1, opened.2) /\ fm_up opened.1 opened.2 = Ret (back_up.1, back_up.2) /\
  path opened.1 = txt "/sub" /\ path back_up.1 = [47].
Proof.
  assert (fm_open in_root (s0, pool0) = Ret (opened.1, opened.2)) as E1 by (vm_compute; reflexivity).
  assert (fm_up opened.1 opened.2 = Ret (back_up.1, back_up.2)) as E2 by (vm_compute; reflexivity).
  destruct (file_manager_open_up in_root (FsEntry (txt "sub") 0 1) (s0, pool0) opened.1 opened.2 back_up.1 back_up.2) as (H1 & H2 & _);
    [discriminate | reflexivity | discriminate | discriminate | apply (bool_decide_unpack _); vm_compute; exact I | vm_compute; lia | exact E1 | exact E2 |].
  split; [discriminate |]. split; [exact E1 |]. split; [exact E2 |]. split; [exact H1 | exact H2].
Defined.

(** The listing of the volume; the file is deleted with "d" and "y". *)
Definition names (r : res (file_manager_t * (fstate disk * pool))) : option (list (list Z) * list Z) :=
  match r with Ret (fm, _) => Some (e_name <$> entries fm, status fm) | _ => None end.
Example listing_of_volume : names (file_manager_init (s0, pool0)) = Some ([txt "A.TXT"], []).
Proof. vm_compute. reflexivity. Qed.
Example delete_and_confirm : names ((fm ← file_manager_init; fm_keys [(0, KeyEvent true 100 KEY_NONE); (0, KeyEvent true 121 KEY_NONE)] fm) (s0, pool0)) = Some ([], txt "Deleted").
Proof. vm_compute. reflexivity. Qed.

(** A name that does not fit behind the path is cut: what is copied to the clipboard then
    names another file. *)
Example clipboard_cut_name :
  let dir := 47 :: repeat 97 120 in
  exists p, fm_join_path 128 dir (txt "notes.txt") 128 = Ret p /\ p = dir ++ txt "/notes".
Proof. eexists. split; vm_compute; reflexivity. Qed.
