(* ===== verification/Desktop.v ===== *)
(** * The desktop ([src/src/ui/desktop.c]): windows, launcher, mouse and keyboard

    The statics are the record [desktop]; [windows] is the array of all eight slots, of
    which the first [window_count] are open, the last one on top.  The applications are
    reached through the class [Apps]: the structs they keep in a slot, their functions, and
    the display, over the state [W] of everything else.  A shell keeps the address of its
    terminal: [shell_term] is the slot of that terminal, and stays what it is when the slot
    is copied.  [sw] and [sh] are [gfx_width()] and [gfx_height()].  Where a
    box is moved or resized, its [int] arithmetic is checked ([int_ok]); the other sums are
    of coordinates in the bounds [DesktopProps] proves and small constants.  An access
    outside the array is a [Fault]. *)
From S2P Require Import Prelude Input Gfx BrowserView.

Definition MAX_WINDOWS : Z := 8.
Definition BORDER_SIZE : Z := 2.
Definition TITLE_HEIGHT : Z := 24.
Definition PANEL_HEIGHT : Z := 28.
Definition CLOSE_SIZE : Z := 14.
Definition RESIZE_MARGIN : Z := 6.
Definition MIN_WIN_W : Z := 260.
Definition MIN_WIN_H : Z := 160.
Definition SNAP_MARGIN : Z := 20.
Definition RESIZE_LEFT : Z := 1.
Definition RESIZE_RIGHT : Z := 2.
Definition RESIZE_TOP : Z := 4.
Definition RESIZE_BOTTOM : Z := 8.

Inductive app_type := APP_TERMINAL | APP_FILES | APP_SETTINGS | APP_ABOUT | APP_BROWSER.
#[export] Instance app_type_eq : EqDecision app_type. Proof. solve_decision. Defined.
Definition theme_count : Z := 4.
Record settings_t := Settings { idle_fps : Z; cursor_size : bool; theme_index : Z; double_buffer : bool; debug_overlay : bool }.
(** [x], [y], [w], [h] of a window. *)
Record box := Box { bx : Z; by_ : Z; bw : Z; bh : Z }.
Definition apps : list (list Z * app_type) := Eval vm_compute in
  [(txt "Terminal", APP_TERMINAL); (txt "Files", APP_FILES); (txt "Settings", APP_SETTINGS); (txt "About", APP_ABOUT); (txt "Browser", APP_BROWSER)].

(** ** The applications and the display *)
Inductive display :=
  | Draw (c : call) | DrawFront (x y w h color : Z) | Present_ | PresentRect (x y w h : Z) | EnableBackbuffer (enabled : bool).
Class Apps (W T S F B : Type) := {
  show : display -> W -> res W;
  terminal_init : box -> W -> res (T * W);
  terminal_draw : box -> T -> W -> res (T * W);
  terminal_scroll_up : T -> res T;
  terminal_scroll_down : T -> T;
  shell_init : T -> W -> res (S * T * W);
  shell_handle_key : key_event -> S -> T -> W -> res (S * T * W);
  shell_should_exit : S -> bool;
  file_manager_init : W -> res (F * W);
  file_manager_handle_key : key_event -> F -> W -> res (F * W);
  file_manager_draw : box -> F -> W -> res (F * W);
  browser_init : W -> res (B * W);
  browser_handle_key : key_event -> B -> W -> res (B * W);
  browser_draw : box -> B -> W -> res W;
  net_poll : W -> res W;
  gfx_backbuffer_enabled : W -> bool;
}.

(** ** Geometry *)
Definition point_in_rect (x y rx ry rw rh : Z) : bool := (rx <=? x) && (x <? rx + rw) && (ry <=? y) && (y <? ry + rh).
Definition in_box (x y : Z) (b : box) : bool := point_in_rect x y (bx b) (by_ b) (bw b) (bh b).
Definition window_content_bounds (b : box) : box :=
  Box (bx b + BORDER_SIZE) (by_ b + TITLE_HEIGHT) (bw b - BORDER_SIZE * 2) (bh b - TITLE_HEIGHT - BORDER_SIZE).
(** [cx + 6, cy + 6, cw - 12, ch - 12] *)
Definition inner (b : box) : box := let c := window_content_bounds b in Box (bx c + 6) (by_ c + 6) (bw c - 12) (bh c - 12).
Definition window_resize_mask (b : box) (x y : Z) : Z :=
  let mask := if x - bx b <? RESIZE_MARGIN then RESIZE_LEFT else 0 in
  let mask := if bx b + bw b - x <? RESIZE_MARGIN then Z.lor mask RESIZE_RIGHT else mask in
  let mask := if y - by_ b <? RESIZE_MARGIN then Z.lor mask RESIZE_TOP else mask in
  if by_ b + bh b - y <? RESIZE_MARGIN then Z.lor mask RESIZE_BOTTOM else mask.
Definition at_least (b : box) : box :=
  Box (bx b) (by_ b) (if bw b <? MIN_WIN_W then MIN_WIN_W else bw b) (if bh b <? MIN_WIN_H then MIN_WIN_H else bh b).
Definition has (mask bit : Z) : bool := negb (Z.land mask bit =? 0).

(** ** The launcher's search *)
Definition fold_case (c : Z) : Z := if (65 <=? c) && (c <=? 90) then c - 65 + 97 else c.
(** The inner loop at [name + j]. *)
Fixpoint match_at (query name : list Z) : bool :=
  match query, name with
  | [], _ => true
  | _, [] => false
  | qc :: query, nc :: name => if fold_case nc =? fold_case qc then match_at query name else false
  end.
Fixpoint search (query name : list Z) : bool :=
  match name with [] => false | _ :: rest => if match_at query name then true else search query rest end.
Definition launcher_matches (query name : list Z) : bool := match query with [] => true | _ => search query name end.
Fixpoint count_matches (query : list Z) (l : list (list Z * app_type)) : Z :=
  match l with [] => 0 | (name, _) :: l => (if launcher_matches query name then 1 else 0) + count_matches query l end.
Definition launcher_match_count (query : list Z) : Z := count_matches query apps.
Fixpoint match_type (query : list Z) (l : list (list Z * app_type)) (matched index : Z) : app_type :=
  match l with
  | [] => APP_TERMINAL
  | (name, ty) :: l =>
      if negb (launcher_matches query name) then match_type query l matched index
      else if matched =? index then ty else match_type query l (matched + 1) index
  end.
Definition launcher_match_type (query : list Z) (index : Z) : app_type := match_type query apps 0 index.

(** ** The statics *)
Record launcher_t := Launcher { launcher_open : bool; launcher_query : list Z; launcher_selection : Z }.
Record drag_t := Drag { dragging_index : Z; drag_offset_x : Z; drag_offset_y : Z; drag_start_x : Z; drag_start_y : Z }.
Record resize_t := Resize { resizing_index : Z; resize_mask : Z; resize_start : box }.
Record pointer := Pointer { mouse_x : Z; mouse_y : Z; mouse_buttons : Z; prev_mouse_buttons : Z; prev_cursor_x : Z; prev_cursor_y : Z }.
Record window_t (T S F B : Type) := WindowT {
  w_type : app_type; at_ : box; active : bool; minimized : bool; title : list Z;
  terminal : T; shell : S; shell_term : Z; file_manager : F; browser : B;
}.
Arguments WindowT {T S F B}. Arguments w_type {T S F B}. Arguments at_ {T S F B}. Arguments active {T S F B}. Arguments minimized {T S F B}.
Arguments title {T S F B}. Arguments terminal {T S F B}. Arguments shell {T S F B}. Arguments shell_term {T S F B}.
Arguments file_manager {T S F B}. Arguments browser {T S F B}.
Record desktop (T S F B : Type) := Desktop {
  windows : list (window_t T S F B); window_count : Z; active_index : Z;
  launcher : launcher_t; drag : drag_t; resize : resize_t; mouse : pointer; settings : settings_t; cursor_w : Z; cursor_h : Z;
}.
Arguments Desktop {T S F B}. Arguments windows {T S F B}. Arguments window_count {T S F B}. Arguments active_index {T S F B}.
Arguments launcher {T S F B}. Arguments drag {T S F B}. Arguments resize {T S F B}. Arguments mouse {T S F B}. Arguments settings {T S F B}.
Arguments cursor_w {T S F B}. Arguments cursor_h {T S F B}.

Definition launcher_reset_query (l : launcher_t) : launcher_t := Launcher (launcher_open l) [] 0.
Definition launcher_toggle (l : launcher_t) : launcher_t :=
  if launcher_open l then Launcher false (launcher_query l) (launcher_selection l) else Launcher true [] 0.
Definition launcher_close (l : launcher_t) : launcher_t := Launcher false (launcher_query l) (launcher_selection l).

Section Code.
Context {W T Sh F B : Type} `{!Apps W T Sh F B} (sw sh : Z).
Abbreviation win := (window_t T Sh F B).
Abbreviation desk := (desktop T Sh F B).
Implicit Types d : desk.
Abbreviation scroll_up := (terminal_scroll_up (W:=W) (S:=Sh) (F:=F) (B:=B)).
Abbreviation scroll_down := (terminal_scroll_down (W:=W) (S:=Sh) (F:=F) (B:=B)).
Abbreviation should_exit := (shell_should_exit (W:=W) (T:=T) (F:=F) (B:=B)).

Definition set_box (b : box) (v : win) : win := WindowT (w_type v) b (active v) (minimized v) (title v) (terminal v) (shell v) (shell_term v) (file_manager v) (browser v).
Definition set_active (x : bool) (v : win) : win := WindowT (w_type v) (at_ v) x (minimized v) (title v) (terminal v) (shell v) (shell_term v) (file_manager v) (browser v).
Definition set_minimized (x : bool) (v : win) : win := WindowT (w_type v) (at_ v) (active v) x (title v) (terminal v) (shell v) (shell_term v) (file_manager v) (browser v).
Definition set_title (x : list Z) (v : win) : win := WindowT (w_type v) (at_ v) (active v) (minimized v) x (terminal v) (shell v) (shell_term v) (file_manager v) (browser v).
Definition set_terminal (x : T) (v : win) : win := WindowT (w_type v) (at_ v) (active v) (minimized v) (title v) x (shell v) (shell_term v) (file_manager v) (browser v).
Definition set_shell (x : Sh) (t : Z) (v : win) : win := WindowT (w_type v) (at_ v) (active v) (minimized v) (title v) (terminal v) x t (file_manager v) (browser v).
Definition set_files (x : F) (v : win) : win := WindowT (w_type v) (at_ v) (active v) (minimized v) (title v) (terminal v) (shell v) (shell_term v) x (browser v).
Definition set_browser (x : B) (v : win) : win := WindowT (w_type v) (at_ v) (active v) (minimized v) (title v) (terminal v) (shell v) (shell_term v) (file_manager v) x.

Definition set_windows (ws : list win) d : desk := Desktop ws (window_count d) (active_index d) (launcher d) (drag d) (resize d) (mouse d) (settings d) (cursor_w d) (cursor_h d).
Definition set_count n d : desk := Desktop (windows d) n (active_index d) (launcher d) (drag d) (resize d) (mouse d) (settings d) (cursor_w d) (cursor_h d).
Definition set_active_index i d : desk := Desktop (windows d) (window_count d) i (launcher d) (drag d) (resize d) (mouse d) (settings d) (cursor_w d) (cursor_h d).
Definition set_launcher l d : desk := Desktop (windows d) (window_count d) (active_index d) l (drag d) (resize d) (mouse d) (settings d) (cursor_w d) (cursor_h d).
Definition set_drag g d : desk := Desktop (windows d) (window_count d) (active_index d) (launcher d) g (resize d) (mouse d) (settings d) (cursor_w d) (cursor_h d).
Definition set_resize r d : desk := Desktop (windows d) (window_count d) (active_index d) (launcher d) (drag d) r (mouse d) (settings d) (cursor_w d) (cursor_h d).
Definition set_mouse m d : desk := Desktop (windows d) (window_count d) (active_index d) (launcher d) (drag d) (resize d) m (settings d) (cursor_w d) (cursor_h d).
Definition set_settings s d : desk := Desktop (windows d) (window_count d) (active_index d) (launcher d) (drag d) (resize d) (mouse d) s (cursor_w d) (cursor_h d).
Definition set_cursor w h d : desk := Desktop (windows d) (window_count d) (active_index d) (launcher d) (drag d) (resize d) (mouse d) (settings d) w h.
Definition update (i : Z) (f : win -> win) d : res desk := v ← zget (windows d) i; ws ← zset (windows d) i (f v); Ret (set_windows ws d).

(** ** Windows *)
Definition clamp_window_to_screen (b : box) : res box :=
  let b := at_least b in
  let b := Box (if bx b <? 0 then 0 else bx b) (if by_ b <? 0 then 0 else by_ b) (bw b) (bh b) in
  right ← int_ok (bx b + bw b);
  x ← (if sw <? right then int_ok (sw - bw b) else Ret (bx b));
  bottom ← int_ok (by_ b + bh b);
  y ← (if sh - PANEL_HEIGHT <? bottom then int_ok (sh - PANEL_HEIGHT - bh b) else Ret (by_ b));
  Ret (Box x y (bw b) (bh b)).

(** [for (int i = window_count - 1; i >= 0; i--)] *)
Fixpoint find_top (n : nat) (ws : list win) (x y : Z) : res Z :=
  match n with
  | O => Ret (-1)
  | S n =>
      v ← zget ws (Z.of_nat n);
      if minimized v then find_top n ws x y
      else if in_box x y (at_ v) then Ret (Z.of_nat n) else find_top n ws x y
  end.
Definition find_top_window_at (x y : Z) d : res Z := find_top (Z.to_nat (window_count d)) (windows d) x y.

(** [windows[i] = windows[i + 1]], [n] times from [i]. *)
Fixpoint shift_windows (n : nat) (i : Z) (ws : list win) : res (list win) :=
  match n with
  | O => Ret ws
  | S n => v ← zget ws (i + 1); ws ← zset ws i v; shift_windows n (i + 1) ws
  end.
Definition follow (index last i : Z) : Z := if i =? index then last else if index <? i then i - 1 else i.
Definition desktop_raise_window (index : Z) d : res (Z * desk) :=
  if (index <? 0) || (window_count d <=? index) then Ret (index, d) else
  let last := window_count d - 1 in
  if index =? last then Ret (index, d) else
  temp ← zget (windows d) index;
  ws ← shift_windows (Z.to_nat (last - index)) index (windows d);
  ws ← zset ws last temp;
  let g := drag d in let r := resize d in
  Ret (last, Desktop ws (window_count d) (follow index last (active_index d)) (launcher d)
    (Drag (follow index last (dragging_index g)) (drag_offset_x g) (drag_offset_y g) (drag_start_x g) (drag_start_y g))
    (Resize (follow index last (resizing_index r)) (resize_mask r) (resize_start r)) (mouse d) (settings d) (cursor_w d) (cursor_h d)).

Fixpoint clear_active (n : nat) (i : Z) (ws : list win) : res (list win) :=
  match n with O => Ret ws | S n => v ← zget ws i; ws ← zset ws i (set_active false v); clear_active n (i + 1) ws end.
Definition desktop_focus_window (index : Z) d : res desk :=
  if (index <? 0) || (window_count d <=? index) then Ret d else
  ws ← clear_active (Z.to_nat (window_count d)) 0 (windows d);
  v ← zget ws index;
  if minimized v then Ret (set_active_index (-1) (set_windows ws d)) else
  ws ← zset ws index (set_active true v);
  Ret (set_active_index index (set_windows ws d)).
Definition desktop_activate_window (index : Z) (raise : bool) d : res desk :=
  if (index <? 0) || (window_count d <=? index) then Ret d else
  '(index, d) ← (if raise then desktop_raise_window index d else Ret (index, d));
  desktop_focus_window index d.
Fixpoint next_loop (n : nat) (idx dir : Z) d : res desk :=
  match n with
  | O => Ret d
  | S n =>
      let idx := Z.rem (idx + dir + window_count d) (window_count d) in
      v ← zget (windows d) idx;
      if negb (minimized v) then desktop_focus_window idx d else next_loop n idx dir d
  end.
Definition desktop_focus_next (dir : Z) d : res desk :=
  if window_count d =? 0 then Ret d else
  let start := active_index d in
  let start := if (start <? 0) || (window_count d <=? start) then 0 else start in
  next_loop (Z.to_nat (window_count d)) start dir d.

(** [mode]: 0 the whole screen, 1 its left half, 2 its right half. *)
Definition desktop_snap_window (mode : Z) (b : box) : box :=
  let screen_h := sh - PANEL_HEIGHT in
  at_least (if mode =? 0 then Box 0 0 sw screen_h
            else if mode =? 1 then Box 0 0 (Z.quot sw 2) screen_h
            else if mode =? 2 then Box (Z.quot sw 2) 0 (sw - Z.quot sw 2) screen_h else b).

Definition new_box (count : Z) : box :=
  let b := at_least (Box 0 0 (u32 (sw * 55) / 100) (u32 (sh * 55) / 100)) in
  Box (Z.quot (i32 (sw - bw b)) 2 + count * 18) (Z.quot (i32 (sh - bh b)) 2 + count * 18) (bw b) (bh b).
Definition desktop_create_window (type : app_type) d (o : W) : res (desk * W) :=
  if MAX_WINDOWS <=? window_count d then Ret (d, o) else
  let i := window_count d in
  v ← zget (windows d) i;
  let v := WindowT type (new_box i) false false (title v) (terminal v) (shell v) (shell_term v) (file_manager v) (browser v) in
  '(v, o) ← match type with
    | APP_TERMINAL =>
        '(t, o) ← terminal_init (inner (at_ v)) o; '(s, t, o) ← shell_init t o;
        Ret (set_shell s i (set_terminal t (set_title (txt "Terminal") v)), o)
    | APP_FILES => '(f, o) ← file_manager_init o; Ret (set_files f (set_title (txt "Files") v), o)
    | APP_SETTINGS => Ret (set_title (txt "Settings") v, o)
    | APP_ABOUT => Ret (set_title (txt "About") v, o)
    | APP_BROWSER => '(b, o) ← browser_init o; Ret (set_browser b (set_title (txt "Browser") v), o)
    end;
  ws ← zset (windows d) i v;
  d ← desktop_focus_window i (set_count (i + 1) (set_windows ws d));
  Ret (d, o).
Definition desktop_close_window (index : Z) d : res desk :=
  if (index <? 0) || (window_count d <=? index) then Ret d else
  let last := window_count d - 1 in
  d ← (if index =? last then Ret d else
    v ← zget (windows d) last; ws ← zset (windows d) index v; Ret (set_windows ws d));
  let d := set_count last d in
  if last =? 0 then Ret (set_active_index (-1) d) else desktop_focus_window (last - 1) d.

(** ** The launcher and the settings *)
Record layout := Layout { l_x : Z; l_y : Z; l_w : Z; l_h : Z; list_y : Z; list_bottom : Z; button_y : Z }.
Definition launcher_layout : layout :=
  let margin := 8 in
  let max_h := sh - PANEL_HEIGHT - margin * 2 in
  let max_h := if max_h <? 140 then 140 else max_h in
  let max_w := sw - margin * 2 in
  let width := if max_w <? 280 then max_w else 280 in
  let width := if width <? 160 then max_w else width in
  let pad := 12 in
  let search_y := margin + pad + FONT_HEIGHT + 6 in
  let list_start := search_y + FONT_HEIGHT + 10 in
  let button_pos := margin + max_h - pad - 24 in
  let list_end := button_pos - 8 in
  Layout margin margin width max_h list_start (if list_end <? list_start + FONT_HEIGHT then list_start + FONT_HEIGHT else list_end) button_pos.
Definition button_w (l : layout) : Z := Z.quot (l_w l - 12 * 2 - 8 * 2) 3.
(** The x of button [i]. *)
Definition button_x (l : layout) (i : Z) : Z := l_x l + 12 + (button_w l + 8) * i.

Definition apply_cursor_settings d : desk :=
  if cursor_size (settings d) then set_cursor 12 19 d else set_cursor 8 12 d.
Definition apply_buffer_settings d (o : W) : res W := show (EnableBackbuffer (double_buffer (settings d))) o.
(** The field of row [row] of the settings. *)
Definition field_at (b : box) (row width mx my : Z) : bool :=
  let c := window_content_bounds b in
  point_in_rect mx my (bx c + 12 + 90) (by_ c + 12 + FONT_HEIGHT + 8 + row * (FONT_HEIGHT + 10) - 2) width (FONT_HEIGHT + 4).
Definition settings_handle_click (b : box) (mx my : Z) d (o : W) : res (bool * desk * W) :=
  let s := settings d in
  if field_at b 0 40 mx my then
    let fps := if idle_fps s =? 30 then 40 else if idle_fps s =? 40 then 60 else 30 in
    Ret (true, set_settings (Settings fps (cursor_size s) (theme_index s) (double_buffer s) (debug_overlay s)) d, o)
  else if field_at b 1 80 mx my then
    Ret (true, apply_cursor_settings (set_settings (Settings (idle_fps s) (negb (cursor_size s)) (theme_index s) (double_buffer s) (debug_overlay s)) d), o)
  else if field_at b 2 80 mx my then
    Ret (true, set_settings (Settings (idle_fps s) (cursor_size s) (Z.rem (theme_index s + 1) theme_count) (double_buffer s) (debug_overlay s)) d, o)
  else if field_at b 3 80 mx my then
    let d := set_settings (Settings (idle_fps s) (cursor_size s) (theme_index s) (negb (double_buffer s)) (debug_overlay s)) d in
    o ← apply_buffer_settings d o; Ret (true, d, o)
  else if field_at b 4 80 mx my then
    Ret (true, set_settings (Settings (idle_fps s) (cursor_size s) (theme_index s) (double_buffer s) (negb (debug_overlay s))) d, o)
  else Ret (false, d, o).

(** ** The mouse *)
Definition drag_box (m : pointer) (g : drag_t) (b : box) : res box :=
  x ← int_ok (mouse_x m - drag_offset_x g); y ← int_ok (mouse_y m - drag_offset_y g);
  let x := if x <? 4 then 4 else x in let y := if y <? 4 then 4 else y in
  right ← int_ok (x + bw b);
  x ← (if sw - 4 <? right then int_ok (sw - bw b - 4) else Ret x);
  bottom ← int_ok (y + bh b);
  y ← (if sh - PANEL_HEIGHT - 4 <? bottom then int_ok (sh - PANEL_HEIGHT - bh b - 4) else Ret y);
  Ret (Box x y (bw b) (bh b)).
Definition resize_edges (m : pointer) (r : resize_t) (b : box) : res box :=
  let s := resize_start r in
  right ← int_ok (bx s + bw s); bottom ← int_ok (by_ s + bh s);
  b ← (if has (resize_mask r) RESIZE_LEFT then w ← int_ok (right - mouse_x m); Ret (Box (mouse_x m) (by_ b) w (bh b)) else Ret b);
  b ← (if has (resize_mask r) RESIZE_RIGHT then w ← int_ok (mouse_x m - bx s); Ret (Box (bx b) (by_ b) w (bh b)) else Ret b);
  b ← (if has (resize_mask r) RESIZE_TOP then h ← int_ok (bottom - mouse_y m); Ret (Box (bx b) (mouse_y m) (bw b) h) else Ret b);
  if has (resize_mask r) RESIZE_BOTTOM then h ← int_ok (mouse_y m - by_ s); Ret (Box (bx b) (by_ b) (bw b) h) else Ret b.
Definition resize_box (m : pointer) (r : resize_t) (b : box) : res box := b ← resize_edges m r b; clamp_window_to_screen b.
Definition left_down (buttons : Z) : bool := has buttons 1.
Definition update_drag_resize d : res (bool * desk) :=
  let m := mouse d in
  '(changed, d) ← (if (0 <=? dragging_index (drag d)) && left_down (mouse_buttons m) then
      v ← zget (windows d) (dragging_index (drag d));
      b ← drag_box m (drag d) (at_ v);
      d ← update (dragging_index (drag d)) (set_box b) d;
      Ret (negb (bx b =? bx (at_ v)) || negb (by_ b =? by_ (at_ v)), d)
    else Ret (false, d));
  if (0 <=? resizing_index (resize d)) && left_down (mouse_buttons m) then
    v ← zget (windows d) (resizing_index (resize d));
    b ← resize_box m (resize d) (at_ v);
    d ← update (resizing_index (resize d)) (set_box b) d;
    Ret (true, d)
  else Ret (changed, d).

(** What a click leads to; [halt] and [reboot] do not return. *)
Inductive outcome := Went (changed : bool) | Halted | Rebooted.

(** The window whose button of the task bar is at the mouse, from [i] on. *)
Fixpoint task_at (n : nat) (i task_x x y : Z) : option Z :=
  match n with
  | O => None
  | S n => if point_in_rect x y task_x (sh - PANEL_HEIGHT + 4) 90 (PANEL_HEIGHT - 8) then Some i else task_at n (i + 1) (task_x + 96) x y
  end.
Definition task_click (i : Z) d : res desk :=
  v ← zget (windows d) i;
  if minimized v then d ← update i (set_minimized false) d; desktop_focus_window i d
  else if active_index d =? i then
    d ← update i (fun v => set_active false (set_minimized true v)) d; Ret (set_active_index (-1) d)
  else desktop_focus_window i d.
(** [None]: the click is not for the launcher. *)
Definition launcher_click d (o : W) : res (option (outcome * desk * W)) :=
  let x := mouse_x (mouse d) in let y := mouse_y (mouse d) in
  let l := launcher_layout in
  if point_in_rect x y (button_x l 0) (button_y l) (button_w l) 24 then Ret (Some (Halted, d, o)) else
  if point_in_rect x y (button_x l 1) (button_y l) (button_w l) 24 then Ret (Some (Halted, d, o)) else
  if point_in_rect x y (button_x l 2) (button_y l) (button_w l) 24 then Ret (Some (Rebooted, d, o)) else
  if (list_y l <=? y) && (y <? list_bottom l) then
    let index := Z.quot (y - list_y l) (FONT_HEIGHT + 6) in
    if (0 <=? index) && (index <? launcher_match_count (launcher_query (launcher d))) then
      '(d, o) ← desktop_create_window (launcher_match_type (launcher_query (launcher d)) index) d o;
      Ret (Some (Went true, set_launcher (launcher_close (launcher d)) d, o))
    else Ret None
  else Ret None.
(** On the window [hit], found under the mouse. *)
Definition window_click (hit : Z) d (o : W) : res (outcome * desk * W) :=
  let x := mouse_x (mouse d) in let y := mouse_y (mouse d) in
  '(hit, d) ← desktop_raise_window hit d;
  d ← desktop_activate_window hit false d;
  v ← zget (windows d) hit;
  let b := at_ v in
  if point_in_rect x y (bx b + bw b - CLOSE_SIZE - 6) (by_ b + 5) CLOSE_SIZE CLOSE_SIZE then
    d ← desktop_close_window hit d; Ret (Went true, d, o)
  else
    let mask := window_resize_mask b x y in
    if negb (mask =? 0) then Ret (Went true, set_resize (Resize hit mask b) d, o) else
    if point_in_rect x y (bx b) (by_ b) (bw b) TITLE_HEIGHT then
      Ret (Went true, set_drag (Drag hit (x - bx b) (y - by_ b) (bx b) (by_ b)) d, o) else
    if bool_decide (w_type v = APP_SETTINGS) then
      '(_, d, o) ← settings_handle_click b x y d o; Ret (Went true, d, o)
    else Ret (Went true, d, o).
Definition snap_box (x y : Z) : option box :=
  if x <? SNAP_MARGIN then Some (Box 0 0 (Z.quot sw 2) (sh - PANEL_HEIGHT)) else
  if sw - SNAP_MARGIN <? x then Some (Box (Z.quot sw 2) 0 (sw - Z.quot sw 2) (sh - PANEL_HEIGHT)) else
  if y <? SNAP_MARGIN then Some (Box 0 0 sw (sh - PANEL_HEIGHT)) else None.
Definition release_click d : res (bool * desk) :=
  '(changed, d) ← (if 0 <=? dragging_index (drag d) then
      v ← zget (windows d) (dragging_index (drag d));
      match snap_box (mouse_x (mouse d)) (mouse_y (mouse d)) with
      | Some b => d ← update (dragging_index (drag d)) (set_box b) d; Ret (true, d)
      | None => Ret (false, d)
      end
    else Ret (false, d));
  let g := drag d in
  Ret (changed, set_resize (Resize (-1) 0 (resize_start (resize d)))
                  (set_drag (Drag (-1) (drag_offset_x g) (drag_offset_y g) (drag_start_x g) (drag_start_y g)) d)).
Definition press_click d (o : W) : res (outcome * desk * W) :=
  let x := mouse_x (mouse d) in let y := mouse_y (mouse d) in
  if point_in_rect x y 8 (sh - PANEL_HEIGHT + 4) 72 (PANEL_HEIGHT - 8) then
    Ret (Went true, set_launcher (launcher_toggle (launcher d)) d, o) else
  match task_at (Z.to_nat (window_count d)) 0 90 x y with
  | Some i => d ← task_click i d; Ret (Went true, d, o)
  | None =>
      r ← (if launcher_open (launcher d) then launcher_click d o else Ret None);
      match r with
      | Some r => Ret r
      | None =>
          hit ← find_top_window_at x y d;
          if 0 <=? hit then window_click hit d o else Ret (Went false, d, o)
      end
  end.
Definition handle_mouse_click d (o : W) : res (outcome * desk * W) :=
  let now := left_down (mouse_buttons (mouse d)) in
  let before := left_down (prev_mouse_buttons (mouse d)) in
  if now && negb before then press_click d o
  else if negb now && before then '(changed, d) ← release_click d; Ret (Went changed, d, o)
  else Ret (Went false, d, o).

(** ** The keyboard *)
(** The locals of the loop that a key or the mouse sets. *)
Record flags := Flags { dirty_full : bool; dirty_panel : bool; dirty_window : Z; cursor_dirty : bool; activity : bool }.
Definition mark_all (f : flags) : flags := Flags true true (dirty_window f) true true.
Definition mark_panel (f : flags) : flags := Flags (dirty_full f) true (dirty_window f) (cursor_dirty f) true.
Definition mark_window (i : Z) (f : flags) : flags := Flags (dirty_full f) (dirty_panel f) i true true.
Definition kstate : Type := desk * flags * W.

(** While the launcher is open it takes every key. *)
Definition launcher_key (e : key_event) (k : kstate) : res kstate :=
  let '(d, f, o) := k in
  let l := launcher d in
  if pressed e && bool_decide (key e = KEY_ESC) then
    Ret (set_launcher (launcher_close l) d, Flags true (dirty_panel f) (dirty_window f) true true, o) else
  if pressed e && bool_decide (key e = KEY_BACKSPACE) then
    Ret (match launcher_query l with [] => (d, f, o) | q => (set_launcher (Launcher (launcher_open l) (removelast q) 0) d, mark_panel f, o) end) else
  if pressed e && bool_decide (key e = KEY_UP \/ key e = KEY_DOWN) then
    let matches := launcher_match_count (launcher_query l) in let s := launcher_selection l in
    let s := if 0 <? matches then
        if bool_decide (key e = KEY_UP) && (0 <? s) then s - 1
        else if bool_decide (key e = KEY_DOWN) && (s + 1 <? matches) then s + 1 else s
      else s in
    Ret (set_launcher (Launcher (launcher_open l) (launcher_query l) s) d, mark_panel f, o) else
  if pressed e && bool_decide (key e = KEY_ENTER) then
    '(d, o) ← (if 0 <? launcher_match_count (launcher_query l)
               then desktop_create_window (launcher_match_type (launcher_query l) (launcher_selection l)) d o else Ret (d, o));
    Ret (set_launcher (launcher_close (launcher d)) d, mark_all f, o) else
  if (32 <=? ascii e) && (ascii e <? 127) then
    Ret (if Z.of_nat (length (launcher_query l)) <? 31
         then (set_launcher (Launcher (launcher_open l) (launcher_query l ++ [ascii e]) 0) d, mark_panel f, o) else (d, f, o))
  else Ret (d, f, o).

(** What Alt and a key do; [None]: nothing, the key is for the window. *)
Definition letter (c : Z) (e : key_event) : bool := (ascii e =? c) || (ascii e =? c - 32).
Definition snap_active (mode : Z) d : res desk :=
  if 0 <=? active_index d then update (active_index d) (fun v => set_box (desktop_snap_window mode (at_ v)) v) d else Ret d.
Definition alt_key (e : key_event) d (o : W) : res (option (desk * W)) :=
  if bool_decide (key e = KEY_ENTER) then r ← desktop_create_window APP_TERMINAL d o; Ret (Some r) else
  if bool_decide (key e = KEY_LEFT) then d ← snap_active 1 d; Ret (Some (d, o)) else
  if bool_decide (key e = KEY_RIGHT) then d ← snap_active 2 d; Ret (Some (d, o)) else
  if bool_decide (key e = KEY_UP) then d ← snap_active 0 d; Ret (Some (d, o)) else
  if letter 102 e then r ← desktop_create_window APP_FILES d o; Ret (Some r) else
  if letter 98 e then r ← desktop_create_window APP_BROWSER d o; Ret (Some r) else
  if letter 115 e then r ← desktop_create_window APP_SETTINGS d o; Ret (Some r) else
  if letter 97 e then r ← desktop_create_window APP_ABOUT d o; Ret (Some r) else
  if letter 113 e then d ← (if 0 <=? active_index d then desktop_close_window (active_index d) d else Ret d); Ret (Some (d, o)) else
  if letter 109 e then d ← (if 0 <=? active_index d then update (active_index d) (set_minimized true) d else Ret d); Ret (Some (d, o))
  else Ret None.

(** The key for the shell of slot [i]; it writes to the terminal it knows. *)
Definition shell_key (i : Z) (v : win) (e : key_event) d (f : flags) (o : W) : res kstate :=
  target ← zget (windows d) (shell_term v);
  '(s, t, o) ← shell_handle_key e (shell v) (terminal target) o;
  d ← update (shell_term v) (set_terminal t) d;
  d ← update i (fun v : win => set_shell s (shell_term v) v) d;
  if should_exit s then d ← desktop_close_window i d; Ret (d, mark_all (mark_window i f), o)
  else Ret (d, mark_window i f, o).
Definition scroll_key (i : Z) (v : win) (up : bool) d (f : flags) (o : W) : res kstate :=
  t ← (if up return res T then scroll_up (terminal v) else Ret (scroll_down (terminal v)));
  d ← update i (set_terminal t) d; Ret (d, mark_window i f, o).
(** The key for the active window. *)
Definition active_key (e : key_event) (shift : bool) (k : kstate) : res kstate :=
  let '(d, f, o) := k in
  let i := active_index d in
  if i <? 0 then Ret k else
  v ← zget (windows d) i;
  match w_type v return res kstate with
  | APP_FILES =>
      '(x, o) ← file_manager_handle_key e (file_manager v) o;
      d ← update i (set_files x) d; Ret (d, mark_window i f, o)
  | APP_BROWSER =>
      '(x, o) ← browser_handle_key e (browser v) o;
      d ← update i (set_browser x) d; Ret (d, mark_window i f, o)
  | APP_TERMINAL =>
      if shift && bool_decide (key e = KEY_UP \/ key e = KEY_DOWN) then scroll_key i v (bool_decide (key e = KEY_UP)) d f o
      else shell_key i v e d f o
  | _ => Ret k
  end.

(** A key of the queue; [alt] and [shift] are the modifiers. *)
Definition handle_key (e : key_event) (alt shift : bool) (k : kstate) : res kstate :=
  let '(d, f, o) := k in
  if pressed e && bool_decide (key e = KEY_WIN) then Ret (set_launcher (launcher_toggle (launcher d)) d, mark_all f, o) else
  if pressed e && bool_decide (key e = KEY_TAB) && alt then
    d ← desktop_focus_next (if shift then -1 else 1) d; Ret (d, mark_all f, o) else
  if launcher_open (launcher d) then launcher_key e (d, f, o) else
  if pressed e && alt then
    r ← alt_key e d o;
    match r with Some (d, o) => Ret (d, mark_all f, o) | None => active_key e shift (d, f, o) end
  else active_key e shift (d, f, o).

(** A mouse event of the queue. *)
Definition poll_mouse (e : mouse_event) (d : desk) (f : flags) : desk * flags :=
  let m := mouse d in
  let x := if sw - 1 <? ev_x e then sw - 1 else ev_x e in
  let y := if sh - 1 <? ev_y e then sh - 1 else ev_y e in
  (set_mouse (Pointer x y (ev_buttons e) (prev_mouse_buttons m) (prev_cursor_x m) (prev_cursor_y m)) d,
   Flags (dirty_full f) (dirty_panel f) (dirty_window f)
     (if negb (x =? prev_cursor_x m) || negb (y =? prev_cursor_y m) then true else cursor_dirty f) true).

(** After the queues: a click when the buttons changed, then dragging. *)
Definition mouse_turn (d : desk) (f : flags) (o : W) : res (outcome * kstate) :=
  let m := mouse d in
  '(r, (d, f, o)) ← (if negb (mouse_buttons m =? prev_mouse_buttons m) then
      '(r, d, o) ← handle_mouse_click d o;
      let f := match r with Went true => mark_all f | _ => f end in
      let m := mouse d in
      Ret (r, (set_mouse (Pointer (mouse_x m) (mouse_y m) (mouse_buttons m) (mouse_buttons m) (prev_cursor_x m) (prev_cursor_y m)) d, f, o))
    else Ret (Went false, (d, f, o)));
  match r with
  | Went _ =>
      '(changed, d) ← update_drag_resize d;
      Ret (r, (d, if changed : bool then Flags true (dirty_panel f) (dirty_window f) true true else f, o))
  | _ => Ret (r, (d, f, o))
  end.

(** ** Start *)
(** The statics before [desktop_init]; [zero] is a slot of zeros. *)
Definition statics (zero : win) : desk :=
  Desktop (replicate (Z.to_nat MAX_WINDOWS) zero) 0 (-1) (Launcher false [] 0) (Drag (-1) 0 0 0 0) (Resize (-1) 0 (Box 0 0 0 0))
    (Pointer 20 20 0 0 20 20) (Settings 40 false 0 true false) 8 12.
Definition desktop_init d (o : W) : res (desk * W) :=
  let d := set_active_index (-1) (set_count 0 d) in
  let d := apply_cursor_settings (set_launcher (Launcher false [] 0) d) in
  o ← apply_buffer_settings d o;
  desktop_create_window APP_TERMINAL d o.
End Code.
