(* ===== verification/DesktopProps.v ===== *)
(** * The desktop: its windows stay consistent, whatever the keys and the mouse do *)
From S2P Require Import Prelude Input Gfx BrowserView Desktop.

(** ** Computations that return *)
Definition ends {A} (m : res A) (Q : A -> Prop) : Prop := exists a, m = Ret a /\ Q a.
Lemma ends_ret {A} (a : A) (Q : A -> Prop) : Q a -> ends (Ret a) Q.
Proof. by exists a. Qed.
Lemma ends_bind {A B} (m : res A) (f : A -> res B) (R : A -> Prop) Q : ends m R -> (forall a, R a -> ends (f a) Q) -> ends (m ≫= f) Q.
Proof. intros (a & -> & Ha) Hf. by apply Hf. Qed.
Lemma ends_if {A} (b : bool) (m n : res A) Q : (b = true -> ends m Q) -> (b = false -> ends n Q) -> ends (if b then m else n) Q.
Proof. destruct b; auto. Qed.
Lemma ends_weaken {A} (m : res A) (P Q : A -> Prop) : ends m P -> (forall a, P a -> Q a) -> ends m Q.
Proof. intros (a & E & Ha) H. exists a. auto. Qed.
Lemma zget_ends {A} (l : list A) i : 0 <= i < Z.of_nat (length l) -> ends (zget l i) (fun v => l !! Z.to_nat i = Some v).
Proof.
  intros Hi. destruct (lookup_lt_is_Some_2 l (Z.to_nat i)) as [v E]; [lia |]. exists v. split; [| done]. apply zget_ok. split; [lia | done].
Qed.
Lemma zset_at {A} (l : list A) i x : 0 <= i < Z.of_nat (length l) -> zset l i x = Ret (<[Z.to_nat i := x]> l).
Proof. intros Hi. by apply zset_ok. Qed.
Lemma zget_known {A} (l : list A) i v : 0 <= i -> l !! Z.to_nat i = Some v -> zget l i = Ret v.
Proof. intros. by apply zget_ok. Qed.

Section Arrays.
Context {T Sh F B : Type}.
Abbreviation win := (window_t T Sh F B).
Abbreviation desk := (desktop T Sh F B).
Implicit Types (d : desk) (ws : list win).

(** ** The loops over the array *)
Lemma shift_ok n : forall i ws, (i + n < length ws)%nat ->
  exists ws', shift_windows n (Z.of_nat i) ws = Ret ws' /\ length ws' = length ws /\
    forall j, ws' !! j = if decide (i <= j < i + n)%nat then ws !! S j else ws !! j.
Proof.
  induction n as [|n IH]; intros i ws Hl; cbn [shift_windows].
  - exists ws. split_and!; [done | done |]. intros j. by rewrite decide_False by lia.
  - destruct (lookup_lt_is_Some_2 ws (S i)) as [v Ev]; [lia |].
    replace (Z.of_nat i + 1) with (Z.of_nat (S i)) by lia.
    rewrite (bind_ret _ _ _ (zget_nat _ _ _ Ev)), (bind_ret _ _ _ (zset_nat ws i v ltac:(lia))).
    destruct (IH (S i) (<[i:=v]> ws)) as (ws' & -> & Hlen & Hj); [rewrite length_insert; lia |]. exists ws'. split_and!; [done | by rewrite Hlen, length_insert |].
    intros j. rewrite Hj. destruct (decide (i = j)) as [<-|Hne].
    + rewrite decide_False by lia. rewrite decide_True by lia. by rewrite list_lookup_insert_eq by lia.
    + destruct (decide (S i <= j < S i + n)%nat), (decide (i <= j < i + S n)%nat); try lia; by rewrite list_lookup_insert_ne by lia.
Qed.

(** The array after a raise: the window goes behind the others. *)
Definition unfollow (i last j : nat) : nat := if decide (j = last) then i else if decide (i <= j < last)%nat then S j else j.
Lemma raise_last d : 0 < window_count d -> desktop_raise_window (window_count d - 1) d = Ret (window_count d - 1, d).
Proof.
  intros H. unfold desktop_raise_window. rewrite (proj2 (Z.ltb_ge _ 0)), (proj2 (Z.leb_gt (window_count d) _)) by lia. cbn [orb]. by rewrite Z.eqb_refl.
Qed.
Lemma raise_ok index d : 0 <= index < window_count d - 1 -> window_count d <= Z.of_nat (length (windows d)) ->
  exists ws, desktop_raise_window index d = Ret (window_count d - 1,
      Desktop ws (window_count d) (follow index (window_count d - 1) (active_index d)) (launcher d)
        (Drag (follow index (window_count d - 1) (dragging_index (drag d))) (drag_offset_x (drag d)) (drag_offset_y (drag d)) (drag_start_x (drag d)) (drag_start_y (drag d)))
        (Resize (follow index (window_count d - 1) (resizing_index (resize d))) (resize_mask (resize d)) (resize_start (resize d)))
        (mouse d) (settings d) (cursor_w d) (cursor_h d)) /\
    length ws = length (windows d) /\ forall j, ws !! j = windows d !! unfollow (Z.to_nat index) (Z.to_nat (window_count d - 1)) j.
Proof.
  intros Hi Hc. unfold desktop_raise_window. rewrite (proj2 (Z.ltb_ge _ 0)), (proj2 (Z.leb_gt (window_count d) _)) by lia. cbn [orb].
  rewrite (proj2 (Z.eqb_neq _ _)) by lia.
  destruct (lookup_lt_is_Some_2 (windows d) (Z.to_nat index)) as [v Ev]; [lia |]. rewrite (bind_ret _ _ _ (zget_known (windows d) index v ltac:(lia) Ev)).
  destruct (shift_ok (Z.to_nat (window_count d - 1 - index)) (Z.to_nat index) (windows d)) as (ws & E & Hl & Hj); [lia |]. rewrite Z2Nat.id in E by lia.
  assert (zset ws (window_count d - 1) v = Ret (<[Z.to_nat (window_count d - 1):=v]> ws)) as E2 by (apply zset_at; lia).
  rewrite (bind_ret _ _ _ E), (bind_ret _ _ _ E2). eexists. split; [reflexivity |]. split; [by rewrite length_insert |].
  intros j. unfold unfollow. destruct (decide (j = Z.to_nat (window_count d - 1))) as [->|Hne].
  - by rewrite list_lookup_insert_eq by lia.
  - rewrite list_lookup_insert_ne, Hj by done. destruct (decide (Z.to_nat index <= j < Z.to_nat index + Z.to_nat (window_count d - 1 - index))%nat), (decide (Z.to_nat index <= j < Z.to_nat (window_count d - 1))%nat); [done | lia | lia | done].
Qed.

(** The array after a change of focus: [active] is set at [a] only. *)
Definition focused (n : nat) (a : Z) ws : list win := imap (fun j v => if decide (j < n)%nat then set_active (Z.of_nat j =? a) v else v) ws.
Lemma clear_active_ok n : forall i ws, (i + n <= length ws)%nat ->
  exists ws', clear_active n (Z.of_nat i) ws = Ret ws' /\ length ws' = length ws /\
    forall j, ws' !! j = if decide (i <= j < i + n)%nat then set_active false <$> ws !! j else ws !! j.
Proof.
  induction n as [|n IH]; intros i ws Hl; cbn [clear_active].
  - exists ws. split_and!; [done | done |]. intros j. by rewrite decide_False by lia.
  - destruct (lookup_lt_is_Some_2 ws i) as [v Ev]; [lia |].
    rewrite (bind_ret _ _ _ (zget_nat _ _ _ Ev)), (bind_ret _ _ _ (zset_nat ws i (set_active false v) ltac:(lia))).
    replace (Z.of_nat i + 1) with (Z.of_nat (S i)) by lia.
    destruct (IH (S i) (<[i:=set_active false v]> ws)) as (ws' & -> & Hlen & Hj); [rewrite length_insert; lia |]. exists ws'. split_and!; [done | by rewrite Hlen, length_insert |].
    intros j. rewrite Hj. destruct (decide (i = j)) as [<-|Hne].
    + rewrite decide_False by lia. rewrite decide_True by lia. by rewrite list_lookup_insert_eq, Ev by lia.
    + destruct (decide (S i <= j < S i + n)%nat), (decide (i <= j < i + S n)%nat); try lia; by rewrite list_lookup_insert_ne by lia.
Qed.
Lemma focus_ok index d v : 0 <= index < window_count d -> window_count d <= Z.of_nat (length (windows d)) -> windows d !! Z.to_nat index = Some v ->
  let a := if minimized v then -1 else index in
  desktop_focus_window index d = Ret (set_active_index a (set_windows (focused (Z.to_nat (window_count d)) a (windows d)) d)).
Proof.
  intros Hi Hc Ev a. unfold desktop_focus_window. rewrite (proj2 (Z.ltb_ge _ 0)), (proj2 (Z.leb_gt (window_count d) _)) by lia. cbn [orb].
  destruct (clear_active_ok (Z.to_nat (window_count d)) 0 (windows d)) as (ws & E & Hl & Hj); [lia |]. change (Z.of_nat 0) with 0 in E. rewrite (bind_ret _ _ _ E).
  assert (ws !! Z.to_nat index = Some (set_active false v)) as Ew by (rewrite Hj, decide_True, Ev by lia; done).
  rewrite (bind_ret _ _ _ (zget_known ws index _ ltac:(lia) Ew)). cbn [minimized set_active]. unfold a. destruct (minimized v) eqn:Em.
  - f_equal. f_equal. f_equal. apply list_eq. intros j. rewrite Hj. unfold focused. rewrite list_lookup_imap. destruct (windows d !! j) as [u|]; [| by repeat case_decide].
    destruct (decide (0 <= j < 0 + Z.to_nat (window_count d))%nat), (decide (j < Z.to_nat (window_count d))%nat); try lia; [| done].
    cbn. by rewrite (proj2 (Z.eqb_neq (Z.of_nat j) (-1))) by lia.
  - rewrite (bind_ret _ _ _ (zset_at ws index _ ltac:(lia))). f_equal. f_equal. f_equal. apply list_eq. intros j. unfold focused. rewrite list_lookup_imap.
    destruct (decide (j = Z.to_nat index)) as [->|Hne].
    + rewrite list_lookup_insert_eq, Ev by lia. cbn. rewrite decide_True by lia. rewrite Z2Nat.id, Z.eqb_refl by lia. done.
    + rewrite list_lookup_insert_ne, Hj by done. destruct (windows d !! j) as [u|]; [| by repeat case_decide].
      destruct (decide (0 <= j < 0 + Z.to_nat (window_count d))%nat), (decide (j < Z.to_nat (window_count d))%nat); try lia; [| done].
      cbn. by rewrite (proj2 (Z.eqb_neq (Z.of_nat j) index)) by lia.
Qed.

(** The topmost window at a point that is not minimized. *)
Definition hit_by x y (v : win) : bool := negb (minimized v) && in_box x y (at_ v).
Lemma find_top_ok n ws x y : (n <= length ws)%nat ->
  (find_top n ws x y = Ret (-1) /\ forall i v, (i < n)%nat -> ws !! i = Some v -> hit_by x y v = false) \/
  (exists i v, find_top n ws x y = Ret (Z.of_nat i) /\ (i < n)%nat /\ ws !! i = Some v /\ hit_by x y v = true /\
    forall j u, (i < j < n)%nat -> ws !! j = Some u -> hit_by x y u = false).
Proof.
  induction n as [|n IH]; intros Hl; cbn [find_top]; [left; split; [done | lia] |].
  destruct (lookup_lt_is_Some_2 ws n) as [v Ev]; [lia |]. rewrite (bind_ret _ _ _ (zget_nat _ _ _ Ev)).
  assert (forall P : Prop, (minimized v = true \/ in_box x y (at_ v) = false -> P) -> (minimized v = false /\ in_box x y (at_ v) = true -> P) -> P) as Hcase
    by (intros P; destruct (minimized v), (in_box x y (at_ v)); intuition congruence).
  apply Hcase.
  - intros Hno. assert (hit_by x y v = false) as Hv by (unfold hit_by; destruct Hno as [-> | ->]; [done | by rewrite andb_false_r]).
    assert ((if minimized v then find_top n ws x y else if in_box x y (at_ v) then Ret (Z.of_nat n) else find_top n ws x y) = find_top n ws x y) as ->
      by (destruct Hno as [-> | ->]; [done | by destruct (minimized v)]).
    assert (forall j u, (j = n \/ (j < n)%nat /\ hit_by x y u = false) -> ws !! j = Some u -> hit_by x y u = false) as Hext by (intros j u [-> | [_ ?]] E; [congruence | done]).
    destruct (IH ltac:(lia)) as [[-> H]|(i & u & -> & Hi & Eu & Hu & H)]; [left | right].
    + split; [done |]. intros j u Hj Eu. destruct (decide (j = n)) as [->|]; [congruence | apply (H j); [lia | done]].
    + exists i, u. split_and!; [done | lia | done | done |]. intros j t Hj Et. destruct (decide (j = n)) as [->|]; [congruence | apply (H j); [lia | done]].
  - intros [E1 E2]. rewrite E1, E2. right. exists n, v. split_and!; [done | lia | done | unfold hit_by; by rewrite E1, E2 |]. intros; lia.
Qed.

End Arrays.

(** ** The invariant *)
Section Inv.
Context {W T Sh F B : Type} `{!Apps W T Sh F B} (sw sh : Z).
Abbreviation win := (window_t T Sh F B).
Abbreviation desk := (desktop T Sh F B).
Implicit Types (d : desk) (ws : list win).
(** The size of the screen, and a bound on the coordinates. *)
Variable V : Z.
Hypothesis Hscreen : 0 <= sw <= 2 ^ 16 /\ 0 <= sh <= 2 ^ 16.
Hypothesis HV : sw + sh + 1000 <= V.
#[local] Set Default Proof Using "Type* Hscreen HV".
Definition launcher_ok (l : launcher_t) : Prop :=
  (length (launcher_query l) <= 31)%nat /\ 0 <= launcher_selection l /\
  (launcher_selection l = 0 \/ launcher_selection l < launcher_match_count (launcher_query l)).
Definition settings_ok (s : settings_t) : Prop := (idle_fps s = 30 \/ idle_fps s = 40 \/ idle_fps s = 60) /\ 0 <= theme_index s < theme_count.
Definition box_ok (b : box) : Prop :=
  0 <= bw b <= V /\ 0 <= bh b <= V /\ sw - V - 4 <= bx b <= V /\ sh - V - 32 <= by_ b <= V /\ bx b + bw b <= V + 4 /\ by_ b + bh b <= V + 4.
Definition mouse_ok (m : pointer) : Prop := 0 <= mouse_x m <= sw + 20 /\ 0 <= mouse_y m <= sh + 20.
Definition drag_ok (g : drag_t) : Prop := - (V + 64) <= drag_offset_x g <= V + 64 /\ - (V + 64) <= drag_offset_y g <= V + 64.
(** A terminal's shell knows the terminal of a slot. *)
Definition term_ok (v : win) : Prop := w_type v = APP_TERMINAL -> 0 <= shell_term v < MAX_WINDOWS.
(** The slots, without the focus. *)
Record slots_ok d : Prop := {
  k_slots : length (windows d) = Z.to_nat MAX_WINDOWS; k_count : 0 <= window_count d <= MAX_WINDOWS;
  k_shell : forall i v, windows d !! i = Some v -> Z.of_nat i < window_count d -> term_ok v;
  k_drag : -1 <= dragging_index (drag d) < MAX_WINDOWS; k_resize : -1 <= resizing_index (resize d) < MAX_WINDOWS;
  k_launcher : launcher_ok (launcher d); k_settings : settings_ok (settings d);
  k_cursor : (cursor_w d, cursor_h d) = if cursor_size (settings d) then (12, 19) else (8, 12);
  k_boxes : forall i v, windows d !! i = Some v -> box_ok (at_ v);
  k_start : box_ok (resize_start (resize d)); k_mouse : mouse_ok (mouse d); k_offset : drag_ok (drag d);
}.
(** One window at most is active: that of [active_index]. *)
Definition focus_inv d : Prop :=
  (active_index d = -1 \/ 0 <= active_index d < window_count d) /\
  forall i v, windows d !! i = Some v -> Z.of_nat i < window_count d -> active v = (Z.of_nat i =? active_index d).
Definition desk_ok d : Prop := slots_ok d /\ focus_inv d.

(** Steps that leave the slots alone. *)
Definition keeps_slots (f : desk -> desk) : Prop := forall d, desk_ok d -> desk_ok (f d).
Lemma desk_ok_same d d' : desk_ok d -> windows d' = windows d -> window_count d' = window_count d -> active_index d' = active_index d ->
  -1 <= dragging_index (drag d') < MAX_WINDOWS -> -1 <= resizing_index (resize d') < MAX_WINDOWS -> launcher_ok (launcher d') -> settings_ok (settings d') ->
  (cursor_w d', cursor_h d') = (if cursor_size (settings d') then (12, 19) else (8, 12)) ->
  box_ok (resize_start (resize d')) -> mouse_ok (mouse d') -> drag_ok (drag d') -> desk_ok d'.
Proof.
  intros [[] [F1 F2]] Hw Hc Ha. intros. split; [split; rewrite ?Hw, ?Hc; done |]. split; rewrite ?Ha, ?Hc; [done |]. intros i v. rewrite Hw. apply F2.
Qed.
Lemma focus_desk_ok index d : slots_ok d -> 0 <= index < window_count d -> ends (desktop_focus_window index d) (fun d' => desk_ok d' /\ window_count d' = window_count d /\
    length (windows d') = length (windows d)).
Proof.
  intros Hs Hi. pose proof Hs as []. destruct (lookup_lt_is_Some_2 (windows d) (Z.to_nat index)) as [v Ev]; [lia |].
  rewrite (focus_ok index d v) by (try done; lia). apply ends_ret. set (a := if minimized v then -1 else index).
  split; [| split; [done | apply length_imap]]. split.
  - split; try done; cbn [windows set_active_index set_windows]; [by unfold focused; rewrite length_imap | |];
      intros i u; unfold focused; rewrite list_lookup_imap; intros (u' & Eu & ->)%fmap_Some; destruct (decide _); [apply (k_shell0 _ _ Eu).. | apply (k_boxes0 _ _ Eu) | apply (k_boxes0 _ _ Eu)].
  - split; [unfold a; cbn; destruct (minimized v); lia |]. cbn [windows window_count active_index set_active_index set_windows].
    intros i u. unfold focused. rewrite list_lookup_imap. intros (u' & Eu & ->)%fmap_Some Hlt. by rewrite decide_True by lia.
Qed.
Lemma focus_ends index d : desk_ok d -> ends (desktop_focus_window index d) desk_ok.
Proof.
  intros H. destruct (decide (0 <= index < window_count d)) as [Hi|Hi].
  - eapply ends_weaken; [apply focus_desk_ok; [apply H | done] |]. by intros d' [? _].
  - unfold desktop_focus_window. replace ((index <? 0) || (window_count d <=? index)) with true by lia. by apply ends_ret.
Qed.
(** A change of one slot that leaves [active] and the terminal of the shell in range. *)
Lemma update_ends i (f : win -> win) d : desk_ok d -> 0 <= i < MAX_WINDOWS -> (forall v, active (f v) = active v) ->
  (forall v, w_type (f v) = w_type v /\ shell_term (f v) = shell_term v) -> (forall v, box_ok (at_ v) -> box_ok (at_ (f v))) ->
  ends (update i f d) (fun d' => desk_ok d' /\ exists v, windows d !! Z.to_nat i = Some v /\ d' = set_windows (<[Z.to_nat i := f v]> (windows d)) d).
Proof.
  intros [Hs [F1 F2]] Hi Hf Ht Hb. pose proof Hs as []. destruct (lookup_lt_is_Some_2 (windows d) (Z.to_nat i)) as [v Ev]; [lia |].
  unfold update. rewrite (bind_ret _ _ _ (zget_known (windows d) i v ltac:(lia) Ev)).
  assert (zset (windows d) i (f v) = Ret (<[Z.to_nat i := f v]> (windows d))) as E by (apply zset_at; lia). rewrite (bind_ret _ _ _ E).
  apply ends_ret. split; [| by exists v]. split.
  - split; try done; cbn [windows set_windows window_count]; [by rewrite length_insert | |]; intros j u [(<- & <- & _)|[_ Eu]]%list_lookup_insert_Some; [| eauto | eauto | eauto].
    intros Hj. destruct (Ht v) as [E1 E2]. unfold term_ok. rewrite E1, E2. by apply (k_shell0 _ _ Ev).
  - split; [done |]. cbn [windows set_windows active_index window_count]. intros j u [(<- & <- & _)|[_ Eu]]%list_lookup_insert_Some Hj; [rewrite Hf |]; eauto.
Qed.
Lemma follow_range index last i : 0 <= index < last -> last < MAX_WINDOWS -> -1 <= i < MAX_WINDOWS -> -1 <= follow index last i < MAX_WINDOWS.
Proof. unfold follow. intros. destruct (Z.eqb_spec i index); [lia |]. destruct (Z.ltb_spec index i); lia. Qed.
Lemma unfollow_lt index n i : 0 <= index < n -> Z.of_nat i < n -> Z.of_nat (unfollow (Z.to_nat index) (Z.to_nat (n - 1)) i) < n.
Proof. intros. unfold unfollow. repeat case_decide; lia. Qed.
Lemma raise_ends index d : desk_ok d -> 0 <= index < window_count d ->
  ends (desktop_raise_window index d) (fun r => desk_ok r.2 /\ r.1 = window_count d - 1 /\ window_count r.2 = window_count d /\ settings r.2 = settings d /\ mouse r.2 = mouse d).
Proof.
  intros H Hi. destruct (decide (index = window_count d - 1)) as [->|Hne]; [rewrite raise_last by lia; by apply ends_ret |].
  destruct H as [Hs [F1 F2]]. pose proof Hs as []. unfold MAX_WINDOWS in *.
  destruct (raise_ok index d ltac:(lia) ltac:(lia)) as (ws & -> & Hl & Hj). apply ends_ret. split; [| done]. split.
  - split; try done; cbn; [by rewrite Hl | | by apply follow_range; unfold MAX_WINDOWS; lia | by apply follow_range; unfold MAX_WINDOWS; lia |]; intros i v; rewrite Hj; [intros Ei Hlt; apply (k_shell0 _ _ Ei); by apply unfollow_lt | apply k_boxes0].
  - split; cbn.
    + unfold follow. destruct (Z.eqb_spec (active_index d) index); [lia |]. destruct (Z.ltb_spec index (active_index d)); lia.
    + intros i v Ei Hlt. rewrite Hj in Ei. pose proof (unfollow_lt index (window_count d) i ltac:(lia) Hlt) as Hu.
      rewrite (F2 _ _ Ei Hu). clear Hu Ei. unfold unfollow, follow.
      destruct (decide (i = Z.to_nat (window_count d - 1))) as [->|]; [| destruct (decide (Z.to_nat index <= i < Z.to_nat (window_count d - 1))%nat)];
        destruct (Z.eqb_spec (active_index d) index), (Z.ltb_spec index (active_index d));
        match goal with |- (?a =? ?b) = (?c =? ?d) => destruct (Z.eqb_spec a b), (Z.eqb_spec c d); done || lia end.
Qed.

Lemma close_ends index d : desk_ok d -> ends (desktop_close_window index d) desk_ok.
Proof.
  intros H. unfold desktop_close_window. destruct ((index <? 0) || (window_count d <=? index)) eqn:Eg; [by apply ends_ret |]. apply orb_false_iff in Eg as [G1 G2].
  destruct H as [Hs Hfoc]. pose proof Hs as []. unfold MAX_WINDOWS in *.
  assert (forall ws, length ws = length (windows d) -> (forall i v, ws !! i = Some v -> (Z.of_nat i < window_count d -> term_ok v) /\ box_ok (at_ v)) -> slots_ok (set_count (window_count d - 1) (set_windows ws d))) as Hset.
  { intros ws Hl Ht. split; try done; cbn; unfold MAX_WINDOWS; [by rewrite Hl | lia | |]; intros i v Ev; [intros Hi |]; apply (Ht _ _ Ev). lia. }
  apply (ends_bind _ _ (fun d' => exists ws, d' = set_windows ws d /\ length ws = length (windows d) /\ (forall i v, ws !! i = Some v -> (Z.of_nat i < window_count d -> term_ok v) /\ box_ok (at_ v)))).
  - apply ends_if; intros _; [apply ends_ret; exists (windows d); split_and!; [by destruct d | done | eauto] |].
    destruct (lookup_lt_is_Some_2 (windows d) (Z.to_nat (window_count d - 1))) as [v Ev]; [lia |]. rewrite (bind_ret _ _ _ (zget_known (windows d) (window_count d - 1) v ltac:(lia) Ev)).
    assert (zset (windows d) index v = Ret (<[Z.to_nat index := v]> (windows d))) as E by (apply zset_at; lia). rewrite (bind_ret _ _ _ E).
    apply ends_ret. eexists. split_and!; [done | apply length_insert |]. intros i u [(<- & <- & _)|[_ Eu]]%list_lookup_insert_Some; [split; [intros _; apply (k_shell0 _ _ Ev); lia | eauto] | eauto].
  - intros d' (ws & -> & Hl & Ht). specialize (Hset ws Hl Ht). apply ends_if; intros Hz.
    + apply ends_ret. split; [by destruct Hset; split |]. split; cbn; [by left | lia].
    + eapply ends_weaken; [apply focus_desk_ok; [done | cbn; lia] |]. cbn. by intros d' (H & _ & _).
Qed.

Lemma at_least_size b : 0 <= V -> 0 <= bw b <= V -> 0 <= bh b <= V -> MIN_WIN_W <= bw (at_least b) <= V /\ MIN_WIN_H <= bh (at_least b) <= V.
Proof. unfold at_least, MIN_WIN_W, MIN_WIN_H. cbn. destruct (Z.ltb_spec (bw b) 260), (Z.ltb_spec (bh b) 160); lia. Qed.
Lemma new_box_ok n : 0 <= n <= 8 -> box_ok (new_box sw sh n).
Proof.
  intros Hn. assert (0 <= u32 (sw * 55) / 100 <= sw) as Hw by (rewrite u32_id by (unfold is_u32; lia); split; [apply Z.div_pos; lia | apply Z.div_le_upper_bound; lia]).
  assert (0 <= u32 (sh * 55) / 100 <= sh) as Hh by (rewrite u32_id by (unfold is_u32; lia); split; [apply Z.div_pos; lia | apply Z.div_le_upper_bound; lia]).
  unfold new_box. set (b := at_least _). destruct (at_least_size (Box 0 0 (u32 (sw * 55) / 100) (u32 (sh * 55) / 100))) as [B1 B2]; [lia | cbn; lia | cbn; lia |]. fold b in B1, B2.
  assert (bw b <= Z.max 260 sw /\ bh b <= Z.max 160 sh) as [M1 M2] by (unfold b, at_least, MIN_WIN_W, MIN_WIN_H; cbn [bw bh]; repeat case_match; lia).
  unfold MIN_WIN_W, MIN_WIN_H in *. rewrite !i32_id by (unfold is_int; lia). clearbody b.
  pose proof (Z.quot_rem' (sw - bw b) 2). pose proof (Z.quot_rem' (sh - bh b) 2). pose proof (Z.rem_bound_abs (sw - bw b) 2 ltac:(lia)). pose proof (Z.rem_bound_abs (sh - bh b) 2 ltac:(lia)).
  unfold box_ok. cbn [bx by_ bw bh]. lia.
Qed.

(** What the applications and the display are asked to do returns. *)
Record apps_return : Prop := {
  r_show c (o : W) : ends (show c o) (fun _ => True);
  r_t_init b (o : W) : ends (terminal_init b o) (fun _ => True);
  r_t_draw b t (o : W) : ends (terminal_draw b t o) (fun _ => True);
  r_t_up t : ends (terminal_scroll_up (W:=W) (S:=Sh) (F:=F) (B:=B) t) (fun _ => True);
  r_s_init t (o : W) : ends (shell_init t o) (fun _ => True);
  r_s_key e s t (o : W) : ends (shell_handle_key e s t o) (fun _ => True);
  r_f_init (o : W) : ends (file_manager_init o) (fun _ => True);
  r_f_key e f (o : W) : ends (file_manager_handle_key e f o) (fun _ => True);
  r_f_draw b f (o : W) : ends (file_manager_draw b f o) (fun _ => True);
  r_b_init (o : W) : ends (browser_init o) (fun _ => True);
  r_b_key e b (o : W) : ends (browser_handle_key e b o) (fun _ => True);
  r_b_draw p b (o : W) : ends (browser_draw p b o) (fun _ => True);
  r_net (o : W) : ends (net_poll o) (fun _ => True);
}.
Hypothesis Happs : apps_return.

Lemma create_ends ty d o : slots_ok d -> focus_inv d -> ends (desktop_create_window sw sh ty d o) (fun r => desk_ok r.1).
Proof using All.
  intros Hs Hfoc. pose proof Hs as []. unfold desktop_create_window. apply ends_if; intros Hmax; [by apply ends_ret |]. unfold MAX_WINDOWS in *.
  destruct (lookup_lt_is_Some_2 (windows d) (Z.to_nat (window_count d))) as [v Ev]; [lia |]. rewrite (bind_ret _ _ _ (zget_known (windows d) (window_count d) v ltac:(lia) Ev)). cbv zeta.
  set (v0 := WindowT ty (new_box sw sh (window_count d)) false false (title v) (terminal v) (shell v) (shell_term v) (file_manager v) (browser v)).
  assert (box_ok (new_box sw sh (window_count d))) as Hb by (apply new_box_ok; lia).
  apply (ends_bind _ _ (fun r => term_ok r.1 /\ box_ok (at_ r.1))).
  - destruct ty.
    + eapply ends_bind; [apply (r_t_init Happs) |]. intros [t o1] _. eapply ends_bind; [apply (r_s_init Happs) |]. intros [[s t'] o2] _. apply ends_ret. cbn. split; [| done]. intros _. cbn. unfold MAX_WINDOWS. lia.
    + eapply ends_bind; [apply (r_f_init Happs) |]. intros [f o1] _. by apply ends_ret.
    + by apply ends_ret.
    + by apply ends_ret.
    + eapply ends_bind; [apply (r_b_init Happs) |]. intros [b o1] _. by apply ends_ret.
  - intros [v1 o1] [Hv1 Hv2]. cbn [fst] in Hv1, Hv2. assert (zset (windows d) (window_count d) v1 = Ret (<[Z.to_nat (window_count d) := v1]> (windows d))) as E by (apply zset_at; lia). rewrite (bind_ret _ _ _ E).
    eapply ends_bind; [apply focus_desk_ok |].
    + split; try done; cbn [windows set_count set_windows window_count]; unfold MAX_WINDOWS; [by rewrite length_insert | lia | |];
        intros i u [(<- & <- & _)|[Hne Eu]]%list_lookup_insert_Some; [done | intros Hlt; apply (k_shell0 _ _ Eu); lia | done | eauto].
    + cbn. lia.
    + intros d' (H & _ & _). by apply ends_ret.
Qed.
Lemma next_ends n : forall idx dir d, desk_ok d -> 0 <= idx < window_count d -> dir = 1 \/ dir = -1 -> ends (next_loop n idx dir d) desk_ok.
Proof.
  induction n as [|n IH]; intros idx dir d H Hi Hd; cbn [next_loop]; [by apply ends_ret |].
  pose proof H as [[] _]. unfold MAX_WINDOWS in *. assert (0 <= Z.rem (idx + dir + window_count d) (window_count d) < window_count d) as Hr by (apply Z.rem_bound_pos; lia).
  eapply ends_bind; [apply zget_ends; lia |]. intros v _. apply ends_if; intros _; [by apply focus_ends | by apply IH].
Qed.
Lemma focus_next_ends dir d : desk_ok d -> dir = 1 \/ dir = -1 -> ends (desktop_focus_next dir d) desk_ok.
Proof.
  intros H Hd. pose proof H as [[] _]. unfold desktop_focus_next. apply ends_if; intros Hz; [by apply ends_ret |].
  apply next_ends; [done | | done]. destruct ((active_index d <? 0) || (window_count d <=? active_index d)) eqn:E; lia.
Qed.

(** ** Keys *)
Lemma launcher_with_ok d l : desk_ok d -> launcher_ok l -> desk_ok (set_launcher l d).
Proof. intros H Hl. pose proof H as [[] _]. by apply (desk_ok_same d). Qed.
Lemma close_launcher_ok l : launcher_ok l -> launcher_ok (launcher_close l).
Proof. done. Qed.
Lemma empty_query_ok b : launcher_ok (Launcher b [] 0).
Proof. split; [cbn; lia | split; [done | by left]]. Qed.
Lemma toggle_launcher_ok l : launcher_ok l -> launcher_ok (launcher_toggle l).
Proof. unfold launcher_toggle. destruct (launcher_open l); [done |]. intros _. apply empty_query_ok. Qed.
Abbreviation fine r := (desk_ok (fst (fst r))).

Lemma launcher_key_ends e k : fine k -> ends (launcher_key sw sh e k) (fun r => fine r).
Proof using All.
  destruct k as [[d f] o]. cbn [fst]. intros H. pose proof H as [[] _]. pose proof k_launcher0 as (L1 & L2 & L3). unfold launcher_key.
  apply ends_if; intros _; [by apply ends_ret, launcher_with_ok |].
  apply ends_if; intros _.
  { apply ends_ret. destruct (launcher_query (launcher d)) as [|c q] eqn:Eq; [done |]. apply launcher_with_ok; [done |]. split; [| split; [done | by left]].
    cbn [launcher_query]. rewrite <- Eq in *. destruct (exists_last (l:=launcher_query (launcher d)) ltac:(by rewrite Eq)) as (q' & c' & E'). rewrite E' in *. rewrite removelast_last. rewrite length_app in L1. lia. }
  apply ends_if; intros _.
  { apply ends_ret, launcher_with_ok; [done |]. split; [done |]. cbn [launcher_selection launcher_query]. set (n := launcher_match_count (launcher_query (launcher d))) in *. set (s := launcher_selection (launcher d)) in *.
    destruct (Z.ltb_spec 0 n); [| by split]. destruct (bool_decide (key e = KEY_UP)), (Z.ltb_spec 0 s); cbn [andb]; try lia;
      destruct (bool_decide (key e = KEY_DOWN)), (Z.ltb_spec (s + 1) n); cbn [andb]; lia. }
  apply ends_if; intros _.
  { apply (ends_bind _ _ (fun r => desk_ok r.1)); [apply ends_if; intros _; [by apply create_ends; apply H | by apply ends_ret] |].
    intros [d1 o1] H1. apply ends_ret, launcher_with_ok; [done |]. apply close_launcher_ok, H1. }
  apply ends_if; intros _; [| by apply ends_ret]. apply ends_ret. destruct (Z.ltb_spec (Z.of_nat (length (launcher_query (launcher d)))) 31); [| done].
  apply launcher_with_ok; [done |]. split; [cbn; rewrite length_app; cbn; lia | split; [done | by left]].
Qed.
Lemma halves : 0 <= Z.quot sw 2 <= sw /\ sw - Z.quot sw 2 <= sw.
Proof. pose proof (Z.quot_pos sw 2 ltac:(lia) ltac:(lia)). pose proof (Z.quot_le_upper_bound sw 2 sw ltac:(lia) ltac:(lia)). lia. Qed.
Lemma snap_window_ok mode b : 0 <= mode <= 2 -> box_ok (desktop_snap_window sw sh mode b).
Proof.
  intros Hm. pose proof halves. unfold desktop_snap_window, at_least, PANEL_HEIGHT, MIN_WIN_W, MIN_WIN_H.
  destruct (Z.eqb_spec mode 0); [| destruct (Z.eqb_spec mode 1); [| destruct (Z.eqb_spec mode 2); [| lia]]]; unfold box_ok; cbn [bx by_ bw bh]; repeat case_match; lia.
Qed.
Lemma snap_box_ok x y b : snap_box sw sh x y = Some b -> PANEL_HEIGHT <= sh -> box_ok b.
Proof.
  intros E Hp. pose proof halves. unfold snap_box, PANEL_HEIGHT in *. repeat case_match; try done; injection E as <-; unfold box_ok; cbn [bx by_ bw bh]; lia.
Qed.
Lemma snap_active_ends mode d : 0 <= mode <= 2 -> desk_ok d -> ends (snap_active sw sh mode d) desk_ok.
Proof.
  intros Hm H. unfold snap_active. apply ends_if; intros Ha; [| by apply ends_ret]. pose proof H as [[] [F1 _]].
  eapply ends_weaken; [apply update_ends; [done | lia | done | done | intros v _; by apply snap_window_ok] |]. by intros d' [? _].
Qed.
Lemma alt_key_ends e d o : desk_ok d -> ends (alt_key sw sh e d o) (fun r => match r with Some (d', _) => desk_ok d' | None => True end).
Proof using All.
  intros H. pose proof H as [Hs Hf]. pose proof Hf as [F1 _]. pose proof Hs as []. unfold alt_key.
  assert (forall ty, ends (r ← desktop_create_window sw sh ty d o; Ret (Some r)) (fun r => match r with Some (d', _) => desk_ok d' | None => True end)) as Hc.
  { intros ty. eapply ends_bind; [by apply create_ends |]. intros [d1 o1] H1. by apply ends_ret. }
  assert (forall m, ends m desk_ok -> ends (d ← m; Ret (Some (d, o))) (fun r => match r with Some (d', _) => desk_ok d' | None => True end)) as Hm.
  { intros m Hm. eapply ends_bind; [exact Hm |]. intros d1 H1. by apply ends_ret. }
  repeat (apply ends_if; intros _; [first [apply Hc | apply Hm, snap_active_ends; [lia | exact H] | apply Hm] |]); [| | by apply ends_ret].
  - apply ends_if; intros _; [by apply close_ends | by apply ends_ret].
  - apply ends_if; intros Ha; [| by apply ends_ret]. eapply ends_weaken; [apply update_ends; [done | lia | done | done | done] |]. by intros d' [? _].
Qed.
Lemma update_app i (f : win -> win) d (fl : flags) (o : W) : desk_ok d -> 0 <= i < MAX_WINDOWS -> (forall v, active (f v) = active v) ->
  (forall v, w_type (f v) = w_type v /\ shell_term (f v) = shell_term v) -> (forall v, box_ok (at_ v) -> box_ok (at_ (f v))) -> ends (d ← update i f d; Ret (d, fl, o)) (fun r => fine r).
Proof. intros. eapply ends_bind; [by apply update_ends |]. intros d1 [Hd1 _]. by apply ends_ret. Qed.
Lemma shell_key_ends i v e d f o : desk_ok d -> 0 <= i < MAX_WINDOWS -> 0 <= shell_term v < MAX_WINDOWS -> ends (shell_key i v e d f o) (fun r => fine r).
Proof using All.
  intros H Hi Ht. pose proof H as [[] _]. unfold shell_key. eapply ends_bind; [apply zget_ends; unfold MAX_WINDOWS in *; lia |]. intros target _.
  eapply ends_bind; [apply (r_s_key Happs) |]. intros [[s t] o1] _. eapply ends_bind; [by apply update_ends |]. intros d1 [H1 _].
  eapply ends_bind; [by apply update_ends |]. intros d2 [H2 _]. apply ends_if; intros _; [| by apply ends_ret].
  eapply ends_bind; [by apply close_ends |]. intros d3 H3. by apply ends_ret.
Qed.
Lemma active_key_ends e shift k : fine k -> ends (active_key e shift k) (fun r => fine r).
Proof using All.
  destruct k as [[d f] o]. cbn [fst]. intros H. pose proof H as [[] [F1 _]]. unfold active_key. apply ends_if; intros Hi; [by apply ends_ret |].
  assert (0 <= active_index d < MAX_WINDOWS) as Hr by lia.
  eapply ends_bind; [apply zget_ends; unfold MAX_WINDOWS in *; lia |]. intros v Ev. pose proof (k_shell0 _ _ Ev ltac:(lia)) as Hv. destruct (w_type v) eqn:Et; [| | by apply ends_ret | by apply ends_ret |].
  - apply ends_if; intros _; [| by apply shell_key_ends; [| | apply Hv]]. unfold scroll_key. eapply ends_bind; [| intros t _; by apply update_app].
    destruct (bool_decide (key e = KEY_UP)); [apply (r_t_up Happs) | by apply ends_ret].
  - eapply ends_bind; [apply (r_f_key Happs) |]. intros [x o1] _. by apply update_app.
  - eapply ends_bind; [apply (r_b_key Happs) |]. intros [x o1] _. by apply update_app.
Qed.
Lemma handle_key_ends e alt shift k : fine k -> ends (handle_key sw sh e alt shift k) (fun r => fine r).
Proof using All.
  destruct k as [[d f] o]. cbn [fst]. intros H. pose proof H as [[] _]. unfold handle_key.
  apply ends_if; intros _; [by apply ends_ret, launcher_with_ok, toggle_launcher_ok |].
  apply ends_if; intros _; [eapply ends_bind; [apply focus_next_ends; [done | destruct shift; auto] |]; intros d1 H1; by apply ends_ret |].
  apply ends_if; intros _; [by apply launcher_key_ends |].
  apply ends_if; intros _; [| by apply active_key_ends].
  eapply ends_bind; [by apply alt_key_ends |]. intros [[d1 o1]|] H1; [by apply ends_ret | by apply active_key_ends].
Qed.

(** ** The mouse *)
Lemma settings_click_ends b x y d o : desk_ok d -> ends (settings_handle_click b x y d o) (fun r => desk_ok r.1.2).
Proof using All.
  intros H. pose proof H as [[] _]. pose proof k_settings0 as [S1 S2]. unfold settings_handle_click.
  apply ends_if; intros _. { apply ends_ret, (desk_ok_same d); try done. split; [| done]. cbn. destruct (idle_fps (settings d) =? 30); [auto |]. destruct (idle_fps (settings d) =? 40); auto. }
  apply ends_if; intros _. { apply ends_ret. unfold apply_cursor_settings. cbn. destruct (cursor_size (settings d)); by apply (desk_ok_same d). }
  apply ends_if; intros _. { apply ends_ret, (desk_ok_same d); try done. split; [done |]. apply Z.rem_bound_pos; unfold theme_count in *; lia. }
  apply ends_if; intros _. { eapply ends_bind; [apply (r_show Happs) |]. intros o1 _. apply ends_ret. by apply (desk_ok_same d). }
  apply ends_if; intros _; apply ends_ret; [by apply (desk_ok_same d) | done].
Qed.
Lemma task_at_range n i task_x x y j : task_at sh n i task_x x y = Some j -> i <= j < i + Z.of_nat n.
Proof.
  revert i task_x. induction n as [|n IH]; intros i tx; cbn [task_at]; [done |]. destruct (point_in_rect _ _ _ _ _ _); [intros [= <-]; lia |]. intros E%IH. lia.
Qed.
Lemma task_click_ends i d : desk_ok d -> 0 <= i < window_count d -> ends (task_click i d) desk_ok.
Proof.
  intros H Hi. pose proof H as [Hs [F1 F2]]. pose proof Hs as []. unfold task_click. unfold MAX_WINDOWS in *. eapply ends_bind; [apply zget_ends; lia |]. intros v Ev.
  apply ends_if; intros _; [eapply ends_bind; [apply update_ends; [done | unfold MAX_WINDOWS; lia | done | done | done] |]; intros d1 [H1 _]; by apply focus_ends |].
  apply ends_if; intros Ea; [| by apply focus_ends]. apply Z.eqb_eq in Ea. unfold update. rewrite (bind_ret _ _ _ (zget_known (windows d) i v ltac:(lia) Ev)).
  match goal with |- context [zset _ i ?u] => assert (zset (windows d) i u = Ret (<[Z.to_nat i := u]> (windows d))) as E by (apply zset_at; lia); rewrite (bind_ret _ _ _ E) end.
  apply ends_ret. split.
  - split; try done; cbn; [by rewrite length_insert | |]; intros j u [(<- & <- & _)|[_ Eu]]%list_lookup_insert_Some; [apply (k_shell0 _ _ Ev) | apply (k_shell0 _ _ Eu) | apply (k_boxes0 _ _ Ev) | apply (k_boxes0 _ _ Eu)].
  - split; cbn; [by left |]. intros j u [(<- & <- & _)|[Hne Eu]]%list_lookup_insert_Some Hj; cbn [active set_active active_index set_active_index]; [by rewrite (proj2 (Z.eqb_neq _ _)) by lia |].
    rewrite (F2 _ _ Eu Hj). destruct (Z.eqb_spec (Z.of_nat j) (active_index d)), (Z.eqb_spec (Z.of_nat j) (-1)); done || lia.
Qed.
Lemma launcher_click_ends d o : desk_ok d -> ends (launcher_click sw sh d o) (fun r => match r with Some (_, d', _) => desk_ok d' | None => True end).
Proof using All.
  intros H. unfold launcher_click. do 3 (apply ends_if; intros _; [by apply ends_ret |]). apply ends_if; intros _; [| by apply ends_ret].
  apply ends_if; intros _; [| by apply ends_ret]. eapply ends_bind; [by apply create_ends; apply H |]. intros [d1 o1] H1. apply ends_ret.
  apply launcher_with_ok; [done |]. by destruct H1 as [[] _].
Qed.
Abbreviation went r := (desk_ok (snd (fst r))).
Lemma window_click_ends hit d o : desk_ok d -> 0 <= hit < window_count d -> ends (window_click hit d o) (fun r => went r).
Proof using All.
  intros H Hh. unfold window_click. eapply ends_bind; [by apply raise_ends |]. intros [h d1] (H1 & E1 & E2 & _). cbn [fst snd] in *. rewrite E1. clear E1 h.
  eapply (ends_bind _ _ desk_ok). { unfold desktop_activate_window. apply ends_if; intros _; [by apply ends_ret |]. cbn [mbind]. by apply focus_ends. }
  intros d2 H2. pose proof H as [[] _]. pose proof H2 as [Hs2 _]. pose proof Hs2 as []. unfold MAX_WINDOWS in *. eapply ends_bind; [apply zget_ends; lia |]. intros v Ev.
  apply ends_if; intros _; [eapply ends_bind; [by apply close_ends |]; intros d3 H3; by apply ends_ret |].
  specialize (k_boxes1 _ _ Ev). apply ends_if; intros _; [apply ends_ret, (desk_ok_same d2); try done; cbn; unfold MAX_WINDOWS; lia |].
  apply ends_if; intros _; [apply ends_ret, (desk_ok_same d2); try done; cbn; unfold MAX_WINDOWS, drag_ok, mouse_ok, box_ok in *; cbn; lia |].
  apply ends_if; intros _; [| by apply ends_ret]. eapply ends_bind; [by apply settings_click_ends |]. intros [[c d3] o3] H3. by apply ends_ret.
Qed.
Lemma press_ends d o : desk_ok d -> ends (press_click sw sh d o) (fun r => went r).
Proof using All.
  intros H. pose proof H as [[] _]. unfold press_click. apply ends_if; intros _; [by apply ends_ret, launcher_with_ok, toggle_launcher_ok |].
  destruct (task_at _ _ _ _ _ _) as [i|] eqn:Et.
  { apply task_at_range in Et. eapply ends_bind; [apply task_click_ends; [done | lia] |]. intros d1 H1. by apply ends_ret. }
  eapply ends_bind; [apply ends_if; intros _; [by apply launcher_click_ends | by apply ends_ret] |].
  intros [[[r d1] o1]|] Hr; [by apply ends_ret |]. clear Hr. unfold find_top_window_at. unfold MAX_WINDOWS in *.
  destruct (find_top_ok (Z.to_nat (window_count d)) (windows d) (mouse_x (mouse d)) (mouse_y (mouse d))) as [[E _]|(i & v & E & Hi & _)]; [lia | |];
    rewrite (bind_ret _ _ _ E); apply ends_if; intros Hz; try (by apply ends_ret); [lia |]. apply window_click_ends; [done | lia].
Qed.
Lemma box_update_ends i b d : desk_ok d -> box_ok b -> 0 <= i < MAX_WINDOWS -> ends (update i (set_box b) d) (fun d' => desk_ok d' /\ drag d' = drag d /\ resize d' = resize d /\ mouse d' = mouse d).
Proof. intros. eapply ends_weaken; [by apply update_ends |]. by intros d' [Hd (v & _ & ->)]. Qed.
Lemma release_ends d : PANEL_HEIGHT <= sh -> desk_ok d -> ends (release_click sw sh d) (fun r => desk_ok r.2).
Proof.
  intros Hp H. pose proof H as [[] _]. unfold release_click. apply (ends_bind _ _ (fun r => desk_ok r.2)).
  - apply ends_if; intros Hz; [| by apply ends_ret]. eapply ends_bind; [apply zget_ends; unfold MAX_WINDOWS in *; lia |]. intros v _.
    destruct (snap_box _ _ _ _) eqn:Es; [| by apply ends_ret]. eapply ends_bind; [apply box_update_ends; [done | by eapply snap_box_ok | lia] |]. intros d1 [H1 _]. by apply ends_ret.
  - intros [c d1] H1. cbn [snd] in H1. apply ends_ret. cbn [snd]. pose proof H1 as [[] _]. apply (desk_ok_same d1); try done; cbn; unfold MAX_WINDOWS; lia.
Qed.
Lemma mouse_with_ok d m : desk_ok d -> mouse_ok m -> desk_ok (set_mouse m d).
Proof. intros H Hm. pose proof H as [[] _]. by apply (desk_ok_same d). Qed.

End Inv.

(** ** What the mouse's buttons and the start of resizing depend on *)
Section Kept.
Context {W T Sh F B : Type} `{!Apps W T Sh F B} (sw sh : Z).
Abbreviation desk := (desktop T Sh F B).
Implicit Types d : desk.
(** The buttons, now and at the last turn. *)
Definition buttons d : Z * Z := (mouse_buttons (mouse d), prev_mouse_buttons (mouse d)).
(** The buttons are the same; with [all], so is where resizing starts from. *)
Definition kept (all : bool) d d' : Prop := buttons d' = buttons d /\ (all = true -> resize_start (resize d') = resize_start (resize d)).
(** [Q] holds of the result, if there is one. *)
Definition gives {A} (m : res A) (Q : A -> Prop) : Prop := forall a, m = Ret a -> Q a.
Lemma gives_any {A} (m : res A) : gives m (fun _ => True).
Proof. done. Qed.
Lemma gives_ret {A} (a : A) (Q : A -> Prop) : Q a -> gives (Ret a) Q.
Proof. by intros ? ? [= <-]. Qed.
Lemma gives_bind {A C} (m : res A) (f : A -> res C) (R : A -> Prop) Q : gives m R -> (forall a, R a -> gives (f a) Q) -> gives (m ≫= f) Q.
Proof. intros Hm Hf c (a & E & Ec)%res_bind_ret. exact (Hf a (Hm a E) c Ec). Qed.
Lemma gives_if {A} (b : bool) (m n : res A) Q : gives m Q -> gives n Q -> gives (if b then m else n) Q.
Proof. by destruct b. Qed.

Create HintDb kept.
#[local] Hint Extern 1 (kept _ _ _) => assumption : kept.
Section Ops.
Variables (all : bool) (d : desk).
Abbreviation same := (kept all d).
Implicit Types (a : desk) (o : W) (f : flags).
#[local] Ltac by_case := match goal with |- gives (if _ then _ else _) _ => apply gives_if end.
#[local] Ltac first_part := solve [repeat by_case; first [assumption | apply gives_ret; assumption | eauto 2 with kept]].
(** A bind whose first part has a lemma, or leaves the desktop alone. *)
#[local] Ltac keep := repeat first
  [ assumption | apply gives_ret; cbn [fst snd]; first [assumption | exact I] | first_part | by_case
  | first [ apply (gives_bind _ _ same); [first_part |] | apply (gives_bind _ _ (fun r => same r.1)); [first_part |] | apply (gives_bind _ _ (fun r => same r.2)); [first_part |]
          | apply (gives_bind _ _ (fun r => same r.1.2)); [first_part |] | eapply gives_bind; [apply gives_any |] ];
    intros; repeat match goal with p : prod _ _ |- _ => destruct p end; cbn [fst snd] in * ].
Lemma update_kept i g a : same a -> gives (update i g a) same.
Proof. intros H. unfold update. keep. Qed.
Lemma focus_kept i a : same a -> gives (desktop_focus_window i a) same.
Proof. intros H. unfold desktop_focus_window. keep. Qed.
Lemma raise_kept i a : same a -> gives (desktop_raise_window i a) (fun r => same r.2).
Proof. intros H. unfold desktop_raise_window. keep. Qed.
#[local] Hint Resolve update_kept focus_kept raise_kept : kept.
Lemma activate_kept i raise a : same a -> gives (desktop_activate_window i raise a) same.
Proof. intros H. unfold desktop_activate_window. apply gives_if; [keep |]. apply (gives_bind _ _ (fun r => same r.2)); [destruct raise; keep |]. intros [x b] Hb. keep. Qed.
Lemma next_kept n : forall i dir a, same a -> gives (next_loop n i dir a) same.
Proof. induction n as [|n IH]; intros i dir a H; cbn [next_loop]; keep; by apply IH. Qed.
Lemma focus_next_kept dir a : same a -> gives (desktop_focus_next dir a) same.
Proof. intros H. unfold desktop_focus_next. keep; by apply next_kept. Qed.
Lemma create_kept ty a o : same a -> gives (desktop_create_window sw sh ty a o) (fun r => same r.1).
Proof. intros H. unfold desktop_create_window. keep. Qed.
Lemma close_kept i a : same a -> gives (desktop_close_window i a) same.
Proof. intros H. unfold desktop_close_window. apply gives_if; [keep |]. apply (gives_bind _ _ same); [keep |]. intros b Hb. keep. Qed.
Lemma snap_kept mode a : same a -> gives (snap_active sw sh mode a) same.
Proof. intros H. unfold snap_active. keep. Qed.
#[local] Hint Resolve activate_kept focus_next_kept create_kept close_kept snap_kept : kept.
Abbreviation fine r := (same (fst (fst r))).
Lemma launcher_key_kept e k : fine k -> gives (launcher_key sw sh e k) (fun r => fine r).
Proof.
  destruct k as [[a f] o]. cbn [fst]. intros H. unfold launcher_key. keep; apply gives_ret; repeat case_match; assumption.
Qed.
Lemma alt_key_kept e a o : same a -> gives (alt_key sw sh e a o) (fun r => match r with Some (d', _) => same d' | None => True end).
Proof. intros H. unfold alt_key. keep. Qed.
Lemma shell_key_kept i v e a f o : same a -> gives (shell_key i v e a f o) (fun r => fine r).
Proof. intros H. unfold shell_key. keep. Qed.
Lemma active_key_kept e shift k : fine k -> gives (active_key e shift k) (fun r => fine r).
Proof.
  destruct k as [[a f] o]. cbn [fst]. intros H. unfold active_key, scroll_key. keep. destruct (w_type _); keep; by apply shell_key_kept.
Qed.
Lemma handle_key_kept e alt shift k : fine k -> gives (handle_key sw sh e alt shift k) (fun r => fine r).
Proof.
  destruct k as [[a f] o]. cbn [fst]. intros H. unfold handle_key. do 2 (apply gives_if; [keep |]). apply gives_if; [by apply launcher_key_kept |].
  apply gives_if; [| by apply active_key_kept]. eapply gives_bind; [by apply alt_key_kept |]. intros [[b o1]|] Hb; [keep | by apply active_key_kept].
Qed.
Lemma settings_click_kept b x y a o : same a -> gives (settings_handle_click b x y a o) (fun r => same r.1.2).
Proof. intros H. unfold settings_handle_click, apply_cursor_settings. keep; apply gives_ret; cbn; by destruct (cursor_size _). Qed.
Lemma task_click_kept i a : same a -> gives (task_click i a) same.
Proof. intros H. unfold task_click. keep. Qed.
Lemma launcher_click_kept a o : same a -> gives (launcher_click sw sh a o) (fun r => match r with Some (_, d', _) => same d' | None => True end).
Proof. intros H. unfold launcher_click. keep. Qed.
Lemma release_kept a : same a -> gives (release_click sw sh a) (fun r => same r.2).
Proof.
  intros H. unfold release_click. apply (gives_bind _ _ (fun r => same r.2)); [keep; case_match; keep |]. intros [c b] Hb. keep.
Qed.
Lemma drag_resize_kept a : same a -> gives (update_drag_resize sw sh a) (fun r => same r.2).
Proof.
  intros H. unfold update_drag_resize. apply (gives_bind _ _ (fun r => same r.2)); [keep |]. intros [c b] Hb. keep.
Qed.
End Ops.
(** A press may start resizing; no click changes the buttons. *)
Lemma window_click_kept d hit a o : kept false d a -> gives (window_click hit a o) (fun r => kept false d r.1.2).
Proof.
  intros H. unfold window_click. apply (gives_bind _ _ (fun r => kept false d r.2)); [by apply raise_kept |]. intros [x b] Hb. cbn [snd] in Hb.
  apply (gives_bind _ _ (kept false d)); [by apply activate_kept |]. intros c Hc. eapply gives_bind; [apply gives_any |]. intros v _. cbv zeta.
  apply gives_if; [apply (gives_bind _ _ (kept false d)); [by apply close_kept |]; intros e He; by apply gives_ret |].
  apply gives_if; [apply gives_ret; split; [apply Hc | done] |]. apply gives_if; [by apply gives_ret |]. apply gives_if; [| by apply gives_ret].
  eapply gives_bind; [by apply settings_click_kept |]. intros [[y e] o1] He. by apply gives_ret.
Qed.
Lemma press_kept d o : gives (press_click sw sh d o) (fun r => kept false d r.1.2).
Proof.
  assert (kept false d d) as H by done. unfold press_click. cbv zeta. apply gives_if; [by apply gives_ret |]. destruct (task_at _ _ _ _ _ _) as [i|].
  { apply (gives_bind _ _ (kept false d)); [by apply task_click_kept |]. intros b Hb. by apply gives_ret. }
  apply (gives_bind _ _ (fun r => match r with Some (_, d', _) => kept false d d' | None => True end)); [apply gives_if; [by apply launcher_click_kept | by apply gives_ret] |].
  intros [[[r b] o1]|] Hr; [by apply gives_ret |]. eapply gives_bind; [apply gives_any |]. intros hit _. apply gives_if; [by apply window_click_kept | by apply gives_ret].
Qed.
End Kept.

Lemma ends_gives {A} (m : res A) (P Q : A -> Prop) : ends m P -> gives m Q -> ends m (fun a => P a /\ Q a).
Proof. intros (a & E & Ha) H. exists a. auto. Qed.

(** ** Dragging and resizing *)
Section Turns.
Context {W T Sh F B : Type} `{!Apps W T Sh F B} (sw sh : Z).
Abbreviation desk := (desktop T Sh F B).
Implicit Types d : desk.
(** A shown screen has room for the panel. *)
Hypothesis Hscreen : 1 <= sw <= 2 ^ 16 /\ PANEL_HEIGHT <= sh <= 2 ^ 16.
Hypothesis Happs : apps_return (W:=W) (T:=T) (Sh:=Sh) (F:=F) (B:=B).
Lemma screen_ok : 0 <= sw <= 2 ^ 16 /\ 0 <= sh <= 2 ^ 16.
Proof using Hscreen. unfold PANEL_HEIGHT in *. lia. Qed.

Lemma box_ok_mono V V' b : V <= V' -> box_ok sw sh V b -> box_ok sw sh V' b.
Proof. unfold box_ok. lia. Qed.
Lemma desk_ok_mono V V' d : V <= V' -> desk_ok sw sh V d -> desk_ok sw sh V' d.
Proof.
  intros HV [[] Hf]. split; [| done]. split; try done; [intros; eapply box_ok_mono; eauto | by eapply box_ok_mono |]. destruct k_offset0. split; lia.
Qed.
Lemma int_ok_ends x : is_int x -> ends (int_ok x) (fun r => r = x).
Proof. intros H. exists x. split; [by apply int_ok_ret | done]. Qed.
(** No sum leaves the range of [int] while [V] is below this bound. *)
Definition V_MAX : Z := 2 ^ 30 - 2 ^ 18.
Lemma int_if_ends (c : bool) x y : is_int x -> ends (if c then int_ok x else Ret y) (fun r => r = if c then x else y).
Proof. intros H. destruct c; [by apply int_ok_ends | by apply ends_ret]. Qed.
#[local] Ltac int_next :=
  eapply ends_bind; [first [apply int_ok_ends | apply int_if_ends]; unfold is_int; lia |]; intros ? ->.

Lemma drag_box_ok V m g b : sw + sh + 1000 <= V <= V_MAX -> box_ok sw sh V b -> mouse_ok sw sh m -> drag_ok V g ->
  ends (drag_box sw sh m g b) (box_ok sw sh V).
Proof using Hscreen.
  unfold V_MAX, drag_box, box_ok, mouse_ok, drag_ok, PANEL_HEIGHT in *. intros HV Hb Hm Hg. do 2 int_next.
  set (x := mouse_x m - drag_offset_x g). set (y := mouse_y m - drag_offset_y g).
  assert (- V - 64 <= x <= V + 2 ^ 17 + 84 /\ - V - 64 <= y <= V + 2 ^ 17 + 84) as Hxy by (unfold x, y; lia). clearbody x y. cbv zeta.
  destruct (Z.ltb_spec x 4), (Z.ltb_spec y 4); do 4 int_next; apply ends_ret; cbn [bx by_ bw bh]; leb_cases; lia.
Qed.
(** A box is resized from where it was when the button was pressed. *)
Lemma resize_edges_ok U V m r b : sw + sh + 1000 <= U -> U + 64 <= V <= V_MAX -> box_ok sw sh V b -> box_ok sw sh U (resize_start r) -> mouse_ok sw sh m ->
  ends (resize_edges m r b) (fun c => bw c <= V /\ bh c <= V /\ bx c <= V /\ by_ c <= V).
Proof using Hscreen.
  unfold V_MAX, resize_edges, box_ok, mouse_ok, PANEL_HEIGHT in *. intros HU HV Hb Hs Hm. cbv zeta. do 2 int_next.
  apply (ends_bind _ _ (fun c => c = if has (resize_mask r) RESIZE_LEFT
    then Box (mouse_x m) (by_ b) (bx (resize_start r) + bw (resize_start r) - mouse_x m) (bh b) else b)).
  { destruct (has _ _); [int_next |]; by apply ends_ret. }
  intros b1 ->. set (b1 := if has _ RESIZE_LEFT then _ else _).
  apply (ends_bind _ _ (fun c => c = if has (resize_mask r) RESIZE_RIGHT
    then Box (bx b1) (by_ b1) (mouse_x m - bx (resize_start r)) (bh b1) else b1)).
  { destruct (has _ RESIZE_RIGHT); [int_next |]; by apply ends_ret. }
  intros b2 ->. set (b2 := if has _ RESIZE_RIGHT then _ else _).
  apply (ends_bind _ _ (fun c => c = if has (resize_mask r) RESIZE_TOP
    then Box (bx b2) (mouse_y m) (bw b2) (by_ (resize_start r) + bh (resize_start r) - mouse_y m) else b2)).
  { destruct (has _ RESIZE_TOP); [int_next |]; by apply ends_ret. }
  intros b3 ->. subst b1 b2.
  destruct (has _ RESIZE_BOTTOM); [int_next |]; apply ends_ret;
    destruct (has _ RESIZE_LEFT), (has _ RESIZE_RIGHT), (has _ RESIZE_TOP); cbn [bx by_ bw bh]; lia.
Qed.
Lemma resize_box_ok U V m r b : sw + sh + 1000 <= U -> U + 64 <= V <= V_MAX -> box_ok sw sh V b -> box_ok sw sh U (resize_start r) -> mouse_ok sw sh m ->
  ends (resize_box sw sh m r b) (box_ok sw sh V).
Proof using Hscreen.
  intros HU HV Hb Hs Hm. unfold resize_box. eapply ends_bind; [by apply (resize_edges_ok U V) |]. intros [x y w h] H. cbn [bx by_ bw bh] in H.
  unfold V_MAX, clamp_window_to_screen, at_least in *. unfold box_ok, PANEL_HEIGHT, MIN_WIN_W, MIN_WIN_H in *. cbn [bx by_ bw bh].
  destruct (Z.ltb_spec w 260), (Z.ltb_spec h 160), (Z.ltb_spec x 0), (Z.ltb_spec y 0); do 4 int_next; apply ends_ret; cbn [bx by_ bw bh]; leb_cases; lia.
Qed.
Lemma drag_resize_ends U V d : sw + sh + 1000 <= U -> U + 64 <= V <= V_MAX -> desk_ok sw sh V d -> box_ok sw sh U (resize_start (resize d)) ->
  ends (update_drag_resize sw sh d) (fun r => desk_ok sw sh V r.2 /\ kept true d r.2).
Proof using All.
  intros HU HV H Hs. apply ends_gives; [| by apply drag_resize_kept]. pose proof H as [[] _]. unfold update_drag_resize. apply (ends_bind _ _ (fun r => desk_ok sw sh V r.2 /\ resize r.2 = resize d)).
  - apply ends_if; intros Hz; [| by apply ends_ret]. eapply ends_bind; [apply zget_ends; unfold MAX_WINDOWS in *; lia |]. intros v Ev.
    eapply ends_bind; [apply (drag_box_ok V); [lia | apply (k_boxes0 _ _ Ev) | done | done] |]. intros b Hb.
    eapply ends_bind; [eapply (box_update_ends sw sh V screen_ok ltac:(lia) Happs); [done | done | lia] |]. intros d1 (H1 & _ & H2 & _). by apply ends_ret.
  - intros [c d1] [H1 E1]. cbn [snd] in H1, E1. pose proof H1 as [[] _]. apply ends_if; intros Hz; [| by apply ends_ret].
    eapply ends_bind; [apply zget_ends; unfold MAX_WINDOWS in *; lia |]. intros v Ev.
    eapply ends_bind; [apply (resize_box_ok U V); [done | done | apply (k_boxes1 _ _ Ev) | by rewrite E1 | done] |]. intros b Hb.
    eapply ends_bind; [eapply (box_update_ends sw sh V screen_ok ltac:(lia) Happs); [done | done | lia] |]. intros d2 [H2 _]. by apply ends_ret.
Qed.

(** The bound after [n] presses: a press may take a window that resizing moved by less than 64. *)
Definition reach (n : nat) : Z := sw + sh + 1000 + 64 * Z.of_nat n.
(** The invariant between the turns, after [n] presses and with the buttons [b]. *)
Definition desk_after (n : nat) (b : Z * Z) d : Prop :=
  desk_ok sw sh (reach (S n)) d /\ box_ok sw sh (reach n) (resize_start (resize d)) /\ buttons d = b.
Definition is_press (before now : Z) : nat := if left_down now && negb (left_down before) then 1%nat else 0%nat.
Lemma desk_after_kept n b d d' : desk_after n b d -> desk_ok sw sh (reach (S n)) d' -> kept true d d' -> desk_after n b d'.
Proof. intros (_ & Hs & Hb) Hd [E1 E2]. split; [done |]. by rewrite E1, E2. Qed.
Lemma click_ends n now before d o : desk_after n (now, before) d -> ends (handle_mouse_click sw sh d o) (fun r => desk_after (is_press before now + n) (now, before) r.1.2).
Proof using All.
  intros H. pose proof H as (Hd & Hs & Hb). injection Hb as En Eb. unfold handle_mouse_click, is_press. rewrite En, Eb. destruct (left_down now && negb (left_down before)).
  - eapply ends_weaken; [apply ends_gives; [apply (press_ends sw sh (reach (S n)) screen_ok ltac:(unfold reach; lia) Happs); exact Hd | apply press_kept] |].
    intros [[r d1] o1] [H1 [E1 _]]. cbn [fst snd] in H1, E1. split; [apply (desk_ok_mono (reach (S n))); [unfold reach; lia | exact H1] |]. split; [by destruct H1 as [[] _] |]. cbn [fst snd]. rewrite E1. unfold buttons. congruence.
  - apply ends_if; intros _; [| by apply ends_ret].
    eapply ends_bind; [apply ends_gives; [apply (release_ends sw sh (reach (S n)) screen_ok ltac:(unfold reach; lia) Happs); [apply Hscreen | exact Hd] | by apply (release_kept sw sh true d)] |].
    intros [c d1] [H1 K1]. apply ends_ret. by apply (desk_after_kept n _ d).
Qed.
Lemma mouse_turn_ends n now before d f o : reach (S (is_press before now + n)) <= V_MAX -> desk_after n (now, before) d ->
  ends (mouse_turn sw sh d f o) (fun r => desk_after (is_press before now + n) (now, now) r.2.1.1).
Proof using All.
  intros HV H. pose proof H as (_ & _ & Hb). injection Hb as En Eb. unfold mouse_turn. rewrite En, Eb. apply (ends_bind _ _ (fun r => desk_after (is_press before now + n) (now, now) r.2.1.1)).
  - destruct (Z.eqb_spec now before) as [<-|_]; cbn [negb].
    + apply ends_ret. unfold is_press. by rewrite andb_negb_r.
    + eapply ends_bind; [by apply click_ends |]. intros [[r d1] o1] (H1 & H2 & H3). cbn [fst snd] in H1, H2, H3. injection H3 as E1 _. apply ends_ret. split; [| split; [done | cbn; by rewrite E1]].
      apply (mouse_with_ok sw sh (reach (S (is_press before now + n))) screen_ok ltac:(unfold reach; lia) Happs); [done |]. destruct H1 as [[] _]. exact k_mouse0.
  - intros [r [[d1 f1] o1]] H1. cbn [fst snd] in H1. destruct r; [| by apply ends_ret..]. pose proof H1 as (H2 & H3 & _).
    eapply ends_bind; [apply (drag_resize_ends (reach (is_press before now + n)) (reach (S (is_press before now + n)))); [unfold reach in *; lia.. | done | done] |].
    intros [c d2] [H4 H5]. apply ends_ret. cbn [fst snd]. by apply (desk_after_kept _ _ d1).
Qed.

(** ** Events *)
Inductive event := Key (e : key_event) (alt shift : bool) | Mouse (e : mouse_event) | Turn.
Abbreviation kst := (kstate (W:=W) (T:=T) (Sh:=Sh) (F:=F) (B:=B)).
Definition step (ev : event) (k : kst) : res (outcome * kst) :=
  let '(d, f, o) := k in
  match ev with
  | Key e alt shift => k ← handle_key sw sh e alt shift (d, f, o); Ret (Went false, k)
  | Mouse e => Ret (Went false, (poll_mouse sw sh e d f, o))
  | Turn => mouse_turn sw sh d f o
  end.
Fixpoint run (evs : list event) (k : kst) : res (outcome * kst) :=
  match evs with
  | [] => Ret (Went false, k)
  | ev :: evs => '(r, k) ← step ev k; match r with Went _ => run evs k | _ => Ret (r, k) end
  end.
Lemma poll_ok V e d f : sw + sh + 1000 <= V -> desk_ok sw sh V d -> 0 <= ev_x e /\ 0 <= ev_y e -> desk_ok sw sh V (poll_mouse sw sh e d f).1.
Proof using All.
  intros HV H He. apply (mouse_with_ok sw sh V screen_ok HV Happs); [done |]. unfold mouse_ok. cbn [mouse_x mouse_y]. unfold PANEL_HEIGHT in *.
  destruct (Z.ltb_spec (sw - 1) (ev_x e)), (Z.ltb_spec (sh - 1) (ev_y e)); lia.
Qed.
Lemma init_kept (zero : window_t T Sh F B) o : gives (desktop_init sw sh (statics zero) o) (fun r => kept true (statics zero) r.1).
Proof using Type. unfold desktop_init. eapply gives_bind; [apply gives_any |]. intros o1 _. by apply create_kept. Qed.
Lemma init_ends (zero : window_t T Sh F B) o : at_ zero = Box 0 0 0 0 ->
  ends (desktop_init sw sh (statics zero) o) (fun r => desk_ok sw sh (sw + sh + 1000) r.1 /\ kept true (statics zero) r.1).
Proof using All.
  intros Hz. apply ends_gives; [| by apply init_kept]. unfold desktop_init. eapply ends_bind; [apply (r_show Happs) |]. intros o1 _.
  apply (create_ends sw sh (sw + sh + 1000) screen_ok ltac:(lia) Happs).
  - unfold PANEL_HEIGHT in *. split; try done; cbn; try lia; unfold MAX_WINDOWS; try lia.
    + split; [cbn; lia | split; [done | by left]].
    + split; [tauto | cbn; unfold theme_count; lia].
    + intros i v Ei. apply lookup_replicate_1 in Ei as [-> _]. rewrite Hz. unfold box_ok. cbn. lia.
    + unfold box_ok. cbn. lia.
    + unfold mouse_ok. cbn. lia.
    + unfold drag_ok. cbn. lia.
  - split; cbn; [by left | intros; lia].
Qed.
End Turns.

(** ** The open windows, the last one on top *)
Section Press.
Context {W T Sh F B : Type} `{!Apps W T Sh F B} (sw sh V : Z).
Abbreviation win := (window_t T Sh F B).
Abbreviation desk := (desktop T Sh F B).
Implicit Types (d : desk) (ws : list win).
Definition opened d : list win := take (Z.to_nat (window_count d)) (windows d).

Lemma raised_list i last ws ws' v : (i <= last < length ws)%nat -> length ws' = length ws -> ws !! i = Some v ->
  (forall j, ws' !! j = ws !! unfollow i last j) -> take (S last) ws' = delete i (take (S last) ws) ++ [v].
Proof.
  intros Hi Hl Ev Hj. assert (length (delete i (take (S last) ws)) = last) as Hd by (rewrite length_delete, length_take by (rewrite lookup_take_lt by lia; by exists v); lia).
  apply list_eq. intros j. destruct (decide (j < S last)%nat) as [Hlt|Hge].
  - rewrite lookup_take_lt, Hj by lia. unfold unfollow. destruct (decide (j = last)) as [->|Hne].
    + rewrite lookup_app_r, Hd, Nat.sub_diag by lia. done.
    + rewrite lookup_app_l by lia. rewrite list_lookup_delete. destruct (decide (i <= j < last)%nat), (decide (j < i)%nat); try lia; by rewrite lookup_take_lt by lia.
  - rewrite !lookup_ge_None_2; [done | rewrite length_app, Hd; cbn; lia | rewrite length_take; lia].
Qed.
Lemma focused_take n a ws : take n (focused n a ws) = imap (fun j v => set_active (Z.of_nat j =? a) v) (take n ws).
Proof.
  apply list_eq. intros j. rewrite list_lookup_imap. destruct (decide (j < n)%nat).
  - rewrite !lookup_take_lt by lia. unfold focused. rewrite list_lookup_imap. destruct (ws !! j); cbn; [| done]. by rewrite decide_True.
  - rewrite !(lookup_ge_None_2 (take n _)); [done | rewrite length_take; lia..].
Qed.
(** The focus on the last window. *)
Lemma focus_last (l : list win) v n : n = S (length l) -> imap (fun j u => set_active (Z.of_nat j =? Z.of_nat n - 1) u) (l ++ [v]) = (set_active false <$> l) ++ [set_active true v].
Proof.
  intros ->. rewrite imap_app. cbn [imap]. rewrite Nat.add_0_r. f_equal; [| cbn; by rewrite ?Nat.add_0_r, (proj2 (Z.eqb_eq _ _)) by lia].
  apply list_eq. intros j. rewrite list_lookup_imap, list_lookup_fmap. destruct (l !! j) eqn:E; [| done]. cbn. apply lookup_lt_Some in E. by rewrite (proj2 (Z.eqb_neq _ _)) by lia.
Qed.
(** A window is raised and focused; a drag or a resize goes with its window. *)
Lemma raise_focus i v d : desk_ok sw sh V d -> opened d !! i = Some v -> minimized v = false ->
  exists d1 d', desktop_raise_window (Z.of_nat i) d = Ret (window_count d - 1, d1) /\ desktop_activate_window (window_count d - 1) false d1 = Ret d' /\
    opened d' = (set_active false <$> delete i (opened d)) ++ [set_active true v] /\ active_index d' = window_count d - 1 /\ window_count d' = window_count d /\
    length (windows d') = length (windows d) /\ windows d' !! Z.to_nat (window_count d - 1) = Some (set_active true v) /\ launcher d' = launcher d /\ mouse d' = mouse d /\ settings d' = settings d.
Proof.
  intros [[] _] Ei Hm. unfold opened in Ei. apply lookup_take_Some in Ei as [Ei Hi]. unfold MAX_WINDOWS in *.
  assert (exists d1, desktop_raise_window (Z.of_nat i) d = Ret (window_count d - 1, d1) /\ take (Z.to_nat (window_count d)) (windows d1) = delete i (opened d) ++ [v] /\
    window_count d1 = window_count d /\ length (windows d1) = length (windows d) /\ launcher d1 = launcher d /\ mouse d1 = mouse d /\ settings d1 = settings d) as (d1 & E1 & O1 & C1 & L1 & X1 & M1 & S1).
  { unfold opened. replace (Z.to_nat (window_count d)) with (S (Z.to_nat (window_count d - 1))) by lia. destruct (decide (Z.of_nat i = window_count d - 1)) as [Hlast|Hne].
    - rewrite Hlast, raise_last by lia. exists d. split_and!; try done. apply raised_list; [lia | done | done |]. intros j. unfold unfollow. destruct (decide (j = _)) as [->|]; [f_equal; lia |]. by rewrite decide_False by lia.
    - destruct (raise_ok (Z.of_nat i) d ltac:(lia) ltac:(lia)) as (ws & -> & Hl & Hj). eexists. split; [reflexivity |]. split; [| done]. cbn [windows].
      apply raised_list; [lia | done | done |]. intros j. rewrite Hj. by rewrite Nat2Z.id. }
  assert (length (opened d) = Z.to_nat (window_count d)) as Lo by (unfold opened; rewrite length_take; lia).
  assert (length (delete i (opened d)) = (Z.to_nat (window_count d) - 1)%nat) as Ld by (rewrite length_delete, Lo; [done | unfold opened; rewrite lookup_take_lt by lia; by exists v]).
  assert (windows d1 !! Z.to_nat (window_count d - 1) = Some v) as Ev.
  { rewrite <- (lookup_take_lt _ (Z.to_nat (window_count d))) by lia. rewrite O1, lookup_app_r by lia. rewrite Ld. by replace (_ - _)%nat with O by lia. }
  eexists d1, _. split; [done |]. unfold desktop_activate_window. rewrite C1. replace ((window_count d - 1 <? 0) || (window_count d <=? window_count d - 1)) with false by lia. cbn [mbind res_bind].
  rewrite (focus_ok (window_count d - 1) d1 v) by (rewrite ?C1; try done; lia). rewrite Hm. split; [reflexivity |].
  cbn [windows window_count active_index set_active_index set_windows launcher mouse settings]. unfold opened. cbn [windows window_count set_active_index set_windows]. rewrite C1, focused_take, O1.
  split_and!; [| done | done | by unfold focused; rewrite length_imap | | done | done | done].
  - replace (window_count d - 1) with (Z.of_nat (Z.to_nat (window_count d)) - 1) by lia. change (take (Z.to_nat (window_count d)) (windows d)) with (opened d). apply focus_last. rewrite Ld. lia.
  - unfold focused. rewrite list_lookup_imap, Ev. cbn. rewrite decide_True by lia. by rewrite Z2Nat.id, Z.eqb_refl by lia.
Qed.
(** A new window is in front of the others and has the focus. *)
Lemma create_opens ty d o : apps_return (W:=W) (T:=T) (Sh:=Sh) (F:=F) (B:=B) -> desk_ok sw sh V d -> window_count d < MAX_WINDOWS ->
  exists d' o' v, desktop_create_window sw sh ty d o = Ret (d', o') /\ active_index d' = window_count d /\ w_type v = ty /\
    opened d' = (set_active false <$> opened d) ++ [set_active true v] /\ launcher d' = launcher d.
Proof.
  intros Happs [[] _] Hc. unfold desktop_create_window. rewrite (proj2 (Z.leb_gt _ _)) by done. unfold MAX_WINDOWS in *. set (n := window_count d) in *.
  destruct (lookup_lt_is_Some_2 (windows d) (Z.to_nat n)) as [u Eu]; [lia |]. rewrite (bind_ret _ _ _ (zget_known (windows d) n u ltac:(lia) Eu)). cbv zeta. set (v0 := WindowT ty _ _ _ _ _ _ _ _ _).
  match goal with |- context [?m ≫= _] => assert (ends m (fun r => w_type r.1 = ty /\ minimized r.1 = false)) as ([v o1] & -> & Ev & Em) end.
  { destruct ty; cbn [v0].
    - eapply ends_bind; [apply (r_t_init Happs) |]. intros [t o1] _. eapply ends_bind; [apply (r_s_init Happs) |]. intros [[s t'] o2] _. by apply ends_ret.
    - eapply ends_bind; [apply (r_f_init Happs) |]. intros [f o1] _. by apply ends_ret.
    - by apply ends_ret.
    - by apply ends_ret.
    - eapply ends_bind; [apply (r_b_init Happs) |]. intros [b o1] _. by apply ends_ret. }
  cbn [fst mbind res_bind] in *. rewrite (bind_ret _ _ _ (zset_at (windows d) n v ltac:(lia))).
  rewrite (bind_ret _ _ _ (focus_ok n (set_count (n + 1) (set_windows (<[Z.to_nat n := v]> (windows d)) d)) v ltac:(cbn; lia) ltac:(cbn; rewrite length_insert; lia) ltac:(cbn; by rewrite list_lookup_insert_eq by lia))).
  rewrite Em. eexists _, _, v. split; [reflexivity |]. split; [done |]. split; [done |]. split; [| done]. unfold opened. cbn [windows window_count set_active_index set_windows set_count].
  fold n. rewrite focused_take. replace (Z.to_nat (n + 1)) with (S (Z.to_nat n)) by lia. rewrite (take_S_r _ _ v) by (by rewrite list_lookup_insert_eq by lia). rewrite take_insert_ge by lia.
  rewrite <- (focus_last (take (Z.to_nat n) (windows d)) v (S (Z.to_nat n))) by (rewrite length_take; lia). apply imap_ext. intros j w _. by replace (Z.of_nat (S (Z.to_nat n)) - 1) with n by lia.
Qed.
End Press.

(** ** The launcher's search *)
(** The same letter, or its other case. *)
Definition same_letter (a b : Z) : Prop := a = b \/ (65 <= a <= 90 /\ b = a + 32) \/ (65 <= b <= 90 /\ a = b + 32).
Lemma fold_case_same a b : fold_case a = fold_case b <-> same_letter a b.
Proof.
  unfold fold_case, same_letter. destruct (Z.leb_spec 65 a), (Z.leb_spec a 90), (Z.leb_spec 65 b), (Z.leb_spec b 90); cbn [andb]; lia.
Qed.
Lemma match_at_prefix q name : match_at q name = true <-> exists m r, name = m ++ r /\ Forall2 same_letter q m.
Proof.
  revert name. induction q as [|c q IH]; intros name.
  - split; [intros _; by exists [], name | done].
  - destruct name as [|n name]; cbn [match_at].
    + split; [done |]. intros (m & r & E & H). inversion H; subst; done.
    + destruct (Z.eqb_spec (fold_case n) (fold_case c)) as [E|E].
      * rewrite IH. split.
        -- intros (m & r & -> & H). exists (n :: m), r. split; [done |]. constructor; [by apply fold_case_same | done].
        -- intros (m & r & En & H). inversion H; subst. injection En as -> ->. eauto.
      * split; [done |]. intros (m & r & En & H). inversion H as [|? ? ? ? Hc]; subst. injection En as -> ->. apply fold_case_same in Hc. congruence.
Qed.
(** [a] occurs in [b], up to the case of the letters. *)
Definition occurs (a b : list Z) : Prop := exists l m r, b = l ++ m ++ r /\ Forall2 same_letter a m.
Lemma search_occurs q name : q <> [] -> search q name = true <-> occurs q name.
Proof.
  intros Hq. induction name as [|n name IH]; cbn [search].
  - split; [done |]. intros (l & m & r & E & H). destruct l; [| done]. inversion H; subst; done.
  - destruct (match_at q (n :: name)) eqn:E.
    + split; [intros _ | done]. apply match_at_prefix in E as (m & r & E & H). by exists [], m, r.
    + rewrite IH. split.
      * intros (l & m & r & -> & H). by exists (n :: l), m, r.
      * intros (l & m & r & El & H). destruct l as [|c l].
        -- assert (match_at q (n :: name) = true) by (apply match_at_prefix; by exists m, r). congruence.
        -- injection El as _ ->. by exists l, m, r.
Qed.
Definition found (q : list Z) : list (list Z * app_type) := filter (fun p => launcher_matches q p.1 = true) apps.
Lemma count_matches_filter q l : count_matches q l = Z.of_nat (length (filter (fun p => launcher_matches q p.1 = true) l)).
Proof.
  induction l as [|[name ty] l IH]; [done |]. cbn [count_matches]. rewrite IH, filter_cons. cbn [fst]. destruct (launcher_matches q name); [rewrite decide_True by done | rewrite decide_False by done]; cbn [length]; lia.
Qed.
Lemma match_type_filter q l i : forall m, m <= i ->
  match_type q l m i = default APP_TERMINAL (snd <$> filter (fun p => launcher_matches q p.1 = true) l !! Z.to_nat (i - m)).
Proof.
  induction l as [|[name ty] l IH]; intros m Hm; [done |]. cbn [match_type]. rewrite filter_cons. cbn [fst]. destruct (launcher_matches q name); cbn [negb].
  - rewrite decide_True by done. destruct (Z.eqb_spec m i) as [->|Hne]; [by rewrite Z.sub_diag |].
    rewrite IH by lia. replace (Z.to_nat (i - m)) with (S (Z.to_nat (i - (m + 1)))) by lia. done.
  - rewrite decide_False by done. by apply IH.
Qed.

(** ** The properties *)
Section Properties.
Context {W T Sh F B : Type} `{!Apps W T Sh F B} (sw sh : Z).
Implicit Types d : desktop T Sh F B.

(** C30: a press of the button on a window.  With the launcher closed, and when the press is
    neither on the start button nor on the button of a window in the task bar, the topmost
    window at the mouse that is not minimized comes to the front and is the active one, the
    others stay in their order; at the close box it goes, and the others stay in their
    order; at the border its resizing starts from where it is, at the title its dragging,
    held where it was taken. *)
Theorem desktop_press_window V d o i v :
  apps_return (W:=W) (T:=T) (Sh:=Sh) (F:=F) (B:=B) -> desk_ok sw sh V d -> launcher_open (launcher d) = false ->
  let x := mouse_x (mouse d) in let y := mouse_y (mouse d) in
  point_in_rect x y 8 (sh - PANEL_HEIGHT + 4) 72 (PANEL_HEIGHT - 8) = false -> task_at sh (Z.to_nat (window_count d)) 0 90 x y = None ->
  opened d !! i = Some v -> hit_by x y v = true -> (forall j u, (i < j)%nat -> opened d !! j = Some u -> hit_by x y u = false) ->
  let b := at_ v in let others := delete i (opened d) in let last := window_count d - 1 in
  exists d' o', press_click sw sh d o = Ret (Went true, d', o') /\
    if point_in_rect x y (bx b + bw b - CLOSE_SIZE - 6) (by_ b + 5) CLOSE_SIZE CLOSE_SIZE
    then opened d' = imap (fun j u => set_active (Z.of_nat j =? active_index d') u) others /\ window_count d' = last
    else opened d' = (set_active false <$> others) ++ [set_active true v] /\ active_index d' = last /\ window_count d' = window_count d /\
      (let mask := window_resize_mask b x y in
       if negb (mask =? 0) then resize d' = Resize last mask b
       else if point_in_rect x y (bx b) (by_ b) (bw b) TITLE_HEIGHT then drag d' = Drag last (x - bx b) (y - by_ b) (bx b) (by_ b) else True).
Proof.
  intros Happs H Hl x y Hb Ht Ev Hhit Htop b others last. pose proof H as [[] _]. unfold MAX_WINDOWS in *. unfold press_click. fold x y. rewrite Hb, Ht, Hl. cbn [mbind res_bind].
  assert (Hev := Ev). unfold opened in Hev. apply lookup_take_Some in Hev as [Ew Hi].
  unfold find_top_window_at.
  assert (find_top (Z.to_nat (window_count d)) (windows d) x y = Ret (Z.of_nat i)) as Ef.
  { assert (forall j u, opened d !! j = Some u <-> (j < Z.to_nat (window_count d))%nat /\ windows d !! j = Some u) as Ho by (intros; unfold opened; rewrite lookup_take_Some; tauto).
    destruct (find_top_ok (Z.to_nat (window_count d)) (windows d) x y ltac:(lia)) as [[_ Hno]|(j & u & -> & Hj & Eu & Hu & Hj2)]; [rewrite (Hno i v Hi Ew) in Hhit; done |].
    do 2 f_equal. destruct (Nat.lt_trichotomy i j) as [Hlt|[->|Hlt]]; [| done |]; [rewrite (Htop j u Hlt) in Hu; [done | by apply Ho] | rewrite (Hj2 i v) in Hhit; done]. }
  rewrite (bind_ret _ _ _ Ef). replace (0 <=? Z.of_nat i) with true by lia. unfold window_click. fold x y.
  assert (minimized v = false) as Hm by (unfold hit_by in Hhit; by destruct (minimized v)).
  destruct (raise_focus sw sh V i v d H Ev Hm) as (d1 & d2 & E1 & E2 & O2 & A2 & C2 & L2 & W2 & _). rewrite (bind_ret _ _ _ E1), (bind_ret _ _ _ E2).
  rewrite (bind_ret _ _ _ (zget_known (windows d2) last _ ltac:(lia) W2)). cbn [at_ set_active w_type]. fold b.
  destruct (point_in_rect x y (bx b + bw b - CLOSE_SIZE - 6) _ _ _).
  - assert (length others = Z.to_nat last) as Lo.
    { unfold others, last. rewrite length_delete by (by exists v). unfold opened. rewrite length_take. lia. }
    unfold desktop_close_window. rewrite C2. fold last. replace ((last <? 0) || (window_count d <=? last)) with false by lia. rewrite Z.eqb_refl. rewrite (bind_ret (Ret d2) d2 _ eq_refl).
    assert (take (Z.to_nat last) (windows d2) = set_active false <$> others) as Ot.
    { fold others in O2. unfold opened in O2. rewrite C2 in O2. apply (f_equal (take (Z.to_nat last))) in O2. rewrite take_take, take_app_le, (take_ge (set_active false <$> others)) in O2 by (rewrite length_fmap, Lo; lia).
      by replace (Z.to_nat last `min` Z.to_nat (window_count d))%nat with (Z.to_nat last) in O2 by lia. }
    destruct (Z.eqb_spec last 0) as [Hz|Hz].
    + eexists _, _. split; [reflexivity |]. split; [| done]. unfold opened. cbn [windows window_count set_count set_active_index]. rewrite Ot. destruct others; [done | cbn in Lo; lia].
    + destruct (lookup_lt_is_Some_2 (windows d2) (Z.to_nat (last - 1))) as [u Eu]; [lia |].
      rewrite (focus_ok (last - 1) (set_count last d2) u) by (cbn; try done; lia). eexists _, _. split; [reflexivity |]. split; [| done].
      unfold opened. cbn [windows window_count set_count set_active_index set_windows active_index]. rewrite focused_take, Ot. apply list_eq. intros j. rewrite !list_lookup_imap, list_lookup_fmap. by destruct (others !! j).
  - destruct (negb (window_resize_mask b x y =? 0)); [eexists _, _; split; [reflexivity |]; by split_and! |].
    destruct (point_in_rect x y (bx b) (by_ b) (bw b) TITLE_HEIGHT); [eexists _, _; split; [reflexivity |]; by split_and! |].
    case_bool_decide; [| eexists _, _; split; [reflexivity |]; by split_and!].
    assert (ends (settings_handle_click b x y d2 o) (fun r => r.1.1 = r.1.1 /\ windows r.1.2 = windows d2 /\ window_count r.1.2 = window_count d2 /\ active_index r.1.2 = active_index d2)) as ([[c d3] o3] & -> & _ & W3 & C3 & A3).
    { unfold settings_handle_click, apply_cursor_settings. apply ends_if; intros _; [by apply ends_ret |].
      apply ends_if; intros _; [apply ends_ret; cbn; by destruct (cursor_size (settings d2)) |]. apply ends_if; intros _; [by apply ends_ret |].
      apply ends_if; intros _; [| apply ends_if; intros _; by apply ends_ret]. eapply ends_bind; [apply (r_show Happs) |]. intros o1 _. by apply ends_ret. }
    cbn [fst snd] in W3, C3, A3. eexists _, _. split; [reflexivity |]. unfold opened in O2 |- *. rewrite W3, C3, A3. by split_and!.
Qed.

(** C31: the launcher.  A name matches when the query occurs in it, a letter counting as its
    other case; there are as many lines as names that match.  Whether line [i] is clicked,
    off the three buttons, or chosen with Enter, a window of the [i]-th matching application
    opens in front of the others, which keep their order, and is the active one; the launcher
    closes. *)
Theorem launcher_finds V d o (i : nat) name ty :
  apps_return (W:=W) (T:=T) (Sh:=Sh) (F:=F) (B:=B) -> desk_ok sw sh V d -> window_count d < MAX_WINDOWS ->
  let q := launcher_query (launcher d) in let l := launcher_layout sw sh in let x := mouse_x (mouse d) in let y := mouse_y (mouse d) in
  let opens d' := launcher_open (launcher d') = false /\ active_index d' = window_count d /\ exists v, w_type v = ty /\ opened d' = (set_active false <$> opened d) ++ [set_active true v] in
  (forall n, launcher_matches q n = true <-> q = [] \/ occurs q n) /\ launcher_match_count q = Z.of_nat (length (found q)) /\
  (found q !! i = Some (name, ty) ->
    (existsb (fun k => point_in_rect x y (button_x l k) (button_y l) (button_w l) 24) [0; 1; 2] = false -> list_y l <= y < list_bottom l -> Z.quot (y - list_y l) (FONT_HEIGHT + 6) = Z.of_nat i ->
      exists d' o', launcher_click sw sh d o = Ret (Some (Went true, d', o')) /\ opens d') /\
    (forall e f, pressed e = true -> key e = KEY_ENTER -> launcher_selection (launcher d) = Z.of_nat i ->
      exists d' o', launcher_key sw sh e (d, f, o) = Ret (d', mark_all f, o') /\ opens d')).
Proof.
  intros Happs H Hc q l x y opens. split; [| split; [apply count_matches_filter |]].
  { intros n. unfold launcher_matches. destruct q as [|c q']; [split; [by left | done] |]. rewrite search_occurs by done. split; [by right | intros [?|?]; done]. }
  intros Ei. assert (Z.of_nat i < launcher_match_count q) as Hlt by (apply lookup_lt_Some in Ei; unfold launcher_match_count; rewrite count_matches_filter; unfold found in Ei; lia).
  assert (launcher_match_type q (Z.of_nat i) = ty) as Ety by (unfold launcher_match_type; rewrite match_type_filter, Z.sub_0_r, Nat2Z.id by lia; fold (found q); by rewrite Ei).
  destruct (create_opens sw sh V ty d o Happs H Hc) as (d1 & o1 & v & E & C1 & C2 & C3 & C4). split.
  - intros Hb Hy Hi. unfold launcher_click. fold x y l. cbn [existsb] in Hb. apply orb_false_iff in Hb as [-> Hb]. apply orb_false_iff in Hb as [-> Hb]. apply orb_false_iff in Hb as [-> _].
    replace ((list_y l <=? y) && (y <? list_bottom l)) with true by lia. rewrite Hi. fold q. rewrite Ety. replace ((0 <=? Z.of_nat i) && (Z.of_nat i <? launcher_match_count q)) with true by lia.
    rewrite E. eexists _, _. split; [reflexivity |]. split; [done |]. split; [exact C1 |]. by exists v.
  - intros e f Hp Hk Hs. unfold launcher_key. fold q. rewrite Hp, Hk, Hs. cbn [andb bool_decide]. replace (0 <? launcher_match_count q) with true by lia. rewrite Ety.
    cbn. rewrite E. eexists _, _. split; [reflexivity |]. split; [done |]. split; [exact C1 |]. by exists v.
Qed.
End Properties.

(** ** A desktop without applications *)
#[export] Instance no_apps : Apps unit unit unit unit unit := {|
  show _ o := Ret o; terminal_init _ o := Ret (tt, o); terminal_draw _ t o := Ret (t, o); terminal_scroll_up t := Ret t; terminal_scroll_down t := t;
  shell_init t o := Ret (tt, t, o); shell_handle_key _ s t o := Ret (s, t, o); shell_should_exit _ := false;
  file_manager_init o := Ret (tt, o); file_manager_handle_key _ f o := Ret (f, o); file_manager_draw _ f o := Ret (f, o);
  browser_init o := Ret (tt, o); browser_handle_key _ b o := Ret (b, o); browser_draw _ _ o := Ret o; net_poll o := Ret o; gfx_backbuffer_enabled _ := true |}.
Lemma no_apps_return : apps_return (Apps0:=no_apps).
Proof. split; intros; eexists; split; reflexivity. Qed.
Definition zero_slot {T Sh F B} (t : T) (s : Sh) (f : F) (b : B) : window_t T Sh F B := WindowT APP_ABOUT (Box 0 0 0 0) false false [] t s 0 f b.
Definition flags0 : flags := Flags true true (-1) true false.
Definition empty_slot : window_t unit unit unit unit := zero_slot tt tt tt tt.

(** The first window is pressed at its title. *)
Definition at_title : desktop unit unit unit unit :=
  match desktop_init 1024 768 (statics empty_slot) tt with Ret (d, _) => set_mouse (Pointer 300 190 1 0 20 20) d | _ => statics empty_slot end.
Lemma at_title_ok : desk_ok 1024 768 (1024 + 768 + 1000) at_title.
Proof.
  destruct (init_ends 1024 768 ltac:(unfold PANEL_HEIGHT; lia) no_apps_return empty_slot tt eq_refl) as ([d o] & E & H & _). unfold at_title. rewrite E.
  apply (mouse_with_ok 1024 768 (1024 + 768 + 1000) ltac:(lia) ltac:(lia) no_apps_return); [exact H | unfold mouse_ok; cbn; lia].
Qed.
Definition its_window : window_t unit unit unit unit := default empty_slot (windows at_title !! 0%nat).
Lemma desktop_press_window_witness : apps_return (Apps0:=no_apps) /\ desk_ok 1024 768 (1024 + 768 + 1000) at_title /\ opened at_title !! 0%nat = Some its_window /\ hit_by 300 190 its_window = true /\
  exists d', (exists o', press_click 1024 768 at_title tt = Ret (Went true, d', o')) /\ active_index d' = 0.
Proof.
  assert (opened at_title !! 0%nat = Some its_window) as E by (vm_compute; reflexivity). assert (hit_by 300 190 its_window = true) as Eh by (vm_compute; reflexivity).
  split; [exact no_apps_return |]. split; [exact at_title_ok |]. split; [exact E |]. split; [exact Eh |].
  destruct (desktop_press_window 1024 768 (1024 + 768 + 1000) at_title tt 0 its_window no_apps_return at_title_ok) as (d' & o' & H1 & H2);
    [reflexivity | reflexivity | reflexivity | exact E | exact Eh | intros [|j] u Hj Eu; [lia | vm_compute in Eu; discriminate] |].
  exists d'. split; [by exists o' |]. exact (proj1 (proj2 H2)).
Defined.

(** The launcher is open, with a query in capitals, and its first line under the mouse. *)
Definition with_query : desktop unit unit unit unit := set_launcher (Launcher true (txt "FI") 0) (set_mouse (Pointer 40 70 1 0 20 20) at_title).
Lemma with_query_ok : desk_ok 1024 768 (1024 + 768 + 1000) with_query.
Proof.
  apply (launcher_with_ok 1024 768 (1024 + 768 + 1000) ltac:(lia) ltac:(lia) no_apps_return); [| split; [cbn; lia | split; [done | by left]]].
  apply (mouse_with_ok 1024 768 (1024 + 768 + 1000) ltac:(lia) ltac:(lia) no_apps_return); [exact at_title_ok | unfold mouse_ok; cbn; lia].
Qed.
Lemma launcher_finds_witness : apps_return (Apps0:=no_apps) /\ desk_ok 1024 768 (1024 + 768 + 1000) with_query /\ found (txt "FI") !! 0%nat = Some (txt "Files", APP_FILES) /\
  (exists d' o', launcher_click 1024 768 with_query tt = Ret (Some (Went true, d', o')) /\ active_index d' = 1) /\
  exists d' o', launcher_key 1024 768 (KeyEvent true 10 KEY_ENTER) (with_query, flags0, tt) = Ret (d', mark_all flags0, o') /\ launcher_open (launcher d') = false.
Proof.
  assert (found (txt "FI") !! 0%nat = Some (txt "Files", APP_FILES)) as E by (vm_compute; reflexivity).
  split; [exact no_apps_return |]. split; [exact with_query_ok |]. split; [exact E |].
  destruct (launcher_finds 1024 768 (1024 + 768 + 1000) with_query tt 0 (txt "Files") APP_FILES no_apps_return with_query_ok) as (_ & _ & H); [vm_compute; reflexivity |].
  destruct (H E) as [H1 H2]. split.
  - destruct H1 as (d' & o' & H3 & _ & H4 & _); [vm_compute; reflexivity | split; vm_compute; [discriminate | reflexivity] | vm_compute; reflexivity |]. by exists d', o'.
  - destruct (H2 (KeyEvent true 10 KEY_ENTER) flags0) as (d' & o' & H3 & H4 & _); [reflexivity | reflexivity | reflexivity |]. by exists d', o'.
Defined.

(** ** A desktop with shells and file managers on the volume of [FatExamples] *)
From S2P Require Import Fat FatFile Shell ShellCommands ShellKeys FileManager FatExamples TerminalExamples.
(** A terminal is the sequence of calls made on it. *)
Definition drive : Type := fstate disk * pool.
Definition shell_on (m : Sh (D:=disk) (A:=pool) ()) (s : shell_t) (t : list action) (o : drive) : res (shell_t * list action * drive) :=
  '(_, w) ← m (World o t s 1); Ret (sh w, out w, files w).
#[export] Instance shells : Apps drive (list action) shell_t file_manager_t unit := {|
  show _ o := Ret o; Desktop.terminal_init _ o := Ret ([], o); terminal_draw _ t o := Ret (t, o); terminal_scroll_up t := Ret t; terminal_scroll_down t := t;
  Desktop.shell_init t o := shell_on ShellKeys.shell_init (ShellT [] [] 0 false []) t o;
  Desktop.shell_handle_key e s t o := shell_on (ShellKeys.shell_handle_key (Sys 0 0 0 0 0 0 0 0 [] 0 0 0 0) e) s t o; Desktop.shell_should_exit := exit_requested;
  Desktop.file_manager_init o := FileManager.file_manager_init o; Desktop.file_manager_handle_key e f o := FileManager.file_manager_handle_key 0 e f o;
  file_manager_draw _ f o := Ret (f, o); browser_init o := Ret (tt, o); browser_handle_key _ b o := Ret (b, o); browser_draw _ _ o := Ret o; net_poll o := Ret o; gfx_backbuffer_enabled _ := true |}.
Definition no_files : file_manager_t := FileManagerT [] 0 [] FS_SORT_NAME false [] false [] FM_MODE_NORMAL [] 0.
Definition desktop_after (evs : list event) : option (desktop (list action) shell_t file_manager_t unit) :=
  match desktop_init 1024 768 (statics (zero_slot [] (ShellT [] [] 0 false []) no_files tt)) (s0, pool0) with
  | Ret (d, o) => match run 1024 768 evs (d, flags0, o) with Ret (_, (d, _, _)) => Some d | _ => None end
  | _ => None
  end.
(** A letter, and what Alt with Enter, M and F does. *)
Definition typed_x := Key (KeyEvent true 120 KEY_NONE) false false.
Definition alt_enter := Key (KeyEvent true 0 KEY_ENTER) true false.
Definition alt_m := Key (KeyEvent true 109 KEY_NONE) true false.
Definition alt_f := Key (KeyEvent true 102 KEY_NONE) true false.
Definition click_at x y := [Mouse (MouseEvent x y 0 0 1); Turn; Mouse (MouseEvent x y 0 0 0); Turn].
(** The active window: its command, the last call on its terminal; and the latter for the slot of its shell's terminal. *)
Definition seen (o : option (desktop (list action) shell_t file_manager_t unit)) : option (Z * list Z * option action * option action) :=
  d ← o; v ← windows d !! Z.to_nat (active_index d); u ← windows d !! Z.to_nat (shell_term v);
  Some (active_index d, cmd (shell v), list.last (terminal v), list.last (terminal u)).

Example typing_shows : seen (desktop_after [typed_x]) = Some (0, [120], Some (Putc 120), Some (Putc 120)).
Proof. vm_compute. reflexivity. Qed.
(** Two terminals; the first is clicked and comes to the front.  What is typed into it is
    shown in the other: its shell still writes to slot 0. *)
Example raised_shell_writes_elsewhere : seen (desktop_after (alt_enter :: click_at 240 185 ++ [typed_x])) = Some (1, [120], Some (Print (txt "> ")), Some (Putc 120)).
Proof. vm_compute. reflexivity. Qed.
(** Alt and M hides the active window, which keeps the keys. *)
Example minimized_gets_keys : match desktop_after [alt_m; typed_x] with
  | Some d => (active_index d, minimized <$> windows d !! 0%nat, (fun v => cmd (shell v)) <$> windows d !! 0%nat) = (0, Some true, Some [120]) | None => False end.
Proof. vm_compute. reflexivity. Qed.
(** A click beside the open launcher, at the height of its list, opens an application. *)
Example click_beside_launcher : match desktop_after (click_at 20 755 ++ click_at 700 90) with Some d => (window_count d, launcher_open (launcher d)) = (2, false) | None => False end.
Proof. vm_compute. reflexivity. Qed.
