(* ===== verification/DesktopView.v ===== *)
(** * The desktop ([src/src/ui/desktop.c]): what it draws, and its loop

    Drawing is a sequence of calls of the display, [show] of [Apps]; the parts that draw
    only are lists of calls.  The loop of [desktop_loop] is [desktop_turn], for what one
    turn of it sees: the events in the queues, the counters at each place that reads them. *)
From S2P Require Import Prelude Input Interrupts Gfx BrowserView Desktop DesktopProps.

Record theme_t := Theme {
  bg_top : Z; bg_bottom : Z; panel : Z; panel_border : Z; panel_item : Z; panel_item_active : Z;
  window_border_active : Z; window_border_inactive : Z; window_title : Z; window_bg : Z; text : Z; text_muted : Z; accent : Z;
}.
Definition themes : list theme_t := [
  Theme 0x0B0F19 0x0F1C2C 0x151A26 0x2C3142 0x1E2331 0x2A5C8A 0x2A5C8A 0x2A2E3A 0x1B2435 0x0F1218 0xE6E6E6 0x9BA6B2 0x6FD3FF;
  Theme 0x120B0B 0x2B1616 0x1C1414 0x3A2B2B 0x221919 0x8A2A2A 0x8A2A2A 0x3A2A2A 0x2A1B1B 0x140F0F 0xE6E6E6 0xB2A09B 0xFF9A9A;
  Theme 0x0B1411 0x113024 0x131E1A 0x274038 0x1B2A24 0x2A8A6D 0x2A8A6D 0x2A3A34 0x1B2A25 0x0F1412 0xE6E6E6 0x9BB2A7 0x7FFFD4;
  Theme 0x090A0C 0x0E1115 0x14171B 0x2A2F35 0x1D2228 0x4A6F6A 0x4A6F6A 0x2D3238 0x1B1F24 0x0F1113 0xE3E5E8 0x9AA1A8 0x66C7BF].
Definition theme_index_of (s : settings_t) : Z := let i := Z.rem (theme_index s) theme_count in if i <? 0 then 0 else i.
Definition current_theme (s : settings_t) : res theme_t := zget themes (theme_index_of s).

(** The counters that are shown. *)
Record readings := Readings {
  uptime_seconds : Z; ticks : Z; irq0 : Z; irq1 : Z; pmm_total_pages : Z; pmm_free_pages : Z; heap_allocated : Z; heap_freed : Z; cpu_vendor : list Z;
}.
(** The digits of [value], the last ones, in front of [acc]. *)
Fixpoint digits_of (n : nat) (value : Z) (acc : list Z) : list Z :=
  match n with O => acc | S n => if 0 <? value then digits_of n (value / 10) ((48 + value mod 10) :: acc) else acc end.
Definition u64_to_dec (max value : Z) : list Z :=
  if max <=? 0 then [] else if value =? 0 then [48] else take (Z.to_nat (max - 1)) (digits_of 20 value []).
Definition text_width (s : list Z) : Z := Z.of_nat (length s) * FONT_WIDTH.
Definition mb (pages : Z) : Z := u64 (pages * 4096) / (1024 * 1024).

(** ** The parts that only draw *)
Section Parts.
Context (sw sh : Z).
Definition draw_background (t : theme_t) : list call :=
  [Rect 0 0 sw sh (bg_top t); Rect 0 0 sw (u32 (sh * 45) / 100) (bg_bottom t)].

Definition draw_debug_overlay (s : settings_t) (t : theme_t) (fps : Z) (r : readings) : list call :=
  if negb (debug_overlay s) then [] else
  let line := 8 + 24 in let mem_y := 8 + 92 - FONT_HEIGHT - 6 in
  [Rect 8 8 220 92 (panel t); Rect 8 8 220 1 (panel_border t); Text (txt "Debug") 16 14 (accent t);
   Text (txt "FPS:") 16 line (text_muted t); Text (u64_to_dec 32 fps) 68 line (text t);
   Text (txt "Ticks:") 16 (line + FONT_HEIGHT) (text_muted t); Text (u64_to_dec 32 (ticks r)) 68 (line + FONT_HEIGHT) (text t);
   Text (txt "IRQ0:") 16 (line + FONT_HEIGHT * 2) (text_muted t); Text (u64_to_dec 32 (irq0 r)) 68 (line + FONT_HEIGHT * 2) (text t);
   Text (txt "IRQ1:") 16 (line + FONT_HEIGHT * 3) (text_muted t); Text (u64_to_dec 32 (irq1 r)) 68 (line + FONT_HEIGHT * 3) (text t);
   Text (txt "Free:") 16 mem_y (text_muted t); Text (u64_to_dec 32 (mb (pmm_free_pages r))) 68 mem_y (text t);
   Text (txt "/") 116 mem_y (text_muted t); Text (u64_to_dec 32 (mb (pmm_total_pages r))) 128 mem_y (text t)].

(** The button of a window in the task bar: its title, and whether it is lit. *)
Fixpoint task_buttons (l : list (list Z * bool)) (task_x : Z) (t : theme_t) : list call :=
  match l with
  | [] => []
  | (title, lit) :: l =>
      Rect task_x (sh - PANEL_HEIGHT + 4) 90 (PANEL_HEIGHT - 8) (if lit then panel_item_active t else panel_item t) ::
      Text title (task_x + 8) (sh - PANEL_HEIGHT + 8) (text t) :: task_buttons l (task_x + 96) t
  end.
Definition clock (uptime : Z) : list Z :=
  let hours := uptime / 3600 in let minutes := uptime mod 3600 / 60 in let seconds := uptime mod 60 in
  [48 + hours / 10 mod 10; 48 + hours mod 10; 58; 48 + minutes / 10; 48 + minutes mod 10; 58; 48 + seconds / 10; 48 + seconds mod 10].
Definition panel_calls (opened : bool) (l : list (list Z * bool)) (t : theme_t) (uptime : Z) : list call :=
  let y := sh - PANEL_HEIGHT in
  [Rect 0 y sw PANEL_HEIGHT (panel t); Rect 0 y sw 1 (panel_border t);
   Rect 8 (y + 4) 72 (PANEL_HEIGHT - 8) (if opened then panel_item_active t else panel_item t); Text (txt "Fusion") 16 (y + 8) (text t)] ++
  task_buttons l 90 t ++ [Text (clock uptime) (sw - 80) (y + 8) (text t)].

Fixpoint launcher_rows (l : list (list Z * app_type)) (query : list Z) (y : layout) (line_y matched selection : Z) (t : theme_t) : list call :=
  match l with
  | [] => []
  | (name, _) :: l =>
      if negb (launcher_matches query name) then launcher_rows l query y line_y matched selection t
      else if list_bottom y <? line_y + FONT_HEIGHT then []
      else (if matched =? selection then [Rect (l_x y + 12 - 2) (line_y - 2) (l_w y - 12 * 2 + 4) (FONT_HEIGHT + 4) (panel_item_active t)] else []) ++
           Text name (l_x y + 12) line_y (text t) :: launcher_rows l query y (line_y + (FONT_HEIGHT + 6)) (matched + 1) selection t
  end.
Definition draw_launcher (l : launcher_t) (t : theme_t) : list call :=
  if negb (launcher_open l) then [] else
  let y := launcher_layout sw sh in
  let header_y := l_y y + 12 in let search_y := header_y + FONT_HEIGHT + 6 in
  let w := button_w y in let x := l_x y + 12 in
  [Rect (l_x y) (l_y y) (l_w y) (l_h y) (panel t); Rect (l_x y) (l_y y) (l_w y) 1 (panel_border t);
   Text (txt "Apps") (l_x y + 12) header_y (accent t); Text (txt "Search:") (l_x y + 12) search_y (text_muted t);
   Text (match launcher_query l with [] => txt "..." | q => q end) (l_x y + 12 + 60) search_y (text t)] ++
  launcher_rows apps (launcher_query l) y (list_y y) 0 (launcher_selection l) t ++
  [Rect x (button_y y) w 24 (panel_item t); Rect (x + w + 8) (button_y y) w 24 (panel_item t); Rect (x + (w + 8) * 2) (button_y y) w 24 (panel_item t);
   Text (txt "Shutdown") (x + 6) (button_y y + 4) (text t); Text (txt "Sleep") (x + w + 8 + 12) (button_y y + 4) (text t);
   Text (txt "Reboot") (x + (w + 8) * 2 + 12) (button_y y + 4) (text t)].

Definition frame_calls (b : box) (lit : bool) (title : list Z) (t : theme_t) : list call :=
  let close_x := bx b + bw b - CLOSE_SIZE - 6 in let close_y := by_ b + 5 in let c := window_content_bounds b in
  [Rect (bx b) (by_ b) (bw b) (bh b) (if lit then window_border_active t else window_border_inactive t);
   Rect (bx b + BORDER_SIZE) (by_ b + BORDER_SIZE) (bw b - BORDER_SIZE * 2) (TITLE_HEIGHT - BORDER_SIZE) (window_title t);
   Text title (bx b + 10) (by_ b + 6) (text t);
   Rect close_x close_y CLOSE_SIZE CLOSE_SIZE 0xA03B3B; Text (txt "x") (close_x + 4) (close_y + 1) (text t);
   Rect (bx c) (by_ c) (bw c) (bh c) (window_bg t)].
Definition theme_name (i : Z) : list Z :=
  if i =? 1 then txt "Red" else if i =? 2 then txt "Teal" else if i =? 3 then txt "Dark" else txt "Blue".
Definition on_off (b : bool) : list Z := if b then txt "On" else txt "Off".
(** A field of the settings at [sy]: its name, its width, its value and where it stands. *)
Definition field (name : list Z) (width : Z) (value : list Z) (dx sx sy : Z) (t : theme_t) : list call :=
  [Text name sx sy (text t); Rect (sx + 90) (sy - 2) width (FONT_HEIGHT + 4) (panel_item t); Text value (sx + dx) sy (text t)].
Definition settings_calls (b : box) (s : settings_t) (t : theme_t) : list call :=
  let c := window_content_bounds b in let sx := bx c + 12 in let top := by_ c + 12 in
  let row i := top + FONT_HEIGHT + 8 + i * (FONT_HEIGHT + 10) in
  [Text (txt "Settings") sx top (text t)] ++
  field (txt "Idle FPS:") 40 [48 + Z.quot (idle_fps s) 10; 48 + Z.rem (idle_fps s) 10] 100 sx (row 0) t ++
  field (txt "Cursor:") 80 (if cursor_size s then txt "Large" else txt "Small") 98 sx (row 1) t ++
  field (txt "Theme:") 80 (theme_name (theme_index_of s)) 100 sx (row 2) t ++
  field (txt "Backbuffer:") 80 (on_off (double_buffer s)) 110 sx (row 3) t ++
  field (txt "Debug HUD:") 80 (on_off (debug_overlay s)) 110 sx (row 4) t.
Definition about_calls (b : box) (r : readings) (t : theme_t) : list call :=
  let c := window_content_bounds b in let sx := bx c + 12 in let top := by_ c + 12 in
  let row i := top + FONT_HEIGHT + 8 + i * (FONT_HEIGHT + 6) in
  let wbuf := u64_to_dec 12 sw in
  [Text (txt "Fusion OS") sx top (text t);
   Text (txt "Version:") sx (row 0) (text t); Text (txt "1.0") (sx + 120) (row 0) (text t);
   Text (txt "Uptime (s):") sx (row 1) (text t); Text (u64_to_dec 24 (uptime_seconds r)) (sx + 120) (row 1) (text t);
   Text (txt "Resolution:") sx (row 2) (text t); Text wbuf (sx + 120) (row 2) (text t);
   Text (txt "x") (sx + 120 + text_width wbuf) (row 2) (text_muted t); Text (u64_to_dec 12 sh) (sx + 120 + text_width wbuf + FONT_WIDTH) (row 2) (text t);
   Text (txt "Memory Total (MB):") sx (row 3) (text t); Text (u64_to_dec 16 (mb (pmm_total_pages r))) (sx + 180) (row 3) (text t);
   Text (txt "Memory Free (MB):") sx (row 4) (text t); Text (u64_to_dec 16 (mb (pmm_free_pages r))) (sx + 180) (row 4) (text t);
   Text (txt "Heap Used (KB):") sx (row 5) (text t); Text (u64_to_dec 16 (u64 (heap_allocated r - heap_freed r) / 1024)) (sx + 180) (row 5) (text t);
   Text (txt "CPU Vendor:") sx (row 6) (text t); Text (cpu_vendor r) (sx + 120) (row 6) (text t)].

(** *** The pointer *)
(** A row of the arrow: ones, then zeros. *)
Definition arrow_row (w ones : nat) : list Z := repeat 1 ones ++ repeat 0 (w - ones).
Definition arrow_large : list Z := Eval vm_compute in flat_map (arrow_row 12) [1; 2; 3; 4; 5; 6; 7; 8; 9; 10; 11; 7; 6; 5; 4; 3; 2; 1; 0]%nat.
Definition arrow_small : list Z := Eval vm_compute in flat_map (arrow_row 8) [1; 2; 3; 4; 5; 6; 4; 3; 2; 1; 0; 0]%nat.
Definition range (n : Z) : list Z := Z.of_nat <$> seq 0 (Z.to_nat n).
(** The pixels around a set pixel that are in the arrow's rectangle and not set. *)
Definition outline (bits : list Z) (w h x y : Z) : list (Z * Z) :=
  flat_map (fun dy => flat_map (fun dx =>
    let nx := x + dx in let ny := y + dy in
    if (nx <? 0) || (ny <? 0) || (w <=? nx) || (h <=? ny) then [] else
    if negb (byte_at bits (ny * w + nx) =? 0) then [] else [(nx, ny)]) [-1; 0; 1]) [-1; 0; 1].
(** The pixels in the order in which they are drawn; [true]: of the outline. *)
Definition cursor_pixels (large : bool) : list (Z * Z * bool) :=
  let '(bits, w, h) := if large then (arrow_large, 12, 19) else (arrow_small, 8, 12) in
  let set (f : Z -> Z -> list (Z * Z * bool)) := flat_map (fun y => flat_map (fun x => if byte_at bits (y * w + x) =? 0 then [] else f x y) (range w)) (range h) in
  set (fun x y => (fun p => (p, true)) <$> outline bits w h x y) ++ set (fun x y => [(x, y, false)]).
Definition draw_mouse_cursor_common (front : bool) (s : settings_t) (m : pointer) (t : theme_t) : list display :=
  (fun '(x, y, edge) =>
     let color := if edge : bool then text_muted t else text t in
     if front then DrawFront (mouse_x m + x) (mouse_y m + y) 1 1 color else Draw (Rect (mouse_x m + x) (mouse_y m + y) 1 1 color)) <$> cursor_pixels (cursor_size s).
Definition cursor_bounds (x y w h : Z) : box :=
  let x0 := if x - 1 <? 0 then 0 else x - 1 in let y0 := if y - 1 <? 0 then 0 else y - 1 in
  let x1 := if sw <? x + w + 1 then sw else x + w + 1 in let y1 := if sh <? y + h + 1 then sh else y + h + 1 in
  Box x0 y0 (x1 - x0) (y1 - y0).
End Parts.

(** ** Windows, and a turn of the loop *)
Section Code.
Context {W T Sh F B : Type} `{!Apps W T Sh F B} (sw sh : Z).
Abbreviation win := (window_t T Sh F B).
Abbreviation desk := (desktop T Sh F B).
Implicit Types d : desk.

Fixpoint show_all (l : list display) (o : W) : res W := match l with [] => Ret o | c :: l => o ← show c o; show_all l o end.
Definition draw_all (l : list call) (o : W) : res W := show_all (Draw <$> l) o.

Definition draw_panel d (t : theme_t) (uptime : Z) : list call :=
  panel_calls sw sh (launcher_open (launcher d)) ((fun v => (title v, active v && negb (minimized v))) <$> take (Z.to_nat (window_count d)) (windows d)) t uptime.
Definition draw_window (i : Z) (r : readings) d (o : W) : res (desk * W) :=
  v ← zget (windows d) i;
  if minimized v then Ret (d, o) else
  t ← current_theme (settings d);
  o ← draw_all (frame_calls (at_ v) (active v) (title v) t) o;
  match w_type v return res (desk * W) with
  | APP_TERMINAL => '(x, o) ← terminal_draw (inner (at_ v)) (terminal v) o; d ← update i (set_terminal x) d; Ret (d, o)
  | APP_FILES => '(x, o) ← file_manager_draw (inner (at_ v)) (file_manager v) o; d ← update i (set_files x) d; Ret (d, o)
  | APP_BROWSER => o ← browser_draw (inner (at_ v)) (browser v) o; Ret (d, o)
  | APP_SETTINGS => o ← draw_all (settings_calls (at_ v) (settings d) t) o; Ret (d, o)
  | APP_ABOUT => o ← draw_all (about_calls sw sh (at_ v) r t) o; Ret (d, o)
  end.
(** All windows but the active one from the bottom, then the active one. *)
Fixpoint draw_others (n : nat) (i : Z) (r : readings) d (o : W) : res (desk * W) :=
  match n with
  | O => Ret (d, o)
  | S n => '(d, o) ← (if i =? active_index d then Ret (d, o) else draw_window i r d o); draw_others n (i + 1) r d o
  end.
Definition draw_full (fps : Z) (r : readings) d (o : W) : res (desk * W) :=
  t ← current_theme (settings d);
  o ← draw_all (draw_background sw sh t) o;
  '(d, o) ← draw_others (Z.to_nat (window_count d)) 0 r d o;
  '(d, o) ← (if 0 <=? active_index d then draw_window (active_index d) r d o else Ret (d, o));
  o ← draw_all (draw_panel d t (uptime_seconds r) ++ draw_launcher sw sh (launcher d) t ++ draw_debug_overlay (settings d) t fps r) o;
  o ← show Present_ o; Ret (d, o).

(** The locals of the loop besides [flags]. *)
Record clockwork := Clockwork {
  last_tick : Z; last_uptime : Z; idle_accum : Z; fps_last_tick : Z; fps_frames : Z; fps_value : Z;
  overlay_last_tick : Z; overlay_dirty : bool; net_last_tick : Z;
}.
Definition set_overlay b c := Clockwork (last_tick c) (last_uptime c) (idle_accum c) (fps_last_tick c) (fps_frames c) (fps_value c) (overlay_last_tick c) b (net_last_tick c).
(** What a turn sees: [tk n] is the counter [ticks] at the [n]-th place that reads it. *)
Record inputs := Inputs { keys : list (key_event * bool * bool); mice : list mouse_event; tk : nat -> Z; up_seen : Z; up_kept : Z; shown : readings }.

Fixpoint key_queue (l : list (key_event * bool * bool)) (k : kstate (W:=W)) : res (kstate (W:=W)) :=
  match l with [] => Ret k | (e, alt, shift) :: l => k ← handle_key sw sh e alt shift k; key_queue l k end.
Fixpoint mouse_queue (l : list mouse_event) d (f : flags) : desk * flags :=
  match l with [] => (d, f) | e :: l => let (d, f) := poll_mouse sw sh e d f in mouse_queue l d f end.

(** The network, the overlay's second, the queues. *)
Definition poll_turn (i : inputs) (c : clockwork) d (f : flags) (o : W) : res (clockwork * kstate (W:=W)) :=
  '(c, o) ← (if negb (tk i 0 =? net_last_tick c) then
      o ← net_poll (T:=T) (S:=Sh) (F:=F) (B:=B) o;
      Ret (Clockwork (last_tick c) (last_uptime c) (idle_accum c) (fps_last_tick c) (fps_frames c) (fps_value c) (overlay_last_tick c) (overlay_dirty c) (tk i 1), o)
    else Ret (c, o));
  let c := if debug_overlay (settings d) && (PIT_HZ <=? u64 (tk i 2 - overlay_last_tick c)) then
      Clockwork (last_tick c) (last_uptime c) (idle_accum c) (fps_last_tick c) (fps_frames c) (fps_value c) (tk i 3) true (net_last_tick c) else c in
  '(d, f, o) ← key_queue (keys i) (d, f, o);
  let (d, f) := mouse_queue (mice i) d f in
  if negb (up_seen i =? last_uptime c) then
    Ret (Clockwork (last_tick c) (up_kept i) (idle_accum c) (fps_last_tick c) (fps_frames c) (fps_value c) (overlay_last_tick c) (overlay_dirty c) (net_last_tick c),
         (d, Flags (dirty_full f) true (dirty_window f) (cursor_dirty f) (activity f), o))
  else Ret (c, (d, f, o)).

(** Whether the turn goes on to draw, and [idle_accum]. *)
Definition idle_turn (i : inputs) (c : clockwork) (fps : Z) (f : flags) : bool * clockwork :=
  if (tk i 4 =? last_tick c) && negb (activity f) then (false, c) else
  let need_render := dirty_full f || dirty_panel f || (0 <=? dirty_window f) || cursor_dirty f || overlay_dirty c in
  let keep acc := Clockwork (tk i 5) (last_uptime c) acc (fps_last_tick c) (fps_frames c) (fps_value c) (overlay_last_tick c) (overlay_dirty c) (net_last_tick c) in
  if negb (activity f) && negb need_render then
    let acc := u32 (idle_accum c + fps) in
    if acc <? PIT_HZ then (false, keep acc) else (true, keep (u32 (acc - PIT_HZ)))
  else (true, keep 0).

Definition moved (m : pointer) : pointer := Pointer (mouse_x m) (mouse_y m) (mouse_buttons m) (prev_mouse_buttons m) (mouse_x m) (mouse_y m).
(** Panel and launcher, when the whole screen was not drawn. *)
Definition render_panel (r : readings) d (o : W) : res W :=
  t ← current_theme (settings d);
  o ← draw_all (draw_panel d t (uptime_seconds r)) o;
  o ← show (PresentRect 0 (sh - PANEL_HEIGHT) sw PANEL_HEIGHT) o;
  if launcher_open (launcher d) then
    let y := launcher_layout sw sh in
    o ← draw_all (draw_launcher sw sh (launcher d) t) o; show (PresentRect (l_x y) (l_y y) (l_w y) (l_h y)) o
  else Ret o.
(** The pointer on the screen, over what the buffer shows where it was. *)
Definition render_cursor (did_full : bool) d (o : W) : res (desk * W) :=
  let m := mouse d in
  t ← current_theme (settings d);
  o ← (if did_full then Ret o else
    let b := cursor_bounds sw sh (prev_cursor_x m) (prev_cursor_y m) (cursor_w d) (cursor_h d) in show (PresentRect (bx b) (by_ b) (bw b) (bh b)) o);
  o ← show_all (draw_mouse_cursor_common true (settings d) m t) o;
  Ret (set_mouse (moved m) d, o).
(** The drawing of a turn; the result tells whether something was presented. *)
Definition render_turn (i : inputs) (c : clockwork) d (f : flags) (o : W) : res (bool * clockwork * kstate (W:=W)) :=
  let r := shown i in
  '(did_full, presented, d, c, f, o) ← (if dirty_full f then
      '(d, o) ← draw_full (fps_value c) r d o;
      Ret (true, true, d, if debug_overlay (settings d) then set_overlay false c else c, Flags false false (-1) (cursor_dirty f) (activity f), o)
    else if (0 <=? dirty_window f) && (dirty_window f <? window_count d) then
      '(d, o) ← draw_window (dirty_window f) r d o;
      v ← zget (windows d) (dirty_window f);
      o ← show (PresentRect (bx (at_ v)) (by_ (at_ v)) (bw (at_ v)) (bh (at_ v))) o;
      Ret (false, true, d, c, Flags (dirty_full f) (dirty_panel f) (-1) (cursor_dirty f) (activity f), o)
    else Ret (false, false, d, c, f, o));
  '(presented, f, o) ← (if negb did_full && dirty_panel f then
      o ← render_panel r d o; Ret (true, Flags (dirty_full f) false (dirty_window f) (cursor_dirty f) (activity f), o)
    else Ret (presented, f, o));
  '(presented, c, o) ← (if negb did_full && debug_overlay (settings d) && overlay_dirty c then
      t ← current_theme (settings d);
      o ← draw_all (draw_debug_overlay (settings d) t (fps_value c) r) o; o ← show (PresentRect 8 8 220 92) o; Ret (true, set_overlay false c, o)
    else Ret (presented, c, o));
  if gfx_backbuffer_enabled (T:=T) (S:=Sh) (F:=F) (B:=B) o then
    if did_full || cursor_dirty f then
      '(d, o) ← render_cursor did_full d o;
      Ret (true, c, (d, Flags (dirty_full f) (dirty_panel f) (dirty_window f) false (activity f), o))
    else Ret (presented, c, (d, f, o))
  else if did_full then
    t ← current_theme (settings d);
    o ← show_all (draw_mouse_cursor_common false (settings d) (mouse d) t) o;
    Ret (presented, c, (set_mouse (moved (mouse d)) d, Flags (dirty_full f) (dirty_panel f) (dirty_window f) false (activity f), o))
  else Ret (presented, c, (d, f, o)).
Definition count_frame (i : inputs) (presented overlay : bool) (c : clockwork) : clockwork :=
  let frames := if presented then u32 (fps_frames c + 1) else fps_frames c in
  if PIT_HZ <=? u64 (tk i 6 - fps_last_tick c) then
    let delta := u64 (tk i 7 - fps_last_tick c) in
    Clockwork (last_tick c) (last_uptime c) (idle_accum c) (tk i 8) 0 (u32 (u32 (frames * PIT_HZ) / (if delta =? 0 then 1 else delta)))
      (overlay_last_tick c) (overlay || overlay_dirty c) (net_last_tick c)
  else Clockwork (last_tick c) (last_uptime c) (idle_accum c) (fps_last_tick c) frames (fps_value c) (overlay_last_tick c) (overlay_dirty c) (net_last_tick c).

(** A turn of the loop. *)
Definition desktop_turn (i : inputs) (c : clockwork) d (f : flags) (o : W) : res (outcome * clockwork * kstate (W:=W)) :=
  let f := Flags (dirty_full f) (dirty_panel f) (dirty_window f) (cursor_dirty f) false in
  '(c, (d, f, o)) ← poll_turn i c d f o;
  '(r, (d, f, o)) ← mouse_turn sw sh d f o;
  match r return res (outcome * clockwork * kstate (W:=W)) with
  | Went _ =>
      let f := if negb (gfx_backbuffer_enabled (T:=T) (S:=Sh) (F:=F) (B:=B) o) && cursor_dirty f && negb (dirty_full f) && negb (dirty_panel f) && (dirty_window f <? 0)
               then Flags true (dirty_panel f) (dirty_window f) (cursor_dirty f) (activity f) else f in
      let (go, c) := idle_turn i c (idle_fps (settings d)) f in
      if negb go then Ret (r, c, (d, f, o)) else
      '(presented, c, (d, f, o)) ← render_turn i c d f o;
      Ret (r, count_frame i presented (debug_overlay (settings d)) c, (d, f, o))
  | _ => Ret (r, c, (d, f, o))
  end.
(** The locals where the loop begins; [now] and [up] are the counters. *)
Definition clockwork0 (now up : Z) : clockwork := Clockwork 0 up 0 now 0 0 now false 0.
Definition loop_flags : flags := Flags true true (-1) true false.
Fixpoint desktop_loop (l : list inputs) (c : clockwork) d (f : flags) (o : W) : res (outcome * clockwork * kstate (W:=W)) :=
  match l with
  | [] => Ret (Went false, c, (d, f, o))
  | i :: l =>
      '(r, c, (d, f, o)) ← desktop_turn i c d f o;
      match r return res (outcome * clockwork * kstate (W:=W)) with Went _ => desktop_loop l c d f o | _ => Ret (r, c, (d, f, o)) end
  end.
End Code.

(** ** The loop returns and keeps the invariant *)
Section Loop.
Context {W T Sh F B : Type} `{!Apps W T Sh F B} (sw sh : Z).
Implicit Types d : desktop T Sh F B.
Hypothesis Hscreen : 1 <= sw <= 2 ^ 16 /\ PANEL_HEIGHT <= sh <= 2 ^ 16.
Hypothesis Happs : apps_return (W:=W) (T:=T) (Sh:=Sh) (F:=F) (B:=B).
#[local] Set Default Proof Using "All".
Abbreviation ok V := (desk_ok (T:=T) (Sh:=Sh) (F:=F) (B:=B) sw sh V).
Abbreviation quiet m := (ends m (fun _ : W => True)).

Lemma show_all_ends l (o : W) : quiet (show_all l o).
Proof. revert o. induction l as [|c l IH]; intros o; cbn [show_all]; [by apply ends_ret |]. eapply ends_bind; [apply (r_show Happs) |]. intros o1 _. apply IH. Qed.
Lemma draw_all_ends l (o : W) : quiet (draw_all l o).
Proof. apply show_all_ends. Qed.
Lemma theme_ends V d : ok V d -> ends (current_theme (settings d)) (fun _ => True).
Proof.
  intros [[] _]. destruct k_settings as [_ Ht]. unfold current_theme, theme_index_of. pose proof (Z.rem_bound_pos (theme_index (settings d)) theme_count ltac:(lia) ltac:(done)).
  eapply ends_weaken; [apply zget_ends | done]. unfold theme_count in *. cbn [length themes]. destruct (Z.ltb_spec (Z.rem (theme_index (settings d)) 4) 0); lia.
Qed.
Lemma slot_with_ends V i (f : window_t T Sh F B -> window_t T Sh F B) d (o : W) : sw + sh + 1000 <= V -> ok V d -> 0 <= i < MAX_WINDOWS -> (forall v, active (f v) = active v) ->
  (forall v, w_type (f v) = w_type v /\ shell_term (f v) = shell_term v) -> (forall v, at_ (f v) = at_ v) -> ends (d ← update i f d; Ret (d, o)) (fun r => ok V r.1).
Proof.
  intros HV H Hi H1 H2 H3. eapply ends_bind; [apply (update_ends sw sh V (screen_ok sw sh Hscreen) HV); try done; intros v; by rewrite H3 |]. intros d1 [Hd _]. by apply ends_ret.
Qed.
Lemma draw_window_ends V i r d o : sw + sh + 1000 <= V -> ok V d -> 0 <= i < MAX_WINDOWS -> ends (draw_window sw sh i r d o) (fun r => ok V r.1).
Proof.
  intros HV H Hi. pose proof H as [[] _]. unfold draw_window. eapply ends_bind; [apply zget_ends; unfold MAX_WINDOWS in *; lia |]. intros v _. apply ends_if; intros _; [by apply ends_ret |].
  eapply ends_bind; [by apply (theme_ends V) |]. intros t _. eapply ends_bind; [apply draw_all_ends |]. intros o1 _. destruct (w_type v).
  - eapply ends_bind; [apply (r_t_draw Happs) |]. intros [x o2] _. by apply slot_with_ends.
  - eapply ends_bind; [apply (r_f_draw Happs) |]. intros [x o2] _. by apply slot_with_ends.
  - eapply ends_bind; [apply draw_all_ends |]. intros o2 _. by apply ends_ret.
  - eapply ends_bind; [apply draw_all_ends |]. intros o2 _. by apply ends_ret.
  - eapply ends_bind; [apply (r_b_draw Happs) |]. intros o2 _. by apply ends_ret.
Qed.
Lemma draw_others_ends V n : forall i r d o, sw + sh + 1000 <= V -> ok V d -> 0 <= i -> i + Z.of_nat n <= MAX_WINDOWS -> ends (draw_others sw sh n i r d o) (fun r => ok V r.1).
Proof.
  induction n as [|n IH]; intros i r d o HV H Hi Hn; cbn [draw_others]; [by apply ends_ret |]. apply (ends_bind _ _ (fun r => ok V r.1)).
  - apply ends_if; intros _; [by apply ends_ret | apply draw_window_ends; [done | done | lia]].
  - intros [d1 o1] H1. apply IH; [done | done | lia | lia].
Qed.
Lemma draw_full_ends V fps r d o : sw + sh + 1000 <= V -> ok V d -> ends (draw_full sw sh fps r d o) (fun r => ok V r.1).
Proof.
  intros HV H. pose proof H as [[] [F1 _]]. unfold draw_full. eapply ends_bind; [by apply (theme_ends V) |]. intros t _. eapply ends_bind; [apply draw_all_ends |]. intros o1 _.
  eapply ends_bind; [apply (draw_others_ends V); [done | done | lia | lia] |]. intros [d1 o2] H1. cbn [fst] in H1. pose proof H1 as [[] [F1' _]]. apply (ends_bind _ _ (fun r => ok V r.1)).
  - apply ends_if; intros Ha; [apply draw_window_ends; [done | done | lia] | by apply ends_ret].
  - intros [d2 o3] H2. eapply ends_bind; [apply draw_all_ends |]. intros o4 _. eapply ends_bind; [apply (r_show Happs) |]. intros o5 _. by apply ends_ret.
Qed.
Lemma moved_ok V d : sw + sh + 1000 <= V -> ok V d -> ok V (set_mouse (moved (mouse d)) d).
Proof. intros HV H. apply (mouse_with_ok sw sh V (screen_ok sw sh Hscreen) HV Happs); [done |]. by destruct H as [[] _]. Qed.
Lemma render_cursor_ends V full d o : sw + sh + 1000 <= V -> ok V d -> ends (render_cursor sw sh full d o) (fun r => ok V r.1).
Proof.
  intros HV H. unfold render_cursor. eapply ends_bind; [by apply (theme_ends V) |]. intros t _. eapply ends_bind; [apply ends_if; intros _; [by apply (ends_ret _ (fun _ => True)) | apply (r_show Happs)] |].
  intros o1 _. eapply ends_bind; [apply show_all_ends |]. intros o2 _. by apply ends_ret, moved_ok.
Qed.
Lemma render_panel_ends V r d o : ok V d -> quiet (render_panel sw sh r d o).
Proof.
  intros H. unfold render_panel. eapply ends_bind; [by apply (theme_ends V) |]. intros t _. eapply ends_bind; [apply draw_all_ends |]. intros o1 _. eapply ends_bind; [apply (r_show Happs) |]. intros o2 _.
  apply ends_if; intros _; [| by apply ends_ret]. eapply ends_bind; [apply draw_all_ends |]. intros o3 _. apply (r_show Happs).
Qed.
Abbreviation fine V r := (ok V (fst (fst (snd r)))).
Lemma render_turn_ends V i c d f o : sw + sh + 1000 <= V -> ok V d -> ends (render_turn sw sh i c d f o) (fun r => fine V r).
Proof.
  intros HV H. unfold render_turn. cbv zeta. pose proof H as [[] _]. apply (ends_bind _ _ (fun r => ok V r.1.1.1.2)).
  { apply ends_if; intros _; [eapply ends_bind; [by apply (draw_full_ends V) |]; intros [d1 o1] H1; by apply ends_ret |].
    apply ends_if; intros Hw; [| by apply ends_ret]. apply andb_prop in Hw as [Hw1 Hw2]. eapply ends_bind; [apply (draw_window_ends V); [done | done | lia] |]. intros [d1 o1] H1. cbn [fst] in H1.
    pose proof H1 as [[] _]. eapply ends_bind; [apply zget_ends; unfold MAX_WINDOWS in *; lia |]. intros v _. eapply ends_bind; [apply (r_show Happs) |]. intros o2 _. by apply ends_ret. }
  intros [[[[[full pres] d1] c1] f1] o1] H1. cbn [fst snd] in H1. apply (ends_bind _ _ (fun _ => True)).
  { apply ends_if; intros _; [| by apply ends_ret]. eapply ends_bind; [by apply (render_panel_ends V) |]. intros o2 _. by apply ends_ret. }
  intros [[pres2 f2] o2] _. apply (ends_bind _ _ (fun _ => True)).
  { apply ends_if; intros _; [| by apply ends_ret]. eapply ends_bind; [by apply (theme_ends V) |]. intros t _. eapply ends_bind; [apply draw_all_ends |]. intros o3 _.
    eapply ends_bind; [apply (r_show Happs) |]. intros o4 _. by apply ends_ret. }
  intros [[pres3 c3] o3] _. apply ends_if; intros _.
  - apply ends_if; intros _; [| by apply ends_ret]. eapply ends_bind; [by apply (render_cursor_ends V) |]. intros [d4 o4] H4. by apply ends_ret.
  - apply ends_if; intros _; [| by apply ends_ret]. eapply ends_bind; [by apply (theme_ends V) |]. intros t _. eapply ends_bind; [apply show_all_ends |]. intros o4 _. by apply ends_ret, moved_ok.
Qed.
Definition inputs_ok (i : inputs) : Prop := Forall (fun e => 0 <= ev_x e /\ 0 <= ev_y e) (mice i).
Lemma key_queue_ends V l : forall k, sw + sh + 1000 <= V -> ok V k.1.1 -> ends (key_queue sw sh l k) (fun r => ok V r.1.1).
Proof.
  induction l as [|[[e alt] shift] l IH]; intros k HV H; cbn [key_queue]; [by apply ends_ret |].
  eapply ends_bind; [by apply (handle_key_ends sw sh V (screen_ok sw sh Hscreen) HV Happs) |]. intros k1 H1. by apply IH.
Qed.
(** *** What the buttons and the start of resizing are after a turn *)
Section Kept.
Variable d : desktop T Sh F B.
Abbreviation same := (kept true d).
Implicit Types (a : desktop T Sh F B) (o : W).
Lemma draw_window_kept i r a o : same a -> gives (draw_window sw sh i r a o) (fun r => same r.1).
Proof.
  intros H. assert (forall i f o, gives (a ← update i f a; Ret (a, o)) (fun r : _ * W => same r.1)) as Hu.
  { intros j g o1. apply (gives_bind _ _ same); [by apply update_kept |]. intros a1 H1. by apply gives_ret. }
  unfold draw_window. eapply gives_bind; [apply gives_any |]. intros v _. apply gives_if; [by apply gives_ret |]. do 2 (eapply gives_bind; [apply gives_any |]; intros ? _).
  destruct (w_type v); (eapply gives_bind; [apply gives_any |]; intros x _); try destruct x; try apply Hu; by apply gives_ret.
Qed.
Lemma draw_others_kept n : forall i r a o, same a -> gives (draw_others sw sh n i r a o) (fun r => same r.1).
Proof.
  induction n as [|n IH]; intros i r a o H; cbn [draw_others]; [by apply gives_ret |]. apply (gives_bind _ _ (fun r => same r.1)).
  - apply gives_if; [by apply gives_ret | by apply draw_window_kept].
  - intros [b1 o1] H1. by apply IH.
Qed.
Lemma draw_full_kept fps r a o : same a -> gives (draw_full sw sh fps r a o) (fun r => same r.1).
Proof.
  intros H. unfold draw_full. do 2 (eapply gives_bind; [apply gives_any |]; intros ? _). apply (gives_bind _ _ (fun r => same r.1)); [by apply draw_others_kept |].
  intros [b1 o1] H1. apply (gives_bind _ _ (fun r => same r.1)); [apply gives_if; [by apply draw_window_kept | by apply gives_ret] |].
  intros [b2 o2] H2. do 2 (eapply gives_bind; [apply gives_any |]; intros ? _). by apply gives_ret.
Qed.
Lemma render_cursor_kept full a o : same a -> gives (render_cursor sw sh full a o) (fun r => same r.1).
Proof. intros H. unfold render_cursor. do 3 (eapply gives_bind; [apply gives_any |]; intros ? _). by apply gives_ret. Qed.
Lemma render_turn_kept i c a f o : same a -> gives (render_turn sw sh i c a f o) (fun r => same r.2.1.1).
Proof.
  intros H. unfold render_turn. cbv zeta. apply (gives_bind _ _ (fun r => same r.1.1.1.2)).
  { apply gives_if; [apply (gives_bind _ _ (fun r => same r.1)); [by apply draw_full_kept |]; intros [b1 o1] H1; by apply gives_ret |].
    apply gives_if; [| by apply gives_ret]. apply (gives_bind _ _ (fun r => same r.1)); [by apply draw_window_kept |]. intros [b1 o1] H1.
    do 2 (eapply gives_bind; [apply gives_any |]; intros ? _). by apply gives_ret. }
  intros [[[[[full pres] b1] c1] f1] o1] H1. cbn [fst snd] in H1. do 2 (eapply gives_bind; [apply gives_any |]; intros [[? ?] ?] _).
  apply gives_if; apply gives_if; try by apply gives_ret.
  - apply (gives_bind _ _ (fun r => same r.1)); [by apply render_cursor_kept |]. intros [b4 o4] H4. by apply gives_ret.
  - do 2 (eapply gives_bind; [apply gives_any |]; intros ? _). by apply gives_ret.
Qed.
Lemma key_queue_kept l : forall k, same k.1.1 -> gives (key_queue sw sh l k) (fun r => same r.1.1).
Proof.
  induction l as [|[[e alt] shift] l IH]; intros k H; cbn [key_queue]; [by apply gives_ret |].
  eapply gives_bind; [by apply handle_key_kept |]. intros k1 H1. by apply IH.
Qed.
End Kept.
(** The buttons after the events of a turn, and the presses of the left one in a run. *)
Definition buttons_after (before : Z) (i : inputs) : Z := fold_left (fun _ e => ev_buttons e) (mice i) before.
Fixpoint presses (before : Z) (l : list inputs) : nat :=
  match l with [] => O | i :: l => let now := buttons_after before i in (is_press before now + presses now l)%nat end.
Abbreviation after := (desk_after (T:=T) (Sh:=Sh) (F:=F) (B:=B) sw sh).
Lemma mouse_queue_after n b l : forall now d f, after n (now, b) d -> Forall (fun e => 0 <= ev_x e /\ 0 <= ev_y e) l ->
  after n (fold_left (fun _ e => ev_buttons e) l now, b) (mouse_queue sw sh l d f).1.
Proof.
  induction l as [|e l IH]; intros now d f H Hl; [done |]. apply Forall_cons in Hl as [He Hl]. cbn [mouse_queue fold_left]. destruct H as (H1 & H2 & H3). injection H3 as _ E.
  pose proof (poll_ok sw sh Hscreen Happs (reach sw sh (S n)) e d f ltac:(unfold reach; lia) H1 He) as H4. destruct (poll_mouse sw sh e d f) as [d1 f1] eqn:E1. cbn [fst] in H4.
  apply IH; [| done]. unfold poll_mouse in E1. injection E1 as <- _. split; [done |]. split; [done |]. unfold buttons. cbn. by rewrite E.
Qed.
Lemma poll_turn_after n b i c d f o : after n (b, b) d -> inputs_ok i -> ends (poll_turn sw sh i c d f o) (fun r => after n (buttons_after b i, b) r.2.1.1).
Proof.
  intros H Hi. pose proof H as (Hd & _). unfold poll_turn. apply (ends_bind _ _ (fun _ => True)).
  { apply ends_if; intros _; [| by apply ends_ret]. eapply ends_bind; [apply (r_net Happs) |]. intros o1 _. by apply ends_ret. }
  intros [c1 o1] _. eapply ends_bind; [apply ends_gives; [apply (key_queue_ends (reach sw sh (S n))); [unfold reach; lia | exact Hd] | by apply (key_queue_kept d)] |].
  intros [[d2 f2] o2] [H2 K2]. cbn [fst] in H2, K2. pose proof (mouse_queue_after n b (mice i) b d2 f2 ltac:(by apply (desk_after_kept sw sh n _ d)) Hi) as H3.
  destruct (mouse_queue sw sh (mice i) d2 f2) as [d3 f3]. apply ends_if; intros _; by apply ends_ret.
Qed.
Lemma desktop_turn_ends n b i c d f o : let now := buttons_after b i in let m := (is_press b now + n)%nat in
  reach sw sh (S m) <= V_MAX -> after n (b, b) d -> inputs_ok i -> ends (desktop_turn sw sh i c d f o) (fun r => after m (now, now) r.2.1.1).
Proof.
  intros now m HV H Hi. unfold desktop_turn. eapply ends_bind; [by apply (poll_turn_after n b) |]. intros [c1 [[d1 f1] o1]] H1. cbn [fst snd] in H1.
  eapply ends_bind; [by apply (mouse_turn_ends sw sh Hscreen Happs n now b) |]. intros [r [[d2 f2] o2]] H2. cbn [fst snd] in H2. destruct r; [| by apply ends_ret | by apply ends_ret].
  cbv zeta. destruct (idle_turn _ _ _ _) as [go c2]. apply ends_if; intros _; [by apply ends_ret |]. pose proof H2 as (H3 & _).
  eapply ends_bind; [apply ends_gives; [apply (render_turn_ends (reach sw sh (S m))); [unfold reach; lia | exact H3] | by apply (render_turn_kept d2)] |].
  intros [[pres c3] [[d3 f3] o3]] [H4 K4]. apply ends_ret. cbn [fst snd] in *. by apply (desk_after_kept sw sh m _ d2).
Qed.
Lemma desktop_loop_ends l : forall n b c d f o, reach sw sh (S (presses b l + n)) <= V_MAX -> after n (b, b) d -> Forall inputs_ok l ->
  ends (desktop_loop sw sh l c d f o) (fun r => ok (reach sw sh (S (presses b l + n))) r.2.1.1).
Proof.
  induction l as [|i l IH]; intros n b c d f o HV H Hl; cbn [desktop_loop presses].
  - apply ends_ret. apply H.
  - apply Forall_cons in Hl as [Hi Hl]. cbn [presses] in HV. set (now := buttons_after b i) in *. set (m := (is_press b now + n)%nat).
    assert (is_press b now + presses now l + n = presses now l + m)%nat as E by (unfold m; lia). rewrite E in *.
    eapply ends_bind; [apply (desktop_turn_ends n b); [fold now m; unfold reach in *; lia | done | done] |]. intros [[r c1] [[d1 f1] o1]] H1. cbn [fst snd] in H1. fold now m in H1.
    assert (ok (reach sw sh (S (presses now l + m))) d1) as H2 by (apply (desk_ok_mono sw sh (reach sw sh (S m))); [unfold reach; lia | apply H1]).
    destruct r; [by apply IH | by apply ends_ret..].
Qed.
End Loop.

(** ** The pointer *)
Lemma cursor_pixels_range (large : bool) : Forall (fun p : Z * Z * bool => 0 <= fst (fst p) < (if large then 12 else 8) /\ 0 <= snd (fst p) < (if large then 19 else 12)) (cursor_pixels large).
Proof. apply (bool_decide_unpack _). destruct large; vm_compute; exact I. Qed.

Section Properties.
Context {W T Sh F B : Type} `{!Apps W T Sh F B} (sw sh : Z).
Implicit Types d : desktop T Sh F B.

(** The rectangle where the pointer was, and the calls of [render_cursor]. *)
Definition behind d : box := cursor_bounds sw sh (prev_cursor_x (mouse d)) (prev_cursor_y (mouse d)) (cursor_w d) (cursor_h d).
Definition cursor_calls (full : bool) d (t : theme_t) : list display :=
  (if full then [] else [PresentRect (bx (behind d)) (by_ (behind d)) (bw (behind d)) (bh (behind d))]) ++ draw_mouse_cursor_common true (settings d) (mouse d) t.
Lemma show_all_log (log : W -> list display) l : (forall c o, exists o', show (T:=T) (S:=Sh) (F:=F) (B:=B) c o = Ret o' /\ log o' = log o ++ [c]) ->
  forall o o', show_all (T:=T) (Sh:=Sh) (F:=F) (B:=B) l o = Ret o' -> log o' = log o ++ l.
Proof.
  intros Hlog. induction l as [|c l IH]; intros o o'; cbn [show_all]; [intros [= <-]; by rewrite app_nil_r |].
  destruct (Hlog c o) as (o1 & -> & E). intros E2. rewrite (IH _ _ E2), E, <- app_assoc. done.
Qed.
Lemma render_cursor_log (log : W -> list display) full d o d' o' : (forall c o, exists o', show (T:=T) (S:=Sh) (F:=F) (B:=B) c o = Ret o' /\ log o' = log o ++ [c]) ->
  render_cursor sw sh full d o = Ret (d', o') -> exists t, log o' = log o ++ cursor_calls full d t /\ d' = set_mouse (moved (mouse d)) d.
Proof.
  intros Hlog. unfold render_cursor. intros (t & _ & (o1 & E1 & (o2 & E2 & [= <- <-])%res_bind_ret)%res_bind_ret)%res_bind_ret. exists t. split; [| done].
  rewrite (show_all_log log _ Hlog _ _ E2). unfold cursor_calls. rewrite app_assoc. f_equal. destruct full; [injection E1 as <-; by rewrite app_nil_r |].
  match type of E1 with show ?c _ = _ => destruct (Hlog c o) as (o3 & E3 & E4) end. fold (behind d) in *. rewrite E3 in E1. injection E1 as <-. exact E4.
Qed.
(** What mouse events leave, and that they note a move. *)
Definition noted d (f : flags) : Prop := cursor_dirty f = true \/ (mouse_x (mouse d), mouse_y (mouse d)) = (prev_cursor_x (mouse d), prev_cursor_y (mouse d)).
Lemma mouse_queue_pointer evs : forall d f, let r := mouse_queue sw sh evs d f in
  prev_cursor_x (mouse r.1) = prev_cursor_x (mouse d) /\ prev_cursor_y (mouse r.1) = prev_cursor_y (mouse d) /\ cursor_w r.1 = cursor_w d /\ cursor_h r.1 = cursor_h d /\
  (noted d f -> noted r.1 r.2).
Proof.
  induction evs as [|e evs IH]; intros d f; [done |]. cbn [mouse_queue]. destruct (poll_mouse sw sh e d f) as [d1 f1] eqn:E1. destruct (IH d1 f1) as (-> & -> & -> & -> & H). unfold poll_mouse in E1. injection E1 as <- <-.
  split_and!; try done. intros Hn. apply H. unfold noted. cbn. set (x := if _ <? ev_x e then _ else _). set (y := if _ <? ev_y e then _ else _).
  destruct (Z.eqb_spec x (prev_cursor_x (mouse d))) as [->|]; [| by left]. destruct (Z.eqb_spec y (prev_cursor_y (mouse d))) as [->|]; [by right | by left].
Qed.
Lemma pointer_within V d t x y w h color :
  desk_ok sw sh V d -> DrawFront x y w h color ∈ draw_mouse_cursor_common true (settings d) (mouse d) t -> 0 <= x < sw -> 0 <= y < sh ->
  w = 1 /\ h = 1 /\ in_box x y (cursor_bounds sw sh (mouse_x (mouse d)) (mouse_y (mouse d)) (cursor_w d) (cursor_h d)) = true.
Proof.
  intros [[] _] Hin Hx Hy. unfold draw_mouse_cursor_common in Hin. apply list_elem_of_fmap in Hin as ([[px py] edge] & E & Hp). injection E as -> -> -> -> _.
  pose proof (cursor_pixels_range (cursor_size (settings d))) as Hr. rewrite Forall_forall in Hr. specialize (Hr _ Hp). cbn [fst snd] in Hr. split; [done |]. split; [done |].
  assert (px < cursor_w d /\ py < cursor_h d) as [Hw Hh] by (destruct (cursor_size (settings d)); injection k_cursor as -> ->; lia). destruct Hr as [[Hr1 _] [Hr2 _]].
  unfold in_box, point_in_rect, cursor_bounds. cbn [bx by_ bw bh]. repeat (apply andb_true_intro; split); repeat case_match; lia.
Qed.

(** C12: the desktop.  On any screen, from [desktop_init] on, whatever keys come, whatever the
    mouse does and whatever the counters show, every turn of the loop comes to its end when
    the calls of the applications do: at most eight windows are open, at most one is active,
    that of [active_index]; the launcher and the settings are in range, a shell's terminal is
    in a slot.  The indices of the dragged and of the resized window are those of a slot or
    -1; which window is in that slot is not claimed.  And no arithmetic on coordinates
    leaves the range of [int], where windows are moved and resized each sum being checked,
    for 2^23 presses of the button, in any number of turns: after [n] presses all are within
    the size of the screen plus [1064 + 64 n]. *)
Theorem desktop_loop_runs (zero : window_t T Sh F B) o now up l :
  apps_return (W:=W) (T:=T) (Sh:=Sh) (F:=F) (B:=B) -> 1 <= sw <= 2 ^ 16 -> PANEL_HEIGHT <= sh <= 2 ^ 16 -> at_ zero = Box 0 0 0 0 -> Forall inputs_ok l ->
  Z.of_nat (presses 0 l) <= 2 ^ 23 ->
  exists d o' r c d' fl o'', desktop_init sw sh (statics zero) o = Ret (d, o') /\ desktop_loop sw sh l (clockwork0 now up) d loop_flags o' = Ret (r, c, (d', fl, o'')) /\
    desk_ok sw sh (sw + sh + 1064 + 64 * Z.of_nat (presses 0 l)) d'.
Proof.
  intros Happs H1 H2 Hz Hl Hp. destruct (init_ends sw sh (conj H1 H2) Happs zero o Hz) as ([d o'] & E1 & Hd & K1). cbn [fst] in Hd, K1.
  destruct (desktop_loop_ends sw sh (conj H1 H2) Happs l 0 0 (clockwork0 now up) d loop_flags o') as ([[r c] [[d' fl] o'']] & E2 & Hd'); [| | done |].
  - unfold reach, V_MAX. lia.
  - split; [apply (desk_ok_mono sw sh (sw + sh + 1000)); [unfold reach; lia | done] |]. destruct K1 as [K1 K2]. rewrite K1, K2 by done. split; [| done]. unfold box_ok, reach, PANEL_HEIGHT in *. cbn. lia.
  - exists d, o', r, c, d', fl, o''. split; [done |]. split; [done |]. apply (desk_ok_mono sw sh (reach sw sh (S (presses 0 l + 0)))); [unfold reach; lia | done].
Qed.

(** C32: the pointer leaves no trace.  [log] is what has been called of the display.  After
    the pointer was drawn, any number of mouse events follow: when they moved it the flag for
    drawing it anew is set; and the next drawing of it, before anything else, presents from
    the back buffer a rectangle that holds every pixel of the screen drawn for it before,
    whichever size it has and whatever the borders of the screen cut off.  The drawing puts
    nothing into the back buffer, so what is presented is what was under the pointer. *)
Theorem desktop_pointer_erased (log : W -> list display) V d o full d1 o1 evs f d2 f2 :
  (forall c o, exists o', show (T:=T) (S:=Sh) (F:=F) (B:=B) c o = Ret o' /\ log o' = log o ++ [c]) -> desk_ok sw sh V d ->
  render_cursor sw sh full d o = Ret (d1, o1) -> mouse_queue sw sh evs d1 f = (d2, f2) ->
  ((mouse_x (mouse d2), mouse_y (mouse d2)) <> (mouse_x (mouse d1), mouse_y (mouse d1)) -> cursor_dirty f2 = true) /\
  (forall c, Draw c ∉ drop (length (log o)) (log o1)) /\
  forall o2 d3 o3, render_cursor sw sh false d2 o2 = Ret (d3, o3) ->
    exists b calls, log o3 = log o2 ++ PresentRect (bx b) (by_ b) (bw b) (bh b) :: calls /\
      forall x y w h color, DrawFront x y w h color ∈ drop (length (log o)) (log o1) -> 0 <= x < sw -> 0 <= y < sh -> w = 1 /\ h = 1 /\ in_box x y b = true.
Proof.
  intros Hlog H E1 Eq. destruct (render_cursor_log log full d o d1 o1 Hlog E1) as (t & L1 & E). subst d1.
  assert (drop (length (log o)) (log o1) = cursor_calls full d t) as -> by (by rewrite L1, drop_app_length).
  destruct (mouse_queue_pointer evs (set_mouse (moved (mouse d)) d) f) as (P1 & P2 & P3 & P4 & P5). rewrite Eq in P1, P2, P3, P4, P5. cbn [fst snd] in *.
  split; [intros Hne; destruct P5 as [?|E]; [by right | done |]; rewrite E, P1, P2 in Hne; done |]. split.
  { intros c Hc. unfold cursor_calls in Hc. apply elem_of_app in Hc as [Hc|(p & Ep & _)%list_elem_of_fmap]; [| by destruct p as [[? ?] ?]].
    destruct full; [by apply not_elem_of_nil in Hc |]. by apply list_elem_of_singleton in Hc. }
  intros o2 d3 o3 E2. destruct (render_cursor_log log false d2 o2 d3 o3 Hlog E2) as (t2 & L2 & _). exists (behind d2). eexists. split; [exact L2 |].
  intros x y w h color Hin Hx Hy. unfold behind. rewrite P1, P2, P3, P4. cbn [mouse set_mouse moved prev_cursor_x prev_cursor_y cursor_w cursor_h].
  apply (pointer_within V d t x y w h color H); [| done..]. unfold cursor_calls in Hin. apply elem_of_app in Hin as [Hin|Hin]; [| done].
  destruct full; [by apply not_elem_of_nil in Hin |]. by apply list_elem_of_singleton in Hin.
Qed.
End Properties.

(** ** Runs *)
Definition some_input : inputs := Inputs [(KeyEvent true 97 KEY_NONE, true, false)] [MouseEvent 300 200 0 0 1] (fun _ => 7) 0 0 (Readings 0 0 0 0 0 0 0 0 []).
Lemma desktop_loop_runs_witness : apps_return (Apps0:=no_apps) /\ at_ empty_slot = Box 0 0 0 0 /\ inputs_ok some_input /\
  exists d o' r c d' fl o'', desktop_init 1024 768 (statics empty_slot) tt = Ret (d, o') /\ desktop_loop 1024 768 [some_input; some_input] (clockwork0 0 0) d loop_flags o' = Ret (r, c, (d', fl, o'')) /\
    desk_ok 1024 768 (1024 + 768 + 1064 + 64 * 1) d'.
Proof.
  assert (inputs_ok some_input) as Hi by (repeat constructor; cbn; lia).
  split; [exact no_apps_return |]. split; [reflexivity |]. split; [exact Hi |].
  apply (desktop_loop_runs 1024 768 empty_slot tt 0 0 [some_input; some_input] no_apps_return); [lia | unfold PANEL_HEIGHT; lia | reflexivity | by repeat constructor | vm_compute; discriminate].
Defined.
(** A display that keeps what is called of it. *)
Definition recorder : Apps (list display) unit unit unit unit := {|
  show c o := Ret (o ++ [c]); terminal_init _ o := Ret (tt, o); terminal_draw _ t o := Ret (t, o); terminal_scroll_up t := Ret t; terminal_scroll_down t := t;
  shell_init t o := Ret (tt, t, o); shell_handle_key _ s t o := Ret (s, t, o); shell_should_exit _ := false;
  file_manager_init o := Ret (tt, o); file_manager_handle_key _ f o := Ret (f, o); file_manager_draw _ f o := Ret (f, o);
  browser_init o := Ret (tt, o); browser_handle_key _ b o := Ret (b, o); browser_draw _ _ o := Ret o; net_poll o := Ret o; gfx_backbuffer_enabled _ := true |}.
Definition drawn_at_title : desktop unit unit unit unit * list display :=
  match render_cursor (Apps0:=recorder) 1024 768 false at_title [] with Ret r => r | _ => (at_title, []) end.
Definition then_moved : desktop unit unit unit unit * flags := mouse_queue 1024 768 [MouseEvent 310 190 0 0 0; MouseEvent 400 250 0 0 0] drawn_at_title.1 flags0.
Lemma desktop_pointer_erased_witness : desk_ok 1024 768 (1024 + 768 + 1000) at_title /\ (DrawFront 300 190 1 1 0xE6E6E6 ∈ drop (length (@nil display)) drawn_at_title.2) /\
  cursor_dirty then_moved.2 = true /\
  forall o2 d3 o3, render_cursor (Apps0:=recorder) 1024 768 false then_moved.1 o2 = Ret (d3, o3) ->
    exists b calls, o3 = o2 ++ PresentRect (bx b) (by_ b) (bw b) (bh b) :: calls /\ in_box 300 190 b = true.
Proof.
  assert (DrawFront 300 190 1 1 0xE6E6E6 ∈ drop (length (@nil display)) drawn_at_title.2) as H by (apply (list_elem_of_lookup_2 _ (1 + length (filter (fun p => snd p = true) (cursor_pixels false)))); vm_compute; reflexivity).
  split; [exact at_title_ok |]. split; [exact H |].
  destruct (desktop_pointer_erased (Apps0:=recorder) 1024 768 (fun o => o) (1024 + 768 + 1000) at_title [] false drawn_at_title.1 drawn_at_title.2
    [MouseEvent 310 190 0 0 0; MouseEvent 400 250 0 0 0] flags0 then_moved.1 then_moved.2) as (H1 & _ & H2);
    [intros c o; by exists (o ++ [c]) | exact at_title_ok | vm_compute; reflexivity | vm_compute; reflexivity |].
  split; [apply H1; vm_compute; discriminate |]. intros o2 d3 o3 E. destruct (H2 o2 d3 o3 E) as (b & calls & L & Hb). exists b, calls. split; [exact L |].
  apply (Hb 300 190 1 1 0xE6E6E6 H); lia.
Defined.
